(* ===== verification/_CoqProject ===== *)
-Q . S2P
Prelude.v
World.v
Errors.v
Crc.v
Device.v
LinkedList.v
FmrPacket.v
Transport.v
Dyld.v
Fmr.v
Network.v
Libusb.v
Libflipper.v
Scenario.v
Rpc.v
LibProps.v
PosixProps.v
Scheduler.v
Loader.v
Mmio.v
Avr.v
AvrApi.v
AvrProps.v
AvrIrq.v
AvrUsbIrq.v
SamAsf.v
Sam.v
SamProps.v
Fvm.v
FvmProps.v
Fdfu.v
FdfuProps.v
Applet.v
FmrTest.v
OsProps.v
Arm.v
Switch.v
SwitchProps.v
ArmTypes.v
Trampoline.v
TrampolineX64.v
TrampolineAvr.v
TrampolineArm64.v
Fdebug.v
DebugOut.v
FvmApi.v
Syscalls.v
Fload.v
HostApps.v
HostProps.v
SamDev.v
SamRtc.v
SamTwi.v
SamUsart.v
SamSpi.v
SamTimers.v
SamSystem.v
SamPwm.v
SamAdc.v
SamPmc.v
SamPio.v
SamBus.v
SamSleep.v
SamCore.v
SamClock.v
SamIntrinsics.v
SamCompiler.v
