(* ===== verification/Prelude.v ===== *)
(** * Flipper: a verification development for libflipper, Osmium and the Carbon firmware

    Flipper is a board with two processors and a library that calls functions on
    it from a host. The host side of the library (lib, platforms/posix) encodes a
    call as a 64-byte packet, sends it over an endpoint and reads a result. The
    device side (the same lib, run by the virtual machine in utils/fvm, by the
    ATmega32U2 in platforms/atmegau2 and by the ATSAM4S in platforms/atsam4s)
    checks and dispatches packets to modules. The ATSAM4S also runs a small
    kernel, Osmium (os), that schedules tasks and loads application images.

    ** Modelling conventions

    C code is a state-passing computation [M S A] whose outcome is [Ok] (a normal
    return), [Ub] (an access the language leaves undefined: null, freed or out of
    bounds memory, a shift past the width) or [Spin] (a loop that does not
    return). Machine integers are [Z] with explicit wrapping ([u8] to [u64],
    [sint]); byte buffers are lists of [Z] with checked reads and writes at
    offsets ([rd], [wr] and their little-endian forms). Library code runs on a
    [world]: the error register, a heap of typed objects ([gmap] from addresses,
    allocation may fail at any point that [w_fail] names, fresh memory holds
    arbitrary [w_junk]), the attached and selected devices, the handler registry
    and an environment. Function pointers are numbers that dispatchers compare.
    What the library calls outside itself is an interface: [Transport] (the read
    and write functions of a device, with [TransportOk] the frame its clients
    rely on), [ModuleCode] (the functions in module tables), [Sockets], [Usb],
    [Process]. Each processor's firmware runs on the history of its register
    accesses, for any [Hardware] that answers reads from that history.

    ** Files and the code they model

    - Prelude: outcomes, the monad, integers, buffers; tactics [mstep], [mnorm],
      [minv] and the hint database [flipper].
    - World: objects, heap, allocation. Errors (lib/error.c, errors.def). Crc
      (lib/crc.c). Device (lib/device.c, lib/module.c). LinkedList (lib/ll.c; the
      predicate [is_ll] relates a heap to the list it holds). FmrPacket (lib/fmr.h,
      lib/fmr_helper.c: layouts, argument lists, call encoding). Transport (the
      endpoint interface). Dyld (lib/dyld.c: the module registry and remote
      lookup). Fmr (lib/fmr.c: packet check, dispatch, the six handlers).
    - Network, Libusb (platforms/posix/src): the host's endpoints over interfaces
      for the socket and libusb calls. Libflipper (lib/libflipper.c): attach,
      select, detach, both forms of invocation. Rpc: host and device composed.
    - Scheduler (os/arch/armv7/scheduler.c): tasks in a ring, as operations on a
      store of task records and stacks and as a step relation. Loader
      (os/src/loader.c): image relocation and application start. Arm
      (os/arch/armv7/pendsv.S as instructions with an interpreter and the
      processor's exception entry and return), Switch (the handler composed with
      the scheduler), Syscalls (os/arch/armv7/syscalls.c), Trampoline,
      TrampolineX64, TrampolineAvr and TrampolineArm64 (fmr.S of os/arch/armv7, x64,
      avr8 and arm64, line by line).
    - Mmio: register accesses. Avr (platforms/atmegau2/src: USB driver), AvrApi
      (platforms/atmegau2/api and main.c), AvrIrq (uart0_read of api/uart0.c one
      memory access at a time, with its receive interrupt between any two), AvrUsbIrq
      (the bulk and debug calls of the USB driver under interrupts: traces that tell
      the main program's accesses from those of interrupt routines). SamAsf (the
      vendor drivers the firmware calls, platforms/atsam4s/asf/src: pmc.c, dacc.c,
      uart.c, pio.c, ioport.c),
      Sam (platforms/atsam4s/api, modules and src: modules, main, interrupts,
      vectors, reset).
    - The vendor's peripheral drivers (platforms/atsam4s/asf/src), each over its own
      type of registers: SamDev (polling loops and bit fields they share), SamRtc
      (rtc.c), SamTwi (twi.c), SamUsart (usart.c), SamSpi (spi.c), SamTimers (tc.c,
      wdt.c, rtt.c), SamSystem (rstc.c, supc.c, gpbr.c, pdc.c, efc.c, chipid.c,
      acc.c, crccu.c and the interrupt mask of interrupt_sam_nvic.h), SamPwm (pwm.c),
      SamAdc (adc.c), SamPmc (the rest of pmc.c), SamPio (the rest of pio.c and the
      table of interrupt sources of pio_handler.c), SamBus (ssc.c, matrix.c), SamSleep
      (sleep.c), SamCore (the interrupt controller, the system timer and the trace port
      of asf/include/cmsis/core_cm4.h, and the kernel's use of them), SamClock (the
      clock headers osc.h, pll.h, genclk.h and sysclk.h with the board's conf_clock.h,
      and the rates that result). SamIntrinsics (asf/include/cmsis/core_cmFunc.h,
      core_cmInstr.h and core_cmSimd.h: the functions for the GNU compiler over the
      special registers, flags, exclusive monitor and memory of the core) and
      SamCompiler (asf/include/compiler.h: bit fields, zero counts, alignment, byte
      order and conversions).
    - Fvm (utils/fvm/src): the virtual machine and its emulated DAC. Fdfu
      (utils/fdfu/src): the firmware updater over an interface, [Bridge], for the
      calls that reach the main processor's UART. Applet (assets/copy_sam4s.s): the
      program the updater runs on that processor, its assembler and a machine for its
      bytes, with the boot loader's commands. FvmApi (utils/fvm/src/api: the
      other emulated peripherals), Fdebug (utils/fdebug: the two threads of the
      debug server as a step relation, and its start-up), Fload (utils/fload), DebugOut (lib/debug.c
      and error output as sequences of printf calls), FmrTest (the device module of
      tests/fmr_test), HostApps (the host programs of the tests and the example).
    - LibProps, PosixProps, OsProps, SwitchProps, ArmTypes, AvrProps, SamProps,
      FvmProps, FdfuProps, HostProps: the theorems about several files, each with an
      instance at a concrete input (Scenario holds the sample world); the other
      files end with their own.

    ** What the theorems show

    - Calls: the packet a host builds is accepted by the device, runs the selected
      function once on a list that agrees with the caller's arguments and is
      answered with its value, on the library alone and on the virtual machine;
      a packet damaged by a burst of up to 16 bits is never dispatched. The test
      program of the runtime passes against any device that keeps to the
      specification of its module, and that module does.
    - Registry: registration keeps indices equal to positions and names unique;
      the index a lookup answers addresses the module found; a resolved module is
      cached. Lists: append, remove, count and release agree with mathematical
      lists and touch nothing else.
    - Endpoints: the network endpoint answers the last sender and gives up after
      five transient errors; USB transfers (host and ATmega) carry all bytes in
      order in bounded chunks; descriptor requests are answered completely; the
      ATmega's UART buffer is a queue; the ATSAM4S's UART carries bytes faithfully
      on any hardware that becomes ready within the polling bound; an upload of
      the updater sends the whole image in numbered XMODEM packets. The updater's
      applet is the assembly of its source, and the calls for an image, over the
      bridge, the boot loader and the applet, write exactly the image to flash.
    - Kernel: every operation keeps the tasks one ring through the kernel task; a
      tick goes to the next task that is not paused; a new task's frame lies in
      its own stack; loading relocates exactly the two pointer tables; reset
      copies the data segment and clears the zero segment. The machine with its
      context switch refines tasks with private registers; ticks keep all words
      within 32 bits. The four trampolines call the function once and return.
    - Peripherals: registered pin interrupts reach exactly the handlers concerned,
      peripheral clocks behave as a set, the real-time clock and a looped-back SPI
      return what they were given, bus transfers end and carry every byte, flash
      commands restore the interrupt state, the timers' mode keeps its write-only
      bits, and clock dividers are the best the hardware offers or refused. Interrupt
      priorities, bus settings and the default clock configuration come back as set;
      wait mode restores the clocks it saved before it calls back.
    - USB under interrupts: however interrupt routines are interleaved with a bulk or
      debug call, as far as the interrupt flag permits them, each access of the call
      to an endpoint's data or flags finds its own endpoint selected, and every
      return leaves the flag as it was.
    - Compiler support: the builtins and the plain C versions of zero counts and byte
      order agree on every value, bit fields and byte arrays return what was stored,
      alignment is exact up to the end of the address space, saturating and halving
      SIMD functions work lane by lane, an exclusive store is made exactly when
      nothing came between.
    - Debug server: in every interleaving of its threads the output stands under the
      banner of its source and only the owner releases the mutex.
    - Defects of the code, as theorems about the faithful model: among them a
      failed dispatch reported as success, handlers that read behind the packet,
      a call that is never sent, an overflowing packet, a dangling task link,
      firmware that dispatches nothing, a DAC interrupt that never returns,
      trampolines that lose arguments or a saved register, a PWM divisor that does
      not fit its field, a clock request that never returns, a UART read that one
      interrupt can make lose, repeat or misplace bytes, a processor clocked off the
      rate its timer and baud rates assume, a kernel tick of the lowest priority.

    ** Bounds

    Loops over C lists take as fuel the number of objects in the heap plus one,
    which no well-formed list exceeds ([is_ll] is acyclic); running out would be
    [Spin], and the theorems conclude [Ok]. Waits on hardware take a [fuel]
    argument, the number of further looks at a register; theorems that conclude
    a result assume hardware that is ready, or becomes ready, within it, for any
    fuel. Loops bounded by a counter in the source recurse on that counter. The
    interpreters of assembly take as fuel the number of branches taken: 16, 32 or
    a multiple of the number of arguments suffices for the trampolines with the most
    arguments they accept.

    ** Not modelled

    Functions of the vendor's drivers that are compiled for other chips only and those
    that return the address of a DMA register block; of the vendor's headers the names
    of registers and bits beyond those the code uses, attributes and the calls of other
    compilers' intrinsics; lib/carbon but for the stubs the preprocessor keeps; the
    connection set-up of the debug output; the Python code. Diagnostics printed by the
    library beside lib/debug.c are left out. Interrupts of the ATmega run between the
    register accesses of the main program: shared volatile variables are read as
    registers so that any value may appear, AvrIrq interleaves the UART's interrupt
    with the accesses of a read and AvrUsbIrq any interrupt with the accesses of the
    USB driver. The functions lf_malloc, lf_push, lf_pull and lf_free that the updater
    calls are declared in lib/libflipper.h and defined nowhere, so its bridge stays an
    interface; the call trampolines are modelled by themselves because lib/fmr.c calls
    module functions directly. The cost of delays is not modelled. *)

From stdpp Require Import base list gmap sets strings.
From Stdlib Require Import ZArith Lia Bool.

#[global] Set Default Goal Selector "!".
Local Open Scope Z_scope.

(** ** Machine integers

    A w-bit unsigned integer is a [Z] kept in [0, 2^w) by an explicit wrap. *)

Definition u8 (z : Z) : Z := z mod 2 ^ 8.
Definition u16 (z : Z) : Z := z mod 2 ^ 16.
Definition u32 (z : Z) : Z := z mod 2 ^ 32.
Definition u64 (z : Z) : Z := z mod 2 ^ 64.

(** The value of a two's complement [w]-bit integer. *)
Definition sint (w : Z) (z : Z) : Z :=
  let m := z mod 2 ^ w in if m <? 2 ^ (w - 1) then m else m - 2 ^ w.

Definition is_byte (z : Z) : Prop := 0 <= z < 2 ^ 8.
#[global] Instance is_byte_dec z : Decision (is_byte z).
Proof. unfold is_byte. apply _. Defined.

Definition UINT16_MAX : Z := 65535.

(** Truth of a C expression. *)
Definition ctrue (z : Z) : bool := negb (z =? 0).

(** A single bit mask, [1 << n]. *)
Definition bit (n : Z) : Z := Z.shiftl 1 n.

(** ** Results of running C code

    [Ok] is a normal return, [Ub] an access the C abstract machine leaves
    undefined (a null, freed or out-of-bounds access), [Spin] a loop that never
    returns. *)

Inductive outcome (A : Type) : Type :=
| Ok (a : A)
| Ub
| Spin.
Arguments Ok {A} a.
Arguments Ub {A}.
Arguments Spin {A}.

#[global] Instance outcome_eq_dec `{EqDecision A} : EqDecision (outcome A).
Proof. solve_decision. Defined.

(** State-passing computations over a state [S]. *)
Definition M (S A : Type) : Type := S -> outcome (A * S).

#[global] Instance M_ret S : MRet (M S) := fun A a s => Ok (a, s).
#[global] Instance M_bind S : MBind (M S) := fun A B f m s =>
  match m s with
  | Ok (a, s') => f a s'
  | Ub => Ub
  | Spin => Spin
  end.

Definition get {S} : M S S := fun s => Ok (s, s).
Definition gets {S A} (f : S -> A) : M S A := fun s => Ok (f s, s).
Definition put {S} (s : S) : M S unit := fun _ => Ok (tt, s).
Definition modify {S} (f : S -> S) : M S unit := fun s => Ok (tt, f s).
Definition ub {S A} : M S A := fun _ => Ub.
Definition spin {S A} : M S A := fun _ => Spin.
Definition lift_opt {S A} (o : option A) : M S A :=
  match o with Some a => mret a | None => ub end.
Definition lift_out {S A} (o : outcome A) : M S A := fun s =>
  match o with Ok a => Ok (a, s) | Ub => Ub | Spin => Spin end.

Definition out_bind {A B} (o : outcome A) (f : A -> outcome B) : outcome B :=
  match o with Ok a => f a | Ub => Ub | Spin => Spin end.
#[global] Instance outcome_ret : MRet outcome := @Ok.
#[global] Instance outcome_bind : MBind outcome := fun A B f o => out_bind o f.

Section Monad.
Context {S : Type}.

Lemma bind_Ok {A B} (m : M S A) (f : A -> M S B) s a s' :
  m s = Ok (a, s') -> (m ≫= f) s = f a s'.
Proof. intros H. unfold mbind, M_bind. by rewrite H. Qed.

Lemma bind_Ub {A B} (m : M S A) (f : A -> M S B) s :
  m s = Ub -> (m ≫= f) s = Ub.
Proof. intros H. unfold mbind, M_bind. by rewrite H. Qed.

Lemma bind_Spin {A B} (m : M S A) (f : A -> M S B) s :
  m s = Spin -> (m ≫= f) s = Spin.
Proof. intros H. unfold mbind, M_bind. by rewrite H. Qed.

(** Inversion of a run that returned. *)
Lemma bind_Ok_inv {A B} (m : M S A) (f : A -> M S B) s b s' :
  (m ≫= f) s = Ok (b, s') -> exists a s1, m s = Ok (a, s1) /\ f a s1 = Ok (b, s').
Proof.
  unfold mbind, M_bind. destruct (m s) as [[a s1]| |] eqn:E; [|done..]. eauto.
Qed.

Lemma bind_ret_l {A B} (a : A) (f : A -> M S B) s : (mret a ≫= f) s = f a s.
Proof. done. Qed.

Lemma bind_assoc {A B C} (m : M S A) (f : A -> M S B) (g : B -> M S C) s :
  ((m ≫= f) ≫= g) s = (m ≫= (fun a => f a ≫= g)) s.
Proof. unfold mbind, M_bind. by destruct (m s) as [[a s1]| |]. Qed.

Lemma bind_get {B} (f : S -> M S B) s : (get ≫= f) s = f s s.
Proof. done. Qed.
Lemma bind_gets {A B} (g : S -> A) (f : A -> M S B) s : (gets g ≫= f) s = f (g s) s.
Proof. done. Qed.
Lemma bind_put {B} s' (f : unit -> M S B) s : (put s' ≫= f) s = f tt s'.
Proof. done. Qed.
Lemma bind_modify {B} g (f : unit -> M S B) s : (modify g ≫= f) s = f tt (g s).
Proof. done. Qed.
End Monad.

(** ** Little-endian integers in byte buffers *)

Fixpoint le_bytes (n : nat) (z : Z) : list Z :=
  match n with
  | O => []
  | S n' => u8 z :: le_bytes n' (z / 2 ^ 8)
  end.

Fixpoint le_val (bs : list Z) : Z :=
  match bs with
  | [] => 0
  | b :: bs' => b + 2 ^ 8 * le_val bs'
  end.

(** ** Buffers

    A C object of [n] bytes is a list of [n] bytes; an access outside of it has
    no value. *)

Definition rd (buf : list Z) (off len : nat) : option (list Z) :=
  if decide (off + len <= length buf)%nat then Some (take len (drop off buf)) else None.

Definition wr (buf : list Z) (off : nat) (bs : list Z) : option (list Z) :=
  if decide (off + length bs <= length buf)%nat
  then Some (take off buf ++ bs ++ drop (off + length bs) buf) else None.

(** A little-endian field of [len] bytes at [off]. *)
Definition rd_le (buf : list Z) (off len : nat) : option Z := le_val <$> rd buf off len.
Definition wr_le (buf : list Z) (off len : nat) (z : Z) : option (list Z) :=
  wr buf off (le_bytes len z).

(** The bytes of a C string up to its terminator; [None] when the array holds
    no terminator and the scan leaves it. *)
Fixpoint cstr (buf : list Z) : option (list Z) :=
  match buf with
  | [] => None
  | b :: buf' => if b =? 0 then Some [] else cons b <$> cstr buf'
  end.

(** [strncpy] of a string (without its terminator) into [n] bytes: the rest is
    zero filled. *)
Definition strncpy (s : list Z) (n : nat) : list Z := take n (s ++ replicate n 0).

(** ** Lemmas on machine integers *)

Section Ints.
Lemma u8_range z : 0 <= u8 z < 2 ^ 8.
Proof. apply Z.mod_pos_bound. lia. Qed.
Lemma u16_range z : 0 <= u16 z < 2 ^ 16.
Proof. apply Z.mod_pos_bound. lia. Qed.
Lemma u32_range z : 0 <= u32 z < 2 ^ 32.
Proof. apply Z.mod_pos_bound. lia. Qed.
Lemma u64_range z : 0 <= u64 z < 2 ^ 64.
Proof. apply Z.mod_pos_bound. lia. Qed.

Lemma u8_small z : 0 <= z < 2 ^ 8 -> u8 z = z.
Proof. apply Z.mod_small. Qed.
Lemma u16_small z : 0 <= z < 2 ^ 16 -> u16 z = z.
Proof. apply Z.mod_small. Qed.
Lemma u32_small z : 0 <= z < 2 ^ 32 -> u32 z = z.
Proof. apply Z.mod_small. Qed.
Lemma u64_small z : 0 <= z < 2 ^ 64 -> u64 z = z.
Proof. apply Z.mod_small. Qed.

Lemma u8_byte z : is_byte (u8 z).
Proof. apply u8_range. Qed.

Lemma ctrue_nonzero z : z <> 0 -> ctrue z = true.
Proof. intros H. unfold ctrue. by destruct (Z.eqb_spec z 0). Qed.

(** Bits of a wrapped value. *)
Lemma testbit_mod_pow2 z w i :
  0 <= w -> Z.testbit (z mod 2 ^ w) i = (i <? w) && Z.testbit z i.
Proof.
  intros Hw. destruct (Z.ltb_spec i w) as [Hi|Hi]; simpl.
  - destruct (Z.neg_nonneg_cases i) as [Hn|Hn].
    + by rewrite !Z.testbit_neg_r.
    + by apply Z.mod_pow2_bits_low.
  - by apply Z.mod_pow2_bits_high.
Qed.

Lemma testbit_high w z i : 0 <= z < 2 ^ w -> 0 <= w <= i -> Z.testbit z i = false.
Proof.
  intros Hz Hi. rewrite <- (Z.mod_small z (2 ^ w)) by done.
  apply Z.mod_pow2_bits_high. lia.
Qed.

Lemma lxor_range w a b :
  0 <= w -> 0 <= a < 2 ^ w -> 0 <= b < 2 ^ w -> 0 <= Z.lxor a b < 2 ^ w.
Proof.
  intros Hw Ha Hb. split; [apply Z.lxor_nonneg; lia|].
  assert (Z.lxor a b = Z.lxor a b mod 2 ^ w) as ->.
  2: { apply Z.mod_pos_bound. lia. }
  apply Z.bits_inj'. intros i Hi. rewrite testbit_mod_pow2, Z.lxor_spec by lia.
  destruct (Z.ltb_spec i w); simpl; [done|].
  by rewrite !(testbit_high w) by lia.
Qed.

Lemma lxor_cancel_r a b : Z.lxor (Z.lxor a b) b = a.
Proof. by rewrite Z.lxor_assoc, Z.lxor_nilpotent, Z.lxor_0_r. Qed.
End Ints.

(** ** Lemmas on byte encodings and buffers *)

Section Buffers.
Implicit Types (buf bs : list Z).

Lemma length_le_bytes n z : length (le_bytes n z) = n.
Proof. revert z. induction n as [|n IH]; intros z; simpl; [done|]. by rewrite IH. Qed.

Lemma le_bytes_byte n z : Forall is_byte (le_bytes n z).
Proof.
  revert z. induction n as [|n IH]; intros z; simpl; constructor; [|done].
  apply u8_byte.
Qed.

Lemma le_val_bytes n z : le_val (le_bytes n z) = z mod 2 ^ (8 * Z.of_nat n).
Proof.
  revert z. induction n as [|n IH]; intros z; [simpl; by rewrite Z.mod_1_r|].
  change (le_val (le_bytes (S n) z)) with (u8 z + 2 ^ 8 * le_val (le_bytes n (z / 2 ^ 8))).
  rewrite IH. replace (8 * Z.of_nat (S n)) with (8 + 8 * Z.of_nat n) by lia.
  rewrite Z.pow_add_r, (Z.rem_mul_r z (2 ^ 8)) by lia. done.
Qed.

Lemma le_val_bytes_small n z :
  0 <= z < 2 ^ (8 * Z.of_nat n) -> le_val (le_bytes n z) = z.
Proof. intros. rewrite le_val_bytes. by apply Z.mod_small. Qed.

Lemma le_val_range bs : Forall is_byte bs -> 0 <= le_val bs < 2 ^ (8 * Z.of_nat (length bs)).
Proof.
  induction 1 as [|b bs Hb _ IH]; simpl length; [simpl; lia|].
  change (le_val (b :: bs)) with (b + 2 ^ 8 * le_val bs).
  replace (8 * Z.of_nat (S (length bs))) with (8 + 8 * Z.of_nat (length bs)) by lia.
  rewrite Z.pow_add_r by lia. unfold is_byte in Hb. nia.
Qed.

Lemma le_bytes_val bs : Forall is_byte bs -> le_bytes (length bs) (le_val bs) = bs.
Proof.
  induction 1 as [|b bs Hb _ IH]; [done|].
  change (le_val (b :: bs)) with (b + 2 ^ 8 * le_val bs).
  change (u8 (b + 2 ^ 8 * le_val bs) :: le_bytes (length bs) ((b + 2 ^ 8 * le_val bs) / 2 ^ 8)
          = b :: bs).
  unfold u8, is_byte in *. rewrite (Z.mul_comm (2 ^ 8)).
  rewrite Z.mod_add, Z.mod_small, Z.div_add, Z.div_small by lia.
  f_equal. by rewrite Z.add_0_l.
Qed.

Lemma le_bytes_mod n z : le_bytes n (z mod 2 ^ (8 * Z.of_nat n)) = le_bytes n z.
Proof.
  rewrite <- le_val_bytes. rewrite <- (length_le_bytes n z) at 1.
  apply le_bytes_val, le_bytes_byte.
Qed.

Lemma rd_length buf off len bs : rd buf off len = Some bs -> length bs = len.
Proof.
  unfold rd. case_decide; intros [= <-].
  rewrite length_take, length_drop. lia.
Qed.

Lemma wr_length buf off bs buf' : wr buf off bs = Some buf' -> length buf' = length buf.
Proof.
  unfold wr. case_decide; intros [= <-].
  rewrite !length_app, length_take, length_drop. lia.
Qed.

Lemma wr_Some buf off bs :
  (off + length bs <= length buf)%nat ->
  wr buf off bs = Some (take off buf ++ bs ++ drop (off + length bs) buf).
Proof. intros. unfold wr. by rewrite decide_True. Qed.

Lemma rd_Some buf off len :
  (off + len <= length buf)%nat -> rd buf off len = Some (take len (drop off buf)).
Proof. intros. unfold rd. by rewrite decide_True. Qed.

Lemma rd_wr_eq buf off bs buf' :
  wr buf off bs = Some buf' -> rd buf' off (length bs) = Some bs.
Proof.
  intros H. pose proof (wr_length _ _ _ _ H) as HL. unfold wr in H.
  case_decide; simplify_eq. rewrite rd_Some by (rewrite HL; lia). f_equal.
  rewrite drop_app_ge by (rewrite length_take; lia). rewrite length_take_le by lia.
  rewrite Nat.sub_diag, drop_0. apply take_app_length.
Qed.

Lemma rd_wr_ne buf off bs buf' o l :
  wr buf off bs = Some buf' ->
  (o + l <= off \/ off + length bs <= o)%nat -> rd buf' o l = rd buf o l.
Proof.
  intros H Hd. pose proof (wr_length _ _ _ _ H) as HL. unfold wr in H.
  case_decide; simplify_eq. unfold rd. rewrite HL.
  case_decide; [|done]. f_equal. destruct Hd as [Hd|Hd].
  - rewrite drop_app_le by (rewrite length_take; lia).
    rewrite take_app_le by (rewrite length_drop, length_take; lia).
    rewrite skipn_firstn_comm, take_take. by rewrite Nat.min_l by lia.
  - rewrite app_assoc, drop_app_ge by (rewrite length_app, length_take; lia).
    rewrite drop_drop, length_app, length_take_le by lia. f_equal. f_equal. lia.
Qed.

Lemma rd_app_l buf tl off len :
  (off + len <= length buf)%nat -> rd (buf ++ tl) off len = rd buf off len.
Proof.
  intros. rewrite !rd_Some by (rewrite ?length_app; lia).
  rewrite drop_app_le by lia. by rewrite take_app_le by (rewrite length_drop; lia).
Qed.

Lemma rd_app_r buf tl off len :
  (length buf <= off)%nat -> rd (buf ++ tl) off len = rd tl (off - length buf) len.
Proof.
  intros. unfold rd. rewrite length_app.
  destruct (decide (off + len <= length buf + length tl)%nat) as [Hd|Hd].
  - rewrite decide_True by lia. by rewrite drop_app_ge by lia.
  - by rewrite decide_False by lia.
Qed.

Lemma wr_app_l buf tl off bs buf' :
  wr buf off bs = Some buf' -> wr (buf ++ tl) off bs = Some (buf' ++ tl).
Proof.
  unfold wr. case_decide; intros [= <-]. rewrite decide_True by (rewrite length_app; lia).
  rewrite take_app_le, drop_app_le by lia. by rewrite <- !app_assoc.
Qed.

(** Overwriting the middle part of a buffer. *)
Lemma wr_mid a x b y off :
  off = length a -> length x = length y -> wr (a ++ x ++ b) off y = Some (a ++ y ++ b).
Proof.
  intros -> Hl. rewrite wr_Some by (rewrite !length_app; lia).
  rewrite take_app_length. do 2 f_equal. rewrite <- Hl, app_assoc.
  rewrite <- length_app. by rewrite drop_app_length.
Qed.

Lemma rd_mid a x b off len :
  off = length a -> len = length x -> rd (a ++ x ++ b) off len = Some x.
Proof.
  intros -> ->. rewrite rd_Some by (rewrite !length_app; lia).
  rewrite drop_app_length. by rewrite take_app_length.
Qed.

(** The second of two writes at the same place wins. *)
Lemma wr_wr_eq buf off a b buf' :
  wr buf off a = Some buf' -> length a = length b -> wr buf' off b = wr buf off b.
Proof.
  intros H Hl. pose proof (wr_length _ _ _ _ H) as HL. unfold wr in *. case_decide; simplify_eq.
  rewrite HL, <- Hl, !decide_True by done. do 2 f_equal.
  - rewrite take_app_le by (rewrite length_take; lia). by rewrite take_take, Nat.min_id.
  - f_equal. rewrite app_assoc, drop_app_ge by (rewrite length_app, length_take; lia).
    rewrite length_app, length_take_le, Nat.sub_diag by lia. done.
Qed.

(** Writing back what is there changes nothing. *)
Lemma wr_rd buf off len bs : rd buf off len = Some bs -> wr buf off bs = Some buf.
Proof.
  unfold rd, wr. case_decide as Hd; intros [= <-]. rewrite length_take, length_drop, Nat.min_l by lia.
  rewrite decide_True by done. f_equal. rewrite <- drop_drop.
  by rewrite take_drop, take_drop.
Qed.

Lemma Forall_wr (P : Z -> Prop) buf off bs buf' :
  wr buf off bs = Some buf' -> Forall P buf -> Forall P bs -> Forall P buf'.
Proof.
  unfold wr. case_decide; intros [= <-] Hb Hs.
  repeat apply Forall_app_2; auto using Forall_take, Forall_drop.
Qed.

Lemma Forall_rd (P : Z -> Prop) buf off len bs :
  rd buf off len = Some bs -> Forall P buf -> Forall P bs.
Proof. unfold rd. case_decide; intros [= <-] Hb. auto using Forall_take, Forall_drop. Qed.

Lemma rd_wr_le buf off len z buf' :
  wr_le buf off len z = Some buf' -> rd_le buf' off len = Some (z mod 2 ^ (8 * Z.of_nat len)).
Proof.
  unfold wr_le, rd_le. intros H. pose proof (rd_wr_eq _ _ _ _ H) as HR.
  rewrite length_le_bytes in HR. rewrite HR. simpl. by rewrite le_val_bytes.
Qed.

Lemma rd_le_wr_ne buf off bs buf' o l :
  wr buf off bs = Some buf' ->
  (o + l <= off \/ off + length bs <= o)%nat -> rd_le buf' o l = rd_le buf o l.
Proof. intros H Hd. unfold rd_le. by rewrite (rd_wr_ne _ _ _ _ _ _ H Hd). Qed.

(** C strings. *)
Lemma cstr_app s tl : Forall (fun b => b <> 0) s -> cstr (s ++ 0 :: tl) = Some s.
Proof.
  induction 1 as [|b s Hb _ IH]; [done|]. simpl.
  destruct (Z.eqb_spec b 0); [done|]. by rewrite IH.
Qed.

Lemma cstr_nonzero buf s : cstr buf = Some s -> Forall (fun b => b <> 0) s.
Proof.
  revert s. induction buf as [|b buf IH]; intros s H; simpl in H; [done|].
  destruct (Z.eqb_spec b 0); simplify_eq; [done|].
  destruct (cstr buf); simplify_eq/=. constructor; auto.
Qed.

Lemma length_strncpy s n : length (strncpy s n) = n.
Proof. unfold strncpy. rewrite length_take, length_app, length_replicate. lia. Qed.

Lemma strncpy_short s n :
  (length s <= n)%nat -> strncpy s n = s ++ replicate (n - length s) 0.
Proof.
  intros. unfold strncpy. rewrite take_app_ge by lia. by rewrite take_replicate, Nat.min_l by lia.
Qed.

Lemma cstr_strncpy s n :
  (length s < n)%nat -> Forall (fun b => b <> 0) s -> cstr (strncpy s n) = Some s.
Proof.
  intros Hl Hs. rewrite strncpy_short by lia.
  destruct (n - length s)%nat as [|k] eqn:E; [lia|]. simpl. by apply cstr_app.
Qed.
End Buffers.

(** ** Automation *)

Create HintDb flipper.
Create Rewrite HintDb flipper_len.
#[export] Hint Resolve u8_byte u8_range u16_range u32_range u64_range : flipper.
#[export] Hint Resolve le_bytes_byte : flipper.
#[export] Hint Rewrite length_le_bytes length_strncpy @length_app @length_take @length_drop
  @length_replicate : flipper_len.

(** Lengths of concrete buffer expressions. *)
Ltac len := autorewrite with flipper_len in *; simpl length in *; try lia.

(** One step of a monadic run, then by the equation of the first computation. *)
Ltac mstep H := rewrite (bind_Ok _ _ _ _ _ H).
Ltac mnorm :=
  repeat first
    [ rewrite bind_get | rewrite bind_gets | rewrite bind_put | rewrite bind_modify
    | rewrite bind_ret_l | rewrite bind_assoc ].

(** Inversion of a returned run: splits binds, resolves returns. *)
Ltac minv H :=
  repeat match type of H with
         | (_ ≫= _) _ = Ok _ => apply bind_Ok_inv in H as (? & ? & ? & H)
         end;
  unfold mret, M_ret in H; simplify_eq.
