(* ===== verification/World.v ===== *)
(** * The C world shared by libflipper

    The heap objects libflipper allocates, its global variables and the memory
    operations (allocate, free, load, store) its functions are written with.
    The state is parameterised by the environment [E] a transport talks to. *)

From S2P Require Import Prelude.
From stdpp Require Import base list gmap sets strings.
From Stdlib Require Import ZArith Lia.
Local Open Scope Z_scope.

(** ** Objects *)

(** [struct _lf_ll] of lib/ll.h. Pointers are addresses, [0] is [NULL]. *)
Record ll_node := LLNode {
  item : Z;
  deconstructor : Z;
  next : Z;
}.

(** [struct _lf_arg] of lib/fmr.h. *)
Record lf_arg := LfArg {
  arg_type : Z;
  arg_value : Z;
}.

(** [struct _lf_module] of lib/module.h. [table] is the array the [table]
    pointer designates ([[]] for [NULL]), each entry a function pointer. *)
Record lf_module := LfModule {
  m_name : list Z;
  m_version : Z;
  m_idx : Z;
  m_interface : Z;
  m_table : list Z;
  m_length : Z;
  m_state : Z;
}.

(** [struct _lf_device] of lib/device.h. *)
Record lf_device := LfDevice {
  d_name : list Z;
  d_version : Z;
  d_type : Z;
  d_modules : Z;
  d_read : Z;
  d_write : Z;
  d_release : Z;
  d_dev_ctx : Z;
  d_ep_ctx : Z;
}.

(** [struct sockaddr_in] of the network endpoint, address and port in network
    byte order. *)
Record sockaddr_in := SockAddr {
  sin_addr : Z;
  sin_port : Z;
}.

(** [struct _lf_network_context] of platforms/posix/include/network.h. *)
Record lf_network_context := NetCtx {
  nc_fd : Z;
  nc_host : list Z;
  nc_device : sockaddr_in;
  nc_addr : sockaddr_in;
}.

(** [struct _lf_libusb_context] of platforms/posix/src/libusb.c. *)
Record lf_libusb_context := UsbCtx {
  uc_handle : Z;
  uc_context : Z;
  uc_in_sz : Z;
  uc_out_sz : Z;
  uc_in : Z;
  uc_out : Z;
}.

Inductive obj :=
| ONode (n : ll_node)
| OArg (a : lf_arg)
| OModule (m : lf_module)
| ODevice (d : lf_device)
| ONet (c : lf_network_context)
| OUsb (c : lf_libusb_context)
| ORaw (bs : list Z).

(** ** The world *)

Record world (E : Type) := World {
  w_err : Z;                  (* _lf_err of lib/error.c *)
  w_heap : gmap Z obj;
  w_next : Z;                 (* the next address the allocator hands out *)
  w_fail : list bool;         (* which of the coming allocations fail *)
  w_junk : Z -> Z;            (* contents of fresh, uninitialised memory *)
  w_attached : Z;             (* lf_attached_devices of lib/libflipper.c *)
  w_current : Z;              (* lf_current_device of lib/libflipper.c *)
  w_registry : list Z;        (* fmr_registry of lib/fmr.c *)
  w_current_packet : bool;    (* current_packet <> NULL, lib/fmr.c *)
  w_env : E;
}.
Arguments World {E}.
Arguments w_err {E}.
Arguments w_heap {E}.
Arguments w_next {E}.
Arguments w_fail {E}.
Arguments w_junk {E}.
Arguments w_attached {E}.
Arguments w_current {E}.
Arguments w_registry {E}.
Arguments w_current_packet {E}.
Arguments w_env {E}.

(** Static objects live below [heap_base]; the allocator works above it. *)
Definition heap_base : Z := 4096.

(** Functions whose address is stored in the data structures. *)
Definition fn_free : Z := 1.
Definition fn_lf_module_release : Z := 2.
Definition fn_lf_device_release : Z := 3.

Abbreviation C E := (M (world E)).

Section World.
Context {E : Type}.
Implicit Types (w : world E) (p : Z) (o : obj).

Definition set_err (e : Z) w : world E :=
  World e (w_heap w) (w_next w) (w_fail w) (w_junk w) (w_attached w) (w_current w)
    (w_registry w) (w_current_packet w) (w_env w).
Definition set_heap (h : gmap Z obj) w : world E :=
  World (w_err w) h (w_next w) (w_fail w) (w_junk w) (w_attached w) (w_current w)
    (w_registry w) (w_current_packet w) (w_env w).
Definition set_alloc (n : Z) (f : list bool) w : world E :=
  World (w_err w) (w_heap w) n f (w_junk w) (w_attached w) (w_current w)
    (w_registry w) (w_current_packet w) (w_env w).
Definition set_attached (p : Z) w : world E :=
  World (w_err w) (w_heap w) (w_next w) (w_fail w) (w_junk w) p (w_current w)
    (w_registry w) (w_current_packet w) (w_env w).
Definition set_current (p : Z) w : world E :=
  World (w_err w) (w_heap w) (w_next w) (w_fail w) (w_junk w) (w_attached w) p
    (w_registry w) (w_current_packet w) (w_env w).
Definition set_registry (r : list Z) w : world E :=
  World (w_err w) (w_heap w) (w_next w) (w_fail w) (w_junk w) (w_attached w) (w_current w)
    r (w_current_packet w) (w_env w).
Definition set_current_packet (b : bool) w : world E :=
  World (w_err w) (w_heap w) (w_next w) (w_fail w) (w_junk w) (w_attached w) (w_current w)
    (w_registry w) b (w_env w).
Definition set_env (e : E) w : world E :=
  World (w_err w) (w_heap w) (w_next w) (w_fail w) (w_junk w) (w_attached w) (w_current w)
    (w_registry w) (w_current_packet w) e.

(** The next allocation fails when the plan says so. *)
Definition alloc_fails w : bool :=
  match w_fail w with b :: _ => b | [] => false end.

(** The world after a successful allocation of [o] at [w_next]. *)
Definition alloc_at (o : obj) w : world E :=
  set_heap (<[w_next w := o]> (w_heap w)) (set_alloc (w_next w + 16) (tail (w_fail w)) w).

(** [malloc]/[calloc]; the object is initialised by the caller's [init], which
    is given the fresh address. *)
Definition malloc (init : Z -> obj) : C E Z := fun w =>
  if alloc_fails w then Ok (0, set_alloc (w_next w) (tail (w_fail w)) w)
  else Ok (w_next w, alloc_at (init (w_next w)) w).

(** [free]: a no-op on [NULL]; only a live heap object can be freed. *)
Definition free (p : Z) : C E unit := fun w =>
  if p =? 0 then Ok (tt, w)
  else if heap_base <=? p then
    match w_heap w !! p with
    | Some _ => Ok (tt, set_heap (delete p (w_heap w)) w)
    | None => Ub
    end
  else Ub.

Definition store (p : Z) (o : obj) : C E unit := fun w =>
  match w_heap w !! p with
  | Some _ => Ok (tt, set_heap (<[p := o]> (w_heap w)) w)
  | None => Ub
  end.

Definition load_node (p : Z) : C E ll_node := fun w =>
  match w_heap w !! p with Some (ONode n) => Ok (n, w) | _ => Ub end.
Definition load_arg (p : Z) : C E lf_arg := fun w =>
  match w_heap w !! p with Some (OArg a) => Ok (a, w) | _ => Ub end.
Definition load_module (p : Z) : C E lf_module := fun w =>
  match w_heap w !! p with Some (OModule m) => Ok (m, w) | _ => Ub end.
Definition load_device (p : Z) : C E lf_device := fun w =>
  match w_heap w !! p with Some (ODevice d) => Ok (d, w) | _ => Ub end.
Definition load_net (p : Z) : C E lf_network_context := fun w =>
  match w_heap w !! p with Some (ONet c) => Ok (c, w) | _ => Ub end.
Definition load_usb (p : Z) : C E lf_libusb_context := fun w =>
  match w_heap w !! p with Some (OUsb c) => Ok (c, w) | _ => Ub end.
Definition load_raw (p : Z) : C E (list Z) := fun w =>
  match w_heap w !! p with Some (ORaw c) => Ok (c, w) | _ => Ub end.

(** ** Well-formed worlds: live objects lie below the allocation frontier. *)

Definition wf_world w : Prop :=
  heap_base <= w_next w /\ forall p o, w_heap w !! p = Some o -> 0 < p < w_next w.

Lemma wf_fresh w : wf_world w -> w_heap w !! w_next w = None.
Proof.
  intros [_ H]. destruct (w_heap w !! w_next w) as [o|] eqn:Eq; [|done].
  apply H in Eq. lia.
Qed.

Lemma wf_null w : wf_world w -> w_heap w !! 0 = None.
Proof.
  intros [_ H]. destruct (w_heap w !! 0) as [o|] eqn:Eq; [|done].
  apply H in Eq. lia.
Qed.

Lemma wf_next_nonnull w : wf_world w -> w_next w <> 0.
Proof. intros [H _]. unfold heap_base in H. lia. Qed.

Lemma wf_alloc w o : wf_world w -> wf_world (alloc_at o w).
Proof.
  intros [Hb H]. split; simpl; [lia|].
  intros p o'. rewrite lookup_insert. case_decide.
  - unfold heap_base in Hb. lia.
  - intros Hp. apply H in Hp. lia.
Qed.

Lemma wf_set_heap_sub w h :
  wf_world w -> (forall p, is_Some (h !! p) -> is_Some (w_heap w !! p)) ->
  wf_world (set_heap h w).
Proof.
  intros [Hb H] Hsub. split; [done|]. intros p o Hp. simpl in Hp.
  destruct (Hsub p) as [o' Ho']; eauto.
Qed.

Lemma malloc_ok w init :
  alloc_fails w = false -> malloc init w = Ok (w_next w, alloc_at (init (w_next w)) w).
Proof. intros H. unfold malloc. by rewrite H. Qed.

Lemma malloc_fail w init :
  alloc_fails w = true -> malloc init w = Ok (0, set_alloc (w_next w) (tail (w_fail w)) w).
Proof. intros H. unfold malloc. by rewrite H. Qed.

(** No coming allocation fails. *)
Definition no_oom w : Prop := Forall (fun b => b = false) (w_fail w).

Lemma no_oom_alloc_fails w : no_oom w -> alloc_fails w = false.
Proof. unfold no_oom, alloc_fails. destruct (w_fail w); [done|]. by intros [? _]%Forall_cons. Qed.

Lemma no_oom_tail w : no_oom w -> Forall (fun b => b = false) (tail (w_fail w)).
Proof. unfold no_oom. destruct (w_fail w); [done|]. by intros [_ ?]%Forall_cons. Qed.

Lemma no_oom_alloc w o : no_oom w -> no_oom (alloc_at o w).
Proof. apply no_oom_tail. Qed.

Lemma store_ok w p o o' :
  w_heap w !! p = Some o' -> store p o w = Ok (tt, set_heap (<[p := o]> (w_heap w)) w).
Proof. intros H. unfold store. by rewrite H. Qed.

Lemma free_ok w p o :
  heap_base <= p -> w_heap w !! p = Some o ->
  free p w = Ok (tt, set_heap (delete p (w_heap w)) w).
Proof.
  intros Hb Hp. unfold free. unfold heap_base in *.
  destruct (Z.eqb_spec p 0); [lia|]. destruct (Z.leb_spec 4096 p); [|lia].
  by rewrite Hp.
Qed.

(** Releasing an object that is not on the heap is undefined. *)
Lemma free_static w p : 0 < p < heap_base -> free p w = Ub.
Proof.
  intros Hp. unfold free, heap_base in *.
  destruct (Z.eqb_spec p 0); [lia|]. by destruct (Z.leb_spec 4096 p); [lia|].
Qed.

Lemma set_heap_twice h h' w : set_heap h (set_heap h' w) = set_heap h w.
Proof. done. Qed.
End World.

#[export] Hint Resolve wf_fresh wf_null wf_alloc wf_next_nonnull : flipper.
#[export] Hint Resolve no_oom_alloc_fails no_oom_alloc : flipper.
