(* ===== verification/Errors.v ===== *)
(** * Errors (lib/error.c, lib/error.h, lib/errors.def)

    The error codes, their strings, the error register [_lf_err] and the
    [lf_assert] control structure every other component is written with. *)

From S2P Require Import Prelude World.
From stdpp Require Import base list gmap sets strings.
From Stdlib Require Import ZArith Lia.
Local Open Scope Z_scope.

(** lib/errors.def, in order. *)
Inductive lf_err_t :=
| E_OK | E_MALLOC | E_NULL | E_OVERFLOW | E_UNDERFLOW | E_NO_DEVICE | E_NOT_ATTACHED
| E_ALREADY_ATTACHED | E_FS_EXISTS | E_FS_NO_FILE | E_FMR_OVERFLOW | E_FMR | E_ENDPOINT
| E_LIBUSB | E_COMMUNICATION | E_SOCKET | E_MODULE | E_RESOLUTION | E_STRING | E_CHECKSUM
| E_NAME | E_CONFIGURATION | E_ACK | E_TYPE | E_BOUNDARY | E_TIMER | E_TIMEOUT | E_NO_PID
| E_INVALID_TASK | E_SUBCLASS | E_UNIMPLEMENTED | E_TEST | E_USB | E_UART0_WRITE_TIMEOUT
| E_UART0_READ_TIMEOUT | LF_MAX_ERR.

Definition all_errors : list lf_err_t :=
  [E_OK; E_MALLOC; E_NULL; E_OVERFLOW; E_UNDERFLOW; E_NO_DEVICE; E_NOT_ATTACHED;
   E_ALREADY_ATTACHED; E_FS_EXISTS; E_FS_NO_FILE; E_FMR_OVERFLOW; E_FMR; E_ENDPOINT;
   E_LIBUSB; E_COMMUNICATION; E_SOCKET; E_MODULE; E_RESOLUTION; E_STRING; E_CHECKSUM;
   E_NAME; E_CONFIGURATION; E_ACK; E_TYPE; E_BOUNDARY; E_TIMER; E_TIMEOUT; E_NO_PID;
   E_INVALID_TASK; E_SUBCLASS; E_UNIMPLEMENTED; E_TEST; E_USB; E_UART0_WRITE_TIMEOUT;
   E_UART0_READ_TIMEOUT; LF_MAX_ERR].

#[global] Instance lf_err_t_eq_dec : EqDecision lf_err_t.
Proof. solve_decision. Defined.

(** The enumerator's value: its position in errors.def. *)
Definition err_code (e : lf_err_t) : Z :=
  match list_find (fun x => x = e) all_errors with
  | Some (i, _) => Z.of_nat i
  | None => -1
  end.

(** Success and failure of libflipper calls (lib/error.h). *)
Definition lf_success : Z := 0.
Definition lf_error : Z := 1.

(** [err_strs]: the second column of errors.def. *)
Definition err_strs : list string :=
  ["no error"; "malloc failure"; "null pointer"; "overflow"; "underflow"; "invalid device";
   "device not yet attached"; "device already attached"; "file already exists";
   "file does not exist"; "message runtime packet overflow"; "message runtime error";
   "endpoint error"; "libusb error"; "communication error"; "socket error";
   "invalid module found"; "address resolution failure"; "invalid error string";
   "checksums do not match"; "invalid name"; "configuration error"; "acknowledgement error";
   "type error"; "boundary error"; "timer error"; "timeout error"; "no task for pid";
   "invalid task specified"; "packet subclass error"; "unimplemented error"; "test failed";
   "usb error"; "uart0 write timeout"; "uart0 read timeout"; "invalid error"]%string.

(** The bound test compares against the number of strings. *)
Definition lf_error_string (error : Z) : string :=
  if Z.of_nat (length err_strs) <=? error then "error out of bounds"
  else default ""%string (err_strs !! Z.to_nat error).

Section Errors.
Context {E : Type}.

(** [_lf_assert] records the error; the message it prints is not modelled. *)
Definition _lf_assert (err : Z) : C E unit := modify (set_err err).

(** [lf_assert(cond, err, ...)]: continue when the condition holds, else
    record the error and run the function's [fail:] block. *)
Definition lf_assert {A} (cond : bool) (err : lf_err_t) (ok fail : C E A) : C E A :=
  if cond then ok else (_lf_assert (err_code err);; fail).

(** The variant whose error is a run-time value ([result.error]). *)
Definition lf_assert_code {A} (cond : bool) (err : Z) (ok fail : C E A) : C E A :=
  if cond then ok else (_lf_assert err;; fail).

Definition lf_error_set (err : Z) : C E unit :=
  lf_assert (err <? err_code LF_MAX_ERR) E_BOUNDARY (modify (set_err err)) (mret tt).

Definition lf_error_get : C E Z := gets w_err.
End Errors.

Section Properties.
(** Every enumerator has its own code and a string of its own. *)
Lemma all_errors_complete e : e ∈ all_errors.
Proof. destruct e; unfold all_errors; set_solver. Qed.

Lemma err_code_inj : Inj (=) (=) err_code.
Proof. intros [] []; vm_compute; intros [=]; done. Qed.

Lemma err_code_range e : 0 <= err_code e < Z.of_nat (length err_strs).
Proof. destruct e; vm_compute; split; congruence. Qed.

Lemma lf_error_string_known e :
  err_strs !! Z.to_nat (err_code e) = Some (lf_error_string (err_code e)).
Proof. by destruct e. Qed.

Context {E : Type}.
Implicit Types w : world E.

Lemma lf_error_set_ok err w :
  err < err_code LF_MAX_ERR -> lf_error_set err w = Ok (tt, set_err err w).
Proof.
  intros H. unfold lf_error_set, lf_assert. by destruct (Z.ltb_spec err (err_code LF_MAX_ERR)); [|lia].
Qed.

Lemma lf_error_set_big err w :
  err_code LF_MAX_ERR <= err -> lf_error_set err w = Ok (tt, set_err (err_code E_BOUNDARY) w).
Proof.
  intros H. unfold lf_error_set, lf_assert. by destruct (Z.ltb_spec err (err_code LF_MAX_ERR)); [lia|].
Qed.

Lemma wf_set_err e w : wf_world w -> wf_world (set_err e w).
Proof. done. Qed.
End Properties.

#[export] Hint Resolve wf_set_err : flipper.
