(* ===== verification/Crc.v ===== *)
(** * The packet checksum (lib/crc.c)

    [calcrc] as written, its linearity over GF(2), and the class of corruptions
    it is guaranteed to detect. *)

From S2P Require Import Prelude.
From stdpp Require Import base list.
From Stdlib Require Import ZArith Lia Bool.
Local Open Scope Z_scope.

Definition POLY : Z := 0x1021.

(** The value of [*ptr] for [const char *ptr]: [char] is signed on x86 and AVR,
    unsigned on ARM. *)
Definition char_val (signed : bool) (b : Z) : Z := if signed then sint 8 b else u8 b.

(** One iteration of the [do ... while (--i)] loop. *)
Definition crc_shift (crc : Z) : Z :=
  if ctrue (Z.land crc 0x8000)
  then u16 (Z.lxor (Z.shiftl crc 1) POLY)
  else u16 (Z.shiftl crc 1).

(** The whole loop: [i] counts down from 8. *)
Definition crc_shift8 (crc : Z) : Z := Nat.iter 8 crc_shift crc.

(** One character: [crc = crc ^ (uint16_t)*ptr++ << 8] and the loop. *)
Definition crc_char (signed : bool) (crc b : Z) : Z :=
  crc_shift8 (u16 (Z.lxor crc (Z.shiftl (u16 (char_val signed b)) 8))).

Definition calcrc (signed : bool) (ptr : list Z) : Z :=
  foldl (crc_char signed) 0 ptr.

(** [lf_crc(src, length, &crc)]: [length] bytes are read from [src]. *)
Definition lf_crc (signed : bool) (src : list Z) (length : Z) : option Z :=
  calcrc signed <$> rd src 0 (Z.to_nat length).

(** ** Bit-serial view

    The register is a 16-bit state; each message bit, most significant first, is
    added at the top and the register is shifted once. *)

Definition crc_bit (crc : Z) (b : bool) : Z := crc_shift (Z.lxor crc (if b then 0x8000 else 0)).

(** The bits of a byte, most significant first. *)
Definition byte_bits (b : Z) : list bool :=
  (fun i => Z.testbit b i) <$> [7; 6; 5; 4; 3; 2; 1; 0].
Definition msg_bits (m : list Z) : list bool := m ≫= byte_bits.

(** The binary value of a bit string, most significant first. *)
Definition bits_val (bs : list bool) : Z := foldl (fun v (b : bool) => 2 * v + Z.b2z b) 0 bs.

Section Shift.
Lemma crc_shift_alt x :
  crc_shift x = Z.lxor (u16 (Z.shiftl x 1)) (if Z.testbit x 15 then POLY else 0).
Proof.
  assert (ctrue (Z.land x 0x8000) = Z.testbit x 15) as Hb.
  { unfold ctrue. change 0x8000 with (2 ^ 15).
    destruct (Z.testbit x 15) eqn:E.
    - destruct (Z.eqb_spec (Z.land x (2 ^ 15)) 0) as [H|]; [|done].
      apply (f_equal (fun z => Z.testbit z 15)) in H.
      rewrite Z.land_spec, E, Z.pow2_bits_true, Z.bits_0 in H by lia. done.
    - replace (Z.land x (2 ^ 15)) with 0; [done|]. symmetry. apply Z.bits_inj'. intros i Hi.
      rewrite Z.land_spec, Z.bits_0, Z.pow2_bits_eqb by lia.
      destruct (Z.eqb_spec 15 i); [subst; by rewrite E|apply andb_false_r]. }
  unfold crc_shift. rewrite Hb. destruct (Z.testbit x 15); [|by rewrite Z.lxor_0_r].
  unfold u16. apply Z.bits_inj'. intros i Hi.
  rewrite !Z.lxor_spec, !testbit_mod_pow2, Z.lxor_spec by lia.
  destruct (Z.ltb_spec i 16); simpl; [done|].
  by rewrite (testbit_high 16 POLY) by (unfold POLY; lia).
Qed.

Lemma crc_shift_range x : 0 <= crc_shift x < 2 ^ 16.
Proof. unfold crc_shift. case_match; apply u16_range. Qed.

Lemma crc_shift_lxor a b : crc_shift (Z.lxor a b) = Z.lxor (crc_shift a) (crc_shift b).
Proof.
  rewrite !crc_shift_alt. unfold u16. rewrite Z.shiftl_lxor.
  apply Z.bits_inj'. intros i Hi. rewrite !Z.lxor_spec, !testbit_mod_pow2, !Z.lxor_spec by lia.
  destruct (Z.testbit a 15), (Z.testbit b 15); simpl;
    rewrite ?Z.bits_0; destruct (i <? 16), (Z.testbit (Z.shiftl a 1) i),
    (Z.testbit (Z.shiftl b 1) i), (Z.testbit POLY i); done.
Qed.

Lemma crc_shift_0 : crc_shift 0 = 0.
Proof. reflexivity. Qed.

(** The constant term of the polynomial makes the shift invertible. *)
Lemma crc_shift_nonzero x : 0 <= x < 2 ^ 16 -> crc_shift x = 0 -> x = 0.
Proof.
  intros Hx. rewrite crc_shift_alt. unfold u16. intros H.
  destruct (Z.testbit x 15) eqn:E.
  - apply (f_equal (fun z => Z.testbit z 0)) in H.
    rewrite Z.lxor_spec, testbit_mod_pow2, Z.shiftl_spec_low, Z.bits_0 in H by lia. done.
  - rewrite Z.lxor_0_r, Z.shiftl_mul_pow2, Z.pow_1_r in H by lia.
    assert (x < 2 ^ 15); [|rewrite Z.mod_small in H; lia].
    destruct (Z.lt_ge_cases x (2 ^ 15)) as [|Hge]; [done|].
    rewrite Z.testbit_false in E by lia.
    assert (x / 2 ^ 15 = 1) as Hq by (symmetry; apply (Z.div_unique _ _ _ (x - 2 ^ 15)); lia).
    rewrite Hq in E. done.
Qed.

Lemma crc_shift_small x : 0 <= x < 2 ^ 15 -> crc_shift x = 2 * x.
Proof.
  intros Hx. rewrite crc_shift_alt. rewrite (testbit_high 15) by lia.
  rewrite Z.lxor_0_r, Z.shiftl_mul_pow2, Z.pow_1_r, u16_small by lia. lia.
Qed.
End Shift.

Section Iter.
Lemma iter_shift_range n x : 0 <= x < 2 ^ 16 -> 0 <= Nat.iter n crc_shift x < 2 ^ 16.
Proof. destruct n; simpl; [done|]. intros _. apply crc_shift_range. Qed.

Lemma iter_shift_lxor n a b :
  Nat.iter n crc_shift (Z.lxor a b) = Z.lxor (Nat.iter n crc_shift a) (Nat.iter n crc_shift b).
Proof. induction n as [|n IH]; simpl; [done|]. by rewrite IH, crc_shift_lxor. Qed.

Lemma iter_shift_nonzero n x :
  0 <= x < 2 ^ 16 -> Nat.iter n crc_shift x = 0 -> x = 0.
Proof.
  intros Hx. induction n as [|n IH]; simpl; [done|]. intros H.
  apply IH. apply crc_shift_nonzero; [|done]. by apply iter_shift_range.
Qed.

(** While the set bit has not reached the top the shift only moves it. *)
Lemma iter_shift_pow n j :
  0 <= j -> j + Z.of_nat n <= 15 -> Nat.iter n crc_shift (2 ^ j) = 2 ^ (j + Z.of_nat n).
Proof.
  intros Hj. induction n as [|n IH]; intros Hn; [by rewrite Z.add_0_r|].
  simpl Nat.iter. rewrite IH by lia. rewrite crc_shift_small.
  - replace (j + Z.of_nat (S n)) with (Z.succ (j + Z.of_nat n)) by lia.
    by rewrite Z.pow_succ_r by lia.
  - split; [apply Z.pow_nonneg; lia|]. apply Z.pow_lt_mono_r; lia.
Qed.

Lemma iter_shift_0 n : Nat.iter n crc_shift 0 = 0.
Proof. induction n as [|n IH]; simpl; [done|]. by rewrite IH. Qed.
End Iter.

Section Serial.
(** Folding bits is linear in the register and in the message. *)
Lemma fold_bit_range bs s : 0 <= s < 2 ^ 16 -> 0 <= foldl crc_bit s bs < 2 ^ 16.
Proof.
  revert s. induction bs as [|b bs IH]; intros s Hs; simpl; [done|].
  apply IH, crc_shift_range.
Qed.

Lemma fold_bit_lxor bs1 bs2 s1 s2 :
  length bs1 = length bs2 ->
  foldl crc_bit (Z.lxor s1 s2) (zip_with xorb bs1 bs2)
  = Z.lxor (foldl crc_bit s1 bs1) (foldl crc_bit s2 bs2).
Proof.
  revert bs2 s1 s2. induction bs1 as [|b1 bs1 IH]; intros [|b2 bs2] s1 s2 Hl; simplify_eq/=; [done|].
  rewrite <- IH by done. f_equal. unfold crc_bit. rewrite <- crc_shift_lxor. f_equal.
  rewrite !Z.lxor_assoc. f_equal. rewrite <- !Z.lxor_assoc, (Z.lxor_comm _ s2), !Z.lxor_assoc.
  f_equal. by destruct b1, b2.
Qed.

Lemma fold_bit_split bs s :
  foldl crc_bit s bs = Z.lxor (Nat.iter (length bs) crc_shift s) (foldl crc_bit 0 bs).
Proof.
  induction bs as [|b bs IH] using rev_ind; simpl; [by rewrite Z.lxor_0_r|].
  rewrite !foldl_app, length_app, Nat.add_comm. simpl. rewrite IH. unfold crc_bit.
  by rewrite Z.lxor_assoc, crc_shift_lxor.
Qed.

(** Up to 16 bits from a clear register: the register is the shifted value. *)
Lemma fold_bit_val bs :
  (length bs <= 16)%nat ->
  foldl crc_bit 0 bs
  = Nat.iter (length bs) crc_shift (bits_val bs * 2 ^ (16 - Z.of_nat (length bs))) /\
  0 <= bits_val bs < 2 ^ Z.of_nat (length bs).
Proof.
  unfold bits_val. induction bs as [|b bs IH] using rev_ind; intros Hl; [simpl; lia|].
  rewrite length_app in *. simpl in Hl. destruct IH as [IH Hr]; [lia|].
  rewrite !foldl_app. simpl foldl. rewrite IH. clear IH.
  set (v := foldl (fun v (b : bool) => 2 * v + Z.b2z b) 0 bs) in *.
  set (n := length bs) in *. simpl length. rewrite Nat.add_1_r.
  assert (0 <= Z.b2z b <= 1) as Hb by (destruct b; simpl; lia). split.
  2: { rewrite Nat2Z.inj_succ, Z.pow_succ_r by lia. lia. }
  unfold crc_bit. simpl Nat.iter. f_equal.
  assert (16 - Z.of_nat n = Z.succ (16 - Z.of_nat (S n))) as Hn by lia.
  set (k := 16 - Z.of_nat (S n)) in *. assert (0 <= k <= 15) as Hk by lia.
  replace ((2 * v + Z.b2z b) * 2 ^ k) with (Z.lxor (v * 2 ^ (16 - Z.of_nat n)) (Z.b2z b * 2 ^ k)).
  - rewrite iter_shift_lxor. f_equal. destruct b; simpl Z.b2z.
    + rewrite Z.mul_1_l, iter_shift_pow by lia. change 0x8000 with (2 ^ 15). f_equal. lia.
    + by rewrite iter_shift_0.
  - rewrite Hn, Z.pow_succ_r by lia. rewrite <- Z.add_nocarry_lxor; [lia|].
    apply Z.bits_inj'. intros i Hi. rewrite Z.land_spec, Z.bits_0.
    replace (v * (2 * 2 ^ k)) with (v * 2 ^ (Z.succ k)) by (rewrite Z.pow_succ_r by lia; lia).
    destruct (Z.lt_ge_cases i (Z.succ k)) as [Hlt|Hge].
    + by rewrite Z.mul_pow2_bits_low.
    + apply andb_false_iff. right. rewrite Z.mul_pow2_bits by lia.
      apply (testbit_high 1); lia.
Qed.

Lemma bits_val_zero bs : bits_val bs = 0 -> Forall (fun b => b = false) bs.
Proof.
  unfold bits_val. induction bs as [|b bs IH] using rev_ind; intros H; [done|].
  rewrite foldl_app in H. simpl in H.
  assert (0 <= foldl (fun v (b : bool) => 2 * v + Z.b2z b) 0 bs) as Hp.
  { clear. induction bs as [|b bs IH] using rev_ind; [done|].
    rewrite foldl_app. simpl. destruct b; simpl; lia. }
  destruct b; simpl in H; [lia|]. apply Forall_app. split; [|by repeat constructor].
  apply IH. lia.
Qed.

Lemma fold_bit_false n s :
  foldl crc_bit s (replicate n false) = Nat.iter n crc_shift s.
Proof.
  revert s. induction n as [|n IH]; intros s; [done|]. simpl replicate. simpl foldl.
  unfold crc_bit at 2. rewrite Z.lxor_0_r, IH, <- Nat.iter_succ_r. done.
Qed.

(** An isolated burst of at most 16 bits leaves a non-zero register. *)
Lemma fold_bit_burst a win b :
  (length win <= 16)%nat -> true ∈ win ->
  foldl crc_bit 0 (replicate a false ++ win ++ replicate b false) <> 0.
Proof.
  intros Hl Ht. rewrite !foldl_app, !fold_bit_false, iter_shift_0.
  destruct (fold_bit_val win Hl) as [Hv Hr]. intros H.
  assert (2 ^ Z.of_nat (length win) * 2 ^ (16 - Z.of_nat (length win)) = 2 ^ 16) as Hp.
  { rewrite <- Z.pow_add_r by lia. f_equal. lia. }
  assert (0 < 2 ^ (16 - Z.of_nat (length win))) as Hpos by (apply Z.pow_pos_nonneg; lia).
  apply iter_shift_nonzero in H; [|apply fold_bit_range; lia].
  rewrite Hv in H. apply iter_shift_nonzero in H; [|nia].
  assert (bits_val win = 0) as H0 by nia.
  apply bits_val_zero in H0. rewrite Forall_forall in H0. by apply H0 in Ht.
Qed.
End Serial.

Section Bytes.
(** A property of bytes checked on all 256 of them. *)
Lemma byte_forall (P : Z -> bool) :
  forallb P (Z.of_nat <$> seq 0 256) = true -> forall b, is_byte b -> P b = true.
Proof.
  intros H b Hb. rewrite forallb_forall in H. apply H.
  apply list_elem_of_In, list_elem_of_fmap. exists (Z.to_nat b).
  unfold is_byte in Hb. split; [lia|]. apply elem_of_seq. lia.
Qed.

Lemma bits_val_byte b : is_byte b -> bits_val (byte_bits b) = b.
Proof.
  intros Hb. apply Z.eqb_eq. revert b Hb.
  apply (byte_forall (fun b => bits_val (byte_bits b) =? b)). by vm_compute.
Qed.

Lemma char_val_u16 sg b :
  is_byte b -> (Z.shiftl (u16 (char_val sg b)) 8) mod 2 ^ 16 = Z.shiftl b 8.
Proof.
  intros Hb. apply Z.eqb_eq. revert b Hb. destruct sg;
  [ apply (byte_forall (fun b => (Z.shiftl (u16 (char_val true b)) 8) mod 2 ^ 16 =? Z.shiftl b 8))
  | apply (byte_forall (fun b => (Z.shiftl (u16 (char_val false b)) 8) mod 2 ^ 16 =? Z.shiftl b 8)) ];
    by vm_compute.
Qed.

Lemma crc_char_bits sg s b :
  0 <= s < 2 ^ 16 -> is_byte b -> crc_char sg s b = foldl crc_bit s (byte_bits b).
Proof.
  intros Hs Hb. unfold crc_char.
  replace (u16 (Z.lxor s (Z.shiftl (u16 (char_val sg b)) 8))) with (Z.lxor s (Z.shiftl b 8)).
  - unfold crc_shift8. rewrite iter_shift_lxor, fold_bit_split. f_equal.
    destruct (fold_bit_val (byte_bits b)) as [-> _]; [simpl; lia|].
    rewrite bits_val_byte by done. by rewrite Z.shiftl_mul_pow2 by lia.
  - rewrite <- (char_val_u16 sg b Hb). unfold u16 at 2. apply Z.bits_inj'. intros i Hi.
    rewrite testbit_mod_pow2, !Z.lxor_spec, testbit_mod_pow2 by lia.
    destruct (Z.ltb_spec i 16); simpl; [done|]. by rewrite (testbit_high 16 s) by lia.
Qed.

Lemma crc_chars_bits sg m s :
  Forall is_byte m -> 0 <= s < 2 ^ 16 ->
  foldl (crc_char sg) s m = foldl crc_bit s (msg_bits m).
Proof.
  intros Hm. revert s. induction Hm as [|b m Hb _ IH]; intros s Hs; [done|].
  change (foldl (crc_char sg) (crc_char sg s b) m = foldl crc_bit s (byte_bits b ++ msg_bits m)).
  rewrite foldl_app, <- (crc_char_bits sg s b) by done.
  apply IH. rewrite (crc_char_bits sg s b) by done. by apply fold_bit_range.
Qed.

Lemma calcrc_bits sg m :
  Forall is_byte m -> calcrc sg m = foldl crc_bit 0 (msg_bits m).
Proof. intros Hm. unfold calcrc. exact (crc_chars_bits sg m 0 Hm ltac:(lia)). Qed.

Lemma calcrc_range sg m : Forall is_byte m -> 0 <= calcrc sg m < 2 ^ 16.
Proof. intros Hm. rewrite calcrc_bits by done. apply fold_bit_range. lia. Qed.

Lemma calcrc_u16 sg m : 0 <= calcrc sg m < 2 ^ 16.
Proof.
  unfold calcrc. induction m as [|b m _] using rev_ind; [done|].
  rewrite foldl_app. cbn [foldl]. unfold crc_char, crc_shift8. cbn [Nat.iter]. apply crc_shift_range.
Qed.

Lemma length_msg_bits m : length (msg_bits m) = (8 * length m)%nat.
Proof.
  induction m as [|b m IH]; [done|].
  change (msg_bits (b :: m)) with (byte_bits b ++ msg_bits m).
  rewrite length_app, IH. simpl. lia.
Qed.

Lemma msg_bits_lxor m1 m2 :
  length m1 = length m2 ->
  msg_bits (zip_with Z.lxor m1 m2) = zip_with xorb (msg_bits m1) (msg_bits m2).
Proof.
  revert m2. induction m1 as [|b1 m1 IH]; intros [|b2 m2] Hl; simplify_eq/=; [done|].
  change (byte_bits (Z.lxor b1 b2) ++ msg_bits (zip_with Z.lxor m1 m2)
    = zip_with xorb (byte_bits b1 ++ msg_bits m1) (byte_bits b2 ++ msg_bits m2)).
  rewrite IH, zip_with_app by done. f_equal. unfold byte_bits. cbn [fmap list_fmap zip_with].
  by rewrite !Z.lxor_spec.
Qed.

Lemma calcrc_lxor sg m1 m2 :
  Forall is_byte m1 -> Forall is_byte m2 -> length m1 = length m2 ->
  Z.lxor (calcrc sg m1) (calcrc sg m2) = foldl crc_bit 0 (msg_bits (zip_with Z.lxor m1 m2)).
Proof.
  intros H1 H2 Hl. rewrite !calcrc_bits, msg_bits_lxor by done.
  rewrite <- fold_bit_lxor by (rewrite !length_msg_bits; lia). done.
Qed.
End Bytes.

(** ** Properties *)

(** The difference of two messages of equal length is one burst of at most 16
    bits: outside a window of 16 consecutive bits they agree, inside it they
    differ somewhere. *)
Definition burst16 (m1 m2 : list Z) : Prop :=
  exists a win b, msg_bits (zip_with Z.lxor m1 m2) = replicate a false ++ win ++ replicate b false /\
    (length win <= 16)%nat /\ true ∈ win.

Lemma calcrc_burst sg m1 m2 :
  Forall is_byte m1 -> Forall is_byte m2 -> length m1 = length m2 ->
  burst16 m1 m2 -> calcrc sg m1 <> calcrc sg m2.
Proof.
  intros H1 H2 Hl (a & win & b & Hd & Hw & Ht) Heq.
  apply (fold_bit_burst a win b Hw Ht). rewrite <- Hd, <- (calcrc_lxor sg) by done.
  by rewrite Heq, Z.lxor_nilpotent.
Qed.

(** The checksum does not depend on the signedness of [char]. *)
Lemma calcrc_signed m :
  Forall is_byte m -> calcrc true m = calcrc false m.
Proof. intros Hm. by rewrite !calcrc_bits. Qed.

(** The check value of CRC-16/XMODEM for the ASCII digits 1 to 9. *)
Example calcrc_check : calcrc true [49; 50; 51; 52; 53; 54; 55; 56; 57] = 0x31C3.
Proof. by vm_compute. Qed.
