(* ===== verification/Device.v ===== *)
(** * Modules and devices (lib/module.c, lib/device.c)

    Creation and release of the two records the library links together. *)

From S2P Require Import Prelude World Errors.
From stdpp Require Import base list gmap sets strings.
From Stdlib Require Import ZArith Lia.
Local Open Scope Z_scope.

Definition LF_MODULE_NAME_MAX : nat := 32.

(** The endpoint functions a device record points to. *)
Definition fn_lf_network_read : Z := 10.
Definition fn_lf_network_write : Z := 11.
Definition fn_lf_network_release : Z := 12.
Definition fn_lf_libusb_read : Z := 13.
Definition fn_lf_libusb_write : Z := 14.
Definition fn_lf_libusb_release : Z := 15.

(** A NUL-free byte string, the contents of a C string. *)
Definition is_cstring (s : list Z) : Prop := Forall (fun b => b <> 0) s.

(** "fvm" *)
Definition str_fvm : list Z := [102; 118; 109].

(** [memset(name, 0, 32); strncpy(name, s, 31); name[31] = 0]. *)
Definition name32 (s : list Z) : list Z := strncpy s 31 ++ [0].

Section Device.
Context {E : Type}.

(** A [calloc]ed module record. *)
Definition module_zero : lf_module := LfModule (replicate 32 0) 0 0 0 [] 0 0.

Definition lf_module_create (name : option (list Z)) (idx : Z) : C E Z :=
  match name with
  | None => _lf_assert (err_code E_NULL);; mret 0
  | Some s =>
    lf_assert (bool_decide (length s < LF_MODULE_NAME_MAX)%nat) E_OVERFLOW
      (module ← malloc (fun _ => OModule module_zero);
       lf_assert (ctrue module) E_MALLOC
         (store module (OModule (LfModule (name32 s) 0 idx 0 [] 0 0));;
          mret module)
         (mret 0))
      (mret 0)
  end.

Definition lf_module_release (_module : Z) : C E unit :=
  if _module =? 0 then mret tt
  else
    m ← load_module _module;
    store _module (OModule (LfModule (replicate 32 0) (m_version m) (m_idx m) (m_interface m)
                              (m_table m) (m_length m) (m_state m)));;
    free _module.

(** A [calloc]ed device record. *)
Definition device_zero : lf_device := LfDevice (replicate 32 0) 0 0 0 0 0 0 0 0.

Definition lf_device_create_named (name : option (list Z)) (read write release : Z) : C E Z :=
  device ← malloc (fun _ => ODevice device_zero);
  lf_assert (ctrue device) E_MALLOC
    (store device (ODevice (LfDevice
        (match name with Some s => name32 s | None => replicate 32 0 end)
        0 0 0 read write release 0 0));;
     mret device)
    (free device;; mret 0).

Definition lf_device_create (read write release : Z) : C E Z :=
  lf_device_create_named None read write release.

Definition lf_device_release (_device : Z) : C E unit :=
  lf_assert (ctrue _device) E_NULL (free _device) (mret tt).

Definition lf_create_virtual_device : C E Z :=
  lf_device_create_named (Some str_fvm) fn_lf_network_read fn_lf_network_write
    fn_lf_network_release.
End Device.

Section Properties.
Context {E : Type}.
Implicit Types w : world E.

Lemma length_name32 s : length (name32 s) = 32%nat.
Proof. unfold name32. rewrite length_app, length_strncpy. done. Qed.

Lemma cstr_name32 s :
  (length s < LF_MODULE_NAME_MAX)%nat -> is_cstring s -> cstr (name32 s) = Some s.
Proof.
  unfold name32, LF_MODULE_NAME_MAX, is_cstring. intros Hl Hs.
  rewrite strncpy_short, <- app_assoc by lia.
  destruct (31 - length s)%nat as [|k] eqn:Ek; simpl; by apply cstr_app.
Qed.

Lemma lf_module_create_ok s idx w :
  wf_world w -> alloc_fails w = false -> (length s < LF_MODULE_NAME_MAX)%nat ->
  lf_module_create (Some s) idx w
  = Ok (w_next w, alloc_at (OModule (LfModule (name32 s) 0 idx 0 [] 0 0)) w).
Proof.
  intros Hw Ha Hs. unfold lf_module_create, lf_assert. rewrite bool_decide_true by done.
  mstep (malloc_ok w (fun _ => OModule module_zero) Ha).
  rewrite ctrue_nonzero by (by apply wf_next_nonnull).
  rewrite (bind_Ok _ _ _ tt (alloc_at (OModule (LfModule (name32 s) 0 idx 0 [] 0 0)) w)); [done|].
  erewrite store_ok by apply lookup_insert_eq. unfold alloc_at. simpl. by rewrite insert_insert_eq.
Qed.

Lemma lf_module_create_long s idx w :
  (LF_MODULE_NAME_MAX <= length s)%nat ->
  lf_module_create (Some s) idx w = Ok (0, set_err (err_code E_OVERFLOW) w).
Proof.
  intros Hs. unfold lf_module_create, lf_assert. by rewrite bool_decide_false by lia.
Qed.

Lemma lf_module_create_oom s idx w :
  alloc_fails w = true -> (length s < LF_MODULE_NAME_MAX)%nat ->
  lf_module_create (Some s) idx w
  = Ok (0, set_err (err_code E_MALLOC) (set_alloc (w_next w) (tail (w_fail w)) w)).
Proof.
  intros Ha Hs. unfold lf_module_create, lf_assert. rewrite bool_decide_true by done.
  by mstep (malloc_fail w (fun _ => OModule module_zero) Ha).
Qed.

Lemma lf_module_release_ok p m w :
  heap_base <= p -> w_heap w !! p = Some (OModule m) ->
  lf_module_release p w = Ok (tt, set_heap (delete p (w_heap w)) w).
Proof.
  intros Hb Hp. unfold lf_module_release. unfold heap_base in Hb.
  destruct (Z.eqb_spec p 0); [lia|].
  assert (load_module p w = Ok (m, w)) as Hl by (unfold load_module; by rewrite Hp).
  mstep Hl. mstep (store_ok w p
    (OModule (LfModule (replicate 32 0) (m_version m) (m_idx m) (m_interface m)
                (m_table m) (m_length m) (m_state m))) _ Hp).
  erewrite free_ok; [|unfold heap_base; lia|apply lookup_insert_eq].
  simpl. by rewrite delete_insert_eq.
Qed.

Lemma lf_device_create_named_ok name r wt rl w :
  wf_world w -> alloc_fails w = false ->
  lf_device_create_named name r wt rl w
  = Ok (w_next w, alloc_at (ODevice (LfDevice
      (match name with Some s => name32 s | None => replicate 32 0 end)
      0 0 0 r wt rl 0 0)) w).
Proof.
  intros Hw Ha. unfold lf_device_create_named.
  mstep (malloc_ok w (fun _ => ODevice device_zero) Ha). unfold lf_assert.
  rewrite ctrue_nonzero by (by apply wf_next_nonnull).
  set (d := LfDevice _ 0 0 0 r wt rl 0 0).
  rewrite (bind_Ok _ _ _ tt (alloc_at (ODevice d) w)); [done|].
  erewrite store_ok by apply lookup_insert_eq. unfold alloc_at. simpl. by rewrite insert_insert_eq.
Qed.

Lemma lf_device_create_named_oom name r wt rl w :
  alloc_fails w = true ->
  lf_device_create_named name r wt rl w
  = Ok (0, set_err (err_code E_MALLOC) (set_alloc (w_next w) (tail (w_fail w)) w)).
Proof.
  intros Ha. unfold lf_device_create_named.
  by mstep (malloc_fail w (fun _ => ODevice device_zero) Ha).
Qed.

Lemma lf_device_release_ok p o w :
  heap_base <= p -> w_heap w !! p = Some o ->
  lf_device_release p w = Ok (tt, set_heap (delete p (w_heap w)) w).
Proof.
  intros Hb Hp. unfold lf_device_release, lf_assert. rewrite ctrue_nonzero.
  - by apply (free_ok w p o).
  - unfold heap_base in Hb. lia.
Qed.
End Properties.
