(* ===== verification/LinkedList.v ===== *)
(** * Linked lists (lib/ll.c, lib/ll.h)

    The functions of lib/ll.c on the heap, and their refinement to functions on
    lists of entries. *)

From S2P Require Import Prelude World Errors Device.
From stdpp Require Import base list gmap sets.
From Stdlib Require Import ZArith Lia.
Local Open Scope Z_scope.

Section LinkedList.
Context {E : Type}.

(** A walk that visits more nodes than there are live objects is on a cycle
    and never ends. *)
Definition walk_fuel (w : world E) : nat := S (size (w_heap w)).

Fixpoint ll_count_loop (fuel : nat) (ll count : Z) : C E Z :=
  if ll =? 0 then mret count
  else match fuel with
       | O => spin
       | S fuel => n ← load_node ll; ll_count_loop fuel (next n) (count + 1)
       end.
Definition lf_ll_count (ll : Z) : C E Z :=
  w ← get; ll_count_loop (walk_fuel w) ll 0.

(** [while (head->next) head = head->next;] *)
Fixpoint ll_tail_loop (fuel : nat) (head : Z) : C E Z :=
  n ← load_node head;
  if next n =? 0 then mret head
  else match fuel with
       | O => spin
       | S fuel => ll_tail_loop fuel (next n)
       end.

(** [head->next = p] at the tail of the list. *)
Definition ll_link_tail (head p : Z) : C E unit :=
  w ← get;
  t ← ll_tail_loop (walk_fuel w) head;
  n ← load_node t;
  store t (ONode (LLNode (item n) (deconstructor n) p)).

(** [_ll] is the address of the variable that holds the head: [None] for a
    null address, else the head it holds. The new head is returned. *)
Definition lf_ll_append (_ll : option Z) (it decon : Z) : C E (Z * option Z) :=
  match _ll with
  | None => mret (lf_error, None)
  | Some head =>
    new ← malloc (fun _ => ONode (LLNode it decon 0));
    if new =? 0 then mret (lf_error, Some head)
    else if ctrue head then
      ll_link_tail head new;; mret (lf_success, Some head)
    else mret (lf_success, Some new)
  end.

Definition lf_ll_concat (_lla : option Z) (_llb : Z) : C E (Z * option Z) :=
  match _lla with
  | None => _lf_assert (err_code E_NULL);; mret (lf_error, None)
  | Some head =>
    if ctrue head then ll_link_tail head _llb;; mret (lf_success, Some head)
    else mret (lf_success, Some _llb)
  end.

(** [while (index-- && ll) ll = ll->next;] *)
Fixpoint ll_item_loop (index : nat) (ll : Z) : C E Z :=
  match index with
  | O => mret ll
  | S index =>
    if ll =? 0 then mret ll
    else n ← load_node ll; ll_item_loop index (next n)
  end.
Definition lf_ll_item (ll : Z) (index : nat) : C E Z :=
  ll ← ll_item_loop index ll;
  lf_assert (ctrue ll) E_NULL (n ← load_node ll; mret (item n)) (mret 0).

(** The functions stored as deconstructors. *)
Definition call_deconstructor (f it : Z) : C E unit :=
  if f =? fn_free then free it
  else if f =? fn_lf_module_release then lf_module_release it
  else if f =? fn_lf_device_release then lf_device_release it
  else ub.

Definition lf_ll_free_node (ll : Z) : C E unit :=
  if ll =? 0 then mret tt
  else
    n ← load_node ll;
    (if ctrue (deconstructor n) then call_deconstructor (deconstructor n) (item n)
     else mret tt);;
    free ll.

(** Drops the first node; the new head is returned. *)
Definition lf_ll_free (ll : Z) : C E Z :=
  if ll =? 0 then mret ll
  else
    n ← load_node ll;
    lf_ll_free_node ll;;
    mret (next n).

Fixpoint ll_remove_loop (fuel : nat) (it prev current head : Z) : C E Z :=
  if current =? 0 then mret head
  else match fuel with
       | O => spin
       | S fuel =>
         n ← load_node current;
         if item n =? it then
           head ← (if ctrue prev then
                     pn ← load_node prev;
                     store prev (ONode (LLNode (item pn) (deconstructor pn) (next n)));;
                     mret head
                   else mret (next n));
           lf_ll_free_node current;;
           current ← (if ctrue prev then pn ← load_node prev; mret (next pn) else mret head);
           ll_remove_loop fuel it prev current head
         else ll_remove_loop fuel it current (next n) head
       end.
Definition lf_ll_remove (_ll : option Z) (it : Z) : C E (option Z) :=
  match _ll with
  | None => _lf_assert (err_code E_NULL);; mret None
  | Some head =>
    w ← get;
    h ← ll_remove_loop (walk_fuel w) it 0 head head;
    mret (Some h)
  end.

(** [func(ll->item, _ctx)]: [None] for a null function pointer. *)
Fixpoint ll_apply_loop (fuel : nat) (func : Z -> C E Z) (ll : Z) : C E Z :=
  n ← load_node ll;
  e ← func (item n);
  if negb (e =? lf_success) then mret e
  else if next n =? 0 then mret e
  else match fuel with
       | O => spin
       | S fuel => ll_apply_loop fuel func (next n)
       end.
Definition lf_ll_apply_func (ll : Z) (func : option (Z -> C E Z)) : C E Z :=
  lf_assert (ctrue ll) E_NULL
    (match func with
     | Some f => w ← get; ll_apply_loop (walk_fuel w) f ll
     | None => _lf_assert (err_code E_NULL);; mret lf_error
     end)
    (mret lf_error).

Fixpoint ll_release_loop (fuel : nat) (ll : Z) : C E unit :=
  if ll =? 0 then mret tt
  else match fuel with
       | O => spin
       | S fuel =>
         n ← load_node ll;
         lf_ll_free_node ll;;
         ll_release_loop fuel (next n)
       end.
(** The variable holding the head is [NULL] afterwards. *)
Definition lf_ll_release (_ll : option Z) : C E (Z * option Z) :=
  match _ll with
  | None => _lf_assert (err_code E_NULL);; mret (lf_error, None)
  | Some head =>
    w ← get;
    ll_release_loop (walk_fuel w) head;;
    mret (lf_success, Some 0)
  end.

Definition lf_ll_create : Z := 0.
End LinkedList.

(** ** The abstract list *)

(** An entry: the address of its node, its item and its deconstructor. *)
Record ll_entry := Entry { e_addr : Z; e_item : Z; e_decon : Z }.

(** [is_ll h p l]: in heap [h] the nodes from [p] to [NULL] are [l]. *)
Fixpoint is_ll (h : gmap Z obj) (p : Z) (l : list ll_entry) : Prop :=
  match l with
  | [] => p = 0
  | e :: l => p = e_addr e /\ p <> 0 /\
      exists n, h !! p = Some (ONode (LLNode (e_item e) (e_decon e) n)) /\ is_ll h n l
  end.

Abbreviation addrs l := (e_addr <$> l).

Section IsLl.
Implicit Types (h : gmap Z obj) (l : list ll_entry).

Lemma is_ll_det h p l1 l2 : is_ll h p l1 -> is_ll h p l2 -> l1 = l2.
Proof.
  revert p l2. induction l1 as [|[a i d] l1 IH]; intros p [|[a2 i2 d2] l2]; simpl.
  - done.
  - intros -> (_ & ? & _). done.
  - intros (_ & ? & _) ->. done.
  - intros (-> & _ & n & Hn & Hl) (-> & _ & n2 & Hn2 & Hl2). simplify_eq.
    f_equal. by eapply IH.
Qed.

Lemma is_ll_lookup h p l a :
  is_ll h p l -> a ∈ addrs l -> a <> 0 /\ exists n, h !! a = Some (ONode n).
Proof.
  revert p. induction l as [|[b i d] l IH]; intros p; simpl.
  - intros _ H. by apply not_elem_of_nil in H.
  - intros (-> & Hp & n & Hn & Hl) [->|Ha]%elem_of_cons; eauto.
Qed.

Lemma is_ll_suffix h p l a :
  is_ll h p l -> a ∈ addrs l -> exists l2, is_ll h a l2 /\ (length l2 <= length l)%nat.
Proof.
  revert p. induction l as [|[b i d] l IH]; intros p; simpl.
  - intros _ H. by apply not_elem_of_nil in H.
  - intros (-> & Hp & n & Hn & Hl) [->|Ha]%elem_of_cons.
    + exists (Entry b i d :: l). simpl. eauto 10.
    + destruct (IH n Hl Ha) as (l2 & ? & ?). exists l2. split; [done|lia].
Qed.

Lemma is_ll_NoDup h p l : is_ll h p l -> NoDup (addrs l).
Proof.
  revert p. induction l as [|[b i d] l IH]; intros p; simpl; [by constructor|].
  intros (-> & Hp & n & Hn & Hl). constructor; [|by eapply IH].
  intros Hb. destruct (is_ll_suffix _ _ _ _ Hl Hb) as (l2 & H2 & Hlen).
  assert (is_ll h b (Entry b i d :: l)) as H3 by (simpl; eauto 10).
  pose proof (is_ll_det _ _ _ _ H2 H3) as ->. simpl in Hlen. lia.
Qed.

Lemma is_ll_frame h h' p l :
  is_ll h p l -> (forall a, a ∈ addrs l -> h' !! a = h !! a) -> is_ll h' p l.
Proof.
  revert p. induction l as [|[b i d] l IH]; intros p; simpl; [done|].
  intros (-> & Hp & n & Hn & Hl) Hf. split; [done|]. split; [done|]. exists n. split.
  - rewrite Hf; [done|]. apply elem_of_cons. by left.
  - apply IH; [done|]. intros a Ha. apply Hf. apply elem_of_cons. by right.
Qed.

Lemma is_ll_size h p l : is_ll h p l -> (length l <= size h)%nat.
Proof.
  intros Hl. pose proof (is_ll_NoDup _ _ _ Hl) as Hnd.
  replace (length l) with (size (list_to_set (addrs l) : gset Z)).
  - rewrite <- size_dom. apply subseteq_size. intros a Ha.
    apply elem_of_list_to_set in Ha. destruct (is_ll_lookup _ _ _ _ Hl Ha) as (_ & n & Hn).
    apply elem_of_dom. eauto.
  - rewrite size_list_to_set by done. by rewrite length_fmap.
Qed.

Lemma is_ll_nil_inv h l : is_ll h 0 l -> l = [].
Proof. destruct l as [|[b i d] l]; [done|]. by intros (_ & ? & _). Qed.

Lemma is_ll_app_cons h p l1 e l2 :
  is_ll h p (l1 ++ e :: l2) -> is_ll h (e_addr e) (e :: l2).
Proof.
  revert p. induction l1 as [|[b i d] l1 IH]; intros p; simpl.
  - intros (-> & Hp & n & Hn & Hl). eauto 10.
  - intros (_ & _ & n & _ & Hl). by apply IH in Hl.
Qed.

(** Relinking the last node to [q] continues the list with what [q] heads. *)
Lemma is_ll_relink h p l1 e q l2 n :
  is_ll h p (l1 ++ [e]) ->
  h !! e_addr e = Some (ONode n) ->
  (forall a, a ∈ addrs (l1 ++ [e]) -> a ∉ addrs l2) ->
  is_ll h q l2 ->
  is_ll (<[e_addr e := ONode (LLNode (item n) (deconstructor n) q)]> h) p ((l1 ++ [e]) ++ l2).
Proof.
  intros Hl Hn Hdj Hq.
  assert (is_ll (<[e_addr e := ONode (LLNode (item n) (deconstructor n) q)]> h) q l2) as Hq'.
  { apply (is_ll_frame h); [done|]. intros a Ha. apply lookup_insert_ne. intros <-.
    apply (Hdj (e_addr e)); [|done]. rewrite fmap_app. apply elem_of_app. right. by left. }
  pose proof (is_ll_NoDup _ _ _ Hl) as Hnd. clear Hdj Hq. revert p Hl Hnd.
  induction l1 as [|[b i d] l1 IH]; intros p; simpl.
  - intros (-> & Hp & m & Hm & ->) _. split; [done|]. split; [done|]. exists q.
    rewrite lookup_insert_eq. simplify_eq. done.
  - intros (-> & Hp & m & Hm & Hl) [Hb Hnd]%NoDup_cons. split; [done|]. split; [done|].
    exists m. split; [|by apply IH]. rewrite lookup_insert_ne; [done|].
    intros <-. apply Hb. rewrite fmap_app. apply elem_of_app. right. by left.
Qed.
End IsLl.

Section Refinement.
Context {E : Type}.
Implicit Types (w : world E) (l : list ll_entry).

Lemma load_node_ok w p n : w_heap w !! p = Some (ONode n) -> load_node p w = Ok (n, w).
Proof. intros H. unfold load_node. by rewrite H. Qed.

Lemma is_ll_fuel w p l : is_ll (w_heap w) p l -> (length l < walk_fuel w)%nat.
Proof. intros H%is_ll_size. unfold walk_fuel. lia. Qed.

Lemma ll_count_loop_ok w p l fuel c :
  is_ll (w_heap w) p l -> (length l <= fuel)%nat ->
  ll_count_loop fuel p c w = Ok (c + Z.of_nat (length l), w).
Proof.
  revert p fuel c. induction l as [|[b i d] l IH]; intros p fuel c; simpl.
  - intros -> _. destruct fuel; simpl; unfold mret, M_ret; do 2 f_equal; lia.
  - intros (-> & Hp & n & Hn & Hl) Hf. destruct fuel as [|fuel]; [lia|]. simpl.
    destruct (Z.eqb_spec b 0); [done|]. mstep (load_node_ok _ _ _ Hn). simpl.
    rewrite IH by (done || lia). do 2 f_equal. lia.
Qed.

Lemma lf_ll_count_spec w p l :
  is_ll (w_heap w) p l -> lf_ll_count p w = Ok (Z.of_nat (length l), w).
Proof.
  intros Hl. unfold lf_ll_count. mnorm. rewrite (ll_count_loop_ok w p l); [done..|].
  apply is_ll_fuel in Hl. lia.
Qed.

Lemma ll_tail_loop_ok w p l e fuel :
  is_ll (w_heap w) p (l ++ [e]) -> (length l <= fuel)%nat ->
  ll_tail_loop fuel p w = Ok (e_addr e, w).
Proof.
  revert p fuel. induction l as [|[b i d] l IH]; intros p fuel; simpl.
  - intros (-> & Hp & n & Hn & ->) _. destruct fuel; simpl; by mstep (load_node_ok _ _ _ Hn).
  - intros (-> & Hp & n & Hn & Hl) Hf. destruct fuel as [|fuel]; [lia|]. simpl.
    mstep (load_node_ok _ _ _ Hn). simpl.
    destruct (Z.eqb_spec n 0) as [->|]; [|apply IH; [done|lia]].
    apply is_ll_nil_inv in Hl. by destruct l.
Qed.

(** Linking [q] behind a non-empty list. *)
Lemma ll_link_tail_ok w p l q l2 :
  is_ll (w_heap w) p l -> l <> [] -> is_ll (w_heap w) q l2 ->
  (forall a, a ∈ addrs l -> a ∉ addrs l2) ->
  exists h', ll_link_tail p q w = Ok (tt, set_heap h' w) /\ is_ll h' p (l ++ l2) /\
    dom h' = dom (w_heap w) /\ (forall a, a ∉ addrs l -> h' !! a = w_heap w !! a).
Proof.
  intros Hl Hne Hq Hdj. destruct (exists_last Hne) as (l1 & e & ->).
  destruct (is_ll_lookup _ _ _ (e_addr e) Hl) as (_ & n & Hn).
  { rewrite fmap_app. apply elem_of_app. right. by left. }
  eexists. split; [|split; [by apply (is_ll_relink (w_heap w) p l1 e q l2 n)|split]].
  - unfold ll_link_tail. mnorm.
    assert (length l1 <= walk_fuel w)%nat as Hf.
    { apply is_ll_fuel in Hl. rewrite length_app in Hl. lia. }
    mstep (ll_tail_loop_ok _ _ _ _ _ Hl Hf). mstep (load_node_ok _ _ _ Hn).
    apply (store_ok w (e_addr e) _ _ Hn).
  - rewrite dom_insert_lookup_L; [done|]. eauto.
  - intros a Ha. apply lookup_insert_ne. intros <-. apply Ha.
    rewrite fmap_app. apply elem_of_app. right. by left.
Qed.

Lemma is_ll_head_nonzero h p l : is_ll h p l -> ctrue p = negb (bool_decide (l = [])).
Proof.
  destruct l as [|[b i d] l]; simpl; [by intros ->|].
  intros (-> & Hp & _). by rewrite ctrue_nonzero.
Qed.

(** A list in a well-formed world survives an allocation. *)
Lemma is_ll_alloc w o p l :
  wf_world w -> is_ll (w_heap w) p l -> is_ll (w_heap (alloc_at o w)) p l.
Proof.
  intros Hw Hl. apply (is_ll_frame (w_heap w)); [done|]. intros a Ha. simpl.
  apply lookup_insert_ne. intros <-. destruct (is_ll_lookup _ _ _ _ Hl Ha) as (_ & n & Hn).
  by rewrite wf_fresh in Hn.
Qed.

Lemma wf_fresh_not_in w p l : wf_world w -> is_ll (w_heap w) p l -> w_next w ∉ addrs l.
Proof.
  intros Hw Hl Ha. destruct (is_ll_lookup _ _ _ _ Hl Ha) as (_ & n & Hn).
  by rewrite wf_fresh in Hn.
Qed.

(** Appending: one fresh node at the end, everything else as it was. *)
Lemma lf_ll_append_spec w p l it d :
  wf_world w -> alloc_fails w = false -> is_ll (w_heap w) p l ->
  exists p' h', lf_ll_append (Some p) it d w
    = Ok ((lf_success, Some p'),
          set_heap h' (set_alloc (w_next w + 16) (tail (w_fail w)) w)) /\
    is_ll h' p' (l ++ [Entry (w_next w) it d]) /\
    (l <> [] -> p' = p) /\
    (forall a, a ∉ addrs l -> a <> w_next w -> h' !! a = w_heap w !! a) /\
    wf_world (set_heap h' (set_alloc (w_next w + 16) (tail (w_fail w)) w)).
Proof.
  intros Hw Ha Hl. unfold lf_ll_append.
  set (o := ONode (LLNode it d 0)). set (w1 := alloc_at o w).
  mstep (malloc_ok w (fun _ => o) Ha).
  pose proof (wf_next_nonnull w Hw) as Hnn. destruct (Z.eqb_spec (w_next w) 0); [done|].
  assert (is_ll (w_heap w1) (w_next w) [Entry (w_next w) it d]) as Hnew.
  { simpl. split; [done|]. split; [done|]. exists 0. by rewrite lookup_insert_eq. }
  assert (wf_world w1) as Hw1 by (by apply wf_alloc).
  rewrite (is_ll_head_nonzero _ _ _ Hl). case_bool_decide as Hemp; simpl.
  - subst l. exists (w_next w), (w_heap w1). split; [done|]. split; [done|]. split; [done|].
    split; [|done]. intros a _ Hne. simpl. by apply lookup_insert_ne.
  - destruct (ll_link_tail_ok w1 p l (w_next w) [Entry (w_next w) it d])
      as (h' & Hrun & Hl' & Hdom & Hfr); [by apply is_ll_alloc|done|done|..].
    { intros a Ha' Hin. simpl in Hin. apply list_elem_of_singleton in Hin. subst a.
      by apply (wf_fresh_not_in w p l). }
    mstep Hrun. exists p, h'. split; [done|]. split; [done|]. split; [done|]. split.
    + intros a Ha1 Ha2. rewrite Hfr by done. simpl. by apply lookup_insert_ne.
    + apply (wf_set_heap_sub w1); [done|]. intros a Hs.
      apply elem_of_dom. rewrite <- Hdom. by apply elem_of_dom.
Qed.

Lemma lf_ll_append_oom w p it d :
  alloc_fails w = true ->
  lf_ll_append (Some p) it d w
  = Ok ((lf_error, Some p), set_alloc (w_next w) (tail (w_fail w)) w).
Proof.
  intros Ha. unfold lf_ll_append. by mstep (malloc_fail w (fun _ => ONode (LLNode it d 0)) Ha).
Qed.

Lemma lf_ll_concat_spec w p l q l2 :
  is_ll (w_heap w) p l -> is_ll (w_heap w) q l2 -> (forall a, a ∈ addrs l -> a ∉ addrs l2) ->
  exists p' h', lf_ll_concat (Some p) q w = Ok ((lf_success, Some p'), set_heap h' w) /\
    is_ll h' p' (l ++ l2) /\ dom h' = dom (w_heap w) /\
    (forall a, a ∉ addrs l -> h' !! a = w_heap w !! a).
Proof.
  intros Hl Hq Hdj. unfold lf_ll_concat. rewrite (is_ll_head_nonzero _ _ _ Hl).
  case_bool_decide as Hemp; simpl.
  - subst l. exists q, (w_heap w). split; [by destruct w|]. done.
  - destruct (ll_link_tail_ok w p l q l2 Hl Hemp Hq Hdj) as (h' & Hrun & ?).
    mstep Hrun. by exists p, h'.
Qed.

Lemma ll_item_loop_ok w p l i :
  is_ll (w_heap w) p l ->
  exists q, ll_item_loop i p w = Ok (q, w) /\ is_ll (w_heap w) q (drop i l).
Proof.
  revert p l. induction i as [|i IH]; intros p l Hl; simpl; [by exists p|].
  destruct l as [|[b it d] l]; simpl in *.
  - subst p. by exists 0.
  - destruct Hl as (-> & Hp & n & Hn & Hl). destruct (Z.eqb_spec b 0); [done|].
    mstep (load_node_ok _ _ _ Hn). by apply IH.
Qed.

(** Retrieving an item: the entry at the index, or [NULL] and [E_NULL]. *)
Lemma lf_ll_item_spec w p l i :
  is_ll (w_heap w) p l ->
  lf_ll_item p i w =
    match l !! i with
    | Some e => Ok (e_item e, w)
    | None => Ok (0, set_err (err_code E_NULL) w)
    end.
Proof.
  intros Hl. unfold lf_ll_item. destruct (ll_item_loop_ok w p l i Hl) as (q & Hrun & Hq).
  mstep Hrun. unfold lf_assert. rewrite (is_ll_head_nonzero _ _ _ Hq).
  destruct (l !! i) as [e|] eqn:Ei.
  - rewrite (drop_S _ _ _ Ei) in Hq. rewrite (drop_S _ _ _ Ei).
    rewrite bool_decide_false by done. cbn [negb].
    destruct Hq as (-> & _ & n & Hn & _). by mstep (load_node_ok _ _ _ Hn).
  - apply lookup_ge_None in Ei. by rewrite drop_ge, bool_decide_true by done.
Qed.
End Refinement.

(** ** Ownership: what a node's deconstructor releases *)

Definition decon_ok (h : gmap Z obj) (e : ll_entry) : Prop :=
  heap_base <= e_item e /\
  ((e_decon e = fn_free /\ is_Some (h !! e_item e)) \/
   (e_decon e = fn_lf_module_release /\ exists m, h !! e_item e = Some (OModule m)) \/
   (e_decon e = fn_lf_device_release /\ is_Some (h !! e_item e))).

Definition decon_heap (e : ll_entry) (h : gmap Z obj) : gmap Z obj :=
  if e_decon e =? 0 then h else delete (e_item e) h.

(** The items the deconstructors of [l] release. *)
Definition owned (l : list ll_entry) : list Z :=
  e_item <$> filter (fun e => e_decon e <> 0) l.

(** Each owned item is live, released once, and none is a node of [A]. *)
Definition owned_ok (h : gmap Z obj) (A : list Z) (l : list ll_entry) : Prop :=
  NoDup (owned l) /\ forall e, e ∈ l -> e_decon e <> 0 -> decon_ok h e /\ e_item e ∉ A.

Section Ownership.
Implicit Types (h : gmap Z obj) (l : list ll_entry).

Lemma owned_cons e l :
  owned (e :: l) = if decide (e_decon e = 0) then owned l else e_item e :: owned l.
Proof.
  unfold owned. rewrite filter_cons.
  destruct (decide (e_decon e = 0)); [by rewrite decide_False by tauto|].
  by rewrite decide_True.
Qed.

Lemma elem_of_owned_cons q e l :
  q ∈ owned (e :: l) <-> (e_decon e <> 0 /\ q = e_item e) \/ q ∈ owned l.
Proof. rewrite owned_cons. case_decide; rewrite ?elem_of_cons; tauto. Qed.

Lemma elem_of_owned x l : x ∈ owned l <-> exists e, e ∈ l /\ e_decon e <> 0 /\ x = e_item e.
Proof.
  unfold owned. rewrite list_elem_of_fmap. setoid_rewrite list_elem_of_filter.
  split; intros (e & H); exists e; tauto.
Qed.

Lemma decon_heap_lookup e h q :
  q <> e_item e -> decon_heap e h !! q = h !! q.
Proof. intros Hq. unfold decon_heap. case_match; [done|]. by apply lookup_delete_ne. Qed.

Lemma decon_ok_frame h h' e : decon_ok h e -> h' !! e_item e = h !! e_item e -> decon_ok h' e.
Proof. unfold decon_ok. intros H ->. done. Qed.

(** Ownership of the tail after the first entry has been released. *)
Lemma owned_ok_tail h h' A B e l :
  owned_ok h A (e :: l) -> (forall a, a ∈ B -> a ∈ A) ->
  (forall q, q ∈ owned l -> h' !! q = h !! q) ->
  owned_ok h' B l.
Proof.
  intros [Hnd Hok] HB Hfr. rewrite owned_cons in Hnd. split.
  - case_decide; [done|]. by apply NoDup_cons in Hnd as [_ ?].
  - intros e' He' Hd. destruct (Hok e') as [H1 H2]; [by right|done|]. split.
    + apply (decon_ok_frame h); [done|]. apply Hfr, elem_of_owned. eauto.
    + intros Hin. by apply H2, HB.
Qed.

Lemma owned_head_fresh h A e l :
  owned_ok h A (e :: l) -> e_decon e <> 0 -> e_item e ∉ owned l.
Proof.
  intros [Hnd _] Hd. rewrite owned_cons, decide_False in Hnd by done.
  by apply NoDup_cons in Hnd as [? _].
Qed.
End Ownership.

Section Release.
Context {E : Type}.
Implicit Types (w : world E) (l : list ll_entry).

Lemma call_deconstructor_ok w e :
  decon_ok (w_heap w) e ->
  call_deconstructor (e_decon e) (e_item e) w
  = Ok (tt, set_heap (delete (e_item e) (w_heap w)) w).
Proof.
  intros (Hb & [(-> & o & Ho)|[(-> & m & Hm)|(-> & o & Ho)]]); unfold call_deconstructor; simpl.
  - by apply (free_ok w _ o).
  - by apply (lf_module_release_ok _ m).
  - by apply (lf_device_release_ok _ o).
Qed.

(** Freeing a node releases the node and what it owns. *)
Lemma lf_ll_free_node_ok w e n :
  w_heap w !! e_addr e = Some (ONode (LLNode (e_item e) (e_decon e) n)) ->
  heap_base <= e_addr e ->
  (e_decon e <> 0 -> decon_ok (w_heap w) e /\ e_item e <> e_addr e) ->
  lf_ll_free_node (e_addr e) w
  = Ok (tt, set_heap (delete (e_addr e) (decon_heap e (w_heap w))) w).
Proof.
  intros Hn Hb Hd. unfold lf_ll_free_node. unfold heap_base in Hb.
  destruct (Z.eqb_spec (e_addr e) 0); [lia|]. mstep (load_node_ok _ _ _ Hn). simpl.
  unfold decon_heap, ctrue. destruct (Z.eqb_spec (e_decon e) 0) as [H0|H0]; simpl.
  - mnorm. by apply (free_ok w _ _ Hb Hn).
  - destruct (Hd H0) as [Hok Hne]. mstep (call_deconstructor_ok _ _ Hok).
    apply (free_ok (set_heap _ w) _ (ONode (LLNode (e_item e) (e_decon e) n)));
      [unfold heap_base; lia|]. simpl. by rewrite lookup_delete_ne.
Qed.

(** What is left after the first entry and then the rest have been released. *)
Lemma freed_lookup_cons h e l (q : Z) :
  (if decide (q ∈ addrs l \/ q ∈ owned l) then None
   else delete (e_addr e) (decon_heap e h) !! q)
  = if decide (q ∈ addrs (e :: l) \/ q ∈ owned (e :: l)) then None else h !! q.
Proof.
  pose proof (elem_of_owned_cons q e l) as Ho.
  assert (q ∈ addrs (e :: l) <-> q = e_addr e \/ q ∈ addrs l) as Ha
    by (by rewrite fmap_cons, elem_of_cons).
  unfold decon_heap. destruct (Z.eqb_spec (e_decon e) 0) as [Hd|Hd];
    destruct (decide (q = e_addr e)) as [->|Hqe];
    destruct (decide (_ ∈ addrs l \/ _)) as [H1|H1];
    destruct (decide (_ ∈ addrs (e :: l) \/ _)) as [H2|H2];
    rewrite ?lookup_delete_eq, ?lookup_delete_ne by done; try done; try tauto.
  all: destruct (decide (q = e_item e)) as [->|];
    rewrite ?lookup_delete_eq, ?lookup_delete_ne by done; try done; tauto.
Qed.

Lemma ll_release_loop_ok l : forall w p fuel,
  is_ll (w_heap w) p l -> Forall (fun a => heap_base <= a) (addrs l) ->
  owned_ok (w_heap w) (addrs l) l -> (length l <= fuel)%nat ->
  exists h', ll_release_loop fuel p w = Ok (tt, set_heap h' w) /\
    forall q, h' !! q = if decide (q ∈ addrs l \/ q ∈ owned l) then None else w_heap w !! q.
Proof.
  induction l as [|e l IH]; intros w p fuel Hl Hb Ho Hf.
  - simpl in Hl. subst p. exists (w_heap w). split; [by destruct fuel, w|].
    intros q. rewrite decide_False; [done|].
    intros [H|H]; [by apply not_elem_of_nil in H|]. by apply not_elem_of_nil in H.
  - destruct fuel as [|fuel]; simpl in Hf; [lia|].
    pose proof (is_ll_NoDup _ _ _ Hl) as Hnd. rewrite fmap_cons in Hnd, Hb.
    apply NoDup_cons in Hnd as [Hni Hnd]. apply Forall_cons in Hb as [Hbe Hb].
    destruct Hl as (-> & Hp & n & Hn & Hl). simpl ll_release_loop.
    destruct (Z.eqb_spec (e_addr e) 0); [done|]. mstep (load_node_ok _ _ _ Hn).
    assert (e_decon e <> 0 -> decon_ok (w_heap w) e /\ e_item e ∉ addrs (e :: l)) as Hde.
    { intros Hd. destruct Ho as [_ Ho]. apply Ho; [by left|done]. }
    mstep (lf_ll_free_node_ok w e n Hn Hbe
      ltac:(intros Hd; destruct (Hde Hd) as [? Hx]; split; [done|]; intros Heq; apply Hx;
            rewrite Heq, fmap_cons; by left)).
    set (h1 := delete (e_addr e) (decon_heap e (w_heap w))).
    assert (forall q, q ∈ addrs l \/ q ∈ owned l -> q <> e_addr e -> h1 !! q = w_heap w !! q) as Hfr.
    { intros q Hq Hqe. unfold h1. rewrite lookup_delete_ne by done. unfold decon_heap.
      destruct (Z.eqb_spec (e_decon e) 0) as [|Hd]; [done|]. apply lookup_delete_ne. intros <-.
      destruct Hq as [Hq|Hq].
      - apply (Hde Hd). rewrite fmap_cons. by right.
      - by apply (owned_head_fresh _ _ _ _ Ho Hd). }
    assert (forall q, q ∈ owned l -> q <> e_addr e) as Hoe.
    { intros q Hq Heq. apply elem_of_owned in Hq as (e' & He' & Hd' & Hq').
      destruct Ho as [_ Ho]. destruct (Ho e') as [_ Hx]; [by right|done|]. apply Hx.
      rewrite <- Hq', Heq, fmap_cons. by left. }
    destruct (IH (set_heap h1 w) n fuel) as (h' & Hrun & Hq).
    + simpl. apply (is_ll_frame (w_heap w)); [done|]. intros a Ha. apply Hfr; [by left|].
      by intros ->.
    + done.
    + simpl. apply (owned_ok_tail (w_heap w) h1 (addrs (e :: l)) _ e); [done|..].
      * intros a Ha. rewrite fmap_cons. by right.
      * intros q Hq. apply Hfr; [by right|by apply Hoe].
    + lia.
    + exists h'. split; [exact Hrun|]. intros q. rewrite Hq. apply freed_lookup_cons.
Qed.

(** Releasing a list frees its nodes and everything they own, and nothing else. *)
Lemma lf_ll_release_spec w p l :
  is_ll (w_heap w) p l -> Forall (fun a => heap_base <= a) (addrs l) ->
  owned_ok (w_heap w) (addrs l) l ->
  exists h', lf_ll_release (Some p) w = Ok ((lf_success, Some 0), set_heap h' w) /\
    forall q, h' !! q = if decide (q ∈ addrs l \/ q ∈ owned l) then None else w_heap w !! q.
Proof.
  intros Hl Hb Ho. destruct (ll_release_loop_ok l w p (walk_fuel w) Hl Hb Ho) as (h' & Hrun & Hq).
  { apply is_ll_fuel in Hl. lia. }
  exists h'. split; [|done]. unfold lf_ll_release. mnorm. by mstep Hrun.
Qed.
End Release.

(** ** Removal *)

(** The entries [lf_ll_remove] drops and the ones it keeps. *)
Definition dropped (it : Z) (l : list ll_entry) : list ll_entry := filter (fun e => e_item e = it) l.
Definition kept (it : Z) (l : list ll_entry) : list ll_entry := filter (fun e => e_item e <> it) l.

Section Remove.
Context {E : Type}.
Implicit Types (w : world E) (l : list ll_entry) (h : gmap Z obj).

(** The heap [h'] after removing [it] from the list [l] of [h]: the dropped
    nodes and what they own are gone, and outside of the list and the
    predecessor's link nothing else changed. *)
Definition removed (it : Z) (prev : Z) l h h' : Prop :=
  (forall q, q ∈ addrs (dropped it l) \/ q ∈ owned (dropped it l) -> h' !! q = None) /\
  (forall q, q ∉ addrs l -> q ∉ owned (dropped it l) -> q <> prev -> h' !! q = h !! q).

(** The node before the current one links to it ([prev] is [0] at the head). *)
Definition links_to h (prev pi pd cur : Z) : Prop :=
  h !! prev = Some (ONode (LLNode pi pd cur)).

Lemma dropped_cons_eq it e l : e_item e = it -> dropped it (e :: l) = e :: dropped it l.
Proof. intros H. unfold dropped. by rewrite filter_cons_True. Qed.
Lemma dropped_cons_ne it e l : e_item e <> it -> dropped it (e :: l) = dropped it l.
Proof. intros H. unfold dropped. by rewrite filter_cons_False. Qed.
Lemma kept_cons_eq it e l : e_item e = it -> kept it (e :: l) = kept it l.
Proof. intros H. unfold kept. rewrite filter_cons_False; [done|tauto]. Qed.
Lemma kept_cons_ne it e l : e_item e <> it -> kept it (e :: l) = e :: kept it l.
Proof. intros H. unfold kept. by rewrite filter_cons_True. Qed.

Lemma dropped_addrs it l a : a ∈ addrs (dropped it l) -> a ∈ addrs l.
Proof.
  unfold dropped. intros (e & -> & He)%list_elem_of_fmap. apply list_elem_of_filter in He.
  apply list_elem_of_fmap. exists e. tauto.
Qed.

(** Unlinking the current node from its predecessor. *)
Lemma unlink_ok w prev pi pd cur head n :
  (prev <> 0 -> links_to (w_heap w) prev pi pd cur) ->
  exists h1, (if ctrue prev then
                pn ← load_node prev;
                store prev (ONode (LLNode (item pn) (deconstructor pn) n));;
                mret head
              else mret n : C E Z) w
             = Ok (if ctrue prev then head else n, set_heap h1 w) /\
    (prev <> 0 -> links_to h1 prev pi pd n) /\
    (forall q, q <> prev \/ prev = 0 -> h1 !! q = w_heap w !! q).
Proof.
  intros Hl. unfold ctrue. destruct (Z.eqb_spec prev 0) as [->|Hp]; simpl.
  - exists (w_heap w). split; [by destruct w|]. done.
  - pose proof (Hl Hp) as Hn. unfold links_to in Hn. mstep (load_node_ok _ _ _ Hn). simpl.
    mstep (store_ok w prev (ONode (LLNode pi pd n)) _ Hn).
    eexists. split; [reflexivity|]. split.
    + intros _. unfold links_to. by rewrite lookup_insert_eq.
    + intros q [Hq|]; [|done]. by apply lookup_insert_ne.
Qed.

(** The heap once the first entry [e] of the list has been unlinked and freed. *)
Definition drop_first (e : ll_entry) h1 : gmap Z obj := delete (e_addr e) (decon_heap e h1).

Lemma drop_first_lookup e h1 q :
  q <> e_addr e -> (e_decon e <> 0 -> q <> e_item e) -> drop_first e h1 !! q = h1 !! q.
Proof.
  intros Hq Hi. unfold drop_first. rewrite lookup_delete_ne by done. unfold decon_heap.
  destruct (Z.eqb_spec (e_decon e) 0); [done|]. rewrite lookup_delete_ne; [done|].
  intros Heq. by apply (Hi n).
Qed.

(** Unlinking and freeing the current node, and stepping to the next one. *)
Lemma remove_step_ok w prev pi pd e n head l :
  w_heap w !! e_addr e = Some (ONode (LLNode (e_item e) (e_decon e) n)) ->
  heap_base <= e_addr e -> e_addr e <> prev ->
  owned_ok (w_heap w) (prev :: e_addr e :: addrs l) (e :: dropped (e_item e) l) ->
  (prev <> 0 -> links_to (w_heap w) prev pi pd (e_addr e)) ->
  forall (k : Z -> Z -> C E Z),
  exists h1,
    (hd ← (if ctrue prev then
            pn ← load_node prev;
            store prev (ONode (LLNode (item pn) (deconstructor pn) n));;
            mret (if ctrue prev then head else e_addr e)
          else mret n);
     lf_ll_free_node (e_addr e);;
     c ← (if ctrue prev then pn ← load_node prev; mret (next pn) else mret hd);
     k c hd) w
    = k n (if ctrue prev then head else n) (set_heap (drop_first e h1) w) /\
    (prev <> 0 -> links_to (drop_first e h1) prev pi pd n) /\
    (forall q, q <> prev \/ prev = 0 -> h1 !! q = w_heap w !! q).
Proof.
  intros Hn Hbe Hpe [_ Ho] Hpl k.
  destruct (unlink_ok w prev pi pd (e_addr e) (if ctrue prev then head else e_addr e) n Hpl)
    as (h1 & Hun & Hpl1 & Hfr1).
  assert (e_decon e <> 0 -> decon_ok (w_heap w) e /\ e_item e ∉ prev :: e_addr e :: addrs l) as Hd
    by (intros; apply Ho; [by left|done]).
  assert (prev <> 0 -> links_to (drop_first e h1) prev pi pd n) as Hpl2.
  { intros Hp0. unfold links_to. rewrite drop_first_lookup; [by apply Hpl1|done|]. intros Hd0 ->. destruct (Hd Hd0) as [_ Hx'].
    apply Hx'. by left. }
  exists h1. split; [|done]. mstep Hun.
  assert (lf_ll_free_node (e_addr e) (set_heap h1 w) = Ok (tt, set_heap (drop_first e h1) w)) as Hfree.
  { rewrite (lf_ll_free_node_ok (set_heap h1 w) e n); [done|..].
    - simpl. rewrite Hfr1; [done|by left].
    - done.
    - intros Hd0. destruct (Hd Hd0) as [Hok Hx]. apply not_elem_of_cons in Hx as [Hx1 Hx].
      apply not_elem_of_cons in Hx as [Hx2 _]. split; [|done].
      apply (decon_ok_frame (w_heap w)); [done|]. apply Hfr1. by left. }
  mstep Hfree. unfold ctrue in *. destruct (Z.eqb_spec prev 0) as [|Hp0]; simpl; [done|].
  pose proof (Hpl2 Hp0) as Hx.
  assert (load_node prev (set_heap (drop_first e h1) w)
          = Ok (LLNode pi pd n, set_heap (drop_first e h1) w)) as Hld by (by apply load_node_ok).
  by rewrite bind_assoc, (bind_Ok _ _ _ _ _ Hld).
Qed.

(** Composition of one dropped entry with the removal from the rest. *)
Lemma removed_drop it e l prev h h1 h' :
  e_item e = it -> e_addr e ∉ addrs l -> e_addr e <> prev ->
  owned_ok h (prev :: e_addr e :: addrs l) (e :: dropped it l) ->
  (forall q, q <> prev \/ prev = 0 -> h1 !! q = h !! q) ->
  removed it prev l (drop_first e h1) h' -> removed it prev (e :: l) h h'.
Proof.
  intros Hit Hni Hpe Ho Hfr1 [Hgone Hfr]. unfold removed. rewrite (dropped_cons_eq it e l Hit).
  assert (e_addr e ∉ owned (dropped it l)) as Hao.
  { intros (e' & He' & Hd' & Heq)%elem_of_owned. destruct Ho as [_ Ho].
    destruct (Ho e') as [_ Hx]; [by right|done|]. apply Hx. rewrite <- Heq. right. by left. }
  split.
  - intros q Hq. rewrite fmap_cons, elem_of_cons, elem_of_owned_cons in Hq.
    destruct Hq as [[->|Hq]|[[Hd ->]|Hq]]; [|by apply Hgone; left| |by apply Hgone; right].
    + rewrite Hfr by done. apply lookup_delete_eq.
    + pose proof (owned_head_fresh _ _ _ _ Ho Hd) as Hnx. destruct Ho as [_ Ho].
      destruct (Ho e) as [_ Hx]; [by left|done|].
      apply not_elem_of_cons in Hx as [Hx1 Hx]. apply not_elem_of_cons in Hx as [Hx2 Hx3].
      rewrite Hfr by done. unfold drop_first. rewrite lookup_delete_ne by done.
      unfold decon_heap. destruct (Z.eqb_spec (e_decon e) 0); [done|]. apply lookup_delete_eq.
  - intros q Hq1 Hq2 Hq3. rewrite fmap_cons in Hq1. apply not_elem_of_cons in Hq1 as [Hq1 Hq1'].
    rewrite elem_of_owned_cons in Hq2. rewrite Hfr by tauto.
    rewrite drop_first_lookup by tauto. apply Hfr1. by left.
Qed.

Lemma ll_remove_loop_ok it l : forall w prev pi pd cur head fuel,
  is_ll (w_heap w) cur l -> Forall (fun a => heap_base <= a) (addrs l) ->
  owned_ok (w_heap w) (prev :: addrs l) (dropped it l) -> (length l <= fuel)%nat ->
  prev ∉ addrs l -> (prev <> 0 -> links_to (w_heap w) prev pi pd cur) ->
  exists h' cur', ll_remove_loop fuel it prev cur (if ctrue prev then head else cur) w
    = Ok (if ctrue prev then head else cur', set_heap h' w) /\
    is_ll h' cur' (kept it l) /\ (prev <> 0 -> links_to h' prev pi pd cur') /\
    removed it prev l (w_heap w) h'.
Proof.
  induction l as [|e l IH]; intros w prev pi pd cur head fuel Hl Hb Ho Hf Hpa Hpl.
  - simpl in Hl. subst cur. exists (w_heap w), 0. split; [by destruct fuel, w|].
    split; [done|]. split; [done|]. split; [|done]. intros q [H|H]; by apply not_elem_of_nil in H.
  - destruct fuel as [|fuel]; simpl in Hf; [lia|].
    pose proof (is_ll_NoDup _ _ _ Hl) as Hnd. rewrite fmap_cons in Hnd, Hb, Hpa, Ho.
    apply NoDup_cons in Hnd as [Hni Hnd]. apply Forall_cons in Hb as [Hbe Hb].
    apply not_elem_of_cons in Hpa as [Hpe Hpa].
    destruct Hl as (-> & Hp & n & Hn & Hl). simpl ll_remove_loop.
    destruct (Z.eqb_spec (e_addr e) 0); [done|]. mstep (load_node_ok _ _ _ Hn).
    cbn [item next deconstructor]. destruct (Z.eqb_spec (e_item e) it) as [Hit|Hit].
    + rewrite (dropped_cons_eq it e l Hit) in Ho. pose proof Ho as Ho'. rewrite <- Hit in Ho'.
      destruct (remove_step_ok w prev pi pd e n head l Hn Hbe ltac:(done) Ho' Hpl
                  (fun c hd => ll_remove_loop fuel it prev c hd)) as (h1 & -> & Hpl2 & Hfr1).
      assert (forall q, q ∈ addrs l \/ q ∈ owned (dropped it l) ->
                drop_first e h1 !! q = w_heap w !! q) as Hfr2.
      { intros q Hq. assert (q <> prev /\ q <> e_addr e) as [Hq1 Hq2].
        { split; intros ->; destruct Hq as [Hq|(e' & He' & Hd' & Heq)%elem_of_owned]; try done;
            destruct Ho as [_ Ho]; destruct (Ho e') as [_ Hx]; try done; try (by right);
            apply Hx; rewrite <- Heq; [by left|right; by left]. }
        rewrite drop_first_lookup; [apply Hfr1; by left|done|]. intros Hd ->.
        destruct Hq as [Hq|Hq]; [|by apply (owned_head_fresh _ _ _ _ Ho Hd)].
        destruct Ho as [_ Ho]. destruct (Ho e) as [_ Hx]; [by left|done|]. apply Hx. by do 2 right. }
      destruct (IH (set_heap (drop_first e h1) w) prev pi pd n head fuel) as (h' & cur' & Hrun & Hk & Hpl' & Hrm).
      * apply (is_ll_frame (w_heap w)); [done|]. intros a Ha. apply Hfr2. by left.
      * done.
      * apply (owned_ok_tail (w_heap w) _ (prev :: e_addr e :: addrs l) _ e); [done|..].
        -- intros a [->|Ha]%elem_of_cons; [by left|by do 2 right].
        -- intros q Hq. apply Hfr2. by right.
      * lia.
      * done.
      * done.
      * exists h', cur'. split; [exact Hrun|]. rewrite (kept_cons_eq it e l Hit). split; [done|].
        split; [done|]. by apply (removed_drop it e l prev _ h1).
    + rewrite (dropped_cons_ne it e l Hit) in Ho.
      destruct (IH w (e_addr e) (e_item e) (e_decon e) n (if ctrue prev then head else e_addr e) fuel)
        as (h' & cur' & Hrun & Hk & Hpl' & [Hgone Hfr]); [done|done|..|lia|done|done|].
      { destruct Ho as [Hnd' Ho]. split; [done|]. intros e' He' Hd'.
        destruct (Ho e' He' Hd') as [? Hx]. split; [done|]. intros Hin. apply Hx. by right. }
      rewrite ctrue_nonzero in Hrun by done.
      exists h', (e_addr e). split; [exact Hrun|]. rewrite (kept_cons_ne it e l Hit).
      split; [simpl; split; [done|]; split; [done|]; exists cur'; split; [by apply Hpl'|done]|].
      split.
      * intros Hp0. unfold links_to. rewrite Hfr; [by apply Hpl|done| |done].
        intros (e' & He' & Hd' & ->)%elem_of_owned. destruct Ho as [_ Ho].
        destruct (Ho e' He' Hd') as [_ Hx]. apply Hx. by left.
      * unfold removed. rewrite (dropped_cons_ne it e l Hit). split; [done|].
        intros q Hq1 Hq2 Hq3. rewrite fmap_cons in Hq1. apply not_elem_of_cons in Hq1 as [? ?].
        by apply Hfr.
Qed.

(** [lf_ll_remove] refines filtering: every entry with the item is dropped and
    released, the others keep their order. *)
Lemma lf_ll_remove_spec w p l it :
  is_ll (w_heap w) p l -> Forall (fun a => heap_base <= a) (addrs l) ->
  owned_ok (w_heap w) (0 :: addrs l) (dropped it l) ->
  exists p' h', lf_ll_remove (Some p) it w = Ok (Some p', set_heap h' w) /\
    is_ll h' p' (kept it l) /\ removed it 0 l (w_heap w) h'.
Proof.
  intros Hl Hb Ho. unfold lf_ll_remove. mnorm.
  destruct (ll_remove_loop_ok it l w 0 0 0 p 0 (walk_fuel w)) as (h' & p' & Hrun & Hk & _ & Hrm);
    [done|done|done| | |done|].
  - apply is_ll_fuel in Hl. lia.
  - intros H0. destruct (is_ll_lookup _ _ _ _ Hl H0) as [? _]. done.
  - simpl in Hrun. mstep Hrun. by exists p', h'.
Qed.

(** Applying a function that leaves the list alone: it is applied to the items
    in order until one application does not succeed. *)
Fixpoint apply_items (func : Z -> C E Z) (items : list Z) : C E Z :=
  match items with
  | [] => mret lf_success
  | it :: items => e ← func it; if negb (e =? lf_success) then mret e else apply_items func items
  end.

Lemma ll_apply_loop_ok (func : Z -> C E Z) l : forall w p e0 fuel,
  is_ll (w_heap w) p (e0 :: l) -> (length l <= fuel)%nat ->
  (forall it w1 r w2, func it w1 = Ok (r, w2) -> w_heap w2 = w_heap w1) ->
  ll_apply_loop fuel func p w = apply_items func (e_item <$> e0 :: l) w.
Proof.
  induction l as [|e1 l IH]; intros w p e0 fuel Hl Hf Hfun.
  - destruct Hl as (-> & Hp & n & Hn & ->).
    destruct fuel; simpl; mstep (load_node_ok _ _ _ Hn); cbn [item next];
      unfold mbind, M_bind; destruct (func (e_item e0) w) as [[r w2]| |]; try done;
      destruct (Z.eqb_spec r lf_success); by subst.
  - destruct fuel as [|fuel]; simpl in Hf; [lia|]. destruct Hl as (-> & Hp & n & Hn & Hl).
    simpl. mstep (load_node_ok _ _ _ Hn). cbn [item next].
    destruct (func (e_item e0) w) as [[r w2]| |] eqn:Er;
      [|by rewrite !(bind_Ub _ _ _ Er)|by rewrite !(bind_Spin _ _ _ Er)].
    rewrite !(bind_Ok _ _ _ _ _ Er).
    destruct (Z.eqb_spec r lf_success); cbn [negb]; [|done].
    destruct (Z.eqb_spec n 0) as [->|]; [by destruct Hl as (_ & ? & _)|].
    apply (IH w2 n e1 fuel); [|lia|done]. by rewrite (Hfun _ _ _ _ Er).
Qed.

Lemma lf_ll_apply_func_spec (func : Z -> C E Z) w p l :
  is_ll (w_heap w) p l -> l <> [] ->
  (forall it w1 r w2, func it w1 = Ok (r, w2) -> w_heap w2 = w_heap w1) ->
  lf_ll_apply_func p (Some func) w = apply_items func (e_item <$> l) w.
Proof.
  intros Hl Hne Hfun. destruct l as [|e0 l]; [done|].
  unfold lf_ll_apply_func, lf_assert. rewrite (is_ll_head_nonzero _ _ _ Hl), bool_decide_false by done.
  cbn [negb]. mnorm. apply ll_apply_loop_ok; [done| |done].
  apply is_ll_fuel in Hl. simpl in Hl. lia.
Qed.
End Remove.
