(* ===== verification/FmrPacket.v ===== *)
(** * Message runtime packets (lib/fmr.h, lib/fmr_helper.c)

    Argument types, the packed layout of packets, and the helpers that build
    argument lists and call packets. *)

From S2P Require Import Prelude World Errors Device LinkedList Crc.
From stdpp Require Import base list gmap sets.
From Stdlib Require Import ZArith Lia.
Local Open Scope Z_scope.

(** ** Argument types *)

Definition lf_uint_t : Z := 0.
Definition lf_ptr_t : Z := 2.
Definition lf_uint64_t : Z := 3.
Definition lf_int_t : Z := 4.
Definition lf_void_t : Z := 6.
Definition lf_uint8_t : Z := 16.
Definition lf_uint16_t : Z := 17.
Definition lf_uint32_t : Z := 19.
Definition lf_int8_t : Z := 24.
Definition lf_int16_t : Z := 25.
Definition lf_int32_t : Z := 27.
Definition lf_int64_t : Z := 31.
Definition lf_max_t : Z := 31.

Definition one_of (t : Z) (ts : list Z) : bool := existsb (Z.eqb t) ts.

(** Calculates the length of an FMR type. *)
Definition lf_sizeof (type : Z) : nat :=
  if one_of type [lf_uint8_t; lf_int8_t] then 1
  else if one_of type [lf_uint16_t; lf_int16_t] then 2
  else if one_of type [lf_uint32_t; lf_int_t; lf_int32_t] then 4
  else if one_of type [lf_uint64_t; lf_int64_t; lf_ptr_t] then 8
  else 0.

(** ** Packet layout

    [struct _fmr_packet] is 64 packed bytes: magic (1), crc (2), len (2),
    type (1), then the payload. [struct _fmr_call] starts at offset 6: module,
    function, ret and argc (1 each), [arg_types] (16), then [argv]. *)

Definition FMR_PACKET_SIZE : nat := 64.
Definition FMR_MAGIC_NUMBER : Z := 0xFE.
Definition FMR_MAX_ARGC : nat := 16.
Definition sizeof_fmr_header : nat := 6.
Definition sizeof_fmr_call : nat := 20.
Definition sizeof_fmr_result : nat := 9.

Definition off_magic : nat := 0.
Definition off_crc : nat := 1.
Definition off_len : nat := 3.
Definition off_type : nat := 5.
Definition off_call_module : nat := 6.
Definition off_call_function : nat := 7.
Definition off_call_ret : nat := 8.
Definition off_call_argc : nat := 9.
Definition off_arg_types : nat := 10.
Definition off_argv : nat := 26.

(** Packet classes. *)
Definition fmr_rpc_class : Z := 0.
Definition fmr_push_class : Z := 1.
Definition fmr_pull_class : Z := 2.
Definition fmr_dyld_class : Z := 3.
Definition fmr_malloc_class : Z := 4.
Definition fmr_free_class : Z := 5.
Definition FMR_CLASS_COUNT : Z := 6.

(** [struct _fmr_result]: a 64-bit value and the error byte. *)
Definition result_bytes (value error : Z) : list Z := le_bytes 8 value ++ le_bytes 1 error.
Definition result_value (r : list Z) : Z := le_val (take 8 r).
Definition result_error (r : list Z) : Z := le_val (take 1 (drop 8 r)).

Definition zero_packet : list Z := replicate FMR_PACKET_SIZE 0.

(** [call->arg_types[i] = type]: the array has [FMR_MAX_ARGC] elements. *)
Definition set_arg_type (pkt : list Z) (i : nat) (type : Z) : option (list Z) :=
  if decide (i < FMR_MAX_ARGC)%nat then wr_le pkt (off_arg_types + i) 1 type else None.
Definition get_arg_type (pkt : list Z) (i : nat) : option Z :=
  if decide (i < FMR_MAX_ARGC)%nat then rd_le pkt (off_arg_types + i) 1 else None.

(** The checksum of a packet; [char] is signed on the host targets. *)
Definition packet_crc (pkt : list Z) (len : Z) : option Z := lf_crc true pkt len.

Section Helpers.
Context {E : Type}.

(** Appends a new argument; the head variable [list] is updated. *)
Definition fmr_append_arg (list : Z) (type value : Z) : C E (Z * Z) :=
  arg ← malloc (fun _ => OArg (LfArg (u8 type) (u64 value)));
  if arg =? 0 then mret (lf_error, list)
  else
    '(e, l) ← lf_ll_append (Some list) arg 0;
    mret (e, default 0 l).

Definition lf_arg_create (type value : Z) : C E Z :=
  malloc (fun _ => OArg (LfArg (u8 type) (u64 value))).

Fixpoint fmr_build_loop (args : Z) (va : list (Z * Z)) : C E Z :=
  match va with
  | [] => mret args
  | (type, value) :: va =>
    '(e, args) ← fmr_append_arg args type value;
    if negb (e =? lf_success) then
      lf_ll_release (Some args);; mret 0
    else fmr_build_loop args va
  end.
(** Builds a linked list from the variadic (type, value) pairs; a null list
    from [lf_ll_create] is taken for a failed allocation. *)
Definition fmr_build (va : list (Z * Z)) : C E Z :=
  let args := lf_ll_create in
  if args =? 0 then mret 0 else fmr_build_loop args va.

(** The loop of [lf_create_call] over the argument nodes: [n] is the current
    node, [dst] the offset of the next argument byte in the packet. *)
Fixpoint create_call_loop (todo : nat) (i : nat) (n : Z) (dst payload_size : nat)
    (pkt : list Z) : C E (Z * nat * list Z) :=
  match todo with
  | O => mret (lf_success, payload_size, pkt)
  | S todo =>
    nd ← load_node n;
    arg ← load_arg (item nd);
    pkt ← lift_opt (set_arg_type pkt i (arg_type arg));
    let arg_size := lf_sizeof (arg_type arg) in
    if decide (FMR_PACKET_SIZE - sizeof_fmr_header < payload_size + arg_size)%nat
    then mret (lf_error, payload_size, pkt)
    else
      pkt ← lift_opt (wr_le pkt dst arg_size (arg_value arg));
      create_call_loop todo (S i) (next nd) (dst + arg_size) (payload_size + arg_size) pkt
  end.

(** Generates the call header and body in the packet; [None] when the header
    or call pointer is null. The module's function index is left 0. *)
Definition lf_create_call (module ret args : Z) (packet : option (list Z))
    : C E (Z * list Z) :=
  match packet with
  | None => mret (lf_error, [])
  | Some pkt =>
    pkt ← lift_opt (wr_le pkt off_call_module 1 module);
    pkt ← lift_opt (wr_le pkt off_call_function 1 0);
    pkt ← lift_opt (wr_le pkt off_call_ret 1 ret);
    count ← (if ctrue args then lf_ll_count args else mret 0);
    let argc := u8 count in
    pkt ← lift_opt (wr_le pkt off_call_argc 1 argc);
    '(e, payload_size, pkt) ←
      create_call_loop (Z.to_nat argc) 0 args off_argv (sizeof_fmr_call + Z.to_nat argc) pkt;
    if negb (e =? lf_success) then mret (lf_error, pkt)
    else
      pkt ← lift_opt (wr_le pkt off_type 1 fmr_rpc_class);
      pkt ← lift_opt (wr_le pkt off_len 2 (Z.of_nat payload_size));
      mret (lf_success, pkt)
  end.

(** Retrieves a module pointer by its index. *)
Fixpoint get_by_index_loop (index : nat) (node : Z) : C E Z :=
  match index with
  | O => mret node
  | S index => if node =? 0 then mret node
               else n ← load_node node; get_by_index_loop index (next n)
  end.
Definition lf_module_get_by_index (device index : Z) : C E Z :=
  if device =? 0 then mret 0
  else
    d ← load_device device;
    if d_modules d =? 0 then mret 0
    else
      node ← get_by_index_loop (Z.to_nat (u8 index)) (d_modules d);
      if node =? 0 then mret 0 else n ← load_node node; mret (item n).
End Helpers.

(** ** Abstract argument lists *)

(** [args_at h l args]: the items of the list entries [l] are the argument
    records [args]. *)
Definition args_at (h : gmap Z obj) (l : list ll_entry) (args : list lf_arg) : Prop :=
  Forall2 (fun e a => h !! e_item e = Some (OArg a)) l args.

Definition arg_size (a : lf_arg) : nat := lf_sizeof (arg_type a).
(** The bytes of one argument and of an argument list on the wire. *)
Definition arg_bytes (a : lf_arg) : list Z := le_bytes (arg_size a) (arg_value a).
Definition args_bytes (args : list lf_arg) : list Z := args ≫= arg_bytes.
Definition args_size (args : list lf_arg) : nat := sum_list (arg_size <$> args).

(** Well-typed argument records: an 8-bit type and a 64-bit value. *)
Definition wf_arg (a : lf_arg) : Prop :=
  0 <= arg_type a < 2 ^ 8 /\ 0 <= arg_value a < 2 ^ 64.

(** A call packet, by its parts. *)
Definition call_packet (hdr : list Z) (module function ret argc : Z) (types argv : list Z) : list Z :=
  hdr ++ [module; function; ret; argc] ++ types ++ argv.

(** The type array and argument area holding exactly [args], zero filled. *)
Definition types_area (args : list lf_arg) : list Z :=
  (arg_type <$> args) ++ replicate (FMR_MAX_ARGC - length args) 0.
Definition argv_area (args : list lf_arg) : list Z :=
  args_bytes args ++ replicate (38 - args_size args) 0.

Arguments call_packet : simpl never.
Arguments types_area : simpl never.
Arguments argv_area : simpl never.
Arguments zero_packet : simpl never.

Section Layout.
Implicit Types (args : list lf_arg).

Lemma length_arg_bytes a : length (arg_bytes a) = arg_size a.
Proof. apply length_le_bytes. Qed.

Lemma length_args_bytes args : length (args_bytes args) = args_size args.
Proof.
  unfold args_size. induction args as [|a args IH]; [done|].
  change (args_bytes (a :: args)) with (arg_bytes a ++ args_bytes args).
  rewrite length_app, IH, length_arg_bytes. done.
Qed.

Lemma args_bytes_byte args : Forall is_byte (args_bytes args).
Proof.
  induction args as [|a args IH]; [constructor|].
  change (args_bytes (a :: args)) with (arg_bytes a ++ args_bytes args).
  apply Forall_app_2; [apply le_bytes_byte|done].
Qed.

Lemma args_size_app l1 l2 : args_size (l1 ++ l2) = (args_size l1 + args_size l2)%nat.
Proof. unfold args_size. by rewrite fmap_app, sum_list_with_app. Qed.

Lemma args_bytes_app l1 l2 : args_bytes (l1 ++ l2) = args_bytes l1 ++ args_bytes l2.
Proof. unfold args_bytes. apply bind_app. Qed.

Lemma args_size_snoc args0 a : args_size (args0 ++ [a]) = (args_size args0 + arg_size a)%nat.
Proof. rewrite args_size_app. unfold args_size. simpl. lia. Qed.

Lemma args_size_cons a args : args_size (a :: args) = (arg_size a + args_size args)%nat.
Proof. done. Qed.

Lemma length_types_area args : (length args <= FMR_MAX_ARGC)%nat -> length (types_area args) = FMR_MAX_ARGC.
Proof. intros. unfold types_area. rewrite length_app, length_fmap, length_replicate. lia. Qed.

Lemma length_argv_area args : (args_size args <= 38)%nat -> length (argv_area args) = 38%nat.
Proof. intros. unfold argv_area. rewrite length_app, length_args_bytes, length_replicate. lia. Qed.

Lemma lf_sizeof_le t : (lf_sizeof t <= 8)%nat.
Proof. unfold lf_sizeof. repeat case_match; lia. Qed.
End Layout.

(** One argument written into a call packet: its type and its bytes. *)
Definition put_arg (pkt : list Z) (i dst : nat) (a : lf_arg) : option (list Z) :=
  pkt ← set_arg_type pkt i (arg_type a);
  wr_le pkt dst (arg_size a) (arg_value a).

Section Encode.
Context (hdr : list Z) (m f r c : Z).
Hypothesis Hhdr : length hdr = 6%nat.

Abbreviation pkt_of args := (call_packet hdr m f r c (types_area args) (argv_area args)).

Lemma set_arg_type_ok args a A :
  (length args < FMR_MAX_ARGC)%nat -> wf_arg a ->
  set_arg_type (call_packet hdr m f r c (types_area args) A) (length args) (arg_type a)
  = Some (call_packet hdr m f r c (types_area (args ++ [a])) A).
Proof.
  intros Hl [Ht _]. unfold set_arg_type, wr_le. rewrite decide_True by done.
  cbn [le_bytes]. rewrite u8_small by done. unfold call_packet, types_area.
  rewrite fmap_app, length_app. unfold FMR_MAX_ARGC in *.
  destruct (16 - length args)%nat as [|k] eqn:Ek; [lia|].
  replace (16 - (length args + length [a]))%nat with k by (simpl; lia).
  transitivity (wr ((hdr ++ [m; f; r; c] ++ (arg_type <$> args)) ++ [0] ++ (replicate k 0 ++ A))
    (off_arg_types + length args) [arg_type a]); [by rewrite <- !app_assoc|].
  rewrite (wr_mid _ [0] _ [arg_type a]); [by rewrite <- !app_assoc| |done].
  rewrite !length_app, length_fmap, Hhdr. simpl. unfold off_arg_types. lia.
Qed.

Lemma put_arg_bytes_ok args a T :
  length T = FMR_MAX_ARGC -> (args_size args + arg_size a <= 38)%nat ->
  wr_le (call_packet hdr m f r c T (argv_area args)) (off_argv + args_size args)
    (arg_size a) (arg_value a)
  = Some (call_packet hdr m f r c T (argv_area (args ++ [a]))).
Proof.
  intros HT Hs. unfold call_packet, argv_area, wr_le.
  rewrite args_size_app, args_bytes_app.
  replace (args_size [a]) with (arg_size a) by (unfold args_size; simpl; lia).
  replace (args_bytes [a]) with (arg_bytes a)
    by (unfold args_bytes; simpl; by rewrite app_nil_r).
  replace (38 - args_size args)%nat
    with (arg_size a + (38 - (args_size args + arg_size a)))%nat by lia.
  rewrite replicate_add. set (z := replicate (38 - _) 0).
  transitivity (wr ((hdr ++ [m; f; r; c] ++ T ++ args_bytes args) ++ replicate (arg_size a) 0 ++ z)
    (off_argv + args_size args) (arg_bytes a)); [by rewrite <- !app_assoc|].
  rewrite wr_mid; [by rewrite <- !app_assoc|..].
  - rewrite !length_app, length_args_bytes, Hhdr, HT. simpl. unfold off_argv, FMR_MAX_ARGC. lia.
  - rewrite length_replicate. symmetry. apply length_le_bytes.
Qed.

Lemma put_arg_ok args a :
  (length args < FMR_MAX_ARGC)%nat -> wf_arg a -> (args_size args + arg_size a <= 38)%nat ->
  put_arg (pkt_of args) (length args) (off_argv + args_size args) a = Some (pkt_of (args ++ [a])).
Proof.
  intros Hl Ha Hs. unfold put_arg. rewrite set_arg_type_ok by done. simpl.
  apply put_arg_bytes_ok; [|done]. apply length_types_area.
  rewrite length_app. simpl. lia.
Qed.

Lemma pkt_of_nil : pkt_of [] = hdr ++ [m; f; r; c] ++ replicate 54 0.
Proof. done. Qed.
End Encode.

Section CreateCall.
Context {E : Type}.
Implicit Types (w : world E) (l : list ll_entry) (args : list lf_arg).

Lemma load_arg_ok w p a : w_heap w !! p = Some (OArg a) -> load_arg p w = Ok (a, w).
Proof. intros H. unfold load_arg. by rewrite H. Qed.

Lemma bind_lift_opt {A B} (o : option A) a (k : A -> C E B) w :
  o = Some a -> (lift_opt o ≫= k) w = k a w.
Proof. by intros ->. Qed.

Context (hdr : list Z) (m f r c : Z).
Hypothesis Hhdr : length hdr = 6%nat.
Abbreviation pkt_of args := (call_packet hdr m f r c (types_area args) (argv_area args)).

(** All arguments fit. *)
Lemma create_call_loop_ok args : forall w l n args0 i dst ps,
  is_ll (w_heap w) n l -> args_at (w_heap w) l args -> Forall wf_arg args ->
  (length (args0 ++ args) <= FMR_MAX_ARGC)%nat ->
  i = length args0 -> dst = (off_argv + args_size args0)%nat ->
  (args_size (args0 ++ args) <= 38)%nat ->
  (ps + args_size args <= FMR_PACKET_SIZE - sizeof_fmr_header)%nat ->
  create_call_loop (length args) i n dst ps (pkt_of args0) w
  = Ok ((lf_success, (ps + args_size args)%nat, pkt_of (args0 ++ args)), w).
Proof.
  induction args as [|a args IH]; intros w l n args0 i dst ps Hl Ha Hwf Hn -> -> H38 Hs.
  - rewrite app_nil_r. unfold args_size. simpl. by rewrite Nat.add_0_r.
  - apply Forall2_cons_inv_r in Ha as (e & l' & He & Ha & ->).
    apply Forall_cons in Hwf as [Hwa Hwf]. destruct Hl as (-> & _ & n' & Hn' & Hl').
    cbn [length create_call_loop].
    mstep (load_node_ok _ _ _ Hn'). cbn [item next]. mstep (load_arg_ok _ _ _ He).
    rewrite length_app in Hn. simpl in Hn.
    rewrite args_size_app in H38. rewrite args_size_cons in *.
    rewrite (bind_lift_opt _ _ _ _ (set_arg_type_ok hdr m f r c Hhdr args0 a (argv_area args0)
               ltac:(lia) Hwa)).
    fold (arg_size a). rewrite decide_False by lia.
    rewrite (bind_lift_opt _ _ _ _ (put_arg_bytes_ok hdr m f r c Hhdr args0 a (types_area (args0 ++ [a]))
               ltac:(apply length_types_area; rewrite length_app; simpl; lia) ltac:(lia))).
    rewrite (IH w l' n' (args0 ++ [a])); try done.
    + rewrite <- app_assoc. simpl. by rewrite Nat.add_assoc.
    + rewrite !length_app. simpl. lia.
    + rewrite length_app. simpl. lia.
    + rewrite args_size_snoc. lia.
    + rewrite args_size_app, args_size_snoc. lia.
    + lia.
Qed.

(** The arguments do not fit: the loop stops with an error. *)
Lemma create_call_loop_overflow args : forall w l n args0 i dst ps,
  is_ll (w_heap w) n l -> args_at (w_heap w) l args -> Forall wf_arg args ->
  (length (args0 ++ args) <= FMR_MAX_ARGC)%nat ->
  i = length args0 -> dst = (off_argv + args_size args0)%nat ->
  (sizeof_fmr_call + args_size args0 <= ps <= FMR_PACKET_SIZE - sizeof_fmr_header)%nat ->
  (FMR_PACKET_SIZE - sizeof_fmr_header < ps + args_size args)%nat ->
  exists ps' pkt', create_call_loop (length args) i n dst ps (pkt_of args0) w
    = Ok ((lf_error, ps', pkt'), w).
Proof.
  induction args as [|a args IH]; intros w l n args0 i dst ps Hl Ha Hwf Hn -> -> Hps Hs.
  - change (args_size []) with 0%nat in Hs. lia.
  - apply Forall2_cons_inv_r in Ha as (e & l' & He & Ha & ->).
    apply Forall_cons in Hwf as [Hwa Hwf]. destruct Hl as (-> & _ & n' & Hn' & Hl').
    cbn [length create_call_loop].
    mstep (load_node_ok _ _ _ Hn'). cbn [item next]. mstep (load_arg_ok _ _ _ He).
    rewrite length_app in Hn. simpl in Hn. rewrite args_size_cons in Hs.
    rewrite (bind_lift_opt _ _ _ _ (set_arg_type_ok hdr m f r c Hhdr args0 a (argv_area args0)
               ltac:(lia) Hwa)).
    fold (arg_size a). case_decide as Hd; [by eauto|].
    rewrite (bind_lift_opt _ _ _ _ (put_arg_bytes_ok hdr m f r c Hhdr args0 a (types_area (args0 ++ [a]))
               ltac:(apply length_types_area; rewrite length_app; simpl; lia)
               ltac:(unfold sizeof_fmr_call, FMR_PACKET_SIZE, sizeof_fmr_header in *; lia))).
    apply (IH w l' n' (args0 ++ [a])); try done.
    + rewrite !length_app. simpl. lia.
    + rewrite length_app. simpl. lia.
    + rewrite args_size_snoc. lia.
    + rewrite args_size_snoc. lia.
    + lia.
Qed.
End CreateCall.

Section CreateCallSpec.
Context {E : Type}.
Implicit Types (w : world E) (l : list ll_entry) (args : list lf_arg).

(** The body of a call packet before any argument is written. *)
Lemma call_prefix_ok (hdr : list Z) module ret argc :
  length hdr = 6%nat ->
  (pkt ← wr_le (hdr ++ replicate 58 0) off_call_module 1 module;
   pkt ← wr_le pkt off_call_function 1 0;
   pkt ← wr_le pkt off_call_ret 1 ret;
   wr_le pkt off_call_argc 1 argc)
  = Some (call_packet hdr (u8 module) 0 (u8 ret) (u8 argc) (types_area []) (argv_area [])).
Proof. intros H. do 7 (destruct hdr as [|? hdr]; try done). Qed.

(** Header fields live in the first six bytes. *)
Lemma wr_hdr (hdr hdr' tl bs : list Z) off :
  wr hdr off bs = Some hdr' -> wr (hdr ++ tl) off bs = Some (hdr' ++ tl).
Proof. apply wr_app_l. Qed.

Lemma count_args w p l args :
  is_ll (w_heap w) p l -> args_at (w_heap w) l args ->
  (if ctrue p then lf_ll_count p else mret 0) w = Ok (Z.of_nat (length args), w).
Proof.
  intros Hl Ha. rewrite <- (Forall2_length _ _ _ Ha), (is_ll_head_nonzero _ _ _ Hl).
  case_bool_decide as Hn; [by subst l|]. cbn [negb]. by apply lf_ll_count_spec.
Qed.

Lemma u8_args args :
  (length args <= FMR_MAX_ARGC)%nat -> u8 (Z.of_nat (length args)) = Z.of_nat (length args).
Proof. intros Hn. apply u8_small. unfold FMR_MAX_ARGC in Hn. lia. Qed.

(** The straight-line part of [lf_create_call], before any continuation. *)
Lemma call_prefix_run {A} w p l args (hdr : list Z) module ret (k : Z -> list Z -> C E A) :
  is_ll (w_heap w) p l -> args_at (w_heap w) l args -> (length args <= FMR_MAX_ARGC)%nat ->
  length hdr = 6%nat ->
  (pkt ← lift_opt (wr_le (hdr ++ replicate 58 0) off_call_module 1 module);
   pkt ← lift_opt (wr_le pkt off_call_function 1 0);
   pkt ← lift_opt (wr_le pkt off_call_ret 1 ret);
   count ← (if ctrue p then lf_ll_count p else mret 0);
   pkt ← lift_opt (wr_le pkt off_call_argc 1 (u8 count));
   k count pkt) w
  = k (Z.of_nat (length args))
      (call_packet hdr (u8 module) 0 (u8 ret) (Z.of_nat (length args)) (types_area []) (argv_area [])) w.
Proof.
  intros Hl Ha Hn Hh.
  pose proof (call_prefix_ok hdr module ret (Z.of_nat (length args)) Hh) as Hpre.
  unfold mbind at 1 2 3, option_bind in Hpre.
  destruct (wr_le (hdr ++ replicate 58 0) off_call_module 1 module) as [p1|]; [|done].
  rewrite (bind_lift_opt (Some p1) p1 _ _ eq_refl).
  destruct (wr_le p1 off_call_function 1 0) as [p2|]; [|done].
  rewrite (bind_lift_opt (Some p2) p2 _ _ eq_refl).
  destruct (wr_le p2 off_call_ret 1 ret) as [p3|]; [|done].
  rewrite (bind_lift_opt (Some p3) p3 _ _ eq_refl).
  mstep (count_args _ _ _ _ Hl Ha). rewrite (u8_args args Hn) in *.
  by rewrite (bind_lift_opt _ _ _ _ Hpre).
Qed.

(** [lf_create_call] on a fresh packet, when the arguments fit: the packet
    holds the call, and the header the class and the length. *)
Lemma lf_create_call_spec w p l args module ret (mg c0 c1 n0 n1 ty : Z) :
  is_ll (w_heap w) p l -> args_at (w_heap w) l args -> Forall wf_arg args ->
  (length args <= FMR_MAX_ARGC)%nat ->
  (sizeof_fmr_call + length args + args_size args <= FMR_PACKET_SIZE - sizeof_fmr_header)%nat ->
  lf_create_call module ret p (Some ([mg; c0; c1; n0; n1; ty] ++ replicate 58 0)) w
  = Ok ((lf_success,
         call_packet ([mg; c0; c1] ++
                      le_bytes 2 (Z.of_nat (sizeof_fmr_call + length args + args_size args)) ++ [0])
           (u8 module) 0 (u8 ret) (Z.of_nat (length args)) (types_area args) (argv_area args)), w).
Proof.
  intros Hl Ha Hwf Hn Hs. unfold lf_create_call.
  set (hdr := [mg; c0; c1; n0; n1; ty]).
  rewrite (call_prefix_run w p l args hdr module ret
    (fun count pkt =>
      '(e, payload_size, pkt) ← create_call_loop (Z.to_nat (u8 count)) 0 p off_argv
        (sizeof_fmr_call + Z.to_nat (u8 count)) pkt;
      if negb (e =? lf_success) then mret (lf_error, pkt)
      else
        pkt ← lift_opt (wr_le pkt off_type 1 fmr_rpc_class);
        pkt ← lift_opt (wr_le pkt off_len 2 (Z.of_nat payload_size));
        mret (lf_success, pkt)) Hl Ha Hn eq_refl).
  rewrite (u8_args args Hn), Nat2Z.id.
  rewrite (bind_Ok _ _ _ _ _ (create_call_loop_ok hdr (u8 module) 0 (u8 ret) (Z.of_nat (length args))
             eq_refl args w l p [] 0 off_argv (sizeof_fmr_call + length args)
             Hl Ha Hwf Hn eq_refl eq_refl
             ltac:(unfold sizeof_fmr_call, FMR_PACKET_SIZE, sizeof_fmr_header in *; simpl; lia) Hs)).
  cbn [lf_success lf_error Z.eqb negb app].
  unfold call_packet. set (tl := [u8 module; 0; u8 ret; Z.of_nat (length args)] ++ _ ++ _).
  rewrite (bind_lift_opt _ ([mg; c0; c1; n0; n1; 0] ++ tl)) by (by apply (wr_hdr hdr)).
  rewrite (bind_lift_opt _ (([mg; c0; c1] ++
             le_bytes 2 (Z.of_nat (sizeof_fmr_call + length args + args_size args)) ++ [0]) ++ tl));
    [done|]. by apply (wr_hdr [mg; c0; c1; n0; n1; 0]).
Qed.

(** When they do not fit nothing is sent: an error is returned. *)
Lemma lf_create_call_overflow w p l args module ret (hdr : list Z) :
  is_ll (w_heap w) p l -> args_at (w_heap w) l args -> Forall wf_arg args ->
  (length args <= FMR_MAX_ARGC)%nat -> length hdr = 6%nat ->
  (FMR_PACKET_SIZE - sizeof_fmr_header < sizeof_fmr_call + length args + args_size args)%nat ->
  exists pkt, lf_create_call module ret p (Some (hdr ++ replicate 58 0)) w = Ok ((lf_error, pkt), w).
Proof.
  intros Hl Ha Hwf Hn Hh Hs. unfold lf_create_call.
  rewrite (call_prefix_run w p l args hdr module ret
    (fun count pkt =>
      '(e, payload_size, pkt) ← create_call_loop (Z.to_nat (u8 count)) 0 p off_argv
        (sizeof_fmr_call + Z.to_nat (u8 count)) pkt;
      if negb (e =? lf_success) then mret (lf_error, pkt)
      else
        pkt ← lift_opt (wr_le pkt off_type 1 fmr_rpc_class);
        pkt ← lift_opt (wr_le pkt off_len 2 (Z.of_nat payload_size));
        mret (lf_success, pkt)) Hl Ha Hn Hh).
  rewrite (u8_args args Hn), Nat2Z.id.
  destruct (create_call_loop_overflow hdr (u8 module) 0 (u8 ret) (Z.of_nat (length args)) Hh
              args w l p [] 0 off_argv (sizeof_fmr_call + length args)) as (ps & pkt & Hrun); try done.
  - unfold sizeof_fmr_call, FMR_PACKET_SIZE, sizeof_fmr_header, FMR_MAX_ARGC in *.
    change (args_size []) with 0%nat. lia.
  - mstep Hrun. by exists pkt.
Qed.
End CreateCallSpec.

(** ** Checksummed packets *)

(** A packet the receiver accepts: the magic number, and a checksum over the
    [len] bytes the header announces, its own field counted as zero. *)
Definition packet_ok (pkt : list Z) : Prop :=
  exists len crc pkt0,
    rd_le pkt off_magic 1 = Some FMR_MAGIC_NUMBER /\ rd_le pkt off_len 2 = Some len /\
    rd_le pkt off_crc 2 = Some crc /\ wr_le pkt off_crc 2 0 = Some pkt0 /\
    packet_crc pkt0 len = Some crc.

Section Seal.
Lemma packet_crc_range pkt len crc : packet_crc pkt len = Some crc -> 0 <= crc < 2 ^ 16.
Proof.
  unfold packet_crc, lf_crc. intros (bs & _ & ->)%fmap_Some. apply calcrc_u16.
Qed.

(** Storing the checksum in a packet whose field is zero makes it valid. *)
Lemma seal_ok pkt len crc pkt' :
  rd_le pkt off_magic 1 = Some FMR_MAGIC_NUMBER -> rd_le pkt off_len 2 = Some len ->
  rd pkt off_crc 2 = Some [0; 0] ->
  packet_crc pkt len = Some crc -> wr_le pkt off_crc 2 crc = Some pkt' -> packet_ok pkt'.
Proof.
  intros Hm Hl H0 Hc Hw. exists len, crc, pkt. unfold wr_le in *.
  repeat split.
  - by rewrite (rd_le_wr_ne _ _ _ _ _ _ Hw) by (left; unfold off_magic, off_crc; lia).
  - by rewrite (rd_le_wr_ne _ _ _ _ _ _ Hw) by (right; unfold off_len, off_crc; simpl; lia).
  - rewrite (rd_wr_le _ _ _ _ _ Hw). f_equal. apply Z.mod_small.
    by apply packet_crc_range in Hc.
  - rewrite (wr_wr_eq _ _ _ _ _ Hw) by done. by apply (wr_rd _ _ 2).
  - done.
Qed.
End Seal.
