(* ===== verification/Transport.v ===== *)
(** * Endpoints: what a device's read and write functions promise

    Device records hold function pointers to the endpoint's read, write and
    release functions. [Transport] gives their meaning, [TransportOk] the frame
    the library relies on: an endpoint only touches its own context objects and
    the environment. *)

From S2P Require Import Prelude World Errors Device LinkedList.
From stdpp Require Import base list gmap sets.
From Stdlib Require Import ZArith Lia.
Local Open Scope Z_scope.

(** [tr_write f device src]: the write function [f]; [tr_read f device dst]: the
    read function [f] on a destination holding [dst], with its new contents. *)
Class Transport (E : Type) := {
  tr_write : Z -> Z -> list Z -> C E Z;
  tr_read : Z -> Z -> list Z -> C E (Z * list Z);
}.

Section Calls.
Context {E : Type} `{!Transport E}.

(** [device->write(device, src, length)] *)
Definition device_write (device : Z) (src : list Z) : C E Z :=
  d ← load_device device; tr_write (d_write d) device src.

(** [device->read(device, dst, length)] *)
Definition device_read (device : Z) (dst : list Z) : C E (Z * list Z) :=
  d ← load_device device; tr_read (d_read d) device dst.
End Calls.

(** Endpoint contexts, the objects endpoints own. *)
Definition is_ctx (o : obj) : bool := match o with ONet _ | OUsb _ => true | _ => false end.

(** [w'] differs from [w] only in the error register, the environment and
    endpoint contexts. *)
Record io_frame {E} (w w' : world E) : Prop := {
  iof_next : w_next w' = w_next w;
  iof_fail : w_fail w' = w_fail w;
  iof_junk : w_junk w' = w_junk w;
  iof_attached : w_attached w' = w_attached w;
  iof_current : w_current w' = w_current w;
  iof_registry : w_registry w' = w_registry w;
  iof_packet : w_current_packet w' = w_current_packet w;
  iof_dom : dom (w_heap w') = dom (w_heap w);
  iof_heap : forall p o, is_ctx o = false -> w_heap w !! p = Some o -> w_heap w' !! p = Some o;
}.

Class TransportOk (E : Type) `{!Transport E} := {
  tr_write_frame f d bs w r w' : tr_write f d bs w = Ok (r, w') -> io_frame w w';
  tr_read_frame f d bs w r bs' w' : tr_read f d bs w = Ok ((r, bs'), w') -> io_frame w w';
  tr_read_length f d bs w r bs' w' : tr_read f d bs w = Ok ((r, bs'), w') -> length bs' = length bs;
}.

Section Frame.
Context {E : Type}.
Implicit Types w : world E.

#[global] Instance io_frame_refl : Reflexive (@io_frame E).
Proof. intros w. by constructor. Qed.

#[global] Instance io_frame_trans : Transitive (@io_frame E).
Proof.
  intros w1 w2 w3 [] []. constructor; try congruence. eauto.
Qed.

Lemma io_frame_set_err e w : io_frame w (set_err e w).
Proof. by constructor. Qed.

Lemma io_frame_wf w w' : io_frame w w' -> wf_world w -> wf_world w'.
Proof.
  intros Hf [Hb Hw]. split; [by rewrite (iof_next _ _ Hf)|].
  intros p o Hp. rewrite (iof_next _ _ Hf).
  assert (p ∈ dom (w_heap w)) as [o' Ho']%elem_of_dom.
  { rewrite <- (iof_dom _ _ Hf). apply elem_of_dom. eauto. }
  by apply (Hw p o').
Qed.

Lemma io_frame_ll w w' p l : io_frame w w' -> is_ll (w_heap w) p l -> is_ll (w_heap w') p l.
Proof.
  intros Hf Hl. apply (is_ll_frame (w_heap w)); [done|]. intros a Ha.
  destruct (is_ll_lookup _ _ _ _ Hl Ha) as (_ & n & Hn). rewrite Hn.
  by apply (iof_heap _ _ Hf).
Qed.

Lemma load_device_ok w p d : w_heap w !! p = Some (ODevice d) -> load_device p w = Ok (d, w).
Proof. intros H. unfold load_device. by rewrite H. Qed.

Lemma load_module_ok w p m : w_heap w !! p = Some (OModule m) -> load_module p w = Ok (m, w).
Proof. intros H. unfold load_module. by rewrite H. Qed.

Context `{!Transport E, !TransportOk E}.

Lemma device_write_frame dev bs w r w' : device_write dev bs w = Ok (r, w') -> io_frame w w'.
Proof.
  unfold device_write. intros (d & w1 & Hd & Hrun)%bind_Ok_inv.
  unfold load_device in Hd. repeat case_match; simplify_eq. by eapply tr_write_frame.
Qed.

Lemma device_read_frame dev bs w r bs' w' :
  device_read dev bs w = Ok ((r, bs'), w') -> io_frame w w'.
Proof.
  unfold device_read. intros (d & w1 & Hd & Hrun)%bind_Ok_inv.
  unfold load_device in Hd. repeat case_match; simplify_eq. by eapply tr_read_frame.
Qed.
End Frame.

(** ** Computations that only touch endpoint state *)

Definition framed {E A} (m : C E A) : Prop :=
  forall w a w', m w = Ok (a, w') -> io_frame w w'.

Section Framed.
Context {E : Type}.

Lemma framed_ret {A} (a : A) : framed (E:=E) (mret a).
Proof. intros w b w' [= <- <-]. reflexivity. Qed.

Lemma framed_bind {A B} (m : C E A) (f : A -> C E B) :
  framed m -> (forall a, framed (f a)) -> framed (m ≫= f).
Proof.
  intros Hm Hf w b w' (a & w1 & H1 & H2)%bind_Ok_inv.
  etrans; [by eapply Hm|by eapply Hf].
Qed.

Lemma framed_ub {A} : framed (E:=E) (A:=A) ub.
Proof. by intros w a w'. Qed.

Lemma framed_lift_opt {A} (o : option A) : framed (E:=E) (lift_opt o).
Proof. destruct o; [apply framed_ret|apply framed_ub]. Qed.

Lemma framed_assert {A} b err (ok fail : C E A) :
  framed ok -> framed fail -> framed (lf_assert b err ok fail).
Proof.
  intros Hok Hf. destruct b; [done|]. apply framed_bind; [|done].
  intros w a w' [= <- <-]. apply io_frame_set_err.
Qed.

Lemma framed_load_device p : framed (E:=E) (load_device p).
Proof. intros w a w' H. unfold load_device in H. repeat case_match; simplify_eq. reflexivity. Qed.
Lemma framed_load_net p : framed (E:=E) (load_net p).
Proof. intros w a w' H. unfold load_net in H. repeat case_match; simplify_eq. reflexivity. Qed.
Lemma framed_load_usb p : framed (E:=E) (load_usb p).
Proof. intros w a w' H. unfold load_usb in H. repeat case_match; simplify_eq. reflexivity. Qed.

(** Overwriting an endpoint context by another one. *)
Lemma io_frame_store_ctx (w : world E) p o o' :
  w_heap w !! p = Some o -> is_ctx o = true ->
  io_frame w (set_heap (<[p := o']> (w_heap w)) w).
Proof.
  intros Hp Ho. constructor; try done; cbn [w_heap set_heap].
  - rewrite dom_insert_L. apply elem_of_dom_2 in Hp. set_solver.
  - intros q o2 H2 Hq. rewrite lookup_insert_ne; [done|]. congruence.
Qed.

Lemma framed_update_net {A} p (f : lf_network_context -> lf_network_context) (k : C E A) :
  framed k -> framed (c ← load_net p; store p (ONet (f c));; k).
Proof.
  intros Hk w a w' (c & w1 & H1 & (u & w2 & H2 & H3)%bind_Ok_inv)%bind_Ok_inv.
  unfold load_net in H1. repeat case_match; simplify_eq.
  erewrite store_ok in H2 by done. simplify_eq.
  etrans; [by eapply io_frame_store_ctx|by eapply Hk].
Qed.

(** A step on the environment alone. *)
Lemma io_frame_set_env (e : E) w : io_frame w (set_env e w).
Proof. by constructor. Qed.
End Framed.

Create HintDb framed.
#[export] Hint Resolve framed_ret framed_ub framed_lift_opt framed_load_device framed_load_net
  framed_load_usb : framed.
(** Decomposes a computation into its framed steps. *)
Ltac framed :=
  repeat first
    [ solve [eauto with framed]
    | apply framed_assert
    | apply framed_update_net
    | apply framed_bind; [|intros ?]
    | case_match ].

(** ** Firmware operations in a program that uses the library

    On a processor of its own the environment is the hardware, and an operation
    on the hardware runs inside the program. *)

Definition on_env {E A} (m : M E A) : C E A := fun w =>
  match m (w_env w) with
  | Ok (a, e) => Ok (a, set_env e w)
  | Ub => Ub
  | Spin => Spin
  end.

Section OnEnv.
Context {E A : Type}.
Implicit Types (m : M E A) (w : world E).

Lemma on_env_ok m w a e : m (w_env w) = Ok (a, e) -> on_env m w = Ok (a, set_env e w).
Proof. intros H. unfold on_env. by rewrite H. Qed.

Lemma on_env_spin m w : m (w_env w) = Spin -> on_env m w = Spin.
Proof. intros H. unfold on_env. by rewrite H. Qed.

Lemma on_env_frame m w a w' : on_env m w = Ok (a, w') -> io_frame w w'.
Proof.
  unfold on_env. destruct (m (w_env w)) as [[x e]| |]; [|done..]. intros [= <- <-]. apply io_frame_set_env.
Qed.
End OnEnv.
