(* ===== verification/Dyld.v ===== *)
(** * The dynamic loader (lib/dyld.c)

    Registration of modules on a device, lookup by name, and the lookup of a
    module's index over the endpoint. *)

From S2P Require Import Prelude World Errors Device LinkedList Crc FmrPacket Transport.
From stdpp Require Import base list gmap sets strings.
From Stdlib Require Import ZArith Lia.
Local Open Scope Z_scope.

(** [strcmp(buf, s) == 0] for a character array [buf]: [None] when the
    comparison runs off the array. *)
Fixpoint strcmp_eq (buf s : list Z) : option bool :=
  match buf, s with
  | [], _ => None
  | b :: _, [] => Some (b =? 0)
  | b :: buf, c :: s => if b =? c then strcmp_eq buf s else Some false
  end.

(** The lookup packet: header, then the name and its terminator. *)
Definition dyld_packet (module : list Z) : option (list Z) :=
  pkt ← wr_le zero_packet off_magic 1 FMR_MAGIC_NUMBER;
  pkt ← wr_le pkt off_len 2 (Z.of_nat sizeof_fmr_header);
  pkt ← wr_le pkt off_type 1 fmr_dyld_class;
  pkt ← wr pkt sizeof_fmr_header (module ++ [0]);
  let len := u16 (Z.of_nat sizeof_fmr_header + Z.of_nat (length module) + 1) in
  pkt ← wr_le pkt off_len 2 len;
  crc ← packet_crc pkt len;
  wr_le pkt off_crc 2 crc.

Section Dyld.
Context {E : Type} `{!Transport E}.

(** Uninitialised stack memory of a [struct _fmr_result]. *)
Definition stack_result : C E (list Z) :=
  gets (fun w => le_bytes 8 (w_junk w 0) ++ le_bytes 1 (w_junk w 8)).

(** The search loop of [lf_module_get_by_name] from position [i]. *)
Fixpoint get_by_name_loop (todo i : nat) (modules : Z) (name : list Z) : C E Z :=
  match todo with
  | O => mret 0
  | S todo =>
    mod_ ← lf_ll_item modules i;
    if mod_ =? 0 then get_by_name_loop todo (S i) modules name
    else
      m ← load_module mod_;
      eq ← lift_opt (strcmp_eq (m_name m) name);
      if (eq : bool) then mret mod_ else get_by_name_loop todo (S i) modules name
  end.

Definition lf_module_get_by_name (device : Z) (name : option (list Z)) : C E Z :=
  lf_assert (ctrue device) E_NULL
    (match name with
     | None => _lf_assert (err_code E_NULL);; mret 0
     | Some s =>
       d ← load_device device;
       count ← lf_ll_count (d_modules d);
       get_by_name_loop (Z.to_nat count) 0 (d_modules d) s
     end)
    (mret 0).

Definition set_modules (d : lf_device) (head : Z) : lf_device :=
  LfDevice (d_name d) (d_version d) (d_type d) head (d_read d) (d_write d) (d_release d)
    (d_dev_ctx d) (d_ep_ctx d).
Definition set_idx (m : lf_module) (idx : Z) : lf_module :=
  LfModule (m_name m) (m_version m) idx (m_interface m) (m_table m) (m_length m) (m_state m).

Definition dyld_register (device module : Z) : C E Z :=
  lf_assert (ctrue device) E_NULL
    (lf_assert (ctrue module) E_NULL
      (m ← load_module module;
       name ← lift_opt (cstr (m_name m));
       existing ← lf_module_get_by_name device (Some name);
       if ctrue existing then mret lf_success
       else
         d ← load_device device;
         (if m_idx m =? UINT16_MAX then
            count ← lf_ll_count (d_modules d);
            store module (OModule (set_idx m (u16 count)))
          else mret tt);;
         '(result, head) ← lf_ll_append (Some (d_modules d)) module fn_lf_module_release;
         store device (ODevice (set_modules d (default 0 head)));;
         if negb (result =? lf_success) then mret lf_error else mret lf_success)
      (mret lf_error))
    (mret lf_error).

Definition dyld_load (device src len : Z) : C E Z := mret lf_success.

(** The device gets the name "fvm" when it has none. *)
Definition default_name (device : Z) : C E unit :=
  d ← load_device device;
  match d_name d with
  | 0 :: _ =>
    store device (ODevice (LfDevice (name32 str_fvm) (d_version d) (d_type d) (d_modules d)
      (d_read d) (d_write d) (d_release d) (d_dev_ctx d) (d_ep_ctx d)))
  | _ => mret tt
  end.

(** Asks the device for a module's index: the status, and the index when it
    was written. *)
Definition lf_dyld_dyn_sym_lookup (device : Z) (module : option (list Z)) : C E (Z * option Z) :=
  lf_assert (ctrue device) E_NULL
    (match module with
     | None => _lf_assert (err_code E_NULL);; mret (lf_error, None)
     | Some s =>
       default_name device;;
       if decide (LF_MODULE_NAME_MAX <= length s)%nat then mret (lf_error, None)
       else
         pkt ← lift_opt (dyld_packet s);
         e ← device_write device pkt;
         lf_assert (e =? lf_success) E_ENDPOINT
           (res0 ← stack_result;
            '(e, result) ← device_read device res0;
            lf_assert (e =? lf_success) E_ENDPOINT
              (lf_assert_code (result_error result =? err_code E_OK) (result_error result)
                 (mret (lf_success, Some (u16 (result_value result))))
                 (mret (lf_error, None)))
              (mret (lf_error, None)))
           (mret (lf_error, None))
     end)
    (mret (lf_error, None)).

(** The search loop of [dyld_module], which reads each name before testing
    the pointer. *)
Fixpoint dyld_module_loop (todo i : nat) (modules : Z) (name : list Z) : C E (option Z) :=
  match todo with
  | O => mret None
  | S todo =>
    mp ← lf_ll_item modules i;
    m ← load_module mp;
    eq ← lift_opt (strcmp_eq (m_name m) name);
    if (eq : bool) then mret (Some mp) else dyld_module_loop todo (S i) modules name
  end.

Definition dyld_module (device : Z) (module : option (list Z)) : C E Z :=
  lf_assert (ctrue device) E_NULL
    (match module with
     | None => _lf_assert (err_code E_NULL);; mret 0
     | Some s =>
       d ← load_device device;
       count ← lf_ll_count (d_modules d);
       found ← dyld_module_loop (Z.to_nat count) 0 (d_modules d) s;
       match found with
       | Some mp => mret mp
       | None =>
         '(e, idx) ← lf_dyld_dyn_sym_lookup device (Some s);
         if negb (e =? lf_success) then
           lf_error_set (err_code E_MODULE);; mret 0
         else
           mp ← lf_module_create (Some s) (default 0 idx);
           lf_assert (ctrue mp) E_NULL
             (m ← load_module mp;
              store mp (OModule (LfModule (name32 s) (m_version m) (m_idx m) (m_interface m)
                          (m_table m) (m_length m) (m_state m)));;
              e ← dyld_register device mp;
              if negb (e =? lf_success) then
                free mp;; lf_error_set (err_code E_MODULE);; mret 0
              else mret mp)
             (mret 0)
       end
     end)
    (mret 0).

Definition dyld_unload (device : Z) (module : option (list Z)) : C E Z :=
  lf_assert (ctrue device) E_NULL
    (match module with
     | None => _lf_assert (err_code E_NULL);; mret lf_error
     | Some s =>
       f ← dyld_module device (Some s);
       lf_assert (f =? 0) E_NULL
         (d ← load_device device;
          head ← lf_ll_remove (Some (d_modules d)) f;
          store device (ODevice (set_modules d (default 0 head)));;
          mret lf_success)
         (mret lf_error)
     end)
    (mret lf_error).
End Dyld.

(** ** Module registries *)

(** The items of the list entries [l] are the module records [ms]. *)
Definition modules_at (h : gmap Z obj) (l : list ll_entry) (ms : list lf_module) : Prop :=
  Forall2 (fun e m => h !! e_item e = Some (OModule m)) l ms.

Definition has_name (s : list Z) (m : lf_module) : Prop := cstr (m_name m) = Some s.
#[global] Instance has_name_dec s m : Decision (has_name s m).
Proof. unfold has_name. apply _. Defined.

(** Every name is terminated within its array. *)
Definition named (m : lf_module) : Prop := exists s, has_name s m.

(** The device [p] is [d], its modules the entries [l] with records [ms]. *)
Record device_at (h : gmap Z obj) (p : Z) (d : lf_device) (l : list ll_entry)
    (ms : list lf_module) : Prop := {
  da_dev : h !! p = Some (ODevice d);
  da_ll : is_ll h (d_modules d) l;
  da_mods : modules_at h l ms;
  da_named : Forall named ms;
}.

(** The item of the first entry whose module has the name, [NULL] if none. *)
Fixpoint find_named (s : list Z) (l : list ll_entry) (ms : list lf_module) : Z :=
  match l, ms with
  | e :: l, m :: ms => if decide (has_name s m) then e_item e else find_named s l ms
  | _, _ => 0
  end.

(** The record [dyld_register] links: it gets its position when it has no index. *)
Definition indexed (m : lf_module) (n : nat) : lf_module :=
  if m_idx m =? UINT16_MAX then set_idx m (u16 (Z.of_nat n)) else m.

(** Each module's index is its position, which is what calls address it by. *)
Definition positional (ms : list lf_module) : Prop :=
  forall i m, ms !! i = Some m -> m_idx m = Z.of_nat i.

(** Names are unique. *)
Definition names_unique (ms : list lf_module) : Prop :=
  forall i j m m' s, ms !! i = Some m -> ms !! j = Some m' ->
    has_name s m -> has_name s m' -> i = j.

Section Names.
Lemma strcmp_eq_ok buf s t :
  cstr buf = Some s -> is_cstring t -> strcmp_eq buf t = Some (bool_decide (s = t)).
Proof.
  revert s t. induction buf as [|b buf IH]; intros s t Hs Ht; simpl in Hs; [done|].
  destruct (Z.eqb_spec b 0) as [->|Hb]; simplify_eq.
  - destruct t as [|c t]; [done|]. apply Forall_cons in Ht as [Hc _]. simpl.
    by destruct c.
  - destruct (cstr buf) as [s'|] eqn:Hs'; simplify_eq/=.
    destruct t as [|c t]; simpl.
    + by destruct (Z.eqb_spec b 0).
    + apply Forall_cons in Ht as [_ Ht]. destruct (Z.eqb_spec b c) as [->|Hbc].
      * rewrite (IH s' t eq_refl Ht). f_equal. apply bool_decide_ext. naive_solver.
      * by rewrite bool_decide_false by congruence.
Qed.

Lemma strcmp_named m t :
  named m -> is_cstring t -> strcmp_eq (m_name m) t = Some (bool_decide (has_name t m)).
Proof.
  intros [s Hs] Ht. rewrite (strcmp_eq_ok _ s t Hs Ht). f_equal. unfold has_name in *.
  apply bool_decide_ext. rewrite Hs. naive_solver.
Qed.

Lemma find_named_none s l ms :
  length l = length ms -> Forall (fun m => ~ has_name s m) ms -> find_named s l ms = 0.
Proof.
  intros Hl Hn. revert l Hl. induction Hn as [|m ms Hm _ IH]; intros [|e l] Hl; simplify_eq/=; [done|].
  rewrite decide_False by done. by apply IH.
Qed.

(** A hit is the first entry with the name. *)
Lemma find_named_some s l ms i m e :
  ms !! i = Some m -> l !! i = Some e -> has_name s m ->
  (forall j m', (j < i)%nat -> ms !! j = Some m' -> ~ has_name s m') ->
  find_named s l ms = e_item e.
Proof.
  revert l ms. induction i as [|i IH]; intros [|e0 l] [|m0 ms] Hm He Hs Hlt; simplify_eq/=.
  - by rewrite decide_True.
  - rewrite decide_False by (apply (Hlt 0%nat); [lia|done]).
    apply IH; try done. intros j m' Hj. apply (Hlt (S j)). lia.
Qed.

Lemma find_named_cases s l ms :
  length l = length ms ->
  (Forall (fun m => ~ has_name s m) ms /\ find_named s l ms = 0) \/
  (exists i m e, ms !! i = Some m /\ l !! i = Some e /\ has_name s m /\
     (forall j m', (j < i)%nat -> ms !! j = Some m' -> ~ has_name s m') /\
     find_named s l ms = e_item e).
Proof.
  revert l. induction ms as [|m ms IH]; intros [|e l] Hl; simplify_eq/=; [by left|].
  case_decide as Hs.
  - right. exists 0%nat, m, e. repeat split; try done. intros j m' Hj. lia.
  - destruct (IH l Hl) as [[Hn Hf]|(i & m' & e' & Hm & He & Hs' & Hlt & Hf)].
    + left. split; [by constructor|done].
    + right. exists (S i), m', e'. repeat split; try done.
      intros [|j] m'' Hj Hm''; simplify_eq/=; [done|]. apply (Hlt j); [lia|done].
Qed.
End Names.

Section Registry.
Context {E : Type} `{!Transport E}.
Implicit Types (w : world E) (l : list ll_entry) (ms : list lf_module).

Lemma modules_at_length h l ms : modules_at h l ms -> length l = length ms.
Proof. apply Forall2_length. Qed.

Lemma modules_at_item h l ms i e m :
  modules_at h l ms -> l !! i = Some e -> ms !! i = Some m -> h !! e_item e = Some (OModule m).
Proof. intros Hm He Hi. by apply (Forall2_lookup_lr _ _ _ _ _ _ Hm He Hi). Qed.

Lemma modules_at_frame h h' l ms :
  modules_at h l ms -> (forall e, e ∈ l -> h' !! e_item e = h !! e_item e) -> modules_at h' l ms.
Proof.
  intros Hm Hf. apply Forall2_same_length_lookup. split; [by eapply Forall2_length|].
  intros i e m He Hi. rewrite Hf by (by eapply list_elem_of_lookup_2).
  by eapply modules_at_item.
Qed.

Lemma device_at_nonnull w p d l ms : wf_world w -> device_at (w_heap w) p d l ms -> p <> 0.
Proof. intros Hw Hda ->. pose proof (da_dev _ _ _ _ _ Hda) as Hd. by rewrite wf_null in Hd. Qed.

(** The list walk that both name lookups do. *)
Lemma get_by_name_loop_ok w head l ms name k i :
  wf_world w -> is_ll (w_heap w) head l -> modules_at (w_heap w) l ms -> Forall named ms ->
  is_cstring name -> (i + k = length l)%nat ->
  get_by_name_loop k i head name w = Ok (find_named name (drop i l) (drop i ms), w).
Proof.
  intros Hw Hl Hm Hn Hs. revert i. induction k as [|k IH]; intros i Hi; cbn [get_by_name_loop].
  { by rewrite (drop_ge l) by lia. }
  destruct (lookup_lt_is_Some_2 l i) as [e He]; [lia|].
  destruct (lookup_lt_is_Some_2 ms i) as [m Hmi].
  { rewrite <- (modules_at_length _ _ _ Hm). lia. }
  rewrite (bind_Ok _ _ _ (e_item e) w) by (by rewrite (lf_ll_item_spec _ _ _ _ Hl), He).
  pose proof (modules_at_item _ _ _ _ _ _ Hm He Hmi) as Hat.
  destruct (Z.eqb_spec (e_item e) 0) as [H0|H0].
  { rewrite H0, wf_null in Hat by done. done. }
  mstep (load_module_ok _ _ _ Hat).
  rewrite (bind_lift_opt _ _ _ _ (strcmp_named m name (Forall_lookup_1 _ _ _ _ Hn Hmi) Hs)).
  rewrite (drop_S _ _ _ He), (drop_S _ _ _ Hmi). cbn [find_named].
  case_bool_decide as Hh; [by rewrite decide_True|].
  rewrite decide_False by done. apply IH. lia.
Qed.

Lemma lf_module_get_by_name_spec w p d l ms name :
  wf_world w -> device_at (w_heap w) p d l ms -> is_cstring name ->
  lf_module_get_by_name p (Some name) w = Ok (find_named name l ms, w).
Proof.
  intros Hw [Hd Hl Hm Hn] Hs. unfold lf_module_get_by_name, lf_assert.
  rewrite ctrue_nonzero by (intros ->; by rewrite wf_null in Hd).
  mstep (load_device_ok _ _ _ Hd). mstep (lf_ll_count_spec _ _ _ Hl). rewrite Nat2Z.id.
  by rewrite (get_by_name_loop_ok w _ l ms).
Qed.

(** [dyld_module]'s own walk finds the same module. *)
Lemma dyld_module_loop_ok w head l ms name k i :
  wf_world w -> is_ll (w_heap w) head l -> modules_at (w_heap w) l ms -> Forall named ms ->
  is_cstring name -> (i + k = length l)%nat ->
  dyld_module_loop k i head name w
  = Ok (let p := find_named name (drop i l) (drop i ms) in
        if p =? 0 then None else Some p, w).
Proof.
  intros Hw Hl Hm Hn Hs. revert i. induction k as [|k IH]; intros i Hi; cbn [dyld_module_loop].
  { by rewrite (drop_ge l) by lia. }
  destruct (lookup_lt_is_Some_2 l i) as [e He]; [lia|].
  destruct (lookup_lt_is_Some_2 ms i) as [m Hmi].
  { rewrite <- (modules_at_length _ _ _ Hm). lia. }
  rewrite (bind_Ok _ _ _ (e_item e) w) by (by rewrite (lf_ll_item_spec _ _ _ _ Hl), He).
  pose proof (modules_at_item _ _ _ _ _ _ Hm He Hmi) as Hat.
  mstep (load_module_ok _ _ _ Hat).
  rewrite (bind_lift_opt _ _ _ _ (strcmp_named m name (Forall_lookup_1 _ _ _ _ Hn Hmi) Hs)).
  rewrite (drop_S _ _ _ He), (drop_S _ _ _ Hmi). cbn [find_named].
  case_bool_decide as Hh.
  - rewrite decide_True by done. cbv zeta.
    destruct (Z.eqb_spec (e_item e) 0) as [H0|H0]; [|done].
    by rewrite H0, wf_null in Hat.
  - rewrite decide_False by done. apply IH. lia.
Qed.

(** A module record is not a list node, nor the device. *)
Lemma module_not_addr h head l a m : is_ll h head l -> h !! a = Some (OModule m) -> a ∉ addrs l.
Proof. intros Hl Hm Ha. destruct (is_ll_lookup _ _ _ _ Hl Ha) as (_ & n & Hn). congruence. Qed.

Lemma device_not_addr h head l a d : is_ll h head l -> h !! a = Some (ODevice d) -> a ∉ addrs l.
Proof. intros Hl Hm Ha. destruct (is_ll_lookup _ _ _ _ Hl Ha) as (_ & n & Hn). congruence. Qed.

(** Overwriting a module record that is not registered. *)
Lemma device_at_store_module h p d l ms mp m m' :
  device_at h p d l ms -> h !! mp = Some (OModule m) -> mp ∉ (e_item <$> l) ->
  device_at (<[mp := OModule m']> h) p d l ms.
Proof.
  intros [Hd Hl Hm Hn] Hmp Hnot. split; try done.
  - rewrite lookup_insert_ne; [done|congruence].
  - apply (is_ll_frame h); [done|]. intros a Ha. apply lookup_insert_ne. intros <-.
    by apply (module_not_addr _ _ _ _ _ Hl Hmp).
  - apply (modules_at_frame h); [done|]. intros e He. apply lookup_insert_ne. intros ->.
    apply Hnot. by apply list_elem_of_fmap_2.
Qed.

(** A record with a fresh name is not registered yet. *)
Lemma fresh_name_not_item h l ms mp m s :
  modules_at h l ms -> h !! mp = Some (OModule m) -> has_name s m ->
  Forall (fun m => ~ has_name s m) ms -> mp ∉ (e_item <$> l).
Proof.
  intros Hm Hmp Hs Hf (e & -> & (i & He)%list_elem_of_lookup)%list_elem_of_fmap.
  destruct (Forall2_lookup_l _ _ _ _ _ Hm He) as (m' & Hmi & Hat).
  assert (m' = m) as -> by congruence. by apply (Forall_lookup_1 _ _ _ _ Hf Hmi).
Qed.
End Registry.

Section Register.
Context {E : Type} `{!Transport E}.
Implicit Types (w : world E) (l : list ll_entry) (ms : list lf_module).

Lemma set_heap_id w : set_heap (w_heap w) w = w.
Proof. by destruct w. Qed.

(** A module without an index gets the current count. *)
Lemma register_index_ok w p d l ms mp m :
  device_at (w_heap w) p d l ms -> w_heap w !! mp = Some (OModule m) ->
  (if m_idx m =? UINT16_MAX then
     count ← lf_ll_count (d_modules d); store mp (OModule (set_idx m (u16 count)))
   else mret tt) w
  = Ok (tt, set_heap (<[mp := OModule (indexed m (length ms))]> (w_heap w)) w).
Proof.
  intros [Hd Hl Hm Hn] Hmp. unfold indexed. destruct (m_idx m =? UINT16_MAX).
  - mstep (lf_ll_count_spec _ _ _ Hl). rewrite (modules_at_length _ _ _ Hm).
    by apply (store_ok _ _ _ (OModule m)).
  - rewrite insert_id by done. by rewrite set_heap_id.
Qed.

Lemma has_name_indexed s m n : has_name s (indexed m n) <-> has_name s m.
Proof. unfold indexed, has_name. by destruct (m_idx m =? UINT16_MAX). Qed.

(** Up to the append, registration of a new name only sets the index. *)
Lemma dyld_register_prefix w p d l ms mp m s :
  wf_world w -> device_at (w_heap w) p d l ms ->
  w_heap w !! mp = Some (OModule m) -> has_name s m -> Forall (fun m' => ~ has_name s m') ms ->
  dyld_register p mp w
  = ('(result, head) ← lf_ll_append (Some (d_modules d)) mp fn_lf_module_release;
     store p (ODevice (set_modules d (default 0 head)));;
     if negb (result =? lf_success) then mret lf_error else mret lf_success)
    (set_heap (<[mp := OModule (indexed m (length ms))]> (w_heap w)) w).
Proof.
  intros Hw Hda Hmp Hs Hf. pose proof Hda as [Hd Hl Hm Hn].
  unfold dyld_register, lf_assert.
  rewrite ctrue_nonzero by (intros ->; by rewrite wf_null in Hd).
  rewrite ctrue_nonzero by (intros ->; by rewrite wf_null in Hmp).
  mstep (load_module_ok _ _ _ Hmp). rewrite (bind_lift_opt _ _ _ _ Hs).
  mstep (lf_module_get_by_name_spec w p d l ms s Hw Hda (cstr_nonzero _ _ Hs)).
  rewrite (find_named_none s l ms) by (by apply modules_at_length in Hm || done).
  change (ctrue 0) with false. cbv iota.
  mstep (load_device_ok _ _ _ Hd). mstep (register_index_ok w p d l ms mp m Hda Hmp). done.
Qed.

(** A new name: the record is linked at the end of the registry. *)
Lemma dyld_register_new w p d l ms mp m s :
  wf_world w -> alloc_fails w = false -> device_at (w_heap w) p d l ms ->
  w_heap w !! mp = Some (OModule m) -> has_name s m -> Forall (fun m' => ~ has_name s m') ms ->
  exists w' head', dyld_register p mp w = Ok (lf_success, w') /\ wf_world w' /\
    device_at (w_heap w') p (set_modules d head')
      (l ++ [Entry (w_next w) mp fn_lf_module_release]) (ms ++ [indexed m (length ms)]) /\
    (forall a, a ∉ addrs l -> a <> w_next w -> a <> p -> a <> mp ->
       w_heap w' !! a = w_heap w !! a) /\
    exists h', w' = set_heap h' (set_alloc (w_next w + 16) (tail (w_fail w)) w).
Proof.
  intros Hw Ha Hda Hmp Hs Hf. rewrite (dyld_register_prefix w p d l ms mp m s) by done.
  set (m' := indexed m (length ms)). set (w1 := set_heap _ w).
  assert (mp ∉ (e_item <$> l)) as Hni by (by eapply fresh_name_not_item; [apply Hda|..]).
  assert (p <> mp) as Hpm by (intros ->; by rewrite (da_dev _ _ _ _ _ Hda) in Hmp).
  pose proof (device_at_store_module _ _ _ _ _ mp m m' Hda Hmp Hni) as Hda1.
  assert (wf_world w1) as Hw1.
  { apply wf_set_heap_sub; [done|]. intros a. rewrite lookup_insert. case_decide; [by subst|done]. }
  pose proof Hda1 as [Hd1 Hl1 Hm1 Hn1].
  destruct (lf_ll_append_spec w1 (d_modules d) l mp fn_lf_module_release Hw1 Ha Hl1)
    as (head' & h' & Hrun & Hl' & _ & Hfr & Hw'). mstep Hrun. cbn beta iota.
  change (w_next w1) with (w_next w) in *.
  assert (forall a, is_Some (w_heap w1 !! a) -> a <> w_next w) as Hnew
    by (intros a [o Ho] ->; pose proof (wf_fresh w1 Hw1) as Hno; change (w_next w1) with (w_next w) in Hno; congruence).
  assert (h' !! p = Some (ODevice d)) as Hd'.
  { rewrite Hfr; [done|by eapply device_not_addr|apply Hnew; eauto]. }
  assert (h' !! mp = Some (OModule m')) as Hmp'.
  { assert (w_heap w1 !! mp = Some (OModule m')) as Hmp1 by apply lookup_insert_eq.
    rewrite Hfr; [done|by eapply module_not_addr|apply Hnew; eauto]. }
  set (w2 := set_heap h' _) in *. change h' with (w_heap w2) in Hd' |- *.
  rewrite (bind_Ok _ _ _ _ _ (store_ok w2 p _ _ Hd')). cbn [negb lf_success Z.eqb].
  eexists _, head'. split; [done|]. split.
  { apply wf_set_heap_sub; [done|]. intros a. rewrite lookup_insert. case_decide; [subst; eauto|done]. }
  split; [split|split; [|by eexists]]; cbn [w_heap set_heap].
  - apply lookup_insert_eq.
  - apply (is_ll_frame h'); [done|]. intros a Haa. apply lookup_insert_ne. intros <-.
    by eapply (device_not_addr h').
  - apply Forall2_app.
    + apply (modules_at_frame (w_heap w1)); [done|]. intros e He.
      apply list_elem_of_lookup in He as [i He].
      destruct (Forall2_lookup_l _ _ _ _ _ Hm1 He) as (m1 & _ & Hat).
      assert (p <> e_item e) as Hpe.
      { intros Heq. rewrite <- Heq in Hat. change (w_heap w1) with (<[mp:=OModule m']> (w_heap w)) in *.
        congruence. }
      rewrite lookup_insert_ne by done.
      apply Hfr; [by eapply module_not_addr|apply Hnew; eauto].
    + constructor; [|done]. simpl. by rewrite lookup_insert_ne.
  - apply Forall_app. split; [done|]. constructor; [|done]. exists s. by apply has_name_indexed.
  - intros a H1 H2 H3 H4. rewrite lookup_insert_ne by congruence.
    rewrite Hfr by done. by apply lookup_insert_ne.
Qed.

(** A name that is taken: nothing changes. *)
Lemma dyld_register_dup w p d l ms mp m s i m0 :
  wf_world w -> device_at (w_heap w) p d l ms ->
  w_heap w !! mp = Some (OModule m) -> has_name s m -> ms !! i = Some m0 -> has_name s m0 ->
  dyld_register p mp w = Ok (lf_success, w).
Proof.
  intros Hw Hda Hmp Hs Hi Hs0. pose proof Hda as [Hd Hl Hm Hn].
  unfold dyld_register, lf_assert.
  rewrite ctrue_nonzero by (intros ->; by rewrite wf_null in Hd).
  rewrite ctrue_nonzero by (intros ->; by rewrite wf_null in Hmp).
  mstep (load_module_ok _ _ _ Hmp). rewrite (bind_lift_opt _ _ _ _ Hs).
  mstep (lf_module_get_by_name_spec w p d l ms s Hw Hda (cstr_nonzero _ _ Hs)).
  destruct (find_named_cases s l ms) as [[Hno _]|(j & m' & e & Hm' & He & _ & _ & ->)].
  - by apply modules_at_length in Hm.
  - by apply (Forall_lookup_1 _ _ _ _ Hno Hi) in Hs0.
  - pose proof (modules_at_item _ _ _ _ _ _ Hm He Hm') as Hat.
    rewrite ctrue_nonzero; [done|]. intros H0. by rewrite H0, wf_null in Hat.
Qed.

(** Out of memory: the registry keeps its modules and an error is returned. *)
Lemma dyld_register_oom w p d l ms mp m s :
  wf_world w -> alloc_fails w = true -> device_at (w_heap w) p d l ms ->
  w_heap w !! mp = Some (OModule m) -> has_name s m -> Forall (fun m' => ~ has_name s m') ms ->
  exists w', dyld_register p mp w = Ok (lf_error, w') /\ device_at (w_heap w') p d l ms.
Proof.
  intros Hw Ha Hda Hmp Hs Hf. rewrite (dyld_register_prefix w p d l ms mp m s) by done.
  set (m' := indexed m (length ms)). set (w1 := set_heap _ w).
  assert (mp ∉ (e_item <$> l)) as Hni by (by eapply fresh_name_not_item; [apply Hda|..]).
  pose proof (device_at_store_module _ _ _ _ _ mp m m' Hda Hmp Hni) as Hda1.
  mstep (lf_ll_append_oom w1 (d_modules d) mp fn_lf_module_release Ha). cbn beta iota.
  assert (set_modules d (d_modules d) = d) as Hsm by (by destruct d).
  cbn [default from_option]. unfold id. rewrite Hsm.
  pose proof (da_dev _ _ _ _ _ Hda1) as Hd1.
  rewrite (bind_Ok _ _ _ _ _ (store_ok (set_alloc (w_next w1) (tail (w_fail w1)) w1) p _ _ Hd1)).
  eexists. split; [done|]. cbn [w_heap set_heap set_alloc]. by rewrite insert_id.
Qed.

(** Both registry invariants are kept by a registration. *)
Lemma positional_snoc ms m :
  positional ms -> m_idx m = UINT16_MAX -> (Z.of_nat (length ms) < 2 ^ 16) ->
  positional (ms ++ [indexed m (length ms)]).
Proof.
  intros Hp Hm Hl i m0 Hi. destruct (decide (i < length ms)%nat) as [Hlt|Hge].
  - rewrite lookup_app_l in Hi by done. by apply Hp.
  - rewrite lookup_app_r in Hi by lia.
    destruct (i - length ms)%nat as [|k] eqn:Hk; [|by destruct k]. simplify_eq/=.
    unfold indexed. rewrite Hm. cbn -[u16]. rewrite u16_small; lia.
Qed.

Lemma names_unique_snoc ms m s :
  names_unique ms -> has_name s m -> Forall (fun m' => ~ has_name s m') ms ->
  names_unique (ms ++ [m]).
Proof.
  intros Hu Hs Hf i j m1 m2 t Hi Hj H1 H2.
  assert (forall k m', (ms ++ [m]) !! k = Some m' -> ms !! k = Some m' \/ k = length ms /\ m' = m)
    as Hsplit.
  { intros k m' [Hk|[Hk Hm']]%lookup_app_Some; [by left|]. right.
    destruct (k - length ms)%nat as [|?] eqn:He; [|by destruct n]. simplify_eq/=. split; [lia|done]. }
  assert (forall k m', ms !! k = Some m' -> has_name t m' -> has_name t m -> False) as Hno.
  { intros k m' Hk Ht Ht'. assert (t = s) as -> by (unfold has_name in *; congruence).
    by apply (Forall_lookup_1 _ _ _ _ Hf Hk). }
  destruct (Hsplit _ _ Hi) as [Hi'|[-> ->]], (Hsplit _ _ Hj) as [Hj'|[-> ->]].
  - by apply (Hu i j m1 m2 t).
  - by destruct (Hno _ _ Hi' H1 H2).
  - by destruct (Hno _ _ Hj' H2 H1).
  - done.
Qed.
End Register.

Section LookupPacket.
(** The name field of a lookup packet, as it lies after the header. *)
Definition name_area (s : list Z) : list Z := s ++ 0 :: replicate (57 - length s) 0.

Lemma name_area_split s :
  (length s < LF_MODULE_NAME_MAX)%nat ->
  wr ([254; 0; 0; 6; 0; 3] ++ replicate 58 0) sizeof_fmr_header (s ++ [0])
  = Some ([254; 0; 0; 6; 0; 3] ++ name_area s).
Proof.
  intros Hs. unfold LF_MODULE_NAME_MAX in Hs.
  replace 58%nat with (length (s ++ [0%Z]) + (57 - length s))%nat by (rewrite length_app; simpl; lia).
  rewrite replicate_add, (wr_mid _ _ _ (s ++ [0])); [|done|by rewrite length_replicate].
  unfold name_area. by rewrite <- !app_assoc.
Qed.

Lemma length_name_area s : (length s < LF_MODULE_NAME_MAX)%nat -> length (name_area s) = 58%nat.
Proof. unfold LF_MODULE_NAME_MAX, name_area. intros. rewrite length_app. simpl. len. Qed.

(** The lookup packet is accepted by the receiver and carries the name. *)
Lemma dyld_packet_ok s :
  (length s < LF_MODULE_NAME_MAX)%nat -> is_cstring s ->
  exists pkt, dyld_packet s = Some pkt /\ packet_ok pkt /\
    length pkt = FMR_PACKET_SIZE /\ rd_le pkt off_type 1 = Some fmr_dyld_class /\
    cstr (drop sizeof_fmr_header pkt) = Some s.
Proof.
  intros Hl Hs. unfold dyld_packet.
  change (wr_le zero_packet off_magic 1 FMR_MAGIC_NUMBER)
    with (Some ([254; 0; 0; 0; 0; 0] ++ replicate 58 0)). cbn [mbind option_bind].
  change (wr_le ([254; 0; 0; 0; 0; 0] ++ replicate 58 0) off_len 2 (Z.of_nat sizeof_fmr_header))
    with (Some ([254; 0; 0; 6; 0; 0] ++ replicate 58 0)). cbn [mbind option_bind].
  change (wr_le ([254; 0; 0; 6; 0; 0] ++ replicate 58 0) off_type 1 fmr_dyld_class)
    with (Some ([254; 0; 0; 6; 0; 3] ++ replicate 58 0)). cbn [mbind option_bind].
  rewrite (name_area_split s Hl). cbn [mbind option_bind].
  set (len := u16 _). pose proof (length_name_area s Hl) as Hna.
  assert (len = 6 + Z.of_nat (length s) + 1) as Hlen.
  { unfold len, sizeof_fmr_header, LF_MODULE_NAME_MAX in *. apply u16_small. lia. }
  assert (wr_le ([254; 0; 0; 6; 0; 3] ++ name_area s) off_len 2 len
          = Some (([254; 0; 0] ++ le_bytes 2 len ++ [3]) ++ name_area s)) as ->
    by (by apply wr_app_l). cbn [mbind option_bind].
  set (pkt := _ ++ name_area s).
  assert (length pkt = 64%nat) as Hp by (unfold pkt; rewrite length_app, Hna; done).
  destruct (packet_crc pkt len) as [crc|] eqn:Hc.
  2: { unfold packet_crc, lf_crc in Hc. rewrite rd_Some in Hc; [done|].
       rewrite Hp, Hlen. unfold LF_MODULE_NAME_MAX in Hl. lia. }
  cbn [mbind option_bind].
  assert (wr_le pkt off_crc 2 crc
          = Some (([254] ++ le_bytes 2 crc ++ le_bytes 2 len ++ [3]) ++ name_area s)) as Hw
    by (by apply wr_app_l).
  eexists. split; [exact Hw|]. split; [|split_and!].
  - apply (seal_ok pkt len crc); try done.
    + unfold pkt, rd_le. rewrite rd_app_l by (simpl; lia).
      change (Some (le_val (le_bytes 2 len)) = Some len). f_equal.
      apply le_val_bytes_small. apply u16_range.
  - rewrite length_app, Hna. done.
  - unfold rd_le. by rewrite rd_app_l by (simpl; lia).
  - by apply cstr_app.
Qed.
End LookupPacket.

Section Lookup.
Context {E : Type} `{!Transport E}.
Implicit Types (w : world E) (l : list ll_entry) (ms : list lf_module).

(** A device that has a name keeps it. *)
Lemma default_name_named w p d b bs :
  w_heap w !! p = Some (ODevice d) -> d_name d = b :: bs -> b <> 0 ->
  default_name p w = Ok (tt, w).
Proof.
  intros Hd Hn Hb. unfold default_name. mstep (load_device_ok _ _ _ Hd). rewrite Hn.
  by destruct b.
Qed.

(** What the host makes of the device's answer. *)
Definition lookup_answer (res : list Z) (w : world E) : outcome (Z * option Z * world E) :=
  if result_error res =? err_code E_OK
  then Ok ((lf_success, Some (u16 (result_value res))), w)
  else Ok ((lf_error, None), set_err (result_error res) w).

Lemma lookup_ok w p d b bs s pkt w1 res w2 :
  w_heap w !! p = Some (ODevice d) -> p <> 0 -> d_name d = b :: bs -> b <> 0 ->
  (length s < LF_MODULE_NAME_MAX)%nat -> dyld_packet s = Some pkt ->
  device_write p pkt w = Ok (lf_success, w1) ->
  device_read p (le_bytes 8 (w_junk w1 0) ++ le_bytes 1 (w_junk w1 8)) w1
    = Ok ((lf_success, res), w2) ->
  lf_dyld_dyn_sym_lookup p (Some s) w = lookup_answer res w2.
Proof.
  intros Hd Hp Hn Hb Hs Hpkt Hwr Hrd. unfold lf_dyld_dyn_sym_lookup, lf_assert.
  rewrite ctrue_nonzero by done. mstep (default_name_named _ _ _ _ _ Hd Hn Hb).
  rewrite decide_False by lia. rewrite (bind_lift_opt _ _ _ _ Hpkt). mstep Hwr.
  cbn [lf_success Z.eqb]. unfold stack_result. mnorm. mstep Hrd. cbn [Z.eqb].
  unfold lookup_answer, lf_assert_code. by destruct (result_error res =? err_code E_OK).
Qed.

(** A failing endpoint is reported, and nothing else is. *)
Lemma lookup_write_error w p d b bs s pkt e w1 :
  w_heap w !! p = Some (ODevice d) -> p <> 0 -> d_name d = b :: bs -> b <> 0 ->
  (length s < LF_MODULE_NAME_MAX)%nat -> dyld_packet s = Some pkt ->
  device_write p pkt w = Ok (e, w1) -> e <> lf_success ->
  lf_dyld_dyn_sym_lookup p (Some s) w = Ok ((lf_error, None), set_err (err_code E_ENDPOINT) w1).
Proof.
  intros Hd Hp Hn Hb Hs Hpkt Hwr He. unfold lf_dyld_dyn_sym_lookup, lf_assert.
  rewrite ctrue_nonzero by done. mstep (default_name_named _ _ _ _ _ Hd Hn Hb).
  rewrite decide_False by lia. rewrite (bind_lift_opt _ _ _ _ Hpkt). mstep Hwr.
  by destruct (Z.eqb_spec e lf_success).
Qed.

Lemma lookup_too_long w p d b bs s :
  w_heap w !! p = Some (ODevice d) -> p <> 0 -> d_name d = b :: bs -> b <> 0 ->
  (LF_MODULE_NAME_MAX <= length s)%nat ->
  lf_dyld_dyn_sym_lookup p (Some s) w = Ok ((lf_error, None), w).
Proof.
  intros Hd Hp Hn Hb Hs. unfold lf_dyld_dyn_sym_lookup, lf_assert.
  rewrite ctrue_nonzero by done. mstep (default_name_named _ _ _ _ _ Hd Hn Hb).
  by rewrite decide_True.
Qed.

Lemma find_named_registered h l ms s i m :
  h !! 0 = None -> modules_at h l ms -> ms !! i = Some m -> has_name s m ->
  exists j e, l !! j = Some e /\ (j <= i)%nat /\ find_named s l ms = e_item e /\ e_item e <> 0.
Proof.
  intros H0 Hm Hi Hs.
  destruct (find_named_cases s l ms) as [[Hno _]|(j & m' & e & Hm' & He & _ & Hlt & ->)].
  - by apply modules_at_length in Hm.
  - by apply (Forall_lookup_1 _ _ _ _ Hno Hi) in Hs.
  - exists j, e. split_and!; [done| |done|].
    + destruct (decide (j <= i)%nat); [done|]. by apply (Hlt i m) in Hs; [|lia|].
    + intros H. pose proof (modules_at_item _ _ _ _ _ _ Hm He Hm') as Hat. congruence.
Qed.

(** The prefix of [dyld_module] that searches the host's registry. *)
Lemma dyld_module_search w p d l ms s :
  wf_world w -> device_at (w_heap w) p d l ms -> is_cstring s ->
  dyld_module p (Some s) w
  = match (if find_named s l ms =? 0 then None else Some (find_named s l ms)) with
    | Some mp => mret mp
    | None =>
      '(e, idx) ← lf_dyld_dyn_sym_lookup p (Some s);
      if negb (e =? lf_success) then lf_error_set (err_code E_MODULE);; mret 0
      else
        mp ← lf_module_create (Some s) (default 0 idx);
        lf_assert (ctrue mp) E_NULL
          (m ← load_module mp;
           store mp (OModule (LfModule (name32 s) (m_version m) (m_idx m) (m_interface m)
                       (m_table m) (m_length m) (m_state m)));;
           e ← dyld_register p mp;
           if negb (e =? lf_success) then
             free mp;; lf_error_set (err_code E_MODULE);; mret 0
           else mret mp)
          (mret 0)
    end w.
Proof.
  intros Hw Hda Hs. pose proof Hda as [Hd Hl Hm Hn]. unfold dyld_module, lf_assert at 1.
  rewrite ctrue_nonzero by (intros ->; by rewrite wf_null in Hd).
  mstep (load_device_ok _ _ _ Hd). mstep (lf_ll_count_spec _ _ _ Hl). rewrite Nat2Z.id.
  mstep (dyld_module_loop_ok w (d_modules d) l ms s (length l) 0 Hw Hl Hm Hn Hs eq_refl).
  done.
Qed.

(** A module that is known on the host is found without any traffic. *)
Lemma dyld_module_found w p d l ms s i m :
  wf_world w -> device_at (w_heap w) p d l ms -> is_cstring s ->
  ms !! i = Some m -> has_name s m ->
  dyld_module p (Some s) w = Ok (find_named s l ms, w).
Proof.
  intros Hw Hda Hs Hi Hm. rewrite (dyld_module_search w p d l ms s) by done.
  destruct (find_named_registered _ l ms s i m (wf_null w Hw) (da_mods _ _ _ _ _ Hda) Hi Hm)
    as (j & e & _ & _ & -> & H0). by destruct (Z.eqb_spec (e_item e) 0).
Qed.

(** A module the device answers for is created with the device's index and
    registered on the host. *)
Lemma dyld_module_new w p d l ms s idx w2 d2 l2 ms2 :
  wf_world w -> device_at (w_heap w) p d l ms -> is_cstring s ->
  Forall (fun m => ~ has_name s m) ms ->
  lf_dyld_dyn_sym_lookup p (Some s) w = Ok ((lf_success, Some idx), w2) ->
  wf_world w2 -> no_oom w2 -> device_at (w_heap w2) p d2 l2 ms2 ->
  Forall (fun m => ~ has_name s m) ms2 -> (length s < LF_MODULE_NAME_MAX)%nat ->
  exists w' head', dyld_module p (Some s) w = Ok (w_next w2, w') /\ wf_world w' /\
    device_at (w_heap w') p (set_modules d2 head')
      (l2 ++ [Entry (w_next w2 + 16) (w_next w2) fn_lf_module_release])
      (ms2 ++ [indexed (LfModule (name32 s) 0 idx 0 [] 0 0) (length ms2)]) /\
    (forall a, a ∉ addrs l2 -> a < w_next w2 -> a <> p -> w_heap w' !! a = w_heap w2 !! a) /\
    exists h', w' = set_heap h' (set_alloc (w_next w2 + 16 + 16) (tail (tail (w_fail w2))) w2).
Proof.
  intros Hw Hda Hs Hf Hlk Hw2 Ho2 Hda2 Hf2 Hlen.
  rewrite (dyld_module_search w p d l ms s) by done.
  pose proof (modules_at_length _ _ _ (da_mods _ _ _ _ _ Hda)) as Hll.
  rewrite (find_named_none s l ms Hll Hf). change (0 =? 0) with true. cbv iota.
  mstep Hlk. cbn [lf_success lf_error Z.eqb negb default from_option]. unfold id.
  mstep (lf_module_create_ok s idx w2 Hw2 (no_oom_alloc_fails _ Ho2) Hlen).
  unfold lf_assert. rewrite ctrue_nonzero by (by apply wf_next_nonnull).
  set (m := LfModule (name32 s) 0 idx 0 [] 0 0). set (w3 := alloc_at (OModule m) w2).
  assert (w_heap w3 !! w_next w2 = Some (OModule m)) as Hat by apply lookup_insert_eq.
  mstep (load_module_ok w3 _ _ Hat). mstep (store_ok w3 _ (OModule m) _ Hat).
  rewrite insert_id, set_heap_id by done.
  pose proof Hda2 as [Hd2 Hl2 Hm2 Hn2].
  assert (device_at (w_heap w3) p d2 l2 ms2) as Hda3.
  { assert (forall a o, w_heap w2 !! a = Some o -> w_heap w3 !! a = Some o) as Hkeep.
    { intros a o Ha. cbn. rewrite lookup_insert_ne; [done|]. intros <-.
      by rewrite wf_fresh in Ha. }
    split; [by apply Hkeep|by apply is_ll_alloc| |done].
    apply (Forall2_impl _ _ _ _ Hm2). intros e m0. apply Hkeep. }
  destruct (dyld_register_new w3 p d2 l2 ms2 (w_next w2) m s) as (w' & head' & Hrun & Hw' & Hda' & Hfr & h' & ->);
    try done; [by apply wf_alloc|by apply no_oom_alloc_fails, no_oom_alloc|by apply cstr_name32|].
  mstep Hrun. eexists _, head'. split; [done|]. split; [done|]. split; [done|]. split; [|by eexists].
  intros a H1 H2 H3. rewrite Hfr by (done || (cbn; lia)). cbn. apply lookup_insert_ne. lia.
Qed.

(** [dyld_unload] refuses a module that is loaded: its test is inverted. *)
Lemma dyld_unload_loaded w p d l ms s i m :
  wf_world w -> device_at (w_heap w) p d l ms -> is_cstring s ->
  ms !! i = Some m -> has_name s m ->
  dyld_unload p (Some s) w = Ok (lf_error, set_err (err_code E_NULL) w).
Proof.
  intros Hw Hda Hs Hi Hm. unfold dyld_unload, lf_assert.
  rewrite ctrue_nonzero by (by eapply device_at_nonnull).
  mstep (dyld_module_found w p d l ms s i m Hw Hda Hs Hi Hm).
  destruct (find_named_registered _ l ms s i m (wf_null w Hw) (da_mods _ _ _ _ _ Hda) Hi Hm)
    as (j & e & _ & _ & -> & H0). by destruct (Z.eqb_spec (e_item e) 0).
Qed.
End Lookup.
