(* ===== verification/Fmr.v ===== *)
(** * The message runtime (lib/fmr.c)

    The dispatcher table, the packet check and dispatch of [fmr_perform], and
    the six built-in handlers. The packet is the start of a memory object
    [buf]; handlers that look past the packet read the rest of that object. *)

From S2P Require Import Prelude World Errors Device LinkedList Crc FmrPacket Transport Dyld.
From stdpp Require Import base list gmap sets.
From Stdlib Require Import ZArith Lia.
Local Open Scope Z_scope.

(** Code the runtime calls through pointers it does not define: the functions
    of a module's table, and handlers a plug-in registered. *)
Class ModuleCode (E : Type) := {
  call_function : Z -> Z -> C E Z;
  call_plugin_handler : Z -> Z -> list Z -> Z -> C E (Z * Z);
}.

Definition MAX_DISPATCHERS : Z := FMR_CLASS_COUNT.

Definition fn_fmr_rpc : Z := 20.
Definition fn_fmr_push : Z := 21.
Definition fn_fmr_pull : Z := 22.
Definition fn_fmr_dyld : Z := 23.
Definition fn_fmr_malloc : Z := 24.
Definition fn_fmr_free : Z := 25.

Section Fmr.
Context {E : Type} `{!Transport E, !ModuleCode E}.

(** Register a handler for a given FMR class. *)
Definition fmr_register (type handler : Z) : C E Z :=
  if (MAX_DISPATCHERS <=? type) || (handler =? 0) then mret lf_error
  else
    modify (fun w => set_registry (<[Z.to_nat type := handler]> (w_registry w)) w);;
    mret lf_success.

(** Register built-in dispatchers. *)
Definition fmr_init : C E unit :=
  fmr_register fmr_rpc_class fn_fmr_rpc;;
  fmr_register fmr_push_class fn_fmr_push;;
  fmr_register fmr_pull_class fn_fmr_pull;;
  fmr_register fmr_dyld_class fn_fmr_dyld;;
  fmr_register fmr_malloc_class fn_fmr_malloc;;
  fmr_register fmr_free_class fn_fmr_free;;
  mret tt.

(** The argument loop of [fmr_rpc]: the argument list, or [None] when an
    allocation failed and the list was released. *)
Fixpoint rpc_args_loop (todo i : nat) (args : Z) (argv : nat) (buf : list Z) : C E (option Z) :=
  match todo with
  | O => mret (Some args)
  | S todo =>
    type ← lift_opt (get_arg_type buf i);
    let size := lf_sizeof type in
    junk ← gets w_junk;
    arg ← malloc (fun a => OArg (LfArg (u8 (junk a)) (u64 (junk (a + 1)))));
    if arg =? 0 then
      lf_error_set (err_code E_NULL);; lf_ll_release (Some args);; mret None
    else
      a0 ← load_arg arg;
      bs ← lift_opt (rd buf argv size);
      store arg (OArg (LfArg type (le_val (bs ++ drop size (le_bytes 8 (arg_value a0))))));;
      '(e, args') ← lf_ll_append (Some args) arg fn_free;
      if negb (e =? lf_success) then
        free arg;; lf_ll_release args';; mret None
      else rpc_args_loop todo (S i) (default 0 args') (argv + size) buf
  end.

(** Dispatches a remote procedure call to a target module and function. *)
Definition fmr_rpc (device : Z) (buf : list Z) (retval : Z) : C E (Z * Z) :=
  d ← load_device device;
  module_idx ← lift_opt (rd_le buf off_call_module 1);
  module ← lf_ll_item (d_modules d) (Z.to_nat module_idx);
  function ← lift_opt (rd_le buf off_call_function 1);
  if module =? 0 then mret (lf_error, retval)
  else
    m ← load_module module;
    if m_length m <=? function then mret (lf_error, retval)
    else
      argc ← lift_opt (rd_le buf off_call_argc 1);
      args ← rpc_args_loop (Z.to_nat argc) 0 0 off_argv buf;
      match args with
      | None => mret (lf_error, retval)
      | Some args =>
        m ← load_module module;
        f ← lift_opt (m_table m !! Z.to_nat function);
        v ← call_function f args;
        lf_ll_release (Some args);;
        mret (lf_success, v)
      end.

(** [for (i = 0; node && i < n; i++) node = node->next;] and the item. *)
Definition nth_module (device : Z) (n : Z) : C E Z :=
  d ← load_device device;
  node ← ll_item_loop (Z.to_nat n) (d_modules d);
  if node =? 0 then mret 0 else nd ← load_node node; mret (item nd).

(** [packet + 1]: the bytes after the packet. *)
Definition past_packet : nat := FMR_PACKET_SIZE.

(** Receives and stores a value into a module's state. *)
Definition fmr_push (device : Z) (buf : list Z) (retval : Z) : C E (Z * Z) :=
  push_module ← lift_opt (rd_le buf past_packet 1);
  module ← nth_module device push_module;
  if module =? 0 then mret (lf_error, retval)
  else
    m ← load_module module;
    if m_state m =? 0 then mret (lf_error, retval)
    else
      push_index ← lift_opt (rd_le buf (past_packet + 1) 1);
      push_length ← lift_opt (rd_le buf (past_packet + 2) 1);
      data ← lift_opt (rd buf (past_packet + 3) (Z.to_nat push_length));
      state ← load_raw (m_state m);
      state' ← lift_opt (wr state (Z.to_nat push_index) data);
      store (m_state m) (ORaw state');;
      mret (lf_success, 0).

(** Sends a requested state value from a module back to the host. *)
Definition fmr_pull (device : Z) (buf : list Z) (retval : Z) : C E (Z * Z) :=
  pull_module ← lift_opt (rd_le buf past_packet 1);
  module ← nth_module device pull_module;
  if module =? 0 then mret (lf_error, retval)
  else
    m ← load_module module;
    if m_state m =? 0 then mret (lf_error, retval)
    else
      pull_index ← lift_opt (rd_le buf (past_packet + 1) 1);
      pull_length ← lift_opt (rd_le buf (past_packet + 2) 1);
      state ← load_raw (m_state m);
      data ← lift_opt (rd state (Z.to_nat pull_index) (Z.to_nat pull_length));
      e ← device_write device data;
      mret (e, if e =? lf_success then 0 else u64 (-1)).

(** Dynamically resolves a module by name and returns its index. *)
Definition fmr_dyld (device : Z) (buf : list Z) (retval : Z) : C E (Z * Z) :=
  name ← lift_opt (cstr (drop past_packet buf));
  module ← lf_module_get_by_name device (Some name);
  if module =? 0 then mret (lf_error, 0)
  else m ← load_module module; mret (lf_success, m_idx m).

(** Allocates memory on the device and returns the pointer address. *)
Definition fmr_malloc (device : Z) (buf : list Z) (retval : Z) : C E (Z * Z) :=
  len ← lift_opt (rd_le buf past_packet 8);
  junk ← gets w_junk;
  ptr ← malloc (fun a => ORaw ((fun i => u8 (junk (a + Z.of_nat i))) <$> seq 0 (Z.to_nat len)));
  if ptr =? 0 then mret (lf_error, retval) else mret (lf_success, ptr).

(** Frees a previously allocated memory block on the device. *)
Definition fmr_free (device : Z) (buf : list Z) (retval : Z) : C E (Z * Z) :=
  ptr ← lift_opt (rd_le buf past_packet 8);
  free ptr;;
  mret (lf_success, 0).

(** A call through the dispatcher table. *)
Definition call_handler (h : Z) : Z -> list Z -> Z -> C E (Z * Z) :=
  if h =? fn_fmr_rpc then fmr_rpc
  else if h =? fn_fmr_push then fmr_push
  else if h =? fn_fmr_pull then fmr_pull
  else if h =? fn_fmr_dyld then fmr_dyld
  else if h =? fn_fmr_malloc then fmr_malloc
  else if h =? fn_fmr_free then fmr_free
  else call_plugin_handler h.

(** [send_result:], with the result to send. *)
Definition send_result (device value error : Z) (buf : list Z) : C E (Z * list Z) :=
  e ← device_write device (result_bytes value (u8 error));
  mret (e, buf).
(** [fail:], with the value the result holds. *)
Definition perform_fail (device value : Z) (buf : list Z) : C E (Z * list Z) :=
  err ← lf_error_get;
  send_result device value err buf.

(** Checks, dispatches and answers the packet at the start of [buf]; the
    packet's checksum field is cleared on the way. The [E_FMR] or [E_OK] a
    dispatch leaves in the result is overwritten by the code at [fail:]. *)
Definition fmr_perform (device : Z) (buf : list Z) : C E (Z * list Z) :=
  magic ← lift_opt (rd_le buf off_magic 1);
  lf_assert (magic =? FMR_MAGIC_NUMBER) E_CHECKSUM
    (_crc ← lift_opt (rd_le buf off_crc 2);
     buf ← lift_opt (wr_le buf off_crc 2 0);
     len ← lift_opt (rd_le buf off_len 2);
     crc ← lift_opt (packet_crc buf len);
     if negb (_crc =? crc) then
       lf_error_set (err_code E_CHECKSUM);; perform_fail device 0 buf
     else
       lf_error_set (err_code E_OK);;
       type ← lift_opt (rd_le buf off_type 1);
       lf_assert (type <? MAX_DISPATCHERS) E_FMR
         (modules ← (if device =? 0 then mret 0 else d ← load_device device; mret (d_modules d));
          if modules =? 0 then send_result device 0 (err_code E_NULL) buf
          else
            h ← gets (fun w => default 0 (w_registry w !! Z.to_nat type));
            if h =? 0 then send_result device 0 (err_code E_FMR) buf
            else
              modify (set_current_packet true);;
              '(dispatch_result, retval) ← call_handler h device buf 0;
              modify (set_current_packet false);;
              perform_fail device retval buf)
         (perform_fail device 0 buf))
    (perform_fail device 0 buf).
End Fmr.

(** ** Acceptance and rejection *)

(** The bytes the checksum is computed over. *)
Definition covered (buf : list Z) (len : Z) : option (list Z) :=
  buf0 ← wr_le buf off_crc 2 0; rd buf0 0 (Z.to_nat len).

Section Check.
Context {E : Type} `{!Transport E, !ModuleCode E}.
Implicit Types (w : world E) (buf : list Z).

(** The answer to a packet that fails the check: no handler runs. *)
Definition rejected (device : Z) w (o : outcome (Z * list Z * world E)) : Prop :=
  exists buf', o = (e ← device_write device (result_bytes 0 (err_code E_CHECKSUM)); mret (e, buf'))
                     (set_err (err_code E_CHECKSUM) w).

Lemma perform_bad_magic device buf w magic :
  rd_le buf off_magic 1 = Some magic -> magic <> FMR_MAGIC_NUMBER ->
  rejected device w (fmr_perform device buf w).
Proof.
  intros Hm Hne. unfold fmr_perform. rewrite (bind_lift_opt _ _ _ _ Hm). unfold lf_assert.
  destruct (Z.eqb_spec magic FMR_MAGIC_NUMBER); [done|]. by exists buf.
Qed.

Lemma covered_crc buf buf0 len bs :
  wr_le buf off_crc 2 0 = Some buf0 -> covered buf len = Some bs ->
  packet_crc buf0 len = Some (calcrc true bs).
Proof.
  unfold covered, packet_crc, lf_crc. intros ->. cbn [mbind option_bind]. by intros ->.
Qed.

Lemma perform_bad_crc device buf w len crc bs :
  rd_le buf off_magic 1 = Some FMR_MAGIC_NUMBER -> rd_le buf off_len 2 = Some len ->
  rd_le buf off_crc 2 = Some crc -> covered buf len = Some bs -> crc <> calcrc true bs ->
  rejected device w (fmr_perform device buf w).
Proof.
  intros Hm Hl Hc Hbs Hne. unfold fmr_perform. rewrite (bind_lift_opt _ _ _ _ Hm).
  unfold lf_assert. rewrite Z.eqb_refl, (bind_lift_opt _ _ _ _ Hc).
  destruct (wr_le buf off_crc 2 0) as [buf0|] eqn:Hw.
  2: { unfold covered in Hbs. by rewrite Hw in Hbs. }
  rewrite (bind_lift_opt (Some buf0) buf0 _ _ eq_refl).
  rewrite (bind_lift_opt _ len).
  2: { rewrite <- Hl. apply (rd_le_wr_ne _ _ _ _ _ _ Hw). right. unfold off_crc, off_len. simpl. lia. }
  rewrite (bind_lift_opt _ _ _ _ (covered_crc _ _ _ _ Hw Hbs)).
  destruct (Z.eqb_spec crc (calcrc true bs)); [done|]. cbn [negb].
  mstep (lf_error_set_ok (err_code E_CHECKSUM) w eq_refl). by exists buf0.
Qed.

(** A burst of at most 16 bits in the checked bytes is always noticed. *)
Lemma perform_burst device pkt pkt' w len bs bs' :
  packet_ok pkt -> rd_le pkt off_len 2 = Some len ->
  rd_le pkt' off_len 2 = Some len -> rd_le pkt' off_crc 2 = rd_le pkt off_crc 2 ->
  covered pkt len = Some bs -> covered pkt' len = Some bs' ->
  Forall is_byte bs -> Forall is_byte bs' -> burst16 bs bs' ->
  rejected device w (fmr_perform device pkt' w).
Proof.
  intros (len0 & crc & pkt0 & _ & Hl0 & Hc & Hw & Hcrc) Hl Hl' Hc' Hbs Hbs' Hb Hb' Hburst.
  assert (len0 = len) as -> by congruence. rewrite (covered_crc _ _ _ _ Hw Hbs) in Hcrc.
  assert (exists magic, rd_le pkt' off_magic 1 = Some magic) as [magic Hm].
  { unfold rd_le, rd in Hl' |- *. destruct (decide (off_len + 2 <= length pkt')%nat); [|done].
    rewrite decide_True by (unfold off_magic, off_len in *; lia). by eexists. }
  destruct (decide (magic = FMR_MAGIC_NUMBER)) as [->|Hne].
  - apply (perform_bad_crc device pkt' w len crc bs'); try done; [by rewrite Hc'|].
    injection Hcrc as <-. apply (calcrc_burst true bs bs'); try done.
    unfold covered in Hbs, Hbs'. repeat (case_match; try done).
    destruct (wr_le pkt off_crc 2 0) as [q|]; [|done]. destruct (wr_le pkt' off_crc 2 0) as [q'|]; [|done].
    cbn [mbind option_bind] in Hbs, Hbs'. by rewrite (rd_length _ _ _ _ Hbs), (rd_length _ _ _ _ Hbs').
  - by apply (perform_bad_magic device pkt' w magic).
Qed.

(** The part of [fmr_perform] after a packet was accepted. *)
Lemma perform_accepted device buf w :
  packet_ok buf ->
  exists buf0, wr_le buf off_crc 2 0 = Some buf0 /\
  fmr_perform device buf w
  = (type ← lift_opt (rd_le buf0 off_type 1);
     lf_assert (type <? MAX_DISPATCHERS) E_FMR
       (modules ← (if device =? 0 then mret 0 else d ← load_device device; mret (d_modules d));
        if modules =? 0 then send_result device 0 (err_code E_NULL) buf0
        else
          h ← gets (fun w => default 0 (w_registry w !! Z.to_nat type));
          if h =? 0 then send_result device 0 (err_code E_FMR) buf0
          else
            modify (set_current_packet true);;
            '(dispatch_result, retval) ← call_handler h device buf0 0;
            modify (set_current_packet false);;
            perform_fail device retval buf0)
       (perform_fail device 0 buf0)) (set_err (err_code E_OK) w).
Proof.
  intros (len & crc & buf0 & Hm & Hl & Hc & Hw & Hcrc). exists buf0. split; [done|].
  unfold fmr_perform. rewrite (bind_lift_opt _ _ _ _ Hm).
  unfold lf_assert at 1. rewrite Z.eqb_refl, (bind_lift_opt _ _ _ _ Hc), (bind_lift_opt _ _ _ _ Hw).
  rewrite (bind_lift_opt _ len).
  2: { rewrite <- Hl. apply (rd_le_wr_ne _ _ _ _ _ _ Hw). right. unfold off_crc, off_len. simpl. lia. }
  rewrite (bind_lift_opt _ _ _ _ Hcrc), Z.eqb_refl. cbn [negb].
  by mstep (lf_error_set_ok (err_code E_OK) w eq_refl).
Qed.

Lemma perform_fail_ok device value buf w e w' :
  device_write device (result_bytes value (u8 (w_err w))) w = Ok (e, w') ->
  perform_fail device value buf w = Ok ((e, buf), w').
Proof. intros H. unfold perform_fail, send_result, lf_error_get. mnorm. by mstep H. Qed.

(** A packet that passes the checks, on a device: what is left of [fmr_perform]. *)
Lemma perform_checked device buf w type d :
  packet_ok buf -> rd_le buf off_type 1 = Some type -> type < MAX_DISPATCHERS ->
  device <> 0 -> w_heap w !! device = Some (ODevice d) ->
  exists buf0, wr_le buf off_crc 2 0 = Some buf0 /\
    fmr_perform device buf w
    = (if d_modules d =? 0 then send_result device 0 (err_code E_NULL) buf0
       else
         h ← gets (fun w => default 0 (w_registry w !! Z.to_nat type));
         if h =? 0 then send_result device 0 (err_code E_FMR) buf0
         else
           modify (set_current_packet true);;
           '(dispatch_result, retval) ← call_handler h device buf0 0;
           modify (set_current_packet false);;
           perform_fail device retval buf0) (set_err (err_code E_OK) w).
Proof.
  intros Hok Ht Hlt Hdev Hd. destruct (perform_accepted device buf w Hok) as (buf0 & Hw & ->).
  exists buf0. split; [done|]. rewrite (bind_lift_opt _ type).
  2: { rewrite <- Ht. apply (rd_le_wr_ne _ _ _ _ _ _ Hw). right. unfold off_crc, off_type. simpl. lia. }
  unfold lf_assert. destruct (Z.ltb_spec type MAX_DISPATCHERS); [|lia].
  destruct (Z.eqb_spec device 0); [done|].
  rewrite (bind_Ok _ _ _ (d_modules d) (set_err (err_code E_OK) w)); [done|].
  by mstep (load_device_ok (set_err (err_code E_OK) w) _ _ Hd).
Qed.

(** A dispatched packet: the handler runs with the error register cleared and
    the answer carries its value and the register it left. *)
Lemma perform_dispatch device buf w type d h rc value w1 e w2 :
  packet_ok buf -> rd_le buf off_type 1 = Some type -> type < MAX_DISPATCHERS ->
  device <> 0 -> w_heap w !! device = Some (ODevice d) -> d_modules d <> 0 ->
  w_registry w !! Z.to_nat type = Some h -> h <> 0 ->
  (exists buf0, wr_le buf off_crc 2 0 = Some buf0 /\
     call_handler h device buf0 0 (set_current_packet true (set_err (err_code E_OK) w))
     = Ok ((rc, value), w1)) ->
  device_write device (result_bytes value (u8 (w_err w1))) (set_current_packet false w1) = Ok (e, w2) ->
  exists buf0, wr_le buf off_crc 2 0 = Some buf0 /\ fmr_perform device buf w = Ok ((e, buf0), w2).
Proof.
  intros Hok Ht Hlt Hdev Hd Hmods Hreg Hh (buf0 & Hw & Hcall) Hwr.
  destruct (perform_checked device buf w type d Hok Ht Hlt Hdev Hd) as (buf1 & Hw1 & ->).
  assert (buf1 = buf0) as -> by congruence. exists buf0. split; [done|].
  destruct (Z.eqb_spec (d_modules d) 0); [done|]. mnorm. cbn [w_registry set_err]. rewrite Hreg.
  cbn [default from_option]. unfold id. destruct (Z.eqb_spec h 0); [done|]. mnorm.
  mstep Hcall. mnorm. by apply perform_fail_ok.
Qed.

(** A device without modules answers [E_NULL]. *)
Lemma perform_no_modules device buf w type d e w2 :
  packet_ok buf -> rd_le buf off_type 1 = Some type -> type < MAX_DISPATCHERS ->
  device <> 0 -> w_heap w !! device = Some (ODevice d) -> d_modules d = 0 ->
  device_write device (result_bytes 0 (err_code E_NULL)) (set_err (err_code E_OK) w) = Ok (e, w2) ->
  exists buf0, fmr_perform device buf w = Ok ((e, buf0), w2).
Proof.
  intros Hok Ht Hlt Hdev Hd Hmods Hwr.
  destruct (perform_checked device buf w type d Hok Ht Hlt Hdev Hd) as (buf0 & _ & ->). exists buf0.
  rewrite Hmods. change (0 =? 0) with true. cbv iota. unfold send_result.
  change (u8 (err_code E_NULL)) with (err_code E_NULL). by mstep Hwr.
Qed.

(** A packet class without a handler is answered with [E_FMR]. *)
Lemma perform_unhandled device buf w type d e w2 :
  packet_ok buf -> rd_le buf off_type 1 = Some type -> type < MAX_DISPATCHERS ->
  device <> 0 -> w_heap w !! device = Some (ODevice d) -> d_modules d <> 0 ->
  default 0 (w_registry w !! Z.to_nat type) = 0 ->
  device_write device (result_bytes 0 (err_code E_FMR)) (set_err (err_code E_OK) w) = Ok (e, w2) ->
  exists buf0, wr_le buf off_crc 2 0 = Some buf0 /\ fmr_perform device buf w = Ok ((e, buf0), w2).
Proof.
  intros Hok Ht Hlt Hdev Hd Hmods Hreg Hwr.
  destruct (perform_checked device buf w type d Hok Ht Hlt Hdev Hd) as (buf0 & Hw & ->). exists buf0. split; [done|].
  destruct (Z.eqb_spec (d_modules d) 0); [done|]. mnorm. cbn [w_registry set_err]. rewrite Hreg.
  change (0 =? 0) with true. cbv iota. unfold send_result.
  change (u8 (err_code E_FMR)) with (err_code E_FMR). by mstep Hwr.
Qed.
End Check.

(** ** Remote calls *)

(** [a'] is the receiver's copy of the argument [a]: its type, and the value's
    bytes that were sent; the remaining bytes were never written. *)
Definition arg_agrees (a a' : lf_arg) : Prop :=
  arg_type a' = arg_type a /\
  arg_value a' mod 2 ^ (8 * Z.of_nat (arg_size a)) = arg_value a mod 2 ^ (8 * Z.of_nat (arg_size a)).

(** The argument list a call is made with: fresh nodes and records, owned. *)
Record rpc_list (n0 : Z) (h : gmap Z obj) (head : Z) (l : list ll_entry) (args : list lf_arg) : Prop := {
  rl_ll : is_ll h head l;
  rl_args : args_at h l args;
  rl_free : Forall (fun e => e_decon e = fn_free) l;
  rl_addrs : Forall (fun e => n0 <= e_addr e /\ n0 <= e_item e) l;
  rl_items : NoDup (e_item <$> l);
}.

Section Args.
Implicit Types (args : list lf_arg).

Lemma arg_agrees_overlay a bs (j : list Z) :
  bs = arg_bytes a -> length j = 8%nat ->
  arg_agrees a (LfArg (arg_type a) (le_val (bs ++ drop (arg_size a) j))).
Proof.
  intros -> Hj. split; [done|]. cbn [arg_value].
  assert (forall xs ys, le_val (xs ++ ys) = le_val xs + 2 ^ (8 * Z.of_nat (length xs)) * le_val ys) as Happ.
  { induction xs as [|x xs IH]; intros ys; [simpl; lia|]. rewrite <- app_comm_cons.
    change (le_val (x :: xs ++ ys)) with (x + 2 ^ 8 * le_val (xs ++ ys)).
    change (le_val (x :: xs)) with (x + 2 ^ 8 * le_val xs). rewrite IH. cbn [length].
    replace (8 * Z.of_nat (S (length xs))) with (8 + 8 * Z.of_nat (length xs)) by lia.
    rewrite Z.pow_add_r by lia. lia. }
  rewrite Happ, length_arg_bytes. rewrite (Z.mul_comm (2 ^ _)), Z.mod_add by (apply Z.pow_nonzero; lia).
  unfold arg_bytes. by rewrite le_val_bytes, Z.mod_mod by (apply Z.pow_nonzero; lia).
Qed.

Lemma get_arg_type_at (hdr : list Z) m f r c A args i a :
  length hdr = 6%nat -> (length args <= FMR_MAX_ARGC)%nat -> args !! i = Some a -> wf_arg a ->
  get_arg_type (call_packet hdr m f r c (types_area args) A) i = Some (arg_type a).
Proof.
  intros Hh Hl Hi [Ht _]. pose proof (lookup_lt_Some _ _ _ Hi) as Hlt.
  unfold get_arg_type. rewrite decide_True by lia. unfold rd_le, call_packet, types_area.
  rewrite <- (take_drop_middle args i a Hi) at 1. rewrite fmap_app, fmap_cons.
  set (z := replicate _ _). set (x := drop (S i) args).
  transitivity (le_val <$> rd ((hdr ++ [m; f; r; c] ++ (arg_type <$> take i args)) ++ [arg_type a] ++
    ((arg_type <$> x) ++ z ++ A)) (off_arg_types + i) 1).
  { by rewrite <- !app_assoc. }
  rewrite (rd_mid _ [arg_type a]); [|rewrite !length_app, length_fmap, length_take, Hh|done].
  - simpl. f_equal. lia.
  - simpl. unfold off_arg_types. lia.
Qed.

Lemma rd_arg_bytes_at (hdr : list Z) m f r c T args0 a args :
  length hdr = 6%nat -> length T = FMR_MAX_ARGC ->
  rd (call_packet hdr m f r c T (argv_area (args0 ++ a :: args))) (off_argv + args_size args0) (arg_size a)
  = Some (arg_bytes a).
Proof.
  intros Hh HT. unfold call_packet, argv_area. rewrite args_bytes_app.
  change (args_bytes (a :: args)) with (arg_bytes a ++ args_bytes args). set (z := replicate _ _).
  transitivity (rd ((hdr ++ [m; f; r; c] ++ T ++ args_bytes args0) ++ arg_bytes a ++ (args_bytes args ++ z))
    (off_argv + args_size args0) (arg_size a)).
  { by rewrite <- !app_assoc. }
  apply rd_mid; [|by rewrite length_arg_bytes].
  rewrite !length_app, length_args_bytes, Hh, HT. simpl. unfold off_argv, FMR_MAX_ARGC. lia.
Qed.
End Args.

(** The packet at the start of [buf] carries the arguments [args]. *)
Record carries (buf : list Z) (args : list lf_arg) : Prop := {
  ca_type i a : args !! i = Some a -> get_arg_type buf i = Some (arg_type a);
  ca_bytes args0 a args1 : args = args0 ++ a :: args1 ->
    rd buf (off_argv + args_size args0) (arg_size a) = Some (arg_bytes a);
}.

Lemma call_packet_carries (hdr : list Z) m f r c args tl :
  length hdr = 6%nat -> (length args <= FMR_MAX_ARGC)%nat -> (args_size args <= 38)%nat ->
  Forall wf_arg args ->
  carries (call_packet hdr m f r c (types_area args) (argv_area args) ++ tl) args.
Proof.
  intros Hh Hn Hs Hwf.
  assert (length (call_packet hdr m f r c (types_area args) (argv_area args)) = 64%nat) as Hlen.
  { unfold call_packet. rewrite !length_app, length_types_area, length_argv_area, Hh by done. done. }
  split.
  - intros i a Hi. rewrite <- (get_arg_type_at hdr m f r c (argv_area args) args i a Hh Hn Hi).
    2: { by eapply Forall_lookup_1. }
    unfold get_arg_type, rd_le. case_decide; [|done]. rewrite rd_app_l; [done|].
    rewrite Hlen. unfold off_arg_types, FMR_MAX_ARGC in *. lia.
  - intros args0 a args1 ->. rewrite <- (rd_arg_bytes_at hdr m f r c (types_area (args0 ++ a :: args1)) args0 a args1).
    + apply rd_app_l. rewrite Hlen. rewrite args_size_app, args_size_cons in Hs. unfold off_argv. lia.
    + done.
    + by apply length_types_area.
Qed.

Section RpcList.
Context {E : Type}.
Implicit Types (w : world E) (l : list ll_entry) (args : list lf_arg).

(** One more argument: a fresh record, linked by a fresh node. *)
Lemma rpc_list_snoc n0 w head l args new h' head' :
  wf_world w -> n0 <= w_next w -> rpc_list n0 (w_heap w) head l args ->
  is_ll h' head' (l ++ [Entry (w_next w + 16) (w_next w) fn_free]) ->
  (forall a, a ∉ addrs l -> a <> w_next w + 16 -> h' !! a = w_heap (alloc_at (OArg new) w) !! a) ->
  rpc_list n0 h' head' (l ++ [Entry (w_next w + 16) (w_next w) fn_free]) (args ++ [new]).
Proof.
  intros Hw Hn0 [Hl Ha Hf Had Hnd] Hl' Hfr.
  assert (forall e, e ∈ l -> exists a, w_heap w !! e_item e = Some (OArg a)) as Hit.
  { intros e (i & He)%list_elem_of_lookup.
    destruct (Forall2_lookup_l _ _ _ _ _ Ha He) as (a & _ & Hat). by exists a. }
  assert (forall e, e ∈ l -> e_item e < w_next w) as Hlt.
  { intros e (a & Hat)%Hit. destruct Hw as [_ Hw]. apply Hw in Hat. lia. }
  split; [done| | | |].
  - apply Forall2_app.
    + apply Forall2_same_length_lookup. split; [by eapply Forall2_length|].
      intros i e a He Hi. pose proof (list_elem_of_lookup_2 _ _ _ He) as Hin.
      pose proof (Forall2_lookup_lr _ _ _ _ _ _ Ha He Hi) as Hat. cbn beta in Hat.
      pose proof (Hlt e Hin). rewrite Hfr; [|intros Hx|lia].
      * cbn. rewrite lookup_insert_ne by lia. done.
      * destruct (is_ll_lookup _ _ _ _ Hl Hx) as (_ & n & Hn). congruence.
    + constructor; [|done]. cbn [e_item]. rewrite Hfr; [apply lookup_insert_eq| |lia].
      by eapply wf_fresh_not_in.
  - apply Forall_app. split; [done|]. by constructor.
  - apply Forall_app. split; [done|]. constructor; [|done]. cbn. lia.
  - rewrite fmap_app. apply NoDup_app. split; [done|]. split; [|apply NoDup_singleton].
    intros x (e & -> & Hin)%list_elem_of_fmap Hx%list_elem_of_singleton.
    specialize (Hlt e Hin). cbn in Hx. lia.
Qed.

Lemma rpc_list_nil n0 w : rpc_list n0 (w_heap w) 0 [] [].
Proof. split; [done|constructor|constructor|constructor|constructor]. Qed.

Lemma owned_all_free l : Forall (fun e => e_decon e = fn_free) l -> owned l = e_item <$> l.
Proof.
  induction 1 as [|e l He _ IH]; [done|]. rewrite owned_cons, decide_False by (by rewrite He).
  by rewrite IH.
Qed.

(** Everything a call's argument list holds can be released. *)
Lemma rpc_list_owned n0 h head l args :
  heap_base <= n0 -> rpc_list n0 h head l args ->
  Forall (fun a => heap_base <= a) (addrs l) /\ owned_ok h (addrs l) l.
Proof.
  intros Hb [Hl Ha Hf Had Hnd]. split; [|split].
  - apply Forall_fmap. eapply Forall_impl; [exact Had|]. cbn. lia.
  - by rewrite (owned_all_free l Hf).
  - intros e He _. rewrite Forall_forall in Hf. rewrite Forall_forall in Had.
    apply list_elem_of_lookup in He as [i He].
    destruct (Forall2_lookup_l _ _ _ _ _ Ha He) as (a & _ & Hat). apply list_elem_of_lookup_2 in He.
    split; [split; [specialize (Had e He); lia|left; split; [by apply Hf|by eexists]]|].
    intros Hx. destruct (is_ll_lookup _ _ _ _ Hl Hx) as (_ & n & Hn). congruence.
Qed.
End RpcList.

Section Rpc.
Context {E : Type} `{!Transport E, !ModuleCode E}.
Implicit Types (w : world E) (l : list ll_entry) (args : list lf_arg).

(** The world [w] with other objects on its heap. *)
Definition heap_step n0 w w' : Prop :=
  exists h' n' f', w' = set_heap h' (set_alloc n' f' w) /\ wf_world w' /\ no_oom w' /\ n0 <= n' /\
    forall a, a < n0 -> h' !! a = w_heap w !! a.

(** One round of the argument loop. *)
Lemma rpc_args_step w n0 head l args0 args0' a todo i argv buf :
  wf_world w -> no_oom w -> n0 <= w_next w -> rpc_list n0 (w_heap w) head l args0' ->
  Forall2 arg_agrees args0 args0' ->
  get_arg_type buf i = Some (arg_type a) -> rd buf argv (arg_size a) = Some (arg_bytes a) ->
  exists w' head' l' a',
    rpc_args_loop (S todo) i head argv buf w
    = rpc_args_loop todo (S i) head' (argv + arg_size a) buf w' /\
    heap_step n0 w w' /\ rpc_list n0 (w_heap w') head' l' (args0' ++ [a']) /\ arg_agrees a a'.
Proof.
  intros Hw Ho Hn0 Hrl Hag Hty Hby. cbn [rpc_args_loop]. rewrite (bind_lift_opt _ _ _ _ Hty). mnorm.
  set (a0 := LfArg (u8 (w_junk w (w_next w))) (u64 (w_junk w (w_next w + 1)))).
  mstep (malloc_ok w (fun b => OArg (LfArg (u8 (w_junk w b)) (u64 (w_junk w (b + 1)))))
           (no_oom_alloc_fails _ Ho)). fold a0.
  destruct (Z.eqb_spec (w_next w) 0) as [H0|_]; [by apply wf_next_nonnull in H0|].
  assert (w_heap (alloc_at (OArg a0) w) !! w_next w = Some (OArg a0)) as Hat by apply lookup_insert_eq.
  mstep (load_arg_ok _ _ _ Hat). fold (arg_size a). rewrite (bind_lift_opt _ _ _ _ Hby).
  set (a' := LfArg (arg_type a) _). mstep (store_ok _ _ (OArg a') _ Hat).
  assert (set_heap (<[w_next w := OArg a']> (w_heap (alloc_at (OArg a0) w))) (alloc_at (OArg a0) w)
          = alloc_at (OArg a') w) as -> by (unfold alloc_at; cbn; by rewrite insert_insert_eq).
  destruct (lf_ll_append_spec (alloc_at (OArg a') w) head l (w_next w) fn_free)
    as (head' & h' & Hrun & Hl' & _ & Hfr & Hw').
  { by apply wf_alloc. } { by apply no_oom_alloc_fails, no_oom_alloc. } { by apply is_ll_alloc, Hrl. }
  mstep Hrun. cbn [lf_success Z.eqb negb default from_option]. unfold id.
  change (w_next (alloc_at (OArg a') w)) with (w_next w + 16) in *.
  eexists _, head', (l ++ [Entry (w_next w + 16) (w_next w) fn_free]), a'.
  split; [done|]. split; [|split].
  - exists h', (w_next w + 16 + 16), (tail (tail (w_fail w))).
    split; [done|]. split; [done|]. split; [by apply no_oom_tail; apply no_oom_tail|].
    split; [lia|]. intros b Hb. rewrite Hfr.
    + cbn. by rewrite lookup_insert_ne by lia.
    + intros (e & -> & He)%list_elem_of_fmap.
      destruct Hrl as [_ _ _ Had _]. rewrite Forall_forall in Had. specialize (Had e He). lia.
    + lia.
  - by eapply rpc_list_snoc.
  - apply arg_agrees_overlay; [done|]. apply length_le_bytes.
Qed.

Lemma heap_step_trans n0 w w1 w2 : heap_step n0 w w1 -> heap_step n0 w1 w2 -> heap_step n0 w w2.
Proof.
  intros (h1 & n1 & f1 & -> & Hw1 & Ho1 & Hn1 & Hf1) (h2 & n2 & f2 & -> & Hw2 & Ho2 & Hn2 & Hf2).
  exists h2, n2, f2. split_and!; try done. intros a Ha. rewrite Hf2 by done. by apply Hf1.
Qed.

Lemma rpc_args_loop_ok all buf : carries buf all -> forall args w n0 head l args0 args0' i argv,
  all = args0 ++ args -> i = length args0 -> argv = (off_argv + args_size args0)%nat ->
  wf_world w -> no_oom w -> n0 <= w_next w -> rpc_list n0 (w_heap w) head l args0' ->
  Forall2 arg_agrees args0 args0' ->
  exists w' head' l' args',
    rpc_args_loop (length args) i head argv buf w = Ok (Some head', w') /\
    heap_step n0 w w' /\ rpc_list n0 (w_heap w') head' l' args' /\ Forall2 arg_agrees all args'.
Proof.
  intros Hca. induction args as [|a args IH];
    intros w n0 head l args0 args0' i argv Hall -> -> Hw Ho Hn0 Hrl Hag.
  - rewrite app_nil_r in Hall. subst all. exists w, head, l, args0'.
    split; [done|]. split; [|done]. exists (w_heap w), (w_next w), (w_fail w).
    split; [by destruct w|]. done.
  - cbn [length].
    destruct (rpc_args_step w n0 head l args0 args0' a (length args) (length args0)
                (off_argv + args_size args0)%nat buf) as (w1 & head1 & l1 & a' & -> & Hst & Hrl1 & Ha'); try done.
    { apply (ca_type _ _ Hca). rewrite Hall. by rewrite list_lookup_middle. }
    { by apply (ca_bytes _ _ Hca args0 a args). }
    pose proof Hst as (h1 & n1 & f1 & Hw1 & Hwf1 & Ho1 & Hn1 & _).
    destruct (IH w1 n0 head1 l1 (args0 ++ [a]) (args0' ++ [a']) (S (length args0))
                (off_argv + args_size args0 + arg_size a)%nat)
      as (w2 & head2 & l2 & args2 & Hrun & Hst2 & Hrl2 & Hag2); try done.
    + by rewrite <- app_assoc.
    + rewrite length_app. simpl. lia.
    + rewrite args_size_snoc. lia.
    + rewrite Hw1. done.
    + by apply Forall2_app; [|constructor].
    + exists w2, head2, l2, args2. split; [done|]. split; [by eapply heap_step_trans|done].
Qed.

(** A call packet whose module and function exist: the function runs once, on
    a fresh list holding the caller's arguments, its value is returned, and
    the list is gone afterwards. *)
Lemma fmr_rpc_ok w device d l ms mi e m fi f buf args ret0 :
  wf_world w -> no_oom w -> device_at (w_heap w) device d l ms ->
  rd_le buf off_call_module 1 = Some (Z.of_nat mi) -> l !! mi = Some e -> ms !! mi = Some m ->
  rd_le buf off_call_function 1 = Some (Z.of_nat fi) -> Z.of_nat fi < m_length m ->
  m_table m !! fi = Some f ->
  rd_le buf off_call_argc 1 = Some (Z.of_nat (length args)) -> carries buf args ->
  exists w1 head al args',
    heap_step (w_next w) w w1 /\ rpc_list (w_next w) (w_heap w1) head al args' /\
    Forall2 arg_agrees args args' /\
    forall v w2, call_function f head w1 = Ok (v, w2) ->
      rpc_list (w_next w) (w_heap w2) head al args' ->
      exists h', fmr_rpc device buf ret0 w = Ok ((lf_success, v), set_heap h' w2) /\
        forall q, h' !! q = if decide (q ∈ addrs al \/ q ∈ owned al) then None else w_heap w2 !! q.
Proof.
  intros Hw Ho [Hd Hl Hm Hn] Hmi He Hmm Hfi Hlt Hf Hc Hca.
  destruct (rpc_args_loop_ok args buf Hca args w (w_next w) 0 [] [] [] 0 off_argv)
    as (w1 & head & al & args' & Hloop & Hst & Hrl & Hag); try done; [apply rpc_list_nil|].
  exists w1, head, al, args'. split; [done|]. split; [done|]. split; [done|]. intros v w2 Hcall Hrl2.
  assert (heap_base <= w_next w) as Hb by apply Hw.
  destruct (rpc_list_owned _ _ _ _ _ Hb Hrl2) as [Hbase Hown].
  destruct (lf_ll_release_spec w2 head al (rl_ll _ _ _ _ _ Hrl2) Hbase Hown) as (h' & Hrel & Hq).
  exists h'. split; [|done]. pose proof (modules_at_item _ _ _ _ _ _ Hm He Hmm) as Hat.
  unfold fmr_rpc. mstep (load_device_ok _ _ _ Hd). rewrite (bind_lift_opt _ _ _ _ Hmi), Nat2Z.id.
  rewrite (bind_Ok _ _ _ (e_item e) w) by (by rewrite (lf_ll_item_spec _ _ _ _ Hl), He).
  rewrite (bind_lift_opt _ _ _ _ Hfi).
  destruct (Z.eqb_spec (e_item e) 0) as [H0|_]; [by rewrite H0, wf_null in Hat|].
  mstep (load_module_ok _ _ _ Hat). destruct (Z.leb_spec (m_length m) (Z.of_nat fi)); [lia|].
  rewrite (bind_lift_opt _ _ _ _ Hc), !Nat2Z.id. mstep Hloop.
  assert (w_heap w1 !! e_item e = Some (OModule m)) as Hat1.
  { destruct Hst as (h1 & n1 & f1 & -> & _ & _ & _ & Hfr). cbn. rewrite Hfr; [done|].
    by apply Hw in Hat as [_ ?]. }
  mstep (load_module_ok _ _ _ Hat1). rewrite (bind_lift_opt _ _ _ _ Hf).
  mstep Hcall. by mstep Hrel.
Qed.

(** A function index past the table is refused, and the error register is
    left as it was. *)
Lemma fmr_rpc_bad_function w device d l ms mi e m fi buf ret0 :
  wf_world w -> device_at (w_heap w) device d l ms ->
  rd_le buf off_call_module 1 = Some (Z.of_nat mi) -> l !! mi = Some e -> ms !! mi = Some m ->
  rd_le buf off_call_function 1 = Some fi -> m_length m <= fi ->
  fmr_rpc device buf ret0 w = Ok ((lf_error, ret0), w).
Proof.
  intros Hw [Hd Hl Hm Hn] Hmi He Hmm Hfi Hge. pose proof (modules_at_item _ _ _ _ _ _ Hm He Hmm) as Hat.
  unfold fmr_rpc. mstep (load_device_ok _ _ _ Hd). rewrite (bind_lift_opt _ _ _ _ Hmi), Nat2Z.id.
  rewrite (bind_Ok _ _ _ (e_item e) w) by (by rewrite (lf_ll_item_spec _ _ _ _ Hl), He).
  rewrite (bind_lift_opt _ _ _ _ Hfi).
  destruct (Z.eqb_spec (e_item e) 0) as [H0|_]; [by rewrite H0, wf_null in Hat|].
  mstep (load_module_ok _ _ _ Hat). by destruct (Z.leb_spec (m_length m) fi); [|lia].
Qed.

Lemma fmr_rpc_bad_module w device d l ms mi fi buf ret0 :
  wf_world w -> device_at (w_heap w) device d l ms ->
  rd_le buf off_call_module 1 = Some (Z.of_nat mi) -> (length ms <= mi)%nat ->
  rd_le buf off_call_function 1 = Some fi ->
  fmr_rpc device buf ret0 w = Ok ((lf_error, ret0), set_err (err_code E_NULL) w).
Proof.
  intros Hw [Hd Hl Hm Hn] Hmi Hge Hfi.
  unfold fmr_rpc. mstep (load_device_ok _ _ _ Hd). rewrite (bind_lift_opt _ _ _ _ Hmi), Nat2Z.id.
  rewrite (bind_Ok _ _ _ 0 (set_err (err_code E_NULL) w)); [by rewrite (bind_lift_opt _ _ _ _ Hfi)|].
  rewrite (lf_ll_item_spec _ _ _ _ Hl). rewrite <- (modules_at_length _ _ _ Hm) in Hge.
  by rewrite lookup_ge_None_2.
Qed.
End Rpc.

Section Handlers.
Context {E : Type} `{!Transport E, !ModuleCode E}.
Implicit Types (w : world E) (l : list ll_entry) (buf : list Z).

(** The table after [fmr_init], whatever it held before. *)
Lemma fmr_init_ok w :
  length (w_registry w) = 6%nat ->
  fmr_init w = Ok (tt, set_registry [fn_fmr_rpc; fn_fmr_push; fn_fmr_pull; fn_fmr_dyld;
                                     fn_fmr_malloc; fn_fmr_free] w).
Proof.
  intros H. destruct w as [we wh wn wf wj wa wc wr wp wenv]. cbn in H.
  do 7 (destruct wr as [|? wr]; try done).
Qed.

Lemma fmr_register_ok w type handler :
  0 <= type < MAX_DISPATCHERS -> handler <> 0 -> length (w_registry w) = 6%nat ->
  exists w', fmr_register type handler w = Ok (lf_success, w') /\
    w_registry w' !! Z.to_nat type = Some handler /\ length (w_registry w') = 6%nat /\
    forall j, j <> Z.to_nat type -> w_registry w' !! j = w_registry w !! j.
Proof.
  intros Ht Hh Hl. unfold fmr_register.
  destruct (Z.leb_spec MAX_DISPATCHERS type); [lia|]. destruct (Z.eqb_spec handler 0); [done|].
  cbn [orb]. mnorm. eexists. split; [done|]. cbn [w_registry set_registry]. split_and!.
  - apply list_lookup_insert_eq. unfold MAX_DISPATCHERS, FMR_CLASS_COUNT in *. lia.
  - by rewrite length_insert.
  - intros j Hj. by rewrite list_lookup_insert_ne.
Qed.

(** The [n]th registered module, for the handlers that walk the list. *)
Lemma nth_module_ok w device d l n :
  w_heap w !! device = Some (ODevice d) -> is_ll (w_heap w) (d_modules d) l ->
  nth_module device n w = Ok (from_option e_item 0 (l !! Z.to_nat n), w).
Proof.
  intros Hd Hl. unfold nth_module. mstep (load_device_ok _ _ _ Hd).
  destruct (ll_item_loop_ok w (d_modules d) l (Z.to_nat n) Hl) as (q & Hq & Hll). mstep Hq.
  destruct (l !! Z.to_nat n) as [e|] eqn:He.
  - rewrite (drop_S _ _ _ He) in Hll. destruct e as [b it dc].
    destruct Hll as (-> & H0 & nx & Hn & _). cbn [e_addr e_item e_decon] in *. destruct (Z.eqb_spec b 0); [done|].
    by mstep (load_node_ok _ _ _ Hn).
  - apply lookup_ge_None in He. rewrite drop_ge in Hll by done. by rewrite Hll.
Qed.

(** Handlers other than the call handler read past the packet: without memory
    behind it they have no defined behaviour. *)
Lemma past_packet_Ub device buf ret0 w h :
  length buf = FMR_PACKET_SIZE -> h ∈ [fn_fmr_push; fn_fmr_pull; fn_fmr_dyld; fn_fmr_malloc; fn_fmr_free] ->
  call_handler h device buf ret0 w = Ub.
Proof.
  intros Hl Hh.
  assert (forall o len, (0 < len)%nat -> rd_le buf (past_packet + o) len = None) as Hrd.
  { intros o len Hlen. unfold rd_le, rd. rewrite decide_False; [done|]. unfold past_packet. lia. }
  assert (cstr (drop past_packet buf) = None) as Hc by (unfold past_packet; by rewrite drop_ge by lia).
  pose proof (Hrd 0%nat 1%nat ltac:(lia)) as H1. pose proof (Hrd 0%nat 8%nat ltac:(lia)) as H8.
  rewrite Nat.add_0_r in H1, H8. rewrite !elem_of_cons in Hh.
  destruct Hh as [->|[->|[->|[->|[->|Hh]]]]]; [..|by apply not_elem_of_nil in Hh];
    unfold call_handler; cbn [fn_fmr_push fn_fmr_pull fn_fmr_dyld fn_fmr_malloc fn_fmr_free fn_fmr_rpc Z.eqb Pos.eqb];
    unfold fmr_push, fmr_pull, fmr_dyld, fmr_malloc, fmr_free; by rewrite ?H1, ?H8, ?Hc.
Qed.

Lemma fmr_dyld_ok w device d l ms buf name ret0 i m :
  wf_world w -> device_at (w_heap w) device d l ms ->
  cstr (drop past_packet buf) = Some name ->
  ms !! i = Some m -> has_name name m -> (forall j m', (j < i)%nat -> ms !! j = Some m' -> ~ has_name name m') ->
  fmr_dyld device buf ret0 w = Ok ((lf_success, m_idx m), w).
Proof.
  intros Hw Hda Hc Hi Hm Hfirst. unfold fmr_dyld. rewrite (bind_lift_opt _ _ _ _ Hc).
  mstep (lf_module_get_by_name_spec w device d l ms name Hw Hda (cstr_nonzero _ _ Hc)).
  destruct (Forall2_lookup_r _ _ _ _ _ (da_mods _ _ _ _ _ Hda) Hi) as (e & He & Hat). cbn beta in Hat.
  rewrite (find_named_some name l ms i m e) by done.
  destruct (Z.eqb_spec (e_item e) 0) as [H0|_]; [by rewrite H0, wf_null in Hat|].
  by mstep (load_module_ok _ _ _ Hat).
Qed.

Lemma fmr_dyld_missing w device d l ms buf name ret0 :
  wf_world w -> device_at (w_heap w) device d l ms ->
  cstr (drop past_packet buf) = Some name -> Forall (fun m => ~ has_name name m) ms ->
  fmr_dyld device buf ret0 w = Ok ((lf_error, 0), w).
Proof.
  intros Hw Hda Hc Hno. unfold fmr_dyld. rewrite (bind_lift_opt _ _ _ _ Hc).
  mstep (lf_module_get_by_name_spec w device d l ms name Hw Hda (cstr_nonzero _ _ Hc)).
  by rewrite (find_named_none name l ms (modules_at_length _ _ _ (da_mods _ _ _ _ _ Hda)) Hno).
Qed.

(** A push/pull request as it lies behind the packet. *)
Definition request (buf : list Z) (module index : Z) (data : list Z) : Prop :=
  rd_le buf past_packet 1 = Some module /\ rd_le buf (past_packet + 1) 1 = Some index /\
  rd_le buf (past_packet + 2) 1 = Some (Z.of_nat (length data)) /\
  rd buf (past_packet + 3) (length data) = Some data.

Lemma fmr_push_ok w device d l ms buf ret0 mi e m index data st st' :
  wf_world w -> device_at (w_heap w) device d l ms -> request buf (Z.of_nat mi) index data ->
  l !! mi = Some e -> ms !! mi = Some m -> w_heap w !! m_state m = Some (ORaw st) ->
  wr st (Z.to_nat index) data = Some st' ->
  fmr_push device buf ret0 w
  = Ok ((lf_success, 0), set_heap (<[m_state m := ORaw st']> (w_heap w)) w).
Proof.
  intros Hw [Hd Hl Hm Hn] (Hr1 & Hr2 & Hr3 & Hr4) He Hmm Hst Hwr.
  pose proof (modules_at_item _ _ _ _ _ _ Hm He Hmm) as Hat.
  unfold fmr_push. rewrite (bind_lift_opt _ _ _ _ Hr1). mstep (nth_module_ok w device d l (Z.of_nat mi) Hd Hl).
  rewrite Nat2Z.id, He. cbn [from_option].
  destruct (Z.eqb_spec (e_item e) 0) as [H0|_]; [by rewrite H0, wf_null in Hat|].
  mstep (load_module_ok _ _ _ Hat).
  destruct (Z.eqb_spec (m_state m) 0) as [H0|_]; [by rewrite H0, wf_null in Hst|].
  rewrite (bind_lift_opt _ _ _ _ Hr2), (bind_lift_opt _ _ _ _ Hr3), Nat2Z.id, (bind_lift_opt _ _ _ _ Hr4).
  rewrite (bind_Ok _ _ _ st w) by (unfold load_raw; by rewrite Hst).
  rewrite (bind_lift_opt _ _ _ _ Hwr). by mstep (store_ok w (m_state m) (ORaw st') _ Hst).
Qed.

Lemma fmr_pull_ok w device d l ms buf ret0 mi e m index (len : nat) st data :
  wf_world w -> device_at (w_heap w) device d l ms ->
  rd_le buf past_packet 1 = Some (Z.of_nat mi) -> rd_le buf (past_packet + 1) 1 = Some index ->
  rd_le buf (past_packet + 2) 1 = Some (Z.of_nat len) ->
  l !! mi = Some e -> ms !! mi = Some m -> w_heap w !! m_state m = Some (ORaw st) ->
  rd st (Z.to_nat index) len = Some data ->
  fmr_pull device buf ret0 w
  = (rc ← device_write device data; mret (rc, if rc =? lf_success then 0 else u64 (-1))) w.
Proof.
  intros Hw [Hd Hl Hm Hn] Hr1 Hr2 Hr3 He Hmm Hst Hrd.
  pose proof (modules_at_item _ _ _ _ _ _ Hm He Hmm) as Hat.
  unfold fmr_pull. rewrite (bind_lift_opt _ _ _ _ Hr1). mstep (nth_module_ok w device d l (Z.of_nat mi) Hd Hl).
  rewrite Nat2Z.id, He. cbn [from_option].
  destruct (Z.eqb_spec (e_item e) 0) as [H0|_]; [by rewrite H0, wf_null in Hat|].
  mstep (load_module_ok _ _ _ Hat).
  destruct (Z.eqb_spec (m_state m) 0) as [H0|_]; [by rewrite H0, wf_null in Hst|].
  rewrite (bind_lift_opt _ _ _ _ Hr2), (bind_lift_opt _ _ _ _ Hr3), Nat2Z.id.
  rewrite (bind_Ok _ _ _ st w) by (unfold load_raw; by rewrite Hst).
  by rewrite (bind_lift_opt _ _ _ _ Hrd).
Qed.

(** Memory allocated for the host is a fresh object, and freeing it restores
    the heap. *)
Lemma fmr_malloc_ok w device buf ret0 len :
  wf_world w -> alloc_fails w = false -> rd_le buf past_packet 8 = Some len ->
  exists bs, length bs = Z.to_nat len /\
    fmr_malloc device buf ret0 w = Ok ((lf_success, w_next w), alloc_at (ORaw bs) w).
Proof.
  intros Hw Ha Hl. unfold fmr_malloc. rewrite (bind_lift_opt _ _ _ _ Hl). mnorm. eexists. split.
  2: { rewrite (bind_Ok _ _ _ _ _ (malloc_ok w _ Ha)). cbn beta.
       destruct (Z.eqb_spec (w_next w) 0) as [H0|_]; [by apply wf_next_nonnull in H0|done]. }
  by rewrite length_fmap, length_seq.
Qed.

Lemma fmr_free_ok w device buf ret0 ptr o :
  rd_le buf past_packet 8 = Some ptr -> heap_base <= ptr -> w_heap w !! ptr = Some o ->
  fmr_free device buf ret0 w = Ok ((lf_success, 0), set_heap (delete ptr (w_heap w)) w).
Proof.
  intros Hp Hb Ho. unfold fmr_free. rewrite (bind_lift_opt _ _ _ _ Hp).
  by rewrite (bind_Ok _ _ _ _ _ (free_ok w ptr o Hb Ho)).
Qed.

(** Storing raw memory leaves the registry as it is. *)
Lemma device_at_store_raw h p d l ms a st st' :
  device_at h p d l ms -> h !! a = Some (ORaw st) -> device_at (<[a := ORaw st']> h) p d l ms.
Proof.
  intros [Hd Hl Hm Hn] Ha. split; [|apply (is_ll_frame h)|apply (modules_at_frame h)|]; try done.
  - rewrite lookup_insert_ne; [done|congruence].
  - intros b Hb. apply lookup_insert_ne. intros <-.
    destruct (is_ll_lookup _ _ _ _ Hl Hb) as (_ & n & Hn'). congruence.
  - intros e (i & He)%list_elem_of_lookup. destruct (Forall2_lookup_l _ _ _ _ _ Hm He) as (m & _ & Hat).
    apply lookup_insert_ne. intros ->. cbn beta in Hat. congruence.
Qed.
End Handlers.
