(* ===== verification/Network.v ===== *)
(** * The network endpoint (platforms/posix/src/network.c, include/network.h)

    UDP transport of packets. The socket calls are those of the operating
    system: [Sockets] gives their effect on the environment. *)

From S2P Require Import Prelude World Errors Device LinkedList Transport.
From stdpp Require Import base list gmap sets.
From Stdlib Require Import ZArith Lia.
Local Open Scope Z_scope.

(** The outcome of [recvfrom]: a datagram and its sender, or [errno]. *)
Inductive received :=
| RcvOk (data : list Z) (from : sockaddr_in)
| RcvErr (errno : Z).

(** System calls act on the environment only. *)
Class Sockets (E : Type) := {
  sys_socket : E -> Z * E;
  sys_bind : Z -> sockaddr_in -> E -> Z * E;
  sys_recvfrom : Z -> nat -> E -> received * E;
  sys_sendto : Z -> list Z -> sockaddr_in -> E -> Z * E;
  sys_close : Z -> E -> E;
  sys_usleep : Z -> E -> E;
  inet_addr : list Z -> Z;
}.

(** Linux values of the constants the code compares against. *)
Definition EINTR : Z := 4.
Definition EAGAIN : Z := 11.
Definition EWOULDBLOCK : Z := 11.
Definition INADDR_NONE : Z := 0xFFFFFFFF.
Definition INADDR_ANY : Z := 0.

(** [htons] on a little-endian host. *)
Definition htons (x : Z) : Z := Z.lor (Z.shiftl (Z.land x 0xFF) 8) (Z.shiftr (u16 x) 8).

Definition str_localhost : list Z := [108; 111; 99; 97; 108; 104; 111; 115; 116].
Definition str_loopback : list Z := [49; 50; 55; 46; 48; 46; 48; 46; 49].

(** [strncpy(host, s, 64); host[63] = 0]. *)
Definition host64 (s : list Z) : list Z := take 63 (strncpy s 64) ++ [0].

(** A [calloc]ed context. *)
Definition net_zero : lf_network_context :=
  NetCtx 0 (replicate 64 0) (SockAddr 0 0) (SockAddr 0 0).

Definition set_ep_ctx (d : lf_device) (p : Z) : lf_device :=
  LfDevice (d_name d) (d_version d) (d_type d) (d_modules d) (d_read d) (d_write d) (d_release d)
    (d_dev_ctx d) p.
Definition nc_set_fd (c : lf_network_context) (fd : Z) : lf_network_context :=
  NetCtx fd (nc_host c) (nc_device c) (nc_addr c).
Definition nc_set_addr (c : lf_network_context) (a : sockaddr_in) : lf_network_context :=
  NetCtx (nc_fd c) (nc_host c) (nc_device c) a.
Definition nc_set_host (c : lf_network_context) (h : list Z) : lf_network_context :=
  NetCtx (nc_fd c) h (nc_device c) (nc_addr c).

(** An operation of the environment. *)
Definition env_op {E A} (f : E -> A * E) : C E A := fun w =>
  let '(a, e) := f (w_env w) in Ok (a, set_env e w).

Section Network.
Context {E : Type} `{!Sockets E}.

Definition lf_network_device_for_hostname (hostname : list Z) : C E Z :=
  device ← lf_device_create fn_lf_network_read fn_lf_network_write fn_lf_network_release;
  lf_assert (ctrue device) E_ENDPOINT
    (context ← malloc (fun _ => ONet net_zero);
     d ← load_device device;
     store device (ODevice (set_ep_ctx d context));;
     lf_assert (ctrue context) E_NULL
       (c ← load_net context;
        store context (ONet (nc_set_host c (host64 hostname)));;
        mret device)
       (mret 0))
    (mret 0).

(** [fail:] of [lf_network_connect]. *)
Definition connect_fail (ctx : Z) : C E Z :=
  c ← load_net ctx;
  (if 0 <? nc_fd c then env_op (fun e => (tt, sys_close (nc_fd c) e)) else mret tt);;
  mret lf_error.

Definition lf_network_connect (device : Z) (host : list Z) (port : Z) : C E Z :=
  d ← load_device device;
  let ctx := d_ep_ctx d in
  lf_assert (ctrue ctx) E_NULL
    (fd ← env_op sys_socket;
     c ← load_net ctx;
     store ctx (ONet (nc_set_fd c fd));;
     lf_assert (0 <? fd) E_SOCKET
       (b ← env_op (sys_bind fd (SockAddr INADDR_ANY (htons 0)));
        lf_assert (b =? 0) E_SOCKET
          (c ← load_net ctx;
           store ctx (ONet (nc_set_addr c (SockAddr 0 (htons port))));;
           let resolved_host := if bool_decide (host = str_localhost) then str_loopback else host in
           let ip := inet_addr resolved_host in
           lf_assert (negb (ip =? INADDR_NONE)) E_COMMUNICATION
             (c ← load_net ctx;
              store ctx (ONet (nc_set_host (nc_set_addr c (SockAddr ip (sin_port (nc_addr c))))
                                 (host64 resolved_host)));;
              mret lf_success)
             (connect_fail ctx))
          (connect_fail ctx))
       (connect_fail ctx))
    (* ctx is null here: [fail:] reads ctx->fd *)
    ub.

(** The receive loop: at most [retries] attempts, [None] when it fails. *)
Fixpoint recv_loop (retries : nat) (fd : Z) (length : nat) : C E (option (list Z * sockaddr_in)) :=
  match retries with
  | O => mret None
  | S retries =>
    r ← env_op (sys_recvfrom fd length);
    match r with
    | RcvOk data from => mret (Some (data, from))
    | RcvErr errno =>
      if (errno =? EAGAIN) || (errno =? EWOULDBLOCK) || (errno =? EINTR) then
        env_op (fun e => (tt, sys_usleep 100000 e));; recv_loop retries fd length
      else mret None
    end
  end.

(** Receives one datagram into the destination; a longer one is truncated, a
    shorter one leaves the rest of the destination as it was. *)
Definition lf_network_read (device : Z) (dst : list Z) : C E (Z * list Z) :=
  lf_assert (ctrue device) E_NULL
    (d ← load_device device;
     let ctx := d_ep_ctx d in
     lf_assert (ctrue ctx) E_NULL
       (c ← load_net ctx;
        r ← recv_loop 5 (nc_fd c) (length dst);
        match r with
        | None => mret (lf_error, dst)
        | Some (data, from) =>
          dst ← lift_opt (wr dst 0 (take (length dst) data));
          c ← load_net ctx;
          store ctx (ONet (nc_set_addr c from));;
          mret (lf_success, dst)
        end)
       (mret (lf_error, dst)))
    (mret (lf_error, dst)).

Definition lf_network_write (device : Z) (src : list Z) : C E Z :=
  lf_assert (ctrue device) E_NULL
    (d ← load_device device;
     let ctx := d_ep_ctx d in
     lf_assert (ctrue ctx) E_NULL
       (c ← load_net ctx;
        if (sin_addr (nc_addr c) =? 0) || (sin_port (nc_addr c) =? 0) then mret (err_code E_COMMUNICATION)
        else
          e ← env_op (sys_sendto (nc_fd c) src (nc_addr c));
          lf_assert (0 <? e) E_COMMUNICATION (mret lf_success) (mret lf_error))
       (mret lf_error))
    (mret lf_error).

Definition lf_network_release (device : Z) : C E Z :=
  lf_assert (ctrue device) E_NULL
    (d ← load_device device;
     let ctx := d_ep_ctx d in
     lf_assert (ctrue ctx) E_NULL
       (c ← load_net ctx;
        env_op (fun e => (tt, sys_close (nc_fd c) e));;
        mret lf_success)
       (mret lf_error))
    (mret lf_error).
End Network.

Section Properties.
Context {E : Type} `{!Sockets E}.
Implicit Types w : world E.

(** [htons] is its own inverse on 16-bit values. *)
Lemma htons_range x : 0 <= htons x < 2 ^ 16.
Proof.
  unfold htons. assert (0 <= Z.land x 255 < 2 ^ 8) as Hl.
  { change 255 with (Z.ones 8). rewrite Z.land_ones by lia. apply Z.mod_pos_bound. lia. }
  pose proof (u16_range x) as Hu.
  assert (0 <= Z.shiftr (u16 x) 8 < 2 ^ 8) as Hr.
  { rewrite Z.shiftr_div_pow2 by lia. split; [apply Z.div_pos; lia|]. apply Z.div_lt_upper_bound; lia. }
  rewrite Z.shiftl_mul_pow2 by lia.
  assert (Z.lor (Z.land x 255 * 2 ^ 8) (Z.shiftr (u16 x) 8)
          = Z.land x 255 * 2 ^ 8 + Z.shiftr (u16 x) 8) as ->.
  { symmetry. rewrite <- Z.lxor_lor; [apply Z.add_nocarry_lxor|].
    all: apply Z.bits_inj'; intros i Hi; rewrite Z.land_spec, Z.bits_0;
      destruct (Z.ltb_spec i 8);
      [ rewrite Z.mul_pow2_bits_low by lia; done
      | rewrite (testbit_high 8 (Z.shiftr (u16 x) 8)) by lia; apply andb_false_r ]. }
  lia.
Qed.

Lemma htons_testbit x i :
  0 <= i < 16 -> Z.testbit (htons x) i = Z.testbit x (if i <? 8 then i + 8 else i - 8).
Proof.
  intros Hi. unfold htons, u16. rewrite Z.lor_spec.
  destruct (Z.ltb_spec i 8).
  - rewrite Z.shiftl_spec_low by lia. rewrite Z.shiftr_spec by lia.
    rewrite testbit_mod_pow2 by lia. by destruct (Z.ltb_spec (i + 8) 16); [|lia].
  - rewrite Z.shiftl_spec by lia. rewrite Z.land_spec, Z.shiftr_spec, testbit_mod_pow2 by lia.
    destruct (Z.ltb_spec (i + 8) 16); [lia|]. cbn [andb]. rewrite orb_false_r.
    change 255 with (Z.ones 8). rewrite Z.ones_spec_low by lia. apply andb_true_r.
Qed.

Lemma htons_invol x : 0 <= x < 2 ^ 16 -> htons (htons x) = x.
Proof.
  intros Hx. apply Z.bits_inj'. intros i Hi. destruct (Z.ltb_spec i 16).
  - rewrite htons_testbit by lia. destruct (Z.ltb_spec i 8); rewrite htons_testbit by lia.
    + destruct (Z.ltb_spec (i + 8) 8); [lia|]. f_equal. lia.
    + destruct (Z.ltb_spec (i - 8) 8); [|lia]. f_equal. lia.
  - rewrite !(testbit_high 16); [done|..]; try lia. apply htons_range.
Qed.

Lemma framed_env_op {A} (f : E -> A * E) : framed (env_op f).
Proof.
  intros w a w' H. unfold env_op in H. destruct (f (w_env w)). simplify_eq. apply io_frame_set_env.
Qed.
Hint Resolve framed_env_op : framed.

Lemma framed_recv_loop n fd len : framed (recv_loop n fd len).
Proof. induction n as [|n IH]; cbn [recv_loop]; framed. Qed.
Hint Resolve framed_recv_loop : framed.

(** The endpoint touches its own context and the environment only. *)
Lemma lf_network_write_framed device src : framed (lf_network_write device src).
Proof. unfold lf_network_write. cbv zeta. framed. Qed.

Lemma lf_network_read_framed device dst : framed (lf_network_read device dst).
Proof. unfold lf_network_read. cbv zeta. framed. Qed.

Lemma lf_network_read_length device dst w r dst' w' :
  lf_network_read device dst w = Ok ((r, dst'), w') -> length dst' = length dst.
Proof.
  unfold lf_network_read, lf_assert. intros H. destruct (ctrue device); [|by minv H].
  apply bind_Ok_inv in H as (d & w1 & _ & H). cbv zeta in H.
  destruct (ctrue (d_ep_ctx d)); [|by minv H].
  apply bind_Ok_inv in H as (c & w2 & _ & H).
  apply bind_Ok_inv in H as ([[data from]|] & w3 & _ & H); [|by minv H].
  apply bind_Ok_inv in H as (dst1 & w4 & H1 & H). minv H.
  destruct (wr dst 0 (take (length dst) data)) as [b|] eqn:Hx; [|done].
  cbn [lift_opt] in H1. minv H1. by apply wr_length in Hx.
Qed.

(** The state of a network device. *)
Definition net_at w device d ctx c : Prop :=
  device <> 0 /\ ctx <> 0 /\ w_heap w !! device = Some (ODevice d) /\ d_ep_ctx d = ctx /\
  w_heap w !! ctx = Some (ONet c).

Lemma load_net_ok w p c : w_heap w !! p = Some (ONet c) -> load_net p w = Ok (c, w).
Proof. intros H. unfold load_net. by rewrite H. Qed.

(** Nothing is sent before an address is known. *)
Lemma lf_network_write_unset w device d ctx c src :
  net_at w device d ctx c -> sin_addr (nc_addr c) = 0 \/ sin_port (nc_addr c) = 0 ->
  lf_network_write device src w = Ok (err_code E_COMMUNICATION, w).
Proof.
  intros (Hp & Hc & Hd & <- & Hn) Ha. unfold lf_network_write, lf_assert.
  rewrite ctrue_nonzero by done. mstep (load_device_ok _ _ _ Hd). rewrite ctrue_nonzero by done.
  mstep (load_net_ok _ _ _ Hn).
  destruct (Z.eqb_spec (sin_addr (nc_addr c)) 0), (Z.eqb_spec (sin_port (nc_addr c)) 0); try done.
  by destruct Ha.
Qed.

(** Otherwise the bytes go to the stored address, in one datagram. *)
Lemma lf_network_write_sent w device d ctx c src n env' :
  net_at w device d ctx c -> sin_addr (nc_addr c) <> 0 -> sin_port (nc_addr c) <> 0 ->
  sys_sendto (nc_fd c) src (nc_addr c) (w_env w) = (n, env') ->
  lf_network_write device src w
  = if 0 <? n then Ok (lf_success, set_env env' w)
    else Ok (lf_error, set_err (err_code E_COMMUNICATION) (set_env env' w)).
Proof.
  intros (Hp & Hc & Hd & <- & Hn) Ha Hport Hs. unfold lf_network_write, lf_assert.
  rewrite ctrue_nonzero by done. mstep (load_device_ok _ _ _ Hd). rewrite ctrue_nonzero by done.
  mstep (load_net_ok _ _ _ Hn).
  destruct (Z.eqb_spec (sin_addr (nc_addr c)) 0), (Z.eqb_spec (sin_port (nc_addr c)) 0); try done.
  cbn [orb]. rewrite (bind_Ok _ _ _ n (set_env env' w)) by (unfold env_op; by rewrite Hs).
  by destruct (0 <? n).
Qed.

(** A datagram that arrives: its bytes are delivered, and its sender becomes
    the address the device answers to. *)
Lemma lf_network_read_ok w device d ctx c dst data from env' :
  net_at w device d ctx c -> (length data <= length dst)%nat ->
  sys_recvfrom (nc_fd c) (length dst) (w_env w) = (RcvOk data from, env') ->
  exists w', lf_network_read device dst w = Ok ((lf_success, data ++ drop (length data) dst), w') /\
    net_at w' device d ctx (nc_set_addr c from) /\ w_env w' = env'.
Proof.
  intros (Hp & Hc & Hd & <- & Hn) Hlen Hs. unfold lf_network_read, lf_assert.
  rewrite ctrue_nonzero by done. mstep (load_device_ok _ _ _ Hd). cbv zeta. rewrite ctrue_nonzero by done.
  mstep (load_net_ok _ _ _ Hn).
  rewrite (bind_Ok _ _ _ (Some (data, from)) (set_env env' w)).
  2: { cbn [recv_loop]. rewrite (bind_Ok _ _ _ (RcvOk data from) (set_env env' w)); [done|].
       unfold env_op. by rewrite Hs. }
  rewrite take_ge by done. rewrite wr_Some by (simpl; lia). cbn [lift_opt]. mnorm.
  mstep (load_net_ok (set_env env' w) _ _ Hn).
  mstep (store_ok (set_env env' w) _ (ONet (nc_set_addr c from)) _ Hn).
  eexists. split; [done|]. split; [|done]. split_and!; try done; cbn [w_heap set_heap].
  - rewrite lookup_insert_ne; [done|]. intros Heq. rewrite Heq in Hn. cbn in Hn. congruence.
  - apply lookup_insert_eq.
Qed.

(** Transient errors are retried with a pause after each attempt; [n] of them
    are final. *)
Lemma recv_loop_gives_up w fd len n (err : E -> E) :
  (forall e, sys_recvfrom fd len e = (RcvErr EAGAIN, err e)) ->
  recv_loop n fd len w = Ok (None, set_env (Nat.iter n (fun e => sys_usleep 100000 (err e)) (w_env w)) w).
Proof.
  intros Herr. revert w. induction n as [|n IH]; intros w; cbn [recv_loop]; [by destruct w|].
  rewrite (bind_Ok _ _ _ (RcvErr EAGAIN) (set_env (err (w_env w)) w)) by (unfold env_op; by rewrite Herr).
  change ((EAGAIN =? EAGAIN) || (EAGAIN =? EWOULDBLOCK) || (EAGAIN =? EINTR)) with true. cbv iota.
  rewrite (bind_Ok _ _ _ tt (set_env (sys_usleep 100000 (err (w_env w))) w)) by done.
  rewrite IH. cbn [w_env set_env]. by rewrite Nat.iter_succ_r.
Qed.

(** A connection stores where packets go. *)
Lemma lf_network_connect_ok w device d ctx c host port fd env1 env2 :
  net_at w device d ctx c ->
  sys_socket (w_env w) = (fd, env1) -> 0 < fd ->
  sys_bind fd (SockAddr INADDR_ANY (htons 0)) env1 = (0, env2) ->
  let target := if bool_decide (host = str_localhost) then str_loopback else host in
  inet_addr target <> INADDR_NONE ->
  exists w', lf_network_connect device host port w = Ok (lf_success, w') /\ w_env w' = env2 /\
    net_at w' device d ctx
      (NetCtx fd (host64 target) (nc_device c) (SockAddr (inet_addr target) (htons port))).
Proof.
  intros (Hp & Hc & Hd & <- & Hn) Hsock Hfd Hbind target Hip. unfold lf_network_connect.
  set (ctx := d_ep_ctx d) in *.
  assert (device <> ctx) as Hne by (intros Heq; rewrite Heq in Hd; congruence).
  mstep (load_device_ok _ _ _ Hd). cbv zeta. unfold lf_assert. rewrite ctrue_nonzero by done.
  rewrite (bind_Ok _ _ _ fd (set_env env1 w)) by (unfold env_op; by rewrite Hsock).
  mstep (load_net_ok (set_env env1 w) ctx c Hn).
  mstep (store_ok (set_env env1 w) ctx (ONet (nc_set_fd c fd)) _ Hn).
  set (h1 := <[ctx := ONet (nc_set_fd c fd)]> (w_heap w)). destruct (Z.ltb_spec 0 fd); [|lia].
  rewrite (bind_Ok _ _ _ 0 (set_env env2 (set_heap h1 (set_env env1 w))))
    by (unfold env_op; cbn [w_env set_heap set_env]; by rewrite Hbind).
  change (0 =? 0) with true. cbv iota. set (w2 := set_env env2 _).
  assert (w_heap w2 !! ctx = Some (ONet (nc_set_fd c fd))) as Hn2 by apply lookup_insert_eq.
  mstep (load_net_ok w2 ctx _ Hn2).
  set (c3 := nc_set_addr (nc_set_fd c fd) (SockAddr 0 (htons port))).
  mstep (store_ok w2 ctx (ONet c3) _ Hn2). fold target.
  destruct (Z.eqb_spec (inet_addr target) INADDR_NONE); [done|]. cbn [negb].
  set (w3 := set_heap _ w2).
  assert (w_heap w3 !! ctx = Some (ONet c3)) as Hn3 by apply lookup_insert_eq.
  mstep (load_net_ok w3 ctx _ Hn3). rewrite (bind_Ok _ _ _ _ _ (store_ok w3 ctx _ _ Hn3)).
  eexists. split; [done|]. split; [done|]. split_and!; try done; cbn [w_heap set_heap].
  - unfold w3, w2, h1. cbn [w_heap set_heap set_env]. by rewrite !lookup_insert_ne by done.
  - apply lookup_insert_eq.
Qed.
End Properties.
