(* ===== verification/Libusb.v ===== *)
(** * The USB endpoint (platforms/posix/src/libusb.c)

    Bulk transfers in chunks of the endpoint's size, and the enumeration of
    attached devices. [Usb] gives the libusb calls' effect on the environment. *)

From S2P Require Import Prelude World Errors Device LinkedList Transport Network.
From stdpp Require Import base list gmap sets.
From Stdlib Require Import ZArith Lia.
Local Open Scope Z_scope.

Definition FLIPPER_USB_VENDOR_ID : Z := 0x16C0.
Definition FLIPPER_USB_CONTROL_INTERFACE : Z := 0.
Definition LF_USB_TIMEOUT_MS : Z := 200.

(** libusb: a result code, [0] on success, with what the call produces. *)
Class Usb (E : Type) := {
  libusb_init : E -> (Z * Z) * E;                             (* code, context *)
  libusb_get_device_list : Z -> E -> list Z * E;
  libusb_get_device_descriptor : Z -> E -> (Z * Z) * E;       (* code, idVendor *)
  libusb_open : Z -> E -> (Z * Z) * E;                        (* code, handle *)
  libusb_claim_interface : Z -> Z -> E -> Z * E;
  libusb_bulk_in : Z -> Z -> nat -> Z -> E -> (Z * list Z) * E;  (* code, received *)
  libusb_bulk_out : Z -> Z -> list Z -> Z -> E -> Z * E;
  libusb_close : Z -> E -> E;
  libusb_exit : Z -> E -> E;
  libusb_free_device_list : E -> E;
}.

(** A [calloc]ed context. *)
Definition usb_zero : lf_libusb_context := UsbCtx 0 0 0 0 0 0.
Definition uc_set_context (c : lf_libusb_context) (x : Z) : lf_libusb_context :=
  UsbCtx (uc_handle c) x (uc_in_sz c) (uc_out_sz c) (uc_in c) (uc_out c).
Definition uc_set_handle (c : lf_libusb_context) (x : Z) : lf_libusb_context :=
  UsbCtx x (uc_context c) (uc_in_sz c) (uc_out_sz c) (uc_in c) (uc_out c).

Section Libusb.
Context {E : Type} `{!Usb E}.

(** [len = (length > sz) ? sz : length] *)
Definition chunk (sz : Z) (length : nat) : nat :=
  if decide (Z.to_nat sz < length)%nat then Z.to_nat sz else length.

(** The loop of [lf_libusb_read]: [off] bytes of [dst] are done, [length] are
    left. [Spin] when the loop is not over after [fuel] transfers. *)
Fixpoint usb_read_loop (fuel : nat) (c : lf_libusb_context) (dst : list Z) (off length : nat)
    : C E (Z * list Z) :=
  match length with
  | O => mret (lf_success, dst)
  | _ =>
    match fuel with
    | O => spin
    | S fuel =>
      let len := chunk (uc_in_sz c) length in
      '(e, data) ← env_op (libusb_bulk_in (uc_handle c) (uc_in c) len LF_USB_TIMEOUT_MS);
      dst ← lift_opt (wr dst off (take len data));
      lf_assert (e =? 0) E_LIBUSB
        (usb_read_loop fuel c dst (off + len) (length - len))
        (mret (lf_error, dst))
    end
  end.
Definition lf_libusb_read (device : Z) (dst : list Z) : C E (Z * list Z) :=
  lf_assert (ctrue device) E_NULL
    (d ← load_device device;
     lf_assert (ctrue (d_ep_ctx d)) E_NULL
       (c ← load_usb (d_ep_ctx d);
        usb_read_loop (length dst) c dst 0 (length dst))
       (mret (lf_error, dst)))
    (mret (lf_error, dst)).

Fixpoint usb_write_loop (fuel : nat) (c : lf_libusb_context) (src : list Z) : C E Z :=
  match src with
  | [] => mret lf_success
  | _ =>
    match fuel with
    | O => spin
    | S fuel =>
      let len := chunk (uc_out_sz c) (length src) in
      e ← env_op (libusb_bulk_out (uc_handle c) (uc_out c) (take len src) LF_USB_TIMEOUT_MS);
      lf_assert (e =? 0) E_LIBUSB
        (usb_write_loop fuel c (drop len src))
        (mret lf_error)
    end
  end.
Definition lf_libusb_write (device : Z) (src : list Z) : C E Z :=
  lf_assert (ctrue device) E_NULL
    (d ← load_device device;
     lf_assert (ctrue (d_ep_ctx d)) E_NULL
       (c ← load_usb (d_ep_ctx d);
        usb_write_loop (length src) c src)
       (mret lf_error))
    (mret lf_error).

Definition lf_libusb_release (device : Z) : C E Z :=
  lf_assert (ctrue device) E_NULL
    (d ← load_device device;
     lf_assert (ctrue (d_ep_ctx d)) E_NULL
       (c ← load_usb (d_ep_ctx d);
        env_op (fun e => (tt, libusb_close (uc_handle c) e));;
        env_op (fun e => (tt, libusb_exit (uc_context c) e));;
        mret lf_success)
       (mret lf_error))
    (mret lf_error).

(** [fail:] of [lf_libusb_get_devices]. *)
Definition get_devices_fail (context devices : Z) : C E Z :=
  lf_ll_release (Some devices);;
  env_op (fun e => (tt, libusb_free_device_list e));;
  env_op (fun e => (tt, libusb_exit context e));;
  mret 0.

(** The enumeration loop. The test on [lf_ll_append] takes its status as a
    truth value, so an append that succeeds goes to [fail:]. *)
Fixpoint get_devices_loop (context devices : Z) (libusb_devices : list Z) : C E Z :=
  match libusb_devices with
  | [] => mret devices
  | libusb_device :: rest =>
    '(e, idVendor) ← env_op (libusb_get_device_descriptor libusb_device);
    lf_assert (e =? 0) E_LIBUSB
      (if idVendor =? FLIPPER_USB_VENDOR_ID then
         device ← lf_device_create fn_lf_libusb_read fn_lf_libusb_write fn_lf_libusb_release;
         lf_assert (ctrue device) E_ENDPOINT
           (ctx ← malloc (fun _ => OUsb usb_zero);
            d ← load_device device;
            store device (ODevice (set_ep_ctx d ctx));;
            lf_assert (ctrue context) E_NULL
              (c ← load_usb ctx;
               store ctx (OUsb (uc_set_context c context));;
               '(e, handle) ← env_op (libusb_open libusb_device);
               c ← load_usb ctx;
               store ctx (OUsb (uc_set_handle c handle));;
               lf_assert (e =? 0) E_NO_DEVICE
                 (e ← env_op (libusb_claim_interface handle FLIPPER_USB_CONTROL_INTERFACE);
                  lf_assert (e =? 0) E_LIBUSB
                    ('(a, devices') ← lf_ll_append (Some devices) device fn_lf_device_release;
                     lf_assert (ctrue a) E_NULL
                       (get_devices_loop context (default 0 devices') rest)
                       (get_devices_fail context (default 0 devices')))
                    (get_devices_fail context devices))
                 (get_devices_fail context devices))
              (get_devices_fail context devices))
           (get_devices_fail context devices)
       else get_devices_loop context devices rest)
      (get_devices_fail context devices)
  end.

(** Returns a list of all of the Flipper devices attached over USB. *)
Definition lf_libusb_get_devices : C E Z :=
  '(e, context) ← env_op libusb_init;
  lf_assert (e =? 0) E_LIBUSB
    (libusb_devices ← env_op (libusb_get_device_list context);
     get_devices_loop context 0 libusb_devices)
    (get_devices_fail context 0).
End Libusb.

Section Properties.
Context {E : Type} `{!Usb E}.
Implicit Types w : world E.

Lemma chunk_pos sz n : 0 < sz -> (0 < n)%nat -> (0 < chunk sz n <= n)%nat.
Proof. intros. unfold chunk. case_decide; lia. Qed.

(** The environment after the given transfers. *)
Definition bulk_outs (c : lf_libusb_context) (env : E) (chunks : list (list Z)) : E :=
  foldl (fun e bs => (libusb_bulk_out (uc_handle c) (uc_out c) bs LF_USB_TIMEOUT_MS e).2) env chunks.

(** With a positive endpoint size every byte of the source is handed over, in
    order, by chunks no larger than the endpoint. *)
Lemma usb_write_loop_ok c src : forall fuel w,
  0 < uc_out_sz c -> (length src <= fuel)%nat ->
  (forall bs e, (libusb_bulk_out (uc_handle c) (uc_out c) bs LF_USB_TIMEOUT_MS e).1 = 0) ->
  exists chunks : list (list Z),
    usb_write_loop fuel c src w = Ok (lf_success, set_env (bulk_outs c (w_env w) chunks) w) /\
    mjoin chunks = src /\ Forall (fun bs => (0 < length bs <= Z.to_nat (uc_out_sz c))%nat) chunks.
Proof.
  intros fuel. revert src. induction fuel as [|fuel IH]; intros src w Hsz Hlen Hok.
  { destruct src; [|simpl in Hlen; lia]. exists []. by destruct w. }
  destruct src as [|b src]; [exists []; by destruct w|].
  cbn [usb_write_loop]. set (s := b :: src) in *.
  pose proof (chunk_pos (uc_out_sz c) (length s) Hsz ltac:(simpl; lia)) as Hc.
  set (len := chunk (uc_out_sz c) (length s)) in *.
  pose proof (Hok (take len s) (w_env w)) as He.
  destruct (libusb_bulk_out (uc_handle c) (uc_out c) (take len s) LF_USB_TIMEOUT_MS (w_env w))
    as [r e'] eqn:Hb. cbn in He. subst r.
  rewrite (bind_Ok _ _ _ 0 (set_env e' w)) by (unfold env_op; by rewrite Hb).
  unfold lf_assert. cbn [Z.eqb].
  destruct (IH (drop len s) (set_env e' w)) as (chunks & Hrun & Hj & Hall); try done.
  { rewrite length_drop. lia. }
  exists (take len s :: chunks). split; [|split].
  - rewrite Hrun. unfold bulk_outs. cbn [foldl]. by rewrite Hb.
  - change (take len s ++ mjoin chunks = s). rewrite Hj. apply take_drop.
  - constructor; [|done]. rewrite length_take. unfold len, chunk in *. case_decide; lia.
Qed.

(** With the size left at zero a write never ends. *)
Lemma usb_write_loop_spins c src fuel w :
  uc_out_sz c = 0 -> src <> [] ->
  (forall bs e, exists e', libusb_bulk_out (uc_handle c) (uc_out c) bs LF_USB_TIMEOUT_MS e = (0, e')) ->
  usb_write_loop fuel c src w = Spin.
Proof.
  intros Hsz Hne Hok. revert w. induction fuel as [|fuel IH]; intros w; destruct src as [|b src]; try done.
  cbn [usb_write_loop]. set (s := b :: src) in *.
  assert (chunk (uc_out_sz c) (length s) = 0%nat) as ->.
  { unfold chunk. rewrite Hsz, decide_True; [done|simpl; lia]. }
  destruct (Hok (take 0 s) (w_env w)) as (e' & He).
  rewrite (bind_Ok _ _ _ 0 (set_env e' w)) by (unfold env_op; by rewrite He). apply IH.
Qed.

Lemma usb_env_op_framed {A} (f : E -> A * E) : framed (env_op f).
Proof. intros w a w' H. unfold env_op in H. destruct (f (w_env w)). simplify_eq. apply io_frame_set_env. Qed.
Hint Resolve usb_env_op_framed : framed.

Lemma usb_read_loop_framed fuel c dst off len : framed (usb_read_loop fuel c dst off len).
Proof.
  revert dst off len. induction fuel as [|fuel IH]; intros dst off [|len]; cbn [usb_read_loop]; framed.
  by intros w a w'.
Qed.
Lemma usb_write_loop_framed fuel c src : framed (usb_write_loop fuel c src).
Proof.
  revert src. induction fuel as [|fuel IH]; intros [|b src]; cbn [usb_write_loop]; framed.
  by intros w a w'.
Qed.
Hint Resolve usb_read_loop_framed usb_write_loop_framed : framed.

Lemma lf_libusb_read_framed device dst : framed (lf_libusb_read device dst).
Proof. unfold lf_libusb_read. framed. Qed.
Lemma lf_libusb_write_framed device src : framed (lf_libusb_write device src).
Proof. unfold lf_libusb_write. framed. Qed.

Lemma usb_read_loop_length fuel c : forall dst off len w r dst' w',
  usb_read_loop fuel c dst off len w = Ok ((r, dst'), w') -> length dst' = length dst.
Proof.
  induction fuel as [|fuel IH]; intros dst off [|len] w r dst' w' H; cbn [usb_read_loop] in H;
    [by minv H|done|by minv H|].
  apply bind_Ok_inv in H as ([e data] & w1 & _ & H). cbn beta iota in H.
  apply bind_Ok_inv in H as (dst1 & w2 & H1 & H).
  destruct (wr dst off (take (chunk (uc_in_sz c) (S len)) data)) as [b|] eqn:Hb; [|done].
  cbn [lift_opt] in H1. minv H1. apply wr_length in Hb as <-.
  destruct (e =? 0); cbn [lf_assert] in H; [by eapply IH|by minv H].
Qed.

Lemma lf_libusb_read_length device dst w r dst' w' :
  lf_libusb_read device dst w = Ok ((r, dst'), w') -> length dst' = length dst.
Proof.
  unfold lf_libusb_read, lf_assert. intros H. destruct (ctrue device); [|by minv H].
  apply bind_Ok_inv in H as (d & w1 & _ & H). destruct (ctrue (d_ep_ctx d)); [|by minv H].
  apply bind_Ok_inv in H as (c & w2 & _ & H). by eapply usb_read_loop_length.
Qed.

(** A context made by [lf_libusb_get_devices] has its sizes at zero. *)
Lemma usb_zero_sizes context handle :
  uc_out_sz (uc_set_handle (uc_set_context usb_zero context) handle) = 0 /\
  uc_in_sz (uc_set_handle (uc_set_context usb_zero context) handle) = 0.
Proof. done. Qed.

Lemma get_devices_fail_null context devices w p w' :
  get_devices_fail context devices w = Ok (p, w') -> p = 0.
Proof. unfold get_devices_fail. intros H. by minv H. Qed.

(** Enumeration never returns a device. *)
Lemma get_devices_loop_null context ds : forall w p w',
  get_devices_loop context 0 ds w = Ok (p, w') -> p = 0.
Proof.
  induction ds as [|x ds IH]; intros w p w' H; cbn [get_devices_loop] in H; [by minv H|].
  apply bind_Ok_inv in H as ([e v] & w1 & _ & H). cbn beta iota in H.
  destruct (e =? 0); cbn [lf_assert] in H; [|minv H; by eapply get_devices_fail_null].
  destruct (v =? FLIPPER_USB_VENDOR_ID); [|by eapply IH].
  apply bind_Ok_inv in H as (dev & w2 & _ & H).
  destruct (ctrue dev); cbn [lf_assert] in H; [|minv H; by eapply get_devices_fail_null].
  do 3 apply bind_Ok_inv in H as (? & ? & _ & H).
  destruct (ctrue context); cbn [lf_assert] in H; [|minv H; by eapply get_devices_fail_null].
  do 2 apply bind_Ok_inv in H as (? & ? & _ & H).
  apply bind_Ok_inv in H as ([e1 hd] & w3 & _ & H). cbn beta iota in H.
  do 2 apply bind_Ok_inv in H as (? & ? & _ & H).
  destruct (e1 =? 0); cbn [lf_assert] in H; [|minv H; by eapply get_devices_fail_null].
  apply bind_Ok_inv in H as (e2 & w4 & _ & H).
  destruct (e2 =? 0); cbn [lf_assert] in H; [|minv H; by eapply get_devices_fail_null].
  apply bind_Ok_inv in H as ([a dv] & w5 & Happ & H). cbn beta iota in H.
  destruct (ctrue a) eqn:Ha; cbn [lf_assert] in H; [|minv H; by eapply get_devices_fail_null].
  assert (dv = Some 0) as ->; [|by eapply IH].
  unfold lf_ll_append in Happ. apply bind_Ok_inv in Happ as (new & w6 & _ & Happ).
  destruct (new =? 0); [by minv Happ|]. cbn [ctrue Z.eqb negb] in Happ. by minv Happ.
Qed.

Lemma lf_libusb_get_devices_null w p w' :
  lf_libusb_get_devices w = Ok (p, w') -> p = 0.
Proof.
  unfold lf_libusb_get_devices. intros H. apply bind_Ok_inv in H as ([e context] & w1 & _ & H).
  cbn beta iota in H. destruct (e =? 0); cbn [lf_assert] in H; [|minv H; by eapply get_devices_fail_null].
  apply bind_Ok_inv in H as (ds & w2 & _ & H). by eapply get_devices_loop_null.
Qed.
End Properties.

(** ** The endpoints of the posix platform

    The functions a host device record points to, and the proof that they keep
    the promise [TransportOk] asks of an endpoint. *)

#[global] Instance posix_transport {E} `{!Sockets E, !Usb E} : Transport E := {
  tr_write f device src :=
    if f =? fn_lf_network_write then lf_network_write device src
    else if f =? fn_lf_libusb_write then lf_libusb_write device src
    else ub;
  tr_read f device dst :=
    if f =? fn_lf_network_read then lf_network_read device dst
    else if f =? fn_lf_libusb_read then lf_libusb_read device dst
    else ub;
}.

#[global] Instance posix_transport_ok {E} `{!Sockets E, !Usb E} : TransportOk E.
Proof.
  split; cbn [tr_write tr_read posix_transport].
  - intros f d bs w r w' H. repeat case_match; [|..|done].
    + by eapply lf_network_write_framed.
    + by eapply lf_libusb_write_framed.
  - intros f d bs w r bs' w' H. repeat case_match; [|..|done].
    + by eapply lf_network_read_framed.
    + by eapply lf_libusb_read_framed.
  - intros f d bs w r bs' w' H. repeat case_match; [|..|done].
    + by eapply lf_network_read_length.
    + by eapply lf_libusb_read_length.
Qed.
