(* ===== verification/Libflipper.v ===== *)
(** * The library core (lib/libflipper.c)

    Attached and selected devices, and remote invocation. *)

From S2P Require Import Prelude World Errors Device LinkedList Crc FmrPacket Transport Dyld Network Libusb.
From stdpp Require Import base list gmap sets.
From Stdlib Require Import ZArith Lia.
Local Open Scope Z_scope.

Section State.
Context {E : Type} `{!Usb E}.

Definition lf_set_current_device (device : Z) : C E unit := modify (set_current device).
Definition lf_get_current_device : C E Z := gets w_current.

Definition lf_attach : C E Z :=
  usb_device ← lf_libusb_get_devices;
  head ← gets w_attached;
  '(_, head) ← lf_ll_concat (Some head) usb_device;
  modify (set_attached (default 0 head));;
  mret lf_success.

Definition lf_select (device : Z) : C E Z :=
  lf_assert (ctrue device) E_NULL
    (lf_set_current_device device;; mret lf_success)
    (mret lf_error).

Definition lf_get_selected : C E Z := lf_get_current_device.

Definition lf_detach (device : Z) : C E Z :=
  lf_assert (ctrue device) E_NULL
    (head ← gets w_attached;
     head ← lf_ll_remove (Some head) device;
     modify (set_attached (default 0 head));;
     mret lf_success)
    (mret lf_error).

Definition lf_exit : C E Z :=
  head ← gets w_attached;
  '(_, head) ← lf_ll_release (Some head);
  modify (set_attached (default 0 head));;
  mret lf_success.
End State.

Section Invoke.
Context {E : Type} `{!Transport E}.

(** Calls by function pointer: the status, and what is stored in [*retval].
    The status of [lf_create_call] and of the endpoint is tested as a truth
    value, as the code does. *)
Definition lf_invoke (device : Z) (module : option (list Z)) (ret args : Z) : C E (Z * option Z) :=
  let fail := mret (lf_error, None) in
  lf_assert (ctrue device) E_NULL
    (match module with
     | None => _lf_assert (err_code E_NULL);; fail
     | Some name =>
       pkt ← lift_opt (wr_le zero_packet off_magic 1 FMR_MAGIC_NUMBER);
       pkt ← lift_opt (wr_le pkt off_len 2 (Z.of_nat sizeof_fmr_header));
       mp ← dyld_module device (Some name);
       lf_assert (ctrue mp) E_MODULE
         (m ← load_module mp;
          '(e, pkt) ← lf_create_call (m_idx m) ret args (Some pkt);
          lf_assert (ctrue e) E_NULL
            (len ← lift_opt (rd_le pkt off_len 2);
             crc ← lift_opt (packet_crc pkt len);
             pkt ← lift_opt (wr_le pkt off_crc 2 crc);
             e ← device_write device pkt;
             lf_assert (ctrue e) E_ENDPOINT
               (res0 ← stack_result;
                '(e, result) ← device_read device res0;
                lf_assert (ctrue e) E_ENDPOINT
                  (lf_assert_code (result_error result =? err_code E_OK) (result_error result)
                     (mret (lf_success, Some (result_value result)))
                     fail)
                  fail)
               fail)
            fail)
         fail
     end)
    fail.

(** The argument loop: [node] is the current list node, [argv] the offset of
    the next argument byte, [len] the header's running length. *)
Fixpoint invoke_args_loop (todo i : nat) (node : Z) (argv : nat) (len : Z) (pkt : list Z)
    : C E (Z * list Z) :=
  match todo with
  | O => mret (len, pkt)
  | S todo =>
    if node =? 0 then mret (len, pkt)
    else
      nd ← load_node node;
      arg ← load_arg (item nd);
      let type := arg_type arg in
      pkt ← lift_opt (set_arg_type pkt i type);
      let size := lf_sizeof type in
      pkt ← lift_opt (wr_le pkt argv size (arg_value arg));
      invoke_args_loop todo (S i) (next nd) (argv + size) (u16 (len + Z.of_nat size)) pkt
  end.

(** The packet [lf_invoke_by_index] sends. *)
Definition invoke_packet (module_idx index ret args : Z) : C E (list Z) :=
  pkt ← lift_opt (wr_le zero_packet off_magic 1 FMR_MAGIC_NUMBER);
  pkt ← lift_opt (wr_le pkt off_type 1 fmr_rpc_class);
  pkt ← lift_opt (wr_le pkt off_call_module 1 (u8 module_idx));
  pkt ← lift_opt (wr_le pkt off_call_function 1 index);
  pkt ← lift_opt (wr_le pkt off_call_ret 1 ret);
  count ← (if ctrue args then lf_ll_count args else mret 0);
  let argc := u8 count in
  pkt ← lift_opt (wr_le pkt off_call_argc 1 argc);
  '(len, pkt) ← invoke_args_loop (Z.to_nat argc) 0 args off_argv
                  (u16 (Z.of_nat sizeof_fmr_header + Z.of_nat sizeof_fmr_call + argc)) pkt;
  pkt ← lift_opt (wr_le pkt off_len 2 len);
  crc ← lift_opt (packet_crc pkt len);
  lift_opt (wr_le pkt off_crc 2 crc).

(** The module record of the callee, created when it is not known. *)
Definition invoke_module (device : Z) (name : list Z) (module_idx : Z) (ok fail : C E (Z * option Z))
    : C E (Z * option Z) :=
  m ← dyld_module device (Some name);
  if ctrue m then ok
  else
    m ← lf_module_create (Some name) module_idx;
    r ← load_module m;
    store m (OModule (LfModule (name32 name) (m_version r) (m_idx r) (m_interface r) (m_table r)
                        (m_length r) (m_state r)));;
    e ← dyld_register device m;
    lf_assert (e =? lf_success) E_MODULE ok fail.

(** Calls by index. The device's error is not looked at. *)
Definition lf_invoke_by_index (device : Z) (module : option (list Z)) (index ret args : Z)
    : C E (Z * option Z) :=
  let fail := mret (lf_error, None) in
  lf_assert (ctrue device) E_NULL
    (match module with
     | None => _lf_assert (err_code E_NULL);; fail
     | Some name =>
       '(e, idx) ← lf_dyld_dyn_sym_lookup device (Some name);
       lf_assert (e =? lf_success) E_MODULE
         (let module_idx := default 0 idx in
          invoke_module device name module_idx
            (pkt ← invoke_packet module_idx index ret args;
             e ← device_write device pkt;
             lf_assert (e =? lf_success) E_ENDPOINT
               (res0 ← stack_result;
                '(e, result) ← device_read device res0;
                lf_assert (e =? lf_success) E_ENDPOINT
                  (mret (lf_success, Some (result_value result)))
                  fail)
               fail)
            fail)
         fail
     end)
    fail.
End Invoke.

Section Packet.
Context {E : Type} `{!Transport E}.
Implicit Types (w : world E) (l : list ll_entry) (args : list lf_arg).

Lemma u8_u8 z : u8 (u8 z) = u8 z.
Proof. apply u8_small, u8_range. Qed.

Lemma invoke_args_loop_ok (hdr : list Z) m f r c args : length hdr = 6%nat ->
  forall w l n args0 i dst len,
  is_ll (w_heap w) n l -> args_at (w_heap w) l args -> Forall wf_arg args ->
  (length (args0 ++ args) <= FMR_MAX_ARGC)%nat ->
  i = length args0 -> dst = (off_argv + args_size args0)%nat ->
  (args_size (args0 ++ args) <= 38)%nat -> 0 <= len -> len + Z.of_nat (args_size args) < 2 ^ 16 ->
  invoke_args_loop (length args) i n dst len (call_packet hdr m f r c (types_area args0) (argv_area args0)) w
  = Ok ((len + Z.of_nat (args_size args),
         call_packet hdr m f r c (types_area (args0 ++ args)) (argv_area (args0 ++ args))), w).
Proof.
  intros Hhdr.
  induction args as [|a args IH]; intros w l n args0 i dst len Hl Ha Hwf Hn -> -> H38 Hlen0 Hlen.
  - rewrite app_nil_r. change (args_size []) with 0%nat. by rewrite Z.add_0_r.
  - apply Forall2_cons_inv_r in Ha as (e & l' & He & Ha & ->).
    apply Forall_cons in Hwf as [Hwa Hwf]. destruct Hl as (-> & H0 & n' & Hn' & Hl').
    cbn [length invoke_args_loop]. destruct (Z.eqb_spec (e_addr e) 0); [done|].
    mstep (load_node_ok _ _ _ Hn'). cbn [item next]. mstep (load_arg_ok _ _ _ He).
    rewrite length_app in Hn. cbn [length] in Hn. pose proof H38 as H38'.
    rewrite args_size_app, args_size_cons in H38. rewrite args_size_cons in Hlen. cbv zeta.
    rewrite (bind_lift_opt _ _ _ _ (set_arg_type_ok hdr m f r c Hhdr args0 a (argv_area args0)
               ltac:(lia) Hwa)). fold (arg_size a).
    rewrite (bind_lift_opt _ _ _ _ (put_arg_bytes_ok hdr m f r c Hhdr args0 a (types_area (args0 ++ [a]))
               ltac:(apply length_types_area; rewrite length_app; simpl; lia) ltac:(lia))).
    rewrite u16_small by lia. rewrite (IH w l' n' (args0 ++ [a])); try done.
    + rewrite <- app_assoc, args_size_cons. cbn [app]. do 3 f_equal. lia.
    + rewrite <- app_assoc, length_app. cbn. lia.
    + rewrite length_app. simpl. lia.
    + rewrite args_size_snoc. lia.
    + by rewrite <- app_assoc.
    + lia.
    + lia.
Qed.

(** The fixed part of a call packet. *)
Lemma invoke_prefix_ok {A} w p l args mi index ret (k : Z -> list Z -> C E A) :
  is_ll (w_heap w) p l -> args_at (w_heap w) l args -> (length args <= FMR_MAX_ARGC)%nat ->
  (pkt ← lift_opt (wr_le zero_packet off_magic 1 FMR_MAGIC_NUMBER);
   pkt ← lift_opt (wr_le pkt off_type 1 fmr_rpc_class);
   pkt ← lift_opt (wr_le pkt off_call_module 1 (u8 mi));
   pkt ← lift_opt (wr_le pkt off_call_function 1 index);
   pkt ← lift_opt (wr_le pkt off_call_ret 1 ret);
   count ← (if ctrue p then lf_ll_count p else mret 0);
   pkt ← lift_opt (wr_le pkt off_call_argc 1 (u8 count));
   k count pkt) w
  = k (Z.of_nat (length args))
      (call_packet [254; 0; 0; 0; 0; 0] (u8 mi) (u8 index) (u8 ret) (Z.of_nat (length args))
         (types_area []) (argv_area [])) w.
Proof.
  intros Hl Ha Hn.
  change (wr_le zero_packet off_magic 1 FMR_MAGIC_NUMBER) with (Some ([254; 0; 0; 0; 0; 0] ++ replicate 58 0)).
  rewrite (bind_lift_opt _ _ _ _ eq_refl).
  change (wr_le ([254; 0; 0; 0; 0; 0] ++ replicate 58 0) off_type 1 fmr_rpc_class)
    with (Some ([254; 0; 0; 0; 0; 0] ++ replicate 58 0)). rewrite (bind_lift_opt _ _ _ _ eq_refl).
  rewrite (bind_lift_opt _ ([254; 0; 0; 0; 0; 0; u8 (u8 mi)] ++ replicate 57 0)) by done.
  rewrite (bind_lift_opt _ ([254; 0; 0; 0; 0; 0; u8 (u8 mi); u8 index] ++ replicate 56 0)) by done.
  rewrite (bind_lift_opt _ ([254; 0; 0; 0; 0; 0; u8 (u8 mi); u8 index; u8 ret] ++ replicate 55 0)) by done.
  mstep (count_args _ _ _ _ Hl Ha). rewrite (u8_args args Hn), u8_u8.
  rewrite (bind_lift_opt _ (call_packet [254; 0; 0; 0; 0; 0] (u8 mi) (u8 index) (u8 ret)
             (u8 (Z.of_nat (length args))) (types_area []) (argv_area []))) by done.
  by rewrite (u8_args args Hn).
Qed.

Definition invoke_len args : Z := 26 + Z.of_nat (length args) + Z.of_nat (args_size args).

(** The packet of a call whose arguments fit. *)
Lemma invoke_packet_ok w p l args mi index ret :
  is_ll (w_heap w) p l -> args_at (w_heap w) l args -> Forall wf_arg args ->
  (length args <= FMR_MAX_ARGC)%nat -> (26 + length args + args_size args <= 64)%nat ->
  exists crc, let pkt := call_packet ([254] ++ le_bytes 2 crc ++ le_bytes 2 (invoke_len args) ++ [0])
                (u8 mi) (u8 index) (u8 ret) (Z.of_nat (length args)) (types_area args) (argv_area args) in
    invoke_packet mi index ret p w = Ok (pkt, w) /\ packet_ok pkt.
Proof.
  intros Hl Ha Hwf Hn Hs. unfold invoke_packet. cbv zeta.
  rewrite (invoke_prefix_ok w p l args mi index ret (fun count pkt =>
    '(len, pkt) ← invoke_args_loop (Z.to_nat (u8 count)) 0 p off_argv
                  (u16 (Z.of_nat sizeof_fmr_header + Z.of_nat sizeof_fmr_call + u8 count)) pkt;
    pkt ← lift_opt (wr_le pkt off_len 2 len);
    crc ← lift_opt (packet_crc pkt len);
    lift_opt (wr_le pkt off_crc 2 crc)) Hl Ha Hn).
  rewrite (u8_args args Hn), Nat2Z.id.
  rewrite u16_small by (unfold sizeof_fmr_header, sizeof_fmr_call, FMR_MAX_ARGC in *; lia).
  rewrite (bind_Ok _ _ _ _ _ (invoke_args_loop_ok [254; 0; 0; 0; 0; 0] (u8 mi) (u8 index) (u8 ret)
    (Z.of_nat (length args)) args eq_refl w l p [] 0 off_argv
    (Z.of_nat sizeof_fmr_header + Z.of_nat sizeof_fmr_call + Z.of_nat (length args))
    Hl Ha Hwf Hn eq_refl eq_refl ltac:(simpl; lia) ltac:(lia)
    ltac:(unfold sizeof_fmr_header, sizeof_fmr_call, FMR_MAX_ARGC in *; lia))).
  change (Z.of_nat sizeof_fmr_header + Z.of_nat sizeof_fmr_call + Z.of_nat (length args)
          + Z.of_nat (args_size args)) with (invoke_len args).
  assert (0 <= invoke_len args <= 64) as Hlen by (unfold invoke_len; lia).
  cbn [app]. unfold call_packet.
  set (tl := [u8 mi; u8 index; u8 ret; Z.of_nat (length args)] ++ types_area args ++ argv_area args).
  assert (length tl = 58%nat) as Htl.
  { unfold tl. rewrite !length_app, length_types_area, length_argv_area by lia. done. }
  set (hdr := [254; 0; 0] ++ le_bytes 2 (invoke_len args) ++ [0]).
  rewrite (bind_lift_opt _ (hdr ++ tl)) by (by apply wr_app_l).
  destruct (packet_crc (hdr ++ tl) (invoke_len args)) as [crc|] eqn:Hc.
  2: { unfold packet_crc, lf_crc in Hc. rewrite rd_Some in Hc; [done|].
       rewrite length_app, Htl. cbn. lia. }
  exists crc. rewrite (bind_lift_opt (Some crc) crc _ _ eq_refl).
  assert (wr_le (hdr ++ tl) off_crc 2 crc
          = Some (([254] ++ le_bytes 2 crc ++ le_bytes 2 (invoke_len args) ++ [0]) ++ tl)) as Hw
    by (by apply wr_app_l).
  rewrite Hw. split; [done|]. apply (seal_ok (hdr ++ tl) (invoke_len args) crc); try done.
  unfold rd_le. rewrite rd_app_l by (cbn; lia).
  change (Some (le_val (le_bytes 2 (invoke_len args))) = Some (invoke_len args)). f_equal.
  apply le_val_bytes_small. lia.
Qed.
End Packet.

(** ** Computations that leave a global variable alone *)

Definition keeps {E X A} (f : world E -> X) (m : C E A) : Prop :=
  forall w a w', m w = Ok (a, w') -> f w' = f w.

Section Keeps.
Context {E : Type}.
Abbreviation ka := (keeps (E:=E) w_attached).

Lemma keeps_ret {A} (a : A) : ka (mret a).
Proof. by intros w b w' [= <- <-]. Qed.
Lemma keeps_bind {A B} (m : C E A) (f : A -> C E B) : ka m -> (forall a, ka (f a)) -> ka (m ≫= f).
Proof.
  intros Hm Hf w b w' (a & w1 & H1 & H2)%bind_Ok_inv. rewrite (Hf _ _ _ _ H2). by eapply Hm.
Qed.
Lemma keeps_assert {A} b err (ok fail : C E A) : ka ok -> ka fail -> ka (lf_assert b err ok fail).
Proof. intros Hok Hf. destruct b; [done|]. apply keeps_bind; [|done]. by intros w a w' [= <- <-]. Qed.
Lemma keeps_malloc init : ka (malloc init).
Proof. intros w a w'. unfold malloc. by case_match; intros [= <- <-]. Qed.
Lemma keeps_free p : ka (free p).
Proof. intros w a w'. unfold free. repeat case_match; by intros [= <- <-]. Qed.
Lemma keeps_store p o : ka (store p o).
Proof. intros w a w'. unfold store. repeat case_match; by intros [= <- <-]. Qed.
Lemma keeps_load_node p : ka (load_node p).
Proof. intros w a w'. unfold load_node. repeat case_match; by intros [= <- <-]. Qed.
Lemma keeps_load_module p : ka (load_module p).
Proof. intros w a w'. unfold load_module. repeat case_match; by intros [= <- <-]. Qed.
Lemma keeps_load_device p : ka (load_device p).
Proof. intros w a w'. unfold load_device. repeat case_match; by intros [= <- <-]. Qed.
Lemma keeps_load_usb p : ka (load_usb p).
Proof. intros w a w'. unfold load_usb. repeat case_match; by intros [= <- <-]. Qed.
Lemma keeps_env_op {A} (f : E -> A * E) : ka (env_op f).
Proof. intros w a w'. unfold env_op. destruct (f (w_env w)). by intros [= <- <-]. Qed.
Lemma keeps_get : ka get.
Proof. by intros w a w' [= <- <-]. Qed.
Lemma keeps_ub {A} : ka (ub : C E A).
Proof. by intros w a w'. Qed.
Lemma keeps_spin {A} : ka (spin : C E A).
Proof. by intros w a w'. Qed.
End Keeps.

Create HintDb keeps.
#[export] Hint Resolve keeps_ret keeps_malloc keeps_free keeps_store keeps_load_node keeps_load_module
  keeps_load_device keeps_load_usb keeps_env_op keeps_get keeps_ub keeps_spin : keeps.
Ltac keeps :=
  repeat first [ solve [eauto with keeps] | apply keeps_assert | apply keeps_bind; [|intros ?] | case_match ].

Section Attach.
Context {E : Type} `{!Usb E}.
Implicit Types w : world E.

Lemma keeps_release_loop fuel p : keeps (E:=E) w_attached (ll_release_loop fuel p).
Proof.
  revert p. induction fuel as [|fuel IH]; intros p; cbn [ll_release_loop]; keeps;
  unfold lf_ll_free_node, call_deconstructor, lf_module_release, lf_device_release; keeps.
Qed.
Lemma keeps_tail_loop fuel p : keeps (E:=E) w_attached (ll_tail_loop fuel p).
Proof. revert p. induction fuel as [|fuel IH]; intros p; cbn [ll_tail_loop]; keeps. Qed.
Hint Resolve keeps_release_loop keeps_tail_loop : keeps.

Lemma keeps_append p it d : keeps (E:=E) w_attached (lf_ll_append p it d).
Proof. unfold lf_ll_append, ll_link_tail. keeps. Qed.
Lemma keeps_get_devices_fail c p : keeps (E:=E) w_attached (get_devices_fail c p).
Proof. unfold get_devices_fail, lf_ll_release. keeps. Qed.
Hint Resolve keeps_append keeps_get_devices_fail : keeps.

Lemma keeps_get_devices_loop c p ds : keeps (E:=E) w_attached (get_devices_loop c p ds).
Proof.
  revert p. induction ds as [|x ds IH]; intros p; cbn [get_devices_loop];
    unfold lf_device_create, lf_device_create_named; keeps.
Qed.

(** Attaching succeeds without attaching anything. *)
Lemma lf_attach_nothing w r w' :
  w_attached w = 0 -> lf_attach w = Ok (r, w') -> r = lf_success /\ w_attached w' = 0.
Proof.
  intros H0 H. unfold lf_attach in H. apply bind_Ok_inv in H as (p & w1 & H1 & H).
  pose proof (lf_libusb_get_devices_null _ _ _ H1) as ->.
  assert (w_attached w1 = 0) as H2.
  { rewrite <- H0. revert H1. unfold lf_libusb_get_devices.
    assert (keeps (E:=E) w_attached lf_libusb_get_devices) as Hk; [|apply Hk].
    unfold lf_libusb_get_devices. keeps. apply keeps_get_devices_loop. }
  rewrite bind_gets, H2 in H. injection H as <- <-. done.
Qed.
End Attach.

Section Select.
Context {E : Type} `{!Usb E}.
Implicit Types (w : world E) (l : list ll_entry).

Lemma lf_select_get w device :
  device <> 0 ->
  (lf_select device;; lf_get_selected) w = Ok (device, set_current device w).
Proof. intros H. unfold lf_select, lf_assert. by rewrite ctrue_nonzero. Qed.

Lemma lf_select_null w :
  lf_select 0 w = Ok (lf_error, set_err (err_code E_NULL) w).
Proof. done. Qed.

(** Library shutdown frees every attached device and its node. *)
Lemma lf_exit_ok w l :
  is_ll (w_heap w) (w_attached w) l -> Forall (fun a => heap_base <= a) (addrs l) ->
  owned_ok (w_heap w) (addrs l) l ->
  exists h', lf_exit w = Ok (lf_success, set_attached 0 (set_heap h' w)) /\
    forall q, h' !! q = if decide (q ∈ addrs l \/ q ∈ owned l) then None else w_heap w !! q.
Proof.
  intros Hl Hb Ho. destruct (lf_ll_release_spec w _ l Hl Hb Ho) as (h' & Hrun & Hq).
  exists h'. split; [|done]. unfold lf_exit. rewrite bind_gets. by mstep Hrun.
Qed.
End Select.

Section InvokeProps.
Context {E : Type} `{!Transport E}.
Implicit Types (w : world E) (l : list ll_entry) (ms : list lf_module) (args : list lf_arg).

(** A call that can be encoded is not sent: the test on [lf_create_call]'s
    status is inverted. *)
Lemma lf_invoke_not_sent w device d l ms name i m p al args ret :
  wf_world w -> device_at (w_heap w) device d l ms -> is_cstring name ->
  ms !! i = Some m -> has_name name m ->
  is_ll (w_heap w) p al -> args_at (w_heap w) al args -> Forall wf_arg args ->
  (length args <= FMR_MAX_ARGC)%nat ->
  (sizeof_fmr_call + length args + args_size args <= FMR_PACKET_SIZE - sizeof_fmr_header)%nat ->
  lf_invoke device (Some name) ret p w = Ok ((lf_error, None), set_err (err_code E_NULL) w).
Proof.
  intros Hw Hda Hs Hi Hm Hl Ha Hwf Hn Hsz. unfold lf_invoke. unfold lf_assert at 1.
  rewrite ctrue_nonzero by (by eapply device_at_nonnull).
  change (wr_le zero_packet off_magic 1 FMR_MAGIC_NUMBER) with (Some ([254; 0; 0; 0; 0; 0] ++ replicate 58 0)).
  rewrite (bind_lift_opt _ _ _ _ eq_refl).
  change (wr_le ([254; 0; 0; 0; 0; 0] ++ replicate 58 0) off_len 2 (Z.of_nat sizeof_fmr_header))
    with (Some ([254; 0; 0; 6; 0; 0] ++ replicate 58 0)). rewrite (bind_lift_opt _ _ _ _ eq_refl).
  mstep (dyld_module_found w device d l ms name i m Hw Hda Hs Hi Hm).
  destruct (find_named_cases name l ms) as [[Hno _]|(j & m' & e & Hm' & He & _ & _ & ->)].
  { by eapply modules_at_length, da_mods. }
  { by apply (Forall_lookup_1 _ _ _ _ Hno Hi) in Hm. }
  pose proof (modules_at_item _ _ _ _ _ _ (da_mods _ _ _ _ _ Hda) He Hm') as Hat.
  unfold lf_assert at 1. rewrite ctrue_nonzero by (intros H0; by rewrite H0, wf_null in Hat).
  mstep (load_module_ok _ _ _ Hat).
  rewrite (bind_Ok _ _ _ _ _ (lf_create_call_spec w p al args (m_idx m') ret 254 0 0 6 0 0 Hl Ha Hwf Hn Hsz)).
  done.
Qed.

(** A call by index to a module the host knows, whose packet reaches the
    device: the value the device answers is returned as a success, whatever
    error the answer carries. *)
Lemma lf_invoke_by_index_known w device d l ms name i m idx w1 p al args index ret pkt w2 res w3 :
  lf_dyld_dyn_sym_lookup device (Some name) w = Ok ((lf_success, Some idx), w1) ->
  wf_world w1 -> device_at (w_heap w1) device d l ms -> is_cstring name ->
  ms !! i = Some m -> has_name name m ->
  is_ll (w_heap w1) p al -> args_at (w_heap w1) al args ->
  invoke_packet idx index ret p w1 = Ok (pkt, w1) ->
  device_write device pkt w1 = Ok (lf_success, w2) ->
  device_read device (le_bytes 8 (w_junk w2 0) ++ le_bytes 1 (w_junk w2 8)) w2 = Ok ((lf_success, res), w3) ->
  lf_invoke_by_index device (Some name) index ret p w = Ok ((lf_success, Some (result_value res)), w3).
Proof.
  intros Hlk Hw Hda Hs Hi Hm Hl Ha Hpkt Hwr Hrd. unfold lf_invoke_by_index, lf_assert at 1.
  rewrite ctrue_nonzero by (by eapply device_at_nonnull).
  mstep Hlk. unfold lf_assert at 1. cbn [lf_success Z.eqb]. unfold invoke_module.
  mstep (dyld_module_found w1 device d l ms name i m Hw Hda Hs Hi Hm).
  destruct (find_named_registered _ l ms name i m (wf_null w1 Hw) (da_mods _ _ _ _ _ Hda) Hi Hm)
    as (j & e & _ & _ & -> & H0). rewrite ctrue_nonzero by done.
  cbn [default from_option]. unfold id. mstep Hpkt. mstep Hwr. unfold lf_assert, stack_result.
  cbn [lf_success Z.eqb]. mnorm. by mstep Hrd.
Qed.
End InvokeProps.

Section Overflow.
Context {E : Type} `{!Transport E}.
Implicit Types (w : world E) (l : list ll_entry) (args : list lf_arg).

Definition fits args : Prop := (length args <= FMR_MAX_ARGC)%nat /\ (args_size args <= 38)%nat.

Lemma length_call_packet (hdr : list Z) m f r c args :
  length hdr = 6%nat -> fits args ->
  length (call_packet hdr m f r c (types_area args) (argv_area args)) = 64%nat.
Proof.
  intros Hh [Hn Hs]. unfold call_packet. rewrite !length_app, length_types_area, length_argv_area by done.
  by rewrite Hh.
Qed.

(** Arguments that do not fit run over the end of the type array or of the
    packet. *)
Lemma invoke_args_loop_over (hdr : list Z) m f r c args : length hdr = 6%nat ->
  forall w l n args0 i dst len,
  is_ll (w_heap w) n l -> args_at (w_heap w) l args -> Forall wf_arg args ->
  fits args0 -> ~ fits (args0 ++ args) ->
  i = length args0 -> dst = (off_argv + args_size args0)%nat ->
  invoke_args_loop (length args) i n dst len
    (call_packet hdr m f r c (types_area args0) (argv_area args0)) w = Ub.
Proof.
  intros Hhdr. induction args as [|a args IH]; intros w l n args0 i dst len Hl Ha Hwf Hf Hnf -> ->.
  { by rewrite app_nil_r in Hnf. }
  apply Forall2_cons_inv_r in Ha as (e & l' & He & Ha & ->).
  apply Forall_cons in Hwf as [Hwa Hwf]. destruct Hl as (-> & H0 & n' & Hn' & Hl').
  cbn [length invoke_args_loop]. destruct (Z.eqb_spec (e_addr e) 0); [done|].
  mstep (load_node_ok _ _ _ Hn'). cbn [item next]. mstep (load_arg_ok _ _ _ He). cbv zeta.
  pose proof Hf as [Hf1 Hf2].
  destruct (decide (length args0 < FMR_MAX_ARGC)%nat) as [Hlt|Hge].
  2: { unfold set_arg_type. by rewrite decide_False. }
  rewrite (bind_lift_opt _ _ _ _ (set_arg_type_ok hdr m f r c Hhdr args0 a (argv_area args0) Hlt Hwa)).
  fold (arg_size a).
  assert (length (types_area (args0 ++ [a])) = FMR_MAX_ARGC) as HT
    by (apply length_types_area; rewrite length_app; simpl; lia).
  destruct (decide (args_size args0 + arg_size a <= 38)%nat) as [Hle|Hgt].
  - rewrite (bind_lift_opt _ _ _ _ (put_arg_bytes_ok hdr m f r c Hhdr args0 a _ HT Hle)).
    apply (IH w l' n' (args0 ++ [a])); try done.
    + split; [rewrite length_app; simpl; lia|rewrite args_size_snoc; lia].
    + by rewrite <- app_assoc.
    + rewrite length_app. simpl. lia.
    + rewrite args_size_snoc. lia.
  - apply bind_Ub. unfold wr_le, wr. rewrite decide_False; [done|].
    rewrite length_le_bytes. unfold call_packet.
    rewrite !length_app, HT, length_argv_area, Hhdr by done. unfold off_argv, FMR_MAX_ARGC. simpl. lia.
Qed.

(** There is no bound check: a call that does not fit in the packet has no
    defined behaviour. *)
Lemma invoke_packet_over w p l args mi index ret :
  is_ll (w_heap w) p l -> args_at (w_heap w) l args -> Forall wf_arg args ->
  (length args <= FMR_MAX_ARGC)%nat -> (64 < 26 + length args + args_size args)%nat ->
  invoke_packet mi index ret p w = Ub.
Proof.
  intros Hl Ha Hwf Hn Hs. unfold invoke_packet. cbv zeta.
  rewrite (invoke_prefix_ok w p l args mi index ret (fun count pkt =>
    '(len, pkt) ← invoke_args_loop (Z.to_nat (u8 count)) 0 p off_argv
                  (u16 (Z.of_nat sizeof_fmr_header + Z.of_nat sizeof_fmr_call + u8 count)) pkt;
    pkt ← lift_opt (wr_le pkt off_len 2 len);
    crc ← lift_opt (packet_crc pkt len);
    lift_opt (wr_le pkt off_crc 2 crc)) Hl Ha Hn).
  rewrite (u8_args args Hn), Nat2Z.id.
  rewrite u16_small by (unfold sizeof_fmr_header, sizeof_fmr_call, FMR_MAX_ARGC in *; lia).
  destruct (decide (args_size args <= 38)%nat) as [H38|H38].
  2: { apply bind_Ub, (invoke_args_loop_over [254; 0; 0; 0; 0; 0]) with (args0 := []) (l := l); try done.
       - split; [apply Nat.le_0_l|apply Nat.le_0_l].
       - intros [_ H]. done. }
  rewrite (bind_Ok _ _ _ _ _ (invoke_args_loop_ok [254; 0; 0; 0; 0; 0] (u8 mi) (u8 index) (u8 ret)
    (Z.of_nat (length args)) args eq_refl w l p [] 0 off_argv
    (Z.of_nat sizeof_fmr_header + Z.of_nat sizeof_fmr_call + Z.of_nat (length args))
    Hl Ha Hwf Hn eq_refl eq_refl H38 ltac:(lia)
    ltac:(unfold sizeof_fmr_header, sizeof_fmr_call, FMR_MAX_ARGC in *; lia))).
  cbn [app]. set (pkt := call_packet _ _ _ _ _ _ _).
  assert (length pkt = 64%nat) as Hp by (by apply length_call_packet).
  destruct (wr_le pkt off_len 2 _) as [pkt'|] eqn:Hw; [|done].
  rewrite (bind_lift_opt (Some pkt') pkt' _ _ eq_refl). apply bind_Ub.
  unfold packet_crc, lf_crc, rd. rewrite (wr_length _ _ _ _ Hw), Hp, decide_False; [done|].
  unfold sizeof_fmr_header, sizeof_fmr_call. lia.
Qed.
End Overflow.
