(* ===== verification/Scenario.v ===== *)
(** * A concrete device and host

    Small worlds the theorems are evaluated on: a device with one module, an
    argument list, and an endpoint that records what is sent. *)

From S2P Require Import Prelude World Errors Crc Device LinkedList FmrPacket Transport Dyld Fmr Network Libusb Libflipper.
From stdpp Require Import base list gmap sets.
From Stdlib Require Import ZArith Lia.
Local Open Scope Z_scope.

(** ** A recording endpoint *)

Record wire := Wire { inbox : list (list Z); outbox : list (list Z) }.

#[global] Instance wire_transport : Transport wire := {
  tr_write _ _ src := fun w =>
    Ok (lf_success, set_env (Wire (inbox (w_env w)) (outbox (w_env w) ++ [src])) w);
  tr_read _ _ dst := fun w =>
    match inbox (w_env w) with
    | [] => Ok ((lf_error, dst), w)
    | m :: ms => Ok ((lf_success, take (length dst) m ++ drop (length m) dst),
                     set_env (Wire ms (outbox (w_env w))) w)
    end;
}.

(** Module functions answer the number of arguments they got. *)
#[global] Instance wire_code : ModuleCode wire := {
  call_function _ args := lf_ll_count args;
  call_plugin_handler _ _ _ _ := ub;
}.

(** Waiting datagrams come from one peer; sending appends to the outbox. *)
Definition peer : sockaddr_in := SockAddr 0x0100007F 0xBA0C.
#[global] Instance wire_sockets : Sockets wire := {
  sys_socket env := (3, env);
  sys_bind _ _ env := (0, env);
  sys_recvfrom _ len env :=
    match inbox env with
    | [] => (RcvErr EAGAIN, env)
    | m :: ms => (RcvOk (take len m) peer, Wire ms (outbox env))
    end;
  sys_sendto _ bs _ env := (Z.of_nat (length bs), Wire (inbox env) (outbox env ++ [bs]));
  sys_close _ env := env;
  sys_usleep _ env := Wire (inbox env) (outbox env ++ [[]]);
  inet_addr _ := 0x0100007F;
}.

(** "dac" *)
Definition str_dac : list Z := [100; 97; 99].

Definition dev_addr : Z := 4096.
Definition sample_device : lf_device :=
  LfDevice (name32 str_fvm) 0 0 4112 fn_lf_network_read fn_lf_network_write fn_lf_network_release 0 0.
Definition sample_module : lf_module := LfModule (name32 str_dac) 1 0 0 [50; 51] 2 4144.
Definition sample_entries : list ll_entry := [Entry 4112 4128 fn_lf_module_release].
Definition sample_args : list lf_arg := [LfArg lf_uint16_t 0x1234; LfArg lf_uint8_t 7].
Definition sample_arg_entries : list ll_entry := [Entry 4160 4176 0; Entry 4192 4208 0].
(** A second module record, not registered yet. *)
Definition led_module : lf_module := LfModule (name32 [108; 101; 100]) 1 UINT16_MAX 0 [52] 1 0.

Definition sample_heap : gmap Z obj :=
  list_to_map [
    (4096, ODevice sample_device);
    (4112, ONode (LLNode 4128 fn_lf_module_release 0));
    (4128, OModule sample_module);
    (4144, ORaw (replicate 16 0));
    (4160, ONode (LLNode 4176 0 4192));
    (4176, OArg (LfArg lf_uint16_t 0x1234));
    (4192, ONode (LLNode 4208 0 0));
    (4208, OArg (LfArg lf_uint8_t 7));
    (4224, OModule led_module)].

Definition sample_registry : list Z :=
  [fn_fmr_rpc; fn_fmr_push; fn_fmr_pull; fn_fmr_dyld; fn_fmr_malloc; fn_fmr_free].

Definition sample_world : world wire :=
  World 0 sample_heap 4240 [] (fun _ => 0) 0 0 sample_registry false (Wire [] []).

(** The same device with answers waiting to be read. *)
Definition world_with (ms : list (list Z)) : world wire := set_env (Wire ms []) sample_world.

Section Checks.
Lemma wf_world_check {E} (w : world E) :
  bool_decide (heap_base <= w_next w /\ map_Forall (fun p _ => 0 < p < w_next w) (w_heap w)) = true ->
  wf_world w.
Proof. intros [H1 H2]%bool_decide_eq_true. split; [done|]. intros p o Hp. by apply (H2 p o). Qed.

Lemma sample_wf ms : wf_world (world_with ms).
Proof. apply wf_world_check. by vm_compute. Qed.

Lemma sample_wf0 : wf_world sample_world.
Proof. apply wf_world_check. by vm_compute. Qed.

Lemma sample_device_at :
  device_at sample_heap dev_addr sample_device sample_entries [sample_module].
Proof.
  split.
  - done.
  - cbn. split; [done|]. split; [done|]. by exists 0.
  - by constructor.
  - constructor; [|done]. exists str_dac. by vm_compute.
Qed.

Lemma sample_args_ll : is_ll sample_heap 4160 sample_arg_entries.
Proof. cbn. split; [done|]. split; [done|]. exists 4192. split; [done|]. split; [done|]. split; [done|]. by exists 0. Qed.

Lemma sample_args_at : args_at sample_heap sample_arg_entries sample_args.
Proof. by repeat constructor. Qed.

Lemma sample_args_wf : Forall wf_arg sample_args.
Proof. do 2 (apply Forall_cons; split; [split; split; by vm_compute|]). done. Qed.

Lemma str_dac_cstring : is_cstring str_dac.
Proof. by repeat constructor. Qed.

Lemma dac_named : has_name str_dac sample_module.
Proof. by vm_compute. Qed.
End Checks.
