(* ===== verification/Rpc.v ===== *)
(** * A remote call, from the caller's list to the callee's

    The composition of the host's encoder ([invoke_packet] of lib/libflipper.c)
    with the device's dispatcher ([fmr_perform] and [fmr_rpc] of lib/fmr.c). *)

From S2P Require Import Prelude World Errors Crc Device LinkedList FmrPacket Transport Dyld Fmr Network Libusb Libflipper.
From stdpp Require Import base list gmap sets strings.
From Stdlib Require Import ZArith Lia.
Local Open Scope Z_scope.

Section EndToEnd.
Context {EH E : Type} `{!Transport EH, !Transport E, !ModuleCode E}.

(** The device's state when a handler starts. *)
Definition dispatching (w : world E) : world E := set_current_packet true (set_err (err_code E_OK) w).

Lemma call_packet_fields (hdr : list Z) m f r c T A :
  length hdr = 6%nat -> is_byte m -> is_byte f -> is_byte c ->
  rd_le (call_packet hdr m f r c T A) off_call_module 1 = Some m /\
  rd_le (call_packet hdr m f r c T A) off_call_function 1 = Some f /\
  rd_le (call_packet hdr m f r c T A) off_call_argc 1 = Some c.
Proof.
  intros Hh Hm Hf Hc. unfold call_packet, rd_le.
  assert (forall x, le_val [x] = x) as Hv by (intros x; cbn; lia).
  change (hdr ++ [m; f; r; c] ++ T ++ A) with (hdr ++ [m] ++ ([f; r; c] ++ T ++ A)) at 1.
  rewrite (rd_mid hdr [m]) by (done || by rewrite Hh).
  replace (hdr ++ [m; f; r; c] ++ T ++ A) with ((hdr ++ [m]) ++ [f] ++ ([r; c] ++ T ++ A))
    by (by rewrite <- app_assoc).
  rewrite (rd_mid (hdr ++ [m]) [f]) by (done || by rewrite length_app, Hh).
  replace ((hdr ++ [m]) ++ [f] ++ ([r; c] ++ T ++ A)) with ((hdr ++ [m; f; r]) ++ [c] ++ (T ++ A))
    by (by rewrite <- !app_assoc).
  rewrite (rd_mid (hdr ++ [m; f; r]) [c]) by (done || by rewrite length_app, Hh).
  cbn [fmap option_fmap option_map]. by rewrite !Hv.
Qed.

(** The packet the host builds is dispatched to the selected function, which
    gets a fresh list with the caller's arguments; what it returns is answered. *)
Lemma call_roundtrip (wh : world EH) p al args (w : world E) device d l ms (mi fi : nat) e m f ret :
  is_ll (w_heap wh) p al -> args_at (w_heap wh) al args -> Forall wf_arg args ->
  (length args <= FMR_MAX_ARGC)%nat -> (26 + length args + args_size args <= 64)%nat ->
  wf_world w -> no_oom w -> device_at (w_heap w) device d l ms ->
  l !! mi = Some e -> ms !! mi = Some m -> (mi < 256)%nat -> (fi < 256)%nat ->
  Z.of_nat fi < m_length m -> m_table m !! fi = Some f ->
  w_registry w !! 0%nat = Some fn_fmr_rpc ->
  exists pkt w1 head cl cargs,
    invoke_packet (Z.of_nat mi) (Z.of_nat fi) ret p wh = Ok (pkt, wh) /\
    heap_step (w_next w) (dispatching w) w1 /\
    rpc_list (w_next w) (w_heap w1) head cl cargs /\ Forall2 arg_agrees args cargs /\
    forall v w2,
      call_function f head w1 = Ok (v, w2) -> rpc_list (w_next w) (w_heap w2) head cl cargs ->
      exists h', (forall q, h' !! q = if decide (q ∈ addrs cl \/ q ∈ owned cl) then None else w_heap w2 !! q) /\
        forall rc w3,
          device_write device (result_bytes v (u8 (w_err w2))) (set_current_packet false (set_heap h' w2))
            = Ok (rc, w3) ->
          exists buf, fmr_perform device pkt w = Ok ((rc, buf), w3).
Proof.
  intros Hl Ha Hwf Hn Hs Hw Ho Hda He Hm Hmi Hfi Hlt Hf Hreg.
  destruct (invoke_packet_ok wh p al args (Z.of_nat mi) (Z.of_nat fi) ret Hl Ha Hwf Hn Hs) as (crc & Hpkt & Hok).
  rewrite (u8_small (Z.of_nat mi)), (u8_small (Z.of_nat fi)) in Hpkt, Hok by lia.
  set (len := invoke_len args) in *.
  set (hdr0 := [254] ++ [0; 0] ++ le_bytes 2 len ++ [0]).
  set (body := call_packet hdr0 (Z.of_nat mi) (Z.of_nat fi) (u8 ret) (Z.of_nat (length args))
                 (types_area args) (argv_area args)).
  assert (wr_le (call_packet ([254] ++ le_bytes 2 crc ++ le_bytes 2 len ++ [0]) (Z.of_nat mi)
            (Z.of_nat fi) (u8 ret) (Z.of_nat (length args)) (types_area args) (argv_area args))
            off_crc 2 0 = Some body) as Hclear by (by apply wr_app_l).
  unfold FMR_MAX_ARGC in Hn.
  destruct (call_packet_fields hdr0 (Z.of_nat mi) (Z.of_nat fi) (u8 ret) (Z.of_nat (length args))
              (types_area args) (argv_area args)) as (F1 & F2 & F3); [done|unfold is_byte; lia..|].
  assert (carries body args) as Hca.
  { rewrite <- (app_nil_r body). apply call_packet_carries; [done|done|lia|done]. }
  destruct (fmr_rpc_ok (dispatching w) device d l ms mi e m fi f body args 0)
    as (w1 & head & cl & cargs & Hst & Hrl & Hag & Hrun); try done.
  eexists _, w1, head, cl, cargs. split; [exact Hpkt|]. do 3 (split; [done|]).
  intros v w2 Hcall Hrl2. destruct (Hrun v w2 Hcall Hrl2) as (h' & Hrpc & Hq).
  exists h'. split; [done|]. intros rc w3 Hwr.
  destruct (perform_dispatch device _ w 0 d fn_fmr_rpc lf_success v (set_heap h' w2) rc w3 Hok)
    as (buf & _ & Hp); try done; [by eapply device_at_nonnull|by apply Hda| |by eauto|by eauto].
  intros H0. pose proof (da_ll _ _ _ _ _ Hda) as Hll. rewrite H0 in Hll.
  apply is_ll_nil_inv in Hll. by subst l.
Qed.
End EndToEnd.
