(* ===== verification/LibProps.v ===== *)
(** * Properties of the library

    The theorems about lists, the module registry, packets, the message
    runtime and invocation, each with an instance on the sample worlds. *)

From S2P Require Import Prelude World Errors Crc Device LinkedList FmrPacket Transport Dyld Fmr Network Libusb Libflipper Scenario Rpc.
From stdpp Require Import base list gmap sets strings.
From Stdlib Require Import ZArith Lia.
Local Open Scope Z_scope.

(** ** Remote calls, from the caller's list to the callee's *)

Section EndToEnd.
Context {EH E : Type} `{!Transport EH, !Transport E, !ModuleCode E}.

(** C1: End to end, a call by index works: the packet [lf_invoke_by_index]
    builds on the host is accepted by [fmr_perform] on the device, the selected
    function runs exactly once on a fresh list that agrees with the caller's
    arguments in number, order, types and transmitted bytes, the list is freed
    when it returns, and the answer carries the function's value together with
    the error register it left. *)
Theorem rpc_end_to_end (wh : world EH) p al args (w : world E) device d l ms (mi fi : nat) e m f ret :
  is_ll (w_heap wh) p al -> args_at (w_heap wh) al args -> Forall wf_arg args ->
  (length args <= FMR_MAX_ARGC)%nat -> (26 + length args + args_size args <= 64)%nat ->
  wf_world w -> no_oom w -> device_at (w_heap w) device d l ms ->
  l !! mi = Some e -> ms !! mi = Some m -> (mi < 256)%nat -> (fi < 256)%nat ->
  Z.of_nat fi < m_length m -> m_table m !! fi = Some f ->
  w_registry w !! 0%nat = Some fn_fmr_rpc ->
  exists pkt w1 head cl cargs,
    invoke_packet (Z.of_nat mi) (Z.of_nat fi) ret p wh = Ok (pkt, wh) /\
    heap_step (w_next w) (dispatching w) w1 /\
    rpc_list (w_next w) (w_heap w1) head cl cargs /\ Forall2 arg_agrees args cargs /\
    forall v w2,
      call_function f head w1 = Ok (v, w2) -> rpc_list (w_next w) (w_heap w2) head cl cargs ->
      exists h', (forall q, h' !! q = if decide (q ∈ addrs cl \/ q ∈ owned cl) then None else w_heap w2 !! q) /\
        forall rc w3,
          device_write device (result_bytes v (u8 (w_err w2))) (set_current_packet false (set_heap h' w2))
            = Ok (rc, w3) ->
          exists buf, fmr_perform device pkt w = Ok ((rc, buf), w3).
Proof. apply call_roundtrip. Qed.
End EndToEnd.

(** The sample call: function 1 of module 0, with the two sample arguments. *)
Lemma rpc_end_to_end_witness :
  exists pkt buf w3, invoke_packet 0 1 0 4160 sample_world = Ok (pkt, sample_world) /\
    fmr_perform dev_addr pkt sample_world = Ok ((lf_success, buf), w3).
Proof.
  destruct (rpc_end_to_end sample_world 4160 sample_arg_entries sample_args sample_world dev_addr sample_device
              sample_entries [sample_module] 0 1 (Entry 4112 4128 fn_lf_module_release) sample_module 51 0
              sample_args_ll sample_args_at sample_args_wf ltac:(vm_compute; lia) ltac:(vm_compute; lia)
              sample_wf0 ltac:(constructor) sample_device_at eq_refl eq_refl ltac:(lia) ltac:(lia)
              ltac:(vm_compute; reflexivity) eq_refl eq_refl)
    as (pkt & w1 & head & cl & cargs & Hpkt & _).
  exists pkt.
  destruct (fmr_perform dev_addr pkt sample_world) as [[[rc buf] w3]| |] eqn:Hp.
  - assert (invoke_packet 0 1 0 4160 sample_world = Ok (pkt, sample_world)) as Hpkt' by exact Hpkt.
    vm_compute in Hpkt'. injection Hpkt' as <-. vm_compute in Hp. injection Hp as <- <- <-.
    eexists _, _. split; [exact Hpkt|reflexivity].
  - exfalso. vm_compute in Hpkt. injection Hpkt as <-. vm_compute in Hp. discriminate.
  - exfalso. vm_compute in Hpkt. injection Hpkt as <-. vm_compute in Hp. discriminate.
Defined.

(** ** Acceptance of packets *)


(** The sealed sample call and a copy with two flipped bits in the module index. *)
Definition sample_packet : list Z :=
  match invoke_packet 0 1 0 4160 sample_world with Ok (pkt, _) => pkt | _ => [] end.
Definition damaged_packet : list Z := <[6%nat := 3]> sample_packet.

Lemma sample_packet_ok : packet_ok sample_packet.
Proof.
  destruct (invoke_packet_ok sample_world 4160 sample_arg_entries sample_args 0 1 0 sample_args_ll
              sample_args_at sample_args_wf) as (crc & Hpkt & Hok); [vm_compute; lia..|].
  unfold sample_packet. by rewrite Hpkt.
Qed.


(** A call to a function index past the module's table is refused by the
    dispatcher, yet the answer the device sends is byte for byte the answer of a
    successful call that returned 0: the dispatcher's failure is overwritten by
    the (clear) error register. *)
Theorem bad_function_reported_ok {E} `{!Transport E, !ModuleCode E} (w : world E) device d l ms (mi : nat) e m fi buf
    buf0 rc w' :
  wf_world w -> device_at (w_heap w) device d l ms -> packet_ok buf ->
  rd_le buf off_type 1 = Some fmr_rpc_class -> w_registry w !! 0%nat = Some fn_fmr_rpc ->
  wr_le buf off_crc 2 0 = Some buf0 -> rd_le buf0 off_call_module 1 = Some (Z.of_nat mi) ->
  l !! mi = Some e -> ms !! mi = Some m -> rd_le buf0 off_call_function 1 = Some fi -> m_length m <= fi ->
  device_write device (result_bytes 0 (err_code E_OK)) (set_current_packet false (set_current_packet true (set_err (err_code E_OK) w)))
    = Ok (rc, w') ->
  fmr_perform device buf w = Ok ((rc, buf0), w').
Proof.
  intros Hw Hda Hok Hty Hreg Hbuf0 Hmi He Hm Hfi Hge Hwr.
  destruct (perform_dispatch device buf w 0 d fn_fmr_rpc lf_error 0
              (set_current_packet true (set_err (err_code E_OK) w)) rc w' Hok) as (buf1 & Hb1 & Hp); try done.
  - by eapply device_at_nonnull.
  - by apply Hda.
  - intros H0. pose proof (da_ll _ _ _ _ _ Hda) as Hll. rewrite H0 in Hll.
    apply is_ll_nil_inv in Hll. by subst l.
  - exists buf0. split; [done|]. by apply (fmr_rpc_bad_function _ device d l ms mi e m fi).
  - assert (buf1 = buf0) as -> by congruence. done.
Qed.

Definition bad_call_packet : list Z :=
  match invoke_packet 0 9 0 0 sample_world with Ok (pkt, _) => pkt | _ => [] end.

Lemma bad_function_reported_ok_witness :
  exists buf0 w', fmr_perform dev_addr bad_call_packet sample_world = Ok ((lf_success, buf0), w').
Proof.
  eexists _, _.
  eapply (bad_function_reported_ok sample_world dev_addr sample_device sample_entries [sample_module] 0
            (Entry 4112 4128 fn_lf_module_release) sample_module 9 bad_call_packet).
  - exact sample_wf0.
  - exact sample_device_at.
  - unfold bad_call_packet.
    destruct (invoke_packet_ok sample_world 0 [] [] 0 9 0) as (crc & Hpkt & Hok);
      [reflexivity|constructor|constructor|vm_compute; lia|vm_compute; lia|].
    rewrite Hpkt. exact Hok.
  - vm_compute. reflexivity.
  - reflexivity.
  - vm_compute. reflexivity.
  - vm_compute. reflexivity.
  - reflexivity.
  - reflexivity.
  - vm_compute. reflexivity.
  - vm_compute. discriminate.
  - vm_compute. reflexivity.
Defined.

(** Every handler but the call handler takes its request from behind the
    packet, not from the packet's payload: on a receiver whose buffer is just the
    packet (as in the virtual machine's main loop) dispatching a push, pull,
    lookup, allocation or release has no defined behaviour. *)
Theorem handlers_read_past_packet {E} `{!Transport E, !ModuleCode E} (w : world E) device buf ret0 h :
  length buf = FMR_PACKET_SIZE ->
  h ∈ [fn_fmr_push; fn_fmr_pull; fn_fmr_dyld; fn_fmr_malloc; fn_fmr_free] ->
  call_handler h device buf ret0 w = Ub.
Proof. apply past_packet_Ub. Qed.

Lemma handlers_read_past_packet_witness :
  call_handler fn_fmr_dyld dev_addr (default [] (dyld_packet str_dac)) 0 sample_world = Ub.
Proof.
  apply handlers_read_past_packet.
  - vm_compute. reflexivity.
  - apply (bool_decide_unpack _). vm_compute. exact I.
Defined.

(** C37: Pushed bytes are pulled back unchanged: after a push to a module's
    state, a pull of the same module, offset and length sends exactly the bytes
    pushed. *)
Theorem push_pull_roundtrip {E} `{!Transport E, !ModuleCode E} (w : world E) device d l ms buf (mi : nat) e m index
    data st st' :
  wf_world w -> device_at (w_heap w) device d l ms -> request buf (Z.of_nat mi) index data ->
  l !! mi = Some e -> ms !! mi = Some m -> w_heap w !! m_state m = Some (ORaw st) ->
  wr st (Z.to_nat index) data = Some st' ->
  (fmr_push device buf 0;; fmr_pull device buf 0) w
  = (rc ← device_write device data; mret (rc, if rc =? lf_success then 0 else u64 (-1)))
      (set_heap (<[m_state m := ORaw st']> (w_heap w)) w).
Proof.
  intros Hw Hda Hreq He Hm Hst Hwr.
  mstep (fmr_push_ok w device d l ms buf 0 mi e m index data st st' Hw Hda Hreq He Hm Hst Hwr).
  destruct Hreq as (Hr1 & Hr2 & Hr3 & _).
  apply (fmr_pull_ok _ device d l ms buf 0 mi e m index (length data) st'); try done.
  - apply wf_set_heap_sub; [done|]. intros p. rewrite lookup_insert. case_decide; [by subst|done].
  - by eapply device_at_store_raw.
  - apply lookup_insert_eq.
  - by apply (rd_wr_eq _ _ _ _ Hwr).
Qed.

(** Two bytes for offset 3 of module 0, behind an empty packet. *)
Definition push_buffer : list Z := zero_packet ++ [0; 3; 2; 11; 22].

Lemma push_pull_roundtrip_witness :
  (fmr_push dev_addr push_buffer 0;; fmr_pull dev_addr push_buffer 0) sample_world
  = (rc ← device_write dev_addr [11; 22]; mret (rc, if rc =? lf_success then 0 else u64 (-1)))
      (set_heap (<[4144 := ORaw ([0; 0; 0; 11; 22] ++ replicate 11 0)]> sample_heap) sample_world).
Proof.
  eapply (push_pull_roundtrip sample_world dev_addr sample_device sample_entries [sample_module] push_buffer 0
            (Entry 4112 4128 fn_lf_module_release) sample_module 3 [11; 22] (replicate 16 0)).
  - exact sample_wf0.
  - exact sample_device_at.
  - repeat split; vm_compute; reflexivity.
  - reflexivity.
  - reflexivity.
  - reflexivity.
  - vm_compute. reflexivity.
Defined.

(** Memory allocated for the host and freed again leaves the device's heap
    as it was. *)
Theorem malloc_free_roundtrip {E} `{!Transport E, !ModuleCode E} (w : world E) device buf len fbuf :
  wf_world w -> alloc_fails w = false -> rd_le buf past_packet 8 = Some len ->
  rd_le fbuf past_packet 8 = Some (w_next w) ->
  exists w1 w2, fmr_malloc device buf 0 w = Ok ((lf_success, w_next w), w1) /\
    fmr_free device fbuf 0 w1 = Ok ((lf_success, 0), w2) /\ w_heap w2 = w_heap w /\
    w_heap w !! w_next w = None.
Proof.
  intros Hw Ha Hl Hf. destruct (fmr_malloc_ok w device buf 0 len Hw Ha Hl) as (bs & _ & Hm).
  eexists _, _. split; [exact Hm|]. split.
  - apply (fmr_free_ok _ device fbuf 0 (w_next w) (ORaw bs)); [done|apply Hw|apply lookup_insert_eq].
  - cbn. rewrite delete_insert_id; [by split; [|apply wf_fresh]|by apply wf_fresh].
Qed.

Lemma malloc_free_roundtrip_witness :
  exists w1 w2, fmr_malloc dev_addr (zero_packet ++ le_bytes 8 32) 0 sample_world = Ok ((lf_success, 4240), w1) /\
    fmr_free dev_addr (zero_packet ++ le_bytes 8 4240) 0 w1 = Ok ((lf_success, 0), w2) /\
    w_heap w2 = sample_heap /\ sample_heap !! 4240 = None.
Proof.
  apply (malloc_free_roundtrip sample_world dev_addr (zero_packet ++ le_bytes 8 32) 32 (zero_packet ++ le_bytes 8 4240)).
  - exact sample_wf0.
  - reflexivity.
  - vm_compute. reflexivity.
  - vm_compute. reflexivity.
Defined.

(** ** The module registry *)

(** What the device relies on: positions are indices, names are unique. *)
Definition registry_ok (ms : list lf_module) : Prop := positional ms /\ names_unique ms.


Lemma sample_registry_ok : registry_ok [sample_module].
Proof.
  split.
  - intros [|i] m' Hi; simplify_eq/=; done.
  - intros [|i] [|j] m1 m2 t Hi Hj; simplify_eq/=; done.
Qed.


(** The index the device answers for a name is the index calls use: in a
    consistent registry the lookup handler returns, for a registered name, an
    index whose list item is that very module, so a following call addresses it. *)
Theorem resolved_index_addresses_module {E} `{!Transport E, !ModuleCode E} (w : world E) device d l ms buf name i m :
  wf_world w -> device_at (w_heap w) device d l ms -> registry_ok ms ->
  cstr (drop past_packet buf) = Some name -> ms !! i = Some m -> has_name name m ->
  exists idx mp, fmr_dyld device buf 0 w = Ok ((lf_success, idx), w) /\
    lf_ll_item (d_modules d) (Z.to_nat idx) w = Ok (mp, w) /\ w_heap w !! mp = Some (OModule m).
Proof.
  intros Hw Hda [Hpos Huni] Hc Hi Hm.
  destruct (Forall2_lookup_r _ _ _ _ _ (da_mods _ _ _ _ _ Hda) Hi) as (e & He & Hat).
  exists (m_idx m), (e_item e). split; [|split; [|done]].
  - apply (fmr_dyld_ok w device d l ms buf name 0 i m); try done.
    intros j m' Hj Hm' Hn'. pose proof (Huni i j m m' name Hi Hm' Hm Hn'). lia.
  - rewrite (lf_ll_item_spec _ _ l) by (by apply Hda). by rewrite (Hpos i m Hi), Nat2Z.id, He.
Qed.

Lemma resolved_index_addresses_module_witness :
  exists idx mp, fmr_dyld dev_addr (zero_packet ++ str_dac ++ [0]) 0 sample_world = Ok ((lf_success, idx), sample_world) /\
    lf_ll_item 4112 (Z.to_nat idx) sample_world = Ok (mp, sample_world) /\
    sample_heap !! mp = Some (OModule sample_module).
Proof.
  eapply (resolved_index_addresses_module sample_world dev_addr sample_device sample_entries [sample_module]
            (zero_packet ++ str_dac ++ [0]) str_dac 0).
  - exact sample_wf0.
  - exact sample_device_at.
  - exact sample_registry_ok.
  - vm_compute. reflexivity.
  - reflexivity.
  - exact dac_named.
Defined.

(** C17: Resolution is cached: once a name was resolved over the endpoint, the
    module record it created carries the device's index and the given name, and
    resolving it again returns the same record without any traffic. *)
Theorem dyld_module_cached {E} `{!Transport E} (w : world E) p d l ms s idx w2 d2 l2 ms2 :
  wf_world w -> device_at (w_heap w) p d l ms -> is_cstring s ->
  Forall (fun m => ~ has_name s m) ms ->
  lf_dyld_dyn_sym_lookup p (Some s) w = Ok ((lf_success, Some idx), w2) ->
  wf_world w2 -> no_oom w2 -> device_at (w_heap w2) p d2 l2 ms2 ->
  Forall (fun m => ~ has_name s m) ms2 -> (length s < LF_MODULE_NAME_MAX)%nat -> idx <> UINT16_MAX ->
  exists mp w', dyld_module p (Some s) w = Ok (mp, w') /\
    w_heap w' !! mp = Some (OModule (LfModule (name32 s) 0 idx 0 [] 0 0)) /\
    dyld_module p (Some s) w' = Ok (mp, w').
Proof.
  intros Hw Hda Hs Hno Hlk Hw2 Ho2 Hda2 Hno2 Hlen Hidx.
  destruct (dyld_module_new w p d l ms s idx w2 d2 l2 ms2) as (w' & hd & Hrun & Hw' & Hda' & _); try done.
  set (m := LfModule (name32 s) 0 idx 0 [] 0 0) in *.
  assert (indexed m (length ms2) = m) as Hm.
  { unfold indexed, m. cbn [m_idx]. by destruct (Z.eqb_spec idx UINT16_MAX). }
  rewrite Hm in Hda'. pose proof (modules_at_length _ _ _ (da_mods _ _ _ _ _ Hda2)) as Hll.
  assert (has_name s m) as Hname by (by apply cstr_name32).
  exists (w_next w2), w'. split; [done|]. split.
  - apply (modules_at_item _ _ _ (length l2) (Entry (w_next w2 + 16) (w_next w2) fn_lf_module_release) m
             (da_mods _ _ _ _ _ Hda')).
    + by apply list_lookup_middle.
    + by apply list_lookup_middle.
  - rewrite (dyld_module_found w' p _ _ _ s (length ms2) m Hw' Hda' Hs); [|by apply list_lookup_middle|done].
    rewrite (find_named_some s _ _ (length ms2) m (Entry (w_next w2 + 16) (w_next w2) fn_lf_module_release)); try done.
    + by apply list_lookup_middle.
    + by apply list_lookup_middle.
    + intros j m' Hj Hm'. rewrite lookup_app_l in Hm' by done. by apply (Forall_lookup_1 _ _ _ _ Hno2 Hm').
Qed.

(** The device answers index 7, no error. *)
Definition answer_world : world wire := world_with [result_bytes 7 0].
Definition str_led : list Z := [108; 101; 100].

Lemma dyld_module_cached_witness :
  exists mp w', dyld_module dev_addr (Some str_led) answer_world = Ok (mp, w') /\
    w_heap w' !! mp = Some (OModule (LfModule (name32 str_led) 0 7 0 [] 0 0)) /\
    dyld_module dev_addr (Some str_led) w' = Ok (mp, w').
Proof.
  eapply (dyld_module_cached answer_world dev_addr sample_device sample_entries [sample_module] str_led 7
            (set_env (Wire [] [default [] (dyld_packet str_led)]) answer_world) sample_device sample_entries
            [sample_module]).
  - apply sample_wf.
  - exact sample_device_at.
  - by repeat constructor.
  - constructor; [|constructor]. vm_compute. discriminate.
  - vm_compute. reflexivity.
  - apply (sample_wf []).
  - constructor.
  - exact sample_device_at.
  - constructor; [|constructor]. vm_compute. discriminate.
  - vm_compute. lia.
  - discriminate.
Defined.

(** The lookup packet for any name that fits is accepted by the receiver's
    check, is of class dyld, fills exactly one packet, and its payload is the
    terminated name. *)
Theorem lookup_packet_valid s :
  (length s < LF_MODULE_NAME_MAX)%nat -> is_cstring s ->
  exists pkt, dyld_packet s = Some pkt /\ packet_ok pkt /\ length pkt = FMR_PACKET_SIZE /\
    rd_le pkt off_type 1 = Some fmr_dyld_class /\ cstr (drop sizeof_fmr_header pkt) = Some s.
Proof. apply dyld_packet_ok. Qed.

Lemma lookup_packet_valid_witness :
  exists pkt, dyld_packet str_dac = Some pkt /\ packet_ok pkt /\ length pkt = FMR_PACKET_SIZE /\
    rd_le pkt off_type 1 = Some fmr_dyld_class /\ cstr (drop sizeof_fmr_header pkt) = Some str_dac.
Proof. apply lookup_packet_valid; [vm_compute; lia|exact str_dac_cstring]. Defined.

(** Unloading refuses exactly the modules that are loaded: for a registered
    name [dyld_unload] reports [E_NULL], and the registry keeps the module. *)
Theorem unload_refuses_loaded {E} `{!Transport E} (w : world E) p d l ms s i m :
  wf_world w -> device_at (w_heap w) p d l ms -> is_cstring s -> ms !! i = Some m -> has_name s m ->
  exists w', dyld_unload p (Some s) w = Ok (lf_error, w') /\ w_err w' = err_code E_NULL /\
    device_at (w_heap w') p d l ms.
Proof. intros. eexists. split; [by eapply dyld_unload_loaded|done]. Qed.

Lemma unload_refuses_loaded_witness :
  exists w', dyld_unload dev_addr (Some str_dac) sample_world = Ok (lf_error, w') /\ w_err w' = err_code E_NULL /\
    device_at (w_heap w') dev_addr sample_device sample_entries [sample_module].
Proof.
  eapply (unload_refuses_loaded sample_world dev_addr sample_device sample_entries [sample_module] str_dac 0).
  - exact sample_wf0.
  - exact sample_device_at.
  - exact str_dac_cstring.
  - reflexivity.
  - exact dac_named.
Defined.

(** ** Encoding of calls *)

(** [lf_create_call] on a fresh packet is total on argument lists of up to
    16 arguments: when the call fits in the payload, the packet carries exactly
    the given arguments and the header the call class and the payload length;
    when it does not, an error is returned. Nothing else changes. *)
Theorem create_call_encodes {E} (w : world E) p l args module ret (mg c0 c1 n0 n1 ty : Z) :
  is_ll (w_heap w) p l -> args_at (w_heap w) l args -> Forall wf_arg args ->
  (length args <= FMR_MAX_ARGC)%nat ->
  let size := (sizeof_fmr_call + length args + args_size args)%nat in
  exists rc pkt, lf_create_call module ret p (Some ([mg; c0; c1; n0; n1; ty] ++ replicate 58 0)) w = Ok ((rc, pkt), w) /\
    if decide (size <= FMR_PACKET_SIZE - sizeof_fmr_header)%nat
    then rc = lf_success /\ carries pkt args /\ rd_le pkt off_type 1 = Some fmr_rpc_class /\
         rd_le pkt off_len 2 = Some (Z.of_nat size) /\ rd_le pkt off_call_argc 1 = Some (Z.of_nat (length args)) /\
         rd_le pkt off_call_module 1 = Some (u8 module)
    else rc = lf_error.
Proof.
  intros Hl Ha Hwf Hn size. case_decide as Hs.
  - eexists _, _. split; [by apply (lf_create_call_spec w p l args)|]. fold size. split; [done|].
    set (hdr := [mg; c0; c1] ++ le_bytes 2 (Z.of_nat size) ++ [0]).
    assert (args_size args <= 38)%nat as H38 by (unfold size, sizeof_fmr_call, FMR_PACKET_SIZE, sizeof_fmr_header in Hs; lia).
    destruct (call_packet_fields hdr (u8 module) 0 (u8 ret) (Z.of_nat (length args)) (types_area args) (argv_area args))
      as (F1 & F2 & F3); [done|apply u8_byte|done|unfold is_byte, FMR_MAX_ARGC in *; lia|].
    split_and!; try done.
    + rewrite <- (app_nil_r (call_packet _ _ _ _ _ _ _)). by apply call_packet_carries.
    + unfold call_packet, rd_le. rewrite rd_app_l by (cbn; lia).
      change (Some (le_val (le_bytes 2 (Z.of_nat size))) = Some (Z.of_nat size)). f_equal.
      apply le_val_bytes_small. unfold FMR_PACKET_SIZE in Hs. lia.
  - destruct (lf_create_call_overflow w p l args module ret [mg; c0; c1; n0; n1; ty] Hl Ha Hwf Hn eq_refl)
      as (pkt & Hrun); [unfold size in Hs; lia|]. by exists lf_error, pkt.
Qed.

Lemma create_call_encodes_witness :
  exists rc pkt, lf_create_call 3 0 4160 (Some ([254; 0; 0; 6; 0; 0] ++ replicate 58 0)) sample_world
                 = Ok ((rc, pkt), sample_world) /\ rc = lf_success.
Proof.
  destruct (create_call_encodes sample_world 4160 sample_arg_entries sample_args 3 0 254 0 0 6 0 0
              sample_args_ll sample_args_at sample_args_wf ltac:(vm_compute; lia)) as (rc & pkt & Hrun & Hcase).
  exists rc, pkt. split; [exact Hrun|].
  rewrite decide_True in Hcase by (vm_compute; lia). exact (proj1 Hcase).
Defined.

(** C39: [lf_invoke_by_index] does not check that its arguments fit: up to 16
    arguments whose encoding exceeds the 64-byte packet make it write or checksum
    past the packet, which has no defined behaviour. *)
Theorem invoke_by_index_overflows {E} `{!Transport E} (w : world E) p l args mi index ret :
  is_ll (w_heap w) p l -> args_at (w_heap w) l args -> Forall wf_arg args ->
  (length args <= FMR_MAX_ARGC)%nat -> (64 < 26 + length args + args_size args)%nat ->
  invoke_packet mi index ret p w = Ub.
Proof. apply invoke_packet_over. Qed.

(** Five 64-bit arguments, sharing one record. *)
Definition big_heap : gmap Z obj :=
  list_to_map [
    (5000, ONode (LLNode 5096 0 5016)); (5016, ONode (LLNode 5096 0 5032));
    (5032, ONode (LLNode 5096 0 5048)); (5048, ONode (LLNode 5096 0 5064));
    (5064, ONode (LLNode 5096 0 0)); (5096, OArg (LfArg lf_uint64_t 1))].
Definition big_entries : list ll_entry :=
  [Entry 5000 5096 0; Entry 5016 5096 0; Entry 5032 5096 0; Entry 5048 5096 0; Entry 5064 5096 0].

Lemma invoke_by_index_overflows_witness :
  invoke_packet 0 0 0 5000 (set_heap big_heap sample_world) = Ub.
Proof.
  eapply (invoke_by_index_overflows (set_heap big_heap sample_world) 5000 big_entries
            (replicate 5 (LfArg lf_uint64_t 1))).
  - cbn. repeat (split; [reflexivity || discriminate|]; split; [discriminate|]; eexists; split; [reflexivity|]).
    reflexivity.
  - repeat constructor.
  - repeat (apply Forall_cons; split; [split; split; by vm_compute|]). constructor.
  - vm_compute. lia.
  - vm_compute. lia.
Defined.

(** [lf_invoke] never sends a call it can encode: for a module the host
    knows and arguments that fit, it returns an error with [E_NULL] and the
    endpoint sees no traffic (the success code of [lf_create_call] is taken for a
    failure). *)
Theorem invoke_never_sends {E} `{!Transport E} (w : world E) device d l ms name i m p al args ret :
  wf_world w -> device_at (w_heap w) device d l ms -> is_cstring name ->
  ms !! i = Some m -> has_name name m ->
  is_ll (w_heap w) p al -> args_at (w_heap w) al args -> Forall wf_arg args ->
  (length args <= FMR_MAX_ARGC)%nat ->
  (sizeof_fmr_call + length args + args_size args <= FMR_PACKET_SIZE - sizeof_fmr_header)%nat ->
  exists w', lf_invoke device (Some name) ret p w = Ok ((lf_error, None), w') /\
    w_env w' = w_env w /\ w_heap w' = w_heap w /\ w_err w' = err_code E_NULL.
Proof. intros. eexists. split; [by eapply lf_invoke_not_sent|done]. Qed.

Lemma invoke_never_sends_witness :
  exists w', lf_invoke dev_addr (Some str_dac) 0 4160 sample_world = Ok ((lf_error, None), w') /\
    w_env w' = Wire [] [] /\ w_heap w' = sample_heap /\ w_err w' = err_code E_NULL.
Proof.
  eapply (invoke_never_sends sample_world dev_addr sample_device sample_entries [sample_module] str_dac 0
            sample_module 4160 sample_arg_entries sample_args 0).
  - exact sample_wf0.
  - exact sample_device_at.
  - exact str_dac_cstring.
  - reflexivity.
  - exact dac_named.
  - exact sample_args_ll.
  - exact sample_args_at.
  - exact sample_args_wf.
  - vm_compute. lia.
  - vm_compute. lia.
Defined.

(** [lf_invoke_by_index] returns success and the answer's value whatever
    error the device reports: for a module both sides know and arguments that
    fit, one lookup packet and one call packet are written, and the error byte of
    the answer to the call plays no role. *)
Theorem invoke_by_index_ignores_error {E} `{!Transport E} (w : world E) device d l ms name i m idx w1 p al args
    index ret w2 value error w3 :
  lf_dyld_dyn_sym_lookup device (Some name) w = Ok ((lf_success, Some idx), w1) ->
  wf_world w1 -> device_at (w_heap w1) device d l ms -> is_cstring name ->
  ms !! i = Some m -> has_name name m ->
  is_ll (w_heap w1) p al -> args_at (w_heap w1) al args -> Forall wf_arg args ->
  (length args <= FMR_MAX_ARGC)%nat -> (26 + length args + args_size args <= 64)%nat ->
  (exists pkt, invoke_packet idx index ret p w1 = Ok (pkt, w1) /\ device_write device pkt w1 = Ok (lf_success, w2)) ->
  device_read device (le_bytes 8 (w_junk w2 0) ++ le_bytes 1 (w_junk w2 8)) w2
    = Ok ((lf_success, result_bytes value error), w3) ->
  lf_invoke_by_index device (Some name) index ret p w = Ok ((lf_success, Some (u64 value)), w3).
Proof.
  intros Hlk Hw Hda Hs Hi Hm Hl Ha Hwf Hn Hsz (pkt & Hpkt & Hwr) Hrd.
  rewrite (lf_invoke_by_index_known w device d l ms name i m idx w1 p al args index ret pkt w2
             (result_bytes value error) w3) by done.
  do 4 f_equal. unfold result_value, result_bytes. rewrite take_app_length'; [|by rewrite length_le_bytes].
  apply (le_val_bytes 8).
Qed.

(** The lookup succeeds, the call fails on the device with [E_FMR]. *)
Lemma invoke_by_index_ignores_error_witness :
  exists w3, lf_invoke_by_index dev_addr (Some str_dac) 1 0 4160
    (world_with [result_bytes 0 (err_code E_OK); result_bytes 99 (err_code E_FMR)]) = Ok ((lf_success, Some (u64 99)), w3).
Proof.
  eexists.
  eapply (invoke_by_index_ignores_error _ dev_addr sample_device sample_entries [sample_module] str_dac 0 sample_module
            0 (set_env (Wire [result_bytes 99 (err_code E_FMR)] [default [] (dyld_packet str_dac)]) sample_world)
            4160 sample_arg_entries sample_args 1 0 _ 99 (err_code E_FMR)).
  - vm_compute. reflexivity.
  - apply wf_world_check. vm_compute. reflexivity.
  - exact sample_device_at.
  - exact str_dac_cstring.
  - reflexivity.
  - exact dac_named.
  - exact sample_args_ll.
  - exact sample_args_at.
  - exact sample_args_wf.
  - vm_compute. lia.
  - vm_compute. lia.
  - eexists. split; [vm_compute; reflexivity|]. vm_compute. reflexivity.
  - vm_compute. reflexivity.
Defined.

(** ** Linked lists and devices *)

(** Appending is observed exactly: after a successful [lf_ll_append] the
    count is one larger, the last index yields the new item and every earlier
    index what it yielded before. *)
Theorem append_observed {E} (w : world E) p l it d :
  wf_world w -> alloc_fails w = false -> is_ll (w_heap w) p l ->
  exists p' w', lf_ll_append (Some p) it d w = Ok ((lf_success, Some p'), w') /\
    lf_ll_count p' w' = Ok (Z.of_nat (length l) + 1, w') /\
    lf_ll_item p' (length l) w' = Ok (it, w') /\
    (forall i e, l !! i = Some e -> lf_ll_item p' i w' = Ok (e_item e, w')).
Proof.
  intros Hw Ha Hl. destruct (lf_ll_append_spec w p l it d Hw Ha Hl) as (p' & h' & Hrun & Hl' & _).
  eexists p', _. split; [exact Hrun|]. set (w' := set_heap h' _). change h' with (w_heap w') in Hl'.
  split; [|split].
  - rewrite (lf_ll_count_spec _ _ _ Hl'), length_app. cbn [length]. do 2 f_equal. lia.
  - rewrite (lf_ll_item_spec _ _ _ _ Hl'). by rewrite list_lookup_middle.
  - intros i e He. rewrite (lf_ll_item_spec _ _ _ _ Hl'). by rewrite (lookup_app_l_Some _ _ _ _ He).
Qed.

Lemma append_observed_witness :
  exists p' w', lf_ll_append (Some 4160) 77 0 sample_world = Ok ((lf_success, Some p'), w') /\
    lf_ll_count p' w' = Ok (2 + 1, w') /\ lf_ll_item p' 2 w' = Ok (77, w') /\
    (forall i e, sample_arg_entries !! i = Some e -> lf_ll_item p' i w' = Ok (e_item e, w')).
Proof.
  apply (append_observed sample_world 4160 sample_arg_entries 77 0 sample_wf0 eq_refl sample_args_ll).
Defined.

(** Removing what was appended restores the list: appending an item that
    does not occur and removing it again gives the original list, and no other
    memory is changed or lost. *)
Theorem append_remove_restores {E} (w : world E) p l it :
  wf_world w -> alloc_fails w = false -> is_ll (w_heap w) p l ->
  Forall (fun a => heap_base <= a) (addrs l) -> it ∉ (e_item <$> l) ->
  exists p1 w1 p2 w2, lf_ll_append (Some p) it 0 w = Ok ((lf_success, Some p1), w1) /\
    lf_ll_remove (Some p1) it w1 = Ok (Some p2, w2) /\ is_ll (w_heap w2) p2 l /\
    (forall q, q ∉ addrs l -> q <> 0 -> w_heap w2 !! q = w_heap w !! q).
Proof.
  intros Hw Ha Hl Hb Hni.
  destruct (lf_ll_append_spec w p l it 0 Hw Ha Hl) as (p1 & h1 & Hrun & Hl1 & _ & Hfr & _).
  set (w1 := set_heap h1 _) in *. set (new := Entry (w_next w) it 0) in *.
  assert (dropped it (l ++ [new]) = [new] /\ kept it (l ++ [new]) = l) as [Hd Hk].
  { unfold dropped, kept. rewrite !filter_app.
    assert (filter (fun e => e_item e = it) l = [] /\ filter (fun e => e_item e <> it) l = l) as [-> ->].
    { clear -Hni. induction l as [|e l IH]; [done|]. rewrite fmap_cons in Hni.
      apply not_elem_of_cons in Hni as [Hne Hni]. destruct (IH Hni) as [H1 H2].
      rewrite filter_cons_False, filter_cons_True by congruence. by rewrite H1, H2. }
    rewrite filter_cons_True, filter_cons_False by (cbn; tauto || done). cbn. by rewrite app_nil_r. }
  destruct (lf_ll_remove_spec w1 p1 (l ++ [new]) it) as (p2 & h2 & Hrem & Hl2 & Hgone & Hkeep).
  - done.
  - rewrite fmap_app. apply Forall_app. split; [done|]. constructor; [|done]. apply Hw.
  - rewrite Hd. split; [constructor|]. intros e ->%list_elem_of_singleton. done.
  - rewrite Hk in Hl2. rewrite Hd in Hgone, Hkeep.
    exists p1, w1, p2, (set_heap h2 w1). do 3 (split; [done|]). cbn [w_heap set_heap].
    intros q Hq H0. destruct (decide (q = w_next w)) as [->|Hqn].
    + rewrite wf_fresh by done. apply Hgone. left. by left.
    + rewrite Hkeep; [by apply Hfr| |apply not_elem_of_nil|done].
      rewrite fmap_app. apply not_elem_of_app. split; [done|]. by apply not_elem_of_cons; split; [|apply not_elem_of_nil].
Qed.

Lemma append_remove_restores_witness :
  exists p1 w1 p2 w2, lf_ll_append (Some 4160) 77 0 sample_world = Ok ((lf_success, Some p1), w1) /\
    lf_ll_remove (Some p1) 77 w1 = Ok (Some p2, w2) /\ is_ll (w_heap w2) p2 sample_arg_entries /\
    (forall q, q ∉ addrs sample_arg_entries -> q <> 0 -> w_heap w2 !! q = sample_heap !! q).
Proof.
  apply (append_remove_restores sample_world 4160 sample_arg_entries 77 sample_wf0 eq_refl sample_args_ll).
  - apply (bool_decide_unpack _). vm_compute. exact I.
  - apply (bool_decide_unpack _). vm_compute. exact I.
Defined.

(** Detaching a device unlinks it from the attached list and frees it, but
    leaves the selection alone: a device that was selected stays selected after
    its memory is gone. *)
Theorem detach_leaves_selection {E} `{!Usb E} (w : world E) l e :
  is_ll (w_heap w) (w_attached w) l -> Forall (fun a => heap_base <= a) (addrs l) ->
  owned_ok (w_heap w) (0 :: addrs l) (dropped (e_item e) l) ->
  e ∈ l -> e_decon e <> 0 -> e_item e <> 0 ->
  exists w', lf_detach (e_item e) w = Ok (lf_success, w') /\
    is_ll (w_heap w') (w_attached w') (kept (e_item e) l) /\
    w_heap w' !! e_item e = None /\ lf_get_selected w' = Ok (w_current w, w').
Proof.
  intros Hl Hb Ho He Hd H0.
  destruct (lf_ll_remove_spec w (w_attached w) l (e_item e) Hl Hb Ho) as (p' & h' & Hrun & Hl' & Hgone & _).
  exists (set_attached p' (set_heap h' w)). split; [|split; [done|split; [|done]]].
  - unfold lf_detach, lf_assert. rewrite ctrue_nonzero by done. rewrite bind_gets. by mstep Hrun.
  - apply Hgone. right. apply elem_of_owned. exists e. split; [|done].
    apply list_elem_of_filter. done.
Qed.

(** The sample device, attached and selected. *)
Definition attached_world : world wire :=
  set_current dev_addr (set_attached 5000 (set_heap
    (<[5000 := ONode (LLNode dev_addr fn_lf_device_release 0)]> sample_heap) sample_world)).

#[global] Instance wire_usb : Usb wire := {
  libusb_init env := ((0, 1), env);
  libusb_get_device_list _ env := ([1; 2], env);
  libusb_get_device_descriptor d env := ((0, if d =? 1 then 0x1234 else FLIPPER_USB_VENDOR_ID), env);
  libusb_open _ env := ((0, 9), env);
  libusb_claim_interface _ _ env := (0, env);
  libusb_bulk_in _ _ len _ env := ((0, replicate len 0), env);
  libusb_bulk_out _ _ bs _ env := (0, Wire (inbox env) (outbox env ++ [bs]));
  libusb_close _ env := env;
  libusb_exit _ env := env;
  libusb_free_device_list env := env;
}.

Lemma detach_leaves_selection_witness :
  exists w', lf_detach dev_addr attached_world = Ok (lf_success, w') /\
    is_ll (w_heap w') (w_attached w') [] /\
    w_heap w' !! dev_addr = None /\ lf_get_selected w' = Ok (dev_addr, w').
Proof.
  apply (detach_leaves_selection attached_world [Entry 5000 dev_addr fn_lf_device_release]
           (Entry 5000 dev_addr fn_lf_device_release)).
  - cbn. split; [reflexivity|]. split; [discriminate|]. exists 0. split; reflexivity.
  - apply (bool_decide_unpack _). vm_compute. exact I.
  - split; [apply NoDup_singleton|]. intros e ->%list_elem_of_singleton _. split.
    + split; [vm_compute; discriminate|]. right; right. split; [reflexivity|]. eexists. vm_compute. reflexivity.
    + apply (bool_decide_unpack _). vm_compute. exact I.
  - left.
  - discriminate.
  - discriminate.
Defined.

(** Shutting the library down frees every attached device and its node and
    nothing else. *)
Theorem exit_releases_devices {E} `{!Usb E} (w : world E) l :
  is_ll (w_heap w) (w_attached w) l -> Forall (fun a => heap_base <= a) (addrs l) ->
  owned_ok (w_heap w) (addrs l) l ->
  exists w', lf_exit w = Ok (lf_success, w') /\ w_attached w' = 0 /\
    forall q, w_heap w' !! q = if decide (q ∈ addrs l \/ q ∈ owned l) then None else w_heap w !! q.
Proof.
  intros Hl Hb Ho. destruct (lf_exit_ok w l Hl Hb Ho) as (h' & Hrun & Hq). by exists (set_attached 0 (set_heap h' w)).
Qed.

Lemma exit_releases_devices_witness :
  exists w', lf_exit attached_world = Ok (lf_success, w') /\ w_attached w' = 0 /\
    forall q, w_heap w' !! q
      = if decide (q ∈ [5000] \/ q ∈ owned [Entry 5000 dev_addr fn_lf_device_release]) then None
        else w_heap attached_world !! q.
Proof.
  apply (exit_releases_devices attached_world [Entry 5000 dev_addr fn_lf_device_release]).
  - cbn. split; [reflexivity|]. split; [discriminate|]. exists 0. split; reflexivity.
  - apply (bool_decide_unpack _). vm_compute. exact I.
  - split; [apply NoDup_singleton|]. intros e ->%list_elem_of_singleton _. split.
    + split; [vm_compute; discriminate|]. right; right. split; [reflexivity|]. eexists. vm_compute. reflexivity.
    + apply (bool_decide_unpack _). vm_compute. exact I.
Defined.

(** Variadic argument lists are always empty: [fmr_build] takes the empty
    list [lf_ll_create] returns for an allocation failure and returns [NULL] for
    every list of arguments, allocating nothing. *)
Theorem fmr_build_always_null {E} (va : list (Z * Z)) (w : world E) : fmr_build va w = Ok (0, w).
Proof. done. Qed.

(** ** Checksums and errors *)

(** The checksum does not depend on whether [char] is signed: host, AVR and
    ARM builds of [lf_crc] compute the same value, so a packet sealed by one is
    accepted by the others. *)
Theorem crc_platform_independent src len :
  Forall is_byte src -> lf_crc true src len = lf_crc false src len.
Proof.
  intros Hb. unfold lf_crc. destruct (rd src 0 (Z.to_nat len)) as [bs|] eqn:Hr.
  - cbn [fmap option_fmap option_map]. rewrite (calcrc_signed bs); [reflexivity|].
    exact (Forall_rd _ _ _ _ _ Hr Hb).
  - cbn [fmap option_fmap option_map]. reflexivity.
Qed.

Lemma crc_platform_independent_witness : lf_crc true [0xFE; 0x80; 0x31] 3 = lf_crc false [0xFE; 0x80; 0x31] 3.
Proof. apply crc_platform_independent. apply (bool_decide_unpack _). vm_compute. exact I. Defined.

(** Error codes and messages line up: every enumerator has a code of its
    own whose message is the entry at that position, setting it makes it the
    current error, and codes past the table get the out-of-bounds message. *)
Theorem errors_consistent {E} (w : world E) :
  (forall e e', err_code e = err_code e' -> e = e') /\
  (forall e, err_strs !! Z.to_nat (err_code e) = Some (lf_error_string (err_code e))) /\
  (forall e, e <> LF_MAX_ERR -> (lf_error_set (err_code e);; lf_error_get) w = Ok (err_code e, set_err (err_code e) w)) /\
  (forall c, err_code LF_MAX_ERR < c -> lf_error_string c = "error out of bounds"%string).
Proof.
  split; [apply err_code_inj|]. split; [apply lf_error_string_known|]. split.
  - intros e He. by destruct e.
  - intros c Hc. unfold lf_error_string. destruct (Z.leb_spec (Z.of_nat (length err_strs)) c) as [|Hlt]; [done|].
    change (Z.of_nat (length err_strs)) with (err_code LF_MAX_ERR + 1) in Hlt. lia.
Qed.
