(* ===== verification/PosixProps.v ===== *)
(** * Properties of the posix endpoints

    Theorems about the network and USB transports, with instances on a small
    operating-system environment. *)

From S2P Require Import Prelude World Errors Device LinkedList Transport Network Libusb Libflipper Scenario LibProps.
From stdpp Require Import base list gmap sets.
From Stdlib Require Import ZArith Lia.
Local Open Scope Z_scope.

(** ** The network endpoint *)

(** The endpoint answers who asked: after a datagram was read, its bytes are
    at the start of the destination (the rest unchanged), and the next write goes
    to that datagram's sender over the same socket. *)
Theorem network_replies_to_sender {E} `{!Sockets E} (w : world E) device d ctx c dst data from env1 reply n env2 :
  net_at w device d ctx c -> (length data <= length dst)%nat ->
  sin_addr from <> 0 -> sin_port from <> 0 ->
  sys_recvfrom (nc_fd c) (length dst) (w_env w) = (RcvOk data from, env1) ->
  sys_sendto (nc_fd c) reply from env1 = (n, env2) -> 0 < n ->
  exists w1 w2, lf_network_read device dst w = Ok ((lf_success, data ++ drop (length data) dst), w1) /\
    lf_network_write device reply w1 = Ok (lf_success, w2) /\ w_env w2 = env2.
Proof.
  intros Hat Hlen Ha Hp Hr Hs Hn.
  destruct (lf_network_read_ok w device d ctx c dst data from env1 Hat Hlen Hr) as (w1 & Hread & Hat1 & Henv).
  exists w1, (set_env env2 w1). split; [done|]. split; [|done].
  rewrite (lf_network_write_sent w1 device d ctx _ reply n env2 Hat1) by (done || by rewrite Henv).
  by destruct (Z.ltb_spec 0 n); [|lia].
Qed.

Definition net_device : lf_device :=
  LfDevice (name32 str_fvm) 0 0 0 fn_lf_network_read fn_lf_network_write fn_lf_network_release 0 4112.
Definition net_world (env : wire) : world wire :=
  World 0 (list_to_map [(4096, ODevice net_device); (4112, ONet (NetCtx 3 (replicate 64 0) (SockAddr 0 0) (SockAddr 0 0)))])
    4128 [] (fun _ => 0) 0 0 [] false env.

Lemma net_world_at env : net_at (net_world env) 4096 net_device 4112
                           (NetCtx 3 (replicate 64 0) (SockAddr 0 0) (SockAddr 0 0)).
Proof. by repeat split. Qed.

Lemma network_replies_to_sender_witness :
  exists w1 w2, lf_network_read 4096 [9; 9; 9] (net_world (Wire [[1; 2]] []))
    = Ok ((lf_success, [1; 2; 9]), w1) /\
    lf_network_write 4096 [7] w1 = Ok (lf_success, w2) /\ w_env w2 = Wire [] [[7]].
Proof.
  apply (network_replies_to_sender (net_world (Wire [[1; 2]] [])) 4096 net_device 4112 _ [9; 9; 9] [1; 2] peer
           (Wire [] []) [7] 1 (Wire [] [[7]]) (net_world_at _)).
  - vm_compute. lia.
  - discriminate.
  - discriminate.
  - reflexivity.
  - reflexivity.
  - reflexivity.
Defined.

(** Connecting fixes where packets go: after a successful connect to a host
    and port, a write sends the bytes to that address with the port in network
    byte order, from the new socket; "localhost" stands for 127.0.0.1. *)
Theorem network_connect_then_write {E} `{!Sockets E} (w : world E) device d ctx c host port fd env1 env2 src n env3 :
  net_at w device d ctx c -> sys_socket (w_env w) = (fd, env1) -> 0 < fd ->
  sys_bind fd (SockAddr INADDR_ANY (htons 0)) env1 = (0, env2) ->
  let target := if bool_decide (host = str_localhost) then str_loopback else host in
  inet_addr target <> INADDR_NONE -> inet_addr target <> 0 -> 0 < port < 2 ^ 16 ->
  sys_sendto fd src (SockAddr (inet_addr target) (htons port)) env2 = (n, env3) -> 0 < n ->
  exists w1 w2, lf_network_connect device host port w = Ok (lf_success, w1) /\
    lf_network_write device src w1 = Ok (lf_success, w2) /\ w_env w2 = env3.
Proof.
  intros Hat Hsock Hfd Hbind target Hnone H0 Hport Hsend Hn.
  destruct (lf_network_connect_ok w device d ctx c host port fd env1 env2 Hat Hsock Hfd Hbind Hnone)
    as (w1 & Hrun & Henv & Hat1).
  exists w1, (set_env env3 w1). split; [done|]. split; [|done].
  rewrite (lf_network_write_sent w1 device d ctx _ src n env3 Hat1); cbn [nc_addr nc_fd sin_addr sin_port].
  - by destruct (Z.ltb_spec 0 n); [|lia].
  - done.
  - intros Hz. assert (htons (htons port) = htons 0) as Hinv by (by rewrite Hz).
    rewrite htons_invol in Hinv by lia. change (htons 0) with 0 in Hinv. lia.
  - by rewrite Henv.
Qed.

Lemma network_connect_then_write_witness :
  exists w1 w2, lf_network_connect 4096 str_localhost 3258 (net_world (Wire [] [])) = Ok (lf_success, w1) /\
    lf_network_write 4096 [5; 6] w1 = Ok (lf_success, w2) /\ w_env w2 = Wire [] [[5; 6]].
Proof.
  apply (network_connect_then_write (net_world (Wire [] [])) 4096 net_device 4112 _ str_localhost 3258 3
           (Wire [] []) (Wire [] []) [5; 6] 2 (Wire [] [[5; 6]]) (net_world_at _)); try reflexivity.
  - discriminate.
  - discriminate.
  - split; reflexivity.
Defined.

(** Reading terminates: on a socket that only reports transient errors,
    [lf_network_read] makes five attempts with a pause after each, then returns
    an error with the destination untouched. *)
Theorem network_read_gives_up {E} `{!Sockets E} (w : world E) device d ctx c dst (err : E -> E) :
  net_at w device d ctx c ->
  (forall e, sys_recvfrom (nc_fd c) (length dst) e = (RcvErr EAGAIN, err e)) ->
  lf_network_read device dst w
  = Ok ((lf_error, dst), set_env (Nat.iter 5 (fun e => sys_usleep 100000 (err e)) (w_env w)) w).
Proof.
  intros (Hp & Hc & Hd & <- & Hn) Herr. unfold lf_network_read, lf_assert.
  rewrite ctrue_nonzero by done. mstep (load_device_ok _ _ _ Hd). cbv zeta. rewrite ctrue_nonzero by done.
  mstep (load_net_ok _ _ _ Hn). by mstep (recv_loop_gives_up w (nc_fd c) (length dst) 5 err Herr).
Qed.

(** A dead socket. *)
Definition dead_sockets : Sockets wire := {|
  sys_socket env := (3, env); sys_bind _ _ env := (0, env);
  sys_recvfrom _ _ env := (RcvErr EAGAIN, env);
  sys_sendto _ bs _ env := (0, env); sys_close _ env := env;
  sys_usleep _ env := Wire (inbox env) (outbox env ++ [[]]); inet_addr _ := 1 |}.

Lemma network_read_gives_up_witness :
  lf_network_read (Sockets0 := dead_sockets) 4096 [1; 2] (net_world (Wire [] []))
  = Ok ((lf_error, [1; 2]), set_env (Wire [] [[]; []; []; []; []]) (net_world (Wire [] []))).
Proof.
  exact (network_read_gives_up (Sockets0 := dead_sockets) (net_world (Wire [] [])) 4096 net_device 4112 _ [1; 2] (fun e => e)
           (net_world_at _) (fun e => eq_refl)).
Defined.

(** ** The USB endpoint *)

(** A USB write with a positive endpoint size terminates and transmits the
    whole source in order, cut into non-empty chunks no larger than the endpoint,
    when the transfers succeed. *)
Theorem usb_write_complete {E} `{!Usb E} (w : world E) device d c src :
  device <> 0 -> w_heap w !! device = Some (ODevice d) -> d_ep_ctx d <> 0 ->
  w_heap w !! d_ep_ctx d = Some (OUsb c) -> 0 < uc_out_sz c ->
  (forall bs e, (libusb_bulk_out (uc_handle c) (uc_out c) bs LF_USB_TIMEOUT_MS e).1 = 0) ->
  exists chunks : list (list Z),
    lf_libusb_write device src w = Ok (lf_success, set_env (bulk_outs c (w_env w) chunks) w) /\
    mjoin chunks = src /\ Forall (fun bs => (0 < length bs <= Z.to_nat (uc_out_sz c))%nat) chunks.
Proof.
  intros Hp Hd Hctx Hc Hsz Hok. unfold lf_libusb_write, lf_assert. rewrite ctrue_nonzero by done.
  rewrite (bind_Ok _ _ _ _ _ (load_device_ok w device d Hd)), ctrue_nonzero by done.
  rewrite (bind_Ok _ _ _ c w) by (unfold load_usb; by rewrite Hc).
  by apply usb_write_loop_ok.
Qed.

Definition usb_device_rec : lf_device := LfDevice (replicate 32 0) 0 0 0 fn_lf_libusb_read fn_lf_libusb_write fn_lf_libusb_release 0 4112.
Definition usb_world (c : lf_libusb_context) : world wire :=
  World 0 (list_to_map [(4096, ODevice usb_device_rec); (4112, OUsb c)]) 4128 [] (fun _ => 0) 0 0 [] false (Wire [] []).

Lemma usb_write_complete_witness :
  exists chunks : list (list Z),
    lf_libusb_write 4096 [1; 2; 3; 4; 5] (usb_world (UsbCtx 9 1 2 2 0 1))
    = Ok (lf_success, set_env (bulk_outs (UsbCtx 9 1 2 2 0 1) (Wire [] []) chunks) (usb_world (UsbCtx 9 1 2 2 0 1))) /\
    mjoin chunks = [1; 2; 3; 4; 5] /\ Forall (fun bs => (0 < length bs <= Z.to_nat 2)%nat) chunks.
Proof.
  apply (usb_write_complete (usb_world (UsbCtx 9 1 2 2 0 1)) 4096 usb_device_rec (UsbCtx 9 1 2 2 0 1)).
  - discriminate.
  - reflexivity.
  - discriminate.
  - reflexivity.
  - reflexivity.
  - reflexivity.
Defined.

(** A USB write through a context as enumeration leaves it (endpoint sizes
    zero) never returns: each turn transfers no byte. *)
Theorem usb_write_zero_size_spins {E} `{!Usb E} (w : world E) c src fuel :
  uc_out_sz c = 0 -> src <> [] ->
  (forall bs e, exists e', libusb_bulk_out (uc_handle c) (uc_out c) bs LF_USB_TIMEOUT_MS e = (0, e')) ->
  usb_write_loop fuel c src w = Spin.
Proof. apply usb_write_loop_spins. Qed.

Lemma usb_write_zero_size_spins_witness :
  usb_write_loop 1000 (uc_set_handle (uc_set_context usb_zero 1) 9) [1] (usb_world usb_zero) = Spin.
Proof.
  apply usb_write_zero_size_spins.
  - apply usb_zero_sizes.
  - discriminate.
  - intros bs e. eexists. reflexivity.
Defined.

(** No USB device is ever attached: [lf_libusb_get_devices] returns the
    empty list in every run that returns (appending a device is taken for a
    failure), so [lf_attach] reports success and attaches nothing. *)
Theorem attach_finds_no_usb_device {E} `{!Usb E} (w : world E) r w' :
  w_attached w = 0 -> lf_attach w = Ok (r, w') -> r = lf_success /\ w_attached w' = 0.
Proof. apply lf_attach_nothing. Qed.

(** One attached Flipper device is found, claimed and dropped again. *)
Lemma attach_finds_no_usb_device_witness :
  exists w', lf_attach (usb_world usb_zero) = Ok (lf_success, w') /\ w_attached w' = 0.
Proof.
  destruct (lf_attach (usb_world usb_zero)) as [[r w']| |] eqn:Hrun.
  - destruct (attach_finds_no_usb_device (usb_world usb_zero) r w' eq_refl Hrun) as [-> Hatt].
    exists w'. split; [reflexivity|exact Hatt].
  - vm_compute in Hrun. discriminate.
  - vm_compute in Hrun. discriminate.
Defined.
