(* ===== verification/Scheduler.v ===== *)
(** * The Osmium scheduler (os/arch/armv7/scheduler.c, os/include/os/scheduler.h)

    A ring of task records, the current and next task pointers, and the stack
    frames a new task starts from. The context switch itself (the PendSV
    handler) is assembly; it ends in [os_update_task_pointers]. *)

From S2P Require Import Prelude Errors.
From stdpp Require Import base list gmap sets.
From Stdlib Require Import ZArith Lia.
Local Open Scope Z_scope.

Inductive os_task_status :=
| os_task_status_unallocated
| os_task_status_idle
| os_task_status_active
| os_task_status_paused.

#[global] Instance os_task_status_eq_dec : EqDecision os_task_status.
Proof. solve_decision. Defined.

(** [struct _os_task]. *)
Record os_task := OsTask {
  t_sp : Z;
  t_pid : Z;
  t_handler : Z;
  t_status : os_task_status;
  t_stack : Z;
  t_exit : Z;
  t_header : Z;
  t_next : Z;
}.

Definition t_set_status (x : os_task_status) (t : os_task) : os_task :=
  OsTask (t_sp t) (t_pid t) (t_handler t) x (t_stack t) (t_exit t) (t_header t) (t_next t).
Definition t_set_next (x : Z) (t : os_task) : os_task :=
  OsTask (t_sp t) (t_pid t) (t_handler t) (t_status t) (t_stack t) (t_exit t) (t_header t) x.

(** Memory, [struct _os_schedule], the task pointers and the processor state
    the scheduler touches. *)
Record sched := Sched {
  s_tasks : gmap Z os_task;      (* live task records *)
  s_stacks : gmap Z Z;           (* live stacks: base, size in bytes *)
  s_headers : gset Z;            (* live application images *)
  s_mem : gmap Z Z;              (* stack words *)
  s_brk : Z;                     (* allocation frontier *)
  s_fail : list bool;            (* which of the coming allocations fail *)
  s_next_pid : Z;                (* schedule.next_pid *)
  s_head : Z;                    (* schedule.head *)
  s_count : Z;                   (* schedule.count, 8 bits *)
  s_current : Z;                 (* os_current_task *)
  s_next_task : Z;               (* os_next_task *)
  s_pendsv : bool;               (* SCB_ICSR_PENDSVSET pending *)
  s_irq : bool;                  (* interrupts enabled *)
  s_psp : Z;
  s_control : Z;
  s_systick : Z;                 (* SysTick reload period *)
  s_error : Z;                   (* _lf_err *)
}.

Section Setters.
Implicit Types s : sched.
Definition ss_tasks x s := Sched x (s_stacks s) (s_headers s) (s_mem s) (s_brk s) (s_fail s) (s_next_pid s) (s_head s)
  (s_count s) (s_current s) (s_next_task s) (s_pendsv s) (s_irq s) (s_psp s) (s_control s) (s_systick s) (s_error s).
Definition ss_stacks x s := Sched (s_tasks s) x (s_headers s) (s_mem s) (s_brk s) (s_fail s) (s_next_pid s) (s_head s)
  (s_count s) (s_current s) (s_next_task s) (s_pendsv s) (s_irq s) (s_psp s) (s_control s) (s_systick s) (s_error s).
Definition ss_headers x s := Sched (s_tasks s) (s_stacks s) x (s_mem s) (s_brk s) (s_fail s) (s_next_pid s) (s_head s)
  (s_count s) (s_current s) (s_next_task s) (s_pendsv s) (s_irq s) (s_psp s) (s_control s) (s_systick s) (s_error s).
Definition ss_mem x s := Sched (s_tasks s) (s_stacks s) (s_headers s) x (s_brk s) (s_fail s) (s_next_pid s) (s_head s)
  (s_count s) (s_current s) (s_next_task s) (s_pendsv s) (s_irq s) (s_psp s) (s_control s) (s_systick s) (s_error s).
Definition ss_alloc b f s := Sched (s_tasks s) (s_stacks s) (s_headers s) (s_mem s) b f (s_next_pid s) (s_head s)
  (s_count s) (s_current s) (s_next_task s) (s_pendsv s) (s_irq s) (s_psp s) (s_control s) (s_systick s) (s_error s).
Definition ss_pid x s := Sched (s_tasks s) (s_stacks s) (s_headers s) (s_mem s) (s_brk s) (s_fail s) x (s_head s)
  (s_count s) (s_current s) (s_next_task s) (s_pendsv s) (s_irq s) (s_psp s) (s_control s) (s_systick s) (s_error s).
Definition ss_head x s := Sched (s_tasks s) (s_stacks s) (s_headers s) (s_mem s) (s_brk s) (s_fail s) (s_next_pid s) x
  (s_count s) (s_current s) (s_next_task s) (s_pendsv s) (s_irq s) (s_psp s) (s_control s) (s_systick s) (s_error s).
Definition ss_count x s := Sched (s_tasks s) (s_stacks s) (s_headers s) (s_mem s) (s_brk s) (s_fail s) (s_next_pid s) (s_head s)
  x (s_current s) (s_next_task s) (s_pendsv s) (s_irq s) (s_psp s) (s_control s) (s_systick s) (s_error s).
Definition ss_current x s := Sched (s_tasks s) (s_stacks s) (s_headers s) (s_mem s) (s_brk s) (s_fail s) (s_next_pid s) (s_head s)
  (s_count s) x (s_next_task s) (s_pendsv s) (s_irq s) (s_psp s) (s_control s) (s_systick s) (s_error s).
Definition ss_next x s := Sched (s_tasks s) (s_stacks s) (s_headers s) (s_mem s) (s_brk s) (s_fail s) (s_next_pid s) (s_head s)
  (s_count s) (s_current s) x (s_pendsv s) (s_irq s) (s_psp s) (s_control s) (s_systick s) (s_error s).
Definition ss_pendsv x s := Sched (s_tasks s) (s_stacks s) (s_headers s) (s_mem s) (s_brk s) (s_fail s) (s_next_pid s) (s_head s)
  (s_count s) (s_current s) (s_next_task s) x (s_irq s) (s_psp s) (s_control s) (s_systick s) (s_error s).
Definition ss_irq x s := Sched (s_tasks s) (s_stacks s) (s_headers s) (s_mem s) (s_brk s) (s_fail s) (s_next_pid s) (s_head s)
  (s_count s) (s_current s) (s_next_task s) (s_pendsv s) x (s_psp s) (s_control s) (s_systick s) (s_error s).
Definition ss_cpu psp ctl s := Sched (s_tasks s) (s_stacks s) (s_headers s) (s_mem s) (s_brk s) (s_fail s) (s_next_pid s) (s_head s)
  (s_count s) (s_current s) (s_next_task s) (s_pendsv s) (s_irq s) psp ctl (s_systick s) (s_error s).
Definition ss_systick x s := Sched (s_tasks s) (s_stacks s) (s_headers s) (s_mem s) (s_brk s) (s_fail s) (s_next_pid s) (s_head s)
  (s_count s) (s_current s) (s_next_task s) (s_pendsv s) (s_irq s) (s_psp s) (s_control s) x (s_error s).
Definition ss_err x s := Sched (s_tasks s) (s_stacks s) (s_headers s) (s_mem s) (s_brk s) (s_fail s) (s_next_pid s) (s_head s)
  (s_count s) (s_current s) (s_next_task s) (s_pendsv s) (s_irq s) (s_psp s) (s_control s) (s_systick s) x.
End Setters.

Abbreviation S_ := (M sched).

(** Code addresses. *)
Definition fn_os_task_finished : Z := 0x400100.
Definition fn_os_app_exit : Z := 0x400200.
Definition fn_os_kernel_task : Z := 0x400300.

Definition sizeof_stack_ctx : Z := 32.
Definition sizeof_task_ctx : Z := 32.
Definition sizeof_os_task : Z := 32.
Definition KERNEL_TASK_STACK_SIZE_WORDS : Z := 128.
Definition F_CPU : Z := 96000000.

(** [lf_assert] in this component. *)
Definition s_assert {A} (cond : bool) (err : lf_err_t) (ok fail : S_ A) : S_ A :=
  if cond then ok else (modify (ss_err (err_code err));; fail).

Definition load_task (p : Z) : S_ os_task := fun s =>
  match s_tasks s !! p with Some t => Ok (t, s) | None => Ub end.
Definition store_task (p : Z) (t : os_task) : S_ unit := fun s =>
  match s_tasks s !! p with Some _ => Ok (tt, ss_tasks (<[p := t]> (s_tasks s)) s) | None => Ub end.

Definition next_fails (s : sched) : bool := match s_fail s with b :: _ => b | [] => false end.

(** [malloc] of a task record, whose fields are set before they are read. *)
Definition malloc_task : S_ Z := fun s =>
  if next_fails s then Ok (0, ss_alloc (s_brk s) (tail (s_fail s)) s)
  else Ok (s_brk s, ss_alloc (s_brk s + sizeof_os_task) (tail (s_fail s))
                      (ss_tasks (<[s_brk s := OsTask 0 0 0 os_task_status_unallocated 0 0 0 0]> (s_tasks s)) s)).
Definition malloc_stack (size : Z) : S_ Z := fun s =>
  if next_fails s then Ok (0, ss_alloc (s_brk s) (tail (s_fail s)) s)
  else Ok (s_brk s, ss_alloc (s_brk s + size) (tail (s_fail s)) (ss_stacks (<[s_brk s := size]> (s_stacks s)) s)).
Definition free_stack (p : Z) : S_ unit := fun s =>
  match s_stacks s !! p with Some _ => Ok (tt, ss_stacks (delete p (s_stacks s)) s) | None => Ub end.
Definition free_task (p : Z) : S_ unit := fun s =>
  match s_tasks s !! p with Some _ => Ok (tt, ss_tasks (delete p (s_tasks s)) s) | None => Ub end.

(** A word stored into a live stack. *)
Definition in_stack (s : sched) (base a : Z) : bool :=
  match s_stacks s !! base with Some size => (base <=? a) && (a + 4 <=? base + size) | None => false end.
Definition store_word (base a v : Z) : S_ unit := fun s =>
  if in_stack s base a then Ok (tt, ss_mem (<[a := u32 v]> (s_mem s)) s) else Ub.

(** [os_app_exit(header)] of os/src/loader.c. *)
Definition os_app_exit (header : Z) : S_ unit := fun s =>
  if header =? 0 then Ok (tt, s)
  else if decide (header ∈ s_headers s) then Ok (tt, ss_headers (s_headers s ∖ {[header]}) s) else Ub.

(** [task->exit(task->header)] *)
Definition call_exit (f header : Z) : S_ unit := if f =? fn_os_app_exit then os_app_exit header else ub.

(** Walks [n] links from [p]. *)
Fixpoint walk_next (n : nat) (p : Z) : S_ Z :=
  match n with
  | O => mret p
  | S n => t ← load_task p; walk_next n (t_next t)
  end.

Definition os_task_add (task : Z) : S_ Z :=
  count ← gets s_count;
  (if ctrue count then
     head ← gets s_head;
     tail ← walk_next (Z.to_nat count - 1) head;
     t ← load_task tail;
     store_task tail (t_set_next task t)
   else mret tt);;
  modify (fun s => ss_count (u8 (s_count s + 1)) s);;
  mret lf_success.

(** The two frames pushed for a new task, from its stack's top. *)
Definition push_frames (base sp entry : Z) : S_ Z :=
  let sp := sp - sizeof_stack_ctx in
  store_word base (sp + 28) 0x01000000;;
  store_word base (sp + 24) entry;;
  store_word base (sp + 20) fn_os_task_finished;;
  let sp := sp - sizeof_task_ctx in
  store_word base sp 4;;
  store_word base (sp + 4) 5;;
  store_word base (sp + 8) 6;;
  store_word base (sp + 12) 7;;
  store_word base (sp + 16) 8;;
  store_word base (sp + 20) 9;;
  store_word base (sp + 24) 10;;
  store_word base (sp + 28) 11;;
  mret sp.

Definition os_task_create (entry exit header stack_size : Z) : S_ Z :=
  task ← malloc_task;
  s_assert (ctrue task) E_NULL
    (stack ← malloc_stack stack_size;
     s_assert (ctrue stack) E_NULL
       (pid ← gets s_next_pid;
        modify (fun s => ss_pid (pid + 1) s);;
        head ← gets s_head;
        sp ← push_frames stack (stack + stack_size) entry;
        store_task task (OsTask sp pid entry os_task_status_idle stack exit header head);;
        mret task)
       (mret 0))
    (mret 0).

(** The [check:] loop: skips paused tasks. *)
Fixpoint check_loop (fuel : nat) : S_ unit :=
  nt ← gets s_next_task;
  t ← load_task nt;
  if decide (t_status t = os_task_status_paused) then
    modify (ss_next (t_next t));;
    match fuel with O => spin | S fuel => check_loop fuel end
  else mret tt.

(** Schedules the next task for execution. *)
Definition os_task_next : S_ unit :=
  cur ← gets s_current;
  (if ctrue cur then
     t ← load_task cur;
     store_task cur (t_set_status os_task_status_idle t);;
     modify (ss_next (t_next t))
   else mret tt);;
  s ← get;
  check_loop (size (s_tasks s));;
  nt ← gets s_next_task;
  t ← load_task nt;
  store_task nt (t_set_status os_task_status_active t);;
  modify (ss_pendsv true).

(** Called at the end of the PendSV exception. *)
Definition os_update_task_pointers : S_ unit := modify (fun s => ss_current (s_next_task s) s).

(** The parent search of [os_task_release]: [parent] stays at the head. *)
Fixpoint unlink_loop (n : nat) (parent task : Z) : S_ unit :=
  match n with
  | O => mret tt
  | S n =>
    p ← load_task parent;
    if t_next p =? task then
      t ← load_task task;
      store_task parent (t_set_next (t_next t) p)
    else unlink_loop n parent task
  end.

Definition os_task_release (task : Z) : S_ Z :=
  s_assert (ctrue task) E_NULL
    (head ← gets s_head;
     s_assert (negb (task =? head)) E_INVALID_TASK
       (modify (ss_irq false);;
        t ← load_task task;
        (if ctrue (t_exit t) then call_exit (t_exit t) (t_header t) else mret tt);;
        (if ctrue (t_stack t) then free_stack (t_stack t) else mret tt);;
        modify (ss_irq true);;
        count ← gets s_count;
        unlink_loop (Z.to_nat count) head task;;
        cur ← gets s_current;
        (if task =? cur then
           modify (ss_current 0);;
           t ← load_task task;
           modify (ss_next (t_next t));;
           os_task_next
         else mret tt);;
        free_task task;;
        modify (fun s => ss_count (u8 (s_count s - 1)) s);;
        mret lf_success)
       (mret lf_error))
    (mret lf_error).

(** Gets the task pointer for a given PID. *)
Fixpoint from_pid_loop (n : nat) (pid task : Z) : S_ Z :=
  match n with
  | O => mret 0
  | S n => t ← load_task task; if pid =? t_pid t then mret task else from_pid_loop n pid (t_next t)
  end.
Definition os_task_from_pid (pid : Z) : S_ Z :=
  head ← gets s_head; count ← gets s_count; from_pid_loop (Z.to_nat count) pid head.

(** Pauses the execution of a task. *)
Definition os_task_pause (pid : Z) : S_ Z :=
  s_assert (ctrue pid) E_INVALID_TASK
    (task ← os_task_from_pid pid;
     s_assert (ctrue task) E_NULL
       (cur ← gets s_current;
        (if cur =? task then os_task_next else mret tt);;
        t ← load_task task;
        store_task task (t_set_status os_task_status_paused t);;
        mret lf_success)
       (mret lf_error))
    (mret lf_error).

(** Resumes execution of a given task. *)
Definition os_task_resume (pid : Z) : S_ Z :=
  s_assert (ctrue pid) E_INVALID_TASK
    (task ← os_task_from_pid pid;
     s_assert (ctrue task) E_NULL
       (t ← load_task task;
        store_task task (t_set_status os_task_status_idle t);;
        cur ← gets s_current;
        c ← load_task cur;
        store_task cur (t_set_status os_task_status_idle c);;
        modify (ss_current 0);;
        modify (ss_next task);;
        os_task_next;;
        mret lf_success)
       (mret lf_error))
    (mret lf_error).

(** Stops a task and releases its memory. *)
Definition os_task_stop (pid : Z) : S_ Z :=
  s_assert (ctrue pid) E_INVALID_TASK
    (task ← os_task_from_pid pid; os_task_release task)
    (mret lf_error).

(** Called when an application finishes; it does not return. *)
Definition os_task_finished : S_ unit := cur ← gets s_current; os_task_release cur;; spin.

Definition systick_exception : S_ unit := os_task_next.

(** Initializes the scheduler, up to the jump into the kernel task. *)
Definition os_scheduler_init : S_ Z :=
  modify (fun s => ss_pid 0 (ss_head 0 (ss_count 0 s)));;
  task ← os_task_create fn_os_kernel_task 0 0 (KERNEL_TASK_STACK_SIZE_WORDS * 4);
  os_task_add task;;
  modify (fun s => ss_head task (ss_current task s));;
  t ← load_task task;
  store_task task (t_set_next task t);;
  modify (ss_systick (F_CPU / 1000));;
  t ← load_task task;
  modify (ss_cpu (t_sp t + sizeof_task_ctx + sizeof_stack_ctx) 2);;
  mret (t_handler t).

(** Loads an application (os/src/loader.c): the entry is at [header + entry]
    headers past the header. *)
Definition sizeof_abi_header : Z := 44.
Definition APPLICATION_STACK_SIZE_WORDS : Z := 256.
Definition os_load_application (header entry : Z) : S_ Z :=
  task ← os_task_create (u32 (header + entry * sizeof_abi_header)) fn_os_app_exit header (APPLICATION_STACK_SIZE_WORDS * 4);
  s_assert (ctrue task) E_NULL
    (os_task_add task;; os_task_next;; mret lf_success)
    (mret lf_error).

(** ** The task ring *)

(** The records of [l] are linked in order, the last back to the first. *)
Definition ring (ts : gmap Z os_task) (l : list Z) : Prop :=
  NoDup l /\
  forall i a, l !! i = Some a ->
    exists t, ts !! a = Some t /\ l !! (S i mod length l)%nat = Some (t_next t).

(** The schedule is consistent: its tasks, from the head, are [l]. *)
Record sched_ok (s : sched) (l : list Z) : Prop := {
  so_ring : ring (s_tasks s) l;
  so_head : l !! 0%nat = Some (s_head s);
  so_count : s_count s = Z.of_nat (length l);
  so_small : (length l < 256)%nat;
  so_current : s_current s ∈ l;
  so_brk : 0 < s_brk s /\ (forall p t, s_tasks s !! p = Some t -> 0 < p < s_brk s) /\
           (forall p z, s_stacks s !! p = Some z -> 0 < p < s_brk s);
  so_kernel : forall t, s_tasks s !! s_head s = Some t -> t_pid t = 0 /\ t_status t <> os_task_status_paused;
}.

Section Ring.
Implicit Types (ts : gmap Z os_task) (l : list Z) (s : sched).

Lemma least_nat (P : nat -> Prop) `{!forall n, Decision (P n)} n :
  P n -> exists k, (k <= n)%nat /\ P k /\ forall k', (k' < k)%nat -> ~ P k'.
Proof.
  assert (forall m, (exists k, (k <= m)%nat /\ P k /\ forall k', (k' < k)%nat -> ~ P k') \/
                    (forall k, (k <= m)%nat -> ~ P k)) as Hall.
  { induction m as [|m [(k & Hk & HP)|Hno]].
    - destruct (decide (P 0%nat)) as [H0|H0]; [left|right].
      + exists 0%nat. split; [done|]. split; [done|]. intros k' Hk'. lia.
      + intros k Hk. by replace k with 0%nat by lia.
    - left. exists k. split; [lia|done].
    - destruct (decide (P (S m))) as [H0|H0]; [left|right].
      + exists (S m). split; [done|]. split; [done|]. intros k' Hk'. apply Hno. lia.
      + intros k Hk. destruct (decide (k = S m)) as [->|]; [done|]. apply Hno. lia. }
  intros Hn. destruct (Hall n) as [Hx|Hx]; [done|]. by destruct (Hx n).
Qed.

Lemma ring_ne ts l i a : ring ts l -> l !! i = Some a -> (0 < length l)%nat.
Proof. intros _ Hi. apply lookup_lt_Some in Hi. lia. Qed.

Lemma ring_step_at ts l i :
  ring ts l -> (0 < length l)%nat ->
  exists a t, l !! (i mod length l)%nat = Some a /\ ts !! a = Some t /\
    l !! (S i mod length l)%nat = Some (t_next t).
Proof.
  intros [_ Hr] Hn. destruct (lookup_lt_is_Some_2 l (i mod length l)) as [a Ha].
  { apply Nat.mod_upper_bound. lia. }
  destruct (Hr _ _ Ha) as (t & Ht & Hnext). exists a, t. split; [done|]. split; [done|].
  rewrite <- Hnext. f_equal.
  rewrite <- (Nat.add_1_r i), <- (Nat.add_1_r (i mod length l)). symmetry.
  apply Nat.Div0.add_mod_idemp_l.
Qed.

Lemma load_task_ok s p t : s_tasks s !! p = Some t -> load_task p s = Ok (t, s).
Proof. intros H. unfold load_task. by rewrite H. Qed.
Lemma store_task_ok s p t t' :
  s_tasks s !! p = Some t' -> store_task p t s = Ok (tt, ss_tasks (<[p := t]> (s_tasks s)) s).
Proof. intros H. unfold store_task. by rewrite H. Qed.

Lemma walk_next_ok s l : ring (s_tasks s) l -> (0 < length l)%nat -> forall k i a,
  l !! (i mod length l)%nat = Some a ->
  exists b, walk_next k a s = Ok (b, s) /\ l !! ((i + k) mod length l)%nat = Some b.
Proof.
  intros Hr Hn. induction k as [|k IH]; intros i a Ha; cbn [walk_next].
  - exists a. by rewrite Nat.add_0_r.
  - destruct (ring_step_at _ _ i Hr Hn) as (a' & t & Ha' & Ht & Hnext). simplify_eq.
    mstep (load_task_ok _ _ _ Ht). destruct (IH (S i) _ Hnext) as (b & Hb & Hlb).
    exists b. split; [done|]. by replace (i + S k)%nat with (S i + k)%nat by lia.
Qed.

(** Changing a task's fields other than its link keeps the ring. *)
Lemma ring_update ts l p t t' :
  ring ts l -> ts !! p = Some t -> t_next t' = t_next t -> ring (<[p := t']> ts) l.
Proof.
  intros [Hnd Hr] Hp Hn. split; [done|]. intros i a Ha. destruct (Hr i a Ha) as (t0 & Ht0 & Hnext).
  destruct (decide (a = p)) as [->|Hne].
  - exists t'. rewrite lookup_insert_eq. split; [done|]. rewrite Hn. by simplify_eq.
  - exists t0. by rewrite lookup_insert_ne.
Qed.

Definition paused_at ts l (i : nat) : Prop :=
  exists a t, l !! (i mod length l)%nat = Some a /\ ts !! a = Some t /\ t_status t = os_task_status_paused.
Lemma paused_at_dec ts l i : Decision (paused_at ts l i).
Proof.
  destruct (l !! (i mod length l)%nat) as [a|] eqn:Ha.
  2: { right. intros (b & t & Hb & _). unfold paused_at in *. congruence. }
  destruct (ts !! a) as [t|] eqn:Ht.
  2: { right. intros (b & t & Hb & Ht' & _). congruence. }
  destruct (decide (t_status t = os_task_status_paused)) as [He|He].
  - left. exists a, t. done.
  - right. intros (b & t' & Hb & Ht' & Hs). congruence.
Defined.

(** The [check:] loop stops at the first task that is not paused. *)
Lemma check_loop_ok l : forall k j fuel s a,
  ring (s_tasks s) l -> (0 < length l)%nat -> l !! (j mod length l)%nat = Some (s_next_task s) ->
  (forall k', (k' < k)%nat -> paused_at (s_tasks s) l (j + k')) ->
  ~ paused_at (s_tasks s) l (j + k) -> (k <= fuel)%nat -> l !! ((j + k) mod length l)%nat = Some a ->
  check_loop fuel s = Ok (tt, ss_next a s).
Proof.
  induction k as [|k IH]; intros j fuel s a Hr Hn Hj Hp Hnp Hf Ha.
  - rewrite Nat.add_0_r in *. destruct (ring_step_at _ _ j Hr Hn) as (b & t & Hb & Ht & _). simplify_eq.
    assert (t_status t <> os_task_status_paused) as Hst.
    { intros Hs. apply Hnp. exists (s_next_task s), t. done. }
    destruct fuel; cbn [check_loop]; rewrite bind_gets; mstep (load_task_ok _ _ _ Ht);
      rewrite decide_False by done; unfold mret, M_ret; by destruct s.
  - destruct fuel as [|fuel]; [lia|]. cbn [check_loop]. rewrite bind_gets.
    destruct (ring_step_at _ _ j Hr Hn) as (b & t & Hb & Ht & Hnext). simplify_eq.
    destruct (Hp 0%nat ltac:(lia)) as (b & t' & Hb' & Ht' & Hst). rewrite Nat.add_0_r in Hb'. simplify_eq.
    mstep (load_task_ok _ _ _ Ht). rewrite decide_True by done. mnorm.
    rewrite (IH (S j) fuel (ss_next (t_next t) s) a); try done; try lia.
    + intros k' Hk'. change (s_tasks (ss_next (t_next t) s)) with (s_tasks s). replace (S j + k')%nat with (j + S k')%nat by lia. apply Hp. lia.
    + change (s_tasks (ss_next (t_next t) s)) with (s_tasks s). by replace (S j + k)%nat with (j + S k)%nat by lia.
    + by replace (S j + k)%nat with (j + S k)%nat by lia.
Qed.
End Ring.
#[global] Existing Instance paused_at_dec.

Section Next.
Implicit Types (ts : gmap Z os_task) (l : list Z) (s : sched).

Lemma ring_size ts l : ring ts l -> (length l <= size ts)%nat.
Proof.
  intros [Hnd Hr]. rewrite <- (size_list_to_set (C := gset Z) l Hnd), <- size_dom.
  apply subseteq_size. intros a Ha. apply elem_of_list_to_set, list_elem_of_lookup in Ha as [i Hi].
  destruct (Hr i a Hi) as (t & Ht & _). apply elem_of_dom. eauto.
Qed.

(** The second half of [os_task_next]: from the candidate at position [j], the
    first task that is not paused becomes the next one. *)
Definition pick_next : S_ unit :=
  s ← get;
  check_loop (size (s_tasks s));;
  nt ← gets s_next_task;
  t ← load_task nt;
  store_task nt (t_set_status os_task_status_active t);;
  modify (ss_pendsv true).

Lemma pick_next_ok s l j m :
  ring (s_tasks s) l -> (0 < length l)%nat -> l !! (j mod length l)%nat = Some (s_next_task s) ->
  ~ paused_at (s_tasks s) l (j + m) -> (m < length l)%nat ->
  exists k a t, (k <= m)%nat /\ l !! ((j + k) mod length l)%nat = Some a /\ s_tasks s !! a = Some t /\
    (forall k', (k' < k)%nat -> paused_at (s_tasks s) l (j + k')) /\ ~ paused_at (s_tasks s) l (j + k) /\
    pick_next s = Ok (tt, ss_pendsv true (ss_tasks (<[a := t_set_status os_task_status_active t]> (s_tasks s)) (ss_next a s))).
Proof.
  intros Hr Hn Hj Hm Hlt.
  destruct (least_nat (fun k => ~ paused_at (s_tasks s) l (j + k)) m Hm) as (k & Hk & Hnp & Hmin).
  destruct (ring_step_at _ _ (j + k) Hr Hn) as (a & t & Ha & Ht & _).
  assert (forall k', (k' < k)%nat -> paused_at (s_tasks s) l (j + k')) as Hp.
  { intros k' Hk'. apply dec_stable. by apply Hmin. }
  exists k, a, t. do 5 (split; [done|]). unfold pick_next. rewrite bind_get.
  pose proof (ring_size _ _ Hr).
  mstep (check_loop_ok l k j (size (s_tasks s)) s a Hr Hn Hj Hp Hnp ltac:(lia) Ha).
  rewrite bind_gets. cbn [s_next_task ss_next].
  mstep (load_task_ok (ss_next a s) a t Ht). by mstep (store_task_ok (ss_next a s) a (t_set_status os_task_status_active t) t Ht).
Qed.

Lemma mod_other (i k n : nat) : (i < n)%nat -> (1 <= k < n)%nat -> ((i + k) mod n)%nat <> i.
Proof.
  intros Hi Hk. destruct (decide (i + k < n)%nat) as [H|H].
  - rewrite Nat.mod_small by done. lia.
  - replace (i + k)%nat with ((i + k - n) + 1 * n)%nat by lia. rewrite Nat.Div0.mod_add, Nat.mod_small by lia. lia.
Qed.

Lemma mod_self (i n : nat) : (i < n)%nat -> ((i + n) mod n)%nat = i.
Proof. intros Hi. replace (i + n)%nat with (i + 1 * n)%nat by lia. by rewrite Nat.Div0.mod_add, Nat.mod_small. Qed.

(** A task's status is seen at its own position only. *)
Lemma paused_at_insert ts l p t i :
  ring ts l -> l !! (i mod length l)%nat <> Some p ->
  paused_at (<[p := t]> ts) l i <-> paused_at ts l i.
Proof.
  intros Hr Hne. split; intros (a & t' & Ha & Ht & Hs); exists a, t'; (split; [done|]);
    (split; [|done]); rewrite lookup_insert_ne in * by congruence; done.
Qed.

(** From a running task: the next one in ring order that is not paused, at the
    latest the task itself. *)
Lemma os_task_next_running s l i :
  ring (s_tasks s) l -> l !! i = Some (s_current s) -> s_current s <> 0 ->
  exists k a c t, (1 <= k <= length l)%nat /\ l !! ((i + k) mod length l)%nat = Some a /\
    (forall k', (1 <= k' < k)%nat -> paused_at (s_tasks s) l (i + k')) /\
    (k < length l -> ~ paused_at (s_tasks s) l (i + k))%nat /\
    s_tasks s !! s_current s = Some c /\
    <[s_current s := t_set_status os_task_status_idle c]> (s_tasks s) !! a = Some t /\
    os_task_next s = Ok (tt, ss_pendsv true (ss_tasks (<[a := t_set_status os_task_status_active t]>
      (<[s_current s := t_set_status os_task_status_idle c]> (s_tasks s))) (ss_next a s))).
Proof.
  intros Hr Hi H0. pose proof (lookup_lt_Some _ _ _ Hi) as Hlt.
  destruct Hr as [Hnd Hr0] eqn:Heq. destruct (Hr0 i _ Hi) as (c & Hc & Hnext). clear Heq.
  assert (ring (s_tasks s) l) as Hr' by done.
  set (ts1 := <[s_current s := t_set_status os_task_status_idle c]> (s_tasks s)).
  assert (ring ts1 l) as Hr1 by (by eapply ring_update).
  set (s1 := ss_next (t_next c) (ss_tasks ts1 s)).
  assert (forall k, (1 <= k < length l)%nat -> paused_at ts1 l (i + k) <-> paused_at (s_tasks s) l (i + k)) as Hsame.
  { intros k Hk. apply paused_at_insert; [done|]. intros Hx.
    apply (mod_other i k (length l) Hlt Hk). by eapply NoDup_lookup. }
  assert (~ paused_at ts1 l (S i + (length l - 1))) as Hself.
  { intros (a & t & Ha & Ht & Hs). replace (S i + (length l - 1))%nat with (i + length l)%nat in Ha by lia.
    rewrite mod_self in Ha by done. simplify_eq. unfold ts1 in Ht. rewrite lookup_insert_eq in Ht. by simplify_eq. }
  destruct (pick_next_ok s1 l (S i) (length l - 1)%nat Hr1 ltac:(lia) Hnext Hself ltac:(lia))
    as (k & a & t & Hk & Ha & Ht & Hp & Hnp & Hrun).
  replace (S i + k)%nat with (i + S k)%nat in * by lia.
  exists (S k), a, c, t. split; [lia|]. split; [done|]. split; [|split; [|split; [done|split; [done|]]]].
  - intros k' Hk'. apply Hsame; [lia|]. replace (i + k')%nat with (S i + (k' - 1))%nat by lia. apply Hp. lia.
  - intros Hlt' Hx. apply Hnp. apply Hsame; [lia|done].
  - unfold os_task_next. rewrite bind_gets, ctrue_nonzero by done.
    assert ((t0 ← load_task (s_current s);
             store_task (s_current s) (t_set_status os_task_status_idle t0);;
             modify (ss_next (t_next t0))) s = Ok (tt, s1)) as Hpre.
    { mstep (load_task_ok _ _ _ Hc).
      by mstep (store_task_ok s (s_current s) (t_set_status os_task_status_idle c) c Hc). }
    mstep Hpre. exact Hrun.
Qed.

(** With no running task: the candidate, or the next one that is not paused. *)
Lemma os_task_next_idle s l j m :
  ring (s_tasks s) l -> (0 < length l)%nat -> s_current s = 0 ->
  l !! (j mod length l)%nat = Some (s_next_task s) ->
  ~ paused_at (s_tasks s) l (j + m) -> (m < length l)%nat ->
  exists k a t, (k <= m)%nat /\ l !! ((j + k) mod length l)%nat = Some a /\ s_tasks s !! a = Some t /\
    (forall k', (k' < k)%nat -> paused_at (s_tasks s) l (j + k')) /\ ~ paused_at (s_tasks s) l (j + k) /\
    os_task_next s = Ok (tt, ss_pendsv true (ss_tasks (<[a := t_set_status os_task_status_active t]> (s_tasks s)) (ss_next a s))).
Proof.
  intros Hr Hn H0 Hj Hm Hlt. destruct (pick_next_ok s l j m Hr Hn Hj Hm Hlt) as (k & a & t & ? & ? & ? & ? & ? & Hrun).
  exists k, a, t. do 5 (split; [done|]). unfold os_task_next. rewrite bind_gets, H0. exact Hrun.
Qed.
End Next.

Section Create.
Implicit Types (l : list Z) (s : sched).

(** The words below the top of a new task's stack: the frame the hardware
    restores (status, entry point, return address) and the saved registers. *)
Definition frames (top entry : Z) (m : gmap Z Z) : gmap Z Z :=
  <[top - 36 := 11]> (<[top - 40 := 10]> (<[top - 44 := 9]> (<[top - 48 := 8]>
  (<[top - 52 := 7]> (<[top - 56 := 6]> (<[top - 60 := 5]> (<[top - 64 := 4]>
  (<[top - 12 := fn_os_task_finished]> (<[top - 8 := u32 entry]> (<[top - 4 := 0x01000000]> m)))))))))).

Lemma store_word_ok s base size a v :
  s_stacks s !! base = Some size -> base <= a -> a + 4 <= base + size ->
  store_word base a v s = Ok (tt, ss_mem (<[a := u32 v]> (s_mem s)) s).
Proof.
  intros Hs H1 H2. unfold store_word, in_stack. rewrite Hs.
  destruct (Z.leb_spec base a); [|lia]. destruct (Z.leb_spec (a + 4) (base + size)); [done|lia].
Qed.

Lemma push_frames_ok s base size entry :
  s_stacks s !! base = Some size -> 64 <= size ->
  push_frames base (base + size) entry s
  = Ok (base + size - 64, ss_mem (frames (base + size) entry (s_mem s)) s).
Proof.
  intros Hs H64. unfold push_frames, sizeof_stack_ctx, sizeof_task_ctx. cbv zeta.
  set (top := base + size) in *.
  assert (forall s1 a v, s_stacks s1 = s_stacks s -> top - 64 <= a <= top - 4 ->
    store_word base a v s1 = Ok (tt, ss_mem (<[a := u32 v]> (s_mem s1)) s1)) as Hst.
  { intros s1 a v H1 Ha. apply (store_word_ok s1 base size); [by rewrite H1|unfold top in Ha; lia..]. }
  replace (top - 32 - 32) with (top - 64) by lia.
  replace (top - 32 + 28) with (top - 4) by lia. replace (top - 32 + 24) with (top - 8) by lia.
  replace (top - 32 + 20) with (top - 12) by lia. replace (top - 64 + 4) with (top - 60) by lia.
  replace (top - 64 + 8) with (top - 56) by lia. replace (top - 64 + 12) with (top - 52) by lia.
  replace (top - 64 + 16) with (top - 48) by lia. replace (top - 64 + 20) with (top - 44) by lia.
  replace (top - 64 + 24) with (top - 40) by lia. replace (top - 64 + 28) with (top - 36) by lia.
  do 11 (erewrite bind_Ok; [|apply Hst; [reflexivity|lia]]). done.
Qed.

(** The state after a task was created. *)
Definition created (entry exit header size : Z) s : sched :=
  let p := s_brk s in
  let stack := s_brk s + sizeof_os_task in
  ss_tasks (<[p := OsTask (stack + size - 64) (s_next_pid s) entry os_task_status_idle stack exit header (s_head s)]>
              (s_tasks s))
    (ss_mem (frames (stack + size) entry (s_mem s))
      (ss_pid (s_next_pid s + 1)
        (ss_alloc (s_brk s + sizeof_os_task + size) (tail (tail (s_fail s)))
          (ss_stacks (<[stack := size]> (s_stacks s)) s)))).

Lemma os_task_create_ok s entry exit header size :
  Forall (fun b => b = false) (s_fail s) -> 0 < s_brk s -> 64 <= size ->
  os_task_create entry exit header size s = Ok (s_brk s, created entry exit header size s).
Proof.
  intros Hf Hb Hsz. unfold os_task_create.
  assert (next_fails s = false) as Hn1 by (unfold next_fails; destruct (s_fail s); [done|]; by apply Forall_cons in Hf as [? _]).
  assert (Forall (fun b => b = false) (tail (s_fail s))) as Hf1 by (destruct (s_fail s); [done|]; by apply Forall_cons in Hf as [_ ?]).
  set (t0 := OsTask 0 0 0 os_task_status_unallocated 0 0 0 0).
  set (s1 := ss_alloc (s_brk s + sizeof_os_task) (tail (s_fail s)) (ss_tasks (<[s_brk s := t0]> (s_tasks s)) s)).
  rewrite (bind_Ok _ _ _ (s_brk s) s1) by (unfold malloc_task; by rewrite Hn1).
  unfold s_assert. rewrite ctrue_nonzero by lia.
  set (stack := s_brk s + sizeof_os_task).
  set (s2 := ss_alloc (stack + size) (tail (tail (s_fail s))) (ss_stacks (<[stack := size]> (s_stacks s)) s1)).
  rewrite (bind_Ok _ _ _ stack s2).
  2: { unfold malloc_stack.
       assert (next_fails s1 = false) as -> by (unfold next_fails; cbn; destruct (tail (s_fail s)); [done|]; by apply Forall_cons in Hf1 as [? _]).
       done. }
  rewrite ctrue_nonzero by (unfold stack, sizeof_os_task; lia). mnorm.
  set (s3 := ss_pid (s_next_pid s2 + 1) s2). change (s_next_pid s2) with (s_next_pid s). change (s_head s3) with (s_head s).
  assert (s_stacks s3 !! stack = Some size) as Hstk by apply lookup_insert_eq.
  mstep (push_frames_ok s3 stack size entry Hstk Hsz).
  set (s4 := ss_mem _ s3).
  assert (s_tasks s4 !! s_brk s = Some t0) as Ht by apply lookup_insert_eq.
  rewrite (bind_Ok _ _ _ _ _ (store_task_ok s4 (s_brk s) _ t0 Ht)).
  unfold mret, M_ret, created. do 2 f_equal. unfold s4, s3, s2, s1, stack.
  cbn [ss_mem ss_pid ss_alloc ss_stacks ss_tasks s_mem s_tasks]. rewrite insert_insert_eq. done.
Qed.
End Create.

Section Preserve.
Implicit Types (ts : gmap Z os_task) (l : list Z) (s : sched).

(** Appending a fresh task behind the last one. *)
Lemma ring_add ts l head p tl tt tnew :
  ring ts l -> l !! 0%nat = Some head -> ts !! p = None -> l !! (length l - 1)%nat = Some tl -> ts !! tl = Some tt ->
  t_next tnew = head ->
  ring (<[tl := t_set_next p tt]> (<[p := tnew]> ts)) (l ++ [p]).
Proof.
  intros [Hnd Hr] H0 Hp Htl Htt Hnew. pose proof (lookup_lt_Some _ _ _ H0) as Hn.
  assert (p ∉ l) as Hpl.
  { intros (i & Hi)%list_elem_of_lookup. destruct (Hr i p Hi) as (t & Ht & _). congruence. }
  split. { apply NoDup_app. split; [done|]. split; [|apply NoDup_singleton].
           intros x Hx ->%list_elem_of_singleton. done. }
  rewrite length_app, Nat.add_1_r. intros i a Hi.
  destruct (decide (i = length l)) as [->|Hne].
  { rewrite list_lookup_middle in Hi by done. simplify_eq. exists tnew.
    rewrite lookup_insert_ne by congruence. rewrite lookup_insert_eq. split; [done|].
    rewrite Nat.Div0.mod_same, lookup_app_l by done. by rewrite H0. }
  assert (i < length l)%nat as Hlt by (apply lookup_lt_Some in Hi; rewrite length_app in Hi; simpl in Hi; lia).
  rewrite lookup_app_l in Hi by done. destruct (Hr i a Hi) as (t & Ht & Hnext).
  rewrite Nat.mod_small by lia. destruct (decide (S i = length l)) as [Heq|HSi].
  - replace (length l - 1)%nat with i in Htl by lia. simplify_eq. exists (t_set_next p tt).
    rewrite lookup_insert_eq. split; [done|]. rewrite Heq. by apply list_lookup_middle.
  - exists t. rewrite lookup_insert_ne.
    2: { intros ->. pose proof (NoDup_lookup _ _ _ _ Hnd Hi Htl). lia. }
    rewrite lookup_insert_ne by (intros ->; congruence). split; [done|].
    rewrite lookup_app_l by lia. by rewrite Nat.mod_small in Hnext by lia.
Qed.

Lemma os_task_add_ok s l head p tnew :
  ring (s_tasks s) l -> l !! 0%nat = Some head -> s_head s = head -> s_count s = Z.of_nat (length l) ->
  (length l < 255)%nat -> s_tasks s !! p = None -> t_next tnew = head ->
  exists tl tt, s_tasks s !! tl = Some tt /\ l !! (length l - 1)%nat = Some tl /\
    os_task_add p (ss_tasks (<[p := tnew]> (s_tasks s)) s)
    = Ok (lf_success, ss_count (s_count s + 1) (ss_tasks (<[tl := t_set_next p tt]> (<[p := tnew]> (s_tasks s))) s)).
Proof.
  intros Hr H0 Hh Hc Hlen Hp Hnew. pose proof (lookup_lt_Some _ _ _ H0) as Hn.
  set (s1 := ss_tasks _ s).
  (* the links of the old ring are still there *)
  assert (forall k i a, l !! i = Some a -> (i + k < length l)%nat ->
            exists b, walk_next k a s1 = Ok (b, s1) /\ l !! (i + k)%nat = Some b) as Hwalk.
  { induction k as [|k IH]; intros i a Ha Hk; cbn [walk_next].
    - exists a. by rewrite Nat.add_0_r.
    - destruct Hr as [Hnd Hr]. destruct (Hr i a Ha) as (t & Ht & Hnext).
      rewrite Nat.mod_small in Hnext by lia.
      assert (s_tasks s1 !! a = Some t) as Ht1 by (cbn; rewrite lookup_insert_ne; [done|congruence]).
      mstep (load_task_ok s1 a t Ht1). destruct (IH (S i) _ Hnext ltac:(lia)) as (b & Hb & Hlb).
      exists b. split; [done|]. by replace (i + S k)%nat with (S i + k)%nat by lia. }
  destruct (Hwalk (length l - 1)%nat 0%nat head H0 ltac:(lia)) as (tl & Hrun & Htl). rewrite Nat.add_0_l in Htl.
  destruct Hr as [Hnd Hr]. destruct (Hr _ _ Htl) as (tt & Htt & _).
  exists tl, tt. split; [done|]. split; [done|].
  unfold os_task_add. rewrite bind_gets. change (s_count s1) with (s_count s). rewrite Hc, ctrue_nonzero by lia.
  assert (s_tasks s1 !! tl = Some tt) as Ht1 by (cbn; rewrite lookup_insert_ne; [done|congruence]).
  assert ((head ← gets s_head; tail ← walk_next (Z.to_nat (Z.of_nat (length l)) - 1) head;
           t ← load_task tail; store_task tail (t_set_next p t)) s1
          = Ok ((), ss_tasks (<[tl := t_set_next p tt]> (s_tasks s1)) s1)) as Hpre.
  { rewrite bind_gets, Nat2Z.id. change (s_head s1) with (s_head s). rewrite Hh. mstep Hrun.
    mstep (load_task_ok s1 tl tt Ht1). by apply (store_task_ok s1 tl _ tt). }
  mstep Hpre. rewrite bind_modify. cbn [s_count ss_tasks s1]. rewrite Hc, u8_small by lia. done.
Qed.

Lemma sched_ok_status s l p t st :
  sched_ok s l -> s_tasks s !! p = Some t -> st <> os_task_status_paused ->
  sched_ok (ss_tasks (<[p := t_set_status st t]> (s_tasks s)) s) l.
Proof.
  intros [Hr Hh Hc Hsm Hcur (Hb1 & Hb2 & Hb3) Hk] Hp Hst. split; try done.
  - by eapply ring_update.
  - split; [done|]. split; [|done]. intros q u. cbn. rewrite lookup_insert. case_decide; [subst; intros _; by eapply Hb2|apply Hb2].
  - intros u. cbn. rewrite lookup_insert. case_decide as Heq; [|apply Hk]. intros [= <-]. subst p.
    split; [by apply (Hk t)|done].
Qed.

Lemma sched_ok_next s l x : sched_ok s l -> sched_ok (ss_next x s) l.
Proof. by intros []. Qed.
Lemma sched_ok_pendsv s l x : sched_ok s l -> sched_ok (ss_pendsv x s) l.
Proof. by intros []. Qed.

Lemma sched_ok_current s l x : sched_ok s l -> x ∈ l -> sched_ok (ss_current x s) l.
Proof. by intros []. Qed.
Lemma sched_ok_headers s l x : sched_ok s l -> sched_ok (ss_headers x s) l.
Proof. by intros []. Qed.

Lemma sched_ok_current_pos s l : sched_ok s l -> exists i, l !! i = Some (s_current s) /\ s_current s <> 0.
Proof.
  intros Hok. destruct (proj1 (list_elem_of_lookup _ _) (so_current _ _ Hok)) as [i Hi]. exists i. split; [done|].
  destruct (so_ring _ _ Hok) as [_ Hr]. destruct (Hr _ _ Hi) as (t & Ht & _).
  destruct (so_brk _ _ Hok) as (_ & Hb & _). apply Hb in Ht. lia.
Qed.

(** Scheduling keeps the schedule consistent. *)
Lemma os_task_next_preserves s l :
  sched_ok s l -> exists s', os_task_next s = Ok (tt, s') /\ sched_ok s' l /\ s_next_task s' ∈ l /\ s_pendsv s' = true.
Proof.
  intros Hok. destruct (sched_ok_current_pos _ _ Hok) as (i & Hi & H0).
  destruct (os_task_next_running s l i (so_ring _ _ Hok) Hi H0) as (k & a & c & t & _ & Ha & _ & _ & Hc & Ht & Hrun).
  eexists. split; [exact Hrun|]. split; [|split; [by eapply list_elem_of_lookup_2|done]].
  apply sched_ok_pendsv. set (s1 := ss_tasks (<[s_current s := t_set_status os_task_status_idle c]> (s_tasks s)) s).
  assert (sched_ok s1 l) as H1 by (by apply sched_ok_status).
  apply (sched_ok_status (ss_next a s1) l a t os_task_status_active); [by apply sched_ok_next|done|done].
Qed.

(** Loading an application adds one task at the end of the ring. *)
Lemma os_load_application_ok s l header entry :
  sched_ok s l -> Forall (fun b => b = false) (s_fail s) -> (length l < 255)%nat ->
  exists s', os_load_application header entry s = Ok (lf_success, s') /\ sched_ok s' (l ++ [s_brk s]) /\
    s_next_task s' ∈ l ++ [s_brk s].
Proof.
  intros Hok Hf Hlen. pose proof Hok as [Hr Hh Hc Hsm Hcur (Hb1 & Hb2 & Hb3) Hk]. unfold os_load_application.
  mstep (os_task_create_ok s (u32 (header + entry * sizeof_abi_header)) fn_os_app_exit header
           (APPLICATION_STACK_SIZE_WORDS * 4) Hf Hb1 ltac:(vm_compute; discriminate)).
  unfold s_assert. rewrite ctrue_nonzero by lia. unfold created. cbv zeta.
  set (tnew := OsTask _ _ _ _ _ _ _ _). set (s0 := ss_mem _ _).
  assert (s_tasks s !! s_brk s = None) as Hfresh.
  { destruct (s_tasks s !! s_brk s) as [u|] eqn:Hu; [|done]. apply Hb2 in Hu. lia. }
  change (s_tasks s) with (s_tasks s0) in *.
  destruct (os_task_add_ok s0 l (s_head s) (s_brk s) tnew Hr Hh eq_refl Hc Hlen Hfresh eq_refl)
    as (tl & tt & Htl & Hin & Hadd). mstep Hadd.
  set (s2 := ss_count _ _).
  assert (sched_ok s2 (l ++ [s_brk s])) as Hok2.
  { assert (tl <> s_brk s) as Hne by congruence. pose proof (lookup_lt_Some _ _ _ Hh) as Hn.
    assert (0 < APPLICATION_STACK_SIZE_WORDS * 4) as Hsz by done.
    split; cbn [s_tasks s_head s_count s_current s_brk s_stacks s2 s0 ss_count ss_tasks ss_mem ss_pid ss_alloc ss_stacks].
    - by apply (ring_add _ _ (s_head s)).
    - by rewrite lookup_app_l.
    - change (s_count s0) with (s_count s). rewrite Hc, length_app. simpl. lia.
    - rewrite length_app. simpl. lia.
    - apply elem_of_app. by left.
    - unfold sizeof_os_task. split; [lia|]. split.
      + intros q u. rewrite !lookup_insert. case_decide; [intros _; subst; apply Hb2 in Htl; lia|].
        case_decide; [intros _; subst; lia|]. intros Hu. apply Hb2 in Hu. lia.
      + intros q z. rewrite lookup_insert. case_decide; [intros _; subst; lia|]. intros Hz. apply Hb3 in Hz. lia.
    - intros u. rewrite !lookup_insert. case_decide as H1.
      + intros [= <-]. subst tl. by apply (Hk tt).
      + case_decide as H2; [|apply Hk]. exfalso.
        destruct Hr as [_ Hr]. destruct (Hr _ _ Hh) as (t & Ht & _). congruence. }
  destruct (os_task_next_preserves s2 _ Hok2) as (s3 & Hnx & Hok3 & Hin3 & _). mstep Hnx. by exists s3.
Qed.
End Preserve.

Section Ops.
Implicit Types (ts : gmap Z os_task) (l : list Z) (s : sched).

(** A schedule with the kernel task alone. *)
Lemma os_scheduler_init_ok s :
  Forall (fun b => b = false) (s_fail s) -> 0 < s_brk s ->
  (forall p t, s_tasks s !! p = Some t -> 0 < p < s_brk s) -> (forall p z, s_stacks s !! p = Some z -> 0 < p < s_brk s) ->
  exists s', os_scheduler_init s = Ok (fn_os_kernel_task, s') /\ sched_ok s' [s_brk s] /\
    s_systick s' = 96000 /\ s_control s' = 2 /\ s_psp s' = s_brk s + 32 + 512.
Proof.
  intros Hf Hb Ht Hst. unfold os_scheduler_init. rewrite bind_modify.
  set (s0 := ss_pid 0 _). set (size := KERNEL_TASK_STACK_SIZE_WORDS * 4).
  mstep (os_task_create_ok s0 fn_os_kernel_task 0 0 size Hf Hb ltac:(vm_compute; discriminate)).
  change (s_brk s0) with (s_brk s). set (s1 := created _ _ _ _ s0).
  mstep (eq_refl : os_task_add (s_brk s) s1 = Ok (lf_success, ss_count 1 s1)).
  rewrite bind_modify. set (s2 := ss_head _ _).
  set (t := OsTask (s_brk s + sizeof_os_task + size - 64) 0 fn_os_kernel_task os_task_status_idle
              (s_brk s + sizeof_os_task) 0 0 0).
  assert (s_tasks s2 !! s_brk s = Some t) as Ht2 by apply lookup_insert_eq.
  mstep (load_task_ok s2 _ t Ht2). mstep (store_task_ok s2 _ (t_set_next (s_brk s) t) t Ht2).
  rewrite bind_modify. set (s3 := ss_systick _ _).
  assert (s_tasks s3 !! s_brk s = Some (t_set_next (s_brk s) t)) as Ht3 by apply lookup_insert_eq.
  mstep (load_task_ok s3 _ _ Ht3). rewrite bind_modify. eexists. split; [done|]. split; [|split; [done|split; [done|]]].
  - split; cbn [s_tasks s_head s_count s_current s_brk s_stacks s3 s2 s1 s0 created ss_cpu ss_systick ss_tasks ss_head
      ss_current ss_count ss_pid ss_mem ss_alloc ss_stacks].
    + split; [apply NoDup_singleton|]. intros [|i] a Ha; simplify_eq/=. eexists. split; [apply lookup_insert_eq|done].
    + done.
    + done.
    + simpl. lia.
    + by left.
    + unfold sizeof_os_task, size. change (KERNEL_TASK_STACK_SIZE_WORDS * 4) with 512. split; [lia|]. split.
      * intros p u. rewrite !lookup_insert. case_decide; [intros _; lia|]. intros Hu. apply Ht in Hu. lia.
      * intros p z. rewrite lookup_insert. case_decide; [intros _; lia|]. intros Hz. apply Hst in Hz. lia.
    + intros u. rewrite lookup_insert_eq. by intros [= <-].
  - change (s_brk s + sizeof_os_task + 512 - 64 + sizeof_task_ctx + sizeof_stack_ctx = s_brk s + 32 + 512).
    unfold sizeof_os_task, sizeof_task_ctx, sizeof_stack_ctx. lia.
Qed.

(** The PID search returns the first task in ring order with the PID. *)
Lemma from_pid_loop_ok s l pid : ring (s_tasks s) l -> forall k i a,
  (i + k = length l)%nat -> (k <> 0%nat -> l !! i = Some a) ->
  (exists j p t, (i <= j)%nat /\ l !! j = Some p /\ s_tasks s !! p = Some t /\ t_pid t = pid /\
     from_pid_loop k pid a s = Ok (p, s)) \/
  ((forall j p t, (i <= j)%nat -> l !! j = Some p -> s_tasks s !! p = Some t -> t_pid t <> pid) /\
   from_pid_loop k pid a s = Ok (0, s)).
Proof.
  intros Hr. induction k as [|k IH]; intros i a Hi Ha; cbn [from_pid_loop].
  - right. split; [|done]. intros j p t Hj Hp. apply lookup_lt_Some in Hp. lia.
  - specialize (Ha ltac:(done)). destruct Hr as [Hnd Hr]. destruct (Hr i a Ha) as (t & Ht & Hnext).
    mstep (load_task_ok _ _ _ Ht). destruct (Z.eqb_spec pid (t_pid t)) as [Heq|Hne].
    + left. exists i, a, t. split; [done|]. do 3 (split; [done|]). done.
    + destruct (IH (S i) (t_next t) ltac:(lia)) as [(j & p & u & Hj & Hp & Hu & Hpid & Hrun)|[Hno Hrun]].
      * intros Hk. rewrite Nat.mod_small in Hnext by lia. done.
      * left. exists j, p, u. split; [lia|done].
      * right. split; [|done]. intros j p u Hj Hp Hu. destruct (decide (j = i)) as [->|Hji].
        -- simplify_eq. congruence.
        -- apply (Hno j p u); [lia|done|done].
Qed.

Lemma os_task_from_pid_ok s l pid :
  sched_ok s l ->
  (exists j p t, l !! j = Some p /\ s_tasks s !! p = Some t /\ t_pid t = pid /\ os_task_from_pid pid s = Ok (p, s)) \/
  ((forall j p t, l !! j = Some p -> s_tasks s !! p = Some t -> t_pid t <> pid) /\ os_task_from_pid pid s = Ok (0, s)).
Proof.
  intros Hok. unfold os_task_from_pid. rewrite !bind_gets, (so_count _ _ Hok), Nat2Z.id.
  destruct (from_pid_loop_ok s l pid (so_ring _ _ Hok) (length l) 0 (s_head s) eq_refl)
    as [(j & p & t & _ & Hp & Ht & Hpid & Hrun)|[Hno Hrun]].
  - intros _. apply (so_head _ _ Hok).
  - left. by exists j, p, t.
  - right. split; [|done]. intros j p t. apply Hno. lia.
Qed.

(** A task other than the kernel's may be paused. *)
Lemma sched_ok_pause s l p t :
  sched_ok s l -> s_tasks s !! p = Some t -> p <> s_head s ->
  sched_ok (ss_tasks (<[p := t_set_status os_task_status_paused t]> (s_tasks s)) s) l.
Proof.
  intros [Hr Hh Hc Hsm Hcur (Hb1 & Hb2 & Hb3) Hk] Hp Hne. split; try done.
  - by eapply ring_update.
  - split; [done|]. split; [|done]. intros q u. cbn. rewrite lookup_insert. case_decide; [subst; intros _; by eapply Hb2|apply Hb2].
  - intros u. cbn. rewrite lookup_insert_ne by done. apply Hk.
Qed.

Lemma os_task_pause_ok s l pid :
  sched_ok s l -> pid <> 0 ->
  (exists p s' t, p ∈ l /\ os_task_pause pid s = Ok (lf_success, s') /\ sched_ok s' l /\
     s_tasks s' !! p = Some t /\ t_pid t = pid /\ t_status t = os_task_status_paused /\
     (s_next_task s' ∈ l \/ (s_next_task s' = s_next_task s /\ s_pendsv s' = s_pendsv s))) \/
  os_task_pause pid s = Ok (lf_error, ss_err (err_code E_NULL) s).
Proof.
  intros Hok H0. unfold os_task_pause, s_assert. rewrite ctrue_nonzero by done.
  destruct (os_task_from_pid_ok s l pid Hok) as [(j & p & t & Hp & Ht & Hpid & Hrun)|[_ Hrun]]; mstep Hrun.
  2: { right. done. }
  left. assert (0 < p) as Hpos by (destruct (so_brk _ _ Hok) as (_ & Hb & _); apply Hb in Ht; lia).
  assert (p <> s_head s) as Hne.
  { intros ->. destruct (so_kernel _ _ Hok t Ht) as [Hz _]. congruence. }
  rewrite ctrue_nonzero by lia. rewrite bind_gets. destruct (Z.eqb_spec (s_current s) p) as [Hcur|Hcur].
  - destruct (sched_ok_current_pos _ _ Hok) as (i & Hi & Hc0).
    destruct (os_task_next_running s l i (so_ring _ _ Hok) Hi Hc0) as (k & a & c & t1 & _ & Ha & _ & _ & Hc & Ht1 & Hnx).
    destruct (os_task_next_preserves s l Hok) as (s1 & Hnx' & Hok1 & Hin1 & _). rewrite Hnx in Hnx'. injection Hnx' as Hs1.
    mstep Hnx. rewrite Hs1.
    assert (exists t2, s_tasks s1 !! p = Some t2 /\ t_pid t2 = pid) as (t2 & Ht2 & Hpid2).
    { rewrite <- Hs1. cbn. rewrite Hcur in *. rewrite lookup_insert in Ht1 |- *. simplify_eq.
      repeat case_decide; simplify_eq/=; eauto. rewrite lookup_insert_eq. eauto. }
    mstep (load_task_ok s1 p t2 Ht2). mstep (store_task_ok s1 p (t_set_status os_task_status_paused t2) t2 Ht2).
    eexists p, _, _. split; [by eapply list_elem_of_lookup_2|]. split; [done|]. split; [|split; [apply lookup_insert_eq|split; [done|split; [done|by left]]]].
    apply sched_ok_pause; [done|done|]. by rewrite <- Hs1.
  - mnorm. mstep (load_task_ok s p t Ht). mstep (store_task_ok s p (t_set_status os_task_status_paused t) t Ht).
    eexists p, _, _. split; [by eapply list_elem_of_lookup_2|]. split; [done|]. split; [|split; [apply lookup_insert_eq|split; [done|split; [done|by right]]]].
    by apply sched_ok_pause.
Qed.
End Ops.

Section Release.
Implicit Types (ts : gmap Z os_task) (l : list Z) (s : sched).

(** What a task owns can be released: its exit function is the application's
    with a live image, or none, and its stack is live. *)
Definition releasable s (t : os_task) : Prop :=
  (t_exit t = 0 \/ (t_exit t = fn_os_app_exit /\ t_header t ∈ s_headers s /\ t_header t <> 0)) /\
  (t_stack t <> 0 /\ is_Some (s_stacks s !! t_stack t)).

(** The part of the state a release frees before unlinking. *)
Definition freed (t : os_task) s : sched :=
  ss_irq true (ss_stacks (delete (t_stack t) (s_stacks s))
    (ss_headers (if ctrue (t_exit t) then s_headers s ∖ {[t_header t]} else s_headers s) (ss_irq false s))).

Lemma release_prefix {A} s task t (k : os_task -> S_ A) :
  s_tasks s !! task = Some t -> releasable s t ->
  (modify (ss_irq false);;
   t ← load_task task;
   (if ctrue (t_exit t) then call_exit (t_exit t) (t_header t) else mret tt);;
   (if ctrue (t_stack t) then free_stack (t_stack t) else mret tt);;
   modify (ss_irq true);; k t) s = k t (freed t s).
Proof.
  intros Ht [He [Hs0 [z Hz]]]. rewrite bind_modify.
  mstep (load_task_ok (ss_irq false s) task t Ht).
  set (s1 := ss_headers (if ctrue (t_exit t) then s_headers s ∖ {[t_header t]} else s_headers s) (ss_irq false s)).
  rewrite (bind_Ok _ _ _ tt s1).
  - rewrite ctrue_nonzero by done.
    rewrite (bind_Ok _ _ _ tt (ss_stacks (delete (t_stack t) (s_stacks s)) s1)); [by rewrite bind_modify|].
    unfold free_stack. change (s_stacks s1) with (s_stacks s). by rewrite Hz.
  - unfold s1. destruct He as [->|(-> & Hin & Hh0)]; [by destruct s|]. cbn [ctrue].
    change (ctrue fn_os_app_exit) with true. cbv iota. unfold call_exit. rewrite Z.eqb_refl.
    unfold os_app_exit. destruct (Z.eqb_spec (t_header t) 0); [done|]. by rewrite decide_True.
Qed.

(** The search for the parent looks at the head only. *)
Lemma unlink_loop_ok s head task h t n :
  (0 < n)%nat -> s_tasks s !! head = Some h -> s_tasks s !! task = Some t ->
  unlink_loop n head task s
  = Ok (tt, if t_next h =? task then ss_tasks (<[head := t_set_next (t_next t) h]> (s_tasks s)) s else s).
Proof.
  intros Hn Hh Ht. destruct (Z.eqb_spec (t_next h) task) as [Heq|Hne].
  - destruct n as [|n]; [lia|]. cbn [unlink_loop]. mstep (load_task_ok _ _ _ Hh).
    rewrite Heq, Z.eqb_refl. mstep (load_task_ok _ _ _ Ht). by apply (store_task_ok s head _ h).
  - clear Hn. induction n as [|n IH]; [done|]. cbn [unlink_loop]. mstep (load_task_ok _ _ _ Hh).
    destruct (Z.eqb_spec (t_next h) task); [done|]. exact IH.
Qed.

Lemma os_task_release_prefix s l i task t :
  sched_ok s l -> l !! i = Some task -> (0 < i)%nat -> s_tasks s !! task = Some t -> releasable s t ->
  s_current s <> task ->
  exists h, s_tasks s !! s_head s = Some h /\
    let ts := if t_next h =? task then <[s_head s := t_set_next (t_next t) h]> (s_tasks s) else s_tasks s in
    os_task_release task s
    = Ok (lf_success, ss_count (Z.of_nat (length l) - 1) (ss_tasks (delete task ts) (ss_tasks ts (freed t s)))).
Proof.
  intros Hok Hi Hi0 Ht Hrel Hcur. pose proof Hok as [Hr Hh Hc Hsm Hcr (Hb1 & Hb2 & Hb3) Hk].
  pose proof Hr as [Hnd Hr0]. destruct (Hr0 _ _ Hh) as (h & Hht & _). exists h. split; [done|].
  assert (task <> s_head s) as Hne.
  { intros ->. pose proof (NoDup_lookup _ _ _ _ Hnd Hi Hh). lia. }
  assert (0 < task) as Hpos by (apply Hb2 in Ht; lia). pose proof (lookup_lt_Some _ _ _ Hi) as Hlt.
  cbv zeta. set (ts := if t_next h =? task then _ else _).
  unfold os_task_release, s_assert. rewrite ctrue_nonzero by lia. rewrite bind_gets.
  destruct (Z.eqb_spec task (s_head s)); [done|]. cbn [negb].
  rewrite (release_prefix s task t (fun t =>
    count ← gets s_count; unlink_loop (Z.to_nat count) (s_head s) task;;
    cur ← gets s_current;
    (if task =? cur then modify (ss_current 0);; t ← load_task task; modify (ss_next (t_next t));; os_task_next
     else mret tt);;
    free_task task;; modify (fun s => ss_count (u8 (s_count s - 1)) s);; mret lf_success) Ht Hrel).
  rewrite bind_gets. change (s_count (freed t s)) with (s_count s). rewrite Hc, Nat2Z.id.
  mstep (unlink_loop_ok (freed t s) (s_head s) task h t (length l) ltac:(lia) Hht Ht).
  change (s_tasks (freed t s)) with (s_tasks s).
  set (s2 := if t_next h =? task then _ else _).
  assert (s2 = ss_tasks ts (freed t s)) as Hs2 by (unfold s2, ts; by destruct (t_next h =? task), s).
  rewrite bind_gets. assert (s_current s2 = s_current s) as -> by (by rewrite Hs2).
  destruct (Z.eqb_spec task (s_current s)); [congruence|]. mnorm. rewrite Hs2.
  assert (exists t', ts !! task = Some t') as [t' Ht'].
  { unfold ts. destruct (t_next h =? task); [|by exists t]. rewrite lookup_insert_ne by done. by exists t. }
  rewrite (bind_Ok _ _ _ tt (ss_tasks (delete task ts) (ss_tasks ts (freed t s)))) by (unfold free_task; cbn; by rewrite Ht').
  rewrite bind_modify. change (s_count (ss_tasks (delete task ts) (ss_tasks ts (freed t s)))) with (s_count s).
  rewrite Hc, u8_small by lia. done.
Qed.

(** Unlinking the task behind the head leaves the ring of the others. *)
Lemma ring_unlink ts head task rest h t :
  ring ts (head :: task :: rest) -> ts !! head = Some h -> ts !! task = Some t ->
  ring (delete task (<[head := t_set_next (t_next t) h]> ts)) (head :: rest).
Proof.
  intros [Hnd Hr] Hh Ht. apply NoDup_cons in Hnd as [Hn1 Hnd]. apply NoDup_cons in Hnd as [Hn2 Hnd].
  apply not_elem_of_cons in Hn1 as [Hne Hn1]. split; [by constructor|].
  intros [|i] a Ha; [injection Ha as <-|change (rest !! i = Some a) in Ha].
  - exists (t_set_next (t_next t) h). rewrite lookup_delete_ne, lookup_insert_eq by done. split; [done|].
    destruct (Hr 1%nat task eq_refl) as (t' & Ht' & Hx). simplify_eq. cbn [t_next t_set_next length] in *.
    destruct rest as [|r rest]; [done|]. cbn [length] in *. rewrite Nat.mod_small in Hx |- * by (simpl; lia). done.
  - destruct (Hr (S (S i)) a Ha) as (t' & Ht' & Hx). exists t'. pose proof (lookup_lt_Some _ _ _ Ha) as Hlt.
    assert (a ∈ rest) as Hin by (by eapply list_elem_of_lookup_2).
    rewrite lookup_delete_ne, lookup_insert_ne by (intros ->; done). split; [done|]. cbn [length] in *.
    destruct (decide (S i = length rest)) as [Heq|Hneq].
    + rewrite Heq in Hx |- *. rewrite Nat.Div0.mod_same in Hx |- *. done.
    + rewrite Nat.mod_small in Hx |- * by lia. done.
Qed.

(** Releasing the task behind the head (while another one runs). *)
Lemma os_task_release_second s head task rest t :
  sched_ok s (head :: task :: rest) -> s_tasks s !! task = Some t -> releasable s t -> s_current s <> task ->
  exists s', os_task_release task s = Ok (lf_success, s') /\ sched_ok s' (head :: rest) /\
    s_tasks s' !! task = None /\ s_stacks s' !! t_stack t = None /\ s_irq s' = true /\
    s_next_task s' = s_next_task s /\ s_pendsv s' = s_pendsv s.
Proof.
  intros Hok Ht Hrel Hcur.
  destruct (os_task_release_prefix s _ 1 task t Hok eq_refl ltac:(lia) Ht Hrel Hcur) as (h & Hh & Hrun).
  pose proof Hok as [Hr Hhd Hc Hsm Hcr (Hb1 & Hb2 & Hb3) Hk]. simplify_eq/=. pose proof Hr as [Hnd Hr0].
  destruct (Hr0 0%nat _ eq_refl) as (h' & Hh' & Hnx). simplify_eq.
  change (length (s_head s :: task :: rest)) with (S (S (length rest))) in Hnx.
  rewrite Nat.mod_small in Hnx by lia. injection Hnx as Hnx. rewrite <- Hnx, Z.eqb_refl in Hrun.
  eexists. split; [exact Hrun|]. split; [|split; [apply lookup_delete_eq|split; [apply lookup_delete_eq|done]]].
  split; cbn [s_tasks s_head s_count s_current s_brk s_stacks ss_count ss_tasks freed ss_irq ss_stacks ss_headers].
  - by apply ring_unlink.
  - done.
  - cbn [length]. lia.
  - simpl in Hsm |- *. lia.
  - apply elem_of_cons in Hcr as [Hx|Hcr]; [rewrite Hx; by left|].
    apply elem_of_cons in Hcr as [Hx|Hcr]; [congruence|by right].
  - split; [done|]. split.
    + intros p u [Hne Hu]%lookup_delete_Some. rewrite lookup_insert in Hu. case_decide; simplify_eq; eauto.
    + intros p z [_ Hz]%lookup_delete_Some. eauto.
  - intros u [Hne Hu]%lookup_delete_Some. rewrite lookup_insert_eq in Hu. injection Hu as <-. cbn. by eapply Hk.
Qed.

(** Releasing a task further down the ring leaves its predecessor's link
    pointing to the freed record. *)
Lemma os_task_release_dangling s l i task t :
  sched_ok s l -> l !! i = Some task -> (2 <= i)%nat -> s_tasks s !! task = Some t -> releasable s t ->
  l !! (i - 1)%nat = Some (s_current s) ->
  exists s' c, os_task_release task s = Ok (lf_success, s') /\ s_current s' = s_current s /\
    s_tasks s' !! s_current s = Some c /\ t_next c = task /\ s_tasks s' !! task = None.
Proof.
  intros Hok Hi Hi2 Ht Hrel Hcur. pose proof Hok as [[Hnd Hr0] Hhd _ _ _ _ _].
  pose proof (lookup_lt_Some _ _ _ Hi) as Hlt.
  assert (s_current s <> task) as Hne.
  { intros Heq. rewrite Heq in Hcur. pose proof (NoDup_lookup _ _ _ _ Hnd Hi Hcur). lia. }
  destruct (os_task_release_prefix s l i task t Hok Hi ltac:(lia) Ht Hrel Hne) as (h & Hh & Hrun).
  destruct (Hr0 _ _ Hhd) as (h' & Hh' & Hnx). simplify_eq. rewrite Nat.mod_small in Hnx by lia.
  destruct (Z.eqb_spec (t_next h) task) as [Heq|_].
  { rewrite Heq in Hnx. pose proof (NoDup_lookup _ _ _ _ Hnd Hi Hnx). lia. }
  destruct (Hr0 _ _ Hcur) as (c & Hc & Hcn). replace (S (i - 1)) with i in Hcn by lia.
  rewrite Nat.mod_small in Hcn by lia.
  eexists _, c. split; [exact Hrun|]. split; [done|]. cbn [s_tasks ss_count ss_tasks].
  rewrite lookup_delete_ne by done. split; [done|]. split; [congruence|apply lookup_delete_eq].
Qed.

(** One timer tick and the context switch it triggers. *)
Definition tick : S_ unit := systick_exception;; os_update_task_pointers.

(** With nothing paused, ticks go round the ring. *)
Lemma tick_round_robin l : forall n s i,
  sched_ok s l -> l !! i = Some (s_current s) -> (forall p t, s_tasks s !! p = Some t -> t_status t <> os_task_status_paused) ->
  exists s', Nat.iter n (fun m => tick;; m) (mret tt) s = Ok (tt, s') /\ sched_ok s' l /\
    l !! ((i + n) mod length l)%nat = Some (s_current s').
Proof.
  induction n as [|n IH]; intros s i Hok Hi Hnp.
  { exists s. split; [done|]. split; [done|]. apply lookup_lt_Some in Hi as Hlt. by rewrite Nat.add_0_r, Nat.mod_small. }
  destruct (sched_ok_current_pos _ _ Hok) as (i' & _ & H0). pose proof (lookup_lt_Some _ _ _ Hi) as Hlt.
  destruct (os_task_next_running s l i (so_ring _ _ Hok) Hi H0) as (k & a & c & t & Hk & Ha & Hskip & _ & Hc & Ht & Hrun).
  assert (k = 1%nat) as ->.
  { destruct (decide (k = 1%nat)); [done|]. exfalso. destruct (Hskip 1%nat ltac:(lia)) as (b & u & _ & Hu & Hs).
    by apply (Hnp b u Hu). }
  destruct (os_task_next_preserves s l Hok) as (s1 & Hrun1 & Hok1 & Hin & _).
  rewrite Hrun in Hrun1. injection Hrun1 as Hs1.
  assert (tick s = Ok (tt, ss_current (s_next_task s1) s1)) as Htick.
  { unfold tick, systick_exception. mstep Hrun. by rewrite Hs1. }
  assert (s_next_task s1 = a) as Hna by (by rewrite <- Hs1).
  destruct (IH (ss_current (s_next_task s1) s1) ((i + 1) mod length l)%nat) as (s' & Hrun' & Hok' & Hcur').
  - by destruct Hok1.
  - cbn [s_current ss_current]. by rewrite Hna.
  - intros p u. cbn [s_tasks ss_current]. rewrite <- Hs1. cbn [s_tasks ss_pendsv ss_tasks]. rewrite lookup_insert. case_decide.
    + by intros [= <-].
    + rewrite lookup_insert. case_decide; [by intros [= <-]|apply Hnp].
  - exists s'. split; [|split; [done|]].
    + cbn [Nat.iter nat_rect]. mstep Htick. exact Hrun'.
    + rewrite <- Hcur'. f_equal. rewrite Nat.Div0.add_mod_idemp_l. f_equal. lia.
Qed.
End Release.
