(* ===== verification/Loader.v ===== *)
(** * The Osmium image loader (os/src/loader.c, os/include/os/loader.h)

    An image is the bytes at the address [header] points to; its ABI header is
    eleven 32-bit words. Loading relocates the module table and the global
    offset table in place. ([os_load_application] and [os_app_exit] are in the
    scheduler's file, with the tasks they create and release.) *)

From S2P Require Import Prelude Errors.
From stdpp Require Import base list gmap sets.
From Stdlib Require Import ZArith Lia.
Local Open Scope Z_scope.

(** [struct _lf_abi_header]. *)
Record lf_abi_header := AbiHeader {
  h_name_size : Z; h_name_offset : Z; h_entry : Z;
  h_module_size : Z; h_module_offset : Z;
  h_data_size : Z; h_data_offset : Z;
  h_bss_size : Z; h_bss_offset : Z;
  h_got_size : Z; h_got_offset : Z;
}.

Definition abi_header_size : nat := 44.
(** [sizeof(struct _lf_module)] on the 32-bit target: 32 + 2 + 2 + 4 * 4. *)
Definition sizeof_lf_module32 : Z := 52.

Definition word (img : list Z) (off : nat) : option Z := rd_le img off 4.

Definition read_header (img : list Z) : option lf_abi_header :=
  name_size ← word img 0; name_offset ← word img 4; entry ← word img 8;
  module_size ← word img 12; module_offset ← word img 16;
  data_size ← word img 20; data_offset ← word img 24;
  bss_size ← word img 28; bss_offset ← word img 32;
  got_size ← word img 36; got_offset ← word img 40;
  Some (AbiHeader name_size name_offset entry module_size module_offset data_size data_offset
          bss_size bss_offset got_size got_offset).

(** [for (i = 0; i < size / 4; i++) table[i] += header] from byte offset [off]; the bound is read from the header in every iteration. Each
    iteration reads a word of its own, so the image's length bounds their number. *)
Fixpoint patch_loop (fuel i : nat) (size : lf_abi_header -> Z) (off : nat) (header : Z) (img : list Z)
    : option (list Z) :=
  hd ← read_header img;
  if Z.of_nat i <? size hd / 4 then
    match fuel with
    | O => None
    | S fuel =>
      v ← word img (off + 4 * i);
      img ← wr_le img (off + 4 * i) 4 (u32 (v + header));
      patch_loop fuel (S i) size off header img
    end
  else Some img.

(** [for (i = 0; i < bss_size / 4; i++) bss[i] = 0] from byte offset [off]. *)
Fixpoint zero_loop (fuel i : nat) (off : nat) (img : list Z) : option (list Z) :=
  hd ← read_header img;
  if Z.of_nat i <? h_bss_size hd / 4 then
    match fuel with
    | O => None
    | S fuel => img ← wr_le img (off + 4 * i) 4 0; zero_loop fuel (S i) off img
    end
  else Some img.

(** What loading ends with: nothing for an application, else the registration
    of the module record at an address. *)
Inductive load_result :=
| LoadedApplication
| RegisterModule (addr : Z).

(** Loads an image into RAM: [None] for an access outside of the image. Pointer
    arithmetic on [void **] counts words and on [struct _lf_module *] counts
    records, on [void *] bytes; the words zeroed start at the table's offset. *)
Definition os_load_image (header : Z) (img : list Z) : option (list Z * load_result) :=
  hd ← read_header img;
  img ← patch_loop (length img) 0 h_module_size (Z.to_nat (4 * h_module_offset hd)) header img;
  hd ← read_header img;
  img ← patch_loop (length img) 0 h_got_size (Z.to_nat (4 * h_got_offset hd)) header img;
  hd ← read_header img;
  img ← zero_loop (length img) 0 (Z.to_nat (h_got_offset hd)) img;
  hd ← read_header img;
  if ctrue (h_entry hd) then Some (img, LoadedApplication)
  else Some (img, RegisterModule (u32 (header + h_module_offset hd * sizeof_lf_module32))).

(** With a null header: the error, and [free(NULL)]. *)
Definition os_load_image_null : Z * lf_err_t := (lf_error, E_NULL).

(** ** What the loops do when they leave the header alone *)

(** [n] words from byte offset [off] increased by [header]. *)
Fixpoint patch_words (n : nat) (off : nat) (header : Z) (img : list Z) : option (list Z) :=
  match n with
  | O => Some img
  | S n =>
    v ← word img off;
    img ← wr_le img off 4 (u32 (v + header));
    patch_words n (off + 4) header img
  end.

(** [n] words from byte offset [off] cleared. *)
Fixpoint clear_words (n : nat) (off : nat) (img : list Z) : option (list Z) :=
  match n with
  | O => Some img
  | S n => img ← wr_le img off 4 0; clear_words n (off + 4) img
  end.

Section Loader.
Implicit Types img : list Z.

(** The region [off, off + 4 n) of the image. *)
Definition outside (off n o l : nat) : Prop := (o + l <= off \/ off + 4 * n <= o)%nat.

Lemma word_wr_eq img off v img' :
  wr_le img off 4 v = Some img' -> word img' off = Some (u32 v).
Proof. apply rd_wr_le. Qed.

Lemma word_wr_ne img off v img' o l :
  wr_le img off 4 v = Some img' -> outside off 1 o l -> rd img' o l = rd img o l.
Proof. intros H [Ho|Ho]; apply (rd_wr_ne _ _ _ _ _ _ H); rewrite length_le_bytes; lia. Qed.

Lemma patch_words_ok n : forall off header img img',
  patch_words n off header img = Some img' ->
  (forall i, (i < n)%nat -> exists v, word img (off + 4 * i) = Some v /\
     word img' (off + 4 * i) = Some (u32 (v + header))) /\
  (forall o l, outside off n o l -> rd img' o l = rd img o l).
Proof.
  induction n as [|n IH]; intros off header img img' H; cbn [patch_words] in H; [simplify_eq|].
  { split; [intros; lia|done]. }
  destruct (word img off) as [v|] eqn:Hv; [|done]. cbn [mbind option_bind] in H.
  destruct (wr_le img off 4 (u32 (v + header))) as [img1|] eqn:Hw; [|done]. cbn [mbind option_bind] in H.
  destruct (IH _ _ _ _ H) as [Hin Hout]. split.
  - intros [|i] Hi.
    + exists v. replace (off + 4 * 0)%nat with off by lia. split; [done|]. unfold word, rd_le in *.
      rewrite Hout by (left; lia). fold (rd_le img1 off 4). pose proof (word_wr_eq _ _ _ _ Hw) as Hx. unfold word in Hx.
      rewrite Hx. f_equal. unfold u32. by rewrite Z.mod_mod.
    + destruct (Hin i ltac:(lia)) as (v' & Hv' & Hi'). exists v'.
      replace (off + 4 * S i)%nat with (off + 4 + 4 * i)%nat by lia. split; [|done].
      unfold word, rd_le in *. by rewrite <- (word_wr_ne _ _ _ _ _ _ Hw) by (right; lia).
  - intros o l Ho. rewrite Hout by (unfold outside in *; lia).
    apply (word_wr_ne _ _ _ _ _ _ Hw). unfold outside in *. lia.
Qed.

Lemma clear_words_ok n : forall off img img',
  clear_words n off img = Some img' ->
  (forall i, (i < n)%nat -> word img' (off + 4 * i) = Some 0) /\
  (forall o l, outside off n o l -> rd img' o l = rd img o l).
Proof.
  induction n as [|n IH]; intros off img img' H; cbn [clear_words] in H; [simplify_eq|].
  { split; [intros; lia|done]. }
  destruct (wr_le img off 4 0) as [img1|] eqn:Hw; [|done]. cbn [mbind option_bind] in H.
  destruct (IH _ _ _ H) as [Hin Hout]. split.
  - intros [|i] Hi.
    + replace (off + 4 * 0)%nat with off by lia. unfold word, rd_le.
      rewrite Hout by (left; lia). apply (word_wr_eq _ _ _ _ Hw).
    + replace (off + 4 * S i)%nat with (off + 4 + 4 * i)%nat by lia. apply Hin. lia.
  - intros o l Ho. rewrite Hout by (unfold outside in *; lia).
    apply (word_wr_ne _ _ _ _ _ _ Hw). unfold outside in *. lia.
Qed.

(** The header is read again after each step; it is the same one when the
    regions lie behind it. *)
Lemma read_header_same img img' :
  (forall o l, (o + l <= abi_header_size)%nat -> rd img' o l = rd img o l) -> read_header img' = read_header img.
Proof.
  intros H. unfold read_header, word, rd_le. rewrite !H by (unfold abi_header_size; lia). done.
Qed.

(** Where the loader writes, in bytes of the image. *)
Definition module_at (hd : lf_abi_header) : nat := Z.to_nat (4 * h_module_offset hd).
Definition module_words (hd : lf_abi_header) : nat := Z.to_nat (h_module_size hd / 4).
Definition got_at (hd : lf_abi_header) : nat := Z.to_nat (4 * h_got_offset hd).
Definition got_words (hd : lf_abi_header) : nat := Z.to_nat (h_got_size hd / 4).
Definition zero_at (hd : lf_abi_header) : nat := Z.to_nat (h_got_offset hd).
Definition zero_words (hd : lf_abi_header) : nat := Z.to_nat (h_bss_size hd / 4).

Definition header_untouched (hd : lf_abi_header) : Prop :=
  (module_words hd = 0 \/ abi_header_size <= module_at hd)%nat /\
  (got_words hd = 0 \/ abi_header_size <= got_at hd)%nat /\
  (zero_words hd = 0 \/ abi_header_size <= zero_at hd)%nat.

(** The regions lie inside an image of [n] bytes. *)
Definition regions_fit (hd : lf_abi_header) (n : nat) : Prop :=
  (module_at hd + 4 * module_words hd <= n /\ got_at hd + 4 * got_words hd <= n /\
   zero_at hd + 4 * zero_words hd <= n)%nat.

Lemma word_wr_header img off v img' hd :
  wr_le img off 4 v = Some img' -> (abi_header_size <= off)%nat -> read_header img = Some hd ->
  read_header img' = Some hd.
Proof.
  intros Hw Ho <-. apply read_header_same. intros o l Hol. apply (word_wr_ne _ _ _ _ _ _ Hw).
  unfold outside. lia.
Qed.

Lemma word_None img off : (length img < off + 4)%nat -> word img off = None.
Proof. intros H. unfold word, rd_le, rd. by rewrite decide_False by lia. Qed.

Lemma wr_le_None img off v : (length img < off + 4)%nat -> wr_le img off 4 v = None.
Proof. intros H. unfold wr_le, wr. rewrite length_le_bytes. by rewrite decide_False by lia. Qed.

(** Behind the header the loops are the reference loops: the bound never
    changes and the fuel does not run out before the image does. *)
Lemma patch_loop_words hd size off header : forall fuel i img,
  read_header img = Some hd -> (Z.to_nat (size hd / 4) <= i \/ abi_header_size <= off)%nat ->
  (length img <= 4 * (fuel + i))%nat ->
  patch_loop fuel i size off header img
  = patch_words (Z.to_nat (size hd / 4) - i) (off + 4 * i) header img.
Proof.
  induction fuel as [|fuel IH]; intros i img Hhd Ho Hf; cbn [patch_loop]; rewrite Hhd; cbn [mbind option_bind].
  all: destruct (Z.ltb_spec (Z.of_nat i) (size hd / 4)) as [Hlt|Hge];
    [replace (Z.to_nat (size hd / 4) - i)%nat with (S (Z.to_nat (size hd / 4) - S i)) by lia
    |by replace (Z.to_nat (size hd / 4) - i)%nat with 0%nat by lia].
  all: cbn [patch_words].
  - by rewrite word_None by lia.
  - destruct (word img (off + 4 * i)) as [v|]; [|done]. cbn [mbind option_bind].
    destruct (wr_le img (off + 4 * i) 4 (u32 (v + header))) as [img1|] eqn:Hw; [|done]. cbn [mbind option_bind].
    replace (off + 4 * i + 4)%nat with (off + 4 * S i)%nat by lia. apply IH; [|lia|].
    + apply (word_wr_header _ _ _ _ _ Hw); [lia|done].
    + rewrite (wr_length _ _ _ _ Hw). lia.
Qed.

Lemma zero_loop_words hd off : forall fuel i img,
  read_header img = Some hd -> (Z.to_nat (h_bss_size hd / 4) <= i \/ abi_header_size <= off)%nat ->
  (length img <= 4 * (fuel + i))%nat ->
  zero_loop fuel i off img = clear_words (Z.to_nat (h_bss_size hd / 4) - i) (off + 4 * i) img.
Proof.
  induction fuel as [|fuel IH]; intros i img Hhd Ho Hf; cbn [zero_loop]; rewrite Hhd; cbn [mbind option_bind].
  all: destruct (Z.ltb_spec (Z.of_nat i) (h_bss_size hd / 4)) as [Hlt|Hge];
    [replace (Z.to_nat (h_bss_size hd / 4) - i)%nat with (S (Z.to_nat (h_bss_size hd / 4) - S i)) by lia
    |by replace (Z.to_nat (h_bss_size hd / 4) - i)%nat with 0%nat by lia].
  all: cbn [clear_words].
  - by rewrite wr_le_None by lia.
  - destruct (wr_le img (off + 4 * i) 4 0) as [img1|] eqn:Hw; [|done]. cbn [mbind option_bind].
    replace (off + 4 * i + 4)%nat with (off + 4 * S i)%nat by lia. apply IH; [|lia|].
    + apply (word_wr_header _ _ _ _ _ Hw); [lia|done].
    + rewrite (wr_length _ _ _ _ Hw). lia.
Qed.

(** The reference loops succeed on regions inside the image and keep what is
    behind a header outside of them. *)
Lemma patch_words_Some n header hd : forall off img,
  (off + 4 * n <= length img)%nat -> (n = 0 \/ abi_header_size <= off)%nat -> read_header img = Some hd ->
  exists img', patch_words n off header img = Some img' /\ length img' = length img /\ read_header img' = Some hd.
Proof.
  induction n as [|n IH]; intros off img Hl Ho Hhd; cbn [patch_words]; [by exists img|].
  unfold word, rd_le. rewrite rd_Some by lia. cbn [fmap option_fmap option_map mbind option_bind].
  unfold wr_le. rewrite wr_Some by (rewrite length_le_bytes; lia). cbn [mbind option_bind].
  set (v := le_val _). set (img1 := _ ++ _).
  assert (wr_le img off 4 (u32 (v + header)) = Some img1) as Hw
    by (unfold wr_le; rewrite wr_Some by (rewrite length_le_bytes; lia); done).
  pose proof (wr_length _ _ _ _ Hw) as Hl1. rewrite <- Hl1. apply IH; [lia|lia|].
  apply (word_wr_header _ _ _ _ _ Hw); [lia|done].
Qed.

Lemma clear_words_Some n hd : forall off img,
  (off + 4 * n <= length img)%nat -> (n = 0 \/ abi_header_size <= off)%nat -> read_header img = Some hd ->
  exists img', clear_words n off img = Some img' /\ length img' = length img /\ read_header img' = Some hd.
Proof.
  induction n as [|n IH]; intros off img Hl Ho Hhd; cbn [clear_words]; [by exists img|].
  unfold wr_le. rewrite wr_Some by (rewrite length_le_bytes; lia). cbn [mbind option_bind].
  set (img1 := _ ++ _).
  assert (wr_le img off 4 0 = Some img1) as Hw
    by (unfold wr_le; rewrite wr_Some by (rewrite length_le_bytes; lia); done).
  pose proof (wr_length _ _ _ _ Hw) as Hl1. rewrite <- Hl1. apply IH; [lia|lia|].
  apply (word_wr_header _ _ _ _ _ Hw); [lia|done].
Qed.

(** Loading an image whose regions are behind the header and inside the image
    succeeds and is the composition of the reference loops. *)
Lemma os_load_image_ok header img hd :
  read_header img = Some hd -> header_untouched hd -> regions_fit hd (length img) ->
  exists img1 img2 img',
    patch_words (module_words hd) (module_at hd) header img = Some img1 /\
    patch_words (got_words hd) (got_at hd) header img1 = Some img2 /\
    clear_words (zero_words hd) (zero_at hd) img2 = Some img' /\
    os_load_image header img
    = Some (img', if ctrue (h_entry hd) then LoadedApplication
                  else RegisterModule (u32 (header + h_module_offset hd * sizeof_lf_module32))).
Proof.
  intros Hhd (Hu1 & Hu2 & Hu3) (Hf1 & Hf2 & Hf3).
  destruct (patch_words_Some _ header _ _ _ Hf1 Hu1 Hhd) as (img1 & H1 & Hl1 & Hhd1). rewrite <- Hl1 in Hf2, Hf3.
  destruct (patch_words_Some _ header _ _ _ Hf2 Hu2 Hhd1) as (img2 & H2 & Hl2 & Hhd2). rewrite <- Hl2 in Hf3.
  destruct (clear_words_Some _ _ _ _ Hf3 Hu3 Hhd2) as (img3 & H3 & Hl3 & Hhd3).
  exists img1, img2, img3. do 3 (split; [done|]).
  unfold os_load_image. rewrite Hhd. cbn [mbind option_bind].
  rewrite (patch_loop_words hd) by first [done|unfold module_words, module_at in Hu1; lia].
  rewrite Nat.sub_0_r, Nat.add_0_r. fold (module_words hd) (module_at hd). rewrite H1. cbn [mbind option_bind].
  rewrite Hhd1. cbn [mbind option_bind].
  rewrite (patch_loop_words hd) by first [done|unfold got_words, got_at in Hu2; lia].
  rewrite Nat.sub_0_r, Nat.add_0_r. fold (got_words hd) (got_at hd). rewrite H2. cbn [mbind option_bind].
  rewrite Hhd2. cbn [mbind option_bind].
  rewrite (zero_loop_words hd) by first [done|unfold zero_words, zero_at in Hu3; lia].
  rewrite Nat.sub_0_r, Nat.add_0_r. fold (zero_words hd) (zero_at hd). rewrite H3. cbn [mbind option_bind].
  rewrite Hhd3. cbn [mbind option_bind]. by destruct (ctrue (h_entry hd)).
Qed.
End Loader.
