(* ===== verification/Mmio.v ===== *)
(** * Memory-mapped devices

    Firmware talks to hardware by reading and writing registers. The hardware
    is a parameter: [hw_read] gives the value a register has when it is read
    after a history of accesses, so any deterministic device, with any inputs,
    is an instance. Firmware runs on a state that records the history. *)

From S2P Require Import Prelude.
From stdpp Require Import base list gmap sets.
From Stdlib Require Import ZArith Lia.
Local Open Scope Z_scope.

(** One access to a register of type [R]. *)
Inductive access (R : Type) :=
| Rd (r : R) (v : Z)
| Wr (r : R) (v : Z).
Arguments Rd {R} r v.
Arguments Wr {R} r v.

(** The width of the registers in bits. *)
Class Registers (R : Type) := reg_bits : Z.

(** The history is kept newest first. *)
Class Hardware (R : Type) := hw_read : list (access R) -> R -> Z.

(** A value as a register holds it. *)
Definition rval {R} `{!Registers R} (r : R) (v : Z) : Z := v mod 2 ^ reg_bits.

(** A firmware state that contains the history of accesses. *)
Class HasLog (R S : Type) := {
  get_log : S -> list (access R);
  put_log : list (access R) -> S -> S;
  get_put_log l s : get_log (put_log l s) = l;
  put_put_log l l' s : put_log l (put_log l' s) = put_log l s;
  put_get_log s : put_log (get_log s) s = s;
}.

Section Access.
Context {R S : Type} `{!Registers R, !Hardware R, !HasLog R S}.

Definition log_event (a : access R) (s : S) : S := put_log (a :: get_log s) s.

(** The value a read gives in a state. *)
Definition seen (s : S) (r : R) : Z := rval r (hw_read (get_log s) r).

(** Reads a register. *)
Definition rdr (r : R) : M S Z := fun s => Ok (seen s r, log_event (Rd r (seen s r)) s).

(** Writes a register. *)
Definition wrr (r : R) (v : Z) : M S unit := fun s => Ok (tt, log_event (Wr r (rval r v)) s).

(** [r |= v] and [r &= ~v] on an n-bit register. *)
Definition orr (r : R) (v : Z) : M S unit := x ← rdr r; wrr r (Z.lor x v).
Definition clrr (r : R) (v : Z) : M S unit := x ← rdr r; wrr r (Z.ldiff x v).

(** [while (!(r & mask)) ;] with at most [fuel] further looks at the register. *)
Fixpoint wait_set (fuel : nat) (r : R) (mask : Z) : M S unit :=
  x ← rdr r;
  if ctrue (Z.land x mask) then mret tt
  else match fuel with O => spin | Datatypes.S fuel => wait_set fuel r mask end.
End Access.

(** ** Observations on histories *)

Section Observe.
Context {R : Type} `{!EqDecision R}.

(** The values written to (read from) a register, oldest first. *)
Definition writes (r : R) (l : list (access R)) : list Z :=
  rev (omap (fun a => match a with Wr r' v => if decide (r' = r) then Some v else None | Rd _ _ => None end) l).
Definition reads (r : R) (l : list (access R)) : list Z :=
  rev (omap (fun a => match a with Rd r' v => if decide (r' = r) then Some v else None | Wr _ _ => None end) l).

Lemma writes_wr r v l : writes r (Wr r v :: l) = writes r l ++ [v].
Proof. unfold writes. cbn [omap list_omap]. by rewrite decide_True by done. Qed.
Lemma writes_wr_ne r r' v l : r' <> r -> writes r (Wr r' v :: l) = writes r l.
Proof. intros H. unfold writes. cbn [omap list_omap]. by rewrite decide_False by done. Qed.
Lemma writes_rd r r' v l : writes r (Rd r' v :: l) = writes r l.
Proof. done. Qed.
Lemma reads_rd r v l : reads r (Rd r v :: l) = reads r l ++ [v].
Proof. unfold reads. cbn [omap list_omap]. by rewrite decide_True by done. Qed.
Lemma reads_rd_ne r r' v l : r' <> r -> reads r (Rd r' v :: l) = reads r l.
Proof. intros H. unfold reads. cbn [omap list_omap]. by rewrite decide_False by done. Qed.
Lemma reads_wr r r' v l : reads r (Wr r' v :: l) = reads r l.
Proof. done. Qed.
End Observe.

(** Evaluates [writes] and [reads] on a history with a concrete front. *)
Ltac observe :=
  repeat first
    [ rewrite writes_wr | rewrite reads_rd | rewrite writes_rd | rewrite reads_wr
    | rewrite writes_wr_ne by discriminate | rewrite reads_rd_ne by discriminate ].

Section Steps.
Context {R S : Type} `{!Registers R, !Hardware R, !HasLog R S}.
Implicit Types s : S.

Lemma bind_rdr {B} r (f : Z -> M S B) s :
  (rdr r ≫= f) s = f (seen s r) (log_event (Rd r (seen s r)) s).
Proof. done. Qed.

Lemma bind_wrr {B} r v (f : unit -> M S B) s : (wrr r v ≫= f) s = f tt (log_event (Wr r (rval r v)) s).
Proof. done. Qed.

Lemma get_log_event a s : get_log (log_event a s) = a :: get_log s.
Proof. unfold log_event. apply get_put_log. Qed.

(** A wait returns at once on a flag that is always set. *)
Lemma wait_set_ready fuel r mask s :
  (forall s', ctrue (Z.land (seen s' r) mask) = true) ->
  wait_set fuel r mask s = Ok (tt, log_event (Rd r (seen s r)) s).
Proof.
  intros H. destruct fuel as [|fuel]; cbn [wait_set]; rewrite bind_rdr, H; done.
Qed.

(** A wait on a flag that is never set does not return. *)
Lemma wait_set_never fuel r mask s :
  (forall s', ctrue (Z.land (seen s' r) mask) = false) -> wait_set fuel r mask s = Spin.
Proof.
  intros H. revert s. induction fuel as [|fuel IH]; intros s; cbn [wait_set]; rewrite bind_rdr, H; [done|apply IH].
Qed.
End Steps.
