(* ===== verification/Avr.v ===== *)
(** * The ATmega32U2 and its USB device (platforms/atmegau2)

    The registers of the bridge processor, and the firmware's USB driver: bulk
    transfers (src/bulk.c), the control endpoint and its interrupt routines
    (src/control.c), the descriptors (src/descriptors.c) and the debug channel
    (src/debug.c). Variables the interrupt routines share with the main program
    ([volatile] in the source) are read and written like registers, so that a
    read sees whatever an interrupt left there. *)

From S2P Require Import Prelude Errors Mmio.
From stdpp Require Import base list gmap sets strings.
From Stdlib Require Import ZArith Lia.
Local Open Scope Z_scope.

Inductive avr_reg :=
| SREG | CLKPR | WDTCSR
| UENUM | UEINTX | UEDATX | UECONX | UECFG0X | UECFG1X | UEIENX | UERST
| UDFNUML | UDADDR | UDINT | UDIEN | UDCON | USBCON | PLLCSR
| PORTB | DDRB | PORTC | DDRC | PINC | PORTD | DDRD | PIND | PCMSK1 | PCICR
| UCSR1A | UCSR1B | UCSR1C | UBRR1L | UDR1
| SPCR | SPSR | SPDR
| megausb_configuration | debug_flush_timer.

#[global] Instance avr_reg_eq_dec : EqDecision avr_reg.
Proof. solve_decision. Defined.
#[global] Instance avr_registers : Registers avr_reg := 8.

(** The history, and the variables only the main program uses: the error
    register, the UART's receive buffer and the debug channel's flag. *)
Record avr := Avr {
  a_log : list (access avr_reg);
  a_err : Z;
  a_idx : Z;
  a_uart0_buffer : list Z;
  a_previous_timeout : Z;
}.

#[global] Instance avr_log : HasLog avr_reg avr.
Proof.
  refine {| get_log := a_log;
            put_log l s := Avr l (a_err s) (a_idx s) (a_uart0_buffer s) (a_previous_timeout s) |};
  [done|done|by intros []].
Defined.

Abbreviation A_ := (M avr).

Definition av_set_err (e : Z) (s : avr) : avr :=
  Avr (a_log s) e (a_idx s) (a_uart0_buffer s) (a_previous_timeout s).
Definition av_set_uart (i : Z) (b : list Z) (s : avr) : avr :=
  Avr (a_log s) (a_err s) i b (a_previous_timeout s).
Definition av_set_timeout (x : Z) (s : avr) : avr :=
  Avr (a_log s) (a_err s) (a_idx s) (a_uart0_buffer s) x.

(** Bit positions, from the processor's data sheet. *)
Definition NAKINI : Z := 6.
Definition RWAL : Z := 5.
Definition NAKOUTI : Z := 4.
Definition RXSTPI : Z := 3.
Definition RXOUTI : Z := 2.
Definition STALLEDI : Z := 1.
Definition TXINI : Z := 0.
Definition STALLRQ : Z := 5.
Definition STALLRQC : Z := 4.
Definition RSTDT : Z := 3.
Definition EPEN : Z := 0.
Definition EORSTI : Z := 3.
Definition SOFI : Z := 2.
Definition EORSTE : Z := 3.
Definition SOFE : Z := 2.
Definition RXSTPE : Z := 3.
Definition ADDEN : Z := 7.
Definition USBE : Z := 7.
Definition FRZCLK : Z := 5.
Definition PLLP0 : Z := 2.
Definition PLLE : Z := 1.
Definition PLOCK : Z := 0.

(** include/megausb.h and include/atmegau2.h. *)
Definition USB_CONTROL_ENDPOINT : Z := 0.
Definition USB_CONTROL_SIZE : Z := 16.
Definition ENDPOINT_TYPE_CONTROL : Z := 0x00.
Definition ENDPOINT_TYPE_BULK_IN : Z := 0x81.
Definition ENDPOINT_TYPE_BULK_OUT : Z := 0x80.
Definition ENDPOINT_TYPE_INTERRUPT_IN : Z := 0xC1.
Definition ENDPOINT_SINGLE_BUFFER : Z := 0x02.
Definition ENDPOINT_SIZE (s : Z) : Z :=
  if 32 <? s then 0x30 else if 16 <? s then 0x20 else if 8 <? s then 0x10 else 0x00.
Definition MAX_ENDPOINT : Z := 4.
Definition GET_STATUS : Z := 0x00.
Definition CLEAR_FEATURE : Z := 0x01.
Definition SET_FEATURE : Z := 0x03.
Definition SET_ADDRESS : Z := 0x05.
Definition GET_DESCRIPTOR : Z := 0x06.
Definition GET_CONFIGURATION : Z := 0x08.
Definition SET_CONFIGURATION : Z := 0x09.
Definition VENDOR_SPECIFIC : Z := 0xFF.
Definition USB_IN_MASK : Z := 0x80.
Definition BULK_IN_ENDPOINT : Z := Z.lor 0x01 USB_IN_MASK.
Definition BULK_IN_SIZE : Z := 64.
Definition BULK_OUT_ENDPOINT : Z := 0x02.
Definition BULK_OUT_SIZE : Z := 64.
Definition DEBUG_INTERFACE : Z := 1.
Definition DEBUG_IN_ENDPOINT : Z := Z.lor 0x03 USB_IN_MASK.
Definition DEBUG_IN_SIZE : Z := 32.
Definition FLIPPER_USB_VENDOR_ID : Z := 0x16C0.
Definition USB_PRODUCT_ID : Z := 0x0480.

(** ** Descriptors *)

Definition lo (x : Z) : Z := u8 x.
Definition hi (x : Z) : Z := u8 (Z.shiftr x 8).

(** The endpoint table: enable, type and size of endpoints 1 to 3. *)
Definition endpoint : list Z :=
  [1; ENDPOINT_TYPE_BULK_IN; Z.lor (ENDPOINT_SIZE BULK_IN_SIZE) ENDPOINT_SINGLE_BUFFER;
   1; ENDPOINT_TYPE_BULK_OUT; Z.lor (ENDPOINT_SIZE BULK_OUT_SIZE) ENDPOINT_SINGLE_BUFFER;
   1; ENDPOINT_TYPE_INTERRUPT_IN; Z.lor (ENDPOINT_SIZE DEBUG_IN_SIZE) ENDPOINT_SINGLE_BUFFER].

Definition device_descriptor : list Z :=
  [18; 1; 0x00; 0x02; VENDOR_SPECIFIC; 0; 0; USB_CONTROL_SIZE; lo FLIPPER_USB_VENDOR_ID; hi FLIPPER_USB_VENDOR_ID;
   lo USB_PRODUCT_ID; hi USB_PRODUCT_ID; 0x00; 0x01; 1; 2; 0; 1].

Definition CONFIGURATION_SIZE : Z := 9 + 9 + 7 + 7 + 9 + 7.

Definition configuration : list Z :=
  [0x09; 0x02; lo CONFIGURATION_SIZE; hi CONFIGURATION_SIZE; 0x01; 0x01; 0x00; 0xC0; 250] ++
  [0x09; 0x04; 0; 0x00; 0x02; VENDOR_SPECIFIC; 0x01; 0x01; 0x00] ++
  [0x07; 0x05; BULK_IN_ENDPOINT; 0x02; BULK_IN_SIZE; 0x00; 1] ++
  [0x07; 0x05; BULK_OUT_ENDPOINT; 0x02; BULK_OUT_SIZE; 0x00; 1] ++
  [0x09; 0x04; DEBUG_INTERFACE; 0x00; 0x01; VENDOR_SPECIFIC; 0x01; 0x01; 0x00] ++
  [0x07; 0x05; DEBUG_IN_ENDPOINT; 0x03; DEBUG_IN_SIZE; 0x00; 1].

(** A wide string literal with its terminator, two bytes per character. *)
Definition wide (s : string) : list Z :=
  mjoin ((fun c => le_bytes 2 (Z.of_N (Ascii.N_of_ascii c))) <$> String.list_ascii_of_string s) ++ [0; 0].
(** [struct usb_string] with [sizeof] of the literal as its length. *)
Definition usb_string (s : string) : list Z := [Z.of_nat (length (wide s)); 0x03] ++ wide s.

Definition language : list Z := [0x04; 0x03] ++ le_bytes 2 0x0409.
Definition manufacturer : list Z := usb_string "flipper.io".
Definition product : list Z := usb_string "Flipper: Carbon".

(** [struct _descriptor]; the address is the bytes stored there. *)
Record descriptor := Descriptor {
  ds_value : Z;
  ds_index : Z;
  ds_address : list Z;
  ds_length : Z;
}.

Definition descriptors : list descriptor :=
  [Descriptor 0x0100 0x0000 device_descriptor (Z.of_nat (length device_descriptor));
   Descriptor 0x0200 0x0000 configuration (Z.of_nat (length configuration));
   Descriptor 0x0300 0x0000 language 4;
   Descriptor 0x0301 0x0409 manufacturer (Z.of_nat (length (wide "flipper.io")));
   Descriptor 0x0302 0x0409 product (Z.of_nat (length (wide "Flipper: Carbon")))].

(** ** Bulk transfers (src/bulk.c) *)

Section Usb.
Context `{!Hardware avr_reg}.

(** How often a wait looks at the hardware before it is judged endless. *)
Context (fuel : nat).

(** [cli]: clears the interrupt flag of the status register. *)
Definition cli : A_ unit := clrr SREG 0x80.

Definition LF_USB_TIMEOUT_MS : Z := 3.

(** The wait loop of both transfers on endpoint [ep]: [Some] with the saved
    status register when the bank is ready, [None] when it gives up. *)
Fixpoint bulk_wait (n : nat) (ep timeout _sreg : Z) : A_ (option Z) :=
  x ← rdr UEINTX;
  if ctrue (Z.land x (bit RWAL)) then mret (Some _sreg)
  else
    wrr SREG _sreg;;
    f ← rdr UDFNUML;
    if f =? timeout then mret None
    else
      c ← rdr megausb_configuration;
      if c =? 0 then mret None
      else
        _sreg ← rdr SREG;
        cli;;
        wrr UENUM ep;;
        match n with O => spin | S n => bulk_wait n ep timeout _sreg end.

(** The number of banks: [int total = lf_ceiling(length, 64)], [int] having 16
    bits. *)
Definition bulk_total (length : Z) : nat := Z.to_nat (sint 16 (u32 (length + BULK_OUT_SIZE - 1) / BULK_OUT_SIZE)).

(** [while (len--) if (length) { *destination++ = UEDATX; length--; }]: the
    bytes stored and the remaining length. *)
Fixpoint receive_bank (len : nat) (length : Z) : A_ (list Z * Z) :=
  match len with
  | O => mret ([], length)
  | S len =>
    if ctrue length then
      b ← rdr UEDATX;
      '(bs, length) ← receive_bank len (length - 1);
      mret (b :: bs, length)
    else receive_bank len length
  end.

(** The loop over the banks: the status, the status register to restore, and
    the bytes stored at the destination. *)
Fixpoint receive_loop (total : nat) (length _sreg : Z) : A_ (option Z * list Z) :=
  match total with
  | O => mret (Some _sreg, [])
  | S total =>
    t ← rdr UDFNUML;
    r ← bulk_wait fuel BULK_OUT_ENDPOINT (u8 (t + LF_USB_TIMEOUT_MS)) _sreg;
    match r with
    | None => mret (None, [])
    | Some _sreg =>
      '(bs, length) ← receive_bank (Z.to_nat BULK_OUT_SIZE) length;
      wrr UEINTX (Z.lor (bit NAKINI) (Z.lor (bit RWAL) (Z.lor (bit RXSTPI) (Z.lor (bit STALLEDI) (bit TXINI)))));;
      '(r, rest) ← receive_loop total length _sreg;
      mret (r, bs ++ rest)
    end
  end.

(** Receives into a destination: the status and the bytes stored there. *)
Definition megausb_bulk_receive (length : Z) : A_ (Z * list Z) :=
  c ← rdr megausb_configuration;
  if c =? 0 then mret (lf_error, [])
  else
    _sreg ← rdr SREG;
    cli;;
    wrr UENUM BULK_OUT_ENDPOINT;;
    '(r, bs) ← receive_loop (bulk_total length) length _sreg;
    match r with
    | None => mret (lf_error, bs)
    | Some _sreg => wrr SREG _sreg;; mret (lf_success, bs)
    end.

(** [while (len--) if (length) { UEDATX = *source++; length--; }]: the bytes
    that are left. *)
Fixpoint transmit_bank (len : nat) (source : list Z) : A_ (list Z) :=
  match len with
  | O => mret source
  | S len =>
    match source with
    | [] => transmit_bank len []
    | b :: source => wrr UEDATX b;; transmit_bank len source
    end
  end.

Definition BULK_IN_SELECT : Z := Z.ldiff BULK_IN_ENDPOINT USB_IN_MASK.

Fixpoint transmit_loop (total : nat) (source : list Z) (_sreg : Z) : A_ (option Z) :=
  match total with
  | O => mret (Some _sreg)
  | S total =>
    t ← rdr UDFNUML;
    r ← bulk_wait fuel BULK_IN_SELECT (u8 (t + LF_USB_TIMEOUT_MS)) _sreg;
    match r with
    | None => mret None
    | Some _sreg =>
      source ← transmit_bank (Z.to_nat BULK_IN_SIZE) source;
      wrr UEINTX (Z.lor (bit RWAL) (Z.lor (bit NAKOUTI) (Z.lor (bit RXSTPI) (bit STALLEDI))));;
      transmit_loop total source _sreg
    end
  end.

(** Transmits the source. *)
Definition megausb_bulk_transmit (source : list Z) : A_ Z :=
  c ← rdr megausb_configuration;
  if c =? 0 then mret lf_error
  else
    _sreg ← rdr SREG;
    cli;;
    wrr UENUM BULK_IN_SELECT;;
    r ← transmit_loop (bulk_total (Z.of_nat (length source))) source _sreg;
    match r with
    | None => mret lf_error
    | Some _sreg => wrr SREG _sreg;; mret lf_success
    end.

(** src/interrupt.c: interrupt endpoints are not served. *)
Definition megausb_interrupt_receive (length : Z) : A_ Z := mret lf_error.
Definition megausb_interrupt_transmit (src : list Z) : A_ Z := mret lf_error.

(** ** The debug channel (src/debug.c) *)

Fixpoint putchar_wait (n : nat) (timeout intr_state : Z) : A_ (option Z) :=
  x ← rdr UEINTX;
  if ctrue (Z.land x (bit RWAL)) then mret (Some intr_state)
  else
    wrr SREG intr_state;;
    f ← rdr UDFNUML;
    if f =? timeout then modify (av_set_timeout 1);; mret None
    else
      c ← rdr megausb_configuration;
      if c =? 0 then mret None
      else
        intr_state ← rdr SREG;
        cli;;
        wrr UENUM DEBUG_IN_ENDPOINT;;
        match n with O => spin | S n => putchar_wait n timeout intr_state end.

(** Transmits a character: 0 on success, -1 on error. *)
Definition usb_debug_putchar (c : Z) : A_ Z :=
  conf ← rdr megausb_configuration;
  if conf =? 0 then mret (-1)
  else
    intr_state ← rdr SREG;
    cli;;
    wrr UENUM DEBUG_IN_ENDPOINT;;
    p ← gets a_previous_timeout;
    x ← (if ctrue p then x ← rdr UEINTX; mret (ctrue (Z.land x (bit RWAL))) else mret true);
    if negb x then wrr SREG intr_state;; mret (-1)
    else
      modify (av_set_timeout 0);;
      t ← rdr UDFNUML;
      r ← putchar_wait fuel (u8 (t + 3)) intr_state;
      match r with
      | None => mret (-1)
      | Some intr_state =>
        wrr UEDATX c;;
        x ← rdr UEINTX;
        (if negb (ctrue (Z.land x (bit RWAL))) then wrr UEINTX 0x3A;; wrr debug_flush_timer 0
         else wrr debug_flush_timer 2);;
        wrr SREG intr_state;;
        mret 0
      end.

(** [while (UEINTX & (1 << RWAL)) UEDATX = 0;] *)
Fixpoint pad_bank (n : nat) : A_ unit :=
  x ← rdr UEINTX;
  if ctrue (Z.land x (bit RWAL)) then
    wrr UEDATX 0;; match n with O => spin | S n => pad_bank n end
  else mret tt.

Definition usb_debug_flush_output : A_ unit :=
  intr_state ← rdr SREG;
  cli;;
  t ← rdr debug_flush_timer;
  (if ctrue t then
     wrr UENUM DEBUG_IN_ENDPOINT;; pad_bank fuel;; wrr UEINTX 0x3A;; wrr debug_flush_timer 0
   else mret tt);;
  wrr SREG intr_state.

(** ** The control endpoint (src/control.c) *)

Definition usb_configure : A_ Z :=
  wrr USBCON (Z.lor (bit USBE) (bit FRZCLK));;
  wrr PLLCSR (Z.lor (bit PLLE) (bit PLLP0));;
  wait_set fuel PLLCSR (bit PLOCK);;
  wrr USBCON (bit USBE);;
  wrr UDCON 0;;
  wrr megausb_configuration 0;;
  wrr UDIEN (Z.lor (bit EORSTE) (bit SOFE));;
  mret lf_success.

(** The general interrupt: end of reset and start of frame. *)
Definition ISR_USB_GEN_vect : A_ unit :=
  _udint ← rdr UDINT;
  wrr UDINT 0;;
  (if ctrue (Z.land _udint (bit EORSTI)) then
     wrr UENUM USB_CONTROL_ENDPOINT;;
     wrr UECONX (bit EPEN);;
     wrr UECFG0X ENDPOINT_TYPE_CONTROL;;
     wrr UECFG1X (Z.lor (ENDPOINT_SIZE USB_CONTROL_SIZE) ENDPOINT_SINGLE_BUFFER);;
     wrr UEIENX (bit RXSTPE);;
     wrr megausb_configuration 0
   else mret tt);;
  conf ← (if ctrue (Z.land _udint (bit SOFI)) then rdr megausb_configuration else mret 0);
  if ctrue conf then
    t ← rdr debug_flush_timer;
    if ctrue t then
      wrr debug_flush_timer (t - 1);;
      if (t - 1) =? 0 then wrr UENUM DEBUG_IN_ENDPOINT;; pad_bank fuel;; wrr UEINTX 0x3A else mret tt
    else mret tt
  else mret tt.

Definition usb_wait_in_ready : A_ unit := wait_set fuel UEINTX (bit TXINI).
Definition usb_send_in : A_ unit := wrr UEINTX (Z.lnot (bit TXINI)).
Definition usb_stall : A_ unit := wrr UECONX (Z.lor (bit STALLRQ) (bit EPEN)).

(** A 16-bit value sent low byte first. *)
Definition read_word : A_ Z := l ← rdr UEDATX; h ← rdr UEDATX; mret (Z.lor l (Z.shiftl h 8)).

(** The search for the descriptor the request names. *)
Fixpoint find_descriptor (list : list descriptor) (wValue wIndex : Z) : option descriptor :=
  match list with
  | [] => None
  | d :: list =>
    if (ds_value d =? wValue) && (ds_index d =? wIndex) then Some d
    else find_descriptor list wValue wIndex
  end.

(** [do i = UEINTX; while (!(i & (TXINI | RXOUTI)));] *)
Fixpoint wait_in_or_out (n : nat) : A_ Z :=
  i ← rdr UEINTX;
  if ctrue (Z.land i (Z.lor (bit TXINI) (bit RXOUTI))) then mret i
  else match n with O => spin | S n => wait_in_or_out n end.

(** Loads a packet of [n] bytes. *)
Fixpoint load_bytes (bs : list Z) : A_ unit :=
  match bs with [] => mret tt | b :: bs => wrr UEDATX b;; load_bytes bs end.

(** Sends [len] bytes from [addr] in packets of at most 16 bytes, a short one
    last. [rounds] bounds the packets: each but the last takes 16 bytes. *)
Fixpoint send_descriptor (rounds : nat) (addr : list Z) (len : Z) : A_ unit :=
  i ← wait_in_or_out fuel;
  if ctrue (Z.land i (bit RXOUTI)) then mret tt
  else
    let n := if len <? USB_CONTROL_SIZE then len else USB_CONTROL_SIZE in
    bs ← lift_opt (rd addr 0 (Z.to_nat n));
    load_bytes bs;;
    usb_send_in;;
    if ctrue (len - n) || (n =? USB_CONTROL_SIZE) then
      match rounds with
      | O => spin
      | S rounds => send_descriptor rounds (drop (Z.to_nat n) addr) (len - n)
      end
    else mret tt.

Definition get_descriptor (wValue wIndex wLength : Z) : A_ unit :=
  match find_descriptor descriptors wValue wIndex with
  | None => usb_stall
  | Some d =>
    let len := if wLength <? 256 then wLength else 255 in
    let len := if ds_length d <? len then ds_length d else len in
    send_descriptor 16 (ds_address d) len
  end.

(** [for (i = 1; i < 5; i++)] over the endpoint table at [cfg]. *)
Fixpoint configure_endpoints (todo : nat) (i : Z) (cfg : list Z) : A_ unit :=
  match todo with
  | O => mret tt
  | S todo =>
    wrr UENUM i;;
    en ← lift_opt (cfg !! 0%nat);
    wrr UECONX en;;
    if ctrue en then
      a ← lift_opt (cfg !! 1%nat); wrr UECFG0X a;;
      b ← lift_opt (cfg !! 2%nat); wrr UECFG1X b;;
      configure_endpoints todo (i + 1) (drop 3 cfg)
    else configure_endpoints todo (i + 1) (drop 1 cfg)
  end.

Definition get_status (bmRequestType wIndex : Z) : A_ unit :=
  usb_wait_in_ready;;
  i ← (if bmRequestType =? 0x82 then
         wrr UENUM wIndex;;
         x ← rdr UECONX;
         wrr UENUM 0;;
         mret (if ctrue (Z.land x (bit STALLRQ)) then 1 else 0)
       else mret 0);
  wrr UEDATX i;;
  wrr UEDATX 0;;
  usb_send_in.

Definition change_feature (bRequest i : Z) : A_ unit :=
  usb_send_in;;
  wrr UENUM i;;
  if bRequest =? SET_FEATURE then usb_stall
  else
    wrr UECONX (Z.lor (bit STALLRQC) (Z.lor (bit RSTDT) (bit EPEN)));;
    wrr UERST (bit i);;
    wrr UERST 0.

(** A decoded SETUP packet; requests that are not served are stalled. *)
Definition control_request (bmRequestType bRequest wValue wIndex wLength : Z) : A_ unit :=
  if bRequest =? GET_DESCRIPTOR then get_descriptor wValue wIndex wLength
  else if bRequest =? SET_ADDRESS then
    usb_send_in;; usb_wait_in_ready;; wrr UDADDR (Z.lor wValue (bit ADDEN))
  else if (bRequest =? SET_CONFIGURATION) && (bmRequestType =? 0) then
    wrr megausb_configuration wValue;;
    usb_send_in;;
    configure_endpoints 4 1 endpoint;;
    wrr UERST 0x1E;;
    wrr UERST 0
  else if (bRequest =? GET_CONFIGURATION) && (bmRequestType =? 0x80) then
    usb_wait_in_ready;;
    c ← rdr megausb_configuration;
    wrr UEDATX c;;
    usb_send_in
  else if bRequest =? GET_STATUS then get_status bmRequestType wIndex
  else if ((bRequest =? CLEAR_FEATURE) || (bRequest =? SET_FEATURE)) && (bmRequestType =? 0x02) && (wValue =? 0) then
    let i := Z.land wIndex 0x7F in
    if (1 <=? i) && (i <=? MAX_ENDPOINT) then change_feature bRequest i else usb_stall
  else usb_stall.

(** The communications interrupt. *)
Definition ISR_USB_COM_vect : A_ unit :=
  wrr UENUM USB_CONTROL_ENDPOINT;;
  intbits ← rdr UEINTX;
  if ctrue (Z.land intbits (bit RXSTPI)) then
    bmRequestType ← rdr UEDATX;
    bRequest ← rdr UEDATX;
    wValue ← read_word;
    wIndex ← read_word;
    wLength ← read_word;
    wrr UEINTX (Z.lnot (Z.lor (bit RXSTPI) (Z.lor (bit RXOUTI) (bit TXINI))));;
    control_request bmRequestType bRequest wValue wIndex wLength
  else usb_stall.
End Usb.

(** ** Bulk transfers on a ready bank *)

(** The data bytes ([Some]) and bank releases ([None]) the firmware wrote,
    oldest first. *)
Definition bank_writes (l : list (access avr_reg)) : list (option Z) :=
  rev (omap (fun a => match a with Wr UEDATX v => Some (Some v) | Wr UEINTX _ => Some None | _ => None end) l).

(** A bank: its bytes, then its release. *)
Definition bank (bs : list Z) : list (option Z) := (Some <$> bs) ++ [None].

Section Bulk.
Context `{!Hardware avr_reg}.
Context (fuel : nat).
Implicit Types s : avr.

(** Every look at the endpoint finds a bank that can be accessed; the host has
    configured the device. *)
Definition bank_ready : Prop := forall s, ctrue (Z.land (seen s UEINTX) (bit RWAL)) = true.
Definition configured : Prop := forall s, seen s megausb_configuration <> 0.

Lemma bank_writes_data v l : bank_writes (Wr UEDATX v :: l) = bank_writes l ++ [Some v].
Proof. done. Qed.
Lemma bank_writes_release v l : bank_writes (Wr UEINTX v :: l) = bank_writes l ++ [None].
Proof. done. Qed.

Lemma bulk_wait_ready n ep t sreg s :
  bank_ready -> bulk_wait n ep t sreg s = Ok (Some sreg, log_event (Rd UEINTX (seen s UEINTX)) s).
Proof. intros H. destruct n; cbn [bulk_wait]; rewrite bind_rdr, H; done. Qed.

Lemma transmit_bank_ok n : forall src s, Forall is_byte src ->
  exists s', transmit_bank n src s = Ok (drop n src, s') /\
    bank_writes (a_log s') = bank_writes (a_log s) ++ (Some <$> take n src).
Proof.
  induction n as [|n IH]; intros src s Hb; cbn [transmit_bank].
  - exists s. rewrite take_0, app_nil_r. by rewrite drop_0.
  - destruct src as [|b src].
    + destruct (IH [] s Hb) as (s' & Hrun & Hw). exists s'. by rewrite drop_nil, take_nil in *.
    + apply Forall_cons in Hb as [Hb1 Hb]. rewrite bind_wrr.
      destruct (IH src (log_event (Wr UEDATX (rval UEDATX b)) s) Hb) as (s' & Hrun & Hw).
      exists s'. split; [done|]. rewrite Hw. change (a_log (log_event ?a s)) with (a :: a_log s).
      rewrite bank_writes_data, <- app_assoc. cbn. unfold rval. by rewrite Z.mod_small by exact Hb1.
Qed.

Lemma transmit_loop_ok total : forall src sreg s,
  bank_ready -> Forall is_byte src -> (64 * (total - 1) < length src <= 64 * total \/ total = 0 /\ src = [])%nat ->
  exists s' banks, transmit_loop fuel total src sreg s = Ok (Some sreg, s') /\
    mjoin banks = src /\ Forall (fun b => 0 < length b <= 64)%nat banks /\
    bank_writes (a_log s') = bank_writes (a_log s) ++ mjoin (bank <$> banks).
Proof.
  induction total as [|total IH]; intros src sreg s Hr Hb Hl; cbn [transmit_loop].
  - exists s, []. assert (src = []) as -> by (destruct Hl as [Hl|[_ ->]]; [apply nil_length_inv; lia|done]).
    cbn. by rewrite app_nil_r.
  - rewrite bind_rdr. mstep (bulk_wait_ready fuel BULK_IN_SELECT (u8 (seen s UDFNUML + LF_USB_TIMEOUT_MS)) sreg
                               (log_event (Rd UDFNUML (seen s UDFNUML)) s) Hr).
    set (s1 := log_event (Rd UEINTX _) _). change (Z.to_nat BULK_IN_SIZE) with 64%nat.
    destruct (transmit_bank_ok 64 src s1 Hb) as (s2 & Hbank & Hw2). mstep Hbank. rewrite bind_wrr.
    set (s3 := log_event (Wr UEINTX _) s2).
    destruct (IH (drop 64 src) sreg s3 Hr) as (s' & banks & Hrun & Hj & Hsz & Hw').
    { by apply Forall_drop. }
    { destruct Hl as [Hl|[? _]]; [|done]. rewrite length_drop.
      destruct total as [|total]; [right; split; [done|apply drop_ge; lia]|left; lia]. }
    exists s', (take 64 src :: banks). split; [done|]. split; [change (take 64 src ++ mjoin banks = src); rewrite Hj; apply take_drop|]. split.
    + constructor; [|done]. rewrite length_take. destruct Hl as [Hl|[? _]]; [lia|done].
    + rewrite Hw'. change (a_log s3) with (Wr UEINTX (rval UEINTX (Z.lor (bit RWAL) (Z.lor (bit NAKOUTI) (Z.lor (bit RXSTPI) (bit STALLEDI))))) :: a_log s2).
      rewrite bank_writes_release, Hw2. change (bank_writes (a_log s1)) with (bank_writes (a_log s)).
      cbn [fmap list_fmap mjoin list_join]. unfold bank at 2. by rewrite <- !app_assoc.
Qed.

Lemma bulk_total_ok n : Z.of_nat n <= 64 * 32767 ->
  (64 * (bulk_total (Z.of_nat n) - 1) < n <= 64 * bulk_total (Z.of_nat n) \/ bulk_total (Z.of_nat n) = 0 /\ n = 0)%nat.
Proof.
  intros Hn. unfold bulk_total, BULK_OUT_SIZE, u32, sint.
  rewrite (Z.mod_small (Z.of_nat n + 64 - 1)) by lia.
  set (q := (Z.of_nat n + 64 - 1) / 64). assert (0 <= q < 32768) as Hq by (unfold q; split; [apply Z.div_pos; lia|apply Z.div_lt_upper_bound; lia]).
  rewrite (Z.mod_small q) by lia. destruct (Z.ltb_spec q (2 ^ (16 - 1))); [|lia].
  pose proof (Z.div_mod (Z.of_nat n + 64 - 1) 64 ltac:(lia)) as Hdm. fold q in Hdm.
  pose proof (Z.mod_pos_bound (Z.of_nat n + 64 - 1) 64 ltac:(lia)). lia.
Qed.

Lemma bulk_transmit_ok src s :
  bank_ready -> configured -> Forall is_byte src -> Z.of_nat (length src) <= 64 * 32767 ->
  exists l1 s' (banks : list (list Z)), megausb_bulk_transmit fuel src s = Ok (lf_success, s') /\
    mjoin banks = src /\ Forall (fun b => 0 < length b <= 64)%nat banks /\
    bank_writes (a_log s') = bank_writes (a_log s) ++ mjoin (bank <$> banks) /\
    a_log s' = Wr SREG (seen (log_event (Rd megausb_configuration (seen s megausb_configuration)) s) SREG) :: l1.
Proof.
  intros Hr Hc Hb Hl. unfold megausb_bulk_transmit. rewrite bind_rdr.
  destruct (Z.eqb_spec (seen s megausb_configuration) 0) as [H0|_]; [by apply Hc in H0|].
  rewrite bind_rdr. set (sreg := seen _ SREG). unfold cli, clrr. rewrite bind_assoc, bind_rdr, !bind_wrr.
  set (s3 := log_event (Wr UENUM _) _).
  destruct (transmit_loop_ok (bulk_total (Z.of_nat (length src))) src sreg s3 Hr Hb) as (s' & banks & Hrun & Hj & Hsz & Hw).
  { destruct (bulk_total_ok (length src) Hl) as [H|[H1 H2]]; [by left|right]. split; [done|]. by apply nil_length_inv. }
  mstep Hrun. rewrite bind_wrr. eexists _, _, banks. split; [done|]. split; [done|]. split; [done|].
  split; [exact Hw|]. cbn. unfold rval. by rewrite (Z.mod_small sreg) by (apply Z.mod_pos_bound; done).
Qed.

Lemma receive_bank_ok n : forall len s, 0 <= len ->
  exists s' bs, receive_bank n len s = Ok ((bs, Z.max 0 (len - Z.of_nat n)), s') /\
    Z.of_nat (length bs) = Z.min (Z.of_nat n) len /\
    reads UEDATX (a_log s') = reads UEDATX (a_log s) ++ bs.
Proof.
  induction n as [|n IH]; intros len s Hl; cbn [receive_bank].
  - exists s, []. rewrite Z.sub_0_r, Z.max_r, app_nil_r by lia. split; [done|]. split; [cbn [length]; lia|done].
  - unfold ctrue. destruct (Z.eqb_spec len 0) as [->|Hne]; cbn [negb].
    + destruct (IH 0 s ltac:(lia)) as (s' & bs & Hrun & Hlen & Hrd). exists s', bs. rewrite Hrun. split; [|split; [lia|done]].
      by replace (Z.max 0 (0 - Z.of_nat (S n))) with (Z.max 0 (0 - Z.of_nat n)) by lia.
    + rewrite bind_rdr. set (s1 := log_event (Rd UEDATX _) s).
      destruct (IH (len - 1) s1 ltac:(lia)) as (s' & bs & Hrun & Hlen & Hrd). mstep Hrun.
      exists s', (seen s UEDATX :: bs). split; [|split; [cbn; lia|]].
      * by replace (Z.max 0 (len - Z.of_nat (S n))) with (Z.max 0 (len - 1 - Z.of_nat n)) by lia.
      * rewrite Hrd. change (a_log s1) with (Rd UEDATX (seen s UEDATX) :: a_log s). observe. by rewrite <- app_assoc.
Qed.

Lemma receive_loop_ok total : forall len sreg s,
  bank_ready -> 0 <= len <= 64 * Z.of_nat total ->
  exists s' bs, receive_loop fuel total len sreg s = Ok ((Some sreg, bs), s') /\
    Z.of_nat (length bs) = len /\ reads UEDATX (a_log s') = reads UEDATX (a_log s) ++ bs.
Proof.
  induction total as [|total IH]; intros len sreg s Hr Hl; cbn [receive_loop].
  - exists s, []. rewrite app_nil_r. split; [done|]. split; [cbn; lia|done].
  - rewrite bind_rdr. mstep (bulk_wait_ready fuel BULK_OUT_ENDPOINT (u8 (seen s UDFNUML + LF_USB_TIMEOUT_MS)) sreg
                               (log_event (Rd UDFNUML (seen s UDFNUML)) s) Hr).
    set (s1 := log_event (Rd UEINTX _) _). change (Z.to_nat BULK_OUT_SIZE) with 64%nat.
    destruct (receive_bank_ok 64 len s1 ltac:(lia)) as (s2 & bs & Hbank & Hlen & Hrd). mstep Hbank. rewrite bind_wrr.
    set (s3 := log_event (Wr UEINTX _) s2).
    destruct (IH (Z.max 0 (len - Z.of_nat 64)) sreg s3 Hr ltac:(lia)) as (s' & rest & Hrun & Hlen' & Hrd').
    mstep Hrun. exists s', (bs ++ rest). split; [done|]. rewrite length_app. split; [lia|].
    rewrite Hrd'. change (reads UEDATX (a_log s3)) with (reads UEDATX (a_log s2)).
    rewrite Hrd. change (reads UEDATX (a_log s1)) with (reads UEDATX (a_log s)). by rewrite <- app_assoc.
Qed.

Lemma bulk_receive_ok n s :
  bank_ready -> configured -> Z.of_nat n <= 64 * 32767 ->
  exists l1 s' bs, megausb_bulk_receive fuel (Z.of_nat n) s = Ok ((lf_success, bs), s') /\ length bs = n /\
    reads UEDATX (a_log s') = reads UEDATX (a_log s) ++ bs /\
    a_log s' = Wr SREG (seen (log_event (Rd megausb_configuration (seen s megausb_configuration)) s) SREG) :: l1.
Proof.
  intros Hr Hc Hl. unfold megausb_bulk_receive. rewrite bind_rdr.
  destruct (Z.eqb_spec (seen s megausb_configuration) 0) as [H0|_]; [by apply Hc in H0|].
  rewrite bind_rdr. set (sreg := seen _ SREG). unfold cli, clrr. rewrite bind_assoc, bind_rdr, !bind_wrr.
  set (s3 := log_event (Wr UENUM _) _).
  destruct (receive_loop_ok (bulk_total (Z.of_nat n)) (Z.of_nat n) sreg s3 Hr) as (s' & bs & Hrun & Hlen & Hrd).
  { pose proof (bulk_total_ok n Hl). lia. }
  mstep Hrun. rewrite bind_wrr. eexists _, _, bs. split; [done|]. split; [lia|]. split; [exact Hrd|].
  cbn. unfold rval. by rewrite (Z.mod_small sreg) by (apply Z.mod_pos_bound; done).
Qed.
End Bulk.

(** ** Control transfers *)

Section Control.
Context `{!Hardware avr_reg}.
Context (fuel : nat).
Implicit Types s : avr.

(** The control endpoint can always take a packet and the host does not end the
    data stage early. *)
Definition in_ready : Prop := forall s,
  ctrue (Z.land (seen s UEINTX) (bit TXINI)) = true /\ Z.land (seen s UEINTX) (bit RXOUTI) = 0.

Lemma wait_in_or_out_ready n s :
  in_ready -> wait_in_or_out n s = Ok (seen s UEINTX, log_event (Rd UEINTX (seen s UEINTX)) s).
Proof.
  intros H. destruct (H s) as [H1 H2].
  assert (ctrue (Z.land (seen s UEINTX) (Z.lor (bit TXINI) (bit RXOUTI))) = true) as Hc.
  { rewrite Z.land_lor_distr_r, H2, Z.lor_0_r. exact H1. }
  destruct n; cbn [wait_in_or_out]; rewrite bind_rdr, Hc; done.
Qed.

Lemma load_bytes_ok bs : forall s, Forall is_byte bs ->
  exists s', load_bytes bs s = Ok (tt, s') /\ bank_writes (a_log s') = bank_writes (a_log s) ++ (Some <$> bs).
Proof.
  induction bs as [|b bs IH]; intros s Hb; cbn [load_bytes].
  - exists s. by rewrite app_nil_r.
  - apply Forall_cons in Hb as [Hb1 Hb]. rewrite bind_wrr.
    destruct (IH (log_event (Wr UEDATX (rval UEDATX b)) s) Hb) as (s' & Hrun & Hw).
    exists s'. split; [done|]. rewrite Hw. change (a_log (log_event ?a s)) with (a :: a_log s).
    rewrite bank_writes_data, <- app_assoc. cbn. unfold rval. by rewrite Z.mod_small by exact Hb1.
Qed.

(** One packet, then either the end or the rest. *)
Lemma send_descriptor_step rounds addr len s :
  in_ready -> Forall is_byte addr -> 0 <= len <= Z.of_nat (length addr) ->
  let n := Z.min len 16 in
  exists s', bank_writes (a_log s') = bank_writes (a_log s) ++ bank (take (Z.to_nat n) addr) /\
    send_descriptor fuel rounds addr len s
    = (if ctrue (len - n) || (n =? USB_CONTROL_SIZE) then
         match rounds with
         | O => spin
         | S rounds => send_descriptor fuel rounds (drop (Z.to_nat n) addr) (len - n)
         end
       else mret tt) s'.
Proof.
  intros Hr Hb Hl n.
  assert ((if len <? USB_CONTROL_SIZE then len else USB_CONTROL_SIZE) = n) as Hn.
  { unfold n, USB_CONTROL_SIZE. destruct (Z.ltb_spec len 16); lia. }
  set (s1 := log_event (Rd UEINTX (seen s UEINTX)) s).
  destruct (load_bytes_ok (take (Z.to_nat n) addr) s1) as (s2 & Hload & Hw); [by apply Forall_take|].
  exists (log_event (Wr UEINTX (rval UEINTX (Z.lnot (bit TXINI)))) s2). split.
  - change (a_log (log_event ?a s2)) with (a :: a_log s2). rewrite bank_writes_release, Hw.
    change (bank_writes (a_log s1)) with (bank_writes (a_log s)). unfold bank. by rewrite <- app_assoc.
  - assert (rd addr 0 (Z.to_nat n) = Some (take (Z.to_nat n) addr)) as Hrd by (rewrite rd_Some by lia; by rewrite drop_0).
    destruct rounds as [|rounds]; cbn [send_descriptor]; mstep (wait_in_or_out_ready fuel s Hr);
      rewrite (proj2 (Hr s)); change (ctrue 0) with false; cbv iota zeta; rewrite Hn, Hrd; cbn [lift_opt]; rewrite bind_ret_l;
      fold s1; mstep Hload; unfold usb_send_in; by rewrite bind_wrr.
Qed.

Lemma take_app_drop {A} (l : list A) n m : take (n + m) l = take n l ++ take m (drop n l).
Proof. revert l. induction n as [|n IH]; intros l; [done|]. destruct l as [|x l]; cbn; [by rewrite !take_nil|by rewrite IH]. Qed.

(** A short packet ends the transfer. *)
Lemma send_descriptor_short rounds addr len s :
  in_ready -> Forall is_byte addr -> 0 <= len <= Z.of_nat (length addr) -> len < 16 ->
  exists s', send_descriptor fuel rounds addr len s = Ok (tt, s') /\
    bank_writes (a_log s') = bank_writes (a_log s) ++ bank (take (Z.to_nat len) addr).
Proof.
  intros Hr Hb Hl Hk. destruct (send_descriptor_step rounds addr len s Hr Hb Hl) as (s1 & Hw & Hrun).
  rewrite Z.min_l in Hw, Hrun by lia. exists s1. split; [|done]. rewrite Hrun, Z.sub_diag.
  unfold USB_CONTROL_SIZE. by destruct (Z.eqb_spec len 16); [lia|].
Qed.

Lemma send_descriptor_ok rounds : forall addr len s,
  in_ready -> Forall is_byte addr -> 0 <= len <= Z.of_nat (length addr) -> len < 16 * (Z.of_nat rounds + 1) ->
  exists s' packets final, send_descriptor fuel rounds addr len s = Ok (tt, s') /\
    mjoin packets ++ final = take (Z.to_nat len) addr /\ Forall (fun p => length p = 16%nat) packets /\
    (length final < 16)%nat /\
    bank_writes (a_log s') = bank_writes (a_log s) ++ mjoin (bank <$> packets) ++ bank final.
Proof.
  induction rounds as [|rounds IH]; intros addr len s Hr Hb Hl Hk; destruct (Z.ltb_spec len 16) as [Hlt|Hge]; [|lia|..].
  1, 2: match goal with |- context [send_descriptor fuel ?r _ _ _] =>
      destruct (send_descriptor_short r addr len s Hr Hb Hl Hlt) as (s' & Hrun & Hw) end;
    exists s', [], (take (Z.to_nat len) addr); rewrite Hrun, Hw, length_take;
    split; [done|]; split; [done|]; split; [constructor|]; split; [lia|done].
  destruct (send_descriptor_step (S rounds) addr len s Hr Hb Hl) as (s1 & Hw1 & Hrun).
  rewrite Z.min_r in Hw1, Hrun by lia. rewrite Hrun. change (16 =? USB_CONTROL_SIZE) with true. rewrite orb_true_r.
  change (Z.to_nat 16) with 16%nat in *.
  destruct (IH (drop 16 addr) (len - 16) s1 Hr) as (s' & packets & final & Hrun' & Hj & Hp & Hf & Hw'); [|rewrite length_drop; lia|lia|].
  { by apply Forall_drop. }
  exists s', (take 16 addr :: packets), final. split; [done|]. split; [|split; [|split; [done|]]].
  - change ((take 16 addr ++ mjoin packets) ++ final = take (Z.to_nat len) addr). rewrite <- app_assoc, Hj.
    replace (Z.to_nat len) with (16 + Z.to_nat (len - 16))%nat by lia. symmetry. apply take_app_drop.
  - constructor; [|done]. rewrite length_take. lia.
  - rewrite Hw', Hw1. cbn [fmap list_fmap mjoin list_join]. by rewrite <- !app_assoc.
Qed.

(** Every descriptor's length is that of bytes stored at its address. *)
Definition descriptor_ok (d : descriptor) : Prop :=
  0 <= ds_length d <= Z.of_nat (length (ds_address d)) /\ ds_length d < 256 /\ Forall is_byte (ds_address d).

Lemma descriptors_ok : Forall descriptor_ok descriptors.
Proof.
  repeat (apply Forall_cons; split; [split; [vm_compute; split; discriminate|split; [by vm_compute|]]|]); [..|done].
  all: apply (bool_decide_unpack _); vm_compute; exact I.
Qed.

Lemma find_descriptor_elem l v i d : find_descriptor l v i = Some d -> d ∈ l.
Proof.
  induction l as [|d' l IH]; cbn [find_descriptor]; [done|].
  destruct (_ && _); [intros [= ->]; by left|intros H; right; by apply IH].
Qed.

Lemma get_descriptor_ok v i n d s :
  in_ready -> find_descriptor descriptors v i = Some d -> 0 <= n < 2 ^ 16 ->
  exists s' packets final, get_descriptor fuel v i n s = Ok (tt, s') /\
    mjoin packets ++ final = take (Z.to_nat (Z.min n (ds_length d))) (ds_address d) /\
    Forall (fun p => length p = 16%nat) packets /\ (length final < 16)%nat /\
    bank_writes (a_log s') = bank_writes (a_log s) ++ mjoin (bank <$> packets) ++ bank final.
Proof.
  intros Hr Hf Hn. pose proof descriptors_ok as Hok. rewrite Forall_forall in Hok.
  destruct (Hok d (find_descriptor_elem _ _ _ _ Hf)) as (Hl & H256 & Hb).
  unfold get_descriptor. rewrite Hf. cbv zeta.
  set (len := if ds_length d <? _ then _ else _).
  assert (len = Z.min n (ds_length d)) as ->.
  { unfold len. destruct (Z.ltb_spec n 256);
      [destruct (Z.ltb_spec (ds_length d) n)|destruct (Z.ltb_spec (ds_length d) 255)]; lia. }
  apply send_descriptor_ok; [done|done|lia|lia].
Qed.

(** Configuring four endpoints from the table of three leaves the table. *)
Lemma set_configuration_Ub v i n s : control_request fuel 0 SET_CONFIGURATION v i n s = Ub.
Proof. done. Qed.
End Control.
