(* ===== verification/AvrApi.v ===== *)
(** * Firmware of the ATmega32U2 (platforms/atmegau2/api, src/main.c)

    The peripheral modules (UART, SPI, GPIO, LED, button, watchdog) and the main
    program, whose device talks over the USB bulk endpoints. Diagnostic output
    is not modelled. *)

From S2P Require Import Prelude World Errors Device LinkedList Crc FmrPacket Transport Dyld Fmr Mmio Avr.
From stdpp Require Import base list gmap sets strings.
From Stdlib Require Import ZArith Lia.
Local Open Scope Z_scope.

(** Bit positions, from the processor's data sheet. *)
Definition RXC1 : Z := 7.
Definition UDRE1 : Z := 5.
Definition U2X1 : Z := 1.
Definition UCSZ11 : Z := 2.
Definition UCSZ10 : Z := 1.
Definition RXCIE1 : Z := 7.
Definition RXEN1 : Z := 4.
Definition TXEN1 : Z := 3.
Definition MSTR : Z := 4.
Definition SPE : Z := 6.
Definition SPIF : Z := 7.
Definition SPI2X : Z := 0.
Definition CLKPCE : Z := 7.
Definition PCINT8 : Z := 0.
Definition PCIE1 : Z := 1.
Definition WDTO_15MS : Z := 0.

(** Pins (include/atmegau2.h). *)
Definition FMR_BAUD : Z := 1000000.
Definition U2_FMR_PIN : Z := 7.
Definition LED_DI : Z := 5.
Definition SCK : Z := 1.
Definition MOSI : Z := 2.
Definition BUTTON_PIN : Z := 6.
Definition FLASH_CS_PIN : Z := 0.
Definition FLASH_WP_PIN : Z := 2.
Definition FLASH_RESET_PIN : Z := 0.
Definition SAM_POWER_PIN : Z := 1.
Definition SAM_RESET_PIN : Z := 4.
Definition SAM_TEST_PIN : Z := 5.
Definition SAM_ERASE_PIN : Z := 6.

Section Api.
Context `{!Hardware avr_reg}.
Context (fuel : nat).

(** include/lf_config.h. *)
Definition U2_F_CPU : Z := 16000000.

(** ** UART (api/uart0.c) *)

Definition LF_UART_TIMEOUT_MS : Z := 100.

(** [((F_CPU / (baud * 16.0)) + 0.5) - 1] truncated to an integer; the rounding
    of the floating-point division is not modelled. *)
Definition BAUDRATE (baud : Z) : Z := Z.quot (2 * U2_F_CPU - 16 * baud) (32 * baud).

Definition uart0_configure : A_ Z :=
  wrr UBRR1L (BAUDRATE FMR_BAUD);;
  clrr UCSR1A (bit U2X1);;
  orr UCSR1C (Z.lor (bit UCSZ11) (bit UCSZ10));;
  orr UCSR1B (Z.lor (bit RXEN1) (bit TXEN1));;
  orr UCSR1B (bit RXCIE1);;
  clrr DDRC (bit U2_FMR_PIN);;
  mret lf_success.

Definition uart0_setbaud (baud : Z) : A_ Z :=
  wrr UBRR1L (u8 (BAUDRATE baud));; mret lf_success.

(** [while (UCSR1A & (1 << RXC1)) (void)UDR1;] *)
Fixpoint drain_uart (n : nat) : A_ unit :=
  x ← rdr UCSR1A;
  if ctrue (Z.land x (bit RXC1)) then rdr UDR1;; match n with O => spin | S n => drain_uart n end
  else mret tt.

Definition uart0_reset : A_ Z :=
  modify (fun s => av_set_uart 0 (a_uart0_buffer s) s);; drain_uart fuel;; mret lf_success.

Definition uart0_ready : A_ Z :=
  x ← rdr UCSR1A; i ← gets a_idx; mret (if ctrue (Z.land x (bit RXC1)) || ctrue i then 1 else 0).

Definition uart0_enable : A_ unit :=
  wrr UCSR1B (Z.lor (bit RXEN1) (Z.lor (bit TXEN1) (bit RXCIE1))).
Definition uart0_disable : A_ unit :=
  clrr UCSR1B (Z.lor (bit RXEN1) (Z.lor (bit TXEN1) (bit RXCIE1))).

(** Waits for a flag of the status register until the frame counter reaches
    [timeout]: whether the flag was seen. *)
Fixpoint uart_wait (n : nat) (flag timeout : Z) : A_ bool :=
  x ← rdr UCSR1A;
  if ctrue (Z.land x (bit flag)) then mret true
  else
    f ← rdr UDFNUML;
    if f =? timeout then mret false
    else match n with O => spin | S n => uart_wait n flag timeout end.

Definition uart0_put (byte : Z) : A_ unit :=
  t ← rdr UDFNUML;
  ok ← uart_wait fuel UDRE1 (u8 (t + LF_UART_TIMEOUT_MS));
  if ok : bool then wrr UDR1 byte else modify (av_set_err (err_code E_UART0_WRITE_TIMEOUT)).

Fixpoint uart0_write (src : list Z) : A_ Z :=
  match src with
  | [] => mret lf_success
  | b :: src => uart0_put b;; uart0_write src
  end.

(** The receive loop: the status and the bytes stored. *)
Fixpoint uart_read_loop (length : nat) : A_ (Z * list Z) :=
  match length with
  | O => mret (lf_success, [])
  | S length =>
    t ← rdr UDFNUML;
    ok ← uart_wait fuel RXC1 (u8 (t + LF_UART_TIMEOUT_MS));
    if ok : bool then
      b ← rdr UDR1;
      '(e, bs) ← uart_read_loop length;
      mret (e, b :: bs)
    else modify (av_set_err (err_code E_UART0_READ_TIMEOUT));; mret (lf_error, [])
  end.

(** Reads what the interrupt routine buffered first. *)
Definition uart0_read (length : nat) : A_ (Z * list Z) :=
  idx ← gets a_idx;
  buf ← gets a_uart0_buffer;
  if ctrue idx then
    if idx <=? Z.of_nat length then
      first ← lift_opt (rd buf 0 (Z.to_nat idx));
      modify (av_set_uart 0 buf);;
      '(e, rest) ← uart_read_loop (length - Z.to_nat idx);
      mret (e, first ++ rest)
    else
      first ← lift_opt (rd buf 0 length);
      moved ← lift_opt (rd buf length (Z.to_nat idx - length));
      buf ← lift_opt (wr buf 0 moved);
      modify (av_set_uart (idx - Z.of_nat length) buf);;
      mret (lf_success, first)
  else uart_read_loop length.

(** A byte read into an uninitialised local. *)
Definition uart0_get (junk : Z) : A_ Z :=
  '(_, bs) ← uart0_read 1; mret (default junk (head bs)).

(** The receive interrupt: debug output while the FMR line is high, else a byte
    of an answer, buffered. *)
Definition ISR_USART1_RX_vect : A_ unit :=
  wait_set fuel UCSR1A (bit RXC1);;
  modify (fun s => if a_idx s =? 64 then av_set_uart 0 (a_uart0_buffer s) s else s);;
  c ← rdr UDR1;
  p ← rdr PINC;
  if ctrue (Z.land p (bit U2_FMR_PIN)) then usb_debug_putchar fuel c;; mret tt
  else
    idx ← gets a_idx;
    buf ← gets a_uart0_buffer;
    buf ← lift_opt (wr buf (Z.to_nat idx) [c]);
    modify (av_set_uart (u8 (idx + 1)) buf).

(** ** SPI (api/spi.c) *)

Definition SPI_DATA_MODE_3 : Z := 0x0C.

Definition spi_configure : A_ Z :=
  orr DDRB (Z.lor (bit MOSI) (bit SCK));;
  orr SPCR SPI_DATA_MODE_3;;
  orr SPCR (bit SPI2X);;
  mret lf_success.
Definition spi_enable : A_ unit :=
  orr DDRB (Z.lor (bit MOSI) (bit SCK));; orr SPCR (Z.lor (bit MSTR) (bit SPE)).
Definition spi_disable : A_ unit :=
  clrr SPCR (Z.lor (bit MSTR) (bit SPE));; clrr DDRB (Z.lor (bit MOSI) (bit SCK)).
Definition spi_ready : A_ Z := x ← rdr SPSR; mret (Z.land x (bit SPIF)).
Definition spi_put (byte : Z) : A_ unit := wrr SPDR byte;; wait_set fuel SPSR (bit SPIF).
Definition spi_get : A_ Z := spi_put 0x00;; rdr SPDR.
Fixpoint spi_write (src : list Z) : A_ Z :=
  match src with [] => mret lf_success | b :: src => spi_put b;; spi_write src end.
Fixpoint spi_read (length : nat) : A_ (Z * list Z) :=
  match length with
  | O => mret (lf_success, [])
  | S length => b ← spi_get; '(e, bs) ← spi_read length; mret (e, b :: bs)
  end.

(** ** LED (api/led.c) *)

Definition led_configure : A_ Z := orr DDRC (bit LED_DI);; mret lf_success.

(** The eight bits of a byte, most significant first: the line goes high, falls
    early for a 0 bit, and falls. *)
Fixpoint led_bits (n : nat) (byte high low : Z) : A_ unit :=
  match n with
  | O => mret tt
  | S n =>
    wrr PORTC high;;
    (if Z.testbit byte 7 then mret tt else wrr PORTC low);;
    wrr PORTC low;;
    led_bits n (u8 (Z.shiftl byte 1)) high low
  end.
(** One byte; the operands are evaluated first, the high level from port B. *)
Definition led_byte (byte : Z) : A_ unit :=
  b ← rdr PORTB;
  c ← rdr PORTC;
  led_bits 8 byte (Z.lor b (bit LED_DI)) (Z.ldiff c (bit LED_DI)).
Definition led_rgb (r g b : Z) : A_ unit := led_byte g;; led_byte r;; led_byte b.

(** ** GPIO, button and watchdog (api/gpio.c, api/button.c, api/wdt.c) *)

Definition gpio_configure : A_ Z := mret lf_success.
Definition gpio_enable (enable disable : Z) : A_ unit :=
  orr DDRD (Z.land enable 0xFF);; clrr DDRD (Z.land disable 0xFF).
Definition gpio_write (set clear : Z) : A_ unit :=
  orr PORTD (Z.land set 0xFF);; clrr PORTD (Z.land clear 0xFF).
Definition gpio_read (mask : Z) : A_ Z := rdr PIND.
Definition button_configure : A_ Z := clrr DDRC (bit BUTTON_PIN);; mret lf_success.
Definition button_read : A_ Z := x ← rdr PINC; mret (Z.shiftr (Z.land x (bit BUTTON_PIN)) BUTTON_PIN).
Definition wdt_configure : A_ Z := mret lf_success.
(** [wdt_enable] of the C library, as a write of the timeout. *)
Definition wdt_enable (timeout : Z) : A_ unit := wrr WDTCSR timeout.
Definition wdt_fire : A_ unit := wdt_enable WDTO_15MS.

(** The reset button: switches the other processor off and waits for the
    watchdog. *)
Definition ISR_PCINT1_vect : A_ unit :=
  led_rgb 0 0 0;;
  clrr PORTD (bit SAM_RESET_PIN);;
  clrr PORTD (bit SAM_POWER_PIN);;
  wdt_enable WDTO_15MS;;
  spin.

(** ** The main program (src/main.c) *)

Definition fn_atmegau2_read : Z := 70.
Definition fn_atmegau2_write : Z := 71.
Definition fn_atmegau2_release : Z := 72.

(** Use USB as the read/write endpoint. *)
Definition atmegau2_read (device : Z) (dst : list Z) : C avr (Z * list Z) :=
  '(e, bs) ← on_env (megausb_bulk_receive fuel (Z.of_nat (length dst)));
  dst ← lift_opt (wr dst 0 bs);
  mret (e, dst).
Definition atmegau2_write (device : Z) (src : list Z) : C avr Z := on_env (megausb_bulk_transmit fuel src).
Definition atmegau2_release (device : Z) : C avr Z := mret lf_error.

#[local] Instance avr_transport : Transport avr := {
  tr_write f device src := if f =? fn_atmegau2_write then atmegau2_write device src else ub;
  tr_read f device dst := if f =? fn_atmegau2_read then atmegau2_read device dst else ub;
}.

(** Pins, clock and reset button. *)
Definition configure_pins : A_ unit :=
  wrr CLKPR (bit CLKPCE);;
  wrr CLKPR 0;;
  orr SREG 0x80;;
  wrr PORTD (bit SAM_POWER_PIN);;
  wrr DDRD (Z.lor (bit SAM_POWER_PIN) (Z.lor (bit SAM_RESET_PIN) (Z.lor (bit SAM_TEST_PIN) (bit SAM_ERASE_PIN))));;
  orr PORTB (bit FLASH_CS_PIN);;
  clrr DDRB (bit FLASH_CS_PIN);;
  orr PORTC FLASH_WP_PIN;;
  orr DDRC FLASH_WP_PIN;;
  orr PORTD FLASH_RESET_PIN;;
  orr DDRD FLASH_RESET_PIN;;
  orr PCMSK1 (bit PCINT8);;
  orr PCICR (bit PCIE1).

(** [main] up to its loop: the device. *)
Definition u2_setup : C avr Z :=
  on_env configure_pins;;
  _u2 ← lf_device_create fn_atmegau2_read fn_atmegau2_write fn_atmegau2_release;
  on_env (usb_configure fuel);;
  on_env (orr PORTD (bit SAM_RESET_PIN));;
  on_env (led_rgb 0 10 0);;
  mret _u2.

(** One turn of [loop] on the packet buffer, which keeps its contents from turn
    to turn. *)
Definition u2_turn `{!ModuleCode avr} (_u2 : Z) (packet : list Z) : C avr (list Z) :=
  '(e, bs) ← on_env (megausb_bulk_receive fuel (Z.of_nat (length packet)));
  packet ← lift_opt (wr packet 0 bs);
  if e =? lf_success then '(_, packet) ← fmr_perform _u2 packet; mret packet
  else mret packet.

Fixpoint u2_loop `{!ModuleCode avr} (n : nat) (_u2 : Z) (packet : list Z) : C avr (list Z) :=
  match n with
  | O => mret packet
  | S n => packet ← u2_turn _u2 packet; u2_loop n _u2 packet
  end.
End Api.

(** ** The endpoint keeps the library's promise *)

Section Endpoint.
Context `{!Hardware avr_reg}.
Context (fuel : nat).
Implicit Types w : world avr.

#[local] Instance avr_transport_ok : @TransportOk avr (avr_transport fuel).
Proof.
  split; cbn [tr_write tr_read avr_transport].
  - intros f d bs w r w' H. destruct (f =? fn_atmegau2_write); [|done]. by eapply on_env_frame.
  - intros f d bs w r bs' w' H. destruct (f =? fn_atmegau2_read); [|done]. unfold atmegau2_read in H.
    apply bind_Ok_inv in H as ([e b] & w1 & H1 & H). apply on_env_frame in H1. cbn beta iota in H.
    destruct (wr bs 0 b) as [dst|]; [|done]. cbn in H. by injection H as _ _ <-.
  - intros f d bs w r bs' w' H. destruct (f =? fn_atmegau2_read); [|done]. unfold atmegau2_read in H.
    apply bind_Ok_inv in H as ([e b] & w1 & H1 & H). cbn beta iota in H.
    destruct (wr bs 0 b) as [dst|] eqn:Hw; [|done]. cbn in H. injection H as _ <- _. by eapply wr_length.
Qed.

(** The PLL locks. *)
Definition pll_locks : Prop := forall s : avr, ctrue (Z.land (seen s PLLCSR) (bit PLOCK)) = true.

Lemma usb_configure_ok s : pll_locks -> exists s', usb_configure fuel s = Ok (lf_success, s').
Proof. intros H. unfold usb_configure. rewrite !bind_wrr. 
  erewrite bind_Ok; [|apply (wait_set_ready _ _ _ _ H)]. by eexists. Qed.

Lemma led_rgb_ok r g b s : exists s', led_rgb r g b s = Ok (tt, s').
Proof.
  assert (forall n byte high low s, exists s', led_bits n byte high low s = Ok (tt, s')) as Hbits.
  { induction n as [|n IH]; intros byte high low s0; cbn [led_bits]; [by eexists|]. rewrite bind_wrr.
    destruct (Z.testbit byte 7); mnorm; rewrite !bind_wrr; apply IH. }
  assert (forall x s, exists s', led_byte x s = Ok (tt, s')) as Hbyte
    by (intros x s0; unfold led_byte; rewrite !bind_rdr; apply Hbits).
  unfold led_rgb. destruct (Hbyte g s) as (s1 & H1). mstep H1. destruct (Hbyte r s1) as (s2 & H2). mstep H2. apply Hbyte.
Qed.

(** The device [main] creates has no modules. *)
Definition u2_device : lf_device :=
  LfDevice (replicate 32 0) 0 0 0 fn_atmegau2_read fn_atmegau2_write fn_atmegau2_release 0 0.

Lemma u2_setup_ok w :
  wf_world w -> alloc_fails w = false -> pll_locks ->
  exists s', u2_setup fuel w = Ok (w_next w, set_env s' (alloc_at (ODevice u2_device) w)).
Proof.
  intros Hw Ha Hpll. unfold u2_setup.
  assert (exists s1, configure_pins (w_env w) = Ok (tt, s1)) as [s1 H1] by (eexists; reflexivity).
  mstep (on_env_ok _ w _ _ H1). unfold lf_device_create.
  mstep (lf_device_create_named_ok None fn_atmegau2_read fn_atmegau2_write fn_atmegau2_release (set_env s1 w) Hw Ha).
  set (w2 := alloc_at _ _). destruct (usb_configure_ok (w_env w2) Hpll) as (s2 & H2). mstep (on_env_ok _ w2 _ _ H2).
  unfold orr. set (w3 := set_env s2 w2).
  rewrite (bind_Ok _ _ w3 tt (set_env (log_event (Wr PORTD (rval PORTD (Z.lor (seen s2 PORTD) (bit SAM_RESET_PIN))))
            (log_event (Rd PORTD (seen s2 PORTD)) s2)) w3)) by done.
  set (w4 := set_env _ w3). destruct (led_rgb_ok 0 10 0 (w_env w4)) as (s4 & H4). mstep (on_env_ok _ w4 _ _ H4).
  by exists s4.
Qed.

(** A packet that passes the check is answered with [E_NULL]: the device has no
    module list. *)
Lemma u2_turn_null `{!ModuleCode avr} w p packet bs s1 rc s2 type :
  p <> 0 -> w_heap w !! p = Some (ODevice u2_device) -> length packet = FMR_PACKET_SIZE -> length bs = FMR_PACKET_SIZE ->
  packet_ok bs -> rd_le bs off_type 1 = Some type -> type < MAX_DISPATCHERS ->
  megausb_bulk_receive fuel (Z.of_nat FMR_PACKET_SIZE) (w_env w) = Ok ((lf_success, bs), s1) ->
  megausb_bulk_transmit fuel (result_bytes 0 (err_code E_NULL)) s1 = Ok (rc, s2) ->
  exists buf, u2_turn fuel p packet w = Ok (buf, set_err (err_code E_OK) (set_env s2 w)).
Proof.
  intros Hp Hd Hlen Hlb Hok Hty Hlt Hrx Htx. unfold u2_turn. rewrite Hlen.
  mstep (on_env_ok _ w _ _ Hrx). rewrite wr_Some by (rewrite Hlb, Hlen; lia). cbn [lift_opt]. rewrite bind_ret_l.
  rewrite drop_ge by (rewrite Hlen, Hlb; lia). rewrite take_0, app_nil_r, app_nil_l.
  change (lf_success =? lf_success) with true. cbv iota.
  destruct (@perform_no_modules avr (avr_transport fuel) _ p bs (set_env s1 w) type u2_device rc
              (set_env s2 (set_err (err_code E_OK) (set_env s1 w)))) as (buf0 & Hperf); try done.
  - unfold device_write. mstep (load_device_ok (set_err (err_code E_OK) (set_env s1 w)) p u2_device Hd).
    apply (on_env_ok _ (set_err (err_code E_OK) (set_env s1 w)) rc s2 Htx).
  - mstep Hperf. by exists buf0.
Qed.
End Endpoint.

(** ** The UART's receive queue *)

Section Queue.
Context `{!Hardware avr_reg}.
Context (fuel : nat).
Implicit Types s : avr.

Definition uart_ok s : Prop := length (a_uart0_buffer s) = 64%nat /\ 0 <= a_idx s <= 64.
(** The bytes received and not read yet. *)
Definition pending s : list Z := take (Z.to_nat (a_idx s)) (a_uart0_buffer s).

(** A byte is there when the interrupt runs, and the FMR line is low. *)
Definition byte_arrives : Prop := forall s,
  ctrue (Z.land (seen s UCSR1A) (bit RXC1)) = true /\ Z.land (seen s PINC) (bit U2_FMR_PIN) = 0.

Lemma uart_isr_ok s :
  byte_arrives -> uart_ok s ->
  let s1 := log_event (Rd UCSR1A (seen s UCSR1A)) s in
  let c := seen s1 UDR1 in
  exists s', ISR_USART1_RX_vect fuel s = Ok (tt, s') /\ uart_ok s' /\
    pending s' = (if a_idx s =? 64 then [] else pending s) ++ [c] /\
    reads UDR1 (a_log s') = reads UDR1 (a_log s) ++ [c].
Proof.
  intros Hb [Hlen Hi] s1 c. unfold ISR_USART1_RX_vect.
  erewrite bind_Ok; [|apply wait_set_ready; intros s'; apply Hb]. fold s1.
  rewrite bind_modify. set (i := if a_idx s =? 64 then 0 else a_idx s).
  assert ((if a_idx s1 =? 64 then av_set_uart 0 (a_uart0_buffer s1) s1 else s1) = av_set_uart i (a_uart0_buffer s) s1) as ->.
  { unfold i. change (a_idx s1) with (a_idx s). by destruct (a_idx s =? 64); destruct s. }
  assert (0 <= i < 64) as Hi' by (unfold i; destruct (Z.eqb_spec (a_idx s) 64); lia).
  rewrite !bind_rdr. rewrite (proj2 (Hb _)). change (ctrue 0) with false. cbv iota. rewrite !bind_gets.
  cbn [a_idx a_uart0_buffer log_event put_log avr_log av_set_uart]. change (seen (av_set_uart i (a_uart0_buffer s) s1) UDR1) with c.
  rewrite wr_Some by (cbn [length]; lia). cbn [lift_opt]. rewrite bind_ret_l.
  eexists. split; [reflexivity|]. unfold uart_ok, pending. cbn [a_idx a_uart0_buffer av_set_uart].
  rewrite u8_small by lia. set (k := Z.to_nat i).
  assert (k < 64)%nat as Hk by (unfold k; lia).
  assert (take (S k) (take k (a_uart0_buffer s) ++ [c] ++ drop (k + length [c]) (a_uart0_buffer s))
          = take k (a_uart0_buffer s) ++ [c]) as Htake.
  { rewrite app_assoc, take_app_le by (rewrite length_app, length_take; cbn; lia).
    apply take_ge. rewrite length_app, length_take. cbn. lia. }
  split; [split; [|lia]|split; [|]].
  - rewrite !length_app, length_take, length_drop. cbn. lia.
  - replace (Z.to_nat (i + 1)) with (S k) by (unfold k; lia). rewrite Htake. f_equal. unfold k, i.
    by destruct (Z.eqb_spec (a_idx s) 64).
  - cbn [a_log]. change (reads UDR1 (Rd UDR1 c :: a_log s1) = reads UDR1 (a_log s) ++ [c]). by observe.
Qed.

Lemma uart0_read_pending s n :
  uart_ok s -> (n < length (pending s))%nat ->
  exists s', uart0_read fuel n s = Ok ((lf_success, take n (pending s)), s') /\ uart_ok s' /\
    pending s' = drop n (pending s) /\ a_log s' = a_log s.
Proof.
  intros [Hlen Hi] Hn. unfold pending in *. rewrite length_take in Hn. set (k := Z.to_nat (a_idx s)) in *.
  unfold uart0_read. rewrite !bind_gets. rewrite ctrue_nonzero by lia.
  destruct (Z.leb_spec (a_idx s) (Z.of_nat n)); [lia|].
  rewrite (rd_Some _ 0 n) by lia. cbn [lift_opt]. rewrite bind_ret_l.
  rewrite (rd_Some _ n) by lia. cbn [lift_opt]. rewrite bind_ret_l. fold k.
  set (moved := take (k - n) (drop n (a_uart0_buffer s))).
  assert (length moved = (k - n)%nat) as Hm by (unfold moved; rewrite length_take, length_drop; lia).
  rewrite wr_Some by lia. cbn [lift_opt]. rewrite bind_ret_l, bind_modify. eexists. split; [|split; [|split]].
  - unfold mret, M_ret. rewrite drop_0, take_take, Nat.min_l by lia. reflexivity.
  - unfold uart_ok. cbn [a_idx a_uart0_buffer av_set_uart]. rewrite !length_app, length_take, length_drop, Hm. split; lia.
  - cbn [a_idx a_uart0_buffer av_set_uart]. rewrite take_0, app_nil_l.
    replace (Z.to_nat (a_idx s - Z.of_nat n)) with (k - n)%nat by lia.
    rewrite take_app_le by lia. rewrite take_ge by lia. unfold moved. by rewrite take_drop_commute, Nat.add_comm, Nat.sub_add by lia.
  - reflexivity.
Qed.
End Queue.
