(* ===== verification/AvrProps.v ===== *)
(** * Properties of the ATmega32U2 firmware

    The USB transfers, control requests, the UART queue and the main loop, each
    with an instance on hardware that is always ready. *)

From S2P Require Import Prelude World Errors Crc Device LinkedList FmrPacket Transport Dyld Fmr Mmio Avr AvrApi.
From stdpp Require Import base list gmap sets strings.
From Stdlib Require Import ZArith Lia.
Local Open Scope Z_scope.

(** Hardware with every bank, flag and lock ready, whose receive register
    delivers the bytes [rx]. *)
Definition ready_hw (rx : list Z) : Hardware avr_reg := fun l r =>
  match r with
  | UEINTX => bit RWAL + bit TXINI
  | megausb_configuration => 1
  | PLLCSR => bit PLOCK
  | UCSR1A => bit RXC1
  | UEDATX => default 0 (rx !! length (reads UEDATX l))
  | UDR1 => 0x5A
  | SREG => 0x80
  | _ => 0
  end.
Definition avr0 : avr := Avr [] 0 0 (replicate 64 0) 0.





(** A descriptor request is answered completely: for every descriptor of the
    table and every requested length, the control endpoint sends the first
    [min wLength length] bytes of that descriptor, in full 16-byte packets
    followed by exactly one short packet. *)
Theorem descriptor_sent `{!Hardware avr_reg} fuel wValue wIndex wLength bmRequestType d s :
  in_ready -> find_descriptor descriptors wValue wIndex = Some d -> 0 <= wLength < 2 ^ 16 ->
  exists s' packets final,
    control_request fuel bmRequestType GET_DESCRIPTOR wValue wIndex wLength s = Ok (tt, s') /\
    mjoin packets ++ final = take (Z.to_nat (Z.min wLength (ds_length d))) (ds_address d) /\
    Forall (fun p => length p = 16%nat) packets /\ (length final < 16)%nat /\
    bank_writes (a_log s') = bank_writes (a_log s) ++ mjoin (bank <$> packets) ++ bank final.
Proof. apply get_descriptor_ok. Qed.

(** The configuration descriptor: 48 bytes, so three full packets and an empty
    one. *)
Lemma descriptor_sent_witness :
  exists s' packets final,
    @control_request (ready_hw []) 8 0x80 GET_DESCRIPTOR 0x0200 0 255 avr0 = Ok (tt, s') /\
    mjoin packets ++ final = configuration.
Proof.
  destruct (@descriptor_sent (ready_hw []) 8 0x0200 0 255 0x80
              (Descriptor 0x0200 0 configuration (Z.of_nat (length configuration))) avr0)
    as (s' & packets & final & Hrun & Hj & _).
  - intros s. split; reflexivity.
  - vm_compute. reflexivity.
  - lia.
  - exists s', packets, final. split; [exact Hrun|]. rewrite Hj. vm_compute. reflexivity.
Defined.

(** Selecting a configuration reads past the endpoint table: the handler
    configures four endpoints, the table describes three, so the request has no
    defined behaviour. *)
Theorem set_configuration_past_table `{!Hardware avr_reg} fuel wValue wIndex wLength s :
  control_request fuel 0 SET_CONFIGURATION wValue wIndex wLength s = Ub.
Proof. apply set_configuration_Ub. Qed.

(** The UART's receive buffer is a queue of up to 64 bytes: the receive
    interrupt appends the byte it read (emptying the queue first when it is
    full), and reading fewer bytes than are queued takes them from the front
    without touching the hardware. *)
Theorem uart_is_a_queue `{!Hardware avr_reg} fuel s :
  byte_arrives -> uart_ok s ->
  (exists s' c, ISR_USART1_RX_vect fuel s = Ok (tt, s') /\ uart_ok s' /\
     pending s' = (if a_idx s =? 64 then [] else pending s) ++ [c] /\
     reads UDR1 (a_log s') = reads UDR1 (a_log s) ++ [c]) /\
  (forall n, (n < length (pending s))%nat ->
     exists s', uart0_read fuel n s = Ok ((lf_success, take n (pending s)), s') /\ uart_ok s' /\
       pending s' = drop n (pending s) /\ a_log s' = a_log s).
Proof.
  intros Hb Hok. split.
  - destruct (uart_isr_ok fuel s Hb Hok) as (s' & Hrun & Hok' & Hp & Hr). by eauto 10.
  - intros n Hn. by apply uart0_read_pending.
Qed.

Lemma uart_is_a_queue_witness :
  exists s' c, @ISR_USART1_RX_vect (ready_hw []) 8 avr0 = Ok (tt, s') /\ pending s' = [c].
Proof.
  destruct (@uart_is_a_queue (ready_hw []) 8 avr0) as [(s' & c & Hrun & _ & Hp & _) _].
  - intros s. split; reflexivity.
  - split; [reflexivity|]. vm_compute. split; discriminate.
  - exists s', c. split; [exact Hrun|exact Hp].
Defined.

(** The bridge processor dispatches nothing: its main program registers no
    module, so after start-up every packet that passes the check is answered
    with value 0 and [E_NULL], whatever its class. *)
Theorem u2_answers_null `{!Hardware avr_reg, !ModuleCode avr} fuel (w : world avr) :
  wf_world w -> alloc_fails w = false -> pll_locks ->
  exists p w1, u2_setup fuel w = Ok (p, w1) /\
    forall packet bs type s1 rc s2,
      length packet = FMR_PACKET_SIZE -> length bs = FMR_PACKET_SIZE -> packet_ok bs ->
      rd_le bs off_type 1 = Some type -> type < MAX_DISPATCHERS ->
      megausb_bulk_receive fuel (Z.of_nat FMR_PACKET_SIZE) (w_env w1) = Ok ((lf_success, bs), s1) ->
      megausb_bulk_transmit fuel (result_bytes 0 (err_code E_NULL)) s1 = Ok (rc, s2) ->
      exists buf w2, u2_turn fuel p packet w1 = Ok (buf, w2) /\ w_env w2 = s2.
Proof.
  intros Hw Ha Hpll. destruct (u2_setup_ok fuel w Hw Ha Hpll) as (s' & Hrun).
  eexists _, _. split; [exact Hrun|]. intros packet bs type s1 rc s2 Hl1 Hl2 Hok Hty Hlt Hrx Htx.
  destruct (u2_turn_null fuel (set_env s' (alloc_at (ODevice u2_device) w)) (w_next w) packet bs s1 rc s2 type)
    as (buf & Ht); try done.
  - by apply wf_next_nonnull.
  - apply lookup_insert_eq.
  - by eexists buf, _.
Qed.

(** A lookup of "led" arrives. *)
Definition led_lookup : list Z := default [] (dyld_packet [108; 101; 100]).
Definition no_modules_code : ModuleCode avr := {| call_function _ _ := ub; call_plugin_handler _ _ _ _ := ub |}.
Definition u2_world : world avr := World 0 ∅ 4096 [] (fun _ => 0) 0 0 (replicate 6 0) false avr0.

Lemma u2_answers_null_witness :
  exists p w1 buf w2, @u2_setup (ready_hw led_lookup) 8 u2_world = Ok (p, w1) /\
    @u2_turn (ready_hw led_lookup) 8 no_modules_code p (replicate 64 0) w1 = Ok (buf, w2) /\
    omap id (bank_writes (a_log (w_env w2))) = result_bytes 0 (err_code E_NULL).
Proof.
  destruct (@u2_answers_null (ready_hw led_lookup) no_modules_code 8 u2_world) as (p & w1 & Hs & Ht).
  - split; [done|]. intros q o Hq. discriminate Hq.
  - reflexivity.
  - intros s. reflexivity.
  - exists p, w1. vm_compute in Hs. injection Hs as <- <-.
    edestruct (Ht (replicate 64 0) led_lookup fmr_dyld_class) as (buf & w2 & Hturn & Henv);
      [reflexivity|vm_compute; reflexivity| |vm_compute; reflexivity|reflexivity|vm_compute; reflexivity|vm_compute; reflexivity|].
    + destruct (dyld_packet_ok [108; 101; 100]) as (pkt & Hp & Hok & _); [vm_compute; lia|by repeat constructor|].
      unfold led_lookup. rewrite Hp. exact Hok.
    + exists buf, w2. split; [vm_compute; reflexivity|]. split; [exact Hturn|]. rewrite Henv.
      vm_compute. reflexivity.
Defined.
