(* ===== verification/AvrIrq.v ===== *)
(** * The ATmega's UART with its interrupt between the steps of a read

    [uart0_read] (platforms/atmegau2/api/uart0.c) shares [idx] and
    [uart0_buffer] with the receive interrupt and does not mask it. Here the read
    is a machine that makes one access to a shared variable per step, and the
    interrupt, which runs with interrupts off, is one step that can come between
    any two of them. A schedule lists what happens in order. *)

From S2P Require Import Prelude Errors Mmio Avr AvrApi.
From stdpp Require Import base list.
From Stdlib Require Import ZArith Lia.
Local Open Scope Z_scope.

Definition UART_BUFFER_SIZE : nat := 64.

(** Where a read is. [At_copy] evaluates the length of the copy, [Copy n i] has
    copied [i] of [n] bytes; [Part], [At_move] and [Move] are the copy and the
    move of a read that takes less than there is; [idx -= length] loads and then
    stores; [At_loop] is the test of [length--] and [At_wait] the wait for a byte.
    [Overrun] is a store outside of the destination or of the buffer. *)
Inductive read_pc :=
| At_test | At_cmp | At_copy | Copy (n i : nat) | At_advance | At_subtract | At_zero
| Part (i : nat) | At_move | Move (n i : nat) | At_load | At_store (v : Z)
| At_loop | At_wait | Done (e : Z) | Overrun.

(** The shared variables, the destination with the offset [dst] has reached, and
    the remaining [length]. *)
Record reader := Reader { u_idx : Z; u_buffer : list Z; u_dst : list Z; u_off : Z; u_length : Z; u_pc : read_pc }.

Definition goto (pc : read_pc) (s : reader) : reader := Reader (u_idx s) (u_buffer s) (u_dst s) (u_off s) (u_length s) pc.
Definition set_idx (i : Z) (pc : read_pc) (s : reader) : reader := Reader i (u_buffer s) (u_dst s) (u_off s) (u_length s) pc.
(** A store to the destination at [k] and to the buffer at [k]. *)
Definition to_dst (k : Z) (b : option Z) (pc : read_pc) (s : reader) : reader :=
  match b with
  | Some b => if (0 <=? k) && (k <? Z.of_nat (length (u_dst s)))
              then Reader (u_idx s) (u_buffer s) (<[Z.to_nat k := b]> (u_dst s)) (u_off s) (u_length s) pc
              else goto Overrun s
  | None => goto Overrun s
  end.
Definition to_buffer (k : nat) (b : option Z) (pc : read_pc) (s : reader) : reader :=
  match b with
  | Some b => if (k <? length (u_buffer s))%nat
              then Reader (u_idx s) (<[k := b]> (u_buffer s)) (u_dst s) (u_off s) (u_length s) pc
              else goto Overrun s
  | None => goto Overrun s
  end.

(** One step of [uart0_read]. *)
Definition read_step (s : reader) : reader :=
  match u_pc s with
  | At_test => if u_idx s =? 0 then goto At_loop s else goto At_cmp s
  | At_cmp => if u_idx s <=? u_length s then goto At_copy s else goto (Part 0) s
  | At_copy => goto (Copy (Z.to_nat (u_idx s)) 0) s
  | Copy n i => if (i <? n)%nat then to_dst (u_off s + Z.of_nat i) (u_buffer s !! i) (Copy n (S i)) s else goto At_advance s
  | At_advance => Reader (u_idx s) (u_buffer s) (u_dst s) (u_off s + u_idx s) (u_length s) At_subtract
  | At_subtract => Reader (u_idx s) (u_buffer s) (u_dst s) (u_off s) (u32 (u_length s - u_idx s)) At_zero
  | At_zero => set_idx 0 At_loop s
  | Part i => if Z.of_nat i <? u_length s then to_dst (u_off s + Z.of_nat i) (u_buffer s !! i) (Part (S i)) s else goto At_move s
  | At_move => goto (Move (Z.to_nat (u16 (u_idx s - u_length s))) 0) s
  | Move n i => if (i <? n)%nat then to_buffer i (u_buffer s !! (Z.to_nat (u_length s) + i)%nat) (Move n (S i)) s else goto At_load s
  | At_load => goto (At_store (u_idx s)) s
  | At_store v => set_idx (u8 (v - u_length s)) (Done lf_success) s
  | At_loop =>
    if u_length s =? 0 then goto (Done lf_success) s
    else Reader (u_idx s) (u_buffer s) (u_dst s) (u_off s) (u_length s - 1) At_wait
  | At_wait | Done _ | Overrun => s
  end.

(** The receive interrupt with the byte [c] while the FMR line is low. *)
Definition rx_interrupt (c : Z) (s : reader) : reader :=
  let i := if u_idx s =? Z.of_nat UART_BUFFER_SIZE then 0 else u_idx s in
  match u_pc s with
  | Overrun => s
  | pc => to_buffer (Z.to_nat i) (Some c) pc (set_idx (u8 (i + 1)) pc s)
  end.

(** What can happen: a step of the read, an interrupt, the arrival of a byte that
    the waiting read takes itself, and the end of its patience. *)
Inductive uart_event := Step | Interrupt (c : Z) | Take (c : Z) | Timeout.
Definition happen (e : uart_event) (s : reader) : reader :=
  match e with
  | Step => read_step s
  | Interrupt c => rx_interrupt c s
  | Take c =>
    match u_pc s with
    | At_wait =>
      let s' := to_dst (u_off s) (Some c) At_loop s in
      Reader (u_idx s') (u_buffer s') (u_dst s') (u_off s' + 1) (u_length s') (u_pc s')
    | _ => s
    end
  | Timeout => match u_pc s with At_wait => goto (Done lf_error) s | _ => s end
  end.
Definition schedule (es : list uart_event) (s : reader) : reader := fold_left (fun s e => happen e s) es s.

(** A read of [n] bytes begins. *)
Definition begin_read (idx : Z) (buf dst : list Z) : reader := Reader idx buf dst 0 (Z.of_nat (length dst)) At_test.

(** ** Without an interrupt in between *)

Definition steps (n : nat) : list uart_event := replicate n Step.

Lemma schedule_app es es' s : schedule (es ++ es') s = schedule es' (schedule es s).
Proof. apply fold_left_app. Qed.
Lemma schedule_cons e es s : schedule (e :: es) s = schedule es (happen e s).
Proof. done. Qed.

Lemma schedule_one s : schedule (steps 1) s = read_step s.
Proof. done. Qed.

Lemma schedule_three s : schedule [Step; Step; Step] s = read_step (read_step (read_step s)).
Proof. done. Qed.

Lemma insert_at {A} (pre : list A) x y l k : k = length pre -> <[k := x]> (pre ++ y :: l) = pre ++ x :: l.
Proof. intros ->. rewrite <- (Nat.add_0_r (length pre)), insert_app_r. done. Qed.

Lemma to_dst_at idx buf pre o post off len pc0 pc k b :
  k = Z.of_nat (length pre) ->
  to_dst k (Some b) pc (Reader idx buf (pre ++ o :: post) off len pc0) = Reader idx buf (pre ++ b :: post) off len pc.
Proof.
  intros ->. unfold to_dst. cbn [u_dst u_idx u_buffer u_off u_length]. rewrite length_app. cbn [length].
  rewrite (proj2 (Z.leb_le _ _)), (proj2 (Z.ltb_lt _ _)) by lia. cbn [andb]. by rewrite Nat2Z.id, insert_at.
Qed.

Lemma drop_lookup_cons {A} (l : list A) i b : l !! i = Some b -> drop i l = b :: drop (S i) l.
Proof. intros H. by rewrite (drop_S l b i H). Qed.

(** The copy of the whole buffer and of a part of it. *)
Lemma copy_loop n m : forall i idx buf pre old post off len,
  0 <= off -> Z.of_nat (length pre) = off + Z.of_nat i -> length old = m -> (i + m <= length buf)%nat -> (i + m <= n)%nat ->
  schedule (steps m) (Reader idx buf (pre ++ old ++ post) off len (Copy n i)) =
  Reader idx buf (pre ++ take m (drop i buf) ++ post) off len (Copy n (i + m)).
Proof.
  induction m as [|m IH]; intros i idx buf pre old post off len Hoff Hpre Hold Hbuf Hn.
  { destruct old; [|done]. by rewrite Nat.add_0_r. }
  destruct old as [|o old]; [done|]. injection Hold as Hold. destruct (lookup_lt_is_Some_2 buf i ltac:(lia)) as [b Hb].
  cbn [steps replicate]. rewrite schedule_cons. cbn [happen]. unfold read_step. cbn [u_pc u_off u_buffer].
  rewrite (proj2 (Nat.ltb_lt i n)) by lia. rewrite Hb. cbn [app]. rewrite to_dst_at by lia.
  rewrite (cons_middle b pre), app_assoc. unfold steps in IH.
  rewrite IH by (try rewrite length_app; cbn [length]; lia). rewrite (drop_lookup_cons buf i b Hb). cbn [firstn]. rewrite <- app_assoc.
  by rewrite Nat.add_succ_comm.
Qed.

Lemma part_loop m : forall i idx buf pre old post off len,
  0 <= off -> Z.of_nat (length pre) = off + Z.of_nat i -> length old = m -> (i + m <= length buf)%nat -> len = Z.of_nat (i + m) ->
  schedule (steps m) (Reader idx buf (pre ++ old ++ post) off len (Part i)) =
  Reader idx buf (pre ++ take m (drop i buf) ++ post) off len (Part (i + m)).
Proof.
  induction m as [|m IH]; intros i idx buf pre old post off len Hoff Hpre Hold Hbuf ->.
  { destruct old; [|done]. by rewrite Nat.add_0_r. }
  destruct old as [|o old]; [done|]. injection Hold as Hold. destruct (lookup_lt_is_Some_2 buf i ltac:(lia)) as [b Hb].
  cbn [steps replicate]. rewrite schedule_cons. cbn [happen]. unfold read_step. cbn [u_pc u_off u_buffer u_length].
  rewrite (proj2 (Z.ltb_lt _ _)) by lia. rewrite Hb. cbn [app]. rewrite to_dst_at by lia.
  rewrite (cons_middle b pre), app_assoc. unfold steps in IH.
  rewrite IH by (try rewrite length_app; cbn [length]; lia). rewrite (drop_lookup_cons buf i b Hb). cbn [firstn]. rewrite <- app_assoc.
  by rewrite Nat.add_succ_comm.
Qed.

Lemma move_loop m : forall i n idx B dst off,
  (n + i + m <= length B)%nat ->
  schedule (steps m) (Reader idx B dst off (Z.of_nat n) (Move (i + m) i)) =
  Reader idx (take i B ++ take m (drop (n + i) B) ++ drop (i + m) B) dst off (Z.of_nat n) (Move (i + m) (i + m)).
Proof.
  induction m as [|m IH]; intros i n idx B dst off HB.
  { rewrite Nat.add_0_r. by rewrite take_0, app_nil_l, take_drop. }
  destruct (lookup_lt_is_Some_2 B (n + i) ltac:(lia)) as [b Hb].
  cbn [steps replicate]. rewrite schedule_cons. cbn [happen]. unfold read_step, to_buffer. cbn [u_pc u_off u_buffer u_length u_idx u_dst].
  rewrite (proj2 (Nat.ltb_lt i (i + S m))), Nat2Z.id, Hb, (proj2 (Nat.ltb_lt i _)) by lia.
  replace (i + S m)%nat with (S i + m)%nat by lia. unfold steps in IH. rewrite IH by (rewrite length_insert; lia). f_equal.
  rewrite (take_S_r _ i b) by (rewrite list_lookup_insert_eq; [done|lia]). rewrite take_insert_ge by lia.
  rewrite (drop_insert_lt B (n + S i)), (drop_insert_lt B (S i + m)) by lia.
  rewrite (drop_lookup_cons B (n + i) b Hb). cbn [firstn]. rewrite Nat.add_succ_r. by rewrite <- app_assoc.
Qed.

(** A read of less than there is. *)
Lemma partial_read idx buf dst (n k : nat) :
  length buf = UART_BUFFER_SIZE -> idx = Z.of_nat k -> (k <= UART_BUFFER_SIZE)%nat -> length dst = n -> (n < k)%nat ->
  schedule (steps (3 + n) ++ steps 1 ++ steps (k - n)) (begin_read idx buf dst) =
  Reader idx (take (k - n) (drop n buf) ++ drop (k - n) buf) (take n buf) 0 (Z.of_nat n) (Move (k - n) (k - n)).
Proof.
  intros Hbuf -> Hk Hdst Hn. unfold UART_BUFFER_SIZE in *. rewrite schedule_app, schedule_app.
  assert (schedule (steps (3 + n)) (begin_read (Z.of_nat k) buf dst) = Reader (Z.of_nat k) buf (take n buf) 0 (Z.of_nat n) At_move) as ->.
  { replace (steps (3 + n)) with (Step :: Step :: steps n ++ [Step]) by (unfold steps; cbn; rewrite <- replicate_S_end; done).
    rewrite !schedule_cons, schedule_app. unfold begin_read. rewrite Hdst. cbn [happen]. unfold read_step at 2. cbn [u_pc u_idx].
    rewrite (proj2 (Z.eqb_neq (Z.of_nat k) 0)) by lia. unfold read_step at 1. cbn [u_pc u_idx goto u_length].
    rewrite (proj2 (Z.leb_gt _ _)) by lia. unfold goto. cbn [u_idx u_buffer u_dst u_off u_length].
    pose proof (part_loop n 0 (Z.of_nat k) buf [] dst [] 0 (Z.of_nat n) ltac:(lia) eq_refl Hdst ltac:(lia) eq_refl) as Hp.
    rewrite !app_nil_r in Hp. cbn [app Nat.add] in Hp. rewrite Hp, drop_0. cbn [schedule fold_left happen].
    unfold read_step. cbn [u_pc u_length]. rewrite Z.ltb_irrefl. done. }
  rewrite schedule_one. unfold read_step. cbn [u_pc u_idx u_length]. unfold u16. rewrite Z.mod_small by lia.
  replace (Z.to_nat (Z.of_nat k - Z.of_nat n)) with (k - n)%nat by lia. unfold goto. cbn [u_idx u_buffer u_dst u_off u_length].
  pose proof (move_loop (k - n) 0 n (Z.of_nat k) buf (take n buf) 0 ltac:(lia)) as Hm. 
  cbn [Nat.add] in Hm. rewrite Hm. rewrite take_0, Nat.add_0_r. done.
Qed.

(** A read of all there is: the copy, up to the reset of [idx]. *)
Lemma whole_read_copied idx buf dst (k : nat) :
  length buf = UART_BUFFER_SIZE -> idx = Z.of_nat k -> (0 < k <= UART_BUFFER_SIZE)%nat -> (k <= length dst)%nat -> Z.of_nat (length dst) < 2 ^ 32 ->
  schedule (steps (6 + k)) (begin_read idx buf dst) =
  Reader idx buf (take k buf ++ drop k dst) (Z.of_nat k) (Z.of_nat (length dst - k)) At_zero.
Proof.
  intros Hbuf -> Hk Hd Hd32. unfold UART_BUFFER_SIZE in *.
  replace (steps (6 + k)) with ([Step; Step; Step] ++ steps k ++ [Step; Step; Step])
    by (change [Step; Step; Step] with (steps 3); unfold steps; rewrite <- !replicate_add; f_equal; lia).
  rewrite !schedule_app, !schedule_three. unfold begin_read. unfold read_step at 6. cbn [u_pc u_idx].
  rewrite (proj2 (Z.eqb_neq (Z.of_nat k) 0)) by lia. unfold read_step at 5. cbn [u_pc u_idx goto u_length].
  rewrite (proj2 (Z.leb_le _ _)) by lia. unfold read_step at 4. unfold goto. cbn [u_idx u_buffer u_dst u_off u_length u_pc]. rewrite Nat2Z.id.
  pose proof (copy_loop k k 0 (Z.of_nat k) buf [] (take k dst) (drop k dst) 0 (Z.of_nat (length dst)) ltac:(lia) eq_refl
                ltac:(rewrite length_take; lia) ltac:(lia) ltac:(lia)) as Hc.
  cbn [app Nat.add] in Hc. rewrite take_drop, drop_0 in Hc. rewrite Hc.
  unfold read_step at 3. cbn [u_pc]. rewrite Nat.ltb_irrefl. unfold read_step, goto. cbn [u_idx u_buffer u_dst u_off u_length u_pc].
  unfold u32. rewrite Z.mod_small by lia. f_equal; lia.
Qed.

(** The bytes a waiting read takes itself. *)
Lemma take_loop cs : forall idx buf pre old off,
  length old = length cs -> Z.of_nat (length pre) = off ->
  schedule (flat_map (fun c => [Step; Take c]) cs ++ [Step]) (Reader idx buf (pre ++ old) off (Z.of_nat (length cs)) At_loop) =
  Reader idx buf (pre ++ cs) (off + Z.of_nat (length cs)) 0 (Done lf_success).
Proof.
  induction cs as [|c cs IH]; intros idx buf pre old off Hold Hoff.
  { destruct old; [|done]. cbn. by rewrite Z.add_0_r. }
  destruct old as [|o old]; [done|]. injection Hold as Hold. cbn [flat_map app]. rewrite !schedule_cons. cbn [happen].
  unfold read_step. cbn [u_pc u_length length]. rewrite (proj2 (Z.eqb_neq _ 0)) by lia. cbn [u_pc u_idx u_buffer u_dst u_off u_length].
  rewrite to_dst_at by done. cbn [u_pc u_idx u_buffer u_dst u_off u_length]. rewrite (cons_middle c pre old), app_assoc.
  replace (Z.of_nat (S (length cs)) - 1) with (Z.of_nat (length cs)) by lia.
  rewrite IH by (try rewrite length_app; cbn [length]; lia). rewrite <- app_assoc. f_equal. lia.
Qed.

Definition interrupts (es : list uart_event) : list Z := omap (fun e => match e with Interrupt c => Some c | _ => None end) es.
Definition taken (es : list uart_event) : list Z := omap (fun e => match e with Take c => Some c | _ => None end) es.
Definition unread (s : reader) : list Z := take (Z.to_nat (u_idx s)) (u_buffer s).

Lemma interrupts_app a b : interrupts (a ++ b) = interrupts a ++ interrupts b.
Proof. apply omap_app. Qed.
Lemma taken_app a b : taken (a ++ b) = taken a ++ taken b.
Proof. apply omap_app. Qed.
Lemma interrupts_steps n : interrupts (steps n) = [].
Proof. induction n as [|n IH]; [done|exact IH]. Qed.
Lemma taken_steps n : taken (steps n) = [].
Proof. induction n as [|n IH]; [done|exact IH]. Qed.
Lemma interrupts_takes cs : interrupts (flat_map (fun c => [Step; Take c]) cs) = [].
Proof. induction cs as [|c cs IH]; [done|exact IH]. Qed.
Lemma taken_takes cs : taken (flat_map (fun c => [Step; Take c]) cs) = cs.
Proof. induction cs as [|c cs IH]; [done|]. change (c :: taken (flat_map (fun c => [Step; Take c]) cs) = c :: cs). by rewrite IH. Qed.
Create Rewrite HintDb uart.
#[local] Hint Rewrite interrupts_app taken_app interrupts_steps taken_steps interrupts_takes taken_takes : uart.

(** The end of a read of less than there is, with [v] as the last value of [idx]. *)
Lemma partial_end idx B dst n m :
  schedule (steps 3) (Reader idx B dst 0 (Z.of_nat n) (Move m m)) = Reader (u8 (idx - Z.of_nat n)) B dst 0 (Z.of_nat n) (Done lf_success).
Proof. change (steps 3) with [Step; Step; Step]. rewrite schedule_three. unfold read_step at 3. cbn [u_pc]. by rewrite Nat.ltb_irrefl. Qed.

(** C21: A read with no interrupt between its steps gives the oldest bytes, those in
    the buffer and then those it waits for, and leaves the rest in order. *)
Theorem uart_read_uninterrupted idx buf dst cs :
  length buf = UART_BUFFER_SIZE -> 0 <= idx <= 64 -> Z.of_nat (length dst) < 2 ^ 32 ->
  let s := begin_read idx buf dst in
  length cs = (length dst - length (unread s))%nat ->
  exists es, interrupts es = [] /\ taken es = cs /\
    u_pc (schedule es s) = Done lf_success /\ u_dst (schedule es s) = take (length dst) (unread s ++ cs) /\
    unread (schedule es s) = drop (length dst) (unread s) /\ length (u_buffer (schedule es s)) = UART_BUFFER_SIZE.
Proof.
  intros Hbuf Hi Hd s Hcs. destruct (Z_of_nat_complete idx ltac:(lia)) as [k Hk].
  assert (unread s = take k buf) as Hun by (unfold unread; cbn; by rewrite Hk, Nat2Z.id).
  assert (length (unread s) = k) as Hlen by (rewrite Hun, length_take, Hbuf; unfold UART_BUFFER_SIZE; lia).
  rewrite Hlen in Hcs. rewrite Hun. set (n := length dst) in *. destruct (Nat.ltb_spec n k) as [Hlt|Hge].
  - exists ((steps (3 + n) ++ steps 1 ++ steps (k - n)) ++ steps 3). autorewrite with uart. destruct cs; [|cbn in Hcs; lia].
    split; [done|]. split; [done|]. unfold s. rewrite schedule_app, (partial_read idx buf dst n k) by (done || unfold UART_BUFFER_SIZE; lia).
    rewrite partial_end. cbn [u_pc u_dst u_buffer]. split; [done|]. rewrite app_nil_r, take_take, Nat.min_l by lia. split; [done|].
    unfold unread. cbn [u_idx u_buffer]. rewrite u8_small by lia. replace (Z.to_nat (idx - Z.of_nat n)) with (k - n)%nat by lia.
    rewrite take_app_le, take_take, Nat.min_id by (rewrite length_take, length_drop, Hbuf; unfold UART_BUFFER_SIZE; lia).
    rewrite take_drop_commute, Nat.add_comm, Nat.sub_add by lia. split; [done|].
    rewrite length_app, !length_drop, length_take, Hbuf. unfold UART_BUFFER_SIZE. lia.
  - rewrite take_ge by (rewrite length_app, length_take, Hbuf; unfold UART_BUFFER_SIZE; lia). rewrite drop_ge by (rewrite length_take; lia).
    destruct k as [|k].
    + exists (steps 1 ++ (flat_map (fun c => [Step; Take c]) cs ++ [Step])). autorewrite with uart. rewrite app_nil_r. split; [done|].
      split; [cbn; by rewrite app_nil_r|]. unfold s. rewrite schedule_app, schedule_one. unfold begin_read, read_step. cbn [u_pc u_idx]. rewrite Hk.
      cbn [Z.of_nat Z.eqb]. unfold goto. cbn [u_idx u_buffer u_dst u_off u_length]. fold n. replace n with (length cs) by lia.
      pose proof (take_loop cs 0 buf [] dst 0 ltac:(fold n; lia) eq_refl) as Ht. cbn [app] in Ht. change (Z.of_nat 0) with 0. cbn [Z.eqb]. rewrite Ht. done.
    + exists (steps (6 + S k) ++ steps 1 ++ (flat_map (fun c => [Step; Take c]) cs ++ [Step])). autorewrite with uart. rewrite app_nil_r.
      split; [done|]. split; [cbn; by rewrite app_nil_r|]. unfold s.
      rewrite schedule_app, (whole_read_copied idx buf dst (S k)), schedule_app by (done || unfold UART_BUFFER_SIZE; lia).
      rewrite schedule_one. unfold read_step. cbn [u_pc]. unfold set_idx. cbn [u_idx u_buffer u_dst u_off u_length]. fold n.
      replace (n - S k)%nat with (length cs) by lia.
      rewrite (take_loop cs 0 buf (take (S k) buf) (drop (S k) dst) (Z.of_nat (S k)))
        by (rewrite ?length_take, ?length_drop, ?Hbuf; unfold UART_BUFFER_SIZE; fold n; lia). done.
Qed.

Lemma interrupt_at idx buf dst off len pc c (k : nat) :
  idx = Z.of_nat k -> (k < 64)%nat -> length buf = UART_BUFFER_SIZE -> pc <> Overrun ->
  happen (Interrupt c) (Reader idx buf dst off len pc) = Reader (idx + 1) (<[k := c]> buf) dst off len pc.
Proof.
  intros -> Hk Hbuf Hpc. unfold UART_BUFFER_SIZE in *. cbn [happen]. unfold rx_interrupt. cbn [u_idx u_pc].
  change (Z.of_nat UART_BUFFER_SIZE) with 64. rewrite (proj2 (Z.eqb_neq _ _)) by lia. rewrite Nat2Z.id, u8_small by lia.
  unfold to_buffer, set_idx. cbn [u_idx u_buffer u_dst u_off u_length u_pc]. rewrite Hbuf, (proj2 (Nat.ltb_lt k 64)) by lia. by destruct pc.
Qed.

(** C22: One interrupt between the steps of a read: a read of exactly what is there can
    store past its destination, a read of less can lose the new byte and repeat
    an old one, and a read of at least what is there can lose the new byte. *)
Theorem uart_read_races buf dst c (k : nat) b :
  let s := begin_read (Z.of_nat k) buf dst in let n := length dst in
  length buf = UART_BUFFER_SIZE -> (0 < k < 64)%nat -> Z.of_nat n < 2 ^ 32 ->
  (n = k -> exists es, interrupts es = [c] /\ u_pc (schedule es s) = Overrun) /\
  ((0 < n < k)%nat -> buf !! (k - n)%nat = Some b ->
   exists es, interrupts es = [c] /\ u_pc (schedule es s) = Done lf_success /\ u_dst (schedule es s) = take n (unread s) /\
     unread (schedule es s) = drop n (unread s) ++ [b]) /\
  ((k <= n)%nat -> exists es, interrupts es = [c] /\ u_pc (schedule es s) = At_loop /\
     take k (u_dst (schedule es s)) = unread s /\ unread (schedule es s) = []).
Proof.
  intros s n Hbuf Hk Hn. unfold s. assert (unread (begin_read (Z.of_nat k) buf dst) = take k buf) as -> by (unfold unread; cbn; by rewrite Nat2Z.id).
  assert (length (<[k := c]> buf) = 64%nat) as Hbuf' by (rewrite length_insert; exact Hbuf). unfold UART_BUFFER_SIZE in Hbuf. split; [|split].
  - intros Hnk. exists (steps 2 ++ [Interrupt c] ++ steps 1 ++ steps k ++ steps 1). autorewrite with uart. split; [done|].
    rewrite !schedule_app. assert (schedule (steps 2) (begin_read (Z.of_nat k) buf dst) = Reader (Z.of_nat k) buf dst 0 (Z.of_nat n) At_copy) as ->.
    { unfold begin_read. fold n. change (steps 2) with [Step; Step]. rewrite !schedule_cons. cbn [happen]. unfold read_step at 2. cbn [u_pc u_idx].
      rewrite (proj2 (Z.eqb_neq (Z.of_nat k) 0)) by lia. unfold read_step, goto. cbn [u_pc u_idx u_length].
      rewrite (proj2 (Z.leb_le (Z.of_nat k) (Z.of_nat n))) by lia. done. }
    change (schedule [Interrupt c] ?st) with (happen (Interrupt c) st). rewrite (interrupt_at _ _ _ _ _ _ _ k) by (done || lia).
    rewrite schedule_one, (schedule_one (Reader _ _ _ _ _ _)). unfold read_step at 2. cbn [u_pc u_idx goto u_buffer u_dst u_off u_length]. unfold goto. cbn [u_idx u_buffer u_dst u_off u_length].
    replace (Z.to_nat (Z.of_nat k + 1)) with (S k) by lia.
    pose proof (copy_loop (S k) k 0 (Z.of_nat k + 1) (<[k := c]> buf) [] dst [] 0 (Z.of_nat n) ltac:(lia) eq_refl ltac:(done) ltac:(lia) ltac:(lia)) as Hc.
    rewrite !app_nil_r in Hc. cbn [app Nat.add] in Hc. rewrite Hc. unfold read_step. cbn [u_pc u_off u_buffer].
    rewrite (proj2 (Nat.ltb_lt k (S k))) by lia. rewrite list_lookup_insert_eq by lia. unfold to_dst. cbn [u_dst].
    rewrite length_take, length_drop, Hbuf'. rewrite (proj2 (Z.ltb_ge _ _)) by lia. by rewrite andb_false_r.
  - intros Hnk Hb. exists ((steps (3 + n) ++ steps 1 ++ steps (k - n)) ++ [Interrupt c] ++ steps 3). autorewrite with uart. split; [done|].
    rewrite schedule_app, (partial_read (Z.of_nat k) buf dst n k), schedule_app by (done || unfold UART_BUFFER_SIZE; lia).
    change (schedule [Interrupt c] ?st) with (happen (Interrupt c) st). set (B := take (k - n) (drop n buf) ++ drop (k - n) buf).
    assert (length B = 64%nat) as HB by (unfold B; rewrite length_app, length_take, !length_drop, Hbuf; lia).
    rewrite (interrupt_at _ _ _ _ _ _ _ k), partial_end by (done || lia). cbn [u_pc u_dst]. split; [done|].
    rewrite take_take, Nat.min_l by lia. split; [done|]. unfold unread. cbn [u_idx u_buffer]. rewrite u8_small by lia.
    replace (Z.to_nat (Z.of_nat k + 1 - Z.of_nat n)) with (S (k - n)) by lia. rewrite take_insert_ge by lia. unfold B.
    rewrite take_app, take_ge by (rewrite length_take, length_drop; lia). rewrite length_take, length_drop, Hbuf.
    replace (S (k - n) - (k - n) `min` (64 - n))%nat with 1%nat by lia. rewrite (drop_lookup_cons buf _ b Hb). cbn [firstn].
    rewrite take_drop_commute, Nat.add_comm, Nat.sub_add by lia. done.
  - intros Hnk. exists (steps (6 + k) ++ [Interrupt c] ++ steps 1). autorewrite with uart. split; [done|].
    rewrite schedule_app, (whole_read_copied (Z.of_nat k) buf dst k), schedule_app by (done || unfold UART_BUFFER_SIZE; lia).
    change (schedule [Interrupt c] ?st) with (happen (Interrupt c) st). rewrite (interrupt_at _ _ _ _ _ _ _ k), schedule_one by (done || lia).
    cbn [read_step u_pc set_idx u_dst]. split; [done|]. split; [|done]. rewrite take_app_le, take_take, Nat.min_id by (rewrite length_take; lia). done.
Qed.

Definition sample_buffer : list Z := seqZ 100 64.
Lemma uart_read_uninterrupted_witness :
  exists es, interrupts es = [] /\ taken es = [] /\
    u_dst (schedule es (begin_read 4 sample_buffer [0; 0])) = [100; 101] /\ unread (schedule es (begin_read 4 sample_buffer [0; 0])) = [102; 103].
Proof.
  destruct (uart_read_uninterrupted 4 sample_buffer [0; 0] []) as (es & Hi & Ht & _ & Hd & Hu & _); [reflexivity|lia|reflexivity|reflexivity|].
  exists es. split; [exact Hi|]. split; [exact Ht|]. split; [exact Hd|exact Hu].
Defined.

Lemma uart_read_races_witness :
  (exists es, interrupts es = [7] /\ u_pc (schedule es (begin_read 2 sample_buffer [0; 0])) = Overrun) /\
  (exists es, interrupts es = [7] /\ unread (schedule es (begin_read 4 sample_buffer [0; 0])) = [102; 103; 102]).
Proof.
  split.
  - apply (uart_read_races sample_buffer [0; 0] 7 2 0); [reflexivity|lia|reflexivity|reflexivity].
  - destruct (uart_read_races sample_buffer [0; 0] 7 4 102) as (_ & H & _); [reflexivity|lia|reflexivity|].
    destruct H as (es & Hi & _ & _ & Hu); [cbn; lia|reflexivity|]. exists es. split; [exact Hi|exact Hu].
Defined.

(** The steps of a read of less than there is do what [uart0_read] does in one. *)
Lemma steps_agree `{!Hardware avr_reg} fuel (s : avr) (dst : list Z) :
  uart_ok s -> (length dst < length (pending s))%nat ->
  exists es s', interrupts es = [] /\ let r := schedule es (begin_read (a_idx s) (a_uart0_buffer s) dst) in
    uart0_read fuel (length dst) s = Ok ((lf_success, u_dst r), s') /\ a_idx s' = u_idx r /\ a_uart0_buffer s' = u_buffer r.
Proof.
  intros [Hlen Hi] Hn. unfold pending in Hn. rewrite length_take in Hn. destruct (Z_of_nat_complete (a_idx s) ltac:(lia)) as [k Hk].
  rewrite Hk, Nat2Z.id in Hn. set (n := length dst) in *.
  exists ((steps (3 + n) ++ steps 1 ++ steps (k - n)) ++ steps 3). eexists. autorewrite with uart. split; [done|]. cbv zeta.
  rewrite schedule_app, (partial_read (a_idx s) (a_uart0_buffer s) dst n k), partial_end by (done || unfold UART_BUFFER_SIZE; lia).
  cbn [u_dst u_idx u_buffer]. unfold uart0_read. rewrite !bind_gets, ctrue_nonzero by lia. rewrite (proj2 (Z.leb_gt _ _)) by lia.
  rewrite (rd_Some _ 0 n) by lia. cbn [lift_opt]. rewrite bind_ret_l, (rd_Some _ n) by lia. cbn [lift_opt]. rewrite bind_ret_l.
  replace (Z.to_nat (a_idx s) - n)%nat with (k - n)%nat by lia.
  rewrite wr_Some by (rewrite length_take, length_drop; lia). cbn [lift_opt]. rewrite bind_ret_l, bind_modify. split; [reflexivity|].
  cbn [a_idx a_uart0_buffer av_set_uart]. rewrite u8_small by lia. split; [done|].
  rewrite take_0, app_nil_l, length_take, length_drop, Nat.min_l by lia. done.
Qed.
