(* ===== verification/AvrUsbIrq.v ===== *)
(** * The USB driver's critical sections under interrupts

    The bulk and debug functions of the ATmega32U2 (platforms/atmegau2/src/bulk.c
    and src/debug.c) share one endpoint selector, [UENUM], with the interrupt
    routines of src/control.c. They mask interrupts with [cli] before they select
    their endpoint, and unmask them inside the waits by writing the saved status
    register back. Here the history of a call is interleaved with interrupt
    routines in every way the interrupt flag permits, and the endpoint registers
    are shown to be accessed under the call's own selection only. *)

From S2P Require Import Prelude Errors Mmio Avr AvrApi AvrProps.
From stdpp Require Import base list.
From Stdlib Require Import ZArith Lia.
Local Open Scope Z_scope.

(** ** Traces of the processor *)

(** Who makes an access: the main program or an interrupt routine. A trace is
    newest first, like a history. *)
Inductive owner := Main | Irq.
Abbreviation trace := (list (owner * access avr_reg)).

(** The interrupt flag a write to the status register leaves. *)
Definition i_bit (v : Z) : bool := Z.testbit v 7.

(** The interrupt flag after the main program's accesses, [i0] at the call. *)
Fixpoint i_flag (i0 : bool) (l : list (access avr_reg)) : bool :=
  match l with
  | [] => i0
  | Wr SREG v :: _ => i_bit v
  | _ :: l => i_flag i0 l
  end.

(** The accesses of the main program in a trace. *)
Fixpoint mains (t : trace) : list (access avr_reg) :=
  match t with
  | [] => []
  | (Main, a) :: t => a :: mains t
  | (Irq, _) :: t => mains t
  end.

(** What the processor can do: a step of the main program at any time, and a
    whole interrupt routine, with any accesses, while the flag is set. A routine
    returns with the status register as it found it. *)
Inductive interleaving (i0 : bool) : trace -> Prop :=
| il_start : interleaving i0 []
| il_main a t : interleaving i0 t -> interleaving i0 ((Main, a) :: t)
| il_irq isr t : interleaving i0 t -> i_flag i0 (mains t) = true -> interleaving i0 (((Irq,.) <$> isr) ++ t).

(** The endpoint selected by the last write to [UENUM], whoever made it. *)
Fixpoint selection (t : trace) : option Z :=
  match t with
  | [] => None
  | (_, Wr UENUM v) :: _ => Some v
  | _ :: t => selection t
  end.

(** The registers banked by the selector. *)
Definition banked (a : access avr_reg) : bool :=
  match a with
  | Rd (UEINTX | UEDATX) _ | Wr (UEINTX | UEDATX) _ => true
  | _ => false
  end.

(** Every access of the main program to a banked register finds [ep] selected. *)
Fixpoint addressed (ep : Z) (t : trace) : bool :=
  match t with
  | [] => true
  | (Main, a) :: t => (negb (banked a) || bool_decide (selection t = Some ep)) && addressed ep t
  | (Irq, _) :: t => addressed ep t
  end.

(** ** The discipline of the main program *)

(** Interrupts are off, and [ep] was selected since they have been. *)
Fixpoint holding (ep : Z) (l : list (access avr_reg)) : bool :=
  match l with
  | [] => false
  | Wr SREG v :: l => negb (i_bit v) && holding ep l
  | Wr UENUM v :: l => (v =? ep) && negb (i_flag true l)
  | _ :: l => holding ep l
  end.

Fixpoint disciplined (ep : Z) (l : list (access avr_reg)) : bool :=
  match l with
  | [] => true
  | a :: l => (negb (banked a) || holding ep l) && disciplined ep l
  end.

Lemma i_flag_start i0 l : i_flag true l = false -> i_flag i0 l = false.
Proof. induction l as [|[[] v|[] v] l IH]; cbn; try done. Qed.

Lemma holding_masked i0 ep l : holding ep l = true -> i_flag i0 l = false.
Proof.
  induction l as [|[[] v|[] v] l IH]; cbn; try done; intros H; apply andb_prop in H as [H1 H2].
  - by apply negb_true_iff in H1.
  - apply i_flag_start. by apply negb_true_iff in H2.
Qed.

Lemma mains_irq isr t : mains (((Irq,.) <$> isr) ++ t) = mains t.
Proof. induction isr; [done|]. cbn. done. Qed.
Lemma addressed_irq ep isr t : addressed ep (((Irq,.) <$> isr) ++ t) = addressed ep t.
Proof. induction isr; [done|]. cbn. done. Qed.

Lemma holding_selects i0 ep t : interleaving i0 t -> holding ep (mains t) = true -> selection t = Some ep.
Proof.
  induction 1 as [|a t Ht IH|isr t Ht IH Hi]; [done| |].
  - destruct a as [[] v|[] v]; cbn; try done; intros H; apply andb_prop in H as [H1 H2]; [by apply IH|].
    apply Z.eqb_eq in H1. by subst.
  - rewrite mains_irq. intros H. apply (holding_masked i0) in H. congruence.
Qed.

(** A disciplined program is undisturbed in every interleaving. *)
Lemma disciplined_addressed i0 ep t : interleaving i0 t -> disciplined ep (mains t) = true -> addressed ep t = true.
Proof.
  induction 1 as [|a t Ht IH|isr t Ht IH Hi]; [done| |].
  - cbn. intros [H1 H2]%andb_prop. rewrite IH by done. rewrite andb_true_r. apply orb_prop in H1 as [->|H1]; [done|].
    rewrite (bool_decide_eq_true_2 _ (holding_selects i0 ep t Ht H1)). apply orb_true_r.
  - by rewrite mains_irq, addressed_irq.
Qed.

(** ** A logic for the discipline *)

(** How far a critical section is entered. *)
Inductive phase := Free | Masked | Held.
Definition in_phase (ep : Z) (p : phase) (l : list (access avr_reg)) : Prop :=
  match p with
  | Free => True
  | Masked => i_flag true l = false
  | Held => holding ep l = true
  end.

(** Whether a phase permits access to a register, and the phase after a write of
    a register other than the status register and the selector. *)
Definition permits (p : phase) (r : avr_reg) : bool :=
  match p with Held => true | _ => negb (banked (Rd r 0)) end.
Definition neutral (r : avr_reg) : bool := match r with SREG | UENUM => false | _ => true end.

Section Discipline.
Context `{!Hardware avr_reg} (ep : Z).
Implicit Types l B : list (access avr_reg).

(** From a disciplined history in phase [p], counted from the start of the call,
    [c] returns only after disciplined accesses, in a phase its result tells. *)
Definition guards {X} (p : phase) (c : A_ X) (q : X -> phase) : Prop :=
  forall B l s x s', a_log s = l ++ B -> disciplined ep l = true -> in_phase ep p l -> c s = Ok (x, s') ->
  exists l', a_log s' = l' ++ B /\ disciplined ep l' = true /\ in_phase ep (q x) l'.

Lemma guards_bind {X Y} p r q (c : A_ X) (f : X -> A_ Y) :
  guards p c r -> (forall x, guards (r x) (f x) q) -> guards p (c ≫= f) q.
Proof.
  intros Hc Hf B l s y s' Hl Hd HP H. apply bind_Ok_inv in H as (x & s1 & H1 & H2).
  destruct (Hc B l s x s1 Hl Hd HP H1) as (l1 & Hl1 & Hd1 & HR). exact (Hf x B l1 s1 y s' Hl1 Hd1 HR H2).
Qed.

Lemma guards_quiet {X} p q (c : A_ X) :
  (forall s x s', c s = Ok (x, s') -> a_log s' = a_log s /\ q x = p) -> guards p c q.
Proof. intros Hc B l s x s' Hl Hd HP H. apply Hc in H as [H ->]. exists l. by rewrite H. Qed.

Lemma guards_ret {X} p q (x : X) : q x = p -> guards p (mret x) q.
Proof. intros <-. apply guards_quiet. intros s ? ? H. by injection H as <- <-. Qed.
Lemma guards_spin {X} p (q : X -> phase) : guards p spin q.
Proof. by apply guards_quiet. Qed.
Lemma guards_modify p g : (forall s, a_log (g s) = a_log s) -> guards p (modify g) (fun _ => p).
Proof. intros Hg. apply guards_quiet. intros s ? ? H. by injection H as <- <-. Qed.
Lemma guards_gets {X} p (g : avr -> X) : guards p (gets g) (fun _ => p).
Proof. apply guards_quiet. intros s ? ? H. by injection H as <- <-. Qed.
Lemma guards_free {X} p q (c : A_ X) : guards Free c q -> guards p c q.
Proof. intros Hc B l s x s' Hl Hd _ H. exact (Hc B l s x s' Hl Hd I H). Qed.

(** One access: allowed by the phase it is made in, it leads to the phase of the
    longer history. *)
Lemma log_access p a l : permits p (match a with Rd r _ | Wr r _ => r end) = true ->
  disciplined ep l = true -> in_phase ep p l -> disciplined ep (a :: l) = true.
Proof.
  intros Hp Hd Hi. cbn [disciplined]. rewrite Hd, andb_true_r. destruct p; destruct a as [[] v|[] v]; try done.
  all: exact Hi.
Qed.

Lemma guards_rdr p r : permits p r = true -> guards p (rdr r) (fun _ => p).
Proof.
  intros Hr B l s x s' Hl Hd HP [= <- <-]. exists (Rd r (seen s r) :: l).
  split; [by rewrite <- app_comm_cons, <- Hl|]. split; [by apply (log_access p)|]. by destruct p, r.
Qed.

Lemma guards_wrr p r v : permits p r = true -> neutral r = true -> guards p (wrr r v) (fun _ => p).
Proof.
  intros Hr Hn B l s x s' Hl Hd HP [= <- <-]. exists (Wr r (rval r v) :: l).
  split; [by rewrite <- app_comm_cons, <- Hl|]. split; [by apply (log_access p)|]. by destruct p, r.
Qed.

Lemma guards_restore v : guards Free (wrr SREG v) (fun _ => Free).
Proof.
  intros B l s x s' Hl Hd HP [= <- <-]. exists (Wr SREG (rval SREG v) :: l).
  split; [by rewrite <- app_comm_cons, <- Hl|]. split; [by apply (log_access Free)|done].
Qed.

Lemma guards_select v : rval UENUM v = ep -> guards Masked (wrr UENUM v) (fun _ => Held).
Proof.
  intros Hv B l s x s' Hl Hd HP [= <- <-]. exists (Wr UENUM (rval UENUM v) :: l).
  split; [by rewrite <- app_comm_cons, <- Hl|]. split; [by apply (log_access Masked)|].
  cbn in *. by rewrite Hv, Z.eqb_refl, HP.
Qed.

(** What [cli] writes has the interrupt flag clear. *)
Lemma i_bit_cli v : i_bit (rval SREG (Z.ldiff v 0x80)) = false.
Proof.
  unfold i_bit, rval, reg_bits, avr_registers. rewrite Z.mod_pow2_bits_low by lia. rewrite Z.ldiff_spec.
  change (Z.testbit 0x80 7) with true. apply andb_false_r.
Qed.

Lemma guards_cli : guards Free cli (fun _ => Masked).
Proof.
  intros B l s x s' Hl Hd HP H. unfold cli, clrr in H. rewrite bind_rdr in H. injection H as <- <-.
  eexists (Wr SREG _ :: Rd SREG _ :: l). split; [by rewrite <- !app_comm_cons, <- Hl|].
  split; [by repeat apply (log_access Free)|apply i_bit_cli].
Qed.
End Discipline.

(** Steps through a program by the rules of the logic. *)
Ltac keep_step :=
  match goal with
  | |- guards _ _ (rdr _ ≫= _) _ => eapply guards_bind; [apply guards_rdr; reflexivity|intros ?; cbv beta]
  | |- guards _ _ (gets _ ≫= _) _ => eapply guards_bind; [apply guards_gets|intros ?; cbv beta]
  | |- guards _ _ (modify _ ≫= _) _ => eapply guards_bind; [apply guards_modify; done|intros ?; cbv beta]
  | |- guards _ _ (cli ≫= _) _ => eapply guards_bind; [apply guards_free, guards_cli|intros ?; cbv beta]
  | |- guards _ _ (wrr SREG _ ≫= _) _ => eapply guards_bind; [apply guards_free, guards_restore|intros ?; cbv beta]
  | |- guards _ _ (wrr UENUM _ ≫= _) _ => eapply guards_bind; [apply guards_select; assumption || reflexivity|intros ?; cbv beta]
  | |- guards _ _ (wrr _ _ ≫= _) _ => eapply guards_bind; [apply guards_wrr; reflexivity|intros ?; cbv beta]
  | |- guards _ _ (if ?b then _ else _) _ => destruct b
  | |- guards _ _ (match ?n with O => spin | S _ => _ end) _ => destruct n; [apply guards_spin|]
  end.
Ltac keeping := repeat keep_step.

(** ** The driver follows the discipline *)

Section Driver.
Context `{!Hardware avr_reg} (fuel : nat).

(** The phase after a wait: its endpoint is selected unless it gave up. *)
Definition after_wait (r : option Z) : phase := match r with Some _ => Held | None => Free end.

Lemma bulk_wait_guards ep n : forall timeout sreg, rval UENUM ep = ep ->
  guards ep Held (bulk_wait n ep timeout sreg) after_wait.
Proof.
  induction n as [|n IH]; intros timeout sreg Hep; cbn [bulk_wait]; keeping.
  all: first [by apply guards_ret|by apply guards_spin|by apply IH].
Qed.

Lemma putchar_wait_guards n : forall timeout sreg,
  guards DEBUG_IN_ENDPOINT Held (putchar_wait n timeout sreg) after_wait.
Proof.
  induction n as [|n IH]; intros timeout sreg; cbn [putchar_wait]; keeping.
  all: first [by apply guards_ret|by apply guards_spin|by apply IH].
Qed.

Lemma receive_bank_guards ep n : forall length, guards ep Held (receive_bank n length) (fun _ => Held).
Proof.
  induction n as [|n IH]; intros length; cbn [receive_bank]; [by apply guards_ret|].
  keeping; [|apply IH]. eapply guards_bind; [apply IH|]. intros [bs l]. by apply guards_ret.
Qed.

Lemma transmit_bank_guards ep n : forall source, guards ep Held (transmit_bank n source) (fun _ => Held).
Proof.
  induction n as [|n IH]; intros source; cbn [transmit_bank]; [by apply guards_ret|].
  destruct source as [|b source]; keeping; apply IH.
Qed.

Lemma pad_bank_guards ep n : guards ep Held (pad_bank n) (fun _ => Held).
Proof.
  induction n as [|n IH]; cbn [pad_bank]; keeping; first [by apply guards_ret|apply guards_spin|apply IH].
Qed.

Lemma receive_loop_guards total : forall length sreg,
  guards BULK_OUT_ENDPOINT Held (receive_loop fuel total length sreg) (fun r => after_wait r.1).
Proof.
  induction total as [|total IH]; intros length sreg; cbn [receive_loop].
  { by apply guards_ret. }
  keeping. eapply guards_bind; [by apply bulk_wait_guards|]. intros [sreg'|]; cbn [after_wait].
  - eapply guards_bind; [apply receive_bank_guards|]. intros [bs len]. keeping. eapply guards_bind; [apply IH|].
    intros [r rest]. by apply guards_ret.
  - by apply guards_ret.
Qed.

Lemma transmit_loop_guards total : forall source sreg,
  guards BULK_IN_SELECT Held (transmit_loop fuel total source sreg) after_wait.
Proof.
  induction total as [|total IH]; intros source sreg; cbn [transmit_loop]; [by apply guards_ret|].
  keeping. eapply guards_bind; [by apply bulk_wait_guards|]. intros [sreg'|]; cbn [after_wait].
  - eapply guards_bind; [apply transmit_bank_guards|]. intros rest. keeping. apply IH.
  - by apply guards_ret.
Qed.

Lemma bulk_receive_guards length :
  guards BULK_OUT_ENDPOINT Free (megausb_bulk_receive fuel length) (fun _ => Free).
Proof.
  unfold megausb_bulk_receive. keeping; [by apply guards_ret|].
  eapply guards_bind; [apply receive_loop_guards|]. intros [[sreg|] bs]; keeping; by apply guards_ret.
Qed.

Lemma bulk_transmit_guards source :
  guards BULK_IN_SELECT Free (megausb_bulk_transmit fuel source) (fun _ => Free).
Proof.
  unfold megausb_bulk_transmit. keeping; [by apply guards_ret|].
  eapply guards_bind; [apply transmit_loop_guards|]. intros [sreg|]; keeping; by apply guards_ret.
Qed.

Lemma debug_putchar_guards c :
  guards DEBUG_IN_ENDPOINT Free (usb_debug_putchar fuel c) (fun _ => Free).
Proof.
  unfold usb_debug_putchar. keeping; [by apply guards_ret|].
  apply (guards_bind _ _ (fun _ => Held)).
  { keeping; by apply guards_ret. }
  intros ready. keeping; [by apply guards_ret|].
  eapply guards_bind; [apply putchar_wait_guards|]. intros [sreg|]; cbn [after_wait]; [|by apply guards_ret].
  keeping. apply (guards_bind _ _ (fun _ => Held)); [keeping; by apply guards_wrr|].
  intros _. keeping. by apply guards_ret.
Qed.

Lemma debug_flush_guards :
  guards DEBUG_IN_ENDPOINT Free (usb_debug_flush_output fuel) (fun _ => Free).
Proof.
  unfold usb_debug_flush_output. keeping. apply (guards_bind _ _ (fun _ => Free)).
  - keeping; [|by apply guards_free, guards_ret].
    eapply guards_bind; [apply pad_bank_guards|]. intros []. keeping. by apply guards_free, guards_wrr.
  - intros _. apply guards_restore.
Qed.
End Driver.

(** ** The interrupt flag is given back *)

Section Restore.
Context `{!Hardware avr_reg} (fuel : nat) (i0 : bool).

(** The status register reads with the interrupt flag the program left in it. *)
Definition flag_reads_back : Prop := forall l, i_bit (rval SREG (hw_read l SREG)) = i_flag i0 l.

Context (Hflag : flag_reads_back).
Implicit Types s : avr.

Definition flag s : bool := i_flag i0 (a_log s).

Lemma seen_flag s : i_bit (seen s SREG) = flag s.
Proof. apply Hflag. Qed.
Lemma flag_rd r v s : flag (log_event (Rd r v) s) = flag s.
Proof. by destruct r. Qed.
Lemma flag_wr r v s : r <> SREG -> flag (log_event (Wr r v) s) = flag s.
Proof. by destruct r. Qed.
Lemma rval_seen s r : rval r (seen s r) = seen s r.
Proof. unfold seen, rval. by rewrite Z.mod_mod. Qed.
Lemma flag_restore v s : flag (log_event (Wr SREG v) s) = i_bit v.
Proof. done. Qed.
Lemma i_bit_rval v : i_bit (rval SREG v) = i_bit v.
Proof. unfold i_bit, rval, reg_bits, avr_registers. by rewrite Z.mod_pow2_bits_low by lia. Qed.

(** What a wait leaves: the flag to restore in its result, or restored. *)
Definition owes (f : bool) (r : option Z) s : Prop :=
  match r with Some sreg => i_bit sreg = f | None => flag s = f end.

Lemma ret_Ok_inv {X} (x y : X) s s' : (mret x : A_ X) s = Ok (y, s') -> x = y /\ s = s'.
Proof. intros H. by injection H as <- <-. Qed.
Ltac returned H := apply ret_Ok_inv in H as [<- <-].

(** Runs the accesses at the head of a program that returned. *)
Ltac runs H := repeat first [rewrite bind_assoc in H|rewrite bind_rdr in H|rewrite bind_wrr in H|rewrite bind_modify in H|rewrite bind_gets in H].
Ltac branch H := match type of H with (if ?b then _ else _) _ = _ => destruct b end.
Ltac flags := repeat first [rewrite seen_flag|rewrite flag_rd|rewrite flag_restore|rewrite i_bit_rval|rewrite flag_wr by done].

Lemma bulk_wait_owes f ep n : forall timeout sreg s r s', i_bit sreg = f ->
  bulk_wait n ep timeout sreg s = Ok (r, s') -> owes f r s'.
Proof.
  induction n as [|n IH]; intros timeout sreg s r s' Hf H; cbn [bulk_wait] in H; runs H.
  all: branch H; [by returned H|]; runs H.
  all: branch H; [returned H; cbn [owes]; by flags|]; runs H.
  all: branch H; [returned H; cbn [owes]; by flags|]; unfold cli, clrr in H; runs H; try done.
  eapply IH; [|exact H]. by flags.
Qed.

Lemma putchar_wait_owes f n : forall timeout sreg s r s', i_bit sreg = f ->
  putchar_wait n timeout sreg s = Ok (r, s') -> owes f r s'.
Proof.
  induction n as [|n IH]; intros timeout sreg s r s' Hf H; cbn [putchar_wait] in H; runs H.
  all: branch H; [by returned H|]; runs H.
  all: branch H; [returned H; cbn [owes]; unfold flag; cbn [av_set_timeout a_log]; by rewrite <- Hf, <- i_bit_rval|].
  all: runs H; branch H; [returned H; cbn [owes]; by flags|]; unfold cli, clrr in H; runs H; try done.
  eapply IH; [|exact H]. by flags.
Qed.

Lemma receive_loop_owes f total : forall length sreg s r s', i_bit sreg = f ->
  receive_loop fuel total length sreg s = Ok (r, s') -> owes f r.1 s'.
Proof.
  induction total as [|total IH]; intros length sreg s r s' Hf H; cbn [receive_loop] in H; [by returned H|].
  runs H. apply bind_Ok_inv in H as (w & s1 & H1 & H). apply (bulk_wait_owes f) in H1; [|done].
  destruct w as [sreg'|]; [|by returned H].
  apply bind_Ok_inv in H as ([bs len] & s2 & H2 & H). runs H.
  apply bind_Ok_inv in H as ([r' rest] & s3 & H3 & H). returned H. exact (IH len sreg' _ _ _ H1 H3).
Qed.

Lemma transmit_loop_owes f total : forall source sreg s r s', i_bit sreg = f ->
  transmit_loop fuel total source sreg s = Ok (r, s') -> owes f r s'.
Proof.
  induction total as [|total IH]; intros source sreg s r s' Hf H; cbn [transmit_loop] in H; [by returned H|].
  runs H. apply bind_Ok_inv in H as (w & s1 & H1 & H). apply (bulk_wait_owes f) in H1; [|done].
  destruct w as [sreg'|]; [|by returned H].
  apply bind_Ok_inv in H as (rest & s2 & H2 & H). runs H. exact (IH rest sreg' _ _ _ H1 H).
Qed.

Lemma bulk_receive_flag length s r s' : megausb_bulk_receive fuel length s = Ok (r, s') -> flag s' = flag s.
Proof.
  unfold megausb_bulk_receive. intros H. runs H. branch H; [by returned H|].
  unfold cli, clrr in H. runs H. apply bind_Ok_inv in H as ([w bs] & s1 & H1 & H).
  apply (receive_loop_owes (flag s)) in H1; [|by flags].
  destruct w as [sreg|]; [runs H; returned H; by flags|by returned H].
Qed.

Lemma bulk_transmit_flag source s r s' : megausb_bulk_transmit fuel source s = Ok (r, s') -> flag s' = flag s.
Proof.
  unfold megausb_bulk_transmit. intros H. runs H. branch H; [by returned H|].
  unfold cli, clrr in H. runs H. apply bind_Ok_inv in H as (w & s1 & H1 & H).
  apply (transmit_loop_owes (flag s)) in H1; [|by flags].
  destruct w as [sreg|]; [runs H; returned H; by flags|by returned H].
Qed.

Lemma debug_putchar_flag c s r s' : usb_debug_putchar fuel c s = Ok (r, s') -> flag s' = flag s.
Proof.
  unfold usb_debug_putchar. intros H. runs H. branch H; [by returned H|].
  unfold cli, clrr in H. runs H. apply bind_Ok_inv in H as (ready & s1 & H1 & H). clear H1.
  destruct ready; cbn [negb] in H; runs H; [|returned H; by flags].
  apply bind_Ok_inv in H as (w & s2 & H2 & H). apply (putchar_wait_owes (flag s)) in H2; [|by flags].
  destruct w as [sreg|]; [|by returned H]. runs H.
  apply bind_Ok_inv in H as (u & s3 & H3 & H). runs H. returned H. by flags.
Qed.

Lemma debug_flush_flag s r s' : usb_debug_flush_output fuel s = Ok (r, s') -> flag s' = flag s.
Proof.
  unfold usb_debug_flush_output, cli, clrr. intros H. runs H. apply bind_Ok_inv in H as (u & s1 & H1 & H).
  assert (s' = log_event (Wr SREG (rval SREG (seen s SREG))) s1) as -> by (by injection H as <- <-). by flags.
Qed.
End Restore.

(** ** The driver's calls *)

(** A call of the main program to the driver. *)
Inductive usb_call := Receive (length : Z) | Transmit (source : list Z) | Putchar (c : Z) | Flush.
Definition call_endpoint (c : usb_call) : Z :=
  match c with Receive _ => BULK_OUT_ENDPOINT | Transmit _ => BULK_IN_SELECT | Putchar _ | Flush => DEBUG_IN_ENDPOINT end.
Definition perform `{!Hardware avr_reg} (fuel : nat) (c : usb_call) : A_ unit :=
  match c with
  | Receive length => _ ← megausb_bulk_receive fuel length; mret tt
  | Transmit source => _ ← megausb_bulk_transmit fuel source; mret tt
  | Putchar c => _ ← usb_debug_putchar fuel c; mret tt
  | Flush => usb_debug_flush_output fuel
  end.

Lemma perform_guards `{!Hardware avr_reg} fuel c : guards (call_endpoint c) Free (perform fuel c) (fun _ => Free).
Proof.
  destruct c; cbn [call_endpoint perform]; [| | |apply debug_flush_guards].
  all: eapply guards_bind; [first [apply bulk_receive_guards|apply bulk_transmit_guards|apply debug_putchar_guards]|].
  all: intros ?; by apply guards_ret.
Qed.

Lemma perform_flag `{!Hardware avr_reg} fuel i0 c s r s' :
  flag_reads_back i0 -> perform fuel c s = Ok (r, s') -> flag i0 s' = flag i0 s.
Proof.
  intros Hi H. destruct c; cbn [perform] in H; [| | |by apply (debug_flush_flag fuel i0 Hi) in H].
  all: apply bind_Ok_inv in H as (x & s1 & H1 & H); injection H as <- <-.
  all: first [by apply (bulk_receive_flag fuel i0 Hi) in H1|by apply (bulk_transmit_flag fuel i0 Hi) in H1|by apply (debug_putchar_flag fuel i0 Hi) in H1].
Qed.

(** C18: Interrupts cannot disturb the driver: whatever the hardware answers and
    whatever interrupt routines do between the accesses of a bulk or debug call,
    the call accesses the data and the flags of an endpoint with its own endpoint
    selected; and it returns, on success and on every error, with the interrupt
    flag it was called with. A call that is still waiting is covered too: its
    history is the beginning of one on hardware that answers later. *)
Theorem usb_sections_undisturbed `{!Hardware avr_reg} fuel c s s' l :
  perform fuel c s = Ok (tt, s') -> a_log s' = l ++ a_log s ->
  (forall i t, interleaving i t -> mains t = l -> addressed (call_endpoint c) t = true) /\
  (forall i, flag_reads_back i -> i_flag i (a_log s') = i_flag i (a_log s)).
Proof.
  intros H Hl. split.
  - intros i t Ht Hm. apply (disciplined_addressed i); [done|]. rewrite Hm.
    destruct (perform_guards fuel c (a_log s) [] s tt s' eq_refl eq_refl I H) as (l' & Hl' & Hd & _).
    rewrite Hl in Hl'. by apply app_inv_tail in Hl' as ->.
  - intros i Hi. exact (perform_flag fuel i c s tt s' Hi H).
Qed.

Lemma interleaving_mains i l t : interleaving i t -> interleaving i (((Main,.) <$> l) ++ t).
Proof. intros H. induction l; [done|]. cbn. by constructor. Qed.
Lemma mains_app l t : mains (((Main,.) <$> l) ++ t) = l ++ mains t.
Proof. induction l; [done|]. cbn. congruence. Qed.

(** Hardware whose bank is filled after the first look at it. *)
Definition late_hw : Hardware avr_reg := fun l r =>
  match r with
  | UEINTX => if bool_decide (reads UEINTX l = []) then 0 else bit RWAL
  | SREG => if i_flag true l then 0x80 else 0
  | megausb_configuration => 1
  | UEDATX => 7
  | _ => 0
  end.

(** A reception that waits once, and the start-of-frame interrupt, which selects
    the debug endpoint, while it does. *)
Definition late_reception : list (access avr_reg) :=
  match @perform late_hw 4 (Receive 1) avr0 with Ok (_, s) => a_log s | _ => [] end.
Definition frame_interrupt : list (access avr_reg) :=
  match @ISR_USB_GEN_vect (fun _ r => match r with UDINT => bit SOFI | megausb_configuration | debug_flush_timer => 1 | _ => 0 end) 4 avr0 with
  | Ok (_, s) => a_log s
  | _ => []
  end.

Lemma late_flag i : i = true -> @flag_reads_back late_hw i.
Proof. intros -> l. unfold hw_read, late_hw. by destruct (i_flag true l). Qed.

Lemma usb_sections_undisturbed_witness :
  exists s' t, @perform late_hw 4 (Receive 1) avr0 = Ok (tt, s') /\ interleaving true t /\ mains t = a_log s' /\
    omap (fun e => match e with (o, Wr UENUM v) => Some (o, v) | _ => None end) t =
      [(Main, BULK_OUT_ENDPOINT); (Irq, DEBUG_IN_ENDPOINT); (Main, BULK_OUT_ENDPOINT)] /\
    addressed BULK_OUT_ENDPOINT t = true /\ i_flag true (a_log s') = true.
Proof.
  set (w := (length late_reception - 8)%nat).
  eexists _, (((Main,.) <$> take w late_reception) ++ ((Irq,.) <$> frame_interrupt) ++ ((Main,.) <$> drop w late_reception) ++ []).
  split; [vm_compute; reflexivity|].
  assert (interleaving true (((Main,.) <$> take w late_reception) ++ ((Irq,.) <$> frame_interrupt) ++ ((Main,.) <$> drop w late_reception) ++ [])) as Ht.
  { apply interleaving_mains, il_irq; [apply interleaving_mains, il_start|vm_compute; reflexivity]. }
  split; [exact Ht|]. split; [vm_compute; reflexivity|]. split; [vm_compute; reflexivity|].
  destruct (@usb_sections_undisturbed late_hw 4 (Receive 1) avr0 (Avr late_reception 0 0 (replicate 64 0) 0) late_reception
              ltac:(vm_compute; reflexivity) ltac:(vm_compute; reflexivity)) as [Ha Hf].
  split; [exact (Ha true _ Ht ltac:(vm_compute; reflexivity))|exact (Hf true (late_flag true eq_refl))].
Defined.
