(* ===== verification/SamAsf.v ===== *)
(** * Peripheral drivers of the ATSAM4S (platforms/atsam4s/asf/src)

    The registers of the main processor and the driver functions its firmware
    calls: power management (pmc.c), the digital-to-analog converter (dacc.c),
    the UART (uart.c) and the parallel ports (pio.c, ioport.c), in the
    configuration the build selects (SAM4S). Registers are 32 bits wide. *)

From S2P Require Import Prelude Mmio.
From stdpp Require Import base list gmap sets.
From Stdlib Require Import ZArith Lia.
Local Open Scope Z_scope.

Inductive uart_port := UART0 | UART1.
Inductive uart_field :=
| UART_CR | UART_MR | UART_IER | UART_IDR | UART_IMR | UART_SR | UART_RHR | UART_THR | UART_BRGR
| UART_RPR | UART_RCR | UART_PTCR.
Inductive pio_port := PIOA | PIOB | PIOC.
Inductive pio_field :=
| PIO_PER | PIO_PDR | PIO_OER | PIO_ODR | PIO_IFER | PIO_IFDR | PIO_SODR | PIO_CODR | PIO_ODSR | PIO_PDSR
| PIO_IER | PIO_IDR | PIO_IMR | PIO_ISR | PIO_MDER | PIO_MDDR | PIO_PUDR | PIO_PUER
| PIO_ABCDSR0 | PIO_ABCDSR1 | PIO_IFSCDR | PIO_IFSCER
| PIO_SCDR | PIO_MDSR | PIO_PPDER | PIO_PPDDR | PIO_OWER | PIO_OWDR | PIO_OWSR | PIO_SCHMITT
| PIO_AIMER | PIO_AIMDR | PIO_REHLSR | PIO_FELLSR | PIO_ESR | PIO_LSR | PIO_WPMR | PIO_WPSR
| PIO_PCMR | PIO_PCIER | PIO_PCIDR | PIO_PCIMR | PIO_PCISR | PIO_PCRHR.
Inductive sam_reg :=
| uninitialised
| WDT_MR | EEFC_FMR | RSTC_MR | NVIC_ISER (n : Z) | NVIC_ICER (n : Z) | NVIC_ISPR (n : Z) | NVIC_ICPR (n : Z) | NVIC_IABR (n : Z) | NVIC_IP (n : Z) | PRIMASK
| SCB_SHP (n : Z) | SCB_AIRCR | SysTick_LOAD | SysTick_VAL | SysTick_CTRL | ITM_TCR | ITM_TER | ITM_PORT (n : Z) | ITM_RxBuffer
| CKGR_MOR | CKGR_PLLAR | CKGR_PLLBR | PMC_MCKR | PMC_SR
| PMC_PCER0 | PMC_PCDR0 | PMC_PCSR0 | PMC_PCER1 | PMC_PCDR1 | PMC_PCSR1
| PMC_SCER | PMC_SCDR | PMC_SCSR | PMC_PCK (n : Z) | PMC_USB | PMC_IER | PMC_IDR | PMC_IMR | PMC_FSMR | PMC_WPMR | PMC_WPSR
| SUPC_CR | SUPC_MR | SUPC_SR | SCB_SCR
| DACC_CR | DACC_MR | DACC_CHER | DACC_CHDR | DACC_CHSR | DACC_CDR | DACC_IER | DACC_IDR | DACC_IMR | DACC_ISR
| DACC_ACR | DACC_WPMR | DACC_WPSR
| UART (p : uart_port) (f : uart_field)
| PIO (p : pio_port) (f : pio_field).

#[global] Instance uart_port_eq_dec : EqDecision uart_port.
Proof. solve_decision. Defined.
#[global] Instance uart_field_eq_dec : EqDecision uart_field.
Proof. solve_decision. Defined.
#[global] Instance pio_port_eq_dec : EqDecision pio_port.
Proof. solve_decision. Defined.
#[global] Instance pio_field_eq_dec : EqDecision pio_field.
Proof. solve_decision. Defined.
#[global] Instance sam_reg_eq_dec : EqDecision sam_reg.
Proof. solve_decision. Defined.
#[global] Instance sam_registers : Registers sam_reg := 32.

(** The processor's state is the history of its register accesses. An uninitialised
    local variable is read like a register. *)
Record sam := Sam { s_log : list (access sam_reg) }.
#[global] Instance sam_log : HasLog sam_reg sam.
Proof. by refine {| get_log := s_log; put_log l _ := Sam l |}; [..|intros []]. Defined.
Abbreviation S_ := (M sam).

(** ** Register fields (asf/include/component) *)

Definition DACC_CR_SWRST : Z := bit 0.
Definition DACC_MR_TRGEN : Z := bit 0.
Definition DACC_MR_TRGEN_EN : Z := bit 0.
Definition DACC_MR_TRGSEL_Pos : Z := 1.
Definition DACC_MR_TRGSEL_Msk : Z := Z.shiftl 0x7 1.
Definition DACC_MR_TRGSEL (value : Z) : Z := Z.land DACC_MR_TRGSEL_Msk (u32 (Z.shiftl value 1)).
Definition DACC_MR_WORD_HALF : Z := 0.
Definition DACC_MR_WORD_WORD : Z := bit 4.
Definition DACC_MR_ONE : Z := bit 8.
Definition DACC_MR_USER_SEL_Pos : Z := 16.
Definition DACC_MR_USER_SEL_Msk : Z := Z.shiftl 0x3 16.
Definition DACC_MR_USER_SEL_CHANNEL0 : Z := Z.shiftl 0x0 16.
Definition DACC_MR_USER_SEL_CHANNEL1 : Z := Z.shiftl 0x1 16.
Definition DACC_MR_TAG : Z := bit 20.
Definition DACC_MR_MAXS : Z := bit 21.
Definition DACC_MR_MAXS_NORMAL : Z := 0.
Definition DACC_MR_STARTUP_Pos : Z := 24.
Definition DACC_MR_STARTUP_Msk : Z := Z.shiftl 0x3f 24.
Definition DACC_MR_STARTUP_1920 : Z := Z.shiftl 0x1E 24.
Definition DACC_CHER_CH0 : Z := bit 0.
Definition DACC_CHDR_CH0 : Z := bit 0.
Definition DACC_IER_TXRDY : Z := bit 0.
Definition DACC_ISR_TXRDY : Z := bit 0.
Definition DACC_WPMR_WPEN : Z := bit 0.
Definition DACC_WPMR_WPKEY_PASSWD : Z := Z.shiftl 0x444143 8.
Definition DACC_RESOLUTION : Z := 12.
Definition DACC_MAX_DATA : Z := Z.shiftl 1 DACC_RESOLUTION - 1.
Definition MAX_CH_NB : Z := 1.
Definition DACC_RC_OK : Z := 0.
Definition DACC_RC_INVALID_PARAM : Z := 1.

Definition PMC_TIMEOUT : Z := 2048.
Definition MAX_PERIPH_ID : Z := 34.
Definition PMC_SR_MOSCXTS : Z := bit 0.
Definition PMC_SR_LOCKA : Z := bit 1.
Definition PMC_SR_LOCKB : Z := bit 2.
Definition PMC_SR_MCKRDY : Z := bit 3.
Definition PMC_SR_MOSCSELS : Z := bit 16.
Definition PMC_MCKR_CSS_Msk : Z := 0x3.
Definition PMC_MCKR_CSS_MAIN_CLK : Z := 0x1.
Definition PMC_MCKR_CSS_PLLA_CLK : Z := 0x2.
Definition PMC_MCKR_CSS_PLLB_CLK : Z := 0x3.
Definition PMC_MCKR_PRES_Msk : Z := Z.shiftl 0x7 4.
Definition PMC_MCKR_PRES_CLK_1 : Z := 0.
Definition PMC_MCKR_PRES_CLK_3 : Z := Z.shiftl 0x7 4.
Definition CKGR_PLLAR_ONE : Z := bit 29.
Definition CKGR_PLLAR_DIVA (value : Z) : Z := Z.land 0xff value.
Definition CKGR_PLLAR_PLLACOUNT (value : Z) : Z := Z.land (Z.shiftl 0x3f 8) (u32 (Z.shiftl value 8)).
Definition CKGR_PLLAR_MULA (value : Z) : Z := Z.land (Z.shiftl 0x7ff 16) (u32 (Z.shiftl value 16)).
Definition CKGR_MOR_MOSCXTEN : Z := bit 0.
Definition CKGR_MOR_MOSCRCEN : Z := bit 3.
Definition CKGR_MOR_MOSCXTST (value : Z) : Z := Z.land (Z.shiftl 0xff 8) (u32 (Z.shiftl value 8)).
Definition CKGR_MOR_KEY_PASSWD : Z := Z.shiftl 0x37 16.
Definition CKGR_MOR_MOSCSEL : Z := bit 24.
Definition CKGR_PLLBR_DIVB (value : Z) : Z := Z.land 0xff value.
Definition CKGR_PLLBR_PLLBCOUNT (value : Z) : Z := Z.land (Z.shiftl 0x3f 8) (u32 (Z.shiftl value 8)).
Definition CKGR_PLLBR_MULB (value : Z) : Z := Z.land (Z.shiftl 0x7ff 16) (u32 (Z.shiftl value 16)).

Definition UART_CR_RSTRX : Z := bit 2.
Definition UART_CR_RSTTX : Z := bit 3.
Definition UART_CR_RXEN : Z := bit 4.
Definition UART_CR_RXDIS : Z := bit 5.
Definition UART_CR_TXEN : Z := bit 6.
Definition UART_CR_TXDIS : Z := bit 7.
Definition UART_CR_RSTSTA : Z := bit 8.
Definition UART_MR_PAR_NO : Z := Z.shiftl 0x4 9.
Definition UART_SR_RXRDY : Z := bit 0.
Definition UART_SR_TXRDY : Z := bit 1.
Definition UART_SR_ENDRX : Z := bit 3.
Definition UART_SR_ENDTX : Z := bit 4.
Definition UART_SR_TXEMPTY : Z := bit 9.
Definition UART_SR_RXBUFF : Z := bit 12.
Definition UART_IER_ENDRX : Z := bit 3.
Definition UART_IDR_ENDRX : Z := bit 3.
Definition UART_PTCR_RXTEN : Z := bit 0.
Definition UART_PTCR_RXTDIS : Z := bit 1.
Definition UART_PTCR_TXTDIS : Z := bit 9.
Definition UART_MCK_DIV : Z := 16.
Definition UART_MCK_DIV_MIN_FACTOR : Z := 1.
Definition UART_MCK_DIV_MAX_FACTOR : Z := 65535.

Definition PIO_DEFAULT : Z := 0.
Definition PIO_PULLUP : Z := bit 0.
Definition PIO_DEGLITCH : Z := bit 1.
Definition PIO_OPENDRAIN : Z := bit 2.
Definition PIO_DEBOUNCE : Z := bit 3.

Section Asf.
Context `{!Hardware sam_reg}.
Context (fuel : nat).

(** ** Power management (pmc.c) *)

(** [for (ul_timeout = PMC_TIMEOUT; !(PMC_SR & MCKRDY); --ul_timeout)] with the
    return of 1 when the counter is 0 at the start of the body: whether the
    master clock became ready. *)
Fixpoint mckrdy_loop (ul_timeout : nat) : S_ bool :=
  x ← rdr PMC_SR;
  if ctrue (Z.land x PMC_SR_MCKRDY) then mret true
  else match ul_timeout with O => mret false | S n => mckrdy_loop n end.

(** [PMC->PMC_MCKR = (PMC->PMC_MCKR & ~mask) | value] *)
Definition set_mckr (mask value : Z) : S_ unit := x ← rdr PMC_MCKR; wrr PMC_MCKR (Z.lor (Z.ldiff x mask) value).

(** Two steps, each followed by a wait. *)
Definition switch_mck (mask1 value1 mask2 value2 : Z) : S_ Z :=
  set_mckr mask1 value1;;
  ok ← mckrdy_loop (Z.to_nat PMC_TIMEOUT);
  if ok : bool then
    set_mckr mask2 value2;;
    ok ← mckrdy_loop (Z.to_nat PMC_TIMEOUT);
    if ok : bool then mret 0 else mret 1
  else mret 1.

Definition pmc_mck_set_prescaler (ul_pres : Z) : S_ unit :=
  set_mckr PMC_MCKR_PRES_Msk ul_pres;; wait_set fuel PMC_SR PMC_SR_MCKRDY.

Definition pmc_switch_mck_to_mainck (ul_pres : Z) : S_ Z :=
  switch_mck PMC_MCKR_CSS_Msk PMC_MCKR_CSS_MAIN_CLK PMC_MCKR_PRES_Msk ul_pres.
Definition pmc_switch_mck_to_pllack (ul_pres : Z) : S_ Z :=
  switch_mck PMC_MCKR_PRES_Msk ul_pres PMC_MCKR_CSS_Msk PMC_MCKR_CSS_PLLA_CLK.
Definition pmc_switch_mck_to_pllbck (ul_pres : Z) : S_ Z :=
  switch_mck PMC_MCKR_PRES_Msk ul_pres PMC_MCKR_CSS_Msk PMC_MCKR_CSS_PLLB_CLK.

Definition pmc_disable_pllack : S_ unit := wrr CKGR_PLLAR (Z.lor CKGR_PLLAR_ONE (CKGR_PLLAR_MULA 0)).
Definition pmc_enable_pllack (mula pllacount diva : Z) : S_ unit :=
  pmc_disable_pllack;;
  wrr CKGR_PLLAR (Z.lor CKGR_PLLAR_ONE (Z.lor (CKGR_PLLAR_DIVA diva)
                   (Z.lor (CKGR_PLLAR_PLLACOUNT pllacount) (CKGR_PLLAR_MULA mula))));;
  wait_set fuel PMC_SR PMC_SR_LOCKA.
Definition pmc_is_locked_pllack : S_ Z := x ← rdr PMC_SR; mret (Z.land x PMC_SR_LOCKA).

Definition pmc_enable_periph_clk (ul_id : Z) : S_ Z :=
  if MAX_PERIPH_ID <? ul_id then mret 1
  else
    (if ul_id <? 32 then
       x ← rdr PMC_PCSR0;
       if Z.land x (bit ul_id) =? bit ul_id then mret tt else wrr PMC_PCER0 (bit ul_id)
     else
       x ← rdr PMC_PCSR1;
       if Z.land x (bit (ul_id - 32)) =? bit (ul_id - 32) then mret tt else wrr PMC_PCER1 (bit (ul_id - 32)));;
    mret 0.

Definition pmc_disable_periph_clk (ul_id : Z) : S_ Z :=
  if MAX_PERIPH_ID <? ul_id then mret 1
  else
    (if ul_id <? 32 then
       x ← rdr PMC_PCSR0;
       if Z.land x (bit ul_id) =? bit ul_id then wrr PMC_PCDR0 (bit ul_id) else mret tt
     else
       x ← rdr PMC_PCSR1;
       if Z.land x (bit (ul_id - 32)) =? bit (ul_id - 32) then wrr PMC_PCDR1 (bit (ul_id - 32)) else mret tt);;
    mret 0.

(** ** Interrupt controller (asf/include/cmsis/core_cm4.h) *)

(** [NVIC->r[(uint32_t)IRQn >> 5]], one of eight. *)
Definition nvic (r : Z -> sam_reg) (n : Z) : S_ sam_reg := let k := Z.shiftr (u32 n) 5 in if k <? 8 then mret (r k) else ub.
Definition NVIC_EnableIRQ (n : Z) : S_ unit := r ← nvic NVIC_ISER n; wrr r (bit (Z.land n 0x1F)).
Definition NVIC_DisableIRQ (n : Z) : S_ unit := r ← nvic NVIC_ICER n; wrr r (bit (Z.land n 0x1F)).

(** ** Digital-to-analog converter (dacc.c) *)

Definition dacc_reset : S_ unit := wrr DACC_CR DACC_CR_SWRST.

Definition dacc_set_trigger (ul_trigger : Z) : S_ Z :=
  mr ← rdr DACC_MR;
  wrr DACC_MR (Z.lor (Z.lor (Z.ldiff mr DACC_MR_TRGSEL_Msk) DACC_MR_TRGEN_EN) (DACC_MR_TRGSEL ul_trigger));;
  mret DACC_RC_OK.
Definition dacc_disable_trigger : S_ unit := clrr DACC_MR DACC_MR_TRGEN.

Definition dacc_set_transfer_mode (ul_mode : Z) : S_ Z :=
  orr DACC_MR DACC_MR_ONE;;
  (if ctrue ul_mode then orr DACC_MR DACC_MR_WORD_WORD else clrr DACC_MR DACC_MR_WORD_WORD);;
  mret DACC_RC_OK.

Definition dacc_enable_interrupt (ul_interrupt_mask : Z) : S_ unit := wrr DACC_IER ul_interrupt_mask.
Definition dacc_disable_interrupt (ul_interrupt_mask : Z) : S_ unit := wrr DACC_IDR ul_interrupt_mask.
Definition dacc_get_interrupt_mask : S_ Z := rdr DACC_IMR.
Definition dacc_get_interrupt_status : S_ Z := rdr DACC_ISR.
Definition dacc_write_conversion_data (ul_data : Z) : S_ unit := wrr DACC_CDR ul_data.

Definition dacc_set_writeprotect (ul_enable : Z) : S_ unit :=
  if ctrue ul_enable then wrr DACC_WPMR (Z.lor DACC_WPMR_WPKEY_PASSWD DACC_WPMR_WPEN)
  else wrr DACC_WPMR DACC_WPMR_WPKEY_PASSWD.
Definition dacc_get_writeprotect_status : S_ Z := rdr DACC_WPSR.

(** The mode register is read before the channel number is checked. *)
Definition dacc_set_channel_selection (ul_channel : Z) : S_ Z :=
  mr ← rdr DACC_MR;
  let mr := Z.ldiff mr DACC_MR_USER_SEL_Msk in
  if MAX_CH_NB <? ul_channel then mret DACC_RC_INVALID_PARAM
  else
    let mr := Z.ldiff mr DACC_MR_TAG in
    wrr DACC_MR (Z.lor mr (u32 (Z.shiftl ul_channel DACC_MR_USER_SEL_Pos)));;
    mret DACC_RC_OK.
Definition dacc_enable_flexible_selection : S_ unit := orr DACC_MR DACC_MR_TAG.

(** The startup argument is shifted into its field, so it is a field value. *)
Definition dacc_set_timing (ul_maxs ul_startup : Z) : S_ Z :=
  mr ← rdr DACC_MR;
  let mr := Z.ldiff mr DACC_MR_STARTUP_Msk in
  let mr := if ctrue ul_maxs then Z.lor mr DACC_MR_MAXS else Z.ldiff mr DACC_MR_MAXS in
  let mr := Z.lor mr (Z.land DACC_MR_STARTUP_Msk (u32 (Z.shiftl ul_startup DACC_MR_STARTUP_Pos))) in
  wrr DACC_MR mr;; mret DACC_RC_OK.

Definition dacc_enable_channel (ul_channel : Z) : S_ Z :=
  if MAX_CH_NB <? ul_channel then mret DACC_RC_INVALID_PARAM
  else wrr DACC_CHER (u32 (Z.shiftl DACC_CHER_CH0 ul_channel));; mret DACC_RC_OK.
Definition dacc_disable_channel (ul_channel : Z) : S_ Z :=
  if MAX_CH_NB <? ul_channel then mret DACC_RC_INVALID_PARAM
  else wrr DACC_CHDR (u32 (Z.shiftl DACC_CHDR_CH0 ul_channel));; mret DACC_RC_OK.
Definition dacc_get_channel_status : S_ Z := rdr DACC_CHSR.
Definition dacc_set_analog_control (ul_analog_control : Z) : S_ Z :=
  wrr DACC_ACR ul_analog_control;; mret DACC_RC_OK.
Definition dacc_get_analog_control : S_ Z := rdr DACC_ACR.

(** ** UART (uart.c) *)

(** [sam_uart_opt_t] *)
Record sam_uart_opt := SamUartOpt { ul_mck : Z; ul_baudrate : Z; ul_mode : Z }.

Definition uart_init (p_uart : uart_port) (o : sam_uart_opt) : S_ Z :=
  wrr (UART p_uart UART_CR) (Z.lor UART_CR_RSTRX (Z.lor UART_CR_RSTTX (Z.lor UART_CR_RXDIS UART_CR_TXDIS)));;
  if ul_baudrate o =? 0 then ub
  else
    let cd := Z.quot (Z.quot (ul_mck o) (ul_baudrate o)) UART_MCK_DIV in
    if (cd <? UART_MCK_DIV_MIN_FACTOR) || (UART_MCK_DIV_MAX_FACTOR <? cd) then mret 1
    else
      wrr (UART p_uart UART_BRGR) cd;;
      wrr (UART p_uart UART_MR) (ul_mode o);;
      wrr (UART p_uart UART_PTCR) (Z.lor UART_PTCR_RXTDIS UART_PTCR_TXTDIS);;
      wrr (UART p_uart UART_CR) (Z.lor UART_CR_RXEN UART_CR_TXEN);;
      mret 0.

Section Uart.
Variable p_uart : uart_port.
Definition uart_enable_tx : S_ unit := wrr (UART p_uart UART_CR) UART_CR_TXEN.
Definition uart_disable_tx : S_ unit := wrr (UART p_uart UART_CR) UART_CR_TXDIS.
Definition uart_reset_tx : S_ unit := wrr (UART p_uart UART_CR) (Z.lor UART_CR_RSTTX UART_CR_TXDIS).
Definition uart_enable_rx : S_ unit := wrr (UART p_uart UART_CR) UART_CR_RXEN.
Definition uart_disable_rx : S_ unit := wrr (UART p_uart UART_CR) UART_CR_RXDIS.
Definition uart_reset_rx : S_ unit := wrr (UART p_uart UART_CR) (Z.lor UART_CR_RSTRX UART_CR_RXDIS).
Definition uart_enable : S_ unit := wrr (UART p_uart UART_CR) (Z.lor UART_CR_RXEN UART_CR_TXEN).
Definition uart_disable : S_ unit := wrr (UART p_uart UART_CR) (Z.lor UART_CR_RXDIS UART_CR_TXDIS).
Definition uart_reset : S_ unit :=
  wrr (UART p_uart UART_CR) (Z.lor UART_CR_RSTRX (Z.lor UART_CR_RSTTX (Z.lor UART_CR_RXDIS UART_CR_TXDIS))).
Definition uart_enable_interrupt (ul_sources : Z) : S_ unit := wrr (UART p_uart UART_IER) ul_sources.
Definition uart_disable_interrupt (ul_sources : Z) : S_ unit := wrr (UART p_uart UART_IDR) ul_sources.
Definition uart_get_interrupt_mask : S_ Z := rdr (UART p_uart UART_IMR).
Definition uart_get_status : S_ Z := rdr (UART p_uart UART_SR).
Definition uart_reset_status : S_ unit := wrr (UART p_uart UART_CR) UART_CR_RSTSTA.

(** [(p_uart->UART_SR & flag) > 0] *)
Definition sr_flag (flag : Z) : S_ bool := x ← rdr (UART p_uart UART_SR); mret (0 <? Z.land x flag).
Definition uart_is_tx_ready : S_ bool := sr_flag UART_SR_TXRDY.
Definition uart_is_tx_empty : S_ bool := sr_flag UART_SR_TXEMPTY.
Definition uart_is_rx_ready : S_ bool := sr_flag UART_SR_RXRDY.
Definition uart_is_tx_buf_empty : S_ bool := sr_flag UART_SR_TXEMPTY.
Definition uart_set_clock_divisor (us_divisor : Z) : S_ unit := wrr (UART p_uart UART_BRGR) us_divisor.

Definition uart_write (uc_data : Z) : S_ Z :=
  x ← rdr (UART p_uart UART_SR);
  if ctrue (Z.land x UART_SR_TXRDY) then wrr (UART p_uart UART_THR) uc_data;; mret 0 else mret 1.
(** The result, and the byte stored through the pointer. *)
Definition uart_read : S_ (Z * option Z) :=
  x ← rdr (UART p_uart UART_SR);
  if Z.land x UART_SR_RXRDY =? 0 then mret (1, None)
  else c ← rdr (UART p_uart UART_RHR); mret (0, Some (u8 c)).
Definition uart_is_rx_buf_end : S_ bool := sr_flag UART_SR_ENDRX.
Definition uart_is_tx_buf_end : S_ bool := sr_flag UART_SR_ENDTX.
Definition uart_is_rx_buf_full : S_ bool := sr_flag UART_SR_RXBUFF.
End Uart.

(** ** Parallel ports (pio.c) *)

Inductive pio_type :=
| PIO_NOT_A_PIN | PIO_PERIPH_A | PIO_PERIPH_B | PIO_PERIPH_C | PIO_PERIPH_D | PIO_INPUT | PIO_OUTPUT_0 | PIO_OUTPUT_1.

Section Pio.
Variable p_pio : pio_port.
Definition pio_pull_up (ul_mask ul_pull_up_enable : Z) : S_ unit :=
  if ctrue ul_pull_up_enable then wrr (PIO p_pio PIO_PUER) ul_mask else wrr (PIO p_pio PIO_PUDR) ul_mask.
Definition pio_set (ul_mask : Z) : S_ unit := wrr (PIO p_pio PIO_SODR) ul_mask.
Definition pio_clear (ul_mask : Z) : S_ unit := wrr (PIO p_pio PIO_CODR) ul_mask.
Definition pio_get (ul_type : pio_type) (ul_mask : Z) : S_ Z :=
  ul_reg ← match ul_type with
            | PIO_OUTPUT_0 | PIO_OUTPUT_1 => rdr (PIO p_pio PIO_ODSR)
            | _ => rdr (PIO p_pio PIO_PDSR)
            end;
  mret (if Z.land ul_reg ul_mask =? 0 then 0 else 1).
Definition pio_disable_interrupt (ul_mask : Z) : S_ unit := wrr (PIO p_pio PIO_IDR) ul_mask.

(** [ul_sr = r; r &= (~ul_mask & ul_sr)] and [ul_sr = r; r = (ul_mask | ul_sr)] *)
Definition select_clear (r : pio_field) (ul_mask : Z) : S_ unit :=
  ul_sr ← rdr (PIO p_pio r); x ← rdr (PIO p_pio r); wrr (PIO p_pio r) (Z.land x (Z.ldiff ul_sr ul_mask)).
Definition select_set (r : pio_field) (ul_mask : Z) : S_ unit :=
  ul_sr ← rdr (PIO p_pio r); wrr (PIO p_pio r) (Z.lor ul_mask ul_sr).

Definition pio_set_peripheral (ul_type : pio_type) (ul_mask : Z) : S_ unit :=
  wrr (PIO p_pio PIO_IDR) ul_mask;;
  match ul_type with
  | PIO_PERIPH_A =>
    select_clear PIO_ABCDSR0 ul_mask;; select_clear PIO_ABCDSR1 ul_mask;; wrr (PIO p_pio PIO_PDR) ul_mask
  | PIO_PERIPH_B =>
    select_set PIO_ABCDSR0 ul_mask;; select_clear PIO_ABCDSR1 ul_mask;; wrr (PIO p_pio PIO_PDR) ul_mask
  | PIO_PERIPH_C =>
    select_clear PIO_ABCDSR0 ul_mask;; select_set PIO_ABCDSR1 ul_mask;; wrr (PIO p_pio PIO_PDR) ul_mask
  | PIO_PERIPH_D =>
    select_set PIO_ABCDSR0 ul_mask;; select_set PIO_ABCDSR1 ul_mask;; wrr (PIO p_pio PIO_PDR) ul_mask
  | PIO_INPUT | PIO_OUTPUT_0 | PIO_OUTPUT_1 | PIO_NOT_A_PIN => mret tt
  end.

Definition pio_set_input (ul_mask ul_attribute : Z) : S_ unit :=
  pio_disable_interrupt ul_mask;;
  pio_pull_up ul_mask (Z.land ul_attribute PIO_PULLUP);;
  (if ctrue (Z.land ul_attribute (Z.lor PIO_DEGLITCH PIO_DEBOUNCE)) then wrr (PIO p_pio PIO_IFER) ul_mask
   else wrr (PIO p_pio PIO_IFDR) ul_mask);;
  (if ctrue (Z.land ul_attribute PIO_DEGLITCH) then wrr (PIO p_pio PIO_IFSCDR) ul_mask
   else if ctrue (Z.land ul_attribute PIO_DEBOUNCE) then wrr (PIO p_pio PIO_IFSCER) ul_mask
   else mret tt);;
  wrr (PIO p_pio PIO_ODR) ul_mask;;
  wrr (PIO p_pio PIO_PER) ul_mask.

Definition pio_set_output (ul_mask ul_default_level ul_multidrive_enable ul_pull_up_enable : Z) : S_ unit :=
  pio_disable_interrupt ul_mask;;
  pio_pull_up ul_mask ul_pull_up_enable;;
  (if ctrue ul_multidrive_enable then wrr (PIO p_pio PIO_MDER) ul_mask else wrr (PIO p_pio PIO_MDDR) ul_mask);;
  (if ctrue ul_default_level then wrr (PIO p_pio PIO_SODR) ul_mask else wrr (PIO p_pio PIO_CODR) ul_mask);;
  wrr (PIO p_pio PIO_OER) ul_mask;;
  wrr (PIO p_pio PIO_PER) ul_mask.

Definition pio_configure (ul_type : pio_type) (ul_mask ul_attribute : Z) : S_ Z :=
  match ul_type with
  | PIO_PERIPH_A | PIO_PERIPH_B | PIO_PERIPH_C | PIO_PERIPH_D =>
    pio_set_peripheral ul_type ul_mask;; pio_pull_up ul_mask (Z.land ul_attribute PIO_PULLUP);; mret 1
  | PIO_INPUT => pio_set_input ul_mask ul_attribute;; mret 1
  | PIO_OUTPUT_0 | PIO_OUTPUT_1 =>
    pio_set_output ul_mask (match ul_type with PIO_OUTPUT_1 => 1 | _ => 0 end)
      (if ctrue (Z.land ul_attribute PIO_OPENDRAIN) then 1 else 0)
      (if ctrue (Z.land ul_attribute PIO_PULLUP) then 1 else 0);;
    mret 1
  | PIO_NOT_A_PIN => mret 0
  end.
End Pio.

(** ** Pins by number (ioport.c): the port in bits 8-15, the pin in bits 0-7 *)

Definition get_pio_from_pin (pin : Z) : option pio_port :=
  let port_index := u8 (Z.shiftr (Z.land pin 0xFF00) 8) in
  if port_index =? 0 then Some PIOA
  else if port_index =? 1 then Some PIOB
  else if port_index =? 2 then Some PIOC
  else None.
(** A shift by 32 or more has no defined value. *)
Definition get_pin_mask (pin : Z) : S_ Z :=
  let n := Z.land pin 0x00FF in if n <? 32 then mret (bit n) else ub.

Definition IOPORT_DIR_OUTPUT : Z := 1.
Definition ioport_set_pin_mode (pin flags : Z) : S_ unit := mret tt.
Definition ioport_set_pin_dir (pin dir : Z) : S_ unit :=
  match get_pio_from_pin pin with
  | None => mret tt
  | Some port =>
    mask ← get_pin_mask pin;
    wrr (PIO port PIO_PER) mask;;
    if dir =? IOPORT_DIR_OUTPUT then wrr (PIO port PIO_OER) mask else wrr (PIO port PIO_ODR) mask
  end.
Definition ioport_enable_pin (pin : Z) : S_ unit :=
  match get_pio_from_pin pin with
  | None => mret tt
  | Some port => mask ← get_pin_mask pin; wrr (PIO port PIO_PER) mask
  end.
End Asf.
