(* ===== verification/Sam.v ===== *)
(** * Firmware of the ATSAM4S (platforms/atsam4s/api, modules, src)

    The peripheral modules (DAC, UART, GPIO, timer, USART), the main program,
    whose device talks over UART0, and the exception vectors with the reset
    routine. [printf], the scheduler's exceptions and the module record
    [_dac_module], which no file defines, are parameters. *)

From S2P Require Import Prelude World Errors Device LinkedList Crc FmrPacket Transport Dyld Fmr Mmio SamAsf.
From stdpp Require Import base list gmap sets strings.
From Stdlib Require Import ZArith Lia.
Local Open Scope Z_scope.

(** Peripheral identifiers and interrupt numbers (asf/include/sam4s16b.h). *)
Definition ID_UART0 : Z := 8.
Definition ID_PIOA : Z := 11.
Definition ID_PIOB : Z := 12.
Definition ID_PIOC : Z := 13.
Definition ID_DACC : Z := 30.
Definition UART0_IRQn : Z := 8.
Definition DACC_IRQn : Z := 30.

(** include/atsam4s.h. *)
Definition IO_1 : Z := bit 22.
Definition SAM_FMR_PIN : Z := bit 0.
Definition PLATFORM_WAIT_STATES : Z := 5.
Definition BOARD_OSCOUNT : Z := CKGR_MOR_MOSCXTST 8.
Definition BOARD_PLLBR : Z :=
  Z.lor (CKGR_PLLBR_MULB 60) (Z.lor (CKGR_PLLBR_PLLBCOUNT 1) (CKGR_PLLBR_DIVB 10)).
Definition BOARD_MCKR : Z := Z.lor PMC_MCKR_PRES_CLK_1 PMC_MCKR_CSS_PLLB_CLK.
(** asf/include/conf_clock.h with a 12 MHz crystal: PLLA times 20, divided by 3. *)
Definition sysclk_get_cpu_hz : Z := Z.quot (Z.quot (12000000 * 20) 1) 3.

Section Api.
Context `{!Hardware sam_reg}.
Context (fuel : nat).

(** ** DAC (api/dac.c) *)

(** [while (!pmc_is_locked_pllack());] *)
Fixpoint pll_wait (n : nat) : S_ unit :=
  x ← pmc_is_locked_pllack;
  if ctrue x then mret tt else match n with O => spin | S n => pll_wait n end.

(** [while (!(PMC_SR & MCKRDY) && --ul_timeout)]: the body's test of the counter
    against 0 runs only when it is not 0. *)
Fixpoint mck_wait (ul_timeout : nat) : S_ unit :=
  x ← rdr PMC_SR;
  if ctrue (Z.land x PMC_SR_MCKRDY) then mret tt
  else match ul_timeout with
       | O => mret tt
       | S O => mret tt
       | S n => mck_wait n
       end.

Definition dac_configure : S_ Z :=
  pmc_enable_pllack fuel 20 32 1;;
  pll_wait fuel;;
  pmc_switch_mck_to_pllack PMC_MCKR_PRES_CLK_3;;
  mck_wait (Z.to_nat PMC_TIMEOUT);;
  pmc_enable_periph_clk ID_DACC;;
  dacc_reset;;
  dacc_enable_flexible_selection;;
  dacc_set_timing DACC_MR_MAXS_NORMAL DACC_MR_STARTUP_1920;;
  dacc_set_transfer_mode DACC_MR_WORD_HALF;;
  dacc_set_trigger 0;;
  dacc_enable_interrupt DACC_IER_TXRDY;;
  NVIC_EnableIRQ DACC_IRQn;;
  mret lf_success.

(** Both branches of the handler do nothing. *)
Definition DACC_Handler : S_ unit :=
  status ← dacc_get_interrupt_status;
  if ctrue (Z.land status DACC_ISR_TXRDY) then mret tt else mret tt.

Definition dac_enable_channels (i : Z) : S_ Z :=
  if i =? 0 then dacc_enable_channel DACC_MR_USER_SEL_CHANNEL0;; mret lf_success
  else if i =? 1 then dacc_enable_channel DACC_MR_USER_SEL_CHANNEL1;; mret lf_success
  else mret lf_error.

Definition dac_set_channels (i : Z) : S_ Z :=
  if i =? 0 then dacc_set_channel_selection DACC_MR_USER_SEL_CHANNEL0;; mret lf_success
  else if i =? 1 then dacc_set_channel_selection DACC_MR_USER_SEL_CHANNEL1;; mret lf_success
  else mret lf_error.

Definition dac_write (data : Z) : S_ Z :=
  if DACC_MAX_DATA <? data then mret lf_error
  else dacc_write_conversion_data data;; mret lf_success.

Definition dac_cleanup : S_ Z :=
  dacc_disable_interrupt DACC_IER_TXRDY;;
  NVIC_DisableIRQ DACC_IRQn;;
  dacc_disable_trigger;;
  dacc_disable_channel DACC_MR_USER_SEL_CHANNEL0;;
  dacc_disable_channel DACC_MR_USER_SEL_CHANNEL1;;
  pmc_disable_periph_clk ID_DACC;;
  mret lf_success.

(** ** UART0 (api/uart0.c) *)

Definition UART0_BAUD_DEFAULT : Z := 115200.
Definition UART0_PINS : Z := Z.lor (bit 9) (bit 10).
Definition uart_settings (baud : Z) : sam_uart_opt := SamUartOpt sysclk_get_cpu_hz baud UART_MR_PAR_NO.

Definition uart0_configure : S_ Z :=
  pmc_enable_periph_clk ID_UART0;;
  pio_configure PIOA PIO_PERIPH_A UART0_PINS PIO_DEFAULT;;
  e ← uart_init UART0 (uart_settings UART0_BAUD_DEFAULT);
  if negb (e =? 0) then mret (-1)
  else uart_enable_tx UART0;; uart_enable_rx UART0;; mret 0.

Definition uart0_setbaud (baud : Z) : S_ Z := uart_init UART0 (uart_settings baud).
Definition uart0_reset : S_ Z := uart_reset_status UART0;; uart_reset_rx UART0;; uart_reset_tx UART0;; mret 0.
Definition uart0_ready : S_ Z := b ← uart_is_tx_ready UART0; mret (if b : bool then 1 else 0).
Definition uart0_enable : S_ unit := uart_enable UART0.
Definition uart0_disable : S_ unit := uart_disable UART0.

(** [while (!ready(UART0_HW));] *)
Fixpoint flag_wait (n : nat) (ready : S_ bool) : S_ unit :=
  b ← ready;
  if b : bool then mret tt else match n with O => spin | S n => flag_wait n ready end.

Definition uart0_put (byte : Z) : S_ unit :=
  flag_wait fuel (uart_is_tx_ready UART0);; uart_write UART0 byte;; mret tt.

(** The local is not initialised: without a byte it has some value, which is
    read like a register. *)
Definition uart0_get : S_ Z :=
  flag_wait fuel (uart_is_rx_ready UART0);;
  '(_, byte) ← uart_read UART0;
  match byte with
  | Some byte => mret byte
  | None => x ← rdr uninitialised; mret (u8 x)
  end.

Fixpoint uart0_write (src : list Z) : S_ Z :=
  match src with
  | [] => mret 0
  | b :: src => uart0_put b;; uart0_write src
  end.

(** The result and the bytes stored. *)
Fixpoint uart0_read (length : nat) : S_ (Z * list Z) :=
  match length with
  | O => mret (0, [])
  | S length => b ← uart0_get; '(e, bs) ← uart0_read length; mret (e, b :: bs)
  end.

(** ** GPIO (api/gpio.c) *)

Definition gpio_configure (pin flags dir : Z) : S_ unit :=
  ioport_set_pin_mode pin flags;; ioport_set_pin_dir pin dir;; ioport_enable_pin pin.

Definition gpio_enable (pio : pio_port) (pin_mask : Z) : S_ unit :=
  pmc_enable_periph_clk (match pio with PIOA => ID_PIOA | PIOB => ID_PIOB | PIOC => ID_PIOC end);;
  clrr (PIO pio PIO_PDR) pin_mask;;
  orr (PIO pio PIO_PER) pin_mask;;
  orr (PIO pio PIO_OER) pin_mask;;
  wrr (PIO pio PIO_CODR) pin_mask.

Definition gpio_write (set clear : Z) : S_ unit := mret tt.
Definition gpio_read (mask : Z) : S_ Z := mret 0.

(** ** Timer, USART and SPI (api/timer.c, usart.c, spi.c) *)

Definition timer_configure : S_ Z := mret lf_success.
Definition timer_register (ticks callback : Z) : S_ Z := mret lf_error.
Definition tcx_isr (timer : Z) : S_ unit := mret tt.
Definition usart_configure : S_ Z := mret lf_success.
Definition usart_enable : S_ unit := mret tt.
Definition usart_disable : S_ unit := mret tt.
Definition usart_ready : S_ Z := mret 0.
Definition usart_put (byte : Z) : S_ unit := mret tt.
Definition usart_get : S_ Z := mret 0.
Definition usart0_isr : S_ unit := mret tt.
Definition spi_configure : S_ Z := mret lf_success.

(** ** Clocks (src/main.c) *)

Definition CLOCK_TIMEOUT : Z := 5000.

(** [for (timeout = 0; !(PMC_SR & flag) && (timeout++ < CLOCK_TIMEOUT);) ;] *)
Fixpoint clock_wait (left : nat) (flag : Z) : S_ unit :=
  x ← rdr PMC_SR;
  if ctrue (Z.land x flag) then mret tt else match left with O => mret tt | S n => clock_wait n flag end.
Definition await_clock (flag : Z) : S_ unit := clock_wait (Z.to_nat CLOCK_TIMEOUT) flag.

(** The first part of [main]. *)
Definition configure_clocks : S_ unit :=
  wrr WDT_MR (bit 15);;
  wrr EEFC_FMR (Z.land (Z.shiftl 0xf 8) (Z.shiftl PLATFORM_WAIT_STATES 8));;
  let on := Z.lor CKGR_MOR_KEY_PASSWD (Z.lor BOARD_OSCOUNT (Z.lor CKGR_MOR_MOSCRCEN CKGR_MOR_MOSCXTEN)) in
  x ← rdr CKGR_MOR;
  (if ctrue (Z.land x CKGR_MOR_MOSCSEL) then mret tt
   else wrr CKGR_MOR on;; await_clock PMC_SR_MOSCXTS);;
  wrr CKGR_MOR (Z.lor on CKGR_MOR_MOSCSEL);;
  await_clock PMC_SR_MOSCSELS;;
  set_mckr PMC_MCKR_CSS_Msk PMC_MCKR_CSS_MAIN_CLK;;
  await_clock PMC_SR_MCKRDY;;
  wrr CKGR_PLLBR BOARD_PLLBR;;
  await_clock PMC_SR_LOCKB;;
  wrr PMC_MCKR (Z.lor (Z.ldiff BOARD_MCKR PMC_MCKR_CSS_Msk) PMC_MCKR_CSS_MAIN_CLK);;
  await_clock PMC_SR_MCKRDY;;
  wrr PMC_MCKR BOARD_MCKR;;
  await_clock PMC_SR_MCKRDY;;
  wrr RSTC_MR (Z.lor (Z.shiftl 0xA5 24) (bit 0)).

(** A blocking transfer by the DMA controller (src/main.c). *)
Definition uart0_pull_wait (dst length : Z) : S_ unit :=
  wrr (UART UART0 UART_IDR) UART_IDR_ENDRX;;
  wrr (UART UART0 UART_RCR) length;;
  wrr (UART UART0 UART_RPR) dst;;
  wrr (UART UART0 UART_PTCR) UART_PTCR_RXTEN;;
  wait_set fuel (UART UART0 UART_SR) UART_SR_ENDRX;;
  wrr (UART UART0 UART_PTCR) UART_PTCR_RXTDIS;;
  wrr (UART UART0 UART_IER) UART_IER_ENDRX.
End Api.

(** ** The module table (api/dac_wrapper.c) *)

Definition fn__dac_configure : Z := 80.
Definition fn__dac_enable_channels : Z := 81.
Definition fn__dac_set_channels : Z := 82.
Definition fn__dac_write : Z := 83.
Definition fn__dac_cleanup : Z := 84.
Definition dac_table : list Z :=
  [fn__dac_configure; fn__dac_enable_channels; fn__dac_set_channels; fn__dac_write; fn__dac_cleanup].

Section Program.
Context `{!Hardware sam_reg}.
Context (fuel : nat).

(** [*(uint32_t * )args]. The dispatcher passes the argument list, so this reads
    the first field of its first node, a 32-bit pointer on this processor. *)
Definition first_word (args : Z) : C sam Z := n ← load_node args; mret (u32 (item n)).

Definition _dac_configure (args : Z) : C sam Z := on_env (dac_configure fuel).
Definition _dac_enable_channels (args : Z) : C sam Z :=
  if args =? 0 then mret lf_error else i ← first_word args; on_env (dac_enable_channels (sint 32 i)).
Definition _dac_set_channels (args : Z) : C sam Z :=
  if args =? 0 then mret lf_error else i ← first_word args; on_env (dac_set_channels (sint 32 i)).
Definition _dac_write (args : Z) : C sam Z :=
  if args =? 0 then mret lf_error else data ← first_word args; on_env (dac_write data).
Definition _dac_cleanup (args : Z) : C sam Z := on_env dac_cleanup.

#[local] Instance sam_code : ModuleCode sam := {
  call_function f args :=
    if f =? fn__dac_configure then _dac_configure args
    else if f =? fn__dac_enable_channels then _dac_enable_channels args
    else if f =? fn__dac_set_channels then _dac_set_channels args
    else if f =? fn__dac_write then _dac_write args
    else if f =? fn__dac_cleanup then _dac_cleanup args
    else ub;
  call_plugin_handler _ _ _ _ := ub;
}.

(** ** The device (src/main.c) *)

Definition fn_atsam4s_read : Z := 85.
Definition fn_atsam4s_write : Z := 86.
Definition fn_atsam4s_release : Z := 87.

(** Use the uart0 bus as the read/write endpoint. *)
Definition atsam4s_read (device : Z) (dst : list Z) : C sam (Z * list Z) :=
  '(e, bs) ← on_env (uart0_read fuel (length dst));
  dst ← lift_opt (wr dst 0 bs);
  mret (e, dst).
Definition atsam4s_write (device : Z) (src : list Z) : C sam Z := on_env (uart0_write fuel src).
Definition atsam4s_release (device : Z) : C sam Z := mret 0.

#[local] Instance sam_transport : Transport sam := {
  tr_write f device src := if f =? fn_atsam4s_write then atsam4s_write device src else ub;
  tr_read f device dst := if f =? fn_atsam4s_read then atsam4s_read device dst else ub;
}.

(** Registers the module under the index the peer reports. The function that
    finds the selected device has no definition under the name used here. *)
Definition str_dac_module : list Z := [100; 97; 99; 95; 109; 111; 100; 117; 108; 101].
Definition dac_init_module (dyld_lf_get_selected : C sam Z) : C sam Z :=
  device ← dyld_lf_get_selected;
  if device =? 0 then mret lf_error
  else
    '(e, idx) ← lf_dyld_dyn_sym_lookup device (Some str_dac_module);
    if negb (e =? lf_success) then mret lf_error
    else
      m ← lf_module_create (Some str_dac_module) (default 0 idx);
      if m =? 0 then mret lf_error
      else
        r ← load_module m;
        store m (OModule (LfModule (m_name r) (m_version r) (m_idx r) (m_interface r) dac_table 5 (m_state r)));;
        selected ← gets w_current;
        dyld_register selected m.

(** modules/modules_init.c. *)
Definition platform_init (dyld_lf_get_selected : C sam Z) : C sam unit :=
  dac_init_module dyld_lf_get_selected;; mret tt.

(** [main] up to the launch of the kernel task: the device and the first
    packet, in its static buffer. *)
Definition sam_setup (_dac_module : Z) (packet : list Z) : C sam (Z * list Z) :=
  on_env configure_clocks;;
  _4s ← lf_device_create fn_atsam4s_read fn_atsam4s_write fn_atsam4s_release;
  dyld_register _4s _dac_module;;
  on_env (dac_configure fuel);;
  '(_, bs) ← on_env (uart0_read fuel FMR_PACKET_SIZE);
  packet ← lift_opt (wr packet 0 bs);
  on_env (wrr (UART UART0 UART_IER) UART_IER_ENDRX);;
  mret (_4s, packet).

(** The interrupt that performs the packet in the buffer and reads the next. *)
Definition uart0_isr (_4s : Z) (packet : list Z) : C sam (list Z) :=
  on_env (wrr PRIMASK 1);;
  _sr ← on_env (rdr (UART UART0 UART_SR));
  packet ← (if ctrue (Z.land _sr UART_SR_ENDRX) then
              on_env (gpio_write 0 SAM_FMR_PIN);;
              on_env (wrr (UART UART0 UART_PTCR) (Z.lor UART_PTCR_RXTDIS UART_PTCR_TXTDIS));;
              lf_error_set (err_code E_OK);;
              '(_, packet) ← fmr_perform _4s packet;
              '(_, bs) ← on_env (uart0_read fuel FMR_PACKET_SIZE);
              packet ← lift_opt (wr packet 0 bs);
              on_env (gpio_write SAM_FMR_PIN 0);;
              mret packet
            else on_env (wrr (UART UART0 UART_CR) UART_CR_RSTSTA);; mret packet);
  on_env (wrr PRIMASK 0);;
  mret packet.

(** The kernel task for [n] turns of its loop; the delays are not modelled. *)
Definition kernel_turn (printf : list Z -> S_ unit) : S_ unit :=
  printf [72; 101; 108; 108; 111; 33; 10];; gpio_write IO_1 0;; gpio_write 0 IO_1.
Fixpoint kernel_loop (printf : list Z -> S_ unit) (n : nat) : S_ unit :=
  match n with O => mret tt | S n => kernel_turn printf;; kernel_loop printf n end.
Definition os_kernel_task (printf : list Z -> S_ unit) (n : nat) : S_ unit :=
  gpio_enable PIOA IO_1;; kernel_loop printf n.

Definition debug_putchar (c : Z) : S_ Z := uart0_put fuel c;; mret 0.
End Program.

(** ** Exception vectors (src/vectors.c, src/isr.c) *)

Local Open Scope string_scope.

(** The entries after the initial stack pointer, by exception number. *)
Definition vector_table : list string :=
  ["_estack"; "reset_exception";
   "nmi_exception"; "hardfault_exception"; "memmanage_exception"; "busfault_exception"; "usagefault_exception"; "null_isr";
   "null_isr"; "null_isr"; "null_isr"; "svc_exception"; "debugmon_exception"; "null_isr"; "pendsv_exception"; "systick_exception";
   "supc_isr"; "rstc_isr"; "rtc_isr"; "rtt_isr"; "wdt_isr"; "pmc_isr"; "eefc_isr"; "null_isr"; "uart0_isr"; "uart1_isr"; "smc_isr"; "pioa_isr";
   "piob_isr"; "pioc_isr"; "usart0_isr"; "usart1_isr"; "usart2_isr"; "null_isr"; "mci_isr"; "twi0_isr"; "twi1_isr"; "spi_isr"; "ssc_isr";
   "tc0_isr"; "tc1_isr"; "tc2_isr"; "tc3_isr"; "tc4_isr"; "tc5_isr"; "adc_isr"; "dac_isr"; "pwm_isr"; "crccu_isr"; "acc_isr"; "usbd_isr";
   "null_isr"].

(** The weak handlers of src/isr.c, which all loop; a strong definition of the
    same name replaces one. *)
Definition weak_isrs : list string :=
  ["null_isr"; "nmi_exception"; "hardfault_exception"; "memmanage_exception"; "busfault_exception"; "usagefault_exception";
   "svc_exception"; "debugmon_exception"; "pendsv_exception"; "systick_exception";
   "supc_isr"; "rstc_isr"; "rtc_isr"; "rtt_isr"; "wdt_isr"; "pmc_isr"; "eefc_isr"; "uart0_isr"; "uart1_isr"; "smc_isr";
   "pioa_isr"; "piob_isr"; "pioc_isr"; "usart0_isr"; "usart1_isr"; "usart2_isr"; "mci_isr"; "twi0_isr"; "twi1_isr";
   "spi_isr"; "ssc_isr"; "tc0_isr"; "tc1_isr"; "tc2_isr"; "tc3_isr"; "tc4_isr"; "tc5_isr"; "adc_isr"; "dac_isr";
   "pwm_isr"; "crccu_isr"; "acc_isr"; "usbd_isr"].

Section Vectors.
Context `{!Hardware sam_reg}.
Context (fuel : nat).
(** The scheduler's exceptions and the reset routine run outside this state. *)
Context (os_exception : string -> C sam unit).

(** What a vector's symbol is linked to. *)
Definition run_symbol (_4s : Z) (packet : list Z) (name : string) : C sam (list Z) :=
  if decide (name = "uart0_isr") then uart0_isr fuel _4s packet
  else if decide (name = "usart0_isr") then on_env usart0_isr;; mret packet
  else if decide (name = "tc0_isr") then on_env (tcx_isr 0);; mret packet
  else if decide (name = "tc1_isr") then on_env (tcx_isr 1);; mret packet
  else if decide (name = "tc2_isr") then on_env (tcx_isr 2);; mret packet
  else if decide (name = "tc3_isr") then on_env (tcx_isr 3);; mret packet
  else if decide (name = "tc4_isr") then on_env (tcx_isr 4);; mret packet
  else if decide (name = "tc5_isr") then on_env (tcx_isr 5);; mret packet
  else if decide (name ∈ ["pendsv_exception"; "systick_exception"; "reset_exception"]) then
    os_exception name;; mret packet
  else if decide (name ∈ weak_isrs) then spin
  else ub.

(** Peripheral interrupt [n] is exception [16 + n]. *)
Definition take_interrupt (_4s : Z) (packet : list Z) (n : nat) : C sam (list Z) :=
  name ← lift_opt (vector_table !! (16 + n)%nat); run_symbol _4s packet name.
End Vectors.

Local Close Scope string_scope.

(** ** Reset (src/vectors.c)

    Memory as words by address; the segment bounds are the linker's. *)

Definition memory : Type := Z -> Z.
Definition mem_set (m : memory) (a v : Z) : memory := fun x => if x =? a then v else m x.

Fixpoint relocate_loop (fuel : nat) (pSrc pDest _erelocate : Z) : M memory unit :=
  if pDest <? _erelocate then
    m ← get;
    put (mem_set m pDest (m pSrc));;
    match fuel with O => spin | S n => relocate_loop n (pSrc + 4) (pDest + 4) _erelocate end
  else mret tt.
Fixpoint clear_loop (fuel : nat) (pDest _ezero : Z) : M memory unit :=
  if pDest <? _ezero then
    m ← get;
    put (mem_set m pDest 0);;
    match fuel with O => spin | S n => clear_loop n (pDest + 4) _ezero end
  else mret tt.

(** [reset_exception] up to the call of [main]. *)
Definition reset_memory (fuel : nat) (_etext _srelocate _erelocate _szero _ezero : Z) : M memory unit :=
  (if negb (_etext =? _srelocate) then relocate_loop fuel _etext _srelocate _erelocate else mret tt);;
  clear_loop fuel _szero _ezero.

(** ** Polling the UART *)

Section Polling.
Context `{!Hardware sam_reg}.
Implicit Types s : sam.

(** A look at the status register. *)
Definition look s : sam := log_event (Rd (UART UART0 UART_SR) (seen s (UART UART0 UART_SR))) s.
Definition flag_set (flag : Z) s : bool := 0 <? Z.land (seen s (UART UART0 UART_SR)) flag.

(** A flag that comes up within [fuel] looks and that a look does not clear. *)
Record responds (fuel : nat) (flag : Z) : Prop := {
  rs_rises s : exists n, (n <= fuel)%nat /\ flag_set flag (Nat.iter n look s) = true;
  rs_stays s : flag_set flag s = true -> flag_set flag (look s) = true;
}.

Lemma bind_sr_flag {B} flag (f : bool -> S_ B) s : (sr_flag UART0 flag ≫= f) s = f (flag_set flag s) (look s).
Proof. done. Qed.

Lemma flag_wait_ok fuel flag n s :
  (n <= fuel)%nat -> flag_set flag (Nat.iter n look s) = true ->
  exists k, flag_wait fuel (sr_flag UART0 flag) s = Ok (tt, look (Nat.iter k look s)) /\
    flag_set flag (Nat.iter k look s) = true.
Proof.
  revert fuel s. induction n as [|n IH]; intros fuel s Hn Hf.
  - exists 0%nat. split; [|done]. cbn [Nat.iter nat_rect] in Hf.
    destruct fuel; cbn [flag_wait]; by rewrite bind_sr_flag, Hf.
  - destruct fuel as [|fuel]; [lia|]. rewrite Nat.iter_succ_r in Hf.
    destruct (IH fuel (look s)) as (k & Hk & Hset); [lia|done|]. cbn [flag_wait].
    rewrite bind_sr_flag. destruct (flag_set flag s) eqn:E.
    + by exists 0%nat.
    + rewrite Hk. exists (S k). by rewrite Nat.iter_succ_r.
Qed.

Lemma writes_looks r n s : writes r (s_log (Nat.iter n look s)) = writes r (s_log s).
Proof. induction n as [|n IH]; [done|]. cbn [Nat.iter nat_rect]. unfold look at 1. cbn [s_log log_event put_log get_log sam_log]. by rewrite writes_rd. Qed.
Lemma reads_looks n s : reads (UART UART0 UART_RHR) (s_log (Nat.iter n look s)) = reads (UART UART0 UART_RHR) (s_log s).
Proof.
  induction n as [|n IH]; [done|]. cbn [Nat.iter nat_rect]. unfold look at 1.
  cbn [s_log log_event put_log get_log sam_log]. by rewrite reads_rd_ne by discriminate.
Qed.

Lemma flag_set_ctrue flag s : flag_set flag s = true -> ctrue (Z.land (seen s (UART UART0 UART_SR)) flag) = true.
Proof. unfold flag_set, ctrue. destruct (Z.ltb_spec 0 (Z.land (seen s (UART UART0 UART_SR)) flag)); [|done]. by destruct (Z.eqb_spec (Z.land (seen s (UART UART0 UART_SR)) flag) 0); [lia|]. Qed.

Lemma uart0_put_ok fuel b s :
  responds fuel UART_SR_TXRDY -> is_byte b ->
  exists s', uart0_put fuel b s = Ok (tt, s') /\
    writes (UART UART0 UART_THR) (s_log s') = writes (UART UART0 UART_THR) (s_log s) ++ [b] /\
    reads (UART UART0 UART_RHR) (s_log s') = reads (UART UART0 UART_RHR) (s_log s).
Proof.
  intros [Hr Hst] Hb. destruct (Hr s) as (n & Hn & Hset).
  destruct (flag_wait_ok fuel _ n s Hn Hset) as (k & Hk & Hs). unfold uart0_put, uart_is_tx_ready. mstep Hk.
  unfold uart_write. rewrite bind_assoc, bind_rdr, (flag_set_ctrue UART_SR_TXRDY) by (by apply Hst).
  rewrite bind_assoc, bind_wrr. eexists. split; [reflexivity|]. cbn [s_log log_event put_log get_log sam_log].
  rewrite writes_wr, writes_rd, reads_wr, reads_rd_ne by discriminate.
  change (look (Nat.iter k look s)) with (Nat.iter (S k) look s). rewrite writes_looks, reads_looks.
  split; [|done]. unfold is_byte in Hb. f_equal. f_equal. unfold rval. apply Z.mod_small.
  change (2 ^ reg_bits) with (2 ^ 32). lia.
Qed.

Lemma uart0_write_ok fuel src s :
  responds fuel UART_SR_TXRDY -> Forall is_byte src ->
  exists s', uart0_write fuel src s = Ok (0, s') /\
    writes (UART UART0 UART_THR) (s_log s') = writes (UART UART0 UART_THR) (s_log s) ++ src /\
    reads (UART UART0 UART_RHR) (s_log s') = reads (UART UART0 UART_RHR) (s_log s).
Proof.
  intros Hr Hb. revert s. induction Hb as [|b src Hb _ IH]; intros s; cbn [uart0_write].
  - exists s. by rewrite app_nil_r.
  - destruct (uart0_put_ok fuel b s Hr Hb) as (s1 & H1 & Hw1 & Hr1). mstep H1.
    destruct (IH s1) as (s2 & H2 & Hw2 & Hr2). exists s2. split; [done|].
    rewrite Hw2, Hw1, Hr2, Hr1. by rewrite <- app_assoc.
Qed.

Lemma uart0_get_ok fuel s :
  responds fuel UART_SR_RXRDY ->
  exists v s', uart0_get fuel s = Ok (u8 v, s') /\
    reads (UART UART0 UART_RHR) (s_log s') = reads (UART UART0 UART_RHR) (s_log s) ++ [v] /\
    writes (UART UART0 UART_THR) (s_log s') = writes (UART UART0 UART_THR) (s_log s).
Proof.
  intros [Hr Hst]. destruct (Hr s) as (n & Hn & Hset).
  destruct (flag_wait_ok fuel _ n s Hn Hset) as (k & Hk & Hs). unfold uart0_get, uart_is_rx_ready. mstep Hk.
  unfold uart_read. rewrite bind_assoc, bind_rdr.
  pose proof (flag_set_ctrue _ _ (Hst _ Hs)) as Hc. unfold ctrue in Hc. apply negb_true_iff in Hc. rewrite Hc.
  rewrite bind_assoc, bind_rdr, bind_ret_l.
  eexists _, _. split; [reflexivity|]. cbn [s_log log_event put_log get_log sam_log].
  rewrite reads_rd, writes_rd, reads_rd_ne, writes_rd by discriminate.
  change (look (Nat.iter k look s)) with (Nat.iter (S k) look s). by rewrite writes_looks, reads_looks.
Qed.

Lemma uart0_read_ok fuel n s :
  responds fuel UART_SR_RXRDY ->
  exists vs s', uart0_read fuel n s = Ok ((0, u8 <$> vs), s') /\ length vs = n /\
    reads (UART UART0 UART_RHR) (s_log s') = reads (UART UART0 UART_RHR) (s_log s) ++ vs /\
    writes (UART UART0 UART_THR) (s_log s') = writes (UART UART0 UART_THR) (s_log s).
Proof.
  intros Hr. revert s. induction n as [|n IH]; intros s; cbn [uart0_read].
  - exists [], s. by rewrite app_nil_r.
  - destruct (uart0_get_ok fuel s Hr) as (v & s1 & H1 & Hr1 & Hw1). mstep H1.
    destruct (IH s1) as (vs & s2 & H2 & Hl & Hr2 & Hw2). mstep H2. exists (v :: vs), s2.
    split; [done|]. split; [cbn; lia|]. rewrite Hr2, Hr1, Hw2, Hw1. by rewrite <- app_assoc.
Qed.
End Polling.

(** ** The DAC's mode register *)

Section Dac.
Context `{!Hardware sam_reg}.
Implicit Types s : sam.

(** What the mode register holds: the last value written, or 0 after a reset. *)
Fixpoint mode_of (l : list (access sam_reg)) : Z :=
  match l with
  | [] => 0
  | Wr DACC_MR v :: _ => rval DACC_MR v
  | Wr DACC_CR v :: l => if Z.testbit v 0 then 0 else mode_of l
  | _ :: l => mode_of l
  end.
Definition mode s : Z := mode_of (s_log s).

(** The converter's mode register reads back what it holds. *)
Definition mode_register : Prop := forall s, seen s DACC_MR = mode s.
(** The PLL locks and the master clock is ready. *)
Definition clocks_lock : Prop := forall s,
  ctrue (Z.land (seen s PMC_SR) PMC_SR_LOCKA) = true /\ ctrue (Z.land (seen s PMC_SR) PMC_SR_MCKRDY) = true.

Lemma bind_orr {B} r v (f : unit -> S_ B) s :
  (orr r v ≫= f) s = f tt (log_event (Wr r (rval r (Z.lor (seen s r) v))) (log_event (Rd r (seen s r)) s)).
Proof. done. Qed.
Lemma bind_clrr {B} r v (f : unit -> S_ B) s :
  (clrr r v ≫= f) s = f tt (log_event (Wr r (rval r (Z.ldiff (seen s r) v))) (log_event (Rd r (seen s r)) s)).
Proof. done. Qed.

Lemma mode_wr v s : mode (log_event (Wr DACC_MR (rval DACC_MR v)) s) = rval DACC_MR v.
Proof. unfold mode. cbn. unfold rval. by rewrite Z.mod_mod. Qed.

(** An operation that changes the mode register by [f]. *)
Definition modes {A} (m : S_ A) (f : Z -> Z) : Prop :=
  forall s, exists a s', m s = Ok (a, s') /\ mode s' = f (mode s).

Lemma modes_bind {A B} (m : S_ A) (k : A -> S_ B) f g :
  modes m f -> (forall a, modes (k a) g) -> modes (m ≫= k) (fun x => g (f x)).
Proof.
  intros Hm Hk s. destruct (Hm s) as (a & s1 & H1 & E1). destruct (Hk a s1) as (b & s2 & H2 & E2).
  exists b, s2. mstep H1. split; [done|]. by rewrite E2, E1.
Qed.
Lemma modes_ret {A} (a : A) : modes (mret a) id.
Proof. intros s. by exists a, s. Qed.
Lemma modes_wr (h : Z -> Z) : mode_register -> modes (x ← rdr DACC_MR; wrr DACC_MR (h x)) (fun x => rval DACC_MR (h x)).
Proof. intros Hm s. rewrite bind_rdr. eexists _, _. split; [reflexivity|]. by rewrite mode_wr, Hm. Qed.

Lemma modes_or v : mode_register -> modes (orr DACC_MR v) (fun x => rval DACC_MR (Z.lor x v)).
Proof. intros Hm. exact (modes_wr (fun x => Z.lor x v) Hm). Qed.
Lemma modes_clr v : mode_register -> modes (clrr DACC_MR v) (fun x => rval DACC_MR (Z.ldiff x v)).
Proof. intros Hm. exact (modes_wr (fun x => Z.ldiff x v) Hm). Qed.

Lemma set_timing_modes maxs startup : mode_register ->
  modes (dacc_set_timing maxs startup) (fun x =>
    rval DACC_MR (Z.lor (let mr := Z.ldiff x DACC_MR_STARTUP_Msk in
                         if ctrue maxs then Z.lor mr DACC_MR_MAXS else Z.ldiff mr DACC_MR_MAXS)
                        (Z.land DACC_MR_STARTUP_Msk (u32 (Z.shiftl startup DACC_MR_STARTUP_Pos))))).
Proof. intros Hm s. unfold dacc_set_timing. rewrite bind_rdr, bind_wrr. eexists _, _. split; [reflexivity|]. by rewrite mode_wr, Hm. Qed.

Lemma transfer_half_modes : mode_register ->
  modes (dacc_set_transfer_mode DACC_MR_WORD_HALF)
    (fun x => rval DACC_MR (Z.ldiff (rval DACC_MR (Z.lor x DACC_MR_ONE)) DACC_MR_WORD_WORD)).
Proof.
  intros Hm. unfold dacc_set_transfer_mode. change (ctrue DACC_MR_WORD_HALF) with false. cbv iota.
  apply (modes_bind _ _ _ (fun x => rval DACC_MR (Z.ldiff x DACC_MR_WORD_WORD)) (modes_or _ Hm)). intros _.
  apply (modes_bind _ _ _ id (modes_clr _ Hm)). intros _. apply modes_ret.
Qed.

Lemma set_trigger_modes t : mode_register ->
  modes (dacc_set_trigger t) (fun x =>
    rval DACC_MR (Z.lor (Z.lor (Z.ldiff x DACC_MR_TRGSEL_Msk) DACC_MR_TRGEN_EN) (DACC_MR_TRGSEL t))).
Proof. intros Hm s. unfold dacc_set_trigger. rewrite bind_rdr, bind_wrr. eexists _, _. split; [reflexivity|]. by rewrite mode_wr, Hm. Qed.

(** The converter's part of [dac_configure]: from the reset on, the mode
    register goes through values that do not depend on the past. *)
Lemma dacc_setup_ok s :
  mode_register ->
  exists s' l,
    (dacc_reset;;
     dacc_enable_flexible_selection;;
     dacc_set_timing DACC_MR_MAXS_NORMAL DACC_MR_STARTUP_1920;;
     dacc_set_transfer_mode DACC_MR_WORD_HALF;;
     dacc_set_trigger 0;;
     dacc_enable_interrupt DACC_IER_TXRDY;;
     NVIC_EnableIRQ DACC_IRQn;;
     mret lf_success) s = Ok (lf_success, s') /\
    mode s' = 0x100101 /\ s_log s' = Wr (NVIC_ISER 0) (bit DACC_IRQn) :: Wr DACC_IER DACC_IER_TXRDY :: l.
Proof.
  intros Hm. unfold dacc_reset. rewrite bind_wrr. set (s0 := log_event _ s).
  assert (mode s0 = 0) as E0 by done.
  destruct (modes_or DACC_MR_TAG Hm s0) as ([] & s1 & H1 & E1). unfold dacc_enable_flexible_selection. mstep H1.
  destruct (set_timing_modes DACC_MR_MAXS_NORMAL DACC_MR_STARTUP_1920 Hm s1) as (r2 & s2 & H2 & E2). mstep H2.
  destruct (transfer_half_modes Hm s2) as (r3 & s3 & H3 & E3). mstep H3.
  destruct (set_trigger_modes 0 Hm s3) as (r4 & s4 & H4 & E4). mstep H4.
  unfold dacc_enable_interrupt, NVIC_EnableIRQ. rewrite !bind_wrr.
  eexists _, (s_log s4). split; [reflexivity|]. split; [|done].
  change (mode s4 = 0x100101). rewrite E4, E3, E2, E1, E0. by vm_compute.
Qed.

(** ** Clocks *)

Lemma pll_wait_ok fuel s : clocks_lock -> exists s', pll_wait fuel s = Ok (tt, s').
Proof.
  intros H. destruct fuel; cbn [pll_wait]; unfold pmc_is_locked_pllack; rewrite bind_assoc, bind_rdr, bind_ret_l, (proj1 (H s));
    by eexists.
Qed.
Lemma mckrdy_loop_ok n s : clocks_lock -> exists s', mckrdy_loop n s = Ok (true, s').
Proof. intros H. destruct n; cbn [mckrdy_loop]; rewrite bind_rdr, (proj2 (H s)); by eexists. Qed.
Lemma mck_wait_ok n s : clocks_lock -> exists s', mck_wait n s = Ok (tt, s').
Proof. intros H. destruct n; cbn [mck_wait]; rewrite bind_rdr, (proj2 (H s)); by eexists. Qed.

Lemma switch_mck_ok m1 v1 m2 v2 s : clocks_lock -> exists s', switch_mck m1 v1 m2 v2 s = Ok (0, s').
Proof.
  intros H. unfold switch_mck, set_mckr. rewrite bind_assoc, bind_rdr, bind_wrr.
  set (s0 := log_event _ (log_event _ s)). destruct (mckrdy_loop_ok (Z.to_nat PMC_TIMEOUT) s0 H) as (s1 & H1). mstep H1.
  rewrite bind_assoc, bind_rdr, bind_wrr. set (s2 := log_event _ (log_event _ s1)).
  destruct (mckrdy_loop_ok (Z.to_nat PMC_TIMEOUT) s2 H) as (s3 & H3). mstep H3. by exists s3.
Qed.

Lemma enable_periph_ok id s : id <= MAX_PERIPH_ID -> exists s', pmc_enable_periph_clk id s = Ok (0, s').
Proof.
  intros H. unfold pmc_enable_periph_clk. destruct (Z.ltb_spec MAX_PERIPH_ID id); [lia|].
  destruct (id <? 32); rewrite bind_assoc, bind_rdr; destruct (_ =? _); by eexists.
Qed.

Lemma dac_configure_ok fuel s :
  clocks_lock -> mode_register ->
  exists s' l, dac_configure fuel s = Ok (lf_success, s') /\ mode s' = 0x100101 /\
    s_log s' = Wr (NVIC_ISER 0) (bit DACC_IRQn) :: Wr DACC_IER DACC_IER_TXRDY :: l.
Proof.
  intros Hc Hm. unfold dac_configure, pmc_enable_pllack, pmc_disable_pllack.
  rewrite bind_assoc, bind_wrr, bind_assoc, bind_wrr. set (s0 := log_event _ (log_event _ s)).
  erewrite bind_Ok; [|apply wait_set_ready; intros s'; apply Hc]. set (s1 := log_event _ s0).
  destruct (pll_wait_ok fuel s1 Hc) as (s2 & H2). mstep H2.
  destruct (switch_mck_ok PMC_MCKR_PRES_Msk PMC_MCKR_PRES_CLK_3 PMC_MCKR_CSS_Msk PMC_MCKR_CSS_PLLA_CLK s2 Hc) as (s3 & H3).
  unfold pmc_switch_mck_to_pllack. mstep H3. destruct (mck_wait_ok (Z.to_nat PMC_TIMEOUT) s3 Hc) as (s4 & H4). mstep H4.
  destruct (enable_periph_ok ID_DACC s4) as (s5 & H5); [by vm_compute|]. mstep H5. by apply dacc_setup_ok.
Qed.

(** A PLL that never locks: the timeout does not help, the wait comes first. *)
Lemma dac_configure_hangs fuel s :
  (forall s', ctrue (Z.land (seen s' PMC_SR) PMC_SR_LOCKA) = false) -> dac_configure fuel s = Spin.
Proof.
  intros H. unfold dac_configure, pmc_enable_pllack, pmc_disable_pllack.
  rewrite bind_assoc, bind_wrr, bind_assoc, bind_wrr. apply bind_Spin. by apply wait_set_never.
Qed.

Lemma clock_wait_ok n flag s : exists s', clock_wait n flag s = Ok (tt, s').
Proof. revert s. induction n as [|n IH]; intros s; cbn [clock_wait]; rewrite bind_rdr; destruct (ctrue _); (by eexists) || apply IH. Qed.

(** The start-up of the clocks always ends: every wait is bounded. *)
Lemma configure_clocks_ok s : exists s', configure_clocks s = Ok (tt, s').
Proof.
  assert (forall flag (k : S_ unit) s, (forall s, exists s', k s = Ok (tt, s')) ->
            exists s', (await_clock flag;; k) s = Ok (tt, s')) as Haw.
  { intros flag k s0 Hk. destruct (clock_wait_ok (Z.to_nat CLOCK_TIMEOUT) flag s0) as (s1 & H1). unfold await_clock.
    mstep H1. apply Hk. }
  unfold configure_clocks. rewrite !bind_wrr. cbv zeta. rewrite bind_rdr.
  assert (forall (c : bool) (k : S_ unit) s, (forall s, exists s', k s = Ok (tt, s')) ->
    exists s', ((if c then mret tt
     else wrr CKGR_MOR (Z.lor CKGR_MOR_KEY_PASSWD (Z.lor BOARD_OSCOUNT (Z.lor CKGR_MOR_MOSCRCEN CKGR_MOR_MOSCXTEN)));;
          await_clock PMC_SR_MOSCXTS);; k) s = Ok (tt, s')) as Hif.
  { intros [] k s0 Hk; [by apply Hk|]. rewrite bind_assoc, bind_wrr. by apply Haw. }
  apply Hif. intros s1. rewrite bind_wrr. apply Haw. intros s2. unfold set_mckr. rewrite bind_assoc, bind_rdr, bind_wrr.
  apply Haw. intros s3. rewrite bind_wrr. apply Haw. intros s4. rewrite bind_wrr. apply Haw. intros s5. rewrite bind_wrr.
  apply Haw. intros s6. by eexists.
Qed.
End Dac.

(** ** Memory after reset *)

Section Reset.
Implicit Types m : memory.

Lemma mem_set_eq m a v : mem_set m a v a = v.
Proof. unfold mem_set. by rewrite Z.eqb_refl. Qed.
Lemma mem_set_ne m a v b : b <> a -> mem_set m a v b = m b.
Proof. unfold mem_set. by destruct (Z.eqb_spec b a). Qed.

(** The [n] words at [a]. *)
Definition outside (a : Z) (n : nat) (b : Z) : Prop := forall i, 0 <= i < Z.of_nat n -> b <> a + 4 * i.

Lemma relocate_loop_ok n fuel pSrc pDest m :
  (n <= fuel)%nat -> pSrc + 4 * Z.of_nat n <= pDest \/ pDest + 4 * Z.of_nat n <= pSrc ->
  exists m', relocate_loop fuel pSrc pDest (pDest + 4 * Z.of_nat n) m = Ok (tt, m') /\
    (forall i, 0 <= i < Z.of_nat n -> m' (pDest + 4 * i) = m (pSrc + 4 * i)) /\
    (forall a, outside pDest n a -> m' a = m a).
Proof.
  revert fuel pSrc pDest m. induction n as [|n IH]; intros fuel pSrc pDest m Hf Hd.
  - exists m. split; [|split; [lia|done]].
    destruct fuel; cbn [relocate_loop]; by destruct (Z.ltb_spec pDest (pDest + 4 * Z.of_nat 0)); [lia|].
  - destruct fuel as [|fuel]; [lia|]. cbn [relocate_loop].
    destruct (Z.ltb_spec pDest (pDest + 4 * Z.of_nat (S n))); [|lia]. rewrite bind_get, bind_put.
    destruct (IH fuel (pSrc + 4) (pDest + 4) (mem_set m pDest (m pSrc))) as (m' & Hrun & Hcp & Ho); [lia|lia|].
    exists m'. split; [|split].
    + rewrite <- Hrun. f_equal. lia.
    + intros i Hi. destruct (decide (i = 0)) as [->|].
      * rewrite Ho, !Z.mul_0_r, !Z.add_0_r; [apply mem_set_eq|]. intros j Hj. lia.
      * replace (pDest + 4 * i) with (pDest + 4 + 4 * (i - 1)) by lia. rewrite Hcp by lia.
        rewrite mem_set_ne by lia. f_equal. lia.
    + intros a Ha. rewrite Ho; [apply mem_set_ne; specialize (Ha 0); lia|].
      intros j Hj. specialize (Ha (j + 1)). lia.
Qed.

Lemma clear_loop_ok n fuel pDest m :
  (n <= fuel)%nat ->
  exists m', clear_loop fuel pDest (pDest + 4 * Z.of_nat n) m = Ok (tt, m') /\
    (forall i, 0 <= i < Z.of_nat n -> m' (pDest + 4 * i) = 0) /\ (forall a, outside pDest n a -> m' a = m a).
Proof.
  revert fuel pDest m. induction n as [|n IH]; intros fuel pDest m Hf.
  - exists m. split; [|split; [lia|done]].
    destruct fuel; cbn [clear_loop]; by destruct (Z.ltb_spec pDest (pDest + 4 * Z.of_nat 0)); [lia|].
  - destruct fuel as [|fuel]; [lia|]. cbn [clear_loop].
    destruct (Z.ltb_spec pDest (pDest + 4 * Z.of_nat (S n))); [|lia]. rewrite bind_get, bind_put.
    destruct (IH fuel (pDest + 4) (mem_set m pDest 0)) as (m' & Hrun & Hz & Ho); [lia|].
    exists m'. split; [|split].
    + rewrite <- Hrun. f_equal. lia.
    + intros i Hi. destruct (decide (i = 0)) as [->|].
      * rewrite Ho, Z.mul_0_r, Z.add_0_r; [apply mem_set_eq|]. intros j Hj. lia.
      * replace (pDest + 4 * i) with (pDest + 4 + 4 * (i - 1)) by lia. apply Hz. lia.
    + intros a Ha. rewrite Ho; [apply mem_set_ne; specialize (Ha 0); lia|].
      intros j Hj. specialize (Ha (j + 1)). lia.
Qed.

Lemma reset_memory_ok nr nz fuel _etext _srelocate _szero m :
  (nr <= fuel)%nat -> (nz <= fuel)%nat ->
  _etext = _srelocate \/ _etext + 4 * Z.of_nat nr <= _srelocate \/ _srelocate + 4 * Z.of_nat nr <= _etext ->
  _srelocate + 4 * Z.of_nat nr <= _szero \/ _szero + 4 * Z.of_nat nz <= _srelocate ->
  exists m', reset_memory fuel _etext _srelocate (_srelocate + 4 * Z.of_nat nr) _szero (_szero + 4 * Z.of_nat nz) m
             = Ok (tt, m') /\
    (forall i, 0 <= i < Z.of_nat nr -> m' (_srelocate + 4 * i) = m (_etext + 4 * i)) /\
    (forall i, 0 <= i < Z.of_nat nz -> m' (_szero + 4 * i) = 0) /\
    (forall a, outside _srelocate nr a -> outside _szero nz a -> m' a = m a).
Proof.
  intros Hf1 Hf2 Hd Hz. unfold reset_memory.
  assert (exists m1, (if negb (_etext =? _srelocate) then relocate_loop fuel _etext _srelocate (_srelocate + 4 * Z.of_nat nr)
            else mret tt) m = Ok (tt, m1) /\
          (forall i, 0 <= i < Z.of_nat nr -> m1 (_srelocate + 4 * i) = m (_etext + 4 * i)) /\
          (forall a, outside _srelocate nr a -> m1 a = m a)) as (m1 & H1 & Hc & Ho).
  { destruct (Z.eqb_spec _etext _srelocate) as [->|Hne]; cbn [negb]; [by exists m|].
    apply relocate_loop_ok; [done|]. lia. }
  mstep H1. destruct (clear_loop_ok nz fuel _szero m1 Hf2) as (m2 & H2 & Hz2 & Ho2).
  exists m2. split; [done|]. split; [|split; [done|]].
  - intros i Hi. rewrite Ho2; [by apply Hc|]. intros j Hj. lia.
  - intros a Ha1 Ha2. rewrite Ho2 by done. by apply Ho.
Qed.
End Reset.

(** ** The main program *)

Section Main.
Context `{!Hardware sam_reg}.
Context (fuel : nat).
Implicit Types w : world sam.

Definition sam_device (modules : Z) : lf_device :=
  LfDevice (replicate 32 0) 0 0 modules fn_atsam4s_read fn_atsam4s_write fn_atsam4s_release 0 0.

Lemma new_device_at w :
  wf_world w -> device_at (w_heap (alloc_at (ODevice (sam_device 0)) w)) (w_next w) (sam_device 0) [] [].
Proof. intros Hw. split; [apply lookup_insert_eq|done|constructor|constructor]. Qed.

(** The program reaches the launch of the kernel task with the module
    registered, and no packet class has a handler. *)
Lemma sam_setup_ok w mp mod0 name packet :
  wf_world w -> no_oom w -> w_heap w !! mp = Some (OModule mod0) -> has_name name mod0 ->
  length packet = FMR_PACKET_SIZE ->
  clocks_lock -> mode_register -> responds fuel UART_SR_RXRDY ->
  exists vs head e w', sam_setup fuel mp packet w = Ok ((w_next w, u8 <$> vs), w') /\ length vs = FMR_PACKET_SIZE /\
    wf_world w' /\ device_at (w_heap w') (w_next w) (sam_device head) [e] [indexed mod0 0] /\
    w_registry w' = w_registry w /\ w_err w' = w_err w.
Proof.
  intros Hw Ho Hmp Hname Hlen Hc Hm Hr. unfold sam_setup.
  destruct (configure_clocks_ok (w_env w)) as (s1 & H1). mstep (on_env_ok _ w _ _ H1).
  unfold lf_device_create.
  mstep (lf_device_create_named_ok None fn_atsam4s_read fn_atsam4s_write fn_atsam4s_release (set_env s1 w) Hw
           (no_oom_alloc_fails _ Ho)).
  set (w2 := alloc_at _ _).
  assert (wf_world w2) as Hw2 by (by apply wf_alloc).
  assert (w_heap w2 !! mp = Some (OModule mod0)) as Hmp2.
  { cbn. rewrite lookup_insert_ne; [done|]. intros <-. by rewrite (wf_fresh w Hw) in Hmp. }
  destruct (dyld_register_new w2 (w_next w) (sam_device 0) [] [] mp mod0 name) as (w3 & head & H3 & Hw3 & Hda & _ & h3 & ->);
    [done|by apply no_oom_alloc_fails, no_oom_alloc|exact (new_device_at w Hw)|done|done|constructor|].
  mstep H3. set (w3 := set_heap h3 _) in *.
  destruct (dac_configure_ok fuel (w_env w3) Hc Hm) as (s4 & l4 & H4 & _). mstep (on_env_ok _ w3 _ _ H4).
  set (w4 := set_env s4 w3).
  destruct (uart0_read_ok fuel FMR_PACKET_SIZE (w_env w4) Hr) as (vs & s5 & H5 & Hl & _). mstep (on_env_ok _ w4 _ _ H5).
  rewrite wr_Some by (rewrite length_fmap; lia). cbn [lift_opt]. rewrite bind_ret_l.
  rewrite drop_ge by (rewrite length_fmap; lia). rewrite take_0, app_nil_r, app_nil_l.
  set (w5 := set_env s5 w4).
  mstep (on_env_ok (wrr (UART UART0 UART_IER) UART_IER_ENDRX) w5 tt _ eq_refl).
  eexists vs, head, _, _. split; [reflexivity|]. split; [done|]. split; [exact Hw3|]. split; [exact Hda|]. done.
Qed.

(** The interrupt answers a packet whose class has no handler with [E_FMR] and
    reads the next packet. *)
Lemma uart0_isr_ok w p head l ms packet type :
  wf_world w -> device_at (w_heap w) p (sam_device head) l ms -> l <> [] ->
  length packet = FMR_PACKET_SIZE -> packet_ok packet -> rd_le packet off_type 1 = Some type -> type < MAX_DISPATCHERS ->
  default 0 (w_registry w !! Z.to_nat type) = 0 ->
  (forall s : sam, flag_set UART_SR_ENDRX s = true) ->
  responds fuel UART_SR_TXRDY -> responds fuel UART_SR_RXRDY ->
  exists vs w', uart0_isr fuel p packet w = Ok (u8 <$> vs, w') /\ length vs = FMR_PACKET_SIZE /\
    writes (UART UART0 UART_THR) (s_log (w_env w'))
      = writes (UART UART0 UART_THR) (s_log (w_env w)) ++ result_bytes 0 (err_code E_FMR) /\
    reads (UART UART0 UART_RHR) (s_log (w_env w')) = reads (UART UART0 UART_RHR) (s_log (w_env w)) ++ vs /\
    w_heap w' = w_heap w.
Proof.
  intros Hw Hda Hne Hlen Hok Hty Hlt Hreg He Htx Hrx. unfold uart0_isr.
  mstep (on_env_ok (wrr PRIMASK 1) w tt _ eq_refl). set (w1 := set_env _ w).
  mstep (on_env_ok (rdr (UART UART0 UART_SR)) w1 _ _ eq_refl). rewrite (flag_set_ctrue _ _ (He _)).
  set (w2 := set_env _ w1). rewrite !bind_assoc. mstep (on_env_ok (gpio_write 0 SAM_FMR_PIN) w2 tt _ eq_refl).
  rewrite bind_assoc. mstep (on_env_ok (wrr (UART UART0 UART_PTCR) (Z.lor UART_PTCR_RXTDIS UART_PTCR_TXTDIS))
    (set_env (w_env w2) w2) tt _ eq_refl).
  set (w3 := set_env _ _). rewrite bind_assoc.
  mstep (lf_error_set_ok (err_code E_OK) w3 ltac:(by vm_compute)). set (w4 := set_err _ w3).
  destruct (uart0_write_ok fuel (result_bytes 0 (err_code E_FMR)) (w_env w4) Htx) as (s5 & H5 & Hw5 & Hr5).
  { apply (bool_decide_unpack _). by vm_compute. }
  set (w5 := set_env s5 (set_err (err_code E_OK) w4)).
  destruct (@perform_unhandled sam (sam_transport fuel) (sam_code fuel) p packet w4 type (sam_device head) 0 w5)
    as (buf & Hbuf & Hperf); try done.
  - by eapply device_at_nonnull.
  - apply Hda.
  - intros H0. pose proof (da_ll _ _ _ _ _ Hda) as Hll. rewrite H0 in Hll. by apply is_ll_nil_inv in Hll.
  - unfold device_write. mstep (load_device_ok (set_err (err_code E_OK) w4) p _ (da_dev _ _ _ _ _ Hda)).
    apply (on_env_ok _ (set_err (err_code E_OK) w4) 0 s5 H5).
  - rewrite bind_assoc. mstep Hperf. rewrite bind_assoc.
    destruct (uart0_read_ok fuel FMR_PACKET_SIZE (w_env w5) Hrx) as (vs & s6 & H6 & Hl6 & Hr6 & Hw6).
    mstep (on_env_ok _ w5 _ _ H6).
    assert (length buf = FMR_PACKET_SIZE) as Hlb by (by erewrite wr_length; [|apply Hbuf]).
    rewrite bind_assoc, wr_Some by (rewrite length_fmap; lia). cbn [lift_opt]. rewrite bind_ret_l.
    rewrite drop_ge by (rewrite length_fmap; lia). rewrite take_0, app_nil_r, app_nil_l.
    set (w6 := set_env s6 w5). rewrite bind_assoc. mstep (on_env_ok (gpio_write SAM_FMR_PIN 0) w6 tt _ eq_refl).
    rewrite bind_ret_l. mstep (on_env_ok (wrr PRIMASK 0) (set_env (w_env w6) w6) tt _ eq_refl).
    eexists vs, _. split; [reflexivity|]. split; [done|]. cbn [w_env set_env w6 w5].
    change (s_log (log_event ?a ?s)) with (a :: s_log s). rewrite writes_wr_ne, reads_wr by discriminate.
    rewrite Hw6, Hr6. cbn [w_env set_env w5]. rewrite Hw5, Hr5. by split.
Qed.
End Main.
