(* ===== verification/SamProps.v ===== *)
(** * Properties of the ATSAM4S firmware

    Reset, the UART transport, the DAC module and the main program with its
    interrupts, each with an instance on hardware that is always ready. *)

From S2P Require Import Prelude World Errors Crc Device LinkedList FmrPacket Transport Dyld Fmr Network Scenario Mmio SamAsf Sam.
From stdpp Require Import base list gmap sets strings.
From Stdlib Require Import ZArith Lia.
Local Open Scope Z_scope.

(** Hardware with every clock and flag ready, a mode register that reads back
    and a receive register that delivers the bytes [rx]. *)
Definition sam_hw (rx : list Z) : Hardware sam_reg := fun l r =>
  match r with
  | PMC_SR => Z.lor PMC_SR_MOSCSELS (Z.lor PMC_SR_MOSCXTS (Z.lor PMC_SR_LOCKA (Z.lor PMC_SR_LOCKB PMC_SR_MCKRDY)))
  | DACC_MR => mode_of l
  | UART UART0 UART_SR => Z.lor UART_SR_RXRDY (Z.lor UART_SR_TXRDY UART_SR_ENDRX)
  | UART UART0 UART_RHR => default 0 (rx !! length (reads (UART UART0 UART_RHR) l))
  | _ => 0
  end.
Definition sam0 : sam := Sam [].

Lemma sam_hw_clocks rx : @clocks_lock (sam_hw rx).
Proof. intros s. by vm_compute. Qed.

Lemma mode_of_range l : rval DACC_MR (mode_of l) = mode_of l.
Proof.
  unfold rval. induction l as [|[r v|r v] l IH]; [done|done|]. destruct r; try done.
  - cbn [mode_of]. by destruct (Z.testbit v 0).
  - cbn [mode_of]. unfold rval. by rewrite Z.mod_mod.
Qed.
Lemma sam_hw_mode rx : @mode_register (sam_hw rx).
Proof. intros s. apply mode_of_range. Qed.

Lemma sam_hw_responds rx fuel flag :
  (0 <? Z.land (Z.lor UART_SR_RXRDY (Z.lor UART_SR_TXRDY UART_SR_ENDRX)) flag) = true -> @responds (sam_hw rx) fuel flag.
Proof. intros H. split; [|done]. intros s. exists 0%nat. split; [lia|exact H]. Qed.

(** Reset prepares memory for C: with enough turns for the two segments and
    segments that do not overlap, the start-up code ends with every word of the
    data segment copied from its image in flash, every word of the zero segment
    cleared, and every other word as it was. *)
Theorem reset_initialises nr nz fuel _etext _srelocate _szero (m : memory) :
  (nr <= fuel)%nat -> (nz <= fuel)%nat ->
  _etext = _srelocate \/ _etext + 4 * Z.of_nat nr <= _srelocate \/ _srelocate + 4 * Z.of_nat nr <= _etext ->
  _srelocate + 4 * Z.of_nat nr <= _szero \/ _szero + 4 * Z.of_nat nz <= _srelocate ->
  exists m', reset_memory fuel _etext _srelocate (_srelocate + 4 * Z.of_nat nr) _szero (_szero + 4 * Z.of_nat nz) m
             = Ok (tt, m') /\
    (forall i, 0 <= i < Z.of_nat nr -> m' (_srelocate + 4 * i) = m (_etext + 4 * i)) /\
    (forall i, 0 <= i < Z.of_nat nz -> m' (_szero + 4 * i) = 0) /\
    (forall a, outside _srelocate nr a -> outside _szero nz a -> m' a = m a).
Proof. apply reset_memory_ok. Qed.

Lemma reset_initialises_witness :
  exists m', reset_memory 8 0x400000 0x20000000 0x20000008 0x20000008 0x20000010 (fun a => a + 1) = Ok (tt, m') /\
    m' 0x20000004 = 0x400005 /\ m' 0x2000000C = 0.
Proof.
  destruct (reset_initialises 2 2 8 0x400000 0x20000000 0x20000008 (fun a => a + 1)) as (m' & Hrun & Hc & Hz & _);
    [lia|lia|lia|lia|].
  exists m'. split; [exact Hrun|]. split; [exact (Hc 1 ltac:(lia))|exact (Hz 1 ltac:(lia))].
Defined.

(** The UART transport carries bytes faithfully: when the transmitter and the
    receiver become ready within the bound on polling and stay ready until they
    are used, a write puts all of its bytes, in order, into the transmit register
    and reads nothing, and a read of [n] bytes returns the low bytes of the [n]
    values taken from the receive register, in order, and sends nothing. *)
Theorem sam_uart_transport `{!Hardware sam_reg} fuel (s : sam) :
  responds fuel UART_SR_TXRDY -> responds fuel UART_SR_RXRDY ->
  (forall src, Forall is_byte src ->
     exists s', uart0_write fuel src s = Ok (0, s') /\
       writes (UART UART0 UART_THR) (s_log s') = writes (UART UART0 UART_THR) (s_log s) ++ src /\
       reads (UART UART0 UART_RHR) (s_log s') = reads (UART UART0 UART_RHR) (s_log s)) /\
  (forall n,
     exists vs s', uart0_read fuel n s = Ok ((0, u8 <$> vs), s') /\ length vs = n /\
       reads (UART UART0 UART_RHR) (s_log s') = reads (UART UART0 UART_RHR) (s_log s) ++ vs /\
       writes (UART UART0 UART_THR) (s_log s') = writes (UART UART0 UART_THR) (s_log s)).
Proof. intros Htx Hrx. split; [intros src Hb; by apply uart0_write_ok|intros n; by apply uart0_read_ok]. Qed.

Lemma sam_uart_transport_witness :
  (exists s', @uart0_write (sam_hw []) 4 [1; 2; 255] sam0 = Ok (0, s') /\
    writes (UART UART0 UART_THR) (s_log s') = [1; 2; 255]) /\
  (exists vs s', @uart0_read (sam_hw []) 4 3 sam0 = Ok ((0, u8 <$> vs), s') /\ length vs = 3%nat).
Proof.
  destruct (@sam_uart_transport (sam_hw []) 4 sam0) as [Hw Hr].
  - by apply sam_hw_responds.
  - by apply sam_hw_responds.
  - split.
    + destruct (Hw [1; 2; 255]) as (s' & Hrun & Hs & _); [apply (bool_decide_unpack _); vm_compute; exact I|].
      exists s'. split; [exact Hrun|exact Hs].
    + destruct (Hr 3%nat) as (vs & s' & Hrun & Hl & _). exists vs, s'. split; [exact Hrun|exact Hl].
Defined.

(** Configuring the DAC leaves it in a fixed mode: when the clocks lock,
    [dac_configure] succeeds with the mode register holding tag selection,
    bit 8 and the external trigger and nothing else (so the startup field is 0,
    not the 1920 cycles requested), and last enables the converter's interrupt,
    whose vector is a loop, so the first such interrupt never returns. *)
Theorem dac_configure_then_interrupt `{!Hardware sam_reg} fuel (s : sam) :
  clocks_lock -> mode_register ->
  exists s' l, dac_configure fuel s = Ok (lf_success, s') /\
    mode s' = Z.lor DACC_MR_TAG (Z.lor DACC_MR_ONE DACC_MR_TRGEN) /\
    s_log s' = Wr (NVIC_ISER 0) (bit DACC_IRQn) :: Wr DACC_IER DACC_IER_TXRDY :: l /\
    forall os_exception _4s packet w,
      take_interrupt fuel os_exception _4s packet (Z.to_nat DACC_IRQn) w = Spin.
Proof.
  intros Hc Hm. destruct (dac_configure_ok fuel s Hc Hm) as (s' & l & Hrun & Hmode & Hl).
  exists s', l. split; [done|]. split; [by rewrite Hmode|]. done.
Qed.

Lemma dac_configure_then_interrupt_witness :
  exists s', @dac_configure (sam_hw []) 4 sam0 = Ok (lf_success, s') /\ mode s' = 0x100101.
Proof.
  destruct (@dac_configure_then_interrupt (sam_hw []) 4 sam0 (sam_hw_clocks []) (sam_hw_mode []))
    as (s' & l & Hrun & Hm & _).
  exists s'. split; [exact Hrun|]. rewrite Hm. reflexivity.
Defined.

(** A remote [dac_write] never sets the converter: the wrapper reads the
    pointer to the argument record instead of the argument, and records live
    above the converter's range, so for every argument list the call reports an
    error and touches no register. *)
Theorem dac_write_sees_pointer `{!Hardware sam_reg} fuel args e al (w : world sam) :
  is_ll (w_heap w) args (e :: al) -> DACC_MAX_DATA < e_item e < 2 ^ 32 ->
  @call_function sam (sam_code fuel) fn__dac_write args w = Ok (lf_error, w).
Proof.
  intros (Ha & Hn & nx & Hl & _) He. change (call_function fn__dac_write args w) with (_dac_write args w).
  unfold _dac_write, first_word.
  destruct (Z.eqb_spec args 0); [done|]. rewrite bind_assoc. mstep (load_node_ok _ _ _ Hl). cbn [item].
  unfold u32. rewrite bind_ret_l, Z.mod_small by (unfold DACC_MAX_DATA in He; change (Z.shiftl 1 DACC_RESOLUTION - 1) with 4095 in He; lia).
  rewrite (on_env_ok _ _ lf_error (w_env w)); [by destruct w|]. unfold dac_write.
  by destruct (Z.ltb_spec DACC_MAX_DATA (e_item e)); [|lia].
Qed.

(** One argument, the 32-bit value 100, in a list in SRAM. *)
Definition sram : Z := 0x20001000.
Definition dac_args_world : world sam :=
  World 0 {[ sram := ONode (LLNode (sram + 16) 1 0); sram + 16 := OArg (LfArg 4 100) ]} (sram + 32) []
    (fun _ => 0) 0 0 (replicate 6 0) false sam0.

Lemma dac_write_sees_pointer_witness :
  @call_function sam (@sam_code (sam_hw []) 4) fn__dac_write sram dac_args_world = Ok (lf_error, dac_args_world).
Proof.
  apply (@dac_write_sees_pointer (sam_hw []) 4 sram (Entry sram (sram + 16) 1) []).
  - split; [reflexivity|]. split; [discriminate|]. exists 0. split; [reflexivity|reflexivity].
  - vm_compute. split; reflexivity.
Defined.

(** C38: The main processor refuses every request: [main] registers its module but
    never installs the packet handlers, so after start-up the receive interrupt
    answers every packet that passes the check with value 0 and [E_FMR] over the
    UART, whatever its class, and then reads the next packet. *)
Theorem sam_refuses_all `{!Hardware sam_reg} fuel (w : world sam) mp mod0 name packet0 :
  wf_world w -> no_oom w -> w_heap w !! mp = Some (OModule mod0) -> has_name name mod0 ->
  w_registry w = replicate 6 0 -> length packet0 = FMR_PACKET_SIZE ->
  clocks_lock -> mode_register -> responds fuel UART_SR_RXRDY -> responds fuel UART_SR_TXRDY ->
  (forall s : sam, flag_set UART_SR_ENDRX s = true) ->
  exists p packet w1, sam_setup fuel mp packet0 w = Ok ((p, packet), w1) /\ length packet = FMR_PACKET_SIZE /\
    forall type, packet_ok packet -> rd_le packet off_type 1 = Some type -> 0 <= type < MAX_DISPATCHERS ->
      exists next w2, uart0_isr fuel p packet w1 = Ok (next, w2) /\ length next = FMR_PACKET_SIZE /\
        writes (UART UART0 UART_THR) (s_log (w_env w2))
        = writes (UART UART0 UART_THR) (s_log (w_env w1)) ++ result_bytes 0 (err_code E_FMR).
Proof.
  intros Hw Ho Hmp Hname Hreg Hlen Hc Hm Hrx Htx He.
  destruct (sam_setup_ok fuel w mp mod0 name packet0 Hw Ho Hmp Hname Hlen Hc Hm Hrx)
    as (vs & head & e & w1 & Hrun & Hvs & Hw1 & Hda & Hreg1 & _).
  exists (w_next w), (u8 <$> vs), w1. split; [done|]. split; [by rewrite length_fmap|]. intros type Hok Hty Hlt.
  destruct (uart0_isr_ok fuel w1 (w_next w) head [e] [indexed mod0 0] (u8 <$> vs) type Hw1 Hda)
    as (vs2 & w2 & H2 & Hl2 & Hwr & _); try done.
  - by rewrite length_fmap.
  - lia.
  - rewrite Hreg1, Hreg. by destruct (lookup_replicate 6 0 0 (Z.to_nat type)) as [_ ->]; [|unfold MAX_DISPATCHERS, FMR_CLASS_COUNT in Hlt; lia].
  - exists (u8 <$> vs2), w2. by rewrite length_fmap.
Qed.

(** A module "dac" in the data segment, and a lookup of it arriving. *)
Definition static_dac : lf_module := LfModule (name32 [100; 97; 99]) 1 UINT16_MAX 0 dac_table 5 0.
Definition sam_world : world sam :=
  World 0 {[ 64 := OModule static_dac ]} sram [] (fun _ => 0) 0 0 (replicate 6 0) false sam0.
Definition dac_lookup : list Z := default [] (dyld_packet [100; 97; 99]).

Lemma sam_refuses_all_witness :
  exists p packet w1 next w2, @sam_setup (sam_hw dac_lookup) 4 64 (replicate 64 0) sam_world = Ok ((p, packet), w1) /\
    @uart0_isr (sam_hw dac_lookup) 4 p packet w1 = Ok (next, w2) /\
    writes (UART UART0 UART_THR) (s_log (w_env w2))
    = writes (UART UART0 UART_THR) (s_log (w_env w1)) ++ result_bytes 0 (err_code E_FMR).
Proof.
  destruct (@sam_refuses_all (sam_hw dac_lookup) 4 sam_world 64 static_dac [100; 97; 99] (replicate 64 0))
    as (p & packet & w1 & Hs & _ & Hisr).
  - by apply wf_world_check; vm_compute.
  - constructor.
  - reflexivity.
  - reflexivity.
  - reflexivity.
  - reflexivity.
  - apply sam_hw_clocks.
  - apply sam_hw_mode.
  - by apply sam_hw_responds.
  - by apply sam_hw_responds.
  - intros s. reflexivity.
  - exists p, packet, w1. assert (packet = dac_lookup) as ->.
    { vm_compute in Hs. injection Hs as _ <- _. vm_compute. reflexivity. }
    destruct (Hisr fmr_dyld_class) as (next & w2 & Hrun & _ & Hw); [|vm_compute; reflexivity|vm_compute; split; [discriminate|reflexivity]|].
    + clear Hs. destruct (dyld_packet_ok [100; 97; 99]) as (pkt & Hp & Hok & _); [vm_compute; lia|by repeat constructor|].
      unfold dac_lookup. rewrite Hp. exact Hok.
    + exists next, w2. split; [exact Hs|]. split; [exact Hrun|exact Hw].
Defined.

(** The channel operations report success for channels 0 and 1, but the driver
    is given a mode-register mask for channel 1 and refuses it: only channel 0
    is ever enabled. *)
Theorem dac_channel_effects `{!Hardware sam_reg} i (s : sam) :
  exists s', dac_enable_channels i s = Ok (if (i =? 0) || (i =? 1) then lf_success else lf_error, s') /\
    writes DACC_CHER (s_log s') = writes DACC_CHER (s_log s) ++ (if i =? 0 then [DACC_CHER_CH0] else []).
Proof.
  unfold dac_enable_channels. destruct (Z.eqb_spec i 0) as [->|Hi].
  - eexists. split; [reflexivity|]. cbn [s_log log_event put_log get_log sam_log]. by rewrite writes_wr.
  - destruct (Z.eqb_spec i 1) as [->|]; eexists; (split; [reflexivity|]); by rewrite app_nil_r.
Qed.
