(* ===== verification/Fvm.v ===== *)
(** * The virtual machine (utils/fvm/src/main.c, utils/fvm/src/api)

    A process that acts as a device: it opens a UDP socket, registers the
    built-in DAC module and the modules named on its command line, and answers
    one packet per turn of its main loop. Standard output, the dynamic linker
    and the code of loaded libraries are parameters. *)

From S2P Require Import Prelude World Errors Crc Device LinkedList FmrPacket Transport Dyld Fmr Network Libusb Libflipper Rpc.
From stdpp Require Import base list gmap sets strings.
From Stdlib Require Import ZArith Lia.
Local Open Scope Z_scope.

(** What the process gets from the operating system besides sockets: output,
    the dynamic linker, and the code of the libraries it loads. *)
Class Process (E : Type) := {
  sys_write : Z -> list Z -> E -> E;
  dl_open : list Z -> E -> Z * E;
  dl_sym : Z -> list Z -> E -> Z * E;
  loaded_function : Z -> Z -> C E Z;
  loaded_handler : Z -> Z -> list Z -> Z -> C E (Z * Z);
  plugin_register : Z -> Z -> C E unit;
}.

Definition STDOUT_FILENO : Z := 1.
Definition EXIT_SUCCESS : Z := 0.
Definition EXIT_FAILURE : Z := 1.

(** The bytes of an ASCII literal. *)
Definition ascii (s : string) : list Z := (fun c => Z.of_N (Ascii.N_of_ascii c)) <$> String.list_ascii_of_string s.

(** ** The emulated DAC module (utils/fvm/src/api/fvm_dac_module.c) *)

Definition fn_fvm_dac_configure : Z := 60.
Definition fn_fvm_dac_enable_channels : Z := 61.
Definition fn_fvm_dac_set_channels : Z := 62.
Definition fn_fvm_dac_write : Z := 63.
Definition fn_fvm_dac_cleanup : Z := 64.

Definition lf_module_dac_table : list Z :=
  [fn_fvm_dac_configure; fn_fvm_dac_enable_channels; fn_fvm_dac_set_channels; fn_fvm_dac_write;
   fn_fvm_dac_cleanup].

(** The static record [dac_module], and its address in the data segment. *)
Definition dac_module : lf_module :=
  LfModule (strncpy (ascii "dac_module") 32) 1 UINT16_MAX 0 lf_module_dac_table 5 0.
Definition dac_module_addr : Z := 64.

Section FvmDac.
Context {E : Type} `{!Process E}.

Definition print_stdout (msg : string) : C E unit :=
  env_op (fun e => (tt, sys_write STDOUT_FILENO (ascii msg ++ [10]) e)).

Definition fvm_dac_configure (args : Z) : C E Z :=
  print_stdout "[FVM] Called fvm_dac_configure()";; mret lf_success.
Definition fvm_dac_enable_channels (args : Z) : C E Z :=
  print_stdout "[FVM] Called fvm_dac_enable_channels()";; mret lf_success.
Definition fvm_dac_set_channels (args : Z) : C E Z :=
  print_stdout "[FVM] Called fvm_dac_set_channels()";; mret lf_success.
Definition fvm_dac_write (args : Z) : C E Z :=
  print_stdout "[FVM] Called fvm_dac_write(channel)";; mret lf_success.
Definition fvm_dac_cleanup (args : Z) : C E Z :=
  print_stdout "[FVM] Called fvm_dac_cleanup()";; mret lf_success.

(** A call through a module table of this process. *)
#[global] Instance fvm_code : ModuleCode E := {
  call_function f args :=
    if f =? fn_fvm_dac_configure then fvm_dac_configure args
    else if f =? fn_fvm_dac_enable_channels then fvm_dac_enable_channels args
    else if f =? fn_fvm_dac_set_channels then fvm_dac_set_channels args
    else if f =? fn_fvm_dac_write then fvm_dac_write args
    else if f =? fn_fvm_dac_cleanup then fvm_dac_cleanup args
    else loaded_function f args;
  call_plugin_handler := loaded_handler;
}.
End FvmDac.

(** ** main *)

Section Main.
Context {E : Type} `{!Sockets E, !Usb E, !Process E}.

(** The rest of [main] after [lf_assert]: an exit code, or the next step. *)
Definition exit_failure {A} : C E (Z + A) := mret (inl EXIT_FAILURE).

(** Creates and binds the UDP socket. (The port it got is printed and stored in
    /tmp/fvm.port.) *)
Definition fvm_socket : C E (Z + Z) :=
  sd ← env_op sys_socket;
  lf_assert (ctrue sd) E_UNIMPLEMENTED
    (e ← env_op (sys_bind sd (SockAddr INADDR_ANY (htons 0)));
     lf_assert (e =? 0) E_UNIMPLEMENTED (mret (inr sd)) exit_failure)
    exit_failure.

(** Allocates the endpoint context and stores the socket in it. *)
Definition fvm_context (fvm sd : Z) : C E (Z + Z * Z) :=
  context ← malloc (fun _ => ONet net_zero);
  d ← load_device fvm;
  store fvm (ODevice (set_ep_ctx d context));;
  lf_assert (ctrue context) E_NULL
    (c ← load_net context;
     store context (ONet (nc_set_fd c sd));;
     mret (inr (fvm, context)))
    exit_failure.

(** Creates the device with the built-in module and its endpoint context. *)
Definition fvm_device (sd : Z) : C E (Z + Z * Z) :=
  fvm ← lf_device_create_named (Some str_fvm) fn_lf_network_read fn_lf_network_write fn_lf_network_release;
  lf_assert (ctrue fvm) E_ENDPOINT
    (d ← load_device fvm;
     store fvm (ODevice (set_modules d lf_ll_create));;
     dyld_register fvm dac_module_addr;;
     fmr_init;;
     fvm_context fvm sd)
    exit_failure.

(** Lets the library register its own dispatchers. *)
Definition fvm_plugin (fvm : Z) (lib : list Z) : C E unit :=
  dlm_global ← env_op (dl_open lib);
  if ctrue dlm_global then
    register_plugin ← env_op (dl_sym dlm_global (ascii "fmr_plugin_register"));
    if ctrue register_plugin then plugin_register register_plugin fvm else mret tt
  else mret tt.

(** Registers the modules named on the command line. A module without a name
    gets the symbol's. *)
Fixpoint fvm_modules (fvm : Z) (lib : list Z) (modules : list (list Z)) : C E (Z + unit) :=
  match modules with
  | [] => mret (inr tt)
  | module :: modules =>
    dlm ← env_op (dl_open lib);
    lf_assert (ctrue dlm) E_NULL
      (m ← env_op (dl_sym dlm (take 31 module));
       lf_assert (ctrue m) E_NULL
         (r ← load_module m;
          name ← lift_opt (cstr (m_name r));
          (if bool_decide (name = []) then
             store m (OModule (LfModule (name32 module) (m_version r) (m_idx r) (m_interface r)
                                 (m_table r) (m_length r) (m_state r)))
           else mret tt);;
          e ← dyld_register fvm m;
          lf_assert (e =? lf_success) E_NULL (fvm_modules fvm lib modules) exit_failure)
         exit_failure)
      exit_failure
  end.

(** [main] up to its loop: an exit code, or the device and its context. *)
Definition fvm_setup (argv : list (list Z)) : C E (Z + Z * Z) :=
  if bool_decide (head argv = Some (ascii "--version")) then mret (inl EXIT_SUCCESS)
  else
    s ← fvm_socket;
    match s with
    | inl code => mret (inl code)
    | inr sd =>
      r ← fvm_device sd;
      match r with
      | inl code => mret (inl code)
      | inr (fvm, context) =>
        match argv with
        | [] => mret (inr (fvm, context))
        | lib :: modules =>
          fvm_plugin fvm lib;;
          l ← fvm_modules fvm lib modules;
          match l with
          | inl code => mret (inl code)
          | inr _ => mret (inr (fvm, context))
          end
        end
      end
    end.

(** The uninitialised [struct _fmr_packet] of the loop body. *)
Definition stack_packet : C E (list Z) :=
  gets (fun w => (fun i => u8 (w_junk w (Z.of_nat i))) <$> seq 0 FMR_PACKET_SIZE).

(** One turn of the main loop: receives a packet, remembers its sender and
    performs it. *)
Definition fvm_turn (fvm context : Z) : C E unit :=
  packet ← stack_packet;
  c ← load_net context;
  r ← env_op (sys_recvfrom (nc_fd c) FMR_PACKET_SIZE);
  match r with
  | RcvErr _ => mret tt
  | RcvOk data from =>
    packet ← lift_opt (wr packet 0 (take FMR_PACKET_SIZE data));
    c ← load_net context;
    store context (ONet (nc_set_addr c from));;
    fmr_perform fvm packet;;
    mret tt
  end.

(** [n] turns of the loop, which has no exit. *)
Fixpoint fvm_loop (n : nat) (fvm context : Z) : C E unit :=
  match n with
  | O => mret tt
  | S n => fvm_turn fvm context;; fvm_loop n fvm context
  end.

(** [main], observed for [n] turns: the exit code, or [None] while it runs. *)
Definition fvm_main (argv : list (list Z)) (n : nat) : C E (option Z) :=
  r ← fvm_setup argv;
  match r with
  | inl code => mret (Some code)
  | inr (fvm, context) => fvm_loop n fvm context;; mret None
  end.
End Main.

(** ** The serving machine *)

Section Serving.
Context {E : Type} `{!Sockets E, !Usb E, !Process E}.
Implicit Types w : world E.

(** The machine can serve: its device, modules and endpoint context are in
    place and every packet class has its built-in handler. *)
Record serving w (fvm context : Z) (d : lf_device) (c : lf_network_context) (l : list ll_entry)
    (ms : list lf_module) : Prop := {
  sv_wf : wf_world w;
  sv_oom : no_oom w;
  sv_dev : device_at (w_heap w) fvm d l ms;
  sv_net : net_at w fvm d context c;
  sv_write : d_write d = fn_lf_network_write;
  sv_registry : w_registry w = [fn_fmr_rpc; fn_fmr_push; fn_fmr_pull; fn_fmr_dyld; fn_fmr_malloc; fn_fmr_free];
}.

Lemma wf_store w p o o' :
  w_heap w !! p = Some o' -> wf_world w -> wf_world (set_heap (<[p := o]> (w_heap w)) w).
Proof.
  intros Hp Hw. apply wf_set_heap_sub; [done|]. intros a. rewrite lookup_insert.
  case_decide; [by subst; rewrite Hp|done].
Qed.

Lemma dac_module_named : has_name (ascii "dac_module") dac_module.
Proof. by vm_compute. Qed.

(** The program starts with its static data in place. *)
Definition booting w : Prop :=
  wf_world w /\ no_oom w /\ w_heap w !! dac_module_addr = Some (OModule dac_module) /\
  length (w_registry w) = 6%nat.

(** What [fvm_device] builds before the endpoint context is allocated. *)
Lemma fvm_device_register w :
  booting w ->
  let d := LfDevice (name32 str_fvm) 0 0 0 fn_lf_network_read fn_lf_network_write fn_lf_network_release 0 0 in
  let w1 := alloc_at (ODevice d) w in
  exists h2 head, dyld_register (w_next w) dac_module_addr w1
      = Ok (lf_success, set_heap h2 (set_alloc (w_next w1 + 16) (tail (w_fail w1)) w1)) /\
    wf_world (set_heap h2 (set_alloc (w_next w1 + 16) (tail (w_fail w1)) w1)) /\
    device_at h2 (w_next w) (set_modules d head) [Entry (w_next w1) dac_module_addr fn_lf_module_release]
      [set_idx dac_module 0].
Proof.
  intros (Hw & Ho & Hm & _) d w1.
  assert (dac_module_addr <> w_next w) as Hne by (intros Heq; rewrite Heq, wf_fresh in Hm; done).
  assert (device_at (w_heap w1) (w_next w) d [] []) as Hda
    by (split; [apply lookup_insert_eq|done|constructor|done]).
  destruct (dyld_register_new w1 (w_next w) d [] [] dac_module_addr dac_module (ascii "dac_module"))
    as (w' & head & Hrun & Hw' & Hda' & _ & h2 & ->); try done.
  - by apply wf_alloc.
  - by apply no_oom_alloc_fails, no_oom_alloc.
  - cbn. by rewrite lookup_insert_ne.
  - exists h2, head. split; [done|]. split; [done|]. exact Hda'.
Qed.

(** The device record is neither a node nor a module, so storing it again keeps
    the registry. *)
Lemma device_at_store_device h p d l ms d' :
  device_at h p d l ms -> d_modules d' = d_modules d ->
  device_at (<[p := ODevice d']> h) p d' l ms.
Proof.
  intros Hda Hd'. pose proof Hda as [Hd Hl Hm Hn]. split; [apply lookup_insert_eq| | |done].
  - rewrite Hd'. apply (is_ll_frame h); [done|]. intros a Ha. apply lookup_insert_ne. intros <-.
    by eapply (device_not_addr h).
  - apply (modules_at_frame h); [done|]. intros e (i & He)%list_elem_of_lookup.
    destruct (Forall2_lookup_l _ _ _ _ _ Hm He) as (m & _ & Hat). apply lookup_insert_ne. congruence.
Qed.

(** A fresh or context object does not disturb the registry. *)
Lemma device_at_other h p d l ms q o :
  device_at h p d l ms -> (h !! q = None \/ exists c, h !! q = Some (ONet c)) ->
  device_at (<[q := o]> h) p d l ms.
Proof.
  intros Hda Hq. pose proof Hda as [Hd Hl Hm Hn].
  assert (forall a x, h !! a = Some x -> (forall c, x <> ONet c) -> <[q := o]> h !! a = h !! a) as Hk.
  { intros a x Ha Hx. apply lookup_insert_ne. intros ->. destruct Hq as [Hq|[c Hq]]; [congruence|].
    rewrite Hq in Ha. injection Ha as <-. by apply (Hx c). }
  split; [by rewrite (Hk _ _ Hd)| | |done].
  - apply (is_ll_frame h); [done|]. intros a Ha.
    destruct (is_ll_lookup _ _ _ _ Hl Ha) as (_ & n & Hat). by rewrite (Hk _ _ Hat).
  - apply (modules_at_frame h); [done|]. intros e (i & He)%list_elem_of_lookup.
    destruct (Forall2_lookup_l _ _ _ _ _ Hm He) as (m & _ & Hat). by rewrite (Hk _ _ Hat).
Qed.

Lemma fvm_context_ok sd w fvm d l ms :
  wf_world w -> no_oom w -> device_at (w_heap w) fvm d l ms -> d_write d = fn_lf_network_write ->
  w_registry w = [fn_fmr_rpc; fn_fmr_push; fn_fmr_pull; fn_fmr_dyld; fn_fmr_malloc; fn_fmr_free] ->
  exists w', fvm_context fvm sd w = Ok (inr (fvm, w_next w), w') /\ w_env w' = w_env w /\
    serving w' fvm (w_next w) (set_ep_ctx d (w_next w)) (nc_set_fd net_zero sd) l ms.
Proof.
  intros Hw Ho Hda Hwr Hreg. unfold fvm_context.
  mstep (malloc_ok w (fun _ => ONet net_zero) (no_oom_alloc_fails _ Ho)). set (w1 := alloc_at _ w).
  pose proof (wf_fresh w Hw) as Hfresh. pose proof (wf_next_nonnull w Hw) as Hnn.
  assert (device_at (w_heap w1) fvm d l ms) as Hda1 by (apply device_at_other; [done|by left]).
  assert (fvm <> w_next w) as Hne by (intros Heq; pose proof (da_dev _ _ _ _ _ Hda) as Hd; rewrite Heq in Hd; congruence).
  pose proof (da_dev _ _ _ _ _ Hda1) as Hd1. mstep (load_device_ok w1 _ _ Hd1).
  set (d' := set_ep_ctx d (w_next w)). mstep (store_ok w1 _ (ODevice d') _ Hd1). set (w2 := set_heap _ w1).
  unfold lf_assert. rewrite ctrue_nonzero by done.
  assert (w_heap w2 !! w_next w = Some (ONet net_zero)) as Hc.
  { cbn. rewrite lookup_insert_ne by done. apply lookup_insert_eq. }
  mstep (load_net_ok w2 _ _ Hc). mstep (store_ok w2 _ (ONet (nc_set_fd net_zero sd)) _ Hc).
  eexists. split; [reflexivity|]. split; [reflexivity|].
  assert (device_at (w_heap w2) fvm d' l ms) as Hda2 by (by apply (device_at_store_device _ _ d)).
  split; [| |apply device_at_other; [exact Hda2|by eauto]| |exact Hwr|exact Hreg].
  - apply (wf_store w2 _ _ _ Hc), (wf_store w1 _ _ _ Hd1). by apply wf_alloc.
  - exact (no_oom_alloc w (ONet net_zero) Ho).
  - split; [by eapply device_at_nonnull|]. split; [done|]. split; [|split; [done|apply lookup_insert_eq]].
    cbn. rewrite lookup_insert_ne by done. apply Hda2.
Qed.

Lemma fvm_device_ok sd w :
  booting w ->
  exists fvm context d l w', fvm_device sd w = Ok (inr (fvm, context), w') /\ w_env w' = w_env w /\
    serving w' fvm context d (nc_set_fd net_zero sd) l [set_idx dac_module 0].
Proof.
  intros Hb. pose proof Hb as (Hw & Ho & Hm & Hr). unfold fvm_device.
  mstep (lf_device_create_named_ok (Some str_fvm) fn_lf_network_read fn_lf_network_write fn_lf_network_release w Hw
           (no_oom_alloc_fails _ Ho)).
  unfold lf_assert at 1. rewrite ctrue_nonzero by (by apply wf_next_nonnull).
  destruct (fvm_device_register w Hb) as (h2 & head & Hreg & Hw2 & Hda2).
  set (d := LfDevice (name32 str_fvm) _ _ _ _ _ _ _ _) in *. set (w1 := alloc_at (ODevice d) w) in *.
  assert (w_heap w1 !! w_next w = Some (ODevice d)) as Hd1 by apply lookup_insert_eq.
  mstep (load_device_ok w1 _ _ Hd1). mstep (store_ok w1 _ (ODevice (set_modules d lf_ll_create)) _ Hd1).
  assert (set_heap (<[w_next w := ODevice (set_modules d lf_ll_create)]> (w_heap w1)) w1 = w1) as ->.
  { unfold w1, alloc_at. cbn. by rewrite insert_insert_eq. }
  mstep Hreg. set (w2 := set_heap h2 _) in *. mstep (fmr_init_ok w2 Hr).
  set (w3 := set_registry _ w2).
  assert (no_oom w3) as Ho3 by (apply no_oom_tail; by apply no_oom_alloc).
  destruct (fvm_context_ok sd w3 (w_next w) _ _ _ Hw2 Ho3 Hda2 eq_refl eq_refl) as (w' & Hrun & Henv & Hsv).
  by eauto 10.
Qed.

(** Without arguments the machine comes up serving its built-in module. *)
Lemma fvm_setup_ok w sd env1 env2 :
  booting w -> sys_socket (w_env w) = (sd, env1) -> sd <> 0 ->
  sys_bind sd (SockAddr INADDR_ANY (htons 0)) env1 = (0, env2) ->
  exists fvm context d l w', fvm_setup [] w = Ok (inr (fvm, context), w') /\ w_env w' = env2 /\
    serving w' fvm context d (nc_set_fd net_zero sd) l [set_idx dac_module 0].
Proof.
  intros Hb Hs Hsd Hbd. unfold fvm_setup. rewrite bool_decide_false by done. unfold fvm_socket. mnorm.
  rewrite (bind_Ok _ _ _ sd (set_env env1 w)) by (unfold env_op; by rewrite Hs).
  unfold lf_assert at 1. rewrite ctrue_nonzero by done. mnorm.
  rewrite (bind_Ok _ _ _ 0 (set_env env2 w)) by (unfold env_op; cbn; by rewrite Hbd).
  cbn [Z.eqb lf_assert]. mnorm.
  destruct (fvm_device_ok sd (set_env env2 w) Hb) as (fvm & context & d & l & w' & Hrun & Henv & Hsv).
  mstep Hrun. by eauto 10.
Qed.
End Serving.

(** ** Answering calls *)

(** The line a function of the emulated DAC prints. *)
Definition dac_message (f : Z) : string :=
  if f =? fn_fvm_dac_configure then "[FVM] Called fvm_dac_configure()"
  else if f =? fn_fvm_dac_enable_channels then "[FVM] Called fvm_dac_enable_channels()"
  else if f =? fn_fvm_dac_set_channels then "[FVM] Called fvm_dac_set_channels()"
  else if f =? fn_fvm_dac_write then "[FVM] Called fvm_dac_write(channel)"
  else "[FVM] Called fvm_dac_cleanup()".

Section Turn.
Context {E : Type} `{!Sockets E, !Usb E, !Process E}.
Implicit Types w : world E.

Lemma dac_call f args w :
  f ∈ lf_module_dac_table ->
  call_function f args w
  = Ok (lf_success, set_env (sys_write STDOUT_FILENO (ascii (dac_message f) ++ [10]) (w_env w)) w).
Proof.
  unfold lf_module_dac_table. rewrite !elem_of_cons, elem_of_nil.
  by intros [-> | [-> | [-> | [-> | [-> | []]]]]].
Qed.

(** Registries live below the allocation frontier. *)
Lemma device_at_below w p d l ms h' :
  wf_world w -> device_at (w_heap w) p d l ms ->
  (forall a, a < w_next w -> h' !! a = w_heap w !! a) -> device_at h' p d l ms.
Proof.
  intros [_ Hw] [Hd Hl Hm Hn] Hk.
  assert (forall a o, w_heap w !! a = Some o -> h' !! a = w_heap w !! a) as Hk'
    by (intros a o Ha; apply Hk; apply Hw in Ha; lia).
  split; [by rewrite (Hk' _ _ Hd)| | |done].
  - apply (is_ll_frame (w_heap w)); [done|]. intros a Ha.
    destruct (is_ll_lookup _ _ _ _ Hl Ha) as (_ & n & Hat). by apply (Hk' _ _ Hat).
  - apply (modules_at_frame (w_heap w)); [done|]. intros e (i & He)%list_elem_of_lookup.
    destruct (Forall2_lookup_l _ _ _ _ _ Hm He) as (m & _ & Hat). by apply (Hk' _ _ Hat).
Qed.

(** A machine stays able to serve when a handler changed only memory above its
    frontier, the error register and the environment. *)
Lemma serving_after w fvm context d c l ms w1 h' env :
  serving w fvm context d c l ms -> heap_step (w_next w) (dispatching w) w1 ->
  (forall q, is_Some (h' !! q) -> is_Some (w_heap w1 !! q)) ->
  (forall a, a < w_next w -> h' !! a = w_heap w !! a) ->
  serving (set_env env (set_current_packet false (set_heap h' w1))) fvm context d c l ms.
Proof.
  intros [Hw Ho Hda Hnet Hwr Hreg] (h1 & n1 & f1 & -> & Hw1 & Ho1 & _ & _) Hsub Hk.
  assert (device_at h' fvm d l ms) as Hda' by exact (device_at_below w _ _ _ _ _ Hw Hda Hk).
  split; [|exact Ho1|exact Hda'| |done|exact Hreg].
  - by apply (wf_set_heap_sub _ h' Hw1).
  - destruct Hnet as (H1 & H2 & H3 & H4 & H5). split; [done|]. split; [done|].
    split; [apply Hda'|]. split; [done|]. change (h' !! context = Some (ONet c)).
    rewrite Hk; [done|]. apply Hw in H5. lia.
Qed.

(** The argument list lies above the frontier. *)
Lemma rpc_list_above n0 h head cl cargs q :
  rpc_list n0 h head cl cargs -> q ∈ addrs cl \/ q ∈ owned cl -> n0 <= q.
Proof.
  intros [_ _ Hf Had _]. rewrite (owned_all_free cl Hf). rewrite Forall_forall in Had.
  intros [(e & -> & He)%list_elem_of_fmap|(e & -> & He)%list_elem_of_fmap]; apply (Had e He).
Qed.

(** After a datagram arrived: the sender is remembered, the machine can serve. *)
Lemma serving_received w fvm context d c l ms env from :
  serving w fvm context d c l ms ->
  let w0 := set_heap (<[context := ONet (nc_set_addr c from)]> (w_heap w)) (set_env env w) in
  serving w0 fvm context d (nc_set_addr c from) l ms.
Proof.
  intros [Hw Ho Hda Hnet Hwr Hreg] w0. destruct Hnet as (H1 & H2 & H3 & H4 & H5).
  split; [|exact Ho| | |done|exact Hreg].
  - by apply (wf_store (set_env env w) context _ _ H5).
  - apply device_at_other; [done|by eauto].
  - split; [done|]. split; [done|]. split; [|split; [done|apply lookup_insert_eq]].
    cbn. rewrite lookup_insert_ne; [done|]. intros ->. congruence.
Qed.

Lemma fvm_turn_received w fvm context d c l ms pkt from env1 :
  serving w fvm context d c l ms -> length pkt = FMR_PACKET_SIZE ->
  sys_recvfrom (nc_fd c) FMR_PACKET_SIZE (w_env w) = (RcvOk pkt from, env1) ->
  fvm_turn fvm context w
  = (fmr_perform fvm pkt;; mret tt)
      (set_heap (<[context := ONet (nc_set_addr c from)]> (w_heap w)) (set_env env1 w)).
Proof.
  intros [Hw Ho Hda (H1 & H2 & H3 & H4 & H5) Hwr Hreg] Hlen Hrcv. unfold fvm_turn, stack_packet.
  rewrite bind_gets. mstep (load_net_ok w context c H5).
  rewrite (bind_Ok _ _ _ (RcvOk pkt from) (set_env env1 w)) by (unfold env_op; by rewrite Hrcv).
  set (junk := _ <$> seq 0 FMR_PACKET_SIZE).
  assert (length junk = FMR_PACKET_SIZE) as Hj by (unfold junk; by rewrite length_fmap, length_seq).
  rewrite (bind_Ok _ _ _ pkt (set_env env1 w)).
  - mstep (load_net_ok (set_env env1 w) context c H5). by mstep (store_ok (set_env env1 w) context (ONet (nc_set_addr c from)) _ H5).
  - rewrite take_ge by lia. rewrite wr_Some by lia. cbn [lift_opt].
    rewrite drop_ge by lia. by rewrite take_0, app_nil_r.
Qed.

(** A call packet built by the host is answered to its sender. *)
Lemma fvm_turn_call {EH} (wh : world EH) p al args w fvm context d c l ms (mi fi : nat) m f ret pkt from env1 n env2 :
  is_ll (w_heap wh) p al -> args_at (w_heap wh) al args -> Forall wf_arg args ->
  (length args <= FMR_MAX_ARGC)%nat -> (26 + length args + args_size args <= 64)%nat ->
  invoke_packet (Z.of_nat mi) (Z.of_nat fi) ret p wh = Ok (pkt, wh) ->
  serving w fvm context d c l ms -> ms !! mi = Some m -> (mi < 256)%nat -> (fi < 256)%nat ->
  Z.of_nat fi < m_length m -> m_table m !! fi = Some f -> f ∈ lf_module_dac_table ->
  sin_addr from <> 0 -> sin_port from <> 0 ->
  sys_recvfrom (nc_fd c) FMR_PACKET_SIZE (w_env w) = (RcvOk pkt from, env1) ->
  sys_sendto (nc_fd c) (result_bytes lf_success (err_code E_OK)) from
    (sys_write STDOUT_FILENO (ascii (dac_message f) ++ [10]) env1) = (n, env2) -> 0 < n ->
  exists w', fvm_turn fvm context w = Ok (tt, w') /\ w_env w' = env2 /\
    serving w' fvm context d (nc_set_addr c from) l ms.
Proof.
  intros Hl Ha Hwf Hn Hs Hpkt Hsv Hm Hmi Hfi Hlt Hf Hdac Hsa Hsp Hrcv Hsend Hpos.
  pose proof (serving_received w fvm context d c l ms env1 from Hsv) as Hsv0. cbv zeta in Hsv0.
  set (w0 := set_heap _ (set_env env1 w)) in *.
  pose proof Hsv0 as [Hw Ho Hda Hnet Hwr Hreg].
  destruct (Forall2_lookup_r _ _ _ _ _ (da_mods _ _ _ _ _ Hda) Hm) as (e & He & _).
  destruct (call_roundtrip wh p al args w0 fvm d l ms mi fi e m f ret)
    as (pkt' & w1 & head & cl & cargs & Hpkt' & Hst & Hrl & _ & Hrun); try done; [by rewrite Hreg|].
  rewrite Hpkt in Hpkt'. injection Hpkt' as <-.
  assert (length pkt = FMR_PACKET_SIZE) as Hlen.
  { destruct (invoke_packet_ok wh p al args (Z.of_nat mi) (Z.of_nat fi) ret Hl Ha Hwf Hn Hs) as (crc & Hp & _).
    rewrite Hpkt in Hp. injection Hp as ->. apply length_call_packet; [done|]. split; [done|lia]. }
  rewrite (fvm_turn_received w fvm context d c l ms pkt from env1) by done. fold w0.
  set (w2 := set_env (sys_write STDOUT_FILENO (ascii (dac_message f) ++ [10]) (w_env w1)) w1).
  destruct (Hrun lf_success w2 (dac_call f head w1 Hdac) Hrl) as (h' & Hq & Hperf). clear Hrun.
  assert (forall a, a < w_next w0 -> h' !! a = w_heap w0 !! a) as Hk.
  { intros a Hlow. rewrite Hq, decide_False.
    - destruct Hst as (h1 & n1 & f1 & -> & _ & _ & _ & Hsame). by apply Hsame.
    - intros Hin. pose proof (rpc_list_above _ _ _ _ _ _ Hrl Hin). lia. }
  assert (forall q, is_Some (h' !! q) -> is_Some (w_heap w1 !! q)) as Hsub.
  { intros q. rewrite Hq. case_decide; [by intros []|done]. }
  pose proof (serving_after w0 fvm context d _ l ms w1 h' env2 Hsv0 Hst Hsub Hk) as Hsv3.
  set (w3 := set_current_packet false (set_heap h' w2)) in *.
  assert (net_at w3 fvm d context (nc_set_addr c from)) as Hnet3 by exact (sv_net _ _ _ _ _ _ _ Hsv3).
  assert (w_env w1 = env1 /\ w_err w1 = err_code E_OK) as [Henv Herr]
    by (by destruct Hst as (h1 & n1 & f1 & -> & _)).
  destruct (Hperf lf_success (set_env env2 w3)) as (buf & Hp).
  - unfold device_write. mstep (load_device_ok w3 _ _ (proj1 (proj2 (proj2 Hnet3)))).
    rewrite Hwr. cbn [tr_write posix_transport Z.eqb fn_lf_network_write Pos.eqb].
    rewrite (lf_network_write_sent w3 fvm d context _ _ n env2 Hnet3 Hsa Hsp); [by destruct (Z.ltb_spec 0 n); [|lia]|].
    change (w_err w2) with (w_err w1). change (w_env w3) with (sys_write STDOUT_FILENO (ascii (dac_message f) ++ [10]) (w_env w1)).
    rewrite Herr, Henv. exact Hsend.
  - mstep Hp. by exists (set_env env2 w3).
Qed.
End Turn.
