(* ===== verification/FvmProps.v ===== *)
(** * Properties of the virtual machine

    The virtual machine comes up serving its built-in module and answers calls
    to their senders, with an instance on an environment that holds waiting
    datagrams and records what is sent and printed. *)

From S2P Require Import Prelude World Errors Crc Device LinkedList FmrPacket Transport Dyld Fmr Network Libusb Libflipper Scenario Rpc Fvm.
From stdpp Require Import base list gmap sets strings.
From Stdlib Require Import ZArith Lia.
Local Open Scope Z_scope.

(** The virtual machine comes up: started without arguments, with memory
    available and a socket it can bind, [main] reaches its loop with a device
    whose only module is the DAC module at index 0, a context that holds the
    socket, and a built-in handler for every packet class. *)
Theorem fvm_boots {E} `{!Sockets E, !Usb E, !Process E} (w : world E) sd env1 env2 :
  booting w -> sys_socket (w_env w) = (sd, env1) -> sd <> 0 ->
  sys_bind sd (SockAddr INADDR_ANY (htons 0)) env1 = (0, env2) ->
  exists fvm context d l w', fvm_setup [] w = Ok (inr (fvm, context), w') /\ w_env w' = env2 /\
    serving w' fvm context d (nc_set_fd net_zero sd) l [set_idx dac_module 0].
Proof. apply fvm_setup_ok. Qed.

(** No USB; what is printed is recorded in the outbox. *)
#[global] Instance no_usb : Usb wire := {|
  libusb_init env := ((-1, 0), env); libusb_get_device_list _ env := ([], env);
  libusb_get_device_descriptor _ env := ((-1, 0), env); libusb_open _ env := ((-1, 0), env);
  libusb_claim_interface _ _ env := (-1, env); libusb_close _ env := env; libusb_exit _ env := env;
  libusb_free_device_list env := env;
  libusb_bulk_in _ _ _ _ env := ((-1, []), env); libusb_bulk_out _ _ _ _ env := (-1, env) |}.
#[global] Instance fvm_process : Process wire := {|
  sys_write _ bs env := Wire (inbox env) (outbox env ++ [bs]);
  dl_open _ env := (0, env); dl_sym _ _ env := (0, env);
  loaded_function _ _ := ub; loaded_handler _ _ _ _ := ub; plugin_register _ _ := ub |}.

Definition fvm_world (env : wire) : world wire :=
  World 0 (list_to_map [(dac_module_addr, OModule dac_module)]) 4096 [] (fun _ => 0) 0 0 (replicate 6 0) false env.

Lemma fvm_world_booting env : booting (fvm_world env).
Proof.
  split; [by apply wf_world_check; vm_compute|]. split; [constructor|by vm_compute].
Qed.

Lemma fvm_boots_witness :
  exists fvm context d l w', fvm_setup [] (fvm_world (Wire [] [])) = Ok (inr (fvm, context), w') /\
    w_env w' = Wire [] [] /\ serving w' fvm context d (nc_set_fd net_zero 3) l [set_idx dac_module 0].
Proof.
  apply (fvm_boots (fvm_world (Wire [] [])) 3 (Wire [] []) (Wire [] []) (fvm_world_booting _)).
  - reflexivity.
  - discriminate.
  - reflexivity.
Defined.


(** A call of [fvm_dac_write] with the two sample arguments. *)
Definition dac_write_packet : list Z :=
  match invoke_packet 0 3 0 4160 sample_world with Ok (pkt, _) => pkt | _ => [] end.
Definition dac_write_answer : wire :=
  Wire [] [ascii "[FVM] Called fvm_dac_write(channel)" ++ [10]; result_bytes 0 0].


(** C5: No host can look up a module on the virtual machine: when the lookup packet
    of any name that fits arrives at a machine with a module, the turn of its loop
    reads the name from behind the received packet. *)
Theorem lookup_faults_fvm {E} `{!Sockets E, !Usb E, !Process E} (w : world E) fvm context d c l ms name pkt from env1 :
  serving w fvm context d c l ms -> ms <> [] -> is_cstring name -> (length name < LF_MODULE_NAME_MAX)%nat ->
  dyld_packet name = Some pkt ->
  sys_recvfrom (nc_fd c) FMR_PACKET_SIZE (w_env w) = (RcvOk pkt from, env1) ->
  fvm_turn fvm context w = Ub.
Proof.
  intros Hsv Hne Hcs Hlen Hpkt Hrcv. destruct (dyld_packet_ok name Hlen Hcs) as (pkt' & Hp & Hok & Hl & Ht & _).
  rewrite Hpkt in Hp. injection Hp as <-. rewrite (fvm_turn_received w fvm context d c l ms pkt from env1) by done.
  pose proof (serving_received w fvm context d c l ms env1 from Hsv) as [Hw _ Hda _ _ Hreg]. cbv zeta in *.
  set (w0 := set_heap _ _) in *. apply bind_Ub.
  destruct (perform_checked fvm pkt w0 fmr_dyld_class d Hok Ht ltac:(vm_compute; reflexivity) (device_at_nonnull w0 _ _ _ _ Hw Hda)
              (da_dev _ _ _ _ _ Hda)) as (buf0 & Hb & ->).
  assert (d_modules d <> 0) as Hm.
  { intros H0. pose proof (da_ll _ _ _ _ _ Hda) as Hll. rewrite H0 in Hll. apply is_ll_nil_inv in Hll as ->.
    pose proof (modules_at_length _ _ _ (da_mods _ _ _ _ _ Hda)) as Hx. by destruct ms. }
  destruct (Z.eqb_spec (d_modules d) 0); [done|]. rewrite bind_gets.
  assert (w_registry (set_err (err_code E_OK) w0) !! Z.to_nat fmr_dyld_class = Some fn_fmr_dyld) as Hh by (change (w_registry w0 !! Z.to_nat fmr_dyld_class = Some fn_fmr_dyld); by rewrite Hreg).
  rewrite Hh. cbn [default from_option id fn_fmr_dyld Z.eqb]. mnorm. apply bind_Ub.
  apply past_packet_Ub; [by rewrite (wr_length _ _ _ _ Hb)|]. apply (bool_decide_unpack _). vm_compute. exact I.
Qed.

Definition lookup_packet : list Z := default [] (dyld_packet (ascii "dac_module")).
Lemma lookup_faults_fvm_witness :
  exists w fvm context, w_env w = Wire [lookup_packet] [] /\ fvm_turn fvm context w = Ub.
Proof.
  destruct (fvm_setup_ok (fvm_world (Wire [lookup_packet] [])) 3 (Wire [lookup_packet] []) (Wire [lookup_packet] [])
              (fvm_world_booting _)) as (fvm & context & d & l & w & Hrun & Henv & Hsv); [reflexivity|discriminate|reflexivity|].
  exists w, fvm, context. split; [exact Henv|].
  apply (lookup_faults_fvm w fvm context d (nc_set_fd net_zero 3) l [set_idx dac_module 0] (ascii "dac_module") lookup_packet
           peer (Wire [] []) Hsv).
  - discriminate.
  - apply (bool_decide_unpack _). vm_compute. exact I.
  - vm_compute. lia.
  - vm_compute. reflexivity.
  - rewrite Henv. vm_compute. reflexivity.
Defined.
