(* ===== verification/Fdfu.v ===== *)
(** * The firmware updater (utils/fdfu/src/main.c)

    A host program that puts the main processor into its boot loader (SAM-BA),
    uploads an applet by XMODEM and uses it to write the firmware page by page.
    It reaches the processor's UART through the bridge processor: the calls that
    move memory and bytes across the bridge have no definition in the library
    and are an interface, [Bridge]. Log output and delays are not modelled. *)

From S2P Require Import Prelude World Errors Crc Device LinkedList FmrPacket Transport Network Libusb Libflipper.
From stdpp Require Import base list gmap sets strings.
From Stdlib Require Import ZArith Lia.
Local Open Scope Z_scope.

(** The calls across the bridge: a status, and what they store. *)
Class Bridge (E : Type) := {
  lf_malloc : Z -> Z -> E -> Z * option Z * E;
  lf_push : Z -> Z -> list Z -> E -> Z * E;
  lf_pull : Z -> Z -> nat -> E -> Z * list Z * E;
  lf_free : Z -> Z -> E -> Z * E;
  uart0_read : Z -> nat -> E -> Z * E;
  uart0_write : Z -> nat -> E -> Z * E;
  uart0_reset : E -> Z * E;
  uart0_ready : E -> Z * E;
  uart0_get : E -> Z * E;
  uart0_put : Z -> E -> E;
}.

Definition SOH : Z := 0x01.
Definition EOT : Z := 0x04.
Definition ACK : Z := 0x06.
Definition CAN : Z := 0x18.
Definition XLEN : nat := 128.
Definition RETRIES : Z := 4.

Definition applet : list Z :=
  [0x00; 0x00; 0x00; 0x00; 0x00; 0x00; 0x00; 0x00; 0x09; 0x48; 0x0A; 0x49; 0x0B; 0x4A; 0x02; 0xE0;
   0x08; 0xC9; 0x08; 0xC0; 0x01; 0x3A; 0x00; 0x2A; 0xFA; 0xD1; 0x09; 0x48; 0x0A; 0x49; 0x06; 0x4A;
   0x11; 0x43; 0x01; 0x60; 0x70; 0x47; 0x00; 0xBF; 0xAF; 0xF3; 0x00; 0x80; 0xAF; 0xF3; 0x00; 0x80;
   0x00; 0x00; 0x00; 0x00; 0x00; 0x00; 0x00; 0x00; 0x00; 0x00; 0x00; 0x00; 0x80; 0x00; 0x00; 0x00;
   0x04; 0x0A; 0x0E; 0x40; 0x08; 0x0A; 0x0E; 0x40; 0x01; 0x00; 0x00; 0x5A].

(** Memory of the processor (asf/include/sam4s16b.h). *)
Definition IRAM_ADDR : Z := 0x20000000.
Definition IRAM_SIZE : Z := 0x20000.
Definition IFLASH0_ADDR : Z := 0x400000.
Definition IFLASH0_PAGE_SIZE : nat := 512.
Definition EEFC_FCR : Z := 0x400E0A04.
Definition EEFC_FSR : Z := 0x400E0A08.
Definition EEFC_FRR : Z := 0x400E0A0C.
Definition EEFC_FCR_FARG (value : Z) : Z := Z.land (Z.shiftl 0xffff 8) (u32 (Z.shiftl value 8)).
Definition EEFC_FCR_FKEY_PASSWD : Z := Z.shiftl 0x5A 24.
Definition EEFC_FCR_FCMD_SGPB : Z := 0xB.
Definition EEFC_FCR_FCMD_GGPB : Z := 0xD.

Definition _APPLET : Z := IRAM_ADDR + 0x800.
Definition _APPLET_STACK : Z := _APPLET.
Definition _APPLET_ENTRY : Z := _APPLET + 0x04.
Definition _APPLET_DESTINATION : Z := _APPLET + 0x30.
Definition _APPLET_SOURCE : Z := _APPLET_DESTINATION + 0x04.
Definition _APPLET_PAGE : Z := _APPLET_SOURCE + 0x04.
Definition _PAGEBUFFER : Z := _APPLET + Z.of_nat (length applet).

(** [%08X] and [%02X]: upper-case hexadecimal digits. *)
Definition hex_digit (d : Z) : Z := if d <? 10 then 48 + d else 55 + d.
Fixpoint hex (n : nat) (x : Z) : list Z :=
  match n with
  | O => []
  | S n => hex n (Z.shiftr x 4) ++ [hex_digit (Z.land x 0xF)]
  end.

(** [struct _xpacket] with its checksum bytes swapped ([little]). *)
Definition little (x : Z) : Z := u16 (Z.lor (Z.shiftl (u16 x) 8) (Z.shiftr (u16 x) 8)).
Definition xpacket (i : Z) (data : list Z) : list Z :=
  let data := data ++ replicate (XLEN - length data) 0 in
  [SOH; u8 (i + 1); u8 (Z.lnot (i + 1))] ++ data ++ le_bytes 2 (little (calcrc true data)).

Section Fdfu.
Context {E : Type} `{!Bridge E, !Usb E}.
Context (fuel : nat).

(** ** Transfers through the bridge *)

(** [fail:] frees the buffer; when that is not confirmed, [lf_assert] jumps to
    [fail:] again. *)
Fixpoint free_fail (n : nat) (dev ptr : Z) : C E Z :=
  e ← env_op (lf_free dev ptr);
  lf_assert (ctrue e) E_MALLOC (mret lf_error)
    (match n with O => spin | S n => free_fail n dev ptr end).

(** The end of a transfer that got through. *)
Definition free_ok (dev ptr : Z) : C E Z :=
  e ← env_op (lf_free dev ptr);
  lf_assert (ctrue e) E_MALLOC (mret lf_success) (free_fail fuel dev ptr).

(** The buffer on the bridge: [lf_malloc]'s status and the pointer, which keeps
    an arbitrary value when nothing is stored. *)
Definition bridge_buffer (dev : Z) : C E (Z * Z) :=
  junk ← gets w_junk;
  '(e, p) ← env_op (fun env => let '(e, p, env) := lf_malloc dev 128 env in ((e, p), env));
  mret (e, default (junk 0) p).

(** The chunk loops; [false] is the jump to [fail:]. At most [n] turns. *)
Fixpoint write_chunks (n : nat) (dev ptr : Z) (src : list Z) : C E bool :=
  match src, n with
  | [], _ => mret true
  | _, O => spin
  | _, S n =>
    let len := if decide (128 <= length src)%nat then 128%nat else length src in
    e ← env_op (lf_push dev ptr (take len src));
    lf_assert (ctrue e) E_UNIMPLEMENTED
      (e ← env_op (uart0_write ptr len);
       lf_assert (ctrue e) E_UNIMPLEMENTED (write_chunks n dev ptr (drop len src)) (mret false))
      (mret false)
  end.

Definition sam_write (src : list Z) : C E Z :=
  dev ← lf_get_selected;
  '(e, ptr) ← bridge_buffer dev;
  lf_assert (ctrue e) E_MALLOC
    (ok ← write_chunks (length src) dev ptr src;
     if ok : bool then free_ok dev ptr else free_fail fuel dev ptr)
    (free_fail fuel dev ptr).

(** Fills [dst] from offset [from] on. *)
Fixpoint read_chunks (n : nat) (dev ptr : Z) (from : nat) (dst : list Z) : C E (bool * list Z) :=
  if decide (length dst <= from)%nat then mret (true, dst)
  else match n with
       | O => spin
       | S n =>
         let todo := (length dst - from)%nat in
         let len := if decide (128 <= todo)%nat then 128%nat else todo in
         e ← env_op (uart0_read ptr len);
         lf_assert (ctrue e) E_UNIMPLEMENTED
           ('(e, bs) ← env_op (fun env => let '(e, bs, env) := lf_pull dev ptr len env in ((e, bs), env));
            dst ← lift_opt (wr dst from bs);
            lf_assert (ctrue e) E_UNIMPLEMENTED (read_chunks n dev ptr (from + len) dst) (mret (false, dst)))
           (mret (false, dst))
       end.

(** The status and the destination. *)
Definition sam_read (dst : list Z) : C E (Z * list Z) :=
  dev ← lf_get_selected;
  '(e, ptr) ← bridge_buffer dev;
  lf_assert (ctrue e) E_MALLOC
    ('(ok, dst) ← read_chunks (length dst) dev ptr 0 dst;
     e ← (if ok : bool then free_ok dev ptr else free_fail fuel dev ptr);
     mret (e, dst))
    (e ← free_fail fuel dev ptr; mret (e, dst)).

(** ** Boot loader commands *)

Definition sam_ba_jump (address : Z) : C E Z := sam_write ([71] ++ hex 8 address ++ [35]).
Definition sam_ba_write_word (destination word : Z) : C E Z :=
  sam_write ([87] ++ hex 8 destination ++ [44] ++ hex 8 word ++ [35]).

(** [while (!uart0_ready() && retries++ < 8) ;] *)
Fixpoint ready_wait (todo : nat) : C E unit :=
  r ← env_op uart0_ready;
  if ctrue r then mret tt else match todo with O => mret tt | S n => ready_wait n end.

Definition getbyte : C E Z := ready_wait 8;; env_op uart0_get.

Definition sam_ba_read_byte (source : Z) : C E Z :=
  sam_write ([111] ++ hex 8 source ++ [44; 35]);; getbyte.

(** 19 bytes of the buffer are sent, of which the text fills 14 with its
    terminator. *)
Definition sam_ba_write_byte (destination byte : Z) : C E Z :=
  junk ← gets w_junk;
  sam_write ([79] ++ hex 8 destination ++ [44] ++ hex 2 byte ++ [35; 0]
             ++ [u8 (junk 14); u8 (junk 15); u8 (junk 16); u8 (junk 17); u8 (junk 18)]).

Definition sam_ba_read_word (source : Z) : C E Z :=
  sam_write ([119] ++ hex 8 source ++ [44; 35]);;
  ready_wait 8;;
  '(_, result) ← sam_read [0; 0; 0; 0];
  mret (le_val result).

Definition sam_ba_write_efc_fcr (command arg : Z) : C E Z :=
  sam_ba_write_word EEFC_FCR (Z.lor EEFC_FCR_FKEY_PASSWD (Z.lor (EEFC_FCR_FARG arg) command)).

(** ** XMODEM upload *)

(** The do-while loop that requests the transfer: [None] is the jump to
    [fail:], else the value of [tries]. *)
Fixpoint cts_loop (todo : nat) (tries : Z) (ack : list Z) (command : list Z) : C E (option Z) :=
  e ← env_op uart0_reset;
  lf_assert (ctrue e) E_UNIMPLEMENTED
    (sam_write command;;
     '(_, ack) ← sam_read ack;
     if bool_decide (ack = [67]) then mret (Some tries)
     else match todo with
          | O => mret (Some (tries + 1))
          | S todo => cts_loop todo (tries + 1) ack command
          end)
    (mret None).

(** The packets from the [i]-th on; [length] bytes are left. *)
Fixpoint packets_loop (n : nat) (i : nat) (src : list Z) (length : nat) : C E Z :=
  if decide (length = 0)%nat then
    env_op (fun env => (tt, uart0_put EOT env));;
    c ← getbyte;
    lf_assert (c =? ACK) E_UNIMPLEMENTED (mret lf_success) (mret lf_error)
  else match n with
       | O => spin
       | S n =>
         let len := if decide (XLEN < length)%nat then XLEN else length in
         data ← lift_opt (rd src (i * XLEN) len);
         sam_write (xpacket (Z.of_nat i) data);;
         c ← getbyte;
         if c =? CAN then _lf_assert (err_code E_TIMEOUT);; mret lf_error
         else
           lf_assert (c =? ACK) E_UNIMPLEMENTED (packets_loop n (S i) src (length - len)) (mret lf_error)
       end.

(** Copies [src] to [destination] in the processor's memory. *)
Definition sam_ba_copy (destination : Z) (src : list Z) : C E Z :=
  junk ← gets w_junk;
  let len := Z.of_nat (length src) in
  r ← cts_loop 4 0 [u8 (junk 0)] ([83] ++ hex 8 destination ++ [44] ++ hex 8 len ++ [35]);
  match r with
  | None => mret lf_error
  | Some tries =>
    lf_assert (tries <? 4) E_UNIMPLEMENTED
      (packets_loop (length src) 0 src (length src))
      (mret lf_error)
  end.

(** ** Firmware image *)

Definition lf_ceiling (x y : nat) : nat := ((x + y - 1) / y)%nat.

(** [n] calls of [fgetc]: past the end of the file the page is filled with 0. *)
Fixpoint page_bytes (n : nat) (firmware : list Z) : list Z :=
  match n with
  | O => []
  | S n => match firmware with [] => 0 :: page_bytes n [] | c :: f => c :: page_bytes n f end
  end.
Definition load_page_data (firmware : list Z) (size : nat) : list Z :=
  page_bytes (lf_ceiling size IFLASH0_PAGE_SIZE * IFLASH0_PAGE_SIZE) firmware.

(** ** Entering the boot loader *)

(** lib/carbon/carbon.c. *)
Definition sam_reset : C E unit := mret tt.
Definition sam_enter_dfu : C E Z := mret lf_error.
Definition sam_exit_dfu : C E Z := mret lf_error.

(** [memcmp] of three bytes against an array of two: when the two agree, the
    third is read past the array. *)
Definition cmp_crlf (ack : list Z) : C E bool :=
  if bool_decide (take 2 ack = [10; 13]) then ub else mret false.

Fixpoint normal_loop (todo : nat) (tries : Z) (ack : list Z) : C E Z :=
  e ← env_op uart0_reset;
  lf_assert (ctrue e) E_UNIMPLEMENTED
    (sam_write [78; 35];;
     '(_, ack) ← sam_read ack;
     same ← cmp_crlf ack;
     if same : bool then mret lf_success
     else
       (if tries =? 0 then sam_enter_dfu;; mret tt else mret tt);;
       match todo with
       | O => sam_write [78; 35];; mret lf_error
       | S todo => normal_loop todo (tries + 1) ack
       end)
    (mret lf_error).

Definition enter_normal_mode : C E Z :=
  junk ← gets w_junk; normal_loop 4 0 [u8 (junk 0); u8 (junk 1); u8 (junk 2)].

(** ** main *)

Definition EXIT_SUCCESS : Z := 0.
Definition EXIT_FAILURE : Z := 1.

(** [while (!((fsr = read(FSR)) & 1) && retries++ < 4)] *)
Fixpoint flash_wait (todo : nat) : C E unit :=
  fsr ← sam_ba_read_byte EEFC_FSR;
  if ctrue (Z.land fsr 1) then mret tt else match todo with O => mret tt | S n => flash_wait n end.

(** Sends the pages from [page] on; [false] is the jump to [fail:]. *)
Fixpoint pages_loop (todo page : nat) (pagedata : list Z) : C E bool :=
  match todo with
  | O => mret true
  | S todo =>
    data ← lift_opt (rd pagedata (page * IFLASH0_PAGE_SIZE) IFLASH0_PAGE_SIZE);
    e ← sam_ba_copy _PAGEBUFFER data;
    lf_assert (ctrue e) E_UNIMPLEMENTED
      (sam_ba_write_word _APPLET_PAGE (EEFC_FCR_FARG (Z.of_nat page));;
       sam_ba_jump _APPLET;;
       flash_wait 4;;
       pages_loop todo (S page) pagedata)
      (mret false)
  end.

(** Selects booting from flash and looks at the bit once. *)
Definition set_gpnvm : C E unit :=
  sam_ba_write_efc_fcr EEFC_FCR_FCMD_SGPB 0x01;;
  sam_ba_write_efc_fcr EEFC_FCR_FCMD_GGPB 0;;
  b ← sam_ba_read_byte EEFC_FRR;
  if ctrue (Z.land b (bit 1)) then mret tt
  else sam_ba_write_efc_fcr EEFC_FCR_FCMD_SGPB 0x01;; sam_ba_write_efc_fcr EEFC_FCR_FCMD_GGPB 0;; mret tt.

(** The verification loop: the number of words in error. A word that differs is
    retried by going on to the next one. *)
Fixpoint verify_loop (todo i : nat) (retries errors : Z) (pagedata : list Z) : C E Z :=
  match todo with
  | O => mret errors
  | S todo =>
    word ← sam_ba_read_word (IFLASH0_ADDR + Z.of_nat i * 4);
    _word ← lift_opt (rd_le pagedata (i * 4) 4);
    if negb (u16 word =? u16 _word) && (retries <? RETRIES) then
      verify_loop todo (S i) (retries + 1) (if retries =? 0 then errors + 1 else errors) pagedata
    else verify_loop todo (S i) 0 errors pagedata
  end.

(** The steps after the image has been opened; [false] is the jump to [fail:].
    The page buffer is a local list: a failed allocation would be written to. *)
Definition update (firmware : list Z) (verify : bool) : C E bool :=
  let size := length firmware in
  sam_reset;;
  e ← enter_normal_mode;
  lf_assert (ctrue e) E_UNIMPLEMENTED
    (sam_ba_write_efc_fcr EEFC_FCR_FCMD_GGPB 0;;
     frr ← sam_ba_read_word EEFC_FRR;
     lf_assert (Z.land frr 1 =? 0) E_UNIMPLEMENTED
       (e ← sam_ba_copy _APPLET applet;
        lf_assert (ctrue e) E_UNIMPLEMENTED
          (sam_ba_write_word _APPLET_STACK (IRAM_ADDR + IRAM_SIZE);;
           sam_ba_write_word _APPLET_ENTRY (_APPLET + 0x09);;
           sam_ba_write_word _APPLET_DESTINATION IFLASH0_ADDR;;
           sam_ba_write_word _APPLET_SOURCE _PAGEBUFFER;;
           let pagedata := load_page_data firmware size in
           ok ← pages_loop (lf_ceiling size IFLASH0_PAGE_SIZE) 0 pagedata;
           if ok : bool then
             set_gpnvm;;
             (if verify then verify_loop (lf_ceiling size 4) 0 0 0 pagedata;; mret tt else mret tt);;
             sam_exit_dfu;;
             sam_reset;;
             mret true
           else mret false)
          (mret false))
       (mret false))
    (mret false).

(** [main] with its arguments and what [fopen] finds under a name. *)
Definition fdfu_main (argv : list (list Z)) (fopen : list Z -> option (list Z)) : C E Z :=
  match argv with
  | [] => mret EXIT_FAILURE
  | path :: rest =>
    e ← lf_attach;
    lf_assert (ctrue e) E_NO_DEVICE
      (match fopen path with
       | None => _lf_assert (err_code E_UNIMPLEMENTED);; mret EXIT_FAILURE
       | Some firmware =>
         ok ← update firmware (bool_decide (head rest = Some [118; 101; 114; 105; 102; 121]));
         mret (if ok : bool then EXIT_SUCCESS else EXIT_FAILURE)
       end)
      (mret EXIT_FAILURE)
  end.
End Fdfu.

(** ** A bridge that works *)

(** What the updater relies on: the calls report success with a value that is
    not 0, a pushed buffer is what a write sends, a read takes the peer's bytes
    and a pull returns them. [sent] is what went out of the bridge's UART,
    [replies] what the peer still answers. *)
Class BridgeOk (E : Type) `{!Bridge E} := {
  sent : E -> list Z;
  replies : E -> list Z;
  holds : E -> Z -> list Z -> Prop;
  bo_malloc dev n e : exists st p e', lf_malloc dev n e = (st, Some p, e') /\ st <> 0 /\
    sent e' = sent e /\ replies e' = replies e;
  bo_free dev p e : exists st e', lf_free dev p e = (st, e') /\ st <> 0 /\
    sent e' = sent e /\ replies e' = replies e;
  bo_push dev p bs e : exists st e', lf_push dev p bs e = (st, e') /\ st <> 0 /\
    sent e' = sent e /\ replies e' = replies e /\ holds e' p bs;
  bo_write p bs e : holds e p bs -> exists st e', uart0_write p (length bs) e = (st, e') /\ st <> 0 /\
    sent e' = sent e ++ bs /\ replies e' = replies e;
  bo_read p bs rest e : replies e = bs ++ rest -> exists st e', uart0_read p (length bs) e = (st, e') /\ st <> 0 /\
    sent e' = sent e /\ replies e' = rest /\ holds e' p bs;
  bo_pull dev p bs e : holds e p bs -> exists st e', lf_pull dev p (length bs) e = (st, bs, e') /\ st <> 0 /\
    sent e' = sent e /\ replies e' = replies e;
  bo_reset e : exists st e', uart0_reset e = (st, e') /\ st <> 0 /\ sent e' = sent e /\ replies e' = replies e;
  bo_ready e : exists r e', uart0_ready e = (r, e') /\ sent e' = sent e /\ replies e' = replies e;
  bo_get c rest e : replies e = c :: rest -> exists e', uart0_get e = (c, e') /\ sent e' = sent e /\ replies e' = rest;
  bo_put b e : sent (uart0_put b e) = sent e ++ [b] /\ replies (uart0_put b e) = replies e;
}.

Section Upload.
Context {E : Type} `{!Bridge E, !Usb E, !BridgeOk E}.
Context (fuel : nat).
Implicit Types w : world E.

(** From [w] to [w'] only the environment changed: [out] was sent and [inn]
    was received. *)
Definition exchanged (out inn : list Z) w w' : Prop :=
  exists e', w' = set_env e' w /\ sent e' = sent (w_env w) ++ out /\ replies (w_env w) = inn ++ replies e'.

Lemma exchanged_refl w : exchanged [] [] w w.
Proof. exists (w_env w). split; [by destruct w|]. by rewrite app_nil_r. Qed.

Lemma exchanged_trans o1 i1 o2 i2 w1 w2 w3 :
  exchanged o1 i1 w1 w2 -> exchanged o2 i2 w2 w3 -> exchanged (o1 ++ o2) (i1 ++ i2) w1 w3.
Proof.
  intros (e1 & -> & Hs1 & Hr1) (e2 & -> & Hs2 & Hr2). exists e2. split; [done|]. cbn [w_env set_env] in *.
  rewrite Hs2, Hs1, Hr1, Hr2. by rewrite <- !app_assoc.
Qed.

Lemma exchanged_quiet w1 w2 w3 o i : exchanged [] [] w1 w2 -> exchanged o i w2 w3 -> exchanged o i w1 w3.
Proof. apply (exchanged_trans [] []). Qed.

Lemma exchanged_replies o i rest w w' : exchanged o i w w' -> replies (w_env w) = i ++ rest -> replies (w_env w') = rest.
Proof. intros (e & -> & _ & H) H'. cbn. rewrite H in H'. by apply app_inv_head in H'. Qed.

Lemma env_op_step {A} (f : E -> A * E) w a e' out inn :
  f (w_env w) = (a, e') -> sent e' = sent (w_env w) ++ out -> replies (w_env w) = inn ++ replies e' ->
  env_op f w = Ok (a, set_env e' w) /\ exchanged out inn w (set_env e' w).
Proof. intros H1 H2 H3. split; [unfold env_op; by rewrite H1|by exists e']. Qed.

Lemma env_op_quiet {A} (f : E -> A * E) w a e' :
  f (w_env w) = (a, e') -> sent e' = sent (w_env w) -> replies e' = replies (w_env w) ->
  env_op f w = Ok (a, set_env e' w) /\ exchanged [] [] w (set_env e' w).
Proof. intros H1 H2 H3. apply env_op_step; [done|by rewrite app_nil_r|done]. Qed.

Lemma bridge_buffer_ok dev w :
  exists st p w', bridge_buffer dev w = Ok ((st, p), w') /\ ctrue st = true /\ exchanged [] [] w w'.
Proof.
  destruct (bo_malloc dev 128 (w_env w)) as (st & p & e' & Hm & Hst & Hs & Hr).
  destruct (env_op_quiet (fun env => let '(e, p, env) := lf_malloc dev 128 env in ((e, p), env)) w (st, Some p) e')
    as [H Hx]; [by rewrite Hm|done|done|].
  exists st, p, (set_env e' w). unfold bridge_buffer. mnorm. mstep H. split; [done|]. split; [by apply ctrue_nonzero|done].
Qed.

Lemma free_ok_ok dev p w : exists w', free_ok fuel dev p w = Ok (lf_success, w') /\ exchanged [] [] w w'.
Proof.
  destruct (bo_free dev p (w_env w)) as (st & e' & Hf & Hst & Hs & Hr).
  destruct (env_op_quiet (lf_free dev p) w st e' Hf Hs Hr) as [H Hx]. exists (set_env e' w).
  unfold free_ok. mstep H. unfold lf_assert. by rewrite ctrue_nonzero.
Qed.

Lemma write_chunks_ok n dev p src w :
  (length src <= n)%nat -> exists w', write_chunks n dev p src w = Ok (true, w') /\ exchanged src [] w w'.
Proof.
  revert src w. induction n as [|n IH]; intros src w Hn.
  - destruct src; [|cbn in Hn; lia]. exists w. split; [done|apply exchanged_refl].
  - destruct src as [|b src]; [exists w; split; [done|apply exchanged_refl]|]. cbn [write_chunks].
    set (all := b :: src) in *. set (len := if decide _ then _ else _).
    assert (0 < len <= length all)%nat as Hlen by (unfold len, all; case_decide; cbn in *; lia).
    destruct (bo_push dev p (take len all) (w_env w)) as (st & e1 & H1 & Hst & Hs1 & Hr1 & Hh).
    destruct (env_op_quiet _ w st e1 H1 Hs1 Hr1) as [Hrun1 Hx1]. mstep Hrun1.
    unfold lf_assert at 1. rewrite ctrue_nonzero by done.
    destruct (bo_write p (take len all) e1 Hh) as (st2 & e2 & H2 & Hst2 & Hs2 & Hr2).
    rewrite length_take, Nat.min_l in H2 by lia.
    destruct (env_op_step (uart0_write p len) (set_env e1 w) st2 e2 (take len all) [] H2 Hs2 (eq_sym Hr2)) as [Hrun2 Hx2].
    mstep Hrun2. unfold lf_assert. rewrite ctrue_nonzero by done.
    destruct (IH (drop len all) (set_env e2 (set_env e1 w))) as (w' & Hw' & Hx3); [rewrite length_drop; lia|].
    exists w'. split; [done|]. eapply exchanged_quiet; [exact Hx1|].
    pose proof (exchanged_trans _ _ _ _ _ _ _ Hx2 Hx3) as Hx. by rewrite take_drop in Hx.
Qed.

Lemma sam_write_ok src w : exists w', sam_write fuel src w = Ok (lf_success, w') /\ exchanged src [] w w'.
Proof.
  unfold sam_write, lf_get_selected, lf_get_current_device. mnorm.
  destruct (bridge_buffer_ok (w_current w) w) as (st & p & w1 & H1 & Hst & Hx1). mstep H1. unfold lf_assert. rewrite Hst.
  destruct (write_chunks_ok (length src) (w_current w) p src w1) as (w2 & H2 & Hx2); [done|]. mstep H2.
  destruct (free_ok_ok (w_current w) p w2) as (w3 & H3 & Hx3). exists w3. split; [done|].
  eapply exchanged_quiet; [exact Hx1|]. rewrite <- (app_nil_r src). by apply (exchanged_trans src [] [] [] _ w2).
Qed.

(** A read of up to 128 bytes. *)
Lemma sam_read_ok dst bs rest w :
  replies (w_env w) = bs ++ rest -> length bs = length dst -> (0 < length dst <= 128)%nat ->
  exists w', sam_read fuel dst w = Ok ((lf_success, bs), w') /\ exchanged [] bs w w'.
Proof.
  intros Hr Hl Hd. unfold sam_read, lf_get_selected, lf_get_current_device. mnorm.
  destruct (bridge_buffer_ok (w_current w) w) as (st & p & w1 & H1 & Hst & Hx1). mstep H1. unfold lf_assert at 1. rewrite Hst.
  pose proof (exchanged_replies [] [] (bs ++ rest) w w1 Hx1 Hr) as Hr1.
  destruct (length dst) as [|n] eqn:Hn; [lia|]. cbn [read_chunks]. rewrite decide_False by lia. rewrite Hn, Nat.sub_0_r.
  assert ((if decide (128 <= S n)%nat then 128%nat else S n) = length bs) as -> by (case_decide; lia).
  destruct (bo_read p bs rest (w_env w1) Hr1) as (st2 & e2 & H2 & Hst2 & Hs2 & Hr2 & Hh2).
  destruct (env_op_step (uart0_read p (length bs)) w1 st2 e2 [] bs H2) as [Hrun2 Hx2]; [by rewrite app_nil_r|by rewrite Hr2|].
  rewrite bind_assoc. mstep Hrun2. unfold lf_assert at 1. rewrite ctrue_nonzero by done.
  destruct (bo_pull (w_current w) p bs e2 Hh2) as (st3 & e3 & H3 & Hst3 & Hs3 & Hr3).
  destruct (env_op_quiet (fun env => let '(e, bs, env) := lf_pull (w_current w) p (length bs) env in ((e, bs), env))
              (set_env e2 w1) (st3, bs) e3) as [Hrun3 Hx3]; [cbn; by rewrite H3|done|done|].
  rewrite bind_assoc. mstep Hrun3. rewrite wr_Some by lia. cbn [lift_opt]. rewrite bind_assoc, bind_ret_l.
  rewrite take_0, drop_ge, app_nil_r, app_nil_l by lia. unfold lf_assert at 1. rewrite ctrue_nonzero by done.
  set (w3 := set_env e3 _) in *.
  rewrite (bind_Ok _ _ w3 (true, bs) w3).
  2: { destruct n; cbn [read_chunks]; by rewrite decide_True by lia. }
  destruct (free_ok_ok (w_current w) p w3) as (w4 & H4 & Hx4). mstep H4. exists w4. split; [done|].
  eapply exchanged_quiet; [exact Hx1|]. rewrite <- (app_nil_r bs).
  apply (exchanged_trans [] bs [] [] _ _ _ Hx2). by eapply exchanged_quiet.
Qed.

Lemma ready_wait_ok n w : exists w', ready_wait n w = Ok (tt, w') /\ exchanged [] [] w w'.
Proof.
  revert w. induction n as [|n IH]; intros w; cbn [ready_wait];
    destruct (bo_ready (w_env w)) as (r & e1 & H1 & Hs1 & Hr1);
    destruct (env_op_quiet _ w r e1 H1 Hs1 Hr1) as [Hrun Hx]; mstep Hrun; destruct (ctrue r); try (by eexists).
  destruct (IH (set_env e1 w)) as (w' & H' & Hx'). exists w'. split; [done|]. by eapply exchanged_quiet.
Qed.

Lemma getbyte_ok c rest w :
  replies (w_env w) = c :: rest -> exists w', getbyte w = Ok (c, w') /\ exchanged [] [c] w w'.
Proof.
  intros Hr. destruct (ready_wait_ok 8 w) as (w1 & H1 & Hx1). unfold getbyte. mstep H1.
  pose proof (exchanged_replies [] [] (c :: rest) w w1 Hx1 Hr) as Hr1.
  destruct (bo_get c rest (w_env w1) Hr1) as (e2 & H2 & Hs2 & Hr2).
  destruct (env_op_step uart0_get w1 c e2 [] [c] H2) as [Hrun Hx]; [by rewrite app_nil_r|by rewrite Hr1, Hr2|].
  exists (set_env e2 w1). split; [done|]. by eapply exchanged_quiet.
Qed.
End Upload.

Section Xmodem.
Context {E : Type} `{!Bridge E, !Usb E, !BridgeOk E}.
Context (fuel : nat).
Implicit Types w : world E.

(** The data of a transfer in packets: non-empty pieces of at most [XLEN] bytes
    of which only the last may be shorter. *)
Definition chunked (chunks : list (list Z)) (src : list Z) : Prop :=
  mjoin chunks = src /\ Forall (fun c => 0 < length c <= XLEN)%nat chunks /\
  forall j c, chunks !! j = Some c -> (S j < length chunks)%nat -> length c = XLEN.

Lemma chunked_cons c cs src :
  (0 < length c <= XLEN)%nat -> (cs <> [] -> length c = XLEN) -> chunked cs src -> chunked (c :: cs) (c ++ src).
Proof.
  intros Hc Hf (<- & Hl & Hs). split; [done|]. split; [by constructor|].
  intros [|j] c' Hj' Hlt; [injection Hj' as <-; apply Hf; intros ->; cbn in Hlt; lia|].
  eapply Hs; [exact Hj'|cbn in Hlt; lia].
Qed.

(** The end of transmission. *)
Lemma eot_ok rest w :
  replies (w_env w) = ACK :: rest ->
  exists w', (env_op (fun env => (tt, uart0_put EOT env));;
              c ← getbyte;
              lf_assert (c =? ACK) E_UNIMPLEMENTED (mret lf_success) (mret lf_error)) w = Ok (lf_success, w') /\
    exchanged [EOT] [ACK] w w'.
Proof.
  intros Hr. destruct (bo_put EOT (w_env w)) as [Hs1 Hr1].
  destruct (env_op_step (fun env => (tt, uart0_put EOT env)) w tt _ [EOT] [] eq_refl Hs1 (eq_sym Hr1)) as [H1 Hx1]. mstep H1.
  destruct (getbyte_ok ACK rest (set_env (uart0_put EOT (w_env w)) w)) as (w' & H2 & Hx2); [by cbn; rewrite Hr1|].
  mstep H2. exists w'. split; [done|]. by apply (exchanged_trans [EOT] [] [] [ACK] _ _ _ Hx1).
Qed.

(** One packet that is acknowledged. *)
Lemma packet_ok_step {A} i data rest (k : C E A) (fail : C E A) w :
  replies (w_env w) = ACK :: rest ->
  exists w', (sam_write fuel (xpacket i data);;
              c ← getbyte;
              if c =? CAN then _lf_assert (err_code E_TIMEOUT);; fail
              else lf_assert (c =? ACK) E_UNIMPLEMENTED k fail) w = k w' /\
    exchanged (xpacket i data) [ACK] w w' /\ replies (w_env w') = rest.
Proof.
  intros Hr. destruct (sam_write_ok fuel (xpacket i data) w) as (w1 & H1 & Hx1). mstep H1.
  destruct (getbyte_ok ACK rest w1) as (w2 & H2 & Hx2); [by apply (exchanged_replies _ _ _ _ _ Hx1)|]. mstep H2.
  exists w2. split; [done|].
  assert (exchanged (xpacket i data) [ACK] w w2) as Hx.
  { rewrite <- (app_nil_r (xpacket i data)). by apply (exchanged_trans _ [] [] [ACK] _ w1). }
  split; [done|]. by apply (exchanged_replies _ _ _ _ _ Hx).
Qed.

Lemma packets_loop_ok n i src len :
  (len <= n)%nat -> len = (length src - i * XLEN)%nat ->
  exists chunks, chunked chunks (drop (i * XLEN) src) /\
    forall w rest, replies (w_env w) = replicate (S (length chunks)) ACK ++ rest ->
      exists w', packets_loop fuel n i src len w = Ok (lf_success, w') /\
        exchanged (mjoin (imap (fun j c => xpacket (Z.of_nat (i + j)) c) chunks) ++ [EOT])
          (replicate (S (length chunks)) ACK) w w'.
Proof.
  revert i len. induction n as [|n IH]; intros i len Hn Hlen.
  - exists []. split; [split; [by rewrite drop_ge by lia|by split]|]. intros w rest Hr.
    cbn [packets_loop]. rewrite decide_True by lia. by apply (eot_ok rest).
  - destruct (decide (len = 0)%nat) as [H0|H0].
    { exists []. split; [split; [by rewrite drop_ge by lia|by split]|]. intros w rest Hr.
      cbn [packets_loop]. rewrite decide_True by lia. by apply (eot_ok rest). }
    set (l := if decide (XLEN < len)%nat then XLEN else len).
    assert ((XLEN < len /\ l = XLEN) \/ (len <= XLEN /\ l = len))%nat as Hl by (unfold l; case_decide; [by left|right; lia]).
    assert (0 < l <= XLEN /\ l <= len)%nat as [Hl1 Hl2] by (unfold XLEN in *; lia).
    destruct (IH (S i) (len - l)%nat) as (cs & Hcs & Hrun); [lia|unfold XLEN in *; lia|].
    set (c := take l (drop (i * XLEN) src)).
    assert (length c = l) as Hc by (unfold c; rewrite length_take, length_drop; lia).
    assert (drop (i * XLEN) src = c ++ drop (S i * XLEN) src) as Hsplit.
    { unfold c. rewrite <- (take_drop l (drop (i * XLEN) src)) at 1. f_equal. rewrite drop_drop.
      destruct Hl as [[_ ->]|[Hd ->]]; [f_equal; lia|]. by rewrite !drop_ge by (unfold XLEN in *; lia). }
    exists (c :: cs). split.
    { rewrite Hsplit. apply chunked_cons; [by rewrite Hc|..|done]. intros Hne. rewrite Hc.
      destruct Hl as [[_ ->]|[Hd _]]; [done|]. destruct Hcs as (Hj & Hf & _).
      rewrite drop_ge in Hj by (unfold XLEN in *; lia). destruct cs as [|c' cs]; [done|].
      apply Forall_cons in Hf as [Hc' _]. cbn in Hj. apply app_eq_nil in Hj as [-> _]. cbn in Hc'. lia. }
    intros w rest Hr. cbn [packets_loop]. rewrite decide_False by done. fold l.
    assert (rd src (i * XLEN) l = Some c) as Hrd by (unfold rd; rewrite decide_True; [done|lia]).
    rewrite (bind_lift_opt _ _ _ _ Hrd).
    destruct (packet_ok_step (Z.of_nat i) c (replicate (S (length cs)) ACK ++ rest) (packets_loop fuel n (S i) src (len - l))
                (mret lf_error) w Hr) as (w1 & -> & Hx1 & Hr1).
    destruct (Hrun w1 rest Hr1) as (w2 & H2 & Hx2). exists w2. split; [done|].
    pose proof (exchanged_trans _ _ _ _ _ _ _ Hx1 Hx2) as Hx.
    cbn [imap mjoin list_join]. rewrite Nat.add_0_r, <- app_assoc.
    rewrite (imap_ext (fun j c0 => xpacket (Z.of_nat (i + S j)) c0) (fun j c0 => xpacket (Z.of_nat (S i + j)) c0)); [exact Hx|].
    intros j x _. f_equal. lia.
Qed.

(** The transfer is granted at the first request. *)
Lemma cts_loop_ok n tries a command rest w :
  replies (w_env w) = 67 :: rest ->
  exists w', cts_loop fuel n tries [a] command w = Ok (Some tries, w') /\ exchanged command [67] w w'.
Proof.
  intros Hr. destruct (bo_reset (w_env w)) as (st & e1 & H1 & Hst & Hs1 & Hr1).
  destruct (env_op_quiet uart0_reset w st e1 H1 Hs1 Hr1) as [Hrun1 Hx1].
  destruct (sam_write_ok fuel command (set_env e1 w)) as (w2 & H2 & Hx2).
  assert (replies (w_env w2) = [67] ++ rest) as Hr2
    by (apply (exchanged_replies _ _ _ _ _ Hx2); cbn; by rewrite Hr1).
  destruct (sam_read_ok fuel [a] [67] rest w2 Hr2) as (w3 & H3 & Hx3); [done|cbn; lia|].
  exists w3. split.
  - destruct n; cbn [cts_loop]; mstep Hrun1; unfold lf_assert; rewrite ctrue_nonzero by done; mstep H2; by mstep H3.
  - eapply exchanged_quiet; [exact Hx1|]. rewrite <- (app_nil_r command). by apply (exchanged_trans command [] [] [67] _ w2).
Qed.

(** The request the updater sends before the packets. *)
Definition copy_command (destination : Z) (src : list Z) : list Z :=
  [83] ++ hex 8 destination ++ [44] ++ hex 8 (Z.of_nat (length src)) ++ [35].

Lemma sam_ba_copy_ok destination src :
  exists chunks, chunked chunks src /\
    forall w rest, replies (w_env w) = [67] ++ replicate (S (length chunks)) ACK ++ rest ->
      exists w', sam_ba_copy fuel destination src w = Ok (lf_success, w') /\
        exchanged (copy_command destination src ++ mjoin (imap (fun j c => xpacket (Z.of_nat j) c) chunks) ++ [EOT])
          ([67] ++ replicate (S (length chunks)) ACK) w w'.
Proof.
  destruct (packets_loop_ok (length src) 0 src (length src)) as (chunks & Hc & Hrun); [done|lia|].
  exists chunks. split; [done|]. intros w rest Hr. unfold sam_ba_copy. mnorm.
  destruct (cts_loop_ok 4 0 (u8 (w_junk w 0)) (copy_command destination src) (replicate (S (length chunks)) ACK ++ rest) w Hr)
    as (w1 & H1 & Hx1). mstep H1. unfold lf_assert. change (0 <? 4) with true. cbv iota.
  destruct (Hrun w1 rest) as (w2 & H2 & Hx2); [by apply (exchanged_replies _ _ _ _ _ Hx1)|].
  exists w2. split; [done|]. by apply (exchanged_trans _ [67] _ _ _ w1).
Qed.
End Xmodem.

(** ** The library's convention *)

Section Convention.
Context {E : Type} `{!Bridge E, !Usb E}.
Context (fuel : nat).
Implicit Types w : world E.

Lemma free_fail_spins n dev p w :
  (forall dev p e, fst (lf_free dev p e) = lf_success) -> free_fail n dev p w = Spin.
Proof.
  intros H. revert w. induction n as [|n IH]; intros w; cbn [free_fail];
    destruct (lf_free dev p (w_env w)) as [st e'] eqn:Hf; pose proof (H dev p (w_env w)) as Hst; rewrite Hf in Hst;
    cbn in Hst; subst st; rewrite (bind_Ok _ _ _ lf_success (set_env e' w)) by (unfold env_op; by rewrite Hf);
    [done|apply IH].
Qed.

Lemma write_chunks_total n dev p src w :
  (length src <= n)%nat -> exists b w', write_chunks n dev p src w = Ok (b, w').
Proof.
  revert src w. induction n as [|n IH]; intros src w Hn; (destruct src as [|b src]; [by eexists _, _|]); [cbn in Hn; lia|].
  cbn [write_chunks]. set (len := if decide _ then _ else _).
  assert (0 < len)%nat as Hl by (unfold len; case_decide; cbn; lia).
  destruct (lf_push dev p (take len (b :: src)) (w_env w)) as [st e1] eqn:H1.
  rewrite (bind_Ok _ _ _ st (set_env e1 w)) by (unfold env_op; by rewrite H1).
  unfold lf_assert. destruct (ctrue st); [|by eexists _, _].
  destruct (uart0_write p len e1) as [st2 e2] eqn:H2.
  rewrite (bind_Ok _ _ _ st2 (set_env e2 (set_env e1 w))) by (unfold env_op; cbn; by rewrite H2).
  destruct (ctrue st2); [|by eexists _, _]. apply IH. rewrite length_drop. cbn in *. lia.
Qed.

(** Calls that report success as the library does make every transfer hang: the
    updater takes the 0 for a failure and frees the buffer over and over. *)
Lemma sam_write_spins src w :
  (forall dev p e, fst (lf_free dev p e) = lf_success) -> sam_write fuel src w = Spin.
Proof.
  intros H. unfold sam_write, lf_get_selected, lf_get_current_device. mnorm. unfold bridge_buffer. mnorm.
  destruct (lf_malloc (w_current w) 128 (w_env w)) as [[st p] e1] eqn:Hm.
  rewrite (bind_Ok _ _ _ (st, p) (set_env e1 w)) by (unfold env_op; by rewrite Hm). mnorm.
  unfold lf_assert at 1. destruct (ctrue st).
  - destruct (write_chunks_total (length src) (w_current w) (default (w_junk w 0) p) src (set_env e1 w)) as (b & w2 & H2); [done|].
    mstep H2. destruct b; [|by apply free_fail_spins]. unfold free_ok.
    destruct (lf_free (w_current w) (default (w_junk w 0) p) (w_env w2)) as [st3 e3] eqn:H3.
    pose proof (H (w_current w) (default (w_junk w 0) p) (w_env w2)) as Hst. rewrite H3 in Hst. cbn in Hst. subst st3.
    rewrite (bind_Ok _ _ _ lf_success (set_env e3 w2)) by (unfold env_op; by rewrite H3).
    unfold lf_assert. by apply free_fail_spins.
  - by apply free_fail_spins.
Qed.

Lemma lf_attach_success w r w' : lf_attach w = Ok (r, w') -> r = lf_success.
Proof.
  unfold lf_attach. intros (a & w1 & _ & H)%bind_Ok_inv. rewrite bind_gets in H.
  apply bind_Ok_inv in H as ([e h] & w2 & _ & H). rewrite bind_modify in H. by injection H.
Qed.

(** The updater takes the success of [lf_attach] for a failure and stops there,
    whatever its arguments and the firmware. *)
Lemma fdfu_main_stops argv fopen w :
  argv <> [] -> fdfu_main fuel argv fopen w = (lf_attach;; _lf_assert (err_code E_NO_DEVICE);; mret EXIT_FAILURE) w.
Proof.
  intros Hne. destruct argv as [|path rest]; [done|]. unfold fdfu_main.
  destruct (lf_attach w) as [[r w1]| |] eqn:Ha.
  - pose proof (lf_attach_success w r w1 Ha) as ->. by rewrite !(bind_Ok _ _ _ _ _ Ha).
  - by rewrite !(bind_Ub _ _ _ Ha).
  - by rewrite !(bind_Spin _ _ _ Ha).
Qed.

(** The firmware as pages: the file, filled up with zeros to whole pages. *)
Lemma page_bytes_ok n firmware :
  (length firmware <= n)%nat -> page_bytes n firmware = firmware ++ replicate (n - length firmware) 0.
Proof.
  revert firmware. induction n as [|n IH]; intros [|c f] Hn; cbn in *; [done|lia|..].
  - f_equal. rewrite IH by (cbn; lia). by rewrite Nat.sub_0_r.
  - f_equal. apply IH. lia.
Qed.

Lemma load_page_data_ok firmware :
  exists pad, load_page_data firmware (length firmware) = firmware ++ replicate pad 0 /\
    (length (load_page_data firmware (length firmware)) = lf_ceiling (length firmware) IFLASH0_PAGE_SIZE * IFLASH0_PAGE_SIZE)%nat.
Proof.
  assert (length firmware <= lf_ceiling (length firmware) IFLASH0_PAGE_SIZE * IFLASH0_PAGE_SIZE)%nat as H.
  { unfold lf_ceiling, IFLASH0_PAGE_SIZE. pose proof (Nat.div_mod (length firmware + 512 - 1) 512 ltac:(lia)) as Hd.
    pose proof (Nat.mod_upper_bound (length firmware + 512 - 1) 512 ltac:(lia)). lia. }
  eexists. unfold load_page_data. rewrite page_bytes_ok by done. split; [done|].
  rewrite length_app, length_replicate. lia.
Qed.
End Convention.
