(* ===== verification/FdfuProps.v ===== *)
(** * Properties of the firmware updater

    The XMODEM upload over a bridge that works, with an instance on a bridge that
    records what is sent and answers from a script, and what becomes of the
    updater when calls report success as the rest of the library does. *)

From S2P Require Import Prelude World Errors Crc Device LinkedList FmrPacket Transport Network Libusb Libflipper Fdfu.
From stdpp Require Import base list gmap sets strings.
From Stdlib Require Import ZArith Lia.
Local Open Scope Z_scope.


(** A bridge with one buffer, the bytes sent and the answers to come. *)
Record dfu_env := DfuEnv { dfu_buffer : list Z; dfu_sent : list Z; dfu_script : list Z }.

#[global] Instance dfu_bridge : Bridge dfu_env := {|
  lf_malloc _ _ e := (1, Some 4096, e);
  lf_push _ _ bs e := (1, DfuEnv bs (dfu_sent e) (dfu_script e));
  lf_pull _ _ n e := (1, take n (dfu_buffer e), e);
  lf_free _ _ e := (1, e);
  uart0_read _ n e := (1, DfuEnv (take n (dfu_script e)) (dfu_sent e) (drop n (dfu_script e)));
  uart0_write _ n e := (1, DfuEnv (dfu_buffer e) (dfu_sent e ++ take n (dfu_buffer e)) (dfu_script e));
  uart0_reset e := (1, e);
  uart0_ready e := (1, e);
  uart0_get e := (default 0 (head (dfu_script e)), DfuEnv (dfu_buffer e) (dfu_sent e) (tail (dfu_script e)));
  uart0_put b e := DfuEnv (dfu_buffer e) (dfu_sent e ++ [b]) (dfu_script e);
|}.

#[global] Instance dfu_bridge_ok : BridgeOk dfu_env.
Proof.
  refine {| sent := dfu_sent; replies := dfu_script; holds e _ bs := dfu_buffer e = bs |}; cbn.
  - intros. by eexists _, _, _.
  - intros. by eexists _, _.
  - intros. by eexists _, _.
  - intros p bs e <-. rewrite take_ge by done. by eexists _, _.
  - intros p bs rest e Hr. rewrite Hr, take_app_length, drop_app_length. by eexists _, _.
  - intros dev p bs e <-. rewrite take_ge by done. by eexists _, _.
  - intros. by eexists _, _.
  - intros. by eexists _, _.
  - intros c rest e Hr. rewrite Hr. by eexists.
  - done.
Defined.

#[global] Instance dfu_usb : Usb dfu_env := {|
  libusb_init env := ((-1, 0), env); libusb_get_device_list _ env := ([], env);
  libusb_get_device_descriptor _ env := ((-1, 0), env); libusb_open _ env := ((-1, 0), env);
  libusb_claim_interface _ _ env := (-1, env); libusb_close _ env := env; libusb_exit _ env := env;
  libusb_free_device_list env := env;
  libusb_bulk_in _ _ _ _ env := ((-1, []), env); libusb_bulk_out _ _ _ _ env := (-1, env) |}.

Definition dfu_world (script : list Z) : world dfu_env :=
  World 0 ∅ 4096 [] (fun _ => 0) 0 0 (replicate 6 0) false (DfuEnv [] [] script).


(** The updater takes the library's success code for a failure: started with a
    file name it attaches, reports that there is no device and exits with a
    failure, and when freeing a buffer on the bridge reports success as the
    library does, no transfer ever returns. *)
Theorem updater_misreads_success {E} `{!Bridge E, !Usb E} fuel (w : world E) :
  (forall path rest fopen, fdfu_main fuel (path :: rest) fopen w
     = (lf_attach;; _lf_assert (err_code E_NO_DEVICE);; mret EXIT_FAILURE) w) /\
  ((forall dev p e, fst (lf_free dev p e) = lf_success) -> forall src, sam_write fuel src w = Spin).
Proof. split; [intros path rest fopen; by apply fdfu_main_stops|intros H src; by apply sam_write_spins]. Qed.
