(* ===== verification/Applet.v ===== *)
(** * The copy applet (assets/copy_sam4s.s)

    The program the updater uploads into the processor's memory to write a page of
    flash: its source as lines with labels, the assembler for the instructions it
    uses, and a machine that runs the bytes. [Fdfu.applet] is the array the updater
    sends. A store outside the RAM is a write to the flash or to its controller
    and is recorded. *)

From S2P Require Import Prelude World Errors Crc Device LinkedList FmrPacket Transport Network Libusb Libflipper Fdfu FdfuProps.
From stdpp Require Import base list gmap.
From Stdlib Require Import ZArith Lia.
Local Open Scope Z_scope.

(** ** The source *)

Inductive alabel :=
| a_stack | a_entry | a_start | a_copy | a_check | a_write | a_done
| a_destination | a_source | a_page | a_words | a_fcr0 | a_fsr0 | a_ewp.
#[global] Instance alabel_eq_dec : EqDecision alabel.
Proof. solve_decision. Defined.

(** Instructions; [L] is a label in the source and an offset once decoded. [LDMIA]
    and [STMIA] move one register. *)
Inductive ainstr (L : Type) :=
| LDR (d : Z) (l : L) | B (l : L) | BNE (l : L) | LDMIA (n r : Z) | STMIA (n r : Z) | SUB (d i : Z) | CMP (n i : Z)
| ORR (d m : Z) | STR (t n i : Z) | BX_LR.
Arguments LDR {L} d l.
Arguments B {L} l.
Arguments BNE {L} l.
Arguments LDMIA {L} n r.
Arguments STMIA {L} n r.
Arguments SUB {L} d i.
Arguments CMP {L} n i.
Arguments ORR {L} d m.
Arguments STR {L} t n i.
Arguments BX_LR {L}.
Inductive aline := Label (l : alabel) | Word (v : Z) | Ins (i : ainstr alabel) | Align.

Definition copy_sam4s : list aline :=
  [ Label a_stack; Word 0x00000000;
    Label a_entry; Word 0x00000000;
    Label a_start; Ins (LDR 0 a_destination); Ins (LDR 1 a_source); Ins (LDR 2 a_words); Ins (B a_check);
    Label a_copy; Ins (LDMIA 1 3); Ins (STMIA 0 3); Ins (SUB 2 1);
    Label a_check; Ins (CMP 2 0); Ins (BNE a_copy);
    Label a_write; Ins (LDR 0 a_fcr0); Ins (LDR 1 a_ewp); Ins (LDR 2 a_page); Ins (ORR 1 2); Ins (STR 1 0 0);
    Label a_done; Ins BX_LR;
    Align;
    Label a_destination; Word 0x00000000;
    Label a_source; Word 0x00000000;
    Label a_page; Word 0x00000000;
    Label a_words; Word 128;
    Label a_fcr0; Word 0x400E0A04;
    Label a_fsr0; Word 0x400E0A08;
    Label a_ewp; Word 0x5a000001 ].

(** ** The assembler *)

Definition rounded (a : Z) : Z := (a + 15) / 16 * 16.
Definition line_size (a : Z) (l : aline) : Z :=
  match l with Label _ => 0 | Word _ => 4 | Ins _ => 2 | Align => rounded a - a end.
Fixpoint symbol (a : Z) (l : alabel) (code : list aline) : option Z :=
  match code with
  | [] => None
  | x :: code =>
    match x with
    | Label l' => if decide (l' = l) then Some a else symbol a l code
    | _ => symbol (a + line_size a x) l code
    end
  end.

(** Literals are found from the program counter, which is four bytes ahead. *)
Definition pc_word (a : Z) : Z := Z.land (a + 4) (Z.lnot 3).
Definition encode (sym : alabel -> option Z) (a : Z) (i : ainstr alabel) : option Z :=
  match i with
  | LDR d l => t ← sym l; Some (0x4800 + Z.shiftl d 8 + (t - pc_word a) / 4)
  | B l => t ← sym l; Some (0xE000 + Z.land ((t - (a + 4)) / 2) 0x7FF)
  | BNE l => t ← sym l; Some (0xD100 + Z.land ((t - (a + 4)) / 2) 0xFF)
  | LDMIA n r => Some (0xC800 + Z.shiftl n 8 + bit r)
  | STMIA n r => Some (0xC000 + Z.shiftl n 8 + bit r)
  | SUB d i => Some (0x3800 + Z.shiftl d 8 + i)
  | CMP n i => Some (0x2800 + Z.shiftl n 8 + i)
  | ORR d m => Some (0x4300 + Z.shiftl m 3 + d)
  | STR t n i => Some (0x6000 + Z.shiftl (i / 4) 6 + Z.shiftl n 3 + t)
  | BX_LR => Some 0x4770
  end.

(** Code is padded with [nop]s, a short one first where it is needed. *)
Definition padding (n : Z) : list Z :=
  (if n mod 4 =? 2 then [0x00; 0xBF] else []) ++ mjoin (replicate (Z.to_nat (n / 4)) [0xAF; 0xF3; 0x00; 0x80]).
Fixpoint emit (sym : alabel -> option Z) (a : Z) (code : list aline) : option (list Z) :=
  match code with
  | [] => Some []
  | x :: code =>
    bs ← match x with
         | Label _ => Some []
         | Word v => Some (le_bytes 4 v)
         | Ins i => h ← encode sym a i; Some (le_bytes 2 h)
         | Align => Some (padding (rounded a - a))
         end;
    rest ← emit sym (a + line_size a x) code;
    Some (bs ++ rest)
  end.
Definition assemble (code : list aline) : option (list Z) := emit (fun l => symbol 0 l code) 0 code.

(** ** The machine *)

Abbreviation amem := (gmap Z Z).
Record astate := AState { a_regs : Z -> Z; a_lr : Z; a_pc : Z; a_zero : bool; a_mem : amem; a_stores : list (Z * Z) }.

Definition get_bytes (m : amem) (a : Z) (n : nat) : option (list Z) := mapM (fun i => m !! (a + Z.of_nat i)) (seq 0 n).
Definition load_le (m : amem) (a : Z) (n : nat) : option Z := le_val <$> get_bytes m a n.
Fixpoint put_bytes (m : amem) (a : Z) (bs : list Z) : amem :=
  match bs with [] => m | b :: bs => put_bytes (<[a := b]> m) (a + 1) bs end.
Definition in_ram (a : Z) : bool := (IRAM_ADDR <=? a) && (a <? IRAM_ADDR + IRAM_SIZE).

Definition set_reg (r v : Z) (s : astate) : astate :=
  AState (fun x => if x =? r then v else a_regs s x) (a_lr s) (a_pc s) (a_zero s) (a_mem s) (a_stores s).
Definition set_pc (pc : Z) (s : astate) : astate := AState (a_regs s) (a_lr s) pc (a_zero s) (a_mem s) (a_stores s).
Definition set_zero (z : bool) (s : astate) : astate := AState (a_regs s) (a_lr s) (a_pc s) z (a_mem s) (a_stores s).
Definition store_word (a v : Z) (s : astate) : astate :=
  if in_ram a then AState (a_regs s) (a_lr s) (a_pc s) (a_zero s) (put_bytes (a_mem s) a (le_bytes 4 v)) (a_stores s)
  else AState (a_regs s) (a_lr s) (a_pc s) (a_zero s) (a_mem s) (a_stores s ++ [(a, v)]).

Definition low (h n : Z) : Z := h mod 2 ^ n.
Definition bits_at (h i n : Z) : Z := (h / 2 ^ i) mod 2 ^ n.
(** The one register of a list. *)
Definition one_reg (l : Z) : option Z := find (fun r => l =? bit r) [0; 1; 2; 3; 4; 5; 6; 7].

Definition decode (h : Z) : option (ainstr Z) :=
  if h =? 0x4770 then Some BX_LR
  else if bits_at h 6 10 =? 0x10C then Some (ORR (bits_at h 0 3) (bits_at h 3 3))
  else if bits_at h 8 8 =? 0xD1 then Some (BNE (2 * sint 8 (low h 8)))
  else if bits_at h 11 5 =? 0x09 then Some (LDR (bits_at h 8 3) (4 * low h 8))
  else if bits_at h 11 5 =? 0x1C then Some (B (2 * sint 11 (low h 11)))
  else if bits_at h 11 5 =? 0x19 then r ← one_reg (low h 8); Some (LDMIA (bits_at h 8 3) r)
  else if bits_at h 11 5 =? 0x18 then r ← one_reg (low h 8); Some (STMIA (bits_at h 8 3) r)
  else if bits_at h 11 5 =? 0x07 then Some (SUB (bits_at h 8 3) (low h 8))
  else if bits_at h 11 5 =? 0x05 then Some (CMP (bits_at h 8 3) (low h 8))
  else if bits_at h 11 5 =? 0x0C then Some (STR (bits_at h 0 3) (bits_at h 3 3) (4 * bits_at h 6 5))
  else None.

Inductive anext := ARun (s : astate) | AReturn (s : astate) | AFault.

Definition aexec (i : ainstr Z) (s : astate) : anext :=
  let r := a_regs s in
  let next := set_pc (a_pc s + 2) s in
  match i with
  | LDR d off => match load_le (a_mem s) (pc_word (a_pc s) + off) 4 with Some v => ARun (set_reg d v next) | None => AFault end
  | B off => ARun (set_pc (a_pc s + 4 + off) s)
  | BNE off => ARun (if a_zero s then next else set_pc (a_pc s + 4 + off) s)
  | LDMIA n x => match load_le (a_mem s) (r n) 4 with Some v => ARun (set_reg x v (set_reg n (u32 (r n + 4)) next)) | None => AFault end
  | STMIA n x => ARun (set_reg n (u32 (r n + 4)) (store_word (r n) (r x) next))
  | SUB d i => ARun (set_zero (u32 (r d - i) =? 0) (set_reg d (u32 (r d - i)) next))
  | CMP n i => ARun (set_zero (r n =? i) next)
  | ORR d m => ARun (set_zero (Z.lor (r d) (r m) =? 0) (set_reg d (Z.lor (r d) (r m)) next))
  | STR t n i => ARun (store_word (r n + i) (r t) next)
  | BX_LR => AReturn (set_pc (a_lr s) s)
  end.

Fixpoint arun (fuel : nat) (s : astate) : outcome astate :=
  match fuel with
  | O => Spin
  | S fuel =>
    match h ← load_le (a_mem s) (a_pc s) 2; decode h with
    | None => Ub
    | Some i => match aexec i s with ARun s => arun fuel s | AReturn s => Ok s | AFault => Ub end
    end
  end.

(** ** What is in memory *)

Definition holds_at (m : amem) (a : Z) (bs : list Z) : Prop := forall i b, bs !! i = Some b -> m !! (a + Z.of_nat i) = Some b.

Lemma put_other bs : forall m a c, c < a \/ a + Z.of_nat (length bs) <= c -> put_bytes m a bs !! c = m !! c.
Proof.
  induction bs as [|b bs IH]; intros m a c Hc; [done|]. cbn [put_bytes length] in *.
  rewrite IH by lia. apply lookup_insert_ne. lia.
Qed.
Lemma put_holds bs : forall m a, holds_at (put_bytes m a bs) a bs.
Proof.
  induction bs as [|b bs IH]; intros m a i c Hi; [done|]. destruct i as [|i]; cbn [put_bytes] in *.
  - injection Hi as <-. rewrite put_other by lia. rewrite Z.add_0_r. apply lookup_insert_eq.
  - rewrite <- (IH (<[a := b]> m) (a + 1) i c Hi). f_equal. lia.
Qed.
Lemma put_keeps m a bs c cs :
  holds_at m c cs -> c + Z.of_nat (length cs) <= a \/ a + Z.of_nat (length bs) <= c -> holds_at (put_bytes m a bs) c cs.
Proof.
  intros H Hd i b Hi. rewrite put_other; [by apply H|]. apply lookup_lt_Some in Hi. lia.
Qed.
Lemma holds_app m a xs ys : holds_at m a (xs ++ ys) <-> holds_at m a xs /\ holds_at m (a + Z.of_nat (length xs)) ys.
Proof.
  split.
  - intros H. split; intros i b Hi; [apply H; by apply lookup_app_l_Some|].
    replace (a + Z.of_nat (length xs) + Z.of_nat i) with (a + Z.of_nat (length xs + i)) by lia. apply H.
    rewrite lookup_app_r by lia. by replace (length xs + i - length xs)%nat with i by lia.
  - intros [H1 H2] i b [Hi|[Hl Hi]]%lookup_app_Some; [by apply H1|].
    replace (a + Z.of_nat i) with (a + Z.of_nat (length xs) + Z.of_nat (i - length xs)) by lia. by apply H2.
Qed.

Lemma mapM_seq (f : nat -> option Z) bs : forall k, (forall i b, bs !! i = Some b -> f (k + i)%nat = Some b) -> mapM f (seq k (length bs)) = Some bs.
Proof.
  induction bs as [|b bs IH]; intros k H; [done|]. cbn [length seq mapM]. rewrite <- (Nat.add_0_r k) at 1. rewrite (H 0%nat b) by done. cbn.
  rewrite (IH (S k)); [done|]. intros i c Hi. replace (S k + i)%nat with (k + S i)%nat by lia. by apply H.
Qed.
Lemma holds_load m a bs : holds_at m a bs -> load_le m a (length bs) = Some (le_val bs).
Proof. intros H. unfold load_le, get_bytes. by rewrite (mapM_seq _ bs 0) by (intros i b Hi; by apply H). Qed.
Lemma holds_rd m a bs n xs v c :
  holds_at m a bs -> rd bs (Z.to_nat (c - a)) n = Some xs -> (a <=? c) = true -> le_val xs = v -> load_le m c n = Some v.
Proof.
  intros H Hr Hc%Z.leb_le <-. set (i := Z.to_nat (c - a)) in *. replace c with (a + Z.of_nat i) by lia. unfold rd in Hr. case_decide as Hd; [|done]. injection Hr as <-.
  replace n with (length (take n (drop i bs))) at 1 by (rewrite length_take, length_drop; lia).
  apply holds_load. intros j b Hj. apply lookup_take_Some in Hj as [Hj _]. rewrite lookup_drop in Hj.
  replace (a + Z.of_nat i + Z.of_nat j) with (a + Z.of_nat (i + j)) by lia. by apply H.
Qed.

(** ** The updater's writes *)

Definition write_words (m : amem) (l : list (Z * Z)) : amem := fold_left (fun m '(a, v) => put_bytes m a (le_bytes 4 v)) l m.
(** The applet and the words written once, and the page and its number. *)
Definition prepared (m : amem) : amem :=
  write_words (put_bytes m _APPLET applet)
    [(_APPLET_STACK, IRAM_ADDR + IRAM_SIZE); (_APPLET_ENTRY, _APPLET + 0x09); (_APPLET_DESTINATION, IFLASH0_ADDR); (_APPLET_SOURCE, _PAGEBUFFER)].
Definition ready (page : nat) (data : list Z) (m : amem) : amem :=
  write_words (put_bytes m _PAGEBUFFER data) [(_APPLET_PAGE, EEFC_FCR_FARG (Z.of_nat page))].
(** The applet with those words, on both sides of the page number. *)
Definition applet_head : list Z :=
  le_bytes 4 (IRAM_ADDR + IRAM_SIZE) ++ le_bytes 4 (_APPLET + 0x09) ++ take 40 (drop 8 applet) ++ le_bytes 4 IFLASH0_ADDR ++ le_bytes 4 _PAGEBUFFER.
Definition applet_tail : list Z := drop 60 applet.
Definition applet_in (m : amem) : Prop := holds_at m _APPLET applet_head /\ holds_at m (_APPLET + 60) applet_tail.

Ltac apart := unfold applet_head, applet_tail; rewrite ?length_app, ?length_le_bytes, ?length_take, ?length_drop;
  change (length applet) with 76%nat; unfold _PAGEBUFFER, _APPLET_PAGE, _APPLET_SOURCE, _APPLET_DESTINATION, _APPLET_ENTRY, _APPLET_STACK; change (length applet) with 76%nat; lia.

Lemma prepared_in m : applet_in (prepared m).
Proof.
  unfold applet_in, prepared, write_words. cbn [fold_left].
  assert (forall m', holds_at m' _APPLET applet -> holds_at m' (_APPLET + 8) (take 40 (drop 8 applet)) /\ holds_at m' (_APPLET + 60) applet_tail) as Hparts.
  { intros m' H. change applet with (take 8 applet ++ take 40 (drop 8 applet) ++ take 12 (drop 48 applet) ++ applet_tail) in H at 1.
    apply holds_app in H as [_ H]. apply holds_app in H as [H1 H]. apply holds_app in H as [_ H]. split; [exact H1|exact H]. }
  destruct (Hparts _ (put_holds applet m _APPLET)) as [H1 H2].
  split; [|repeat (apply put_keeps; [|apart]); exact H2].
  unfold applet_head. apply holds_app; split; [repeat (apply put_keeps; [|apart]); apply put_holds|].
  apply holds_app; split; [repeat (apply put_keeps; [|apart]); apply put_holds|].
  apply holds_app; split; [repeat (apply put_keeps; [|apart]); exact H1|].
  apply holds_app; split; [repeat (apply put_keeps; [|apart]); apply put_holds|apply put_holds].
Qed.

Lemma ready_in page data m : length data = IFLASH0_PAGE_SIZE -> applet_in m ->
  applet_in (ready page data m) /\ holds_at (ready page data m) _PAGEBUFFER data /\
  holds_at (ready page data m) _APPLET_PAGE (le_bytes 4 (EEFC_FCR_FARG (Z.of_nat page))).
Proof.
  intros Hd [H1 H2]. unfold ready, write_words. cbn [fold_left].
  split; [split; (apply put_keeps; [apply put_keeps; [done|apart]|apart])|].
  split; [apply put_keeps; [apply put_holds|apart]|apply put_holds].
Qed.

(** ** Running it *)

(** The words of a page and the stores that fill the flash's page buffer from
    [dst] on. *)
Fixpoint words (n : nat) (data : list Z) : list Z := match n with O => [] | S n => le_val (take 4 data) :: words n (drop 4 data) end.
Fixpoint stores_at (dst : Z) (ws : list Z) : list (Z * Z) := match ws with [] => [] | w :: ws => (dst, w) :: stores_at (dst + 4) ws end.
Definition EEFC_FCR_FCMD_WP : Z := 0x01.
Definition page_stores (page : nat) (data : list Z) : list (Z * Z) :=
  stores_at IFLASH0_ADDR (words 128 data) ++ [(EEFC_FCR, 0x5A * 2 ^ 24 + Z.of_nat page * 2 ^ 8 + EEFC_FCR_FCMD_WP)].

(** The boot loader's jump: the entry is the second word of the image. *)
Definition start (a : Z) (m : amem) (regs : Z -> Z) (lr : Z) : option astate :=
  pc ← load_le m (a + 4) 4; Some (AState regs lr (pc - pc mod 2) false m []).

Lemma arun_step fuel s h i s' :
  load_le (a_mem s) (a_pc s) 2 = Some h -> decode h = Some i -> aexec i s = ARun s' -> arun (S fuel) s = arun fuel s'.
Proof. intros H1 H2 H3. cbn [arun]. rewrite H1. cbn. by rewrite H2, H3. Qed.

Ltac fetch H := eapply holds_rd; [exact H|vm_compute; reflexivity..].
(** One instruction of the head; [tac] rewrites what it loads. *)
Tactic Notation "astep" constr(H) "by" tactic(tac) :=
  erewrite arun_step; [|fetch H|vm_compute; reflexivity|cbn -[u32 load_le in_ram pc_word Z.add Z.sub]; tac; reflexivity]; unfold set_reg, set_pc, set_zero; cbn [a_regs a_lr a_pc a_zero a_mem a_stores].
Tactic Notation "astep" constr(H) := astep H by idtac.

Definition at_check : Z := _APPLET + 0x16.
Definition at_write : Z := _APPLET + 0x1A.

Lemma copy_loop_ok fuel m lr : holds_at m _APPLET applet_head -> forall n data regs z st,
  length data = (4 * n)%nat -> holds_at m (regs 1) data -> IFLASH0_ADDR <= regs 0 -> regs 0 + 4 * Z.of_nat n <= IFLASH0_ADDR + 512 ->
  0 <= regs 1 -> regs 1 + 4 * Z.of_nat n < 2 ^ 32 -> regs 2 = Z.of_nat n -> (n <= 128)%nat ->
  exists regs' , arun (5 * n + 2 + fuel) (AState regs lr at_check z m st) =
    arun fuel (AState regs' lr at_write true m (st ++ stores_at (regs 0) (words n data))).
Proof.
  intros Hm. induction n as [|n IH]; intros data regs z st Hl Hd Hdst Hdst2 Hsrc Hsrc2 Hn Hn128; cbn [Nat.add Nat.mul].
  { assert ((regs 2 =? 0) = true) as E by (by rewrite Hn).
    eexists. astep Hm by (rewrite E). astep Hm. cbn [words stores_at]. rewrite app_nil_r. reflexivity. }
  assert ((regs 2 =? 0) = false) as E by (apply Z.eqb_neq; lia).
  replace (n + (n + (n + (n + (n + 0)))))%nat with (5 * n)%nat by lia.
  replace (S (n + S (n + S (n + S (n + S (n + 0)))) + 2 + fuel)) with (S (S (S (S (S (5 * n + 2 + fuel)))))) by lia.
  assert (load_le m (regs 1) 4 = Some (le_val (take 4 data))) as Hw.
  { replace 4%nat with (length (take 4 data)) at 1 by (rewrite length_take; lia).
    apply holds_load. intros i b Hi. apply Hd. by apply lookup_take_Some in Hi as [Hi _]. }
  assert (in_ram (regs 0) = false) as Hram.
  { unfold in_ram. apply andb_false_iff. apply or_introl. apply Z.leb_gt. unfold IRAM_ADDR, IFLASH0_ADDR in *. lia. }
  assert (u32 (regs 1 + 4) = regs 1 + 4) as E1 by (apply u32_small; lia).
  assert (u32 (regs 0 + 4) = regs 0 + 4) as E0 by (apply u32_small; unfold IFLASH0_ADDR in *; lia).
  assert (u32 (regs 2 - 1) = Z.of_nat n) as E2 by (rewrite u32_small; lia).
  astep Hm by (rewrite E). astep Hm. astep Hm by (rewrite Hw, E1). astep Hm by (unfold store_word; cbn -[u32 in_ram Z.add Z.sub]; rewrite Hram, E0). astep Hm by (rewrite E2).
  match goal with |- context [AState ?r lr _ ?z' m ?st'] => destruct (IH (drop 4 data) r z' st') as (regs' & H) end;
    cbn [Z.eqb Pos.eqb]; [rewrite length_drop; lia| |lia..|].
  { intros i b Hi. rewrite lookup_drop in Hi. replace (regs 1 + 4 + Z.of_nat i) with (regs 1 + Z.of_nat (4 + i)) by lia. by apply Hd. }
  exists regs'. rewrite <- app_assoc in H. exact H.
Qed.

Lemma EEFC_FCR_FARG_val p : 0 <= p < 65536 -> EEFC_FCR_FARG p = p * 2 ^ 8.
Proof.
  intros Hp. unfold EEFC_FCR_FARG. rewrite !Z.shiftl_mul_pow2 by lia. rewrite u32_small by lia.
  rewrite <- !Z.shiftl_mul_pow2, <- Z.shiftl_land by lia. f_equal. change 65535 with (Z.ones 16). rewrite Z.land_comm, Z.land_ones by lia. apply Z.mod_small. lia.
Qed.
Lemma command_word p : 0 <= p < 65536 -> Z.lor 0x5a000001 (p * 2 ^ 8) = 0x5A * 2 ^ 24 + p * 2 ^ 8 + EEFC_FCR_FCMD_WP.
Proof.
  intros Hp. assert (Z.land 0x5a000001 (p * 2 ^ 8) = 0) as Hl.
  { apply Z.bits_inj'. intros n Hn. rewrite Z.land_spec, Z.testbit_0_l, andb_false_iff.
    destruct (Z.ltb_spec n 8) as [H8|H8]; [apply or_intror, Z.mul_pow2_bits_low; lia|].
    destruct (Z.ltb_spec n 24) as [H24|H24].
    - apply or_introl. assert (In n (map Z.of_nat (seq 8 16))) as Hi by (apply in_map_iff; exists (Z.to_nat n); split; [lia|apply in_seq; lia]).
      revert Hi. cbn [seq map In]. intros Hi. repeat (destruct Hi as [<- | Hi]; [reflexivity|]). done.
    - apply or_intror, Z.bits_above_log2; [lia|]. destruct (decide (p = 0)) as [->|]; [change (Z.log2 (0 * 2 ^ 8)) with 0; lia|]. apply Z.log2_lt_pow2; [lia|].
      apply Z.lt_le_trans with (2 ^ 24); [lia|]. apply Z.pow_le_mono_r; lia. }
  pose proof (Z.add_lor_land 0x5a000001 (p * 2 ^ 8)). unfold EEFC_FCR_FCMD_WP. lia.
Qed.

Lemma applet_page m page data regs lr :
  applet_in m -> length data = IFLASH0_PAGE_SIZE -> Z.of_nat page < 65536 ->
  exists s s', start _APPLET (ready page data m) regs lr = Some s /\ arun 652 s = Ok s' /\
    a_pc s' = lr /\ a_mem s' = ready page data m /\ a_stores s' = page_stores page data.
Proof.
  intros Hin Hl Hp. destruct (ready_in page data m Hl Hin) as ([Hh Ht] & Hd & Hpage). set (m' := ready page data m) in *. clearbody m'.
  assert (load_le m' _APPLET_ENTRY 4 = Some (_APPLET + 9)) as He by (fetch Hh).
  assert (load_le m' _APPLET_PAGE 4 = Some (Z.of_nat page * 2 ^ 8)) as L6.
  { pose proof (holds_load _ _ _ Hpage) as H. rewrite length_le_bytes, le_val_bytes_small in H by (rewrite EEFC_FCR_FARG_val; lia).
    by rewrite EEFC_FCR_FARG_val in H by lia. }
  exists (AState regs lr (_APPLET + 8) false m' []). unfold start. change (_APPLET + 4) with _APPLET_ENTRY. rewrite He.
  change 652%nat with (S (S (S (S (5 * 128 + 2 + 6))))).
  destruct (copy_loop_ok 6 m' lr Hh 128 data (fun x => if x =? 2 then 128 else if x =? 1 then _PAGEBUFFER else if x =? 0 then IFLASH0_ADDR else regs x) false [])
    as (regs' & Hloop); [done|exact Hd|first [reflexivity | lia | vm_compute; congruence]..|].
  cbn [Z.eqb Pos.eqb app] in Hloop. remember (stores_at IFLASH0_ADDR (words 128 data)) as st eqn:Est.
  eexists. split; [reflexivity|]. split.
  { astep Hh by (erewrite holds_rd; [|exact Hh|vm_compute; reflexivity..]).
    astep Hh by (erewrite holds_rd; [|exact Hh|vm_compute; reflexivity..]).
    astep Hh by (erewrite holds_rd; [|exact Ht|vm_compute; reflexivity..]).
    astep Hh. etransitivity; [exact Hloop|]. change 6%nat with (S (S (S (S (S 1))))).
    astep Hh by (erewrite holds_rd; [|exact Ht|vm_compute; reflexivity..]).
    astep Hh by (erewrite holds_rd; [|exact Ht|vm_compute; reflexivity..]).
    astep Hh by (change (pc_word _ + _) with _APPLET_PAGE; rewrite L6).
    astep Hh. astep Hh by (unfold store_word; cbn -[in_ram Z.lor Z.mul Z.add]; change (in_ram _) with false).
    cbn [arun a_mem a_pc]. erewrite holds_rd; [|exact Hh|vm_compute; reflexivity..]. reflexivity. }
  split; [reflexivity|]. split; [reflexivity|]. cbn [a_stores]. unfold page_stores. rewrite <- Est, <- (command_word (Z.of_nat page)) by lia. reflexivity.
Qed.

(** ** The boot loader's commands *)

(** The data of an upload in packets, and what the updater sends: for the applet
    with its words, and for a page the upload, the page number, the jump and the
    read of the flash status. *)
Fixpoint pieces (n : nat) (data : list Z) : list (list Z) := match n with O => [] | S n => take XLEN data :: pieces n (drop XLEN data) end.
Definition word_command (a v : Z) : list Z := [87] ++ hex 8 a ++ [44] ++ hex 8 v ++ [35].
Definition jump_command (a : Z) : list Z := [71] ++ hex 8 a ++ [35].
Definition status_command (a : Z) : list Z := [111] ++ hex 8 a ++ [44; 35].
Definition upload (a : Z) (src : list Z) (chunks : list (list Z)) : list Z :=
  copy_command a src ++ mjoin (imap (fun j c => xpacket (Z.of_nat j) c) chunks) ++ [EOT].
Definition applet_out : list Z :=
  upload _APPLET applet (pieces 1 applet) ++ word_command _APPLET_STACK (IRAM_ADDR + IRAM_SIZE) ++ word_command _APPLET_ENTRY (_APPLET + 0x09) ++
  word_command _APPLET_DESTINATION IFLASH0_ADDR ++ word_command _APPLET_SOURCE _PAGEBUFFER.
Definition page_out (page : nat) (data : list Z) : list Z :=
  upload _PAGEBUFFER data (pieces 4 data) ++ word_command _APPLET_PAGE (EEFC_FCR_FARG (Z.of_nat page)) ++ jump_command _APPLET ++ status_command EEFC_FSR.
Fixpoint cut (n : nat) (l : list Z) : list (list Z) := match n with O => [] | S n => take IFLASH0_PAGE_SIZE l :: cut n (drop IFLASH0_PAGE_SIZE l) end.
Definition firmware_pages (firmware : list Z) : list (list Z) :=
  cut (lf_ceiling (length firmware) IFLASH0_PAGE_SIZE) (load_page_data firmware (length firmware)).
Definition pages_out (page : nat) (datas : list (list Z)) : list Z := mjoin (imap (fun j d => page_out (page + j) d) datas).

(** What the commands do to the processor's memory, as their description has it,
    with the stores outside the RAM: an upload and a word are written, a jump runs
    the code there until it returns. *)
Inductive boot : list Z -> amem -> amem -> list (Z * Z) -> Prop :=
| boot_upload a src chunks m : chunked chunks src -> boot (upload a src chunks) m (put_bytes m a src) []
| boot_word a v m : boot (word_command a v) m (put_bytes m a (le_bytes 4 v)) []
| boot_jump a m regs lr fuel s s' : start a m regs lr = Some s -> arun fuel s = Ok s' -> boot (jump_command a) m (a_mem s') (a_stores s')
| boot_status a m : boot (status_command a) m m []
| boot_nil m : boot [] m m []
| boot_seq c1 c2 m1 m2 m3 st1 st2 : boot c1 m1 m2 st1 -> boot c2 m2 m3 st2 -> boot (c1 ++ c2) m1 m3 (st1 ++ st2).

Definition flash_stores (page : nat) (datas : list (list Z)) : list (Z * Z) := mjoin (imap (fun j d => page_stores (page + j) d) datas).


Lemma mjoin_cons {A} (a : list A) l : mjoin (a :: l) = a ++ mjoin l.
Proof. done. Qed.
Lemma pieces_chunked n : forall data, length data = (n * XLEN)%nat -> chunked (pieces n data) data.
Proof.
  induction n as [|n IH]; intros data Hl; [destruct data; [|done]; split; [done|]; split; [constructor|by intros [|j]]|].
  cbn [pieces]. rewrite <- (take_drop XLEN data) at 3. assert (length (take XLEN data) = XLEN) as Ht by (rewrite length_take; lia).
  apply chunked_cons; [rewrite Ht; unfold XLEN; lia|by intros _|]. apply IH. rewrite length_drop. lia.
Qed.
Lemma applet_chunked : chunked (pieces 1 applet) applet.
Proof. apply (chunked_cons applet [] []); [vm_compute; lia|done|]. split; [done|]. split; [constructor|by intros [|j]]. Qed.

Lemma boot_page m page data :
  applet_in m -> length data = IFLASH0_PAGE_SIZE -> Z.of_nat page < 65536 -> boot (page_out page data) m (ready page data m) (page_stores page data).
Proof.
  intros Hm Hl Hp. destruct (applet_page m page data (fun _ => 0) 0 Hm Hl Hp) as (s & s' & Hs & Hr & _ & Hm' & Hst).
  unfold page_out. rewrite <- Hst. change (a_stores s') with ([] ++ [] ++ a_stores s'). rewrite <- (app_nil_r (a_stores s')).
  eapply boot_seq; [by apply boot_upload, pieces_chunked|]. eapply boot_seq; [apply boot_word|].
  eapply boot_seq; [eapply boot_jump; [exact Hs|exact Hr]|]. rewrite Hm'. apply boot_status.
Qed.

Lemma boot_pages datas : forall page m,
  applet_in m -> Forall (fun d => length d = IFLASH0_PAGE_SIZE) datas -> Z.of_nat (page + length datas) <= 65536 ->
  exists m', boot (pages_out page datas) m m' (flash_stores page datas).
Proof.
  induction datas as [|data datas IH]; intros page m Hm Hl Hp; [by exists m; constructor|].
  apply Forall_cons in Hl as [Hl Hls]. cbn [length] in Hp.
  destruct (IH (S page) (ready page data m)) as (m' & H); [by apply ready_in|done|lia|].
  exists m'. unfold flash_stores, pages_out. cbn [imap]. rewrite !mjoin_cons, Nat.add_0_r. eapply boot_seq; [apply boot_page; [done|done|lia]|].
  rewrite (imap_ext _ (fun j d => page_stores (S page + j) d)) by (intros j x _; unfold compose; f_equal; lia).
  rewrite (imap_ext _ (fun j d => page_out (S page + j) d)) by (intros j x _; unfold compose; f_equal; lia). exact H.
Qed.

Lemma boot_applet m : boot applet_out m (prepared m) [].
Proof.
  unfold applet_out. change (@nil (Z * Z)) with (@nil (Z * Z) ++ [] ++ [] ++ [] ++ []).
  eapply boot_seq; [apply boot_upload, applet_chunked|]. do 3 (eapply boot_seq; [apply boot_word|]). apply boot_word.
Qed.

(** ** The pages *)

Lemma cut_pages n : forall l, length l = (n * IFLASH0_PAGE_SIZE)%nat ->
  Forall (fun d => length d = IFLASH0_PAGE_SIZE) (cut n l) /\ length (cut n l) = n /\ mjoin (cut n l) = l.
Proof.
  induction n as [|n IH]; intros l Hl; [by destruct l|]. cbn [cut length]. rewrite mjoin_cons.
  destruct (IH (drop IFLASH0_PAGE_SIZE l)) as (H1 & H2 & H3); [rewrite length_drop; lia|].
  split; [constructor; [rewrite length_take; lia|done]|]. split; [by rewrite H2|]. by rewrite H3, take_drop.
Qed.
Lemma words_bytes n : forall data, length data = (4 * n)%nat -> Forall is_byte data -> mjoin (map (le_bytes 4) (words n data)) = data.
Proof.
  induction n as [|n IH]; intros data Hl Hb; [by destruct data|]. cbn [words map]. rewrite mjoin_cons.
  rewrite IH by (rewrite ?length_drop; auto using Forall_drop; lia).
  assert (length (take 4 data) = 4%nat) as Ht by (rewrite length_take; lia). rewrite <- Ht at 1.
  rewrite le_bytes_val by (by apply Forall_take). apply take_drop.
Qed.

(** The bytes stored to the flash, as opposed to its controller. *)
Definition flash_bytes (stores : list (Z * Z)) : list Z := mjoin (map (fun '(a, w) => if a =? EEFC_FCR then [] else le_bytes 4 w) stores).
Lemma flash_bytes_app a b : flash_bytes (a ++ b) = flash_bytes a ++ flash_bytes b.
Proof. unfold flash_bytes. by rewrite map_app, join_app. Qed.
Lemma flash_bytes_words ws : forall dst, IFLASH0_ADDR <= dst -> dst + 4 * Z.of_nat (length ws) <= EEFC_FCR ->
  flash_bytes (stores_at dst ws) = mjoin (map (le_bytes 4) ws).
Proof.
  induction ws as [|w ws IH]; intros dst H1 H2; [done|]. cbn [stores_at length] in *.
  change (flash_bytes ((dst, w) :: stores_at (dst + 4) ws)) with ((if dst =? EEFC_FCR then [] else le_bytes 4 w) ++ flash_bytes (stores_at (dst + 4) ws)).
  rewrite (proj2 (Z.eqb_neq dst EEFC_FCR)) by lia. rewrite IH by lia. done.
Qed.
Lemma length_words n : forall data, length (words n data) = n.
Proof. induction n as [|n IH]; intros data; cbn; [done|]. by rewrite IH. Qed.
Lemma flash_bytes_page page data : length data = IFLASH0_PAGE_SIZE -> Forall is_byte data -> flash_bytes (page_stores page data) = data.
Proof.
  intros Hl Hb. unfold page_stores. rewrite flash_bytes_app, flash_bytes_words, words_bytes; [|done|done|done|rewrite length_words; vm_compute; congruence].
  apply app_nil_r.
Qed.
Lemma flash_bytes_pages datas : forall page, Forall (fun d => length d = IFLASH0_PAGE_SIZE) datas -> Forall is_byte (mjoin datas) ->
  flash_bytes (flash_stores page datas) = mjoin datas.
Proof.
  induction datas as [|d datas IH]; intros page Hl Hb; [done|]. apply Forall_cons in Hl as [Hd Hl]. rewrite mjoin_cons in *.
  apply Forall_app in Hb as [Hb1 Hb2]. unfold flash_stores. cbn [imap]. rewrite mjoin_cons, flash_bytes_app, flash_bytes_page by done. f_equal.
  rewrite (imap_ext _ (fun j d => page_stores (S page + j) d)) by (intros j x _; unfold compose; f_equal; lia). by apply IH.
Qed.

(** ** The updater's side *)

Lemma chunked_tail c cs src : chunked (c :: cs) src -> exists rest, src = c ++ rest /\ chunked cs rest /\ (0 < length c <= XLEN)%nat /\ (cs <> [] -> length c = XLEN).
Proof.
  intros (Hj & Hl & Hs). apply Forall_cons in Hl as [Hc Hl]. exists (mjoin cs). split; [done|]. split.
  - split; [done|]. split; [done|]. intros j c' Hj' Hlt. apply (Hs (S j) c' Hj'). cbn. lia.
  - split; [done|]. intros Hne. apply (Hs 0%nat c eq_refl). destruct cs; [done|cbn; lia].
Qed.
Lemma chunked_unique cs : forall cs' src, chunked cs src -> chunked cs' src -> cs = cs'.
Proof.
  induction cs as [|c cs IH]; intros [|c' cs'] src H H'; [done|..].
  - destruct H as [<- _]. apply chunked_tail in H' as (r & Hr & _ & Hc & _). destruct c'; [cbn in Hc; lia|done].
  - destruct H' as [<- _]. apply chunked_tail in H as (r & Hr & _ & Hc & _). destruct c; [cbn in Hc; lia|done].
  - apply chunked_tail in H as (r & -> & H & Hc & Hf). apply chunked_tail in H' as (r' & Hr & H' & Hc' & Hf').
    assert (length c = length c') as Hlen.
    { pose proof (f_equal length Hr) as Hlr. rewrite !length_app in Hlr.
      destruct cs as [|d cs], cs' as [|d' cs']; [|..|by rewrite Hf, Hf'].
      - destruct H as [<- _], H' as [<- _]. cbn in Hlr. lia.
      - destruct H as [<- _]. rewrite Hf' in Hlr |- * by done. apply chunked_tail in H' as (? & -> & _ & ? & _). rewrite length_app in Hlr. cbn in Hlr. unfold XLEN in *. lia.
      - destruct H' as [<- _]. rewrite Hf in Hlr |- * by done. apply chunked_tail in H as (? & -> & _ & ? & _). rewrite length_app in Hlr. cbn in Hlr. unfold XLEN in *. lia. }
    apply app_inj_1 in Hr as [-> ->]; [|done]. f_equal. by eapply IH.
Qed.

(** ** The updater's calls *)

(** The calls of the updater's [main] for the applet, for a page and for all pages,
    in its order and with its arguments, where it would go on whatever
    [sam_ba_copy] returned. *)
Section Calls.
Context {E : Type} `{!Bridge E, !Usb E} (fuel : nat).

Definition applet_calls : C E Z :=
  sam_ba_copy fuel _APPLET applet;;
  sam_ba_write_word fuel _APPLET_STACK (IRAM_ADDR + IRAM_SIZE);;
  sam_ba_write_word fuel _APPLET_ENTRY (_APPLET + 0x09);;
  sam_ba_write_word fuel _APPLET_DESTINATION IFLASH0_ADDR;;
  sam_ba_write_word fuel _APPLET_SOURCE _PAGEBUFFER.
Definition page_calls (page : nat) (data : list Z) : C E unit :=
  sam_ba_copy fuel _PAGEBUFFER data;;
  sam_ba_write_word fuel _APPLET_PAGE (EEFC_FCR_FARG (Z.of_nat page));;
  sam_ba_jump fuel _APPLET;;
  flash_wait fuel 4.
Fixpoint pages_calls (page : nat) (datas : list (list Z)) : C E unit :=
  match datas with [] => mret tt | data :: datas => page_calls page data;; pages_calls (S page) datas end.

(** The boot loader's answers: to an upload of [n] packets, and to a page, whose
    write is over when the status is read first. *)
Definition upload_answers (n : nat) : list Z := [67] ++ replicate (S n) ACK.
Definition page_answers (status : Z) : list Z := upload_answers 4 ++ [status].

Context `{!BridgeOk E}.

Lemma upload_ok a src chunks w rest : chunked chunks src -> replies (w_env w) = upload_answers (length chunks) ++ rest ->
  exists w', sam_ba_copy fuel a src w = Ok (lf_success, w') /\ exchanged (upload a src chunks) (upload_answers (length chunks)) w w' /\ replies (w_env w') = rest.
Proof.
  intros Hc Hr. destruct (sam_ba_copy_ok fuel a src) as (chunks' & Hc' & Hrun). rewrite (chunked_unique _ _ _ Hc' Hc) in *.
  destruct (Hrun w rest Hr) as (w' & H & Hx). exists w'. split; [done|]. split; [done|]. by eapply exchanged_replies.
Qed.
Lemma applet_calls_ok w rest : replies (w_env w) = upload_answers 1 ++ rest ->
  exists r w', applet_calls w = Ok (r, w') /\ exchanged applet_out (upload_answers 1) w w' /\ replies (w_env w') = rest.
Proof.
  intros Hr. destruct (upload_ok _APPLET applet _ w rest applet_chunked Hr) as (w1 & H1 & X1 & _). unfold applet_calls. mstep H1.
  unfold sam_ba_write_word. destruct (sam_write_ok fuel (word_command _APPLET_STACK (IRAM_ADDR + IRAM_SIZE)) w1) as (w2 & H2 & X2). mstep H2.
  destruct (sam_write_ok fuel (word_command _APPLET_ENTRY (_APPLET + 0x09)) w2) as (w3 & H3 & X3). mstep H3.
  destruct (sam_write_ok fuel (word_command _APPLET_DESTINATION IFLASH0_ADDR) w3) as (w4 & H4 & X4). mstep H4.
  destruct (sam_write_ok fuel (word_command _APPLET_SOURCE _PAGEBUFFER) w4) as (w5 & H5 & X5). exists lf_success, w5. split; [exact H5|].
  assert (exchanged applet_out (upload_answers 1) w w5) as X.
  { unfold applet_out. rewrite <- (app_nil_r (upload_answers 1)). eapply exchanged_trans; [exact X1|].
    do 3 (eapply (exchanged_trans _ [] _ []); [eassumption|]). exact X5. }
  split; [done|]. by eapply exchanged_replies.
Qed.
Lemma page_calls_ok page data status w rest :
  length data = IFLASH0_PAGE_SIZE -> Z.odd status = true -> replies (w_env w) = page_answers status ++ rest ->
  exists w', page_calls page data w = Ok (tt, w') /\ exchanged (page_out page data) (page_answers status) w w' /\ replies (w_env w') = rest.
Proof.
  intros Hl Ho Hr. unfold page_answers in Hr. rewrite <- app_assoc in Hr.
  destruct (upload_ok _PAGEBUFFER data (pieces 4 data) w ([status] ++ rest) (pieces_chunked 4 data Hl) Hr) as (w1 & H1 & X1 & R1). unfold page_calls. mstep H1.
  unfold sam_ba_write_word, sam_ba_jump. destruct (sam_write_ok fuel (word_command _APPLET_PAGE (EEFC_FCR_FARG (Z.of_nat page))) w1) as (w2 & H2 & X2). mstep H2.
  destruct (sam_write_ok fuel (jump_command _APPLET) w2) as (w3 & H3 & X3). mstep H3. cbn [flash_wait]. unfold sam_ba_read_byte. rewrite bind_assoc.
  destruct (sam_write_ok fuel (status_command EEFC_FSR) w3) as (w4 & H4 & X4). mstep H4.
  assert (exchanged (page_out page data) (upload_answers 4) w w4) as X.
  { unfold page_out. rewrite <- (app_nil_r (upload_answers 4)). eapply exchanged_trans; [exact X1|].
    do 2 (eapply (exchanged_trans _ [] _ []); [eassumption|]). exact X4. }
  pose proof (exchanged_replies _ _ _ _ _ X Hr) as R4. destruct (getbyte_ok status rest w4 R4) as (w5 & H5 & X5). mstep H5.
  rewrite <- Z.bit0_odd in Ho. assert (ctrue (Z.land status 1) = true) as ->.
  { apply ctrue_nonzero. intros H0. apply (f_equal (fun z => Z.testbit z 0)) in H0. rewrite Z.land_spec, Ho in H0. done. }
  exists w5. split; [done|]. split.
  - rewrite <- (app_nil_r (page_out page data)). by eapply exchanged_trans.
  - by eapply exchanged_replies.
Qed.
Lemma pages_calls_ok datas : forall page answers w rest,
  Forall (fun d => length d = IFLASH0_PAGE_SIZE) datas -> length answers = length datas -> Forall (fun b => Z.odd b = true) answers ->
  replies (w_env w) = mjoin (map page_answers answers) ++ rest ->
  exists w', pages_calls page datas w = Ok (tt, w') /\ exchanged (pages_out page datas) (mjoin (map page_answers answers)) w w'.
Proof.
  induction datas as [|data datas IH]; intros page [|status answers] w rest Hl Hn Ho Hr; try discriminate Hn.
  - exists w. split; [done|]. apply exchanged_refl.
  - apply Forall_cons in Hl as [Hl Hls]. apply Forall_cons in Ho as [Ho Hos]. injection Hn as Hn. cbn [map] in Hr |- *. rewrite mjoin_cons in Hr |- *.
    rewrite <- app_assoc in Hr. destruct (page_calls_ok page data status w _ Hl Ho Hr) as (w1 & H1 & X1 & R1). cbn [pages_calls]. mstep H1.
    destruct (IH (S page) answers w1 rest Hls Hn Hos R1) as (w' & H & X). exists w'. split; [exact H|].
    unfold pages_out. cbn [imap]. rewrite mjoin_cons, Nat.add_0_r. eapply exchanged_trans; [exact X1|].
    rewrite (imap_ext _ (fun j d => page_out (S page + j) d)) by (intros j x _; unfold compose; f_equal; lia). exact X.
Qed.
End Calls.

(** ** Theorems *)



(** A page that was uploaded is not written: [sam_ba_copy] reports success as 0,
    which the updater takes for a failure, so that it sends the data of the first
    page and neither its number nor the jump. *)
Theorem page_upload_gives_up {E} `{!Bridge E, !Usb E, !BridgeOk E} fuel todo page pagedata data (w : world E) rest :
  rd pagedata (page * IFLASH0_PAGE_SIZE) IFLASH0_PAGE_SIZE = Some data -> replies (w_env w) = [67] ++ replicate 5 ACK ++ rest ->
  exists w', pages_loop fuel (S todo) page pagedata w = (_lf_assert (err_code E_UNIMPLEMENTED);; mret false) w' /\
    exchanged (upload _PAGEBUFFER data (pieces 4 data)) ([67] ++ replicate 5 ACK) w w'.
Proof.
  intros Hd Hr. assert (length data = IFLASH0_PAGE_SIZE) as Hl.
  { unfold rd in Hd. case_decide; [|done]. injection Hd as <-. rewrite length_take, length_drop. unfold IFLASH0_PAGE_SIZE in *. lia. }
  destruct (sam_ba_copy_ok fuel _PAGEBUFFER data) as (chunks & Hc & Hrun).
  rewrite (chunked_unique _ _ _ Hc (pieces_chunked 4 data Hl)) in *.
  destruct (Hrun w rest Hr) as (w' & H & Hx). exists w'. split; [|exact Hx].
  cbn [pages_loop]. rewrite (bind_lift_opt _ _ _ _ Hd). mstep H. done.
Qed.


Lemma page_upload_example :
  exists w', pages_loop 4 1 0 (replicate 512 7) (dfu_world ([67] ++ replicate 5 ACK)) = Ok (false, w') /\
    dfu_sent (w_env w') = upload _PAGEBUFFER (replicate 512 7) (pieces 4 (replicate 512 7)).
Proof. vm_compute. eexists. split; reflexivity. Qed.
