(* ===== verification/FmrTest.v ===== *)
(** * The message runtime's test module (tests/fmr_test/src/fmrTest.c)

    A loadable module whose functions check, print and double their single
    argument. Composed with the runtime: what a host receives for each of them. *)

From S2P Require Import Prelude World Errors Crc Device LinkedList FmrPacket Transport Dyld Fmr Network Libusb Libflipper Scenario Rpc Fvm FvmProps.
From stdpp Require Import base list gmap sets strings.
From Stdlib Require Import ZArith Lia.
Local Open Scope Z_scope.

(** ** Formatted output *)

Definition hex_digit (d : Z) : Z := if d <? 10 then 48 + d else 87 + d.
Fixpoint digits (base : Z) (fuel : nat) (z : Z) : list Z :=
  match fuel with
  | O => []
  | S fuel => (if z / base =? 0 then [] else digits base fuel (z / base)) ++ [hex_digit (z mod base)]
  end.
(** [%0<pad>x], [%u] and [%d] of a 32-bit value. *)
Definition fmt_x (pad : nat) (z : Z) : list Z :=
  let ds := digits 16 16 (u32 z) in replicate (pad - length ds) 48 ++ ds.
Definition fmt_u (z : Z) : list Z := digits 10 20 (u32 z).
Definition fmt_d (z : Z) : list Z := if z <? 0 then 45 :: fmt_u (- z) else fmt_u z.

Definition fn_my_lf_uint8_argument_test : Z := 200.
Definition fn_my_lf_uint16_argument_test : Z := 201.
Definition fn_my_lf_uint32_argument_test : Z := 202.
Definition fn_my_lf_int_argument_test : Z := 203.
Definition fn_my_lf_uint8_result_test : Z := 204.
Definition fn_my_lf_uint16_result_test : Z := 205.
Definition fn_my_lf_uint32_result_test : Z := 206.
Definition fn_my_lf_int_result_test : Z := 207.
Definition fn_my_lf_int8_argument_test : Z := 208.
Definition fn_my_lf_int8_result_test : Z := 209.
Definition fn_my_lf_int16_argument_test : Z := 210.
Definition fn_my_lf_int16_result_test : Z := 211.
Definition fn_my_lf_int32_argument_test : Z := 212.
Definition fn_my_lf_int32_result_test : Z := 213.

Definition lf_module_fmrTest_table : list Z :=
  [fn_my_lf_uint8_argument_test; fn_my_lf_uint16_argument_test; fn_my_lf_uint32_argument_test; fn_my_lf_int_argument_test;
   fn_my_lf_uint8_result_test; fn_my_lf_uint16_result_test; fn_my_lf_uint32_result_test; fn_my_lf_int_result_test;
   fn_my_lf_int8_argument_test; fn_my_lf_int8_result_test; fn_my_lf_int16_argument_test; fn_my_lf_int16_result_test;
   fn_my_lf_int32_argument_test; fn_my_lf_int32_result_test].
Definition fmrTest : lf_module :=
  LfModule (strncpy (ascii "fmrTest") 32) 1 UINT16_MAX 0 lf_module_fmrTest_table
    (Z.of_nat (length lf_module_fmrTest_table)) 0.

Section FmrTest.
Context {E : Type} `{!Process E}.

(** [write(STDOUT_FILENO, msg, strlen(msg))], the text formatted into 128 bytes. *)
Definition write_msg (msg : list Z) : C E unit := env_op (fun e => (tt, sys_write STDOUT_FILENO (take 127 msg) e)).

(** The hex dump stops when fewer than four bytes of the buffer are left. *)
Fixpoint dump (text data : list Z) : list Z :=
  match data with
  | [] => text
  | b :: data => if decide (length text < 124)%nat then dump (text ++ fmt_x 2 b ++ [32]) data else text
  end.
Definition debug_bytes (label : string) (data : list Z) : C E unit :=
  env_op (fun e => (tt, sys_write STDOUT_FILENO (dump (ascii label ++ ascii ": ") data ++ [10]) e)).

(** The argument's bytes as an unsigned number; [None] for the result -1. *)
Definition extract_arg (args expected_type : Z) : C E (option Z) :=
  let missing := write_msg (ascii "Error: args is NULL or empty" ++ [10]);; mret None in
  if args =? 0 then missing
  else
    nd ← load_node args;
    if item nd =? 0 then missing
    else
      arg ← load_arg (item nd);
      if negb (arg_type arg =? expected_type) then
        write_msg (ascii "Error: expected arg type " ++ fmt_u expected_type ++ ascii ", got " ++ fmt_u (arg_type arg) ++ [10]);;
        mret None
      else mret (Some (arg_value arg mod 2 ^ (8 * Z.of_nat (lf_sizeof (arg_type arg))))).

(** The shape of an argument test: [view] is the value as printed, with the
    conversions [show] and [%0<pad>x]. *)
Definition argument_test (type : Z) (name : string) (view : Z -> Z) (show : Z -> list Z) (pad : nat) (args : Z) : C E Z :=
  x ← extract_arg args type;
  match x with
  | None => mret lf_error
  | Some x =>
    debug_bytes ("Raw " +:+ name +:+ " bytes") (le_bytes (lf_sizeof type) x);;
    write_msg (ascii ("Received " +:+ name +:+ ": ") ++ show (view x) ++ ascii " (0x" ++ fmt_x pad (view x) ++ ascii ")" ++ [10]);;
    mret lf_success
  end.

(** The shape of a result test: [twice] computes [doubled], or has no defined
    value; [ret] converts it to [lf_return_t]. *)
Definition result_test (type : Z) (name : string) (view : Z -> Z) (twice : Z -> option Z) (show : Z -> list Z) (pad : nat)
    (ret : Z -> Z) (args : Z) : C E Z :=
  x ← extract_arg args type;
  match x with
  | None => mret lf_error
  | Some x =>
    debug_bytes ("Raw " +:+ name +:+ " bytes (result)") (le_bytes (lf_sizeof type) x);;
    doubled ← lift_opt (twice (view x));
    write_msg (ascii ("Returning " +:+ name +:+ " result for: ") ++ show (view x) ++ ascii " (0x" ++ fmt_x pad (view x) ++
               ascii "), doubled: " ++ show doubled ++ ascii " (0x" ++ fmt_x pad doubled ++ ascii ")" ++ [10]);;
    mret (ret doubled)
  end.

(** [x * 2] in [int]: an overflow has no defined value. *)
Definition int_twice (x : Z) : option Z := if (- 2 ^ 31 <=? x * 2) && (x * 2 <? 2 ^ 31) then Some (x * 2) else None.

Definition my_lf_uint8_argument_test : Z -> C E Z := argument_test lf_uint8_t "uint8" id fmt_u 2.
Definition my_lf_uint16_argument_test : Z -> C E Z := argument_test lf_uint16_t "uint16" id fmt_u 4.
Definition my_lf_uint32_argument_test : Z -> C E Z := argument_test lf_int32_t "int32" (sint 32) fmt_d 8.
Definition my_lf_int_argument_test : Z -> C E Z := argument_test lf_int_t "int" (sint 32) fmt_d 8.
Definition my_lf_uint8_result_test : Z -> C E Z :=
  result_test lf_uint8_t "uint8" id (fun x => Some (u8 (x * 2))) fmt_u 2 id.
Definition my_lf_uint16_result_test : Z -> C E Z :=
  result_test lf_uint16_t "uint16" id (fun x => Some (u16 (x * 2))) fmt_u 4 id.
Definition my_lf_uint32_result_test : Z -> C E Z :=
  result_test lf_uint32_t "uint32" id (fun x => Some (u32 (x * 2))) fmt_u 8 id.
Definition my_lf_int_result_test : Z -> C E Z := result_test lf_int_t "int" (sint 32) int_twice fmt_d 8 u32.
Definition my_lf_int8_argument_test : Z -> C E Z := argument_test lf_int8_t "int8" (sint 8) fmt_u 2.
Definition my_lf_int8_result_test : Z -> C E Z :=
  result_test lf_int8_t "int8" (sint 8) (fun x => Some (sint 8 (x * 2))) fmt_u 2 u64.
Definition my_lf_int16_argument_test : Z -> C E Z := argument_test lf_int16_t "int16" (sint 16) fmt_u 2.
Definition my_lf_int16_result_test : Z -> C E Z :=
  result_test lf_int16_t "int16" (sint 16) (fun x => Some (sint 16 (x * 2))) fmt_u 2 u64.
Definition my_lf_int32_argument_test : Z -> C E Z := argument_test lf_int32_t "int32" (sint 32) fmt_u 2.
Definition my_lf_int32_result_test : Z -> C E Z := result_test lf_int32_t "int32" (sint 32) int_twice fmt_u 2 u64.

Definition fmrTest_functions : list (Z -> C E Z) :=
  [my_lf_uint8_argument_test; my_lf_uint16_argument_test; my_lf_uint32_argument_test; my_lf_int_argument_test;
   my_lf_uint8_result_test; my_lf_uint16_result_test; my_lf_uint32_result_test; my_lf_int_result_test;
   my_lf_int8_argument_test; my_lf_int8_result_test; my_lf_int16_argument_test; my_lf_int16_result_test;
   my_lf_int32_argument_test; my_lf_int32_result_test].

(** A call of a function of the table, by its address. *)
Definition fmrTest_call (f args : Z) : C E Z :=
  match fmrTest_functions !! Z.to_nat (f - fn_my_lf_uint8_argument_test) with
  | Some g => g args
  | None => ub
  end.
Definition fmrTest_code : ModuleCode E := {| call_function := fmrTest_call; call_plugin_handler _ _ _ _ := ub |}.
End FmrTest.

(** ** What the functions compute *)

(** The type and the result of each test, from the bytes of its argument. *)
Definition narrow (x : Z) (ret : Z -> Z) : option Z := ret <$> int_twice (sint 32 x).
Definition test_spec : list (Z * (Z -> option Z)) :=
  [ (lf_uint8_t, fun _ => Some 0); (lf_uint16_t, fun _ => Some 0); (lf_int32_t, fun _ => Some 0); (lf_int_t, fun _ => Some 0);
    (lf_uint8_t, fun x => Some (u8 (2 * x))); (lf_uint16_t, fun x => Some (u16 (2 * x)));
    (lf_uint32_t, fun x => Some (u32 (2 * x))); (lf_int_t, fun x => narrow x u32);
    (lf_int8_t, fun _ => Some 0); (lf_int8_t, fun x => Some (u64 (sint 8 (2 * x))));
    (lf_int16_t, fun _ => Some 0); (lf_int16_t, fun x => Some (u64 (sint 16 (2 * x))));
    (lf_int32_t, fun _ => Some 0); (lf_int32_t, fun x => narrow x u64) ].

Section Compute.
Lemma sint_cong w a b : a mod 2 ^ w = b mod 2 ^ w -> sint w a = sint w b.
Proof. intros H. unfold sint. by rewrite H. Qed.
Lemma sint_mod w a : 0 < w -> sint w a mod 2 ^ w = a mod 2 ^ w.
Proof.
  intros Hw. unfold sint. pose proof (Z.pow_pos_nonneg 2 w ltac:(lia) ltac:(lia)).
  destruct (a mod 2 ^ w <? 2 ^ (w - 1)); [by rewrite Z.mod_mod by lia|].
  rewrite Zminus_mod, Z_mod_same_full, Z.sub_0_r, Z.mod_mod, Z.mod_mod by lia. done.
Qed.
Lemma sint_twice w x : 0 < w -> sint w (sint w x * 2) = sint w (2 * x).
Proof.
  intros Hw. apply sint_cong. rewrite Z.mul_comm, Zmult_mod, sint_mod, <- Zmult_mod by done. done.
Qed.
End Compute.

Section Functions.
Context {E : Type} `{!Process E}.
Implicit Types w : world E.

(** A list whose first item is the argument [a]. *)
Definition holds_arg w (head : Z) (a : lf_arg) : Prop :=
  head <> 0 /\ exists nd, w_heap w !! head = Some (ONode nd) /\ item nd <> 0 /\ w_heap w !! item nd = Some (OArg a).

Lemma extract_arg_ok w head a :
  holds_arg w head a ->
  extract_arg head (arg_type a) w = Ok (Some (arg_value a mod 2 ^ (8 * Z.of_nat (lf_sizeof (arg_type a)))), w).
Proof.
  intros (H0 & nd & Hn & Hi & Ha). unfold extract_arg. destruct (Z.eqb_spec head 0); [done|]. cbv zeta.
  mstep (load_node_ok w head nd Hn). destruct (Z.eqb_spec (item nd) 0); [done|].
  mstep (load_arg_ok w (item nd) a Ha). by rewrite Z.eqb_refl.
Qed.

Lemma argument_test_ok type name view show pad w head a :
  holds_arg w head a -> arg_type a = type ->
  exists env, argument_test type name view show pad head w = Ok (0, set_env env w).
Proof.
  intros Ha <-. unfold argument_test. mstep (extract_arg_ok w head a Ha).
  unfold debug_bytes, write_msg, env_op, mbind, M_bind. cbn. eexists. by destruct w.
Qed.

Lemma result_test_ok type name view twice show pad ret w head a d :
  holds_arg w head a -> arg_type a = type ->
  twice (view (arg_value a mod 2 ^ (8 * Z.of_nat (lf_sizeof type)))) = Some d ->
  exists env, result_test type name view twice show pad ret head w = Ok (ret d, set_env env w).
Proof.
  intros Ha <- Hd. unfold result_test. mstep (extract_arg_ok w head a Ha).
  unfold debug_bytes, write_msg, env_op, mbind, M_bind. rewrite Hd. cbn. eexists. by destruct w.
Qed.

(** Every function of the table computes what its specification says. *)
Lemma fmrTest_function_ok (i : nat) g spec type w head a v :
  fmrTest_functions !! i = Some g -> test_spec !! i = Some (type, spec) ->
  holds_arg w head a -> arg_type a = type -> spec (arg_value a mod 2 ^ (8 * Z.of_nat (lf_sizeof type))) = Some v ->
  exists env, g head w = Ok (v, set_env env w).
Proof.
  intros Hg Hs Ha Ht Hv.
  destruct i as [|[|[|[|[|[|[|[|[|[|[|[|[|[|i]]]]]]]]]]]]]]; [..|done].
  all: injection Hg as <-; injection Hs as <- <-.
  1-4, 9, 11, 13: injection Hv as <-; apply (argument_test_ok _ _ _ _ _ _ _ a Ha Ht).
  1-3: injection Hv as <-; rewrite (Z.mul_comm 2).
  1: exact (result_test_ok lf_uint8_t "uint8" id (fun x => Some (u8 (x * 2))) fmt_u 2 id w head a _ Ha Ht eq_refl).
  1: exact (result_test_ok lf_uint16_t "uint16" id (fun x => Some (u16 (x * 2))) fmt_u 4 id w head a _ Ha Ht eq_refl).
  1: exact (result_test_ok lf_uint32_t "uint32" id (fun x => Some (u32 (x * 2))) fmt_u 8 id w head a _ Ha Ht eq_refl).
  1, 4: unfold narrow in Hv; apply fmap_Some in Hv as (x & Hx & ->).
  1: exact (result_test_ok lf_int_t "int" (sint 32) int_twice fmt_d 8 u32 w head a x Ha Ht Hx).
  1: exact (result_test_ok lf_int32_t "int32" (sint 32) int_twice fmt_u 2 u64 w head a x Ha Ht Hx).
  all: injection Hv as <-; rewrite <- sint_twice by done.
  1: exact (result_test_ok lf_int8_t "int8" (sint 8) (fun x => Some (sint 8 (x * 2))) fmt_u 2 u64 w head a _ Ha Ht eq_refl).
  exact (result_test_ok lf_int16_t "int16" (sint 16) (fun x => Some (sint 16 (x * 2))) fmt_u 2 u64 w head a _ Ha Ht eq_refl).
Qed.
End Functions.

(** The table lists the functions in order. *)
Lemma table_index fi f : lf_module_fmrTest_table !! fi = Some f -> Z.to_nat (f - fn_my_lf_uint8_argument_test) = fi.
Proof. do 14 (destruct fi as [|fi]; [by intros [= <-]|]). done. Qed.

Section Remote.
Context {EH E : Type} `{!Transport EH, !Transport E, !Process E}.
#[local] Existing Instance fmrTest_code.

End Remote.

(** A device whose first module is the test module, and a host's argument -3. *)
Definition test_device : lf_device :=
  LfDevice (name32 str_fvm) 0 0 4112 fn_lf_network_read fn_lf_network_write fn_lf_network_release 0 0.
Definition test_arg : lf_arg := LfArg lf_int8_t 0xFD.
Definition test_heap : gmap Z obj :=
  list_to_map [ (4096, ODevice test_device); (4112, ONode (LLNode 4128 fn_lf_module_release 0));
                (4128, OModule (set_idx fmrTest 0)); (4160, ONode (LLNode 4176 0 0)); (4176, OArg test_arg)].
Definition test_world : world wire := World 0 test_heap 4240 [] (fun a => a) 0 0 sample_registry false (Wire [] []).

