(* ===== verification/OsProps.v ===== *)
(** * Properties of Osmium

    The scheduler's invariant over all its operations, fairness of the timer
    tick, the release of tasks, and what the image loader does to an image. *)

From S2P Require Import Prelude Errors Scheduler Loader.
From stdpp Require Import base list gmap sets.
From Stdlib Require Import ZArith Lia.
Local Open Scope Z_scope.

(** ** Scheduling *)

(** The scheduler's events. A release is of the task behind the kernel task,
    while it neither runs nor is about to run. *)
Inductive sched_step : sched -> sched -> Prop :=
| st_tick s s' : systick_exception s = Ok (tt, s') -> sched_step s s'
| st_switch s s' : s_pendsv s = true -> os_update_task_pointers s = Ok (tt, s') -> sched_step s (ss_pendsv false s')
| st_load s s' header entry r :
    Forall (fun b => b = false) (s_fail s) -> s_count s < 255 ->
    os_load_application header entry s = Ok (r, s') -> sched_step s s'
| st_pause s s' pid r : os_task_pause pid s = Ok (r, s') -> sched_step s s'
| st_release s s' h task t r :
    s_tasks s !! s_head s = Some h -> t_next h = task -> task <> s_head s -> s_tasks s !! task = Some t ->
    releasable s t -> s_current s <> task -> s_next_task s <> task ->
    os_task_release task s = Ok (r, s') -> sched_step s s'.

(** Consistent, and a pending switch leads into the ring. *)
Definition sched_inv (s : sched) : Prop :=
  exists l, sched_ok s l /\ (s_pendsv s = true -> s_next_task s ∈ l).

Section Invariant.
Lemma inv_pause s s' pid r : sched_inv s -> os_task_pause pid s = Ok (r, s') -> sched_inv s'.
Proof.
  intros (l & Hok & Hnx) Hrun. destruct (decide (pid = 0)) as [->|H0].
  { change (os_task_pause 0 s) with (Ok (lf_error, ss_err (err_code E_INVALID_TASK) s)) in Hrun. simplify_eq.
    exists l. split; [by destruct Hok|done]. }
  destruct (os_task_pause_ok s l pid Hok H0) as [(p & s1 & t & _ & Hrun' & Hok' & _ & _ & _ & Hcase)|Hrun'];
    rewrite Hrun in Hrun'; simplify_eq.
  - exists l. split; [done|]. destruct Hcase as [Hin|[-> ->]]; [done|exact Hnx].
  - exists l. split; [by destruct Hok|done].
Qed.

Lemma inv_release s s' h task t r :
  sched_inv s -> s_tasks s !! s_head s = Some h -> t_next h = task -> task <> s_head s ->
  s_tasks s !! task = Some t -> releasable s t -> s_current s <> task -> s_next_task s <> task ->
  os_task_release task s = Ok (r, s') -> sched_inv s'.
Proof.
  intros (l & Hok & Hnx) Hh Hth Hne Ht Hrel Hcur Hnt Hrun.
  pose proof (so_ring _ _ Hok) as [Hnd Hr]. pose proof (so_head _ _ Hok) as H0.
  destruct l as [|a [|b rest]]; [done|..]; injection H0 as ->.
  { destruct (Hr 0%nat _ eq_refl) as (h' & Hh' & Hx). simplify_eq/=. }
  destruct (Hr 0%nat _ eq_refl) as (h' & Hh' & Hx). simplify_eq.
  change (length (s_head s :: b :: rest)) with (S (S (length rest))) in Hx.
  rewrite Nat.mod_small in Hx by lia. injection Hx as ->.
  destruct (os_task_release_second s (s_head s) (t_next h) rest t Hok Ht Hrel Hcur)
    as (s1 & Hrun' & Hok' & _ & _ & _ & Hn1 & Hp1). rewrite Hrun in Hrun'. simplify_eq.
  exists (s_head s :: rest). split; [done|]. rewrite Hp1, Hn1. intros Hp. specialize (Hnx Hp).
  apply elem_of_cons in Hnx as [->|Hnx]; [by left|]. apply elem_of_cons in Hnx as [Hx|Hnx]; [done|by right].
Qed.
End Invariant.


Definition kernel_addr : Z := 0x20002000.
Definition kernel_ring : list Z := [kernel_addr].
(** Power-on memory: the allocator starts at 0x20002000. *)
Definition cold : sched :=
  Sched ∅ ∅ ∅ ∅ kernel_addr [] 0 0 0 0 0 false true 0 0 0 0.
Definition booted : sched := match os_scheduler_init cold with Ok (_, s) => s | _ => cold end.

Lemma booted_ok : sched_ok booted kernel_ring.
Proof.
  destruct (os_scheduler_init_ok cold) as (s & Hrun & Hok & _).
  - constructor.
  - reflexivity.
  - intros p t Ht. cbn in Ht. rewrite lookup_empty in Ht. discriminate.
  - intros p z Hz. cbn in Hz. rewrite lookup_empty in Hz. discriminate.
  - unfold booted. rewrite Hrun. exact Hok.
Qed.

(** After boot: one application is loaded, the timer ticks, tasks switch. *)
Definition loaded : sched := match os_load_application 0x20010000 1 booted with Ok (_, s) => s | _ => booted end.
Definition switched : sched := match os_update_task_pointers loaded with Ok (_, s) => ss_pendsv false s | _ => loaded end.

Lemma booted_inv : sched_inv booted.
Proof. exists kernel_ring. split; [apply booted_ok|]. by vm_compute. Qed.

Lemma loaded_run : os_load_application 0x20010000 1 booted = Ok (lf_success, loaded).
Proof.
  destruct (os_load_application_ok booted _ 0x20010000 1 booted_ok) as (s & Hrun & _).
  - vm_compute. constructor.
  - vm_compute. lia.
  - unfold loaded. by rewrite Hrun.
Qed.


(** C23: The timer tick is fair: with no task paused, [n] ticks with their
    context switches move the running task [n] places round the ring, so every
    task runs once in any [length l] consecutive ticks. *)
Theorem tick_is_round_robin s l i n :
  sched_ok s l -> l !! i = Some (s_current s) ->
  (forall p t, s_tasks s !! p = Some t -> t_status t <> os_task_status_paused) ->
  exists s', Nat.iter n (fun m => tick;; m) (mret tt) s = Ok (tt, s') /\ sched_ok s' l /\
    l !! ((i + n) mod length l)%nat = Some (s_current s').
Proof. apply tick_round_robin. Qed.

Lemma tick_is_round_robin_witness :
  exists s', Nat.iter 3 (fun m => tick;; m) (mret tt) booted = Ok (tt, s') /\ sched_ok s' kernel_ring /\
    kernel_ring !! ((0 + 3) mod length kernel_ring)%nat = Some (s_current s').
Proof.
  apply (tick_is_round_robin booted kernel_ring 0 3 booted_ok).
  - vm_compute. reflexivity.
  - intros p t Ht. apply (bool_decide_unpack (map_Forall (fun _ t => t_status t <> os_task_status_paused) (s_tasks booted)))
      with (i := p); [vm_compute; exact I|exact Ht].
Defined.

(** C24: Scheduling always terminates and skips exactly the paused tasks: from a
    running task in the ring, [os_task_next] selects the first following task
    that is not paused (at the latest the task itself), marks it active and
    requests the switch. *)
Theorem next_skips_paused s l i :
  ring (s_tasks s) l -> l !! i = Some (s_current s) -> s_current s <> 0 ->
  exists k a s' t, os_task_next s = Ok (tt, s') /\ s_next_task s' = a /\ s_pendsv s' = true /\
    (1 <= k <= length l)%nat /\ l !! ((i + k) mod length l)%nat = Some a /\
    (forall k', (1 <= k' < k)%nat -> paused_at (s_tasks s) l (i + k')) /\
    (k < length l -> ~ paused_at (s_tasks s) l (i + k))%nat /\
    s_tasks s' !! a = Some t /\ t_status t = os_task_status_active.
Proof.
  intros Hr Hi H0. destruct (os_task_next_running s l i Hr Hi H0) as (k & a & c & t & Hk & Ha & Hp & Hnp & Hc & Ht & Hrun).
  eexists k, a, _, _. split; [exact Hrun|]. do 6 (split; [done|]). split; [apply lookup_insert_eq|done].
Qed.

Lemma next_skips_paused_witness :
  exists k a s' t, os_task_next booted = Ok (tt, s') /\ s_next_task s' = a /\ s_pendsv s' = true /\
    (1 <= k <= 1)%nat /\ kernel_ring !! ((0 + k) mod 1)%nat = Some a /\
    (forall k', (1 <= k' < k)%nat -> paused_at (s_tasks booted) kernel_ring (0 + k')) /\
    (k < 1 -> ~ paused_at (s_tasks booted) kernel_ring (0 + k))%nat /\
    s_tasks s' !! a = Some t /\ t_status t = os_task_status_active.
Proof.
  apply (next_skips_paused booted kernel_ring 0).
  - exact (so_ring _ _ booted_ok).
  - vm_compute. reflexivity.
  - vm_compute. discriminate.
Defined.

(** A new task starts where it should: its saved stack pointer lies 64
    bytes below the top of its own stack, and the frame the first context switch
    pops holds the entry point as program counter, the task-exit routine as
    return address and a valid status word. *)
Theorem new_task_frame s entry exit header size :
  Forall (fun b => b = false) (s_fail s) -> 0 < s_brk s -> 64 <= size ->
  exists s' t, os_task_create entry exit header size s = Ok (s_brk s, s') /\
    s_tasks s' !! s_brk s = Some t /\ t_next t = s_head s /\ t_pid t = s_next_pid s /\
    s_next_pid s' = s_next_pid s + 1 /\
    t_stack t <= t_sp t /\ t_sp t + 64 = t_stack t + size /\ s_stacks s' !! t_stack t = Some size /\
    s_mem s' !! (t_sp t + 56) = Some (u32 entry) /\
    s_mem s' !! (t_sp t + 52) = Some fn_os_task_finished /\
    s_mem s' !! (t_sp t + 60) = Some 0x01000000.
Proof.
  intros Hf Hb Hsz. eexists _, _. split; [by apply os_task_create_ok|].
  split; [apply lookup_insert_eq|]. cbn [t_next t_pid t_stack t_sp created s_next_pid s_stacks s_mem ss_tasks ss_mem ss_pid ss_alloc ss_stacks].
  set (top := s_brk s + sizeof_os_task + size).
  split_and!; try done; try (unfold top; lia); [apply lookup_insert_eq|..]; unfold frames;
    rewrite ?lookup_insert_ne by lia.
  - replace (top - 64 + 56) with (top - 8) by lia. apply lookup_insert_eq.
  - replace (top - 64 + 52) with (top - 12) by lia. apply lookup_insert_eq.
  - replace (top - 64 + 60) with (top - 4) by lia. rewrite ?lookup_insert_ne by lia. apply lookup_insert_eq.
Qed.

Lemma new_task_frame_witness :
  exists s' t, os_task_create 0x401000 0 0 512 cold = Ok (kernel_addr, s') /\
    s_tasks s' !! kernel_addr = Some t /\ t_next t = 0 /\ t_pid t = 0 /\ s_next_pid s' = 1 /\
    t_stack t <= t_sp t /\ t_sp t + 64 = t_stack t + 512 /\ s_stacks s' !! t_stack t = Some 512 /\
    s_mem s' !! (t_sp t + 56) = Some (u32 0x401000) /\
    s_mem s' !! (t_sp t + 52) = Some fn_os_task_finished /\
    s_mem s' !! (t_sp t + 60) = Some 0x01000000.
Proof. apply (new_task_frame cold 0x401000 0 0 512); [constructor|reflexivity|discriminate]. Defined.

(** Only the task behind the kernel task is unlinked on release: after
    releasing a task further down the ring while its predecessor runs, the
    predecessor still links to the freed record, and the next tick has no defined
    behaviour. *)
Theorem release_leaves_dangling_link s l i task t :
  sched_ok s l -> l !! i = Some task -> (2 <= i)%nat -> s_tasks s !! task = Some t -> releasable s t ->
  l !! (i - 1)%nat = Some (s_current s) ->
  exists s', os_task_release task s = Ok (lf_success, s') /\ s_tasks s' !! task = None /\
    systick_exception s' = Ub.
Proof.
  intros Hok Hi Hi2 Ht Hrel Hcur.
  destruct (os_task_release_dangling s l i task t Hok Hi Hi2 Ht Hrel Hcur) as (s' & c & Hrun & Hc & Hcc & Hnx & Hgone).
  exists s'. split; [done|]. split; [done|]. destruct (sched_ok_current_pos _ _ Hok) as (_ & _ & H0).
  assert (s_current s <> task) as Hne by congruence.
  unfold systick_exception, os_task_next. rewrite bind_gets, Hc, ctrue_nonzero by done.
  rewrite (bind_Ok _ _ _ tt (ss_next task (ss_tasks (<[s_current s := t_set_status os_task_status_idle c]> (s_tasks s')) s'))).
  2: { mstep (load_task_ok s' _ c Hcc). mstep (store_task_ok s' (s_current s) (t_set_status os_task_status_idle c) c Hcc).
       by rewrite Hnx. }
  rewrite bind_get. apply bind_Ub. set (s1 := ss_next task _).
  assert (load_task task s1 = Ub) as Hl by (unfold load_task; cbn; by rewrite lookup_insert_ne, Hgone).
  destruct (size (s_tasks s1)); cbn [check_loop]; rewrite bind_gets; by apply bind_Ub.
Qed.

(** Two applications behind the kernel task, the first one running. *)
Definition with_headers : sched := ss_headers {[0x20010000; 0x20020000]} booted.
Definition one_app : sched := match os_load_application 0x20010000 1 with_headers with Ok (_, s) => s | _ => cold end.
Definition two_apps : sched := match os_load_application 0x20020000 1 one_app with Ok (_, s) => ss_current (s_next_task s) s | _ => cold end.
Definition app1 : Z := s_brk with_headers.
Definition app2 : Z := s_brk one_app.

Lemma two_apps_ok : sched_ok two_apps [kernel_addr; app1; app2].
Proof.
  assert (sched_ok with_headers kernel_ring) as H0 by (exact (sched_ok_headers _ _ _ booted_ok)).
  destruct (os_load_application_ok with_headers _ 0x20010000 1 H0) as (s1 & Hrun1 & H1 & _); [by vm_compute|by vm_compute; lia|].
  assert (one_app = s1) as <- by (unfold one_app; by rewrite Hrun1).
  destruct (os_load_application_ok one_app _ 0x20020000 1 H1) as (s2 & Hrun2 & H2 & Hin); [by vm_compute|by vm_compute; lia|].
  assert (two_apps = ss_current (s_next_task s2) s2) as -> by (unfold two_apps; by rewrite Hrun2).
  exact (sched_ok_current _ _ _ H2 Hin).
Qed.

Lemma release_leaves_dangling_link_witness :
  exists s', os_task_release app2 two_apps = Ok (lf_success, s') /\ s_tasks s' !! app2 = None /\ systick_exception s' = Ub.
Proof.
  destruct (s_tasks two_apps !! app2) as [t|] eqn:Ht; [|vm_compute in Ht; discriminate].
  apply (release_leaves_dangling_link two_apps [kernel_addr; app1; app2] 2 app2 t two_apps_ok).
  - reflexivity.
  - lia.
  - exact Ht.
  - vm_compute in Ht. injection Ht as <-. split.
    + right. split; [reflexivity|]. split; [apply (bool_decide_unpack _); vm_compute; exact I|discriminate].
    + split; [discriminate|]. eexists. vm_compute. reflexivity.
  - vm_compute. reflexivity.
Defined.

(** ** Loading images *)

(** C25: Relocation is correct: when the three regions the loader works on are
    disjoint, lie behind the header and inside the image, loading succeeds, every
    word of the module table and of the global offset table is increased by the
    image's address (modulo 2^32), and the loader ends by registering a module
    exactly when the image has no entry point. *)
Theorem load_relocates header img hd :
  read_header img = Some hd -> header_untouched hd -> regions_fit hd (length img) ->
  (module_at hd + 4 * module_words hd <= got_at hd)%nat ->
  (zero_at hd + 4 * zero_words hd <= module_at hd \/
   (module_at hd + 4 * module_words hd <= zero_at hd /\ (zero_at hd + 4 * zero_words hd <= got_at hd)) \/
   got_at hd + 4 * got_words hd <= zero_at hd)%nat ->
  exists img' r, os_load_image header img = Some (img', r) /\
    (forall i, (i < module_words hd)%nat -> exists v, word img (module_at hd + 4 * i) = Some v /\
       word img' (module_at hd + 4 * i) = Some (u32 (v + header))) /\
    (forall i, (i < got_words hd)%nat -> exists v, word img (got_at hd + 4 * i) = Some v /\
       word img' (got_at hd + 4 * i) = Some (u32 (v + header))) /\
    (r = LoadedApplication <-> h_entry hd <> 0).
Proof.
  intros Hhd Hu Hfit Hmg Hz.
  destruct (os_load_image_ok header img hd Hhd Hu Hfit) as (img1 & img2 & img' & H1 & H2 & H3 & Hrun).
  eexists img', _. split; [exact Hrun|].
  destruct (patch_words_ok _ _ _ _ _ H1) as [Hin1 Hout1]. destruct (patch_words_ok _ _ _ _ _ H2) as [Hin2 Hout2].
  destruct (clear_words_ok _ _ _ _ H3) as [_ Hout3]. split; [|split].
  - intros i Hi. destruct (Hin1 i Hi) as (v & Hv & Hv'). exists v. split; [done|].
    unfold word, rd_le in *. rewrite Hout3, Hout2; [done|..]; unfold outside; lia.
  - intros i Hi. destruct (Hin2 i Hi) as (v & Hv & Hv'). exists v. unfold word, rd_le in *.
    rewrite Hout1 in Hv by (unfold outside; lia). split; [done|]. rewrite Hout3; [done|]. unfold outside; lia.
  - unfold ctrue. destruct (Z.eqb_spec (h_entry hd) 0); cbn [negb]; split; congruence.
Qed.

(** An image with one table word at byte 64 and one offset-table word at 192;
    the loader zeroes the word at byte 48. *)
Definition sample_image : list Z :=
  (mjoin (le_bytes 4 <$> [0; 0; 0; 4; 16; 0; 0; 4; 100; 4; 48])) ++ replicate 20 0 ++ le_bytes 4 8 ++
  replicate 124 0xAA ++ le_bytes 4 24 ++ replicate 60 0xAA.
Definition sample_header : lf_abi_header := AbiHeader 0 0 0 4 16 0 0 4 100 4 48.

Lemma load_relocates_witness :
  exists img' r, os_load_image 0x20000000 sample_image = Some (img', r) /\
    word img' 64 = Some (u32 (8 + 0x20000000)) /\ word img' 192 = Some (u32 (24 + 0x20000000)).
Proof.
  destruct (load_relocates 0x20000000 sample_image sample_header) as (img' & r & Hrun & Hm & Hg & _).
  - vm_compute. reflexivity.
  - vm_compute. split; [right; lia|]. split; [right; lia|]. right; lia.
  - vm_compute. lia.
  - vm_compute. lia.
  - vm_compute. left. lia.
  - exists img', r. split; [exact Hrun|].
    destruct (Hm 0%nat) as (v & Hv & Hv'); [vm_compute; lia|]. destruct (Hg 0%nat) as (x & Hx & Hx'); [vm_compute; lia|].
    vm_compute in Hv. injection Hv as <-. vm_compute in Hx. injection Hx as <-. split; [exact Hv'|exact Hx'].
Defined.

(** The BSS section is not zeroed: the loader clears words from the offset
    of the offset table instead. Loading succeeds, and every byte of the section
    that lies outside the regions the loader writes keeps the value it had in the
    image. *)
Theorem load_does_not_zero_bss header img hd :
  read_header img = Some hd -> header_untouched hd -> regions_fit hd (length img) ->
  let bss := Z.to_nat (h_bss_offset hd) in
  let size := Z.to_nat (h_bss_size hd) in
  outside (module_at hd) (module_words hd) bss size -> outside (got_at hd) (got_words hd) bss size ->
  outside (zero_at hd) (zero_words hd) bss size ->
  exists img' r, os_load_image header img = Some (img', r) /\ rd img' bss size = rd img bss size.
Proof.
  intros Hhd Hu Hfit bss size O1 O2 O3.
  destruct (os_load_image_ok header img hd Hhd Hu Hfit) as (img1 & img2 & img' & H1 & H2 & H3 & Hrun).
  eexists img', _. split; [exact Hrun|].
  destruct (patch_words_ok _ _ _ _ _ H1) as [_ F1]. destruct (patch_words_ok _ _ _ _ _ H2) as [_ F2].
  destruct (clear_words_ok _ _ _ _ H3) as [_ F3]. by rewrite F3, F2, F1.
Qed.

Lemma load_does_not_zero_bss_witness :
  exists img' r, os_load_image 0x20000000 sample_image = Some (img', r) /\ rd img' 100 4 = Some [0xAA; 0xAA; 0xAA; 0xAA].
Proof.
  destruct (load_does_not_zero_bss 0x20000000 sample_image sample_header) as (img' & r & Hrun & Hb).
  - vm_compute. reflexivity.
  - vm_compute. split; [right; lia|]. split; [right; lia|]. right; lia.
  - vm_compute. lia.
  - vm_compute. right. lia.
  - vm_compute. left. lia.
  - vm_compute. right. lia.
  - exists img', r. split; [exact Hrun|]. vm_compute in Hb. exact Hb.
Defined.
