(* ===== verification/Arm.v ===== *)
(** * The processor that runs Osmium and its context switch (os/arch/armv7/pendsv.S)

    A thread's view of the Cortex-M4: thirteen general registers, the link
    register, program counter, status word and process stack pointer. The
    instructions of the assembly source are data, with an interpreter over any
    [Memory]; exception entry and return are the processor's own steps (8-byte
    stack alignment on entry, recorded in bit 9 of the stacked status word). *)

From S2P Require Import Prelude Errors Scheduler.
From stdpp Require Import base list gmap sets.
From Stdlib Require Import ZArith Lia.
Local Open Scope Z_scope.

Inductive reg := R0 | R1 | R2 | R3 | R4 | R5 | R6 | R7 | R8 | R9 | R10 | R11 | R12 | LR.
#[global] Instance reg_eq_dec : EqDecision reg.
Proof. solve_decision. Defined.

(** What belongs to the running thread. *)
Record thread := Thread { x_reg : reg -> Z; x_pc : Z; x_psr : Z; x_psp : Z }.

(** Memory as the processor's word accesses see it; [None] is a fault. *)
Class Memory (S : Type) := {
  load : Z -> S -> option Z;
  store : Z -> Z -> S -> option S;
}.

(** The processor: its thread, its interrupt mask and its memory. *)
Record cpu (S : Type) := Cpu { p_thread : thread; p_irq : bool; p_mem : S }.
Arguments Cpu {S} p_thread p_irq p_mem.
Arguments p_thread {S} c.
Arguments p_irq {S} c.
Arguments p_mem {S} c.

Definition set_reg (r : reg) (v : Z) (x : thread) : thread :=
  Thread (fun r' => if decide (r' = r) then v else x_reg x r') (x_pc x) (x_psr x) (x_psp x).
Definition set_psp (v : Z) (x : thread) : thread := Thread (x_reg x) (x_pc x) (x_psr x) v.

(** The instructions pendsv.S uses; [LDR_lit] is [ldr rd, =value]. *)
Inductive instr :=
| CPSID_i | CPSIE_i
| MRS_psp (rd : reg) | MSR_psp (rn : reg)
| SUBS (rd : reg) (imm : Z)
| MOV (rd rm : reg)
| STMIA (rn : reg) (rs : list reg)
| LDMIA (rn : reg) (rs : list reg)
| LDR_lit (rd : reg) (value : Z)
| LDR (rd rn : reg)
| STR (rd rn : reg)
| BL (f : Z)
| BX (rn : reg).

Section Isa.
Context {S : Type} `{!Memory S}.
(** The C functions the assembly calls, by address. *)
Context (c_call : Z -> M S unit).
(** What a C function leaves in the registers it need not preserve. *)
Context (clobber : reg -> Z).
Abbreviation P_ := (M (cpu S)).

Definition rget (r : reg) : P_ Z := gets (fun p => x_reg (p_thread p) r).
Definition rset (r : reg) (v : Z) : P_ unit := modify (fun p => Cpu (set_reg r v (p_thread p)) (p_irq p) (p_mem p)).
Definition mget (a : Z) : P_ Z := fun p =>
  match load a (p_mem p) with Some v => Ok (v, p) | None => Ub end.
Definition mset (a v : Z) : P_ unit := fun p =>
  match store a v (p_mem p) with Some m => Ok (tt, Cpu (p_thread p) (p_irq p) m) | None => Ub end.

(** Registers stored at (loaded from) consecutive words from [a]. *)
Fixpoint store_regs (a : Z) (rs : list reg) : P_ unit :=
  match rs with
  | [] => mret tt
  | r :: rs => v ← rget r; mset a v;; store_regs (a + 4) rs
  end.
Fixpoint load_regs (a : Z) (rs : list reg) : P_ unit :=
  match rs with
  | [] => mret tt
  | r :: rs => v ← mget a; rset r v;; load_regs (a + 4) rs
  end.

(** Multiple loads and stores fault on addresses that are not word aligned. *)
Definition aligned (a : Z) : P_ unit := if a mod 4 =? 0 then mret tt else ub.

(** Registers a called function may change. *)
Definition caller_saved (r : reg) : bool :=
  match r with R0 | R1 | R2 | R3 | R12 | LR => true | _ => false end.
Definition scratched (x : thread) : thread :=
  Thread (fun r => if caller_saved r then clobber r else x_reg x r) (x_pc x) (x_psr x) (x_psp x).

(** A call of a C function. *)
Definition call (f : M S unit) : P_ unit := fun p =>
  match f (p_mem p) with
  | Ok (_, m) => Ok (tt, Cpu (scratched (p_thread p)) (p_irq p) m)
  | Ub => Ub
  | Spin => Spin
  end.

(** One instruction; [BX] gives the address it branches to. *)
Definition exec (i : instr) : P_ (option Z) :=
  match i with
  | CPSID_i => modify (fun p => Cpu (p_thread p) false (p_mem p));; mret None
  | CPSIE_i => modify (fun p => Cpu (p_thread p) true (p_mem p));; mret None
  | MRS_psp rd => v ← gets (fun p => x_psp (p_thread p)); rset rd v;; mret None
  | MSR_psp rn => v ← rget rn; modify (fun p => Cpu (set_psp v (p_thread p)) (p_irq p) (p_mem p));; mret None
  | SUBS rd imm => v ← rget rd; rset rd (u32 (v - imm));; mret None
  | MOV rd rm => v ← rget rm; rset rd v;; mret None
  | STMIA rn rs =>
    a ← rget rn; aligned a;; store_regs a rs;; rset rn (u32 (a + 4 * Z.of_nat (length rs)));; mret None
  | LDMIA rn rs =>
    a ← rget rn; aligned a;; load_regs a rs;; rset rn (u32 (a + 4 * Z.of_nat (length rs)));; mret None
  | LDR_lit rd value => rset rd value;; mret None
  | LDR rd rn => a ← rget rn; v ← mget a; rset rd v;; mret None
  | STR rd rn => a ← rget rn; v ← rget rd; mset a v;; mret None
  | BL f => call (c_call f);; mret None
  | BX rn => v ← rget rn; mret (Some v)
  end.

(** Runs to the branch; running past the end has no meaning. *)
Fixpoint run (prog : list instr) : P_ Z :=
  match prog with
  | [] => ub
  | i :: prog => o ← exec i; match o with Some v => mret v | None => run prog end
  end.

(** ** Exceptions of a thread that uses the process stack *)

Definition EXC_RETURN_thread_psp : Z := 0xFFFFFFFD.
Definition stacked : list reg := [R0; R1; R2; R3; R12; LR].

(** The frame lies below the stack pointer, at the next multiple of eight. *)
Definition frame_at (psp : Z) : Z := u32 (Z.ldiff (psp - 32) 4).
(** The status word as it is stacked. *)
Definition stacked_psr (psr psp : Z) : Z := Z.lor psr (Z.shiftl (Z.b2z (Z.testbit psp 2)) 9).

Definition exc_enter : P_ unit :=
  x ← gets p_thread;
  let f := frame_at (x_psp x) in
  store_regs f stacked;;
  mset (f + 24) (x_pc x);;
  mset (f + 28) (stacked_psr (x_psr x) (x_psp x));;
  modify (fun p => Cpu (set_reg LR EXC_RETURN_thread_psp (set_psp f (p_thread p))) (p_irq p) (p_mem p)).

Definition exc_return : P_ unit :=
  f ← gets (fun p => x_psp (p_thread p));
  load_regs f stacked;;
  pc ← mget (f + 24);
  w ← mget (f + 28);
  modify (fun p => Cpu (Thread (x_reg (p_thread p)) pc (Z.ldiff w (bit 9))
                          (Z.lor (u32 (f + 32)) (Z.shiftl (Z.b2z (Z.testbit w 9)) 2))) (p_irq p) (p_mem p)).

(** A branch to [EXC_RETURN] returns from the exception; nothing else occurs. *)
Definition return_to (target : Z) : P_ unit := if target =? EXC_RETURN_thread_psp then exc_return else ub.
End Isa.

(** ** The PendSV handler *)

Definition ADDR_os_current_task : Z := 0x20000100.
Definition ADDR_os_next_task : Z := 0x20000104.
Definition fn_os_update_task_pointers : Z := 0x400500.

Definition pendsv_exception : list instr :=
  [ CPSID_i;
    MRS_psp R0;
    SUBS R0 16;
    STMIA R0 [R4; R5; R6; R7];
    MOV R4 R8; MOV R5 R9; MOV R6 R10; MOV R7 R11;
    SUBS R0 32;
    STMIA R0 [R4; R5; R6; R7];
    SUBS R0 16;
    LDR_lit R2 ADDR_os_current_task;
    LDR R1 R2;
    STR R0 R1;
    LDR_lit R2 ADDR_os_next_task;
    LDR R1 R2;
    LDR R0 R1;
    LDMIA R0 [R4; R5; R6; R7];
    MOV R8 R4; MOV R9 R5; MOV R10 R6; MOV R11 R7;
    LDMIA R0 [R4; R5; R6; R7];
    MSR_psp R0;
    BL fn_os_update_task_pointers;
    LDR_lit R0 EXC_RETURN_thread_psp;
    CPSIE_i;
    BX R0 ].

(** ** Osmium's memory: the task pointers, the saved stack pointer at the start
    of each task record, and the words of live stacks. *)

Section OsMemory.
(** What uninitialised memory holds. *)
Context (junk : Z -> Z).

Definition in_stacks (s : sched) (a : Z) : bool :=
  existsb (fun '(base, size) => (base <=? a) && (a + 4 <=? base + size)) (map_to_list (s_stacks s)).
Definition t_set_sp (x : Z) (t : os_task) : os_task :=
  OsTask x (t_pid t) (t_handler t) (t_status t) (t_stack t) (t_exit t) (t_header t) (t_next t).

Definition stack_word (s : sched) (a : Z) : Z := default (junk a) (s_mem s !! a).

Definition os_load (a : Z) (s : sched) : option Z :=
  if a =? ADDR_os_current_task then Some (s_current s)
  else if a =? ADDR_os_next_task then Some (s_next_task s)
  else match s_tasks s !! a with
       | Some t => Some (t_sp t)
       | None => if in_stacks s a then Some (stack_word s a) else None
       end.
Definition os_store (a v : Z) (s : sched) : option sched :=
  if a =? ADDR_os_current_task then Some (ss_current v s)
  else if a =? ADDR_os_next_task then Some (ss_next v s)
  else match s_tasks s !! a with
       | Some t => Some (ss_tasks (<[a := t_set_sp v t]> (s_tasks s)) s)
       | None => if in_stacks s a then Some (ss_mem (<[a := v]> (s_mem s)) s) else None
       end.
#[local] Instance os_memory : Memory sched := {| load := os_load; store := os_store |}.

Context (clobber : reg -> Z).

Definition os_call (f : Z) : M sched unit :=
  if f =? fn_os_update_task_pointers then os_update_task_pointers else ub.

(** The pending switch is taken: the handler runs to its return. *)
Definition pendsv : M (cpu sched) unit :=
  modify (fun p => Cpu (p_thread p) (p_irq p) (ss_pendsv false (p_mem p)));;
  target ← run os_call clobber pendsv_exception; return_to target.

(** A timer tick interrupts the thread: its handler runs and ends with the
    switch pending, so the processor goes on to PendSV without unstacking. *)
Definition tick_exception : M (cpu sched) unit :=
  exc_enter;; call clobber systick_exception;; pendsv.

(** A software request ([os_task_pause], [os_task_resume], [os_task_release] or
    [os_load_application] left the switch pending) interrupts the thread. *)
Definition requested_switch : M (cpu sched) unit := exc_enter;; pendsv.
End OsMemory.
