(* ===== verification/Switch.v ===== *)
(** * The context switch refines private registers

    Each task owns a register file; a timer tick only changes which task runs.
    This file proves that the machine of Arm, where one register file is saved
    to and restored from task stacks, behaves that way. *)

From S2P Require Import Prelude Errors Scheduler Arm.
From stdpp Require Import base list gmap sets.
From Stdlib Require Import ZArith Lia.
Local Open Scope Z_scope.

(** Threads agree when all their registers do. *)
Definition same_thread (x y : thread) : Prop :=
  (forall r, x_reg x r = x_reg y r) /\ x_pc x = x_pc y /\ x_psr x = x_psr y /\ x_psp x = x_psp y.
#[global] Instance same_thread_equivalence : Equivalence same_thread.
Proof.
  split.
  - done.
  - intros x y (H & ? & ? & ?). split; [intros r; by rewrite H|done].
  - intros x y z (H & ? & ? & ?) (H' & ? & ? & ?). split; [intros r; by rewrite H, H'|]. split_and!; congruence.
Qed.

Section Words.
(** Consecutive words of memory. *)
Fixpoint put_words (a : Z) (vs : list Z) (m : gmap Z Z) : gmap Z Z :=
  match vs with [] => m | v :: vs => put_words (a + 4) vs (<[a := v]> m) end.

Lemma put_words_out vs : forall a m b,
  b < a \/ a + 4 * Z.of_nat (length vs) <= b -> put_words a vs m !! b = m !! b.
Proof.
  induction vs as [|v vs IH]; intros a m b Hb; [done|]. cbn [put_words length] in *.
  rewrite IH by lia. rewrite lookup_insert_ne by lia. done.
Qed.

Lemma put_words_in vs : forall a m i v,
  vs !! i = Some v -> put_words a vs m !! (a + 4 * Z.of_nat i) = Some v.
Proof.
  induction vs as [|w vs IH]; intros a m i v Hi; [done|]. destruct i as [|i]; cbn [put_words].
  - simplify_eq/=. replace (a + 4 * Z.of_nat 0) with a by lia. rewrite put_words_out by lia. apply lookup_insert_eq.
  - replace (a + 4 * Z.of_nat (S i)) with (a + 4 + 4 * Z.of_nat i) by lia. by apply IH.
Qed.
End Words.

Section Registers.
Implicit Types x : thread.
Lemma reg_set_eq r v x : x_reg (set_reg r v x) r = v.
Proof. cbn. by rewrite decide_True. Qed.
Lemma reg_set_ne r r' v x : r' <> r -> x_reg (set_reg r v x) r' = x_reg x r'.
Proof. intros H. cbn. by rewrite decide_False. Qed.
Lemma reg_set_psp v x r : x_reg (set_psp v x) r = x_reg x r.
Proof. done. Qed.
End Registers.

(** Reads a register out of a chain of updates. *)
Ltac regs := repeat first [rewrite reg_set_eq | rewrite reg_set_psp | rewrite reg_set_ne by discriminate].

Section Bits.
(** One bit cleared or set. *)
Lemma land_bit a n : 0 <= n -> Z.land a (2 ^ n) = Z.b2z (Z.testbit a n) * 2 ^ n.
Proof.
  intros Hn. apply Z.bits_inj'. intros i Hi. rewrite Z.land_spec, Z.pow2_bits_eqb by done.
  rewrite <- Z.shiftl_mul_pow2, Z.shiftl_spec by done. destruct (Z.eqb_spec n i) as [->|Hne].
  - rewrite Z.sub_diag, andb_true_r. by destruct (Z.testbit a i).
  - rewrite andb_false_r. destruct (Z.testbit a n); cbn [Z.b2z]; [|by rewrite Z.bits_0].
    destruct (Z.eq_dec (i - n) 0); [lia|]. destruct (Z.ltb_spec (i - n) 0).
    + by rewrite Z.testbit_neg_r.
    + symmetry. apply (testbit_high 1); lia.
Qed.
Lemma ldiff_bit a n : 0 <= n -> Z.ldiff a (2 ^ n) = a - Z.b2z (Z.testbit a n) * 2 ^ n.
Proof.
  intros Hn. rewrite <- land_bit by done. rewrite <- (Z.lor_ldiff_and a (2 ^ n)) at 2.
  rewrite <- Z.lxor_lor, <- Z.add_nocarry_lxor; [lia|..];
    (apply Z.bits_inj'; intros i Hi; rewrite Z.land_spec, Z.ldiff_spec, Z.land_spec, Z.bits_0;
     by destruct (Z.testbit a i), (Z.testbit (2 ^ n) i)).
Qed.
Lemma ldiff_lor_bit a n b : 0 <= n -> Z.testbit a n = false -> Z.ldiff (Z.lor a (Z.shiftl (Z.b2z b) n)) (2 ^ n) = a.
Proof.
  intros Hn Ha. apply Z.bits_inj'. intros i Hi.
  rewrite Z.ldiff_spec, Z.lor_spec, Z.pow2_bits_eqb, Z.shiftl_spec by done. destruct (Z.eqb_spec n i) as [->|Hne].
  - by rewrite andb_false_r.
  - rewrite andb_true_r. destruct b; cbn [Z.b2z]; [|by rewrite Z.bits_0, orb_false_r].
    destruct (Z.ltb_spec (i - n) 0).
    + by rewrite (Z.testbit_neg_r 1), orb_false_r.
    + by rewrite (testbit_high 1 1), orb_false_r by lia.
Qed.
Lemma testbit_lor_bit a n b : 0 <= n -> Z.testbit a n = false -> Z.testbit (Z.lor a (Z.shiftl (Z.b2z b) n)) n = b.
Proof. intros Hn Ha. rewrite Z.lor_spec, Ha, Z.shiftl_spec, Z.sub_diag by done. by destruct b. Qed.
Lemma lor_ldiff_bit a n : 0 <= n -> Z.lor (Z.ldiff a (2 ^ n)) (Z.shiftl (Z.b2z (Z.testbit a n)) n) = a.
Proof.
  intros Hn. rewrite Z.shiftl_mul_pow2, <- land_bit by done. apply Z.lor_ldiff_and.
Qed.
End Bits.

(** ** Where tasks keep their stacks *)

(** The addresses of a task's stack: from the first to behind the last. *)
Definition region (s : sched) (p : Z) : option (Z * Z) :=
  t ← s_tasks s !! p; size ← s_stacks s !! t_stack t; Some (t_stack t, t_stack t + size).

(** Stacks of different tasks are apart, and apart from the task records and
    the kernel's variables. *)
Record layout (s : sched) (l : list Z) : Prop := {
  ly_region : forall p, p ∈ l -> exists lo hi, region s p = Some (lo, hi) /\ 0x20001000 <= lo /\ hi < 2 ^ 32;
  ly_apart : forall p q lo hi lo' hi', p ∈ l -> q ∈ l -> p <> q ->
    region s p = Some (lo, hi) -> region s q = Some (lo', hi') -> hi <= lo' \/ hi' <= lo;
  ly_records : forall p t, s_tasks s !! p = Some t -> 0x20001000 <= p /\
    forall q lo hi, q ∈ l -> region s q = Some (lo, hi) -> p < lo \/ hi <= p;
}.

(** An address of a stack word. *)
Definition stack_addr (s : sched) (a : Z) : Prop :=
  a <> ADDR_os_current_task /\ a <> ADDR_os_next_task /\ s_tasks s !! a = None /\ in_stacks s a = true.

Section Layout.
Implicit Types (s : sched) (l : list Z).

Lemma region_stack_addr s l q lo hi a :
  layout s l -> q ∈ l -> region s q = Some (lo, hi) -> lo <= a -> a + 4 <= hi -> stack_addr s a.
Proof.
  intros Hly Hq Hr H1 H2. destruct (ly_region _ _ Hly q Hq) as (lo' & hi' & Hr' & Hlo & _). simplify_eq.
  split; [unfold ADDR_os_current_task; lia|]. split; [unfold ADDR_os_next_task; lia|]. split.
  - destruct (s_tasks s !! a) as [t|] eqn:Ht; [|done].
    destruct (ly_records _ _ Hly a t Ht) as [_ Hx]. specialize (Hx q lo hi Hq Hr). lia.
  - unfold region in Hr. destruct (s_tasks s !! q) as [t|]; [|done]. cbn in Hr.
    destruct (s_stacks s !! t_stack t) as [size|] eqn:Hs; [|done]. cbn in Hr. simplify_eq.
    unfold in_stacks. apply existsb_exists. exists (t_stack t, size). split.
    + apply list_elem_of_In, elem_of_map_to_list. done.
    + apply andb_true_iff. split; apply Z.leb_le; lia.
Qed.

(** Two states whose tasks have the same stacks have the same layout. *)
Definition same_stacks s s' : Prop :=
  s_stacks s' = s_stacks s /\ (forall p, t_stack <$> s_tasks s' !! p = t_stack <$> s_tasks s !! p).

Lemma region_same s s' p : same_stacks s s' -> region s' p = region s p.
Proof.
  intros [Hs Ht]. specialize (Ht p). unfold region. rewrite Hs.
  destruct (s_tasks s !! p), (s_tasks s' !! p); simplify_eq/=; [by rewrite Ht|done].
Qed.
Lemma same_stacks_refl s : same_stacks s s.
Proof. done. Qed.
Lemma same_stacks_trans s1 s2 s3 : same_stacks s1 s2 -> same_stacks s2 s3 -> same_stacks s1 s3.
Proof. intros [H1 H2] [H3 H4]. split; [congruence|]. intros p. by rewrite H4. Qed.
Lemma same_stacks_insert s p t t' f :
  s_tasks s !! p = Some t -> t_stack t' = t_stack t ->
  s_stacks (f s) = s_stacks s -> s_tasks (f s) = <[p := t']> (s_tasks s) -> same_stacks s (f s).
Proof.
  intros Hp Ht Hs Hf. split; [done|]. intros q. rewrite Hf. destruct (decide (q = p)) as [->|].
  - rewrite lookup_insert_eq, Hp. cbn. by rewrite Ht.
  - by rewrite lookup_insert_ne.
Qed.

Lemma layout_same s s' l : same_stacks s s' -> layout s l -> layout s' l.
Proof.
  intros Hss [H1 H2 H3]. split.
  - intros p Hp. rewrite (region_same _ _ _ Hss). by apply H1.
  - intros p q lo hi lo' hi' Hp Hq Hne. rewrite !(region_same _ _ _ Hss). by apply H2.
  - intros p t Ht. destruct Hss as [Hs Hd] eqn:E. pose proof (Hd p) as Hp. rewrite Ht in Hp.
    destruct (s_tasks s !! p) as [t0|] eqn:Ht0; [|done]. destruct (H3 p t0 Ht0) as [Hlo Hx]. split; [done|].
    intros q lo hi Hq. rewrite (region_same _ _ _ Hss). by apply Hx.
Qed.
End Layout.

(** ** Saving and restoring *)

Section Frames.
Context (junk : Z -> Z) (clobber : reg -> Z).
#[local] Instance os_mem : Memory sched := os_memory junk.
Implicit Types (s : sched) (x : thread).

Lemma os_load_stack s a : stack_addr s a -> os_load junk a s = Some (stack_word junk s a).
Proof.
  intros (H1 & H2 & H3 & H4). unfold os_load. destruct (Z.eqb_spec a ADDR_os_current_task); [done|].
  destruct (Z.eqb_spec a ADDR_os_next_task); [done|]. by rewrite H3, H4.
Qed.
Lemma os_store_stack s a v : stack_addr s a -> os_store a v s = Some (ss_mem (<[a := v]> (s_mem s)) s).
Proof.
  intros (H1 & H2 & H3 & H4). unfold os_store. destruct (Z.eqb_spec a ADDR_os_current_task); [done|].
  destruct (Z.eqb_spec a ADDR_os_next_task); [done|]. by rewrite H3, H4.
Qed.

(** The words of a range of addresses. *)
Definition stack_range s (a : Z) (n : nat) : Prop := forall i, (i < n)%nat -> stack_addr s (a + 4 * Z.of_nat i).
Lemma stack_range_cons s a n : stack_range s a (S n) -> stack_addr s a /\ stack_range s (a + 4) n.
Proof.
  intros H. split.
  - specialize (H 0%nat ltac:(lia)). by replace (a + 4 * Z.of_nat 0) with a in H by lia.
  - intros i Hi. specialize (H (S i) ltac:(lia)). by replace (a + 4 + 4 * Z.of_nat i) with (a + 4 * Z.of_nat (S i)) by lia.
Qed.

Lemma store_regs_ok rs : forall a x b s,
  stack_range s a (length rs) ->
  store_regs a rs (Cpu x b s) = Ok (tt, Cpu x b (ss_mem (put_words a (x_reg x <$> rs) (s_mem s)) s)).
Proof.
  induction rs as [|r rs IH]; intros a x b s Hr.
  { cbn. by destruct s. }
  apply stack_range_cons in Hr as [Ha Hr]. cbn [store_regs]. unfold rget. rewrite bind_gets. cbn [p_thread].
  erewrite bind_Ok.
  2: { unfold mset. cbn [store os_mem os_memory p_mem]. rewrite (os_store_stack s a _ Ha). reflexivity. }
  rewrite IH; [done|]. exact Hr.
Qed.

Fixpoint load_thread s (a : Z) (rs : list reg) x : thread :=
  match rs with [] => x | r :: rs => load_thread s (a + 4) rs (set_reg r (stack_word junk s a) x) end.
Lemma load_regs_ok rs : forall a x b s,
  stack_range s a (length rs) -> load_regs a rs (Cpu x b s) = Ok (tt, Cpu (load_thread s a rs x) b s).
Proof.
  induction rs as [|r rs IH]; intros a x b s Hr; [done|].
  apply stack_range_cons in Hr as [Ha Hr]. cbn [load_regs load_thread].
  erewrite bind_Ok.
  2: { unfold mget. cbn [load os_mem os_memory p_mem]. rewrite (os_load_stack s a Ha). reflexivity. }
  unfold rset. rewrite bind_modify. cbn [p_thread p_irq p_mem]. by apply IH.
Qed.

(** ** The handler, instruction by instruction *)

Abbreviation exe := (run os_call clobber).


Lemma run_step i prog p p' :
  exec os_call clobber i p = Ok (None, p') -> exe (i :: prog) p = exe prog p'.
Proof. intros H. cbn [run]. by mstep H. Qed.

Lemma run_mrs rd prog x b s :
  exe (MRS_psp rd :: prog) (Cpu x b s) = exe prog (Cpu (set_reg rd (x_psp x) x) b s).
Proof. done. Qed.
Lemma run_msr rn prog x b s :
  exe (MSR_psp rn :: prog) (Cpu x b s) = exe prog (Cpu (set_psp (x_reg x rn) x) b s).
Proof. done. Qed.
Lemma run_subs rd imm prog x b s : 0 <= x_reg x rd - imm < 2 ^ 32 ->
  exe (SUBS rd imm :: prog) (Cpu x b s) = exe prog (Cpu (set_reg rd (x_reg x rd - imm) x) b s).
Proof. intros H. transitivity (exe prog (Cpu (set_reg rd (u32 (x_reg x rd - imm)) x) b s)); [done|by rewrite u32_small]. Qed.
Lemma run_mov rd rm prog x b s :
  exe (MOV rd rm :: prog) (Cpu x b s) = exe prog (Cpu (set_reg rd (x_reg x rm) x) b s).
Proof. done. Qed.
Lemma run_lit rd v prog x b s :
  exe (LDR_lit rd v :: prog) (Cpu x b s) = exe prog (Cpu (set_reg rd v x) b s).
Proof. done. Qed.

Lemma run_stmia rn rs prog x b s a :
  x_reg x rn = a -> a mod 4 = 0 -> stack_range s a (length rs) -> 0 <= a + 4 * Z.of_nat (length rs) < 2 ^ 32 ->
  exe (STMIA rn rs :: prog) (Cpu x b s)
  = exe prog (Cpu (set_reg rn (a + 4 * Z.of_nat (length rs)) x) b (ss_mem (put_words a (x_reg x <$> rs) (s_mem s)) s)).
Proof.
  intros <- Hal Hr Hb. rewrite <- (u32_small _ Hb). apply run_step.
  cbn [exec]. unfold rget. rewrite bind_gets. cbn [p_thread].
  unfold aligned. rewrite Hal, Z.eqb_refl, bind_ret_l. by mstep (store_regs_ok rs (x_reg x rn) x b s Hr).
Qed.
Lemma run_ldmia rn rs prog x b s a :
  x_reg x rn = a -> a mod 4 = 0 -> stack_range s a (length rs) -> 0 <= a + 4 * Z.of_nat (length rs) < 2 ^ 32 ->
  exe (LDMIA rn rs :: prog) (Cpu x b s)
  = exe prog (Cpu (set_reg rn (a + 4 * Z.of_nat (length rs)) (load_thread s a rs x)) b s).
Proof.
  intros <- Hal Hr Hb. rewrite <- (u32_small _ Hb). apply run_step.
  cbn [exec]. unfold rget. rewrite bind_gets. cbn [p_thread].
  unfold aligned. rewrite Hal, Z.eqb_refl, bind_ret_l. by mstep (load_regs_ok rs (x_reg x rn) x b s Hr).
Qed.
Lemma run_ldr rd rn prog x b s v :
  os_load junk (x_reg x rn) s = Some v -> exe (LDR rd rn :: prog) (Cpu x b s) = exe prog (Cpu (set_reg rd v x) b s).
Proof.
  intros H. apply run_step. cbn [exec]. unfold rget. rewrite bind_gets.
  unfold mbind, M_bind, mget. cbn [load os_mem os_memory p_mem p_thread]. by rewrite H.
Qed.
Lemma run_str rd rn prog x b s s' :
  os_store (x_reg x rn) (x_reg x rd) s = Some s' -> exe (STR rd rn :: prog) (Cpu x b s) = exe prog (Cpu x b s').
Proof.
  intros H. apply run_step. cbn [exec]. unfold rget. rewrite bind_gets, bind_gets.
  unfold mbind, M_bind, mset. cbn [store os_mem os_memory p_mem p_thread]. by rewrite H.
Qed.

(** The two words of the kernel's variables and the records. *)
Lemma os_load_current s : os_load junk ADDR_os_current_task s = Some (s_current s).
Proof. done. Qed.
Lemma os_load_next s : os_load junk ADDR_os_next_task s = Some (s_next_task s).
Proof. done. Qed.
Lemma os_load_record s l p t : layout s l -> s_tasks s !! p = Some t -> os_load junk p s = Some (t_sp t).
Proof.
  intros Hly Ht. destruct (ly_records _ _ Hly p t Ht) as [Hlo _]. unfold os_load, ADDR_os_current_task, ADDR_os_next_task.
  destruct (Z.eqb_spec p 0x20000100); [lia|]. destruct (Z.eqb_spec p 0x20000104); [lia|]. by rewrite Ht.
Qed.
Lemma os_store_record s l p t v : layout s l -> s_tasks s !! p = Some t ->
  os_store p v s = Some (ss_tasks (<[p := t_set_sp v t]> (s_tasks s)) s).
Proof.
  intros Hly Ht. destruct (ly_records _ _ Hly p t Ht) as [Hlo _]. unfold os_store, ADDR_os_current_task, ADDR_os_next_task.
  destruct (Z.eqb_spec p 0x20000100); [lia|]. destruct (Z.eqb_spec p 0x20000104); [lia|]. by rewrite Ht.
Qed.

Lemma region_range s l q lo hi a n :
  layout s l -> q ∈ l -> region s q = Some (lo, hi) -> lo <= a -> a + 4 * Z.of_nat n <= hi -> stack_range s a n.
Proof. intros Hly Hq Hr H1 H2 i Hi. by eapply (region_stack_addr s l q lo hi); [..|lia|lia]. Qed.

(** ** The whole handler *)

Definition low := [R4; R5; R6; R7].
Definition high := [R8; R9; R10; R11].

(** Memory once [x]'s registers are saved below [f]. *)
Definition saved_mem (x : thread) (f : Z) (m : gmap Z Z) : gmap Z Z :=
  put_words (f - 32) (x_reg x <$> high) (put_words (f - 16) (x_reg x <$> low) m).
Definition saved_state (x : thread) (c : Z) (tc : os_task) s : sched :=
  ss_tasks (<[c := t_set_sp (x_psp x - 32) tc]> (s_tasks s)) (ss_mem (saved_mem x (x_psp x) (s_mem s)) s).

(** Its first instructions store the registers on the stack in use. *)
Lemma handler_stacks x b s l q lo hi prog :
  layout s l -> q ∈ l -> region s q = Some (lo, hi) ->
  x_psp x mod 4 = 0 -> lo + 32 <= x_psp x -> x_psp x <= hi ->
  exists x', x_psp x' = x_psp x /\ x_reg x' R0 = x_psp x - 32 /\
    exe (take 11 pendsv_exception ++ prog) (Cpu x b s)
    = exe prog (Cpu x' false (ss_mem (saved_mem x (x_psp x) (s_mem s)) s)).
Proof.
  intros Hly Hq Hr Hal H1 H2. destruct (ly_region _ _ Hly q Hq) as (lo' & hi' & Hr' & Hlo & Hhi). simplify_eq.
  set (f := x_psp x) in *. cbn [take pendsv_exception app].
  rewrite run_step with (p' := Cpu x false s) by done. rewrite run_mrs, run_subs by (regs; fold f; lia). fold f.
  regs. rewrite (run_stmia _ _ _ _ _ _ (f - 16));
    [|by regs|by rewrite Zminus_mod, Hal|eapply region_range; [done..|lia|simpl; lia]|simpl; lia].
  do 4 rewrite run_mov. rewrite run_subs by (regs; simpl; lia).
  set (s1 := ss_mem _ s). assert (layout s1 l) as Hly1 by exact (layout_same s s1 l (same_stacks_refl s) Hly).
  assert (region s1 q = Some (lo, hi)) as Hr1 by done.
  rewrite (run_stmia _ _ _ _ _ _ (f - 32));
    [|regs; simpl; lia|by rewrite Zminus_mod, Hal|eapply region_range; [done..|lia|simpl; lia]|simpl; lia].
  rewrite run_subs by (regs; simpl; lia). eexists. split; [|split; [|reflexivity]]; [done|]. regs. simpl. lia.
Qed.

(** The first half also stores the stack pointer in the running task's record. *)
Lemma handler_saves x b s l c tc lo hi prog :
  layout s l -> c ∈ l -> s_current s = c -> s_tasks s !! c = Some tc -> region s c = Some (lo, hi) ->
  x_psp x mod 4 = 0 -> lo + 32 <= x_psp x -> x_psp x <= hi ->
  exists x', x_psp x' = x_psp x /\
    exe (take 14 pendsv_exception ++ prog) (Cpu x b s) = exe prog (Cpu x' false (saved_state x c tc s)).
Proof.
  intros Hly Hc Hcur Ht Hr Hal H1 H2.
  change (take 14 pendsv_exception ++ prog) with (take 11 pendsv_exception ++ take 3 (drop 11 pendsv_exception) ++ prog).
  destruct (handler_stacks x b s l c lo hi (take 3 (drop 11 pendsv_exception) ++ prog) Hly Hc Hr Hal H1 H2)
    as (x1 & Hp1 & Hr0 & ->).
  set (s1 := ss_mem _ s). assert (layout s1 l) as Hly1 by exact (layout_same s s1 l (same_stacks_refl s) Hly).
  cbn [take drop pendsv_exception app]. rewrite run_lit, (run_ldr _ _ _ _ _ _ c) by (regs; rewrite <- Hcur; done).
  rewrite (run_str _ _ _ _ _ _ (ss_tasks (<[c := t_set_sp (x_psp x - 32) tc]> (s_tasks s)) s1)).
  2: { regs. rewrite Hr0. by apply (os_store_record s1 l). }
  eexists. split; [|reflexivity]. done.
Qed.

(** With no running task the handler stores the stack pointer through null. *)
Lemma handler_null x b s l q lo hi :
  layout s l -> q ∈ l -> s_current s = 0 -> s_tasks s !! 0 = None -> in_stacks s 0 = false -> region s q = Some (lo, hi) ->
  x_psp x mod 4 = 0 -> lo + 32 <= x_psp x -> x_psp x <= hi ->
  exe pendsv_exception (Cpu x b s) = Ub.
Proof.
  intros Hly Hq Hcur H0 Hs0 Hr Hal H1 H2. rewrite <- (take_drop 11 pendsv_exception).
  destruct (handler_stacks x b s l q lo hi (drop 11 pendsv_exception) Hly Hq Hr Hal H1 H2) as (x1 & _ & _ & ->).
  set (s1 := ss_mem _ s). cbn [drop pendsv_exception]. rewrite run_lit, (run_ldr _ _ _ _ _ _ 0) by (regs; rewrite <- Hcur; done).
  cbn [run]. apply bind_Ub. cbn [exec]. unfold rget. rewrite bind_gets, bind_gets. apply bind_Ub.
  unfold mset. cbn [store os_mem os_memory p_mem p_thread]. regs. unfold os_store.
  change (0 =? ADDR_os_current_task) with false. change (0 =? ADDR_os_next_task) with false. cbv iota.
  change (s_tasks s1) with (s_tasks s). change (in_stacks s1 0) with (in_stacks s 0). by rewrite H0, Hs0.
Qed.

(** The thread whose registers lie in the frame at [sp]. *)
Definition saved s (sp : Z) : thread :=
  let w i := stack_word junk s (sp + i) in
  Thread (fun r => match r with
                   | R8 => w 0 | R9 => w 4 | R10 => w 8 | R11 => w 12
                   | R4 => w 16 | R5 => w 20 | R6 => w 24 | R7 => w 28
                   | R0 => w 32 | R1 => w 36 | R2 => w 40 | R3 => w 44 | R12 => w 48 | LR => w 52
                   end)
    (w 56) (Z.ldiff (w 60) (bit 9)) (Z.lor (u32 (sp + 64)) (Z.shiftl (Z.b2z (Z.testbit (w 60) 9)) 2)).

(** The second half loads the next task's registers and makes it current. *)
Lemma handler_restores x b s l n tn lo hi :
  layout s l -> n ∈ l -> s_next_task s = n -> s_tasks s !! n = Some tn -> region s n = Some (lo, hi) ->
  t_sp tn mod 4 = 0 -> lo <= t_sp tn -> t_sp tn + 64 <= hi ->
  exists x', exe (drop 14 pendsv_exception) (Cpu x b s) = Ok (EXC_RETURN_thread_psp, Cpu x' true (ss_current n s)) /\
    x_psp x' = t_sp tn + 32 /\
    forall r, caller_saved r = false -> x_reg x' r = x_reg (saved s (t_sp tn)) r.
Proof.
  intros Hly Hn Hnx Ht Hr Hal H1 H2. destruct (ly_region _ _ Hly n Hn) as (lo' & hi' & Hr' & Hlo & Hhi). simplify_eq.
  set (sp := t_sp tn) in *. cbn [drop pendsv_exception].
  rewrite run_lit, (run_ldr _ _ _ _ _ _ (s_next_task s)) by (by regs).
  rewrite (run_ldr _ _ _ _ _ _ sp) by (regs; by apply (os_load_record s l)).
  rewrite (run_ldmia _ _ _ _ _ _ sp); [|by regs|done|eapply region_range; [done..|lia|simpl; lia]|simpl; lia].
  do 4 rewrite run_mov.
  rewrite (run_ldmia _ _ _ _ _ _ (sp + 16)); [|regs; simpl; lia| |eapply region_range; [done..|lia|simpl; lia]|simpl; lia].
  2: { rewrite Zplus_mod, Hal. done. }
  rewrite run_msr. set (x1 := set_psp _ _).
  rewrite (run_step (BL _) _ _ (Cpu (scratched clobber x1) b (ss_current (s_next_task s) s))) by done.
  exists (set_reg R0 EXC_RETURN_thread_psp (scratched clobber x1)). split; [reflexivity|]. split.
  - cbn -[Z.add Z.mul]. simpl. lia.
  - intros r Hc. rewrite reg_set_ne by (by intros ->). cbn [scratched x_reg]. rewrite Hc.
    destruct r; try discriminate; unfold x1, saved; cbn [load_thread x_reg]; regs; f_equal; lia.
Qed.

(** Returning from the exception loads the rest. *)
Lemma exc_return_ok x b s l n lo hi sp :
  layout s l -> n ∈ l -> region s n = Some (lo, hi) -> lo <= sp -> sp + 64 <= hi ->
  x_psp x = sp + 32 -> (forall r, caller_saved r = false -> x_reg x r = x_reg (saved s sp) r) ->
  exists x', exc_return (Cpu x b s) = Ok (tt, Cpu x' b s) /\ same_thread x' (saved s sp).
Proof.
  intros Hly Hn Hr H1 H2 Hp Hregs. unfold exc_return. rewrite bind_gets. cbn [p_thread]. rewrite Hp.
  mstep (load_regs_ok stacked (sp + 32) x b s ltac:(eapply region_range; [done..|lia|simpl; lia])).
  assert (forall i x1, 32 <= i <= 60 -> mget (sp + i) (Cpu x1 b s) = Ok (stack_word junk s (sp + i), Cpu x1 b s)) as Hm.
  { intros i x1 Hi. unfold mget. cbn [load os_mem os_memory p_mem].
    by rewrite os_load_stack by (eapply region_stack_addr; [done..|lia|lia]). }
  replace (sp + 32 + 24) with (sp + 56) by lia. mstep (Hm 56 (load_thread s (sp + 32) stacked x) ltac:(lia)).
  replace (sp + 32 + 28) with (sp + 60) by lia. mstep (Hm 60 (load_thread s (sp + 32) stacked x) ltac:(lia)).
  eexists. split; [reflexivity|]. split; [|split; [done|split; [done|]]].
  2: { cbn [x_psp]. by replace (sp + 32 + 32) with (sp + 64) by lia. }
  intros r. cbn [p_thread x_reg load_thread stacked].
  destruct r; regs; first [by apply Hregs|cbn [saved x_reg]; f_equal; lia].
Qed.

(** ** Exception entry *)

Lemma frame_at_val psp : 36 <= psp < 2 ^ 32 -> frame_at psp = psp - 32 - 4 * Z.b2z (Z.testbit psp 2).
Proof.
  intros Hp. assert (Z.ldiff (psp - 32) 4 = psp - 32 - 4 * Z.b2z (Z.testbit psp 2)) as Hv.
  { change 4 with (2 ^ 2) at 1. rewrite ldiff_bit by lia. change (2 ^ 2) with 4.
    replace (Z.testbit (psp - 32) 2) with (Z.testbit psp 2); [lia|].
    rewrite !Z.testbit_odd, !Z.shiftr_div_pow2 by lia. replace (psp - 32) with (psp + (-8) * 2 ^ 2) by lia.
    rewrite Z.div_add by lia. by rewrite Z.odd_add, xorb_false_r. }
  unfold frame_at. rewrite Hv. apply u32_small. destruct (Z.testbit psp 2); cbn [Z.b2z]; lia.
Qed.
Lemma frame_at_bounds psp : 36 <= psp < 2 ^ 32 -> psp - 36 <= frame_at psp <= psp - 32.
Proof. intros Hp. rewrite frame_at_val by done. destruct (Z.testbit psp 2); cbn [Z.b2z]; lia. Qed.
Lemma frame_at_aligned psp : 36 <= psp < 2 ^ 32 -> psp mod 4 = 0 -> frame_at psp mod 4 = 0.
Proof.
  intros Hp H. rewrite frame_at_val by done.
  replace (psp - 32 - 4 * Z.b2z (Z.testbit psp 2)) with (psp + (-8 - Z.b2z (Z.testbit psp 2)) * 4) by lia.
  by rewrite Z_mod_plus_full.
Qed.
(** The stack pointer the return from the exception computes. *)
Lemma frame_at_return psp : 36 <= psp < 2 ^ 32 ->
  Z.lor (u32 (frame_at psp + 32)) (Z.shiftl (Z.b2z (Z.testbit psp 2)) 2) = psp.
Proof.
  intros Hp. pose proof (frame_at_bounds psp Hp). rewrite u32_small by lia.
  replace (frame_at psp + 32) with (Z.ldiff psp (2 ^ 2)); [by apply lor_ldiff_bit|].
  rewrite ldiff_bit, frame_at_val by lia. lia.
Qed.
(** Any thread with room on its task's stack is in range. *)
Lemma psp_range s l c lo hi z : layout s l -> c ∈ l -> region s c = Some (lo, hi) -> lo + 36 <= z -> z <= hi -> 36 <= z < 2 ^ 32.
Proof. intros Hly Hc Hr H1 H2. destruct (ly_region _ _ Hly c Hc) as (lo' & hi' & Hr' & ? & ?). simplify_eq. lia. Qed.

(** Memory once the processor has stacked [x]. *)
Definition entry_mem (x : thread) (m : gmap Z Z) : gmap Z Z :=
  let f := frame_at (x_psp x) in
  <[f + 28 := stacked_psr (x_psr x) (x_psp x)]> (<[f + 24 := x_pc x]> (put_words f (x_reg x <$> stacked) m)).

Lemma exc_enter_ok x b s l c lo hi :
  layout s l -> c ∈ l -> region s c = Some (lo, hi) -> lo + 36 <= x_psp x -> x_psp x <= hi ->
  exc_enter (Cpu x b s)
  = Ok (tt, Cpu (set_reg LR EXC_RETURN_thread_psp (set_psp (frame_at (x_psp x)) x)) b (ss_mem (entry_mem x (s_mem s)) s)).
Proof.
  intros Hly Hc Hr H1 H2. unfold exc_enter. rewrite bind_gets. cbn [p_thread]. cbv zeta.
  pose proof (frame_at_bounds (x_psp x) (psp_range _ _ _ _ _ _ Hly Hc Hr H1 H2)) as Hf. set (f := frame_at (x_psp x)) in *.
  mstep (store_regs_ok stacked f x b s ltac:(eapply region_range; [done..|lia|simpl; lia])).
  assert (forall i v m, 0 <= i <= 28 -> mset (f + i) v (Cpu x b (ss_mem m s)) = Ok (tt, Cpu x b (ss_mem (<[f + i := v]> m) s))) as Hm.
  { intros i v m Hi. unfold mset. cbn [store os_mem os_memory p_mem].
    rewrite os_store_stack; [done|]. change (stack_addr s (f + i)). eapply region_stack_addr; [done..|lia|lia]. }
  mstep (Hm 24 (x_pc x) (put_words f (x_reg x <$> stacked) (s_mem s)) ltac:(lia)).
  by mstep (Hm 28 (stacked_psr (x_psr x) (x_psp x)) (<[f + 24 := x_pc x]> (put_words f (x_reg x <$> stacked) (s_mem s))) ltac:(lia)).
Qed.

(** What is stacked on entry and saved by the handler is the thread itself. *)
Definition full_mem (x : thread) (m : gmap Z Z) : gmap Z Z := saved_mem x (frame_at (x_psp x)) (entry_mem x m).

Lemma full_mem_word x m i v :
  ((x_reg x <$> high) ++ (x_reg x <$> low) ++ (x_reg x <$> stacked) ++ [x_pc x; stacked_psr (x_psr x) (x_psp x)]) !! i = Some v ->
  full_mem x m !! (frame_at (x_psp x) - 32 + 4 * Z.of_nat i) = Some v.
Proof.
  set (f := frame_at (x_psp x)). intros Hi. unfold full_mem, saved_mem. fold f.
  destruct (decide (i < 4)%nat) as [H4|H4].
  { apply put_words_in. rewrite lookup_app_l in Hi by (simpl; lia). done. }
  rewrite put_words_out by (simpl; lia). rewrite lookup_app_r in Hi by (simpl; lia). change (length (x_reg x <$> high)) with 4%nat in Hi.
  destruct (decide (i < 8)%nat) as [H8|H8].
  { rewrite lookup_app_l in Hi by (simpl; lia). apply (put_words_in _ (f - 16) (entry_mem x m)) in Hi.
    rewrite <- Hi. f_equal. lia. }
  rewrite put_words_out by (simpl; lia). rewrite lookup_app_r in Hi by (simpl; lia). change (length (x_reg x <$> low)) with 4%nat in Hi.
  unfold entry_mem. fold f. destruct (decide (i < 14)%nat) as [H14|H14].
  { rewrite !lookup_insert_ne by lia. rewrite lookup_app_l in Hi by (simpl; lia).
    apply (put_words_in _ f m) in Hi. rewrite <- Hi. f_equal. lia. }
  rewrite lookup_app_r in Hi by (simpl; lia). change (length (x_reg x <$> stacked)) with 6%nat in Hi.
  destruct (decide (i = 14%nat)) as [->|H15].
  { simplify_eq/=. rewrite lookup_insert_ne by lia. replace (f - 32 + _) with (f + 24) by lia. apply lookup_insert_eq. }
  assert (i = 15%nat) as -> by (apply lookup_lt_Some in Hi; simpl in Hi; lia). simplify_eq/=.
  replace (f - 32 + _) with (f + 28) by lia. apply lookup_insert_eq.
Qed.

Lemma saved_full x s m :
  s_mem s = full_mem x m -> Z.testbit (x_psr x) 9 = false -> 36 <= x_psp x < 2 ^ 32 -> same_thread (saved s (frame_at (x_psp x) - 32)) x.
Proof.
  intros Hs H9 Hp. set (f := frame_at (x_psp x)).
  assert (forall i v, ((x_reg x <$> high) ++ (x_reg x <$> low) ++ (x_reg x <$> stacked) ++ [x_pc x; stacked_psr (x_psr x) (x_psp x)]) !! i = Some v ->
    stack_word junk s (f - 32 + 4 * Z.of_nat i) = v) as Hw.
  { intros i v Hi. unfold stack_word. rewrite Hs. unfold f. by rewrite (full_mem_word x m i v Hi). }
  pose proof (Hw 15%nat _ eq_refl) as H15. change (4 * Z.of_nat 15) with 60 in H15.
  split; [|split; [|split]].
  - intros []; cbn [saved x_reg];
      [apply (Hw 8%nat)|apply (Hw 9%nat)|apply (Hw 10%nat)|apply (Hw 11%nat)|apply (Hw 4%nat)|apply (Hw 5%nat)|apply (Hw 6%nat)
      |apply (Hw 7%nat)|apply (Hw 0%nat)|apply (Hw 1%nat)|apply (Hw 2%nat)|apply (Hw 3%nat)|apply (Hw 12%nat)|apply (Hw 13%nat)]; done.
  - apply (Hw 14%nat). done.
  - cbn [saved x_psr]. fold f. rewrite H15. apply ldiff_lor_bit; [lia|done].
  - cbn [saved x_psp]. fold f. rewrite H15. unfold stacked_psr. rewrite testbit_lor_bit by done.
    replace (f - 32 + 64) with (f + 32) by lia. by apply frame_at_return.
Qed.

(** ** A tick, from interrupt to return *)

(** A thread that can be interrupted on the stack from [lo] to [hi]. *)
Definition fits (lo hi : Z) (x : thread) : Prop :=
  x_psp x mod 4 = 0 /\ lo + 68 <= x_psp x <= hi /\ Z.testbit (x_psr x) 9 = false.

(** A frame that can be restored. *)
Definition frame_ok (lo hi sp : Z) : Prop := sp mod 4 = 0 /\ lo <= sp /\ sp + 64 <= hi.

Lemma full_mem_out x m a :
  a < frame_at (x_psp x) - 32 \/ frame_at (x_psp x) + 32 <= a -> full_mem x m !! a = m !! a.
Proof.
  intros Ha. unfold full_mem, saved_mem, entry_mem. rewrite !put_words_out by (simpl; lia).
  rewrite !lookup_insert_ne by lia. rewrite put_words_out by (simpl; lia). done.
Qed.

Lemma saved_ext s s' sp :
  (forall a, sp <= a < sp + 64 -> s_mem s' !! a = s_mem s !! a) -> same_thread (saved s' sp) (saved s sp).
Proof.
  intros H. assert (forall i, 0 <= i < 64 -> stack_word junk s' (sp + i) = stack_word junk s (sp + i)) as Hw.
  { intros i Hi. unfold stack_word. by rewrite H by lia. }
  split; [|split; [|split]].
  - intros []; cbn [saved x_reg]; apply Hw; lia.
  - cbn [saved x_pc]. apply Hw. lia.
  - cbn [saved x_psr]. by rewrite Hw by lia.
  - cbn [saved x_psp]. by rewrite Hw by lia.
Qed.

(** The records after a tick from the running task [c] to the task [n]. *)
Definition ticked_tasks s (n sp : Z) (c t tc : os_task) : gmap Z os_task :=
  <[s_current s := t_set_sp sp tc]>
    (<[n := t_set_status os_task_status_active t]> (<[s_current s := t_set_status os_task_status_idle c]> (s_tasks s))).
Definition ticked x s (n : Z) (c t tc : os_task) : sched :=
  ss_current n (ss_tasks (ticked_tasks s n (frame_at (x_psp x) - 32) c t tc)
    (ss_mem (full_mem x (s_mem s)) (ss_pendsv false (ss_next n s)))).

Lemma pendsv_ok x b s l tc tn lo hi lo' hi' :
  layout s l -> s_current s ∈ l -> s_next_task s ∈ l ->
  region s (s_current s) = Some (lo, hi) -> region s (s_next_task s) = Some (lo', hi') ->
  s_tasks s !! s_current s = Some tc ->
  x_psp x mod 4 = 0 -> lo + 32 <= x_psp x -> x_psp x <= hi ->
  let s1 := saved_state x (s_current s) tc (ss_pendsv false s) in
  s_tasks s1 !! s_next_task s = Some tn -> frame_ok lo' hi' (t_sp tn) ->
  exists x', pendsv junk clobber (Cpu x b s) = Ok (tt, Cpu x' true (ss_current (s_next_task s) s1)) /\
    same_thread x' (saved (ss_current (s_next_task s) s1) (t_sp tn)).
Proof.
  intros Hly Hc Hn Hrc Hrn Htc Hal H1 H2 s1 Htn (Hfa & Hf1 & Hf2). unfold pendsv. rewrite bind_modify. cbn [p_thread p_irq p_mem].
  set (s0 := ss_pendsv false s) in *. assert (layout s0 l) as Hly0 by exact (layout_same s s0 l (same_stacks_refl s) Hly).
  destruct (handler_saves x b s0 l (s_current s) tc lo hi (drop 14 pendsv_exception) Hly0 Hc eq_refl Htc Hrc Hal H1 H2)
    as (x1 & _ & Hrun1). fold s1 in Hrun1.
  assert (same_stacks s0 s1) as Hss 
    by exact (same_stacks_insert s0 (s_current s) tc (t_set_sp (x_psp x - 32) tc) (saved_state x (s_current s) tc) Htc eq_refl eq_refl eq_refl).
  assert (layout s1 l) as Hly1 by exact (layout_same s0 s1 l Hss Hly0).
  assert (region s1 (s_next_task s) = Some (lo', hi')) as Hrn1 by (by rewrite (region_same s0 s1)).
  destruct (handler_restores x1 false s1 l (s_next_task s) tn lo' hi' Hly1 Hn eq_refl Htn Hrn1 Hfa Hf1 Hf2)
    as (x2 & Hrun2 & Hp2 & Hr2).
  assert (exe pendsv_exception (Cpu x b s0) = Ok (EXC_RETURN_thread_psp, Cpu x2 true (ss_current (s_next_task s) s1))) as Hrun.
  { rewrite <- (take_drop 14 pendsv_exception). by rewrite Hrun1. }
  mstep Hrun. unfold return_to. rewrite Z.eqb_refl.
  set (s2 := ss_current (s_next_task s) s1). pose proof (layout_same s1 s2 l (same_stacks_refl s1) Hly1) as Hly2.
  exact (exc_return_ok x2 true s2 l (s_next_task s) lo' hi' (t_sp tn) Hly2 Hn Hrn1 Hf1 Hf2 Hp2 Hr2).
Qed.

(** The machine after a tick: [n] is the first following task that is not
    paused, the interrupted thread lies in its frame, and the registers are
    those of the frame [n]'s record points to. *)
Lemma tick_exception_ok x b s l i lo hi :
  sched_ok s l -> layout s l -> l !! i = Some (s_current s) -> region s (s_current s) = Some (lo, hi) -> fits lo hi x ->
  (forall q t lo hi, q ∈ l -> q <> s_current s -> s_tasks s !! q = Some t -> region s q = Some (lo, hi) -> frame_ok lo hi (t_sp t)) ->
  exists k n c t tc tn x', (1 <= k <= length l)%nat /\ l !! ((i + k) mod length l)%nat = Some n /\
    (forall k', (1 <= k' < k)%nat -> paused_at (s_tasks s) l (i + k')) /\
    (k < length l -> ~ paused_at (s_tasks s) l (i + k))%nat /\
    s_tasks s !! s_current s = Some c /\
    <[s_current s := t_set_status os_task_status_idle c]> (s_tasks s) !! n = Some t /\
    <[n := t_set_status os_task_status_active t]> (<[s_current s := t_set_status os_task_status_idle c]> (s_tasks s))
      !! s_current s = Some tc /\
    s_tasks (ticked x s n c t tc) !! n = Some tn /\
    tick_exception junk clobber (Cpu x b s) = Ok (tt, Cpu x' true (ticked x s n c t tc)) /\
    same_thread x' (saved (ticked x s n c t tc) (t_sp tn)).
Proof.
  intros Hok Hly Hi Hreg (Hal & Hb & H9) Hfr.
  set (s1 := ss_mem (entry_mem x (s_mem s)) s).
  pose proof (psp_range s l _ lo hi (x_psp x) Hly (so_current _ _ Hok) Hreg ltac:(lia) ltac:(lia)) as Hpsp.
  pose proof (frame_at_bounds (x_psp x) Hpsp) as Hf.
  destruct (sched_ok_current_pos _ _ Hok) as (_ & _ & H0).
  destruct (os_task_next_running s1 l i (so_ring _ _ Hok) Hi H0) as (k & n & c & t & Hk & Hn & Hp & Hnp & Hc & Ht & Hrun).
  change (s_tasks s1) with (s_tasks s) in *. change (s_current s1) with (s_current s) in *.
  set (ts := <[s_current s := _]> (s_tasks s)) in *. set (ts1 := <[n := t_set_status os_task_status_active t]> ts) in *.
  set (s2 := ss_pendsv true _) in Hrun.
  assert (exists tc, ts1 !! s_current s = Some tc) as [tc Htc].
  { unfold ts1, ts. destruct (decide (n = s_current s)) as [->|]; [rewrite lookup_insert_eq|rewrite lookup_insert_ne, lookup_insert_eq by done]; eauto. }
  assert (same_stacks s s2) as Hss.
  { apply (same_stacks_trans _ (ss_tasks ts s)).
    - exact (same_stacks_insert s _ c (t_set_status os_task_status_idle c) (ss_tasks ts) Hc eq_refl eq_refl eq_refl).
    - exact (same_stacks_insert (ss_tasks ts s) n t (t_set_status os_task_status_active t) (fun _ => s2) Ht eq_refl eq_refl eq_refl). }
  pose proof (layout_same _ _ _ Hss Hly) as Hly2.
  assert (n ∈ l) as Hnl by (by eapply list_elem_of_lookup_2).
  assert (s_current s ∈ l) as Hcl by (by eapply list_elem_of_lookup_2).
  destruct (ly_region _ _ Hly n Hnl) as (lo' & hi' & Hrn & _).
  pose (x1 := scratched clobber (set_reg LR EXC_RETURN_thread_psp (set_psp (frame_at (x_psp x)) x))).
  assert (exists tn, ticked_tasks s n (frame_at (x_psp x) - 32) c t tc !! n = Some tn /\ frame_ok lo' hi' (t_sp tn)) as (tn & Htn & Hft).
  { unfold ticked_tasks. destruct (decide (n = s_current s)) as [->|Hne].
    - rewrite lookup_insert_eq. eexists. split; [done|]. simplify_eq. cbn [t_sp t_set_sp].
      split; [rewrite Zminus_mod, frame_at_aligned by done; done|lia].
    - rewrite lookup_insert_ne, lookup_insert_eq by done. eexists. split; [done|]. cbn [t_sp t_set_status].
      unfold ts in Ht. rewrite lookup_insert_ne in Ht by done. by apply (Hfr n). }
  destruct (pendsv_ok x1 b s2 l tc tn lo hi lo' hi' Hly2 Hcl Hnl) as (x' & Hpend & Hsame);
    [by rewrite (region_same s s2)|by rewrite (region_same s s2)|exact Htc|by apply frame_at_aligned|cbn; lia|cbn; lia|exact Htn|exact Hft|].
  exists k, n, c, t, tc, tn, x'. do 8 (split; [done|]). split; [|exact Hsame]. unfold tick_exception.
  mstep (exc_enter_ok x b s l (s_current s) lo hi Hly Hcl Hreg ltac:(lia) ltac:(lia)).
  erewrite bind_Ok; [exact Hpend|]. unfold call, systick_exception. cbn [p_mem]. fold s1. by rewrite Hrun.
Qed.

(** A switch requested with no running task ends in that store. *)
Lemma requested_switch_null x b s l q lo hi :
  layout s l -> q ∈ l -> s_current s = 0 -> s_tasks s !! 0 = None -> in_stacks s 0 = false -> region s q = Some (lo, hi) ->
  fits lo hi x -> requested_switch junk clobber (Cpu x b s) = Ub.
Proof.
  intros Hly Hq Hcur H0 Hs0 Hr (Hal & Hb & _). unfold requested_switch.
  pose proof (psp_range s l q lo hi (x_psp x) Hly Hq Hr ltac:(lia) ltac:(lia)) as Hpsp.
  pose proof (frame_at_bounds (x_psp x) Hpsp) as Hf.
  mstep (exc_enter_ok x b s l q lo hi Hly Hq Hr ltac:(lia) ltac:(lia)). unfold pendsv. rewrite bind_modify. apply bind_Ub.
  cbn [p_thread p_irq p_mem]. set (s1 := ss_pendsv false _).
  assert (layout s1 l) as Hly1 by exact (layout_same s s1 l (same_stacks_refl s) Hly).
  apply (handler_null _ b s1 l q lo hi); [done..|by apply frame_at_aligned|cbn; lia|cbn; lia].
Qed.
End Frames.
