(* ===== verification/SwitchProps.v ===== *)
(** * Properties of the context switch

    The specification of multitasking (private registers for every task), the
    relation to the machine, the refinement theorem, and the switches that go
    wrong because the running task was forgotten first. *)

From S2P Require Import Prelude Errors Scheduler OsProps Arm Switch.
From stdpp Require Import base list gmap sets.
From Stdlib Require Import ZArith Lia.
Local Open Scope Z_scope.

(** Each task has its own registers; one task runs. *)
Record os_spec := OsSpec { a_thread : Z -> thread; a_cur : Z }.

Section Refinement.
(** The task ring, the stack of each task, the paused tasks; what fresh memory holds. *)
Context (l : list Z) (stack_of : Z -> Z * Z) (paused : Z -> Prop) (junk : Z -> Z).

Definition fits_stack (p : Z) (x : thread) : Prop := fits (stack_of p).1 (stack_of p).2 x.

(** The running task computes, or a tick selects the next task that is not paused. *)
Inductive spec_step : os_spec -> os_spec -> Prop :=
| sp_run a x : fits_stack (a_cur a) x ->
    spec_step a (OsSpec (fun p => if decide (p = a_cur a) then x else a_thread a p) (a_cur a))
| sp_tick a i k n : l !! i = Some (a_cur a) -> (1 <= k)%nat -> l !! ((i + k) mod length l)%nat = Some n ->
    (forall k', (1 <= k' < k)%nat -> exists q, l !! ((i + k') mod length l)%nat = Some q /\ paused q) -> ~ paused n ->
    spec_step a (OsSpec (a_thread a) n).

(** The machine: the running thread changes its registers and its own stack, or
    is interrupted by the timer; C code may leave anything in scratch registers. *)
Inductive machine_step : cpu sched -> cpu sched -> Prop :=
| ms_run x b s x' m : fits_stack (s_current s) x' ->
    (forall a, a < (stack_of (s_current s)).1 \/ (stack_of (s_current s)).2 <= a -> m !! a = s_mem s !! a) ->
    machine_step (Cpu x b s) (Cpu x' b (ss_mem m s))
| ms_tick clobber p p' : tick_exception junk clobber p = Ok (tt, p') -> machine_step p p'.

(** The running task's registers are in the processor, the others' in their frames. *)
Record switch_rel (a : os_spec) (p : cpu sched) : Prop := {
  sr_ok : sched_ok (p_mem p) l;
  sr_layout : layout (p_mem p) l;
  sr_stack : forall q, q ∈ l -> region (p_mem p) q = Some (stack_of q);
  sr_paused : forall q t, q ∈ l -> s_tasks (p_mem p) !! q = Some t -> t_status t = os_task_status_paused <-> paused q;
  sr_cur : a_cur a = s_current (p_mem p);
  sr_runs : ~ paused (a_cur a);
  sr_fits : forall q, q ∈ l -> fits_stack q (a_thread a q);
  sr_thread : same_thread (p_thread p) (a_thread a (a_cur a));
  sr_saved : forall q t, q ∈ l -> q <> a_cur a -> s_tasks (p_mem p) !! q = Some t ->
    frame_ok (stack_of q).1 (stack_of q).2 (t_sp t) /\ same_thread (saved junk (p_mem p) (t_sp t)) (a_thread a q);
}.

Lemma fits_same p x y : same_thread x y -> fits_stack p y -> fits_stack p x.
Proof. intros (_ & _ & Hpsr & Hpsp) (H1 & H2 & H3). unfold fits_stack, fits. by rewrite Hpsr, Hpsp. Qed.

Lemma sched_ok_mem s m : sched_ok s l -> sched_ok (ss_mem m s) l.
Proof. by intros []. Qed.
Lemma sched_ok_sp s p t sp : sched_ok s l -> s_tasks s !! p = Some t ->
  sched_ok (ss_tasks (<[p := t_set_sp sp t]> (s_tasks s)) s) l.
Proof.
  intros [Hr Hh Hc Hsm Hcur (Hb1 & Hb2 & Hb3) Hk] Hp. split; try done.
  - by eapply ring_update.
  - split; [done|]. split; [|done]. intros q u. cbn. rewrite lookup_insert. case_decide; [subst; intros _; by eapply Hb2|apply Hb2].
  - cbn. intros u. rewrite lookup_insert. case_decide as Hd; [|apply Hk]. subst p. intros [= <-]. exact (Hk t Hp).
Qed.

Lemma run_simulated a x b s x' m :
  switch_rel a (Cpu x b s) -> fits_stack (s_current s) x' ->
  (forall a, a < (stack_of (s_current s)).1 \/ (stack_of (s_current s)).2 <= a -> m !! a = s_mem s !! a) ->
  exists a', spec_step a a' /\ switch_rel a' (Cpu x' b (ss_mem m s)).
Proof.
  intros [Hok Hly Hst Hpa Hcur Hrun Hfit Hth Hsv] Hx Hm. cbn [p_mem p_thread] in *. rewrite <- Hcur in *.
  eexists. split; [by apply (sp_run a x')|]. split; cbn [p_mem p_thread a_cur a_thread]; try done.
  - by apply sched_ok_mem.
  - exact (layout_same s (ss_mem m s) l (same_stacks_refl s) Hly).
  - intros q Hq. case_decide as Hd; [by subst|by apply Hfit].
  - by rewrite decide_True.
  - intros q t Hq Hne Ht. rewrite decide_False by done. destruct (Hsv q t Hq Hne Ht) as [Hf Hs]. split; [done|].
    rewrite <- Hs. apply saved_ext. intros w Hw. apply Hm.
    assert (a_cur a ∈ l) as Hc by (rewrite Hcur; apply (so_current _ _ Hok)).
    destruct (stack_of q) as [lo hi] eqn:Eq. destruct (stack_of (a_cur a)) as [lo' hi'] eqn:Ec.
    pose proof (ly_apart _ _ Hly q (a_cur a) lo hi lo' hi' Hq Hc Hne) as Hap.
    rewrite !Hst, Eq, Ec in Hap by done. specialize (Hap eq_refl eq_refl). destruct Hf as (_ & ? & ?). cbn [fst snd] in *. lia.
Qed.

(** After a tick every task's registers lie in its frame: the interrupted
    task's were saved there, the others' were not touched. *)
Lemma ticked_saved a x b s n c t tc q u :
  switch_rel a (Cpu x b s) -> q ∈ l -> s_tasks s !! s_current s = Some c ->
  <[s_current s := t_set_status os_task_status_idle c]> (s_tasks s) !! n = Some t ->
  s_tasks (ticked x s n c t tc) !! q = Some u ->
  frame_ok (stack_of q).1 (stack_of q).2 (t_sp u) /\ same_thread (saved junk (ticked x s n c t tc) (t_sp u)) (a_thread a q).
Proof.
  intros [Hok Hly Hst Hpa Hcur Hrun Hfit Hth Hsv] Hq Hc Ht Hu. cbn [p_mem p_thread] in *.
  assert (s_current s ∈ l) as Hcl by apply (so_current _ _ Hok).
  pose proof (fits_same _ _ _ Hth ltac:(rewrite Hcur; by apply Hfit)) as (Hal & Hb & H9).
  assert (36 <= x_psp x < 2 ^ 32) as Hpsp.
  { destruct (stack_of (s_current s)) as [lo hi] eqn:Ec. apply (psp_range s l (s_current s) lo hi); [done|done|by rewrite Hst, Ec|cbn [fst snd] in *; lia..]. }
  pose proof (frame_at_bounds (x_psp x) Hpsp) as Hf.
  destruct (decide (q = s_current s)) as [->|Hne].
  { cbn in Hu. unfold ticked_tasks in Hu. rewrite lookup_insert_eq in Hu. injection Hu as <-. cbn [t_sp t_set_sp]. split.
    - split; [rewrite Zminus_mod, frame_at_aligned by done; done|lia].
    - rewrite <- Hcur, <- Hth. by apply (saved_full _ _ _ (s_mem s)). }
  assert (exists u0, s_tasks s !! q = Some u0 /\ t_sp u = t_sp u0) as (u0 & Hu0 & ->).
  { cbn in Hu. unfold ticked_tasks in Hu. rewrite lookup_insert_ne in Hu by done.
    destruct (decide (n = q)) as [->|]; [rewrite lookup_insert_eq in Hu|rewrite lookup_insert_ne in Hu by done].
    - simplify_eq. rewrite lookup_insert_ne in Ht by done. by exists t.
    - rewrite lookup_insert_ne in Hu by done. by exists u. }
  destruct (Hsv q u0 Hq ltac:(congruence) Hu0) as [Hfr Hs]. split; [done|]. rewrite <- Hs.
  apply saved_ext. intros w Hw. cbn. apply full_mem_out.
  destruct (stack_of q) as [lo hi] eqn:Eq. destruct (stack_of (s_current s)) as [lo' hi'] eqn:Ec.
  pose proof (ly_apart _ _ Hly q (s_current s) lo hi lo' hi' Hq Hcl Hne) as Hap. rewrite !Hst, Eq, Ec in Hap by done.
  specialize (Hap eq_refl eq_refl). destruct Hfr as (_ & ? & ?). cbn [fst snd] in *. lia.
Qed.

(** The records a tick leaves: consistent, on the same stacks, equally paused. *)
Lemma ticked_ok s x n c t tc :
  sched_ok s l -> n ∈ l -> s_tasks s !! s_current s = Some c ->
  <[s_current s := t_set_status os_task_status_idle c]> (s_tasks s) !! n = Some t ->
  <[n := t_set_status os_task_status_active t]> (<[s_current s := t_set_status os_task_status_idle c]> (s_tasks s))
    !! s_current s = Some tc ->
  sched_ok (ticked x s n c t tc) l /\ same_stacks s (ticked x s n c t tc).
Proof.
  intros Hok Hn Hc Ht Htc. set (s1 := ss_tasks (<[s_current s := t_set_status os_task_status_idle c]> (s_tasks s)) s).
  set (s2 := ss_tasks (<[n := t_set_status os_task_status_active t]> (s_tasks s1)) s1).
  set (s3 := ss_tasks (<[s_current s := t_set_sp (frame_at (x_psp x) - 32) tc]> (s_tasks s2)) s2). split.
  - assert (sched_ok s1 l) as H1 by (by apply sched_ok_status).
    assert (sched_ok s2 l) as H2 by (by apply sched_ok_status).
    assert (sched_ok s3 l) as H3 by (by apply sched_ok_sp).
    apply (sched_ok_current (ss_mem (full_mem x (s_mem s)) (ss_pendsv false (ss_next n s3)))); [|done].
    by apply sched_ok_mem, sched_ok_pendsv, sched_ok_next.
  - apply (same_stacks_trans _ s1); [|apply (same_stacks_trans _ s2); [|apply (same_stacks_trans _ s3); [|done]]].
    + exact (same_stacks_insert s _ c (t_set_status os_task_status_idle c) (fun _ => s1) Hc eq_refl eq_refl eq_refl).
    + exact (same_stacks_insert s1 n t (t_set_status os_task_status_active t) (fun _ => s2) Ht eq_refl eq_refl eq_refl).
    + exact (same_stacks_insert s2 _ tc (t_set_sp (frame_at (x_psp x) - 32) tc) (fun _ => s3) Htc eq_refl eq_refl eq_refl).
Qed.

Lemma ticked_paused s x n c t tc q u :
  sched_ok s l -> (forall q t, q ∈ l -> s_tasks s !! q = Some t -> t_status t = os_task_status_paused <-> paused q) ->
  ~ paused (s_current s) -> ~ paused n -> s_tasks s !! s_current s = Some c ->
  <[n := t_set_status os_task_status_active t]> (<[s_current s := t_set_status os_task_status_idle c]> (s_tasks s))
    !! s_current s = Some tc ->
  q ∈ l -> s_tasks (ticked x s n c t tc) !! q = Some u -> t_status u = os_task_status_paused <-> paused q.
Proof.
  intros Hok Hpa Hcur Hn Hc Htc Hq Hu. cbn in Hu. unfold ticked_tasks in Hu.
  rewrite lookup_insert in Hu. rewrite lookup_insert in Htc. case_decide as H1.
  { subst q. injection Hu as <-. split; [|done]. intros Hs. cbn in Hs. case_decide.
    - by injection Htc as <-.
    - rewrite lookup_insert_eq in Htc. by injection Htc as <-. }
  rewrite lookup_insert in Hu. case_decide as H2; [subst q; by injection Hu as <-|].
  rewrite lookup_insert_ne in Hu by done. by apply Hpa.
Qed.

(** A tick always completes, and is a step of the specification. *)
Lemma tick_simulated a p clobber :
  switch_rel a p ->
  exists a' p', tick_exception junk clobber p = Ok (tt, p') /\ spec_step a a' /\ switch_rel a' p'.
Proof.
  intros Hrel. destruct p as [x b s]. pose proof Hrel as [Hok Hly Hst Hpa Hcur Hrun Hfit Hth Hsv]. cbn [p_mem p_thread] in *.
  destruct (sched_ok_current_pos _ _ Hok) as (i & Hi & _).
  assert (s_current s ∈ l) as Hcl by apply (so_current _ _ Hok).
  pose proof (Hst _ Hcl) as Hreg. destruct (stack_of (s_current s)) as [lo hi] eqn:Ec.
  destruct (tick_exception_ok junk clobber x b s l i lo hi Hok Hly Hi Hreg) as
    (k & n & c & t & tc & tn & x' & Hk & Hn & Hp & Hnp & Hc & Ht & Htc & Htn & Hrun' & Hsame).
  { assert (fits_stack (s_current s) x) as Hx by (apply (fits_same _ _ _ Hth); rewrite Hcur; by apply Hfit).
    unfold fits_stack in Hx. by rewrite Ec in Hx. }
  { intros q t lo' hi' Hq Hne Ht Hr. rewrite Hst in Hr by done. destruct (Hsv q t Hq ltac:(congruence) Ht) as [Hf _].
    injection Hr as Hr. by rewrite Hr in Hf. }
  assert (n ∈ l) as Hnl by (by eapply list_elem_of_lookup_2).
  destruct (ticked_ok s x n c t tc Hok Hnl Hc Ht Htc) as [Hok' Hss].
  assert (~ paused n) as Hnpa.
  { destruct (decide (k = length l)) as [->|Hlt].
    - rewrite mod_self in Hn by (by eapply lookup_lt_Some). simplify_eq. by rewrite <- Hcur.
    - intros Hpn. apply Hnp; [lia|]. destruct (so_ring _ _ Hok) as [_ Hr]. destruct (Hr _ _ Hn) as (u & Hu & _).
      exists n, u. split; [done|]. split; [done|]. by apply (Hpa n u). }
  eexists (OsSpec (a_thread a) n), _. split; [exact Hrun'|]. split.
  - apply (sp_tick a i k n); [by rewrite Hcur|lia|done| |done].
    intros k' Hk'. destruct (Hp k' Hk') as (q & u & Hq & Hu & Hs). exists q. split; [done|].
    apply (Hpa q u); [by eapply list_elem_of_lookup_2|done|done].
  - split; cbn [p_mem p_thread a_cur a_thread]; try done.
    + exact (layout_same _ _ _ Hss Hly).
    + intros q Hq. rewrite (region_same _ _ _ Hss). by apply Hst.
    + intros q u Hq Hu. rewrite Hcur in Hrun. exact (ticked_paused s x n c t tc q u Hok Hpa Hrun Hnpa Hc Htc Hq Hu).
    + rewrite Hsame. by apply (ticked_saved a x b s n c t tc n tn).
    + intros q u Hq _ Hu. by apply (ticked_saved a x b s n c t tc q u).
Qed.

(** C7: Context switching refines private registers: along any run of the
    machine, in which the running task computes on its registers and its own
    stack and timer ticks interrupt it anywhere, the tasks behave as if each had
    its own register file and a tick only selected the next task that is not
    paused. A tick, from the interrupt through the assembly of the PendSV handler
    to the return into the next task, always completes, whatever C code leaves in
    the registers it may change. *)
Theorem context_switch_refines a p p' :
  switch_rel a p -> rtc machine_step p p' ->
  exists a', rtc spec_step a a' /\ switch_rel a' p' /\
    forall clobber, exists p'', tick_exception junk clobber p' = Ok (tt, p'').
Proof.
  intros Hrel Hsteps. revert a Hrel. induction Hsteps as [p|p p1 p' Hstep _ IH]; intros a Hrel.
  - exists a. split; [done|]. split; [done|]. intros clobber. destruct (tick_simulated a p clobber Hrel) as (_ & p'' & H & _). by exists p''.
  - assert (exists a1, spec_step a a1 /\ switch_rel a1 p1) as (a1 & Ha & Hrel1).
    { destruct Hstep as [x b s x' m Hf Hm|clobber p p1 Ht]; [by eapply run_simulated|].
      destruct (tick_simulated a p clobber Hrel) as (a1 & p2 & Ht' & Ha & Hrel1). rewrite Ht in Ht'. simplify_eq. eauto. }
    destruct (IH a1 Hrel1) as (a' & Ha' & Hrest). exists a'. split; [by eapply rtc_l|done].
Qed.
End Refinement.

(** The kernel task runs and one application waits, as loading left it. *)
Definition app_ring : list Z := [kernel_addr; s_brk booted].
Definition sample_stack (p : Z) : Z * Z := default (0, 0) (region loaded p).
Definition kernel_thread : thread := Thread (fun _ => 7) 0x400300 0x01000000 (s_psp loaded).
Definition sample_machine : cpu sched := Cpu kernel_thread true loaded.
Definition sample_spec : os_spec :=
  OsSpec (fun p => if decide (p = kernel_addr) then kernel_thread
                   else saved (fun _ => 0) loaded (default 0 (t_sp <$> s_tasks loaded !! p))) kernel_addr.
Definition never (p : Z) : Prop := False.

(** The layout of the sample, by computation. *)
Lemma sample_regions :
  Forall (fun p => region loaded p = Some (sample_stack p) /\ 0x20001000 <= (sample_stack p).1 /\ (sample_stack p).2 < 2 ^ 32)
    app_ring.
Proof. apply (bool_decide_unpack _). vm_compute. exact I. Qed.
Lemma sample_apart :
  Forall (fun p => Forall (fun q => p = q \/ (sample_stack p).2 <= (sample_stack q).1 \/ (sample_stack q).2 <= (sample_stack p).1)
                     app_ring) app_ring.
Proof. apply (bool_decide_unpack _). vm_compute. exact I. Qed.
Lemma sample_records :
  map_Forall (fun p _ => 0x20001000 <= p /\ Forall (fun q => p < (sample_stack q).1 \/ (sample_stack q).2 <= p) app_ring)
    (s_tasks loaded).
Proof. apply (bool_decide_unpack _). vm_compute. exact I. Qed.

Lemma layout_by s l (st : Z -> Z * Z) :
  Forall (fun p => region s p = Some (st p) /\ 0x20001000 <= (st p).1 /\ (st p).2 < 2 ^ 32) l ->
  Forall (fun p => Forall (fun q => p = q \/ (st p).2 <= (st q).1 \/ (st q).2 <= (st p).1) l) l ->
  map_Forall (fun p _ => 0x20001000 <= p /\ Forall (fun q => p < (st q).1 \/ (st q).2 <= p) l) (s_tasks s) -> layout s l.
Proof.
  intros Hr Ha Ht. rewrite Forall_forall in Hr. split.
  - intros p Hp. destruct (Hr p Hp) as (H1 & H2 & H3). destruct (st p) as [lo hi]. by exists lo, hi.
  - intros p q lo hi lo' hi' Hp Hq Hne H1 H2. rewrite Forall_forall in Ha. specialize (Ha p Hp). rewrite Forall_forall in Ha.
    specialize (Ha q Hq). destruct (Hr p Hp) as [Hp' _]. destruct (Hr q Hq) as [Hq' _].
    rewrite H1 in Hp'; rewrite H2 in Hq'. injection Hp' as Ep. injection Hq' as Eq. rewrite <- Ep, <- Eq in Ha. by destruct Ha.
  - intros p t Hp. destruct (Ht p t Hp) as [Hlo Hf]. split; [done|]. intros q lo hi Hq H1. rewrite Forall_forall in Hf.
    specialize (Hf q Hq). destruct (Hr q Hq) as [Hq' _]. rewrite H1 in Hq'. injection Hq' as Eq. by rewrite <- Eq in Hf.
Qed.
Lemma sample_layout : layout loaded app_ring.
Proof. exact (layout_by loaded app_ring sample_stack sample_regions sample_apart sample_records). Qed.

#[local] Instance frame_ok_dec lo hi sp : Decision (frame_ok lo hi sp).
Proof. unfold frame_ok. apply _. Defined.
#[local] Instance fits_dec lo hi x : Decision (fits lo hi x).
Proof. unfold fits. apply _. Defined.
Lemma sample_fits : Forall (fun q => fits (sample_stack q).1 (sample_stack q).2 (a_thread sample_spec q)) app_ring.
Proof. apply (bool_decide_unpack _). vm_compute. exact I. Qed.
Lemma sample_frames :
  Forall (fun q => frame_ok (sample_stack q).1 (sample_stack q).2 (default 0 (t_sp <$> s_tasks loaded !! q))) app_ring.
Proof. apply (bool_decide_unpack _). vm_compute. exact I. Qed.
Lemma sample_unpaused : map_Forall (fun _ t => t_status t <> os_task_status_paused) (s_tasks loaded).
Proof. apply (bool_decide_unpack _). vm_compute. exact I. Qed.

Lemma sample_ok : sched_ok loaded app_ring.
Proof.
  destruct (os_load_application_ok booted _ 0x20010000 1 booted_ok) as (s & Hrun & Hok & _); [vm_compute; constructor|vm_compute; lia|].
  rewrite loaded_run in Hrun.
  pose proof (f_equal (fun o => match o with Ok (_, x) => x | _ => s end) Hrun) as E. cbv beta iota in E. rewrite E. exact Hok.
Qed.

Lemma sample_rel : switch_rel app_ring sample_stack never (fun _ => 0) sample_spec sample_machine.
Proof.
  split; cbn [p_mem p_thread sample_machine].
  - exact sample_ok.
  - exact sample_layout.
  - intros q Hq. exact (proj1 (proj1 (Forall_forall _ _) sample_regions q Hq)).
  - intros q t _ Ht. split; [exact (fun H => sample_unpaused q t Ht H)|intros []].
  - vm_compute. reflexivity.
  - intros [].
  - exact (proj1 (Forall_forall _ _) sample_fits).
  - exact (Equivalence_Reflexive _).
  - intros q t Hq Hne Ht. pose proof (proj1 (Forall_forall _ _) sample_frames q Hq) as Hf. cbv beta in Hf. rewrite Ht in Hf.
    unfold sample_spec. cbn [a_cur a_thread] in *. rewrite (decide_False _ _ Hne), Ht. split; [exact Hf|exact (Equivalence_Reflexive _)].
Qed.

Definition sample_ticked : cpu sched :=
  match tick_exception (fun _ => 0) (fun _ => 0xDEAD) sample_machine with Ok (_, p) => p | _ => sample_machine end.

Lemma context_switch_refines_witness :
  (exists a', rtc (spec_step app_ring sample_stack never) sample_spec a' /\
    switch_rel app_ring sample_stack never (fun _ => 0) a' sample_ticked /\
    forall clobber, exists p'', tick_exception (fun _ => 0) clobber sample_ticked = Ok (tt, p'')) /\
  s_current (p_mem sample_ticked) = s_brk booted.
Proof.
  split.
  - apply (context_switch_refines app_ring sample_stack never (fun _ => 0) sample_spec sample_machine sample_ticked sample_rel).
    apply rtc_once, (ms_tick sample_stack (fun _ => 0) (fun _ => 0xDEAD)). vm_compute. reflexivity.
  - vm_compute. reflexivity.
Defined.

(** ** Switches without a running task *)

Section Null.
Implicit Types s : sched.

Lemma check_loop_inv fuel : forall s s', check_loop fuel s = Ok (tt, s') -> exists n, s' = ss_next n s.
Proof.
  induction fuel as [|fuel IH]; intros s s' H; cbn [check_loop] in H; rewrite bind_gets in H;
    apply bind_Ok_inv in H as (t & s1 & Hl & H); unfold load_task in Hl;
    (destruct (s_tasks s !! s_next_task s); [|done]); injection Hl as <- <-; case_decide.
  - done.
  - injection H as <-. exists (s_next_task s). by destruct s.
  - rewrite bind_modify in H. apply IH in H as [n ->]. by exists n.
  - injection H as <-. exists (s_next_task s). by destruct s.
Qed.

Lemma store_task_inv p t s u s' : store_task p t s = Ok (u, s') ->
  s_current s' = s_current s /\ (forall t0, s_tasks s !! p = Some t0 -> t_stack t = t_stack t0 -> same_stacks s s').
Proof.
  unfold store_task. destruct (s_tasks s !! p) as [t0|] eqn:Hp; [|done]. intros [= <- <-]. split; [done|].
  intros t1 [= <-] Ht. exact (same_stacks_insert s p t0 t (ss_tasks (<[p := t]> (s_tasks s))) Hp Ht eq_refl eq_refl).
Qed.
Lemma set_status_inv p st s u s' : (t ← load_task p; store_task p (t_set_status st t)) s = Ok (u, s') ->
  s_current s' = s_current s /\ same_stacks s s'.
Proof.
  intros H. apply bind_Ok_inv in H as (t & s1 & Hl & H). unfold load_task in Hl.
  destruct (s_tasks s !! p) as [t0|] eqn:Hp; [|done]. injection Hl as -> ->. apply store_task_inv in H as [Hc Hs].
  split; [done|]. by apply (Hs t).
Qed.

(** Selecting a task with none running leaves none running. *)
Lemma os_task_next_null s u s' : s_current s = 0 -> os_task_next s = Ok (u, s') -> s_current s' = 0 /\ same_stacks s s'.
Proof.
  intros H0 H. unfold os_task_next in H. rewrite bind_gets, H0 in H. change (ctrue 0) with false in H. cbv iota in H.
  rewrite bind_ret_l, bind_get in H. apply bind_Ok_inv in H as ([] & s1 & Hl & H). apply check_loop_inv in Hl as [n ->].
  rewrite bind_gets in H. rewrite <- bind_assoc in H. apply bind_Ok_inv in H as (v & s2 & Hs & H).
  apply set_status_inv in Hs as [Hc Hs]. unfold modify in H. injection H as <- <-. split; [exact (eq_trans Hc H0)|exact Hs].
Qed.

Lemma os_task_from_pid_state pid s task s1 : os_task_from_pid pid s = Ok (task, s1) -> s1 = s.
Proof.
  unfold os_task_from_pid. rewrite !bind_gets. generalize (s_head s). generalize (Z.to_nat (s_count s)).
  induction n as [|n IH]; intros p H; cbn [from_pid_loop] in H; [by injection H|].
  apply bind_Ok_inv in H as (t & s2 & Hl & H). unfold load_task in Hl. destruct (s_tasks s !! p); [|done].
  injection Hl as -> ->. destruct (pid =? t_pid t); [by injection H|by apply IH in H].
Qed.

(** A successful resume forgets the running task. *)
Lemma os_task_resume_inv pid s s' : os_task_resume pid s = Ok (lf_success, s') -> s_current s' = 0 /\ same_stacks s s'.
Proof.
  unfold os_task_resume, s_assert. destruct (ctrue pid); [|done]. intros H.
  apply bind_Ok_inv in H as (task & s1 & Hp & H). apply os_task_from_pid_state in Hp as ->.
  destruct (ctrue task); [|done]. rewrite <- bind_assoc in H. apply bind_Ok_inv in H as (v & s1 & H1 & H).
  apply set_status_inv in H1 as [Hc1 Hs1]. rewrite bind_gets, <- bind_assoc in H.
  apply bind_Ok_inv in H as (w & s2 & H2 & H). apply set_status_inv in H2 as [Hc2 Hs2].
  rewrite !bind_modify in H. apply bind_Ok_inv in H as (y & s3 & H3 & H). injection H as <-.
  apply os_task_next_null in H3 as [Hc3 Hs3]; [|done]. split; [done|].
  by apply (same_stacks_trans _ s1), (same_stacks_trans _ s2).
Qed.

Lemma null_not_memory s l : sched_ok s l -> s_tasks s !! 0 = None /\ in_stacks s 0 = false.
Proof.
  intros Hok. destruct (so_brk _ _ Hok) as (_ & Ht & Hs). split.
  - destruct (s_tasks s !! 0) as [t|] eqn:E; [|done]. apply Ht in E. lia.
  - unfold in_stacks. apply not_true_iff_false. intros ([b z] & Hin & Hle)%existsb_exists.
    apply list_elem_of_In, elem_of_map_to_list, Hs in Hin. apply andb_true_iff in Hle as [Hle _]. apply Z.leb_le in Hle. lia.
Qed.
End Null.

(** C40: Resuming a task breaks the switch that follows: [os_task_resume] clears
    the running-task pointer before it requests the switch, and the PendSV handler
    then stores the interrupted task's stack pointer through the null pointer
    instead of its record. *)
Theorem resume_stores_through_null junk clobber s s' l pid x b lo hi :
  sched_ok s l -> layout s l -> region s (s_current s) = Some (lo, hi) -> fits lo hi x ->
  os_task_resume pid s = Ok (lf_success, s') ->
  requested_switch junk clobber (Cpu x b s') = Ub.
Proof.
  intros Hok Hly Hr Hx Hres. apply os_task_resume_inv in Hres as [Hc Hss].
  destruct (null_not_memory s l Hok) as [H0 Hi0]. pose proof (so_current _ _ Hok) as Hcl.
  apply (requested_switch_null junk clobber x b s' l (s_current s) lo hi); [by apply (layout_same s)|done|done|..|by rewrite (region_same s)|done].
  - destruct Hss as [_ Hd]. specialize (Hd 0). rewrite H0 in Hd. by destruct (s_tasks s' !! 0).
  - destruct Hss as [Hst _]. unfold in_stacks. by rewrite Hst.
Qed.

Definition sample_resumed : sched := match os_task_resume 1 loaded with Ok (_, s) => s | _ => loaded end.
Lemma resume_stores_through_null_witness :
  requested_switch (fun _ => 0) (fun _ => 0) (Cpu kernel_thread true sample_resumed) = Ub.
Proof.
  apply (resume_stores_through_null (fun _ => 0) (fun _ => 0) loaded sample_resumed app_ring 1 kernel_thread true
           (sample_stack kernel_addr).1 (sample_stack kernel_addr).2).
  - exact sample_ok.
  - exact sample_layout.
  - vm_compute. reflexivity.
  - vm_compute. split; [reflexivity|split; [split; discriminate|reflexivity]].
  - vm_compute. reflexivity.
Defined.
