(* ===== verification/ArmTypes.v ===== *)
(** * Words of the machine

    Registers, stack pointers, task pointers and memory of the machine of Arm
    are 32-bit words, and stay so under every instruction, exception and
    scheduler step. *)

From S2P Require Import Prelude Errors Scheduler OsProps Arm SwitchProps.
From stdpp Require Import base list gmap sets.
From Stdlib Require Import ZArith Lia.
Local Open Scope Z_scope.

Definition word32 (z : Z) : Prop := 0 <= z < 2 ^ 32.
Definition thread_words (x : thread) : Prop :=
  (forall r, word32 (x_reg x r)) /\ word32 (x_pc x) /\ word32 (x_psr x) /\ word32 (x_psp x).
Definition os_words (s : sched) : Prop :=
  word32 (s_current s) /\ word32 (s_next_task s) /\
  map_Forall (fun _ t => word32 (t_sp t) /\ word32 (t_next t)) (s_tasks s) /\ map_Forall (fun _ v => word32 v) (s_mem s).
Definition cpu_words (p : cpu sched) : Prop := thread_words (p_thread p) /\ os_words (p_mem p).

Section Bits.
(** A number is a word when its high bits are clear. *)
Lemma word32_bits z : (forall i, 32 <= i -> Z.testbit z i = false) -> word32 z.
Proof.
  intros H. assert (z = z mod 2 ^ 32) as ->; [|apply Z.mod_pos_bound; lia].
  apply Z.bits_inj'. intros i Hi. rewrite testbit_mod_pow2 by lia. destruct (Z.ltb_spec i 32); [done|]. by apply H.
Qed.
Lemma word32_high z i : word32 z -> 32 <= i -> Z.testbit z i = false.
Proof. intros Hz Hi. apply (testbit_high 32); [done|lia]. Qed.
Lemma lor_word a b : word32 a -> word32 b -> word32 (Z.lor a b).
Proof. intros Ha Hb. apply word32_bits. intros i Hi. by rewrite Z.lor_spec, !word32_high. Qed.
Lemma ldiff_word a b : word32 a -> word32 (Z.ldiff a b).
Proof. intros Ha. apply word32_bits. intros i Hi. by rewrite Z.ldiff_spec, word32_high. Qed.
Lemma shifted_bool_word b n : 0 <= n < 32 -> word32 (Z.shiftl (Z.b2z b) n).
Proof.
  intros Hn. rewrite Z.shiftl_mul_pow2 by lia. pose proof (Z.pow_lt_mono_r 2 n 32 ltac:(lia) ltac:(lia) ltac:(lia)).
  pose proof (Z.pow_pos_nonneg 2 n ltac:(lia) ltac:(lia)). destruct b; cbn [Z.b2z]; unfold word32; lia.
Qed.
End Bits.

(** The words an instruction contains. *)
Definition instr_words (i : instr) : Prop := match i with LDR_lit _ v => word32 v | _ => True end.

(** A computation that keeps words and returns a value with [Q]. *)
Definition keeps {S A} (I : S -> Prop) (m : M S A) (Q : A -> Prop) : Prop :=
  forall s a s', I s -> m s = Ok (a, s') -> Q a /\ I s'.

#[local] Instance word32_dec z : Decision (word32 z).
Proof. unfold word32. apply _. Defined.

Create HintDb words.

Section Keeps.
Context {S : Type} (I : S -> Prop).
Lemma typed_bind {A B} (m : M S A) (f : A -> M S B) Q R :
  keeps I m Q -> (forall a, Q a -> keeps I (f a) R) -> keeps I (m ≫= f) R.
Proof.
  intros Hm Hf s b s' Hs Hrun. apply bind_Ok_inv in Hrun as (a & s1 & H1 & H2).
  destruct (Hm s a s1 Hs H1) as [Ha Hs1]. by apply (Hf a Ha s1).
Qed.
Lemma typed_ret {A} (a : A) (Q : A -> Prop) : Q a -> keeps I (mret a) Q.
Proof. intros Ha s b s' Hs [= <- <-]. done. Qed.
Lemma typed_ub {A} (Q : A -> Prop) : keeps I ub Q.
Proof. by intros s a s'. Qed.
Lemma typed_spin {A} (Q : A -> Prop) : keeps I spin Q.
Proof. by intros s a s'. Qed.
Lemma typed_gets {A} (f : S -> A) (Q : A -> Prop) : (forall s, I s -> Q (f s)) -> keeps I (gets f) Q.
Proof. intros Hf s b s' Hs [= <- <-]. split; [by apply Hf|done]. Qed.
Lemma typed_get : keeps I get I.
Proof. intros s b s' Hs [= <- <-]. done. Qed.
Lemma typed_modify (f : S -> S) (Q : unit -> Prop) : Q tt -> (forall s, I s -> I (f s)) -> keeps I (modify f) Q.
Proof. intros HQ Hf s b s' Hs [= <- <-]. split; [done|by apply Hf]. Qed.
End Keeps.
#[export] Hint Resolve typed_ub typed_spin : words.

Section Scheduler.
Lemma insert_task_words (ts : gmap Z os_task) p t :
  map_Forall (fun _ t => word32 (t_sp t) /\ word32 (t_next t)) ts -> word32 (t_sp t) /\ word32 (t_next t) ->
  map_Forall (fun _ t => word32 (t_sp t) /\ word32 (t_next t)) (<[p := t]> ts).
Proof. intros H1 H2. by apply map_Forall_insert_2. Qed.

Lemma load_task_keeps p : keeps os_words (load_task p) (fun t => word32 (t_sp t) /\ word32 (t_next t)).
Proof.
  intros s t s' Hs Hl. unfold load_task in Hl. destruct (s_tasks s !! p) as [t0|] eqn:E; [|done].
  injection Hl as -> ->. split; [|done]. destruct Hs as (_ & _ & Ht & _). by apply (Ht p).
Qed.
Lemma store_task_keeps p t : word32 (t_sp t) /\ word32 (t_next t) -> keeps os_words (store_task p t) (fun _ => True).
Proof.
  intros Hw s u s' (H1 & H2 & H3 & H4) Hl. unfold store_task in Hl. destruct (s_tasks s !! p); [|done].
  injection Hl as <- <-. split; [done|]. split; [done|]. split; [done|]. split; [|done]. by apply insert_task_words.
Qed.
Lemma set_next_keeps n : word32 n -> keeps os_words (modify (ss_next n)) (fun _ => True).
Proof. intros Hn. apply typed_modify; [done|]. intros s (H1 & _ & H3). done. Qed.

Lemma check_loop_keeps fuel : keeps os_words (check_loop fuel) (fun _ => True).
Proof.
  induction fuel as [|fuel IH]; cbn [check_loop];
    (eapply typed_bind; [apply (typed_gets _ _ (fun _ => True)); done|]; intros nt _);
    (eapply typed_bind; [apply load_task_keeps|]; intros t [_ Hn]); case_decide.
  2, 4: by apply typed_ret.
  - eapply typed_bind; [by apply set_next_keeps|]. intros _ _. apply typed_spin.
  - eapply typed_bind; [by apply set_next_keeps|]. intros _ _. exact IH.
Qed.

Lemma systick_keeps : keeps os_words systick_exception (fun _ => True).
Proof.
  unfold systick_exception, os_task_next.
  eapply typed_bind; [apply (typed_gets _ _ (fun _ => True)); done|]. intros cur _.
  eapply (typed_bind _ _ _ (fun _ => True)).
  { destruct (ctrue cur); [|by apply typed_ret]. eapply typed_bind; [apply load_task_keeps|]. intros t Ht.
    eapply typed_bind; [apply store_task_keeps; exact Ht|]. intros _ _. apply set_next_keeps, Ht. }
  intros _ _. eapply typed_bind; [apply typed_get|]. intros s _.
  eapply typed_bind; [apply check_loop_keeps|]. intros _ _.
  eapply typed_bind; [apply (typed_gets _ _ (fun _ => True)); done|]. intros nt _.
  eapply typed_bind; [apply load_task_keeps|]. intros t Ht.
  eapply typed_bind; [apply store_task_keeps; exact Ht|]. intros _ _. apply typed_modify; [done|exact (fun s' Hs => Hs)].
Qed.
End Scheduler.

Section Machine.
Context (junk : Z -> Z) (clobber : reg -> Z).
Hypothesis junk_words : forall a, word32 (junk a).
Hypothesis clobber_words : forall r, word32 (clobber r).
#[local] Instance os_mem : Memory sched := os_memory junk.

Lemma os_load_words a s v : os_words s -> os_load junk a s = Some v -> word32 v.
Proof.
  intros (H1 & H2 & H3 & H4). unfold os_load. destruct (a =? _); [by intros [= <-]|]. destruct (a =? _); [by intros [= <-]|].
  destruct (s_tasks s !! a) as [t|] eqn:Ht; [intros [= <-]; exact (proj1 (H3 a t Ht))|].
  destruct (in_stacks s a); [|done]. intros [= <-]. unfold stack_word. destruct (s_mem s !! a) as [w|] eqn:E; [exact (H4 a w E)|apply junk_words].
Qed.
Lemma os_store_words a v s s' : os_words s -> word32 v -> os_store a v s = Some s' -> os_words s'.
Proof.
  intros (H1 & H2 & H3 & H4) Hv. unfold os_store. destruct (a =? _); [by intros [= <-]|]. destruct (a =? _); [by intros [= <-]|].
  destruct (s_tasks s !! a) as [t|] eqn:Ht.
  - intros [= <-]. split; [done|]. split; [done|]. split; [|done]. apply insert_task_words; [done|]. split; [done|]. exact (proj2 (H3 a t Ht)).
  - destruct (in_stacks s a); [|done]. intros [= <-]. split; [done|]. split; [done|]. split; [done|]. by apply map_Forall_insert_2.
Qed.

Lemma set_reg_words r v x : thread_words x -> word32 v -> thread_words (set_reg r v x).
Proof. intros [Hr Hx] Hv. split; [|done]. intros r'. cbn. case_decide; [done|apply Hr]. Qed.
Lemma rget_keeps r : keeps cpu_words (rget r) word32.
Proof. apply typed_gets. intros p [[Hr _] _]. apply Hr. Qed.
Lemma rset_keeps r v : word32 v -> keeps cpu_words (rset r v) (fun _ => True).
Proof. intros Hv. apply typed_modify; [done|]. intros p [Hx Hm]. split; [by apply set_reg_words|done]. Qed.
Lemma mget_keeps a : keeps cpu_words (mget a) word32.
Proof.
  intros p v p' [Hx Hm] H. unfold mget in H. cbn [load os_mem os_memory] in H. destruct (os_load junk a (p_mem p)) as [w|] eqn:E; [|done].
  injection H as -> ->. split; [by eapply os_load_words|done].
Qed.
Lemma mset_keeps a v : word32 v -> keeps cpu_words (mset a v) (fun _ => True).
Proof.
  intros Hv p u p' [Hx Hm] H. unfold mset in H. cbn [store os_mem os_memory] in H. destruct (os_store a v (p_mem p)) as [m|] eqn:E; [|done].
  injection H as <- <-. split; [done|]. split; [done|]. by eapply os_store_words.
Qed.
Lemma set_psp_keeps (f : thread -> Z) : (forall x, thread_words x -> word32 (f x)) ->
  keeps cpu_words (modify (fun p => Cpu (set_psp (f (p_thread p)) (p_thread p)) (p_irq p) (p_mem p))) (fun _ => True).
Proof. intros Hf. apply typed_modify; [done|]. intros p [Hx Hm]. split; [|done]. pose proof (Hf _ Hx). by destruct Hx as (? & ? & ? & _). Qed.

Lemma store_regs_keeps rs : forall a, keeps cpu_words (store_regs a rs) (fun _ => True).
Proof.
  induction rs as [|r rs IH]; intros a; cbn [store_regs]; [by apply typed_ret|].
  eapply typed_bind; [apply rget_keeps|]. intros v Hv. eapply typed_bind; [by apply mset_keeps|]. intros _ _. apply IH.
Qed.
Lemma load_regs_keeps rs : forall a, keeps cpu_words (load_regs a rs) (fun _ => True).
Proof.
  induction rs as [|r rs IH]; intros a; cbn [load_regs]; [by apply typed_ret|].
  eapply typed_bind; [apply mget_keeps|]. intros v Hv. eapply typed_bind; [by apply rset_keeps|]. intros _ _. apply IH.
Qed.
Lemma call_keeps f : keeps os_words f (fun _ => True) -> keeps cpu_words (call clobber f) (fun _ => True).
Proof.
  intros Hf p u p' [(Hr & Hx) Hm] H. unfold call in H. destruct (f (p_mem p)) as [[v m]| |] eqn:E; [|done..].
  injection H as <- <-. split; [done|]. destruct (Hf _ _ _ Hm E) as [_ Hm']. split; [|done]. split; [|done].
  intros r. cbn. destruct (caller_saved r); [apply clobber_words|apply Hr].
Qed.
Lemma os_call_keeps f : keeps os_words (os_call f) (fun _ => True).
Proof.
  unfold os_call. destruct (f =? _); [|apply typed_ub]. apply typed_modify; [done|]. intros s (_ & H2 & H3). done.
Qed.
Lemma aligned_keeps a : keeps cpu_words (aligned a) (fun _ => True).
Proof. unfold aligned. destruct (a mod 4 =? 0); [by apply typed_ret|apply typed_ub]. Qed.

Lemma u32_word z : word32 (u32 z).
Proof. apply u32_range. Qed.
#[local] Hint Resolve rget_keeps rset_keeps mget_keeps mset_keeps store_regs_keeps load_regs_keeps aligned_keeps
  call_keeps os_call_keeps u32_word : words.

(** One bind after the other. *)
Ltac words :=
  repeat first
    [ progress intros
    | apply typed_ret; done
    | eapply typed_bind; [solve [eauto with words]|] ].

Lemma exec_keeps i : instr_words i -> keeps cpu_words (exec os_call clobber i) (fun o => forall v, o = Some v -> word32 v).
Proof.
  intros Hi. destruct i; cbn [exec].
  - eapply typed_bind; [apply (typed_modify _ _ (fun _ => True)); [done|exact (fun p Hp => Hp)]|]. words.
  - eapply typed_bind; [apply (typed_modify _ _ (fun _ => True)); [done|exact (fun p Hp => Hp)]|]. words.
  - eapply typed_bind; [apply (typed_gets _ _ word32); by intros p [(_ & _ & _ & ?) _]|]. words.
  - eapply typed_bind; [apply rget_keeps|]. intros v Hv. eapply typed_bind; [by apply (set_psp_keeps (fun _ => v))|]. words.
  - words.
  - words.
  - words.
  - words.
  - words.
  - words.
  - words.
  - words.
  - eapply typed_bind; [apply rget_keeps|]. intros v Hv. apply typed_ret. by intros w [= <-].
Qed.

Lemma run_keeps prog : Forall instr_words prog -> keeps cpu_words (run os_call clobber prog) word32.
Proof.
  induction 1 as [|i prog Hi _ IH]; cbn [run]; [apply typed_ub|].
  eapply typed_bind; [by apply exec_keeps|]. intros [v|] Hv; [by apply typed_ret, Hv|exact IH].
Qed.

Lemma exc_enter_keeps : keeps cpu_words exc_enter (fun _ => True).
Proof.
  unfold exc_enter. eapply (typed_bind _ _ _ thread_words); [apply typed_gets; by intros p [? _]|].
  intros x (Hr & Hpc & Hpsr & Hpsp). cbv zeta. eapply typed_bind; [apply store_regs_keeps|]. intros _ _.
  eapply typed_bind; [by apply mset_keeps|]. intros _ _.
  eapply typed_bind; [apply mset_keeps, lor_word; [done|by apply shifted_bool_word]|]. intros _ _.
  apply typed_modify; [done|]. intros p [(Hr' & ? & ? & _) Hm]. split; [|done].
  apply set_reg_words; [|by vm_compute]. split_and!; try done. apply u32_word.
Qed.

Lemma exc_return_keeps : keeps cpu_words exc_return (fun _ => True).
Proof.
  unfold exc_return. eapply (typed_bind _ _ _ (fun _ => True)); [by apply typed_gets|]. intros f _.
  eapply typed_bind; [apply load_regs_keeps|]. intros _ _. eapply typed_bind; [apply mget_keeps|]. intros pc Hpc.
  eapply typed_bind; [apply mget_keeps|]. intros w Hw. apply typed_modify; [done|]. intros p [(Hr & _) Hm]. split; [|done].
  split_and!; [done|done|by apply ldiff_word|]. apply lor_word; [apply u32_word|by apply shifted_bool_word].
Qed.

Lemma pendsv_keeps : keeps cpu_words (pendsv junk clobber) (fun _ => True).
Proof.
  unfold pendsv. eapply typed_bind; [apply (typed_modify _ _ (fun _ => True)); [done|exact (fun p Hp => Hp)]|]. intros _ _.
  eapply typed_bind; [apply run_keeps|].
  - repeat constructor; by vm_compute.
  - intros v _. unfold return_to. destruct (v =? _); [apply exc_return_keeps|apply typed_ub].
Qed.
End Machine.

(** C8: The machine is well typed: a timer tick, from the interrupt through the
    scheduler's C code and the assembly of the PendSV handler to the return into
    the next task, takes 32-bit words to 32-bit words, in every register, the task
    pointers, the saved stack pointers and memory. *)
Theorem tick_keeps_words junk clobber p p' :
  (forall a, word32 (junk a)) -> (forall r, word32 (clobber r)) -> cpu_words p ->
  tick_exception junk clobber p = Ok (tt, p') -> cpu_words p'.
Proof.
  intros Hj Hc Hp Hrun. unfold tick_exception in Hrun.
  enough (keeps cpu_words (tick_exception junk clobber) (fun _ => True)) as Hk by (by destruct (Hk p tt p' Hp Hrun)).
  unfold tick_exception. eapply typed_bind; [by apply exc_enter_keeps|]. intros _ _.
  eapply typed_bind; [apply call_keeps; [done|apply systick_keeps]|]. intros _ _. by apply pendsv_keeps.
Qed.

Lemma tick_keeps_words_witness : cpu_words sample_ticked.
Proof.
  apply (tick_keeps_words (fun _ => 0) (fun _ => 0xDEAD) sample_machine sample_ticked).
  - intros a. vm_compute. split; [discriminate|reflexivity].
  - intros r. vm_compute. split; [discriminate|reflexivity].
  - split.
    + split; [intros r; vm_compute; split; [discriminate|reflexivity]|].
      split; [vm_compute; split; [discriminate|reflexivity]|]. split; vm_compute; split; first [discriminate|reflexivity].
    + split; [vm_compute; split; [discriminate|reflexivity]|]. split; [vm_compute; split; [discriminate|reflexivity]|].
      split; apply (bool_decide_unpack _); vm_compute; exact I.
  - vm_compute. reflexivity.
Defined.
