(* ===== verification/Trampoline.v ===== *)
(** * The call trampoline of the ARMv7 port (os/arch/armv7/fmr.S)

    [fmr_call] as the source's lines, labels included, with an interpreter. The
    memory is a map of aligned words; a load from another address has no
    meaning. The function called is a parameter: what it returns and what it
    does to memory from its first four registers. *)

From S2P Require Import Prelude Arm.
From stdpp Require Import base list gmap sets.
From Stdlib Require Import ZArith Lia.
Local Open Scope Z_scope.

Inductive label :=
| load_args | write_r0 | write_r1 | write_r2 | write_r3 | next_arg | call_func
| ret_void | ret_u8 | ret_s8 | ret_u16 | ret_s16 | ret_u32 | ret_s32 | ret_64 | fail | done_.
#[global] Instance label_eq_dec : EqDecision label.
Proof. solve_decision. Defined.

(** The instructions fmr.S uses; [POP_pc] restores and returns. *)
Inductive tinstr :=
| PUSH (rs : list reg) | POP_pc (rs : list reg)
| MOVr (rd rm : reg) | MOVi (rd : reg) (imm : Z) | LDRi (rd : reg) (value : Z)
| CMPi (rn : reg) (imm : Z) | BEQ (l : label) | B (l : label) | BLX (rm : reg)
| LDRo (rd rn : reg) (off : Z) | LDRB (rd rn : reg)
| ADDi (rd rn : reg) (imm : Z) | ADDr (rd rn rm : reg) | SUBi (rd rn : reg) (imm : Z)
| ANDi (rd rn : reg) (imm : Z) | ANDr (rd rn rm : reg) | SXTB (rd rm : reg) | SXTH (rd rm : reg).

Inductive line := At (l : label) | Do (i : tinstr).

Definition fmr_call : list line :=
  [ Do (PUSH [R4; R5; R6; R7; R8; R9; R10; R11; LR]);
    Do (MOVr R6 R0); Do (MOVr R7 R1); Do (MOVr R8 R2); Do (MOVr R9 R4); Do (MOVr R10 R5); Do (MOVi R11 0);
    At load_args;
    Do (CMPi R8 0); Do (BEQ call_func);
    Do (LDRo R4 R10 0); Do (ADDi R10 R10 12);
    Do (LDRo R5 R4 4);
    Do (MOVr R0 R9); Do (ADDi R0 R0 4); Do (ADDr R0 R0 R11); Do (LDRB R1 R0);
    Do (CMPi R11 0); Do (BEQ write_r0);
    Do (CMPi R11 1); Do (BEQ write_r1);
    Do (CMPi R11 2); Do (BEQ write_r2);
    Do (CMPi R11 3); Do (BEQ write_r3);
    Do (B fail);
    At write_r0; Do (MOVr R0 R5); Do (B next_arg);
    At write_r1; Do (MOVr R1 R5); Do (B next_arg);
    At write_r2; Do (MOVr R2 R5); Do (B next_arg);
    At write_r3; Do (MOVr R3 R5); Do (B next_arg);
    At next_arg; Do (ADDi R11 R11 1); Do (SUBi R8 R8 1); Do (B load_args);
    At call_func;
    Do (BLX R6);
    Do (CMPi R7 2); Do (BEQ ret_void);
    Do (CMPi R7 16); Do (BEQ ret_u8);
    Do (CMPi R7 24); Do (BEQ ret_s8);
    Do (CMPi R7 17); Do (BEQ ret_u16);
    Do (CMPi R7 25); Do (BEQ ret_s16);
    Do (CMPi R7 19); Do (BEQ ret_u32);
    Do (CMPi R7 27); Do (BEQ ret_s32);
    Do (CMPi R7 3); Do (BEQ ret_64);
    Do (CMPi R7 4); Do (BEQ ret_64);
    Do (CMPi R7 6); Do (BEQ ret_64);
    Do (CMPi R7 7); Do (BEQ ret_64);
    Do (B fail);
    At ret_void; Do (MOVi R0 0); Do (MOVi R1 0); Do (B done_);
    At ret_u8; Do (ANDi R0 R0 0xFF); Do (B done_);
    At ret_s8; Do (SXTB R0 R0); Do (B done_);
    At ret_u16; Do (LDRi R4 0xFFFF); Do (ANDr R0 R0 R4); Do (B done_);
    At ret_s16; Do (SXTH R0 R0); Do (B done_);
    At ret_u32; Do (B done_);
    At ret_s32; Do (B done_);
    At ret_64; Do (B done_);
    At fail; Do (MOVi R0 (-1)); Do (MOVi R1 (-1));
    At done_; Do (POP_pc [R4; R5; R6; R7; R8; R9; R10; R11]) ].

(** ** The machine *)

Abbreviation words := (gmap Z Z).
(** The registers, by name. *)
Record file := File {
  f0 : Z; f1 : Z; f2 : Z; f3 : Z; f4 : Z; f5 : Z; f6 : Z; f7 : Z; f8 : Z; f9 : Z; f10 : Z; f11 : Z; f12 : Z; flr : Z;
}.
Definition fget (f : file) (r : reg) : Z :=
  match r with
  | R0 => f0 f | R1 => f1 f | R2 => f2 f | R3 => f3 f | R4 => f4 f | R5 => f5 f | R6 => f6 f | R7 => f7 f
  | R8 => f8 f | R9 => f9 f | R10 => f10 f | R11 => f11 f | R12 => f12 f | LR => flr f
  end.
Definition fset (r : reg) (v : Z) (f : file) : file :=
  let '(File a0 a1 a2 a3 a4 a5 a6 a7 a8 a9 a10 a11 a12 l) := f in
  match r with
  | R0 => File v a1 a2 a3 a4 a5 a6 a7 a8 a9 a10 a11 a12 l
  | R1 => File a0 v a2 a3 a4 a5 a6 a7 a8 a9 a10 a11 a12 l
  | R2 => File a0 a1 v a3 a4 a5 a6 a7 a8 a9 a10 a11 a12 l
  | R3 => File a0 a1 a2 v a4 a5 a6 a7 a8 a9 a10 a11 a12 l
  | R4 => File a0 a1 a2 a3 v a5 a6 a7 a8 a9 a10 a11 a12 l
  | R5 => File a0 a1 a2 a3 a4 v a6 a7 a8 a9 a10 a11 a12 l
  | R6 => File a0 a1 a2 a3 a4 a5 v a7 a8 a9 a10 a11 a12 l
  | R7 => File a0 a1 a2 a3 a4 a5 a6 v a8 a9 a10 a11 a12 l
  | R8 => File a0 a1 a2 a3 a4 a5 a6 a7 v a9 a10 a11 a12 l
  | R9 => File a0 a1 a2 a3 a4 a5 a6 a7 a8 v a10 a11 a12 l
  | R10 => File a0 a1 a2 a3 a4 a5 a6 a7 a8 a9 v a11 a12 l
  | R11 => File a0 a1 a2 a3 a4 a5 a6 a7 a8 a9 a10 v a12 l
  | R12 => File a0 a1 a2 a3 a4 a5 a6 a7 a8 a9 a10 a11 v l
  | LR => File a0 a1 a2 a3 a4 a5 a6 a7 a8 a9 a10 a11 a12 v
  end.

(** A call: the function and its first four registers. *)
Abbreviation call_event := (Z * (Z * Z * Z * Z))%type.
Record tstate := TState { t_file : file; t_sp : Z; t_zero : bool; t_mem : words; t_calls : list call_event; t_pc : Z }.

Section Machine.
Context (callee : call_event -> words -> Z * Z * words).
(** What the function leaves in [r2], [r3], [r12] and [lr]. *)
Context (clobber : reg -> Z).

(** A byte of a word, little-endian. *)
Definition load_byte (m : words) (a : Z) : option Z := w ← m !! (a - a mod 4); mret (w / 2 ^ (8 * (a mod 4)) mod 256).
(** Sign extension of the low [w] bits to 32. *)
Definition sext (w v : Z) : Z := let x := v mod 2 ^ w in u32 (if x <? 2 ^ (w - 1) then x else x - 2 ^ w).

Fixpoint push_words (a : Z) (vs : list Z) (m : words) : words :=
  match vs with [] => m | v :: vs => push_words (a + 4) vs (<[a := v]> m) end.
Fixpoint pop_words (a : Z) (rs : list reg) (m : words) (f : file) : option file :=
  match rs with [] => Some f | r :: rs => v ← m !! a; pop_words (a + 4) rs m (fset r v f) end.

Fixpoint find_label (l : label) (code : list line) : option (list line) :=
  match code with
  | [] => None
  | At l' :: code => if decide (l' = l) then Some code else find_label l code
  | Do _ :: code => find_label l code
  end.

(** What follows an instruction. *)
Inductive next := Next (s : tstate) | Jump (l : label) (s : tstate) | Exit (s : tstate) | Fault.
Definition with_file (f : file) (s : tstate) : tstate := TState f (t_sp s) (t_zero s) (t_mem s) (t_calls s) (t_pc s).
Definition set (rd : reg) (v : Z) (s : tstate) : next := Next (with_file (fset rd v (t_file s)) s).
Definition loaded (rd : reg) (o : option Z) (s : tstate) : next := match o with Some v => set rd v s | None => Fault end.

Definition texec (i : tinstr) (s : tstate) : next :=
  let r := fget (t_file s) in
  match i with
  | PUSH rs =>
    let sp := u32 (t_sp s - 4 * Z.of_nat (length rs)) in
    Next (TState (t_file s) sp (t_zero s) (push_words sp (map r rs) (t_mem s)) (t_calls s) (t_pc s))
  | POP_pc rs =>
    let a := t_sp s + 4 * Z.of_nat (length rs) in
    match pop_words (t_sp s) rs (t_mem s) (t_file s), t_mem s !! a with
    | Some f, Some pc => Exit (TState f (u32 (a + 4)) (t_zero s) (t_mem s) (t_calls s) pc)
    | _, _ => Fault
    end
  | MOVr rd rm => set rd (r rm) s
  | MOVi rd imm => set rd (u32 imm) s
  | LDRi rd v => set rd v s
  | CMPi rn imm => Next (TState (t_file s) (t_sp s) (r rn =? imm) (t_mem s) (t_calls s) (t_pc s))
  | BEQ l => if t_zero s then Jump l s else Next s
  | B l => Jump l s
  | BLX rm =>
    let e := (r rm, (r R0, r R1, r R2, r R3)) in
    let '(v0, v1, m) := callee e (t_mem s) in
    let f := fset R0 v0 (fset R1 v1 (fset R2 (clobber R2) (fset R3 (clobber R3) (fset R12 (clobber R12) (fset LR (clobber LR) (t_file s)))))) in
    Next (TState f (t_sp s) (t_zero s) m (t_calls s ++ [e]) (t_pc s))
  | LDRo rd rn off => loaded rd (t_mem s !! u32 (r rn + off)) s
  | LDRB rd rn => loaded rd (load_byte (t_mem s) (r rn)) s
  | ADDi rd rn imm => set rd (u32 (r rn + imm)) s
  | ADDr rd rn rm => set rd (u32 (r rn + r rm)) s
  | SUBi rd rn imm => set rd (u32 (r rn - imm)) s
  | ANDi rd rn imm => set rd (Z.land (r rn) imm) s
  | ANDr rd rn rm => set rd (Z.land (r rn) (r rm)) s
  | SXTB rd rm => set rd (sext 8 (r rm)) s
  | SXTH rd rm => set rd (sext 16 (r rm)) s
  end.

(** Runs from a line; fuel counts branches taken. *)
Fixpoint trun (fuel : nat) : list line -> tstate -> outcome tstate :=
  fix lines (code : list line) (s : tstate) : outcome tstate :=
    match code with
    | [] => Ub
    | At _ :: code => lines code s
    | Do i :: code =>
      match texec i s with
      | Next s => lines code s
      | Exit s => Ok s
      | Fault => Ub
      | Jump l s =>
        match fuel, find_label l fmr_call with
        | O, _ => Spin
        | _, None => Ub
        | Datatypes.S fuel, Some code => trun fuel code s
        end
      end
    end.
End Machine.

(** ** What the trampoline does *)

Section Effect.
Context (callee : call_event -> words -> Z * Z * words) (clobber : reg -> Z).
Abbreviation run_ := (trun callee clobber).
Abbreviation exec_ := (texec callee clobber).

Lemma trun_at fuel l code s : run_ fuel (At l :: code) s = run_ fuel code s.
Proof. by destruct fuel. Qed.
Lemma trun_next fuel i code s s' : exec_ i s = Next s' -> run_ fuel (Do i :: code) s = run_ fuel code s'.
Proof. intros H. by destruct fuel; cbn [trun]; rewrite H. Qed.
Lemma trun_jump fuel i l code code' s s' :
  exec_ i s = Jump l s' -> find_label l fmr_call = Some code' -> run_ (Datatypes.S fuel) (Do i :: code) s = run_ fuel code' s'.
Proof. intros H Hl. cbn [trun]. by rewrite H, Hl. Qed.
Lemma trun_exit fuel i code s s' : exec_ i s = Exit s' -> run_ fuel (Do i :: code) s = Ok s'.
Proof. intros H. by destruct fuel; cbn [trun]; rewrite H. Qed.

(** The code at a label. *)
Definition code_at (l : label) : list line := default [] (find_label l fmr_call).

(** An argument as the trampoline finds it: the word behind the item of the
    [i]th record from [l], and its type byte. *)
Definition arg_at (m : words) (c l i v ty : Z) : Prop :=
  exists p, m !! (l + 12 * i) = Some p /\ m !! u32 (p + 4) = Some v /\ load_byte m (c + 4 + i) = Some ty.
End Effect.

(** Evaluates a line with what is known of loads and sums, then steps over it. *)
Ltac tknown :=
  repeat match goal with
         | H : u32 _ = _ |- _ => rewrite H
         | H : (_ =? _) = _ |- _ => rewrite H
         | H : _ !! _ = Some _ |- _ => rewrite H
         | H : load_byte _ _ = Some _ |- _ => rewrite H
         end.
Ltac tval := cbn -[u32 Z.add Z.sub Z.mul Z.eqb Z.land sext lookup load_byte]; tknown; reflexivity.
Ltac tstep :=
  first [ rewrite trun_at
        | erewrite trun_next by tval
        | erewrite trun_jump; [|tval|vm_compute; reflexivity]
        | erewrite trun_exit by tval ].
Ltac at_label l := let c := eval vm_compute in (code_at l) in change (code_at l) with c.

Section Loop.
Context (callee : call_event -> words -> Z * Z * words) (clobber : reg -> Z).
Abbreviation run_ := (trun callee clobber).

(** One argument: the scratch use of [r0] and [r1] comes before the value is
    placed. *)
Lemma load_args_round fuel m c l i v ty p k sp z calls pc a0 a1 a2 a3 a4 a5 a6 a7 a12 lr :
  0 <= i < 4 -> 0 < k < 2 ^ 32 -> 0 <= c -> c + 8 < 2 ^ 32 -> 0 <= l -> l + 60 < 2 ^ 32 ->
  m !! (l + 12 * i) = Some p -> m !! u32 (p + 4) = Some v -> load_byte m (c + 4 + i) = Some ty ->
  run_ (3 + fuel) (code_at load_args) (TState (File a0 a1 a2 a3 a4 a5 a6 a7 k c (l + 12 * i) i a12 lr) sp z m calls pc) =
  run_ fuel (code_at load_args)
    (TState (File (if i =? 0 then v else c + 4 + i) (if i =? 1 then v else ty) (if i =? 2 then v else a2) (if i =? 3 then v else a3)
               p v a6 a7 (k - 1) c (l + 12 * (i + 1)) (i + 1) a12 lr) sp true m calls pc).
Proof.
  intros Hi Hk Hc Hc2 Hl Hl2 Hp Hv Hty.
  assert ((k =? 0) = false) as E0 by (apply Z.eqb_neq; lia).
  assert (u32 (l + 12 * i + 0) = l + 12 * i) as E1 by (unfold u32; rewrite Z.mod_small; lia).
  assert (u32 (l + 12 * i + 12) = l + 12 * (i + 1)) as E2 by (unfold u32; rewrite Z.mod_small; lia).
  assert (u32 (c + 4) = c + 4) as E3 by (unfold u32; rewrite Z.mod_small; lia).
  assert (u32 (c + 4 + i) = c + 4 + i) as E4 by (unfold u32; rewrite Z.mod_small; lia).
  assert (u32 (k - 1) = k - 1) as E5 by (unfold u32; rewrite Z.mod_small; lia).
  assert (u32 (i + 1) = i + 1) as E6 by (unfold u32; rewrite Z.mod_small; lia).
  cbn [Nat.add]. pattern (code_at load_args) at 1. set (Q := fun c0 => _). at_label load_args. subst Q. cbv beta.
  assert (i = 0 \/ i = 1 \/ i = 2 \/ i = 3) as [-> | [-> | [-> | ->]]] by lia.
  all: repeat tstep; at_label load_args; symmetry; tstep; reflexivity.
Qed.

(** The value returned for a type, as [r0] and [r1]. *)
Definition narrowed (ret v0 v1 : Z) : Z * Z :=
  if ret =? 2 then (0, 0)
  else if ret =? 16 then (v0 mod 2 ^ 8, v1)
  else if ret =? 24 then (sext 8 v0, v1)
  else if ret =? 17 then (v0 mod 2 ^ 16, v1)
  else if ret =? 25 then (sext 16 v0, v1)
  else if existsb (Z.eqb ret) [19; 27; 3; 4; 6; 7] then (v0, v1)
  else (0xFFFFFFFF, 0xFFFFFFFF).

(** The words a frame holds. *)
Fixpoint holds_words (m : words) (a : Z) (vs : list Z) : Prop :=
  match vs with [] => True | v :: vs => m !! a = Some v /\ holds_words m (a + 4) vs end.

Lemma return_ok fuel sp z m calls pc a0 a1 a2 a3 a4 a5 a6 a7 a8 a9 a10 a11 a12 lr s4 s5 s6 s7 s8 s9 s10 s11 slr :
  holds_words m sp [s4; s5; s6; s7; s8; s9; s10; s11; slr] ->
  run_ fuel (code_at done_) (TState (File a0 a1 a2 a3 a4 a5 a6 a7 a8 a9 a10 a11 a12 lr) sp z m calls pc) =
  Ok (TState (File a0 a1 a2 a3 s4 s5 s6 s7 s8 s9 s10 s11 a12 lr) (u32 (sp + 36)) z m calls slr).
Proof.
  intros (H4 & H5 & H6 & H7 & H8 & H9 & H10 & H11 & Hlr & _). at_label done_. erewrite trun_exit; [reflexivity|].
  unfold texec. cbn [pop_words t_mem t_sp length fset t_file t_zero t_calls].
  rewrite H4, H5, H6, H7, H8, H9, H10, H11. change (4 * Z.of_nat 8) with 32.
  replace (sp + 4 + 4 + 4 + 4 + 4 + 4 + 4 + 4) with (sp + 32) in Hlr by lia. rewrite Hlr. cbn -[u32 Z.add]. do 2 f_equal. unfold u32. f_equal. lia.
Qed.

Ltac close Hm :=
  eexists; etrans; [eapply return_ok, Hm|]; first [reflexivity|rewrite <- ?Z.land_ones by lia; reflexivity].

(** The call, the treatment of its result and the return. *)
Lemma call_and_return fuel fn ret sp z m calls pc a0 a1 a2 a3 a4 a5 a9 a10 a11 a12 lr s4 s5 s6 s7 s8 s9 s10 s11 slr v0 v1 m' :
  callee (fn, (a0, a1, a2, a3)) m = (v0, v1, m') -> holds_words m' sp [s4; s5; s6; s7; s8; s9; s10; s11; slr] ->
  exists z', run_ (3 + fuel) (code_at load_args) (TState (File a0 a1 a2 a3 a4 a5 fn ret 0 a9 a10 a11 a12 lr) sp z m calls pc) =
  Ok (TState (File (narrowed ret v0 v1).1 (narrowed ret v0 v1).2 (clobber R2) (clobber R3) s4 s5 s6 s7 s8 s9 s10 s11 (clobber R12) (clobber LR))
        (u32 (sp + 36)) z' m' (calls ++ [(fn, (a0, a1, a2, a3))]) slr).
Proof.
  intros Hcall Hm. cbn [Nat.add].
  at_label load_args. do 2 tstep. erewrite trun_next; [|cbn -[u32 Z.add Z.sub Z.mul Z.eqb Z.land sext]; rewrite Hcall; reflexivity].
  unfold narrowed. tstep.
  destruct (ret =? 2) eqn:?; [do 4 tstep; close Hm|tstep; tstep].
  destruct (ret =? 16) eqn:?; [do 3 tstep; close Hm|tstep; tstep].
  destruct (ret =? 24) eqn:?; [do 3 tstep; close Hm|tstep; tstep].
  destruct (ret =? 17) eqn:?; [do 4 tstep; close Hm|tstep; tstep].
  destruct (ret =? 25) eqn:?; [do 3 tstep; close Hm|tstep; tstep].
  destruct (Z.eqb_spec ret 19) as [->|]; [do 2 tstep; close Hm|tstep; tstep].
  destruct (Z.eqb_spec ret 27) as [->|]; [do 2 tstep; close Hm|tstep; tstep].
  destruct (Z.eqb_spec ret 3) as [->|]; [do 2 tstep; close Hm|tstep; tstep].
  destruct (Z.eqb_spec ret 4) as [->|]; [do 2 tstep; close Hm|tstep; tstep].
  destruct (Z.eqb_spec ret 6) as [->|]; [do 2 tstep; close Hm|tstep; tstep].
  destruct (Z.eqb_spec ret 7) as [->|]; [do 2 tstep; close Hm|tstep; tstep].
  cbn [existsb]. rewrite !(proj2 (Z.eqb_neq ret _)) by done. cbn [orb].
  do 3 tstep; close Hm.
Qed.
(** A fifth argument: nothing is called. *)
Lemma fifth_fails fuel m c l v ty k sp z calls pc a0 a1 a2 a3 a4 a5 a6 a7 a12 lr s4 s5 s6 s7 s8 s9 s10 s11 slr :
  0 < k < 2 ^ 32 -> 0 <= c -> c + 8 < 2 ^ 32 -> 0 <= l -> l + 60 < 2 ^ 32 -> arg_at m c l 4 v ty ->
  holds_words m sp [s4; s5; s6; s7; s8; s9; s10; s11; slr] ->
  exists z' a12' lr', run_ (1 + fuel) (code_at load_args) (TState (File a0 a1 a2 a3 a4 a5 a6 a7 k c (l + 12 * 4) 4 a12 lr) sp z m calls pc) =
  Ok (TState (File 0xFFFFFFFF 0xFFFFFFFF a2 a3 s4 s5 s6 s7 s8 s9 s10 s11 a12' lr') (u32 (sp + 36)) z' m calls slr).
Proof.
  intros Hk Hc Hc2 Hl Hl2 (p & Hp & Hv & Hty) Hm.
  assert ((k =? 0) = false) as E0 by (apply Z.eqb_neq; lia).
  assert (u32 (l + 12 * 4 + 0) = l + 12 * 4) as E1 by (unfold u32; rewrite Z.mod_small; lia).
  assert (u32 (c + 4) = c + 4) as E3 by (unfold u32; rewrite Z.mod_small; lia).
  assert (u32 (c + 4 + 4) = c + 4 + 4) as E4 by (unfold u32; rewrite Z.mod_small; lia).
  cbn [Nat.add]. at_label load_args. do 21 tstep. do 2 eexists. close Hm.
Qed.

Lemma push_keeps vs m a b : b < a -> push_words a vs m !! b = m !! b.
Proof.
  revert m a. induction vs as [|v vs IH]; intros m a Hlt; cbn [push_words]; [done|].
  rewrite IH by lia. apply lookup_insert_ne. lia.
Qed.
Lemma push_holds vs m a : holds_words (push_words a vs m) a vs.
Proof.
  revert m a. induction vs as [|v vs IH]; intros m a; cbn [push_words holds_words]; [done|].
  split; [|apply IH]. rewrite push_keeps by lia. by rewrite lookup_insert_eq.
Qed.
Lemma holds_words_ext vs m m' a :
  (forall b, a <= b < a + 4 * Z.of_nat (length vs) -> m' !! b = m !! b) -> holds_words m a vs -> holds_words m' a vs.
Proof.
  revert a. induction vs as [|v vs IH]; intros a Hm; cbn [holds_words length] in *; [done|]. intros [Hv Hvs]. split.
  - rewrite Hm by lia. done.
  - apply IH; [|done]. intros b Hb. apply Hm. lia.
Qed.

Definition saved (f : file) : list Z := [f4 f; f5 f; f6 f; f7 f; f8 f; f9 f; f10 f; f11 f; flr f].

Lemma entry_ok fuel f sp z mem calls pc :
  36 <= sp < 2 ^ 32 ->
  run_ fuel fmr_call (TState f sp z mem calls pc) =
  run_ fuel (code_at load_args)
    (TState (File (f0 f) (f1 f) (f2 f) (f3 f) (f4 f) (f5 f) (f0 f) (f1 f) (f2 f) (f4 f) (f5 f) 0 (f12 f) (flr f))
       (sp - 36) z (push_words (sp - 36) (saved f) mem) calls pc).
Proof.
  intros Hsp. destruct f as [a0 a1 a2 a3 a4 a5 a6 a7 a8 a9 a10 a11 a12 lr].
  assert (u32 (sp - 4 * Z.of_nat (length [R4; R5; R6; R7; R8; R9; R10; R11; LR])) = sp - 36) as E
    by (unfold u32; rewrite Z.mod_small; simpl length; lia).
  unfold fmr_call at 1. erewrite trun_next; [|unfold texec; cbn [t_sp]; rewrite E; reflexivity].
  do 6 tstep. rewrite trun_at. reflexivity.
Qed.

(** What the function finds in its first four registers after [n] arguments
    with values [v] and types [ty]. *)
Definition passed (n c : Z) (f : file) (v ty : Z -> Z) : Z * Z * Z * Z :=
  (if n =? 0 then f0 f else if n =? 1 then v 0 else c + 4 + (n - 1),
   if n =? 0 then f1 f else if n =? 2 then v 1 else ty (n - 1),
   if n <? 3 then n else v 2,
   if n <? 4 then f3 f else v 3).

Context (f : file) (sp : Z) (z : bool) (mem : words) (v ty : Z -> Z).
Let c := f4 f.
Let l := f5 f.
Let m := push_words (sp - 36) (saved f) mem.
Context (Hc : 0 <= c) (Hc2 : c + 8 < 2 ^ 32) (Hl : 0 <= l) (Hl2 : l + 60 < 2 ^ 32).

(** The registers after [n] arguments. *)
Definition after_args (n : nat) (k : Z) (p5 : Z * Z) : file :=
  let '(r0, r1, r2, r3) := passed (Z.of_nat n) c f v ty in
  File r0 r1 (if (n <? 3)%nat then f2 f else r2) r3 p5.1 p5.2 (f0 f) (f1 f) k c (l + 12 * Z.of_nat n) (Z.of_nat n) (f12 f) (flr f).

Lemma args_ok fuel n k :
  (n <= 4)%nat -> Z.of_nat n <= k < 2 ^ 32 -> (forall i, 0 <= i < Z.of_nat n -> arg_at m c l i (v i) (ty i)) ->
  exists z' p5, run_ (3 * n + fuel) (code_at load_args) (TState (after_args 0 k (c, l)) (sp - 36) z m [] 0) =
           run_ fuel (code_at load_args) (TState (after_args n (k - Z.of_nat n) p5) (sp - 36) z' m [] 0).
Proof.
  revert fuel. induction n as [|n IH]; intros fuel Hn Hk Hargs.
  { exists z, (c, l). by rewrite Z.sub_0_r. }
  destruct (IH (3 + fuel)%nat) as (z' & p5 & IH'); [lia|lia|intros i Hi; apply Hargs; lia|]. clear IH.
  replace (3 * Datatypes.S n + fuel)%nat with (3 * n + (3 + fuel))%nat by lia. rewrite IH'.
  destruct (Hargs (Z.of_nat n)) as (p & Hp & Hv & Hty); [lia|]. exists true, (p, v (Z.of_nat n)).
  unfold after_args at 1, passed. erewrite load_args_round; [|lia|lia|done|done|done|done|exact Hp|exact Hv|exact Hty].
  f_equal. f_equal. unfold after_args, passed.
  destruct n as [|[|[|[|n]]]]; [..|lia]; cbn -[Z.add Z.mul Z.sub]; f_equal; lia.
Qed.
End Loop.


(** Two arguments, 11 and 22: the function gets the address of the second type
    byte for the first. *)
Definition sample_file : file := File 0x400000 19 2 0 0x20001000 0x20002000 0 0 0 0 0 0 0 0x400101.
Definition sample_words : words :=
  list_to_map [(0x20001004, 0x1313); (0x20002000, 0x20003000); (0x2000200C, 0x20003008); (0x20003004, 11); (0x2000300C, 22)].
