(* ===== verification/TrampolineX64.v ===== *)
(** * The call trampoline of the x86-64 port (os/arch/x64/fmr.S)

    [fmr_call] as the source's lines, labels included, with an interpreter. The
    stack is a map of aligned quadwords, the rest of memory a map of bytes. The
    function called is a parameter: what it returns and what it does to memory
    and to the stack from its six argument registers. *)

From S2P Require Import Prelude.
From stdpp Require Import base list gmap sets.
From Stdlib Require Import ZArith Lia.
Local Open Scope Z_scope.

Inductive xreg := RAX | RDI | RSI | RDX | RCX | R8_ | R9_ | R10_ | R11_ | R12_ | R13_ | R14_ | RBP | RSP.
Inductive xlabel :=
| x_load | x_load_8 | x_load_16 | x_load_32 | x_load_int | x_load_ptr | x_load_64 | x_load_done
| x_write_rdi | x_write_rsi | x_write_rdx | x_write_rcx | x_write_r8 | x_write_r9 | x_write_stack | x_write_done
| x_do_call | x_ret | x_ret_8 | x_ret_16 | x_ret_void | x_ret_32 | x_ret_int | x_ret_ptr | x_ret_64 | x_fail | x_done.
#[global] Instance xlabel_eq_dec : EqDecision xlabel.
Proof. solve_decision. Defined.

(** The instructions fmr.S uses, source before destination; [MOVld n] loads [n]
    bytes into the low part of [%rax]. Only comparisons set the flag: every
    conditional jump follows one. *)
Inductive xinstr :=
| XPUSH (r : xreg) | XPOP (r : xreg) | XMOV (src dst : xreg) | XMOVi (imm : Z) (dst : xreg)
| XADDi (imm : Z) (dst : xreg) | XSUBi (imm : Z) (dst : xreg) | XANDi (imm : Z) (dst : xreg) | XSHRi (imm : Z) (dst : xreg)
| XCMPi (imm : Z) (r : xreg) | XJE (l : xlabel) | XJMP (l : xlabel)
| XSTORE (src : xreg) (off : Z) (base : xreg) | XMOVld (n : nat) (base : xreg)
| XCALL (off : Z) (base : xreg) | XRET.
Inductive xline := XAt (l : xlabel) | XDo (i : xinstr).

Definition argc := R9_.
Definition argt := R10_.
Definition argi := R11_.
Definition retv := R12_.
Definition argv := R13_.
Definition temp := R14_.

Definition fmr_call : list xline :=
  [ XDo (XPUSH RBP); XDo (XMOV RSP RBP); XDo (XPUSH R14_); XDo (XPUSH R13_); XDo (XPUSH R12_); XDo (XSUBi 8 RSP);
    XDo (XSTORE RDI (-8) RBP);
    XDo (XMOV RSI retv); XDo (XMOV RDX argc); XDo (XMOV RCX argt); XDo (XMOV R8_ argv); XDo (XMOVi 0 argi);
    XAt x_load;
    XDo (XCMPi 0 argc); XDo (XJE x_do_call);
    XDo (XMOV argt temp); XDo (XANDi 0x7 temp);
    XDo (XCMPi 0 temp); XDo (XJE x_load_8);
    XDo (XCMPi 1 temp); XDo (XJE x_load_16);
    XDo (XCMPi 3 temp); XDo (XJE x_load_32);
    XDo (XCMPi 4 temp); XDo (XJE x_load_int);
    XDo (XCMPi 6 temp); XDo (XJE x_load_ptr);
    XDo (XCMPi 7 temp); XDo (XJE x_load_64);
    XDo (XJMP x_fail);
    XAt x_load_8; XDo (XMOVld 1 argv); XDo (XADDi 1 argv); XDo (XJMP x_load_done);
    XAt x_load_16; XDo (XMOVld 2 argv); XDo (XADDi 2 argv); XDo (XJMP x_load_done);
    XAt x_load_32; XDo (XMOVld 4 argv); XDo (XADDi 4 argv); XDo (XJMP x_load_done);
    XAt x_load_int; XAt x_load_ptr; XAt x_load_64; XDo (XMOVld 8 argv); XDo (XADDi 8 argv); XDo (XJMP x_load_done);
    XAt x_load_done;
    XDo (XCMPi 0 argi); XDo (XJE x_write_rdi);
    XDo (XCMPi 1 argi); XDo (XJE x_write_rsi);
    XDo (XCMPi 2 argi); XDo (XJE x_write_rdx);
    XDo (XCMPi 3 argi); XDo (XJE x_write_rcx);
    XDo (XCMPi 4 argi); XDo (XJE x_write_r8);
    XDo (XCMPi 5 argi); XDo (XJE x_write_r9);
    XDo (XJMP x_write_stack);
    XAt x_write_rdi; XDo (XMOV RAX RDI); XDo (XJMP x_write_done);
    XAt x_write_rsi; XDo (XMOV RAX RSI); XDo (XJMP x_write_done);
    XAt x_write_rdx; XDo (XMOV RAX RDX); XDo (XJMP x_write_done);
    XAt x_write_rcx; XDo (XMOV RAX RCX); XDo (XJMP x_write_done);
    XAt x_write_r8; XDo (XMOV RAX R8_); XDo (XJMP x_write_done);
    XAt x_write_r9; XDo (XMOV RAX R9_); XDo (XJMP x_write_done);
    XAt x_write_stack; XDo (XJMP x_fail);
    XAt x_write_done; XDo (XSHRi 4 argt); XDo (XSUBi 1 argc); XDo (XADDi 1 argi); XDo (XJMP x_load);
    XAt x_do_call; XDo (XCALL (-8) RBP);
    XAt x_ret; XDo (XMOV retv temp); XDo (XANDi 0x7 temp);
    XDo (XCMPi 0 temp); XDo (XJE x_ret_8);
    XDo (XCMPi 1 temp); XDo (XJE x_ret_16);
    XDo (XCMPi 2 temp); XDo (XJE x_ret_void);
    XDo (XCMPi 3 temp); XDo (XJE x_ret_32);
    XDo (XCMPi 4 temp); XDo (XJE x_ret_int);
    XDo (XCMPi 6 temp); XDo (XJE x_ret_ptr);
    XDo (XCMPi 7 temp); XDo (XJE x_ret_64);
    XDo (XJMP x_fail);
    XAt x_ret_8; XDo (XJMP x_done);
    XAt x_ret_16; XDo (XJMP x_done);
    XAt x_ret_void; XDo (XJMP x_done);
    XAt x_ret_32; XDo (XJMP x_done);
    XAt x_ret_int; XDo (XJMP x_done);
    XAt x_ret_ptr; XDo (XJMP x_done);
    XAt x_ret_64; XDo (XJMP x_done);
    XAt x_fail; XDo (XMOVi (-1) RAX);
    XAt x_done; XDo (XADDi 8 RSP); XDo (XPOP R12_); XDo (XPOP R13_); XDo (XPOP R14_); XDo (XPOP RBP); XDo XRET ].

(** ** The machine *)

Record xfile := XFile {
  x_rax : Z; x_rdi : Z; x_rsi : Z; x_rdx : Z; x_rcx : Z; x_r8 : Z; x_r9 : Z; x_r10 : Z; x_r11 : Z;
  x_r12 : Z; x_r13 : Z; x_r14 : Z; x_rbp : Z; x_rsp : Z;
}.
Definition xget (f : xfile) (r : xreg) : Z :=
  match r with
  | RAX => x_rax f | RDI => x_rdi f | RSI => x_rsi f | RDX => x_rdx f | RCX => x_rcx f | R8_ => x_r8 f | R9_ => x_r9 f
  | R10_ => x_r10 f | R11_ => x_r11 f | R12_ => x_r12 f | R13_ => x_r13 f | R14_ => x_r14 f | RBP => x_rbp f | RSP => x_rsp f
  end.
Definition xset (r : xreg) (v : Z) (f : xfile) : xfile :=
  let '(XFile a b c d e g h i j k l m n o) := f in
  match r with
  | RAX => XFile v b c d e g h i j k l m n o
  | RDI => XFile a v c d e g h i j k l m n o
  | RSI => XFile a b v d e g h i j k l m n o
  | RDX => XFile a b c v e g h i j k l m n o
  | RCX => XFile a b c d v g h i j k l m n o
  | R8_ => XFile a b c d e v h i j k l m n o
  | R9_ => XFile a b c d e g v i j k l m n o
  | R10_ => XFile a b c d e g h v j k l m n o
  | R11_ => XFile a b c d e g h i v k l m n o
  | R12_ => XFile a b c d e g h i j v l m n o
  | R13_ => XFile a b c d e g h i j k v m n o
  | R14_ => XFile a b c d e g h i j k l v n o
  | RBP => XFile a b c d e g h i j k l m v o
  | RSP => XFile a b c d e g h i j k l m n v
  end.

Abbreviation xmem := (gmap Z Z).
(** A call: the function and its argument registers. *)
Abbreviation xcall := (Z * (Z * Z * Z * Z * Z * Z))%type.
Record xstate := XState { xs_file : xfile; xs_zero : bool; xs_stack : xmem; xs_bytes : xmem; xs_calls : list xcall; xs_pc : Z }.

(** [n] bytes from [a], little-endian. *)
Fixpoint load_le (m : xmem) (a : Z) (n : nat) : option Z :=
  match n with O => Some 0 | S n => b ← m !! a; v ← load_le m (a + 1) n; Some (b + 2 ^ 8 * v) end.
(** A load of 1 or 2 bytes keeps the rest of the register, one of 4 clears it. *)
Definition merged (n : nat) (old v : Z) : Z :=
  match n with 1%nat => old - old mod 2 ^ 8 + v | 2%nat => old - old mod 2 ^ 16 + v | _ => v end.

Fixpoint xfind (l : xlabel) (code : list xline) : option (list xline) :=
  match code with
  | [] => None
  | XAt l' :: code => if decide (l' = l) then Some code else xfind l code
  | XDo _ :: code => xfind l code
  end.

Inductive xnext := XNext (s : xstate) | XJump (l : xlabel) (s : xstate) | XExit (s : xstate) | XFault.

Section Machine.
(** What a function returns in [%rax], and the memory and stack it leaves. *)
Context (callee : xcall -> xmem -> xmem -> Z * xmem * xmem).
(** What it leaves in the other registers it may use. *)
Context (clobber : xreg -> Z).

Definition xwith (f : xfile) (s : xstate) : xstate := XState f (xs_zero s) (xs_stack s) (xs_bytes s) (xs_calls s) (xs_pc s).
Definition xput (r : xreg) (v : Z) (s : xstate) : xnext := XNext (xwith (xset r v (xs_file s)) s).
Definition xstore (a v : Z) (s : xstate) : xstate := XState (xs_file s) (xs_zero s) (<[a := v]> (xs_stack s)) (xs_bytes s) (xs_calls s) (xs_pc s).
Definition scratch (f : xfile) : xfile :=
  fold_right (fun r => xset r (clobber r)) f [RDI; RSI; RDX; RCX; R8_; R9_; R10_; R11_].

Definition xexec (i : xinstr) (s : xstate) : xnext :=
  let r := xget (xs_file s) in
  match i with
  | XPUSH x => let sp := u64 (r RSP - 8) in XNext (xstore sp (r x) (xwith (xset RSP sp (xs_file s)) s))
  | XPOP x =>
    match xs_stack s !! r RSP with
    | Some v => XNext (xwith (xset x v (xset RSP (u64 (r RSP + 8)) (xs_file s))) s)
    | None => XFault
    end
  | XMOV src dst => xput dst (r src) s
  | XMOVi imm dst => xput dst (u64 imm) s
  | XADDi imm dst => xput dst (u64 (r dst + imm)) s
  | XSUBi imm dst => xput dst (u64 (r dst - imm)) s
  | XANDi imm dst => xput dst (Z.land (r dst) imm) s
  | XSHRi imm dst => xput dst (Z.shiftr (r dst) imm) s
  | XCMPi imm x => XNext (XState (xs_file s) (r x =? imm) (xs_stack s) (xs_bytes s) (xs_calls s) (xs_pc s))
  | XJE l => if xs_zero s then XJump l s else XNext s
  | XJMP l => XJump l s
  | XSTORE src off base => XNext (xstore (u64 (r base + off)) (r src) s)
  | XMOVld n base => match load_le (xs_bytes s) (r base) n with Some v => xput RAX (merged n (r RAX) v) s | None => XFault end
  | XCALL off base =>
    match xs_stack s !! u64 (r base + off) with
    | None => XFault
    | Some fn =>
      let e := (fn, (r RDI, r RSI, r RDX, r RCX, r R8_, r R9_)) in
      let '(v, m, st) := callee e (xs_bytes s) (xs_stack s) in
      XNext (XState (xset RAX v (scratch (xs_file s))) (xs_zero s) st m (xs_calls s ++ [e]) (xs_pc s))
    end
  | XRET =>
    match xs_stack s !! r RSP with
    | Some pc => XExit (XState (xset RSP (u64 (r RSP + 8)) (xs_file s)) (xs_zero s) (xs_stack s) (xs_bytes s) (xs_calls s) pc)
    | None => XFault
    end
  end.

(** Runs from a line; fuel counts branches taken. *)
Fixpoint xrun (fuel : nat) : list xline -> xstate -> outcome xstate :=
  fix lines (code : list xline) (s : xstate) : outcome xstate :=
    match code with
    | [] => Ub
    | XAt _ :: code => lines code s
    | XDo i :: code =>
      match xexec i s with
      | XNext s => lines code s
      | XExit s => Ok s
      | XFault => Ub
      | XJump l s =>
        match fuel, xfind l fmr_call with
        | O, _ => Spin
        | _, None => Ub
        | S fuel, Some code => xrun fuel code s
        end
      end
    end.
End Machine.

(** ** What it does *)

(** The size of an argument by the low three bits of its type. *)
Definition type_size (t : Z) : option nat :=
  if t =? 0 then Some 1%nat else if t =? 1 then Some 2%nat else if t =? 3 then Some 4%nat
  else if (t =? 4) || (t =? 6) || (t =? 7) then Some 8%nat else None.

(** The values of [n] packed arguments: types are the nibbles of [t], bytes come
    from [a] on, and the high part of a short value is that of the value before. *)
Fixpoint unpack (m : xmem) (n : nat) (t a acc : Z) : option (list Z) :=
  match n with
  | O => Some []
  | S n =>
    k ← type_size (Z.land t 7);
    v ← load_le m a k;
    vs ← unpack m n (Z.shiftr t 4) (a + Z.of_nat k) (merged k acc v);
    Some (merged k acc v :: vs)
  end.

(** The registers of the first five arguments, and the value of the [i]th placed. *)
Abbreviation five := (Z * Z * Z * Z * Z)%type.
Definition arg_regs (f : xfile) : five := (x_rdi f, x_rsi f, x_rdx f, x_rcx f, x_r8 f).
Definition place (i v : Z) (r : five) : five :=
  let '(a, b, c, d, e) := r in
  if i =? 0 then (v, b, c, d, e) else if i =? 1 then (a, v, c, d, e) else if i =? 2 then (a, b, v, d, e)
  else if i =? 3 then (a, b, c, v, e) else (a, b, c, d, v).
Fixpoint places (i : Z) (vs : list Z) (r : five) : five :=
  match vs with [] => r | v :: vs => places (i + 1) vs (place i v r) end.

Definition xcode (l : xlabel) : list xline := default [] (xfind l fmr_call).

Section Steps.
Context (callee : xcall -> xmem -> xmem -> Z * xmem * xmem) (clobber : xreg -> Z).
Abbreviation run_ := (xrun callee clobber).
Abbreviation exec_ := (xexec callee clobber).

Lemma xrun_at fuel l code s : run_ fuel (XAt l :: code) s = run_ fuel code s.
Proof. by destruct fuel. Qed.
Lemma xrun_next fuel i code s s' : exec_ i s = XNext s' -> run_ fuel (XDo i :: code) s = run_ fuel code s'.
Proof. intros H. by destruct fuel; cbn [xrun]; rewrite H. Qed.
Lemma xrun_jump fuel i l code s s' :
  exec_ i s = XJump l s' -> is_Some (xfind l fmr_call) -> run_ (S fuel) (XDo i :: code) s = run_ fuel (xcode l) s'.
Proof. intros H [c Hl]. cbn [xrun]. unfold xcode. by rewrite H, Hl. Qed.
Lemma xrun_exit fuel i code s s' : exec_ i s = XExit s' -> run_ fuel (XDo i :: code) s = Ok s'.
Proof. intros H. by destruct fuel; cbn [xrun]; rewrite H. Qed.
End Steps.

(** Evaluates a line with the facts at hand, then steps over it; [xgo] runs up to
    the next jump, which leaves the code as [xcode l]. *)
Ltac xknown :=
  repeat match goal with
         | H : u64 _ = _ |- _ => rewrite H
         | H : (_ =? _) = _ |- _ => rewrite H
         | H : _ !! _ = Some _ |- _ => rewrite H
         | H : load_le _ _ _ = Some _ |- _ => rewrite H
         | H : Z.land _ _ = _ |- _ => rewrite H
         end.
Ltac xval := cbn -[u64 Z.add Z.sub Z.mul Z.eqb Z.land Z.shiftr lookup insert load_le merged]; xknown; reflexivity.
Ltac xopen := match goal with |- xrun _ _ _ (xcode ?l) _ = _ => let c := eval vm_compute in (xcode l) in change (xcode l) with c end.
Ltac xstep :=
  first [ rewrite xrun_at
        | erewrite xrun_next by xval
        | erewrite xrun_jump; [|xval|vm_compute; by eexists]
        | erewrite xrun_exit by xval ].

Ltac load_case Hs Hu :=
  injection Hs as <-; match type of Hu with context [Z.of_nat ?n] => let c := eval vm_compute in (Z.of_nat n) in change (Z.of_nat n) with c in Hu |- * end.

Section Rounds.
Context (callee : xcall -> xmem -> xmem -> Z * xmem * xmem) (clobber : xreg -> Z).
Abbreviation run_ := (xrun callee clobber).

(** The load of one argument by its type. *)
Lemma load_phase fuel t k v (f : xfile) z st m calls pc :
  x_r9 f <> 0 -> 0 <= x_r13 f -> x_r13 f + 8 < 2 ^ 64 ->
  Z.land (x_r10 f) 7 = t -> type_size t = Some k -> load_le m (x_r13 f) k = Some v ->
  exists z', run_ (2 + fuel) (xcode x_load) (XState f z st m calls pc) =
    run_ fuel (xcode x_load_done)
      (XState (xset RAX (merged k (x_rax f) v) (xset argv (x_r13 f + Z.of_nat k) (xset temp t f))) z' st m calls pc).
Proof.
  intros Hk Ha Ha2 Ht Hs Hv. destruct f as [rax rdi rsi rdx rcx r8 r9 r10 r11 r12 r13 r14 rbp rsp]. cbn [x_r9 x_r10 x_r13 x_rax] in *.
  assert ((r9 =? 0) = false) as E0 by (by apply Z.eqb_neq). exists true. cbn [Nat.add].
  assert (u64 (r13 + Z.of_nat k) = r13 + Z.of_nat k) as Hu.
  { apply u64_small. unfold type_size in Hs. repeat case_match; simplify_eq; lia. }
  unfold type_size in Hs.
  destruct (Z.eqb_spec t 0) as [->|N0]; [load_case Hs Hu; xopen; do 6 xstep; xopen; do 3 xstep; reflexivity|].
  destruct (Z.eqb_spec t 1) as [->|N1]; [load_case Hs Hu; xopen; do 8 xstep; xopen; do 3 xstep; reflexivity|].
  destruct (Z.eqb_spec t 3) as [->|N3]; [load_case Hs Hu; xopen; do 10 xstep; xopen; do 3 xstep; reflexivity|].
  destruct (Z.eqb_spec t 4) as [->|N4]; [load_case Hs Hu; xopen; do 12 xstep; xopen; do 5 xstep; reflexivity|].
  destruct (Z.eqb_spec t 6) as [->|N6]; [load_case Hs Hu; xopen; do 14 xstep; xopen; do 4 xstep; reflexivity|].
  destruct (Z.eqb_spec t 7) as [->|N7]; [load_case Hs Hu; xopen; do 16 xstep; xopen; do 3 xstep; reflexivity|done].
Qed.

(** Its way into a register. *)
Lemma write_phase fuel (f : xfile) z st m calls pc i :
  x_r11 f = i -> 0 <= i < 5 -> 0 < x_r9 f < 2 ^ 64 ->
  exists z' f', run_ (3 + fuel) (xcode x_load_done) (XState f z st m calls pc) = run_ fuel (xcode x_load) (XState f' z' st m calls pc) /\
    arg_regs f' = place i (x_rax f) (arg_regs f) /\ x_rax f' = x_rax f /\ x_r9 f' = x_r9 f - 1 /\ x_r10 f' = Z.shiftr (x_r10 f) 4 /\
    x_r11 f' = i + 1 /\ x_r13 f' = x_r13 f /\ x_r12 f' = x_r12 f /\ x_rbp f' = x_rbp f /\ x_rsp f' = x_rsp f.
Proof.
  intros Hi Hr Hk. destruct f as [rax rdi rsi rdx rcx r8 r9 r10 r11 r12 r13 r14 rbp rsp]. cbn [x_r9 x_r10 x_r11 x_rax] in *. subst r11.
  assert (u64 (r9 - 1) = r9 - 1) as E1 by (apply u64_small; lia).
  assert (u64 (i + 1) = i + 1) as E2 by (apply u64_small; lia). exists true. cbn [Nat.add].
  assert (i = 0 \/ i = 1 \/ i = 2 \/ i = 3 \/ i = 4) as [-> | [-> | [-> | [-> | ->]]]] by lia; eexists; (split; [xopen|]).
  - do 2 xstep. xopen. do 2 xstep. xopen. do 4 xstep. reflexivity.
  - done.
  - do 4 xstep. xopen. do 2 xstep. xopen. do 4 xstep. reflexivity.
  - done.
  - do 6 xstep. xopen. do 2 xstep. xopen. do 4 xstep. reflexivity.
  - done.
  - do 8 xstep. xopen. do 2 xstep. xopen. do 4 xstep. reflexivity.
  - done.
  - do 10 xstep. xopen. do 2 xstep. xopen. do 4 xstep. reflexivity.
  - done.
Qed.

Lemma size_le t k : type_size t = Some k -> (k <= 8)%nat.
Proof. unfold type_size. intros. repeat case_match; simplify_eq; lia. Qed.

(** All arguments. *)
Lemma args_phase fuel m st calls pc : forall n vs i f z,
  unpack m n (x_r10 f) (x_r13 f) (x_rax f) = Some vs -> x_r9 f = Z.of_nat n -> x_r11 f = i -> 0 <= i -> i + Z.of_nat n <= 5 ->
  0 <= x_r13 f -> x_r13 f + 8 * Z.of_nat n + 8 < 2 ^ 64 ->
  exists z' f', run_ (5 * n + fuel) (xcode x_load) (XState f z st m calls pc) = run_ fuel (xcode x_load) (XState f' z' st m calls pc) /\
    arg_regs f' = places i vs (arg_regs f) /\ x_r9 f' = 0 /\ x_r12 f' = x_r12 f /\ x_rbp f' = x_rbp f /\ x_rsp f' = x_rsp f.
Proof.
  induction n as [|n IH]; intros vs i f z Hu Hc Hi Hi0 Hin Ha Ha2; cbn [unpack] in Hu.
  { injection Hu as <-. by exists z, f. }
  destruct (type_size _) as [k|] eqn:Hk; [|done]. cbn in Hu. destruct (load_le m (x_r13 f) k) as [v|] eqn:Hv; [|done]. cbn in Hu.
  destruct (unpack m n _ _ _) as [vs'|] eqn:Hu'; [|done]. injection Hu as <-. pose proof (size_le _ _ Hk).
  replace (5 * S n + fuel)%nat with (2 + (3 + (5 * n + fuel)))%nat by lia.
  destruct (load_phase (3 + (5 * n + fuel)) (Z.land (x_r10 f) 7) k v f z st m calls pc) as (z1 & H1); [lia|lia|lia|done..|]. rewrite H1.
  destruct f as [rax rdi rsi rdx rcx r8 r9 r10 r11 r12 r13 r14 rbp rsp]. cbn [xset argv temp x_r9 x_r10 x_r11 x_r13 x_rax x_r12 x_rbp x_rsp] in *.
  match goal with |- context [XState ?f z1] => destruct (write_phase (5 * n + fuel) f z1 st m calls pc i) as (z2 & f2 & H2 & Hr2 & Hx & H9 & H10 & H11 & H13 & H12 & Hbp & Hsp) end;
    [done|lia|cbn; lia|]. rewrite H2. cbn [x_rax x_r9 x_r10 x_r12 x_r13 x_rbp x_rsp] in *.
  destruct (IH vs' (i + 1) f2 z2) as (z3 & f3 & H3 & Hr3 & H93 & H123 & Hb3 & Hs3); [rewrite H10, H13, Hx; exact Hu'|lia|done|lia|lia|lia|lia|].
  rewrite H3. exists z3, f3. split; [done|]. split; [by rewrite Hr3, Hr2|]. split; [done|]. split; [congruence|]. split; congruence.
Qed.

(** The call, the choice by the return type, and the way out. *)
Definition answer (ret v : Z) : Z := if Z.land ret 7 =? 5 then 2 ^ 64 - 1 else v.

Lemma leave_phase fuel (f : xfile) z st m calls pc p s12 s13 s14 sbp ra :
  x_rsp f = p - 40 -> 40 <= p -> p + 8 < 2 ^ 64 ->
  st !! (p - 32) = Some s12 -> st !! (p - 24) = Some s13 -> st !! (p - 16) = Some s14 -> st !! (p - 8) = Some sbp -> st !! p = Some ra ->
  exists f', run_ fuel (xcode x_done) (XState f z st m calls pc) = Ok (XState f' z st m calls ra) /\
    x_rax f' = x_rax f /\ x_r12 f' = s12 /\ x_r13 f' = s13 /\ x_r14 f' = s14 /\ x_rbp f' = sbp /\ x_rsp f' = p + 8.
Proof.
  intros Hsp Hp Hp2 H12 H13 H14 Hbp Hra. destruct f as [rax rdi rsi rdx rcx r8 r9 r10 r11 r12 r13 r14 rbp rsp]. cbn [x_rsp x_rax] in *. subst rsp.
  assert (u64 (p - 40 + 8) = p - 32) as E1 by (rewrite u64_small; lia). assert (u64 (p - 32 + 8) = p - 24) as E2 by (rewrite u64_small; lia).
  assert (u64 (p - 24 + 8) = p - 16) as E3 by (rewrite u64_small; lia). assert (u64 (p - 16 + 8) = p - 8) as E4 by (rewrite u64_small; lia).
  assert (u64 (p - 8 + 8) = p) as E5 by (rewrite u64_small; lia). assert (u64 (p + 8) = p + 8) as E6 by (rewrite u64_small; lia).
  eexists. split; [xopen; do 6 xstep; reflexivity|]. done.
Qed.

Lemma ret_phase fuel (f : xfile) z st m calls pc :
  exists z' f' fuel', run_ (2 + fuel) (xcode x_ret) (XState f z st m calls pc) = run_ fuel' (xcode x_done) (XState f' z' st m calls pc) /\
    x_rax f' = answer (x_r12 f) (x_rax f) /\ x_rsp f' = x_rsp f.
Proof.
  destruct f as [rax rdi rsi rdx rcx r8 r9 r10 r11 r12 r13 r14 rbp rsp]. cbn [x_r12 x_rax x_rsp Nat.add]. unfold answer.
  assert (0 <= Z.land r12 7 < 8) as Hb by (change 7 with (Z.ones 3); rewrite Z.land_ones by lia; apply Z.mod_pos_bound; lia).
  assert (Z.land r12 7 = 0 \/ Z.land r12 7 = 1 \/ Z.land r12 7 = 2 \/ Z.land r12 7 = 3 \/ Z.land r12 7 = 4 \/ Z.land r12 7 = 5 \/
          Z.land r12 7 = 6 \/ Z.land r12 7 = 7) as [E|[E|[E|[E|[E|[E|[E|E]]]]]]] by lia; rewrite E; cbn [Z.eqb Pos.eqb].
  1-5, 7-8: do 2 eexists; exists fuel; (split; [xopen; repeat xstep; xopen; xstep; reflexivity|done]).
  exists false. eexists. exists (S fuel). split; [xopen; repeat xstep; xopen; xstep; rewrite xrun_at; reflexivity|done].
Qed.

(** From the last argument to the return. *)
Lemma call_phase fuel (f : xfile) z st m calls pc p fn v m' st' s12 s13 s14 sbp ra :
  let '(a, b, c, d, e) := arg_regs f in let ev := (fn, (a, b, c, d, e, 0)) in
  x_r9 f = 0 -> x_rbp f = p - 8 -> x_rsp f = p - 40 -> 40 <= p -> p + 8 < 2 ^ 64 -> st !! (p - 16) = Some fn ->
  callee ev m st = (v, m', st') ->
  st' !! (p - 32) = Some s12 -> st' !! (p - 24) = Some s13 -> st' !! (p - 16) = Some s14 -> st' !! (p - 8) = Some sbp -> st' !! p = Some ra ->
  exists s', run_ (3 + fuel) (xcode x_load) (XState f z st m calls pc) = Ok s' /\
    xs_calls s' = calls ++ [ev] /\ xs_pc s' = ra /\ xs_bytes s' = m' /\ x_rax (xs_file s') = answer (x_r12 f) v /\
    x_r12 (xs_file s') = s12 /\ x_r13 (xs_file s') = s13 /\ x_r14 (xs_file s') = s14 /\ x_rbp (xs_file s') = sbp /\ x_rsp (xs_file s') = p + 8.
Proof.
  destruct f as [rax rdi rsi rdx rcx r8 r9 r10 r11 r12 r13 r14 rbp rsp]. cbn [arg_regs x_rdi x_rsi x_rdx x_rcx x_r8 x_r9 x_rbp x_rsp x_r12].
  intros -> -> -> Hp Hp2 Hfn Hcall H12 H13 H14 Hbp Hra. cbn [Nat.add].
  assert (u64 (p - 8 + -8) = p - 16) as E by (rewrite u64_small; lia).
  assert (exists f1, run_ (3 + fuel) (xcode x_load) (XState (XFile rax rdi rsi rdx rcx r8 0 r10 r11 r12 r13 r14 (p - 8) (p - 40)) z st m calls pc) =
    run_ (2 + fuel) (xcode x_ret) (XState f1 true st' m' (calls ++ [(fn, (rdi, rsi, rdx, rcx, r8, 0))]) pc) /\ x_rax f1 = v /\ x_r12 f1 = r12 /\ x_rsp f1 = p - 40)
    as (f1 & H1 & Hv & Hr & Hs).
  { cbn [Nat.add]. eexists. split.
    - xopen. do 2 xstep. xopen. erewrite xrun_next; [|cbn -[u64 Z.add Z.sub lookup]; rewrite E, Hfn, Hcall; reflexivity]. rewrite xrun_at. reflexivity.
    - done. }
  cbn [Nat.add] in H1. rewrite H1.
  destruct (ret_phase fuel f1 true st' m' (calls ++ [(fn, (rdi, rsi, rdx, rcx, r8, 0))]) pc) as (z2 & f2 & fuel2 & H2 & Ha & Hs2). cbn [Nat.add] in H2. rewrite H2.
  destruct (leave_phase fuel2 f2 z2 st' m' (calls ++ [(fn, (rdi, rsi, rdx, rcx, r8, 0))]) pc p s12 s13 s14 sbp ra) as (f3 & H3 & Hx & K12 & K13 & K14 & Kbp & Ksp);
    [congruence|done..|]. eexists. split; [exact H3|]. cbn. repeat split; congruence.
Qed.

(** The frame below the return address at [p]: the slot of [%r14] is the one the
    function pointer is put into. *)
Definition frame (f : xfile) (p : Z) (st : xmem) : xmem :=
  <[p - 16 := x_rdi f]> (<[p - 32 := x_r12 f]> (<[p - 24 := x_r13 f]> (<[p - 16 := x_r14 f]> (<[p - 8 := x_rbp f]> st)))).

Lemma frame_ok f p st ra : st !! p = Some ra ->
  frame f p st !! (p - 32) = Some (x_r12 f) /\ frame f p st !! (p - 24) = Some (x_r13 f) /\ frame f p st !! (p - 16) = Some (x_rdi f) /\
  frame f p st !! (p - 8) = Some (x_rbp f) /\ frame f p st !! p = Some ra.
Proof.
  intros H. unfold frame. repeat split; repeat first [rewrite lookup_insert_eq; reflexivity | rewrite lookup_insert_ne by lia]; done.
Qed.

Lemma entry_phase fuel f p z st m :
  x_rsp f = p -> 40 <= p < 2 ^ 64 ->
  run_ fuel fmr_call (XState f z st m [] 0) =
  run_ fuel (xcode x_load)
    (XState (XFile (x_rax f) (x_rdi f) (x_rsi f) (x_rdx f) (x_rcx f) (x_r8 f) (x_rdx f) (x_rcx f) 0 (x_rsi f) (x_r8 f) (x_r14 f) (p - 8) (p - 40))
       z (frame f p st) m [] 0).
Proof.
  destruct f as [rax rdi rsi rdx rcx r8 r9 r10 r11 r12 r13 r14 rbp rsp]. cbn [x_rsp]. intros -> Hp.
  assert (u64 (p - 8) = p - 8) as E1 by (rewrite u64_small; lia). assert (u64 (p - 8 - 8) = p - 16) as E2 by (rewrite u64_small; lia).
  assert (u64 (p - 16 - 8) = p - 24) as E3 by (rewrite u64_small; lia). assert (u64 (p - 24 - 8) = p - 32) as E4 by (rewrite u64_small; lia).
  assert (u64 (p - 32 - 8) = p - 40) as E5 by (rewrite u64_small; lia). assert (u64 (p - 8 + -8) = p - 16) as E6 by (rewrite u64_small; lia).
  assert (u64 0 = 0) as E7 by done.
  unfold fmr_call at 1. do 12 xstep. rewrite xrun_at. reflexivity.
Qed.

Lemma places_nth vs a b c d e :
  (length vs <= 5)%nat -> places 0 vs (a, b, c, d, e) = (nth 0 vs a, nth 1 vs b, nth 2 vs c, nth 3 vs d, nth 4 vs e).
Proof. intros H. do 5 (destruct vs as [|? vs]; [done|]). destruct vs; [done|cbn in H; lia]. Qed.

Lemma unpack_length m n : forall t a acc vs, unpack m n t a acc = Some vs -> length vs = n.
Proof.
  induction n as [|n IH]; intros t a acc vs H; cbn [unpack] in H; [by injection H as <-|].
  destruct (type_size _) as [k|]; [|done]. cbn in H. destruct (load_le m a k) as [v|]; [|done]. cbn in H.
  destruct (unpack m n _ _ _) as [vs'|] eqn:Hu; [|done]. injection H as <-. cbn. f_equal. eauto.
Qed.
End Rounds.

(** C9: The trampoline with up to five packed arguments of known types: it calls the
    function once with the unpacked values in the argument registers (the others
    still hold its own parameters), answers what it returned, -1 when the return
    type is 5, and returns with the stack pointer, [%rbp], [%r12] and [%r13] as
    they were, but with [%r14] holding the function's address. *)
Theorem fmr_call_x64 (callee : xcall -> xmem -> xmem -> Z * xmem * xmem) clobber f p z st m n vs ra :
  x_rsp f = p -> 40 <= p -> p + 8 < 2 ^ 64 -> st !! p = Some ra ->
  x_rdx f = Z.of_nat n -> (n <= 5)%nat -> 0 <= x_r8 f -> x_r8 f + 48 < 2 ^ 64 ->
  unpack m n (x_rcx f) (x_r8 f) (x_rax f) = Some vs ->
  let e := (x_rdi f, (nth 0 vs (x_rdi f), nth 1 vs (x_rsi f), nth 2 vs (x_rdx f), nth 3 vs (x_rcx f), nth 4 vs (x_r8 f), 0)) in
  (forall a, p - 40 <= a -> (callee e m (frame f p st)).2 !! a = frame f p st !! a) ->
  exists s', xrun callee clobber 32 fmr_call (XState f z st m [] 0) = Ok s' /\
    xs_calls s' = [e] /\ xs_pc s' = ra /\ xs_bytes s' = (callee e m (frame f p st)).1.2 /\
    x_rax (xs_file s') = answer (x_rsi f) (callee e m (frame f p st)).1.1 /\
    Forall (fun r => xget (xs_file s') r = xget f r) [RBP; R12_; R13_] /\ x_rsp (xs_file s') = p + 8 /\ x_r14 (xs_file s') = x_rdi f.
Proof.
  intros Hsp Hp Hp2 Hra Hn Hn5 Ha Ha2 Hu e Hframe. rewrite (entry_phase _ _ _ f p) by lia.
  match goal with |- context [XState ?g z _] => set (f1 := g) end. pose proof (unpack_length _ _ _ _ _ _ Hu) as Hlen.
  destruct (args_phase callee clobber (32 - 5 * n) m (frame f p st) [] 0 n vs 0 f1 z Hu) as (z2 & f2 & H2 & Hr & H9 & H12 & Hbp & Hs2); [done|done|lia|lia|done|cbn; lia|].
  replace (5 * n + (32 - 5 * n))%nat with 32%nat in H2 by lia. rewrite H2. replace (32 - 5 * n)%nat with (3 + (29 - 5 * n))%nat by lia.
  unfold arg_regs at 2 in Hr. cbn [f1 x_rdi x_rsi x_rdx x_rcx x_r8] in Hr. rewrite places_nth in Hr by lia.
  destruct (callee e m (frame f p st)) as [[v m'] st'] eqn:Hcall. cbn [fst snd] in *.
  pose proof (call_phase callee clobber (29 - 5 * n) f2 z2 (frame f p st) m [] 0 p (x_rdi f) v m' st' (x_r12 f) (x_r13 f) (x_rdi f) (x_rbp f) ra) as Hc.
  rewrite Hr in Hc. cbn [app] in Hc. destruct (frame_ok f p st ra Hra) as (L32 & L24 & L16 & L8 & L0).
  destruct Hc as (s' & H3 & Hca & Hpc & Hb & Hx & K12 & K13 & K14 & Kbp & Ksp);
    [done|done|by rewrite Hs2|done|done|done|done|rewrite Hframe by lia; done..|].
  exists s'. split; [done|]. split; [done|]. split; [done|]. split; [done|]. rewrite H12 in Hx. split; [done|].
  split; [by repeat constructor|]. done.
Qed.

(** Two arguments, the byte 7 and the doubleword 0x01020304. *)
Definition sample_regs (n t : Z) : xfile := XFile 0x1100 0x401000 3 n t 0x5000 0 0 0 12 13 14 0x7010 0x7000.
Definition sample_bytes : xmem := list_to_map [(0x5000, 7); (0x5001, 4); (0x5002, 3); (0x5003, 2); (0x5004, 1); (0x5005, 9); (0x5006, 9)].
Lemma fmr_call_x64_witness :
  let callee := fun (e : xcall) (m st : xmem) => (99, m, st) in
  exists s', xrun callee (fun _ => 0) 32 fmr_call (XState (sample_regs 2 0x30) false {[0x7000 := 0x400500]} sample_bytes [] 0) = Ok s' /\
    xs_calls s' = [(0x401000, (0x1107, 0x01020304, 2, 0x30, 0x5000, 0))] /\ x_rax (xs_file s') = 99 /\ x_r14 (xs_file s') = 0x401000.
Proof.
  destruct (fmr_call_x64 (fun _ m st => (99, m, st)) (fun _ => 0) (sample_regs 2 0x30) 0x7000 false {[0x7000 := 0x400500]} sample_bytes 2
              [0x1107; 0x01020304] 0x400500) as (s' & Hrun & Hc & _ & _ & Hx & _ & _ & H14);
    [reflexivity|lia|lia|reflexivity|reflexivity|lia|cbn; lia|cbn; lia|vm_compute; reflexivity|intros a _; reflexivity|].
  exists s'. split; [exact Hrun|]. split; [exact Hc|]. split; [exact Hx|exact H14].
Defined.

(** The sixth argument goes to the register that counts the arguments: with six
    arguments nothing is called and the answer is -1. *)
Lemma six_arguments_fail :
  let callee := fun (e : xcall) (m st : xmem) => (99, m, st) in
  exists s', xrun callee (fun _ => 0) 40 fmr_call (XState (sample_regs 6 0) false {[0x7000 := 0x400500]} sample_bytes [] 0) = Ok s' /\
    xs_calls s' = [] /\ x_rax (xs_file s') = 2 ^ 64 - 1.
Proof. eexists. split; [vm_compute; reflexivity|]. vm_compute. done. Qed.
