(* ===== verification/TrampolineAvr.v ===== *)
(** * The call trampoline of the AVR port (os/arch/avr8/fmr.S)

    [fmr_call] as the source's lines, labels included, with an interpreter. The
    pointers X and Z are 16-bit registers whose halves are r26, r27, r30 and r31;
    data addresses below 32 are registers, as on the chip, and the others a map of
    bytes. The stack is a list of bytes. The function called is a parameter. *)

From S2P Require Import Prelude.
From stdpp Require Import base list gmap.
From Stdlib Require Import ZArith Lia.
Local Open Scope Z_scope.

Inductive glabel :=
| g_load | g_load_8 | g_load_16 | g_load_32 | g_load_64 | g_load_int | g_load_ptr | g_load_done | g_call
| g_ret_8 | g_ret_16 | g_ret_16_begin | g_ret_void | g_ret_32 | g_ret_int | g_ret_ptr | g_ret_64 | g_fail | g_done.
#[global] Instance glabel_eq_dec : EqDecision glabel.
Proof. solve_decision. Defined.

(** Registers are numbers. [LDZ r] is [ld r, Z+]; [STdX], [STXi] and [STX] are the
    stores to [-X], [X+] and [X]. *)
Inductive ginstr :=
| PUSH (r : Z) | POP (r : Z) | MOV (d s : Z) | MOVW (d s : Z) | CLR (r : Z) | SER (r : Z) | COM (r : Z) | LDI (r k : Z)
| TST (r : Z) | CPI (r k : Z) | ANDI (r k : Z) | SBR (r k : Z) | DEC (r : Z) | SUBI (r k : Z) | ADIWZ (k : Z) | ASR (r : Z) | ROR (r : Z)
| BREQ (l : glabel) | BRNE (l : glabel) | RJMP (l : glabel) | SBRS (r b : Z)
| LDZ (r : Z) | STdX (r : Z) | STXi (r : Z) | STX (r : Z) | ICALL | RET.
Inductive gline := GAt (l : glabel) | GDo (i : ginstr).

Definition retv : Z := 2.
Definition argc : Z := 3.
Definition argt_l : Z := 4.
Definition argt_h : Z := 5.
Definition XL : Z := 26.
Definition XH : Z := 27.
Definition ZL : Z := 30.
Definition ZH : Z := 31.
Definition do_ (l : list ginstr) : list gline := map GDo l.

Definition fmr_call : list gline :=
  do_ [PUSH argc; PUSH argt_l; PUSH argt_h; PUSH 25; PUSH 24; MOV retv 22; MOV argc 20; MOVW argt_l 18; MOVW ZL 16; CLR XH; LDI XL 25] ++
  [GAt g_load] ++ do_ [TST argc; BREQ g_call; MOV 16 argt_l; ANDI 16 0x7;
    CPI 16 0; BREQ g_load_8; CPI 16 1; BREQ g_load_16; CPI 16 3; BREQ g_load_32; CPI 16 4; BREQ g_load_int;
    CPI 16 6; BREQ g_load_ptr; CPI 16 7; BREQ g_load_64; RJMP g_fail] ++
  [GAt g_load_8] ++ do_ [LDZ 0; STdX 0; DEC XL; RJMP g_load_done] ++
  [GAt g_load_16] ++ do_ [DEC XL; LDZ 0; STXi 0; LDZ 0; STX 0; SUBI XL 0x02; RJMP g_load_done] ++
  [GAt g_load_32] ++ do_ [SUBI XL 0x03; LDZ 0; STXi 0; LDZ 0; STXi 0; LDZ 0; STXi 0; LDZ 0; STX 0; SUBI XL 0x04; RJMP g_load_done] ++
  [GAt g_load_64] ++ do_ [RJMP g_fail] ++
  [GAt g_load_int; GAt g_load_ptr] ++ do_ [DEC XL; LDZ 0; STXi 0; LDZ 0; STX 0; SUBI XL 0x02; ADIWZ 0x06; RJMP g_load_done] ++
  [GAt g_load_done] ++ do_ [ASR argt_h; ROR argt_l; ASR argt_h; ROR argt_l; ASR argt_h; ROR argt_l; ASR argt_h; ROR argt_l; DEC argc; RJMP g_load] ++
  [GAt g_call] ++ do_ [POP ZL; POP ZH; ICALL; MOV 16 retv; ANDI 16 0x7] ++
  [GAt g_ret_8] ++ do_ [CPI 16 0; BRNE g_ret_16; CLR 25; MOV 18 24; CLR 24; CLR 23; CLR 22; CLR 21; CLR 20; CLR 19;
    SBRS 16 4; RJMP g_done; SBRS 18 7; RJMP g_done; COM 25; COM 24; COM 23; COM 22; COM 21; COM 20; COM 19; RJMP g_done] ++
  [GAt g_ret_16] ++ do_ [CPI 16 1; BRNE g_ret_void] ++
  [GAt g_ret_16_begin] ++ do_ [MOV 19 25; CLR 25; MOV 18 24; CLR 24; CLR 23; CLR 22; CLR 21; CLR 20;
    SBRS 16 4; RJMP g_done; SBRS 19 7; RJMP g_done; COM 25; COM 24; COM 23; COM 22; COM 21; COM 20; RJMP g_done] ++
  [GAt g_ret_void] ++ do_ [CPI 16 2; BRNE g_ret_32; CLR 25; CLR 24; CLR 23; CLR 22; CLR 21; CLR 20; CLR 19; CLR 18; RJMP g_done] ++
  [GAt g_ret_32] ++ do_ [CPI 16 3; BRNE g_ret_int; MOV 21 25; CLR 25; MOV 20 24; CLR 24; MOV 19 23; CLR 23; MOV 18 22;
    SBRS 16 4; RJMP g_done; SBRS 21 7; RJMP g_done; COM 25; COM 24; COM 23; COM 22; RJMP g_done] ++
  [GAt g_ret_int] ++ do_ [CPI 16 4; BRNE g_ret_ptr; SBR 16 4; RJMP g_ret_16_begin] ++
  [GAt g_ret_ptr] ++ do_ [CPI 16 6; BRNE g_ret_64; RJMP g_ret_16_begin] ++
  [GAt g_ret_64] ++ do_ [CPI 16 7; BRNE g_fail; RJMP g_done] ++
  [GAt g_fail] ++ do_ [SER 25; SER 24; SER 23; SER 22; SER 21; SER 20; SER 19; SER 18] ++
  [GAt g_done] ++ do_ [POP argt_h; POP argt_l; POP argc; RET].

(** ** The machine *)

Abbreviation gmem := (gmap Z Z).
Abbreviation gfile := (Z -> Z).
Definition upd (r v : Z) (f : gfile) : gfile := fun x => if x =? r then v else f x.

(** A call: the function's address and r18 to r25. *)
Abbreviation gcall := (Z * list Z)%type.
Record gstate := GState { g_file : gfile; g_x : Z; g_z : Z; g_zero : bool; g_carry : Z; g_stack : list Z; g_mem : gmem; g_calls : list gcall; g_pc : Z }.

Definition greg (s : gstate) (r : Z) : Z :=
  if r =? XL then g_x s mod 256 else if r =? XH then g_x s / 256 else if r =? ZL then g_z s mod 256 else if r =? ZH then g_z s / 256 else g_file s r.
Definition gset (r v : Z) (s : gstate) : gstate :=
  let '(GState f x z zf c st m cs pc) := s in
  if r =? XL then GState f (x - x mod 256 + v) z zf c st m cs pc
  else if r =? XH then GState f (x mod 256 + 256 * v) z zf c st m cs pc
  else if r =? ZL then GState f x (z - z mod 256 + v) zf c st m cs pc
  else if r =? ZH then GState f x (z mod 256 + 256 * v) zf c st m cs pc
  else GState (upd r v f) x z zf c st m cs pc.
Definition gflags (zf : bool) (c : Z) (s : gstate) : gstate :=
  GState (g_file s) (g_x s) (g_z s) zf c (g_stack s) (g_mem s) (g_calls s) (g_pc s).
Definition gzero (v : Z) (s : gstate) : gstate := gflags (v =? 0) (g_carry s) s.
Definition gptrs (x z : Z) (s : gstate) : gstate := GState (g_file s) x z (g_zero s) (g_carry s) (g_stack s) (g_mem s) (g_calls s) (g_pc s).
Definition gpush (st : list Z) (s : gstate) : gstate := GState (g_file s) (g_x s) (g_z s) (g_zero s) (g_carry s) st (g_mem s) (g_calls s) (g_pc s).
Definition gload (a : Z) (s : gstate) : option Z := if a <? 32 then Some (greg s a) else g_mem s !! a.
Definition gstore (a v : Z) (s : gstate) : gstate :=
  if a <? 32 then gset a v s
  else GState (g_file s) (g_x s) (g_z s) (g_zero s) (g_carry s) (g_stack s) (<[a := v]> (g_mem s)) (g_calls s) (g_pc s).

(** The shifts of a byte: [asr] keeps bit 7, [ror] takes it from the carry; the
    bit that leaves is the carry. *)
Definition asr8 (v : Z) : Z := v / 2 + (if 128 <=? v then 128 else 0).
Definition ror8 (c v : Z) : Z := v / 2 + 128 * c.
Definition bit0 (v : Z) : Z := v mod 2.

Inductive gnext := GNext (s : gstate) | GSkip (s : gstate) | GJump (l : glabel) (s : gstate) | GExit (s : gstate) | GFault.

Section Machine.
(** What a function leaves in r18 to r25 and in memory, and in the other
    registers it may use. *)
Context (callee : gcall -> gmem -> gfile * gmem) (clobber : Z -> Z).

Definition gexec (i : ginstr) (s : gstate) : gnext :=
  let r := greg s in
  match i with
  | PUSH x => GNext (gpush (r x :: g_stack s) s)
  | POP x => match g_stack s with v :: st => GNext (gset x v (gpush st s)) | [] => GFault end
  | MOV d x => GNext (gset d (r x) s)
  | MOVW d x => GNext (gset (d + 1) (r (x + 1)) (gset d (r x) s))
  | CLR x => GNext (gset x 0 (gflags true (g_carry s) s))
  | SER x => GNext (gset x 255 s)
  | COM x => GNext (gset x (255 - r x) (gflags (r x =? 255) 1 s))
  | LDI x k => GNext (gset x k s)
  | TST x => GNext (gzero (r x) s)
  | CPI x k => GNext (gflags (r x =? k) (if r x <? k then 1 else 0) s)
  | ANDI x k => GNext (gset x (Z.land (r x) k) (gzero (Z.land (r x) k) s))
  | SBR x k => GNext (gset x (Z.lor (r x) k) (gzero (Z.lor (r x) k) s))
  | DEC x => GNext (gset x (u8 (r x - 1)) (gzero (u8 (r x - 1)) s))
  | SUBI x k => GNext (gset x (u8 (r x - k)) (gflags (r x =? k) (if r x <? k then 1 else 0) s))
  | ADIWZ k => GNext (gptrs (g_x s) (u16 (g_z s + k)) (gflags (u16 (g_z s + k) =? 0) (if 65535 <? g_z s + k then 1 else 0) s))
  | ASR x => GNext (gset x (asr8 (r x)) (gflags (asr8 (r x) =? 0) (bit0 (r x)) s))
  | ROR x => GNext (gset x (ror8 (g_carry s) (r x)) (gflags (ror8 (g_carry s) (r x) =? 0) (bit0 (r x)) s))
  | BREQ l => if g_zero s then GJump l s else GNext s
  | BRNE l => if g_zero s then GNext s else GJump l s
  | RJMP l => GJump l s
  | SBRS x b => if Z.testbit (r x) b then GSkip s else GNext s
  | LDZ x => match gload (g_z s) s with Some v => GNext (gset x v (gptrs (g_x s) (u16 (g_z s + 1)) s)) | None => GFault end
  | STdX x => let a := u16 (g_x s - 1) in GNext (gstore a (r x) (gptrs a (g_z s) s))
  | STXi x => GNext (gptrs (u16 (g_x s + 1)) (g_z s) (gstore (g_x s) (r x) s))
  | STX x => GNext (gstore (g_x s) (r x) s)
  | ICALL =>
    let e := (g_z s, map r [18; 19; 20; 21; 22; 23; 24; 25]) in
    let '(res, m) := callee e (g_mem s) in
    let f := fun x => if (18 <=? x) && (x <=? 25) then res x else if x =? 0 then clobber 0 else g_file s x in
    GNext (GState f (clobber XL) (clobber ZL) (g_zero s) (g_carry s) (g_stack s) m (g_calls s ++ [e]) (g_pc s))
  | RET => match g_stack s with
           | h :: l :: st => GExit (GState (g_file s) (g_x s) (g_z s) (g_zero s) (g_carry s) st (g_mem s) (g_calls s) (256 * h + l))
           | _ => GFault
           end
  end.

Fixpoint gfind (l : glabel) (code : list gline) : option (list gline) :=
  match code with
  | [] => None
  | GAt l' :: code => if decide (l' = l) then Some code else gfind l code
  | GDo _ :: code => gfind l code
  end.

(** Runs from a line; fuel counts branches taken. *)
Fixpoint grun (fuel : nat) : list gline -> gstate -> outcome gstate :=
  fix lines (code : list gline) (s : gstate) : outcome gstate :=
    match code with
    | [] => Ub
    | GAt _ :: code => lines code s
    | GDo i :: code =>
      match gexec i s with
      | GNext s => lines code s
      | GSkip s => match code with _ :: code => lines code s | [] => Ub end
      | GExit s => Ok s
      | GFault => Ub
      | GJump l s =>
        match fuel, gfind l fmr_call with
        | O, _ => Spin
        | _, None => Ub
        | S fuel, Some code => grun fuel code s
        end
      end
    end.
End Machine.

(** ** What it does *)

(** A packed argument by the low three bits of its type: its bytes, and how far the
    argument pointer moves past it. An int or pointer is packed as eight bytes and
    the low two are used. *)
Definition packed (t : Z) : option (nat * Z) :=
  if t =? 0 then Some (1%nat, 1) else if t =? 1 then Some (2%nat, 2) else if t =? 3 then Some (4%nat, 4)
  else if (t =? 4) || (t =? 6) then Some (2%nat, 8) else None.
(** Registers are given out in pairs, from r25 down. *)
Definition slot (k : nat) : Z := if (k =? 1)%nat then 2 else Z.of_nat k.
Fixpoint bytes_at (m : gmem) (a : Z) (k : nat) : option (list Z) :=
  match k with O => Some [] | S k => b ← m !! a; bs ← bytes_at m (a + 1) k; Some (b :: bs) end.
Fixpoint fill (r : Z) (bs : list Z) (f : gfile) : gfile := match bs with [] => f | b :: bs => fill (r + 1) bs (upd r b f) end.

(** The register file of the calling convention: [n] arguments whose types are the
    nibbles of [t], packed from [a] on, the registers up to [x] being free. The
    result also has the register and the address reached. *)
Fixpoint unpack (m : gmem) (n : nat) (t a x : Z) (f : gfile) : option (gfile * Z * Z) :=
  match n with
  | O => Some (f, x, a)
  | S n =>
    '(k, step) ← packed (t mod 8);
    bs ← bytes_at m a k;
    unpack m n (t / 16) (a + step) (x - slot k) (fill (x + 1 - slot k) bs f)
  end.

Definition args_of (f : gfile) : list Z := map f [18; 19; 20; 21; 22; 23; 24; 25].

(** What r18 to r25, the bytes of the 64-bit result, hold at the end. *)
Definition answer (ret : Z) (res : gfile) : list Z :=
  match ret mod 8 with
  | 0 => [res 24; 0; 0; 0; 0; 0; 0; 0]
  | 1 | 4 | 6 => [res 24; res 25; 0; 0; 0; 0; 0; 0]
  | 2 => [0; 0; 0; 0; 0; 0; 0; 0]
  | 3 => [res 22; res 23; res 24; res 25; res 22; 0; 0; 0]
  | 7 => args_of res
  | _ => [255; 255; 255; 255; 255; 255; 255; 255]
  end.

Lemma upd_ne k v (f : gfile) r : r <> k -> upd k v f r = f r.
Proof. intros H. unfold upd. by rewrite (proj2 (Z.eqb_neq r k) H). Qed.

Definition gcode (l : glabel) : list gline := default [] (gfind l fmr_call).

Section Steps.
Context (callee : gcall -> gmem -> gfile * gmem) (clobber : Z -> Z).
Abbreviation run_ := (grun callee clobber).
Abbreviation exec_ := (gexec callee clobber).

Lemma grun_at fuel l code s : run_ fuel (GAt l :: code) s = run_ fuel code s.
Proof. by destruct fuel. Qed.
Lemma grun_next fuel i code s s' : exec_ i s = GNext s' -> run_ fuel (GDo i :: code) s = run_ fuel code s'.
Proof. intros H. by destruct fuel; cbn [grun]; rewrite H. Qed.
Lemma grun_skip fuel i c code s s' : exec_ i s = GSkip s' -> run_ fuel (GDo i :: c :: code) s = run_ fuel code s'.
Proof. intros H. by destruct fuel; cbn [grun]; rewrite H. Qed.
Lemma grun_jump fuel i l code s s' :
  exec_ i s = GJump l s' -> is_Some (gfind l fmr_call) -> run_ (S fuel) (GDo i :: code) s = run_ fuel (gcode l) s'.
Proof. intros H [c Hl]. cbn [grun]. unfold gcode. by rewrite H, Hl. Qed.
Lemma grun_exit fuel i code s s' : exec_ i s = GExit s' -> run_ fuel (GDo i :: code) s = Ok s'.
Proof. intros H. by destruct fuel; cbn [grun]; rewrite H. Qed.
End Steps.

(** Evaluates a line with the facts at hand, then steps over it. Numbers that are
    known are computed, the others stay as the machine has them. *)
Ltac gfold e := let v := eval vm_compute in e in change e with v.
Ltac gnum :=
  repeat match goal with
         | |- context [u8 (Zpos ?t)] => gfold (u8 (Zpos t))
         | |- context [u16 (Zpos ?t)] => gfold (u16 (Zpos t))
         | |- context [Zpos ?a - Zpos ?b] => gfold (Zpos a - Zpos b)
         | |- context [Zpos ?a + Zpos ?b] => gfold (Zpos a + Zpos b)
         | |- context [0 + Zpos ?b] => gfold (0 + Zpos b)
         | |- context [Zpos ?a mod 256] => gfold (Zpos a mod 256)
         | |- context [Zpos ?a <? Zpos ?b] => gfold (Zpos a <? Zpos b)
         end.
Ltac gknown :=
  repeat match goal with
         | H : u16 _ = _ |- _ => rewrite H
         | H : (_ =? _) = _ |- _ => rewrite H
         | H : (_ <? _) = _ |- _ => rewrite H
         | H : _ !! _ = Some _ |- _ => rewrite H
         | H : Z.land _ _ = _ |- _ => rewrite H
         end.
Ltac gred := cbn -[u8 u16 lookup insert asr8 ror8 bit0 Z.land Z.ltb Z.modulo].
Ltac gval := unfold gexec, gload, gstore, gzero, gflags; gred; repeat (progress gnum; gred); gknown; gred; reflexivity.
Ltac gopen := match goal with |- grun _ _ _ (gcode ?l) _ = _ => let c := eval vm_compute in (gcode l) in change (gcode l) with c end.
Ltac gstep :=
  first [ rewrite grun_at
        | erewrite grun_next by gval
        | erewrite grun_jump; [|gval|vm_compute; by eexists]
        | erewrite grun_skip by gval
        | erewrite grun_exit by gval ].

Section Rounds.
Context (callee : gcall -> gmem -> gfile * gmem) (clobber : Z -> Z).
Abbreviation run_ := (grun callee clobber).

Lemma types_shift h l : 0 <= h < 256 -> 0 <= l < 256 ->
  let h' := asr8 h in let l' := ror8 (bit0 h) l in
  0 <= h' < 256 /\ 0 <= l' < 256 /\ (256 * h' + l') = (256 * h + l) / 2 + (if 128 <=? h then 32768 else 0) /\ (128 <=? h') = (128 <=? h).
Proof.
  intros Hh Hl. cbv zeta. unfold asr8, ror8, bit0. destruct (Z.leb_spec 128 h); repeat split; try (apply Z.leb_le || apply Z.leb_gt);
    Z.to_euclidean_division_equations; lia.
Qed.

(** The shift of the types by one nibble and the count. *)
Lemma avr_done_phase fuel f x z zf c st m calls pc :
  0 <= f argt_h < 256 -> 0 <= f argt_l < 256 -> 0 < f argc < 256 ->
  exists f' zf' c', run_ (S fuel) (gcode g_load_done) (GState f x z zf c st m calls pc) = run_ fuel (gcode g_load) (GState f' x z zf' c' st m calls pc) /\
    (forall r, 6 <= r -> f' r = f r) /\ f' retv = f retv /\ f' argc = f argc - 1 /\ 0 <= f' argt_h < 256 /\ 0 <= f' argt_l < 256 /\
    (256 * f' argt_h + f' argt_l) mod 2 ^ 12 = (256 * f argt_h + f argt_l) / 16.
Proof.
  intros Hh Hl Hc. do 3 eexists. split; [gopen; do 10 gstep; reflexivity|].
  unfold argc, argt_h, argt_l, retv in *. split. { intros r Hr. by rewrite !upd_ne by lia. }
  unfold upd.   cbn [Z.eqb Pos.eqb]. split; [done|]. split; [apply Z.mod_small; lia|].
  destruct (types_shift (f 5) (f 4) Hh Hl) as (H1 & L1 & E1 & S1).
  destruct (types_shift _ _ H1 L1) as (H2 & L2 & E2 & S2). destruct (types_shift _ _ H2 L2) as (H3 & L3 & E3 & S3).
  destruct (types_shift _ _ H3 L3) as (H4 & L4 & E4 & S4). rewrite S3, S2, S1 in E4. rewrite S2, S1 in E3. rewrite S1 in E2.
  split; [exact H4|]. split; [exact L4|]. rewrite E4, E3, E2, E1. destruct (128 <=? f 5); Z.to_euclidean_division_equations; lia.
Qed.

Definition agree (f g : gfile) : Prop := forall r, 18 <= r <= 25 -> f r = g r.

(** The registers a load leaves alone, and those of them the trampoline has no
    use for. *)
Definition untouched (r : Z) : Prop := 2 <= r <= 15 \/ r = 17 \/ 28 <= r <= 29.
Definition kept (f f' : gfile) : Prop := forall r, untouched r -> f' r = f r.
Definition saved (r : Z) : Prop := 6 <= r <= 15 \/ r = 17 \/ 28 <= r <= 29.
Definition spared (f f' : gfile) : Prop := forall r, saved r -> f' r = f r.
Ltac at_regs := let r := fresh in let Hr := fresh in intros r Hr;
  assert (r = 18 \/ r = 19 \/ r = 20 \/ r = 21 \/ r = 22 \/ r = 23 \/ r = 24 \/ r = 25) as [->|[->|[->|[->|[->|[->|[->| ->]]]]]]] by lia.
Tactic Notation "loads" integer(k) integer(n) := do 3 eexists; split; [gopen; do k gstep; gopen; do n gstep; reflexivity | split; [at_regs; reflexivity | intros r Hr; unfold untouched in Hr; cbn [g_file]; rewrite !upd_ne by lia; reflexivity]].

(** The load of one argument. *)
Lemma avr_load_phase fuel f x z zf c st m calls pc t k step bs :
  f argc <> 0 -> Z.land (f argt_l) 7 = t -> packed t = Some (k, step) -> bytes_at m z k = Some bs ->
  32 <= z -> z + 8 < 65536 -> x = 25 \/ x = 23 \/ x = 21 \/ x = 19 -> slot k <= x - 17 ->
  exists f' zf' c', run_ (2 + fuel) (gcode g_load) (GState f x z zf c st m calls pc) =
    run_ fuel (gcode g_load_done) (GState f' (x - slot k) (z + step) zf' c' st m calls pc) /\
    agree f' (fill (x + 1 - slot k) bs f) /\ kept f f'.
Proof.
  intros Hc Ht Hp Hb Hz Hz2 Hx Hk. unfold argc, argt_l in Hc, Ht. apply Z.eqb_neq in Hc. cbn [Nat.add].
  assert ((z <? 32) = false) as E0 by (apply Z.ltb_ge; lia). assert ((z + 1 <? 32) = false) as E0' by (apply Z.ltb_ge; lia).
  assert (u16 (z + 1) = z + 1) as E1 by (apply Z.mod_small; lia).
  unfold packed in Hp.
  destruct (Z.eqb_spec t 0) as [->|N0].
  { injection Hp as <- <-. cbn in Hb. destruct (m !! z) as [b|] eqn:M0; [|done]. injection Hb as <-.
    destruct Hx as [->|[->|[->| ->]]]; loads 6 4. }
  destruct (Z.eqb_spec t 1) as [->|N1].
  { injection Hp as <- <-. cbn in Hb. destruct (m !! z) as [b|] eqn:M0; [|done]. cbn in Hb. destruct (m !! (z + 1)) as [b1|] eqn:M1; [|done]. injection Hb as <-.
    assert (u16 (z + 1 + 1) = z + 2) as E2 by (rewrite u16_small; lia). destruct Hx as [->|[->|[->| ->]]]; loads 8 7. }
  destruct (Z.eqb_spec t 3) as [->|N3].
  { injection Hp as <- <-. cbn in Hb. destruct (m !! z) as [b|] eqn:M0; [|done]. cbn in Hb. destruct (m !! (z + 1)) as [b1|] eqn:M1; [|done]. cbn in Hb.
    destruct (m !! (z + 1 + 1)) as [b2|] eqn:M2; [|done]. cbn in Hb. destruct (m !! (z + 1 + 1 + 1)) as [b3|] eqn:M3; [|done]. injection Hb as <-.
    assert ((z + 1 + 1 <? 32) = false) as F2 by (apply Z.ltb_ge; lia). assert ((z + 1 + 1 + 1 <? 32) = false) as F3 by (apply Z.ltb_ge; lia).
    assert (u16 (z + 1 + 1) = z + 1 + 1) as E2 by (apply Z.mod_small; lia).
    assert (u16 (z + 1 + 1 + 1) = z + 1 + 1 + 1) as E3 by (apply Z.mod_small; lia). assert (u16 (z + 1 + 1 + 1 + 1) = z + 4) as E4 by (rewrite u16_small; lia).
    destruct Hx as [->|[->|[->| ->]]]; [loads 10 11..|by cbn in Hk]. }
  assert (t = 4 \/ t = 6) as Ht46 by (destruct (Z.eqb_spec t 4), (Z.eqb_spec t 6); auto; done).
  assert (k = 2%nat /\ step = 8) as [-> ->] by (destruct Ht46 as [-> | ->]; by simplify_eq/=).
  cbn in Hb. destruct (m !! z) as [b|] eqn:M0; [|done]. cbn in Hb. destruct (m !! (z + 1)) as [b1|] eqn:M1; [|done]. injection Hb as <-.
  assert (u16 (z + 1 + 1) = z + 1 + 1) as E2 by (apply Z.mod_small; lia).
  assert (u16 (z + 1 + 1 + 6) = z + 8) as E3 by (rewrite u16_small; lia).
  destruct Ht46 as [-> | ->], Hx as [->|[->|[->| ->]]]; [loads 12 9..|loads 14 8|loads 14 8|loads 14 8|loads 14 8].
Qed.

Lemma agree_fill bs : forall r f g, agree f g -> agree (fill r bs f) (fill r bs g).
Proof.
  induction bs as [|b bs IH]; intros r f g H; [exact H|]. cbn [fill]. apply IH. intros q Hq. unfold upd. by rewrite (H q Hq).
Qed.
Lemma agree_trans f g h : agree f g -> agree g h -> agree f h.
Proof. intros H1 H2 r Hr. by rewrite H1, H2. Qed.

Lemma slot_packed t k step : packed t = Some (k, step) -> (slot k = 2 \/ slot k = 4) /\ 0 < step <= 8.
Proof. unfold packed. intros H. repeat case_match; simplify_eq; vm_compute; intuition discriminate. Qed.
Lemma unpack_reach m : forall n t a x f f2 x2 a2, unpack m n t a x f = Some (f2, x2, a2) -> x2 <= x.
Proof.
  induction n as [|n IH]; intros t a x f f2 x2 a2 H; cbn in H; [simplify_eq; lia|].
  destruct (packed (t mod 8)) as [[k step]|] eqn:Hp; [|done]. cbn in H. destruct (bytes_at m a k) as [bs|]; [|done]. cbn in H.
  apply IH in H. destruct (slot_packed _ _ _ Hp) as [? _]. lia.
Qed.
Lemma nibble t l q : (0 < q)%nat -> l mod 16 ^ Z.of_nat q = t mod 16 ^ Z.of_nat q -> l mod 8 = t mod 8.
Proof.
  intros Hq H. replace (16 ^ Z.of_nat q) with (8 * (2 * 16 ^ Z.of_nat (pred q))) in H.
  2: { rewrite Z.mul_assoc. change (8 * 2) with 16. rewrite <- Z.pow_succ_r by lia. f_equal. lia. }
  set (w := 2 * 16 ^ Z.of_nat (pred q)) in *. assert (0 < w) by (unfold w; pose proof (Z.pow_pos_nonneg 16 (Z.of_nat (pred q))); lia).
  rewrite !Z.rem_mul_r in H by lia.
  pose proof (f_equal (fun v => v mod 8) H) as E. cbn beta in E.
  rewrite !(Z.mul_comm 8), !Z.mod_add, !Z.mod_mod in E by lia. exact E.
Qed.
Lemma nibbles_next l l' t q : (q < 4)%nat -> l' mod 2 ^ 12 = l / 16 ->
  l mod 16 ^ Z.of_nat (S q) = t mod 16 ^ Z.of_nat (S q) -> l' mod 16 ^ Z.of_nat q = (t / 16) mod 16 ^ Z.of_nat q.
Proof.
  intros Hq Hl H. destruct q as [|[|[|[|q]]]]; [| | | |lia]; cbn [Z.of_nat Pos.of_succ_nat Pos.succ] in *; change (2 ^ 12) with 4096 in Hl;
    Z.to_euclidean_division_equations; lia.
Qed.

(** All arguments; [q] nibbles of types are there, [n] of them are used. *)
Lemma avr_args_phase fuel m st calls pc : forall n q t z x g f zf c g2 x2 z2 rest,
  unpack m n t z x g = Some (g2, x2, z2) -> agree f g -> x mod 2 = 1 -> x <= 25 -> 17 <= x2 -> (n <= q <= 4)%nat ->
  (256 * f argt_h + f argt_l) mod 16 ^ Z.of_nat q = t mod 16 ^ Z.of_nat q -> 0 <= f argt_h < 256 -> 0 <= f argt_l < 256 ->
  f argc = Z.of_nat n + rest -> 0 <= rest < 128 -> 32 <= z -> z + 8 * Z.of_nat n + 8 < 65536 ->
  exists f' zf' c', run_ (3 * n + fuel) (gcode g_load) (GState f x z zf c st m calls pc) = run_ fuel (gcode g_load) (GState f' x2 z2 zf' c' st m calls pc) /\
    agree f' g2 /\ f' argc = rest /\ f' retv = f retv /\ spared f f' /\
    (256 * f' argt_h + f' argt_l) mod 16 ^ Z.of_nat (q - n) = (t / 16 ^ Z.of_nat n) mod 16 ^ Z.of_nat (q - n) /\ 0 <= f' argt_l < 256.
Proof.
  induction n as [|n IH]; intros q t z x g f zf c g2 x2 z2 rest Hu Hg Hx Hx25 Hx2 Hq Ht Hh Hl Hc Hr Hz Hz2.
  { cbn in Hu. simplify_eq. exists f, zf, c. cbn [Z.of_nat]. rewrite Nat.sub_0_r, Z.pow_0_r, Z.div_1_r. split_and!; try done; lia. }
  cbn [unpack] in Hu. destruct (packed (t mod 8)) as [[k step]|] eqn:Hp; [|done]. cbn in Hu. destruct (bytes_at m z k) as [bs|] eqn:Hb; [|done]. cbn in Hu.
  pose proof (unpack_reach _ _ _ _ _ _ _ _ _ Hu) as Hreach. destruct (slot_packed _ _ _ Hp) as [Hs Hstep].
  assert (Z.land (f argt_l) 7 = t mod 8) as Ht8.
  { change 7 with (Z.ones 3). rewrite Z.land_ones by lia. change (2 ^ 3) with 8. rewrite <- (nibble t _ q ltac:(lia) Ht). clear. Z.to_euclidean_division_equations; lia. }
  replace (3 * S n + fuel)%nat with (2 + (1 + (3 * n + fuel)))%nat by lia.
  destruct (avr_load_phase (1 + (3 * n + fuel)) f x z zf c st m calls pc _ k step bs ltac:(lia) Ht8 Hp Hb ltac:(lia) ltac:(lia)) as (f1 & z1 & c1 & H1 & A1 & K1);
    [clear -Hx Hs Hx2 Hreach Hx25; destruct Hs as [E|E]; rewrite E in Hreach; Z.to_euclidean_division_equations; lia|lia|]. rewrite H1.
  assert (f1 retv = f retv /\ f1 argc = f argc /\ f1 argt_l = f argt_l /\ f1 argt_h = f argt_h) as (R1 & C1 & L1 & T1)
    by (split_and!; apply K1; unfold untouched, retv, argc, argt_l, argt_h; lia).
  destruct (avr_done_phase (3 * n + fuel) f1 (x - slot k) (z + step) z1 c1 st m calls pc) as (f3 & z3 & c3 & H3 & A3 & R3 & C3 & B3 & D3 & T3); [lia|lia|lia|].
  cbn [Nat.add] in H3 |- *. rewrite H3. rewrite T1, L1 in T3.
  destruct q as [|q]; [lia|]. pose proof (nibbles_next _ _ t q ltac:(lia) T3 Ht) as Ht'.
  assert (agree f3 (fill (x + 1 - slot k) bs g)) as Hg3.
  { eapply agree_trans; [|apply agree_fill, Hg]. eapply agree_trans; [|exact A1]. intros r Hr'. apply A3. lia. }
  assert ((x - slot k) mod 2 = 1) as Hx' by (clear -Hx Hs; destruct Hs as [-> | ->]; Z.to_euclidean_division_equations; lia).
  destruct (IH q (t / 16) (z + step) (x - slot k) _ f3 z3 c3 g2 x2 z2 rest Hu Hg3 Hx' ltac:(lia) Hx2 ltac:(lia) Ht' B3 D3 ltac:(lia) Hr ltac:(lia) ltac:(lia))
    as (f4 & z4 & c4 & H4 & A4 & C4 & R4 & S4 & T4 & L4).
  exists f4, z4, c4. rewrite H4. split; [done|]. split; [done|]. split; [done|]. split; [congruence|]. split.
  { intros r Hr'. rewrite (S4 r Hr'), A3 by (unfold saved in Hr'; lia). apply K1. unfold saved, untouched in *. lia. }
  split; [|done].
  cbn [Nat.sub]. rewrite T4. f_equal. rewrite Z.div_div by lia. f_equal. rewrite <- Z.pow_succ_r by lia. f_equal. lia.
Qed.

(** The call. *)
Lemma avr_call_phase fuel f x z zf c lo hi st m calls pc res m' :
  f argc = 0 -> 0 <= lo < 256 -> callee (256 * hi + lo, args_of f) m = (res, m') ->
  exists f' zf' c', run_ (S fuel) (gcode g_load) (GState f x z zf c (lo :: hi :: st) m calls pc) =
    run_ fuel (gcode g_ret_8) (GState (upd 16 (Z.land (f retv) 7) f') (clobber XL) (clobber ZL) zf' c' st m' (calls ++ [(256 * hi + lo, args_of f)]) pc) /\
    agree f' res /\ spared f f' /\ f' retv = f retv.
Proof.
  intros Hc Hlo He. unfold argc in Hc. assert ((f 3 =? 0) = true) as E0 by (by rewrite Hc).
  assert ((z - z mod 256 + lo) mod 256 + 256 * hi = 256 * hi + lo) as Ez by (clear -Hlo; Z.to_euclidean_division_equations; lia).
  do 3 eexists. split.
  { gopen. do 2 gstep. gopen. do 2 gstep. erewrite grun_next.
    2: { cbn -[Z.modulo Z.mul]. rewrite Ez. cbn -[Z.mul] in He. rewrite He. reflexivity. }
    do 2 gstep. rewrite grun_at. reflexivity. }
  split; [at_regs; reflexivity|]. split; [|reflexivity].
  intros r Hr. unfold saved in Hr. rewrite !upd_ne by lia.
  rewrite (proj2 (andb_false_iff _ _)), (proj2 (Z.eqb_neq r 0)) by (rewrite ?Z.leb_gt; lia). reflexivity.
Qed.

Ltac gto :=
  lazymatch goal with
  | |- grun _ _ _ (gcode g_done) _ = _ => reflexivity
  | |- grun _ _ _ (GAt g_done :: _) _ = _ => rewrite grun_at; reflexivity
  | |- grun _ _ _ (gcode _) _ = _ => gopen; gto
  | |- _ => gstep; gto
  end.

(** The bytes of the result by the return type. *)
Lemma avr_ret_phase fuel t f x z zf c st m calls pc :
  0 <= t < 8 ->
  exists fuel' f' zf' c', run_ (7 + fuel) (gcode g_ret_8) (GState (upd 16 t f) x z zf c st m calls pc) = run_ fuel' (gcode g_done) (GState f' x z zf' c' st m calls pc) /\
    args_of f' = answer t f /\ spared f f' /\ f' retv = f retv.
Proof.
  intros Ht. cbn [Nat.add].
  assert (t = 0 \/ t = 1 \/ t = 2 \/ t = 3 \/ t = 4 \/ t = 5 \/ t = 6 \/ t = 7) as [->|[->|[->|[->|[->|[->|[->| ->]]]]]]] by lia;
    (do 4 eexists; split; [gto | split; [reflexivity | split; [|reflexivity]]]; intros r Hr; unfold saved in Hr; cbn [g_file]; rewrite !upd_ne by lia; reflexivity).
Qed.

(** The way out. *)
Lemma avr_leave_phase fuel f x z zf c s5 s4 s3 hi lo st m calls pc :
  exists f', run_ fuel (gcode g_done) (GState f x z zf c (s5 :: s4 :: s3 :: hi :: lo :: st) m calls pc) = Ok (GState f' x z zf c st m calls (256 * hi + lo)) /\
    args_of f' = args_of f /\ spared f f' /\ f' retv = f retv /\ f' argc = s3 /\ f' argt_l = s4 /\ f' argt_h = s5.
Proof.
  eexists. split; [gopen; do 4 gstep; reflexivity|]. split; [reflexivity|]. split; [|done].
  intros r Hr. unfold saved in Hr. cbn [g_file]. rewrite !upd_ne by lia. reflexivity.
Qed.

(** The way in. *)
Lemma avr_entry_phase fuel f x z zf c st m :
  (forall r, 0 <= f r < 256) ->
  exists f' zf' c', run_ fuel fmr_call (GState f x z zf c st m [] 0) =
    run_ fuel (gcode g_load) (GState f' 25 (256 * f 17 + f 16) zf' c' (f 24 :: f 25 :: f 5 :: f 4 :: f 3 :: st) m [] 0) /\
    agree f' f /\ spared f f' /\ f' retv = f 22 /\ f' argc = f 20 /\ f' argt_l = f 18 /\ f' argt_h = f 19.
Proof.
  intros Hf. pose proof (Hf 16) as H16.
  assert ((z - z mod 256 + f 16) mod 256 + 256 * f 17 = 256 * f 17 + f 16) as Ez by (clear -H16; Z.to_euclidean_division_equations; lia).
  assert (x mod 256 + 256 * 0 - (x mod 256 + 256 * 0) mod 256 + 25 = 25) as Ex by (Z.to_euclidean_division_equations; lia).
  do 3 eexists. split.
  { let c := eval vm_compute in fmr_call in change fmr_call with c at 1. do 12 gstep. rewrite Ex, Ez. reflexivity. }
  split; [at_regs; reflexivity|]. split; [|done]. intros r Hr. unfold saved in Hr. rewrite !upd_ne by lia. reflexivity.
Qed.

Lemma agree_args f g : agree f g -> args_of f = args_of g.
Proof. intros H. unfold args_of. cbn [map]. by rewrite !H by lia. Qed.
Lemma agree_answer t f g : agree f g -> answer t f = answer t g.
Proof. intros H. unfold answer. rewrite (agree_args f g H). by rewrite !H by lia. Qed.
Lemma land_7 a : Z.land a 7 = a mod 8.
Proof. change 7 with (Z.ones 3). by rewrite Z.land_ones. Qed.
Lemma answer_low ret f : answer (Z.land ret 7) f = answer ret f.
Proof. unfold answer. by rewrite land_7, Z.mod_mod. Qed.
Lemma spared_trans f g h : spared f g -> spared g h -> spared f h.
Proof. intros H1 H2 r Hr. by rewrite H2, H1. Qed.

(** An argument of another type. *)
Lemma avr_fail_phase fuel f x z zf c st m calls pc :
  f argc <> 0 -> packed (Z.land (f argt_l) 7) = None ->
  exists fuel' f' zf' c', run_ (2 + fuel) (gcode g_load) (GState f x z zf c st m calls pc) = run_ fuel' (gcode g_done) (GState f' x z zf' c' st m calls pc) /\
    args_of f' = repeat 255 8.
Proof.
  intros Hc Hp. unfold argc, argt_l in *. apply Z.eqb_neq in Hc. cbn [Nat.add].
  assert (0 <= Z.land (f 4) 7 < 8) as Hr by (rewrite land_7; apply Z.mod_pos_bound; lia).
  assert (Z.land (f 4) 7 = 0 \/ Z.land (f 4) 7 = 1 \/ Z.land (f 4) 7 = 2 \/ Z.land (f 4) 7 = 3 \/ Z.land (f 4) 7 = 4 \/ Z.land (f 4) 7 = 5 \/ Z.land (f 4) 7 = 6 \/ Z.land (f 4) 7 = 7)
    as [E|[E|[E|[E|[E|[E|[E|E]]]]]]] by lia; rewrite E in Hp; try discriminate Hp; clear Hr Hp; do 4 eexists; (split; [gto|reflexivity]).
Qed.

(** The arguments of the trampoline: a register file of bytes whose parameters have
    [n] packed arguments in reach, and what the calling convention makes of them. *)
Definition params (f : gfile) (m : gmem) (n : nat) (g : gfile) : Prop :=
  (forall r, 0 <= f r < 256) /\ (n <= 4)%nat /\ let a := 256 * f 17 + f 16 in 32 <= a /\ a + 8 * Z.of_nat n + 8 < 65536 /\
  exists x a', unpack m n (256 * f 19 + f 18) a 25 f = Some (g, x, a') /\ 17 <= x.
End Rounds.

(** C10: [fmr_call] with at most four arguments that fit r18 to r25: the function is
    called once, with the registers the calling convention gives its arguments; the
    trampoline then returns to its caller with the stack as before the call, and
    r18 to r25 hold the result by the return type. An 8- or 16-bit result is never
    sign-extended, the fifth byte of a 32-bit one repeats its lowest, and r2, which
    a function must preserve, is lost. *)
Theorem fmr_call_avr callee clobber fuel f x z zf c hi lo st m n g res m' :
  params f m n g -> f 20 = Z.of_nat n -> let fn := 256 * f 25 + f 24 in callee (fn, args_of g) m = (res, m') ->
  exists s', grun callee clobber (3 * n + 8 + fuel) fmr_call (GState f x z zf c (hi :: lo :: st) m [] 0) = Ok s' /\
    g_calls s' = [(fn, args_of g)] /\ g_pc s' = 256 * hi + lo /\ g_stack s' = st /\ g_mem s' = m' /\
    args_of (g_file s') = answer (f 22) res /\ spared f (g_file s') /\
    g_file s' argc = f argc /\ g_file s' argt_l = f argt_l /\ g_file s' argt_h = f argt_h /\ g_file s' retv = f 22.
Proof.
  intros (Hf & Hn & Ha & Ha2 & x2 & a2 & Hu & Hx2) Hc fn He.
  destruct (avr_entry_phase callee clobber (3 * n + 8 + fuel) f x z zf c (hi :: lo :: st) m Hf) as (f1 & z1 & c1 & H1 & A1 & S1 & R1 & C1 & L1 & T1). rewrite H1.
  destruct (avr_args_phase callee clobber (8 + fuel) m (f 24 :: f 25 :: f 5 :: f 4 :: f 3 :: hi :: lo :: st) [] 0 n 4 _ _ 25 f f1 z1 c1 g x2 a2 0 Hu A1)
    as (f3 & z3 & c3 & H3 & A3 & C3 & R3 & S3 & _ & _); [done|lia|done|lia|by rewrite T1, L1|rewrite T1; apply Hf|rewrite L1; apply Hf|lia|lia|lia|lia|].
  replace (3 * n + 8 + fuel)%nat with (3 * n + (8 + fuel))%nat by lia. rewrite H3, <- (agree_args _ _ A3) in *.
  destruct (avr_call_phase callee clobber (7 + fuel) f3 x2 a2 z3 c3 (f 24) (f 25) (f 5 :: f 4 :: f 3 :: hi :: lo :: st) m [] 0 res m' C3 (Hf 24) He)
    as (f4 & z4 & c4 & H4 & A4 & S4 & R4). change (8 + fuel)%nat with (S (7 + fuel)). rewrite H4.
  destruct (avr_ret_phase callee clobber fuel (Z.land (f3 retv) 7) f4 (clobber XL) (clobber ZL) z4 c4 (f 5 :: f 4 :: f 3 :: hi :: lo :: st) m' [(fn, args_of f3)] 0)
    as (fuel5 & f5 & z5 & c5 & H5 & A5 & S5 & R5); [rewrite land_7; apply Z.mod_pos_bound; lia|]. unfold fn in H5. cbn [app]. rewrite H5.
  destruct (avr_leave_phase callee clobber fuel5 f5 (clobber XL) (clobber ZL) z5 c5 (f 5) (f 4) (f 3) hi lo st m' [(fn, args_of f3)] 0)
    as (f6 & H6 & A6 & S6 & R6 & C6 & L6 & T6). unfold fn in H6. eexists. split; [exact H6|]. cbn [g_calls g_pc g_stack g_mem g_file].
  split; [done|]. split; [done|]. split; [done|]. split; [done|].
  split; [rewrite A6, A5, answer_low, R3, R1; by apply agree_answer|].
  split; [eauto using spared_trans|]. split_and!; [done|done|done|congruence].
Qed.

(** C13: An argument of a type that is not supported (void, the reserved type, or a 64-bit
    integer) after [n] others: no function is called, the result is all ones, but the
    address of the function is still on the stack, so that the trampoline returns to
    the address made of its caller's r4 and r3. *)
Theorem fmr_call_avr_fails callee clobber fuel f x z zf c st m n g :
  params f m n g -> Z.of_nat n < f 20 < 128 -> (n < 4)%nat -> packed ((256 * f 19 + f 18) / 16 ^ Z.of_nat n mod 8) = None ->
  exists s', grun callee clobber (3 * n + 2 + fuel) fmr_call (GState f x z zf c st m [] 0) = Ok s' /\
    g_calls s' = [] /\ g_pc s' = 256 * f 4 + f 3 /\ g_stack s' = st /\ args_of (g_file s') = repeat 255 8.
Proof.
  intros (Hf & Hn & Ha & Ha2 & x2 & a2 & Hu & Hx2) Hc Hn4 Hp.
  destruct (avr_entry_phase callee clobber (3 * n + 2 + fuel) f x z zf c st m Hf) as (f1 & z1 & c1 & H1 & A1 & S1 & R1 & C1 & L1 & T1). rewrite H1.
  destruct (avr_args_phase callee clobber (2 + fuel) m (f 24 :: f 25 :: f 5 :: f 4 :: f 3 :: st) [] 0 n 4 _ _ 25 f f1 z1 c1 g x2 a2 (f 20 - Z.of_nat n) Hu A1)
    as (f3 & z3 & c3 & H3 & A3 & C3 & R3 & S3 & T3 & L3); [done|lia|done|lia|by rewrite T1, L1|rewrite T1; apply Hf|rewrite L1; apply Hf|lia|lia|lia|lia|].
  replace (3 * n + 2 + fuel)%nat with (3 * n + (2 + fuel))%nat by lia. rewrite H3.
  assert (packed (Z.land (f3 argt_l) 7) = None) as Hp3.
  { rewrite <- Hp, <- (nibble _ _ (4 - n) ltac:(lia) T3), land_7. f_equal. clear. Z.to_euclidean_division_equations; lia. }
  destruct (avr_fail_phase callee clobber fuel f3 x2 a2 z3 c3 (f 24 :: f 25 :: f 5 :: f 4 :: f 3 :: st) m [] 0 ltac:(lia) Hp3) as (fuel4 & f4 & z4 & c4 & H4 & A4). rewrite H4.
  destruct (avr_leave_phase callee clobber fuel4 f4 x2 a2 z4 c4 (f 24) (f 25) (f 5) (f 4) (f 3) st m [] 0) as (f6 & H6 & A6 & _).
  eexists. split; [exact H6|]. cbn [g_calls g_pc g_stack g_file]. split; [done|]. split; [done|]. split; [done|]. by rewrite A6.
Qed.

(** A caller with two arguments, a 16-bit integer and a byte, at address 512; the
    function at 4660 answers a 32-bit value. *)
Definition sample_caller (types : Z) : gfile :=
  upd 25 0x12 (upd 24 0x34 (upd 22 3 (upd 20 2 (upd 19 0 (upd 18 types (upd 17 2 (upd 16 0 (upd 4 0x56 (upd 3 0x78 (fun _ => 0)))))))))).
Definition sample_packed : gmem := <[512 := 0xcd]> (<[513 := 0xab]> (<[514 := 9]> ∅)).
Definition sample_callee (e : gcall) (m : gmem) : gfile * gmem := (fun r => r, m).

Lemma upd_byte r v (f : gfile) : 0 <= v < 256 -> (forall q, 0 <= f q < 256) -> forall q, 0 <= upd r v f q < 256.
Proof. intros Hv Hf q. unfold upd. by destruct (q =? r). Qed.
Lemma sample_bytes t : 0 <= t < 256 -> forall r, 0 <= sample_caller t r < 256.
Proof. intros Ht. unfold sample_caller. repeat (apply upd_byte; [lia|]). lia. Qed.
Lemma sample_params t n g x a : 0 <= t < 256 -> (n <= 4)%nat -> unpack sample_packed n t 512 25 (sample_caller t) = Some (g, x, a) -> 17 <= x ->
  params (sample_caller t) sample_packed n g.
Proof.
  intros Ht Hn Hu Hx. split; [by apply sample_bytes|]. split; [done|]. cbv zeta. change (256 * sample_caller t 17 + sample_caller t 16) with 512.
  split; [lia|]. split; [lia|]. change (256 * sample_caller t 19 + sample_caller t 18) with t. by exists x, a.
Qed.

Definition sample_placed (t : Z) : gfile := upd 22 9 (upd 25 0xab (upd 24 0xcd (sample_caller t))).

Lemma fmr_call_avr_witness :
  exists s', grun sample_callee (fun _ => 0) 14 fmr_call (GState (sample_caller 1) 0 0 false 0 [0xaa; 0xbb; 1] sample_packed [] 0) = Ok s' /\
    g_calls s' = [(0x1234, [1; 0; 2; 0; 9; 0; 0xcd; 0xab])] /\ g_pc s' = 0xaabb /\ g_stack s' = [1] /\ g_mem s' = sample_packed /\
    args_of (g_file s') = [22; 23; 24; 25; 22; 0; 0; 0].
Proof.
  destruct (fmr_call_avr sample_callee (fun _ => 0) 0 (sample_caller 1) 0 0 false 0 0xaa 0xbb [1] sample_packed 2 (sample_placed 1) (fun r => r) sample_packed)
    as (s' & H1 & H2 & H3 & H4 & H5 & H6 & _).
  - eapply sample_params; [lia|lia|vm_compute; reflexivity|lia].
  - reflexivity.
  - reflexivity.
  - exists s'. split; [exact H1|]. split; [exact H2|]. split; [exact H3|]. split; [exact H4|]. split; [exact H5|exact H6].
Defined.

(** The same with a 64-bit second argument. *)
Lemma fmr_call_avr_fails_witness :
  exists s', grun sample_callee (fun _ => 0) 5 fmr_call (GState (sample_caller 0x71) 0 0 false 0 [0xaa; 0xbb; 1] sample_packed [] 0) = Ok s' /\
    g_calls s' = [] /\ g_pc s' = 0x5678 /\ g_stack s' = [0xaa; 0xbb; 1] /\ args_of (g_file s') = repeat 255 8.
Proof.
  apply (fmr_call_avr_fails sample_callee (fun _ => 0) 0 (sample_caller 0x71) 0 0 false 0 [0xaa; 0xbb; 1] sample_packed 1
    (upd 25 0xab (upd 24 0xcd (sample_caller 0x71)))).
  - eapply sample_params; [lia|lia|vm_compute; reflexivity|lia].
  - split; reflexivity.
  - lia.
  - reflexivity.
Defined.
