(* ===== verification/TrampolineArm64.v ===== *)
(** * The call trampoline of the ARM64 port (os/arch/arm64/fmr.S)

    [_fmr_call] as the source's lines, labels included, with an interpreter; its
    entry is the first line, since the preprocessor replaces the label's own name
    by a register. The stack is a map of aligned doublewords, the rest of memory a
    map of bytes. The function called is a parameter: the two registers of its
    result and what it does to memory and to the stack. *)

From S2P Require Import Prelude.
From stdpp Require Import base list gmap sets.
From Stdlib Require Import ZArith Lia.
Local Open Scope Z_scope.

Inductive vreg := X0 | X1 | X2 | X3 | X4 | X18 | X19 | X20 | X21 | X22 | X23 | X24 | X25 | X26 | X27 | LR_ | XZR.
Inductive vlabel :=
| v_load | v_load_u8 | v_load_s8 | v_load_u16 | v_load_s16 | v_load_u32 | v_load_s32 | v_load_64 | v_load_done
| v_write_x0 | v_write_x1 | v_write_x2 | v_write_x3 | v_write_stack | v_write_done | v_call | v_ret
| v_ret_void | v_ret_u8 | v_ret_s8 | v_ret_u16 | v_ret_s16 | v_ret_u32 | v_ret_s32 | v_ret_64 | v_fail | v_call_done.
#[global] Instance vlabel_eq_dec : EqDecision vlabel.
Proof. solve_decision. Defined.

(** The instructions fmr.S uses, destination first. [STP] and [LDP] move a pair
    below and from the stack pointer, which they change by 16. [VLD n] loads [n]
    bytes into a register and clears the rest, [VLDS n] extends the sign; [SXT n]
    and [UXT n] extend the low [n] bytes of a register in place. *)
Inductive vinstr :=
| STP (a b : vreg) | LDP (a b : vreg) | VMOV (d s : vreg) | VMOVi (d : vreg) (imm : Z)
| VADD (d n m : vreg) | VADDi (d n : vreg) (imm : Z) | VSUBi (d n : vreg) (imm : Z) | VANDi (d n : vreg) (imm : Z)
| VCMPi (n : vreg) (imm : Z) | VBEQ (l : vlabel) | VB (l : vlabel)
| VLD (n : nat) (d base : vreg) | VLDS (n : nat) (d base : vreg) | SXT (n : Z) (d s : vreg) | UXT (n : Z) (d s : vreg)
| BLR (f : vreg) | VRET.
Inductive vline := VAt (l : vlabel) | VDo (i : vinstr).

Definition _function := X19.
Definition retv := X20.
Definition argc := X21.
Definition _fmr_call := X22.
Definition _argv := X18.
Definition argi := X23.
Definition temp := X24.
Definition arg_ptr := X25.
Definition type_ := X26.

Definition fmr_call : list vline :=
  [ VDo (STP _argv _function); VDo (STP retv argc); VDo (STP _fmr_call argi); VDo (STP temp arg_ptr); VDo (STP type_ X27); VDo (STP LR_ XZR);
    VDo (VMOV _function X0); VDo (VMOV retv X1); VDo (VMOV argc X2); VDo (VMOV _fmr_call X3); VDo (VMOV _argv X4); VDo (VMOVi argi 0);
    VAt v_load;
    VDo (VCMPi argc 0); VDo (VBEQ v_call);
    VDo (VLD 8 arg_ptr _argv); VDo (VADDi _argv _argv 24); VDo (VADDi arg_ptr arg_ptr 8);
    VDo (VADDi temp _fmr_call 4); VDo (VADD temp temp argi); VDo (VLD 1 type_ temp);
    VDo (VCMPi type_ 16); VDo (VBEQ v_load_u8);
    VDo (VCMPi type_ 24); VDo (VBEQ v_load_s8);
    VDo (VCMPi type_ 17); VDo (VBEQ v_load_u16);
    VDo (VCMPi type_ 25); VDo (VBEQ v_load_s16);
    VDo (VCMPi type_ 19); VDo (VBEQ v_load_u32);
    VDo (VCMPi type_ 27); VDo (VBEQ v_load_s32);
    VDo (VCMPi type_ 4); VDo (VBEQ v_load_64);
    VDo (VCMPi type_ 6); VDo (VBEQ v_load_64);
    VDo (VCMPi type_ 3); VDo (VBEQ v_load_64);
    VDo (VCMPi type_ 7); VDo (VBEQ v_load_64);
    VDo (VB v_fail);
    VAt v_load_u8; VDo (VLD 1 temp arg_ptr); VDo (VB v_load_done);
    VAt v_load_s8; VDo (VLDS 1 temp arg_ptr); VDo (VB v_load_done);
    VAt v_load_u16; VDo (VLD 2 temp arg_ptr); VDo (VB v_load_done);
    VAt v_load_s16; VDo (VLDS 2 temp arg_ptr); VDo (VB v_load_done);
    VAt v_load_u32; VDo (VLD 8 temp arg_ptr); VDo (VB v_load_done);
    VAt v_load_s32; VDo (VLDS 4 temp arg_ptr); VDo (VB v_load_done);
    VAt v_load_64; VDo (VLD 8 temp arg_ptr); VDo (VB v_load_done);
    VAt v_load_done;
    VDo (VCMPi argi 0); VDo (VBEQ v_write_x0);
    VDo (VCMPi argi 1); VDo (VBEQ v_write_x1);
    VDo (VCMPi argi 2); VDo (VBEQ v_write_x2);
    VDo (VCMPi argi 3); VDo (VBEQ v_write_x3);
    VDo (VB v_write_stack);
    VAt v_write_x0; VDo (VMOV X0 temp); VDo (VB v_write_done);
    VAt v_write_x1; VDo (VMOV X1 temp); VDo (VB v_write_done);
    VAt v_write_x2; VDo (VMOV X2 temp); VDo (VB v_write_done);
    VAt v_write_x3; VDo (VMOV X3 temp); VDo (VB v_write_done);
    VAt v_write_stack; VDo (VB v_fail);
    VAt v_write_done; VDo (VADDi argi argi 1); VDo (VSUBi argc argc 1); VDo (VB v_load);
    VAt v_call; VDo (BLR _function);
    VAt v_ret;
    VDo (VCMPi retv 2); VDo (VBEQ v_ret_void);
    VDo (VCMPi retv 16); VDo (VBEQ v_ret_u8);
    VDo (VCMPi retv 24); VDo (VBEQ v_ret_s8);
    VDo (VCMPi retv 17); VDo (VBEQ v_ret_u16);
    VDo (VCMPi retv 25); VDo (VBEQ v_ret_s16);
    VDo (VCMPi retv 19); VDo (VBEQ v_ret_u32);
    VDo (VCMPi retv 27); VDo (VBEQ v_ret_s32);
    VDo (VCMPi retv 4); VDo (VBEQ v_ret_64);
    VDo (VCMPi retv 6); VDo (VBEQ v_ret_64);
    VDo (VCMPi retv 3); VDo (VBEQ v_ret_64);
    VDo (VCMPi retv 7); VDo (VBEQ v_ret_64);
    VDo (VB v_fail);
    VAt v_ret_void; VDo (VMOVi X0 0); VDo (VMOVi X1 0); VDo (VB v_call_done);
    VAt v_ret_u8; VDo (VANDi X0 X0 0xFF); VDo (VB v_call_done);
    VAt v_ret_s8; VDo (SXT 1 X0 X0); VDo (VB v_call_done);
    VAt v_ret_u16; VDo (VANDi X0 X0 0xFFFF); VDo (VB v_call_done);
    VAt v_ret_s16; VDo (SXT 2 X0 X0); VDo (VB v_call_done);
    VAt v_ret_u32; VDo (UXT 4 X0 X0); VDo (VB v_call_done);
    VAt v_ret_s32; VDo (SXT 4 X0 X0); VDo (VB v_call_done);
    VAt v_ret_64; VDo (VB v_call_done);
    VAt v_fail; VDo (VMOVi X0 (-1)); VDo (VMOVi X1 (-1));
    VAt v_call_done;
    VDo (LDP LR_ XZR); VDo (LDP type_ X27); VDo (LDP temp arg_ptr); VDo (LDP _fmr_call argi); VDo (LDP retv argc); VDo (LDP _argv _function);
    VDo VRET ].

(** ** The machine *)

Record vfile := VFile {
  v_x0 : Z; v_x1 : Z; v_x2 : Z; v_x3 : Z; v_x4 : Z; v_x18 : Z; v_x19 : Z; v_x20 : Z; v_x21 : Z; v_x22 : Z;
  v_x23 : Z; v_x24 : Z; v_x25 : Z; v_x26 : Z; v_x27 : Z; v_lr : Z; v_sp : Z;
}.
Definition vget (f : vfile) (r : vreg) : Z :=
  match r with
  | X0 => v_x0 f | X1 => v_x1 f | X2 => v_x2 f | X3 => v_x3 f | X4 => v_x4 f | X18 => v_x18 f | X19 => v_x19 f | X20 => v_x20 f
  | X21 => v_x21 f | X22 => v_x22 f | X23 => v_x23 f | X24 => v_x24 f | X25 => v_x25 f | X26 => v_x26 f | X27 => v_x27 f | LR_ => v_lr f | XZR => 0
  end.
Definition vset (r : vreg) (v : Z) (f : vfile) : vfile :=
  let '(VFile a b c d e g h i j k l m n o p q s) := f in
  match r with
  | X0 => VFile v b c d e g h i j k l m n o p q s
  | X1 => VFile a v c d e g h i j k l m n o p q s
  | X2 => VFile a b v d e g h i j k l m n o p q s
  | X3 => VFile a b c v e g h i j k l m n o p q s
  | X4 => VFile a b c d v g h i j k l m n o p q s
  | X18 => VFile a b c d e v h i j k l m n o p q s
  | X19 => VFile a b c d e g v i j k l m n o p q s
  | X20 => VFile a b c d e g h v j k l m n o p q s
  | X21 => VFile a b c d e g h i v k l m n o p q s
  | X22 => VFile a b c d e g h i j v l m n o p q s
  | X23 => VFile a b c d e g h i j k v m n o p q s
  | X24 => VFile a b c d e g h i j k l v n o p q s
  | X25 => VFile a b c d e g h i j k l m v o p q s
  | X26 => VFile a b c d e g h i j k l m n v p q s
  | X27 => VFile a b c d e g h i j k l m n o v q s
  | LR_ => VFile a b c d e g h i j k l m n o p v s
  | XZR => f
  end.
Definition vset_sp (v : Z) (f : vfile) : vfile :=
  let '(VFile a b c d e g h i j k l m n o p q _) := f in VFile a b c d e g h i j k l m n o p q v.

Abbreviation vmem := (gmap Z Z).
(** A call: the function and its first four argument registers. *)
Abbreviation vcall := (Z * (Z * Z * Z * Z))%type.
Record vstate := VState { vs_file : vfile; vs_zero : bool; vs_stack : vmem; vs_bytes : vmem; vs_calls : list vcall; vs_pc : Z }.

(** [n] bytes from [a], little-endian; [sext n v] extends the sign of [n] bytes. *)
Fixpoint load_le (m : vmem) (a : Z) (n : nat) : option Z :=
  match n with O => Some 0 | S n => b ← m !! a; v ← load_le m (a + 1) n; Some (b + 2 ^ 8 * v) end.
Definition sext (n v : Z) : Z := u64 (sint (8 * n) v).

Fixpoint vfind (l : vlabel) (code : list vline) : option (list vline) :=
  match code with
  | [] => None
  | VAt l' :: code => if decide (l' = l) then Some code else vfind l code
  | VDo _ :: code => vfind l code
  end.

Inductive vnext := VNext (s : vstate) | VJump (l : vlabel) (s : vstate) | VExit (s : vstate) | VFault.

Section Machine.
(** What a function returns in x0 and x1, and the memory and stack it leaves. *)
Context (callee : vcall -> vmem -> vmem -> Z * Z * vmem * vmem).
(** What it leaves in the other registers it may use. *)
Context (clobber : vreg -> Z).

Definition vwith (f : vfile) (s : vstate) : vstate := VState f (vs_zero s) (vs_stack s) (vs_bytes s) (vs_calls s) (vs_pc s).
Definition vput (r : vreg) (v : Z) (s : vstate) : vnext := VNext (vwith (vset r v (vs_file s)) s).
Definition vscratch (f : vfile) : vfile := fold_right (fun r => vset r (clobber r)) f [X2; X3; X4; X18; LR_].

Definition vexec (i : vinstr) (s : vstate) : vnext :=
  let r := vget (vs_file s) in let sp := v_sp (vs_file s) in
  match i with
  | STP a b =>
    let p := u64 (sp - 16) in
    VNext (VState (vset_sp p (vs_file s)) (vs_zero s) (<[u64 (p + 8) := r b]> (<[p := r a]> (vs_stack s))) (vs_bytes s) (vs_calls s) (vs_pc s))
  | LDP a b =>
    match vs_stack s !! sp, vs_stack s !! u64 (sp + 8) with
    | Some x, Some y => VNext (vwith (vset_sp (u64 (sp + 16)) (vset b y (vset a x (vs_file s)))) s)
    | _, _ => VFault
    end
  | VMOV d x => vput d (r x) s
  | VMOVi d imm => vput d (u64 imm) s
  | VADD d n m => vput d (u64 (r n + r m)) s
  | VADDi d n imm => vput d (u64 (r n + imm)) s
  | VSUBi d n imm => vput d (u64 (r n - imm)) s
  | VANDi d n imm => vput d (Z.land (r n) imm) s
  | VCMPi n imm => VNext (VState (vs_file s) (r n =? imm) (vs_stack s) (vs_bytes s) (vs_calls s) (vs_pc s))
  | VBEQ l => if vs_zero s then VJump l s else VNext s
  | VB l => VJump l s
  | VLD n d base => match load_le (vs_bytes s) (r base) n with Some v => vput d v s | None => VFault end
  | VLDS n d base => match load_le (vs_bytes s) (r base) n with Some v => vput d (sext (Z.of_nat n) v) s | None => VFault end
  | SXT n d x => vput d (sext n (r x)) s
  | UXT n d x => vput d (r x mod 2 ^ (8 * n)) s
  | BLR f =>
    let e := (r f, (r X0, r X1, r X2, r X3)) in
    let '(v0, v1, m, st) := callee e (vs_bytes s) (vs_stack s) in
    VNext (VState (vset X0 v0 (vset X1 v1 (vscratch (vs_file s)))) (vs_zero s) st m (vs_calls s ++ [e]) (vs_pc s))
  | VRET => VExit (VState (vs_file s) (vs_zero s) (vs_stack s) (vs_bytes s) (vs_calls s) (r LR_))
  end.

(** Runs from a line; fuel counts branches taken. *)
Fixpoint vrun (fuel : nat) : list vline -> vstate -> outcome vstate :=
  fix lines (code : list vline) (s : vstate) : outcome vstate :=
    match code with
    | [] => Ub
    | VAt _ :: code => lines code s
    | VDo i :: code =>
      match vexec i s with
      | VNext s => lines code s
      | VExit s => Ok s
      | VFault => Ub
      | VJump l s =>
        match fuel, vfind l fmr_call with
        | O, _ => Spin
        | _, None => Ub
        | S fuel, Some code => vrun fuel code s
        end
      end
    end.
End Machine.

(** ** What it does *)

(** The value of an argument of type [t] at [a]: an unsigned 32-bit one is loaded
    with the four bytes behind it. *)
Definition arg_load (m : vmem) (t a : Z) : option Z :=
  if t =? 16 then load_le m a 1 else if t =? 24 then v ← load_le m a 1; Some (sext 1 v)
  else if t =? 17 then load_le m a 2 else if t =? 25 then v ← load_le m a 2; Some (sext 2 v)
  else if t =? 19 then load_le m a 8 else if t =? 27 then v ← load_le m a 4; Some (sext 4 v)
  else if (t =? 4) || (t =? 6) || (t =? 3) || (t =? 7) then load_le m a 8 else None.
Definition known_type (t : Z) : bool := existsb (Z.eqb t) [16; 24; 17; 25; 19; 27; 4; 6; 3; 7].

(** The [n] arguments from number [i] on: types from the bytes at [call + 4], items
    24 bytes apart from [argv], each value 8 bytes into its item. *)
Definition arg_item (m : vmem) (call argv i : Z) : option (Z * Z) :=
  item ← load_le m argv 8; t ← load_le m (u64 (u64 (call + 4) + i)) 1; Some (t, u64 (item + 8)).
Fixpoint values (m : vmem) (n : nat) (call argv i : Z) : option (list Z) :=
  match n with
  | O => Some []
  | S n =>
    '(t, a) ← arg_item m call argv i;
    v ← arg_load m t a;
    vs ← values m n call (u64 (argv + 24)) (i + 1);
    Some (v :: vs)
  end.

(** The result in x0 and x1 by the return type. *)
Definition answer (ret : Z) (v : Z * Z) : Z * Z :=
  let '(x, y) := v in
  if ret =? 2 then (0, 0) else if ret =? 16 then (Z.land x 0xFF, y) else if ret =? 24 then (sext 1 x, y)
  else if ret =? 17 then (Z.land x 0xFFFF, y) else if ret =? 25 then (sext 2 x, y)
  else if ret =? 19 then (x mod 2 ^ (8 * 4), y) else if ret =? 27 then (sext 4 x, y)
  else if (ret =? 4) || (ret =? 6) || (ret =? 3) || (ret =? 7) then (x, y) else (2 ^ 64 - 1, 2 ^ 64 - 1).

Abbreviation four := (Z * Z * Z * Z)%type.
Definition arg_regs (f : vfile) : four := (v_x0 f, v_x1 f, v_x2 f, v_x3 f).
Definition place (i v : Z) (r : four) : four :=
  let '(a, b, c, d) := r in
  if i =? 0 then (v, b, c, d) else if i =? 1 then (a, v, c, d) else if i =? 2 then (a, b, v, d) else (a, b, c, v).
Fixpoint places (i : Z) (vs : list Z) (r : four) : four := match vs with [] => r | v :: vs => places (i + 1) vs (place i v r) end.

Definition vcode (l : vlabel) : list vline := default [] (vfind l fmr_call).

Section Steps.
Context (callee : vcall -> vmem -> vmem -> Z * Z * vmem * vmem) (clobber : vreg -> Z).
Abbreviation run_ := (vrun callee clobber).
Abbreviation exec_ := (vexec callee clobber).

Lemma vrun_at fuel l code s : run_ fuel (VAt l :: code) s = run_ fuel code s.
Proof. by destruct fuel. Qed.
Lemma vrun_next fuel i code s s' : exec_ i s = VNext s' -> run_ fuel (VDo i :: code) s = run_ fuel code s'.
Proof. intros H. by destruct fuel; cbn [vrun]; rewrite H. Qed.
Lemma vrun_jump fuel i l code s s' :
  exec_ i s = VJump l s' -> is_Some (vfind l fmr_call) -> run_ (S fuel) (VDo i :: code) s = run_ fuel (vcode l) s'.
Proof. intros H [c Hl]. cbn [vrun]. unfold vcode. by rewrite H, Hl. Qed.
Lemma vrun_exit fuel i code s s' : exec_ i s = VExit s' -> run_ fuel (VDo i :: code) s = Ok s'.
Proof. intros H. by destruct fuel; cbn [vrun]; rewrite H. Qed.
End Steps.

(** Evaluates a line with the facts at hand, then steps over it; [vgo] opens the
    code at a label and runs up to the next jump taken. *)
Ltac vknown :=
  repeat match goal with
         | H : u64 _ = _ |- _ => rewrite H
         | H : (_ =? _) = _ |- _ => rewrite H
         | H : _ !! _ = Some _ |- _ => rewrite H
         | H : load_le _ _ _ = Some _ |- _ => rewrite H
         end.
Ltac vval := cbn -[u64 Z.add Z.sub Z.mul Z.eqb Z.land Z.modulo Z.pow lookup insert load_le sext]; vknown; reflexivity.
Ltac vopen := match goal with |- vrun _ _ _ (vcode ?l) _ = _ => let c := eval vm_compute in (vcode l) in change (vcode l) with c end.
Ltac vstep :=
  first [ rewrite vrun_at
        | erewrite vrun_next by vval
        | erewrite vrun_jump; [|vval|vm_compute; by eexists]
        | erewrite vrun_exit by vval ].
Ltac vgo := vopen; repeat vstep.

Section Rounds.
Context (callee : vcall -> vmem -> vmem -> Z * Z * vmem * vmem) (clobber : vreg -> Z).
Abbreviation run_ := (vrun callee clobber).

(** The load of one argument by its type. *)
Lemma arm64_load fuel t a v (f : vfile) z st m calls pc :
  v_x21 f <> 0 -> arg_item m (v_x22 f) (v_x18 f) (v_x23 f) = Some (t, a) -> arg_load m t a = Some v ->
  run_ (2 + fuel) (vcode v_load) (VState f z st m calls pc) =
    run_ fuel (vcode v_load_done) (VState (vset temp v (vset type_ t (vset arg_ptr a (vset _argv (u64 (v_x18 f + 24)) f)))) true st m calls pc).
Proof.
  intros Hk Hi Hv. destruct f as [x0 x1 x2 x3 x4 x18 x19 x20 x21 x22 x23 x24 x25 x26 x27 lr sp]. cbn [v_x18 v_x21 v_x22 v_x23 Nat.add] in *.
  assert ((x21 =? 0) = false) as E0 by (by apply Z.eqb_neq). unfold arg_item in Hi.
  apply bind_Some in Hi as (item & L1 & Hi). apply bind_Some in Hi as (t' & L2 & [= <- <-]).
  unfold arg_load in Hv.
  destruct (Z.eqb_spec t' 16) as [->|N]; [vgo; vgo; reflexivity|]. apply Z.eqb_neq in N as N16. clear N.
  destruct (Z.eqb_spec t' 24) as [->|N]; [apply bind_Some in Hv as (y & Ly & [= <-]); vgo; vgo; reflexivity|]. apply Z.eqb_neq in N as N24. clear N.
  destruct (Z.eqb_spec t' 17) as [->|N]; [vgo; vgo; reflexivity|]. apply Z.eqb_neq in N as N17. clear N.
  destruct (Z.eqb_spec t' 25) as [->|N]; [apply bind_Some in Hv as (y & Ly & [= <-]); vgo; vgo; reflexivity|]. apply Z.eqb_neq in N as N25. clear N.
  destruct (Z.eqb_spec t' 19) as [->|N]; [vgo; vgo; reflexivity|]. apply Z.eqb_neq in N as N19. clear N.
  destruct (Z.eqb_spec t' 27) as [->|N]; [apply bind_Some in Hv as (y & Ly & [= <-]); vgo; vgo; reflexivity|]. apply Z.eqb_neq in N as N27. clear N.
  destruct (Z.eqb_spec t' 4) as [->|N]; cbn [orb] in Hv; [vgo; vgo; reflexivity|]. apply Z.eqb_neq in N as N4. clear N.
  destruct (Z.eqb_spec t' 6) as [->|N]; cbn [orb] in Hv; [vgo; vgo; reflexivity|]. apply Z.eqb_neq in N as N6. clear N.
  destruct (Z.eqb_spec t' 3) as [->|N]; cbn [orb] in Hv; [vgo; vgo; reflexivity|]. apply Z.eqb_neq in N as N3. clear N.
  destruct (Z.eqb_spec t' 7) as [->|N]; cbn [orb] in Hv; [vgo; vgo; reflexivity|]. done.
Qed.

(** An argument of another type, and its way into a register; there are four. *)
Lemma arm64_bad_type fuel t a (f : vfile) z st m calls pc :
  v_x21 f <> 0 -> arg_item m (v_x22 f) (v_x18 f) (v_x23 f) = Some (t, a) -> known_type t = false ->
  exists f', run_ (1 + fuel) (vcode v_load) (VState f z st m calls pc) = run_ fuel (vcode v_fail) (VState f' false st m calls pc) /\ v_sp f' = v_sp f.
Proof.
  intros Hk Hi Hv. destruct f as [x0 x1 x2 x3 x4 x18 x19 x20 x21 x22 x23 x24 x25 x26 x27 lr sp]. cbn [v_x18 v_x21 v_x22 v_x23 v_sp Nat.add] in *.
  assert ((x21 =? 0) = false) as E0 by (by apply Z.eqb_neq). apply bind_Some in Hi as (item & L1 & Hi). apply bind_Some in Hi as (t' & L2 & [= <- <-]).
  unfold known_type in Hv. cbn [existsb] in Hv. repeat (apply orb_false_elim in Hv; destruct Hv as [? Hv]). eexists. split; [vgo; reflexivity|done].
Qed.

(** The registers the rounds leave alone. *)
Definition vkept (f f' : vfile) : Prop := v_x19 f' = v_x19 f /\ v_x20 f' = v_x20 f /\ v_x22 f' = v_x22 f /\ v_sp f' = v_sp f.

Lemma arm64_write fuel (f : vfile) z st m calls pc i :
  v_x23 f = i -> 0 <= i < 4 -> 0 < v_x21 f < 2 ^ 64 ->
  exists f', run_ (3 + fuel) (vcode v_load_done) (VState f z st m calls pc) = run_ fuel (vcode v_load) (VState f' true st m calls pc) /\
    arg_regs f' = place i (v_x24 f) (arg_regs f) /\ v_x21 f' = v_x21 f - 1 /\ v_x23 f' = i + 1 /\ v_x18 f' = v_x18 f /\ vkept f f'.
Proof.
  intros Hi Hr Hk. destruct f as [x0 x1 x2 x3 x4 x18 x19 x20 x21 x22 x23 x24 x25 x26 x27 lr sp]. cbn [v_x21 v_x23] in *. subst x23.
  assert (u64 (x21 - 1) = x21 - 1) as E1 by (apply u64_small; lia). assert (u64 (i + 1) = i + 1) as E2 by (apply u64_small; lia). cbn [Nat.add].
  assert (i = 0 \/ i = 1 \/ i = 2 \/ i = 3) as [-> | [-> | [-> | ->]]] by lia; eexists; (split; [vgo; vgo; vgo; reflexivity|done]).
Qed.
Lemma arm64_no_register fuel (f : vfile) z st m calls pc :
  4 <= v_x23 f -> exists f', run_ (2 + fuel) (vcode v_load_done) (VState f z st m calls pc) = run_ fuel (vcode v_fail) (VState f' false st m calls pc) /\ v_sp f' = v_sp f.
Proof.
  intros Hi. destruct f as [x0 x1 x2 x3 x4 x18 x19 x20 x21 x22 x23 x24 x25 x26 x27 lr sp]. cbn [v_x23 v_sp Nat.add] in *.
  assert ((x23 =? 0) = false) as E0 by (apply Z.eqb_neq; lia). assert ((x23 =? 1) = false) as E1 by (apply Z.eqb_neq; lia).
  assert ((x23 =? 2) = false) as E2 by (apply Z.eqb_neq; lia). assert ((x23 =? 3) = false) as E3 by (apply Z.eqb_neq; lia).
  eexists. split; [vgo; vgo; reflexivity|done].
Qed.

(** [n] arguments from number [i] on, of [k] that remain. *)
Lemma arm64_args fuel m st calls pc : forall n vs i f z,
  values m n (v_x22 f) (v_x18 f) i = Some vs -> Z.of_nat n <= v_x21 f < 2 ^ 64 -> v_x23 f = i -> 0 <= i -> i + Z.of_nat n <= 4 ->
  exists z' f', run_ (5 * n + fuel) (vcode v_load) (VState f z st m calls pc) = run_ fuel (vcode v_load) (VState f' z' st m calls pc) /\
    arg_regs f' = places i vs (arg_regs f) /\ v_x21 f' = v_x21 f - Z.of_nat n /\ v_x23 f' = i + Z.of_nat n /\
    v_x18 f' = Nat.iter n (fun a => u64 (a + 24)) (v_x18 f) /\ vkept f f'.
Proof.
  induction n as [|n IH]; intros vs i f z Hu Hc Hi Hi0 Hin; cbn [values] in Hu.
  { injection Hu as <-. exists z, f. cbn [places Nat.iter nat_rect]. split; [done|]. split; [done|]. split; [lia|]. split; [lia|]. split; [done|]. repeat split. }
  apply bind_Some in Hu as ([t a] & Hit & Hu). apply bind_Some in Hu as (v & Hv & Hu). apply bind_Some in Hu as (vs' & Hu & [= <-]).
  replace (5 * S n + fuel)%nat with (2 + (3 + (5 * n + fuel)))%nat by lia.
  rewrite (arm64_load _ t a v) by (first [by rewrite Hi|lia|done]).
  match goal with |- context [VState ?g true] => destruct (arm64_write (5 * n + fuel) g true st m calls pc i) as (f2 & H2 & A2 & C2 & I2 & V2 & K2) end;
    [by destruct f|lia|destruct f; cbn in *; lia|]. rewrite H2.
  destruct (IH vs' (i + 1) f2 true) as (z3 & f3 & H3 & A3 & C3 & I3 & V3 & K3).
  - destruct K2 as (_ & _ & -> & _). rewrite V2. destruct f; exact Hu.
  - rewrite C2. destruct f; cbn in *; lia.
  - done.
  - lia.
  - lia.
  - exists z3, f3. split; [exact H3|]. split; [rewrite A3, A2; by destruct f|]. split; [rewrite C3, C2; destruct f; cbn; lia|]. split; [rewrite I3; lia|].
    split; [rewrite V3, V2, Nat.iter_succ_r; by destruct f|]. destruct K2 as (k1 & k2 & k3 & k4), K3 as (l1 & l2 & l3 & l4).
    unfold vkept. rewrite l1, l2, l3, l4, k1, k2, k3, k4. by destruct f.
Qed.

(** The frame below the stack pointer [p] of the caller with registers [f]. *)
Definition vframe (f : vfile) (p : Z) (st : vmem) : vmem :=
  <[p - 88 := 0]> (<[p - 96 := v_lr f]> (<[p - 72 := v_x27 f]> (<[p - 80 := v_x26 f]> (<[p - 56 := v_x25 f]> (<[p - 64 := v_x24 f]>
  (<[p - 40 := v_x23 f]> (<[p - 48 := v_x22 f]> (<[p - 24 := v_x21 f]> (<[p - 32 := v_x20 f]> (<[p - 8 := v_x19 f]> (<[p - 16 := v_x18 f]> st))))))))))).
Definition holds_frame (f : vfile) (p : Z) (st : vmem) : Prop :=
  st !! (p - 96) = Some (v_lr f) /\ st !! (p - 88) = Some 0 /\ st !! (p - 80) = Some (v_x26 f) /\ st !! (p - 72) = Some (v_x27 f) /\
  st !! (p - 64) = Some (v_x24 f) /\ st !! (p - 56) = Some (v_x25 f) /\ st !! (p - 48) = Some (v_x22 f) /\ st !! (p - 40) = Some (v_x23 f) /\
  st !! (p - 32) = Some (v_x20 f) /\ st !! (p - 24) = Some (v_x21 f) /\ st !! (p - 16) = Some (v_x18 f) /\ st !! (p - 8) = Some (v_x19 f).
Lemma vframe_holds f p st : holds_frame f p (vframe f p st).
Proof. unfold holds_frame, vframe. repeat split; repeat first [rewrite lookup_insert_eq; reflexivity | rewrite lookup_insert_ne by lia]; done. Qed.

(** The way out: the caller's registers and stack pointer. *)
Definition restored (f f' : vfile) : Prop :=
  Forall (fun r => vget f' r = vget f r) [X18; X19; X20; X21; X22; X23; X24; X25; X26; X27; LR_] /\ v_sp f' = v_sp f.
Lemma arm64_leave fuel (f0 f : vfile) z st m calls pc p :
  v_sp f0 = p -> v_sp f = p - 96 -> 96 <= p < 2 ^ 64 -> holds_frame f0 p st ->
  exists f', run_ fuel (vcode v_call_done) (VState f z st m calls pc) = Ok (VState f' z st m calls (v_lr f0)) /\
    v_x0 f' = v_x0 f /\ v_x1 f' = v_x1 f /\ restored f0 f'.
Proof.
  intros H0 Hsp Hp (L1 & L2 & L3 & L4 & L5 & L6 & L7 & L8 & L9 & L10 & L11 & L12).
  destruct f as [x0 x1 x2 x3 x4 x18 x19 x20 x21 x22 x23 x24 x25 x26 x27 lr sp]. cbn [v_sp v_x0 v_x1] in *. subst sp.
  assert (u64 (p - 96 + 8) = p - 88) as E1 by (rewrite u64_small; lia). assert (u64 (p - 96 + 16) = p - 80) as E2 by (rewrite u64_small; lia).
  assert (u64 (p - 80 + 8) = p - 72) as E3 by (rewrite u64_small; lia). assert (u64 (p - 80 + 16) = p - 64) as E4 by (rewrite u64_small; lia).
  assert (u64 (p - 64 + 8) = p - 56) as E5 by (rewrite u64_small; lia). assert (u64 (p - 64 + 16) = p - 48) as E6 by (rewrite u64_small; lia).
  assert (u64 (p - 48 + 8) = p - 40) as E7 by (rewrite u64_small; lia). assert (u64 (p - 48 + 16) = p - 32) as E8 by (rewrite u64_small; lia).
  assert (u64 (p - 32 + 8) = p - 24) as E9 by (rewrite u64_small; lia). assert (u64 (p - 32 + 16) = p - 16) as E10 by (rewrite u64_small; lia).
  assert (u64 (p - 16 + 8) = p - 8) as E11 by (rewrite u64_small; lia). assert (u64 (p - 16 + 16) = p) as E12 by (rewrite u64_small; lia).
  eexists. split; [vgo; reflexivity|]. split; [done|]. split; [done|]. split; [by repeat constructor|by symmetry].
Qed.
Lemma arm64_fail fuel (f0 f : vfile) z st m calls pc p :
  v_sp f0 = p -> v_sp f = p - 96 -> 96 <= p < 2 ^ 64 -> holds_frame f0 p st ->
  exists s', run_ fuel (vcode v_fail) (VState f z st m calls pc) = Ok s' /\ vs_calls s' = calls /\ vs_pc s' = v_lr f0 /\ vs_bytes s' = m /\
    (v_x0 (vs_file s'), v_x1 (vs_file s')) = (2 ^ 64 - 1, 2 ^ 64 - 1) /\ restored f0 (vs_file s').
Proof.
  intros H0 Hsp Hp Hf. destruct (arm64_leave fuel f0 (vset X1 (2 ^ 64 - 1) (vset X0 (2 ^ 64 - 1) f)) z st m calls pc p) as (f' & H & E0 & E1 & Hr);
    [done|by destruct f|done|done|]. exists (VState f' z st m calls (v_lr f0)).
  assert (u64 (-1) = 2 ^ 64 - 1) as Eu by done. split; [|cbn; rewrite E0, E1; by destruct f].
  rewrite <- H. destruct f. vopen. do 3 vstep. reflexivity.
Qed.

Ltac ret_case fuel := exists fuel; do 2 eexists; split; [vgo; vgo; reflexivity|done].
(** The choice by the return type. *)
Lemma arm64_ret fuel (f : vfile) z st m calls pc :
  exists fuel' z' f', run_ (2 + fuel) (vcode v_ret) (VState f z st m calls pc) = run_ fuel' (vcode v_call_done) (VState f' z' st m calls pc) /\
    (v_x0 f', v_x1 f') = answer (v_x20 f) (v_x0 f, v_x1 f) /\ v_sp f' = v_sp f.
Proof.
  destruct f as [x0 x1 x2 x3 x4 x18 x19 ret x21 x22 x23 x24 x25 x26 x27 lr sp]. cbn [v_sp v_x0 v_x1 v_x20 Nat.add]. unfold answer.
  assert (u64 0 = 0) as Eu by done.
  destruct (Z.eqb_spec ret 2) as [->|N]; [ret_case fuel|]. apply Z.eqb_neq in N as N2. clear N.
  destruct (Z.eqb_spec ret 16) as [->|N]; [ret_case fuel|]. apply Z.eqb_neq in N as N16. clear N.
  destruct (Z.eqb_spec ret 24) as [->|N]; [ret_case fuel|]. apply Z.eqb_neq in N as N24. clear N.
  destruct (Z.eqb_spec ret 17) as [->|N]; [ret_case fuel|]. apply Z.eqb_neq in N as N17. clear N.
  destruct (Z.eqb_spec ret 25) as [->|N]; [ret_case fuel|]. apply Z.eqb_neq in N as N25. clear N.
  destruct (Z.eqb_spec ret 19) as [->|N]; [ret_case fuel|]. apply Z.eqb_neq in N as N19. clear N.
  destruct (Z.eqb_spec ret 27) as [->|N]; [ret_case fuel|]. apply Z.eqb_neq in N as N27. clear N.
  destruct (Z.eqb_spec ret 4) as [->|N]; [ret_case fuel|]. apply Z.eqb_neq in N as N4. clear N.
  destruct (Z.eqb_spec ret 6) as [->|N]; [ret_case fuel|]. apply Z.eqb_neq in N as N6. clear N.
  destruct (Z.eqb_spec ret 3) as [->|N]; [ret_case fuel|]. apply Z.eqb_neq in N as N3. clear N.
  destruct (Z.eqb_spec ret 7) as [->|N]; [ret_case fuel|]. apply Z.eqb_neq in N as N7. clear N.
  assert (u64 (-1) = 2 ^ 64 - 1) as Em by done. exists (S fuel). do 2 eexists. split; [vgo; vopen; do 3 vstep; reflexivity|done].
Qed.

(** From the last argument to the return. *)
Lemma arm64_call fuel (f0 f : vfile) z st m calls pc p v0 v1 m' st' :
  let e := (v_x19 f, arg_regs f) in
  v_x21 f = 0 -> v_sp f0 = p -> v_sp f = p - 96 -> 96 <= p < 2 ^ 64 -> callee e m st = (v0, v1, m', st') -> holds_frame f0 p st' ->
  exists s', run_ (3 + fuel) (vcode v_load) (VState f z st m calls pc) = Ok s' /\ vs_calls s' = calls ++ [e] /\ vs_pc s' = v_lr f0 /\
    vs_bytes s' = m' /\ (v_x0 (vs_file s'), v_x1 (vs_file s')) = answer (v_x20 f) (v0, v1) /\ restored f0 (vs_file s').
Proof.
  intros e Hc H0 Hsp Hp He Hf.
  assert (exists f1, run_ (3 + fuel) (vcode v_load) (VState f z st m calls pc) = run_ (2 + fuel) (vcode v_ret) (VState f1 true st' m' (calls ++ [e]) pc) /\
    v_x0 f1 = v0 /\ v_x1 f1 = v1 /\ v_x20 f1 = v_x20 f /\ v_sp f1 = v_sp f) as (f1 & H1 & E0 & E1 & E20 & Es).
  { destruct f as [x0 x1 x2 x3 x4 x18 x19 ret x21 x22 x23 x24 x25 x26 x27 lr sp]. unfold e, arg_regs in *. cbn [v_x0 v_x1 v_x2 v_x3 v_x19 v_x21 v_sp Nat.add] in *. subst x21.
    eexists. split; [vopen; do 2 vstep; vopen; erewrite vrun_next; [|cbn; rewrite He; reflexivity]; rewrite vrun_at; reflexivity|done]. }
  rewrite H1. destruct (arm64_ret fuel f1 true st' m' (calls ++ [e]) pc) as (fuel2 & z2 & f2 & H2 & A2 & S2). rewrite H2.
  destruct (arm64_leave fuel2 f0 f2 z2 st' m' (calls ++ [e]) pc p) as (f3 & H3 & F0 & F1 & Hr); [done|congruence|done|done|].
  eexists. split; [exact H3|]. cbn [vs_calls vs_pc vs_bytes vs_file]. split; [done|]. split; [done|]. split; [done|]. split; [|done].
  by rewrite F0, F1, A2, E0, E1, E20.
Qed.

Lemma arm64_entry fuel f p z st m :
  v_sp f = p -> 96 <= p < 2 ^ 64 ->
  run_ fuel fmr_call (VState f z st m [] 0) =
  run_ fuel (vcode v_load)
    (VState (VFile (v_x0 f) (v_x1 f) (v_x2 f) (v_x3 f) (v_x4 f) (v_x4 f) (v_x0 f) (v_x1 f) (v_x2 f) (v_x3 f) 0 (v_x24 f) (v_x25 f) (v_x26 f) (v_x27 f) (v_lr f) (p - 96))
       z (vframe f p st) m [] 0).
Proof.
  destruct f as [x0 x1 x2 x3 x4 x18 x19 x20 x21 x22 x23 x24 x25 x26 x27 lr sp]. cbn [v_sp]. intros -> Hp.
  assert (u64 (p - 16) = p - 16) as E1 by (rewrite u64_small; lia). assert (u64 (p - 16 + 8) = p - 8) as E2 by (rewrite u64_small; lia).
  assert (u64 (p - 16 - 16) = p - 32) as E3 by (rewrite u64_small; lia). assert (u64 (p - 32 + 8) = p - 24) as E4 by (rewrite u64_small; lia).
  assert (u64 (p - 32 - 16) = p - 48) as E5 by (rewrite u64_small; lia). assert (u64 (p - 48 + 8) = p - 40) as E6 by (rewrite u64_small; lia).
  assert (u64 (p - 48 - 16) = p - 64) as E7 by (rewrite u64_small; lia). assert (u64 (p - 64 + 8) = p - 56) as E8 by (rewrite u64_small; lia).
  assert (u64 (p - 64 - 16) = p - 80) as E9 by (rewrite u64_small; lia). assert (u64 (p - 80 + 8) = p - 72) as E10 by (rewrite u64_small; lia).
  assert (u64 (p - 80 - 16) = p - 96) as E11 by (rewrite u64_small; lia). assert (u64 (p - 96 + 8) = p - 88) as E12 by (rewrite u64_small; lia).
  assert (u64 0 = 0) as E13 by done.
  unfold fmr_call at 1. do 12 vstep. rewrite vrun_at. reflexivity.
Qed.

Lemma arm64_places vs a b c d :
  (length vs <= 4)%nat -> places 0 vs (a, b, c, d) = (nth 0 vs a, nth 1 vs b, nth 2 vs c, nth 3 vs d).
Proof. intros H. do 4 (destruct vs as [|? vs]; [done|]). destruct vs; [done|cbn in H; lia]. Qed.
Lemma values_length m n : forall call argv i vs, values m n call argv i = Some vs -> length vs = n.
Proof.
  induction n as [|n IH]; intros call argv i vs H; cbn [values] in H; [by injection H as <-|].
  apply bind_Some in H as ([t a] & _ & H). apply bind_Some in H as (v & _ & H). apply bind_Some in H as (vs' & H & [= <-]). cbn. f_equal. eauto.
Qed.
End Rounds.

(** C11: The trampoline with up to four arguments of known types, in list nodes that
    follow each other in memory: it calls the function once with their values in
    x0 to x3 (the others still hold its own parameters), answers what it returned,
    narrowed or extended by the return type, and returns to its caller with x18 to
    x27 and the stack pointer as they were. *)
Theorem fmr_call_arm64 (callee : vcall -> vmem -> vmem -> Z * Z * vmem * vmem) clobber f p z st m n vs :
  v_sp f = p -> 96 <= p < 2 ^ 64 -> v_x2 f = Z.of_nat n -> (n <= 4)%nat -> values m n (v_x3 f) (v_x4 f) 0 = Some vs ->
  let e := (v_x0 f, (nth 0 vs (v_x0 f), nth 1 vs (v_x1 f), nth 2 vs (v_x2 f), nth 3 vs (v_x3 f))) in
  let '(v0, v1, m', st') := callee e m (vframe f p st) in
  (forall a, p - 96 <= a -> st' !! a = vframe f p st !! a) ->
  exists s', vrun callee clobber 32 fmr_call (VState f z st m [] 0) = Ok s' /\ vs_calls s' = [e] /\ vs_pc s' = v_lr f /\ vs_bytes s' = m' /\
    (v_x0 (vs_file s'), v_x1 (vs_file s')) = answer (v_x1 f) (v0, v1) /\ restored f (vs_file s').
Proof.
  intros Hsp Hp Hn Hn4 Hu e. destruct (callee e m (vframe f p st)) as [[[v0 v1] m'] st'] eqn:He. intros Hst.
  rewrite (arm64_entry callee clobber _ f p) by done. set (f1 := VFile _ _ _ _ _ _ _ _ _ _ _ _ _ _ _ _ _).
  destruct (arm64_args callee clobber (32 - 5 * n) m (vframe f p st) [] 0 n vs 0 f1 z Hu) as (z2 & f2 & H2 & A2 & C2 & _ & _ & K2 & K3 & _ & K5);
    [cbn; lia|done|lia|lia|]. replace (5 * n + (32 - 5 * n))%nat with 32%nat in H2 by lia. rewrite H2. replace (32 - 5 * n)%nat with (3 + (29 - 5 * n))%nat by lia.
  unfold arg_regs at 2 in A2. cbn [f1 v_x0 v_x1 v_x2 v_x3] in A2. rewrite arm64_places in A2 by (rewrite (values_length _ _ _ _ _ _ Hu); lia).
  destruct (arm64_call callee clobber (29 - 5 * n) f f2 z2 (vframe f p st) m [] 0 p v0 v1 m' st') as (s' & H3 & Hc & Hpc & Hb & Ha & Hr);
    [rewrite C2; cbn; lia|done|done|done|rewrite K2, A2; exact He| |].
  - unfold holds_frame. rewrite !Hst by lia. apply vframe_holds.
  - exists s'. split; [exact H3|]. rewrite K2, A2 in Hc. rewrite K3 in Ha. done.
Qed.

(** An argument of an unknown type, or a fifth one, after [n] others: nothing is
    called, the answer is -1 and the registers are restored all the same. *)
Theorem fmr_call_arm64_fails callee clobber f p z st m n vs t a :
  v_sp f = p -> 96 <= p < 2 ^ 64 -> Z.of_nat n < v_x2 f < 2 ^ 64 -> (n <= 4)%nat -> values m n (v_x3 f) (v_x4 f) 0 = Some vs ->
  arg_item m (v_x3 f) (Nat.iter n (fun x => u64 (x + 24)) (v_x4 f)) (Z.of_nat n) = Some (t, a) ->
  known_type t = false \/ (n = 4%nat /\ is_Some (arg_load m t a)) ->
  exists s', vrun callee clobber 32 fmr_call (VState f z st m [] 0) = Ok s' /\ vs_calls s' = [] /\ vs_pc s' = v_lr f /\ vs_bytes s' = m /\
    (v_x0 (vs_file s'), v_x1 (vs_file s')) = (2 ^ 64 - 1, 2 ^ 64 - 1) /\ restored f (vs_file s').
Proof.
  intros Hsp Hp Hn Hn4 Hu Hi Hbad. rewrite (arm64_entry callee clobber _ f p) by done. set (f1 := VFile _ _ _ _ _ _ _ _ _ _ _ _ _ _ _ _ _).
  destruct (arm64_args callee clobber (32 - 5 * n) m (vframe f p st) [] 0 n vs 0 f1 z Hu) as (z2 & f2 & H2 & _ & C2 & I2 & V2 & _ & _ & K4 & K5);
    [cbn; lia|done|lia|lia|]. replace (5 * n + (32 - 5 * n))%nat with 32%nat in H2 by lia. rewrite H2.
  assert (arg_item m (v_x22 f2) (v_x18 f2) (v_x23 f2) = Some (t, a)) as Hi2 by (rewrite K4, V2, I2; exact Hi).
  assert (v_x21 f2 <> 0) as Hc2 by (rewrite C2; cbn; lia). cbn in K5. destruct Hbad as [Hk|[-> [v Hv]]].
  - replace (32 - 5 * n)%nat with (1 + (31 - 5 * n))%nat by lia. destruct (arm64_bad_type callee clobber (31 - 5 * n) t a f2 z2 (vframe f p st) m [] 0 Hc2 Hi2 Hk) as (f3 & H3 & S3).
    rewrite H3. apply (arm64_fail callee clobber _ f f3 _ _ _ _ _ p); [done|congruence|done|apply vframe_holds].
  - change (32 - 5 * 4)%nat with (2 + 10)%nat. rewrite (arm64_load callee clobber 10 t a v) by done.
    match goal with |- context [VState ?g true] => destruct (arm64_no_register callee clobber 8 g true (vframe f p st) m [] 0) as (f3 & H3 & S3) end;
      [destruct f2; cbn in *; lia|]. change 10%nat with (2 + 8)%nat. rewrite H3.
    apply (arm64_fail callee clobber _ f f3 _ _ _ _ _ p); [done|rewrite S3; by destruct f2|done|apply vframe_holds].
Qed.

(** Two arguments, the byte 7 and the signed word -2, and a signed byte for a result. *)
Definition sample_regs (n : Z) : vfile := VFile 0x401000 24 n 0x5000 0x6000 18 19 20 21 22 23 24 25 26 27 0x400500 0x7000.
Definition bytes_at (a : Z) (bs : list Z) : list (Z * Z) := imap (fun i b => (a + Z.of_nat i, b)) bs.
Definition sample_bytes : vmem :=
  list_to_map (bytes_at 0x5004 [16; 25; 5] ++ bytes_at 0x6000 ([0; 0x80; 0; 0; 0; 0; 0; 0] ++ replicate 16 0 ++ [0x10; 0x80; 0; 0; 0; 0; 0; 0] ++ replicate 16 0 ++ replicate 8 0) ++
    bytes_at 0x8008 [7; 0; 0; 0; 0; 0; 0; 0] ++ bytes_at 0x8018 [0xfe; 0xff]).
Lemma fmr_call_arm64_witness :
  let callee := fun (e : vcall) (m st : vmem) => (0x1ff, 5, m, st) in
  exists s', vrun callee (fun _ => 0) 32 fmr_call (VState (sample_regs 2) false ∅ sample_bytes [] 0) = Ok s' /\
    vs_calls s' = [(0x401000, (7, 2 ^ 64 - 2, 2, 0x5000))] /\ (v_x0 (vs_file s'), v_x1 (vs_file s')) = (2 ^ 64 - 1, 5) /\ v_sp (vs_file s') = 0x7000.
Proof.
  pose proof (fmr_call_arm64 (fun _ m st => (0x1ff, 5, m, st)) (fun _ => 0) (sample_regs 2) 0x7000 false ∅ sample_bytes 2 [7; 2 ^ 64 - 2] eq_refl
    ltac:(lia) eq_refl ltac:(lia) ltac:(vm_compute; reflexivity)) as H. cbv beta zeta iota in H.
  destruct (H (fun a _ => eq_refl)) as (s' & Hrun & Hc & _ & _ & Hx & _ & Hs).
  exists s'. split; [exact Hrun|]. split; [exact Hc|]. split; [exact Hx|exact Hs].
Defined.
Lemma fmr_call_arm64_fails_witness :
  let callee := fun (e : vcall) (m st : vmem) => (0x1ff, 5, m, st) in
  exists s', vrun callee (fun _ => 0) 32 fmr_call (VState (sample_regs 3) false ∅ sample_bytes [] 0) = Ok s' /\ vs_calls s' = [] /\ vs_pc s' = 0x400500.
Proof.
  destruct (fmr_call_arm64_fails (fun _ m st => (0x1ff, 5, m, st)) (fun _ => 0) (sample_regs 3) 0x7000 false ∅ sample_bytes 2 [7; 2 ^ 64 - 2] 5 8)
    as (s' & Hrun & Hc & Hpc & _); [reflexivity|lia|cbn; lia|lia|vm_compute; reflexivity|vm_compute; reflexivity|by left|].
  exists s'. split; [exact Hrun|]. split; [exact Hc|exact Hpc].
Defined.
