(* ===== verification/Fdebug.v ===== *)
(** * The debug server (utils/fdebug/src/main.c)

    Two threads print what the board (over USB) and the host library (over a
    socket) report, sharing standard output under a mutex. Their loops are a step
    relation over program points, so that all interleavings are covered; what
    arrives is arbitrary. [main] is a function of the system's answers. *)

From S2P Require Import Prelude.
From stdpp Require Import base list sets relations.
From Stdlib Require Import ZArith Lia.
Local Open Scope Z_scope.

Definition DEBUG_IN_SIZE : nat := 32.
Definition BUFFER_SIZE : nat := 1024.

Inductive side := DEVICE | HOST.
#[global] Instance side_eq_dec : EqDecision side.
Proof. solve_decision. Defined.

(** What reaches standard output: the banner of a side, and characters. *)
Inductive event := Banner (s : side) | Char (s : side) (c : Z).

(** Where a thread is in its loop. *)
Inductive point :=
| At_receive                      (* libusb_interrupt_transfer, recv *)
| At_lock                         (* pthread_mutex_lock *)
| At_banner
| At_branch                       (* the test for a timeout *)
| At_unlock                       (* pthread_mutex_unlock *)
| At_print (rest : list Z)        (* while (read--) printf *)
| Faulted.                        (* the loop runs past the buffer *)

Record dthread := DThread {
  d_at : point;
  d_timeout : Z;
  d_read : Z;
  d_timed_out : bool;             (* e == LIBUSB_ERROR_TIMEOUT *)
  d_buf : list Z;
}.
Definition go (p : point) (t : dthread) : dthread := DThread p (d_timeout t) (d_read t) (d_timed_out t) (d_buf t).

Record dconf := DConf { c_usb : dthread; c_net : dthread; c_lock : option side; c_out : list event }.
Definition thread_of (s : side) (c : dconf) : dthread := match s with DEVICE => c_usb c | HOST => c_net c end.
Definition set_thread (s : side) (t : dthread) (c : dconf) : dconf :=
  match s with
  | DEVICE => DConf t (c_net c) (c_lock c) (c_out c)
  | HOST => DConf (c_usb c) t (c_lock c) (c_out c)
  end.
Definition set_lock (o : option side) (c : dconf) : dconf := DConf (c_usb c) (c_net c) o (c_out c).
Definition put_out (e : event) (c : dconf) : dconf := DConf (c_usb c) (c_net c) (c_lock c) (c_out c ++ [e]).

(** The result of a transfer: whether it timed out, and the bytes it stored and
    counted in [read], if it stored the count at all. *)
Definition usb_received (timed_out : bool) (r : option (list Z)) (t : dthread) : dthread :=
  match r with
  | None => DThread (d_at t) (d_timeout t) (d_read t) timed_out (d_buf t)
  | Some bs => DThread (d_at t) (d_timeout t) (Z.of_nat (length bs)) timed_out (bs ++ drop (length bs) (d_buf t))
  end.
(** [recv]: -1, or the bytes stored. *)
Definition net_received (r : option (list Z)) (t : dthread) : dthread :=
  match r with
  | None => DThread (d_at t) (d_timeout t) (-1) false (d_buf t)
  | Some bs => DThread (d_at t) (d_timeout t) (Z.of_nat (length bs)) false (bs ++ drop (length bs) (d_buf t))
  end.
Definition received (s : side) (timed_out : bool) (r : option (list Z)) (t : dthread) : dthread :=
  match s with DEVICE => usb_received timed_out r t | HOST => net_received r t end.
Definition buffer_size (s : side) : nat := match s with DEVICE => DEBUG_IN_SIZE | HOST => BUFFER_SIZE end.

(** [e == LIBUSB_ERROR_TIMEOUT || read == 0] and [read < 0 || read == 0] *)
Definition nothing_read (s : side) (t : dthread) : bool :=
  match s with DEVICE => d_timed_out t || (d_read t =? 0) | HOST => (d_read t <? 0) || (d_read t =? 0) end.

(** The branch after the transfer: end of a burst, or characters to print; the
    loop leaves -1 in [read]. *)
Definition branch (s : side) (t : dthread) : dthread :=
  if nothing_read s t then DThread At_unlock 0 (d_read t) (d_timed_out t) (d_buf t)
  else if (0 <=? d_read t) && (d_read t <=? Z.of_nat (length (d_buf t)))
       then DThread (At_print (take (Z.to_nat (d_read t)) (d_buf t))) 5 (-1) (d_timed_out t) (d_buf t)
       else DThread Faulted 5 (d_read t) (d_timed_out t) (d_buf t).

(** The bodies of [usb_debug_thread] and [network_debug_thread], one access to
    shared state at a time. *)
Inductive dstep : dconf -> dconf -> Prop :=
| ds_receive s c b r :
    d_at (thread_of s c) = At_receive -> (forall bs, r = Some bs -> (length bs <= buffer_size s)%nat) ->
    dstep c (set_thread s (go (if d_timeout (thread_of s c) =? 0 then At_lock else At_branch)
                             (received s b r (thread_of s c))) c)
| ds_lock s c :
    d_at (thread_of s c) = At_lock -> c_lock c = None ->
    dstep c (set_lock (Some s) (set_thread s (go At_banner (thread_of s c)) c))
| ds_banner s c :
    d_at (thread_of s c) = At_banner ->
    dstep c (put_out (Banner s) (set_thread s (go At_branch (thread_of s c)) c))
| ds_branch s c :
    d_at (thread_of s c) = At_branch -> dstep c (set_thread s (branch s (thread_of s c)) c)
| ds_unlock s c :
    d_at (thread_of s c) = At_unlock -> dstep c (set_lock None (set_thread s (go At_receive (thread_of s c)) c))
| ds_print s c b bs :
    d_at (thread_of s c) = At_print (b :: bs) ->
    dstep c (put_out (Char s b) (set_thread s (go (At_print bs) (thread_of s c)) c))
| ds_flush s c :
    d_at (thread_of s c) = At_print [] -> dstep c (set_thread s (go At_receive (thread_of s c)) c).

(** Both threads start with no burst open; the variables hold anything. *)
Definition dinit (c : dconf) : Prop :=
  c_lock c = None /\ c_out c = [] /\
  forall s, d_at (thread_of s c) = At_receive /\ d_timeout (thread_of s c) = 0 /\ length (d_buf (thread_of s c)) = buffer_size s.

(** ** Start-up *)

(** What [main] asks of the system, in order. *)
Inductive setup :=
| Signal | UsbInit | UsbOpen | UsbClaim | Socket | SetReuse (fd : Z) | Bind (fd port : Z) | Listen (fd backlog : Z) | MutexInit
| CreateUsb | CreateNet | JoinNet | JoinUsb | MutexDestroy | UsbClose (handle : Z) | UsbExit | Complain.
(** The answers: status codes, the handle (0 when no device is found) and the
    socket; [an_joins] tells whether the threads ever end. *)
Record answers := Answers {
  an_init : Z; an_handle : Z; an_claim : Z; an_socket : Z; an_bind : Z; an_listen : Z; an_mutex : Z; an_joins : bool;
}.
Definition FDEBUG_PORT : Z := 9872.

(** [if (e < 0) printf(...);] *)
Definition complain (e : Z) : list setup := if e <? 0 then [Complain] else [].

(** The label [fail]. *)
Definition fdebug_fail (handle : Z) : list setup := [UsbClose handle; UsbExit].

(** What was done, and the exit status; [Spin] while the threads run. *)
Definition fdebug_main (a : answers) : outcome (list setup * Z) :=
  let usb := [Signal; UsbInit] in
  if negb (an_init a =? 0) then Ok (usb ++ [Complain] ++ fdebug_fail 0, 0)
  else if an_handle a =? 0 then Ok (usb ++ [UsbOpen; Complain] ++ fdebug_fail 0, 0)
  else if negb (an_claim a =? 0) then Ok (usb ++ [UsbOpen; UsbClaim; Complain] ++ fdebug_fail (an_handle a), 0)
  else
    let net := usb ++ [UsbOpen; UsbClaim; Socket] ++ complain (an_socket a) ++ [SetReuse (an_socket a); Bind (an_socket a) FDEBUG_PORT] ++
      complain (an_bind a) ++ [Listen (an_socket a) 128] ++ complain (an_listen a) ++ [MutexInit] in
    if negb (an_mutex a =? 0) then Ok (net ++ [Complain], 1)
    else if an_joins a then Ok (net ++ [CreateUsb; CreateNet; JoinNet; JoinUsb; MutexDestroy] ++ fdebug_fail (an_handle a), 0)
    else Spin.

(** ** Output under the mutex *)

(** The last banner printed. *)
Fixpoint last_banner (o : option side) (l : list event) : option side :=
  match l with [] => o | Banner s :: l => last_banner (Some s) l | Char _ _ :: l => last_banner o l end.
(** Every character stands under the banner of its own side. *)
Fixpoint attributed (o : option side) (l : list event) : Prop :=
  match l with
  | [] => True
  | Banner s :: l => attributed (Some s) l
  | Char s _ :: l => o = Some s /\ attributed o l
  end.

(** The points at which a thread owns the mutex, and its banner is out. *)
Definition owns (t : dthread) : bool :=
  match d_at t with At_receive => negb (d_timeout t =? 0) | At_lock => false | _ => true end.
Definition announced (t : dthread) : bool := match d_at t with At_banner => false | _ => owns t end.

Record dinv (c : dconf) : Prop := {
  dv_lock : forall s, c_lock c = Some s <-> owns (thread_of s c) = true;
  dv_banner : forall s, announced (thread_of s c) = true -> last_banner None (c_out c) = Some s;
  dv_out : attributed None (c_out c);
  dv_print : forall s bs, d_at (thread_of s c) = At_print bs -> d_timeout (thread_of s c) <> 0;
  dv_unlock : forall s, d_at (thread_of s c) = At_unlock -> d_timeout (thread_of s c) = 0;
  dv_lock0 : forall s, d_at (thread_of s c) = At_lock -> d_timeout (thread_of s c) = 0;
  dv_buf : forall s, length (d_buf (thread_of s c)) = buffer_size s;
}.

Section Invariant.
Lemma last_banner_app o l l' : last_banner o (l ++ l') = last_banner (last_banner o l) l'.
Proof. revert o. induction l as [|[s|s b] l IH]; intros o; cbn; [done|apply IH..]. Qed.
Lemma attributed_app o l l' : attributed o (l ++ l') <-> attributed o l /\ attributed (last_banner o l) l'.
Proof. revert o. induction l as [|[s|s b] l IH]; intros o; cbn; [tauto|apply IH|]. rewrite IH. tauto. Qed.

Lemma thread_set_eq s t c : thread_of s (set_thread s t c) = t.
Proof. by destruct s. Qed.
Lemma thread_set_ne s s' t c : s' <> s -> thread_of s' (set_thread s t c) = thread_of s' c.
Proof. by destruct s, s'. Qed.

(** What a step of one side must respect. *)
Lemma dinv_change s c c' :
  dinv c -> (forall s', s' <> s -> thread_of s' c' = thread_of s' c) ->
  (forall s', s' <> s -> c_lock c' = Some s' <-> c_lock c = Some s') ->
  (c_lock c' = Some s <-> owns (thread_of s c') = true) ->
  (announced (thread_of s c') = true -> last_banner None (c_out c') = Some s) ->
  (c_out c' = c_out c \/ exists e, c_out c' = c_out c ++ [e] /\ c_lock c = Some s /\
     (e = Banner s \/ exists b, e = Char s b /\ last_banner None (c_out c) = Some s)) ->
  (forall bs, d_at (thread_of s c') = At_print bs -> d_timeout (thread_of s c') <> 0) ->
  (d_at (thread_of s c') = At_unlock \/ d_at (thread_of s c') = At_lock -> d_timeout (thread_of s c') = 0) ->
  length (d_buf (thread_of s c')) = buffer_size s -> dinv c'.
Proof.
  intros Hinv Hth Hlk Hown Han Hout Hpr Hz Hb.
  assert (forall s', s' <> s -> announced (thread_of s' c) = true -> last_banner None (c_out c') = Some s') as Hoth.
  { intros s' Hne Ha. destruct Hout as [->|(e & -> & Hl & _)]; [by apply (dv_banner _ Hinv)|].
    assert (owns (thread_of s' c) = true) as Ho by (unfold announced in Ha; by destruct (d_at (thread_of s' c))).
    apply (dv_lock _ Hinv) in Ho. congruence. }
  assert (forall P : side -> dthread -> Prop, P s (thread_of s c') -> (forall s', P s' (thread_of s' c)) ->
    forall s', P s' (thread_of s' c')) as Hcase.
  { intros P Hs Ho s'. destruct (decide (s' = s)) as [->|Hne]; [done|]. by rewrite Hth. }
  split.
  - intros s'. destruct (decide (s' = s)) as [->|Hne]; [done|]. rewrite Hlk, Hth by done. apply (dv_lock _ Hinv).
  - intros s'. destruct (decide (s' = s)) as [->|Hne]; [done|]. rewrite Hth by done. by apply Hoth.
  - pose proof (dv_out _ Hinv) as Ho. destruct Hout as [->|(e & -> & _ & He)]; [done|].
    apply attributed_app. split; [done|]. by destruct He as [->|(b & -> & ->)].
  - apply (Hcase (fun _ t => forall bs, d_at t = At_print bs -> d_timeout t <> 0)); [done|apply (dv_print _ Hinv)].
  - apply (Hcase (fun _ t => d_at t = At_unlock -> d_timeout t = 0)); [tauto|apply (dv_unlock _ Hinv)].
  - apply (Hcase (fun _ t => d_at t = At_lock -> d_timeout t = 0)); [tauto|apply (dv_lock0 _ Hinv)].
  - apply (Hcase (fun s t => length (d_buf t) = buffer_size s)); [done|apply (dv_buf _ Hinv)].
Qed.

Lemma received_buf s b r t :
  length (d_buf t) = buffer_size s -> (forall bs, r = Some bs -> (length bs <= buffer_size s)%nat) ->
  length (d_buf (received s b r t)) = buffer_size s /\ d_timeout (received s b r t) = d_timeout t.
Proof.
  intros Hl Hr. destruct s, r as [bs|]; cbn [received usb_received net_received d_buf d_timeout]; (split; [|done]); try done;
    rewrite length_app, length_drop, Hl; specialize (Hr _ eq_refl); lia.
Qed.

(** A thread's step that leaves the mutex and the output alone. *)
Lemma dinv_local s c t :
  dinv c -> owns t = owns (thread_of s c) -> (announced t = true -> announced (thread_of s c) = true) ->
  (forall bs, d_at t = At_print bs -> d_timeout t <> 0) ->
  (d_at t = At_unlock \/ d_at t = At_lock -> d_timeout t = 0) -> length (d_buf t) = buffer_size s ->
  dinv (set_thread s t c).
Proof.
  intros Hinv Ho Ha Hp Hz Hb. apply (dinv_change s c); rewrite ?thread_set_eq; try done.
  - intros s' Hne. by apply thread_set_ne.
  - intros s' _. by destruct s.
  - rewrite Ho. replace (c_lock (set_thread s t c)) with (c_lock c) by (by destruct s). apply (dv_lock _ Hinv).
  - intros H. replace (c_out (set_thread s t c)) with (c_out c) by (by destruct s). by apply (dv_banner _ Hinv), Ha.
  - left. by destruct s.
Qed.

Lemma dinv_step c c' : dinv c -> dstep c c' -> dinv c'.
Proof.
  intros Hinv Hstep. destruct Hstep as [s c b r Hat Hr|s c Hat Hl|s c Hat|s c Hat|s c Hat|s c b bs Hat|s c Hat];
    pose proof (dv_lock _ Hinv s) as Hown; pose proof (dv_banner _ Hinv s) as Han; pose proof (dv_buf _ Hinv s) as Hb;
    unfold announced, owns in Hown, Han; rewrite Hat in Hown, Han.
  - destruct (received_buf s b r (thread_of s c) Hb Hr) as [Hlen Ht].
    apply dinv_local; unfold announced, owns; cbn; rewrite ?Hat, ?Ht; [done|by destruct (_ =? 0)|by destruct (_ =? 0)|by destruct (_ =? 0)| |done].
    + destruct (d_timeout (thread_of s c) =? 0) eqn:E; [by apply Z.eqb_eq in E|by intros []].
  - apply (dinv_change s c); [done|by intros s' Hne; destruct s, s'| | |by destruct s|left; by destruct s|by destruct s|..].
    + intros s' Hne. rewrite Hl. cbn. split; [intros [= ->]; done|done].
    + destruct s; cbn; done.
    + destruct s; by intros [].
    + destruct s; exact Hb.
  - apply (dinv_change s c); [done|by intros s' Hne; destruct s, s'|intros s' Hne; by destruct s|destruct s; apply Hown| |..].
    + intros _. destruct s; cbn; by rewrite last_banner_app.
    + right. exists (Banner s). split; [by destruct s|]. split; [by apply Hown|by left].
    + destruct s; done.
    + destruct s; by intros [].
    + destruct s; exact Hb.
  - apply dinv_local; unfold announced, owns, branch; rewrite ?Hat; try done;
      (destruct (nothing_read s (thread_of s c)); [|destruct (_ && _)]); cbn; try done; by intros [].
  - apply (dinv_change s c); [done|by intros s' Hne; destruct s, s'| | | |left; by destruct s|by destruct s|..].
    + intros s' Hne. assert (c_lock c = Some s) as -> by (by apply Hown). split; [by destruct s|intros [= ->]; done].
    + pose proof (dv_unlock _ Hinv s Hat) as H0. destruct s; cbn in *; rewrite H0; done.
    + pose proof (dv_unlock _ Hinv s Hat) as H0. destruct s; cbn in *; unfold announced, owns; cbn; rewrite H0; done.
    + destruct s; by intros [].
    + destruct s; exact Hb.
  - pose proof (dv_print _ Hinv s _ Hat) as Hnz.
    apply (dinv_change s c); [done|by intros s' Hne; destruct s, s'|intros s' Hne; by destruct s|destruct s; apply Hown| |..].
    + intros _. specialize (Han eq_refl). destruct s; cbn; by rewrite last_banner_app, Han.
    + right. exists (Char s b). split; [by destruct s|]. split; [by apply Hown|]. right. exists b. split; [done|]. by apply Han.
    + destruct s; intros x _; exact Hnz.
    + destruct s; by intros [].
    + destruct s; exact Hb.
  - pose proof (dv_print _ Hinv s _ Hat) as Hnz.
    apply dinv_local; unfold announced, owns; cbn; rewrite ?Hat; try done; [|by intros []].
    destruct (Z.eqb_spec (d_timeout (thread_of s c)) 0); done.
Qed.
End Invariant.

(** ** Theorems *)

Lemma dinv_init c : dinit c -> dinv c.
Proof.
  intros (Hl & Ho & Ht). split.
  - intros s. rewrite Hl. destruct (Ht s) as (Ha & Hz & _). unfold owns. rewrite Ha, Hz. done.
  - intros s. destruct (Ht s) as (Ha & Hz & _). unfold announced, owns. rewrite Ha, Hz. done.
  - by rewrite Ho.
  - intros s bs. destruct (Ht s) as (-> & _). done.
  - intros s. destruct (Ht s) as (-> & _). done.
  - intros s. destruct (Ht s) as (-> & _). done.
  - intros s. by destruct (Ht s) as (_ & _ & ?).
Qed.


Definition idle_thread (n : nat) : dthread := DThread At_receive 0 0 false (replicate n 0).
Definition idle_server : dconf := DConf (idle_thread DEBUG_IN_SIZE) (idle_thread BUFFER_SIZE) None [].
Lemma idle_server_init : dinit idle_server.
Proof. split; [done|]. split; [done|]. by intros []. Qed.

(** The board sends one character. *)
Definition one_char : dconf :=
  DConf (DThread (At_print []) 5 (-1) false (65 :: replicate 31 0)) (idle_thread BUFFER_SIZE) (Some DEVICE)
    [Banner DEVICE; Char DEVICE 65].
Lemma one_char_reached : rtc dstep idle_server one_char.
Proof.
  eapply rtc_l; [apply (ds_receive DEVICE idle_server false (Some [65])); [done|intros bs [= <-]; vm_compute; lia]|].
  eapply rtc_l; [apply (ds_lock DEVICE); reflexivity|]. eapply rtc_l; [apply (ds_banner DEVICE); reflexivity|].
  eapply rtc_l; [apply (ds_branch DEVICE); reflexivity|]. eapply rtc_l; [apply (ds_print DEVICE _ 65 []); reflexivity|].
  vm_compute. apply rtc_refl.
Qed.


(** A USB transfer that fails without a timeout while a burst is open runs
    the print loop past the buffer: the loop left -1 in [read], the failed transfer
    does not store a count, and neither test catches it. *)
Theorem debug_overreads : exists c', rtc dstep idle_server c' /\ d_at (c_usb c') = Faulted /\ c_lock c' = Some DEVICE.
Proof.
  eexists. split.
  - etrans; [apply one_char_reached|]. eapply rtc_l; [apply (ds_flush DEVICE); reflexivity|].
    eapply rtc_l; [apply (ds_receive DEVICE _ false None); done|]. eapply rtc_once, (ds_branch DEVICE). reflexivity.
  - split; reflexivity.
Qed.

(** ** Start-up failures *)

(** A device that cannot be opened or claimed ends the server with the exit status
    of success; a socket that cannot be made, bound or listened on does not end it:
    the threads start all the same. *)
Lemma fdebug_main_status a l code :
  fdebug_main a = Ok (l, code) -> code = 0 \/ (code = 1 /\ an_mutex a <> 0 /\ UsbClose (an_handle a) ∉ l).
Proof.
  unfold fdebug_main. intros H. destruct (negb (an_init a =? 0)); [injection H as _ <-; auto|].
  destruct (an_handle a =? 0); [injection H as _ <-; auto|]. destruct (negb (an_claim a =? 0)); [injection H as _ <-; auto|].
  destruct (Z.eqb_spec (an_mutex a) 0) as [_|Hm]; cbn [negb] in H.
  - destruct (an_joins a); [injection H as _ <-; auto|done].
  - injection H as <- <-. apply or_intror. split; [done|]. split; [done|]. unfold complain.
    destruct (an_socket a <? 0), (an_bind a <? 0), (an_listen a <? 0); cbn [app]; rewrite !elem_of_cons, elem_of_nil; intuition discriminate.
Qed.
Lemma fdebug_main_unserved h s b l : h <> 0 -> fdebug_main (Answers 0 h 0 s b l 0 false) = Spin.
Proof. intros Hh. unfold fdebug_main. cbn. by rewrite (proj2 (Z.eqb_neq h 0)). Qed.
