(* ===== verification/DebugOut.v ===== *)
(** * Diagnostics (lib/debug.c, platforms/posix/src/error.c, platforms/atmegau2/src/error.c)

    What is printed is the sequence of [printf] calls: the format, as it is
    written in the source, and the arguments. Reads that leave a table or the
    packet have no defined behaviour, which printing packets can run into. *)

From S2P Require Import Prelude World Errors Crc Device LinkedList FmrPacket Libflipper Scenario LibProps.
From stdpp Require Import base list gmap sets strings.
From Stdlib Require Import ZArith Lia.
Local Open Scope Z_scope.

(** An argument of [printf]; [PPercent len] is the share of a packet. *)
Inductive parg := PInt (z : Z) | PStr (s : string) | PPercent (len : Z).
Record print := Printf { p_fmt : string; p_args : list parg }.

(** Code that prints: the output so far. *)
Abbreviation O_ := (M (list print)).
Definition printf (fmt : string) (args : list parg) : O_ unit := modify (fun o => o ++ [Printf fmt args]).

(** ** Packets (lib/debug.c) *)

Definition LF_DEBUG_LEVEL_OFF : Z := 0.
Definition LF_DEBUG_LEVEL_WARNINGS : Z := 1.
Definition LF_DEBUG_LEVEL_ERRORS : Z := 2.
Definition LF_DEBUG_LEVEL_ALL : Z := 3.

(** The variable [lf_debug_level]. *)
Definition lf_set_debug_level (level : Z) : M Z unit := put level.

Definition typestrs : list string :=
  ["unknown"; "unknown"; "void"; "uint64"; "int"; "unknown"; "ptr"; "int64";
   "unknown"; "unknown"; "unknown"; "unknown"; "unknown"; "unknown"; "unknown"; "unknown";
   "uint8"; "uint16"; "unknown"; "uint32"; "unknown"; "unknown"; "unknown"; "unknown";
   "int8"; "int16"; "unknown"; "int32"; "unknown"; "unknown"; "unknown"; "unknown"]%string.
Definition typestr (type : Z) : O_ string := lift_opt (typestrs !! Z.to_nat type).

(** The types of the arguments, separated by commas. *)
Fixpoint debug_types (todo i : nat) (buf : list Z) : O_ unit :=
  match todo with
  | O => mret tt
  | S todo =>
    type ← lift_opt (get_arg_type buf i);
    s ← typestr type;
    printf "%s%s" [PStr (if (0 <? i)%nat then ", " else ""); PStr s];;
    debug_types todo (S i) buf
  end.

(** The arguments; [offset] is the position of the next one. *)
Fixpoint debug_args (todo i offset : nat) (buf : list Z) : O_ unit :=
  match todo with
  | O => mret tt
  | S todo =>
    type ← lift_opt (get_arg_type buf i);
    arg ← lift_opt (rd_le buf offset (lf_sizeof type));
    let prefix := if one_of type [3; 6; 16; 17; 19] then "u"%string else ""%string in
    s ← typestr type;
    printf "  └─ %s%s:   0x%llx\n" [PStr prefix; PStr s; PInt arg];;
    debug_args todo (S i) (offset + lf_sizeof type) buf
  end.

(** Prints the call in the packet [buf]. *)
Definition lf_debug_call (buf : list Z) : O_ unit :=
  printf "call\n" [];;
  module ← lift_opt (rd_le buf off_call_module 1);
  printf "  └─module:    0x%x\n" [PInt module];;
  function ← lift_opt (rd_le buf off_call_function 1);
  printf "  └─function:  0x%x\n" [PInt function];;
  ret ← lift_opt (rd_le buf off_call_ret 1);
  s ← typestr ret;
  printf "  └─return:    %s\n" [PStr s];;
  argc ← lift_opt (rd_le buf off_call_argc 1);
  printf "  └─argc:      0x%x (%d arguments)\n" [PInt argc; PInt argc];;
  printf "  └─types:     " [];;
  debug_types (Z.to_nat argc) 0 buf;;
  printf "\n" [];;
  printf "args\n" [];;
  debug_args (Z.to_nat argc) 0 off_argv buf;;
  printf "\n" [].

Definition classstrs : list string := ["exec"; "push"; "pull"; "dyld"; "malloc"; "free"]%string.

(** The bytes of the packet, eight on a line; [i] counts from 1. *)
Fixpoint debug_bytes_loop (todo i : nat) (len : Z) (buf : list Z) : O_ unit :=
  match todo with
  | O => mret tt
  | S todo =>
    b ← lift_opt (rd_le buf (i - 1) 1);
    printf "0x%02x " [PInt b];;
    (if (Z.of_nat i mod 8 =? 0) && (Z.of_nat i <? len - 1) then printf "\n" [] else mret tt);;
    debug_bytes_loop todo (S i) len buf
  end.

(** [switch (hdr.type)]; the fields behind the header are [len] and [ptr], or
    [size] and [ptr], or the module's name. *)
Definition debug_class (type : Z) (buf : list Z) : O_ unit :=
  if type =? fmr_rpc_class then lf_debug_call buf
  else if one_of type [fmr_push_class; fmr_pull_class] then
    printf "length:\n" [];;
    ptr ← lift_opt (rd_le buf (sizeof_fmr_header + 4) 8);
    printf "   └─ ptr:     0x%llx\n" [PInt ptr];;
    len ← lift_opt (rd_le buf sizeof_fmr_header 4);
    printf "   └─ len:     0x%x\n\n" [PInt len]
  else if type =? fmr_dyld_class then
    printf "module:\n" [];;
    name ← lift_opt (cstr (drop sizeof_fmr_header buf));
    printf "   └─ module: '%s'\n" (PInt <$> name)
  else if type =? fmr_malloc_class then
    printf "malloc:\n" [];;
    size ← lift_opt (rd_le buf sizeof_fmr_header 4);
    printf "   └─ size: '0x%x'\n" [PInt size]
  else if type =? fmr_free_class then
    printf "free:\n" [];;
    ptr ← lift_opt (rd_le buf (sizeof_fmr_header + 4) 8);
    printf "   └─ ptr: '0x%llx'\n" [PInt ptr]
  else printf "invalid packet class.\n" [].

Definition lf_debug_packet (lf_debug_level : Z) (buf : list Z) : O_ unit :=
  if negb (lf_debug_level =? LF_DEBUG_LEVEL_ALL) then mret tt
  else
    magic ← lift_opt (rd_le buf off_magic 1);
    (if magic =? FMR_MAGIC_NUMBER then
       printf "header\n" [];;
       printf "  └─magic:     0x%x\n" [PInt magic];;
       crc ← lift_opt (rd_le buf off_crc 2);
       printf "  └─checksum:  0x%x\n" [PInt crc];;
       len ← lift_opt (rd_le buf off_len 2);
       printf "  └─length:    %d bytes (%.02f%%)\n" [PInt len; PPercent len];;
       type ← lift_opt (rd_le buf off_type 1);
       s ← lift_opt (classstrs !! Z.to_nat type);
       printf "  └─class:     %s\n" [PStr s];;
       debug_class type buf;;
       debug_bytes_loop (Z.to_nat len) 1 len buf
     else printf "invalid magic number (0x%02x).\n" [PInt magic]);;
    printf "\n\n-----------\n\n" [].

(** Compiled without [__LF_DEBUG__], the body is empty. *)
Definition lf_debug_result : O_ unit := mret tt.

(** ** Failed assertions *)

Definition KRED : string := "\x1B[31m".
Definition KNRM : string := "\x1B[0m".
Definition KBLU : string := "\x1B[34m".
Definition KGRN : string := "\x1B[32m".
Definition KYEL : string := "\x1B[33m".
Definition assert_fmt (s : string) : string :=
  KRED +:+ "flipper runtime error" +:+ KNRM +:+ ": " +:+ KBLU +:+ s +:+ KNRM +:+ " (0x%02x)\n" +:+ KGRN +:+ "  %s:%i: " +:+ KYEL.

(** platforms/posix/src/error.c: each text is formatted into 1024 bytes and sent
    to the debug server; [size p] is the length of the formatted text. *)
Section Posix.
Context (size : print -> nat).
Definition vsprintf_write (p : print) : O_ unit :=
  if decide (size p < 1024)%nat then modify (fun o => o ++ [p]) else ub.
Definition posix_lf_debug (fmt : string) (args : list parg) : O_ unit := vsprintf_write (Printf fmt args).
(** The error register's new value. *)
Definition posix_lf_assert (err : Z) (func : string) (line : Z) (fmt : string) (args : list parg) : O_ Z :=
  vsprintf_write (Printf (assert_fmt "%s") [PStr (lf_error_string err); PInt err; PStr func; PInt line]);;
  vsprintf_write (Printf fmt args);;
  vsprintf_write (Printf (KNRM +:+ "\n\n") []);;
  mret err.
End Posix.

(** platforms/atmegau2/src/error.c: strings are in program memory, and the table
    is read without a bound. *)
Definition atmega_error_string (error : Z) : O_ string := lift_opt (err_strs !! Z.to_nat error).
Definition atmega_lf_assert (err : Z) (func : string) (line : Z) (fmt : string) (args : list parg) : O_ Z :=
  s ← atmega_error_string err;
  printf (assert_fmt "%S") [PStr s; PInt err; PStr func; PInt line];;
  printf fmt args;;
  printf (KNRM +:+ "\n\n") [];;
  mret err.

(** ** Theorems *)

Section Safe.
(** A field that lies in the buffer can be read. *)
Lemma rd_le_is buf off n : (off + n <= length buf)%nat -> exists v, rd_le buf off n = Some v.
Proof. intros H. unfold rd_le. rewrite rd_Some by done. cbn. eauto. Qed.

(** Code that always returns. *)
Definition returns {A} (m : O_ A) : Prop := forall o, exists a o', m o = Ok (a, o').
Lemma returns_bind {A B} (m : O_ A) (f : A -> O_ B) : returns m -> (forall a, returns (f a)) -> returns (m ≫= f).
Proof. intros Hm Hf o. destruct (Hm o) as (a & o' & H). destruct (Hf a o') as (b & o2 & H2). exists b, o2. by rewrite (bind_Ok _ _ _ _ _ H). Qed.
Lemma returns_printf fmt args : returns (printf fmt args).
Proof. intros o. by eexists _, _. Qed.
Lemma returns_ret {A} (a : A) : returns (mret a).
Proof. intros o. by eexists _, _. Qed.
Lemma returns_lift {A B} (x : option A) a (f : A -> O_ B) : x = Some a -> returns (f a) -> returns (lift_opt x ≫= f).
Proof. intros -> H o. destruct (H o) as (b & o' & Hb). by exists b, o'. Qed.
Lemma returns_cond (b : bool) (m m' : O_ unit) : returns m -> returns m' -> returns (if b then m else m').
Proof. by destruct b. Qed.

Lemma debug_bytes_returns buf len todo : forall i, (1 <= i)%nat -> (i - 1 + todo <= length buf)%nat -> returns (debug_bytes_loop todo i len buf).
Proof.
  induction todo as [|todo IH]; intros i H1 Hl; cbn [debug_bytes_loop]; [apply returns_ret|].
  destruct (rd_le_is buf (i - 1) 1) as [b Hb]; [lia|]. apply (returns_lift _ _ _ Hb).
  apply returns_bind; [apply returns_printf|intros _]. apply returns_bind; [apply returns_cond; [apply returns_printf|apply returns_ret]|intros _].
  apply IH; lia.
Qed.

(** The argument types of a call packet, all with a name. *)
Definition types_named (buf : list Z) (n : nat) : Prop :=
  forall i, (i < n)%nat -> exists t, get_arg_type buf i = Some t /\ (Z.to_nat t < 32)%nat.
Lemma typestr_is t : (Z.to_nat t < 32)%nat -> exists s, typestrs !! Z.to_nat t = Some s.
Proof. intros H. destruct (lookup_lt_is_Some_2 typestrs (Z.to_nat t)) as [s Hs]; [exact H|]. eauto. Qed.

Lemma debug_types_returns buf todo : forall i, types_named buf (i + todo) -> returns (debug_types todo i buf).
Proof.
  induction todo as [|todo IH]; intros i Hn; cbn [debug_types]; [apply returns_ret|].
  destruct (Hn i ltac:(lia)) as (t & Ht & Hlt). apply (returns_lift _ _ _ Ht). destruct (typestr_is t Hlt) as [s Hs].
  apply (returns_lift _ _ _ Hs). apply returns_bind; [apply returns_printf|intros _]. apply IH.
  replace (S i + todo)%nat with (i + S todo)%nat by lia. done.
Qed.

(** The bytes of the arguments from the [i]-th on. *)
Fixpoint sizes_from (buf : list Z) (i todo : nat) : nat :=
  match todo with O => 0 | S todo => lf_sizeof (default 0 (get_arg_type buf i)) + sizes_from buf (S i) todo end.
Lemma debug_args_returns buf todo : forall i offset,
  types_named buf (i + todo) -> (offset + sizes_from buf i todo <= length buf)%nat -> returns (debug_args todo i offset buf).
Proof.
  induction todo as [|todo IH]; intros i offset Hn Hl; cbn [debug_args sizes_from] in *; [apply returns_ret|].
  destruct (Hn i ltac:(lia)) as (t & Ht & Hlt). rewrite Ht in Hl. cbn [default] in Hl. apply (returns_lift _ _ _ Ht).
  destruct (rd_le_is buf offset (lf_sizeof t)) as [v Hv]; [simpl in Hl; lia|]. apply (returns_lift _ _ _ Hv). cbv zeta.
  destruct (typestr_is t Hlt) as [s Hs]. apply (returns_lift _ _ _ Hs). apply returns_bind; [apply returns_printf|intros _].
  apply IH; [by replace (S i + todo)%nat with (i + S todo)%nat by lia|simpl in Hl; lia].
Qed.
End Safe.

(** Printing a call packet is safe: when the packet is whole, its stored length
    lies in it, the return and argument types have names and the arguments lie in
    the packet, everything is printed without an access outside a table or the
    packet. *)
Theorem debug_call_packet_safe buf len ret argc o :
  length buf = FMR_PACKET_SIZE -> rd_le buf off_magic 1 = Some FMR_MAGIC_NUMBER -> rd_le buf off_type 1 = Some fmr_rpc_class ->
  rd_le buf off_len 2 = Some len -> (Z.to_nat len <= FMR_PACKET_SIZE)%nat ->
  rd_le buf off_call_ret 1 = Some ret -> (Z.to_nat ret < 32)%nat ->
  rd_le buf off_call_argc 1 = Some argc -> types_named buf (Z.to_nat argc) ->
  (off_argv + sizes_from buf 0 (Z.to_nat argc) <= FMR_PACKET_SIZE)%nat ->
  exists o', lf_debug_packet LF_DEBUG_LEVEL_ALL buf o = Ok (tt, o').
Proof.
  intros Hb Hmagic Htype Hlen Hl Hret Hr Hargc Hn Hs.
  enough (returns (lf_debug_packet LF_DEBUG_LEVEL_ALL buf)) as H by (destruct (H o) as ([] & o' & Ho); by exists o').
  unfold lf_debug_packet. rewrite Z.eqb_refl. cbn [negb].
  apply (returns_lift _ _ _ Hmagic), returns_bind; [|intros _; apply returns_printf]. rewrite Z.eqb_refl.
  do 2 (apply returns_bind; [apply returns_printf|intros _]).
  destruct (rd_le_is buf off_crc 2) as [crc Hcrc]; [rewrite Hb; unfold off_crc, FMR_PACKET_SIZE; lia|]. apply (returns_lift _ _ _ Hcrc).
  apply returns_bind; [apply returns_printf|intros _]. apply (returns_lift _ _ _ Hlen).
  apply returns_bind; [apply returns_printf|intros _]. apply (returns_lift _ _ _ Htype). change (Z.to_nat fmr_rpc_class) with 0%nat.
  apply (returns_lift _ "exec"%string); [done|]. apply returns_bind; [apply returns_printf|intros _].
  apply returns_bind; [|intros _; apply debug_bytes_returns; [lia|rewrite Hb; lia]].
  unfold debug_class. change (fmr_rpc_class =? fmr_rpc_class) with true. cbv iota. unfold lf_debug_call.
  apply returns_bind; [apply returns_printf|intros _].
  destruct (rd_le_is buf off_call_module 1) as [m Hm]; [rewrite Hb; unfold off_call_module, FMR_PACKET_SIZE; lia|]. apply (returns_lift _ _ _ Hm).
  apply returns_bind; [apply returns_printf|intros _].
  destruct (rd_le_is buf off_call_function 1) as [f Hf]; [rewrite Hb; unfold off_call_function, FMR_PACKET_SIZE; lia|]. apply (returns_lift _ _ _ Hf).
  apply returns_bind; [apply returns_printf|intros _]. apply (returns_lift _ _ _ Hret).
  destruct (typestr_is ret Hr) as [s Hsr]. apply (returns_lift _ _ _ Hsr). apply returns_bind; [apply returns_printf|intros _].
  apply (returns_lift _ _ _ Hargc). do 2 (apply returns_bind; [apply returns_printf|intros _]).
  apply returns_bind; [by apply debug_types_returns|intros _]. do 2 (apply returns_bind; [apply returns_printf|intros _]).
  apply returns_bind; [apply debug_args_returns; [done|rewrite Hb; done]|intros _]. apply returns_printf.
Qed.

Lemma debug_call_packet_safe_witness : exists o', lf_debug_packet LF_DEBUG_LEVEL_ALL sample_packet [] = Ok (tt, o').
Proof.
  apply (debug_call_packet_safe sample_packet 31 0 2 []).
  - vm_compute. reflexivity.
  - vm_compute. reflexivity.
  - vm_compute. reflexivity.
  - vm_compute. reflexivity.
  - vm_compute. lia.
  - vm_compute. reflexivity.
  - vm_compute. lia.
  - vm_compute. reflexivity.
  - intros i Hi. vm_compute in Hi. destruct i as [|[|i]]; [exists 17|exists 16|lia]; (split; [vm_compute; reflexivity|vm_compute; lia]).
  - vm_compute. lia.
Defined.

(** A packet of an unknown class is not reported as one: its class name is
    looked up past the table before the message is reached. *)
Theorem debug_bad_class buf type o :
  (6 <= length buf)%nat -> rd_le buf off_magic 1 = Some FMR_MAGIC_NUMBER -> rd_le buf off_type 1 = Some type -> FMR_CLASS_COUNT <= type ->
  lf_debug_packet LF_DEBUG_LEVEL_ALL buf o = Ub.
Proof.
  intros Hb Hmagic Htype Ht. unfold lf_debug_packet. rewrite Z.eqb_refl. cbn [negb]. rewrite Hmagic. cbn [lift_opt]. rewrite bind_ret_l. apply bind_Ub.
  rewrite Z.eqb_refl. destruct (rd_le_is buf off_crc 2) as [crc ->]; [unfold off_crc; lia|].
  destruct (rd_le_is buf off_len 2) as [len ->]; [unfold off_len; lia|]. rewrite Htype.
  unfold printf. cbn [lift_opt]. do 6 (rewrite ?bind_modify, ?bind_ret_l). apply bind_Ub.
  by rewrite (lookup_ge_None_2 classstrs) by (unfold FMR_CLASS_COUNT in Ht; simpl; lia).
Qed.

Lemma debug_bad_class_witness : lf_debug_packet LF_DEBUG_LEVEL_ALL [254; 0; 0; 6; 0; 9] [] = Ub.
Proof. apply (debug_bad_class _ 9); vm_compute; [lia|reflexivity|reflexivity|discriminate]. Defined.
