(* ===== verification/FvmApi.v ===== *)
(** * The virtual machine's emulated peripherals (utils/fvm/src/api)

    Every function prints what a device would do and returns a constant. The
    results are the values the callers see; the output is the sequence of
    [printf] calls, as in DebugOut. *)

From S2P Require Import Prelude World Errors DebugOut.
From stdpp Require Import base list strings.
From Stdlib Require Import ZArith Lia.
Local Open Scope Z_scope.

(** Prints and returns. *)
Definition says (msg : string) (v : Z) : O_ Z := printf msg [];; mret v.

Module Uart0.
Definition uart0_configure : O_ Z := says "Configured the uart0.\n" lf_success.
Definition uart0_ready : O_ Z := says "Checking if the uart0 is ready.\n" lf_success.
Definition uart0_enable : O_ unit := printf "Enabling the uart0 bus.\n" [].
Definition uart0_disable : O_ unit := printf "Disabling the uart0 bus.\n" [].
Definition uart0_put (byte : Z) : O_ unit := printf "Putting '%c' to the uart0 bus.\n" [PInt byte].
Definition uart0_get : O_ Z := says "Getting from the uart0 bus.\n" 0.
(** [%s] reads the string at [src]. *)
Definition uart0_write (src : list Z) (length : Z) : O_ Z :=
  s ← lift_opt (cstr src); printf "Writing to the uart0 bus: %s\n" (PInt <$> s);; mret lf_success.
(** [fgets(dst, length, stdin)]: at most [length - 1] bytes of the line, then a
    terminator; nothing is stored at the end of the input. *)
Definition fgets (dst : list Z) (length : Z) (line : list Z) : option (list Z) :=
  if length <? 1 then Some dst
  else match line with [] => Some dst | _ => wr dst 0 (take (Z.to_nat length - 1) line ++ [0]) end.
Definition uart0_read (dst : list Z) (length : Z) (line : list Z) : O_ (Z * list Z) :=
  printf "Reading from the uart0 bus: " [];;
  dst ← lift_opt (fgets dst length line);
  mret (lf_success, dst).
End Uart0.

Module Spi.
Definition spi_configure : O_ Z := says "Configured the spi bus.\n" lf_success.
Definition spi_enable : O_ unit := printf "Enabling the spi bus.\n" [].
Definition spi_disable : O_ unit := printf "Disabling the spi bus.\n" [].
Definition spi_ready : O_ Z := says "Checking if the spi bus is ready.\n" lf_success.
Definition spi_put (byte : Z) : O_ unit := printf "Putting to the spi bus.\n" [].
Definition spi_get : O_ Z := says "Getting from the spi bus.\n" lf_success.
Definition spi_write (src : list Z) (length : Z) : O_ Z := says "Pushing to the spi bus.\n" lf_success.
Definition spi_read (dst : list Z) (length : Z) : O_ Z := says "Pulling from the spi bus.\n" lf_success.
End Spi.

Module Usart.
Definition usart_configure : O_ Z := says "Configured the usart.\n" lf_success.
Definition usart_ready : O_ Z := says "Checking if the usart is ready.\n" lf_success.
Definition usart_push (src : list Z) (length : Z) : O_ Z :=
  s ← lift_opt (cstr src); printf "Pushing '%s' to the usart bus.\n" (PInt <$> s);; mret lf_success.
Definition usart_pull (dst : list Z) (length : Z) : O_ Z := says "Pulling from the usart bus.\n" lf_success.
End Usart.

Module Gpio.
Definition gpio_configure : O_ Z := says "Configured gpio controller.\n" lf_success.
Definition gpio_enable (enable disable : Z) : O_ unit :=
  printf "Enabling gpio pins 0x%08x, disabling gpio pins 0x%08x.\n" [PInt enable; PInt disable].
Definition gpio_write (set clear : Z) : O_ unit :=
  printf "Setting gpio pins 0x%08x, clearing gpio pins 0x%08x.\n" [PInt set; PInt clear].
Definition gpio_read (mask : Z) : O_ Z := printf "Reading gpio pins with mask 0x%08x.\n" [PInt mask];; mret lf_success.
End Gpio.

Module Other.
Definition button_configure : O_ Z := says "Configured the button.\n" lf_success.
Definition button_read : O_ Z := says "Reading the state of the button.\n" 0.
Definition wdt_configure : O_ Z := says "Configured the watchdog.\n" 0.
Definition wdt_fire : O_ unit := printf "Firing the watchdog.\n" [].
Definition led_configure : O_ Z := says "Configured the led.\n" lf_success.
Definition led_rgb (r g b : Z) : O_ unit := printf "Setting the led color to R: %i, G: %i, B: %i.\n" [PInt r; PInt g; PInt b].
Definition usb_configure : O_ Z := says "Configured USB.\n" lf_success.
Definition adc_configure : O_ Z := says "Configured the adc.\n" lf_success.
Definition i2c_configure : O_ Z := says "Configured the i2c bus.\n" lf_success.
Definition pwm_configure : O_ Z := says "Configured the pwm.\n" lf_success.
Definition rtc_configure : O_ Z := says "Configured the rtc.\n" lf_success.
Definition swd_configure : O_ Z := says "Configured the swd.\n" lf_success.
Definition temp_configure : O_ Z := says "Configured the temperature sensor.\n" lf_success.
Definition timer_configure : O_ Z := says "Configured the timer.\n" lf_success.
End Other.

Section Read.
Import Uart0.

Lemma cstr_terminated s tl : Forall (fun b => b <> 0) s -> cstr (s ++ 0 :: tl) = Some s.
Proof. induction 1 as [|b s Hb _ IH]; cbn; [done|]. destruct (Z.eqb_spec b 0); [done|]. by rewrite IH. Qed.

(** What a read leaves in the caller's buffer is a string of at most
    [length - 1] bytes of the line, and nothing past [length] bytes changes. *)
Theorem fvm_uart0_read_string dst length line o :
  1 <= length <= Z.of_nat (List.length dst) -> line <> [] -> Forall (fun b => b <> 0) line ->
  exists dst' o', uart0_read dst length line o = Ok ((lf_success, dst'), o') /\
    cstr dst' = Some (take (Z.to_nat length - 1) line) /\
    drop (Z.to_nat length) dst' = drop (Z.to_nat length) dst /\ List.length dst' = List.length dst.
Proof.
  intros Hl Hne Hnz. set (s := take (Z.to_nat length - 1) line).
  assert (List.length s <= Z.to_nat length - 1)%nat as Hs by (unfold s; rewrite length_take; lia).
  assert (List.length (s ++ [0%Z]) <= Z.to_nat length)%nat as Hs' by (rewrite length_app; simpl; lia).
  assert (fgets dst length line = wr dst 0 (s ++ [0])) as Hf.
  { unfold fgets. destruct (Z.ltb_spec length 1); [lia|]. by destruct line. }
  unfold uart0_read, printf. rewrite bind_modify, Hf, wr_Some by lia. cbn [lift_opt take app]. rewrite bind_ret_l.
  eexists _, _. split; [reflexivity|]. change (take 0 dst) with (@nil Z). cbn [app]. split; [|split].
  - assert (Forall (fun b => b <> 0) s) as Hsz by (unfold s; by apply Forall_take).
    rewrite <- app_assoc. by apply cstr_terminated.
  - rewrite drop_app_ge, drop_drop by lia. f_equal. lia.
  - rewrite length_app, length_drop, Nat.add_0_l. lia.
Qed.

Lemma fvm_uart0_read_string_witness :
  exists dst' o', uart0_read [9; 9; 9; 9] 3 [104; 105; 10] [] = Ok ((lf_success, dst'), o') /\
    cstr dst' = Some [104; 105] /\ drop 3 dst' = [9] /\ List.length dst' = 4%nat.
Proof.
  apply (fvm_uart0_read_string [9; 9; 9; 9] 3 [104; 105; 10] []); [simpl; lia|discriminate|].
  repeat constructor; discriminate.
Defined.
End Read.
