(* ===== verification/Syscalls.v ===== *)
(** * System calls of the C library on the ATSAM4S (os/arch/armv7/syscalls.c)

    [_sbrk] hands out memory above the program image; the file operations do
    nothing. The state is the static variable [heap]. *)

From S2P Require Import Prelude.
From stdpp Require Import base list.
From Stdlib Require Import ZArith Lia.
Local Open Scope Z_scope.

Section Syscalls.
(** The address of the linker's symbol [_end]. *)
Context (_end : Z).

(** The static pointer, 0 before the first call. *)
Abbreviation K_ := (M Z).

Definition _sbrk (increment : Z) : K_ Z :=
  heap ← get;
  (if heap =? 0 then put _end else mret tt);;
  previous ← get;
  put (u32 (previous + increment));;
  mret previous.

Definition _close (file : Z) : K_ Z := mret (-1).
Definition _fstat (file : Z) : K_ Z := mret 0.
Definition _isatty (file : Z) : K_ Z := mret 1.
Definition _lseek (file ptr dir : Z) : K_ Z := mret 0.
Definition _read (file : Z) (len : Z) : K_ Z := mret 0.
Definition _write (file : Z) (ptr : list Z) (len : Z) : K_ Z := mret 0.
Definition _exit (status : Z) : K_ unit := spin.
Definition _kill (pid sig : Z) : K_ unit := mret tt.
Definition _getpid : K_ Z := mret (-1).

(** A sequence of requests. *)
Fixpoint sbrks (incs : list Z) : K_ (list Z) :=
  match incs with
  | [] => mret []
  | i :: incs => p ← _sbrk i; ps ← sbrks incs; mret (p :: ps)
  end.

(** The blocks laid out one behind the other from [a]. *)
Fixpoint consecutive (a : Z) (incs : list Z) : list Z :=
  match incs with [] => [] | i :: incs => a :: consecutive (a + i) incs end.
Definition total (incs : list Z) : Z := foldr Z.add 0 incs.

Lemma sbrk_step h i : 0 <= i -> 0 < (if h =? 0 then _end else h) -> (if h =? 0 then _end else h) + i < 2 ^ 32 ->
  _sbrk i h = Ok ((if h =? 0 then _end else h), (if h =? 0 then _end else h) + i).
Proof.
  intros H1 H2 H3. unfold _sbrk. rewrite bind_get. destruct (h =? 0); [rewrite bind_put|rewrite bind_ret_l];
    rewrite bind_get, bind_put; unfold mret, M_ret; rewrite u32_small by lia; done.
Qed.

Lemma sbrks_ok incs : forall h, Forall (fun i => 0 <= i) incs -> 0 < h -> h + total incs < 2 ^ 32 ->
  sbrks incs h = Ok (consecutive h incs, h + total incs).
Proof.
  induction incs as [|i incs IH]; intros h Hp Hh Ht; cbn [sbrks consecutive].
  { by replace (h + total []) with h by (cbn; lia). }
  apply Forall_cons in Hp as [Hi Hp]. change (total (i :: incs)) with (i + total incs) in *.
  assert (0 <= total incs) as Hn by (clear -Hp; induction Hp; cbn; [lia|]; unfold total in *; lia).
  assert ((h =? 0) = false) as Hz by (apply Z.eqb_neq; lia).
  pose proof (sbrk_step h i Hi) as Hs. rewrite Hz in Hs. mstep (Hs Hh ltac:(lia)).
  mstep (IH (h + i) Hp ltac:(lia) ltac:(lia)). unfold mret, M_ret. do 2 f_equal. lia.
Qed.

(** Allocation: requests are answered with consecutive blocks from [_end] on,
    so the blocks are disjoint and below each other's addresses; no request is
    ever refused, whatever memory the processor has. *)
Theorem sbrk_blocks incs :
  Forall (fun i => 0 <= i) incs -> 0 < _end -> _end + total incs < 2 ^ 32 -> incs <> [] ->
  sbrks incs 0 = Ok (consecutive _end incs, _end + total incs).
Proof.
  intros Hp He Ht Hne. destruct incs as [|i incs]; [done|]. apply Forall_cons in Hp as [Hi Hp].
  change (total (i :: incs)) with (i + total incs) in *. cbn [sbrks consecutive].
  assert (0 <= total incs) as Hn by (clear -Hp; induction Hp; cbn; [lia|]; unfold total in *; lia).
  mstep (sbrk_step 0 i Hi ltac:(done) ltac:(cbn; lia)). change (0 =? 0) with true. cbv iota.
  mstep (sbrks_ok incs (_end + i) Hp ltac:(lia) ltac:(lia)). unfold mret, M_ret. do 2 f_equal. lia.
Qed.
End Syscalls.

(** The image ends at 0x20004000; two blocks of 32 and 512 bytes. *)
Lemma sbrk_blocks_witness : sbrks 0x20004000 [32; 512] 0 = Ok ([0x20004000; 0x20004020], 0x20004220).
Proof.
  apply (sbrk_blocks 0x20004000 [32; 512]); [repeat constructor; discriminate|reflexivity|reflexivity|discriminate].
Defined.
