(* ===== verification/Fload.v ===== *)
(** * The application loader (utils/fload/src/main.c)

    Reads an image from a file, attaches the devices and hands the image to
    [dyld_load]. *)

From S2P Require Import Prelude World Errors Crc Device LinkedList FmrPacket Transport Dyld Fmr Network Libusb Libflipper Scenario Rpc Fvm FvmProps.
From stdpp Require Import base list gmap sets.
From Stdlib Require Import ZArith Lia.
Local Open Scope Z_scope.

Section Fload.
Context {E : Type} `{!Usb E}.

(** [file] is the contents of the file named by the first argument, if it can
    be opened. *)
Definition fload_main (argc : Z) (file : option (list Z)) : C E Z :=
  if argc <? 2 then mret EXIT_FAILURE
  else
    match file with
    | None => mret EXIT_FAILURE
    | Some bytes =>
      lf_attach;;
      device ← lf_get_selected;
      let fsize := Z.of_nat (length bytes) in
      fbuf ← malloc (fun _ => ORaw bytes);
      if fbuf =? 0 then mret EXIT_FAILURE
      else
        e ← dyld_load device fbuf fsize;
        lf_assert (ctrue e) E_MODULE (mret tt) (mret tt);;
        free fbuf;;
        mret EXIT_SUCCESS
    end.

(** The loader loads nothing and reports failure for success: with any readable
    file, once the devices are attached nothing is sent to them, the buffer is
    freed, and the module error is recorded because [dyld_load] returned its
    success value, which the assertion takes for a failure. *)
Theorem fload_reports_module_error w file argc r w1 :
  2 <= argc -> lf_attach w = Ok (r, w1) -> wf_world w1 -> no_oom w1 ->
  exists w', fload_main argc (Some file) w = Ok (EXIT_SUCCESS, w') /\ w_err w' = err_code E_MODULE /\
    w_env w' = w_env w1 /\ w_heap w' = w_heap w1.
Proof.
  intros Ha Hat Hwf Ho. unfold fload_main. destruct (Z.ltb_spec argc 2); [lia|]. mstep Hat.
  unfold lf_get_selected, lf_get_current_device. rewrite bind_gets. cbv zeta.
  mstep (malloc_ok w1 (fun _ => ORaw file) (no_oom_alloc_fails w1 Ho)). destruct Hwf as [Hb Hp] eqn:Hw.
  destruct (Z.eqb_spec (w_next w1) 0); [unfold heap_base in Hb; lia|].
  unfold dyld_load. rewrite bind_ret_l. unfold lf_assert. change (ctrue lf_success) with false. cbv iota.
  unfold _lf_assert. rewrite bind_assoc, bind_modify, bind_ret_l.
  set (w2 := set_err _ _). assert (w_heap w2 !! w_next w1 = Some (ORaw file)) as Hbuf by apply lookup_insert_eq.
  mstep (free_ok w2 (w_next w1) (ORaw file) Hb Hbuf). eexists. split; [reflexivity|]. split; [done|]. split; [done|].
  cbn. apply delete_insert_id. by apply wf_fresh.
Qed.
End Fload.

(** With no device on the bus. *)
Lemma fload_reports_module_error_witness :
  exists w', fload_main 2 (Some [1; 2; 3]) sample_world = Ok (EXIT_SUCCESS, w') /\ w_err w' = err_code E_MODULE /\
    w_env w' = Wire [] [] /\ w_heap w' = sample_heap.
Proof.
  destruct (lf_attach sample_world) as [[r w1]| |] eqn:E; [|vm_compute in E; discriminate..].
  assert (w_env w1 = Wire [] [] /\ w_heap w1 = sample_heap /\ wf_world w1 /\ no_oom w1) as (He & Hh & Hw & Ho).
  { vm_compute in E. injection E as <- <-. split; [reflexivity|]. split; [vm_compute; reflexivity|].
    split; [apply wf_world_check; vm_compute; reflexivity|constructor]. }
  destruct (fload_reports_module_error sample_world [1; 2; 3] 2 r w1 ltac:(lia) E Hw Ho) as (w' & H1 & H2 & H3 & H4).
  exists w'. split; [exact H1|]. split; [exact H2|]. split; [exact (eq_trans H3 He)|exact (eq_trans H4 Hh)].
Defined.
