(* ===== verification/HostApps.v ===== *)
(** * Host programs (examples/host_app/src, tests/dac_test/host, tests/fmr_test/host)

    The programs that drive a virtual machine over the network: a client that
    calls one function, the test of the emulated DAC and the test of the message
    runtime, each from its arguments to its exit code. The port file and the
    arguments are parameters; of the messages they print, the verdicts of the
    tests are kept. *)

From S2P Require Import Prelude World Errors Crc Device LinkedList FmrPacket Transport Dyld Fmr Network Libusb Libflipper Fvm FmrTest.
From stdpp Require Import base list gmap sets strings.
From Stdlib Require Import ZArith Lia.
Local Open Scope Z_scope.

Definition LF_UDP_PORT : Z := 3258.

(** What is found at /tmp/fvm.port: no file, a file without a number, a number. *)
Inductive port_file := No_file | No_number | Number (port : Z).

(** A datagram that is taken without waiting ([recvfrom] with [MSG_DONTWAIT]). *)
Class PollSockets (E : Type) := sys_recv_now : Z -> nat -> E -> received * E.

Section Connect.
Context {E : Type} `{!Sockets E, !Usb E}.

(** [device->_ep_ctx = calloc(1, sizeof(struct _lf_network_context))] *)
Definition attach_context (device : Z) : C E Z :=
  context ← malloc (fun _ => ONet net_zero);
  d ← load_device device;
  store device (ODevice (set_ep_ctx d context));;
  mret context.

End Connect.

(** ** The test of the emulated DAC (tests/dac_test/host/main.c) *)

Module DacTest.
Section DacTest.
Context {E : Type} `{!Sockets E, !Usb E}.

Definition dac_test_port (f : port_file) : Z := match f with Number port => port | _ => LF_UDP_PORT end.

(** The calls of functions [index], ... of the module, without arguments. *)
Fixpoint calls (device : Z) (functions : list Z) : C E Z :=
  match functions with
  | [] => mret 0
  | index :: functions =>
    '(e, _) ← lf_invoke_by_index device (Some (ascii "dac_module")) index lf_void_t 0;
    if negb (e =? lf_success) then mret 1 else calls device functions
  end.

Definition dac_test_main (f : port_file) : C E Z :=
  let port := dac_test_port f in
  device ← lf_create_virtual_device;
  if device =? 0 then mret 1
  else
    context ← attach_context device;
    if context =? 0 then lf_device_release device;; mret 1
    else
      e ← lf_network_connect device str_localhost port;
      if negb (e =? lf_success) then lf_device_release device;; mret 1
      else
        e ← lf_select device;
        if negb (e =? lf_success) then mret 1
        else
          '(e, _) ← lf_dyld_dyn_sym_lookup device (Some (ascii "dac_module"));
          if negb (e =? lf_success) then mret 1
          else
            e ← calls device [0; 1; 2; 3; 4];
            if negb (e =? 0) then mret e
            else lf_exit;; mret 0.
End DacTest.
End DacTest.

(** ** The test of the message runtime (tests/fmr_test/host/main.c) *)

(** What a test prints: whether the value is the expected one, or that the call
    failed. *)
Inductive verdict := PASS | FAIL | FAILED_TO_INVOKE.

Module RuntimeTest.
(** A test: the function, the type and value of its argument, the type given
    for the result and the expected result. *)
Record test := Test { t_function : Z; t_type : Z; t_value : Z; t_ret : Z; t_expected : Z }.

Definition function_0 : test := Test 0 lf_uint8_t 16 lf_uint8_t 0.
Definition function_1 : test := Test 1 lf_uint16_t 4931 lf_uint16_t 0.
Definition function_2 : test := Test 2 lf_int32_t 70000 lf_int32_t 0.
Definition function_3 : test := Test 3 lf_int_t 111 lf_int_t 0.
Definition function_4 : test := Test 4 lf_uint8_t 16 lf_uint8_t (16 * 2).
Definition function_5 : test := Test 5 lf_uint16_t 4931 lf_uint16_t (4931 * 2).
Definition function_6 : test := Test 6 lf_uint32_t 70000 lf_uint32_t (u32 (70000 * 2)).
Definition function_7 : test := Test 7 lf_int_t 111 lf_int_t (111 * 2).
Definition function_8 : test := Test 8 lf_int8_t (-16) lf_int8_t 0.
Definition function_9 : test := Test 9 lf_int8_t (-16) lf_int8_t (-16 * 2).
Definition function_10 : test := Test 10 lf_int16_t (-4931) lf_int8_t 0.
Definition function_11 : test := Test 11 lf_int16_t (-4931) lf_int16_t (-4931 * 2).
Definition function_12 : test := Test 12 lf_int32_t (-70000) lf_int32_t 0.
Definition function_13 : test := Test 13 lf_int32_t (-70000) lf_int16_t (-70000 * 2).
Definition tests : list test :=
  [function_0; function_1; function_2; function_3; function_4; function_5; function_6; function_7; function_8;
   function_9; function_10; function_11; function_12; function_13].

Section RuntimeTest.
Context {E : Type} `{!Sockets E, !Usb E}.

Definition fmr_test_port (f : port_file) : Z := match f with Number port => port | _ => -1 end.

(** One test; [None] when its argument could not be created. *)
Definition run_test (device : Z) (module_name : list Z) (t : test) : C E (option verdict) :=
  arg ← lf_arg_create (t_type t) (t_value t);
  '(e, args) ← (if arg =? 0 then mret (lf_error, Some 0) else lf_ll_append (Some 0) arg fn_free);
  let args := default 0 args in
  if negb (e =? lf_success) then lf_ll_release (Some args);; mret None
  else
    '(result, ret_value) ← lf_invoke_by_index device (Some module_name) (t_function t) (t_ret t) args;
    let v := if result =? lf_success
             then if t_expected t =? sint 64 (default 0 ret_value) then PASS else FAIL
             else FAILED_TO_INVOKE in
    lf_ll_release (Some args);;
    mret (Some v).

(** The tests in order, up to one that could not be run. *)
Fixpoint run_tests (device : Z) (module_name : list Z) (ts : list test) : C E (bool * list verdict) :=
  match ts with
  | [] => mret (true, [])
  | t :: ts =>
    v ← run_test device module_name t;
    match v with
    | None => mret (false, [])
    | Some v => '(ok, vs) ← run_tests device module_name ts; mret (ok, v :: vs)
    end
  end.

Definition cleanup (device : Z) : C E unit := lf_detach device;; lf_device_release device;; lf_exit;; mret tt.

(** [main] from a connected device on. *)
Definition session (device : Z) (module_name : list Z) : C E (Z * list verdict) :=
  e ← lf_select device;
  if negb (e =? lf_success) then lf_device_release device;; mret (1, [])
  else
    '(e, _) ← lf_dyld_dyn_sym_lookup device (Some module_name);
    if negb (e =? lf_success) then cleanup device;; mret (1, [])
    else
      '(ok, vs) ← run_tests device module_name tests;
      cleanup device;;
      mret (if ok : bool then 0 else 1, vs).

(** The arguments behind the program's name; the exit code and the verdicts. *)
Definition fmr_test_main (argv : list (list Z)) (f : port_file) : C E (Z * list verdict) :=
  match argv with
  | option :: device_type :: rest =>
    if negb (bool_decide (option = ascii "--device")) then mret (1, [])
    else match rest with
    | [] => mret (1, [])
    | module_name :: _ =>
      if negb (bool_decide (device_type = ascii "fvm")) then mret (1, [])
      else
        let port := fmr_test_port f in
        let port := if port <? 0 then LF_UDP_PORT else port in
        device ← lf_create_virtual_device;
        if device =? 0 then mret (1, [])
        else
          context ← attach_context device;
          if context =? 0 then lf_device_release device;; mret (1, [])
          else
            e ← lf_network_connect device str_localhost port;
            if negb (e =? lf_success) then lf_device_release device;; mret (1, [])
            else session device module_name
    end
  | _ => mret (1, [])
  end.
End RuntimeTest.
End RuntimeTest.

(** ** A client that calls one function (examples/host_app/src/client_calls_fvm.c) *)

Module Client.
Definition set_name (d : lf_device) (name : list Z) : lf_device :=
  LfDevice name (d_version d) (d_type d) (d_modules d) (d_read d) (d_write d) (d_release d) (d_dev_ctx d) (d_ep_ctx d).
Definition BUFFER_SIZE : nat := 1024.

(** What is reported besides the value: nothing, text, or other bytes. *)
Inductive report := Silent | Text (message : list Z) | Binary (count : nat) | Receive_error.

Section Client.
Context {E : Type} `{!Sockets E, !Usb E, !PollSockets E}.

(** [char] is signed on the host: bytes from 128 on are below 32. *)
Definition printable (b : Z) : bool := negb ((sint 8 b <? 32) || (126 <? sint 8 b)).

Definition extra_response (r : received) : report :=
  match r with
  | RcvOk data _ =>
    let data := take (BUFFER_SIZE - 1) data in
    if decide (0 < length data)%nat
    then if forallb printable data then Text data else Binary (length data)
    else Silent
  | RcvErr errno => if errno =? EWOULDBLOCK then Silent else Receive_error
  end.

Definition release (fvm : Z) : C E unit := d ← load_device fvm; free (d_ep_ctx d);; lf_device_release fvm.

(** The port: the second argument ([atoi] of it is given), the file, the default.
    A file without a number leaves -1. *)
Definition port (arg : option Z) (f : port_file) : Z :=
  match arg, f with
  | Some p, _ => p
  | None, Number p => p
  | None, No_number => -1
  | None, No_file => LF_UDP_PORT
  end.

(** The exit code, and the value with what else was received. *)
Definition client_main (module_name : option (list Z)) (port_arg : option Z) (f : port_file)
    : C E (Z * option (Z * report)) :=
  match module_name with
  | None => mret (1, None)
  | Some module_name =>
    fvm ← lf_device_create_named (Some str_fvm) fn_lf_network_read fn_lf_network_write fn_lf_network_release;
    if fvm =? 0 then mret (1, None)
    else
      context ← attach_context fvm;
      if context =? 0 then lf_device_release fvm;; mret (1, None)
      else
        e ← lf_network_connect fvm str_loopback (port port_arg f);
        if negb (e =? lf_success) then release fvm;; mret (1, None)
        else
          e ← lf_select fvm;
          if e <? 0 then release fvm;; mret (1, None)
          else
            d ← load_device fvm;
            name ← lift_opt (cstr (d_name d));
            (if bool_decide (name = []) then store fvm (ODevice (set_name d (name32 str_fvm))) else mret tt);;
            '(e, _) ← lf_dyld_dyn_sym_lookup fvm (Some module_name);
            if negb (e =? lf_success) then release fvm;; mret (1, None)
            else
              '(result, ret) ← lf_invoke_by_index fvm (Some module_name) 0 lf_void_t 0;
              if negb (result =? lf_success) then release fvm;; mret (1, None)
              else
                c ← load_net context;
                r ← env_op (sys_recv_now (nc_fd c) (BUFFER_SIZE - 1));
                release fvm;;
                mret (0, Some (default 0 ret, extra_response r))
  end.
End Client.
End Client.

(** ** The module of the example (examples/host_app/src/main.c) *)

Module HelloModule.
Definition fn_fvm_print_hello_function : Z := 300.
Definition lf_module_fvm_test_table : list Z := [fn_fvm_print_hello_function].
Definition fvm_test : lf_module := LfModule (strncpy (ascii "fvm_test") 32) 1 UINT16_MAX 0 lf_module_fvm_test_table 1 0.
Definition fvm_print_hello_function {E} `{!Process E} : C E Z :=
  env_op (fun e => (tt, sys_write STDOUT_FILENO (ascii "Running inside FVM! Hello World from Flipper Engineering!" ++ [10]) e));; mret 123.
End HelloModule.
