(* ===== verification/HostProps.v ===== *)
(** * Sessions of the host programs

    What the host programs do against any device that answers their requests:
    the requests they send, in order, their exit codes and, for the test of the
    message runtime, that every test passes when the device computes what the
    test module specifies. *)

From S2P Require Import Prelude World Errors Crc Device LinkedList FmrPacket Transport Dyld Fmr Network Libusb Libflipper Fvm FmrTest HostApps.
From stdpp Require Import base list gmap sets strings.
From Stdlib Require Import ZArith Lia.
Local Open Scope Z_scope.

#[global] Instance verdict_eq_dec : EqDecision verdict.
Proof. solve_decision. Defined.

(** What a host asks of a device. *)
Inductive request :=
| Lookup (name : list Z)
| Call (function ret : Z) (args : list lf_arg).

(** The packets of a request, the module having index [idx]. *)
Definition encodes (idx : Z) (r : request) (pkt : list Z) : Prop :=
  match r with
  | Lookup name => dyld_packet name = Some pkt
  | Call function ret args =>
    packet_ok pkt /\ exists crc,
    pkt = call_packet ([254] ++ le_bytes 2 crc ++ le_bytes 2 (invoke_len args) ++ [0])
            (u8 idx) (u8 function) (u8 ret) (Z.of_nat (length args)) (types_area args) (argv_area args)
  end.

(** The requests that fit in a packet. *)
Definition sendable (r : request) : Prop :=
  match r with
  | Lookup name => is_cstring name /\ (length name < LF_MODULE_NAME_MAX)%nat
  | Call _ _ args =>
    Forall wf_arg args /\ (length args <= FMR_MAX_ARGC)%nat /\ (26 + length args + args_size args <= 64)%nat
  end.

(** The environment holds a device at [addr]: a request that is sent to it is
    answered with [reply], a value, and no error. [inv h] are the states of the
    environment after the requests [h]. *)
Definition answers {E} `{!Sockets E} (fd : Z) (addr : sockaddr_in) (idx : Z) (inv : list request -> E -> Prop)
    (reply : request -> Z) : Prop :=
  forall h e r pkt, inv h e -> sendable r -> encodes idx r pkt ->
  exists n e1 e2, sys_sendto fd pkt addr e = (n, e1) /\ 0 < n /\
    sys_recvfrom fd 9 e1 = (RcvOk (result_bytes (reply r) (err_code E_OK)) addr, e2) /\ inv (h ++ [r]) e2.

Section Session.
Context {E : Type} `{!Sockets E, !Usb E}.
Implicit Types (w : world E) (l : list ll_entry) (ms : list lf_module).

(** A host program with a connected device. *)
Record client w (dev ctx : Z) (d : lf_device) (c : lf_network_context) l ms : Prop := {
  cl_wf : wf_world w;
  cl_oom : no_oom w;
  cl_dev : device_at (w_heap w) dev d l ms;
  cl_net : net_at w dev d ctx c;
  cl_name : d_name d = name32 str_fvm;
  cl_read : d_read d = fn_lf_network_read;
  cl_write : d_write d = fn_lf_network_write;
  cl_base : heap_base <= dev /\ heap_base <= ctx;
}.

Lemma device_at_io w w' dev d l ms : io_frame w w' -> device_at (w_heap w) dev d l ms -> device_at (w_heap w') dev d l ms.
Proof.
  intros Hf [Hd Hl Hm Hn]. split; [by apply (iof_heap _ _ Hf)|by eapply io_frame_ll| |done].
  apply (Forall2_impl _ _ _ _ Hm). intros e m Hem. by apply (iof_heap _ _ Hf).
Qed.

(** Endpoint operations keep the client. *)
Lemma client_io w w' dev ctx d c c' l ms :
  io_frame w w' -> client w dev ctx d c l ms -> w_heap w' !! ctx = Some (ONet c') -> client w' dev ctx d c' l ms.
Proof.
  intros Hf [Hw Ho Hda (H1 & H2 & H3 & H4 & H5) Hn Hr Hwr Hb] Hc.
  split; [by eapply io_frame_wf| |by eapply device_at_io| |done..].
  - unfold no_oom. by rewrite (iof_fail _ _ Hf).
  - split; [done|]. split; [done|]. split; [by apply (iof_heap _ _ Hf)|done].
Qed.

Section Device.
Context (fd : Z) (addr : sockaddr_in) (idx : Z) (inv : list request -> E -> Prop) (reply : request -> Z).
Context (Haddr : sin_addr addr <> 0) (Hport : sin_port addr <> 0) (Hans : answers fd addr idx inv reply).
Context (c : lf_network_context) (Hfd : nc_fd c = fd) (Hca : nc_addr c = addr).

Lemma result_error_ok v : result_error (result_bytes v (err_code E_OK)) = err_code E_OK.
Proof. unfold result_error, result_bytes. rewrite drop_app_length' by done. done. Qed.
Lemma result_value_ok v : result_value (result_bytes v (err_code E_OK)) = u64 v.
Proof. unfold result_value, result_bytes. rewrite take_app_length' by done. apply le_val_bytes. Qed.

(** A request and its answer. *)
Lemma exchange w dev ctx d l ms h r pkt :
  client w dev ctx d c l ms -> inv h (w_env w) -> sendable r -> encodes idx r pkt ->
  exists w1 w2, device_write dev pkt w = Ok (lf_success, w1) /\
    device_read dev (le_bytes 8 (w_junk w1 0) ++ le_bytes 1 (w_junk w1 8)) w1
      = Ok ((lf_success, result_bytes (reply r) (err_code E_OK)), w2) /\
    client w2 dev ctx d c l ms /\ io_frame w w2 /\ inv (h ++ [r]) (w_env w2).
Proof.
  intros Hc Hi Hsd Hr. pose proof Hc as [Hw Ho Hda Hnet _ Hrd Hwr _].
  destruct (Hans h (w_env w) r pkt Hi Hsd Hr) as (n & e1 & e2 & Hs & Hn & Hrcv & Hi2).
  assert (device_write dev pkt w = Ok (lf_success, set_env e1 w)) as Hw1.
  { unfold device_write. mstep (load_device_ok _ _ _ (da_dev _ _ _ _ _ Hda)). rewrite Hwr.
    cbn [tr_write posix_transport Z.eqb fn_lf_network_write Pos.eqb].
    rewrite (lf_network_write_sent w dev d ctx c pkt n e1 Hnet) by congruence. by destruct (Z.ltb_spec 0 n); [|lia]. }
  set (w1 := set_env e1 w) in *. set (dst := le_bytes 8 (w_junk w1 0) ++ le_bytes 1 (w_junk w1 8)).
  destruct (lf_network_read_ok w1 dev d ctx c dst (result_bytes (reply r) (err_code E_OK)) addr e2)
    as (w2 & Hrun & (_ & _ & _ & _ & Hc2) & He2); [done|done|by rewrite Hfd|].
  exists w1, w2. split; [done|].
  assert (device_read dev dst w1 = Ok ((lf_success, result_bytes (reply r) (err_code E_OK)), w2)) as Hrd2.
  { unfold device_read. mstep (load_device_ok w1 _ _ (da_dev _ _ _ _ _ Hda)). rewrite Hrd.
    cbn [tr_read posix_transport Z.eqb fn_lf_network_read Pos.eqb]. rewrite Hrun.
    rewrite drop_ge by done. by rewrite app_nil_r. }
  split; [done|].
  assert (io_frame w w2) as Hf by (etrans; [by eapply device_write_frame|by eapply device_read_frame]).
  split; [|split; [done|by rewrite He2]]. apply (client_io w w2 dev ctx d c); [done|done|].
  rewrite Hc2. unfold nc_set_addr. rewrite <- Hca. by destruct c.
Qed.
Context (name : list Z) (Hcs : is_cstring name) (Hlen : (length name < LF_MODULE_NAME_MAX)%nat).
Context (Hidx : reply (Lookup name) = idx) (Hrange : 0 <= idx < 2 ^ 16).

Lemma client_lookup w dev ctx d l ms h :
  client w dev ctx d c l ms -> inv h (w_env w) ->
  exists w2, lf_dyld_dyn_sym_lookup dev (Some name) w = Ok ((lf_success, Some idx), w2) /\
    client w2 dev ctx d c l ms /\ io_frame w w2 /\ inv (h ++ [Lookup name]) (w_env w2).
Proof.
  intros Hc Hi. destruct (dyld_packet_ok name Hlen Hcs) as (pkt & Hpkt & _).
  destruct (exchange w dev ctx d l ms h (Lookup name) pkt Hc Hi (conj Hcs Hlen) Hpkt) as (w1 & w2 & H1 & H2 & Hc2 & Hf & Hi2).
  exists w2. split; [|done].
  rewrite (lookup_ok w dev d 102 (tail (name32 str_fvm)) name pkt w1 _ w2 (da_dev _ _ _ _ _ (cl_dev _ _ _ _ _ _ _ Hc))
             (proj1 (cl_net _ _ _ _ _ _ _ Hc)) (cl_name _ _ _ _ _ _ _ Hc) ltac:(done) Hlen Hpkt H1 H2).
  unfold lookup_answer. rewrite result_error_ok, result_value_ok, Hidx, Z.eqb_refl. do 4 f_equal.
  unfold u64. rewrite (Z.mod_small idx) by lia. apply u16_small. lia.
Qed.

(** The caller's arguments. *)
Record arguments w (p : Z) (al : list ll_entry) (args : list lf_arg) : Prop := {
  ag_ll : is_ll (w_heap w) p al;
  ag_args : args_at (w_heap w) al args;
  ag_wf : Forall wf_arg args;
  ag_count : (length args <= FMR_MAX_ARGC)%nat;
  ag_fits : (26 + length args + args_size args <= 64)%nat;
}.

Lemma arguments_keep w w' p al args :
  (forall a o, a ∈ addrs al \/ a ∈ (e_item <$> al) -> is_ctx o = false -> w_heap w !! a = Some o -> w_heap w' !! a = Some o) ->
  arguments w p al args -> arguments w' p al args.
Proof.
  intros Hk [Hl Ha Hwf Hn Hs]. split; [| |done..].
  - apply (is_ll_frame (w_heap w)); [done|]. intros a Hin. destruct (is_ll_lookup _ _ _ _ Hl Hin) as (_ & nd & Hnd).
    rewrite Hnd. by apply Hk; [left|..].
  - apply Forall2_same_length_lookup. split; [by apply Forall2_length in Ha|]. intros i e a He Ha'.
    pose proof (Forall2_lookup_lr _ _ _ _ _ _ Ha He Ha') as Hat. apply Hk; [|done|done].
    right. by apply list_elem_of_fmap_2, list_elem_of_lookup_2 with i.
Qed.

(** A call of a module the program knows: one lookup, one call. *)
Lemma client_invoke w dev ctx d l ms h i m p al args function ret :
  client w dev ctx d c l ms -> inv h (w_env w) -> ms !! i = Some m -> has_name name m -> arguments w p al args ->
  exists w', lf_invoke_by_index dev (Some name) function ret p w
      = Ok ((lf_success, Some (u64 (reply (Call function ret args)))), w') /\
    client w' dev ctx d c l ms /\ io_frame w w' /\ inv (h ++ [Lookup name; Call function ret args]) (w_env w').
Proof.
  intros Hc Hi Hm Hn Hag. destruct (client_lookup w dev ctx d l ms h Hc Hi) as (w1 & Hlk & Hc1 & Hf1 & Hi1).
  assert (arguments w1 p al args) as [Hl Ha Hwf Hcnt Hfit].
  { apply (arguments_keep w); [|done]. intros a o _. apply (iof_heap _ _ Hf1). }
  destruct (invoke_packet_ok w1 p al args idx function ret Hl Ha Hwf Hcnt Hfit) as (crc & Hpkt & Hok).
  set (pkt := call_packet _ _ _ _ _ _ _) in *.
  destruct (exchange w1 dev ctx d l ms _ (Call function ret args) pkt Hc1 Hi1 (conj Hwf (conj Hcnt Hfit))) as (w2 & w3 & H1 & H2 & Hc3 & Hf3 & Hi3).
  { split; [done|by exists crc]. }
  exists w3. split; [|split; [done|split; [by etrans|by rewrite <- app_assoc in Hi3]]].
  rewrite (lf_invoke_by_index_known w dev d l ms name i m idx w1 p al args function ret pkt w2 _ w3 Hlk
             (cl_wf _ _ _ _ _ _ _ Hc1) (cl_dev _ _ _ _ _ _ _ Hc1) Hcs Hm Hn Hl Ha Hpkt H1 H2).
  by rewrite result_value_ok.
Qed.

(** The module record the first call creates. *)
Definition resolved_module : lf_module := indexed (LfModule (name32 name) 0 idx 0 [] 0 0) 0.
Lemma resolved_named : has_name name resolved_module.
Proof. apply has_name_indexed. by apply cstr_name32. Qed.

Lemma client_registered w dev ctx d head w' h' q nx f :
  client w dev ctx d c [] [] -> wf_world w' -> w' = set_heap h' (set_alloc nx f w) -> Forall (fun b => b = false) f ->
  device_at (w_heap w') dev (set_modules d head) [q] [resolved_module] ->
  (forall a, a ∉ addrs [] -> a < w_next w -> a <> dev -> w_heap w' !! a = w_heap w !! a) ->
  client w' dev ctx (set_modules d head) c [q] [resolved_module].
Proof.
  intros [Hw Ho Hda (H1 & H2 & H3 & H4 & H5) Hn Hr Hwr Hb] Hw' -> Hff Hda' Hk. split; [done|done|done| |done..].
  split; [done|]. split; [done|]. split; [apply Hda'|]. split; [done|]. rewrite Hk; [done|apply not_elem_of_nil| |].
  - apply Hw in H5. lia.
  - intros ->. congruence.
Qed.

(** The first call of a module: looked up, looked up again to register it on the
    host, then called. *)
Lemma client_invoke_first w dev ctx d h p al args function ret :
  client w dev ctx d c [] [] -> inv h (w_env w) -> arguments w p al args -> Forall (fun e => e_item e <> dev) al ->
  exists w' head q, lf_invoke_by_index dev (Some name) function ret p w
      = Ok ((lf_success, Some (u64 (reply (Call function ret args)))), w') /\
    client w' dev ctx (set_modules d head) c [q] [resolved_module] /\ w_attached w' = w_attached w /\
    w_next w <= e_addr q /\ w_next w <= e_item q /\
    (forall a o, a <> dev -> is_ctx o = false -> w_heap w !! a = Some o -> w_heap w' !! a = Some o) /\
    inv (h ++ [Lookup name; Lookup name; Call function ret args]) (w_env w').
Proof.
  intros Hc Hi Hag Hdev. destruct (client_lookup w dev ctx d [] [] h Hc Hi) as (w1 & Hlk & Hc1 & Hf1 & Hi1).
  destruct (client_lookup w1 dev ctx d [] [] _ Hc1 Hi1) as (w2 & Hlk2 & Hc2 & Hf2 & Hi2).
  destruct (dyld_module_new w1 dev d [] [] name idx w2 d [] []) as (w3 & head & Hmod & Hw3 & Hda3 & Hk3 & h3 & Hw3');
    try done; [apply Hc1|apply Hc1|apply Hc2|apply Hc2|apply Hc2|].
  set (q := Entry _ _ _) in Hda3. cbn [app length] in Hda3. fold resolved_module in Hda3.
  assert (client w3 dev ctx (set_modules d head) c [q] [resolved_module]) as Hc3.
  { apply (client_registered w2 dev ctx d head w3 h3 q _ _ Hc2 Hw3 Hw3'); [|done|done].
    destruct Hc2 as [_ Ho2 _ _ _ _ _ _]. destruct (w_fail w2) as [|b1 [|b2 fl]] eqn:Hfl; [done|done|].
    unfold no_oom in Ho2. rewrite Hfl in Ho2. by apply Forall_cons in Ho2 as [_ [_ ?]%Forall_cons]. }
  pose proof (io_frame_trans _ _ _ Hf1 Hf2) as Hf12.
  assert (forall a o, a <> dev -> is_ctx o = false -> w_heap w !! a = Some o -> w_heap w3 !! a = Some o) as Hk.
  { intros a o Had Ho Ha. apply (iof_heap _ _ Hf12) in Ha; [|done].
    rewrite Hk3; [done|apply not_elem_of_nil| |done]. apply (cl_wf _ _ _ _ _ _ _ Hc2) in Ha. lia. }
  assert (arguments w3 p al args) as [Hl Ha Hwf Hcnt Hfit].
  { apply (arguments_keep w); [|done]. intros a o Hin. apply Hk. destruct Hin as [Hin|Hin].
    - intros ->. by apply (device_not_addr _ _ _ _ _ (ag_ll _ _ _ _ Hag) (da_dev _ _ _ _ _ (cl_dev _ _ _ _ _ _ _ Hc))).
    - apply list_elem_of_fmap in Hin as (e & -> & He). rewrite Forall_forall in Hdev. by apply Hdev. }
  destruct (invoke_packet_ok w3 p al args idx function ret Hl Ha Hwf Hcnt Hfit) as (crc & Hpkt & Hok).
  set (pkt := call_packet _ _ _ _ _ _ _) in *.
  assert (inv ((h ++ [Lookup name]) ++ [Lookup name]) (w_env w3)) as Hi3 by (by rewrite Hw3').
  destruct (exchange w3 dev ctx (set_modules d head) [q] [resolved_module] _ (Call function ret args) pkt Hc3 Hi3 (conj Hwf (conj Hcnt Hfit)))
    as (w4 & w5 & H1 & H2 & Hc5 & Hf5 & Hi5); [split; [done|by exists crc]|].
  assert (w_next w <= w_next w2) as Hnx by (rewrite (iof_next _ _ Hf12); lia).
  exists w5, head, q. split.
  - unfold lf_invoke_by_index, lf_assert at 1. rewrite ctrue_nonzero by apply Hc. mstep Hlk.
    unfold lf_assert at 1. cbn [lf_success Z.eqb]. unfold invoke_module. mstep Hmod.
    rewrite ctrue_nonzero by (apply wf_next_nonnull, Hc2). cbn [default from_option]. unfold id.
    mstep Hpkt. mstep H1. unfold lf_assert, stack_result. cbn [lf_success Z.eqb]. mnorm. mstep H2. by rewrite result_value_ok.
  - split; [done|]. split; [rewrite (iof_attached _ _ Hf5), Hw3'; cbn; apply (iof_attached _ _ Hf12)|].
    split; [cbn; lia|]. split; [cbn; lia|]. split; [|by rewrite <- !app_assoc in Hi5].
    intros a o Had Ho Hao. apply (iof_heap _ _ Hf5); [done|]. by apply Hk.
Qed.

(** Either case of a call: the program knows the module, or no module. *)
Definition knows (known : bool) l ms : Prop :=
  if known then exists i m, ms !! i = Some m /\ has_name name m else l = [] /\ ms = [].
Definition lookups (known : bool) : list request := if known then [Lookup name] else [Lookup name; Lookup name].

Lemma client_invokes w dev ctx d l ms known h p al args function ret :
  client w dev ctx d c l ms -> knows known l ms -> inv h (w_env w) -> arguments w p al args ->
  Forall (fun e => e_item e <> dev) al ->
  exists w' d' l' ms', lf_invoke_by_index dev (Some name) function ret p w
      = Ok ((lf_success, Some (u64 (reply (Call function ret args)))), w') /\
    client w' dev ctx d' c l' ms' /\ knows true l' ms' /\ w_attached w' = w_attached w /\
    (forall e, e ∈ l' -> e ∈ l \/ (w_next w <= e_addr e /\ w_next w <= e_item e)) /\
    (forall a o, a <> dev -> is_ctx o = false -> w_heap w !! a = Some o -> w_heap w' !! a = Some o) /\
    inv (h ++ lookups known ++ [Call function ret args]) (w_env w').
Proof.
  intros Hc Hk Hi Hag Hdev. destruct known.
  - destruct Hk as (i & m & Hm & Hn).
    destruct (client_invoke w dev ctx d l ms h i m p al args function ret Hc Hi Hm Hn Hag) as (w' & Hrun & Hc' & Hf & Hi').
    exists w', d, l, ms. split; [done|]. split; [done|]. split; [by exists i, m|]. split; [apply (iof_attached _ _ Hf)|].
    split; [by left|]. split; [|done]. intros a o _. apply (iof_heap _ _ Hf).
  - destruct Hk as [-> ->].
    destruct (client_invoke_first w dev ctx d h p al args function ret Hc Hi Hag Hdev)
      as (w' & head & q & Hrun & Hc' & Ha & H1 & H2 & Hkeep & Hi').
    exists w', (set_modules d head), [q], [resolved_module]. split; [done|]. split; [done|].
    split; [exists 0%nat, resolved_module; split; [done|apply resolved_named]|]. split; [done|].
    split; [by intros e ->%list_elem_of_singleton; right|done].
Qed.
End Device.

(** ** Connecting *)

Lemma lf_network_connect_framed device host port : framed (E:=E) (lf_network_connect device host port).
Proof.
  assert (forall A (f : E -> A * E), framed (env_op f)) as Henv.
  { intros A f w a w' H. unfold env_op in H. destruct (f (w_env w)). simplify_eq. apply io_frame_set_env. }
  unfold lf_network_connect, connect_fail. cbv zeta. framed.
Qed.

Definition endpoint (fd : Z) (host : list Z) (addr : sockaddr_in) : lf_network_context :=
  NetCtx fd (host64 host) (SockAddr 0 0) addr.

(** The prologue of the programs: a device with an endpoint context, connected. *)
Lemma client_connects w host port fd e1 e2 :
  wf_world w -> no_oom w -> sys_socket (w_env w) = (fd, e1) -> 0 < fd ->
  sys_bind fd (SockAddr INADDR_ANY (htons 0)) e1 = (0, e2) ->
  let target := if bool_decide (host = str_localhost) then str_loopback else host in
  inet_addr target <> INADDR_NONE ->
  exists dev ctx d w1 w2 w3,
    lf_device_create_named (Some str_fvm) fn_lf_network_read fn_lf_network_write fn_lf_network_release w = Ok (dev, w1) /\
    dev <> 0 /\ attach_context dev w1 = Ok (ctx, w2) /\ ctx <> 0 /\
    lf_network_connect dev host port w2 = Ok (lf_success, w3) /\ w_env w3 = e2 /\ w_attached w3 = w_attached w /\
    client w3 dev ctx d (endpoint fd target (SockAddr (inet_addr target) (htons port))) [] [].
Proof.
  intros Hw Ho Hs Hfd Hb target Hip.
  pose proof (lf_device_create_named_ok (Some str_fvm) fn_lf_network_read fn_lf_network_write fn_lf_network_release w Hw
           (no_oom_alloc_fails _ Ho)) as Hcr. set (d0 := LfDevice _ _ _ _ _ _ _ _ _) in Hcr.
  set (dev := w_next w) in *. set (w1 := alloc_at (ODevice d0) w) in *.
  assert (wf_world w1) as Hw1 by (by apply wf_alloc). assert (no_oom w1) as Ho1 by (by apply no_oom_alloc).
  assert (dev <> 0) as Hd0 by (by apply wf_next_nonnull). assert (dev < w_next w1) as Hlt by (cbn; unfold dev; lia).
  set (ctx := w_next w1). set (w2 := set_heap (<[dev := ODevice (set_ep_ctx d0 ctx)]> (w_heap (alloc_at (ONet net_zero) w1))) (alloc_at (ONet net_zero) w1)).
  assert (w_heap (alloc_at (ONet net_zero) w1) !! dev = Some (ODevice d0)) as Hdv.
  { cbn. rewrite lookup_insert_ne by (cbn in Hlt; lia). apply lookup_insert_eq. }
  assert (attach_context dev w1 = Ok (ctx, w2)) as Hat.
  { unfold attach_context. mstep (malloc_ok w1 (fun _ => ONet net_zero) (no_oom_alloc_fails _ Ho1)).
    mstep (load_device_ok _ _ _ Hdv). by mstep (store_ok _ _ (ODevice (set_ep_ctx d0 ctx)) _ Hdv). }
  assert (wf_world w2) as Hw2 by (apply (wf_store _ _ _ _ Hdv); by apply wf_alloc).
  assert (w_heap w2 !! dev = Some (ODevice (set_ep_ctx d0 ctx))) as Hd2 by apply lookup_insert_eq.
  assert (net_at w2 dev (set_ep_ctx d0 ctx) ctx net_zero) as Hnet.
  { split; [done|]. split; [by apply wf_next_nonnull|]. split; [done|]. split; [done|].
    cbn. rewrite lookup_insert_ne by (unfold ctx, dev; cbn; lia). apply lookup_insert_eq. }
  destruct (lf_network_connect_ok w2 dev _ ctx net_zero host port fd e1 e2 Hnet Hs Hfd Hb Hip) as (w3 & Hrun & He & Hnet3).
  pose proof (lf_network_connect_framed _ _ _ _ _ _ Hrun) as Hf.
  exists dev, ctx, (set_ep_ctx d0 ctx), w1, w2, w3. do 2 (split; [done|]). split; [done|]. split; [by apply wf_next_nonnull|].
  split; [done|]. split; [done|]. split; [by rewrite (iof_attached _ _ Hf)|].
  apply (client_io w2 w3 dev ctx (set_ep_ctx d0 ctx) net_zero); [done| |apply Hnet3]. split; [done| | |done|done..|].
  - exact (no_oom_alloc w1 (ONet net_zero) Ho1).
  - split; [done|done|constructor|done].
  - destruct Hw as [Hb' _], Hw1 as [Hb1 _]. done.
Qed.

(** ** The programs *)

(** The port [port] of this host. *)
Definition loopback (port : Z) : sockaddr_in := SockAddr (inet_addr str_loopback) (htons port).

(** A program starts, and the device with the module [name] at [idx] listens on
    [port] of this host. *)
Record device_listens w (port fd idx : Z) (name : list Z) (inv : list request -> E -> Prop) (reply : request -> Z) : Prop := {
  dl_wf : wf_world w;
  dl_oom : no_oom w;
  dl_attached : w_attached w = 0;
  dl_name : is_cstring name /\ (length name < LF_MODULE_NAME_MAX)%nat;
  dl_socket : exists e1 e2, sys_socket (w_env w) = (fd, e1) /\ 0 < fd /\
    sys_bind fd (SockAddr INADDR_ANY (htons 0)) e1 = (0, e2) /\ inv [] e2;
  dl_addr : inet_addr str_loopback <> INADDR_NONE /\ inet_addr str_loopback <> 0 /\ htons port <> 0;
  dl_answers : answers fd (loopback port) idx inv reply;
  dl_index : reply (Lookup name) = idx /\ 0 <= idx < 2 ^ 16;
}.

Definition local_endpoint (fd port : Z) : lf_network_context :=
  endpoint fd str_loopback (loopback port).

(** The lookup every program starts with. *)
Lemma client_starts w port fd idx name inv reply host :
  device_listens w port fd idx name inv reply -> host = str_localhost \/ host = str_loopback ->
  exists dev ctx d w1 w2 w3 w4,
    lf_device_create_named (Some str_fvm) fn_lf_network_read fn_lf_network_write fn_lf_network_release w = Ok (dev, w1) /\
    dev <> 0 /\ attach_context dev w1 = Ok (ctx, w2) /\ ctx <> 0 /\
    lf_network_connect dev host port w2 = Ok (lf_success, w3) /\
    client w3 dev ctx d (local_endpoint fd port) [] [] /\ w_attached w3 = 0 /\
    lf_dyld_dyn_sym_lookup dev (Some name) (set_current dev w3) = Ok ((lf_success, Some idx), w4) /\
    client w4 dev ctx d (local_endpoint fd port) [] [] /\ w_attached w4 = 0 /\ inv [Lookup name] (w_env w4).
Proof.
  intros [Hw Ho Hat [Hcs Hlen] (e1 & e2 & Hs & Hfd & Hb & Hi) (Hn1 & Hn0 & Hp0) Hans [Hidx Hr]] Hhost.
  assert ((if bool_decide (host = str_localhost) then str_loopback else host) = str_loopback) as Ht
    by (destruct Hhost as [->| ->]; reflexivity).
  destruct (client_connects w host port fd e1 e2) as (dev & ctx & d & w1 & w2 & w3 & H1 & H2 & H3 & H4 & H5 & He & Ha & Hc);
    try done; [by rewrite Ht|]. rewrite Ht in Hc.
  assert (client (set_current dev w3) dev ctx d (local_endpoint fd port) [] []) as Hc'.
  { destruct Hc as [A1 A2 A3 A4 A5 A6 A7 A8]. by split. }
  destruct (client_lookup fd (loopback port) idx inv reply Hn0 Hp0 Hans (local_endpoint fd port) eq_refl eq_refl name Hcs Hlen Hidx Hr
              (set_current dev w3) dev ctx d [] [] [] Hc') as (w4 & Hlk & Hc4 & Hf & Hi4); [by cbn; rewrite He|].
  exists dev, ctx, d, w1, w2, w3, w4. do 6 (split; [done|]). split; [congruence|]. split; [done|]. split; [done|].
  split; [|done]. rewrite (iof_attached _ _ Hf). cbn. congruence.
Qed.

Lemma lf_exit_empty w : w_attached w = 0 -> lf_exit w = Ok (lf_success, set_attached 0 w).
Proof. intros H. unfold lf_exit. rewrite bind_gets, H. unfold lf_ll_release. mnorm. done. Qed.

Definition dac_calls (fs : list Z) : list request := flat_map (fun f => [Lookup (ascii "dac_module"); Call f lf_void_t []]) fs.

Lemma no_arguments w : arguments w 0 [] [].
Proof. split; [done|constructor|constructor|apply Nat.le_0_l|]. change (args_size []) with 0%nat. simpl. lia. Qed.

Lemma dac_calls_ok w port fd idx inv reply fs w1 dev ctx d q m h :
  device_listens w port fd idx (ascii "dac_module") inv reply -> has_name (ascii "dac_module") m ->
  client w1 dev ctx d (local_endpoint fd port) [q] [m] -> inv h (w_env w1) ->
  exists w2, DacTest.calls dev fs w1 = Ok (0, w2) /\ w_attached w2 = w_attached w1 /\ inv (h ++ dac_calls fs) (w_env w2).
Proof.
  intros [_ _ _ [Hcs Hlen] _ (_ & Hn0 & Hp0) Hans [Hidx Hr]] Hm. revert w1 h.
  induction fs as [|f fs IH]; intros w1 h Hc Hi; cbn [DacTest.calls dac_calls flat_map].
  - exists w1. by rewrite app_nil_r.
  - destruct (client_invoke fd (loopback port) idx inv reply Hn0 Hp0 Hans (local_endpoint fd port) eq_refl eq_refl _ Hcs Hlen Hidx Hr
                w1 dev ctx d [q] [m] h 0 m 0 [] [] f lf_void_t Hc Hi eq_refl Hm (no_arguments w1))
      as (w2 & Hrun & Hc2 & Hf2 & Hi2). mstep Hrun. cbn [lf_success Z.eqb negb].
    destruct (IH w2 _ Hc2 Hi2) as (w3 & H3 & Ha3 & Hi3). exists w3. split; [done|]. split; [|by rewrite <- app_assoc in Hi3].
    rewrite Ha3. apply (iof_attached _ _ Hf2).
Qed.

(** The requests of the DAC test. *)
Definition dac_session : list request :=
  let lookup := Lookup (ascii "dac_module") in
  [lookup; lookup; lookup; Call 0 lf_void_t []] ++ dac_calls [1; 2; 3; 4].

Lemma dac_test_ok w f fd idx inv reply :
  device_listens w (DacTest.dac_test_port f) fd idx (ascii "dac_module") inv reply ->
  exists w', DacTest.dac_test_main f w = Ok (0, w') /\ inv dac_session (w_env w').
Proof.
  intros Hdl. set (port := DacTest.dac_test_port f) in *.
  destruct (client_starts w port fd idx _ inv reply str_localhost Hdl (or_introl eq_refl))
    as (dev & ctx & d & w1 & w2 & w3 & w4 & H1 & Hd & H2 & Hx & H3 & _ & _ & H4 & Hc4 & Ha4 & Hi4).
  pose proof Hdl as [_ _ _ [Hcs Hlen] _ (_ & Hn0 & Hp0) Hans [Hidx Hr]].
  destruct (client_invoke_first fd (loopback port) idx inv reply Hn0 Hp0 Hans (local_endpoint fd port) eq_refl eq_refl _ Hcs Hlen Hidx Hr
              w4 dev ctx d _ 0 [] [] 0 lf_void_t Hc4 Hi4 (no_arguments w4) ltac:(constructor))
    as (w5 & head & q & H5 & Hc5 & Ha5 & _ & _ & _ & Hi5).
  destruct (dac_calls_ok w port fd idx inv reply [1; 2; 3; 4] w5 dev ctx _ q _ _ Hdl (resolved_named idx _ Hcs Hlen) Hc5 Hi5)
    as (w6 & H6 & Ha6 & Hi6).
  exists (set_attached 0 w6). split; [|done]. unfold DacTest.dac_test_main, lf_create_virtual_device. fold port.
  mstep H1. destruct (Z.eqb_spec dev 0); [done|]. mstep H2. destruct (Z.eqb_spec ctx 0); [done|]. mstep H3.
  cbn [lf_success Z.eqb negb]. unfold lf_select, lf_assert. rewrite ctrue_nonzero by done. unfold lf_set_current_device. mnorm.
  cbn [lf_success Z.eqb negb]. mstep H4. cbn [lf_success Z.eqb negb]. cbn [DacTest.calls] in H6 |- *. mnorm. mstep H5.
  cbn [lf_success Z.eqb negb]. mstep H6. cbn [Z.eqb negb]. rewrite (bind_Ok _ _ _ _ _ (lf_exit_empty w6 ltac:(congruence))). done.
Qed.

Lemma device_at_frame h h' dev d l ms :
  device_at h dev d l ms ->
  (forall a, a = dev \/ a ∈ addrs l \/ a ∈ (e_item <$> l) -> h' !! a = h !! a) -> device_at h' dev d l ms.
Proof.
  intros [Hd Hl Hm Hn] Hk. split; [by rewrite Hk; [|left]| | |done].
  - apply (is_ll_frame h); [done|]. intros a Ha. apply Hk. auto.
  - apply (modules_at_frame h); [done|]. intros e He. apply Hk. right. right. by apply list_elem_of_fmap_2.
Qed.

(** Objects of the registry are live. *)
Lemma device_at_live w dev d l ms a :
  wf_world w -> device_at (w_heap w) dev d l ms -> a = dev \/ a ∈ addrs l \/ a ∈ (e_item <$> l) -> a < w_next w.
Proof.
  intros [_ Hw] [Hd Hl Hm _] [->|[Ha|Ha]].
  - apply Hw in Hd. lia.
  - destruct (is_ll_lookup _ _ _ _ Hl Ha) as (_ & nd & Hnd). apply Hw in Hnd. lia.
  - apply list_elem_of_fmap in Ha as (e & -> & He). apply list_elem_of_lookup in He as (i & He).
    destruct (Forall2_lookup_l _ _ _ _ _ Hm He) as (m & _ & Hat). apply Hw in Hat. lia.
Qed.

(** Heap changes away from the client's objects. *)
Lemma client_frame w h' n f dev ctx d c l ms :
  client w dev ctx d c l ms -> wf_world (set_heap h' (set_alloc n f w)) -> Forall (fun b => b = false) f ->
  (forall a, a = ctx \/ a = dev \/ a ∈ addrs l \/ a ∈ (e_item <$> l) -> h' !! a = w_heap w !! a) ->
  client (set_heap h' (set_alloc n f w)) dev ctx d c l ms.
Proof.
  intros [Hw Ho Hda (H1 & H2 & H3 & H4 & H5) Hn Hr Hwr Hb] Hw' Hf Hk. split; [done|done| | |done..].
  - apply (device_at_frame (w_heap w)); [done|]. intros a Ha. apply Hk. by right.
  - split; [done|]. split; [done|]. split; [|split; [done|]]; cbn [w_heap set_heap]; rewrite Hk; auto.
Qed.

(** A list with one argument, as the tests build it. *)
Lemma argument_list w dev ctx d c l ms type value :
  client w dev ctx d c l ms ->
  exists w1 w2 p h', lf_arg_create type value w = Ok (w_next w, w1) /\
    lf_ll_append (Some 0) (w_next w) fn_free w1 = Ok ((lf_success, Some p), w2) /\
    arguments w2 p [Entry (w_next w + 16) (w_next w) fn_free] [LfArg (u8 type) (u64 value)] /\
    client w2 dev ctx d c l ms /\ w2 = set_heap h' (set_alloc (w_next w + 16 + 16) (tail (tail (w_fail w))) w).
Proof.
  intros Hc. pose proof Hc as [Hw Ho Hda Hnet _ _ _ _]. set (arg := LfArg (u8 type) (u64 value)).
  set (w1 := alloc_at (OArg arg) w). assert (wf_world w1) as Hw1 by (by apply wf_alloc).
  assert (no_oom w1) as Ho1 by (by apply no_oom_alloc).
  destruct (lf_ll_append_spec w1 0 [] (w_next w) fn_free Hw1 (no_oom_alloc_fails _ Ho1) eq_refl)
    as (p & h' & Hap & Hl & _ & Hk & Hw2). change (w_next w1) with (w_next w + 16) in *.
  set (w2 := set_heap h' _) in *. exists w1, w2, p, h'.
  split; [exact (malloc_ok w (fun _ => OArg arg) (no_oom_alloc_fails _ Ho))|]. split; [done|].
  assert (h' !! w_next w = Some (OArg arg)) as Harg.
  { rewrite Hk; [apply lookup_insert_eq|apply not_elem_of_nil|lia]. }
  split; [|split; [|done]].
  - split; [done|by constructor| | |].
    + constructor; [|done]. split; [apply u8_range|apply Z.mod_pos_bound; lia].
    + unfold FMR_MAX_ARGC. cbn. lia.
    + change (args_size [arg]) with (lf_sizeof (arg_type arg) + 0)%nat. unfold lf_sizeof. cbn [length]. repeat case_match; lia.
  - apply (client_frame w h' (w_next w + 16 + 16) (tail (tail (w_fail w)))); [done|done|exact (no_oom_tail w1 Ho1)|].
    intros a Ha. assert (a < w_next w) as Hlt.
    { destruct Ha as [->|Ha]; [|by eapply device_at_live]. destruct Hnet as (_ & _ & _ & _ & H5). apply Hw in H5. lia. }
    rewrite Hk; [|apply not_elem_of_nil|lia]. cbn. apply lookup_insert_ne. lia.
Qed.

(** The client that calls one function. *)
Lemma client_main_ok {PS : PollSockets E} w name port_arg f fd idx inv reply :
  device_listens w (Client.port port_arg f) fd idx name inv reply ->
  exists w' e r, Client.client_main (Some name) port_arg f w
      = Ok ((0, Some (u64 (reply (Call 0 lf_void_t [])), Client.extra_response r)), w') /\
    inv [Lookup name; Lookup name; Lookup name; Call 0 lf_void_t []] e /\
    sys_recv_now fd (Client.BUFFER_SIZE - 1) e = (r, w_env w').
Proof.
  intros Hdl. set (port := Client.port port_arg f) in *.
  destruct (client_starts w port fd idx _ inv reply str_loopback Hdl (or_intror eq_refl))
    as (dev & ctx & d & w1 & w2 & w3 & w4 & H1 & Hd & H2 & Hx & H3 & Hc3 & _ & H4 & Hc4 & Ha4 & Hi4).
  pose proof Hdl as [_ _ _ [Hcs Hlen] _ (_ & Hn0 & Hp0) Hans [Hidx Hr]].
  destruct (client_invoke_first fd (loopback port) idx inv reply Hn0 Hp0 Hans (local_endpoint fd port) eq_refl eq_refl _ Hcs Hlen Hidx Hr
              w4 dev ctx d _ 0 [] [] 0 lf_void_t Hc4 Hi4 (no_arguments w4) ltac:(constructor))
    as (w5 & head & q & H5 & Hc5 & _ & _ & _ & _ & Hi5).
  pose proof Hc5 as [_ _ Hda (_ & _ & _ & Hep & Hnet) _ _ _ [Hbd Hbc]].
  destruct (sys_recv_now fd (Client.BUFFER_SIZE - 1) (w_env w5)) as [r e] eqn:Hrcv.
  set (w6 := set_env e w5). set (w7 := set_heap (delete ctx (w_heap w6)) w6).
  assert (w_heap w7 !! dev = Some (ODevice (set_modules d head))) as Hd7.
  { cbn. rewrite lookup_delete_ne; [apply Hda|]. intros ->. pose proof (da_dev _ _ _ _ _ Hda). congruence. }
  exists (set_heap (delete dev (w_heap w7)) w7), (w_env w5), r. split; [|by split].
  unfold Client.client_main. fold port. mstep H1. destruct (Z.eqb_spec dev 0); [done|]. mstep H2. destruct (Z.eqb_spec ctx 0); [done|].
  mstep H3. cbn [lf_success Z.eqb negb]. unfold lf_select, lf_assert. rewrite ctrue_nonzero by done. unfold lf_set_current_device. mnorm.
  change (lf_success <? 0) with false. cbv iota.
  mstep (load_device_ok (set_current dev w3) dev d (da_dev _ _ _ _ _ (cl_dev _ _ _ _ _ _ _ Hc3))).
  rewrite (cl_name _ _ _ _ _ _ _ Hc3). rewrite (bind_lift_opt (cstr (name32 str_fvm)) str_fvm) by done.
  rewrite bool_decide_false by done. mnorm. mstep H4. cbn [lf_success Z.eqb negb]. mstep H5. cbn [lf_success Z.eqb negb].
  mstep (load_net_ok w5 ctx _ Hnet). change (nc_fd (local_endpoint fd port)) with fd.
  rewrite (bind_Ok _ _ _ r w6) by (unfold env_op; by rewrite Hrcv). unfold Client.release. mnorm.
  mstep (load_device_ok w6 dev _ (da_dev _ _ _ _ _ Hda)). rewrite Hep.
  mnorm. mstep (free_ok w6 ctx _ Hbc Hnet). by mstep (lf_device_release_ok dev _ w7 Hbd Hd7).
Qed.

(** The request of a test and the verdict on its answer. *)
Definition test_arg (t : RuntimeTest.test) : lf_arg := LfArg (u8 (RuntimeTest.t_type t)) (u64 (RuntimeTest.t_value t)).
Definition test_call (t : RuntimeTest.test) : request := Call (RuntimeTest.t_function t) (RuntimeTest.t_ret t) [test_arg t].
Definition verdict_of (t : RuntimeTest.test) (v : Z) : verdict :=
  if RuntimeTest.t_expected t =? sint 64 (u64 v) then PASS else FAIL.

(** Releasing the argument list keeps the client. *)
Lemma client_release w dev ctx d c l ms p n :
  client w dev ctx d c l ms -> heap_base <= n ->
  is_ll (w_heap w) p [Entry (n + 16) n fn_free] -> is_Some (w_heap w !! n) -> ctx < n -> dev < n ->
  (forall e, e ∈ l -> (e_addr e < n \/ n + 32 <= e_addr e) /\ (e_item e < n \/ n + 32 <= e_item e)) ->
  exists h', lf_ll_release (Some p) w = Ok ((lf_success, Some 0), set_heap h' w) /\ client (set_heap h' w) dev ctx d c l ms.
Proof.
  intros Hc Hb Hl Hlive Hctx Hdev Hfar. pose proof Hc as [Hw Ho _ _ _ _ _ _].
  destruct (lf_ll_release_spec w p _ Hl) as (h' & Hrun & Hq).
  - constructor; [cbn; lia|constructor].
  - split; [apply NoDup_singleton|]. intros e ->%list_elem_of_singleton _. split.
    + split; [cbn; lia|]. left. by split.
    + cbn. rewrite list_elem_of_singleton. lia.
  - exists h'. split; [done|]. change (set_heap h' w) with (set_heap h' (set_alloc (w_next w) (w_fail w) w)).
    apply client_frame; [done| |done|].
    + apply (wf_set_heap_sub w h' Hw). intros q. rewrite Hq. case_decide; [by intros []|done].
    + intros a Ha. rewrite Hq, decide_False; [done|]. change (owned [Entry (n + 16) n fn_free]) with [n].
      cbn. rewrite !list_elem_of_singleton. destruct Ha as [->|[->|[(e & -> & He)%list_elem_of_fmap|(e & -> & He)%list_elem_of_fmap]]].
      * lia.
      * lia.
      * destruct (Hfar e He). lia.
      * destruct (Hfar e He). lia.
Qed.

Section Tests.
Context (port fd idx : Z) (name : list Z) (inv : list request -> E -> Prop) (reply : request -> Z).
Context (w0 : world E) (Hdl : device_listens w0 port fd idx name inv reply).

Lemma run_test_ok w dev ctx d l ms known h t :
  client w dev ctx d (local_endpoint fd port) l ms -> knows name known l ms -> inv h (w_env w) ->
  exists w' d' l' ms', RuntimeTest.run_test dev name t w = Ok (Some (verdict_of t (reply (test_call t))), w') /\
    client w' dev ctx d' (local_endpoint fd port) l' ms' /\ knows name true l' ms' /\ w_attached w' = w_attached w /\
    inv (h ++ lookups name known ++ [test_call t]) (w_env w').
Proof.
  intros Hc Hk Hi. pose proof Hdl as [_ _ _ [Hcs Hlen] _ (_ & Hn0 & Hp0) Hans [Hidx Hr]].
  pose proof Hc as [Hw _ Hda (_ & _ & Hd & _ & Hx) _ _ _ _].
  destruct (argument_list w dev ctx d _ l ms (RuntimeTest.t_type t) (RuntimeTest.t_value t) Hc)
    as (w1 & w2 & p & h2 & H1 & H2 & Hag & Hc2 & Hw2). fold (test_arg t) in Hag.
  destruct (client_invokes fd (loopback port) idx inv reply Hn0 Hp0 Hans (local_endpoint fd port) eq_refl eq_refl name Hcs Hlen Hidx Hr
              w2 dev ctx d l ms known h p [Entry (w_next w + 16) (w_next w) fn_free] [test_arg t] (RuntimeTest.t_function t) (RuntimeTest.t_ret t) Hc2 Hk)
    as (w3 & d' & l' & ms' & H3 & Hc3 & Hk3 & Ha3 & Hnew & Hkeep & Hi3); [by rewrite Hw2|done| |].
  { constructor; [|done]. cbn. intros Heq. apply Hw in Hd. lia. }
  fold (test_call t) in H3, Hi3.
  assert (dev < w_next w /\ ctx < w_next w) as [Hdl' Hxl] by (apply Hw in Hd, Hx; lia).
  assert (w_next w2 = w_next w + 32) as Hn2 by (rewrite Hw2; cbn; lia).
  destruct (client_release w3 dev ctx d' _ l' ms' p (w_next w) Hc3 (proj1 Hw)) as (h4 & H4 & Hc4); [..|done|done| |].
  - apply (is_ll_frame (w_heap w2)); [apply Hag|]. intros a Ha. destruct (is_ll_lookup _ _ _ _ (ag_ll _ _ _ _ Hag) Ha) as (_ & nd & Hnd).
    rewrite Hnd. apply Hkeep; [|done|done]. apply list_elem_of_singleton in Ha. cbn in Ha. lia.
  - pose proof (ag_args _ _ _ _ Hag) as Hargs. apply Forall2_cons in Hargs as [Hat _]. eexists. apply Hkeep; [lia| |exact Hat]. done.
  - intros e He. destruct (Hnew e He) as [Hold|[Ha Hb]]; [|lia].
    split; left; (eapply device_at_live; [done|exact Hda|]); [right; left|right; right]; by apply list_elem_of_fmap_2.
  - exists (set_heap h4 w3), d', l', ms'. split; [|split; [done|split; [done|split; [|done]]]].
    + unfold RuntimeTest.run_test. mstep H1. destruct (Z.eqb_spec (w_next w) 0) as [H0|_]; [by apply wf_next_nonnull in H0|].
      mstep H2. cbn [lf_success Z.eqb negb default from_option]. unfold id. mstep H3. cbv zeta. by mstep H4.
    + cbn. rewrite Ha3, Hw2. done.
Qed.

(** The requests of the tests. *)
Fixpoint test_requests (known : bool) (ts : list RuntimeTest.test) : list request :=
  match ts with [] => [] | t :: ts => lookups name known ++ [test_call t] ++ test_requests true ts end.

Lemma run_tests_ok ts w dev ctx d l ms known h :
  client w dev ctx d (local_endpoint fd port) l ms -> knows name known l ms -> inv h (w_env w) ->
  exists w' d' l' ms',
    RuntimeTest.run_tests dev name ts w = Ok ((true, (fun t => verdict_of t (reply (test_call t))) <$> ts), w') /\
    client w' dev ctx d' (local_endpoint fd port) l' ms' /\ w_attached w' = w_attached w /\
    inv (h ++ test_requests known ts) (w_env w').
Proof.
  revert w d l ms known h. induction ts as [|t ts IH]; intros w d l ms known h Hc Hk Hi; cbn [RuntimeTest.run_tests test_requests].
  - exists w, d, l, ms. by rewrite app_nil_r.
  - destruct (run_test_ok w dev ctx d l ms known h t Hc Hk Hi) as (w1 & d1 & l1 & ms1 & H1 & Hc1 & Hk1 & Ha1 & Hi1).
    destruct (IH w1 d1 l1 ms1 true _ Hc1 Hk1 Hi1) as (w2 & d2 & l2 & ms2 & H2 & Hc2 & Ha2 & Hi2).
    exists w2, d2, l2, ms2. split; [by mstep H1; mstep H2|]. split; [done|]. split; [congruence|]. by rewrite <- !app_assoc in Hi2.
Qed.

Lemma cleanup_ok w dev ctx d c l ms :
  client w dev ctx d c l ms -> w_attached w = 0 ->
  RuntimeTest.cleanup dev w = Ok (tt, set_attached 0 (set_heap (delete dev (w_heap w)) (set_attached 0 w))).
Proof.
  intros [_ _ Hda (H0 & _) _ _ _ [Hb _]] Ha. unfold RuntimeTest.cleanup, lf_detach, lf_assert. rewrite ctrue_nonzero by done. mnorm.
  rewrite ?bind_gets, Ha. unfold lf_ll_remove. mnorm. cbn [ll_remove_loop walk_fuel Z.eqb]. mnorm. cbn [default from_option]. mnorm.
  mstep (lf_device_release_ok dev (ODevice d) (set_attached 0 w) Hb (da_dev _ _ _ _ _ Hda)).
  by mstep (lf_exit_empty (set_heap (delete dev (w_heap w)) (set_attached 0 w)) eq_refl).
Qed.

(** The program, from its arguments to its exit code. *)
Lemma runtime_test_ok f rest :
  port = (if RuntimeTest.fmr_test_port f <? 0 then LF_UDP_PORT else RuntimeTest.fmr_test_port f) ->
  exists w', RuntimeTest.fmr_test_main (ascii "--device" :: ascii "fvm" :: name :: rest) f w0
      = Ok ((0, (fun t => verdict_of t (reply (test_call t))) <$> RuntimeTest.tests), w') /\
    inv (Lookup name :: test_requests false RuntimeTest.tests) (w_env w').
Proof.
  intros Hport.
  destruct (client_starts w0 port fd idx _ inv reply str_localhost Hdl (or_introl eq_refl))
    as (dev & ctx & d & w1 & w2 & w3 & w4 & H1 & Hd & H2 & Hx & H3 & _ & _ & H4 & Hc4 & Ha4 & Hi4).
  destruct (run_tests_ok RuntimeTest.tests w4 dev ctx d [] [] false _ Hc4 (conj eq_refl eq_refl) Hi4)
    as (w5 & d5 & l5 & ms5 & H5 & Hc5 & Ha5 & Hi5).
  exists (set_attached 0 (set_heap (delete dev (w_heap w5)) (set_attached 0 w5))). split; [|exact Hi5].
  unfold RuntimeTest.fmr_test_main, lf_create_virtual_device. rewrite !bool_decide_true by done. cbn [negb]. cbv zeta. rewrite <- Hport.
  mstep H1. destruct (Z.eqb_spec dev 0); [done|]. mstep H2. destruct (Z.eqb_spec ctx 0); [done|]. mstep H3.
  cbn [lf_success Z.eqb negb]. unfold RuntimeTest.session, lf_select, lf_assert. rewrite ctrue_nonzero by done.
  unfold lf_set_current_device. mnorm. cbn [lf_success Z.eqb negb]. mstep H4. cbn [lf_success Z.eqb negb]. mstep H5.
  rewrite (bind_Ok _ _ _ _ _ (cleanup_ok w5 dev ctx d5 _ l5 ms5 Hc5 ltac:(congruence))). done.
Qed.
End Tests.
End Session.

(** The specification of the test module, as an answer to a call. *)
Definition specified (reply : request -> Z) : Prop :=
  forall (fi : nat) type spec a v ret, test_spec !! fi = Some (type, spec) -> arg_type a = type ->
    spec (arg_value a mod 2 ^ (8 * Z.of_nat (lf_sizeof type))) = Some v -> reply (Call (Z.of_nat fi) ret [a]) = v.

(** What a test expects is what the specification gives for its argument. *)
Definition expects (t : RuntimeTest.test) : bool :=
  match test_spec !! Z.to_nat (RuntimeTest.t_function t) with
  | Some (type, spec) =>
    (arg_type (test_arg t) =? type) && (0 <=? RuntimeTest.t_function t) &&
    match spec (arg_value (test_arg t) mod 2 ^ (8 * Z.of_nat (lf_sizeof type))) with
    | Some v => bool_decide (verdict_of t v = PASS)
    | None => false
    end
  | None => false
  end.

Lemma expects_pass reply t : specified reply -> expects t = true -> verdict_of t (reply (test_call t)) = PASS.
Proof.
  intros Hs H. unfold expects in H. destruct (test_spec !! _) as [[type spec]|] eqn:Hsp; [|done].
  destruct (spec _) as [v|] eqn:Hv; [|by rewrite andb_false_r in H]. apply andb_true_iff in H as [[Ht Hf]%andb_true_iff Hp].
  apply Z.eqb_eq in Ht. apply Z.leb_le in Hf. apply bool_decide_eq_true in Hp. rewrite <- Hp. f_equal.
  unfold test_call. rewrite <- (Z2Nat.id (RuntimeTest.t_function t)) at 1 by done. by apply (Hs _ type spec).
Qed.

Lemma tests_expect : forallb expects RuntimeTest.tests = true.
Proof. vm_compute. reflexivity. Qed.

(** C4: The test of the message runtime passes: against any device that answers
    lookups with the module's index and calls as the test module specifies, the
    program asks for the module, makes the fourteen calls, each after a lookup (the
    first after two), prints PASS for every one and exits with 0. *)
Theorem runtime_test_passes {E} `{!Sockets E, !Usb E} (w : world E) f fd idx name inv reply :
  let port := if RuntimeTest.fmr_test_port f <? 0 then LF_UDP_PORT else RuntimeTest.fmr_test_port f in
  device_listens w port fd idx name inv reply -> specified reply ->
  exists w', RuntimeTest.fmr_test_main [ascii "--device"; ascii "fvm"; name] f w = Ok ((0, replicate 14 PASS), w') /\
    inv (Lookup name :: test_requests name false RuntimeTest.tests) (w_env w').
Proof.
  intros port Hdl Hs. destruct (runtime_test_ok port fd idx name inv reply w Hdl f [] eq_refl) as (w' & Hrun & Hi).
  exists w'. split; [|done]. rewrite Hrun. do 3 f_equal.
  assert (forall t, t ∈ RuntimeTest.tests -> verdict_of t (reply (test_call t)) = PASS) as Hp.
  { intros t Ht. apply (expects_pass reply t Hs). pose proof tests_expect as Hx. rewrite forallb_forall in Hx.
    by apply Hx, list_elem_of_In. }
  transitivity ((fun _ => PASS) <$> RuntimeTest.tests); [|reflexivity]. apply list_fmap_ext. intros i t Ht.
  apply Hp. by apply list_elem_of_lookup_2 with i.
Qed.

(** The DAC test succeeds against any device with a DAC module that answers: it
    sends exactly twelve requests, three lookups before the first call and one
    before each of the others, and exits with 0, whatever values the device
    answers. *)
Theorem dac_test_session {E} `{!Sockets E, !Usb E} (w : world E) f fd idx inv reply :
  device_listens w (DacTest.dac_test_port f) fd idx (ascii "dac_module") inv reply ->
  exists w', DacTest.dac_test_main f w = Ok (0, w') /\ inv dac_session (w_env w').
Proof. apply dac_test_ok. Qed.

(** ** A device that computes the tests *)

(** The environment of the instances: what was sent, newest last. *)
Record bench := Bench { b_sent : list (list Z) }.

(** The device has its module at index 3 and computes the specified result from
    the bytes of the argument. *)
Definition computed (function : Z) (argv : list Z) : Z :=
  match test_spec !! Z.to_nat function with
  | Some (type, spec) => default 0 (spec (le_val (take (lf_sizeof type) argv)))
  | None => 0
  end.
Definition bench_answer (pkt : list Z) : Z :=
  if default 0 (pkt !! 5%nat) =? fmr_dyld_class then 3 else computed (default 0 (pkt !! 7%nat)) (drop 26 pkt).
Definition bench_reply (r : request) : Z :=
  match r with Lookup _ => 3 | Call function _ args => computed (u8 function) (argv_area args) end.

Definition bench_addr : sockaddr_in := SockAddr 0x0100007F (htons LF_UDP_PORT).
#[local] Instance bench_sockets : Sockets bench := {|
  sys_socket e := (3, e); sys_bind _ _ e := (0, e);
  sys_recvfrom _ _ e := (RcvOk (result_bytes (bench_answer (default [] (last (b_sent e)))) (err_code E_OK)) bench_addr, e);
  sys_sendto _ bs _ e := (Z.of_nat 64, Bench (b_sent e ++ [bs]));
  sys_close _ e := e; sys_usleep _ e := e; inet_addr _ := 0x0100007F |}.
#[local] Instance bench_usb : Usb bench := {|
  libusb_init e := ((-1, 0), e); libusb_get_device_list _ e := ([], e); libusb_get_device_descriptor _ e := ((-1, 0), e);
  libusb_open _ e := ((-1, 0), e); libusb_claim_interface _ _ e := (-1, e); libusb_close _ e := e; libusb_exit _ e := e;
  libusb_free_device_list e := e; libusb_bulk_in _ _ _ _ e := ((-1, []), e); libusb_bulk_out _ _ _ _ e := (-1, e) |}.

Definition bench_inv (h : list request) (e : bench) : Prop := Forall2 (encodes 3) h (b_sent e).

Lemma bench_answer_ok r pkt : sendable r -> encodes 3 r pkt -> bench_answer pkt = bench_reply r.
Proof.
  destruct r as [name|f ret args]; intros Hs Hr.
  - destruct Hs as [Hcs Hlen]. destruct (dyld_packet_ok name Hlen Hcs) as (pkt' & Hp & _ & Hl & Ht & _). cbn in Hr. simplify_eq.
    unfold bench_answer. enough (pkt !! 5%nat = Some fmr_dyld_class) as -> by done.
    unfold rd_le, rd in Ht. case_decide as Hd; [|done]. cbn in Ht. unfold off_type in Ht.
    destruct (drop 5 pkt) as [|b bs] eqn:Hdr; [by apply (f_equal length) in Hdr; rewrite length_drop, Hl in Hdr|].
    assert (pkt !! 5%nat = Some b) as -> by (rewrite <- (Nat.add_0_r 5), <- lookup_drop, Hdr; done).
    cbn in Ht. injection Ht as Hb. rewrite <- Hb. f_equal. lia.
  - destruct Hs as (_ & Hn & _). destruct Hr as (_ & crc & ->). unfold bench_answer, call_packet. cbn [le_bytes app].
    change (default 0 _ =? fmr_dyld_class) with false. cbv iota. cbn [bench_reply]. f_equal.
    cbn [drop]. apply drop_app_length'. symmetry. by apply length_types_area.
Qed.

Lemma bench_answers fd : answers fd bench_addr 3 bench_inv bench_reply.
Proof.
  intros h e r pkt Hi Hs Hr. eexists _, _, _. split; [reflexivity|]. split; [lia|]. split.
  - cbn. rewrite last_snoc. cbn. by rewrite (bench_answer_ok r pkt Hs Hr).
  - apply Forall2_app; [done|]. by constructor.
Qed.

Lemma bench_specified : specified bench_reply.
Proof.
  intros fi type spec a v ret Hsp Ht Hv. cbn. unfold computed.
  assert (fi < 14)%nat as Hfi by (apply lookup_lt_Some in Hsp; exact Hsp).
  rewrite u8_small, Nat2Z.id, Hsp by lia. unfold argv_area. change (args_bytes [a]) with (arg_bytes a ++ []). unfold arg_bytes, arg_size. rewrite Ht.
  rewrite <- app_assoc, take_app_length' by (symmetry; apply length_le_bytes). by rewrite le_val_bytes, Hv.
Qed.

Definition bench_world : world bench := World 0 ∅ heap_base [] (fun _ => 0) 0 0 (replicate 6 0) false (Bench []).
Lemma bench_listens name :
  is_cstring name -> (length name < LF_MODULE_NAME_MAX)%nat -> device_listens bench_world LF_UDP_PORT 3 3 name bench_inv bench_reply.
Proof.
  intros Hcs Hlen. split; [|constructor|done|done| | |apply bench_answers|done].
  - split; [done|]. intros p o Hp. cbn in Hp. by rewrite lookup_empty in Hp.
  - eexists _, _. split; [reflexivity|]. split; [lia|]. split; [reflexivity|constructor].
  - split; [done|]. split; [done|]. by vm_compute.
Qed.

Lemma runtime_test_passes_witness :
  exists w', RuntimeTest.fmr_test_main [ascii "--device"; ascii "fvm"; ascii "fmrTest"] No_file bench_world = Ok ((0, replicate 14 PASS), w') /\
    bench_inv (Lookup (ascii "fmrTest") :: test_requests (ascii "fmrTest") false RuntimeTest.tests) (w_env w').
Proof.
  apply (runtime_test_passes bench_world No_file 3 3 (ascii "fmrTest") bench_inv bench_reply).
  - apply bench_listens; [by apply (bool_decide_unpack _); vm_compute|vm_compute; lia].
  - exact bench_specified.
Defined.

Lemma dac_test_session_witness :
  exists w', DacTest.dac_test_main No_file bench_world = Ok (0, w') /\ bench_inv dac_session (w_env w').
Proof.
  apply (dac_test_session bench_world No_file 3 3 bench_inv bench_reply).
  apply bench_listens; [by apply (bool_decide_unpack _); vm_compute|vm_compute; lia].
Defined.
