(* ===== verification/SamDev.v ===== *)
(** * Peripherals of the ATSAM4S: shared definitions

    Each peripheral has its own type of registers, all 32 bits wide. What the
    drivers of the vendor library share: polling loops, field updates, and the
    facts about bit fields and registers that hold what was written. *)

From S2P Require Import Prelude Mmio.
From stdpp Require Import base list gmap sets.
From Stdlib Require Import ZArith Lia.
Local Open Scope Z_scope.

(** A bit field macro: [(mask & ((value) << pos))]. *)
Definition field (msk pos value : Z) : Z := Z.land msk (u32 (Z.shiftl value pos)).

(** [v << n] on [int]: a shift by a width or more and an overflow are undefined. *)
Definition shl_int (v n : Z) : option Z :=
  if (0 <=? n) && (n <? 32) && (Z.shiftl v n <? 2 ^ 31) then Some (Z.shiftl v n) else None.

Section Polling.
Context {R S : Type} `{!Registers R, !Hardware R, !HasLog R S}.
Implicit Types s : S.

(** [while ((r & mask) != mask) ;] *)
Fixpoint wait_all (fuel : nat) (r : R) (mask : Z) : M S unit :=
  x ← rdr r;
  if Z.land x mask =? mask then mret tt
  else match fuel with O => spin | Datatypes.S fuel => wait_all fuel r mask end.

(** [while (!(r & mask)) { if (!timeout--) return ...; }]: true when a bit came
    up in time. *)
Fixpoint timed_wait (timeout : nat) (r : R) (mask : Z) : M S bool :=
  x ← rdr r;
  if ctrue (Z.land x mask) then mret true
  else match timeout with O => mret false | Datatypes.S timeout => timed_wait timeout r mask end.

(** [v = r; while (v != r) { v = r; }]: the register is read until two
    consecutive reads agree. *)
Fixpoint settle (fuel : nat) (r : R) (v : Z) : M S Z :=
  x ← rdr r;
  if x =? v then mret v
  else match fuel with O => spin | Datatypes.S fuel => v ← rdr r; settle fuel r v end.
Definition stable_read (fuel : nat) (r : R) : M S Z := v ← rdr r; settle fuel r v.

(** [r = (r & ~mask) | value] *)
Definition updr (r : R) (mask value : Z) : M S unit := x ← rdr r; wrr r (Z.lor (Z.ldiff x mask) value).
End Polling.

(** ** Bit fields *)

Section Fields.
Lemma lor_shiftl_add a b n : 0 <= n -> 0 <= a < 2 ^ n -> Z.lor a (Z.shiftl b n) = a + b * 2 ^ n.
Proof.
  intros Hn Ha. rewrite <- Z.shiftl_mul_pow2 by done. symmetry. rewrite <- Z.lxor_lor; [apply Z.add_nocarry_lxor|].
  all: apply Z.bits_inj'; intros i Hi; rewrite Z.land_spec, Z.bits_0;
    destruct (Z.ltb_spec i n); [rewrite (Z.shiftl_spec_low b) by done; apply andb_false_r|
      rewrite (testbit_high n a) by lia; done].
Qed.

(** [(v & (((1 << w) - 1) << p)) >> p] *)
Lemma field_get v p w : 0 <= p -> 0 <= w -> Z.shiftr (Z.land v (Z.shiftl (Z.ones w) p)) p = (v / 2 ^ p) mod 2 ^ w.
Proof.
  intros Hp Hw. rewrite Z.shiftr_land, Z.shiftr_shiftl_l, Z.sub_diag, Z.shiftl_0_r, Z.land_ones, Z.shiftr_div_pow2 by lia. done.
Qed.

(** A single bit as a test. *)
Lemma land_bit_eqb v n : 0 <= n -> (Z.land v (bit n) =? bit n) = Z.testbit v n.
Proof.
  intros Hn. unfold bit. rewrite Z.shiftl_1_l. destruct (Z.testbit v n) eqn:Hb.
  - apply Z.eqb_eq. apply Z.bits_inj'. intros i Hi. rewrite Z.land_spec, Z.pow2_bits_eqb by done.
    destruct (Z.eqb_spec n i) as [->|]; [by rewrite Hb|apply andb_false_r].
  - apply Z.eqb_neq. intros Heq. apply (f_equal (fun z => Z.testbit z n)) in Heq.
    by rewrite Z.land_spec, Hb, Z.pow2_bits_true in Heq.
Qed.
Lemma lor_low a b n : 0 <= n -> 0 <= a < 2 ^ n -> Z.lor a (b * 2 ^ n) = a + b * 2 ^ n.
Proof. intros Hn Ha. rewrite <- (lor_shiftl_add a b n) by done. by rewrite Z.shiftl_mul_pow2. Qed.

(** A disjunction of fields, low field second, as a sum. *)
Lemma lor_high a b n : 0 <= n -> 0 <= b < 2 ^ n -> Z.lor (a * 2 ^ n) b = b + a * 2 ^ n.
Proof. intros Hn Hb. rewrite Z.lor_comm, <- (lor_shiftl_add b a n) by done. by rewrite Z.shiftl_mul_pow2. Qed.

(** A field of a word in range. *)
Lemma field_ok v w pos : 0 <= w -> 0 <= pos -> w + pos <= 32 -> 0 <= v < 2 ^ w -> field (Z.shiftl (Z.ones w) pos) pos v = v * 2 ^ pos.
Proof.
  intros Hw Hp Hle Hv. unfold field. rewrite (Z.shiftl_mul_pow2 v) by done. unfold u32. rewrite Z.mod_small.
  - rewrite <- Z.shiftl_mul_pow2, <- Z.shiftl_land, Z.land_comm, Z.land_ones, Z.mod_small by lia. done.
  - assert (2 ^ w * 2 ^ pos <= 2 ^ 32) by (rewrite <- Z.pow_add_r by lia; apply Z.pow_le_mono_r; lia). nia.
Qed.

(** Disjunctions stay within their width. *)
Lemma lor_range n a b : 0 <= n -> 0 <= a < 2 ^ n -> 0 <= b < 2 ^ n -> 0 <= Z.lor a b < 2 ^ n.
Proof.
  intros Hn Ha Hb. assert (Z.lor a b mod 2 ^ n = Z.lor a b) as <-; [|apply Z.mod_pos_bound; lia].
  rewrite <- !Z.land_ones by done. rewrite Z.land_lor_distr_l, !Z.land_ones, !Z.mod_small by done. done.
Qed.
End Fields.

(** ** Registers that hold what was written *)

Section Held.
Context {R : Type} `{!EqDecision R}.

(** The last value written to a register, from the newest access on. *)
Fixpoint last_write (r : R) (l : list (access R)) : option Z :=
  match l with
  | [] => None
  | Wr r' v :: l => if decide (r' = r) then Some v else last_write r l
  | Rd _ _ :: l => last_write r l
  end.

(** The register reads as [init] before it is written and then as the last value
    written. *)
Definition holds_written `{!Hardware R} (r : R) (init : Z) : Prop :=
  forall l, hw_read l r = default init (last_write r l).
End Held.

Section Reads.
Context {R S : Type} `{!EqDecision R, !Registers R, !Hardware R, !HasLog R S}.
Implicit Types s : S.

(** A wait on bits that are always set. *)
Lemma wait_all_ready fuel r mask s :
  Z.land (seen s r) mask = mask -> wait_all fuel r mask s = Ok (tt, log_event (Rd r (seen s r)) s).
Proof. intros H. destruct fuel as [|fuel]; cbn [wait_all]; rewrite bind_rdr, H, Z.eqb_refl; done. Qed.

(** A register that does not change between two reads is read twice. *)
Lemma stable_read_ok fuel r s :
  let s1 := log_event (Rd r (seen s r)) s in seen s1 r = seen s r ->
  stable_read fuel r s = Ok (seen s r, log_event (Rd r (seen s r)) s1).
Proof.
  intros s1 H. unfold stable_read. rewrite bind_rdr. fold s1. destruct fuel as [|fuel]; cbn [settle]; rewrite bind_rdr, H, Z.eqb_refl; done.
Qed.
End Reads.

(** ** Polls that end *)

Section Ends.
Context {R S : Type} `{!EqDecision R, !Registers R, !Hardware R, !HasLog R S}.
Implicit Types s : S.

Lemma last_write_wr r v (l : list (access R)) : last_write r (Wr r v :: l) = Some v.
Proof. cbn. by rewrite decide_True. Qed.
Lemma last_write_wr_ne r r' v (l : list (access R)) : r' <> r -> last_write r (Wr r' v :: l) = last_write r l.
Proof. intros H. cbn. by rewrite decide_False. Qed.
Lemma last_write_rd r r' v (l : list (access R)) : last_write r (Rd r' v :: l) = last_write r l.
Proof. done. Qed.

(** Reading [r] again and again, the bits of [mask] come up within [fuel] further
    reads. *)
Fixpoint reads_until (fuel : nat) (r : R) (mask : Z) (s : S) : bool :=
  (Z.land (seen s r) mask =? mask) ||
  match fuel with O => false | Datatypes.S fuel => reads_until fuel r mask (log_event (Rd r (seen s r)) s) end.
Definition comes_up (fuel : nat) (r : R) (mask : Z) : Prop := forall s, reads_until fuel r mask s = true.

Lemma last_write_writes r (l : list (access R)) : last_write r l = last (writes r l).
Proof.
  induction l as [|[r' v|r' v] l IH]; [done|done|]. destruct (decide (r' = r)) as [->|Hne].
  - by rewrite last_write_wr, writes_wr, last_snoc.
  - by rewrite last_write_wr_ne, writes_wr_ne.
Qed.

(** [s'] follows [s] with reads only. *)
Definition only_reads s s' : Prop := forall r, writes r (get_log s') = writes r (get_log s).
Lemma only_reads_last s s' r : only_reads s s' -> last_write r (get_log s') = last_write r (get_log s).
Proof. intros H. by rewrite !last_write_writes, H. Qed.

#[global] Instance only_reads_refl : Reflexive only_reads.
Proof. by intros s r. Qed.
#[global] Instance only_reads_trans : Transitive only_reads.
Proof. intros s1 s2 s3 H1 H2 r. by rewrite H2, H1. Qed.
Lemma only_reads_rd s r v : only_reads s (log_event (Rd r v) s).
Proof. intros r'. by rewrite get_log_event, writes_rd. Qed.

Lemma wait_all_returns fuel r mask s :
  reads_until fuel r mask s = true -> exists s', wait_all fuel r mask s = Ok (tt, s') /\ only_reads s s'.
Proof.
  revert s. induction fuel as [|fuel IH]; intros s H; cbn [wait_all reads_until] in *; rewrite bind_rdr; destruct (_ =? mask); cbn [orb] in H.
  - eexists. split; [done|apply only_reads_rd].
  - done.
  - eexists. split; [done|apply only_reads_rd].
  - destruct (IH _ H) as (s' & Hw & Hr). exists s'. split; [done|]. by etrans; [apply only_reads_rd|].
Qed.

Lemma ctrue_mask x n : 0 <= n -> (Z.land x (bit n) =? bit n) = true -> ctrue (Z.land x (bit n)) = true.
Proof.
  intros Hn H. apply Z.eqb_eq in H. rewrite H. apply ctrue_nonzero. unfold bit. rewrite Z.shiftl_1_l.
  pose proof (Z.pow_pos_nonneg 2 n ltac:(lia) Hn). lia.
Qed.

Lemma ctrue_mask_eqb x n : 0 <= n -> ctrue (Z.land x (bit n)) = (Z.land x (bit n) =? bit n).
Proof.
  intros Hn. destruct (Z.land x (bit n) =? bit n) eqn:H; [by apply ctrue_mask|]. rewrite land_bit_eqb in H by done.
  replace (Z.land x (bit n)) with 0; [done|]. symmetry. unfold bit. rewrite Z.shiftl_1_l. apply Z.bits_inj'. intros i Hi.
  rewrite Z.land_spec, Z.bits_0, Z.pow2_bits_eqb by done. destruct (Z.eqb_spec n i) as [->|]; [by rewrite H|apply andb_false_r].
Qed.

(** The wait for one bit. *)
Lemma wait_set_returns fuel (r : R) n s :
  0 <= n -> reads_until fuel r (bit n) s = true ->
  exists s', wait_set fuel r (bit n) s = Ok (tt, s') /\ only_reads s s' /\
    forall r', r' <> r -> reads r' (get_log s') = reads r' (get_log s).
Proof.
  intros Hn. revert s. induction fuel as [|fuel IH]; intros s H; cbn [wait_set reads_until] in *; rewrite bind_rdr.
  - rewrite orb_false_r in H. rewrite (ctrue_mask _ n) by done. eexists. split; [done|]. split; [apply only_reads_rd|].
    intros r' Hne. by rewrite get_log_event, reads_rd_ne by congruence.
  - destruct (ctrue (Z.land (seen s r) (bit n))) eqn:Hc.
    { eexists. split; [done|]. split; [apply only_reads_rd|]. intros r' Hne. by rewrite get_log_event, reads_rd_ne by congruence. }
    apply orb_true_iff in H as [H|H]; [by rewrite (ctrue_mask _ n) in Hc|].
    destruct (IH _ H) as (s' & Hw & Hr & Hk). exists s'. split; [done|]. split; [by etrans; [apply only_reads_rd|]|].
    intros r' Hne. by rewrite Hk, get_log_event, reads_rd_ne by congruence.
Qed.

(** The wait for one bit with a bound always returns. *)
Lemma timed_wait_returns timeout (r : R) n s :
  0 <= n -> exists s', timed_wait timeout r (bit n) s = Ok (reads_until timeout r (bit n) s, s') /\ only_reads s s' /\
    forall r', r' <> r -> reads r' (get_log s') = reads r' (get_log s).
Proof.
  intros Hn. revert s. induction timeout as [|timeout IH]; intros s; cbn [timed_wait reads_until]; rewrite bind_rdr.
  all: rewrite <- (ctrue_mask_eqb (seen s r) n) by done; destruct (ctrue (Z.land (seen s r) (bit n))); cbn [orb].
  1-3: eexists; split; [done|]; split; [apply only_reads_rd|]; intros r' Hne; by rewrite get_log_event, reads_rd_ne by congruence.
  destruct (IH (log_event (Rd r (seen s r)) s)) as (s' & Hw & Hr & Hk). exists s'. split; [done|]. split; [by etrans; [apply only_reads_rd|]|].
  intros r' Hne. by rewrite Hk, get_log_event, reads_rd_ne by congruence.
Qed.

(** What a register that holds its value reads. *)
Lemma seen_written r init v s :
  holds_written r init -> last_write r (get_log s) = Some v -> seen s r = rval r v.
Proof. intros H Hv. unfold seen. by rewrite H, Hv. Qed.
Lemma stable_read_written fuel r init v s :
  holds_written r init -> last_write r (get_log s) = Some v -> exists s', stable_read fuel r s = Ok (rval r v, s') /\ only_reads s s'.
Proof.
  intros H Hv. assert (seen s r = rval r v) as Hs by (by eapply seen_written).
  eexists. split.
  - rewrite (stable_read_ok fuel r s); [by rewrite Hs|]. rewrite Hs. eapply seen_written; [done|]. by rewrite (only_reads_last s) by apply only_reads_rd.
  - by etrans; apply only_reads_rd.
Qed.

Lemma rval_rval r v : rval r (rval r v) = rval r v.
Proof. unfold rval. by rewrite Z.mod_mod_divide by apply Z.divide_refl. Qed.
End Ends.

(** Evaluates [last_write] on a history with a concrete front. *)
Ltac last_write :=
  repeat first [ rewrite get_log_event | rewrite last_write_wr | rewrite last_write_rd | rewrite last_write_wr_ne by discriminate ].

(** A state that is just the history of accesses. *)
Definition plain_log (R : Type) : HasLog R (list (access R)) :=
  {| get_log l := l; put_log l _ := l; get_put_log _ _ := eq_refl; put_put_log _ _ _ := eq_refl; put_get_log _ := eq_refl |}.
