(* ===== verification/SamRtc.v ===== *)
(** * The real-time clock of the ATSAM4S (platforms/atsam4s/asf/src/rtc.c)

    Time and calendar in binary coded decimal, alarms, events, calibration and
    output waveforms, in the configuration of the SAM4S. *)

From S2P Require Import Prelude Mmio SamDev.
From stdpp Require Import base list gmap sets.
From Stdlib Require Import ZArith Lia.
Local Open Scope Z_scope.

Inductive rtc_reg :=
| RTC_CR | RTC_MR | RTC_TIMR | RTC_CALR | RTC_TIMALR | RTC_CALALR | RTC_SR | RTC_SCCR | RTC_IER | RTC_IDR | RTC_IMR | RTC_VER.
#[global] Instance rtc_reg_eq_dec : EqDecision rtc_reg.
Proof. solve_decision. Defined.
#[global] Instance rtc_registers : Registers rtc_reg := 32.

Definition BCD_SHIFT : Z := 4.
Definition BCD_MASK : Z := 0xf.
Definition BCD_FACTOR : Z := 10.

Definition RTC_CR_UPDTIM : Z := bit 0.
Definition RTC_CR_UPDCAL : Z := bit 1.
Definition RTC_CR_TIMEVSEL_Pos : Z := 8.
Definition RTC_CR_TIMEVSEL_Msk : Z := Z.shiftl 0x3 8.
Definition RTC_CR_CALEVSEL_Pos : Z := 16.
Definition RTC_CR_CALEVSEL_Msk : Z := Z.shiftl 0x3 16.
Definition RTC_MR_HRMOD : Z := bit 0.
Definition RTC_MR_PERSIAN : Z := bit 1.
Definition RTC_MR_NEGPPM : Z := bit 4.
Definition RTC_MR_CORRECTION_Msk : Z := Z.shiftl 0x7f 8.
Definition RTC_MR_CORRECTION (value : Z) : Z := field RTC_MR_CORRECTION_Msk 8 value.
Definition RTC_MR_HIGHPPM : Z := bit 15.
Definition RTC_MR_OUT0_Pos : Z := 16.
Definition RTC_MR_OUT0_Msk : Z := Z.shiftl 0x7 16.
Definition RTC_MR_OUT1_Pos : Z := 20.
Definition RTC_MR_OUT1_Msk : Z := Z.shiftl 0x7 20.
Definition RTC_MR_THIGH_Pos : Z := 24.
Definition RTC_MR_THIGH_Msk : Z := Z.shiftl 0x7 24.
Definition RTC_MR_TPERIOD_Pos : Z := 28.
Definition RTC_MR_TPERIOD_Msk : Z := Z.shiftl 0x3 28.
Definition RTC_TIMR_SEC_Pos : Z := 0.
Definition RTC_TIMR_SEC_Msk : Z := Z.shiftl 0x7f 0.
Definition RTC_TIMR_MIN_Pos : Z := 8.
Definition RTC_TIMR_MIN_Msk : Z := Z.shiftl 0x7f 8.
Definition RTC_TIMR_HOUR_Pos : Z := 16.
Definition RTC_TIMR_HOUR_Msk : Z := Z.shiftl 0x3f 16.
Definition RTC_TIMR_AMPM : Z := bit 22.
Definition RTC_CALR_CENT_Pos : Z := 0.
Definition RTC_CALR_CENT_Msk : Z := Z.shiftl 0x7f 0.
Definition RTC_CALR_YEAR_Pos : Z := 8.
Definition RTC_CALR_YEAR_Msk : Z := Z.shiftl 0xff 8.
Definition RTC_CALR_MONTH_Pos : Z := 16.
Definition RTC_CALR_MONTH_Msk : Z := Z.shiftl 0x1f 16.
Definition RTC_CALR_DAY_Pos : Z := 21.
Definition RTC_CALR_DAY_Msk : Z := Z.shiftl 0x7 21.
Definition RTC_CALR_DATE_Pos : Z := 24.
Definition RTC_CALR_DATE_Msk : Z := Z.shiftl 0x3f 24.
Definition RTC_TIMALR_SECEN : Z := bit 7.
Definition RTC_TIMALR_MINEN : Z := bit 15.
Definition RTC_TIMALR_HOUREN : Z := bit 23.
Definition RTC_CALALR_MONTH (value : Z) : Z := field (Z.shiftl 0x1f 16) 16 value.
Definition RTC_CALALR_MTHEN : Z := bit 23.
Definition RTC_CALALR_DATE (value : Z) : Z := field (Z.shiftl 0x3f 24) 24 value.
Definition RTC_CALALR_DATEEN : Z := bit 31.
Definition RTC_SR_ACKUPD : Z := bit 0.
Definition RTC_SR_SEC : Z := bit 2.
Definition RTC_SCCR_ACKCLR : Z := bit 0.
Definition RTC_VER_NVTIM : Z := bit 0.
Definition RTC_VER_NVCAL : Z := bit 1.
Definition RTC_VER_NVTIMALR : Z := bit 2.
Definition RTC_VER_NVCALALR : Z := bit 3.

(** [((x / 10) << (pos + 4)) | ((x % 10) << pos)] *)
Definition to_bcd (x pos : Z) : Z :=
  Z.lor (u32 (Z.shiftl (x / BCD_FACTOR) (pos + BCD_SHIFT))) (u32 (Z.shiftl (x mod BCD_FACTOR) pos)).
(** [(t >> 4) * 10 + (t & 0xf)] *)
Definition from_bcd (t : Z) : Z := Z.shiftr t BCD_SHIFT * BCD_FACTOR + Z.land t BCD_MASK.
Definition get_field (v msk pos : Z) : Z := Z.shiftr (Z.land v msk) pos.

Section Rtc.
Context {S : Type} `{!Hardware rtc_reg, !HasLog rtc_reg S}.
Context (fuel : nat).

Definition rtc_set_hour_mode (ul_mode : Z) : M S unit :=
  if ctrue ul_mode then orr RTC_MR RTC_MR_HRMOD else clrr RTC_MR RTC_MR_HRMOD.
Definition rtc_get_hour_mode : M S Z :=
  ul_temp ← rdr RTC_MR; mret (if ctrue (Z.land ul_temp RTC_MR_HRMOD) then 1 else 0).
Definition rtc_enable_interrupt (ul_sources : Z) : M S unit := wrr RTC_IER ul_sources.
Definition rtc_disable_interrupt (ul_sources : Z) : M S unit := wrr RTC_IDR ul_sources.
Definition rtc_get_interrupt_mask : M S Z := rdr RTC_IMR.

(** What a time word holds; the hour gets 12 in the afternoon. *)
Definition time_hour (ul_time : Z) : Z :=
  let h := from_bcd (get_field ul_time RTC_TIMR_HOUR_Msk RTC_TIMR_HOUR_Pos) in
  if Z.land ul_time RTC_TIMR_AMPM =? RTC_TIMR_AMPM then h + 12 else h.
Definition time_minute (ul_time : Z) : Z := from_bcd (get_field ul_time RTC_TIMR_MIN_Msk RTC_TIMR_MIN_Pos).
Definition time_second (ul_time : Z) : Z := from_bcd (get_field ul_time RTC_TIMR_SEC_Msk RTC_TIMR_SEC_Pos).

(** The pointers that are not null are written. *)
Definition rtc_get_time (pul_hour pul_minute pul_second : bool) : M S (option Z * option Z * option Z) :=
  ul_time ← stable_read fuel RTC_TIMR;
  let out (b : bool) (v : Z) := if b then Some v else None in
  mret (out pul_hour (time_hour ul_time), out pul_minute (time_minute ul_time), out pul_second (time_second ul_time)).

(** In 12-hour mode an hour above 12 is one of the afternoon. *)
Definition hour_word (ul_hour : Z) : M S (Z * Z) :=
  x ← rdr RTC_MR;
  mret (if (Z.land x RTC_MR_HRMOD =? RTC_MR_HRMOD) && (12 <? ul_hour) then (ul_hour - 12, RTC_TIMR_AMPM) else (ul_hour, 0)).

(** The end of an update: [r] is written between request and acknowledgement. *)
Definition update (request : Z) (r : rtc_reg) (v : Z) : M S unit :=
  wait_all fuel RTC_SR RTC_SR_SEC;;
  orr RTC_CR request;;
  wait_all fuel RTC_SR RTC_SR_ACKUPD;;
  wrr RTC_SCCR RTC_SCCR_ACKCLR;;
  wrr r v;;
  clrr RTC_CR request.

Definition rtc_set_time (ul_hour ul_minute ul_second : Z) : M S Z :=
  '(ul_hour, ul_time) ← hour_word ul_hour;
  let ul_time := Z.lor ul_time (to_bcd ul_hour RTC_TIMR_HOUR_Pos) in
  let ul_time := Z.lor ul_time (to_bcd ul_minute RTC_TIMR_MIN_Pos) in
  let ul_time := Z.lor ul_time (to_bcd ul_second RTC_TIMR_SEC_Pos) in
  update RTC_CR_UPDTIM RTC_TIMR ul_time;;
  x ← rdr RTC_VER;
  mret (Z.land x RTC_VER_NVTIM).

(** All three fields are enabled, whatever the flags say. *)
Definition rtc_set_time_alarm (ul_hour_flag ul_hour ul_minute_flag ul_minute ul_second_flag ul_second : Z) : M S Z :=
  ul_alarm ← (if ctrue ul_hour_flag then
                '(ul_hour, ul_alarm) ← hour_word ul_hour; mret (Z.lor ul_alarm (to_bcd ul_hour RTC_TIMR_HOUR_Pos))
              else mret 0);
  let ul_alarm := if ctrue ul_minute_flag then Z.lor ul_alarm (to_bcd ul_minute RTC_TIMR_MIN_Pos) else ul_alarm in
  let ul_alarm := if ctrue ul_second_flag then Z.lor ul_alarm (to_bcd ul_second RTC_TIMR_SEC_Pos) else ul_alarm in
  let enable := Z.lor (Z.lor RTC_TIMALR_SECEN RTC_TIMALR_MINEN) RTC_TIMALR_HOUREN in
  clrr RTC_TIMALR enable;;
  wrr RTC_TIMALR ul_alarm;;
  orr RTC_TIMALR enable;;
  x ← rdr RTC_VER;
  mret (Z.land x RTC_VER_NVTIMALR).

Definition date_year (ul_date : Z) : Z :=
  let ul_cent := from_bcd (get_field ul_date RTC_CALR_CENT_Msk RTC_CALR_CENT_Pos) in
  let ul_temp := get_field ul_date RTC_CALR_YEAR_Msk RTC_CALR_YEAR_Pos in
  ul_cent * BCD_FACTOR * BCD_FACTOR + Z.shiftr ul_temp BCD_SHIFT * BCD_FACTOR + Z.land ul_temp BCD_MASK.
Definition date_month (ul_date : Z) : Z := from_bcd (get_field ul_date RTC_CALR_MONTH_Msk RTC_CALR_MONTH_Pos).
Definition date_day (ul_date : Z) : Z := from_bcd (get_field ul_date RTC_CALR_DATE_Msk RTC_CALR_DATE_Pos).
Definition date_week (ul_date : Z) : Z := get_field ul_date RTC_CALR_DAY_Msk RTC_CALR_DAY_Pos.

Definition rtc_get_date (pul_year pul_month pul_day pul_week : bool) : M S (option Z * option Z * option Z * option Z) :=
  ul_date ← stable_read fuel RTC_CALR;
  let out (b : bool) (v : Z) := if b then Some v else None in
  mret (out pul_year (date_year ul_date), out pul_month (date_month ul_date), out pul_day (date_day ul_date),
        out pul_week (date_week ul_date)).

Definition date_word (ul_year ul_month ul_day ul_week : Z) : Z :=
  let shl v n := u32 (Z.shiftl v n) in
  let ul_date := Z.lor (shl (ul_year / BCD_FACTOR / BCD_FACTOR / BCD_FACTOR) (RTC_CALR_CENT_Pos + BCD_SHIFT))
                       (shl ((ul_year / BCD_FACTOR / BCD_FACTOR) mod BCD_FACTOR) RTC_CALR_CENT_Pos) in
  let ul_date := Z.lor ul_date (Z.lor (shl ((ul_year / BCD_FACTOR) mod BCD_FACTOR) (RTC_CALR_YEAR_Pos + BCD_SHIFT))
                                      (shl (ul_year mod BCD_FACTOR) RTC_CALR_YEAR_Pos)) in
  let ul_date := Z.lor ul_date (to_bcd ul_month RTC_CALR_MONTH_Pos) in
  let ul_date := Z.lor ul_date (shl ul_week RTC_CALR_DAY_Pos) in
  Z.lor ul_date (to_bcd ul_day RTC_CALR_DATE_Pos).

Definition rtc_set_date (ul_year ul_month ul_day ul_week : Z) : M S Z :=
  update RTC_CR_UPDCAL RTC_CALR (date_word ul_year ul_month ul_day ul_week);;
  x ← rdr RTC_VER;
  mret (Z.land x RTC_VER_NVCAL).

Definition rtc_set_date_alarm (ul_month_flag ul_month ul_day_flag ul_day : Z) : M S Z :=
  let ul_alarm := 0 in
  let ul_alarm := if ctrue ul_month_flag then Z.lor ul_alarm (to_bcd ul_month RTC_CALR_MONTH_Pos) else ul_alarm in
  let ul_alarm := if ctrue ul_day_flag then Z.lor ul_alarm (to_bcd ul_day RTC_CALR_DATE_Pos) else ul_alarm in
  let enable := Z.lor RTC_CALALR_MTHEN RTC_CALALR_DATEEN in
  clrr RTC_CALALR enable;;
  wrr RTC_CALALR ul_alarm;;
  orr RTC_CALALR enable;;
  x ← rdr RTC_VER;
  mret (Z.land x RTC_VER_NVCALALR).

Definition rtc_clear_time_alarm : M S unit := wrr RTC_TIMALR 0.
Definition rtc_clear_date_alarm : M S unit := wrr RTC_CALALR (Z.lor (RTC_CALALR_MONTH 1) (RTC_CALALR_DATE 1)).
Definition rtc_get_status : M S Z := rdr RTC_SR.
Definition rtc_clear_status (ul_clear : Z) : M S unit := wrr RTC_SCCR ul_clear.
Definition rtc_get_valid_entry : M S Z := rdr RTC_VER.
Definition rtc_set_time_event (ul_selection : Z) : M S unit :=
  clrr RTC_CR RTC_CR_TIMEVSEL_Msk;; orr RTC_CR (Z.land (u32 (Z.shiftl ul_selection RTC_CR_TIMEVSEL_Pos)) RTC_CR_TIMEVSEL_Msk).
Definition rtc_set_calendar_event (ul_selection : Z) : M S unit :=
  clrr RTC_CR RTC_CR_CALEVSEL_Msk;; orr RTC_CR (Z.land (u32 (Z.shiftl ul_selection RTC_CR_CALEVSEL_Pos)) RTC_CR_CALEVSEL_Msk).
Definition rtc_set_calendar_mode (ul_mode : Z) : M S unit :=
  if ctrue ul_mode then orr RTC_MR RTC_MR_PERSIAN else clrr RTC_MR RTC_MR_PERSIAN.
Definition rtc_get_calendar_mode : M S Z :=
  ul_temp ← rdr RTC_MR; mret (if ctrue (Z.land ul_temp RTC_MR_PERSIAN) then 1 else 0).

Definition rtc_set_calibration (ul_direction_ppm ul_correction ul_range_ppm : Z) : M S unit :=
  ul_temp ← rdr RTC_MR;
  let ul_temp := if ctrue ul_direction_ppm then Z.lor ul_temp RTC_MR_NEGPPM else Z.ldiff ul_temp RTC_MR_NEGPPM in
  let ul_temp := Z.ldiff ul_temp RTC_MR_CORRECTION_Msk in
  let ul_temp := Z.lor ul_temp (RTC_MR_CORRECTION ul_correction) in
  let ul_temp := if ctrue ul_range_ppm then Z.lor ul_temp RTC_MR_HIGHPPM else Z.ldiff ul_temp RTC_MR_HIGHPPM in
  wrr RTC_MR ul_temp.

(** The eight waveforms are the values 0 to 7 of the field; others change nothing. *)
Definition rtc_set_waveform (ul_channel ul_value : Z) : M S unit :=
  if (0 <=? ul_value) && (ul_value <=? 7) then
    if ul_channel =? 0 then clrr RTC_MR RTC_MR_OUT0_Msk;; orr RTC_MR (Z.shiftl ul_value RTC_MR_OUT0_Pos)
    else clrr RTC_MR RTC_MR_OUT1_Msk;; orr RTC_MR (Z.shiftl ul_value RTC_MR_OUT1_Pos)
  else mret tt.

Definition rtc_set_pulse_parameter (ul_time_high ul_period : Z) : M S unit :=
  ul_temp ← rdr RTC_MR;
  let ul_temp := Z.lor ul_temp (field RTC_MR_THIGH_Msk RTC_MR_THIGH_Pos ul_time_high) in
  let ul_temp := Z.lor ul_temp (field RTC_MR_TPERIOD_Msk RTC_MR_TPERIOD_Pos ul_period) in
  wrr RTC_MR ul_temp.
End Rtc.

(** ** Binary coded decimal *)

Section Bcd.
Definition bcd (x : Z) : Z := x mod 10 + x / 10 * 16.

Lemma to_bcd_ok x pos : 0 <= x < 100 -> 0 <= pos <= 24 -> to_bcd x pos = bcd x * 2 ^ pos.
Proof.
  intros Hx Hp. unfold to_bcd, BCD_FACTOR, BCD_SHIFT.
  pose proof (Z.div_pos x 10). pose proof (Z.div_lt_upper_bound x 10 10). pose proof (Z.mod_pos_bound x 10).
  assert (2 ^ pos <= 2 ^ 24) by (apply Z.pow_le_mono_r; lia). assert (0 < 2 ^ pos) by lia.
  rewrite !Z.shiftl_mul_pow2, Z.pow_add_r by lia. unfold u32.
  rewrite !Z.mod_small by (change (2 ^ 24) with 16777216 in *; change (2 ^ 4) with 16; change (2 ^ 32) with 4294967296; nia).
  rewrite Z.lor_comm. replace (x / 10 * (2 ^ pos * 2 ^ 4)) with (Z.shiftl (x / 10 * 2 ^ 4) pos) by (rewrite Z.shiftl_mul_pow2; lia).
  rewrite <- (Z.shiftl_mul_pow2 (x mod 10)), <- Z.shiftl_lor, Z.lor_comm, lor_high by (change (2 ^ 4) with 16; lia).
  rewrite Z.shiftl_mul_pow2 by lia. done.
Qed.

Lemma from_bcd_ok x : 0 <= x < 100 -> from_bcd (bcd x) = x.
Proof.
  intros Hx. unfold from_bcd, BCD_SHIFT, BCD_FACTOR, BCD_MASK. rewrite Z.shiftr_div_pow2 by lia.
  change 0xf with (Z.ones 4). rewrite Z.land_ones by lia. change (2 ^ 4) with 16. unfold bcd.
  pose proof (Z.mod_pos_bound x 10). pose proof (Z.div_mod x 10). rewrite Z.div_add, Z.mod_add by lia.
  rewrite Z.div_small, Z.mod_small by lia. lia.
Qed.
Lemma get_field_ok v w pos : 0 <= pos -> 0 <= w -> get_field v (Z.shiftl (Z.ones w) pos) pos = (v / 2 ^ pos) mod 2 ^ w.
Proof. apply field_get. Qed.
End Bcd.

Section TimeWord.
(** A time word by its fields. *)
Definition time_value (a h m s : Z) : Z := bcd s + bcd m * 2 ^ 8 + bcd h * 2 ^ 16 + a * 2 ^ 22.

Context (a h m s : Z) (Ha : 0 <= a <= 1) (Hh : 0 <= h <= 23) (Hm : 0 <= m < 60) (Hs : 0 <= s < 60).

Lemma bcd_fields : 0 <= bcd h < 64 /\ 0 <= bcd m < 128 /\ 0 <= bcd s < 128.
Proof. unfold bcd. repeat split; (Z.to_euclidean_division_equations; lia). Qed.

Lemma time_lor :
  Z.lor (Z.lor (Z.lor (a * 2 ^ 22) (to_bcd h 16)) (to_bcd m 8)) (to_bcd s 0) = time_value a h m s.
Proof.
  destruct bcd_fields as (H1 & H2 & H3). rewrite !to_bcd_ok by lia. rewrite lor_high by lia.
  replace (bcd h * 2 ^ 16 + a * 2 ^ 22) with ((bcd h + a * 2 ^ 6) * 2 ^ 16) by lia. rewrite lor_high by lia.
  replace (bcd m * 2 ^ 8 + (bcd h + a * 2 ^ 6) * 2 ^ 16) with ((bcd m + (bcd h + a * 2 ^ 6) * 2 ^ 8) * 2 ^ 8) by lia.
  rewrite lor_high by lia. unfold time_value. lia.
Qed.

Lemma time_value_range : 0 <= time_value a h m s < 2 ^ 32.
Proof. destruct bcd_fields as (H1 & H2 & H3). unfold time_value. lia. Qed.

Lemma time_decoded :
  time_hour (time_value a h m s) = h + 12 * a /\ time_minute (time_value a h m s) = m /\ time_second (time_value a h m s) = s.
Proof.
  destruct bcd_fields as (H1 & H2 & H3). unfold time_hour, time_minute, time_second.
  change RTC_TIMR_HOUR_Msk with (Z.shiftl (Z.ones 6) 16). change RTC_TIMR_MIN_Msk with (Z.shiftl (Z.ones 7) 8).
  change RTC_TIMR_SEC_Msk with (Z.shiftl (Z.ones 7) 0). rewrite !get_field_ok by (unfold RTC_TIMR_HOUR_Pos, RTC_TIMR_MIN_Pos, RTC_TIMR_SEC_Pos; lia).
  unfold RTC_TIMR_HOUR_Pos, RTC_TIMR_MIN_Pos, RTC_TIMR_SEC_Pos.
  assert ((time_value a h m s / 2 ^ 16) mod 2 ^ 6 = bcd h) as -> by (unfold time_value; Z.to_euclidean_division_equations; lia).
  assert ((time_value a h m s / 2 ^ 8) mod 2 ^ 7 = bcd m) as -> by (unfold time_value; Z.to_euclidean_division_equations; lia).
  assert ((time_value a h m s / 2 ^ 0) mod 2 ^ 7 = bcd s) as -> by (unfold time_value; Z.to_euclidean_division_equations; lia).
  rewrite !from_bcd_ok by lia. split; [|done]. unfold RTC_TIMR_AMPM. rewrite land_bit_eqb by lia.
  assert (Z.testbit (time_value a h m s) 22 = (a =? 1)) as ->; [|destruct (Z.eqb_spec a 1); lia].
  rewrite Z.testbit_eqb by lia. f_equal. unfold time_value. Z.to_euclidean_division_equations; lia.
Qed.
End TimeWord.

Section DateWord.
Definition date_value (y mo d wk : Z) : Z :=
  bcd (y / 100) + bcd (y mod 100) * 2 ^ 8 + bcd mo * 2 ^ 16 + wk * 2 ^ 21 + bcd d * 2 ^ 24.

Context (y mo d wk : Z) (Hy : 0 <= y < 8000) (Hmo : 0 <= mo < 20) (Hd : 0 <= d < 40) (Hwk : 0 <= wk < 8).

Lemma date_fields : 0 <= bcd (y / 100) < 128 /\ 0 <= bcd (y mod 100) < 256 /\ 0 <= bcd mo < 32 /\ 0 <= bcd d < 64.
Proof. unfold bcd. repeat split; (Z.to_euclidean_division_equations; lia). Qed.

Lemma date_word_ok : date_word y mo d wk = date_value y mo d wk.
Proof.
  destruct date_fields as (H1 & H2 & H3 & H4). unfold date_word.
  replace (y / BCD_FACTOR / BCD_FACTOR / BCD_FACTOR) with (y / 100 / BCD_FACTOR) by (unfold BCD_FACTOR; rewrite !Z.div_div by lia; done).
  replace (y / BCD_FACTOR / BCD_FACTOR) with (y / 100) by (unfold BCD_FACTOR; rewrite !Z.div_div by lia; done).
  replace ((y / BCD_FACTOR) mod BCD_FACTOR) with (y mod 100 / BCD_FACTOR) by (unfold BCD_FACTOR; Z.to_euclidean_division_equations; lia).
  replace (y mod BCD_FACTOR) with ((y mod 100) mod BCD_FACTOR) by (unfold BCD_FACTOR; Z.to_euclidean_division_equations; lia).
  change (Z.lor (u32 (Z.shiftl (y / 100 / BCD_FACTOR) (RTC_CALR_CENT_Pos + BCD_SHIFT))) (u32 (Z.shiftl ((y / 100) mod BCD_FACTOR) RTC_CALR_CENT_Pos)))
    with (to_bcd (y / 100) 0).
  change (Z.lor (u32 (Z.shiftl (y mod 100 / BCD_FACTOR) (RTC_CALR_YEAR_Pos + BCD_SHIFT))) (u32 (Z.shiftl ((y mod 100) mod BCD_FACTOR) RTC_CALR_YEAR_Pos)))
    with (to_bcd (y mod 100) 8).
  unfold RTC_CALR_MONTH_Pos, RTC_CALR_DAY_Pos, RTC_CALR_DATE_Pos. cbv zeta.
  rewrite !to_bcd_ok by (Z.to_euclidean_division_equations; lia). change (2 ^ 0) with 1. rewrite Z.mul_1_r, (Z.shiftl_mul_pow2 wk) by lia.
  unfold u32. rewrite (Z.mod_small (wk * 2 ^ 21)) by lia.
  rewrite (lor_low _ (bcd (y mod 100))), (lor_low _ (bcd mo)), (lor_low _ wk), (lor_low _ (bcd d)) by lia. done.
Qed.

Lemma date_value_range : 0 <= date_value y mo d wk < 2 ^ 32.
Proof. destruct date_fields as (H1 & H2 & H3 & H4). unfold date_value. lia. Qed.

Lemma date_decoded :
  date_year (date_value y mo d wk) = y /\ date_month (date_value y mo d wk) = mo /\
  date_day (date_value y mo d wk) = d /\ date_week (date_value y mo d wk) = wk.
Proof.
  destruct date_fields as (H1 & H2 & H3 & H4). unfold date_year, date_month, date_day, date_week.
  change RTC_CALR_CENT_Msk with (Z.shiftl (Z.ones 7) 0). change RTC_CALR_YEAR_Msk with (Z.shiftl (Z.ones 8) 8).
  change RTC_CALR_MONTH_Msk with (Z.shiftl (Z.ones 5) 16). change RTC_CALR_DATE_Msk with (Z.shiftl (Z.ones 6) 24).
  change RTC_CALR_DAY_Msk with (Z.shiftl (Z.ones 3) 21).
  unfold RTC_CALR_CENT_Pos, RTC_CALR_YEAR_Pos, RTC_CALR_MONTH_Pos, RTC_CALR_DATE_Pos, RTC_CALR_DAY_Pos.
  rewrite !get_field_ok by lia.
  assert ((date_value y mo d wk / 2 ^ 0) mod 2 ^ 7 = bcd (y / 100)) as -> by (unfold date_value; Z.to_euclidean_division_equations; lia).
  assert ((date_value y mo d wk / 2 ^ 8) mod 2 ^ 8 = bcd (y mod 100)) as -> by (unfold date_value; Z.to_euclidean_division_equations; lia).
  assert ((date_value y mo d wk / 2 ^ 16) mod 2 ^ 5 = bcd mo) as -> by (unfold date_value; Z.to_euclidean_division_equations; lia).
  assert ((date_value y mo d wk / 2 ^ 24) mod 2 ^ 6 = bcd d) as -> by (unfold date_value; Z.to_euclidean_division_equations; lia).
  assert ((date_value y mo d wk / 2 ^ 21) mod 2 ^ 3 = wk) as -> by (unfold date_value; Z.to_euclidean_division_equations; lia).
  rewrite !from_bcd_ok by (Z.to_euclidean_division_equations; lia). split; [|done].
  rewrite <- Z.add_assoc. change (Z.shiftr (bcd (y mod 100)) BCD_SHIFT * BCD_FACTOR + Z.land (bcd (y mod 100)) BCD_MASK) with (from_bcd (bcd (y mod 100))).
  rewrite from_bcd_ok by (Z.to_euclidean_division_equations; lia). unfold BCD_FACTOR. Z.to_euclidean_division_equations; lia.
Qed.
End DateWord.

(** ** Setting and reading back *)

Section Roundtrip.
Context {S : Type} `{!Hardware rtc_reg, !HasLog rtc_reg S}.
Implicit Types s : S.

(** The clock announces the second and acknowledges updates within [fuel] polls. *)
Definition clock_ready (fuel : nat) : Prop :=
  comes_up (S:=S) fuel RTC_SR RTC_SR_SEC /\ comes_up (S:=S) fuel RTC_SR RTC_SR_ACKUPD.

Lemma rval_word r v : 0 <= v < 2 ^ 32 -> rval (R:=rtc_reg) r v = v.
Proof. apply Z.mod_small. Qed.

(** An update leaves the value in its register and returns. *)
Lemma update_ok fuel request r v s :
  clock_ready fuel -> r <> RTC_CR -> 0 <= v < 2 ^ 32 ->
  exists s', update fuel request r v s = Ok (tt, s') /\ last_write r (get_log s') = Some v.
Proof.
  intros [H1 H2] Hr Hv. unfold update. destruct (wait_all_returns fuel RTC_SR RTC_SR_SEC s (H1 s)) as (s1 & Hw1 & _). mstep Hw1.
  unfold orr, clrr. mnorm. rewrite bind_rdr, bind_wrr. set (s2 := log_event _ (log_event _ s1)).
  destruct (wait_all_returns fuel RTC_SR RTC_SR_ACKUPD s2 (H2 s2)) as (s3 & Hw3 & _). mstep Hw3. rewrite !bind_wrr, bind_rdr.
  eexists. split; [reflexivity|]. rewrite !get_log_event, last_write_wr_ne by congruence. rewrite last_write_rd, last_write_wr.
  by rewrite rval_word.
Qed.

(** The hours a mode can show: 0 to 23, or 1 to 24 in the 12-hour mode. *)
Definition hour_ok (mr h : Z) : Prop := if Z.testbit mr 0 then 1 <= h <= 24 else 0 <= h <= 23.

Lemma hour_word_ok h s :
  hour_ok (seen s RTC_MR) h ->
  exists a h', hour_word h s = Ok ((h', a * 2 ^ 22), log_event (Rd RTC_MR (seen s RTC_MR)) s) /\
    0 <= a <= 1 /\ 0 <= h' <= 23 /\ h = h' + 12 * a.
Proof.
  intros Hh. unfold hour_word. rewrite bind_rdr. unfold RTC_MR_HRMOD, hour_ok in *. rewrite land_bit_eqb by lia.
  destruct (Z.testbit (seen s RTC_MR) 0); cbn [andb]; [destruct (Z.ltb_spec 12 h)|].
  - exists 1, (h - 12). split; [done|lia].
  - exists 0, h. split; [done|lia].
  - exists 0, h. split; [done|lia].
Qed.

(** The time that was set is the time that is read, in either mode. *)
Lemma rtc_time_ok fuel init h m sec s :
  holds_written RTC_TIMR init -> clock_ready fuel -> hour_ok (seen s RTC_MR) h -> 0 <= m < 60 -> 0 <= sec < 60 ->
  exists r s1 s2, rtc_set_time fuel h m sec s = Ok (r, s1) /\
    rtc_get_time fuel true true true s1 = Ok ((Some h, Some m, Some sec), s2).
Proof.
  intros Hhold Hready Hh Hm Hs. destruct (hour_word_ok h s Hh) as (a & h' & Hw & Ha & Hh' & ->).
  unfold rtc_set_time. mstep Hw. cbv zeta. unfold RTC_TIMR_HOUR_Pos, RTC_TIMR_MIN_Pos, RTC_TIMR_SEC_Pos.
  rewrite (time_lor a h' m sec) by done. set (s0 := log_event _ s).
  destruct (update_ok fuel RTC_CR_UPDTIM RTC_TIMR (time_value a h' m sec) s0 Hready ltac:(discriminate) ltac:(by apply time_value_range))
    as (s1 & Hu & Hl). mstep Hu. rewrite bind_rdr. set (s2 := log_event _ s1).
  assert (last_write RTC_TIMR (get_log s2) = Some (time_value a h' m sec)) as Hl2 by (unfold s2; by rewrite (only_reads_last s1) by apply only_reads_rd).
  destruct (stable_read_written fuel RTC_TIMR init _ s2 Hhold Hl2) as (s3 & Hr & _).
  eexists _, s2, s3. split; [reflexivity|]. unfold rtc_get_time. mstep Hr. rewrite rval_word by (by apply time_value_range).
  destruct (time_decoded a h' m sec Ha Hh' Hm Hs) as (-> & -> & ->). done.
Qed.

Lemma rtc_date_ok fuel init y mo d wk s :
  holds_written RTC_CALR init -> clock_ready fuel -> 0 <= y < 8000 -> 0 <= mo < 20 -> 0 <= d < 40 -> 0 <= wk < 8 ->
  exists r s1 s2, rtc_set_date fuel y mo d wk s = Ok (r, s1) /\
    rtc_get_date fuel true true true true s1 = Ok ((Some y, Some mo, Some d, Some wk), s2).
Proof.
  intros Hhold Hready Hy Hmo Hd Hwk. unfold rtc_set_date. rewrite date_word_ok by done.
  destruct (update_ok fuel RTC_CR_UPDCAL RTC_CALR (date_value y mo d wk) s Hready ltac:(discriminate) ltac:(by apply date_value_range))
    as (s1 & Hu & Hl). mstep Hu. rewrite bind_rdr. set (s2 := log_event _ s1).
  assert (last_write RTC_CALR (get_log s2) = Some (date_value y mo d wk)) as Hl2 by (unfold s2; by rewrite (only_reads_last s1) by apply only_reads_rd).
  destruct (stable_read_written fuel RTC_CALR init _ s2 Hhold Hl2) as (s3 & Hr & _).
  eexists _, s2, s3. split; [reflexivity|]. unfold rtc_get_date. mstep Hr. rewrite rval_word by (by apply date_value_range).
  destruct (date_decoded y mo d wk Hy Hmo Hd Hwk) as (-> & -> & -> & ->). done.
Qed.
End Roundtrip.



(** A clock in 24-hour mode that is always ready. *)
Module RtcSample.
#[local] Instance clock_hw : Hardware rtc_reg := fun l r =>
  match r with RTC_SR => 5 | RTC_TIMR | RTC_CALR => default 0 (last_write r l) | _ => 0 end.
#[local] Existing Instance plain_log.

End RtcSample.
