(* ===== verification/SamTwi.v ===== *)
(** * The two-wire interface of the ATSAM4S (platforms/atsam4s/asf/src/twi.c)

    Master and slave transfers on the I2C bus by polling the status register. *)

From S2P Require Import Prelude Mmio SamDev.
From stdpp Require Import base list gmap sets.
From Stdlib Require Import ZArith Lia.
Local Open Scope Z_scope.

Inductive twi_reg :=
| TWI_CR | TWI_MMR | TWI_SMR | TWI_IADR | TWI_CWGR | TWI_SR | TWI_IER | TWI_IDR | TWI_IMR | TWI_RHR | TWI_THR.
#[global] Instance twi_reg_eq_dec : EqDecision twi_reg.
Proof. solve_decision. Defined.
#[global] Instance twi_registers : Registers twi_reg := 32.

Definition LOW_LEVEL_TIME_LIMIT : Z := 384000.
Definition I2C_FAST_MODE_SPEED : Z := 400000.
Definition TWI_CLK_DIVIDER : Z := 2.
Definition TWI_CLK_CALC_ARGU : Z := 4.
Definition TWI_CLK_DIV_MAX : Z := 0xFF.
Definition TWI_CLK_DIV_MIN : Z := 7.
Definition TWI_TIMEOUT : Z := 30000.
Definition TWI_SUCCESS : Z := 0.
Definition TWI_INVALID_ARGUMENT : Z := 1.
Definition TWI_RECEIVE_NACK : Z := 5.
Definition TWI_ERROR_TIMEOUT : Z := 9.
Definition PASS : Z := 0.
Definition FAIL : Z := 1.

Definition TWI_CR_START : Z := bit 0.
Definition TWI_CR_STOP : Z := bit 1.
Definition TWI_CR_MSEN : Z := bit 2.
Definition TWI_CR_MSDIS : Z := bit 3.
Definition TWI_CR_SVEN : Z := bit 4.
Definition TWI_CR_SVDIS : Z := bit 5.
Definition TWI_CR_QUICK : Z := bit 6.
Definition TWI_CR_SWRST : Z := bit 7.
Definition TWI_MMR_IADRSZ_Pos : Z := 8.
Definition TWI_MMR_IADRSZ_Msk : Z := Z.shiftl 0x3 8.
Definition TWI_MMR_MREAD : Z := bit 12.
Definition TWI_MMR_DADR (value : Z) : Z := field (Z.shiftl 0x7f 16) 16 value.
Definition TWI_SMR_SADR (value : Z) : Z := field (Z.shiftl 0x7f 16) 16 value.
Definition TWI_CWGR_CLDIV (value : Z) : Z := field (Z.shiftl 0xff 0) 0 value.
Definition TWI_CWGR_CHDIV (value : Z) : Z := field (Z.shiftl 0xff 8) 8 value.
Definition TWI_CWGR_CKDIV (value : Z) : Z := field (Z.shiftl 0x7 16) 16 value.
Definition TWI_SR_TXCOMP : Z := bit 0.
Definition TWI_SR_RXRDY : Z := bit 1.
Definition TWI_SR_TXRDY : Z := bit 2.
Definition TWI_SR_SVREAD : Z := bit 3.
Definition TWI_SR_SVACC : Z := bit 4.
Definition TWI_SR_GACC : Z := bit 5.
Definition TWI_SR_NACK : Z := bit 8.
Definition TWI_SR_EOSACC : Z := bit 11.

Record twi_options := TwiOptions { master_clk : Z; speed : Z; opt_chip : Z; smbus : Z }.
(** The buffer of a read is its result. *)
Record twi_packet := TwiPacket { addr : Z * Z * Z; addr_length : Z; buffer : list Z; chip : Z }.

(** The division loop: both dividers end in range, or [ckdiv] at its limit. *)
Fixpoint ckdiv_loop (todo : nat) (ckdiv div : Z) : Z * Z :=
  match todo with
  | O => (ckdiv, div)
  | S todo =>
    if (TWI_CLK_DIV_MAX <? div) && (ckdiv <? TWI_CLK_DIV_MIN) then ckdiv_loop todo (ckdiv + 1) (div / TWI_CLK_DIVIDER)
    else (ckdiv, div)
  end.

(** At most seven rounds are possible. *)
Definition scale (ckdiv div : Z) : Z * Z := ckdiv_loop 8 ckdiv div.

(** [mck / d - 4] on unsigned words; a division by zero is undefined. *)
Definition half_period (ul_mck d : Z) : option Z := if d =? 0 then None else Some (u32 (ul_mck / d - TWI_CLK_CALC_ARGU)).

Definition twi_mk_addr (a : Z * Z * Z) (len : Z) : Z :=
  let '(a0, a1, a2) := a in
  if len =? 0 then 0
  else
    let val := a0 in
    let val := if 1 <? len then Z.lor (u32 (Z.shiftl val 8)) a1 else val in
    if 2 <? len then Z.lor (u32 (Z.shiftl val 8)) a2 else val.

Section Twi.
Context {S : Type} `{!Hardware twi_reg, !HasLog twi_reg S}.
Context (fuel : nat).

Definition twi_enable_master_mode : M S unit :=
  wrr TWI_CR TWI_CR_MSDIS;; wrr TWI_CR TWI_CR_SVDIS;; wrr TWI_CR TWI_CR_MSEN.
Definition twi_disable_master_mode : M S unit := wrr TWI_CR TWI_CR_MSDIS.

Definition twi_set_speed (ul_speed ul_mck : Z) : M S Z :=
  if I2C_FAST_MODE_SPEED <? ul_speed then mret FAIL
  else if LOW_LEVEL_TIME_LIMIT <? ul_speed then
    cldiv ← lift_opt (half_period ul_mck (LOW_LEVEL_TIME_LIMIT * TWI_CLK_DIVIDER));
    chdiv ← lift_opt (half_period ul_mck ((ul_speed + (ul_speed - LOW_LEVEL_TIME_LIMIT)) * TWI_CLK_DIVIDER));
    let '(ckdiv, cldiv) := scale 0 cldiv in
    let '(ckdiv, chdiv) := scale ckdiv chdiv in
    wrr TWI_CWGR (Z.lor (Z.lor (TWI_CWGR_CLDIV cldiv) (TWI_CWGR_CHDIV chdiv)) (TWI_CWGR_CKDIV ckdiv));;
    mret PASS
  else
    c_lh_div ← lift_opt (half_period ul_mck (u32 (ul_speed * TWI_CLK_DIVIDER)));
    let '(ckdiv, c_lh_div) := scale 0 c_lh_div in
    wrr TWI_CWGR (Z.lor (Z.lor (TWI_CWGR_CLDIV c_lh_div) (TWI_CWGR_CHDIV c_lh_div)) (TWI_CWGR_CKDIV ckdiv));;
    mret PASS.

Definition twi_reset : M S unit := wrr TWI_CR TWI_CR_SWRST;; _ ← rdr TWI_RHR; mret tt.

Definition twi_master_init (p_opt : twi_options) : M S Z :=
  wrr TWI_IDR 0xFFFFFFFF;;
  _ ← rdr TWI_SR;
  twi_reset;;
  twi_enable_master_mode;;
  e ← twi_set_speed (speed p_opt) (master_clk p_opt);
  (if smbus p_opt =? 1 then wrr TWI_CR TWI_CR_QUICK else mret tt);;
  mret (if e =? FAIL then TWI_INVALID_ARGUMENT else TWI_SUCCESS).

(** The address registers of a transfer. *)
Definition address (direction : Z) (p : twi_packet) : M S unit :=
  wrr TWI_MMR 0;;
  wrr TWI_MMR (Z.lor (Z.lor direction (TWI_MMR_DADR (chip p)))
                 (Z.land (u32 (Z.shiftl (addr_length p) TWI_MMR_IADRSZ_Pos)) TWI_MMR_IADRSZ_Msk));;
  wrr TWI_IADR 0;;
  wrr TWI_IADR (twi_mk_addr (addr p) (addr_length p)).

(** One byte of a read: an error code, or the byte and whether STOP was sent.
    [timeout] counts the polls that are left. *)
Fixpoint read_byte (timeout : nat) (lastb stop_sent : bool) : M S (Z + Z * bool) :=
  status ← rdr TWI_SR;
  if ctrue (Z.land status TWI_SR_NACK) then mret (inl TWI_RECEIVE_NACK)
  else match timeout with
       | O => mret (inl TWI_ERROR_TIMEOUT)
       | Datatypes.S timeout =>
         (if lastb && negb stop_sent then wrr TWI_CR TWI_CR_STOP else mret tt);;
         let stop_sent := stop_sent || lastb in
         if ctrue (Z.land status TWI_SR_RXRDY) then b ← rdr TWI_RHR; mret (inr (u8 b, stop_sent))
         else read_byte timeout lastb stop_sent
       end.

(** [cnt] bytes; on an error the bytes before it are in the buffer. *)
Fixpoint read_bytes (cnt : nat) (stop_sent : bool) : M S (Z * list Z) :=
  match cnt with
  | O => mret (TWI_SUCCESS, [])
  | Datatypes.S n =>
    r ← read_byte (Z.to_nat TWI_TIMEOUT) (bool_decide (n = 0%nat)) stop_sent;
    match r with
    | inl code => mret (code, [])
    | inr (b, stop_sent) => '(code, bs) ← read_bytes n stop_sent; mret (code, b :: bs)
    end
  end.

Definition twi_master_read (p : twi_packet) (length : nat) : M S (Z * list Z) :=
  match length with
  | O => mret (TWI_INVALID_ARGUMENT, [])
  | _ =>
    address TWI_MMR_MREAD p;;
    let single := bool_decide (length = 1%nat) in
    wrr TWI_CR (if single then Z.lor TWI_CR_START TWI_CR_STOP else TWI_CR_START);;
    '(code, bs) ← read_bytes length single;
    if code =? TWI_SUCCESS then
      wait_set fuel TWI_SR TWI_SR_TXCOMP;;
      _ ← rdr TWI_SR;
      mret (TWI_SUCCESS, bs)
    else mret (code, bs)
  end.

(** Polls until the transmitter is ready; false on a missing acknowledgement. *)
Fixpoint wait_txrdy (fuel : nat) : M S bool :=
  status ← rdr TWI_SR;
  if ctrue (Z.land status TWI_SR_NACK) then mret false
  else if ctrue (Z.land status TWI_SR_TXRDY) then mret true
  else match fuel with O => spin | Datatypes.S fuel => wait_txrdy fuel end.

Fixpoint write_bytes (bs : list Z) : M S bool :=
  match bs with
  | [] => mret true
  | b :: bs =>
    ok ← wait_txrdy fuel;
    if ok : bool then wrr TWI_THR b;; write_bytes bs else mret false
  end.

Definition twi_master_write (p : twi_packet) : M S Z :=
  match buffer p with
  | [] => mret TWI_INVALID_ARGUMENT
  | bs =>
    address 0 p;;
    ok ← write_bytes bs;
    if ok : bool then
      ok ← wait_txrdy fuel;
      if ok : bool then
        wrr TWI_CR TWI_CR_STOP;;
        wait_set fuel TWI_SR TWI_SR_TXCOMP;;
        mret TWI_SUCCESS
      else mret TWI_RECEIVE_NACK
    else mret TWI_RECEIVE_NACK
  end.

Definition twi_probe (uc_slave_addr : Z) : M S Z := twi_master_write (TwiPacket (0, 0, 0) 0 [0] uc_slave_addr).

Definition twi_enable_interrupt (ul_sources : Z) : M S unit := wrr TWI_IER ul_sources.
Definition twi_disable_interrupt (ul_sources : Z) : M S unit := wrr TWI_IDR ul_sources;; _ ← rdr TWI_SR; mret tt.
Definition twi_get_interrupt_status : M S Z := rdr TWI_SR.
Definition twi_get_interrupt_mask : M S Z := rdr TWI_IMR.
Definition twi_read_byte : M S Z := x ← rdr TWI_RHR; mret (u8 x).
Definition twi_write_byte (uc_byte : Z) : M S unit := wrr TWI_THR uc_byte.
Definition twi_enable_slave_mode : M S unit :=
  wrr TWI_CR TWI_CR_MSDIS;; wrr TWI_CR TWI_CR_SVDIS;; wrr TWI_CR TWI_CR_SVEN.
Definition twi_disable_slave_mode : M S unit := wrr TWI_CR TWI_CR_SVDIS.
Definition twi_set_slave_addr (ul_device_addr : Z) : M S unit := wrr TWI_SMR (TWI_SMR_SADR ul_device_addr).
Definition twi_slave_init (ul_device_addr : Z) : M S unit :=
  wrr TWI_IDR 0xFFFFFFFF;;
  _ ← rdr TWI_SR;
  twi_reset;;
  wrr TWI_SMR (TWI_SMR_SADR ul_device_addr);;
  twi_enable_slave_mode.

(** The end of a slave access. *)
Definition access_over (status : Z) : bool :=
  let m := Z.lor TWI_SR_EOSACC TWI_SR_TXCOMP in Z.land status m =? m.

(** The bytes received until the access ends, in [fuel] polls. *)
Fixpoint twi_slave_read (fuel : nat) : M S (list Z) :=
  status ← rdr TWI_SR;
  let again := match fuel with O => spin | Datatypes.S fuel => twi_slave_read fuel end in
  if ctrue (Z.land status TWI_SR_SVACC) then
    let m := Z.lor TWI_SR_SVREAD TWI_SR_RXRDY in
    if negb (ctrue (Z.land status TWI_SR_GACC)) && (Z.land status m =? m) then
      b ← rdr TWI_RHR; bs ← again; mret (u8 b :: bs)
    else again
  else if access_over status then mret [] else again.

(** The number of bytes sent; the data must be as long as the master reads. *)
Fixpoint twi_slave_write (fuel : nat) (p_data : list Z) : M S Z :=
  status ← rdr TWI_SR;
  let again p_data := match fuel with O => spin | Datatypes.S fuel => twi_slave_write fuel p_data end in
  if ctrue (Z.land status TWI_SR_SVACC) then
    if negb (ctrue (Z.land status (Z.lor TWI_SR_GACC TWI_SR_SVREAD))) && ctrue (Z.land status TWI_SR_TXRDY) then
      match p_data with
      | [] => ub
      | b :: p_data => wrr TWI_THR b;; n ← again p_data; mret (n + 1)
      end
    else again p_data
  else if access_over status then mret 0 else again p_data.
End Twi.

(** ** Transfers *)

Section Transfers.
Context {S : Type} `{!Hardware twi_reg, !HasLog twi_reg S}.
Implicit Types s : S.

(** No read of the status shows a missing acknowledgement. *)
Definition acknowledged : Prop := forall s, ctrue (Z.land (seen (S:=S) s TWI_SR) TWI_SR_NACK) = false.

Lemma wait_txrdy_ok fuel s :
  acknowledged -> reads_until fuel TWI_SR TWI_SR_TXRDY s = true ->
  exists s', wait_txrdy fuel s = Ok (true, s') /\ only_reads s s'.
Proof.
  intros Hack. revert s. induction fuel as [|fuel IH]; intros s H; cbn [wait_txrdy reads_until] in *; rewrite bind_rdr, Hack.
  - rewrite orb_false_r in H. rewrite (ctrue_mask _ 2) by done. eexists. split; [done|apply only_reads_rd].
  - destruct (ctrue (Z.land (seen s TWI_SR) TWI_SR_TXRDY)) eqn:Hc; [eexists; split; [done|apply only_reads_rd]|].
    apply orb_true_iff in H as [H|H]; [by rewrite (ctrue_mask _ 2) in Hc|].
    destruct (IH _ H) as (s' & Hw & Hr). exists s'. split; [done|]. by etrans; [apply only_reads_rd|].
Qed.

(** The bytes go to the transmit register in order, and nowhere else. *)
Lemma write_bytes_ok fuel bs s :
  acknowledged -> comes_up (S:=S) fuel TWI_SR TWI_SR_TXRDY -> Forall is_byte bs ->
  exists s', write_bytes fuel bs s = Ok (true, s') /\
    writes TWI_THR (get_log s') = writes TWI_THR (get_log s) ++ bs /\
    (forall r, r <> TWI_THR -> writes r (get_log s') = writes r (get_log s)).
Proof.
  intros Hack Hup Hb. revert s. induction Hb as [|b bs Hb _ IH]; intros s; cbn [write_bytes].
  - exists s. by rewrite app_nil_r.
  - destruct (wait_txrdy_ok fuel s Hack (Hup s)) as (s1 & Hw & Hr). mstep Hw. rewrite bind_wrr.
    destruct (IH (log_event (Wr TWI_THR (rval TWI_THR b)) s1)) as (s2 & Hrun & Hthr & Hoth).
    exists s2. split; [done|]. split.
    + rewrite Hthr, get_log_event, writes_wr, Hr, <- app_assoc. cbn. do 3 f_equal. apply (Z.mod_small b (2 ^ 32)). unfold is_byte in Hb. lia.
    + intros r Hne. rewrite Hoth, get_log_event, writes_wr_ne, Hr by congruence. done.
Qed.

(** The mode register of a transfer. *)
Definition mmr_of (direction : Z) (p : twi_packet) : Z :=
  rval TWI_MMR (Z.lor (Z.lor direction (TWI_MMR_DADR (chip p)))
    (Z.land (u32 (Z.shiftl (addr_length p) TWI_MMR_IADRSZ_Pos)) TWI_MMR_IADRSZ_Msk)).
Definition iadr_of (p : twi_packet) : Z := rval TWI_IADR (twi_mk_addr (addr p) (addr_length p)).

Lemma address_ok direction p s :
  exists s', address direction p s = Ok (tt, s') /\
    writes TWI_MMR (get_log s') = writes TWI_MMR (get_log s) ++ [0; mmr_of direction p] /\
    writes TWI_IADR (get_log s') = writes TWI_IADR (get_log s) ++ [0; iadr_of p] /\
    (forall r, r <> TWI_MMR -> r <> TWI_IADR -> writes r (get_log s') = writes r (get_log s)).
Proof.
  unfold address. rewrite !bind_wrr. eexists. split; [reflexivity|]. rewrite !get_log_event. observe.
  rewrite <- !app_assoc. split; [done|]. split; [done|]. intros r H1 H2. by rewrite !writes_wr_ne by congruence.
Qed.

Lemma twi_write_ok fuel p s :
  acknowledged -> comes_up (S:=S) fuel TWI_SR TWI_SR_TXRDY -> comes_up (S:=S) fuel TWI_SR TWI_SR_TXCOMP ->
  Forall is_byte (buffer p) -> buffer p <> [] ->
  exists s', twi_master_write fuel p s = Ok (TWI_SUCCESS, s') /\
    writes TWI_MMR (get_log s') = writes TWI_MMR (get_log s) ++ [0; mmr_of 0 p] /\
    writes TWI_IADR (get_log s') = writes TWI_IADR (get_log s) ++ [0; iadr_of p] /\
    writes TWI_THR (get_log s') = writes TWI_THR (get_log s) ++ buffer p /\
    writes TWI_CR (get_log s') = writes TWI_CR (get_log s) ++ [TWI_CR_STOP].
Proof.
  intros Hack Htx Hcomp Hb Hne. unfold twi_master_write. destruct (buffer p) as [|b bs] eqn:Hbuf; [done|].
  destruct (address_ok 0 p s) as (s1 & Ha & Hm1 & Hi1 & Ho1). mstep Ha.
  destruct (write_bytes_ok fuel (b :: bs) s1 Hack Htx Hb) as (s2 & Hw & Ht2 & Ho2). mstep Hw.
  destruct (wait_txrdy_ok fuel s2 Hack (Htx s2)) as (s3 & Hw3 & Hr3). mstep Hw3. rewrite bind_wrr. set (s4 := log_event _ s3).
  destruct (wait_set_returns fuel TWI_SR 0 s4 ltac:(lia) (Hcomp s4)) as (s5 & Hw5 & Hr5 & _). mstep Hw5.
  exists s5. split; [done|]. rewrite !Hr5. unfold s4. rewrite !get_log_event. observe. rewrite !Hr3, Ht2, !Ho2 by done.
  rewrite Hm1, Hi1. by rewrite !Ho1 by done.
Qed.
End Transfers.

Section Reads.
Context {S : Type} `{!Hardware twi_reg, !HasLog twi_reg S}.
Implicit Types s : S.

Definition stops (needed : bool) : list Z := if needed then [TWI_CR_STOP] else [].
Definition failure (code : Z) : Prop := code = TWI_RECEIVE_NACK \/ code = TWI_ERROR_TIMEOUT.

(** Waiting for a byte ends on any hardware: with an error, or with the byte that
    was taken from the receive register, STOP sent before the last one. *)
Lemma read_byte_total timeout lastb stop s :
  exists r s', read_byte timeout lastb stop s = Ok (r, s') /\
    match r with
    | inl code => failure code /\ reads TWI_RHR (get_log s') = reads TWI_RHR (get_log s)
    | inr (b, stop') => stop' = stop || lastb /\
        (exists v, reads TWI_RHR (get_log s') = reads TWI_RHR (get_log s) ++ [v] /\ b = u8 v) /\
        writes TWI_CR (get_log s') = writes TWI_CR (get_log s) ++ stops (lastb && negb stop)
    end.
Proof.
  revert stop s. induction timeout as [|timeout IH]; intros stop s; cbn [read_byte]; rewrite bind_rdr; set (s1 := log_event _ s).
  - destruct (ctrue _); eexists _, s1; (split; [reflexivity|]); (split; [by unfold failure; auto|]); unfold s1; rewrite get_log_event; by observe.
  - destruct (ctrue _).
    { eexists _, s1. split; [reflexivity|]. split; [by left|]. unfold s1. rewrite get_log_event. by observe. }
    set (s2 := if lastb && negb stop then log_event (Wr TWI_CR (rval TWI_CR TWI_CR_STOP)) s1 else s1).
    assert ((if lastb && negb stop then wrr TWI_CR TWI_CR_STOP else mret tt) s1 = Ok (tt, s2)) as Hs
      by (unfold s2; destruct (lastb && negb stop); reflexivity).
    assert (writes TWI_CR (get_log s2) = writes TWI_CR (get_log s) ++ stops (lastb && negb stop)) as Hcr.
    { unfold s2, s1. destruct (lastb && negb stop); rewrite ?get_log_event; observe; [done|by rewrite app_nil_r]. }
    assert (reads TWI_RHR (get_log s2) = reads TWI_RHR (get_log s)) as Hrhr.
    { unfold s2, s1. destruct (lastb && negb stop); rewrite ?get_log_event; by observe. }
    mstep Hs. cbv zeta. destruct (ctrue _).
    + rewrite bind_rdr. eexists (inr _), _. split; [reflexivity|]. split; [done|]. rewrite get_log_event. split.
      * eexists. split; [by observe; rewrite Hrhr|done].
      * by observe.
    + destruct (IH (stop || lastb) s2) as (r & s' & Hrun & Hspec). exists r, s'. split; [done|].
      destruct r as [code|[b stop']]; [by rewrite Hrhr in Hspec|]. destruct Hspec as (-> & Hv & Hw).
      split; [by destruct stop, lastb|]. rewrite Hrhr in Hv. split; [done|]. rewrite Hw, Hcr, <- app_assoc. f_equal.
      by destruct stop, lastb.
Qed.

Lemma read_bytes_total cnt stop s :
  exists code bs s', read_bytes cnt stop s = Ok ((code, bs), s') /\
    (exists raw, reads TWI_RHR (get_log s') = reads TWI_RHR (get_log s) ++ raw /\ bs = u8 <$> raw) /\
    ((code = TWI_SUCCESS /\ length bs = cnt /\
      writes TWI_CR (get_log s') = writes TWI_CR (get_log s) ++ stops (negb stop && bool_decide (0 < cnt)%nat)) \/
     (failure code /\ (length bs < cnt)%nat)).
Proof.
  revert stop s. induction cnt as [|cnt IH]; intros stop s; cbn [read_bytes].
  - eexists _, _, s. split; [reflexivity|]. split; [exists []; by rewrite app_nil_r|]. left. split; [done|]. split; [done|].
    rewrite bool_decide_false by lia. rewrite andb_false_r. by rewrite app_nil_r.
  - destruct (read_byte_total (Z.to_nat TWI_TIMEOUT) (bool_decide (cnt = 0%nat)) stop s) as (r & s1 & Hrun & Hspec).
    mstep Hrun. destruct r as [code|[b stop']].
    + destruct Hspec as [Hf Hr]. eexists _, _, s1. split; [reflexivity|]. split; [exists []; by rewrite app_nil_r|]. right. split; [done|simpl; lia].
    + destruct Hspec as (-> & (v & Hv & ->) & Hw).
      destruct (IH (stop || bool_decide (cnt = 0%nat)) s1) as (code & bs & s2 & Hrest & (raw & Hraw & ->) & Hcase). mstep Hrest.
      eexists _, _, s2. split; [reflexivity|]. split.
      * exists (v :: raw). split; [by rewrite Hraw, Hv, <- app_assoc|done].
      * destruct Hcase as [(-> & Hlen & Hw2)|[Hf Hlen]]; [left|right; split; [done|cbn; lia]].
        split; [done|]. split; [cbn; by rewrite Hlen|]. rewrite Hw2, Hw, <- app_assoc. f_equal.
        rewrite (bool_decide_true (0 < Datatypes.S cnt)%nat) by lia.
        destruct stop; [cbn; by rewrite andb_false_r|]. destruct cnt; [done|].
        rewrite (bool_decide_true (0 < Datatypes.S cnt)%nat) by lia. done.
Qed.
End Reads.


(** ** An instance *)

Module TwiSample.
(** A device that is always ready; the receive register counts its reads. *)
#[local] Instance twi_hw : Hardware twi_reg := fun l r =>
  match r with TWI_SR => 7 | TWI_RHR => Z.of_nat (length (reads TWI_RHR l)) | _ => 0 end.
#[local] Existing Instance plain_log.

Definition sample : twi_packet := TwiPacket (0x10, 0, 0) 1 [0xAA; 0x55] 0x50.
End TwiSample.

(** ** The clock divider *)

Section Speed.
Lemma ckdiv_loop_ok todo ck h :
  0 <= ck <= 7 -> 0 <= h -> 7 - ck < Z.of_nat todo -> h < 256 * 2 ^ (7 - ck) ->
  exists k, 0 <= k <= 7 - ck /\ ckdiv_loop todo ck h = (ck + k, h / 2 ^ k) /\ h / 2 ^ k <= 255.
Proof.
  revert ck h. induction todo as [|todo IH]; intros ck h Hck Hh Htodo Hlt; cbn [ckdiv_loop]; [lia|].
  unfold TWI_CLK_DIV_MAX, TWI_CLK_DIV_MIN, TWI_CLK_DIVIDER. destruct (Z.ltb_spec 255 h); cbn [andb].
  - destruct (Z.ltb_spec ck 7).
    + destruct (IH (ck + 1) (h / 2)) as (k & Hk & -> & Hle); [lia|Z.to_euclidean_division_equations; lia|lia| |].
      { apply Z.div_lt_upper_bound; [lia|]. replace (7 - ck) with (7 - (ck + 1) + 1) in Hlt by lia. rewrite Z.pow_add_r in Hlt by lia. lia. }
      exists (k + 1). rewrite Z.pow_add_r, Z.mul_comm, <- Z.div_div by lia. split; [lia|]. split; [f_equal; lia|done].
    + exists 0. assert (ck = 7) as -> by lia. rewrite Z.div_1_r, Z.add_0_r. split; [lia|]. split; [done|]. simpl in Hlt. lia.
  - exists 0. rewrite Z.div_1_r, Z.add_0_r. split; [lia|]. split; [done|lia].
Qed.

(** The clock word by its dividers. *)
Lemma cwgr_ok cl ch ck :
  0 <= cl <= 255 -> 0 <= ch <= 255 -> 0 <= ck <= 7 ->
  Z.lor (Z.lor (TWI_CWGR_CLDIV cl) (TWI_CWGR_CHDIV ch)) (TWI_CWGR_CKDIV ck) = cl + ch * 2 ^ 8 + ck * 2 ^ 16.
Proof.
  intros H1 H2 H3. unfold TWI_CWGR_CLDIV, TWI_CWGR_CHDIV, TWI_CWGR_CKDIV.
  change (Z.shiftl 0xff 0) with (Z.shiftl (Z.ones 8) 0). change (Z.shiftl 0xff 8) with (Z.shiftl (Z.ones 8) 8).
  change (Z.shiftl 0x7 16) with (Z.shiftl (Z.ones 3) 16). rewrite !field_ok by lia. change (2 ^ 0) with 1. rewrite Z.mul_1_r.
  rewrite (lor_low cl), (lor_low _ ck) by lia. lia.
Qed.
End Speed.

(** The bus clock: for a speed of standard and fast mode up to 384 kHz and a
    master clock that can be divided down to it, the dividers written fit their
    fields, the bus runs at least at the requested speed and each half period is
    less than [2 ^ ckdiv] cycles short of the requested one. *)
Theorem twi_speed_bounds {S} `{!HasLog twi_reg S} sp mck (s : S) :
  1 <= sp <= LOW_LEVEL_TIME_LIMIT -> 0 <= mck < 2 ^ 32 -> 4 * (2 * sp) <= mck < 32772 * (2 * sp) ->
  exists c ck s', twi_set_speed sp mck s = Ok (PASS, s') /\ 0 <= c <= 255 /\ 0 <= ck <= 7 /\
    last_write TWI_CWGR (get_log s') = Some (c + c * 2 ^ 8 + ck * 2 ^ 16) /\
    2 * sp * (c * 2 ^ ck + 4) <= mck < 2 * sp * (c * 2 ^ ck + 4 + 2 ^ ck).
Proof.
  intros Hsp Hmck Hr. unfold twi_set_speed. unfold LOW_LEVEL_TIME_LIMIT, I2C_FAST_MODE_SPEED, TWI_CLK_DIVIDER in *.
  destruct (Z.ltb_spec 400000 sp); [lia|]. destruct (Z.ltb_spec 384000 sp); [lia|].
  unfold half_period, u32, TWI_CLK_CALC_ARGU. rewrite (Z.mod_small (sp * 2)) by lia. destruct (Z.eqb_spec (sp * 2) 0); [lia|].
  set (h := mck / (sp * 2) - 4).
  assert (0 <= h < 32768 /\ (h + 4) * (2 * sp) <= mck < (h + 5) * (2 * sp)) as [Hh Hm].
  { unfold h. pose proof (Z.div_mod mck (sp * 2)). pose proof (Z.mod_pos_bound mck (sp * 2)). split; [|lia]. split.
    - enough (4 <= mck / (sp * 2)) by lia. apply Z.div_le_lower_bound; lia.
    - enough (mck / (sp * 2) < 32772) by lia. apply Z.div_lt_upper_bound; lia. }
  rewrite (Z.mod_small h) by lia. cbn [lift_opt]. mnorm.
  destruct (ckdiv_loop_ok 8 0 h ltac:(lia) ltac:(lia) ltac:(lia) ltac:(simpl; lia)) as (k & Hk & Hloop & Hle).
  unfold scale. rewrite Hloop. rewrite bind_wrr. exists (h / 2 ^ k), k.
  pose proof (Z.pow_pos_nonneg 2 k ltac:(lia) ltac:(lia)) as Hp. pose proof (Z.div_pos h (2 ^ k) ltac:(lia) Hp) as Hdp.
  eexists. split; [reflexivity|]. split; [lia|]. split; [lia|]. split.
  - rewrite get_log_event, last_write_wr, Z.add_0_l, cwgr_ok by lia. f_equal. unfold rval. apply (Z.mod_small _ (2 ^ 32)). lia.
  - pose proof (Z.div_mod h (2 ^ k) ltac:(lia)) as Hdm. pose proof (Z.mod_pos_bound h (2 ^ k) Hp) as Hmb. nia.
Qed.

Module SpeedSample.
#[local] Existing Instance plain_log.
Lemma twi_speed_bounds_witness :
  exists c ck s', twi_set_speed 100000 64000000 ([] : list (access twi_reg)) = Ok (PASS, s') /\ 0 <= c <= 255 /\ 0 <= ck <= 7 /\
    last_write TWI_CWGR s' = Some (c + c * 2 ^ 8 + ck * 2 ^ 16) /\
    2 * 100000 * (c * 2 ^ ck + 4) <= 64000000 < 2 * 100000 * (c * 2 ^ ck + 4 + 2 ^ ck).
Proof.
  apply (@twi_speed_bounds _ (plain_log twi_reg) 100000 64000000 []).
  - unfold LOW_LEVEL_TIME_LIMIT. lia.
  - lia.
  - lia.
Defined.
End SpeedSample.
