(* ===== verification/SamUsart.v ===== *)
(** * The USART of the ATSAM4S (platforms/atsam4s/asf/src/usart.c)

    Baud rates, the initialisation of every mode, single characters, break,
    timeout, modem and Manchester control, in the configuration of the SAM4S. *)

From S2P Require Import Prelude Mmio SamDev.
From stdpp Require Import base list gmap sets.
From Stdlib Require Import ZArith Lia.
Local Open Scope Z_scope.

Inductive usart_reg :=
| US_CR | US_MR | US_IER | US_IDR | US_IMR | US_CSR | US_RHR | US_THR | US_BRGR | US_RTOR | US_TTGR | US_FIDI | US_NER | US_IF | US_MAN
| US_WPMR | US_WPSR.
#[global] Instance usart_reg_eq_dec : EqDecision usart_reg.
Proof. solve_decision. Defined.
#[global] Instance usart_registers : Registers usart_reg := 32.

Definition MIN_CD_VALUE : Z := 0x01.
Definition MIN_CD_VALUE_SPI : Z := 0x04.
Definition HIGH_FRQ_SAMPLE_DIV : Z := 16.
Definition LOW_FRQ_SAMPLE_DIV : Z := 8.
Definition ISO7816_T_0 : Z := 0.
Definition ISO7816_T_1 : Z := 1.
Definition SPI_MODE_0 : Z := 0.
Definition SPI_MODE_1 : Z := 1.
Definition SPI_MODE_2 : Z := 2.
Definition SPI_MODE_3 : Z := 3.
Definition US_BRGR_CD_Msk : Z := Z.shiftl 0xffff 0.
Definition US_BRGR_CD_Pos : Z := 0.
Definition US_BRGR_FP_Pos : Z := 16.
Definition US_CR_DTRDIS : Z := bit 17.
Definition US_CR_DTREN : Z := bit 16.
Definition US_CR_FCS : Z := bit 18.
Definition US_CR_RCS : Z := bit 19.
Definition US_CR_RETTO : Z := bit 15.
Definition US_CR_RSTIT : Z := bit 13.
Definition US_CR_RSTNACK : Z := bit 14.
Definition US_CR_RSTRX : Z := bit 2.
Definition US_CR_RSTSTA : Z := bit 8.
Definition US_CR_RSTTX : Z := bit 3.
Definition US_CR_RTSDIS : Z := bit 19.
Definition US_CR_RTSEN : Z := bit 18.
Definition US_CR_RXDIS : Z := bit 5.
Definition US_CR_RXEN : Z := bit 4.
Definition US_CR_SENDA : Z := bit 12.
Definition US_CR_STPBRK : Z := bit 10.
Definition US_CR_STTBRK : Z := bit 9.
Definition US_CR_STTTO : Z := bit 11.
Definition US_CR_TXDIS : Z := bit 7.
Definition US_CR_TXEN : Z := bit 6.
Definition US_CSR_ENDRX : Z := bit 3.
Definition US_CSR_ENDTX : Z := bit 4.
Definition US_CSR_RXBUFF : Z := bit 12.
Definition US_CSR_RXRDY : Z := bit 0.
Definition US_CSR_TXBUFE : Z := bit 11.
Definition US_CSR_TXEMPTY : Z := bit 9.
Definition US_CSR_TXRDY : Z := bit 1.
Definition US_MAN_DRIFT : Z := bit 30.
Definition US_MAN_RX_MPOL : Z := bit 28.
Definition US_MAN_RX_PL (value : Z) : Z := field (Z.shiftl 0xf 16) 16 value.
Definition US_MAN_RX_PL_Msk : Z := Z.shiftl 0xf 16.
Definition US_MAN_RX_PP_Msk : Z := Z.shiftl 0x3 24.
Definition US_MAN_RX_PP_Pos : Z := 24.
Definition US_MAN_TX_MPOL : Z := bit 12.
Definition US_MAN_TX_PL (value : Z) : Z := field (Z.shiftl 0xf 0) 0 value.
Definition US_MAN_TX_PL_Msk : Z := Z.shiftl 0xf 0.
Definition US_MAN_TX_PP_Msk : Z := Z.shiftl 0x3 8.
Definition US_MAN_TX_PP_Pos : Z := 8.
Definition US_MR_CLKO : Z := bit 18.
Definition US_MR_CPHA : Z := bit 8.
Definition US_MR_CPOL : Z := bit 16.
Definition US_MR_DSNACK : Z := bit 21.
Definition US_MR_INACK : Z := bit 20.
Definition US_MR_MAX_ITERATION_Pos : Z := 24.
Definition US_MR_MSBF : Z := bit 16.
Definition US_MR_NBSTOP_1_BIT : Z := Z.shiftl 0x0 12.
Definition US_MR_NBSTOP_2_BIT : Z := Z.shiftl 0x2 12.
Definition US_MR_OVER : Z := bit 19.
Definition US_MR_PAR_EVEN : Z := Z.shiftl 0x0 9.
Definition US_MR_PAR_MULTIDROP : Z := Z.shiftl 0x6 9.
Definition US_MR_PAR_ODD : Z := bit 9.
Definition US_MR_SYNC : Z := bit 8.
Definition US_MR_USART_MODE_HW_HANDSHAKING : Z := Z.shiftl 0x2 0.
Definition US_MR_USART_MODE_IRDA : Z := Z.shiftl 0x8 0.
Definition US_MR_USART_MODE_IS07816_T_0 : Z := Z.shiftl 0x4 0.
Definition US_MR_USART_MODE_IS07816_T_1 : Z := Z.shiftl 0x6 0.
Definition US_MR_USART_MODE_MODEM : Z := Z.shiftl 0x3 0.
Definition US_MR_USART_MODE_Msk : Z := Z.shiftl 0xf 0.
Definition US_MR_USART_MODE_NORMAL : Z := Z.shiftl 0x0 0.
Definition US_MR_USART_MODE_RS485 : Z := bit 0.
Definition US_MR_USART_MODE_SPI_MASTER : Z := Z.shiftl 0xE 0.
Definition US_MR_USART_MODE_SPI_SLAVE : Z := Z.shiftl 0xF 0.
Definition US_MR_USCLKS_MCK : Z := Z.shiftl 0x0 4.
Definition US_MR_USCLKS_Msk : Z := Z.shiftl 0x3 4.
Definition US_MR_USCLKS_SCK : Z := Z.shiftl 0x3 4.
Definition US_NER_NB_ERRORS_Msk : Z := Z.shiftl 0xff 0.
Definition US_RHR_RXCHR_Msk : Z := Z.shiftl 0x1ff 0.
Definition US_THR_TXCHR (value : Z) : Z := field (Z.shiftl 0x1ff 0) 0 value.
Definition US_TTGR_TG_Msk : Z := Z.shiftl 0xff 0.
Definition US_WPMR_WPEN : Z := bit 0.
Definition US_WPMR_WPKEY_PASSWD : Z := Z.shiftl 0x555341 8.
Definition US_WPSR_WPVS : Z := bit 0.
Definition US_WPSR_WPVSRC_Msk : Z := Z.shiftl 0xffff 8.
Definition US_WPSR_WPVSRC_Pos : Z := 8.
Definition MAX_CD_VALUE : Z := US_BRGR_CD_Msk.

Record sam_usart_opt := UsartOpt {
  baudrate : Z; char_length : Z; parity_type : Z; stop_bits : Z; channel_mode : Z; irda_filter : Z;
}.
Record usart_iso7816_opt := Iso7816Opt {
  iso7816_hz : Z; fidi_ratio : Z; iso_parity_type : Z; inhibit_nack : Z; dis_suc_nack : Z; max_iterations : Z; bit_order : Z;
  protocol_type : Z;
}.
Record usart_spi_opt := SpiOpt { spi_baudrate : Z; spi_char_length : Z; spi_mode : Z; spi_channel_mode : Z }.

(** Unsigned division; by zero it is undefined. *)
Definition udiv (a b : Z) : option Z := if b =? 0 then None else Some (a / b).

Section Usart.
Context {S : Type} `{!Hardware usart_reg, !HasLog usart_reg S}.
Context (fuel : nat).

(** Sixteen samples per bit when the clock allows it, the divisor in eighths
    rounded to the nearest. *)
Definition usart_set_async_baudrate (baudrate ul_mck : Z) : M S Z :=
  let over := if u32 (HIGH_FRQ_SAMPLE_DIV * baudrate) <=? ul_mck then HIGH_FRQ_SAMPLE_DIV else LOW_FRQ_SAMPLE_DIV in
  let d := u32 (over * baudrate) in
  cd_fp ← lift_opt (udiv (u32 (u32 (8 * ul_mck) + d / 2)) d);
  let cd := Z.shiftr cd_fp 3 in
  let fp := Z.land cd_fp 0x07 in
  if (cd <? MIN_CD_VALUE) || (MAX_CD_VALUE <? cd) then mret 1
  else
    (if over =? 8 then orr US_MR US_MR_OVER else mret tt);;
    wrr US_BRGR (Z.lor (Z.shiftl cd US_BRGR_CD_Pos) (Z.shiftl fp US_BRGR_FP_Pos));;
    mret 0.

(** [(ul_mck + baudrate / 2) / baudrate] with a lower bound; true when in range. *)
Definition divisor (low baudrate ul_mck : Z) : M S (option Z) :=
  cd ← lift_opt (udiv (u32 (ul_mck + baudrate / 2)) baudrate);
  mret (if (cd <? low) || (MAX_CD_VALUE <? cd) then None else Some cd).

Definition usart_set_sync_master_baudrate (baudrate ul_mck : Z) : M S Z :=
  cd ← divisor MIN_CD_VALUE baudrate ul_mck;
  match cd with
  | None => mret 1
  | Some cd =>
    wrr US_BRGR (Z.shiftl cd US_BRGR_CD_Pos);;
    updr US_MR US_MR_USCLKS_Msk (Z.lor US_MR_USCLKS_MCK US_MR_SYNC);;
    mret 0
  end.
Definition usart_set_sync_slave_baudrate : M S unit := updr US_MR US_MR_USCLKS_Msk (Z.lor US_MR_USCLKS_SCK US_MR_SYNC).
Definition usart_set_spi_master_baudrate (baudrate ul_mck : Z) : M S Z :=
  cd ← divisor MIN_CD_VALUE_SPI baudrate ul_mck;
  match cd with
  | None => mret 1
  | Some cd => wrr US_BRGR (Z.shiftl cd US_BRGR_CD_Pos);; mret 0
  end.
Definition usart_set_spi_slave_baudrate : M S unit := clrr US_MR US_MR_USCLKS_Msk;; orr US_MR US_MR_USCLKS_SCK.

(** ** Control *)

Definition usart_enable_tx : M S unit := wrr US_CR US_CR_TXEN.
Definition usart_disable_tx : M S unit := wrr US_CR US_CR_TXDIS.
Definition usart_reset_tx : M S unit := wrr US_CR (Z.lor US_CR_RSTTX US_CR_TXDIS).
Definition usart_set_tx_timeguard (timeguard : Z) : M S unit := wrr US_TTGR timeguard.
Definition usart_enable_rx : M S unit := wrr US_CR US_CR_RXEN.
Definition usart_disable_rx : M S unit := wrr US_CR US_CR_RXDIS.
Definition usart_reset_rx : M S unit := wrr US_CR (Z.lor US_CR_RSTRX US_CR_RXDIS).
Definition usart_set_rx_timeout (timeout : Z) : M S unit := wrr US_RTOR timeout.
Definition usart_enable_interrupt (ul_sources : Z) : M S unit := wrr US_IER ul_sources.
Definition usart_disable_interrupt (ul_sources : Z) : M S unit := wrr US_IDR ul_sources.
Definition usart_get_interrupt_mask : M S Z := rdr US_IMR.
Definition usart_get_status : M S Z := rdr US_CSR.
Definition usart_reset_status : M S unit := wrr US_CR US_CR_RSTSTA.
Definition usart_start_tx_break : M S unit := wrr US_CR US_CR_STTBRK.
Definition usart_stop_tx_break : M S unit := wrr US_CR US_CR_STPBRK.
Definition usart_start_rx_timeout : M S unit := wrr US_CR US_CR_STTTO.
Definition usart_restart_rx_timeout : M S unit := wrr US_CR US_CR_RETTO.
Definition usart_drive_DTR_pin_low : M S unit := wrr US_CR US_CR_DTREN.
Definition usart_drive_DTR_pin_high : M S unit := wrr US_CR US_CR_DTRDIS.
Definition usart_drive_RTS_pin_low : M S unit := wrr US_CR US_CR_RTSEN.
Definition usart_drive_RTS_pin_high : M S unit := wrr US_CR US_CR_RTSDIS.
Definition usart_spi_force_chip_select : M S unit := wrr US_CR US_CR_FCS.
Definition usart_spi_release_chip_select : M S unit := wrr US_CR US_CR_RCS.
Definition usart_reset_iterations : M S unit := wrr US_CR US_CR_RSTIT.
Definition usart_reset_nack : M S unit := wrr US_CR US_CR_RSTNACK.
Definition usart_enable_writeprotect : M S unit := wrr US_WPMR (Z.lor US_WPMR_WPEN US_WPMR_WPKEY_PASSWD).
Definition usart_disable_writeprotect : M S unit := wrr US_WPMR US_WPMR_WPKEY_PASSWD.
Definition usart_get_writeprotect_status : M S Z :=
  reg_value ← rdr US_WPSR;
  mret (if ctrue (Z.land reg_value US_WPSR_WPVS) then Z.shiftr (Z.land reg_value US_WPSR_WPVSRC_Msk) US_WPSR_WPVSRC_Pos else 0).

(** [(p_usart->US_CSR & flag) > 0] *)
Definition status_flag (flag : Z) : M S Z := x ← rdr US_CSR; mret (if 0 <? Z.land x flag then 1 else 0).
Definition usart_is_rx_buf_full : M S Z := status_flag US_CSR_RXBUFF.
Definition usart_is_rx_buf_end : M S Z := status_flag US_CSR_ENDRX.
Definition usart_is_tx_buf_end : M S Z := status_flag US_CSR_ENDTX.
Definition usart_is_tx_buf_empty : M S Z := status_flag US_CSR_TXBUFE.
Definition usart_is_tx_ready : M S Z := status_flag US_CSR_TXRDY.
Definition usart_is_tx_empty : M S Z := status_flag US_CSR_TXEMPTY.
Definition usart_is_rx_ready : M S Z := status_flag US_CSR_RXRDY.
Definition usart_get_error_number : M S Z := x ← rdr US_NER; mret (u8 (Z.land x US_NER_NB_ERRORS_Msk)).

Definition usart_reset : M S unit :=
  usart_disable_writeprotect;;
  wrr US_MR 0;;
  wrr US_RTOR 0;;
  wrr US_TTGR 0;;
  usart_reset_tx;;
  usart_reset_rx;;
  usart_reset_status;;
  usart_drive_RTS_pin_high;;
  usart_drive_DTR_pin_high.

(** ** Modes *)

(** The frame format of the options. *)
Definition frame (o : sam_usart_opt) : Z := Z.lor (Z.lor (Z.lor (char_length o) (parity_type o)) (channel_mode o)) (stop_bits o).

Definition usart_init_rs232 (p_usart_opt : option sam_usart_opt) (ul_mck : Z) : M S Z :=
  usart_reset;;
  match p_usart_opt with
  | None => mret 1
  | Some o =>
    e ← usart_set_async_baudrate (baudrate o) ul_mck;
    if ctrue e then mret 1
    else orr US_MR (Z.lor (frame o) US_MR_USART_MODE_NORMAL);; mret 0
  end.

(** An asynchronous mode on top of [usart_init_rs232]. *)
Definition with_mode (p_usart_opt : option sam_usart_opt) (ul_mck : Z) (mode : Z) : M S Z :=
  e ← usart_init_rs232 p_usart_opt ul_mck;
  if ctrue e then mret 1 else updr US_MR US_MR_USART_MODE_Msk mode;; mret 0.
Definition usart_init_hw_handshaking (o : option sam_usart_opt) (ul_mck : Z) : M S Z := with_mode o ul_mck US_MR_USART_MODE_HW_HANDSHAKING.
Definition usart_init_rs485 (o : option sam_usart_opt) (ul_mck : Z) : M S Z := with_mode o ul_mck US_MR_USART_MODE_RS485.
(** The modem mode exists on USART1 only. *)
Definition usart_init_modem (is_usart1 : bool) (o : option sam_usart_opt) (ul_mck : Z) : M S Z :=
  if is_usart1 then with_mode o ul_mck US_MR_USART_MODE_MODEM else mret 1.
Definition usart_init_irda (p_usart_opt : option sam_usart_opt) (ul_mck : Z) : M S Z :=
  e ← usart_init_rs232 p_usart_opt ul_mck;
  if ctrue e then mret 1
  else match p_usart_opt with
       | None => ub
       | Some o => wrr US_IF (irda_filter o);; updr US_MR US_MR_USART_MODE_Msk US_MR_USART_MODE_IRDA;; mret 0
       end.

Definition usart_init_sync_master (p_usart_opt : option sam_usart_opt) (ul_mck : Z) : M S Z :=
  usart_reset;;
  match p_usart_opt with
  | None => mret 1
  | Some o =>
    e ← usart_set_sync_master_baudrate (baudrate o) ul_mck;
    if ctrue e then mret 1
    else orr US_MR (Z.lor (frame o) (Z.lor US_MR_USART_MODE_NORMAL US_MR_CLKO));; mret 0
  end.

Definition usart_init_sync_slave (p_usart_opt : option sam_usart_opt) : M S Z :=
  usart_reset;;
  usart_set_sync_slave_baudrate;;
  match p_usart_opt with
  | None => mret 1
  | Some o => orr US_MR (Z.lor (frame o) US_MR_USART_MODE_NORMAL);; mret 0
  end.

Definition usart_set_iso7816_clock (clock ul_mck : Z) : M S Z :=
  cd ← divisor MIN_CD_VALUE clock ul_mck;
  match cd with
  | None => mret 1
  | Some cd =>
    updr US_MR (Z.lor (Z.lor US_MR_USCLKS_Msk US_MR_SYNC) US_MR_OVER) (Z.lor US_MR_USCLKS_MCK US_MR_CLKO);;
    wrr US_BRGR (Z.shiftl cd US_BRGR_CD_Pos);;
    mret 0
  end.

(** The mode bits of a smart card protocol; [None] for options it does not have. *)
Definition iso7816_mode (o : usart_iso7816_opt) : option Z :=
  if protocol_type o =? ISO7816_T_0 then
    let v := Z.lor (Z.lor US_MR_USART_MODE_IS07816_T_0 US_MR_NBSTOP_2_BIT) (u32 (Z.shiftl (max_iterations o) US_MR_MAX_ITERATION_Pos)) in
    Some (if ctrue (bit_order o) then Z.lor v US_MR_MSBF else v)
  else if protocol_type o =? ISO7816_T_1 then
    if ctrue (bit_order o) || ctrue (max_iterations o) then None else Some (Z.lor US_MR_USART_MODE_IS07816_T_1 US_MR_NBSTOP_1_BIT)
  else None.

Definition usart_init_iso7816 (p_usart_opt : option usart_iso7816_opt) (ul_mck : Z) : M S Z :=
  usart_reset;;
  match p_usart_opt with
  | None => mret 1
  | Some o =>
    if negb (iso_parity_type o =? US_MR_PAR_EVEN) && negb (iso_parity_type o =? US_MR_PAR_ODD) then mret 1
    else match iso7816_mode o with
         | None => mret 1
         | Some v =>
           e ← usart_set_iso7816_clock (iso7816_hz o) ul_mck;
           if ctrue e then mret 1
           else
             wrr US_FIDI (fidi_ratio o);;
             let v := Z.lor v (iso_parity_type o) in
             let v := if ctrue (inhibit_nack o) then Z.lor v US_MR_INACK else v in
             let v := if ctrue (dis_suc_nack o) then Z.lor v US_MR_DSNACK else v in
             orr US_MR v;;
             mret 0
         end
  end.

(** Clock phase and polarity of the SPI modes. *)
Definition spi_mode_bits (mode v : Z) : Z :=
  if mode =? SPI_MODE_0 then Z.ldiff (Z.lor v US_MR_CPHA) US_MR_CPOL
  else if mode =? SPI_MODE_1 then Z.ldiff (Z.ldiff v US_MR_CPHA) US_MR_CPOL
  else if mode =? SPI_MODE_2 then Z.lor (Z.lor v US_MR_CPHA) US_MR_CPOL
  else if mode =? SPI_MODE_3 then Z.lor (Z.ldiff v US_MR_CPHA) US_MR_CPOL
  else v.

Definition usart_init_spi_master (p_usart_opt : option usart_spi_opt) (ul_mck : Z) : M S Z :=
  usart_reset;;
  match p_usart_opt with
  | None => mret 1
  | Some o =>
    if SPI_MODE_3 <? spi_mode o then mret 1
    else
      e ← usart_set_spi_master_baudrate (spi_baudrate o) ul_mck;
      if ctrue e then mret 1
      else
        let v := Z.lor (spi_char_length o) (Z.lor (Z.lor US_MR_USART_MODE_SPI_MASTER US_MR_CLKO) (spi_channel_mode o)) in
        orr US_MR (spi_mode_bits (spi_mode o) v);;
        mret 0
  end.

Definition usart_init_spi_slave (p_usart_opt : option usart_spi_opt) : M S Z :=
  usart_reset;;
  usart_set_spi_slave_baudrate;;
  match p_usart_opt with
  | None => mret 1
  | Some o =>
    if SPI_MODE_3 <? spi_mode o then mret 1
    else
      let v := Z.lor (spi_char_length o) (Z.lor US_MR_USART_MODE_SPI_SLAVE (spi_channel_mode o)) in
      orr US_MR (spi_mode_bits (spi_mode o) v);;
      mret 0
  end.

(** ** Characters *)

Definition usart_write (c : Z) : M S Z :=
  x ← rdr US_CSR;
  if ctrue (Z.land x US_CSR_TXRDY) then wrr US_THR (US_THR_TXCHR c);; mret 0 else mret 1.
Definition usart_putchar (c : Z) : M S Z :=
  wait_set fuel US_CSR US_CSR_TXRDY;; wrr US_THR (US_THR_TXCHR c);; mret 0.
(** The characters of a string up to its end. *)
Fixpoint usart_write_line (string : list Z) : M S unit :=
  match string with [] => mret tt | c :: string => usart_putchar c;; usart_write_line string end.
(** The status, and what is stored in [*c]. *)
Definition usart_read : M S (Z * option Z) :=
  x ← rdr US_CSR;
  if ctrue (Z.land x US_CSR_RXRDY) then c ← rdr US_RHR; mret (0, Some (Z.land c US_RHR_RXCHR_Msk)) else mret (1, None).
Definition usart_getchar : M S (Z * Z) :=
  wait_set fuel US_CSR US_CSR_RXRDY;; c ← rdr US_RHR; mret (0, Z.land c US_RHR_RXCHR_Msk).
Definition usart_send_address (ul_addr : Z) : M S Z :=
  x ← rdr US_MR;
  if negb (Z.land x US_MR_PAR_MULTIDROP =? US_MR_PAR_MULTIDROP) then mret 1
  else
    wrr US_CR US_CR_SENDA;;
    e ← usart_write ul_addr;
    mret (if ctrue e then 1 else 0).

(** ** Manchester coding *)

Definition usart_man_set_tx_pre_len (uc_len : Z) : M S unit := updr US_MAN US_MAN_TX_PL_Msk (US_MAN_TX_PL uc_len).
Definition usart_man_set_tx_pre_pattern (uc_pattern : Z) : M S unit := updr US_MAN US_MAN_TX_PP_Msk (Z.shiftl uc_pattern US_MAN_TX_PP_Pos).
Definition usart_man_set_tx_polarity (uc_polarity : Z) : M S unit := updr US_MAN US_MAN_TX_MPOL (Z.shiftl uc_polarity 12).
Definition usart_man_set_rx_pre_len (uc_len : Z) : M S unit := updr US_MAN US_MAN_RX_PL_Msk (US_MAN_RX_PL uc_len).
Definition usart_man_set_rx_pre_pattern (uc_pattern : Z) : M S unit :=
  v ← lift_opt (shl_int uc_pattern US_MAN_RX_PP_Pos); updr US_MAN US_MAN_RX_PP_Msk v.
Definition usart_man_set_rx_polarity (uc_polarity : Z) : M S unit :=
  v ← lift_opt (shl_int uc_polarity 28); updr US_MAN US_MAN_RX_MPOL v.
Definition usart_man_enable_drift_compensation : M S unit := orr US_MAN US_MAN_DRIFT.
Definition usart_man_disable_drift_compensation : M S unit := clrr US_MAN US_MAN_DRIFT.
End Usart.

(** ** The baud rate *)

Section Baud.
(** Division rounded to the nearest. *)
Lemma nearest_div a d : 0 < d -> 2 * Z.abs ((a + d / 2) / d * d - a) <= d.
Proof.
  intros Hd. pose proof (Z.div_mod (a + d / 2) d ltac:(lia)) as H1. pose proof (Z.mod_pos_bound (a + d / 2) d Hd) as H2.
  pose proof (Z.div_mod d 2 ltac:(lia)) as H3. pose proof (Z.mod_pos_bound d 2 ltac:(lia)) as H4. nia.
Qed.

(** The integer and the fractional part of a divisor in eighths. *)
Lemma brgr_ok q :
  0 <= q < 8 * 65536 ->
  Z.lor (Z.shiftl (Z.shiftr q 3) US_BRGR_CD_Pos) (Z.shiftl (Z.land q 0x07) US_BRGR_FP_Pos) = q / 8 + q mod 8 * 2 ^ 16.
Proof.
  intros Hq. change 0x07 with (Z.ones 3). rewrite Z.land_ones, Z.shiftr_div_pow2 by lia. unfold US_BRGR_CD_Pos, US_BRGR_FP_Pos.
  rewrite Z.shiftl_0_r. apply lor_shiftl_add; [lia|]. change (2 ^ 3) with 8. Z.to_euclidean_division_equations. lia.
Qed.
End Baud.

(** The samples per bit: 16 when the master clock allows it, else 8. *)
Definition samples (baud mck : Z) : Z := if 16 * baud <=? mck then 16 else 8.

(** The asynchronous baud rate: the divisor in eighths is the one nearest to
    [8 * mck / (samples * baud)]. When its integer part fits the register,
    [BRGR] holds its integer and fractional parts and the mode says how many
    samples a bit takes; otherwise the call reports 1 and touches nothing. *)
Theorem usart_baud_bounds {S} `{!Hardware usart_reg, !HasLog usart_reg S} baud mck (s : S) :
  0 < baud < 2 ^ 27 -> 0 <= mck < 2 ^ 28 ->
  exists q, 2 * Z.abs (q * (samples baud mck * baud) - 8 * mck) <= samples baud mck * baud /\
    if (8 <=? q) && (q <? 8 * 65536) then
      exists s', usart_set_async_baudrate baud mck s = Ok (0, s') /\
        last_write US_BRGR (get_log s') = Some (q / 8 + q mod 8 * 2 ^ 16) /\
        last_write US_MR (get_log s') =
          (if samples baud mck =? 8 then Some (Z.lor (seen s US_MR) US_MR_OVER) else last_write US_MR (get_log s))
    else usart_set_async_baudrate baud mck s = Ok (1, s).
Proof.
  intros Hb Hm. unfold usart_set_async_baudrate, HIGH_FRQ_SAMPLE_DIV, LOW_FRQ_SAMPLE_DIV, MIN_CD_VALUE.
  unfold u32. rewrite (Z.mod_small (16 * baud)) by lia. fold (samples baud mck).
  assert (samples baud mck = 16 \/ samples baud mck = 8) as Hs by (unfold samples; destruct (_ <=? _); auto).
  set (over := samples baud mck) in *. set (d := over * baud). assert (0 < d < 2 ^ 31) as Hd by (unfold d; destruct Hs as [-> | ->]; lia).
  assert (0 <= d / 2 < 2 ^ 30) by (Z.to_euclidean_division_equations; lia).
  rewrite (Z.mod_small d), (Z.mod_small (8 * mck)), Z.mod_small by lia. unfold udiv. destruct (Z.eqb_spec d 0); [lia|].
  set (q := (8 * mck + d / 2) / d). exists q. split; [apply nearest_div; lia|].
  assert (0 <= q) as Hq by (apply Z.div_pos; lia). cbn [lift_opt]. mnorm.
  assert ((Z.shiftr q 3 <? 0x01) || (MAX_CD_VALUE <? Z.shiftr q 3) = negb ((8 <=? q) && (q <? 8 * 65536))) as ->.
  { rewrite Z.shiftr_div_pow2 by lia. change (2 ^ 3) with 8. change MAX_CD_VALUE with 65535.
    destruct (Z.leb_spec 8 q), (Z.ltb_spec q (8 * 65536)), (Z.ltb_spec (q / 8) 1), (Z.ltb_spec 65535 (q / 8)); cbn; try done;
      exfalso; Z.to_euclidean_division_equations; lia. }
  destruct ((8 <=? q) && (q <? 8 * 65536)) eqn:Hr; cbn [negb]; [|done].
  apply andb_true_iff in Hr as [Hr1 Hr2]. apply Z.leb_le in Hr1. apply Z.ltb_lt in Hr2.
  assert (rval US_BRGR (Z.lor (Z.shiftl (Z.shiftr q 3) US_BRGR_CD_Pos) (Z.shiftl (Z.land q 0x07) US_BRGR_FP_Pos)) = q / 8 + q mod 8 * 2 ^ 16) as Hbr.
  { rewrite brgr_ok by lia. unfold rval. apply (Z.mod_small _ (2 ^ 32)). Z.to_euclidean_division_equations. lia. }
  destruct (over =? 8); unfold orr; mnorm; rewrite ?bind_rdr, ?bind_wrr; eexists; (split; [reflexivity|]); last_write; rewrite Hbr.
  - split; [done|]. f_equal. unfold rval. apply (Z.mod_small _ (2 ^ 32)), (lor_range 32); [lia| |done].
    apply (Z.mod_pos_bound _ (2 ^ 32)). lia.
  - done.
Qed.

Lemma usart_baud_bounds_witness :
  exists q, 2 * Z.abs (q * (samples 115200 64000000 * 115200) - 8 * 64000000) <= samples 115200 64000000 * 115200 /\
    if (8 <=? q) && (q <? 8 * 65536) then
      exists s', @usart_set_async_baudrate _ (fun _ _ => 0) (plain_log usart_reg) 115200 64000000 [] = Ok (0, s') /\
        last_write US_BRGR s' = Some (q / 8 + q mod 8 * 2 ^ 16) /\
        last_write US_MR s' =
          (if samples 115200 64000000 =? 8 then Some (Z.lor 0 US_MR_OVER) else None)
    else @usart_set_async_baudrate _ (fun _ _ => 0) (plain_log usart_reg) 115200 64000000 [] = Ok (1, []).
Proof. apply (@usart_baud_bounds _ (fun _ _ => 0) (plain_log usart_reg) 115200 64000000 []); lia. Defined.

(** ** Lines of text *)

(** Every character of a line is sent once, in order, when the transmitter
    becomes ready within [fuel] reads after each. *)
Lemma usart_write_line_ok {S} `{!Hardware usart_reg, !HasLog usart_reg S} fuel string (s : S) :
  comes_up fuel US_CSR US_CSR_TXRDY -> Forall (fun c => 0 <= c < 256) string ->
  exists s', usart_write_line fuel string s = Ok (tt, s') /\
    writes US_THR (get_log s') = writes US_THR (get_log s) ++ string.
Proof.
  intros Hrdy Hstr. revert s. induction Hstr as [|c string Hc Hstr IH]; intros s; cbn [usart_write_line].
  { exists s. by rewrite app_nil_r. }
  destruct (wait_set_returns fuel US_CSR 1 s ltac:(lia) (Hrdy s)) as (s1 & Hw & Hr & _).
  change (bit 1) with US_CSR_TXRDY in Hw. unfold usart_putchar. mnorm. mstep Hw. mnorm. rewrite bind_wrr. mnorm.
  destruct (IH (log_event (Wr US_THR (rval US_THR (US_THR_TXCHR c))) s1)) as (s' & Hl & Hws).
  exists s'. split; [done|]. rewrite Hws, get_log_event, writes_wr, Hr, <- app_assoc. do 2 f_equal. cbn [app]. f_equal.
  unfold US_THR_TXCHR, rval. change (Z.shiftl 0x1ff 0) with (Z.shiftl (Z.ones 9) 0). rewrite field_ok, Z.mul_1_r by lia.
  apply (Z.mod_small _ (2 ^ 32)). lia.
Qed.
