(* ===== verification/SamSpi.v ===== *)
(** * The SPI of the ATSAM4S (platforms/atsam4s/asf/src/spi.c, spi.h)

    Mode, chip selects, clocks, and transfers with their time limit. *)

From S2P Require Import Prelude Mmio SamDev.
From stdpp Require Import base list gmap sets.
From Stdlib Require Import ZArith Lia.
Local Open Scope Z_scope.

Inductive spi_reg :=
| SPI_CR | SPI_MR | SPI_RDR | SPI_TDR | SPI_SR | SPI_IER | SPI_IDR | SPI_IMR | SPI_CSR (n : Z) | SPI_WPMR | SPI_WPSR.
#[global] Instance spi_reg_eq_dec : EqDecision spi_reg.
Proof. solve_decision. Defined.
#[global] Instance spi_registers : Registers spi_reg := 32.

Definition SPI_TIMEOUT : nat := Z.to_nat 15000.
Definition SPI_OK : Z := 0.
Definition SPI_ERROR_TIMEOUT : Z := 1.
Definition SPI_CSR_BITS_Msk : Z := Z.shiftl 0xf 4.
Definition SPI_CSR_CPOL : Z := bit 0.
Definition SPI_CSR_CSAAT : Z := bit 3.
Definition SPI_CSR_CSNAAT : Z := bit 2.
Definition SPI_CSR_DLYBCT (value : Z) : Z := field (Z.shiftl 0xff 24) 24 value.
Definition SPI_CSR_DLYBCT_Msk : Z := Z.shiftl 0xff 24.
Definition SPI_CSR_DLYBS (value : Z) : Z := field (Z.shiftl 0xff 16) 16 value.
Definition SPI_CSR_DLYBS_Msk : Z := Z.shiftl 0xff 16.
Definition SPI_CSR_NCPHA : Z := bit 1.
Definition SPI_CSR_SCBR (value : Z) : Z := field (Z.shiftl 0xff 8) 8 value.
Definition SPI_CSR_SCBR_Msk : Z := Z.shiftl 0xff 8.
Definition SPI_MR_DLYBCS (value : Z) : Z := field (Z.shiftl 0xff 24) 24 value.
Definition SPI_MR_DLYBCS_Msk : Z := Z.shiftl 0xff 24.
Definition SPI_MR_PCS (value : Z) : Z := field (Z.shiftl 0xf 16) 16 value.
Definition SPI_MR_PCS_Msk : Z := Z.shiftl 0xf 16.
Definition SPI_RDR_PCS_Msk : Z := Z.shiftl 0xf 16.
Definition SPI_RDR_PCS_Pos : Z := 16.
Definition SPI_RDR_RD_Msk : Z := Z.shiftl 0xffff 0.
Definition SPI_SR_RDRF : Z := bit 0.
Definition SPI_SR_TDRE : Z := bit 1.
Definition SPI_SR_TXEMPTY : Z := bit 9.
Definition SPI_SR_SPIENS : Z := bit 16.
Definition SPI_TDR_LASTXFER : Z := bit 24.
Definition SPI_TDR_PCS (value : Z) : Z := field (Z.shiftl 0xf 16) 16 value.
Definition SPI_TDR_TD (value : Z) : Z := field (Z.shiftl 0xffff 0) 0 value.
Definition SPI_WPMR_WPEN : Z := bit 0.
Definition SPI_WPMR_WPKEY_PASSWD : Z := Z.shiftl 0x535049 8.
Definition SPI_CR_LASTXFER : Z := bit 24.
Definition SPI_CR_SPIDIS : Z := bit 1.
Definition SPI_CR_SPIEN : Z := bit 0.
Definition SPI_CR_SWRST : Z := bit 7.
Definition SPI_MR_LLB : Z := bit 7.
Definition SPI_MR_MODFDIS : Z := bit 4.
Definition SPI_MR_MSTR : Z := bit 0.
Definition SPI_MR_PCSDEC : Z := bit 2.
Definition SPI_MR_PS : Z := bit 1.
Definition SPI_MR_WDRBT : Z := bit 5.
Definition SPI_CS_KEEP_LOW : Z := SPI_CSR_CSAAT.
Definition SPI_CS_RISE_NO_TX : Z := 0.
Definition SPI_CS_RISE_FORCED : Z := SPI_CSR_CSNAAT.

Section Spi.
Context {S : Type} `{!Hardware spi_reg, !HasLog spi_reg S}.

(** [p_spi->SPI_CSR[ul_pcs_ch]]: there are four. *)
Definition csr (ul_pcs_ch : Z) : M S spi_reg := if (0 <=? ul_pcs_ch) && (ul_pcs_ch <? 4) then mret (SPI_CSR ul_pcs_ch) else ub.
(** [if (r & mask) return 1; else return 0;] *)
Definition flag (r : spi_reg) (mask : Z) : M S Z := x ← rdr r; mret (if ctrue (Z.land x mask) then 1 else 0).

Definition spi_reset : M S unit := wrr SPI_CR SPI_CR_SWRST.
Definition spi_enable : M S unit := wrr SPI_CR SPI_CR_SPIEN.
Definition spi_disable : M S unit := wrr SPI_CR SPI_CR_SPIDIS.
Definition spi_set_lastxfer : M S unit := wrr SPI_CR SPI_CR_LASTXFER.
Definition spi_set_master_mode : M S unit := orr SPI_MR SPI_MR_MSTR.
Definition spi_set_slave_mode : M S unit := clrr SPI_MR SPI_MR_MSTR.
Definition spi_get_mode : M S Z := flag SPI_MR SPI_MR_MSTR.
Definition spi_set_variable_peripheral_select : M S unit := orr SPI_MR SPI_MR_PS.
Definition spi_set_fixed_peripheral_select : M S unit := clrr SPI_MR SPI_MR_PS.
Definition spi_get_peripheral_select_mode : M S Z := flag SPI_MR SPI_MR_PS.
Definition spi_enable_peripheral_select_decode : M S unit := orr SPI_MR SPI_MR_PCSDEC.
Definition spi_disable_peripheral_select_decode : M S unit := clrr SPI_MR SPI_MR_PCSDEC.
Definition spi_get_peripheral_select_decode_setting : M S Z := flag SPI_MR SPI_MR_PCSDEC.
Definition spi_enable_mode_fault_detect : M S unit := clrr SPI_MR SPI_MR_MODFDIS.
Definition spi_disable_mode_fault_detect : M S unit := orr SPI_MR SPI_MR_MODFDIS.
Definition spi_get_mode_fault_detect_setting : M S Z := flag SPI_MR SPI_MR_MODFDIS.
Definition spi_enable_tx_on_rx_empty : M S unit := orr SPI_MR SPI_MR_WDRBT.
Definition spi_disable_tx_on_rx_empty : M S unit := clrr SPI_MR SPI_MR_WDRBT.
Definition spi_get_tx_on_rx_empty_setting : M S Z := flag SPI_MR SPI_MR_WDRBT.
Definition spi_enable_loopback : M S unit := orr SPI_MR SPI_MR_LLB.
Definition spi_disable_loopback : M S unit := clrr SPI_MR SPI_MR_LLB.
Definition spi_read_status : M S Z := rdr SPI_SR.
Definition spi_is_enabled : M S Z := flag SPI_SR SPI_SR_SPIENS.
Definition spi_put (data : Z) : M S unit := wrr SPI_TDR (SPI_TDR_TD data).
Definition spi_get : M S Z := x ← rdr SPI_RDR; mret (Z.land x SPI_RDR_RD_Msk).
Definition spi_is_tx_empty : M S Z := flag SPI_SR SPI_SR_TXEMPTY.
Definition spi_is_tx_ready : M S Z := flag SPI_SR SPI_SR_TDRE.
Definition spi_is_rx_full : M S Z := flag SPI_SR SPI_SR_RDRF.
Definition spi_is_rx_ready : M S Z :=
  x ← rdr SPI_SR;
  mret (if Z.land x (Z.lor SPI_SR_RDRF SPI_SR_TXEMPTY) =? Z.lor SPI_SR_RDRF SPI_SR_TXEMPTY then 1 else 0).
Definition spi_enable_interrupt (ul_sources : Z) : M S unit := wrr SPI_IER ul_sources.
Definition spi_disable_interrupt (ul_sources : Z) : M S unit := wrr SPI_IDR ul_sources.
Definition spi_read_interrupt_mask : M S Z := rdr SPI_IMR.

Definition spi_set_peripheral_chip_select_value (ul_value : Z) : M S unit := clrr SPI_MR SPI_MR_PCS_Msk;; orr SPI_MR (SPI_MR_PCS ul_value).
Definition spi_set_delay_between_chip_select (ul_delay : Z) : M S unit :=
  clrr SPI_MR SPI_MR_DLYBCS_Msk;; orr SPI_MR (SPI_MR_DLYBCS ul_delay).

(** The status, and what is stored in [*us_data] and [*p_pcs]. *)
Definition spi_read : M S (Z * option (Z * option Z)) :=
  ok ← timed_wait SPI_TIMEOUT SPI_SR SPI_SR_RDRF;
  if (ok : bool) then
    reg_value ← rdr SPI_RDR;
    variable ← spi_get_peripheral_select_mode;
    let p_pcs := if ctrue variable then Some (u8 (Z.shiftr (Z.land reg_value SPI_RDR_PCS_Msk) SPI_RDR_PCS_Pos)) else None in
    mret (SPI_OK, Some (u16 (Z.land reg_value SPI_RDR_RD_Msk), p_pcs))
  else mret (SPI_ERROR_TIMEOUT, None).
Definition spi_write (us_data uc_pcs uc_last : Z) : M S Z :=
  ok ← timed_wait SPI_TIMEOUT SPI_SR SPI_SR_TDRE;
  if (ok : bool) then
    variable ← spi_get_peripheral_select_mode;
    let value :=
      if ctrue variable then
        let value := Z.lor (SPI_TDR_TD us_data) (SPI_TDR_PCS uc_pcs) in
        if ctrue uc_last then Z.lor value SPI_TDR_LASTXFER else value
      else SPI_TDR_TD us_data in
    wrr SPI_TDR value;;
    mret SPI_OK
  else mret SPI_ERROR_TIMEOUT.

Definition spi_set_clock_polarity (ul_pcs_ch ul_polarity : Z) : M S unit :=
  r ← csr ul_pcs_ch; if ctrue ul_polarity then orr r SPI_CSR_CPOL else clrr r SPI_CSR_CPOL.
Definition spi_set_clock_phase (ul_pcs_ch ul_phase : Z) : M S unit :=
  r ← csr ul_pcs_ch; if ctrue ul_phase then orr r SPI_CSR_NCPHA else clrr r SPI_CSR_NCPHA.
Definition spi_configure_cs_behavior (ul_pcs_ch ul_cs_behavior : Z) : M S unit :=
  if ul_cs_behavior =? SPI_CS_RISE_FORCED then r ← csr ul_pcs_ch; clrr r SPI_CSR_CSAAT;; orr r SPI_CSR_CSNAAT
  else if ul_cs_behavior =? SPI_CS_RISE_NO_TX then r ← csr ul_pcs_ch; clrr r SPI_CSR_CSAAT;; clrr r SPI_CSR_CSNAAT
  else if ul_cs_behavior =? SPI_CS_KEEP_LOW then r ← csr ul_pcs_ch; orr r SPI_CSR_CSAAT
  else mret tt.
Definition spi_set_bits_per_transfer (ul_pcs_ch ul_bits : Z) : M S unit := r ← csr ul_pcs_ch; clrr r SPI_CSR_BITS_Msk;; orr r ul_bits.
(** [div_ceil] on [uint32_t], converted to [int]. *)
Definition div_ceil (a b : Z) : option Z := if b =? 0 then None else Some (u32 (u32 (a + b) - 1) / b).
Definition as_int (v : Z) : Z := if v <? 2 ^ 31 then v else v - 2 ^ 32.
Definition spi_calc_baudrate_div (baudrate mck : Z) : option Z :=
  match div_ceil mck baudrate with
  | None => None
  | Some d => let baud_div := as_int d in Some (if (baud_div <=? 0) || (255 <? baud_div) then -1 else baud_div)
  end.
Definition spi_set_baudrate_div (ul_pcs_ch uc_baudrate_divider : Z) : M S Z :=
  if negb (ctrue uc_baudrate_divider) then mret (-1)
  else r ← csr ul_pcs_ch; clrr r SPI_CSR_SCBR_Msk;; orr r (SPI_CSR_SCBR uc_baudrate_divider);; mret 0.
Definition spi_set_transfer_delay (ul_pcs_ch uc_dlybs uc_dlybct : Z) : M S unit :=
  r ← csr ul_pcs_ch; clrr r (Z.lor SPI_CSR_DLYBS_Msk SPI_CSR_DLYBCT_Msk);; orr r (Z.lor (SPI_CSR_DLYBS uc_dlybs) (SPI_CSR_DLYBCT uc_dlybct)).
Definition spi_set_writeprotect (ul_enable : Z) : M S unit :=
  if ctrue ul_enable then wrr SPI_WPMR (Z.lor SPI_WPMR_WPKEY_PASSWD SPI_WPMR_WPEN) else wrr SPI_WPMR SPI_WPMR_WPKEY_PASSWD.
Definition spi_get_writeprotect_status : M S Z := rdr SPI_WPSR.
End Spi.

(** ** Transfers *)

Section Transfer.
Context {S : Type} `{!Hardware spi_reg, !HasLog spi_reg S}.
Implicit Types s : S.

(** The word given to the shift register. *)
Definition tdr_word (variable : bool) (d p lst : Z) : Z :=
  if variable then d + p * 2 ^ 16 + (if ctrue lst then 2 ^ 24 else 0) else d.

Lemma tdr_ok (variable : bool) d p lst :
  0 <= d < 2 ^ 16 -> 0 <= p < 2 ^ 4 ->
  (if variable then
     let value := Z.lor (SPI_TDR_TD d) (SPI_TDR_PCS p) in if ctrue lst then Z.lor value SPI_TDR_LASTXFER else value
   else SPI_TDR_TD d) = tdr_word variable d p lst.
Proof.
  intros Hd Hp. unfold SPI_TDR_TD, SPI_TDR_PCS, SPI_TDR_LASTXFER, tdr_word.
  change (Z.shiftl 0xffff 0) with (Z.shiftl (Z.ones 16) 0). change (Z.shiftl 0xf 16) with (Z.shiftl (Z.ones 4) 16).
  rewrite !field_ok by lia. change (2 ^ 0) with 1. rewrite Z.mul_1_r. destruct variable; [|done]. cbv zeta.
  rewrite (lor_low d) by lia. destruct (ctrue lst); [|lia]. change (bit 24) with (1 * 2 ^ 24). rewrite (lor_low _ 1) by lia. lia.
Qed.

Lemma select_mode_ok mr s :
  holds_written SPI_MR mr -> exists s', spi_get_peripheral_select_mode s =
    Ok (if Z.testbit (rval SPI_MR (default mr (last_write SPI_MR (get_log s)))) 1 then 1 else 0, s') /\ only_reads s s'.
Proof.
  intros Hmr. unfold spi_get_peripheral_select_mode, flag. rewrite bind_rdr. unfold SPI_MR_PS. rewrite ctrue_mask_eqb, land_bit_eqb by lia.
  unfold seen at 1. rewrite Hmr. eexists. split; [done|apply only_reads_rd].
Qed.

(** Whether the chip select is given with each word. *)
Definition variable_select mr s : bool := Z.testbit (rval SPI_MR (default mr (last_write SPI_MR (get_log s)))) 1.
Lemma variable_select_reads mr s s' : only_reads s s' -> variable_select mr s' = variable_select mr s.
Proof. intros H. unfold variable_select. by rewrite (only_reads_last _ _ _ H). Qed.

(** A write always returns: with the word given to the shift register when it
    became empty in time, and with nothing written otherwise. *)
Lemma spi_write_ok mr d p lst s :
  holds_written SPI_MR mr -> 0 <= d < 2 ^ 16 -> 0 <= p < 2 ^ 4 ->
  let ready := reads_until SPI_TIMEOUT SPI_SR SPI_SR_TDRE s in
  exists s', spi_write d p lst s = Ok (if ready then SPI_OK else SPI_ERROR_TIMEOUT, s') /\
    if ready then last_write SPI_TDR (get_log s') = Some (tdr_word (variable_select mr s) d p lst) /\ variable_select mr s' = variable_select mr s
    else only_reads s s'.
Proof.
  intros Hmr Hd Hp ready. destruct (timed_wait_returns SPI_TIMEOUT SPI_SR 1 s ltac:(lia)) as (s1 & Hw & Hr & _).
  change (bit 1) with SPI_SR_TDRE in Hw. fold ready in Hw. unfold spi_write. mstep Hw. destruct ready; [|by exists s1].
  destruct (select_mode_ok mr s1 Hmr) as (s2 & Hsel & Hr2). mstep Hsel. fold (variable_select mr s1). rewrite (variable_select_reads _ _ _ Hr).
  replace (ctrue (if variable_select mr s then 1 else 0)) with (variable_select mr s) by (by destruct variable_select).
  rewrite tdr_ok by done. rewrite bind_wrr. eexists. split; [done|]. last_write. split.
  - f_equal. apply (Z.mod_small _ (2 ^ 32)). unfold tdr_word. destruct variable_select, (ctrue lst); lia.
  - unfold variable_select. last_write. rewrite (only_reads_last _ _ _ Hr2), (only_reads_last _ _ _ Hr). done.
Qed.
End Transfer.

(** A device in local loopback: what is received is the last word sent. *)
Definition loops_back `{!Hardware spi_reg} : Prop := forall l, hw_read l SPI_RDR = default 0 (last_write SPI_TDR l).

(** Loopback: a word written is read back, with its chip select when that is
    given per word; when the transmitter does not become empty within the time
    limit the write reports it and sends nothing. *)
Theorem spi_loopback {S} `{!Hardware spi_reg, !HasLog spi_reg S} mr d p lst (s : S) :
  holds_written SPI_MR mr -> loops_back -> comes_up SPI_TIMEOUT SPI_SR SPI_SR_RDRF -> 0 <= d < 2 ^ 16 -> 0 <= p < 2 ^ 4 ->
  if reads_until SPI_TIMEOUT SPI_SR SPI_SR_TDRE s then
    exists s', (e ← spi_write d p lst; r ← spi_read; mret (e, r)) s =
      Ok ((SPI_OK, (SPI_OK, Some (d, if variable_select mr s then Some p else None))), s')
  else exists s', spi_write d p lst s = Ok (SPI_ERROR_TIMEOUT, s') /\ writes SPI_TDR (get_log s') = writes SPI_TDR (get_log s).
Proof.
  intros Hmr Hloop Hrx Hd Hp. destruct (spi_write_ok mr d p lst s Hmr Hd Hp) as (s1 & Hw & H1).
  destruct (reads_until SPI_TIMEOUT SPI_SR SPI_SR_TDRE s); [|by exists s1]. destruct H1 as [Htdr Hsel]. mstep Hw.
  destruct (timed_wait_returns SPI_TIMEOUT SPI_SR 0 s1 ltac:(lia)) as (s2 & Hw2 & Hr2 & _). rewrite Hrx in Hw2.
  unfold spi_read. mnorm. change (bit 0) with SPI_SR_RDRF in Hw2. mstep Hw2. mnorm. rewrite bind_rdr. mnorm.
  set (s3 := log_event _ s2). destruct (select_mode_ok mr s3 Hmr) as (s4 & Hs & Hr4). mstep Hs. fold (variable_select mr s3).
  assert (only_reads s1 s3) as Hr3 by (etrans; [exact Hr2|apply only_reads_rd]). rewrite (variable_select_reads _ _ _ Hr3), Hsel.
  set (w := tdr_word (variable_select mr s) d p lst) in *.
  assert (0 <= w < 2 ^ 32 /\ w mod 2 ^ 16 = d /\ (variable_select mr s = true -> w / 2 ^ 16 mod 2 ^ 4 = p)) as (Hw0 & Hwd & Hwp).
  { unfold w, tdr_word. destruct variable_select, (ctrue lst); (split; [lia|split; [|intros H; try discriminate H]]); try (apply Z.mod_small; lia).
    all: change (2 ^ 16) with 65536; change (2 ^ 24) with 16777216; change (2 ^ 4) with 16 in *; change (2 ^ 16) with 65536 in *.
    all: clear - Hd Hp; Z.to_euclidean_division_equations; lia. }
  assert (seen s2 SPI_RDR = w) as ->.
  { unfold seen. rewrite Hloop, (only_reads_last _ _ _ Hr2), Htdr. apply (Z.mod_small w (2 ^ 32)), Hw0. }
  exists s4. mnorm. unfold SPI_RDR_RD_Msk, SPI_RDR_PCS_Msk, SPI_RDR_PCS_Pos. change (Z.shiftl 0xffff 0) with (Z.ones 16).
  change (Z.shiftl 0xf 16) with (Z.shiftl (Z.ones 4) 16). rewrite Z.land_ones, Hwd, field_get by lia.
  unfold u16. rewrite (Z.mod_small d) by lia. destruct (variable_select mr s); [|done].
  rewrite Hwp by done. unfold u8. by rewrite (Z.mod_small p) by lia.
Qed.

(** Local loopback with a transmitter that is always empty. *)
#[local] Instance looping : Hardware spi_reg := fun l r =>
  match r with
  | SPI_SR => 3
  | SPI_RDR => default 0 (last_write SPI_TDR l)
  | _ => default 0 (last_write r l)
  end.
Lemma spi_loopback_witness :
  if @reads_until _ _ _ looping (plain_log spi_reg) SPI_TIMEOUT SPI_SR SPI_SR_TDRE [] then
    exists s', (e ← @spi_write _ looping (plain_log spi_reg) 0x1234 5 1; r ← @spi_read _ looping (plain_log spi_reg); mret (e, r)) [] =
      Ok ((SPI_OK, (SPI_OK, Some (0x1234, None))), s')
  else exists s', @spi_write _ looping (plain_log spi_reg) 0x1234 5 1 [] = Ok (SPI_ERROR_TIMEOUT, s') /\ writes SPI_TDR s' = [].
Proof.
  apply (@spi_loopback _ looping (plain_log spi_reg) 0 0x1234 5 1 []).
  - intros l. reflexivity.
  - intros l. reflexivity.
  - intros s. unfold SPI_TIMEOUT. destruct (Z.to_nat 15000); reflexivity.
  - lia.
  - lia.
Defined.

(** The divider for a rate: the smallest that does not exceed it, or -1 when that
    does not fit the register. *)
Lemma spi_calc_baudrate_div_ok baudrate mck :
  0 < baudrate -> 0 < mck -> mck + baudrate <= 2 ^ 31 ->
  exists d, mck <= d * baudrate < mck + baudrate /\
    spi_calc_baudrate_div baudrate mck = Some (if d <=? 255 then d else -1).
Proof.
  intros Hb Hm Hle. exists ((mck + baudrate - 1) / baudrate). set (d := (mck + baudrate - 1) / baudrate).
  assert (mck <= d * baudrate < mck + baudrate /\ 0 < d < 2 ^ 31) as (Hd & Hr).
  { pose proof (Z.div_mod (mck + baudrate - 1) baudrate ltac:(lia)) as Hdm. pose proof (Z.mod_pos_bound (mck + baudrate - 1) baudrate Hb) as Hmb.
    fold d in Hdm. nia. }
  split; [done|]. unfold spi_calc_baudrate_div, div_ceil, u32. rewrite (Z.mod_small (mck + baudrate)), Z.mod_small by lia.
  destruct (Z.eqb_spec baudrate 0); [lia|]. fold d. unfold as_int. destruct (Z.ltb_spec d (2 ^ 31)); [|lia].
  destruct (Z.leb_spec d 0); [lia|]. cbn [orb]. destruct (Z.ltb_spec 255 d), (Z.leb_spec d 255); done || lia.
Qed.
