(* ===== verification/SamTimers.v ===== *)
(** * Timers of the ATSAM4S (platforms/atsam4s/asf/src/tc.c, wdt.c, rtt.c)

    The timer counter and its clock selection, the watchdog, and the real-time
    timer with its shadow of the write-only mode bits. Assertions are compiled
    out, so a channel that does not exist is an access out of bounds. *)

From S2P Require Import Prelude Mmio SamDev.
From stdpp Require Import base list gmap sets.
From Stdlib Require Import ZArith Lia Sorted.
Local Open Scope Z_scope.

(** ** Timer counter *)

Inductive tc_field := TC_CCR | TC_CMR | TC_SMMR | TC_CV | TC_RA | TC_RB | TC_RC | TC_SR | TC_IER | TC_IDR | TC_IMR.
#[global] Instance tc_field_eq_dec : EqDecision tc_field.
Proof. solve_decision. Defined.
Inductive tc_reg := TC_CHANNEL (n : Z) (f : tc_field) | TC_BCR | TC_BMR | TC_QIER | TC_QIDR | TC_QIMR | TC_QISR | TC_WPMR.
#[global] Instance tc_reg_eq_dec : EqDecision tc_reg.
Proof. solve_decision. Defined.
#[global] Instance tc_registers : Registers tc_reg := 32.

Definition TC_BCR_SYNC : Z := bit 0.
Definition TC_CCR_CLKDIS : Z := bit 1.
Definition TC_CCR_CLKEN : Z := bit 0.
Definition TC_CCR_SWTRG : Z := bit 2.
Definition TC_WPMR_WPEN : Z := bit 0.
Definition TC_WPMR_WPKEY_PASSWD : Z := Z.shiftl 0x54494D 8.
Definition TC_DIV_FACTOR : Z := 65536.
Definition FREQ_SLOW_CLOCK_EXT : Z := 32768.

Section Tc.
Context {S : Type} `{!Hardware tc_reg, !HasLog tc_reg S}.

Definition channel (ul_channel : Z) (f : tc_field) : M S tc_reg :=
  if (0 <=? ul_channel) && (ul_channel <? 3) then mret (TC_CHANNEL ul_channel f) else ub.
Definition ch_write (ul_channel : Z) (f : tc_field) (v : Z) : M S unit := r ← channel ul_channel f; wrr r v.
Definition ch_read (ul_channel : Z) (f : tc_field) : M S Z := r ← channel ul_channel f; rdr r.

Definition tc_init (ul_channel ul_mode : Z) : M S unit :=
  ch_write ul_channel TC_CCR TC_CCR_CLKDIS;;
  ch_write ul_channel TC_IDR 0xFFFFFFFF;;
  ch_read ul_channel TC_SR;;
  ch_write ul_channel TC_CMR ul_mode.
Definition tc_sync_trigger : M S unit := wrr TC_BCR TC_BCR_SYNC.
Definition tc_set_block_mode (ul_blockmode : Z) : M S unit := wrr TC_BMR ul_blockmode.
Definition tc_init_2bit_gray (ul_channel ul_steppermode : Z) : M S Z := ch_write ul_channel TC_SMMR ul_steppermode;; mret 0.
Definition tc_start (ul_channel : Z) : M S unit := ch_write ul_channel TC_CCR (Z.lor TC_CCR_CLKEN TC_CCR_SWTRG).
Definition tc_stop (ul_channel : Z) : M S unit := ch_write ul_channel TC_CCR TC_CCR_CLKDIS.
Definition tc_read_cv (ul_channel : Z) : M S Z := ch_read ul_channel TC_CV.
Definition tc_read_ra (ul_channel : Z) : M S Z := ch_read ul_channel TC_RA.
Definition tc_read_rb (ul_channel : Z) : M S Z := ch_read ul_channel TC_RB.
Definition tc_read_rc (ul_channel : Z) : M S Z := ch_read ul_channel TC_RC.
Definition tc_write_ra (ul_channel ul_value : Z) : M S unit := ch_write ul_channel TC_RA ul_value.
Definition tc_write_rb (ul_channel ul_value : Z) : M S unit := ch_write ul_channel TC_RB ul_value.
Definition tc_write_rc (ul_channel ul_value : Z) : M S unit := ch_write ul_channel TC_RC ul_value.
Definition tc_enable_interrupt (ul_channel ul_sources : Z) : M S unit := ch_write ul_channel TC_IER ul_sources.
Definition tc_disable_interrupt (ul_channel ul_sources : Z) : M S unit := ch_write ul_channel TC_IDR ul_sources.
Definition tc_get_interrupt_mask (ul_channel : Z) : M S Z := ch_read ul_channel TC_IMR.
Definition tc_get_status (ul_channel : Z) : M S Z := ch_read ul_channel TC_SR.
Definition tc_enable_qdec_interrupt (ul_sources : Z) : M S unit := wrr TC_QIER ul_sources.
Definition tc_disable_qdec_interrupt (ul_sources : Z) : M S unit := wrr TC_QIDR ul_sources.
Definition tc_get_qdec_interrupt_mask : M S Z := rdr TC_QIMR.
Definition tc_get_qdec_interrupt_status : M S Z := rdr TC_QISR.
Definition tc_set_writeprotect (ul_enable : Z) : M S unit :=
  if ctrue ul_enable then wrr TC_WPMR (Z.lor TC_WPMR_WPKEY_PASSWD TC_WPMR_WPEN) else wrr TC_WPMR TC_WPMR_WPKEY_PASSWD.
End Tc.

(** The divisors a channel can be clocked by. *)
Definition divisors (ul_boardmck : Z) : list Z := [2; 8; 32; 128; ul_boardmck / FREQ_SLOW_CLOCK_EXT].

(** The loop over the divisors from [ul_index] on: the index and divisor at
    which it stops, [Some None] for a returned 0, [None] for a division by zero. *)
Fixpoint divisor_loop (ul_freq ul_mck : Z) (ul_index : Z) (ds : list Z) : option (option (Z * Z)) :=
  match ds with
  | [] => Some None
  | d :: ds =>
    if d =? 0 then None
    else
      let ul_high := ul_mck / d in
      let ul_low := ul_high / TC_DIV_FACTOR in
      if ul_high <? ul_freq then Some None
      else if ul_low <=? ul_freq then Some (Some (ul_index, d))
      else divisor_loop ul_freq ul_mck (ul_index + 1) ds
  end.
(** The result, and what is stored in [*p_uldiv] and [*p_ultcclks]. *)
Definition tc_find_mck_divisor (ul_freq ul_mck ul_boardmck : Z) : option (Z * option (Z * Z)) :=
  match divisor_loop ul_freq ul_mck 0 (divisors ul_boardmck) with
  | None => None
  | Some None => Some (0, None)
  | Some (Some (ul_index, d)) => Some (1, Some (d, ul_index))
  end.

(** ** Watchdog *)

Inductive wdt_reg := WDT_CR | WDT_MR | WDT_SR.
#[global] Instance wdt_reg_eq_dec : EqDecision wdt_reg.
Proof. solve_decision. Defined.
#[global] Instance wdt_registers : Registers wdt_reg := 32.

Definition WDT_KEY_PASSWORD : Z := 0xA5000000.
Definition WDT_SLCK_DIV : Z := 128.
Definition WDT_MAX_VALUE : Z := 4095.
Definition WDT_INVALID_ARGUMENT : Z := 0xFFFF.
Definition WDT_CR_WDRSTT : Z := bit 0.
Definition WDT_MR_WDD (value : Z) : Z := field (Z.shiftl 0xfff 16) 16 value.
Definition WDT_MR_WDDIS : Z := bit 15.
Definition WDT_MR_WDV (value : Z) : Z := field (Z.shiftl 0xfff 0) 0 value.

(** [None]: a division by zero. *)
Definition wdt_get_timeout_value (ul_us ul_sclk : Z) : option Z :=
  if ul_sclk =? 0 then None
  else
    let min := WDT_SLCK_DIV * 1000000 / ul_sclk in
    let max := u32 (min * WDT_MAX_VALUE) in
    if (ul_us <? min) || (max <? ul_us) then Some WDT_INVALID_ARGUMENT
    else if min =? 0 then None
    else Some (WDT_MR_WDV (ul_us / min)).

Section Wdt.
Context {S : Type} `{!Hardware wdt_reg, !HasLog wdt_reg S}.
Definition wdt_init (ul_mode us_counter us_delta : Z) : M S unit :=
  wrr WDT_MR (Z.lor (Z.lor ul_mode (WDT_MR_WDV us_counter)) (WDT_MR_WDD us_delta)).
Definition wdt_disable : M S unit := wrr WDT_MR WDT_MR_WDDIS.
Definition wdt_restart : M S unit := wrr WDT_CR (Z.lor WDT_KEY_PASSWORD WDT_CR_WDRSTT).
Definition wdt_get_status : M S Z := rdr WDT_SR.
Definition wdt_get_us_timeout_period (ul_sclk : Z) : M S Z :=
  x ← rdr WDT_MR;
  if ul_sclk =? 0 then ub else mret (u32 (u32 (WDT_MR_WDV x * WDT_SLCK_DIV) / ul_sclk * 1000000)).
End Wdt.

(** ** Real-time timer *)

Inductive rtt_reg := RTT_MR | RTT_AR | RTT_VR | RTT_SR.
#[global] Instance rtt_reg_eq_dec : EqDecision rtt_reg.
Proof. solve_decision. Defined.
#[global] Instance rtt_registers : Registers rtt_reg := 32.

Definition RTT_MR_ALMIEN : Z := bit 16.
Definition RTT_MR_RTC1HZ : Z := bit 24.
Definition RTT_MR_RTTDIS : Z := bit 20.
Definition RTT_MR_RTTRST : Z := bit 18.

(** The driver's static variable beside the history of accesses. *)
Record rtt_state := RttState { g_wobits_in_rtt_mr : Z; rtt_log : list (access rtt_reg) }.
#[global] Program Instance rtt_has_log : HasLog rtt_reg rtt_state :=
  {| get_log := rtt_log; put_log l s := RttState (g_wobits_in_rtt_mr s) l |}.
Next Obligation. done. Qed.
Next Obligation. done. Qed.
Next Obligation. by intros []. Qed.

Section Rtt.
Context `{!Hardware rtt_reg}.
Context (fuel : nat).
Abbreviation T_ := (M rtt_state).

Definition wobits : T_ Z := gets g_wobits_in_rtt_mr.
Definition set_wobits (f : Z -> Z) : T_ unit := modify (fun s => RttState (f (g_wobits_in_rtt_mr s)) (rtt_log s)).

Definition rtt_init (us_prescaler : Z) : T_ Z :=
  g ← wobits; wrr RTT_MR (Z.lor (Z.lor us_prescaler RTT_MR_RTTRST) g);; mret 0.
Definition rtt_sel_source (is_rtc_sel : bool) : T_ unit :=
  (if is_rtc_sel then set_wobits (fun g => Z.lor g RTT_MR_RTC1HZ) else set_wobits (fun g => Z.ldiff g RTT_MR_RTC1HZ));;
  g ← wobits; orr RTT_MR g.
Definition rtt_enable : T_ unit := set_wobits (fun g => Z.ldiff g RTT_MR_RTTDIS);; g ← wobits; orr RTT_MR g.
Definition rtt_disable : T_ unit := set_wobits (fun g => Z.lor g RTT_MR_RTTDIS);; g ← wobits; orr RTT_MR g.
Definition rtt_enable_interrupt (ul_sources : Z) : T_ unit :=
  temp ← rdr RTT_MR; g ← wobits; wrr RTT_MR (Z.lor (Z.lor temp ul_sources) g).
Definition rtt_disable_interrupt (ul_sources : Z) : T_ unit :=
  temp ← rdr RTT_MR; g ← wobits; wrr RTT_MR (Z.lor (Z.ldiff temp ul_sources) g).
Definition rtt_read_timer_value : T_ Z := stable_read fuel RTT_VR.
Definition rtt_get_status : T_ Z := rdr RTT_SR.
Definition rtt_write_alarm_time (ul_alarm_time : Z) : T_ Z :=
  x ← rdr RTT_MR;
  let flag := Z.land x RTT_MR_ALMIEN in
  rtt_disable_interrupt RTT_MR_ALMIEN;;
  (if ul_alarm_time =? 0 then wrr RTT_AR 0xFFFFFFFF else wrr RTT_AR (ul_alarm_time - 1));;
  (if ctrue flag then rtt_enable_interrupt RTT_MR_ALMIEN else mret tt);;
  mret 0.
End Rtt.

(** ** Clock selection *)

(** A divisor with which a frequency is within what the counter can give. *)
Definition usable (freq mck d : Z) : bool := (freq <=? mck / d) && (mck / d / TC_DIV_FACTOR <=? freq).

Lemma divisor_loop_find freq mck i ds :
  0 <= mck -> Forall (fun d => 0 < d) ds -> Sorted Z.le ds ->
  divisor_loop freq mck i ds = Some (option_map (fun '(k, d) => (i + Z.of_nat k, d)) (list_find (fun d => usable freq mck d = true) ds)).
Proof.
  intros Hm Hpos Hsort. apply Sorted_StronglySorted in Hsort; [|intros ??? ??; lia]. revert i.
  induction Hsort as [|d ds Hsort IH Hall]; intros i; cbn [divisor_loop list_find]; [done|].
  inversion Hpos as [|?? Hd Hpos']; subst. destruct (Z.eqb_spec d 0); [lia|].
  destruct (Z.ltb_spec (mck / d) freq) as [Hlt|Hle].
  - rewrite decide_False by (unfold usable; destruct (Z.leb_spec freq (mck / d)); [lia|done]). do 2 f_equal.
    replace (list_find _ ds) with (@None (nat * Z)); [done|]. symmetry. apply list_find_None. apply Forall_forall. intros d' Hin Hu.
    unfold usable in Hu. apply andb_true_iff in Hu as [Hu _]. apply Z.leb_le in Hu.
    rewrite Forall_forall in Hall. specialize (Hall _ Hin). pose proof (Z.div_le_compat_l mck d d' ltac:(lia) ltac:(lia)). lia.
  - assert (usable freq mck d = (mck / d / TC_DIV_FACTOR <=? freq)) as Hu by (unfold usable; by destruct (Z.leb_spec freq (mck / d)); [|lia]).
    destruct (mck / d / TC_DIV_FACTOR <=? freq) eqn:Hlow.
    + rewrite decide_True by done. cbn. by rewrite Z.add_0_r.
    + rewrite decide_False by (by rewrite Hu). rewrite IH by done. destruct (list_find _ ds) as [[k d']|]; [|done]. cbn. do 3 f_equal. lia.
Qed.

(** The clock of a timer channel: the first of the divisors with which the
    frequency is within the counter's range, and 0 when there is none; stopping
    at the first divisor that is too slow loses nothing. *)
Theorem tc_divisor_is_first freq mck boardmck :
  0 <= mck -> 128 * FREQ_SLOW_CLOCK_EXT <= boardmck ->
  tc_find_mck_divisor freq mck boardmck =
    Some (match list_find (fun d => usable freq mck d = true) (divisors boardmck) with
          | Some (i, d) => (1, Some (d, Z.of_nat i))
          | None => (0, None)
          end).
Proof.
  intros Hm Hb. unfold tc_find_mck_divisor. assert (128 <= boardmck / FREQ_SLOW_CLOCK_EXT) by (unfold FREQ_SLOW_CLOCK_EXT in *; apply Z.div_le_lower_bound; lia).
  rewrite divisor_loop_find; [|done|by repeat constructor; lia|by repeat constructor; lia].
  destruct (list_find _ _) as [[i d]|]; done.
Qed.

Lemma tc_divisor_is_first_witness :
  tc_find_mck_divisor 1000 64000000 64000000 = Some (1, Some (2, 0)) /\
  tc_find_mck_divisor 10 64000000 64000000 =
    Some (match list_find (fun d => usable 10 64000000 d = true) (divisors 64000000) with
          | Some (i, d) => (1, Some (d, Z.of_nat i))
          | None => (0, None)
          end).
Proof. split; [reflexivity|]. apply tc_divisor_is_first; unfold FREQ_SLOW_CLOCK_EXT; lia. Defined.

(** The range is checked with rounding: a frequency is accepted whose period
    needs more than the sixteen bits of the counter. *)
Lemma divisor_period_too_long : tc_find_mck_divisor 1 262142 64000000 = Some (1, Some (2, 0)) /\ 65535 < 262142 / 2 / 1.
Proof. split; [reflexivity|]. by vm_compute. Qed.

(** ** The watchdog's period *)

(** The counter for a time in microseconds is the largest that does not exceed
    it, and fits its field; other times are refused. *)
Lemma wdt_timeout_ok us sclk :
  1000 <= sclk <= 128000000 -> 0 <= us < 2 ^ 32 ->
  let min := 128000000 / sclk in
  wdt_get_timeout_value us sclk =
    Some (if (min <=? us) && (us <=? min * 4095) then us / min else WDT_INVALID_ARGUMENT) /\ (min <= us <= min * 4095 -> 0 <= us / min <= 4095).
Proof.
  intros Hs Hus min. unfold wdt_get_timeout_value, WDT_SLCK_DIV, WDT_MAX_VALUE. destruct (Z.eqb_spec sclk 0); [lia|].
  change (128 * 1000000) with 128000000. fold min.
  assert (1 <= min <= 128000) as Hmin.
  { unfold min. split; [apply Z.div_le_lower_bound; lia|]. apply Z.div_le_upper_bound; lia. }
  unfold u32. rewrite (Z.mod_small (min * 4095)) by lia.
  assert (min <= us <= min * 4095 -> 0 <= us / min <= 4095) as Hfit.
  { intros Hr. split; [apply Z.div_pos; lia|]. apply Z.div_le_upper_bound; lia. }
  split; [|done]. destruct (Z.ltb_spec us min), (Z.leb_spec min us); try lia; [done|]. cbn [orb andb].
  destruct (Z.ltb_spec (min * 4095) us), (Z.leb_spec us (min * 4095)); try lia; [done|].
  destruct (Z.eqb_spec min 0); [lia|]. f_equal. unfold WDT_MR_WDV. change (Z.shiftl 0xfff 0) with (Z.shiftl (Z.ones 12) 0).
  rewrite field_ok; lia.
Qed.

(** ** The shadow of the write-only bits *)

(** Bits of the mode register that cannot be read back. *)
Definition WRITE_ONLY : Z := Z.lor RTT_MR_RTC1HZ RTT_MR_RTTDIS.

Inductive rtt_op :=
| Init (us_prescaler : Z) | SelSource (rtc : bool) | Enable | Disable | EnableInterrupt (sources : Z) | DisableInterrupt (sources : Z)
| WriteAlarm (time : Z) | ReadTimer.
Definition op_ok (o : rtt_op) : Prop :=
  match o with Init p => Z.land p WRITE_ONLY = 0 | EnableInterrupt m => Z.land m WRITE_ONLY = 0 | _ => True end.

Section Shadow.
Context `{!Hardware rtt_reg}.
Context (fuel : nat).

Definition run_op (o : rtt_op) : M rtt_state unit :=
  match o with
  | Init p => rtt_init p;; mret tt
  | SelSource b => rtt_sel_source b
  | Enable => rtt_enable
  | Disable => rtt_disable
  | EnableInterrupt m => rtt_enable_interrupt m
  | DisableInterrupt m => rtt_disable_interrupt m
  | WriteAlarm t => rtt_write_alarm_time t;; mret tt
  | ReadTimer => rtt_read_timer_value fuel;; mret tt
  end.
Fixpoint run_ops (ops : list rtt_op) : M rtt_state unit :=
  match ops with [] => mret tt | o :: ops => run_op o;; run_ops ops end.

(** The write-only bits read as zero; the timer does not advance between two
    reads. *)
Definition write_only_reads_zero : Prop := forall l, Z.land (hw_read l RTT_MR) WRITE_ONLY = 0.
Definition slow_timer : Prop := forall l v, hw_read (Rd RTT_VR v :: l) RTT_VR = hw_read l RTT_VR.

(** What was last written to the mode register agrees with the shadow. *)
Definition shadow_ok (s : rtt_state) : Prop :=
  Z.land (g_wobits_in_rtt_mr s) WRITE_ONLY = g_wobits_in_rtt_mr s /\
  forall v, last_write RTT_MR (rtt_log s) = Some v -> Z.land v WRITE_ONLY = g_wobits_in_rtt_mr s.

Context (Hzero : write_only_reads_zero).

Lemma land_ldiff g m w : Z.land (Z.ldiff g m) w = Z.ldiff (Z.land g w) m.
Proof. by rewrite !Z.ldiff_land, <- !Z.land_assoc, (Z.land_comm (Z.lnot m)). Qed.
Lemma land_rval v : Z.land (rval RTT_MR v) WRITE_ONLY = Z.land v WRITE_ONLY.
Proof.
  unfold rval. change reg_bits with 32. rewrite <- Z.land_ones, <- Z.land_assoc by lia. f_equal.
Qed.
Lemma seen_zero s : Z.land (seen s RTT_MR) WRITE_ONLY = 0.
Proof. unfold seen. rewrite land_rval. apply Hzero. Qed.

(** A write of the shadow with bits outside the write-only ones. *)
Lemma shadow_write x g s :
  Z.land x WRITE_ONLY = 0 -> Z.land g WRITE_ONLY = g -> g_wobits_in_rtt_mr s = g ->
  shadow_ok (log_event (Wr RTT_MR (rval RTT_MR (Z.lor x g))) s).
Proof.
  intros Hx Hg Hs. split; cbn [log_event put_log g_wobits_in_rtt_mr rtt_has_log]; [by rewrite Hs|]. intros v. cbn [rtt_log].
  rewrite last_write_wr. intros [= <-]. by rewrite land_rval, Z.land_lor_distr_l, Hx, Z.lor_0_l, Hg.
Qed.
Lemma shadow_quiet a s : (forall v, a <> Wr RTT_MR v) -> shadow_ok s -> shadow_ok (log_event a s).
Proof.
  intros Ha [H1 H2]. split; [done|]. intros v. cbn [log_event put_log rtt_has_log rtt_log get_log g_wobits_in_rtt_mr]. destruct a as [r w|r w].
  - rewrite last_write_rd. apply H2.
  - rewrite last_write_wr_ne; [apply H2|]. intros ->. by eapply Ha.
Qed.

Lemma or_wobits_ok g s :
  Z.land g WRITE_ONLY = g -> g_wobits_in_rtt_mr s = g ->
  exists s', (g ← wobits; orr RTT_MR g) s = Ok (tt, s') /\ shadow_ok s' /\ g_wobits_in_rtt_mr s' = g.
Proof.
  intros Hg Hs. unfold wobits, orr. rewrite bind_gets, bind_rdr. eexists. split; [reflexivity|]. rewrite Hs. split; [|by cbn].
  apply shadow_write; [apply seen_zero|done|done].
Qed.

Lemma interrupts_ok f s :
  (forall x, Z.land x WRITE_ONLY = 0 -> Z.land (f x) WRITE_ONLY = 0) -> shadow_ok s ->
  exists s', (temp ← rdr RTT_MR; g ← wobits; wrr RTT_MR (Z.lor (f temp) g)) s = Ok (tt, s') /\ shadow_ok s'.
Proof.
  intros Hf [Hg _]. unfold wobits. rewrite bind_rdr, bind_gets. eexists. split; [reflexivity|].
  apply shadow_write; [apply Hf, seen_zero|exact Hg|done].
Qed.

Lemma run_op_ok o s : slow_timer -> op_ok o -> shadow_ok s -> exists s', run_op o s = Ok (tt, s') /\ shadow_ok s'.
Proof.
  intros Hslow Ho Hs. pose proof (proj1 Hs) as Hg. destruct o as [p|b| | |m|m|t|]; cbn [run_op op_ok] in *.
  - eexists. split; [reflexivity|]. apply shadow_write; [|done|done]. by rewrite Z.land_lor_distr_l, Ho.
  - unfold rtt_sel_source. destruct b; unfold set_wobits; rewrite bind_modify.
    + edestruct or_wobits_ok as (s' & Hr & Hok & _); [|reflexivity|by exists s']. cbn. by rewrite Z.land_lor_distr_l, Hg.
    + edestruct or_wobits_ok as (s' & Hr & Hok & _); [|reflexivity|by exists s']. cbn. by rewrite land_ldiff, Hg.
  - unfold rtt_enable, set_wobits. rewrite bind_modify. edestruct or_wobits_ok as (s' & Hr & Hok & _); [|reflexivity|by exists s'].
    cbn. by rewrite land_ldiff, Hg.
  - unfold rtt_disable, set_wobits. rewrite bind_modify. edestruct or_wobits_ok as (s' & Hr & Hok & _); [|reflexivity|by exists s'].
    cbn. by rewrite Z.land_lor_distr_l, Hg.
  - apply (interrupts_ok (fun x => Z.lor x m)); [|done]. intros x Hx. by rewrite Z.land_lor_distr_l, Hx, Ho.
  - apply (interrupts_ok (fun x => Z.ldiff x m)); [|done]. intros x Hx. by rewrite land_ldiff, Hx, Z.ldiff_0_l.
  - unfold rtt_write_alarm_time. mnorm. rewrite bind_rdr. mnorm. set (s1 := log_event _ s).
    assert (shadow_ok s1) as H1 by (apply shadow_quiet; [done|exact Hs]).
    destruct (interrupts_ok (fun x => Z.ldiff x RTT_MR_ALMIEN) s1) as (s2 & Hd & H2); [intros x Hx; by rewrite land_ldiff, Hx|done|].
    change (rtt_disable_interrupt RTT_MR_ALMIEN s1 = Ok (tt, s2)) in Hd. mstep Hd. mnorm.
    assert (exists s3, (if t =? 0 then wrr RTT_AR 0xFFFFFFFF else wrr RTT_AR (t - 1)) s2 = Ok (tt, s3) /\ shadow_ok s3) as (s3 & Ha & H3).
    { destruct (t =? 0); (eexists; split; [reflexivity|]; apply shadow_quiet; [discriminate|exact H2]). }
    mstep Ha. mnorm. destruct (ctrue _); [|by exists s3].
    destruct (interrupts_ok (fun x => Z.lor x RTT_MR_ALMIEN) s3) as (s4 & He & H4); [intros x Hx; by rewrite Z.land_lor_distr_l, Hx|done|].
    change (rtt_enable_interrupt RTT_MR_ALMIEN s3 = Ok (tt, s4)) in He. mstep He. by exists s4.
  - unfold rtt_read_timer_value. rewrite (bind_Ok _ _ _ _ _ (stable_read_ok fuel RTT_VR s ltac:(unfold seen; rewrite get_log_event, Hslow; done))).
    eexists. split; [reflexivity|]. apply shadow_quiet; [done|]. apply shadow_quiet; [done|exact Hs].
Qed.
End Shadow.

(** C36: The mode of the real-time timer: whatever is called, in whatever order, every
    write of the mode register carries the clock source and the disable bit that
    were last selected, though the register does not give them back. *)
Theorem rtt_keeps_mode `{!Hardware rtt_reg} fuel ops s :
  write_only_reads_zero -> slow_timer -> Forall op_ok ops -> shadow_ok s ->
  exists s', run_ops fuel ops s = Ok (tt, s') /\ shadow_ok s'.
Proof.
  intros Hz Hslow Hops. revert s. induction Hops as [|o ops Ho Hops IH]; intros s Hs; cbn [run_ops]; [by exists s|].
  destruct (run_op_ok fuel Hz o s Hslow Ho Hs) as (s1 & Hr & H1). mstep Hr. by apply IH.
Qed.

Lemma rtt_keeps_mode_witness :
  let hw : Hardware rtt_reg := fun _ _ => 0 in
  exists s', run_ops 0 [SelSource true; Init 32768; EnableInterrupt RTT_MR_ALMIEN; Disable; WriteAlarm 7; ReadTimer] (RttState 0 []) = Ok (tt, s') /\
    shadow_ok s'.
Proof.
  intros hw. apply (@rtt_keeps_mode hw 0).
  - intros l. reflexivity.
  - intros l v. reflexivity.
  - repeat (apply Forall_cons; split; [reflexivity || exact I|]). apply Forall_nil. exact I.
  - split; [reflexivity|]. intros v H. discriminate H.
Defined.
