(* ===== verification/SamSystem.v ===== *)
(** * System peripherals of the ATSAM4S (platforms/atsam4s/asf/src: rstc.c,
    supc.c, gpbr.c, pdc.c, efc.c, chipid.c, acc.c, crccu.c)

    Reset and supply controllers, backup registers, DMA channels, the flash
    controller with its interrupt masking, chip identification, the analog
    comparator and the checksum unit. *)

From S2P Require Import Prelude Mmio SamDev.
From stdpp Require Import base list gmap sets.
From Stdlib Require Import ZArith Lia.
Local Open Scope Z_scope.

(** ** Reset controller *)

Inductive rstc_reg := RSTC_CR | RSTC_SR | RSTC_MR.
#[global] Instance rstc_reg_eq_dec : EqDecision rstc_reg.
Proof. solve_decision. Defined.
#[global] Instance rstc_registers : Registers rstc_reg := 32.

Definition RSTC_KEY : Z := 0xA5000000.
Definition RSTC_CR_EXTRST : Z := bit 3.
Definition RSTC_CR_PERRST : Z := bit 2.
Definition RSTC_CR_PROCRST : Z := bit 0.
Definition RSTC_MR_ERSTL (value : Z) : Z := field (Z.shiftl 0xf 8) 8 value.
Definition RSTC_MR_ERSTL_Msk : Z := Z.shiftl 0xf 8.
Definition RSTC_MR_KEY_Msk : Z := Z.shiftl 0xff 24.
Definition RSTC_MR_URSTEN : Z := bit 0.
Definition RSTC_MR_URSTIEN : Z := bit 4.
Definition RSTC_SR_RSTTYP_Msk : Z := Z.shiftl 0x7 8.

Section Rstc.
Context {S : Type} `{!Hardware rstc_reg, !HasLog rstc_reg S}.
Definition rstc_set_external_reset (ul_length : Z) : M S unit :=
  updr RSTC_MR (Z.lor RSTC_MR_ERSTL_Msk RSTC_MR_KEY_Msk) (Z.lor (RSTC_MR_ERSTL ul_length) RSTC_KEY).
Definition rstc_enable_user_reset : M S unit := updr RSTC_MR RSTC_MR_KEY_Msk (Z.lor RSTC_MR_URSTEN RSTC_KEY).
Definition rstc_disable_user_reset : M S unit := updr RSTC_MR (Z.lor RSTC_MR_URSTEN RSTC_MR_KEY_Msk) RSTC_KEY.
Definition rstc_enable_user_reset_interrupt : M S unit := updr RSTC_MR RSTC_MR_KEY_Msk (Z.lor RSTC_MR_URSTIEN RSTC_KEY).
Definition rstc_disable_user_reset_interrupt : M S unit := updr RSTC_MR (Z.lor RSTC_MR_URSTIEN RSTC_MR_KEY_Msk) RSTC_KEY.
Definition rstc_start_software_reset : M S unit := wrr RSTC_CR (Z.lor (Z.lor RSTC_KEY RSTC_CR_PROCRST) RSTC_CR_PERRST).
Definition rstc_reset_extern : M S unit := wrr RSTC_CR (Z.lor RSTC_KEY RSTC_CR_EXTRST).
Definition rstc_get_status : M S Z := rdr RSTC_SR.
Definition rstc_get_reset_cause : M S Z := x ← rdr RSTC_SR; mret (Z.land x RSTC_SR_RSTTYP_Msk).
End Rstc.

(** ** Supply controller *)

Inductive supc_reg := SUPC_CR | SUPC_SMMR | SUPC_MR | SUPC_WUMR | SUPC_WUIR | SUPC_SR.
#[global] Instance supc_reg_eq_dec : EqDecision supc_reg.
Proof. solve_decision. Defined.
#[global] Instance supc_registers : Registers supc_reg := 32.

Definition SUPC_CR_KEY_PASSWD : Z := Z.shiftl 0xA5 24.
Definition SUPC_CR_XTALSEL : Z := bit 3.
Definition SUPC_MR_BODDIS : Z := bit 13.
Definition SUPC_MR_BODRSTEN : Z := bit 12.
Definition SUPC_MR_KEY_Msk : Z := Z.shiftl 0xff 24.
Definition SUPC_MR_KEY_PASSWD : Z := Z.shiftl 0xA5 24.
Definition SUPC_MR_ONREG : Z := bit 14.
Definition SUPC_MR_OSCBYPASS : Z := bit 20.
Definition SUPC_SMMR_SMIEN : Z := bit 13.
Definition SUPC_SMMR_SMRSTEN : Z := bit 12.
Definition SUPC_SMMR_SMSMPL_Msk : Z := Z.shiftl 0x7 8.
Definition SUPC_SMMR_SMTH_Msk : Z := Z.shiftl 0xf 0.

Section Supc.
Context {S : Type} `{!Hardware supc_reg, !HasLog supc_reg S}.
(** [SUPC_MR = KEY | (SUPC_MR & ~(KEY_Msk | clear)) | set] *)
Definition supc_mode (clear set : Z) : M S unit :=
  x ← rdr SUPC_MR; wrr SUPC_MR (Z.lor (Z.lor SUPC_MR_KEY_PASSWD (Z.ldiff x (Z.lor SUPC_MR_KEY_Msk clear))) set).
Definition supc_enable_voltage_regulator : M S unit := supc_mode SUPC_MR_ONREG SUPC_MR_ONREG.
Definition supc_disable_voltage_regulator : M S unit := supc_mode SUPC_MR_ONREG 0.
Definition supc_switch_sclk_to_32kxtal (ul_bypass : Z) : M S unit :=
  (if ul_bypass =? 1 then orr SUPC_MR (Z.lor SUPC_MR_KEY_PASSWD SUPC_MR_OSCBYPASS)
   else clrr SUPC_MR (Z.lor SUPC_MR_KEY_PASSWD SUPC_MR_OSCBYPASS));;
  orr SUPC_CR (Z.lor SUPC_CR_KEY_PASSWD SUPC_CR_XTALSEL).
Definition supc_enable_brownout_detector : M S unit := supc_mode SUPC_MR_BODDIS 0.
Definition supc_disable_brownout_detector : M S unit := supc_mode SUPC_MR_BODDIS SUPC_MR_BODDIS.
Definition supc_enable_brownout_reset : M S unit := supc_mode SUPC_MR_BODRSTEN SUPC_MR_BODRSTEN.
Definition supc_disable_brownout_reset : M S unit := supc_mode SUPC_MR_BODRSTEN 0.
Definition supc_set_monitor_threshold (ul_threshold : Z) : M S unit :=
  updr SUPC_SMMR SUPC_SMMR_SMTH_Msk (Z.land SUPC_SMMR_SMTH_Msk ul_threshold).
Definition supc_set_monitor_sampling_period (ul_period : Z) : M S unit :=
  updr SUPC_SMMR SUPC_SMMR_SMSMPL_Msk (Z.land SUPC_SMMR_SMSMPL_Msk ul_period).
Definition supc_enable_monitor_reset : M S unit := orr SUPC_SMMR SUPC_SMMR_SMRSTEN.
Definition supc_disable_monitor_reset : M S unit := clrr SUPC_SMMR SUPC_SMMR_SMRSTEN.
Definition supc_enable_monitor_interrupt : M S unit := orr SUPC_SMMR SUPC_SMMR_SMIEN.
Definition supc_disable_monitor_interrupt : M S unit := clrr SUPC_SMMR SUPC_SMMR_SMIEN.
Definition supc_set_wakeup_mode (ul_mode : Z) : M S unit := wrr SUPC_WUMR ul_mode.
Definition supc_set_wakeup_inputs (ul_inputs ul_transition : Z) : M S unit := wrr SUPC_WUIR (Z.lor ul_inputs ul_transition).
Definition supc_get_status : M S Z := rdr SUPC_SR.
End Supc.

(** ** Backup registers and DMA channels *)

Inductive gpbr_reg := SYS_GPBR (n : Z).
#[global] Instance gpbr_reg_eq_dec : EqDecision gpbr_reg.
Proof. solve_decision. Defined.
#[global] Instance gpbr_registers : Registers gpbr_reg := 32.

Section Gpbr.
Context {S : Type} `{!Hardware gpbr_reg, !HasLog gpbr_reg S}.
Definition gpbr (n : Z) : M S gpbr_reg := if (0 <=? n) && (n <? 8) then mret (SYS_GPBR n) else ub.
Definition gpbr_read (ul_reg_num : Z) : M S Z := r ← gpbr ul_reg_num; rdr r.
Definition gpbr_write (ul_reg_num ul_value : Z) : M S unit := r ← gpbr ul_reg_num; wrr r ul_value.
End Gpbr.

Inductive pdc_reg :=
| PERIPH_RPR | PERIPH_RCR | PERIPH_TPR | PERIPH_TCR | PERIPH_RNPR | PERIPH_RNCR | PERIPH_TNPR | PERIPH_TNCR | PERIPH_PTCR | PERIPH_PTSR.
#[global] Instance pdc_reg_eq_dec : EqDecision pdc_reg.
Proof. solve_decision. Defined.
#[global] Instance pdc_registers : Registers pdc_reg := 32.

Definition PERIPH_PTCR_RXTDIS : Z := bit 1.
Definition PERIPH_PTCR_RXTEN : Z := bit 0.
Definition PERIPH_PTCR_TXTDIS : Z := bit 9.
Definition PERIPH_PTCR_TXTEN : Z := bit 8.
Record pdc_packet := PdcPacket { ul_addr : Z; ul_size : Z }.

Section Pdc.
Context {S : Type} `{!Hardware pdc_reg, !HasLog pdc_reg S}.
Definition give (ptr cnt : pdc_reg) (p : option pdc_packet) : M S unit :=
  match p with Some p => wrr ptr (ul_addr p);; wrr cnt (ul_size p) | None => mret tt end.
Definition pdc_tx_init (p_packet p_next_packet : option pdc_packet) : M S unit :=
  give PERIPH_TPR PERIPH_TCR p_packet;; give PERIPH_TNPR PERIPH_TNCR p_next_packet.
Definition pdc_rx_init (p_packet p_next_packet : option pdc_packet) : M S unit :=
  give PERIPH_RPR PERIPH_RCR p_packet;; give PERIPH_RNPR PERIPH_RNCR p_next_packet.
Definition pdc_rx_clear_cnt : M S unit := wrr PERIPH_RNCR 0;; wrr PERIPH_RCR 0.
Definition pdc_enable_transfer (ul_controls : Z) : M S unit := wrr PERIPH_PTCR (Z.land ul_controls (Z.lor PERIPH_PTCR_RXTEN PERIPH_PTCR_TXTEN)).
Definition pdc_disable_transfer (ul_controls : Z) : M S unit := wrr PERIPH_PTCR (Z.land ul_controls (Z.lor PERIPH_PTCR_RXTDIS PERIPH_PTCR_TXTDIS)).
Definition pdc_read_status : M S Z := rdr PERIPH_PTSR.
Definition pdc_read_rx_ptr : M S Z := rdr PERIPH_RPR.
Definition pdc_read_rx_counter : M S Z := rdr PERIPH_RCR.
Definition pdc_read_tx_ptr : M S Z := rdr PERIPH_TPR.
Definition pdc_read_tx_counter : M S Z := rdr PERIPH_TCR.
Definition pdc_read_rx_next_ptr : M S Z := rdr PERIPH_RNPR.
Definition pdc_read_rx_next_counter : M S Z := rdr PERIPH_RNCR.
Definition pdc_read_tx_next_ptr : M S Z := rdr PERIPH_TNPR.
Definition pdc_read_tx_next_counter : M S Z := rdr PERIPH_TNCR.
End Pdc.

(** ** Flash controller *)

(** [FLASH n] is the [n]th word from [READ_BUFF_ADDR]. *)
Inductive efc_reg := EEFC_FMR | EEFC_FCR | EEFC_FSR | EEFC_FRR | FLASH (n : Z).
#[global] Instance efc_reg_eq_dec : EqDecision efc_reg.
Proof. solve_decision. Defined.
#[global] Instance efc_registers : Registers efc_reg := 32.

Definition EEFC_FCR_FARG (value : Z) : Z := field (Z.shiftl 0xffff 8) 8 value.
Definition EEFC_FCR_FCMD (value : Z) : Z := field (Z.shiftl 0xff 0) 0 value.
Definition EEFC_FCR_FKEY_PASSWD : Z := Z.shiftl 0x5A 24.
Definition EEFC_FMR_CLOE : Z := bit 26.
Definition EEFC_FMR_FAM : Z := bit 24.
Definition EEFC_FMR_FRDY : Z := bit 0.
Definition EEFC_FMR_FWS (value : Z) : Z := field (Z.shiftl 0xf 8) 8 value.
Definition EEFC_FMR_FWS_Msk : Z := Z.shiftl 0xf 8.
Definition EEFC_FMR_FWS_Pos : Z := 8.
Definition EEFC_FSR_FCMDE : Z := bit 1.
Definition EEFC_FSR_FLERR : Z := bit 3.
Definition EEFC_FSR_FLOCKE : Z := bit 2.
Definition EEFC_FSR_FRDY : Z := bit 0.
Definition EEFC_ERROR_FLAGS : Z := Z.lor (Z.lor EEFC_FSR_FLOCKE EEFC_FSR_FCMDE) EEFC_FSR_FLERR.
Definition EFC_FCMD_STUI : Z := 0x0E.
Definition EFC_FCMD_SPUI : Z := 0x0F.
Definition EFC_RC_OK : Z := 0.
Definition EFC_RC_INVALID : Z := 2.
Definition EFC_RC_NOT_SUPPORT : Z := 0xFFFFFFFF.

(** The interrupt mask and the variable that mirrors it, beside the history of
    accesses. *)
Record efc_state := EfcState { irq_enabled : bool; g_interrupt_enabled : bool; efc_log : list (access efc_reg) }.
#[global] Program Instance efc_has_log : HasLog efc_reg efc_state :=
  {| get_log := efc_log; put_log l s := EfcState (irq_enabled s) (g_interrupt_enabled s) l |}.
Next Obligation. done. Qed.
Next Obligation. done. Qed.
Next Obligation. by intros []. Qed.

Section Efc.
Context `{!Hardware efc_reg}.
Context (fuel : nat).
Abbreviation F_ := (M efc_state).

Definition cpu_irq_enable : F_ unit := modify (fun s => EfcState true true (efc_log s)).
Definition cpu_irq_disable : F_ unit := modify (fun s => EfcState false false (efc_log s)).
Definition cpu_irq_save : F_ bool := flags ← gets irq_enabled; cpu_irq_disable;; mret flags.
Definition cpu_irq_restore (flags : bool) : F_ unit := if flags then cpu_irq_enable else mret tt.

Definition efc_write_fmr (ul_fmr : Z) : F_ unit := wrr EEFC_FMR ul_fmr.
(** [do { ul_status = FSR; } while ((ul_status & FRDY) != FRDY);], and the last status. *)
Fixpoint wait_frdy (fuel : nat) : F_ Z :=
  ul_status ← rdr EEFC_FSR;
  if Z.land ul_status EEFC_FSR_FRDY =? EEFC_FSR_FRDY then mret ul_status
  else match fuel with O => spin | Datatypes.S fuel => wait_frdy fuel end.
(** [do { ul_status = FSR; } while ((ul_status & FRDY) == FRDY);] *)
Fixpoint wait_busy (fuel : nat) : F_ unit :=
  ul_status ← rdr EEFC_FSR;
  if Z.land ul_status EEFC_FSR_FRDY =? EEFC_FSR_FRDY then match fuel with O => spin | Datatypes.S fuel => wait_busy fuel end
  else mret tt.
Definition efc_perform_fcr (ul_fcr : Z) : F_ Z :=
  wrr EEFC_FCR ul_fcr;; ul_status ← wait_frdy fuel; mret (Z.land ul_status EEFC_ERROR_FLAGS).
Definition command (ul_command ul_argument : Z) : Z := Z.lor (Z.lor EEFC_FCR_FKEY_PASSWD (EEFC_FCR_FARG ul_argument)) (EEFC_FCR_FCMD ul_command).

Definition efc_init (ul_access_mode ul_fws : Z) : F_ Z :=
  efc_write_fmr (Z.lor (Z.lor ul_access_mode (EEFC_FMR_FWS ul_fws)) EEFC_FMR_CLOE);; mret EFC_RC_OK.
Definition efc_enable_cloe : F_ unit := ul_fmr ← rdr EEFC_FMR; efc_write_fmr (Z.lor ul_fmr EEFC_FMR_CLOE).
Definition efc_disable_cloe : F_ unit := ul_fmr ← rdr EEFC_FMR; efc_write_fmr (Z.ldiff ul_fmr EEFC_FMR_CLOE).
Definition efc_enable_frdy_interrupt : F_ unit := ul_fmr ← rdr EEFC_FMR; efc_write_fmr (Z.lor ul_fmr EEFC_FMR_FRDY).
Definition efc_disable_frdy_interrupt : F_ unit := ul_fmr ← rdr EEFC_FMR; efc_write_fmr (Z.ldiff ul_fmr EEFC_FMR_FRDY).
Definition efc_set_flash_access_mode (ul_mode : Z) : F_ unit := x ← rdr EEFC_FMR; efc_write_fmr (Z.lor (Z.ldiff x EEFC_FMR_FAM) ul_mode).
Definition efc_get_flash_access_mode : F_ Z := x ← rdr EEFC_FMR; mret (Z.land x EEFC_FMR_FAM).
Definition efc_set_wait_state (ul_fws : Z) : F_ unit :=
  x ← rdr EEFC_FMR; efc_write_fmr (Z.lor (Z.ldiff x EEFC_FMR_FWS_Msk) (EEFC_FMR_FWS ul_fws)).
Definition efc_get_wait_state : F_ Z := x ← rdr EEFC_FMR; mret (Z.shiftr (Z.land x EEFC_FMR_FWS_Msk) EEFC_FMR_FWS_Pos).
Definition efc_perform_command (ul_command ul_argument : Z) : F_ Z :=
  if (ul_command =? EFC_FCMD_STUI) || (ul_command =? EFC_FCMD_SPUI) then mret EFC_RC_NOT_SUPPORT
  else
    flags ← cpu_irq_save;
    result ← efc_perform_fcr (command ul_command ul_argument);
    cpu_irq_restore flags;;
    mret result.
Definition efc_get_status : F_ Z := rdr EEFC_FSR.
Definition efc_get_result : F_ Z := rdr EEFC_FRR.

Fixpoint read_words (n : Z) (cnt : nat) : F_ (list Z) :=
  match cnt with O => mret [] | Datatypes.S cnt => v ← rdr (FLASH n); vs ← read_words (n + 1) cnt; mret (v :: vs) end.
(** [p_ul_buf] as whether it is a buffer; the words stored in it. *)
Definition efc_perform_read_sequence (ul_cmd_st ul_cmd_sp : Z) (p_ul_buf : bool) (ul_size : nat) : F_ (Z * list Z) :=
  if negb p_ul_buf then mret (EFC_RC_INVALID, [])
  else
    orr EEFC_FMR (bit 16);;
    wrr EEFC_FCR (command ul_cmd_st 0);;
    wait_busy fuel;;
    buf ← read_words 0 ul_size;
    wrr EEFC_FCR (command ul_cmd_sp 0);;
    wait_frdy fuel;;
    clrr EEFC_FMR (bit 16);;
    mret (EFC_RC_OK, buf).
End Efc.

(** ** Chip identification *)

Inductive chipid_reg := CHIPID_CIDR | CHIPID_EXID.
#[global] Instance chipid_reg_eq_dec : EqDecision chipid_reg.
Proof. solve_decision. Defined.
#[global] Instance chipid_registers : Registers chipid_reg := 32.

Definition CHIPID_CIDR_ARCH_Msk : Z := Z.shiftl 0xff 20.
Definition CHIPID_CIDR_ARCH_Pos : Z := 20.
Definition CHIPID_CIDR_EPROC_Msk : Z := Z.shiftl 0x7 5.
Definition CHIPID_CIDR_EPROC_Pos : Z := 5.
Definition CHIPID_CIDR_EXT : Z := bit 31.
Definition CHIPID_CIDR_NVPSIZ2_Pos : Z := 12.
Definition CHIPID_CIDR_NVPSIZ_Msk : Z := Z.shiftl 0xf 8.
Definition CHIPID_CIDR_NVPSIZ_Pos : Z := 8.
Definition CHIPID_CIDR_NVPTYP_Msk : Z := Z.shiftl 0x7 28.
Definition CHIPID_CIDR_NVPTYP_Pos : Z := 28.
Definition CHIPID_CIDR_SRAMSIZ_Msk : Z := Z.shiftl 0xf 16.
Definition CHIPID_CIDR_SRAMSIZ_Pos : Z := 16.
Definition CHIPID_CIDR_VERSION_Msk : Z := Z.shiftl 0x1f 0.
Definition CHIPID_CIDR_VERSION_Pos : Z := 0.
Definition CHIPID_EXID_EXID_Msk : Z := Z.shiftl 0xffffffff 0.

(** [ul_extid] is [None] when it is left as it was. *)
Record chipid_data := ChipidData {
  ul_version : Z; ul_eproc : Z; ul_nvpsiz : Z; ul_nvpsiz2 : Z; ul_sramsiz : Z; ul_arch : Z; ul_nvptyp : Z; ul_extflag : Z; ul_extid : option Z;
}.

Section Chipid.
Context {S : Type} `{!Hardware chipid_reg, !HasLog chipid_reg S}.
Definition cidr_field (msk pos : Z) : M S Z := x ← rdr CHIPID_CIDR; mret (Z.shiftr (Z.land x msk) pos).
(** The result, and what is stored when there is a structure to store to. *)
Definition chipid_read (p_chipid_data : bool) : M S (Z * option chipid_data) :=
  if negb p_chipid_data then mret (0xFFFFFFFF, None)
  else
    version ← cidr_field CHIPID_CIDR_VERSION_Msk CHIPID_CIDR_VERSION_Pos;
    eproc ← cidr_field CHIPID_CIDR_EPROC_Msk CHIPID_CIDR_EPROC_Pos;
    nvpsiz ← cidr_field CHIPID_CIDR_NVPSIZ_Msk CHIPID_CIDR_NVPSIZ_Pos;
    nvpsiz2 ← cidr_field CHIPID_CIDR_NVPSIZ2_Pos CHIPID_CIDR_NVPSIZ2_Pos;
    sramsiz ← cidr_field CHIPID_CIDR_SRAMSIZ_Msk CHIPID_CIDR_SRAMSIZ_Pos;
    arch ← cidr_field CHIPID_CIDR_ARCH_Msk CHIPID_CIDR_ARCH_Pos;
    nvptyp ← cidr_field CHIPID_CIDR_NVPTYP_Msk CHIPID_CIDR_NVPTYP_Pos;
    extflag ← cidr_field CHIPID_CIDR_EXT 31;
    extid ← (if ctrue extflag then x ← rdr CHIPID_EXID; mret (Some (Z.land x CHIPID_EXID_EXID_Msk)) else mret None);
    mret (0, Some (ChipidData version eproc nvpsiz nvpsiz2 sramsiz arch nvptyp extflag extid)).
Definition cidr_bits (msk : Z) : M S Z := x ← rdr CHIPID_CIDR; mret (Z.land x msk).
Definition chipid_read_version : M S Z := cidr_bits CHIPID_CIDR_VERSION_Msk.
Definition chipid_read_processor : M S Z := cidr_bits CHIPID_CIDR_EPROC_Msk.
Definition chipid_read_arch : M S Z := cidr_bits CHIPID_CIDR_ARCH_Msk.
Definition chipid_read_sramsize : M S Z := cidr_bits CHIPID_CIDR_SRAMSIZ_Msk.
Definition chipid_read_nvpmsize : M S Z := cidr_bits CHIPID_CIDR_NVPSIZ_Msk.
Definition chipid_read_nvpm2size : M S Z := cidr_bits CHIPID_CIDR_NVPSIZ2_Pos.
Definition chipid_read_nvpmtype : M S Z := cidr_bits CHIPID_CIDR_NVPTYP_Msk.
Definition chipid_read_extchipid : M S Z :=
  x ← rdr CHIPID_CIDR;
  if ctrue (Z.land x CHIPID_CIDR_EXT) then y ← rdr CHIPID_EXID; mret (Z.land y CHIPID_EXID_EXID_Msk) else mret 0.

(** The size of the second program memory is masked with its position instead
    of its mask, so it is reported as 0 whatever the chip says. *)
Lemma chipid_nvpsiz2_lost (s : S) d s' : chipid_read true s = Ok ((0, Some d), s') -> ul_nvpsiz2 d = 0.
Proof.
  unfold chipid_read, cidr_field. cbn [negb]. repeat (rewrite bind_assoc, bind_rdr, bind_ret_l).
  assert (forall x, Z.shiftr (Z.land x CHIPID_CIDR_NVPSIZ2_Pos) CHIPID_CIDR_NVPSIZ2_Pos = 0) as Hz.
  { intros x. rewrite Z.shiftr_land. apply Z.land_0_r. }
  rewrite Hz. intros H. apply bind_Ok_inv in H as (ext & s1 & _ & H). unfold mret, M_ret in H. by injection H as <- _.
Qed.
End Chipid.

(** ** Analog comparator *)

Inductive acc_reg := ACC_CR | ACC_MR | ACC_IER | ACC_IDR | ACC_ISR | ACC_ACR | ACC_WPMR | ACC_WPSR.
#[global] Instance acc_reg_eq_dec : EqDecision acc_reg.
Proof. solve_decision. Defined.
#[global] Instance acc_registers : Registers acc_reg := 32.

Definition ACC_ACR_HYST (value : Z) : Z := field (Z.shiftl 0x3 1) 1 value.
Definition ACC_ACR_HYST_50mv_max : Z := 0x01.
Definition ACC_ACR_ISEL_HISP : Z := bit 0.
Definition ACC_CR_SWRST : Z := bit 0.
Definition ACC_IDR_CE : Z := bit 0.
Definition ACC_IER_CE : Z := bit 0.
Definition ACC_ISR_MASK : Z := bit 31.
Definition ACC_ISR_SCO : Z := bit 1.
Definition ACC_MR_ACEN_EN : Z := bit 8.
Definition ACC_MR_EDGETYP_Msk : Z := Z.shiftl 0x3 9.
Definition ACC_MR_FE_EN : Z := bit 14.
Definition ACC_MR_INV : Z := bit 12.
Definition ACC_MR_INV_EN : Z := bit 12.
Definition ACC_MR_SELFS_OUTPUT : Z := bit 13.
Definition ACC_MR_SELMINUS_Msk : Z := Z.shiftl 0x7 0.
Definition ACC_MR_SELPLUS_Msk : Z := Z.shiftl 0x7 4.
Definition ACC_WPMR_WPEN : Z := bit 0.
Definition ACC_WPMR_WPKEY_PASSWD : Z := Z.shiftl 0x414343 8.
Definition ACC_WPSR_WPROTERR : Z := bit 0.

Section Acc.
Context {S : Type} `{!Hardware acc_reg, !HasLog acc_reg S}.
Context (fuel : nat).
(** [while (ACC_ISR & ACC_ISR_MASK);] *)
Fixpoint wait_unmasked (fuel : nat) : M S unit :=
  x ← rdr ACC_ISR;
  if ctrue (Z.land x ACC_ISR_MASK) then match fuel with O => spin | Datatypes.S fuel => wait_unmasked fuel end else mret tt.
Definition acc_init (ul_select_plus ul_select_minus ul_edge_type ul_invert : Z) : M S unit :=
  orr ACC_CR ACC_CR_SWRST;;
  wrr ACC_MR (Z.lor (Z.lor (Z.lor (Z.lor (Z.land ul_select_plus ACC_MR_SELPLUS_Msk) (Z.land ul_select_minus ACC_MR_SELMINUS_Msk))
                          (Z.land ul_edge_type ACC_MR_EDGETYP_Msk)) (Z.land ul_invert ACC_MR_INV)) ACC_MR_ACEN_EN);;
  wrr ACC_ACR (Z.lor ACC_ACR_ISEL_HISP (ACC_ACR_HYST ACC_ACR_HYST_50mv_max));;
  wait_unmasked fuel.
Definition acc_enable : M S unit := orr ACC_MR ACC_MR_ACEN_EN.
Definition acc_disable : M S unit := clrr ACC_MR ACC_MR_ACEN_EN.
Definition acc_reset : M S unit := wrr ACC_CR ACC_CR_SWRST.
Definition acc_set_input (ul_select_minus ul_select_plus : Z) : M S unit :=
  clrr ACC_MR (Z.lor ACC_MR_SELMINUS_Msk ACC_MR_SELPLUS_Msk);; orr ACC_MR (Z.lor ul_select_plus ul_select_minus).
Definition acc_set_output (ul_invert ul_fault_enable ul_fault_source : Z) : M S unit :=
  clrr ACC_MR (Z.lor (Z.lor ACC_MR_INV_EN ACC_MR_FE_EN) ACC_MR_SELFS_OUTPUT);;
  orr ACC_MR (Z.lor (Z.lor ul_invert ul_fault_source) ul_fault_enable).
Definition acc_get_comparison_result : M S Z :=
  ul_temp ← rdr ACC_MR;
  ul_status ← rdr ACC_ISR;
  if Z.land ul_temp ACC_MR_INV_EN =? ACC_MR_INV_EN then mret (if ctrue (Z.land ul_status ACC_ISR_SCO) then 0 else 1)
  else mret (if ctrue (Z.land ul_status ACC_ISR_SCO) then 1 else 0).
Definition acc_enable_interrupt : M S unit := wrr ACC_IER ACC_IER_CE.
Definition acc_disable_interrupt : M S unit := wrr ACC_IDR ACC_IDR_CE.
Definition acc_get_interrupt_status : M S Z := rdr ACC_ISR.
Definition acc_set_writeprotect (ul_enable : Z) : M S unit :=
  if ctrue ul_enable then wrr ACC_WPMR (Z.lor ACC_WPMR_WPKEY_PASSWD ACC_WPMR_WPEN) else wrr ACC_WPMR ACC_WPMR_WPKEY_PASSWD.
Definition acc_get_writeprotect_status : M S Z := x ← rdr ACC_WPSR; mret (Z.land x ACC_WPSR_WPROTERR).
End Acc.

(** ** Checksum unit *)

Inductive crccu_reg :=
| CRCCU_DSCR | CRCCU_DMA_EN | CRCCU_DMA_DIS | CRCCU_DMA_SR | CRCCU_DMA_IER | CRCCU_DMA_IDR | CRCCU_DMA_IMR | CRCCU_DMA_ISR
| CRCCU_CR | CRCCU_MR | CRCCU_SR | CRCCU_IER | CRCCU_IDR | CRCCU_IMR | CRCCU_ISR.
#[global] Instance crccu_reg_eq_dec : EqDecision crccu_reg.
Proof. solve_decision. Defined.
#[global] Instance crccu_registers : Registers crccu_reg := 32.

Definition CRCCU_CR_RESET : Z := bit 0.
Definition CRCCU_DMA_DIS_DMADIS : Z := bit 0.
Definition CRCCU_DMA_EN_DMAEN : Z := bit 0.
Definition CRCCU_DMA_IDR_DMAIDR : Z := bit 0.
Definition CRCCU_DMA_IER_DMAIER : Z := bit 0.
Definition CRCCU_DMA_IMR_DMAIMR : Z := bit 0.
Definition CRCCU_DMA_ISR_DMAISR : Z := bit 0.
Definition CRCCU_DMA_SR_DMASR : Z := bit 0.
Definition CRCCU_IDR_ERRIDR : Z := bit 0.
Definition CRCCU_IER_ERRIER : Z := bit 0.
Definition CRCCU_IMR_ERRIMR : Z := bit 0.
Definition CRCCU_ISR_ERRISR : Z := bit 0.
Definition CRCCU_SR_CRC_Msk : Z := Z.shiftl 0xffffffff 0.

Section Crccu.
Context {S : Type} `{!Hardware crccu_reg, !HasLog crccu_reg S}.
Definition masked (r : crccu_reg) (msk : Z) : M S Z := x ← rdr r; mret (Z.land x msk).
Definition crccu_configure_descriptor (ul_crc_dscr_addr : Z) : M S unit := wrr CRCCU_DSCR ul_crc_dscr_addr.
Definition crccu_configure_mode (ul_mode : Z) : M S unit := wrr CRCCU_MR ul_mode.
Definition crccu_enable_dma : M S unit := wrr CRCCU_DMA_EN CRCCU_DMA_EN_DMAEN.
Definition crccu_disable_dma : M S unit := wrr CRCCU_DMA_DIS CRCCU_DMA_DIS_DMADIS.
Definition crccu_reset : M S unit := wrr CRCCU_CR CRCCU_CR_RESET.
Definition crccu_get_dma_status : M S Z := masked CRCCU_DMA_SR CRCCU_DMA_SR_DMASR.
Definition crccu_enable_dma_interrupt : M S unit := wrr CRCCU_DMA_IER CRCCU_DMA_IER_DMAIER.
Definition crccu_disable_dma_interrupt : M S unit := wrr CRCCU_DMA_IDR CRCCU_DMA_IDR_DMAIDR.
Definition crccu_get_dma_interrupt_status : M S Z := masked CRCCU_DMA_ISR CRCCU_DMA_ISR_DMAISR.
Definition crccu_get_dma_interrupt_mask : M S Z := masked CRCCU_DMA_IMR CRCCU_DMA_IMR_DMAIMR.
Definition crccu_read_crc_value : M S Z := masked CRCCU_SR CRCCU_SR_CRC_Msk.
Definition crccu_enable_error_interrupt : M S unit := wrr CRCCU_IER CRCCU_IER_ERRIER.
Definition crccu_disable_error_interrupt : M S unit := wrr CRCCU_IDR CRCCU_IDR_ERRIDR.
Definition crccu_get_error_interrupt_status : M S Z := masked CRCCU_ISR CRCCU_ISR_ERRISR.
Definition crccu_get_error_interrupt_mask : M S Z := masked CRCCU_IMR CRCCU_IMR_ERRIMR.
End Crccu.

(** ** Flash commands *)

Section FlashCommands.
Context `{!Hardware efc_reg}.
Implicit Types s : efc_state.

Lemma command_ok c a : 0 <= c < 2 ^ 8 -> 0 <= a < 2 ^ 16 -> command c a = c + a * 2 ^ 8 + 0x5A * 2 ^ 24.
Proof.
  intros Hc Ha. unfold command, EEFC_FCR_FARG, EEFC_FCR_FCMD, EEFC_FCR_FKEY_PASSWD.
  change (Z.shiftl 0xffff 8) with (Z.shiftl (Z.ones 16) 8). change (Z.shiftl 0xff 0) with (Z.shiftl (Z.ones 8) 0).
  rewrite !field_ok by lia. change (Z.shiftl 0x5A 24) with (0x5A * 2 ^ 24). change (2 ^ 0) with 1. rewrite Z.mul_1_r.
  rewrite (lor_high 0x5A (a * 2 ^ 8) 24) by lia.
  replace (a * 2 ^ 8 + 0x5A * 2 ^ 24) with ((a + 0x5A * 2 ^ 16) * 2 ^ 8) by lia. rewrite lor_high by lia. lia.
Qed.

(** The wait ends with a status that has the ready bit. *)
Lemma wait_frdy_returns fuel s :
  reads_until fuel EEFC_FSR EEFC_FSR_FRDY s = true ->
  exists st s', wait_frdy fuel s = Ok (st, s') /\ Z.testbit st 0 = true /\ only_reads s s' /\
    irq_enabled s' = irq_enabled s /\ last (reads EEFC_FSR (get_log s')) = Some st.
Proof.
  revert s. induction fuel as [|fuel IH]; intros s H; cbn [wait_frdy reads_until] in *; rewrite bind_rdr.
  all: destruct (Z.land (seen s EEFC_FSR) EEFC_FSR_FRDY =? EEFC_FSR_FRDY) eqn:Hb; cbn [orb] in H; [|try discriminate].
  1,2: eexists _, _; split; [done|]; split; [by rewrite <- (land_bit_eqb _ 0) by lia|]; split; [apply only_reads_rd|]; split; [done|].
  1,2: by rewrite get_log_event, reads_rd, last_snoc.
  destruct (IH _ H) as (st & s' & Hw & Ht & Hr & Hi & Hl). exists st, s'. split; [done|]. split; [done|].
  split; [by etrans; [apply only_reads_rd|]|]. done.
Qed.
End FlashCommands.

(** A flash command: one command word with the key, the argument and the command
    is written with interrupts off, the call waits for the controller and answers
    the error bits of its status, and interrupts are as before; the commands
    that read the unique identifier are refused. *)
Theorem flash_command `{!Hardware efc_reg} fuel c a s :
  0 <= c < 2 ^ 8 -> 0 <= a < 2 ^ 16 -> comes_up fuel EEFC_FSR EEFC_FSR_FRDY ->
  if (c =? EFC_FCMD_STUI) || (c =? EFC_FCMD_SPUI) then efc_perform_command fuel c a s = Ok (EFC_RC_NOT_SUPPORT, s)
  else exists st s', efc_perform_command fuel c a s = Ok (Z.land st EEFC_ERROR_FLAGS, s') /\
    writes EEFC_FCR (get_log s') = writes EEFC_FCR (get_log s) ++ [c + a * 2 ^ 8 + 0x5A * 2 ^ 24] /\
    last (reads EEFC_FSR (get_log s')) = Some st /\ Z.testbit st 0 = true /\ irq_enabled s' = irq_enabled s.
Proof.
  intros Hc Ha Hup. unfold efc_perform_command. destruct (_ || _); [done|].
  unfold cpu_irq_save, cpu_irq_disable. mnorm. unfold efc_perform_fcr. mnorm. rewrite bind_wrr. mnorm.
  set (s1 := log_event _ _). destruct (wait_frdy_returns fuel s1 (Hup s1)) as (st & s2 & Hw & Ht & Hr & Hi & Hl). mstep Hw. mnorm.
  assert (writes EEFC_FCR (get_log s2) = writes EEFC_FCR (get_log s) ++ [c + a * 2 ^ 8 + 0x5A * 2 ^ 24]) as Hws.
  { rewrite Hr. unfold s1. rewrite get_log_event, writes_wr, command_ok by done. do 2 f_equal. f_equal. apply (Z.mod_small _ (2 ^ 32)). lia. }
  exists st. destruct (irq_enabled s) eqn:He.
  - unfold cpu_irq_restore, cpu_irq_enable. mnorm. eexists. split; [reflexivity|]. done.
  - unfold cpu_irq_restore. mnorm. exists s2. split; [reflexivity|]. split; [done|]. split; [done|]. split; [done|]. by rewrite Hi.
Qed.

Lemma flash_command_witness :
  let hw : Hardware efc_reg := fun _ _ => 5 in
  exists st s', efc_perform_command 0 7 0x102 (EfcState true true []) = Ok (Z.land st EEFC_ERROR_FLAGS, s') /\
    writes EEFC_FCR (get_log s') = [0x5A010207] /\
    last (reads EEFC_FSR (get_log s')) = Some st /\ Z.testbit st 0 = true /\ irq_enabled s' = true.
Proof.
  intros hw. apply (@flash_command hw 0 7 0x102 (EfcState true true [])).
  - lia.
  - lia.
  - intros s. reflexivity.
Defined.
