(* ===== verification/SamPwm.v ===== *)
(** * The PWM controller of the ATSAM4S (platforms/atsam4s/asf/src/pwm.c)

    Clock generation, channels, outputs, faults, comparison units, synchronous
    channels and write protection, in the configuration of the SAM4S. *)

From S2P Require Import Prelude Mmio SamDev.
From stdpp Require Import base list gmap sets.
From Stdlib Require Import ZArith Lia.
Local Open Scope Z_scope.

Inductive pwm_ch_field := PWM_CMR | PWM_CDTY | PWM_CPRD | PWM_CDTYUPD | PWM_CPRDUPD | PWM_CCNT | PWM_DT | PWM_DTUPD.
Inductive pwm_cmp_field := PWM_CMPV | PWM_CMPVUPD | PWM_CMPM | PWM_CMPMUPD.
#[global] Instance pwm_ch_field_eq_dec : EqDecision pwm_ch_field.
Proof. solve_decision. Defined.
#[global] Instance pwm_cmp_field_eq_dec : EqDecision pwm_cmp_field.
Proof. solve_decision. Defined.
Inductive pwm_reg :=
| PWM_CLK | PWM_ENA | PWM_DIS | PWM_SR | PWM_IER1 | PWM_IDR1 | PWM_IMR1 | PWM_ISR1 | PWM_SCM | PWM_SCUC | PWM_SCUP | PWM_SCUPUPD
| PWM_IER2 | PWM_IDR2 | PWM_IMR2 | PWM_ISR2 | PWM_OOV | PWM_OS | PWM_OSS | PWM_OSC | PWM_OSSUPD | PWM_OSCUPD | PWM_FMR | PWM_FSR | PWM_FCR
| PWM_FPV | PWM_FPE | PWM_ELMR (n : Z) | PWM_SMMR | PWM_WPCR | PWM_WPSR | PWM_CH (n : Z) (f : pwm_ch_field) | PWM_CMP (n : Z) (f : pwm_cmp_field).
#[global] Instance pwm_reg_eq_dec : EqDecision pwm_reg.
Proof. solve_decision. Defined.
#[global] Instance pwm_registers : Registers pwm_reg := 32.

Definition PWM_INVALID_ARGUMENT : Z := 0xFFFF.
Definition PWM_CLOCK_DIV_MAX : Z := 256.
Definition PWM_CLOCK_PRE_MAX : Z := 11.
Definition PWM_CMPM_CEN : Z := bit 0.
Definition PWM_CMPM_CPR (value : Z) : Z := field (Z.shiftl 0xf 8) 8 value.
Definition PWM_CMPM_CPRCNT (value : Z) : Z := field (Z.shiftl 0xf 12) 12 value.
Definition PWM_CMPM_CPRCNT_Pos : Z := 12.
Definition PWM_CMPM_CTR (value : Z) : Z := field (Z.shiftl 0xf 4) 4 value.
Definition PWM_CMPM_CUPR (value : Z) : Z := field (Z.shiftl 0xf 16) 16 value.
Definition PWM_CMPM_CUPRCNT (value : Z) : Z := field (Z.shiftl 0xf 20) 20 value.
Definition PWM_CMPM_CUPRCNT_Pos : Z := 20.
Definition PWM_CMPV_CV (value : Z) : Z := field (Z.shiftl 0xffffff 0) 0 value.
Definition PWM_DTUPD_DTHUPD (value : Z) : Z := field (Z.shiftl 0xffff 0) 0 value.
Definition PWM_DTUPD_DTLUPD (value : Z) : Z := field (Z.shiftl 0xffff 16) 16 value.
Definition PWM_DT_DTH (value : Z) : Z := field (Z.shiftl 0xffff 0) 0 value.
Definition PWM_DT_DTL (value : Z) : Z := field (Z.shiftl 0xffff 16) 16 value.
Definition PWM_OOV_OOVH0 : Z := bit 0.
Definition PWM_OOV_OOVL0 : Z := bit 16.
Definition PWM_OS_OSH0 : Z := bit 0.
Definition PWM_OS_OSL0 : Z := bit 16.
Definition PWM_SCM_PTRCS (value : Z) : Z := field (Z.shiftl 0x7 21) 21 value.
Definition PWM_SCM_PTRCS_Msk : Z := Z.shiftl 0x7 21.
Definition PWM_SCM_PTRM : Z := bit 20.
Definition PWM_SCM_UPDM_Msk : Z := Z.shiftl 0x3 16.
Definition PWM_SCUC_UPDULOCK : Z := bit 0.
Definition PWM_SCUPUPD_UPRUPD (value : Z) : Z := field (Z.shiftl 0xf 0) 0 value.
Definition PWM_SCUP_UPR (value : Z) : Z := field (Z.shiftl 0xf 0) 0 value.
Definition PWM_SCUP_UPRCNT (value : Z) : Z := field (Z.shiftl 0xf 4) 4 value.
Definition PWM_SMMR_DOWN0 : Z := bit 16.
Definition PWM_SMMR_GCEN0 : Z := bit 0.
Definition PWM_WPCR_WPCMD_DISABLE_SW_PROT : Z := Z.shiftl 0x0 0.
Definition PWM_WPCR_WPCMD_ENABLE_HW_PROT : Z := Z.shiftl 0x2 0.
Definition PWM_WPCR_WPCMD_ENABLE_SW_PROT : Z := bit 0.
Definition PWM_WPCR_WPKEY_PASSWD : Z := Z.shiftl 0x50574D 8.
Definition PWM_WPSR_WPVS : Z := bit 7.
Definition PWM_WPSR_WPVSRC_Msk : Z := Z.shiftl 0xffff 16.
Definition PWM_WPSR_WPVSRC_Pos : Z := 16.

(** ** Data *)

Inductive pwm_level_t := PWM_LOW | PWM_HIGH.
Definition level (l : pwm_level_t) : Z := match l with PWM_LOW => 0 | PWM_HIGH => 1 end.
Inductive pwm_cmp_interrupt_t := PWM_CMP_MATCH | PWM_CMP_UPDATE.
Record pwm_clock_t := PwmClock { ul_clka : Z; ul_clkb : Z; ul_mck : Z }.
Record pwm_output_t := PwmOutput {
  b_override_pwmh : bool; b_override_pwml : bool; override_level_pwmh : pwm_level_t; override_level_pwml : pwm_level_t;
}.
Record pwm_channel_t := PwmChannel {
  channel : Z; ul_prescaler : Z; alignment : Z; polarity : pwm_level_t; ul_duty : Z; ul_period : Z; counter_event : Z;
  b_deadtime_generator : bool; b_pwmh_output_inverted : bool; b_pwml_output_inverted : bool; us_deadtime_pwmh : Z; us_deadtime_pwml : Z;
  output_selection : pwm_output_t; b_sync_ch : bool; fault_id : Z; ul_fault_output_pwmh : pwm_level_t; ul_fault_output_pwml : pwm_level_t;
}.
Record pwm_cmp_t := PwmCmp {
  unit_ : Z; b_enable : bool; ul_value : Z; b_is_decrementing : bool; ul_trigger : Z; cmp_period : Z; ul_update_period : Z;
  b_pulse_on_line_0 : bool; b_pulse_on_line_1 : bool;
}.
Record pwm_fault_t := PwmFault { id : Z; fault_polarity : pwm_level_t; b_clear : bool; b_filtered : bool }.
Record pwm_protect_t := PwmProtect { ul_hw_status : Z; ul_sw_status : Z; ul_offset : option Z }.

(** ** Clocks *)

Definition ul_divisors : list Z := [1; 2; 4; 8; 16; 32; 64; 128; 256; 512; 1024].

(** The loop from prescaler [ul_pre] on: the prescaler and divisor found. *)
Fixpoint clock_loop (ul_frequency ul_mck ul_pre : Z) (ds : list Z) : option (Z * Z) :=
  match ds with
  | [] => None
  | d :: ds =>
    let ul_div := ul_mck / d / ul_frequency in
    if ul_div <=? PWM_CLOCK_DIV_MAX then Some (ul_pre, ul_div) else clock_loop ul_frequency ul_mck (ul_pre + 1) ds
  end.
(** [ul_frequency] is not zero where it is called. *)
Definition pwm_clocks_generate (ul_frequency ul_mck : Z) : Z :=
  match clock_loop ul_frequency ul_mck 0 ul_divisors with
  | Some (ul_pre, ul_div) => Z.lor ul_div (Z.shiftl ul_pre 8)
  | None => PWM_INVALID_ARGUMENT
  end.

Section Pwm.
Context {S : Type} `{!Hardware pwm_reg, !HasLog pwm_reg S}.

Definition pwm_init (c : pwm_clock_t) : M S Z :=
  let a := if ul_clka c =? 0 then 0 else pwm_clocks_generate (ul_clka c) (ul_mck c) in
  if negb (ul_clka c =? 0) && (a =? PWM_INVALID_ARGUMENT) then mret a
  else
    let b := if ul_clkb c =? 0 then 0 else pwm_clocks_generate (ul_clkb c) (ul_mck c) in
    if negb (ul_clkb c =? 0) && (b =? PWM_INVALID_ARGUMENT) then mret b
    else wrr PWM_CLK (Z.lor a (u32 (Z.shiftl b 16)));; mret 0.

(** There are four channels and eight comparison units. *)
Definition ch (n : Z) (f : pwm_ch_field) : M S pwm_reg := if (0 <=? n) && (n <? 4) then mret (PWM_CH n f) else ub.
Definition cmp (n : Z) (f : pwm_cmp_field) : M S pwm_reg := if (0 <=? n) && (n <? 8) then mret (PWM_CMP n f) else ub.
Definition shl (v n : Z) : M S Z := lift_opt (shl_int v n).

(** [r = (r & ~((bit 0 | bit 16) << n)) | (h << n) | ((l << n) << 16)] *)
Definition pair_update (r : pwm_reg) (n h l : Z) : M S unit :=
  x ← rdr r; wrr r (Z.lor (Z.ldiff x (u32 (Z.shiftl (Z.lor (bit 0) (bit 16)) n))) (Z.lor (Z.shiftl h n) (Z.shiftl (Z.shiftl l n) 16))).
(** [if (b) r |= v; else r &= ~v;] *)
Definition put_bit (b : bool) (r : pwm_reg) (v : Z) : M S unit := if b then orr r v else clrr r v.

Definition pwm_channel_init (p : pwm_channel_t) : M S Z :=
  let n := channel p in
  cmr ← ch n PWM_CMR;
  wrr cmr (Z.lor (Z.land (ul_prescaler p) 0xF) (Z.lor (Z.shiftl (level (polarity p)) 9) (Z.lor (counter_event p)
    (Z.lor (Z.shiftl (Z.b2z (b_deadtime_generator p)) 16) (Z.lor (Z.shiftl (Z.b2z (b_pwmh_output_inverted p)) 17)
    (Z.lor (Z.shiftl (Z.b2z (b_pwml_output_inverted p)) 18) (alignment p)))))));;
  r ← ch n PWM_CDTY; wrr r (ul_duty p);;
  r ← ch n PWM_CPRD; wrr r (ul_period p);;
  (if b_deadtime_generator p then r ← ch n PWM_DT; wrr r (Z.lor (PWM_DT_DTL (us_deadtime_pwml p)) (PWM_DT_DTH (us_deadtime_pwmh p)))
   else mret tt);;
  let o := output_selection p in
  pair_update PWM_OS n (Z.b2z (b_override_pwmh o)) (Z.b2z (b_override_pwml o));;
  pair_update PWM_OOV n (level (override_level_pwmh o)) (level (override_level_pwml o));;
  put_bit (b_sync_ch p) PWM_SCM (bit n);;
  put_bit (level (ul_fault_output_pwmh p) =? 1) PWM_FPV (bit n);;
  put_bit (level (ul_fault_output_pwml p) =? 1) PWM_FPV (Z.shiftl (bit n) 16);;
  x ← rdr PWM_FPE;
  m ← shl 0xFF (n * 8);
  wrr PWM_FPE (Z.lor (Z.ldiff x m) (u32 (Z.shiftl (fault_id p) (n * 8))));;
  mret 0.

(** The result and the channel as it is left. *)
Definition pwm_channel_update_period (p : pwm_channel_t) (period : Z) : M S (Z * pwm_channel_t) :=
  if period <? ul_duty p then mret (PWM_INVALID_ARGUMENT, p)
  else
    r ← ch (channel p) PWM_CPRDUPD;
    wrr r period;;
    mret (0, PwmChannel (channel p) (ul_prescaler p) (alignment p) (polarity p) (ul_duty p) period (counter_event p) (b_deadtime_generator p)
               (b_pwmh_output_inverted p) (b_pwml_output_inverted p) (us_deadtime_pwmh p) (us_deadtime_pwml p) (output_selection p)
               (b_sync_ch p) (fault_id p) (ul_fault_output_pwmh p) (ul_fault_output_pwml p)).
Definition pwm_channel_update_duty (p : pwm_channel_t) (duty : Z) : M S (Z * pwm_channel_t) :=
  if ul_period p <? duty then mret (PWM_INVALID_ARGUMENT, p)
  else
    r ← ch (channel p) PWM_CDTYUPD;
    wrr r duty;;
    mret (0, PwmChannel (channel p) (ul_prescaler p) (alignment p) (polarity p) duty (ul_period p) (counter_event p) (b_deadtime_generator p)
               (b_pwmh_output_inverted p) (b_pwml_output_inverted p) (us_deadtime_pwmh p) (us_deadtime_pwml p) (output_selection p)
               (b_sync_ch p) (fault_id p) (ul_fault_output_pwmh p) (ul_fault_output_pwml p)).
Definition pwm_channel_get_counter (p : pwm_channel_t) : M S Z := r ← ch (channel p) PWM_CCNT; rdr r.
Definition pwm_channel_enable (ul_channel : Z) : M S unit := v ← shl 1 ul_channel; wrr PWM_ENA v.
Definition pwm_channel_disable (ul_channel : Z) : M S unit := v ← shl 1 ul_channel; wrr PWM_DIS v.
Definition pwm_channel_get_status : M S Z := rdr PWM_SR.
Definition pwm_channel_get_interrupt_status : M S Z := rdr PWM_ISR1.
Definition pwm_channel_get_interrupt_mask : M S Z := rdr PWM_IMR1.
Definition pwm_channel_enable_interrupt (ul_event ul_fault : Z) : M S unit :=
  a ← shl 1 ul_event; b ← shl 1 (u32 (ul_fault + 16)); wrr PWM_IER1 (Z.lor a b).
Definition pwm_channel_disable_interrupt (ul_event ul_fault : Z) : M S unit :=
  a ← shl 1 ul_event; b ← shl 1 (u32 (ul_fault + 16)); wrr PWM_IDR1 (Z.lor a b).

(** ** Outputs, faults and comparisons *)

Definition with_output (p : pwm_channel_t) (o : pwm_output_t) : pwm_channel_t :=
  PwmChannel (channel p) (ul_prescaler p) (alignment p) (polarity p) (ul_duty p) (ul_period p) (counter_event p) (b_deadtime_generator p)
    (b_pwmh_output_inverted p) (b_pwml_output_inverted p) (us_deadtime_pwmh p) (us_deadtime_pwml p) o
    (b_sync_ch p) (fault_id p) (ul_fault_output_pwmh p) (ul_fault_output_pwml p).
(** [((l << n) << 16) | (h << n)] *)
Definition pair_bits (n h l : Z) : M S Z := a ← shl l n; a ← shl a 16; b ← shl h n; mret (Z.lor a b).
Definition pwm_channel_update_output (p : pwm_channel_t) (o : pwm_output_t) (b_sync : bool) : M S pwm_channel_t :=
  let n := channel p in
  _ ← shl 1 n;
  x ← rdr PWM_OOV;
  wrr PWM_OOV (Z.lor (Z.ldiff x (u32 (Z.shiftl (Z.lor PWM_OOV_OOVH0 PWM_OOV_OOVL0) n)))
                 (u32 (Z.shiftl (Z.lor (Z.shiftl (level (override_level_pwml o)) 16) (level (override_level_pwmh o))) n)));;
  on ← pair_bits n (Z.b2z (b_override_pwmh o)) (Z.b2z (b_override_pwml o));
  off ← pair_bits n (Z.b2z (negb (b_override_pwmh o))) (Z.b2z (negb (b_override_pwml o)));
  (if b_sync then wrr PWM_OSSUPD on;; wrr PWM_OSCUPD off else wrr PWM_OSS on;; wrr PWM_OSC off);;
  mret (with_output p o).
Definition pwm_channel_update_dead_time (p : pwm_channel_t) (dth dtl : Z) : M S pwm_channel_t :=
  r ← ch (channel p) PWM_DTUPD;
  wrr r (Z.lor (PWM_DTUPD_DTLUPD dtl) (PWM_DTUPD_DTHUPD dth));;
  mret (PwmChannel (channel p) (ul_prescaler p) (alignment p) (polarity p) (ul_duty p) (ul_period p) (counter_event p) (b_deadtime_generator p)
          (b_pwmh_output_inverted p) (b_pwml_output_inverted p) dth dtl (output_selection p)
          (b_sync_ch p) (fault_id p) (ul_fault_output_pwmh p) (ul_fault_output_pwml p)).

Definition choose (b : bool) (v x : Z) : Z := if b then Z.lor x v else Z.ldiff x v.
Definition pwm_fault_init (p : pwm_fault_t) : M S Z :=
  fault_reg ← rdr PWM_FMR;
  wrr PWM_FMR (choose (b_filtered p) (u32 (Z.shiftl (id p) 16)) (choose (b_clear p) (u32 (Z.shiftl (id p) 8))
                 (choose (level (fault_polarity p) =? 1) (id p) fault_reg)));;
  mret 0.
Definition pwm_fault_get_status : M S Z := x ← rdr PWM_FSR; mret (Z.land (Z.shiftr x 8) 0xFF).
(** A shift by 32 or more has no meaning. *)
Definition pwm_fault_get_input_level (id : Z) : M S pwm_level_t :=
  x ← rdr PWM_FSR;
  if (0 <=? id) && (id <? 32) then mret (if ctrue (Z.land (Z.shiftr x id) 1) then PWM_HIGH else PWM_LOW) else ub.
Definition pwm_fault_clear_status (id : Z) : M S unit := wrr PWM_FCR id.

Definition cmp_value (p : pwm_cmp_t) : Z := Z.lor (PWM_CMPV_CV (ul_value p)) (Z.shiftl (Z.b2z (b_is_decrementing p)) 24).
Definition cmp_mode (p : pwm_cmp_t) : Z :=
  Z.lor (Z.lor (PWM_CMPM_CTR (ul_trigger p)) (PWM_CMPM_CPR (cmp_period p))) (PWM_CMPM_CUPR (ul_update_period p)).
(** The comparison unit through its registers [vr] and [mr]. *)
Definition cmp_write (vr mr : pwm_cmp_field) (p : pwm_cmp_t) : M S Z :=
  v ← cmp (unit_ p) vr; wrr v (cmp_value p);;
  m ← cmp (unit_ p) mr; wrr m (cmp_mode p);;
  put_bit (b_pulse_on_line_0 p) (PWM_ELMR 0) (bit (unit_ p));;
  put_bit (b_pulse_on_line_1 p) (PWM_ELMR 1) (bit (unit_ p));;
  put_bit (b_enable p) m PWM_CMPM_CEN;;
  mret 0.
Definition pwm_cmp_init (p : pwm_cmp_t) : M S Z := cmp_write PWM_CMPV PWM_CMPM p.
Definition pwm_cmp_change_setting (p : pwm_cmp_t) : M S Z := cmp_write PWM_CMPVUPD PWM_CMPMUPD p.
Definition pwm_cmp_get_period_counter (ul_cmp_unit : Z) : M S Z :=
  r ← cmp ul_cmp_unit PWM_CMPM; x ← rdr r; mret (Z.shiftr (PWM_CMPM_CPRCNT x) PWM_CMPM_CPRCNT_Pos).
Definition pwm_cmp_get_update_counter (ul_cmp_unit : Z) : M S Z :=
  r ← cmp ul_cmp_unit PWM_CMPM; x ← rdr r; mret (Z.shiftr (PWM_CMPM_CUPRCNT x) PWM_CMPM_CUPRCNT_Pos).
Definition cmp_interrupt (r : pwm_reg) (ul_sources : Z) (type : pwm_cmp_interrupt_t) : M S unit :=
  v ← shl 1 ul_sources;
  v ← shl v (match type with PWM_CMP_MATCH => 8 | PWM_CMP_UPDATE => 16 end);
  wrr r v.
Definition pwm_cmp_enable_interrupt (ul_sources : Z) (type : pwm_cmp_interrupt_t) : M S unit := cmp_interrupt PWM_IER2 ul_sources type.
Definition pwm_cmp_disable_interrupt (ul_sources : Z) (type : pwm_cmp_interrupt_t) : M S unit := cmp_interrupt PWM_IDR2 ul_sources type.

(** ** Synchronous channels and protection *)

Definition pwm_pdc_set_request_mode (request_mode ul_cmp_unit : Z) : M S unit :=
  updr PWM_SCM (Z.lor PWM_SCM_PTRCS_Msk PWM_SCM_PTRM) (Z.lor (PWM_SCM_PTRCS ul_cmp_unit) request_mode).
Definition pwm_pdc_enable_interrupt (ul_sources : Z) : M S unit := wrr PWM_IER2 ul_sources.
Definition pwm_pdc_disable_interrupt (ul_sources : Z) : M S unit := wrr PWM_IDR2 ul_sources.
Definition pwm_sync_init (mode ul_update_period : Z) : M S Z :=
  updr PWM_SCM PWM_SCM_UPDM_Msk mode;; wrr PWM_SCUP (PWM_SCUP_UPR ul_update_period);; mret 0.
Definition pwm_sync_unlock_update : M S unit := wrr PWM_SCUC PWM_SCUC_UPDULOCK.
Definition pwm_sync_change_period (ul_update_period : Z) : M S unit := wrr PWM_SCUPUPD (PWM_SCUPUPD_UPRUPD ul_update_period).
Definition pwm_sync_get_period_counter : M S Z := x ← rdr PWM_SCUP; mret (PWM_SCUP_UPRCNT x).
Definition pwm_sync_enable_interrupt (ul_sources : Z) : M S unit := wrr PWM_IER2 ul_sources.
Definition pwm_sync_disable_interrupt (ul_sources : Z) : M S unit := wrr PWM_IDR2 ul_sources.
Definition pwm_enable_protect (ul_group : Z) (b_sw : bool) : M S unit :=
  wrr PWM_WPCR (Z.lor (Z.lor PWM_WPCR_WPKEY_PASSWD (u32 (Z.shiftl ul_group 2)))
                  (if b_sw then PWM_WPCR_WPCMD_ENABLE_SW_PROT else PWM_WPCR_WPCMD_ENABLE_HW_PROT)).
Definition pwm_disable_protect (ul_group : Z) : M S unit :=
  wrr PWM_WPCR (Z.lor (Z.lor PWM_WPCR_WPKEY_PASSWD (u32 (Z.shiftl ul_group 2))) PWM_WPCR_WPCMD_DISABLE_SW_PROT).
(** [ul_offset] is [None] when it is left as it was. *)
Definition pwm_get_protect_status : M S (bool * pwm_protect_t) :=
  wpsr ← rdr PWM_WPSR;
  let hw := Z.land (Z.shiftr wpsr 8) 0x3F in
  let sw := Z.land wpsr 0x3F in
  mret (if Z.land PWM_WPSR_WPVS wpsr =? PWM_WPSR_WPVS
        then (true, PwmProtect hw sw (Some (Z.shiftr (Z.land wpsr PWM_WPSR_WPVSRC_Msk) PWM_WPSR_WPVSRC_Pos)))
        else (false, PwmProtect hw sw None)).
Definition pwm_get_interrupt_status : M S Z := rdr PWM_ISR2.
Definition pwm_get_interrupt_mask : M S Z := rdr PWM_IMR2.
(** Two pairs of channels have a gray counter. *)
Definition pwm_stepper_motor_init (pair : Z) (b_enable_gray b_down : bool) : M S unit :=
  motor ← rdr PWM_SMMR;
  v ← shl (Z.lor (Z.b2z b_enable_gray) (Z.shiftl (Z.b2z b_down) 16)) pair;
  wrr PWM_SMMR (Z.lor (Z.ldiff motor (u32 (Z.shiftl (Z.lor PWM_SMMR_GCEN0 PWM_SMMR_DOWN0) pair))) v).
End Pwm.

(** ** What the clock dividers give *)

Section Clock.
Context (freq mck : Z) (Hf : 0 < freq) (Hm : 0 <= mck).

(** The first prescaler at which the divisor is at most 256. *)
Definition chosen (pre div : Z) : Prop :=
  0 <= pre <= 10 /\ 0 <= div <= 256 /\ freq * div * 2 ^ pre <= mck < freq * (div + 1) * 2 ^ pre /\
  (0 < pre -> 257 * freq * 2 ^ (pre - 1) <= mck).

Lemma div_bounds pre : 0 <= pre -> let d := mck / 2 ^ pre / freq in freq * d * 2 ^ pre <= mck < freq * (d + 1) * 2 ^ pre.
Proof.
  intros Hp d. unfold d. pose proof (Z.pow_pos_nonneg 2 pre ltac:(lia) Hp) as H2. rewrite Z.div_div by lia.
  pose proof (Z.div_mod mck (2 ^ pre * freq) ltac:(nia)) as Hd. pose proof (Z.mod_pos_bound mck (2 ^ pre * freq) ltac:(nia)) as Hb. nia.
Qed.

Lemma clock_loop_ok n pre :
  0 <= pre -> Z.of_nat n + pre = 11 -> (0 < pre -> 257 * freq * 2 ^ (pre - 1) <= mck) ->
  match clock_loop freq mck pre (map (fun k => 2 ^ (pre + Z.of_nat k)) (seq 0 n)) with
  | Some (p, d) => chosen p d
  | None => 257 * freq * 2 ^ 10 <= mck
  end.
Proof.
  revert pre. induction n as [|n IH]; intros pre Hp Hn Hprev; cbn [seq map clock_loop].
  { replace 10 with (pre - 1) by lia. apply Hprev. lia. }
  rewrite Z.add_0_r. pose proof (div_bounds pre Hp) as Hb. cbv zeta in Hb. set (d := mck / 2 ^ pre / freq) in *.
  unfold PWM_CLOCK_DIV_MAX. destruct (Z.leb_spec d 256) as [Hle|Hgt].
  - assert (0 <= d) by (unfold d; apply Z.div_pos; [apply Z.div_pos; lia|lia]). unfold chosen. repeat split; try lia; apply Hprev || apply Hb.
  - rewrite <- seq_shift, map_map.
    rewrite (map_ext _ (fun k => 2 ^ (pre + 1 + Z.of_nat k))) by (intros k; f_equal; lia).
    apply IH; [lia|lia|]. intros _. replace (pre + 1 - 1) with pre by lia. pose proof (Z.pow_pos_nonneg 2 pre ltac:(lia) Hp). nia.
Qed.
End Clock.

(** PWM clocks: the clock word holds the first prescaler for which the divisor is
    at most 256, and a divisor that gives at least the requested frequency and
    is the largest that does; a frequency too low for all prescalers is refused.
    A divisor of 256 does not fit its eight bits: the divisor field is then zero,
    which turns the clock off, and the prescaler field gets its bit 0 set. *)
Theorem pwm_clock_word freq mck :
  0 < freq -> 0 <= mck < 2 ^ 32 ->
  (pwm_clocks_generate freq mck = PWM_INVALID_ARGUMENT /\ 257 * freq * 2 ^ 10 <= mck) \/
  exists pre div, chosen freq mck pre div /\
    let w := pwm_clocks_generate freq mck in
    if div =? 256 then w mod 2 ^ 8 = 0 /\ w / 2 ^ 8 = Z.lor 1 pre
    else w mod 2 ^ 8 = div /\ w / 2 ^ 8 = pre.
Proof.
  intros Hf Hm. pose proof (clock_loop_ok freq mck Hf ltac:(lia) 11 0 ltac:(lia) ltac:(lia) ltac:(lia)) as H.
  unfold pwm_clocks_generate. change (map _ (seq 0 11)) with ul_divisors in H.
  destruct (clock_loop freq mck 0 ul_divisors) as [[pre div]|]; [|by left]. pose proof H as (Hp & Hd & _). apply or_intror.
  exists pre, div. split; [exact H|]. cbv zeta. rewrite Z.shiftl_mul_pow2 by lia. destruct (Z.eqb_spec div 256) as [->|].
  - assert (Z.lor 256 (pre * 2 ^ 8) = Z.lor 1 pre * 2 ^ 8) as ->.
    { rewrite <- !Z.shiftl_mul_pow2, Z.shiftl_lor by lia. done. }
    rewrite Z.mod_mul, Z.div_mul by done. done.
  - rewrite lor_low by lia. change (2 ^ 8) with 256. clear H. Z.to_euclidean_division_equations. lia.
Qed.

(** 64 MHz and 250 kHz: the divisor is 256 and the clock stays off. *)
Lemma pwm_clock_word_witness :
  pwm_clocks_generate 250000 64000000 = 256 /\
  ((pwm_clocks_generate 1000 64000000 = PWM_INVALID_ARGUMENT /\ 257 * 1000 * 2 ^ 10 <= 64000000) \/
   exists pre div, chosen 1000 64000000 pre div /\
     let w := pwm_clocks_generate 1000 64000000 in
     if div =? 256 then w mod 2 ^ 8 = 0 /\ w / 2 ^ 8 = Z.lor 1 pre
     else w mod 2 ^ 8 = div /\ w / 2 ^ 8 = pre).
Proof. split; [reflexivity|]. apply pwm_clock_word; lia. Defined.
