(* ===== verification/SamAdc.v ===== *)
(** * The analog to digital converter of the ATSAM4S (platforms/atsam4s/asf/src/adc.c)

    Clock, triggers, channel sequences, comparison, channel modes and the check
    of a configuration, in the configuration of the SAM4S. *)

From S2P Require Import Prelude Mmio SamDev.
From stdpp Require Import base list gmap sets.
From Stdlib Require Import ZArith Lia.
Local Open Scope Z_scope.

Inductive adc_reg :=
| ADC_CR | ADC_MR | ADC_SEQR1 | ADC_SEQR2 | ADC_CHER | ADC_CHDR | ADC_CHSR | ADC_LCDR | ADC_IER | ADC_IDR | ADC_IMR | ADC_ISR | ADC_OVER
| ADC_EMR | ADC_CWR | ADC_CGR | ADC_COR | ADC_CDR (n : Z) | ADC_ACR | ADC_WPMR | ADC_WPSR | ADC_PTCR | ADC_RCR | ADC_RNCR.
#[global] Instance adc_reg_eq_dec : EqDecision adc_reg.
Proof. solve_decision. Defined.
#[global] Instance adc_registers : Registers adc_reg := 32.

Definition ADC_FREQ_MAX : Z := 20000000.
Definition ADC_FREQ_MIN : Z := 1000000.
Definition ADC_STARTUP_NORM : Z := 40.
Definition ADC_STARTUP_FAST : Z := 12.
Definition ADC_ACR_IBCTL (value : Z) : Z := field (Z.shiftl 0x3 8) 8 value.
Definition ADC_ACR_TSON : Z := bit 4.
Definition ADC_CR_AUTOCAL : Z := bit 3.
Definition ADC_CR_START : Z := bit 1.
Definition ADC_CR_SWRST : Z := bit 0.
Definition ADC_CWR_HIGHTHRES (value : Z) : Z := field (Z.shiftl 0xfff 16) 16 value.
Definition ADC_CWR_LOWTHRES (value : Z) : Z := field (Z.shiftl 0xfff 0) 0 value.
Definition ADC_EMR_CMPALL : Z := bit 9.
Definition ADC_EMR_CMPMODE_Msk : Z := Z.shiftl 0x3 0.
Definition ADC_EMR_CMPSEL_Msk : Z := Z.shiftl 0xf 4.
Definition ADC_EMR_CMPSEL_Pos : Z := 4.
Definition ADC_EMR_TAG : Z := bit 24.
Definition ADC_LCDR_CHNB_Msk : Z := Z.shiftl 0xf 12.
Definition ADC_LCDR_CHNB_Pos : Z := 12.
Definition ADC_MR_ANACH : Z := bit 23.
Definition ADC_MR_FREERUN : Z := bit 7.
Definition ADC_MR_FREERUN_ON : Z := bit 7.
Definition ADC_MR_FWUP : Z := bit 6.
Definition ADC_MR_FWUP_ON : Z := bit 6.
Definition ADC_MR_LOWRES : Z := bit 4.
Definition ADC_MR_PRESCAL (value : Z) : Z := field (Z.shiftl 0xff 8) 8 value.
Definition ADC_MR_PRESCAL_Msk : Z := Z.shiftl 0xff 8.
Definition ADC_MR_PRESCAL_Pos : Z := 8.
Definition ADC_MR_SLEEP : Z := bit 5.
Definition ADC_MR_SLEEP_SLEEP : Z := bit 5.
Definition ADC_MR_STARTUP_Msk : Z := Z.shiftl 0xf 16.
Definition ADC_MR_STARTUP_Pos : Z := 16.
Definition ADC_MR_TRACKTIM (value : Z) : Z := field (Z.shiftl 0xf 24) 24 value.
Definition ADC_MR_TRANSFER (value : Z) : Z := field (Z.shiftl 0x3 28) 28 value.
Definition ADC_MR_USEQ : Z := bit 31.
Definition ADC_PTCR_RXTDIS : Z := bit 1.
Definition ADC_PTCR_TXTDIS : Z := bit 9.
Definition ADC_WPMR_WPEN : Z := bit 0.
Definition ADC_WPMR_WPKEY_PASSWD : Z := Z.shiftl 0x414443 8.
Definition ADC_WPSR_WPVS : Z := bit 0.
Definition ADC_WPSR_WPVSRC_Msk : Z := Z.shiftl 0xffff 8.
Definition ADC_WPSR_WPVSRC_Pos : Z := 8.

Definition calcul_startup (ul_startup : Z) : Z :=
  match ul_startup with
  | 0 => 0 | 1 => 8 | 2 => 16 | 3 => 24 | 4 => 64 | 5 => 80 | 6 => 96 | 7 => 112
  | 8 => 512 | 9 => 576 | 10 => 640 | 11 => 704 | 12 => 768 | 13 => 832 | 14 => 896 | 15 => 960 | _ => 0
  end.

(** What [adc_check] prints. *)
Inductive adc_message :=
| ClockFrequency (hz : Z) | TooLow (hz : Z) | TooHigh (hz : Z) | StartupTooSmall (needed programmed : Z) | FreeRunForbidden.

Section Adc.
Context {S : Type} `{!Hardware adc_reg, !HasLog adc_reg S}.

Definition shl (v n : Z) : M S Z := lift_opt (shl_int v n).

Definition adc_init (ul_mck ul_adc_clock startup : Z) : M S Z :=
  wrr ADC_CR ADC_CR_SWRST;;
  wrr ADC_MR 0;;
  wrr ADC_PTCR (Z.lor ADC_PTCR_RXTDIS ADC_PTCR_TXTDIS);;
  wrr ADC_RCR 0;;
  wrr ADC_RNCR 0;;
  if u32 (2 * ul_adc_clock) =? 0 then ub
  else
    let ul_prescal := u32 (ul_mck / u32 (2 * ul_adc_clock) - 1) in
    orr ADC_MR (Z.lor (ADC_MR_PRESCAL ul_prescal) startup);;
    mret 0.
Definition adc_set_resolution (resolution : Z) : M S unit := clrr ADC_MR ADC_MR_LOWRES;; orr ADC_MR resolution.
Definition adc_configure_trigger (trigger uc_freerun : Z) : M S unit := orr ADC_MR (Z.lor trigger (Z.land (Z.shiftl uc_freerun 7) ADC_MR_FREERUN)).
Definition adc_configure_power_save (uc_sleep uc_fwup : Z) : M S unit :=
  orr ADC_MR (Z.lor (Z.land (Z.shiftl uc_sleep 5) ADC_MR_SLEEP) (Z.land (Z.shiftl uc_fwup 6) ADC_MR_FWUP)).

(** [adc_seqr[k] |= ch_list[i] << (4 * i)] from [i] on; a shift by 32 has no meaning. *)
Fixpoint sequence_loop (r : adc_reg) (i : Z) (ch_list : list Z) : M S unit :=
  match ch_list with
  | [] => mret tt
  | c :: ch_list => if 4 * i <? 32 then orr r (u32 (Z.shiftl c (4 * i)));; sequence_loop r (i + 1) ch_list else ub
  end.
(** The list has [uc_num] entries. *)
Definition adc_configure_sequence (ch_list : list Z) : M S unit :=
  if (length ch_list <=? 8)%nat then sequence_loop ADC_SEQR1 0 ch_list
  else sequence_loop ADC_SEQR1 0 (take 8 ch_list);; sequence_loop ADC_SEQR2 0 (drop 8 ch_list).

Definition adc_configure_timing (uc_tracking settling uc_transfer : Z) : M S unit :=
  orr ADC_MR (Z.lor (Z.lor (ADC_MR_TRANSFER uc_transfer) settling) (ADC_MR_TRACKTIM uc_tracking)).
Definition adc_enable_anch : M S unit := orr ADC_MR ADC_MR_ANACH.
Definition adc_disable_anch : M S unit := clrr ADC_MR ADC_MR_ANACH.
Definition adc_start : M S unit := wrr ADC_CR ADC_CR_START.
Definition adc_reset : M S unit := wrr ADC_CR ADC_CR_SWRST.
Definition adc_enable_channel (adc_ch : Z) : M S unit := v ← shl 1 adc_ch; wrr ADC_CHER v.
Definition adc_enable_all_channel : M S unit := wrr ADC_CHER 0xFFFF.
Definition adc_disable_channel (adc_ch : Z) : M S unit := v ← shl 1 adc_ch; wrr ADC_CHDR v.
Definition adc_disable_all_channel : M S unit := wrr ADC_CHDR 0xFFFF.
Definition adc_get_channel_status (adc_ch : Z) : M S Z := v ← shl 1 adc_ch; x ← rdr ADC_CHSR; mret (Z.land x v).
Definition adc_get_channel_value (adc_ch : Z) : M S Z := if adc_ch <=? 15 then rdr (ADC_CDR adc_ch) else mret 0.
Definition adc_get_latest_value : M S Z := rdr ADC_LCDR.
Definition adc_enable_tag : M S unit := orr ADC_EMR ADC_EMR_TAG.
Definition adc_disable_tag : M S unit := clrr ADC_EMR ADC_EMR_TAG.
Definition adc_get_tag : M S Z := x ← rdr ADC_LCDR; mret (Z.shiftr (Z.land x ADC_LCDR_CHNB_Msk) ADC_LCDR_CHNB_Pos).
Definition adc_start_sequencer : M S unit := orr ADC_MR ADC_MR_USEQ.
Definition adc_stop_sequencer : M S unit := clrr ADC_MR ADC_MR_USEQ.
Definition adc_set_comparison_mode (uc_mode : Z) : M S unit := clrr ADC_EMR ADC_EMR_CMPMODE_Msk;; orr ADC_EMR (Z.land uc_mode ADC_EMR_CMPMODE_Msk).
Definition adc_get_comparison_mode : M S Z := x ← rdr ADC_EMR; mret (Z.land x ADC_EMR_CMPMODE_Msk).
Definition adc_set_comparison_window (us_low_threshold us_high_threshold : Z) : M S unit :=
  wrr ADC_CWR (Z.lor (ADC_CWR_LOWTHRES us_low_threshold) (ADC_CWR_HIGHTHRES us_high_threshold)).
Definition adc_set_comparison_channel (channel : Z) : M S unit :=
  if channel <? 16 then
    clrr ADC_EMR ADC_EMR_CMPALL;; clrr ADC_EMR ADC_EMR_CMPSEL_Msk;; orr ADC_EMR (Z.shiftl channel ADC_EMR_CMPSEL_Pos)
  else orr ADC_EMR ADC_EMR_CMPALL.

(** The channels are numbered up to 15. *)
Definition adc_enable_channel_differential_input (channel : Z) : M S unit := orr ADC_COR (Z.shiftl 0x01 (16 + channel)).
Definition adc_disable_channel_differential_input (channel : Z) : M S unit :=
  ul_temp ← rdr ADC_COR;
  (x ← rdr ADC_COR; wrr ADC_COR (Z.land x (u32 (Z.shiftl 0xfffeffff channel))));;
  orr ADC_COR ul_temp.
Definition adc_enable_channel_input_offset (channel : Z) : M S unit := orr ADC_COR (Z.shiftl 0x01 channel).
Definition adc_disable_channel_input_offset (channel : Z) : M S unit :=
  ul_temp ← rdr ADC_COR;
  (x ← rdr ADC_COR; wrr ADC_COR (Z.land x (u32 (Z.shiftl 0xfffffffe channel))));;
  orr ADC_COR ul_temp.
Definition adc_set_channel_input_gain (channel gain : Z) : M S unit :=
  orr ADC_CGR (Z.land (u32 (Z.shiftl 0x03 (2 * channel))) (u32 (Z.shiftl gain (2 * channel)))).
Definition adc_set_calibmode : M S unit := orr ADC_CR ADC_CR_AUTOCAL.

Definition prescal (x : Z) : Z := Z.shiftr (Z.land x ADC_MR_PRESCAL_Msk) ADC_MR_PRESCAL_Pos.
Definition adc_get_actual_adc_clock (ul_mck : Z) : M S Z := x ← rdr ADC_MR; mret (ul_mck / ((prescal x + 1) * 2)).
Definition adc_enable_interrupt (ul_source : Z) : M S unit := wrr ADC_IER ul_source.
Definition adc_disable_interrupt (ul_source : Z) : M S unit := wrr ADC_IDR ul_source.
Definition adc_get_status : M S Z := rdr ADC_ISR.
Definition adc_get_overrun_status : M S Z := rdr ADC_OVER.
Definition adc_get_interrupt_mask : M S Z := rdr ADC_IMR.
Definition adc_set_bias_current (uc_ibctl : Z) : M S unit := orr ADC_ACR (ADC_ACR_IBCTL uc_ibctl).
Definition adc_enable_ts : M S unit := orr ADC_ACR ADC_ACR_TSON.
Definition adc_disable_ts : M S unit := clrr ADC_ACR ADC_ACR_TSON.
Definition adc_set_writeprotect (ul_enable : Z) : M S unit := wrr ADC_WPMR (Z.lor ADC_WPMR_WPKEY_PASSWD (Z.land ul_enable ADC_WPMR_WPEN)).
Definition adc_get_writeprotect_status : M S Z :=
  reg_value ← rdr ADC_WPSR;
  mret (if ctrue (Z.land reg_value ADC_WPSR_WPVS) then Z.shiftr (Z.land reg_value ADC_WPSR_WPVSRC_Msk) ADC_WPSR_WPVSRC_Pos else 0).

(** The complaint about a startup time, with the time needed in normal mode. *)
Definition startup_check (time freq startup : Z) : list adc_message :=
  if calcul_startup startup <? u32 (time * freq) / 1000000
  then [StartupTooSmall (u32 (ADC_STARTUP_NORM * freq) / 1000000) (calcul_startup startup)] else [].
Definition adc_check (ul_mck : Z) : M S (list adc_message) :=
  x ← rdr ADC_MR;
  let freq := ul_mck / ((prescal x + 1) * 2) in
  let said := [ClockFrequency freq] ++ (if freq <? ADC_FREQ_MIN then [TooLow ADC_FREQ_MIN] else [])
                ++ (if ADC_FREQ_MAX <? freq then [TooHigh ADC_FREQ_MAX] else []) in
  x ← rdr ADC_MR;
  let startup := Z.shiftr (Z.land x ADC_MR_STARTUP_Msk) ADC_MR_STARTUP_Pos in
  x ← rdr ADC_MR;
  if negb (ctrue (Z.land x ADC_MR_SLEEP_SLEEP)) then mret (said ++ startup_check ADC_STARTUP_NORM freq startup)
  else
    x ← rdr ADC_MR;
    let said := said ++ (if ctrue (Z.land x ADC_MR_FREERUN_ON) then [FreeRunForbidden] else []) in
    x ← rdr ADC_MR;
    if negb (ctrue (Z.land x ADC_MR_FWUP_ON)) then mret (said ++ startup_check ADC_STARTUP_NORM freq startup)
    else
      x ← rdr ADC_MR;
      mret (if ctrue (Z.land x ADC_MR_FWUP_ON) then said ++ startup_check ADC_STARTUP_FAST freq startup else said).
End Adc.

(** ** Channel sequences *)

(** Channel numbers packed four bits each, the first lowest. *)
Fixpoint pack (l : list Z) : Z := match l with [] => 0 | c :: l => c + 16 * pack l end.

Section Sequence.
Context {S : Type} `{!Hardware adc_reg, !HasLog adc_reg S}.
Implicit Types s : S.

Lemma pack_range l : Forall (fun c => 0 <= c < 16) l -> 0 <= pack l < 16 ^ Z.of_nat (length l).
Proof.
  induction 1 as [|c l Hc Hl IH]; [done|]. cbn [pack length]. rewrite Nat2Z.inj_succ, Z.pow_succ_r by lia. lia.
Qed.

(** A register that reads what was written, updated by a disjunction. *)
Lemma orr_ok r init v s :
  holds_written r init -> 0 <= v < 2 ^ 32 ->
  exists s', orr r v s = Ok (tt, s') /\ seen s' r = Z.lor (seen s r) v /\
    last_write r (get_log s') = Some (Z.lor (seen s r) v) /\
    forall r', r' <> r -> last_write r' (get_log s') = last_write r' (get_log s).
Proof.
  intros Hr Hv. unfold orr. rewrite bind_rdr. eexists. split; [reflexivity|].
  assert (rval r (Z.lor (seen s r) v) = Z.lor (seen s r) v) as Hin.
  { apply (Z.mod_small _ (2 ^ 32)), (lor_range 32); [lia| |done]. apply (Z.mod_pos_bound _ (2 ^ 32)). lia. }
  split; [|split].
  - erewrite seen_written; [|exact Hr|last_write; reflexivity]. by rewrite rval_rval.
  - last_write. by rewrite Hin.
  - intros r' Hne. rewrite get_log_event, last_write_wr_ne by congruence. last_write. done.
Qed.

Lemma sequence_loop_ok r init l i s :
  holds_written r init -> Forall (fun c => 0 <= c < 16) l -> 0 <= i -> i + Z.of_nat (length l) <= 8 -> 0 <= seen s r < 2 ^ (4 * i) ->
  exists s', sequence_loop r i l s = Ok (tt, s') /\ seen s' r = seen s r + pack l * 2 ^ (4 * i) /\
    (l <> [] -> last_write r (get_log s') = Some (seen s' r)) /\
    forall r', r' <> r -> last_write r' (get_log s') = last_write r' (get_log s).
Proof.
  intros Hr Hl. revert i s. induction Hl as [|c l Hc Hl IH]; intros i s Hi Hle Hs; cbn [sequence_loop pack length] in *.
  { exists s. split; [done|]. split; [lia|]. done. }
  assert (2 ^ (4 * (i + 1)) = 16 * 2 ^ (4 * i)) as H16 by (rewrite Z.mul_add_distr_l, Z.pow_add_r by lia; lia).
  assert (2 ^ (4 * i) <= 2 ^ 28) as Hpow by (apply Z.pow_le_mono_r; lia).
  destruct (Z.ltb_spec (4 * i) 32); [|lia]. rewrite Z.shiftl_mul_pow2 by lia.
  assert (u32 (c * 2 ^ (4 * i)) = c * 2 ^ (4 * i)) as -> by (unfold u32; apply Z.mod_small; nia).
  destruct (orr_ok r init (c * 2 ^ (4 * i)) s Hr ltac:(nia)) as (s1 & H1 & Hs1 & Hw1 & Hk1). mstep H1.
  rewrite lor_low in Hs1, Hw1 by lia.
  destruct (IH (i + 1) s1) as (s2 & H2 & Hs2 & Hw2 & Hk2); [lia|lia|nia|].
  exists s2. split; [done|]. split; [nia|]. split.
  - intros _. destruct l as [|c' l]; [|by apply Hw2]. cbn [sequence_loop] in H2. injection H2 as <-. by rewrite Hs1, Hw1.
  - intros r' Hne. by rewrite Hk2, Hk1.
Qed.
End Sequence.

(** The channel sequence: with both sequence registers clear, a list of up to
    sixteen channels is laid out four bits each, eight channels to a register, in
    the order of the list. *)
Theorem adc_sequence_packed {S} `{!Hardware adc_reg, !HasLog adc_reg S} l (s : S) :
  holds_written ADC_SEQR1 0 -> holds_written ADC_SEQR2 0 ->
  last_write ADC_SEQR1 (get_log s) = None -> last_write ADC_SEQR2 (get_log s) = None ->
  Forall (fun c => 0 <= c < 16) l -> (0 < length l <= 16)%nat ->
  exists s', adc_configure_sequence l s = Ok (tt, s') /\
    last_write ADC_SEQR1 (get_log s') = Some (pack (take 8 l)) /\
    last_write ADC_SEQR2 (get_log s') = if (length l <=? 8)%nat then None else Some (pack (drop 8 l)).
Proof.
  intros H1 H2 Hn1 Hn2 Hl Hlen. assert (forall r s', holds_written r 0 -> last_write r (get_log s') = None -> seen s' r = 0) as Hzero.
  { intros r s' Hr Hn. unfold seen. by rewrite Hr, Hn. }
  unfold adc_configure_sequence. destruct (Nat.leb_spec (length l) 8).
  - destruct (sequence_loop_ok ADC_SEQR1 0 l 0 s) as (s1 & Hr & Hs & Hw & Hk); [done|done|lia|lia|by rewrite Hzero|].
    exists s1. split; [done|]. rewrite take_ge by done. rewrite (Hk ADC_SEQR2), Hw, Hs, Hzero, Z.mul_1_r by (done || by destruct l; cbn in Hlen; [lia|]).
    done.
  - destruct (sequence_loop_ok ADC_SEQR1 0 (take 8 l) 0 s) as (s1 & Hr & Hs & Hw & Hk); [done|by apply Forall_take|lia|rewrite length_take; lia|by rewrite Hzero|].
    mstep Hr. destruct (sequence_loop_ok ADC_SEQR2 0 (drop 8 l) 0 s1) as (s2 & Hr2 & Hs2 & Hw2 & Hk2);
      [done|by apply Forall_drop|lia|rewrite length_drop; lia|rewrite Hzero; [done|done|by rewrite Hk]|].
    exists s2. split; [done|]. assert (forall (k : list Z), (0 < length k)%nat -> k <> []) as Hne by (by intros [|]; [cbn; lia|]).
    rewrite Hk2, Hw, Hs, (Hzero _ s) by (done || apply Hne; rewrite length_take; lia).
    rewrite Hw2, Hs2, (Hzero _ s1) by (done || (by rewrite Hk) || apply Hne; rewrite length_drop; lia). rewrite !Z.mul_1_r. done.
Qed.

(** A converter that holds its registers. *)
Lemma adc_sequence_packed_witness :
  let hw : Hardware adc_reg := fun l r => default 0 (last_write r l) in
  exists s', @adc_configure_sequence _ hw (plain_log adc_reg) [3; 1; 4; 1; 5; 9; 2; 6; 5; 3] [] = Ok (tt, s') /\
    last_write ADC_SEQR1 s' = Some 0x62951413 /\ last_write ADC_SEQR2 s' = Some 0x35.
Proof.
  intros hw. apply (@adc_sequence_packed _ hw (plain_log adc_reg) [3; 1; 4; 1; 5; 9; 2; 6; 5; 3] []).
  - intros l. reflexivity.
  - intros l. reflexivity.
  - reflexivity.
  - reflexivity.
  - repeat (apply Forall_cons; split; [lia|]). apply Forall_nil. exact I.
  - cbn. lia.
Defined.

(** ** Channel modes and the clock *)

Lemma lor_land_absorb a b : Z.lor (Z.land a b) a = a.
Proof. apply Z.bits_inj'. intros i Hi. rewrite Z.lor_spec, Z.land_spec. by destruct (Z.testbit a i), (Z.testbit b i). Qed.

Section Modes.
Context {S : Type} `{!Hardware adc_reg, !HasLog adc_reg S}.
Implicit Types s : S.

(** The mode is saved before it is cleared and put back after, so disabling
    differential input or offset leaves the register as it was. *)
Lemma adc_disable_does_nothing init c s (m : M S unit) :
  holds_written ADC_COR init -> m = adc_disable_channel_differential_input c \/ m = adc_disable_channel_input_offset c ->
  exists s', m s = Ok (tt, s') /\ last_write ADC_COR (get_log s') = Some (seen s ADC_COR).
Proof.
  intros Hr Hm. assert (forall k, exists s', (ul_temp ← rdr ADC_COR; (x ← rdr ADC_COR; wrr ADC_COR (Z.land x k));; orr ADC_COR ul_temp) s = Ok (tt, s') /\
    last_write ADC_COR (get_log s') = Some (seen s ADC_COR)) as H.
  { intros k. rewrite bind_rdr, bind_assoc, bind_rdr, bind_wrr. set (v := seen s ADC_COR). set (s1 := log_event _ s).
    assert (seen s1 ADC_COR = v) as -> by (unfold seen, s1; rewrite get_log_event, Hr, last_write_rd, <- Hr; done).
    set (s2 := log_event _ _). unfold orr. rewrite bind_rdr. eexists. split; [reflexivity|]. last_write. f_equal.
    assert (0 <= v < 2 ^ 32) as Hv by (apply (Z.mod_pos_bound _ (2 ^ 32)); lia).
    assert (seen s2 ADC_COR = Z.land v k mod 2 ^ 32) as ->.
    { erewrite seen_written; [|exact Hr|unfold s2; last_write; reflexivity]. by rewrite rval_rval. }
    rewrite <- Z.land_ones, <- Z.land_assoc, lor_land_absorb by lia. by apply (Z.mod_small v (2 ^ 32)). }
  destruct Hm as [-> | ->]; apply H.
Qed.

(** The clock after initialisation is at least the one asked for. *)
Lemma adc_clock_ok mr mck clk k s :
  holds_written ADC_MR mr -> 0 < clk -> 2 * clk <= mck < 2 ^ 32 -> mck / (2 * clk) <= 256 -> 0 <= k < 16 ->
  exists s' f s'', adc_init mck clk (k * 2 ^ 16) s = Ok (0, s') /\ adc_get_actual_adc_clock mck s' = Ok (f, s'') /\
    f = mck / (2 * (mck / (2 * clk))) /\ clk <= f.
Proof.
  intros Hmr Hclk Hmck Hq Hk. unfold adc_init. rewrite !bind_wrr. unfold u32. rewrite (Z.mod_small (2 * clk)) by lia.
  destruct (Z.eqb_spec (2 * clk) 0); [lia|]. set (q := mck / (2 * clk)) in *.
  assert (1 <= q) as Hq1 by (unfold q; apply Z.div_le_lower_bound; lia). rewrite (Z.mod_small (q - 1)) by lia.
  set (s1 := log_event _ _). unfold orr. rewrite bind_assoc, bind_rdr, bind_wrr.
  assert (seen s1 ADC_MR = 0) as -> by (erewrite seen_written; [|exact Hmr|unfold s1; last_write; reflexivity]; done).
  set (v := Z.lor 0 _). assert (v = (q - 1) * 2 ^ 8 + k * 2 ^ 16) as Hv.
  { unfold v, ADC_MR_PRESCAL. rewrite Z.lor_0_l. change (Z.shiftl 0xff 8) with (Z.shiftl (Z.ones 8) 8). rewrite field_ok by lia.
    rewrite lor_low by lia. lia. }
  eexists _, _, _. split; [reflexivity|]. unfold adc_get_actual_adc_clock. rewrite bind_rdr. split; [reflexivity|].
  set (s2 := log_event _ (log_event _ s1)). assert (seen s2 ADC_MR = v) as ->.
  { erewrite seen_written; [|exact Hmr|unfold s2; last_write; reflexivity]. rewrite rval_rval. apply (Z.mod_small v (2 ^ 32)). lia. }
  assert (prescal v = q - 1) as ->.
  { unfold prescal, ADC_MR_PRESCAL_Msk, ADC_MR_PRESCAL_Pos. change (Z.shiftl 0xff 8) with (Z.shiftl (Z.ones 8) 8). rewrite field_get by lia.
    rewrite Hv. change (2 ^ 8) with 256. change (2 ^ 16) with 65536. clear - Hq1 Hq Hk. Z.to_euclidean_division_equations. lia. }
  replace ((q - 1 + 1) * 2) with (2 * q) by lia. split; [done|]. apply Z.div_le_lower_bound; [lia|].
  pose proof (Z.mul_div_le mck (2 * clk) ltac:(lia)) as Hle. fold q in Hle. lia.
Qed.
End Modes.
