(* ===== verification/SamPmc.v ===== *)
(** * Power management of the ATSAM4S (platforms/atsam4s/asf/src/pmc.c)

    The functions of pmc.c beyond those the firmware calls (SamAsf): slow clock,
    oscillators, peripheral and programmable clocks, low-power modes and write
    protection. Barriers, no-operations and the wait for an interrupt have no
    effect on registers. *)

From S2P Require Import Prelude Mmio SamDev SamAsf.
From stdpp Require Import base list gmap sets.
From Stdlib Require Import ZArith Lia.
Local Open Scope Z_scope.

Definition PMC_MASK_STATUS0 : Z := 0xFFFFFFFC.
Definition PMC_MASK_STATUS1 : Z := 0xFFFFFFFF.
Definition PMC_FAST_STARTUP_Msk : Z := 0x7FFFF.
Definition PMC_FSMR_FLPM_Msk : Z := Z.shiftl 0x3 21.
Definition PMC_WAIT_MODE_FLASH_IDLE : Z := Z.shiftl 0x2 21.
Definition PMC_MCKR_CSS_SLOW_CLK : Z := Z.shiftl 0x0 0.
Definition PMC_PCK_CSS_MAIN_CLK : Z := bit 0.
Definition PMC_PCK_CSS_MCK : Z := Z.shiftl 0x4 0.
Definition PMC_PCK_CSS_Msk : Z := Z.shiftl 0x7 0.
Definition PMC_PCK_CSS_PLLA_CLK : Z := Z.shiftl 0x2 0.
Definition PMC_PCK_CSS_PLLB_CLK : Z := Z.shiftl 0x3 0.
Definition PMC_PCK_CSS_SLOW_CLK : Z := Z.shiftl 0x0 0.
Definition PMC_PCK_PRES_Msk : Z := Z.shiftl 0x7 4.
Definition PMC_SCDR_PCK0 : Z := bit 8.
Definition PMC_SCDR_PCK1 : Z := bit 9.
Definition PMC_SCDR_PCK2 : Z := bit 10.
Definition PMC_SCDR_UDP : Z := bit 7.
Definition PMC_SCER_PCK0 : Z := bit 8.
Definition PMC_SCER_PCK1 : Z := bit 9.
Definition PMC_SCER_PCK2 : Z := bit 10.
Definition PMC_SCER_UDP : Z := bit 7.
Definition PMC_SCSR_PCK0 : Z := bit 8.
Definition PMC_SR_MOSCRCS : Z := bit 17.
Definition PMC_SR_OSCSELS : Z := bit 7.
Definition PMC_SR_PCKRDY0 : Z := bit 8.
Definition PMC_USB_USBDIV (value : Z) : Z := field (Z.shiftl 0xf 8) 8 value.
Definition PMC_USB_USBS : Z := bit 0.
Definition PMC_WPMR_WPEN : Z := bit 0.
Definition PMC_WPMR_WPKEY_PASSWD : Z := Z.shiftl 0x504D43 8.
Definition CKGR_MOR_CFDEN : Z := bit 25.
Definition CKGR_MOR_MOSCRCF_Msk : Z := Z.shiftl 0x7 4.
Definition CKGR_MOR_MOSCXTBY : Z := bit 1.
Definition CKGR_MOR_WAITMODE : Z := bit 2.
Definition SUPC_CR_KEY_PASSWD : Z := Z.shiftl 0xA5 24.
Definition SUPC_CR_VROFF_STOP_VREG : Z := bit 2.
Definition SUPC_CR_XTALSEL : Z := bit 3.
Definition SUPC_MR_KEY_PASSWD : Z := Z.shiftl 0xA5 24.
Definition SUPC_MR_OSCBYPASS : Z := bit 20.
Definition SUPC_SR_OSCSEL : Z := bit 7.
Definition SCB_SCR_SLEEPDEEP_Msk : Z := bit 2.

Section Pmc.
Context `{!Hardware sam_reg}.
Context (fuel : nat).

(** ** Master and slow clock *)

Definition pmc_mck_set_source (ul_source : Z) : S_ unit := set_mckr PMC_MCKR_CSS_Msk ul_source;; wait_set fuel PMC_SR PMC_SR_MCKRDY.
Definition pmc_switch_mck_to_sclk (ul_pres : Z) : S_ Z := switch_mck PMC_MCKR_CSS_Msk PMC_MCKR_CSS_SLOW_CLK PMC_MCKR_PRES_Msk ul_pres.
Definition pmc_switch_sclk_to_32kxtal (ul_bypass : Z) : S_ unit :=
  (if ul_bypass =? 1 then orr SUPC_MR (Z.lor SUPC_MR_KEY_PASSWD SUPC_MR_OSCBYPASS) else mret tt);;
  wrr SUPC_CR (Z.lor SUPC_CR_KEY_PASSWD SUPC_CR_XTALSEL).
Definition pmc_osc_is_ready_32kxtal : S_ Z :=
  x ← rdr SUPC_SR;
  if ctrue (Z.land x SUPC_SR_OSCSEL) then y ← rdr PMC_SR; mret (if ctrue (Z.land y PMC_SR_OSCSELS) then 1 else 0) else mret 0.

(** ** Oscillators *)

Definition sr_bits (mask : Z) : S_ Z := x ← rdr PMC_SR; mret (Z.land x mask).
Definition pmc_osc_enable_fastrc (ul_rc : Z) : S_ unit :=
  orr CKGR_MOR (Z.lor CKGR_MOR_KEY_PASSWD CKGR_MOR_MOSCRCEN);;
  wait_set fuel PMC_SR PMC_SR_MOSCRCS;;
  updr CKGR_MOR CKGR_MOR_MOSCRCF_Msk (Z.lor CKGR_MOR_KEY_PASSWD ul_rc);;
  wait_set fuel PMC_SR PMC_SR_MOSCRCS.
Definition pmc_switch_mainck_to_fastrc (ul_moscrcf : Z) : S_ unit :=
  orr CKGR_MOR (Z.lor CKGR_MOR_KEY_PASSWD CKGR_MOR_MOSCRCEN);;
  wait_set fuel PMC_SR PMC_SR_MOSCRCS;;
  updr CKGR_MOR CKGR_MOR_MOSCRCF_Msk (Z.lor CKGR_MOR_KEY_PASSWD ul_moscrcf);;
  wait_set fuel PMC_SR PMC_SR_MOSCRCS;;
  updr CKGR_MOR CKGR_MOR_MOSCSEL CKGR_MOR_KEY_PASSWD.
Definition pmc_osc_disable_fastrc : S_ unit := updr CKGR_MOR (Z.lor CKGR_MOR_MOSCRCEN CKGR_MOR_MOSCRCF_Msk) CKGR_MOR_KEY_PASSWD.
Definition pmc_osc_is_ready_fastrc : S_ Z := sr_bits PMC_SR_MOSCRCS.
Definition pmc_osc_enable_main_xtal (ul_xtal_startup_time : Z) : S_ unit :=
  updr CKGR_MOR (Z.lor CKGR_MOR_MOSCXTBY CKGR_MOR_MOSCXTEN)
    (Z.lor (Z.lor CKGR_MOR_KEY_PASSWD CKGR_MOR_MOSCXTEN) (CKGR_MOR_MOSCXTST ul_xtal_startup_time));;
  wait_set fuel PMC_SR PMC_SR_MOSCXTS.
Definition pmc_osc_bypass_main_xtal : S_ unit :=
  updr CKGR_MOR (Z.lor CKGR_MOR_MOSCXTBY CKGR_MOR_MOSCXTEN) (Z.lor CKGR_MOR_KEY_PASSWD CKGR_MOR_MOSCXTBY).
Definition pmc_osc_disable_main_xtal : S_ unit := updr CKGR_MOR (Z.lor CKGR_MOR_MOSCXTBY CKGR_MOR_MOSCXTEN) CKGR_MOR_KEY_PASSWD.
Definition pmc_osc_is_bypassed_main_xtal : S_ Z := x ← rdr CKGR_MOR; mret (Z.land x CKGR_MOR_MOSCXTBY).
Definition pmc_osc_is_ready_main_xtal : S_ Z := sr_bits PMC_SR_MOSCXTS.
Definition pmc_switch_mainck_to_xtal (ul_bypass ul_xtal_startup_time : Z) : S_ unit :=
  if ctrue ul_bypass then
    updr CKGR_MOR CKGR_MOR_MOSCXTEN (Z.lor (Z.lor CKGR_MOR_KEY_PASSWD CKGR_MOR_MOSCXTBY) CKGR_MOR_MOSCSEL)
  else
    updr CKGR_MOR CKGR_MOR_MOSCXTBY (Z.lor (Z.lor CKGR_MOR_KEY_PASSWD CKGR_MOR_MOSCXTEN) (CKGR_MOR_MOSCXTST ul_xtal_startup_time));;
    wait_set fuel PMC_SR PMC_SR_MOSCXTS;;
    orr CKGR_MOR (Z.lor CKGR_MOR_KEY_PASSWD CKGR_MOR_MOSCSEL).
Definition pmc_osc_disable_xtal (ul_bypass : Z) : S_ unit :=
  if ctrue ul_bypass then updr CKGR_MOR CKGR_MOR_MOSCXTBY CKGR_MOR_KEY_PASSWD else updr CKGR_MOR CKGR_MOR_MOSCXTEN CKGR_MOR_KEY_PASSWD.
Definition pmc_osc_is_ready_mainck : S_ Z := sr_bits PMC_SR_MOSCSELS.
Definition pmc_mainck_osc_select (ul_xtal_rc : Z) : S_ unit :=
  mor ← rdr CKGR_MOR;
  wrr CKGR_MOR (Z.lor CKGR_MOR_KEY_PASSWD (if ctrue ul_xtal_rc then Z.lor mor CKGR_MOR_MOSCSEL else Z.ldiff mor CKGR_MOR_MOSCSEL)).
Definition pmc_disable_pllbck : S_ unit := wrr CKGR_PLLBR (CKGR_PLLBR_MULB 0).
Definition pmc_enable_pllbck (mulb pllbcount divb : Z) : S_ unit :=
  pmc_disable_pllbck;;
  wrr CKGR_PLLBR (Z.lor (Z.lor (CKGR_PLLBR_DIVB divb) (CKGR_PLLBR_PLLBCOUNT pllbcount)) (CKGR_PLLBR_MULB mulb));;
  wait_set fuel PMC_SR PMC_SR_LOCKB.
Definition pmc_is_locked_pllbck : S_ Z := sr_bits PMC_SR_LOCKB.
Definition pmc_enable_clock_failure_detector : S_ unit :=
  ul_reg ← rdr CKGR_MOR; wrr CKGR_MOR (Z.lor (Z.lor CKGR_MOR_KEY_PASSWD CKGR_MOR_CFDEN) ul_reg).
Definition pmc_disable_clock_failure_detector : S_ unit :=
  x ← rdr CKGR_MOR; wrr CKGR_MOR (Z.lor CKGR_MOR_KEY_PASSWD (Z.ldiff x CKGR_MOR_CFDEN)).

(** ** Peripheral clocks *)

(** [while ((r & mask) != 0);] *)
Fixpoint wait_clear (fuel : nat) (r : sam_reg) (mask : Z) : S_ unit :=
  x ← rdr r;
  if Z.land x mask =? 0 then mret tt else match fuel with O => spin | Datatypes.S fuel => wait_clear fuel r mask end.
Definition pmc_enable_all_periph_clk : S_ unit :=
  wrr PMC_PCER0 PMC_MASK_STATUS0;;
  wait_all fuel PMC_PCSR0 PMC_MASK_STATUS0;;
  wrr PMC_PCER1 PMC_MASK_STATUS1;;
  wait_all fuel PMC_PCSR1 PMC_MASK_STATUS1.
Definition pmc_disable_all_periph_clk : S_ unit :=
  wrr PMC_PCDR0 PMC_MASK_STATUS0;;
  wait_clear fuel PMC_PCSR0 PMC_MASK_STATUS0;;
  wrr PMC_PCDR1 PMC_MASK_STATUS1;;
  wait_clear fuel PMC_PCSR1 PMC_MASK_STATUS1.
Definition pmc_is_periph_clk_enabled (ul_id : Z) : S_ Z :=
  if MAX_PERIPH_ID <? ul_id then mret 0
  else if ul_id <? 32 then x ← rdr PMC_PCSR0; mret (if ctrue (Z.land x (bit ul_id)) then 1 else 0)
  else x ← rdr PMC_PCSR1; mret (if ctrue (Z.land x (bit (ul_id - 32))) then 1 else 0).

(** ** Programmable clocks *)

(** There are three. *)
Definition pck (ul_id : Z) : S_ sam_reg := if (0 <=? ul_id) && (ul_id <? 3) then mret (PMC_PCK ul_id) else ub.
(** [while ((SCER & (SCER_PCK0 << id)) && !(SR & (SR_PCKRDY0 << id)));] *)
Fixpoint wait_pck (fuel : nat) (ul_id : Z) : S_ unit :=
  x ← rdr PMC_SCER;
  if ctrue (Z.land x (Z.shiftl PMC_SCER_PCK0 ul_id)) then
    y ← rdr PMC_SR;
    if ctrue (Z.land y (Z.shiftl PMC_SR_PCKRDY0 ul_id)) then mret tt
    else match fuel with O => spin | Datatypes.S fuel => wait_pck fuel ul_id end
  else mret tt.
Definition pmc_pck_set_prescaler (ul_id ul_pres : Z) : S_ unit := r ← pck ul_id; updr r PMC_PCK_PRES_Msk ul_pres;; wait_pck fuel ul_id.
Definition pmc_pck_set_source (ul_id ul_source : Z) : S_ unit := r ← pck ul_id; updr r PMC_PCK_CSS_Msk ul_source;; wait_pck fuel ul_id.
(** The source and prescaler of a programmable clock, then the wait of up to
    [PMC_TIMEOUT] further reads for it: 1 when it does not become ready. *)
Definition switch_pck (css ul_id ul_pres : Z) : S_ Z :=
  r ← pck ul_id;
  wrr r (Z.lor css ul_pres);;
  ok ← timed_wait (Z.to_nat PMC_TIMEOUT) PMC_SR (Z.shiftl PMC_SR_PCKRDY0 ul_id);
  mret (if ok : bool then 0 else 1).
Definition pmc_switch_pck_to_sclk (ul_id ul_pres : Z) : S_ Z := switch_pck PMC_PCK_CSS_SLOW_CLK ul_id ul_pres.
Definition pmc_switch_pck_to_mainck (ul_id ul_pres : Z) : S_ Z := switch_pck PMC_PCK_CSS_MAIN_CLK ul_id ul_pres.
Definition pmc_switch_pck_to_pllack (ul_id ul_pres : Z) : S_ Z := switch_pck PMC_PCK_CSS_PLLA_CLK ul_id ul_pres.
Definition pmc_switch_pck_to_pllbck (ul_id ul_pres : Z) : S_ Z := switch_pck PMC_PCK_CSS_PLLB_CLK ul_id ul_pres.
Definition pmc_switch_pck_to_mck (ul_id ul_pres : Z) : S_ Z := switch_pck PMC_PCK_CSS_MCK ul_id ul_pres.
Definition pmc_enable_pck (ul_id : Z) : S_ unit := wrr PMC_SCER (u32 (Z.shiftl PMC_SCER_PCK0 ul_id)).
Definition pmc_disable_pck (ul_id : Z) : S_ unit := wrr PMC_SCDR (u32 (Z.shiftl PMC_SCER_PCK0 ul_id)).
Definition pmc_enable_all_pck : S_ unit := wrr PMC_SCER (Z.lor (Z.lor PMC_SCER_PCK0 PMC_SCER_PCK1) PMC_SCER_PCK2).
Definition pmc_disable_all_pck : S_ unit := wrr PMC_SCDR (Z.lor (Z.lor PMC_SCDR_PCK0 PMC_SCDR_PCK1) PMC_SCDR_PCK2).
Definition pmc_is_pck_enabled (ul_id : Z) : S_ Z :=
  if 2 <? ul_id then mret 0 else x ← rdr PMC_SCSR; mret (Z.land x (Z.shiftl PMC_SCSR_PCK0 ul_id)).

(** ** USB clock, interrupts, low-power modes, protection *)

Definition pmc_switch_udpck_to_pllack (ul_usbdiv : Z) : S_ unit := wrr PMC_USB (PMC_USB_USBDIV ul_usbdiv).
Definition pmc_switch_udpck_to_pllbck (ul_usbdiv : Z) : S_ unit := wrr PMC_USB (Z.lor (PMC_USB_USBDIV ul_usbdiv) PMC_USB_USBS).
Definition pmc_enable_udpck : S_ unit := wrr PMC_SCER PMC_SCER_UDP.
Definition pmc_disable_udpck : S_ unit := wrr PMC_SCDR PMC_SCDR_UDP.
Definition pmc_enable_interrupt (ul_sources : Z) : S_ unit := wrr PMC_IER ul_sources.
Definition pmc_disable_interrupt (ul_sources : Z) : S_ unit := wrr PMC_IDR ul_sources.
Definition pmc_get_interrupt_mask : S_ Z := rdr PMC_IMR.
Definition pmc_get_status : S_ Z := rdr PMC_SR.
Definition pmc_set_fast_startup_input (ul_inputs : Z) : S_ unit := orr PMC_FSMR (Z.land ul_inputs PMC_FAST_STARTUP_Msk).
Definition pmc_clr_fast_startup_input (ul_inputs : Z) : S_ unit := clrr PMC_FSMR (Z.land ul_inputs PMC_FAST_STARTUP_Msk).
Definition pmc_enable_sleepmode (uc_type : Z) : S_ unit := clrr SCB_SCR SCB_SCR_SLEEPDEEP_Msk.
(** With the value of the static variable [ul_flash_in_wait_mode]. *)
Definition pmc_enable_waitmode (ul_flash_in_wait_mode : Z) : S_ unit :=
  updr PMC_FSMR PMC_FSMR_FLPM_Msk ul_flash_in_wait_mode;;
  orr CKGR_MOR (Z.lor CKGR_MOR_KEY_PASSWD CKGR_MOR_WAITMODE);;
  wait_set fuel PMC_SR PMC_SR_MCKRDY;;
  wait_set fuel CKGR_MOR CKGR_MOR_MOSCRCEN;;
  updr PMC_FSMR PMC_FSMR_FLPM_Msk PMC_WAIT_MODE_FLASH_IDLE.
Definition pmc_enable_backupmode : S_ unit :=
  orr SCB_SCR SCB_SCR_SLEEPDEEP_Msk;;
  wrr SUPC_CR (Z.lor SUPC_CR_KEY_PASSWD SUPC_CR_VROFF_STOP_VREG);;
  rdr SUPC_MR;;
  mret tt.
Definition pmc_set_writeprotect (ul_enable : Z) : S_ unit :=
  if ctrue ul_enable then wrr PMC_WPMR (Z.lor PMC_WPMR_WPKEY_PASSWD PMC_WPMR_WPEN) else wrr PMC_WPMR PMC_WPMR_WPKEY_PASSWD.
Definition pmc_get_writeprotect_status : S_ Z := rdr PMC_WPSR.
End Pmc.

(** ** The set of clocked peripherals *)

(** The status register of a pair of enable and disable registers. *)
Fixpoint clock_status (en dis : sam_reg) (l : list (access sam_reg)) : Z :=
  match l with
  | [] => 0
  | Wr r v :: l =>
    if decide (r = en) then Z.lor (clock_status en dis l) v
    else if decide (r = dis) then Z.ldiff (clock_status en dis l) v
    else clock_status en dis l
  | Rd _ _ :: l => clock_status en dis l
  end.

Inductive clk_op := EnableClk (id : Z) | DisableClk (id : Z).
Definition op_id (o : clk_op) : Z := match o with EnableClk id | DisableClk id => id end.
(** The specification: a set of identifiers up to [MAX_PERIPH_ID]. *)
Definition spec_op (o : clk_op) (G : gset Z) : gset Z :=
  if MAX_PERIPH_ID <? op_id o then G else match o with EnableClk id => {[id]} ∪ G | DisableClk id => G ∖ {[id]} end.
Definition spec_result (o : clk_op) : Z := if MAX_PERIPH_ID <? op_id o then 1 else 0.

Section Clocks.
Context `{!Hardware sam_reg}.

Definition run_clk (o : clk_op) : S_ Z := match o with EnableClk id => pmc_enable_periph_clk id | DisableClk id => pmc_disable_periph_clk id end.
Fixpoint run_clks (ops : list clk_op) : S_ (list Z) :=
  match ops with [] => mret [] | o :: ops => r ← run_clk o; rs ← run_clks ops; mret (r :: rs) end.

(** The status registers follow what was enabled and disabled. *)
Definition status_follows : Prop :=
  forall l, hw_read l PMC_PCSR0 = clock_status PMC_PCER0 PMC_PCDR0 l /\ hw_read l PMC_PCSR1 = clock_status PMC_PCER1 PMC_PCDR1 l.

(** Bit [id] of the two status words. *)
Definition clocked (s : sam) (id : Z) : bool :=
  if id <? 32 then Z.testbit (clock_status PMC_PCER0 PMC_PCDR0 (s_log s)) id
  else Z.testbit (clock_status PMC_PCER1 PMC_PCDR1 (s_log s)) (id - 32).
Definition implements (s : sam) (G : gset Z) : Prop :=
  forall id, 0 <= id <= MAX_PERIPH_ID -> clocked s id = bool_decide (id ∈ G).

Context (Hst : status_follows).

Lemma seen_status0 s i : 0 <= i < 32 -> Z.testbit (seen s PMC_PCSR0) i = Z.testbit (clock_status PMC_PCER0 PMC_PCDR0 (s_log s)) i.
Proof.
  intros Hi. unfold seen, rval. change (get_log s) with (s_log s). rewrite (proj1 (Hst _)). change reg_bits with 32.
  rewrite testbit_mod_pow2 by lia. by destruct (Z.ltb_spec i 32); [|lia].
Qed.
Lemma seen_status1 s i : 0 <= i < 32 -> Z.testbit (seen s PMC_PCSR1) i = Z.testbit (clock_status PMC_PCER1 PMC_PCDR1 (s_log s)) i.
Proof.
  intros Hi. unfold seen, rval. change (get_log s) with (s_log s). rewrite (proj2 (Hst _)). change reg_bits with 32.
  rewrite testbit_mod_pow2 by lia. by destruct (Z.ltb_spec i 32); [|lia].
Qed.

Lemma status_rd en dis r v l : clock_status en dis (Rd r v :: l) = clock_status en dis l.
Proof. done. Qed.
Lemma rval_bit r i : 0 <= i < 32 -> rval (R := sam_reg) r (bit i) = bit i.
Proof.
  intros Hi. unfold bit. rewrite Z.shiftl_1_l. apply (Z.mod_small _ (2 ^ 32)). split; [lia|]. apply Z.pow_lt_mono_r; lia.
Qed.

(** One bit of one pair of registers, written when the status differs. *)
Lemma put_bit_ok en dis st (b : bool) i s :
  en <> dis -> (forall s j, 0 <= j < 32 -> Z.testbit (seen s st) j = Z.testbit (clock_status en dis (s_log s)) j) -> 0 <= i < 32 ->
  exists s', (x ← rdr st; if Bool.eqb (Z.land x (bit i) =? bit i) b then mret tt else wrr (if b then en else dis) (bit i)) s = Ok (tt, s') /\
    (forall j, 0 <= j -> Z.testbit (clock_status en dis (s_log s')) j = if j =? i then b else Z.testbit (clock_status en dis (s_log s)) j) /\
    forall en' dis', en' <> en -> en' <> dis -> dis' <> en -> dis' <> dis -> clock_status en' dis' (s_log s') = clock_status en' dis' (s_log s).
Proof.
  intros Hne Hs Hi. rewrite bind_rdr, land_bit_eqb, Hs by lia. set (s1 := log_event _ s).
  assert (forall e d, clock_status e d (s_log s1) = clock_status e d (s_log s)) as H1 by done.
  destruct (Bool.eqb (Z.testbit (clock_status en dis (s_log s)) i) b) eqn:Hb.
  - apply eqb_prop in Hb. exists s1. split; [done|]. split; [|done]. intros j Hj. rewrite H1. by destruct (Z.eqb_spec j i) as [->|].
  - exists (log_event (Wr (if b then en else dis) (bit i)) s1). split; [unfold wrr; by rewrite rval_bit|]. split.
    + intros j Hj. change (s_log (log_event _ s1)) with (Wr (if b then en else dis) (bit i) :: s_log s1). cbn [clock_status].
      assert (Z.testbit (bit i) j = (j =? i)) as Hbit by (unfold bit; rewrite Z.shiftl_1_l, Z.pow2_bits_eqb by lia; apply Z.eqb_sym).
      destruct b.
      * rewrite decide_True by done. rewrite Z.lor_spec, H1, Hbit. destruct (j =? i); [apply orb_true_r|apply orb_false_r].
      * rewrite decide_False, decide_True by done. rewrite Z.ldiff_spec, H1, Hbit. destruct (j =? i); [apply andb_false_r|apply andb_true_r].
    + intros en' dis' ? ? ? ?. change (s_log (log_event _ s1)) with (Wr (if b then en else dis) (bit i) :: s_log s1). cbn [clock_status].
      by rewrite !decide_False by (destruct b; congruence).
Qed.

(** Enabling and disabling in one form. *)
Definition wanted (o : clk_op) : bool := match o with EnableClk _ => true | DisableClk _ => false end.
Lemma run_clk_unfold o s :
  run_clk o s =
    if MAX_PERIPH_ID <? op_id o then Ok (1, s)
    else ((if op_id o <? 32 then
             x ← rdr PMC_PCSR0;
             if Bool.eqb (Z.land x (bit (op_id o)) =? bit (op_id o)) (wanted o) then mret tt else wrr (if wanted o then PMC_PCER0 else PMC_PCDR0) (bit (op_id o))
           else
             x ← rdr PMC_PCSR1;
             if Bool.eqb (Z.land x (bit (op_id o - 32)) =? bit (op_id o - 32)) (wanted o) then mret tt
             else wrr (if wanted o then PMC_PCER1 else PMC_PCDR1) (bit (op_id o - 32)));; mret 0) s.
Proof.
  destruct o as [id|id]; unfold run_clk, pmc_enable_periph_clk, pmc_disable_periph_clk; cbn [op_id wanted].
  all: destruct (MAX_PERIPH_ID <? id); [done|]; destruct (id <? 32); rewrite !bind_assoc, !bind_rdr; by destruct (_ =? _).
Qed.

(** What one enabling or disabling leaves of every bit. *)
Lemma run_clk_ok o s :
  0 <= op_id o -> exists s', run_clk o s = Ok (spec_result o, s') /\
    forall id, 0 <= id <= MAX_PERIPH_ID ->
      clocked s' id = if (MAX_PERIPH_ID <? op_id o) || negb (id =? op_id o) then clocked s id else wanted o.
Proof.
  intros Ho. rewrite run_clk_unfold. unfold spec_result. destruct (Z.ltb_spec MAX_PERIPH_ID (op_id o)) as [H|H]; [by exists s|].
  unfold MAX_PERIPH_ID in *. cbn [orb]. destruct (Z.ltb_spec (op_id o) 32) as [Hlow|Hhigh].
  - destruct (put_bit_ok PMC_PCER0 PMC_PCDR0 PMC_PCSR0 (wanted o) (op_id o) s) as (s' & Hr & Hb & Hk); [done|apply seen_status0|lia|].
    mstep Hr. exists s'. split; [done|]. intros id Hid. unfold clocked. destruct (Z.ltb_spec id 32) as [Hi|Hi].
    + rewrite Hb by lia. by destruct (id =? op_id o).
    + rewrite Hk by done. by destruct (Z.eqb_spec id (op_id o)); [lia|].
  - destruct (put_bit_ok PMC_PCER1 PMC_PCDR1 PMC_PCSR1 (wanted o) (op_id o - 32) s) as (s' & Hr & Hb & Hk); [done|apply seen_status1|lia|].
    mstep Hr. exists s'. split; [done|]. intros id Hid. unfold clocked. destruct (Z.ltb_spec id 32) as [Hi|Hi].
    + rewrite Hk by done. by destruct (Z.eqb_spec id (op_id o)); [lia|].
    + rewrite Hb by lia. destruct (Z.eqb_spec (id - 32) (op_id o - 32)), (Z.eqb_spec id (op_id o)); done || lia.
Qed.

Lemma run_clk_implements o s G :
  0 <= op_id o -> implements s G -> exists s', run_clk o s = Ok (spec_result o, s') /\ implements s' (spec_op o G).
Proof.
  intros Ho HG. destruct (run_clk_ok o s Ho) as (s' & Hr & Hb). exists s'. split; [done|]. intros id Hid. rewrite Hb by done.
  unfold spec_op. destruct (MAX_PERIPH_ID <? op_id o); cbn [orb]; [by apply HG|].
  destruct (Z.eqb_spec id (op_id o)) as [->|Hne]; cbn [negb].
  - destruct o as [k|k]; cbn [op_id wanted]; symmetry; [apply bool_decide_eq_true_2|apply bool_decide_eq_false_2].
    all: rewrite ?elem_of_union, ?elem_of_difference, elem_of_singleton; tauto.
  - rewrite HG by done. apply bool_decide_ext. destruct o as [k|k]; cbn [op_id] in Hne.
    all: rewrite ?elem_of_union, ?elem_of_difference, elem_of_singleton; tauto.
Qed.

Lemma enabled_ok s G id :
  0 <= id -> implements s G ->
  exists s', pmc_is_periph_clk_enabled id s = Ok (if (id <=? MAX_PERIPH_ID) && bool_decide (id ∈ G) then 1 else 0, s').
Proof.
  intros Hid HG. unfold pmc_is_periph_clk_enabled. destruct (Z.ltb_spec MAX_PERIPH_ID id), (Z.leb_spec id MAX_PERIPH_ID); try lia.
  { by exists s. }
  cbn [andb]. rewrite <- HG by done. unfold clocked, MAX_PERIPH_ID in *. destruct (Z.ltb_spec id 32); rewrite bind_rdr.
  - rewrite ctrue_mask_eqb, land_bit_eqb, seen_status0 by lia. eexists. reflexivity.
  - rewrite ctrue_mask_eqb, land_bit_eqb, seen_status1 by lia. eexists. reflexivity.
Qed.
End Clocks.

(** C32: Peripheral clocks: enabling and disabling them in any order implements a set
    of identifiers. Each call is answered 0, or 1 for an identifier the chip does
    not have, which changes nothing; afterwards a clock is reported as enabled
    exactly when its identifier is in the set. *)
Theorem pmc_clocks_are_a_set `{!Hardware sam_reg} ops s G :
  status_follows -> Forall (fun o => 0 <= op_id o) ops -> implements s G ->
  exists s', run_clks ops s = Ok (map spec_result ops, s') /\ implements s' (fold_left (fun G o => spec_op o G) ops G) /\
    forall id, 0 <= id -> exists s'', pmc_is_periph_clk_enabled id s' =
      Ok (if (id <=? MAX_PERIPH_ID) && bool_decide (id ∈ fold_left (fun G o => spec_op o G) ops G) then 1 else 0, s'').
Proof.
  intros Hst Hops. revert s G. induction Hops as [|o ops Ho Hops IH]; intros s G HG; cbn [run_clks map fold_left].
  { exists s. split; [done|]. split; [done|]. intros id Hid. by apply enabled_ok. }
  destruct (run_clk_implements Hst o s G Ho HG) as (s1 & Hr & H1). mstep Hr.
  destruct (IH s1 _ H1) as (s2 & Hr2 & H2 & He). mstep Hr2. by exists s2.
Qed.

Lemma pmc_clocks_are_a_set_witness :
  let hw : Hardware sam_reg := fun l r =>
    match r with
    | PMC_PCSR0 => clock_status PMC_PCER0 PMC_PCDR0 l
    | PMC_PCSR1 => clock_status PMC_PCER1 PMC_PCDR1 l
    | _ => 0
    end in
  exists s', run_clks [EnableClk 30; EnableClk 34; DisableClk 30; EnableClk 35] (Sam []) = Ok ([0; 0; 0; 1], s') /\
    implements s' {[34]}.
Proof.
  intros hw. destruct (@pmc_clocks_are_a_set hw [EnableClk 30; EnableClk 34; DisableClk 30; EnableClk 35] (Sam []) ∅) as (s' & Hr & Hi & _).
  - intros l. split; reflexivity.
  - repeat (apply Forall_cons; split; [cbn; lia|]). apply Forall_nil. exact I.
  - intros id Hid. unfold clocked. cbn [s_log clock_status]. rewrite !Z.bits_0. destruct (id <? 32); reflexivity.
  - exists s'. split; [exact Hr|]. intros id Hid. rewrite (Hi id Hid). apply bool_decide_ext. cbn. set_solver.
Defined.

(** The chip has no peripheral clocks above 34, so the wait for all 32 bits of
    the second status register never ends. *)
Lemma pmc_enable_all_hangs `{!Hardware sam_reg} fuel s :
  (forall l, Z.testbit (hw_read l PMC_PCSR1) 3 = false) -> (forall s', Z.land (seen s' PMC_PCSR0) PMC_MASK_STATUS0 = PMC_MASK_STATUS0) ->
  pmc_enable_all_periph_clk fuel s = Spin.
Proof.
  intros H1 H0. unfold pmc_enable_all_periph_clk. rewrite bind_wrr. rewrite (bind_Ok _ _ _ _ _ (wait_all_ready fuel PMC_PCSR0 _ _ (H0 _))).
  rewrite bind_wrr. set (s1 := log_event _ _). clearbody s1. revert s1.
  assert (forall s', (Z.land (seen s' PMC_PCSR1) PMC_MASK_STATUS1 =? PMC_MASK_STATUS1) = false) as Hno.
  { intros s'. apply Z.eqb_neq. intros He. apply (f_equal (fun z => Z.testbit z 3)) in He. rewrite Z.land_spec in He. unfold seen, rval in He.
    change reg_bits with 32 in He. rewrite testbit_mod_pow2, H1 in He by lia. discriminate He. }
  induction fuel as [|fuel IH]; intros s1; cbn [wait_all]; rewrite bind_rdr, Hno; [done|apply IH].
Qed.
