(* ===== verification/SamPio.v ===== *)
(** * Parallel ports of the ATSAM4S and their interrupts (platforms/atsam4s/asf/src:
      pio.c, pio_handler.c)

    The rest of the port driver beside [SamAsf], and the table of interrupt
    sources: handlers are registered for the pins of a port and called when the
    port's interrupt finds one of their pins pending. *)

From S2P Require Import Prelude Mmio SamAsf SamDev.
From stdpp Require Import base list gmap sets.
From Stdlib Require Import ZArith Lia.
Local Open Scope Z_scope.

Definition PIO_SCDR_DIV (value : Z) : Z := field (Z.shiftl 0x3fff 0) 0 value.
Definition PIO_WPMR_WPEN : Z := bit 0.
Definition PIO_WPMR_WPKEY_PASSWD : Z := Z.shiftl 0x50494F 8.
Definition PIO_PCMR_PCEN : Z := bit 0.
Definition PIO_PCISR_DRDY : Z := bit 0.
Definition PIO_IT_AIME : Z := bit 4.
Definition PIO_IT_RE_OR_HL : Z := bit 5.
Definition PIO_IT_EDGE : Z := bit 6.
Definition PIO_TYPE_Msk : Z := Z.shiftl 0xF 27.
Definition PIO_TYPE_PIO_PERIPH_A : Z := Z.shiftl 0x1 27.
Definition PIO_TYPE_PIO_PERIPH_B : Z := Z.shiftl 0x2 27.
Definition PIO_TYPE_PIO_PERIPH_C : Z := Z.shiftl 0x3 27.
Definition PIO_TYPE_PIO_PERIPH_D : Z := Z.shiftl 0x4 27.
Definition PIO_TYPE_PIO_INPUT : Z := Z.shiftl 0x5 27.
Definition PIO_TYPE_PIO_OUTPUT_0 : Z := Z.shiftl 0x6 27.
Definition PIO_TYPE_PIO_OUTPUT_1 : Z := Z.shiftl 0x7 27.
Definition FREQ_SLOW_CLOCK_EXT : Z := 32768.
Definition ID_PIOA : Z := 11.
Definition ID_PIOB : Z := 12.
Definition ID_PIOC : Z := 13.
Definition NVIC_PRIO_BITS : Z := 4.

(** ** Ports *)

Section Port.
Context `{!Hardware sam_reg}.
Variable p_pio : pio_port.
Local Abbreviation P f := (PIO p_pio f).

Definition pio_set_debounce_filter (ul_mask ul_cut_off : Z) : S_ unit :=
  wrr (P PIO_IFSCER) ul_mask;;
  let d := u32 (2 * ul_cut_off) in
  if d =? 0 then ub else wrr (P PIO_SCDR) (PIO_SCDR_DIV (u32 (FREQ_SLOW_CLOCK_EXT / d - 1))).
Definition pio_get_output_data_status (ul_mask : Z) : S_ Z := x ← rdr (P PIO_ODSR); mret (if Z.land x ul_mask =? 0 then 0 else 1).
Definition pio_set_multi_driver (ul_mask ul_multi_driver_enable : Z) : S_ unit :=
  if ctrue ul_multi_driver_enable then wrr (P PIO_MDER) ul_mask else wrr (P PIO_MDDR) ul_mask.
Definition pio_get_multi_driver_status : S_ Z := rdr (P PIO_MDSR).
Definition pio_pull_down (ul_mask ul_pull_down_enable : Z) : S_ unit :=
  if ctrue ul_pull_down_enable then wrr (P PIO_PPDER) ul_mask else wrr (P PIO_PPDDR) ul_mask.
Definition pio_enable_output_write (ul_mask : Z) : S_ unit := wrr (P PIO_OWER) ul_mask.
Definition pio_disable_output_write (ul_mask : Z) : S_ unit := wrr (P PIO_OWDR) ul_mask.
Definition pio_get_output_write_status : S_ Z := rdr (P PIO_OWSR).
Definition pio_sync_output_write (ul_mask : Z) : S_ unit := wrr (P PIO_ODSR) ul_mask.
Definition pio_set_schmitt_trigger (ul_mask : Z) : S_ unit := wrr (P PIO_SCHMITT) ul_mask.
Definition pio_get_schmitt_trigger : S_ Z := rdr (P PIO_SCHMITT).
Definition pio_configure_interrupt (ul_mask ul_attr : Z) : S_ unit :=
  if ctrue (Z.land ul_attr PIO_IT_AIME) then
    wrr (P PIO_AIMER) ul_mask;;
    (if ctrue (Z.land ul_attr PIO_IT_RE_OR_HL) then wrr (P PIO_REHLSR) ul_mask else wrr (P PIO_FELLSR) ul_mask);;
    (if ctrue (Z.land ul_attr PIO_IT_EDGE) then wrr (P PIO_ESR) ul_mask else wrr (P PIO_LSR) ul_mask)
  else wrr (P PIO_AIMDR) ul_mask.
Definition pio_enable_interrupt (ul_mask : Z) : S_ unit := wrr (P PIO_IER) ul_mask.
Definition pio_get_interrupt_status : S_ Z := rdr (P PIO_ISR).
Definition pio_get_interrupt_mask : S_ Z := rdr (P PIO_IMR).
(** The same code as [pio_configure_interrupt]. *)
Definition pio_set_additional_interrupt_mode (ul_mask ul_attribute : Z) : S_ unit := pio_configure_interrupt ul_mask ul_attribute.
Definition pio_set_writeprotect (ul_enable : Z) : S_ unit := wrr (P PIO_WPMR) (Z.lor PIO_WPMR_WPKEY_PASSWD (Z.land ul_enable PIO_WPMR_WPEN)).
Definition pio_get_writeprotect_status : S_ Z := rdr (P PIO_WPSR).
Definition pio_set_pin_group_high (ul_mask : Z) : S_ unit := wrr (P PIO_SODR) ul_mask.
Definition pio_set_pin_group_low (ul_mask : Z) : S_ unit := wrr (P PIO_CODR) ul_mask.
Definition pio_toggle_pin_group (ul_mask : Z) : S_ unit :=
  x ← rdr (P PIO_ODSR); if ctrue (Z.land x ul_mask) then wrr (P PIO_CODR) ul_mask else wrr (P PIO_SODR) ul_mask.
Definition pio_configure_pin_group (ul_mask ul_flags : Z) : S_ Z :=
  let type := Z.land ul_flags PIO_TYPE_Msk in
  let periph t := pio_set_peripheral p_pio t ul_mask;; pio_pull_up p_pio ul_mask (Z.land ul_flags PIO_PULLUP);; mret 1 in
  if type =? PIO_TYPE_PIO_PERIPH_A then periph PIO_PERIPH_A
  else if type =? PIO_TYPE_PIO_PERIPH_B then periph PIO_PERIPH_B
  else if type =? PIO_TYPE_PIO_PERIPH_C then periph PIO_PERIPH_C
  else if type =? PIO_TYPE_PIO_PERIPH_D then periph PIO_PERIPH_D
  else if type =? PIO_TYPE_PIO_INPUT then pio_set_input p_pio ul_mask ul_flags;; mret 1
  else if (type =? PIO_TYPE_PIO_OUTPUT_0) || (type =? PIO_TYPE_PIO_OUTPUT_1) then
    pio_set_output p_pio ul_mask
      (if Z.land ul_flags PIO_TYPE_PIO_OUTPUT_1 =? PIO_TYPE_PIO_OUTPUT_1 then 1 else 0)
      (if ctrue (Z.land ul_flags PIO_OPENDRAIN) then 1 else 0)
      (if ctrue (Z.land ul_flags PIO_PULLUP) then 1 else 0);;
    mret 1
  else mret 0.
Definition pio_capture_set_mode (ul_mode : Z) : S_ unit := wrr (P PIO_PCMR) (Z.ldiff ul_mode PIO_PCMR_PCEN).
(** The result, and the word stored when one is ready. *)
Definition pio_capture_read : S_ (Z * option Z) :=
  x ← rdr (P PIO_PCISR);
  if Z.land x PIO_PCISR_DRDY =? 0 then mret (1, None) else v ← rdr (P PIO_PCRHR); mret (0, Some v).
Definition pio_capture_enable_interrupt (ul_mask : Z) : S_ unit := _ ← rdr (P PIO_PCISR); wrr (P PIO_PCIER) ul_mask.
Definition pio_capture_disable_interrupt (ul_mask : Z) : S_ unit := wrr (P PIO_PCIDR) ul_mask.
Definition pio_capture_get_interrupt_status : S_ Z := rdr (P PIO_PCISR).
Definition pio_capture_get_interrupt_mask : S_ Z := rdr (P PIO_PCIMR).
End Port.

(** ** Pins: the port in the bits from 5 on, the pin in bits 0-4 *)

Section Pins.
Context `{!Hardware sam_reg}.
(** Behind the third port there are other registers. *)
Definition pio_get_pin_group (ul_pin : Z) : S_ pio_port :=
  let n := Z.shiftr ul_pin 5 in
  if n =? 0 then mret PIOA else if n =? 1 then mret PIOB else if n =? 2 then mret PIOC else ub.
Definition pio_get_pin_group_id (ul_pin : Z) : Z := ID_PIOA + Z.shiftr ul_pin 5.
(** The shift into the sign bit for pin 31 is the compiler's: it gives that bit. *)
Definition pio_get_pin_group_mask (ul_pin : Z) : Z := bit (Z.land ul_pin 0x1F).
Definition pio_get_pin_value (ul_pin : Z) : S_ Z :=
  p_pio ← pio_get_pin_group ul_pin; x ← rdr (PIO p_pio PIO_PDSR); mret (Z.land (Z.shiftr x (Z.land ul_pin 0x1F)) 1).
Definition pio_set_pin_high (ul_pin : Z) : S_ unit := p_pio ← pio_get_pin_group ul_pin; wrr (PIO p_pio PIO_SODR) (pio_get_pin_group_mask ul_pin).
Definition pio_set_pin_low (ul_pin : Z) : S_ unit := p_pio ← pio_get_pin_group ul_pin; wrr (PIO p_pio PIO_CODR) (pio_get_pin_group_mask ul_pin).
Definition pio_toggle_pin (ul_pin : Z) : S_ unit := p_pio ← pio_get_pin_group ul_pin; pio_toggle_pin_group p_pio (pio_get_pin_group_mask ul_pin).
Definition pio_configure_pin (ul_pin ul_flags : Z) : S_ Z :=
  p_pio ← pio_get_pin_group ul_pin; pio_configure_pin_group p_pio (pio_get_pin_group_mask ul_pin) ul_flags.
Definition pio_enable_pin_interrupt (ul_pin : Z) : S_ unit := p_pio ← pio_get_pin_group ul_pin; wrr (PIO p_pio PIO_IER) (pio_get_pin_group_mask ul_pin).
Definition pio_disable_pin_interrupt (ul_pin : Z) : S_ unit := p_pio ← pio_get_pin_group ul_pin; wrr (PIO p_pio PIO_IDR) (pio_get_pin_group_mask ul_pin).

Definition NVIC_ClearPendingIRQ (n : Z) : S_ unit := r ← nvic NVIC_ICPR n; wrr r (bit (Z.land n 0x1F)).
(** [SCB->SHP[((uint32_t)IRQn & 0xF) - 4]] of twelve, or [NVIC->IP[IRQn]] of 240. *)
Definition priority_reg (n : Z) : S_ sam_reg :=
  if n <? 0 then (if 4 <=? Z.land n 0xF then mret (SCB_SHP (Z.land n 0xF - 4)) else ub) else if n <? 240 then mret (NVIC_IP n) else ub.
Definition NVIC_SetPriority (n priority : Z) : S_ unit :=
  r ← priority_reg n; wrr r (Z.land (u32 (Z.shiftl priority (8 - NVIC_PRIO_BITS))) 0xff).
Definition pio_handler_set_priority (p_pio : pio_port) (ul_irqn ul_priority : Z) : S_ unit :=
  bitmask ← pio_get_interrupt_mask p_pio;
  pio_disable_interrupt p_pio 0xFFFFFFFF;;
  pio_get_interrupt_status p_pio;;
  NVIC_DisableIRQ ul_irqn;;
  NVIC_ClearPendingIRQ ul_irqn;;
  NVIC_SetPriority ul_irqn ul_priority;;
  NVIC_EnableIRQ ul_irqn;;
  pio_enable_interrupt p_pio bitmask.
End Pins.

(** ** Interrupt sources *)

Definition MAX_INTERRUPT_SOURCES : nat := 7.
Record s_interrupt_source := Source { id : Z; mask : Z; attr : Z; handler : Z }.
#[global] Instance source_eq_dec : EqDecision s_interrupt_source.
Proof. solve_decision. Defined.

(** The variables of pio_handler.c and [pio_capture_enable_flag] of pio.c beside
    the registers, and the calls made through function pointers. *)
Inductive pio_call := SourceCall (handler id mask : Z) | CaptureCall (handler : Z) (p : pio_port).
Record pio_state := PioState {
  gs_interrupt_sources : list s_interrupt_source;
  gs_ul_nb_sources : nat;
  pio_capture_handler : Z;
  pio_capture_enable_flag : bool;
  pio_calls : list pio_call;
  pio_sam : sam;
}.
Abbreviation P_ := (M pio_state).

(** Static variables start as zero. *)
Definition pio_start (m : sam) : pio_state := PioState (replicate MAX_INTERRUPT_SOURCES (Source 0 0 0 0)) 0 0 false [] m.

Definition on_sam {A} (c : S_ A) : P_ A := fun s =>
  match c (pio_sam s) with
  | Ok (a, m) => Ok (a, PioState (gs_interrupt_sources s) (gs_ul_nb_sources s) (pio_capture_handler s) (pio_capture_enable_flag s) (pio_calls s) m)
  | Ub => Ub
  | Spin => Spin
  end.
Definition record_call (c : pio_call) : P_ unit := modify (fun s =>
  PioState (gs_interrupt_sources s) (gs_ul_nb_sources s) (pio_capture_handler s) (pio_capture_enable_flag s) (pio_calls s ++ [c]) (pio_sam s)).
Definition set_sources (f : list s_interrupt_source -> list s_interrupt_source) : P_ unit := modify (fun s =>
  PioState (f (gs_interrupt_sources s)) (gs_ul_nb_sources s) (pio_capture_handler s) (pio_capture_enable_flag s) (pio_calls s) (pio_sam s)).
Definition set_nb_sources (n : nat) : P_ unit := modify (fun s =>
  PioState (gs_interrupt_sources s) n (pio_capture_handler s) (pio_capture_enable_flag s) (pio_calls s) (pio_sam s)).
Definition set_capture_flag (b : bool) : P_ unit := modify (fun s =>
  PioState (gs_interrupt_sources s) (gs_ul_nb_sources s) (pio_capture_handler s) b (pio_calls s) (pio_sam s)).
Definition pio_capture_handler_set (p_handler : Z) : P_ unit := modify (fun s =>
  PioState (gs_interrupt_sources s) (gs_ul_nb_sources s) p_handler (pio_capture_enable_flag s) (pio_calls s) (pio_sam s)).

(** [gs_interrupt_sources[i]] *)
Definition source (i : nat) : P_ s_interrupt_source := l ← gets gs_interrupt_sources; lift_opt (l !! i).

Definition matches (ul_id ul_mask : Z) (x : s_interrupt_source) : bool := (id x =? ul_id) && (mask x =? ul_mask).

(** The search from [i] on with [n] further rounds: the entry [pSource] points to
    and the counter at the end. *)
Fixpoint source_loop (ul_id ul_mask : Z) (n i : nat) : P_ (nat * nat) :=
  x ← source i;
  if matches ul_id ul_mask x then mret (i, i)
  else match n with O => mret (i, S i) | S n => source_loop ul_id ul_mask n (S i) end.

Section Sources.
Context `{!Hardware sam_reg}.

Definition pio_handler_set (p_pio : pio_port) (ul_id ul_mask ul_attr p_handler : Z) : P_ Z :=
  nb ← gets gs_ul_nb_sources;
  if (MAX_INTERRUPT_SOURCES <=? nb)%nat then mret 1
  else
    pi ← source_loop ul_id ul_mask nb 0;
    set_sources <[fst pi := Source ul_id ul_mask ul_attr p_handler]>;;
    (if decide (snd pi = nb + 1)%nat then set_nb_sources (nb + 1) else mret tt);;
    on_sam (pio_configure_interrupt p_pio ul_mask ul_attr);;
    mret 0.
Definition pio_handler_set_pin (ul_pin ul_flag p_handler : Z) : P_ Z :=
  p_pio ← on_sam (pio_get_pin_group ul_pin);
  pio_handler_set p_pio (pio_get_pin_group_id ul_pin) (pio_get_pin_group_mask ul_pin) ul_flag p_handler.

Definition pio_capture_enable (p_pio : pio_port) : P_ unit := on_sam (orr (PIO p_pio PIO_PCMR) PIO_PCMR_PCEN);; set_capture_flag true.
Definition pio_capture_disable (p_pio : pio_port) : P_ unit := on_sam (clrr (PIO p_pio PIO_PCMR) PIO_PCMR_PCEN);; set_capture_flag false.

(** The code behind the function pointers. *)
Context (handler_code : Z -> Z -> Z -> P_ unit) (capture_code : Z -> pio_port -> P_ unit).

Definition call_source (x : s_interrupt_source) : P_ unit :=
  if handler x =? 0 then ub else record_call (SourceCall (handler x) (id x) (mask x));; handler_code (handler x) (id x) (mask x).

(** [n] rounds are left before [i] reaches the end of the table. *)
Fixpoint process_loop (ul_id : Z) (n i : nat) (status : Z) : P_ unit :=
  match n with
  | O => mret tt
  | S n =>
    if status =? 0 then mret tt
    else
      x ← source i;
      if (id x =? ul_id) && negb (Z.land status (mask x) =? 0) then
        call_source x;;
        y ← source i;
        process_loop ul_id n (S i) (Z.ldiff status (mask y))
      else process_loop ul_id n (S i) status
  end.
Definition pio_handler_process (p_pio : pio_port) (ul_id : Z) : P_ unit :=
  status ← on_sam (pio_get_interrupt_status p_pio);
  m ← on_sam (pio_get_interrupt_mask p_pio);
  process_loop ul_id MAX_INTERRUPT_SOURCES 0 (Z.land status m);;
  flag ← gets pio_capture_enable_flag;
  h ← gets pio_capture_handler;
  if flag && negb (h =? 0) then record_call (CaptureCall h p_pio);; capture_code h p_pio else mret tt.
Definition PIOA_Handler : P_ unit := pio_handler_process PIOA ID_PIOA.
Definition PIOB_Handler : P_ unit := pio_handler_process PIOB ID_PIOB.
Definition PIOC_Handler : P_ unit := pio_handler_process PIOC ID_PIOC.
End Sources.

(** ** The table as a list of distinct sources *)

Definition zero_source : s_interrupt_source := Source 0 0 0 0.

(** A registration replaces the source with the same port and pins or comes last. *)
Fixpoint upsert (x : s_interrupt_source) (T : list s_interrupt_source) : list s_interrupt_source :=
  match T with
  | [] => [x]
  | y :: T => if matches (id x) (mask x) y then x :: T else y :: upsert x T
  end.
Definition spec_set (T : list s_interrupt_source) (x : s_interrupt_source) : Z * list s_interrupt_source :=
  if (MAX_INTERRUPT_SOURCES <=? length T)%nat then (1, T) else (0, upsert x T).
Fixpoint spec_sets (T : list s_interrupt_source) (xs : list s_interrupt_source) : list Z * list s_interrupt_source :=
  match xs with
  | [] => ([], T)
  | x :: xs => let '(r, T) := spec_set T x in let '(rs, T) := spec_sets T xs in (r :: rs, T)
  end.

Definition holds_table (s : pio_state) (T : list s_interrupt_source) : Prop :=
  gs_ul_nb_sources s = length T /\ exists k, (length T + k)%nat = MAX_INTERRUPT_SOURCES /\ gs_interrupt_sources s = T ++ replicate k zero_source.

(** Only the registers may differ. *)
Definition same_table (s s' : pio_state) : Prop :=
  gs_interrupt_sources s' = gs_interrupt_sources s /\ gs_ul_nb_sources s' = gs_ul_nb_sources s /\
  pio_capture_handler s' = pio_capture_handler s /\ pio_capture_enable_flag s' = pio_capture_enable_flag s /\ pio_calls s' = pio_calls s.

Lemma source_ok i x s : gs_interrupt_sources s !! i = Some x -> source i s = Ok (x, s).
Proof. intros H. unfold source. rewrite bind_gets, H. done. Qed.

Lemma source_at pre x T s : gs_interrupt_sources s = pre ++ x :: T -> source (length pre) s = Ok (x, s).
Proof. intros H. apply source_ok. rewrite H. by apply list_lookup_middle. Qed.

Lemma on_sam_ok {A} (c : S_ A) s a m : c (pio_sam s) = Ok (a, m) -> exists s', on_sam c s = Ok (a, s') /\ same_table s s' /\ pio_sam s' = m.
Proof. intros H. unfold on_sam. rewrite H. eexists. split; [done|]. done. Qed.

Lemma insert_middle {A} (pre : list A) x y T : <[length pre := x]> (pre ++ y :: T) = pre ++ x :: T.
Proof. rewrite <- (Nat.add_0_r (length pre)), insert_app_r. done. Qed.

(** The search ends at the source with the same key or at the first free entry. *)
Lemma source_loop_ok x T : forall pre k s,
  mask x <> 0 -> gs_interrupt_sources s = pre ++ T ++ replicate (S k) zero_source ->
  exists p i k', source_loop (id x) (mask x) (length T) (length pre) s = Ok ((p, i), s) /\
    <[p := x]> (gs_interrupt_sources s) = pre ++ upsert x T ++ replicate k' zero_source /\
    (i = length pre + length T + 1 /\ k' = k /\ length (upsert x T) = S (length T) \/
     i <= length pre + length T /\ k' = S k /\ length (upsert x T) = length T)%nat.
Proof.
  induction T as [|y T IH]; intros pre k s Hm Hs; cbn [length source_loop upsert] in *.
  - rewrite (bind_Ok _ _ _ _ _ (source_at pre zero_source (replicate k zero_source) s Hs)).
    replace (matches _ _ zero_source) with false by (unfold matches; cbn [id mask zero_source]; destruct (Z.eqb_spec 0 (mask x)); [lia|by rewrite andb_false_r]).
    exists (length pre), (S (length pre)), k. split; [done|]. rewrite Hs. split; [apply insert_middle|]. left. cbn. lia.
  - rewrite (bind_Ok _ _ _ _ _ (source_at pre y (T ++ replicate (S k) zero_source) s Hs)).
    destruct (matches (id x) (mask x) y).
    + exists (length pre), (length pre), (S k). split; [done|]. rewrite Hs. split; [apply insert_middle|]. right. cbn. lia.
    + destruct (IH (pre ++ [y]) k s Hm) as (p & i & k' & Hl & Hu & Hc); [by rewrite <- app_assoc|].
      rewrite length_app in *. cbn [length] in *. replace (length pre + 1)%nat with (S (length pre)) in * by lia.
      exists p, i, k'. split; [done|]. rewrite <- app_assoc in Hu. split; [done|]. cbn [length]. lia.
Qed.

Section Registrations.
Context `{!Hardware sam_reg}.

Definition run_set (r : pio_port * s_interrupt_source) : P_ Z :=
  pio_handler_set (fst r) (id (snd r)) (mask (snd r)) (attr (snd r)) (handler (snd r)).
Fixpoint run_sets (rs : list (pio_port * s_interrupt_source)) : P_ (list Z) :=
  match rs with [] => mret [] | r :: rs => a ← run_set r; l ← run_sets rs; mret (a :: l) end.

Lemma configure_interrupt_ok p mk at_ m : exists m', pio_configure_interrupt p mk at_ m = Ok (tt, m').
Proof.
  unfold pio_configure_interrupt. repeat match goal with |- context [if ?b then _ else _] => destruct b end; rewrite ?bind_wrr; by eexists.
Qed.

Lemma set_ok r T s :
  holds_table s T -> mask (snd r) <> 0 ->
  exists s', run_set r s = Ok (fst (spec_set T (snd r)), s') /\ holds_table s' (snd (spec_set T (snd r))) /\
    pio_capture_enable_flag s' = pio_capture_enable_flag s /\ pio_calls s' = pio_calls s.
Proof.
  intros (Hn & k & Hk & Hs) Hm. destruct r as [p x]. unfold run_set, pio_handler_set, spec_set, MAX_INTERRUPT_SOURCES in *. cbn [fst snd] in *.
  rewrite bind_gets, Hn. destruct (Nat.leb_spec 7 (length T)) as [Hfull|Hroom]; cbn [fst snd].
  { exists s. split; [done|]. split; [|done]. split; [done|]. by exists k. }
  destruct k as [|k]; [lia|]. destruct (source_loop_ok x T [] k s Hm Hs) as (q & i & k' & Hl & Hu & Hc). cbn [length app] in *.
  rewrite (bind_Ok _ _ _ _ _ Hl). unfold set_sources. rewrite bind_modify. cbn [fst snd].
  replace (Source (id x) (mask x) (attr x) (handler x)) with x by (by destruct x). rewrite Hu.
  match goal with |- exists _, (?c ≫= _) ?st = _ /\ _ => set (s1 := st); set (c1 := c) end.
  assert (exists s2, c1 s1 = Ok (tt, s2) /\ holds_table s2 (upsert x T) /\
            pio_capture_enable_flag s2 = pio_capture_enable_flag s /\ pio_calls s2 = pio_calls s) as (s2 & H1 & Ht & Hf & Hca).
  { unfold c1. destruct (decide _) as [->|Hne]; eexists; (split; [reflexivity|]); (split; [|done]); (split; [cbn; lia|]); exists k'; cbn; (split; [unfold MAX_INTERRUPT_SOURCES; lia|done]). }
  rewrite (bind_Ok _ _ _ _ _ H1). destruct (configure_interrupt_ok p (mask x) (attr x) (pio_sam s2)) as (m' & Hp).
  destruct (on_sam_ok _ _ _ _ Hp) as (s3 & H3 & (Ha & Hb & Hc' & Hd & He) & _). rewrite (bind_Ok _ _ _ _ _ H3).
  exists s3. split; [done|]. destruct Ht as (Hn2 & Hk2). split; [split; [congruence|by rewrite Ha]|]. split; congruence.
Qed.

Lemma sets_ok rs : forall T s,
  holds_table s T -> Forall (fun r => mask (snd r) <> 0) rs ->
  exists s', run_sets rs s = Ok (fst (spec_sets T (map snd rs)), s') /\ holds_table s' (snd (spec_sets T (map snd rs))) /\
    pio_capture_enable_flag s' = pio_capture_enable_flag s /\ pio_calls s' = pio_calls s.
Proof.
  induction rs as [|r rs IH]; intros T s Ht Hall; cbn [run_sets map spec_sets]; [by exists s|].
  inversion Hall as [|?? Hm Hall']; subst. destruct (set_ok r T s Ht Hm) as (s1 & H1 & Ht1 & Hf1 & Hc1).
  rewrite (bind_Ok _ _ _ _ _ H1). destruct (spec_set T (snd r)) as [a T1]. cbn [fst snd] in *.
  destruct (IH T1 s1 Ht1 Hall') as (s2 & H2 & Ht2 & Hf2 & Hc2). rewrite (bind_Ok _ _ _ _ _ H2).
  destruct (spec_sets T1 (map snd rs)) as [l T2]. cbn [fst snd] in *. exists s2. split; [done|]. split; [done|]. split; congruence.
Qed.
End Registrations.

(** ** Dispatch *)

(** Sources of one port share no pin. *)
Definition disjoint_pins (T : list s_interrupt_source) : Prop :=
  ForallOrdPairs (fun x y => id x = id y -> Z.land (mask x) (mask y) = 0) T.
Definition pending_for (n status : Z) (x : s_interrupt_source) : bool := (id x =? n) && negb (Z.land status (mask x) =? 0).
Definition source_call (x : s_interrupt_source) : pio_call := SourceCall (handler x) (id x) (mask x).

Lemma land_ldiff_disjoint st a b : Z.land a b = 0 -> Z.land (Z.ldiff st a) b = Z.land st b.
Proof.
  intros H. apply Z.bits_inj'. intros i Hi. rewrite !Z.land_spec, Z.ldiff_spec.
  apply (f_equal (fun z => Z.testbit z i)) in H. rewrite Z.land_spec, Z.bits_0 in H.
  destruct (Z.testbit a i), (Z.testbit b i), (Z.testbit st i); done.
Qed.

Lemma pending_after n st x T :
  Forall (fun y => id x = id y -> Z.land (mask x) (mask y) = 0) T -> id x = n ->
  filter (fun y => pending_for n (Z.ldiff st (mask x)) y = true) T = filter (fun y => pending_for n st y = true) T.
Proof.
  intros Hd Hx. induction Hd as [|y T Hy Hd IH]; [done|]. rewrite !filter_cons, IH.
  replace (pending_for n (Z.ldiff st (mask x)) y) with (pending_for n st y); [done|].
  unfold pending_for. destruct (Z.eqb_spec (id y) n) as [He|]; [|done]. by rewrite land_ldiff_disjoint by (apply Hy; congruence).
Qed.

Lemma pending_none n T : filter (fun y => pending_for n 0 y = true) T = [].
Proof. induction T as [|y T IH]; [done|]. rewrite filter_cons, IH. unfold pending_for. rewrite Z.land_0_l, andb_false_r. done. Qed.

Section Dispatch.
Context `{!Hardware sam_reg}.
Context (handler_code : Z -> Z -> Z -> P_ unit) (capture_code : Z -> pio_port -> P_ unit).
(** Handlers return and leave the table alone. *)
Definition handlers_return : Prop := forall h i mk s, exists s', handler_code h i mk s = Ok (tt, s') /\ same_table s s'.

Lemma process_zeros n : forall pre k st s,
  gs_interrupt_sources s = pre ++ replicate k zero_source -> process_loop handler_code n k (length pre) st s = Ok (tt, s).
Proof.
  intros pre k. revert pre. induction k as [|k IH]; intros pre st s Hs; cbn [process_loop replicate] in *; [done|].
  destruct (st =? 0); [done|]. rewrite (bind_Ok _ _ _ _ _ (source_at _ _ _ _ Hs)). cbn [mask id zero_source].
  rewrite Z.land_0_r, andb_false_r. specialize (IH (pre ++ [zero_source]) st s). rewrite length_app, Nat.add_1_r in IH.
  apply IH. by rewrite <- app_assoc.
Qed.

Lemma process_loop_ok n k T : handlers_return -> disjoint_pins T -> Forall (fun x => handler x <> 0) T -> forall pre st s,
  gs_interrupt_sources s = pre ++ T ++ replicate k zero_source ->
  exists s', process_loop handler_code n (length T + k) (length pre) st s = Ok (tt, s') /\
    pio_calls s' = pio_calls s ++ map source_call (filter (fun x => pending_for n st x = true) T) /\
    pio_capture_enable_flag s' = pio_capture_enable_flag s.
Proof.
  intros Hret Hd Hh. induction Hd as [|x T Hx Hd IH]; intros pre st s Hs; cbn [length Nat.add process_loop].
  { exists s. split; [by apply process_zeros|]. by rewrite filter_nil, app_nil_r. }
  inversion Hh as [|?? Hnz Hh']; subst. destruct (Z.eqb_spec st 0) as [->|Hst].
  { exists s. by rewrite pending_none, app_nil_r. }
  assert (forall st' s', gs_interrupt_sources s' = gs_interrupt_sources s -> exists s2,
    process_loop handler_code n (length T + k) (S (length pre)) st' s' = Ok (tt, s2) /\
    pio_calls s2 = pio_calls s' ++ map source_call (filter (fun x => pending_for n st' x = true) T) /\
    pio_capture_enable_flag s2 = pio_capture_enable_flag s') as Hnext.
  { intros st' s' Heq. specialize (IH Hh' (pre ++ [x]) st' s'). rewrite length_app, Nat.add_1_r in IH. apply IH.
    by rewrite Heq, Hs, <- app_assoc. }
  rewrite (bind_Ok _ _ _ _ _ (source_at _ _ _ _ Hs)), filter_cons. unfold pending_for at 2. fold (pending_for n st x).
  destruct (pending_for n st x) eqn:Hp; [|destruct (decide _); [done|by apply Hnext]]. destruct (decide _); [|done].
  unfold call_source. destruct (Z.eqb_spec (handler x) 0); [done|]. rewrite bind_assoc. unfold record_call at 1. rewrite bind_modify.
  match goal with |- context [(handler_code _ _ _ ≫= _) ?st] => destruct (Hret (handler x) (id x) (mask x) st) as (s1 & H1 & Ha & _ & _ & Hf & Hc) end.
  rewrite (bind_Ok _ _ _ _ _ H1). cbn in Ha, Hf, Hc. rewrite (bind_Ok _ _ _ _ _ (source_at pre x (T ++ replicate k zero_source) s1 ltac:(by rewrite Ha, Hs))).
  destruct (Hnext (Z.ldiff st (mask x)) s1 Ha) as (s2 & H2 & Hc2 & Hf2). exists s2. split; [done|].
  apply andb_true_iff in Hp as [He%Z.eqb_eq _]. rewrite (pending_after n st x T Hx He) in Hc2.
  rewrite Hc2, Hc, <- app_assoc, Hf2. done.
Qed.

End Dispatch.

