(* ===== verification/SamBus.v ===== *)
(** * Serial audio and the bus matrix of the ATSAM4S
    (platforms/atsam4s/asf/src: ssc.c, matrix.c)

    The synchronous serial controller with its I2S set-up, and the arbitration of
    the bus masters. *)

From S2P Require Import Prelude Mmio SamDev.
From stdpp Require Import base list gmap sets.
From Stdlib Require Import ZArith Lia.
Local Open Scope Z_scope.

(** ** Synchronous serial controller *)

Inductive ssc_reg :=
| SSC_CR | SSC_CMR | SSC_RCMR | SSC_RFMR | SSC_TCMR | SSC_TFMR | SSC_RHR | SSC_THR | SSC_RSHR | SSC_TSHR | SSC_RC0R | SSC_RC1R
| SSC_SR | SSC_IER | SSC_IDR | SSC_IMR | SSC_WPMR | SSC_WPSR.
#[global] Instance ssc_reg_eq_dec : EqDecision ssc_reg.
Proof. solve_decision. Defined.
#[global] Instance ssc_registers : Registers ssc_reg := 32.

Definition SSC_CR_RXEN : Z := bit 0.
Definition SSC_CR_RXDIS : Z := bit 1.
Definition SSC_CR_TXEN : Z := bit 8.
Definition SSC_CR_TXDIS : Z := bit 9.
Definition SSC_CR_SWRST : Z := bit 15.
Definition SSC_CMR_DIV (value : Z) : Z := field (Z.shiftl 0xfff 0) 0 value.
Definition SSC_RCMR_START_RF_FALLING : Z := Z.shiftl 0x4 8.
Definition SSC_RCMR_START_RF_RISING : Z := Z.shiftl 0x5 8.
Definition SSC_RCMR_START_RF_EDGE : Z := Z.shiftl 0x7 8.
Definition SSC_RCMR_STOP : Z := bit 12.
Definition SSC_RCMR_STTDLY (value : Z) : Z := field (Z.shiftl 0xff 16) 16 value.
Definition SSC_RCMR_PERIOD (value : Z) : Z := field (Z.shiftl 0xff 24) 24 value.
Definition SSC_RFMR_DATLEN (value : Z) : Z := field (Z.shiftl 0x1f 0) 0 value.
Definition SSC_RFMR_LOOP : Z := bit 5.
Definition SSC_RFMR_DATNB (value : Z) : Z := field (Z.shiftl 0xf 8) 8 value.
Definition SSC_RFMR_FSLEN (value : Z) : Z := field (Z.shiftl 0xf 16) 16 value.
Definition SSC_RFMR_FSLEN_EXT (value : Z) : Z := field (Z.shiftl 0xf 28) 28 value.
Definition SSC_TCMR_CKS_MCK : Z := Z.shiftl 0x0 0.
Definition SSC_TCMR_CKO_NONE : Z := Z.shiftl 0x0 2.
Definition SSC_TCMR_CKO_CONTINUOUS : Z := Z.shiftl 0x1 2.
Definition SSC_TCMR_START_TF_FALLING : Z := Z.shiftl 0x4 8.
Definition SSC_TCMR_START_TF_RISING : Z := Z.shiftl 0x5 8.
Definition SSC_TCMR_START_TF_EDGE : Z := Z.shiftl 0x7 8.
Definition SSC_TCMR_STTDLY (value : Z) : Z := field (Z.shiftl 0xff 16) 16 value.
Definition SSC_TCMR_PERIOD (value : Z) : Z := field (Z.shiftl 0xff 24) 24 value.
Definition SSC_TFMR_DATDEF : Z := bit 5.
Definition SSC_TFMR_MSBF : Z := bit 7.
Definition SSC_TFMR_DATNB (value : Z) : Z := field (Z.shiftl 0xf 8) 8 value.
Definition SSC_TFMR_FSLEN (value : Z) : Z := field (Z.shiftl 0xf 16) 16 value.
Definition SSC_TFMR_FSOS_NONE : Z := Z.shiftl 0x0 20.
Definition SSC_TFMR_FSOS_NEGATIVE : Z := Z.shiftl 0x1 20.
Definition SSC_TFMR_FSDEN : Z := bit 23.
Definition SSC_TFMR_FSEDGE_POSITIVE : Z := Z.shiftl 0x0 24.
Definition SSC_TFMR_FSLEN_EXT (value : Z) : Z := field (Z.shiftl 0xf 28) 28 value.
Definition SSC_SR_TXRDY : Z := bit 0.
Definition SSC_SR_TXEMPTY : Z := bit 1.
Definition SSC_SR_ENDTX : Z := bit 2.
Definition SSC_SR_TXBUFE : Z := bit 3.
Definition SSC_SR_RXRDY : Z := bit 4.
Definition SSC_SR_ENDRX : Z := bit 6.
Definition SSC_SR_RXBUFF : Z := bit 7.
Definition SSC_SR_TXEN : Z := bit 16.
Definition SSC_SR_RXEN : Z := bit 17.
Definition SSC_WPMR_WPEN : Z := bit 0.
Definition SSC_WPMR_WPKEY_PASSWD : Z := field (Z.shiftl 0xffffff 8) 8 0x535343.
Definition SSC_WPSR_WPVS : Z := bit 0.
Definition SSC_WPSR_WPVSRC_Msk : Z := Z.shiftl 0xffff 8.
Definition SSC_WPSR_WPVSRC_Pos : Z := 8.
Definition SSC_RX_STOP_COMPARE_0 : Z := 0.
Definition SSC_RX_STOP_COMPARE_0_1 : Z := 1.
Definition COMPARE_ID0 : Z := 0.
Definition COMPARE_ID1 : Z := 1.
Definition SSC_DEFAULT_TIMEOUT : nat := Z.to_nat 10000.
Definition SSC_RC_OK : Z := 0.
Definition SSC_RC_YES : Z := 0.
Definition SSC_RC_NO : Z := 1.
Definition SSC_RC_ERROR : Z := 1.
Definition SSC_RC_INVALID : Z := 0xFFFFFFFF.
Definition SSC_I2S_MASTER_OUT : Z := bit 0.
Definition SSC_I2S_MASTER_IN : Z := bit 1.
Definition SSC_I2S_SLAVE_OUT : Z := bit 2.
Definition SSC_I2S_SLAVE_IN : Z := bit 3.
Definition SSC_AUDIO_CH_LEFT : Z := bit 0.
Definition SSC_AUDIO_CH_RIGHT : Z := bit 1.
Definition SSC_AUDIO_MONO_LEFT : Z := SSC_AUDIO_CH_LEFT.
Definition SSC_AUDIO_MONO_RIGHT : Z := SSC_AUDIO_CH_RIGHT.
Definition SSC_AUDIO_STERO : Z := Z.lor SSC_AUDIO_CH_LEFT SSC_AUDIO_CH_RIGHT.

Record clock_opt := ClockOpt { ul_cks : Z; ul_cko : Z; ul_cki : Z; ul_ckg : Z; ul_period : Z; ul_sttdly : Z; ul_start_sel : Z }.
Record data_frame_opt := DataFrameOpt {
  ul_datlen : Z; ul_msbf : Z; ul_datnb : Z; ul_fslen : Z; ul_fslen_ext : Z; ul_fsos : Z; ul_fsedge : Z;
}.

(** The start condition of a channel mode; another mode leaves the cleared
    structure as it is. *)
Definition start_sel (rising falling edge ul_ch_mode : Z) : Z :=
  if ul_ch_mode =? SSC_AUDIO_MONO_RIGHT then rising
  else if ul_ch_mode =? SSC_AUDIO_MONO_LEFT then falling
  else if ul_ch_mode =? SSC_AUDIO_STERO then edge
  else 0.
(** The structures as a master and as a slave fill them, and cleared. *)
Definition master_options (start ul_ch_mode ul_datlen : Z) : clock_opt * data_frame_opt :=
  (ClockOpt SSC_TCMR_CKS_MCK SSC_TCMR_CKO_CONTINUOUS 0 0 (u32 (ul_datlen - 1)) 1 start,
   DataFrameOpt (u32 (ul_datlen - 1)) SSC_TFMR_MSBF (if SSC_AUDIO_STERO =? ul_ch_mode then 1 else 0) (u32 (ul_datlen - 1)) 0
     SSC_TFMR_FSOS_NEGATIVE SSC_TFMR_FSEDGE_POSITIVE).
Definition slave_options (start ul_cks ul_datlen : Z) : clock_opt * data_frame_opt :=
  (ClockOpt ul_cks SSC_TCMR_CKO_NONE 0 0 0 1 start, DataFrameOpt (u32 (ul_datlen - 1)) SSC_TFMR_MSBF 0 0 0 SSC_TFMR_FSOS_NONE SSC_TFMR_FSEDGE_POSITIVE).
Definition cleared_options (start : Z) : clock_opt * data_frame_opt := (ClockOpt 0 0 0 0 0 0 start, DataFrameOpt 0 0 0 0 0 0 0).

Definition lor_all (l : list Z) : Z := fold_left Z.lor l 0.
Definition rx_clock_word (o : clock_opt) : Z :=
  lor_all [ul_cks o; ul_cko o; ul_cki o; ul_ckg o; ul_start_sel o; SSC_RCMR_PERIOD (ul_period o); SSC_RCMR_STTDLY (ul_sttdly o)].
Definition rx_frame_word (o : data_frame_opt) : Z :=
  lor_all [SSC_RFMR_DATLEN (ul_datlen o); ul_msbf o; SSC_RFMR_DATNB (ul_datnb o); SSC_RFMR_FSLEN (ul_fslen o); SSC_RFMR_FSLEN_EXT (ul_fslen_ext o); ul_fsos o; ul_fsedge o].
Definition tx_clock_word (o : clock_opt) : Z :=
  lor_all [ul_cks o; ul_cko o; ul_cki o; ul_ckg o; ul_start_sel o; SSC_TCMR_PERIOD (ul_period o); SSC_TCMR_STTDLY (ul_sttdly o)].
Definition tx_frame_word (o : data_frame_opt) : Z :=
  lor_all [SSC_RFMR_DATLEN (ul_datlen o); ul_msbf o; SSC_TFMR_DATNB (ul_datnb o); SSC_TFMR_FSLEN (ul_fslen o); SSC_TFMR_FSLEN_EXT (ul_fslen_ext o); ul_fsos o; ul_fsedge o].

Section Ssc.
Context {S : Type} `{!Hardware ssc_reg, !HasLog ssc_reg S}.

Definition ssc_set_clock_divider (ul_bitrate ul_mck : Z) : M S Z :=
  if ctrue ul_mck && ctrue ul_bitrate then
    wrr SSC_CMR (SSC_CMR_DIV (Z.shiftr (u32 (ul_mck + ul_bitrate) / ul_bitrate) 1));; mret SSC_RC_YES
  else mret SSC_RC_NO.
Definition ssc_set_td_default_level (ul_level : Z) : M S unit := if ctrue ul_level then orr SSC_TFMR SSC_TFMR_DATDEF else clrr SSC_TFMR SSC_TFMR_DATDEF.
(** A null pointer is [None]. *)
Definition configure (r : ssc_reg) (word : option Z) : M S unit := match word with None => wrr r 0 | Some v => orr r v end.
Definition ssc_set_receiver (p_rx_clk_opt : option clock_opt) (p_rx_data_frame : option data_frame_opt) : M S unit :=
  configure SSC_RCMR (rx_clock_word <$> p_rx_clk_opt);; configure SSC_RFMR (rx_frame_word <$> p_rx_data_frame).
Definition ssc_set_transmitter (p_tx_clk_opt : option clock_opt) (p_tx_data_frame : option data_frame_opt) : M S unit :=
  configure SSC_TCMR (tx_clock_word <$> p_tx_clk_opt);; configure SSC_TFMR (tx_frame_word <$> p_tx_data_frame).
Definition ssc_i2s_set_transmitter (ul_mode ul_cks ul_ch_mode ul_datlen : Z) : M S unit :=
  let start := start_sel SSC_TCMR_START_TF_RISING SSC_TCMR_START_TF_FALLING SSC_TCMR_START_TF_EDGE ul_ch_mode in
  let '(clk, frame) :=
    if ctrue (Z.land ul_mode SSC_I2S_MASTER_OUT) then master_options start ul_ch_mode ul_datlen
    else if ctrue (Z.land ul_mode SSC_I2S_SLAVE_OUT) then slave_options start ul_cks ul_datlen
    else cleared_options start in
  ssc_set_td_default_level 0;;
  ssc_set_transmitter (Some clk) (Some frame).
Definition ssc_i2s_set_receiver (ul_mode ul_cks ul_ch_mode ul_datlen : Z) : M S unit :=
  let start := start_sel SSC_RCMR_START_RF_RISING SSC_RCMR_START_RF_FALLING SSC_RCMR_START_RF_EDGE ul_ch_mode in
  let '(clk, frame) :=
    if ctrue (Z.land ul_mode SSC_I2S_MASTER_IN) then master_options start ul_ch_mode ul_datlen
    else if ctrue (Z.land ul_mode SSC_I2S_SLAVE_IN) then slave_options start ul_cks ul_datlen
    else cleared_options start in
  ssc_set_receiver (Some clk) (Some frame).
Definition ssc_reset : M S unit :=
  wrr SSC_CR SSC_CR_SWRST;; wrr SSC_CMR 0;; wrr SSC_RCMR 0;; wrr SSC_RFMR 0;; wrr SSC_TCMR 0;; wrr SSC_TFMR 0.
Definition ssc_enable_rx : M S unit := wrr SSC_CR SSC_CR_RXEN.
Definition ssc_disable_rx : M S unit := wrr SSC_CR SSC_CR_RXDIS.
Definition ssc_enable_tx : M S unit := wrr SSC_CR SSC_CR_TXEN.
Definition ssc_disable_tx : M S unit := wrr SSC_CR SSC_CR_TXDIS.
Definition ssc_set_normal_mode : M S unit := clrr SSC_RFMR SSC_RFMR_LOOP.
Definition ssc_set_loop_mode : M S unit := orr SSC_RFMR SSC_RFMR_LOOP.
Definition ssc_set_rx_stop_selection (ul_sel : Z) : M S unit :=
  if SSC_RX_STOP_COMPARE_0_1 =? ul_sel then orr SSC_RCMR SSC_RCMR_STOP
  else if SSC_RX_STOP_COMPARE_0 =? ul_sel then clrr SSC_RCMR SSC_RCMR_STOP
  else mret tt.
Definition ssc_enable_tx_frame_sync_data : M S unit := orr SSC_TFMR SSC_TFMR_FSDEN.
Definition ssc_disable_tx_frame_sync_data : M S unit := clrr SSC_TFMR SSC_TFMR_FSDEN.
Definition ssc_set_rx_compare (ul_id ul_value : Z) : M S unit :=
  if ul_id =? COMPARE_ID0 then wrr SSC_RC0R ul_value else if ul_id =? COMPARE_ID1 then wrr SSC_RC1R ul_value else mret tt.
Definition ssc_get_rx_compare (ul_id : Z) : M S Z :=
  if ul_id =? COMPARE_ID0 then rdr SSC_RC0R else if ul_id =? COMPARE_ID1 then rdr SSC_RC1R else mret SSC_RC_INVALID.
Definition ssc_enable_interrupt (ul_sources : Z) : M S unit := wrr SSC_IER ul_sources.
Definition ssc_disable_interrupt (ul_sources : Z) : M S unit := wrr SSC_IDR ul_sources.
Definition ssc_get_interrupt_mask : M S Z := rdr SSC_IMR.
Definition ssc_get_status : M S Z := rdr SSC_SR.
Definition status_is (msk : Z) : M S Z := x ← rdr SSC_SR; mret (if ctrue (Z.land x msk) then SSC_RC_YES else SSC_RC_NO).
Definition ssc_is_tx_ready : M S Z := status_is SSC_SR_TXRDY.
Definition ssc_is_tx_empty : M S Z := status_is SSC_SR_TXEMPTY.
Definition ssc_is_rx_ready : M S Z := status_is SSC_SR_RXRDY.
Definition ssc_is_tx_enabled : M S Z := status_is SSC_SR_TXEN.
Definition ssc_is_rx_enabled : M S Z := status_is SSC_SR_RXEN.
Definition ssc_is_rx_buf_end : M S Z := status_is SSC_SR_ENDRX.
Definition ssc_is_tx_buf_end : M S Z := status_is SSC_SR_ENDTX.
Definition ssc_is_rx_buf_full : M S Z := status_is SSC_SR_RXBUFF.
Definition ssc_is_tx_buf_empty : M S Z := status_is SSC_SR_TXBUFE.
Definition ssc_write (ul_frame : Z) : M S Z :=
  ok ← timed_wait SSC_DEFAULT_TIMEOUT SSC_SR SSC_SR_TXEMPTY;
  if ok : bool then wrr SSC_THR ul_frame;; mret SSC_RC_OK else mret SSC_RC_ERROR.
(** The result and what is stored. *)
Definition ssc_read : M S (Z * option Z) :=
  ok ← timed_wait SSC_DEFAULT_TIMEOUT SSC_SR SSC_SR_RXRDY;
  if ok : bool then ul_data ← rdr SSC_RHR; mret (SSC_RC_OK, Some ul_data) else mret (SSC_RC_ERROR, None).
Definition ssc_write_sync_data (ul_frame : Z) : M S unit := wrr SSC_TSHR ul_frame.
Definition ssc_read_sync_data : M S Z := rdr SSC_RSHR.
Definition ssc_set_writeprotect (ul_enable : Z) : M S unit :=
  if ctrue ul_enable then wrr SSC_WPMR (Z.lor SSC_WPMR_WPKEY_PASSWD SSC_WPMR_WPEN) else wrr SSC_WPMR SSC_WPMR_WPKEY_PASSWD.
Definition ssc_get_writeprotect_status : M S Z :=
  ul_reg_val ← rdr SSC_WPSR;
  mret (if ctrue (Z.land ul_reg_val SSC_WPSR_WPVS) then Z.shiftr (Z.land ul_reg_val SSC_WPSR_WPVSRC_Msk) SSC_WPSR_WPVSRC_Pos else 0).
End Ssc.

(** ** Bus matrix *)

(** Registers by their offset. *)
Inductive matrix_reg := MATRIX (offset : Z).
#[global] Instance matrix_reg_eq_dec : EqDecision matrix_reg.
Proof. solve_decision. Defined.
#[global] Instance matrix_registers : Registers matrix_reg := 32.

Definition MATRIX_PRAS0 : matrix_reg := MATRIX 0x80.
Definition MATRIX_PRAS1 : matrix_reg := MATRIX 0x88.
Definition CCFG_SYSIO : matrix_reg := MATRIX 0x114.
Definition CCFG_SMCNFCS : matrix_reg := MATRIX 0x11C.
Definition MATRIX_WPMR : matrix_reg := MATRIX 0x1E4.
Definition MATRIX_WPSR : matrix_reg := MATRIX 0x1E8.
Definition MATRIX_MCFG_ULBT_Msk : Z := Z.shiftl 0x7 0.
Definition MATRIX_SCFG_SLOT_CYCLE_Msk : Z := Z.shiftl 0xff 0.
Definition MATRIX_SCFG_SLOT_CYCLE_Pos : Z := 0.
Definition MATRIX_SCFG_SLOT_CYCLE (value : Z) : Z := field MATRIX_SCFG_SLOT_CYCLE_Msk 0 value.
Definition MATRIX_SCFG_DEFMSTR_TYPE_Msk : Z := Z.shiftl 0x3 16.
Definition MATRIX_SCFG_FIXED_DEFMSTR_Msk : Z := Z.shiftl 0x7 18.
Definition MATRIX_SCFG_FIXED_DEFMSTR_Pos : Z := 18.
Definition MATRIX_SCFG_FIXED_DEFMSTR (value : Z) : Z := field MATRIX_SCFG_FIXED_DEFMSTR_Msk 18 value.
Definition MATRIX_SCFG_ARBT_Msk : Z := Z.shiftl 0x3 24.
Definition MATRIX_WPMR_WPEN : Z := bit 0.
Definition MATRIX_WPMR_WPKEY_PASSWD : Z := field (Z.shiftl 0xffffff 8) 8 0x4D4154.

Section Matrix.
Context {S : Type} `{!Hardware matrix_reg, !HasLog matrix_reg S}.

(** [MATRIX_MCFG[ul_id]] and [MATRIX_SCFG[ul_id]] of four and five registers. *)
Definition MATRIX_MCFG (ul_id : Z) : M S matrix_reg := if (0 <=? ul_id) && (ul_id <? 4) then mret (MATRIX (4 * ul_id)) else ub.
Definition MATRIX_SCFG (ul_id : Z) : M S matrix_reg := if (0 <=? ul_id) && (ul_id <? 5) then mret (MATRIX (0x40 + 4 * ul_id)) else ub.
(** The address of the priority register: no limit on [ul_id]. *)
Definition p_PRAS (ul_id : Z) : matrix_reg :=
  let '(MATRIX p0) := MATRIX_PRAS0 in let '(MATRIX p1) := MATRIX_PRAS1 in MATRIX (u32 (p0 + ul_id * (p1 - p0))).

Definition matrix_set_master_burst_type (ul_id burst_type : Z) : M S unit := r ← MATRIX_MCFG ul_id; updr r MATRIX_MCFG_ULBT_Msk burst_type.
Definition matrix_get_master_burst_type (ul_id : Z) : M S Z := r ← MATRIX_MCFG ul_id; x ← rdr r; mret (Z.land x MATRIX_MCFG_ULBT_Msk).
Definition matrix_set_slave_slot_cycle (ul_id ul_slot_cycle : Z) : M S unit :=
  r ← MATRIX_SCFG ul_id; updr r MATRIX_SCFG_SLOT_CYCLE_Msk (MATRIX_SCFG_SLOT_CYCLE ul_slot_cycle).
Definition matrix_get_slave_slot_cycle (ul_id : Z) : M S Z :=
  r ← MATRIX_SCFG ul_id; x ← rdr r; mret (Z.shiftr (Z.land x MATRIX_SCFG_SLOT_CYCLE_Msk) MATRIX_SCFG_SLOT_CYCLE_Pos).
Definition matrix_set_slave_default_master_type (ul_id type : Z) : M S unit := r ← MATRIX_SCFG ul_id; updr r MATRIX_SCFG_DEFMSTR_TYPE_Msk type.
Definition matrix_get_slave_default_master_type (ul_id : Z) : M S Z := r ← MATRIX_SCFG ul_id; x ← rdr r; mret (Z.land x MATRIX_SCFG_DEFMSTR_TYPE_Msk).
Definition matrix_set_slave_fixed_default_master (ul_id ul_fixed_id : Z) : M S unit :=
  r ← MATRIX_SCFG ul_id; updr r MATRIX_SCFG_FIXED_DEFMSTR_Msk (MATRIX_SCFG_FIXED_DEFMSTR ul_fixed_id).
Definition matrix_get_slave_fixed_default_master (ul_id : Z) : M S Z :=
  r ← MATRIX_SCFG ul_id; x ← rdr r; mret (Z.shiftr (Z.land x MATRIX_SCFG_FIXED_DEFMSTR_Msk) MATRIX_SCFG_FIXED_DEFMSTR_Pos).
Definition matrix_set_slave_arbitration_type (ul_id type : Z) : M S unit := r ← MATRIX_SCFG ul_id; updr r MATRIX_SCFG_ARBT_Msk type.
Definition matrix_get_slave_arbitration_type (ul_id : Z) : M S Z := r ← MATRIX_SCFG ul_id; x ← rdr r; mret (Z.land x MATRIX_SCFG_ARBT_Msk).
Definition matrix_set_slave_priority (ul_id ul_prio : Z) : M S unit := wrr (p_PRAS ul_id) ul_prio.
Definition matrix_get_slave_priority (ul_id : Z) : M S Z := rdr (p_PRAS ul_id).
Definition matrix_set_system_io (ul_io : Z) : M S unit := wrr CCFG_SYSIO ul_io.
Definition matrix_get_system_io : M S Z := rdr CCFG_SYSIO.
Definition matrix_set_nandflash_cs (ul_cs : Z) : M S unit := wrr CCFG_SMCNFCS ul_cs.
Definition matrix_get_nandflash_cs : M S Z := rdr CCFG_SMCNFCS.
Definition matrix_set_writeprotect (ul_enable : Z) : M S unit :=
  if ctrue ul_enable then wrr MATRIX_WPMR (Z.lor MATRIX_WPMR_WPKEY_PASSWD MATRIX_WPMR_WPEN) else wrr MATRIX_WPMR MATRIX_WPMR_WPKEY_PASSWD.
Definition matrix_get_writeprotect_status : M S Z := rdr MATRIX_WPSR.
End Matrix.

(** ** The configuration of a slave *)

(** The four fields as a record, and as the register holds them. *)
Record slave := Slave { slot_cycle : Z; master_type : Z; fixed_master : Z; arbitration : Z }.
Definition part (x p w : Z) : Z := (x / 2 ^ p) mod 2 ^ w.
Definition slave_of (x : Z) : slave := Slave (part x 0 8) (part x 16 2) (part x 18 3) (part x 24 2).

Inductive slave_op := SetSlot (id v : Z) | SetType (id v : Z) | SetFixed (id v : Z) | SetArbitration (id v : Z).
Definition slave_op_ok (o : slave_op) : Prop :=
  match o with
  | SetSlot id v => 0 <= id < 5 /\ 0 <= v < 256 | SetType id v => 0 <= id < 5 /\ 0 <= v < 4
  | SetFixed id v => 0 <= id < 5 /\ 0 <= v < 8 | SetArbitration id v => 0 <= id < 5 /\ 0 <= v < 4
  end.
(** The specification: one field of one slave changes. *)
Definition spec_slave_op (o : slave_op) (f : Z -> slave) : Z -> slave :=
  match o with
  | SetSlot id v => fun i => if i =? id then Slave v (master_type (f i)) (fixed_master (f i)) (arbitration (f i)) else f i
  | SetType id v => fun i => if i =? id then Slave (slot_cycle (f i)) v (fixed_master (f i)) (arbitration (f i)) else f i
  | SetFixed id v => fun i => if i =? id then Slave (slot_cycle (f i)) (master_type (f i)) v (arbitration (f i)) else f i
  | SetArbitration id v => fun i => if i =? id then Slave (slot_cycle (f i)) (master_type (f i)) (fixed_master (f i)) v else f i
  end.
Definition spec_slave_ops (l : list slave_op) (f : Z -> slave) : Z -> slave := fold_left (fun f o => spec_slave_op o f) l f.

(** Writing one field of a word. *)
Lemma part_bits x p w i : 0 <= p -> 0 <= w -> 0 <= i -> Z.testbit (part x p w) i = (i <? w) && Z.testbit x (i + p).
Proof.
  intros Hp Hw Hi. unfold part. rewrite <- Z.land_ones, Z.land_spec, Z.testbit_ones_nonneg, <- Z.shiftr_div_pow2, Z.shiftr_spec by lia. apply andb_comm.
Qed.
Lemma updated_bits x v p w i : 0 <= p -> 0 <= w -> 0 <= v < 2 ^ w -> 0 <= i ->
  Z.testbit (Z.lor (Z.ldiff x (Z.shiftl (Z.ones w) p)) (v * 2 ^ p)) i =
  if (p <=? i) && (i <? p + w) then Z.testbit v (i - p) else Z.testbit x i.
Proof.
  intros Hp Hw Hv Hi. rewrite Z.lor_spec, Z.ldiff_spec, Z.shiftl_spec, Z.mul_pow2_bits by lia.
  destruct (Z.leb_spec p i) as [H1|H1]; cbn [andb].
  - rewrite Z.testbit_ones_nonneg by lia. destruct (Z.ltb_spec (i - p) w), (Z.ltb_spec i (p + w)); try lia; cbn [negb]; [by rewrite andb_false_r|].
    by rewrite (testbit_high w v) by lia; rewrite andb_true_r, orb_false_r.
  - rewrite (Z.testbit_neg_r (Z.ones w)), (Z.testbit_neg_r v) by lia. by rewrite andb_true_r, orb_false_r.
Qed.
Lemma part_same x v p w : 0 <= p -> 0 <= w -> 0 <= v < 2 ^ w -> part (Z.lor (Z.ldiff x (Z.shiftl (Z.ones w) p)) (v * 2 ^ p)) p w = v.
Proof.
  intros Hp Hw Hv. apply Z.bits_inj'. intros i Hi. rewrite part_bits, updated_bits by lia.
  destruct (Z.ltb_spec i w); cbn [andb]; [|by rewrite (testbit_high w v) by lia].
  destruct (Z.leb_spec p (i + p)), (Z.ltb_spec (i + p) (p + w)); try lia. cbn [andb]. f_equal. lia.
Qed.
Lemma part_other x v p w q u : 0 <= p -> 0 <= w -> 0 <= q -> 0 <= u -> 0 <= v < 2 ^ w -> q + u <= p \/ p + w <= q ->
  part (Z.lor (Z.ldiff x (Z.shiftl (Z.ones w) p)) (v * 2 ^ p)) q u = part x q u.
Proof.
  intros Hp Hw Hq Hu Hv Hd. apply Z.bits_inj'. intros i Hi. rewrite !part_bits, updated_bits by lia.
  destruct (Z.ltb_spec i u); cbn [andb]; [|done]. destruct (Z.leb_spec p (i + q)), (Z.ltb_spec (i + q) (p + w)); try lia; done.
Qed.
Lemma ldiff_range n a b : 0 <= n -> 0 <= a < 2 ^ n -> 0 <= Z.ldiff a b < 2 ^ n.
Proof.
  intros Hn Ha. assert (Z.ldiff a b mod 2 ^ n = Z.ldiff a b) as <-; [|apply Z.mod_pos_bound; lia].
  apply Z.bits_inj'. intros i Hi. rewrite <- Z.land_ones, Z.land_spec, Z.testbit_ones_nonneg, Z.ldiff_spec by lia.
  destruct (Z.ltb_spec i n); [apply andb_true_r|]. by rewrite (testbit_high n a) by lia.
Qed.

Lemma mask_back x w p : 0 <= p -> 0 <= w -> Z.shiftl (Z.shiftr (Z.land x (Z.shiftl (Z.ones w) p)) p) p = Z.land x (Z.shiftl (Z.ones w) p).
Proof.
  intros Hp Hw. apply Z.bits_inj'. intros i Hi. rewrite Z.shiftl_spec by lia. destruct (Z.ltb_spec i p).
  - rewrite Z.testbit_neg_r, Z.land_spec, (Z.shiftl_spec_low _ p i) by lia. by rewrite andb_false_r.
  - rewrite Z.shiftr_spec by lia. f_equal. lia.
Qed.

Section SlaveOps.
Context {S : Type} `{!Hardware matrix_reg, !HasLog matrix_reg S}.
Implicit Types s : S.

Definition run_slave_op (o : slave_op) : M S unit :=
  match o with
  | SetSlot id v => matrix_set_slave_slot_cycle id v
  | SetType id v => matrix_set_slave_default_master_type id (Z.shiftl v 16)
  | SetFixed id v => matrix_set_slave_fixed_default_master id v
  | SetArbitration id v => matrix_set_slave_arbitration_type id (Z.shiftl v 24)
  end.
Fixpoint run_slave_ops (l : list slave_op) : M S unit := match l with [] => mret tt | o :: l => run_slave_op o;; run_slave_ops l end.

Definition scfg (id : Z) : matrix_reg := MATRIX (0x40 + 4 * id).
Context (init : Z -> Z) (Hheld : forall id, holds_written (scfg id) (init id)).

Lemma seen_range s (r : matrix_reg) : 0 <= seen s r < 2 ^ 32.
Proof. apply Z.mod_pos_bound. done. Qed.

Lemma field_step id p w v s : 0 <= id < 5 -> 0 <= p -> 0 <= w -> p + w <= 32 -> 0 <= v < 2 ^ w ->
  exists s', updr (scfg id) (Z.shiftl (Z.ones w) p) (v * 2 ^ p) s = Ok (tt, s') /\
    forall i, seen s' (scfg i) = if i =? id then Z.lor (Z.ldiff (seen s (scfg id)) (Z.shiftl (Z.ones w) p)) (v * 2 ^ p) else seen s (scfg i).
Proof.
  intros Hid Hp Hw Hpw Hv. unfold updr. rewrite bind_rdr. eexists. split; [reflexivity|]. intros i.
  unfold seen at 1. rewrite !get_log_event, (Hheld i). destruct (Z.eqb_spec i id) as [->|Hne].
  - rewrite last_write_wr. cbn [from_option Datatypes.id]. rewrite rval_rval. apply Z.mod_small. change reg_bits with 32.
    apply lor_range; [lia|apply ldiff_range; [lia|apply seen_range]|].
    assert (2 ^ w * 2 ^ p <= 2 ^ 32) by (rewrite <- Z.pow_add_r by lia; apply Z.pow_le_mono_r; lia). nia.
  - rewrite last_write_wr_ne by (unfold scfg; injection 1; lia). rewrite last_write_rd. unfold seen. by rewrite (Hheld i).
Qed.

Lemma slave_op_step o s : slave_op_ok o ->
  exists s', run_slave_op o s = Ok (tt, s') /\ forall i, slave_of (seen s' (scfg i)) = spec_slave_op o (fun i => slave_of (seen s (scfg i))) i.
Proof.
  destruct o as [id v|id v|id v|id v]; cbn [slave_op_ok run_slave_op spec_slave_op]; intros [Hid Hv];
    [destruct (field_step id 0 8 v s) as (s' & H & Hs)|destruct (field_step id 16 2 v s) as (s' & H & Hs)|
     destruct (field_step id 18 3 v s) as (s' & H & Hs)|destruct (field_step id 24 2 v s) as (s' & H & Hs)]; try lia;
    exists s'; (split; [|intros i; rewrite Hs; destruct (Z.eqb_spec i id) as [->|]; [|done]; unfold slave_of; cbn [slot_cycle master_type fixed_master arbitration];
      rewrite part_same by lia; rewrite !part_other by lia; done]).
  - unfold matrix_set_slave_slot_cycle, MATRIX_SCFG. rewrite (proj2 (Z.leb_le 0 id)), (proj2 (Z.ltb_lt id 5)) by lia. cbn [andb]. rewrite bind_ret_l.
    unfold MATRIX_SCFG_SLOT_CYCLE, MATRIX_SCFG_SLOT_CYCLE_Msk. change 0xff with (Z.ones 8). rewrite field_ok by lia. exact H.
  - unfold matrix_set_slave_default_master_type, MATRIX_SCFG. rewrite (proj2 (Z.leb_le 0 id)), (proj2 (Z.ltb_lt id 5)) by lia. cbn [andb]. rewrite bind_ret_l.
    rewrite Z.shiftl_mul_pow2 by lia. exact H.
  - unfold matrix_set_slave_fixed_default_master, MATRIX_SCFG. rewrite (proj2 (Z.leb_le 0 id)), (proj2 (Z.ltb_lt id 5)) by lia. cbn [andb]. rewrite bind_ret_l.
    unfold MATRIX_SCFG_FIXED_DEFMSTR, MATRIX_SCFG_FIXED_DEFMSTR_Msk. change 0x7 with (Z.ones 3). rewrite field_ok by lia. exact H.
  - unfold matrix_set_slave_arbitration_type, MATRIX_SCFG. rewrite (proj2 (Z.leb_le 0 id)), (proj2 (Z.ltb_lt id 5)) by lia. cbn [andb]. rewrite bind_ret_l.
    rewrite Z.shiftl_mul_pow2 by lia. exact H.
Qed.

Lemma spec_slave_op_ext o f g : (forall i, f i = g i) -> forall i, spec_slave_op o f i = spec_slave_op o g i.
Proof. intros H i. by destruct o; cbn; rewrite H. Qed.
Lemma spec_slave_ops_ext l : forall f g, (forall i, f i = g i) -> forall i, spec_slave_ops l f i = spec_slave_ops l g i.
Proof. induction l as [|o l IH]; intros f g H i; [apply H|]. apply IH. by apply spec_slave_op_ext. Qed.

Lemma slave_ops_run l : forall s, Forall slave_op_ok l ->
  exists s', run_slave_ops l s = Ok (tt, s') /\ forall i, slave_of (seen s' (scfg i)) = spec_slave_ops l (fun i => slave_of (seen s (scfg i))) i.
Proof.
  induction l as [|o l IH]; intros s Hl; [by exists s|]. apply Forall_cons in Hl as [Ho Hl].
  destruct (slave_op_step o s Ho) as (s1 & H1 & Hs1). destruct (IH s1 Hl) as (s2 & H2 & Hs2). exists s2. cbn [run_slave_ops]. mstep H1.
  split; [exact H2|]. intros i. rewrite Hs2. cbn [spec_slave_ops fold_left]. by apply spec_slave_ops_ext.
Qed.
End SlaveOps.

(** The configuration registers of the slaves implement four independent fields
    per slave: whatever sequence of the four setters runs, with values in range,
    every getter then returns the field as the specification has it, for every
    slave. *)
Theorem matrix_slaves_refine {S} `{!Hardware matrix_reg, !HasLog matrix_reg S} (init : Z -> Z) l id (s : S) :
  (forall i, holds_written (scfg i) (init i)) -> Forall slave_op_ok l -> 0 <= id < 5 ->
  let f := spec_slave_ops l (fun i => slave_of (seen s (scfg i))) in
  exists s', run_slave_ops l s = Ok (tt, s') /\
    (exists s1, matrix_get_slave_slot_cycle id s' = Ok (slot_cycle (f id), s1)) /\
    (exists s1, matrix_get_slave_default_master_type id s' = Ok (Z.shiftl (master_type (f id)) 16, s1)) /\
    (exists s1, matrix_get_slave_fixed_default_master id s' = Ok (fixed_master (f id), s1)) /\
    (exists s1, matrix_get_slave_arbitration_type id s' = Ok (Z.shiftl (arbitration (f id)) 24, s1)).
Proof.
  intros Hheld Hl Hid f. destruct (slave_ops_run init Hheld l s Hl) as (s' & H & Hs). exists s'. split; [exact H|].
  unfold f. rewrite <- Hs. cbn [slave_of slot_cycle master_type fixed_master arbitration]. unfold part.
  unfold matrix_get_slave_slot_cycle, matrix_get_slave_default_master_type, matrix_get_slave_fixed_default_master, matrix_get_slave_arbitration_type, MATRIX_SCFG.
  rewrite (proj2 (Z.leb_le 0 id)), (proj2 (Z.ltb_lt id 5)) by lia. cbn [andb]. rewrite !bind_ret_l, !bind_rdr. fold (scfg id).
  rewrite <- !field_get, !mask_back by lia. split_and!; eexists; reflexivity.
Qed.

(** Two slaves are set up and the second is changed again. *)
Definition sample_ops : list slave_op := [SetSlot 0 200; SetType 1 2; SetFixed 1 5; SetArbitration 1 1; SetFixed 1 3].
#[local] Instance memory_matrix : Hardware matrix_reg := fun l r => default 0 (last_write r l).
#[local] Program Instance matrix_state : HasLog matrix_reg (list (access matrix_reg)) := {| get_log l := l; put_log l _ := l |}.
Next Obligation. done. Qed.
Next Obligation. done. Qed.
Next Obligation. done. Qed.

Lemma matrix_slaves_refine_witness :
  exists s', run_slave_ops sample_ops [] = Ok (tt, s') /\
    (exists s1, matrix_get_slave_slot_cycle 1 s' = Ok (0, s1)) /\
    (exists s1, matrix_get_slave_default_master_type 1 s' = Ok (Z.shiftl 2 16, s1)) /\
    (exists s1, matrix_get_slave_fixed_default_master 1 s' = Ok (3, s1)) /\
    (exists s1, matrix_get_slave_arbitration_type 1 s' = Ok (Z.shiftl 1 24, s1)).
Proof.
  refine (matrix_slaves_refine (S := list (access matrix_reg)) (fun _ => 0) sample_ops 1 [] _ _ _); [done| |lia].
  repeat constructor; vm_compute; congruence.
Defined.
