(* ===== verification/SamSleep.v ===== *)
(** * Sleep modes of the ATSAM4S (platforms/atsam4s/asf/src/sleep.c)

    Sleep, wait and backup mode with the clocks saved before and restored after
    wait mode. Barriers and the wait for an interrupt have no effect on registers;
    what an interrupt handler does at wake-up is a parameter. A callback is
    recorded with the history of register accesses at its call. *)

From S2P Require Import Prelude Mmio SamDev SamAsf SamPmc.
From stdpp Require Import base list gmap sets.
From Stdlib Require Import ZArith Lia.
Local Open Scope Z_scope.

Definition SAM_PM_SMODE_SLEEP_WFE : Z := 1.
Definition SAM_PM_SMODE_SLEEP_WFI : Z := 2.
Definition SAM_PM_SMODE_WAIT_FAST : Z := 3.
Definition SAM_PM_SMODE_WAIT : Z := 4.
Definition SAM_PM_SMODE_BACKUP : Z := 5.
Definition SCR_SLEEPDEEP : Z := bit 2.
Definition PMC_FSMR_FLPM_FLASH_STANDBY : Z := Z.shiftl 0x0 21.
Definition PMC_FSMR_FLPM_FLASH_DEEP_POWERDOWN : Z := Z.shiftl 0x1 21.
Definition EEFC_FMR_FWS_Msk : Z := Z.shiftl 0xf 8.
Definition CKGR_PLLAR_MULA_Msk : Z := Z.shiftl 0x7ff 16.
Definition CKGR_PLLBR_MULB_Msk : Z := Z.shiftl 0x7ff 16.

Record clock_settings := ClockSettings { osc_setting : Z; pll0_setting : Z; pll1_setting : Z; mck_setting : Z; fmr_setting : Z }.

Section Clocks.
Context `{!Hardware sam_reg}.
Context (fuel : nat).

(** The clock tree is taken to the fast RC oscillator. *)
Definition pmc_save_clock_settings (disable_xtal : bool) : S_ clock_settings :=
  mor ← rdr CKGR_MOR;
  mckr ← rdr PMC_MCKR;
  fmr ← rdr EEFC_FMR;
  pll0 ← rdr CKGR_PLLAR;
  pll1 ← rdr CKGR_PLLBR;
  wrr CKGR_MOR (Z.lor (Z.lor CKGR_MOR_KEY_PASSWD mor) CKGR_MOR_MOSCRCEN);;
  mckr' ← (if PMC_MCKR_CSS_MAIN_CLK <? Z.land mckr PMC_MCKR_CSS_Msk then
             let mckr := Z.lor (Z.ldiff mckr PMC_MCKR_CSS_Msk) PMC_MCKR_CSS_MAIN_CLK in
             wrr PMC_MCKR mckr;; wait_set fuel PMC_SR PMC_SR_MCKRDY;; mret mckr
           else mret mckr);
  (if ctrue (Z.land mckr' PMC_MCKR_PRES_Msk) then
     wrr PMC_MCKR (Z.ldiff mckr' PMC_MCKR_PRES_Msk);; wait_set fuel PMC_SR PMC_SR_MCKRDY
   else mret tt);;
  pmc_disable_pllack;;
  pmc_disable_pllbck;;
  wait_set fuel PMC_SR PMC_SR_MOSCRCS;;
  updr CKGR_MOR CKGR_MOR_MOSCSEL CKGR_MOR_KEY_PASSWD;;
  wait_set fuel PMC_SR PMC_SR_MOSCSELS;;
  wrr EEFC_FMR (Z.ldiff fmr EEFC_FMR_FWS_Msk);;
  (if disable_xtal then updr CKGR_MOR CKGR_MOR_MOSCXTEN CKGR_MOR_KEY_PASSWD else mret tt);;
  mret (ClockSettings mor pll0 pll1 mckr fmr).

(** The steps of [pmc_restore_clock_setting]: the oscillator, the PLLs with the
    lock bits to wait for, the wait for the PLL that is selected, and the master
    clock with the wait states of the flash. *)
Definition restore_osc (osc_setting : Z) : S_ unit :=
  if CKGR_MOR_MOSCXTBY =? Z.land osc_setting CKGR_MOR_MOSCXTBY then
    updr CKGR_MOR CKGR_MOR_MOSCXTEN (Z.lor (Z.lor CKGR_MOR_KEY_PASSWD CKGR_MOR_MOSCXTBY) CKGR_MOR_MOSCSEL);;
    updr CKGR_MOR (Z.lor CKGR_MOR_MOSCRCEN CKGR_MOR_MOSCRCF_Msk) CKGR_MOR_KEY_PASSWD
  else if CKGR_MOR_MOSCXTEN =? Z.land osc_setting CKGR_MOR_MOSCXTEN then
    x ← rdr CKGR_MOR;
    (if ctrue (Z.land x CKGR_MOR_MOSCXTEN) then mret tt
     else updr CKGR_MOR CKGR_MOR_MOSCXTBY (Z.lor CKGR_MOR_KEY_PASSWD CKGR_MOR_MOSCXTEN);; wait_set fuel PMC_SR PMC_SR_MOSCXTS);;
    y ← rdr CKGR_MOR;
    (if ctrue (Z.land y CKGR_MOR_MOSCSEL) then mret tt
     else orr CKGR_MOR (Z.lor CKGR_MOR_KEY_PASSWD CKGR_MOR_MOSCSEL);; wait_set fuel PMC_SR PMC_SR_MOSCSELS);;
    updr CKGR_MOR (Z.lor CKGR_MOR_MOSCRCEN CKGR_MOR_MOSCRCF_Msk) CKGR_MOR_KEY_PASSWD
  else mret tt.
Definition restore_plls (pll0_setting pll1_setting : Z) : S_ Z :=
  a ← (if ctrue (Z.land pll0_setting CKGR_PLLAR_MULA_Msk) then wrr CKGR_PLLAR (Z.lor CKGR_PLLAR_ONE pll0_setting);; mret PMC_SR_LOCKA else mret 0);
  b ← (if ctrue (Z.land pll1_setting CKGR_PLLBR_MULB_Msk) then wrr CKGR_PLLBR pll1_setting;; mret PMC_SR_LOCKB else mret 0);
  mret (Z.lor a b).
Definition wait_selected (mck_setting : Z) : S_ unit :=
  if Z.land mck_setting PMC_MCKR_CSS_Msk =? PMC_MCKR_CSS_PLLA_CLK then wait_set fuel PMC_SR PMC_SR_LOCKA
  else if Z.land mck_setting PMC_MCKR_CSS_Msk =? PMC_MCKR_CSS_PLLB_CLK then wait_set fuel PMC_SR PMC_SR_LOCKB
  else mret tt.
Definition restore_mck (mck_setting fmr_setting : Z) : S_ unit :=
  mckr ← rdr PMC_MCKR;
  wrr PMC_MCKR (Z.lor (Z.ldiff mckr PMC_MCKR_PRES_Msk) (Z.land mck_setting PMC_MCKR_PRES_Msk));;
  wait_set fuel PMC_SR PMC_SR_MCKRDY;;
  wrr EEFC_FMR fmr_setting;;
  wrr PMC_MCKR mck_setting;;
  wait_set fuel PMC_SR PMC_SR_MCKRDY.
Definition pmc_restore_clock_setting (c : clock_settings) : S_ unit :=
  restore_osc (osc_setting c);;
  pll_sr ← restore_plls (pll0_setting c) (pll1_setting c);
  wait_selected (mck_setting c);;
  restore_mck (mck_setting c) (fmr_setting c);;
  wait_set fuel PMC_SR pll_sr.
End Clocks.

(** ** The driver *)

Record sleep_state := SleepState {
  sl_sam : sam;
  ul_flash_in_wait_mode : Z;
  g_interrupt_enabled : bool;
  b_is_sleep_clock_used : bool;
  callback_clocks_restored : option Z;
  callbacks : list (Z * list (access sam_reg));
}.
Abbreviation L_ := (M sleep_state).
Definition on_sam {A} (c : S_ A) : L_ A := fun s =>
  match c (sl_sam s) with
  | Ok (a, m) =>
    Ok (a, SleepState m (ul_flash_in_wait_mode s) (g_interrupt_enabled s) (b_is_sleep_clock_used s) (callback_clocks_restored s) (callbacks s))
  | Ub => Ub
  | Spin => Spin
  end.
Definition pmc_set_flash_in_wait_mode (ul_flash_state : Z) : L_ unit := modify (fun s =>
  SleepState (sl_sam s) ul_flash_state (g_interrupt_enabled s) (b_is_sleep_clock_used s) (callback_clocks_restored s) (callbacks s)).
Definition set_enabled (b : bool) : L_ unit := modify (fun s =>
  SleepState (sl_sam s) (ul_flash_in_wait_mode s) b (b_is_sleep_clock_used s) (callback_clocks_restored s) (callbacks s)).
Definition set_used (b : bool) : L_ unit := modify (fun s =>
  SleepState (sl_sam s) (ul_flash_in_wait_mode s) (g_interrupt_enabled s) b (callback_clocks_restored s) (callbacks s)).
Definition set_callback (c : option Z) : L_ unit := modify (fun s =>
  SleepState (sl_sam s) (ul_flash_in_wait_mode s) (g_interrupt_enabled s) (b_is_sleep_clock_used s) c (callbacks s)).
Definition call_back (c : Z) : L_ unit := modify (fun s =>
  SleepState (sl_sam s) (ul_flash_in_wait_mode s) (g_interrupt_enabled s) (b_is_sleep_clock_used s) (callback_clocks_restored s)
    (callbacks s ++ [(c, s_log (sl_sam s))])).

Section Sleep.
Context `{!Hardware sam_reg}.
Context (fuel : nat).

Definition cpu_irq_enable : L_ unit := set_enabled true;; on_sam (wrr PRIMASK 0).
Definition cpu_irq_disable : L_ unit := on_sam (wrr PRIMASK 1);; set_enabled false.

Definition pmc_is_wakeup_clocks_restored : L_ bool := b ← gets b_is_sleep_clock_used; mret (negb b).
Definition pmc_wait_wakeup_clocks_restore (callback : option Z) : L_ unit :=
  used ← gets b_is_sleep_clock_used;
  if used : bool then cpu_irq_disable;; set_callback callback
  else match callback with Some c => call_back c | None => mret tt end.

(** What runs when an interrupt ends wait mode. *)
Context (on_wake : L_ unit).

Definition pmc_sleep (sleep_mode : Z) : L_ unit :=
  if (sleep_mode =? SAM_PM_SMODE_SLEEP_WFI) || (sleep_mode =? SAM_PM_SMODE_SLEEP_WFE) then
    on_sam (clrr SCB_SCR SCR_SLEEPDEEP);; cpu_irq_enable
  else if (sleep_mode =? SAM_PM_SMODE_WAIT_FAST) || (sleep_mode =? SAM_PM_SMODE_WAIT) then
    pmc_set_flash_in_wait_mode (if sleep_mode =? SAM_PM_SMODE_WAIT_FAST then PMC_FSMR_FLPM_FLASH_STANDBY else PMC_FSMR_FLPM_FLASH_DEEP_POWERDOWN);;
    cpu_irq_disable;;
    set_used true;;
    c ← on_sam (pmc_save_clock_settings fuel (sleep_mode =? SAM_PM_SMODE_WAIT));
    cpu_irq_enable;;
    flash ← gets ul_flash_in_wait_mode;
    on_sam (pmc_enable_waitmode fuel flash);;
    on_wake;;
    cpu_irq_disable;;
    on_sam (pmc_restore_clock_setting fuel c);;
    set_used false;;
    cb ← gets callback_clocks_restored;
    (match cb with Some c => call_back c;; set_callback None | None => mret tt end);;
    cpu_irq_enable
  else if sleep_mode =? SAM_PM_SMODE_BACKUP then
    on_sam (orr SCB_SCR SCR_SLEEPDEEP);;
    on_sam (wrr SUPC_CR (Z.lor SUPC_CR_KEY_PASSWD SUPC_CR_VROFF_STOP_VREG));;
    cpu_irq_enable
  else mret tt.
End Sleep.

(** ** Programs that return *)

Section Returns.
Context `{!Hardware sam_reg}.
Context (fuel : nat).

(** From every state, with some value; registers in [keep] are not written. *)
Definition returns {A} (keep : sam_reg -> bool) (c : S_ A) : Prop :=
  forall s, exists a s', c s = Ok (a, s') /\ forall r, keep r = true -> last_write r (s_log s') = last_write r (s_log s).

Lemma clk_returns_ret {A} keep (a : A) : returns keep (mret a).
Proof. intros s. by exists a, s. Qed.
Lemma returns_rdr keep r : returns keep (rdr r).
Proof. intros s. eexists _, _. split; [reflexivity|]. done. Qed.
Lemma returns_wrr keep r v : keep r = false -> returns keep (wrr r v).
Proof.
  intros Hk s. eexists _, _. split; [reflexivity|]. intros r' Hr'. cbn [log_event put_log sam_log s_log]. rewrite last_write_wr_ne; [done|]. congruence.
Qed.
Lemma clk_returns_bind {A B} keep (c : S_ A) (f : A -> S_ B) : returns keep c -> (forall a, returns keep (f a)) -> returns keep (c ≫= f).
Proof.
  intros Hc Hf s. destruct (Hc s) as (a & s1 & H1 & K1). destruct (Hf a s1) as (b & s2 & H2 & K2).
  exists b, s2. split; [by rewrite (bind_Ok _ _ _ _ _ H1)|]. intros r Hr. by rewrite K2, K1.
Qed.
Lemma returns_if {A} keep (b : bool) (c d : S_ A) : returns keep c -> returns keep d -> returns keep (if b then c else d).
Proof. by destruct b. Qed.
Lemma returns_orr keep r v : keep r = false -> returns keep (orr r v).
Proof. intros H. apply clk_returns_bind; [apply returns_rdr|]. intros x. by apply returns_wrr. Qed.
Lemma returns_updr keep r m v : keep r = false -> returns keep (updr r m v).
Proof. intros H. apply clk_returns_bind; [apply returns_rdr|]. intros x. by apply returns_wrr. Qed.

(** A wait for any bit of a mask ends when one of them comes up. *)
Lemma returns_wait keep r m n : 0 <= n -> Z.testbit m n = true -> comes_up (S := sam) fuel r (bit n) -> returns keep (wait_set fuel r m).
Proof.
  intros Hn Hm Hup s. specialize (Hup s). revert s Hup. induction fuel as [|k IH]; intros s H; cbn [wait_set reads_until] in *.
  all: destruct (ctrue (Z.land (seen s r) m)) eqn:Hc.
  1, 3: (eexists _, _; split; [rewrite bind_rdr, Hc; reflexivity|done]).
  all: assert ((Z.land (seen s r) (bit n) =? bit n) = false) as Hb.
  1, 3: rewrite land_bit_eqb by done; apply not_true_is_false; intros Ht;
        assert (Z.land (seen s r) m = 0) as E by (by apply Z.eqb_eq, negb_false_iff);
        apply (f_equal (fun z => Z.testbit z n)) in E; by rewrite Z.land_spec, Ht, Hm, Z.bits_0 in E.
  - by rewrite Hb in H.
  - rewrite Hb in H. destruct (IH _ H) as (a & s' & H1 & K). exists a, s'. split; [rewrite bind_rdr, Hc; exact H1|]. exact K.
Qed.

(** A wait for no bit never ends. *)
Lemma wait_nothing r s : wait_set fuel r 0 s = Spin.
Proof. apply wait_set_never. intros s'. by rewrite Z.land_0_r. Qed.
End Returns.

(** The status bits the code polls come up. *)
Definition clocks_start `{!Hardware sam_reg} (fuel : nat) : Prop :=
  Forall (fun n => comes_up (S := sam) fuel PMC_SR (bit n)) [0; 1; 2; 3; 16; 17] /\ comes_up (S := sam) fuel CKGR_MOR (bit 3).

Section Restores.
Context `{!Hardware sam_reg}.
Context (fuel : nat) (Hup : clocks_start fuel).

Lemma sr_up n : n ∈ [0; 1; 2; 3; 16; 17] -> comes_up (S := sam) fuel PMC_SR (bit n).
Proof. intros Hn. destruct Hup as [H _]. rewrite Forall_forall in H. by apply H. Qed.

Lemma returns_sr keep n : n ∈ [0; 1; 2; 3; 16; 17] -> returns keep (wait_set fuel PMC_SR (bit n)).
Proof.
  intros Hn. assert (0 <= n) by (set_unfold; lia). apply (returns_wait fuel keep PMC_SR (bit n) n); [done| |by apply sr_up].
  unfold bit. rewrite Z.shiftl_1_l. by apply Z.pow2_bits_true.
Qed.
End Restores.

Ltac returning :=
  repeat first
    [ apply clk_returns_ret | apply returns_rdr | apply returns_wrr; reflexivity | apply returns_orr; reflexivity | apply returns_updr; reflexivity
    | apply returns_sr; [assumption|set_solver] | apply returns_if | apply clk_returns_bind; [|intros ?] ].

Section Phases.
Context `{!Hardware sam_reg}.
Context (fuel : nat) (Hup : clocks_start fuel).

Lemma save_returns b : returns (fun _ => false) (pmc_save_clock_settings fuel b).
Proof. unfold pmc_save_clock_settings, pmc_disable_pllack, pmc_disable_pllbck, PMC_SR_MCKRDY, PMC_SR_MOSCRCS, PMC_SR_MOSCSELS. returning. Qed.
Lemma restore_osc_returns c : returns (fun _ => false) (restore_osc fuel c).
Proof. unfold restore_osc, PMC_SR_MOSCXTS, PMC_SR_MOSCSELS. returning. Qed.
Lemma wait_selected_returns keep c : returns keep (wait_selected fuel c).
Proof. unfold wait_selected, PMC_SR_LOCKA, PMC_SR_LOCKB. returning. Qed.
Lemma waitmode_returns v : returns (fun _ => false) (pmc_enable_waitmode fuel v).
Proof.
  unfold pmc_enable_waitmode, PMC_SR_MCKRDY. returning.
  apply (returns_wait fuel _ CKGR_MOR (bit 3) 3); [done|done|]. apply Hup.
Qed.
End Phases.

(** ** Wait mode *)

(** A PLL was on when the settings were saved, and the registers as the settings
    have them. *)
Definition pll_running (c : clock_settings) : bool :=
  ctrue (Z.land (pll0_setting c) CKGR_PLLAR_MULA_Msk) || ctrue (Z.land (pll1_setting c) CKGR_PLLBR_MULB_Msk).
Definition restored (c : clock_settings) (l : list (access sam_reg)) : Prop :=
  last_write PMC_MCKR l = Some (u32 (mck_setting c)) /\ last_write EEFC_FMR l = Some (u32 (fmr_setting c)) /\
  (ctrue (Z.land (pll0_setting c) CKGR_PLLAR_MULA_Msk) = true -> last_write CKGR_PLLAR l = Some (u32 (Z.lor CKGR_PLLAR_ONE (pll0_setting c)))) /\
  (ctrue (Z.land (pll1_setting c) CKGR_PLLBR_MULB_Msk) = true -> last_write CKGR_PLLBR l = Some (u32 (pll1_setting c))).

(** The registers the last steps leave alone, and everything. *)
Definition not_mck (r : sam_reg) : bool := negb (bool_decide (r = PMC_MCKR) || bool_decide (r = EEFC_FMR)).
Definition every (r : sam_reg) : bool := true.

Section Wait.
Context `{!Hardware sam_reg}.
Context (fuel : nat) (Hup : clocks_start fuel).

Lemma restore_mck_ok mck fmr (s : sam) :
  exists s', restore_mck fuel mck fmr s = Ok (tt, s') /\ last_write PMC_MCKR (s_log s') = Some (u32 mck) /\ last_write EEFC_FMR (s_log s') = Some (u32 fmr) /\
    forall r, not_mck r = true -> last_write r (s_log s') = last_write r (s_log s).
Proof.
  unfold restore_mck. rewrite bind_rdr, bind_wrr.
  match goal with |- exists s', (wait_set _ _ _ ≫= _) ?s1 = _ /\ _ => destruct (returns_sr fuel Hup every 3 ltac:(set_solver) s1) as ([] & s2 & H2 & K2) end.
  change PMC_SR_MCKRDY with (bit 3). mstep H2. rewrite !bind_wrr.
  match goal with |- exists s', wait_set _ _ _ ?s1 = _ /\ _ => destruct (returns_sr fuel Hup every 3 ltac:(set_solver) s1) as ([] & s3 & H3 & K3) end.
  exists s3. split; [exact H3|]. unfold every in *.
  split; [rewrite K3 by done; cbn [log_event put_log get_log sam_log s_log]; by rewrite last_write_wr|].
  split; [rewrite K3 by done; cbn [log_event put_log get_log sam_log s_log]; by rewrite last_write_wr_ne, last_write_wr by done|].
  intros r Hr. unfold not_mck in Hr. apply negb_true_iff, orb_false_iff in Hr as [H4%bool_decide_eq_false H5%bool_decide_eq_false].
  rewrite K3 by done. cbn [log_event put_log get_log sam_log s_log]. rewrite !last_write_wr_ne, K2 by congruence.
  cbn [log_event put_log get_log sam_log s_log]. by rewrite last_write_wr_ne, last_write_rd by congruence.
Qed.

Lemma restore_plls_ok p0 p1 (s : sam) :
  exists s', restore_plls p0 p1 s = Ok (Z.lor (if ctrue (Z.land p0 CKGR_PLLAR_MULA_Msk) then PMC_SR_LOCKA else 0)
                                       (if ctrue (Z.land p1 CKGR_PLLBR_MULB_Msk) then PMC_SR_LOCKB else 0), s') /\
    (ctrue (Z.land p0 CKGR_PLLAR_MULA_Msk) = true -> last_write CKGR_PLLAR (s_log s') = Some (u32 (Z.lor CKGR_PLLAR_ONE p0))) /\
    (ctrue (Z.land p1 CKGR_PLLBR_MULB_Msk) = true -> last_write CKGR_PLLBR (s_log s') = Some (u32 p1)).
Proof.
  unfold restore_plls. destruct (ctrue (Z.land p0 _)), (ctrue (Z.land p1 _)); eexists; (split; [reflexivity|]);
    cbn [log_event put_log get_log sam_log s_log]; split; try done; intros _; rewrite ?last_write_wr_ne, ?last_write_wr by done; rewrite ?last_write_wr; done.
Qed.

(** Up to the last wait, the settings are restored. *)
Lemma restore_to_lock c (s : sam) :
  exists s', pmc_restore_clock_setting fuel c s =
      wait_set fuel PMC_SR (Z.lor (if ctrue (Z.land (pll0_setting c) CKGR_PLLAR_MULA_Msk) then PMC_SR_LOCKA else 0)
                                  (if ctrue (Z.land (pll1_setting c) CKGR_PLLBR_MULB_Msk) then PMC_SR_LOCKB else 0)) s' /\ restored c (s_log s').
Proof.
  unfold pmc_restore_clock_setting. destruct (restore_osc_returns fuel Hup (osc_setting c) s) as ([] & s1 & H1 & _). mstep H1.
  destruct (restore_plls_ok (pll0_setting c) (pll1_setting c) s1) as (s2 & H2 & A2 & B2). mstep H2.
  destruct (wait_selected_returns fuel Hup every (mck_setting c) s2) as ([] & s3 & H3 & K3). mstep H3.
  destruct (restore_mck_ok (mck_setting c) (fmr_setting c) s3) as (s4 & H4 & M4 & F4 & K4). mstep H4.
  exists s4. split; [done|]. split; [done|]. split; [done|]. split; intros H; rewrite K4, K3 by done; auto.
Qed.

Lemma restore_ok c (s : sam) : pll_running c = true -> exists s', pmc_restore_clock_setting fuel c s = Ok (tt, s') /\ restored c (s_log s').
Proof.
  intros Hr. destruct (restore_to_lock c s) as (s1 & H1 & R1). rewrite H1.
  set (m := Z.lor _ _). assert (exists n, n ∈ [0; 1; 2; 3; 16; 17] /\ 0 <= n /\ Z.testbit m n = true) as (n & Hn & Hn0 & Hm).
  { unfold m, pll_running in *. destruct (ctrue (Z.land (pll0_setting c) _)); [exists 1; split; [set_solver|]; split; [done|by destruct (ctrue _)]|].
    destruct (ctrue (Z.land (pll1_setting c) _)); [exists 2; split; [set_solver|done]|done]. }
  destruct (returns_wait fuel every PMC_SR m n Hn0 Hm (sr_up fuel Hup n Hn) s1) as ([] & s2 & H2 & K2).
  exists s2. split; [exact H2|]. unfold restored, every in *. by rewrite !K2.
Qed.
Lemma restore_spins c (s : sam) : pll_running c = false -> pmc_restore_clock_setting fuel c s = Spin.
Proof.
  intros Hr. destruct (restore_to_lock c s) as (s1 & H1 & _). rewrite H1. unfold pll_running in Hr. apply orb_false_iff in Hr as [-> ->]. apply wait_nothing.
Qed.
End Wait.

Lemma bind_on_sam {A B} (c : S_ A) (f : A -> L_ B) s a m :
  c (sl_sam s) = Ok (a, m) ->
  (on_sam c ≫= f) s = f a (SleepState m (ul_flash_in_wait_mode s) (g_interrupt_enabled s) (b_is_sleep_clock_used s) (callback_clocks_restored s) (callbacks s)).
Proof. intros H. apply bind_Ok. unfold on_sam. by rewrite H. Qed.
Lemma bind_on_sam_spin {A B} (c : S_ A) (f : A -> L_ B) s : c (sl_sam s) = Spin -> (on_sam c ≫= f) s = Spin.
Proof. intros H. apply bind_Spin. unfold on_sam. by rewrite H. Qed.

Ltac fields := cbn [sl_sam ul_flash_in_wait_mode g_interrupt_enabled b_is_sleep_clock_used callback_clocks_restored callbacks].


(** A processor whose status bits are always set and whose other registers hold
    what was written; PLLA runs. *)
Definition ready_processor : Hardware sam_reg := fun l r =>
  if decide (r = PMC_SR) then 2 ^ 32 - 1 else if decide (r = CKGR_MOR) then 0x8
  else default (if decide (r = CKGR_PLLAR) then 0x20073F01 else 0) (last_write r l).

