(* ===== verification/SamCore.v ===== *)
(** * The processor's own peripherals (platforms/atsam4s/asf/include/cmsis/core_cm4.h)

    The functions of the interrupt controller, the system timer and the trace port
    that the firmware's other files do not hold, and the register accesses with
    which the kernel (os/arch/armv7/scheduler.c) sets up its exceptions. Barriers
    have no effect on registers; the word that receives characters from a debugger
    is read and written like a register. *)

From S2P Require Import Prelude Scheduler Mmio SamDev SamAsf SamPio.
From stdpp Require Import base list gmap sets.
From Stdlib Require Import ZArith Lia.
Local Open Scope Z_scope.
Abbreviation S_ := (M sam).

Definition SCB_AIRCR_VECTKEY_Pos : Z := 16.
Definition SCB_AIRCR_VECTKEY_Msk : Z := Z.shiftl 0xFFFF SCB_AIRCR_VECTKEY_Pos.
Definition SCB_AIRCR_PRIGROUP_Pos : Z := 8.
Definition SCB_AIRCR_PRIGROUP_Msk : Z := Z.shiftl 7 SCB_AIRCR_PRIGROUP_Pos.
Definition SCB_AIRCR_SYSRESETREQ_Msk : Z := bit 2.
Definition SysTick_LOAD_RELOAD_Msk : Z := 0xFFFFFF.
Definition SysTick_CTRL_CLKSOURCE_Msk : Z := bit 2.
Definition SysTick_CTRL_TICKINT_Msk : Z := bit 1.
Definition SysTick_CTRL_ENABLE_Msk : Z := bit 0.
Definition ITM_TCR_ITMENA_Msk : Z := bit 0.
Definition ITM_RXBUFFER_EMPTY : Z := 0x5AA55AA5.
Definition PendSV_IRQn : Z := -2.
Definition SysTick_IRQn : Z := -1.
Definition PENDSV_PRIORITY : Z := 15.
Definition SYSTICK_PRIORITY : Z := 0.

(** ** Priorities *)

(** The bits of a priority that preempt, and those below them. *)
Definition PreemptPriorityBits (PriorityGroup : Z) : Z :=
  let tmp := Z.land PriorityGroup 0x07 in if NVIC_PRIO_BITS <? 7 - tmp then NVIC_PRIO_BITS else 7 - tmp.
Definition SubPriorityBits (PriorityGroup : Z) : Z :=
  let tmp := Z.land PriorityGroup 0x07 in if tmp + NVIC_PRIO_BITS <? 7 then 0 else tmp - 7 + NVIC_PRIO_BITS.
Definition NVIC_EncodePriority (PriorityGroup PreemptPriority SubPriority : Z) : Z :=
  let pre := PreemptPriorityBits PriorityGroup in let sub := SubPriorityBits PriorityGroup in
  Z.lor (u32 (Z.shiftl (Z.land PreemptPriority (Z.shiftl 1 pre - 1)) sub)) (Z.land SubPriority (Z.shiftl 1 sub - 1)).
Definition NVIC_DecodePriority (Priority PriorityGroup : Z) : Z * Z :=
  let pre := PreemptPriorityBits PriorityGroup in let sub := SubPriorityBits PriorityGroup in
  (Z.land (Z.shiftr Priority sub) (Z.shiftl 1 pre - 1), Z.land Priority (Z.shiftl 1 sub - 1)).

Section Core.
Context `{!Hardware sam_reg}.
Context (fuel : nat).

Definition NVIC_SetPriorityGrouping (PriorityGroup : Z) : S_ unit :=
  let tmp := Z.land PriorityGroup 0x07 in
  reg_value ← rdr SCB_AIRCR;
  wrr SCB_AIRCR (Z.lor (Z.ldiff reg_value (Z.lor SCB_AIRCR_VECTKEY_Msk SCB_AIRCR_PRIGROUP_Msk))
                   (Z.lor (Z.shiftl 0x5FA SCB_AIRCR_VECTKEY_Pos) (Z.shiftl tmp 8))).
Definition NVIC_GetPriorityGrouping : S_ Z := x ← rdr SCB_AIRCR; mret (Z.shiftr (Z.land x SCB_AIRCR_PRIGROUP_Msk) SCB_AIRCR_PRIGROUP_Pos).
Definition NVIC_GetPendingIRQ (n : Z) : S_ Z :=
  r ← nvic NVIC_ISPR n; x ← rdr r; mret (if ctrue (Z.land x (bit (Z.land n 0x1F))) then 1 else 0).
Definition NVIC_SetPendingIRQ (n : Z) : S_ unit := r ← nvic NVIC_ISPR n; wrr r (bit (Z.land n 0x1F)).
Definition NVIC_GetActive (n : Z) : S_ Z :=
  r ← nvic NVIC_IABR n; x ← rdr r; mret (if ctrue (Z.land x (bit (Z.land n 0x1F))) then 1 else 0).
(** The priority registers are bytes. *)
Definition NVIC_GetPriority (n : Z) : S_ Z := r ← priority_reg n; x ← rdr r; mret (Z.shiftr (u8 x) (8 - NVIC_PRIO_BITS)).
Definition NVIC_SystemReset : S_ unit :=
  x ← rdr SCB_AIRCR;
  wrr SCB_AIRCR (Z.lor (Z.shiftl 0x5FA SCB_AIRCR_VECTKEY_Pos) (Z.lor (Z.land x SCB_AIRCR_PRIGROUP_Msk) SCB_AIRCR_SYSRESETREQ_Msk));;
  spin.

(** ** The system timer *)

Definition SysTick_Config (ticks : Z) : S_ Z :=
  if SysTick_LOAD_RELOAD_Msk <? u32 (ticks - 1) then mret 1
  else
    wrr SysTick_LOAD (ticks - 1);;
    NVIC_SetPriority SysTick_IRQn (Z.shiftl 1 NVIC_PRIO_BITS - 1);;
    wrr SysTick_VAL 0;;
    wrr SysTick_CTRL (Z.lor SysTick_CTRL_CLKSOURCE_Msk (Z.lor SysTick_CTRL_TICKINT_Msk SysTick_CTRL_ENABLE_Msk));;
    mret 0.

(** ** The trace port *)

(** [while (ITM->PORT[0].u32 == 0);] *)
Fixpoint wait_port (n : nat) : S_ unit :=
  x ← rdr (ITM_PORT 0);
  if x =? 0 then match n with O => spin | S n => wait_port n end else mret tt.
Definition ITM_SendChar (ch : Z) : S_ Z :=
  x ← rdr ITM_TCR;
  (if ctrue (Z.land x ITM_TCR_ITMENA_Msk) then
     y ← rdr ITM_TER;
     if ctrue (Z.land y (bit 0)) then wait_port fuel;; wrr (ITM_PORT 0) (u8 ch) else mret tt
   else mret tt);;
  mret ch.
Definition ITM_ReceiveChar : S_ Z :=
  x ← rdr ITM_RxBuffer;
  if x =? ITM_RXBUFFER_EMPTY then mret (-1)
  else ch ← rdr ITM_RxBuffer; wrr ITM_RxBuffer ITM_RXBUFFER_EMPTY;; mret (sint 32 ch).
Definition ITM_CheckChar : S_ Z := x ← rdr ITM_RxBuffer; mret (if x =? ITM_RXBUFFER_EMPTY then 0 else 1).

(** ** The kernel's exceptions *)

(** The accesses of [os_scheduler_init] to these registers, in order; what it does
    to its tasks is [Scheduler.os_scheduler_init]. *)
Definition scheduler_exceptions : S_ Z :=
  NVIC_SetPriority PendSV_IRQn PENDSV_PRIORITY;;
  NVIC_SetPriority SysTick_IRQn SYSTICK_PRIORITY;;
  SysTick_Config (F_CPU / 1000).
End Core.

(** ** Theorems *)

Lemma priority_bits g : 0 <= PreemptPriorityBits g <= 4 /\ SubPriorityBits g = 4 - PreemptPriorityBits g.
Proof.
  unfold PreemptPriorityBits, SubPriorityBits, NVIC_PRIO_BITS.
  assert (0 <= Z.land g 7 < 8) as Hb by (change 7 with (Z.ones 3); rewrite Z.land_ones by lia; apply Z.mod_pos_bound; lia).
  destruct (Z.ltb_spec 4 (7 - Z.land g 7)), (Z.ltb_spec (Z.land g 7 + 4) 7); lia.
Qed.
Lemma land_shiftl_1 v n : 0 <= n -> Z.land v (Z.shiftl 1 n - 1) = v mod 2 ^ n.
Proof. intros Hn. replace (Z.shiftl 1 n - 1) with (Z.ones n) by (rewrite Z.ones_equiv, Z.shiftl_1_l; lia). by apply Z.land_ones. Qed.

(** A priority as a number: four bits, the preempting ones above the others. *)
Lemma encode_val g p x :
  let pre := PreemptPriorityBits g in let sub := SubPriorityBits g in
  NVIC_EncodePriority g p x = p mod 2 ^ pre * 2 ^ sub + x mod 2 ^ sub /\ 0 <= NVIC_EncodePriority g p x < 2 ^ 4.
Proof.
  intros pre sub. destruct (priority_bits g) as [Hp Hs]. fold pre in Hp, Hs. fold sub in Hs.
  pose proof (Z.mod_pos_bound p (2 ^ pre) ltac:(lia)). pose proof (Z.mod_pos_bound x (2 ^ sub) ltac:(lia)).
  assert (2 ^ pre * 2 ^ sub = 2 ^ 4) as Hm by (rewrite <- Z.pow_add_r by lia; f_equal; lia).
  assert (NVIC_EncodePriority g p x = p mod 2 ^ pre * 2 ^ sub + x mod 2 ^ sub) as He.
  { unfold NVIC_EncodePriority. fold pre sub. rewrite !land_shiftl_1, Z.shiftl_mul_pow2 by lia.
    rewrite u32_small by nia. rewrite Z.lor_comm, lor_low by lia. lia. }
  split; [done|]. rewrite He. nia.
Qed.

Lemma decode_encode g p x : NVIC_DecodePriority (NVIC_EncodePriority g p x) g = (p mod 2 ^ PreemptPriorityBits g, x mod 2 ^ SubPriorityBits g).
Proof.
  destruct (priority_bits g) as [Hp Hs]. unfold NVIC_DecodePriority. rewrite !land_shiftl_1, Z.shiftr_div_pow2 by lia. rewrite (proj1 (encode_val g p x)). f_equal.
  - rewrite Z.div_add_l, (Z.div_small (x mod _)), Z.add_0_r by (try apply Z.mod_pos_bound; lia). apply Z.mod_mod. lia.
  - rewrite Z.add_comm, Z.mod_add, Z.mod_mod by lia. done.
Qed.

(** Setting a priority made of two parts and reading it back: the parts, each cut to
    the bits it has in the group, for every interrupt and every exception with a
    priority register. *)
Theorem priority_roundtrip `{!Hardware sam_reg} n g p x (s : sam) :
  -12 <= n < 240 -> (forall k, holds_written (NVIC_IP k) 0) -> (forall k, holds_written (SCB_SHP k) 0) ->
  exists s', (NVIC_SetPriority n (NVIC_EncodePriority g p x);; v ← NVIC_GetPriority n; mret (NVIC_DecodePriority v g)) s =
    Ok ((p mod 2 ^ PreemptPriorityBits g, x mod 2 ^ SubPriorityBits g), s').
Proof.
  intros Hn Hip Hshp. destruct (encode_val g p x) as [He Hr]. set (e := NVIC_EncodePriority g p x) in *.
  assert (exists r, (forall s1, priority_reg n s1 = Ok (r, s1)) /\ holds_written r 0) as (r & Hreg & Hh).
  { unfold priority_reg. destruct (Z.ltb_spec n 0).
    - assert (Z.land n 0xF = n + 16) as -> by (change 0xF with (Z.ones 4); rewrite Z.land_ones by lia; change (2 ^ 4) with 16; clear -Hn H; Z.to_euclidean_division_equations; lia).
      rewrite (proj2 (Z.leb_le 4 _)) by lia. eexists. split; [done|]. apply Hshp.
    - rewrite (proj2 (Z.ltb_lt n 240)) by lia. eexists. split; [done|]. apply Hip. }
  unfold NVIC_SetPriority, NVIC_GetPriority. mnorm. mstep (Hreg s). mnorm.
  set (v := Z.land _ 255). assert (v = e * 16) as Hv.
  { unfold v, NVIC_PRIO_BITS. rewrite Z.shiftl_mul_pow2 by lia. change (2 ^ (8 - 4)) with 16. change 255 with (Z.ones 8). rewrite u32_small, Z.land_ones by lia. apply Z.mod_small. lia. }
  rewrite bind_wrr. set (s1 := log_event _ s). rewrite !bind_assoc. mstep (Hreg s1). rewrite ?bind_assoc, bind_rdr.
  erewrite (seen_written r); [|exact Hh|unfold s1; last_write; reflexivity]. rewrite rval_rval. unfold rval. change (2 ^ reg_bits) with (2 ^ 32).
  rewrite Hv, Z.mod_small by lia. rewrite bind_ret_l. eexists. unfold NVIC_PRIO_BITS, u8. rewrite (Z.mod_small (e * 16)) by lia.
  rewrite Z.shiftr_div_pow2 by lia. change (2 ^ (8 - 4)) with 16. rewrite Z.div_mul by lia. unfold e. by rewrite decode_encode.
Qed.
Lemma priority_roundtrip_witness :
  let hw : Hardware sam_reg := fun l r => default 0 (last_write r l) in
  exists s', (NVIC_SetPriority (-1) (NVIC_EncodePriority 5 3 6);; v ← @NVIC_GetPriority hw (-1); mret (NVIC_DecodePriority v 5)) (Sam []) = Ok ((3, 2), s').
Proof.
  intros hw. apply (@priority_roundtrip hw (-1) 5 3 6 (Sam [])); [lia|intros k l; reflexivity|intros k l; reflexivity].
Defined.

(** C30: The kernel asks for the highest priority for its tick and the lowest for the
    context switch, but starting the timer gives the tick the lowest as well; the
    timer then counts 96000 processor cycles from tick to tick. *)
Theorem kernel_tick_priority `{!Hardware sam_reg} (s : sam) :
  exists s', scheduler_exceptions s = Ok (0, s') /\ writes (SCB_SHP 11) (s_log s') = writes (SCB_SHP 11) (s_log s) ++ [0; 0xF0] /\
    last_write (SCB_SHP 10) (s_log s') = Some 0xF0 /\ last_write (SCB_SHP 11) (s_log s') = Some 0xF0 /\
    last_write SysTick_LOAD (s_log s') = Some 95999 /\ last_write SysTick_CTRL (s_log s') = Some 7.
Proof.
  eexists. split; [reflexivity|]. change s_log with (get_log (S := sam)). cbn [get_log sam_log s_log]. split; [|done].
  change [0; 240] with ([0] ++ [240]). rewrite app_assoc. done.
Qed.
