(* ===== verification/SamClock.v ===== *)
(** * Clock configuration of the ATSAM4S (platforms/atsam4s/asf/include: osc.h, pll.h, genclk.h, sysclk.h, conf_clock.h)

    The inline functions over the clock drivers, in the board's configuration, and
    the rates that the registers written select, against those the firmware
    assumes. Assertions are compiled out. A configuration structure is the one word
    it holds; a function that fills it returns the word. *)

From S2P Require Import Prelude World Errors Scheduler Mmio SamDev SamAsf Sam SamProps SamPmc SamPio SamSleep SamCore.
From stdpp Require Import base list gmap sets.
From Stdlib Require Import ZArith Lia.
Local Open Scope Z_scope.
Abbreviation S_ := (M sam).

(** ** Oscillators (osc.h, board.h) *)

Definition BOARD_FREQ_SLCK_XTAL : Z := 32768.
Definition BOARD_FREQ_SLCK_BYPASS : Z := 32768.
Definition BOARD_FREQ_MAINCK_XTAL : Z := 12000000.
Definition BOARD_FREQ_MAINCK_BYPASS : Z := 12000000.
Definition BOARD_OSC_STARTUP_US : Z := 15625.
Definition CHIP_FREQ_SLCK_RC : Z := 32000.
Definition CHIP_FREQ_MAINCK_RC_4MHZ : Z := 4000000.
Definition CHIP_FREQ_MAINCK_RC_8MHZ : Z := 8000000.
Definition CHIP_FREQ_MAINCK_RC_12MHZ : Z := 12000000.
Definition OSC_SLCK_32K_RC : Z := 0.
Definition OSC_SLCK_32K_XTAL : Z := 1.
Definition OSC_SLCK_32K_BYPASS : Z := 2.
Definition OSC_MAINCK_4M_RC : Z := 3.
Definition OSC_MAINCK_8M_RC : Z := 4.
Definition OSC_MAINCK_12M_RC : Z := 5.
Definition OSC_MAINCK_XTAL : Z := 6.
Definition OSC_MAINCK_BYPASS : Z := 7.
Definition PMC_OSC_XTAL : Z := 0.
Definition PMC_OSC_BYPASS : Z := 1.
Definition CKGR_MOR_MOSCRCF_4_MHz : Z := Z.shiftl 0x0 4.
Definition CKGR_MOR_MOSCRCF_8_MHz : Z := Z.shiftl 0x1 4.
Definition CKGR_MOR_MOSCRCF_12_MHz : Z := Z.shiftl 0x2 4.
Definition pmc_us_to_moscxtst (startup_us slowck_freq : Z) : Z :=
  let t := u32 (startup_us * slowck_freq) / 8 / 1000000 in if t <? 0x100 then t else 0xFF.

Definition osc_get_rate (ul_id : Z) : Z :=
  if ul_id =? OSC_SLCK_32K_RC then CHIP_FREQ_SLCK_RC
  else if ul_id =? OSC_SLCK_32K_XTAL then BOARD_FREQ_SLCK_XTAL
  else if ul_id =? OSC_SLCK_32K_BYPASS then BOARD_FREQ_SLCK_BYPASS
  else if ul_id =? OSC_MAINCK_4M_RC then CHIP_FREQ_MAINCK_RC_4MHZ
  else if ul_id =? OSC_MAINCK_8M_RC then CHIP_FREQ_MAINCK_RC_8MHZ
  else if ul_id =? OSC_MAINCK_12M_RC then CHIP_FREQ_MAINCK_RC_12MHZ
  else if ul_id =? OSC_MAINCK_XTAL then BOARD_FREQ_MAINCK_XTAL
  else if ul_id =? OSC_MAINCK_BYPASS then BOARD_FREQ_MAINCK_BYPASS
  else 0.

(** ** PLLs (pll.h) and the board's choice (conf_clock.h) *)

Definition PLL_OUTPUT_MIN_HZ : Z := 80000000.
Definition PLL_OUTPUT_MAX_HZ : Z := 240000000.
Definition PLL_INPUT_MIN_HZ : Z := 3000000.
Definition PLL_INPUT_MAX_HZ : Z := 32000000.
Definition PLLA_ID : Z := 0.
Definition PLLB_ID : Z := 1.
Definition PLL_COUNT : Z := 0x3f.
Definition CONFIG_PLL0_SOURCE : Z := OSC_MAINCK_XTAL.
Definition CONFIG_PLL0_MUL : Z := 20.
Definition CONFIG_PLL0_DIV : Z := 1.
Definition CONFIG_PLL1_SOURCE : Z := OSC_MAINCK_XTAL.
Definition CONFIG_PLL1_MUL : Z := 16.
Definition CONFIG_PLL1_DIV : Z := 2.
Definition pll_get_default_rate (pll_id : Z) : Z :=
  if pll_id =? 0 then u32 (osc_get_rate CONFIG_PLL0_SOURCE * CONFIG_PLL0_MUL) / CONFIG_PLL0_DIV
  else u32 (osc_get_rate CONFIG_PLL1_SOURCE * CONFIG_PLL1_MUL) / CONFIG_PLL1_DIV.
(** The frequencies [pll_config_init] asserts about: of the input and of the output. *)
Definition vco_hz (e_src ul_div ul_mul : Z) : Z * Z := let i := osc_get_rate e_src / ul_div in (i, u32 (i * ul_mul)).

(** ** The system clock (sysclk.h) *)

Definition SYSCLK_SRC_SLCK_RC : Z := 0.
Definition SYSCLK_SRC_SLCK_XTAL : Z := 1.
Definition SYSCLK_SRC_SLCK_BYPASS : Z := 2.
Definition SYSCLK_SRC_MAINCK_4M_RC : Z := 3.
Definition SYSCLK_SRC_MAINCK_8M_RC : Z := 4.
Definition SYSCLK_SRC_MAINCK_12M_RC : Z := 5.
Definition SYSCLK_SRC_MAINCK_XTAL : Z := 6.
Definition SYSCLK_SRC_MAINCK_BYPASS : Z := 7.
Definition SYSCLK_SRC_PLLACK : Z := 8.
Definition SYSCLK_SRC_PLLBCK : Z := 9.
Definition SYSCLK_PRES_3 : Z := PMC_MCKR_PRES_CLK_3.
Definition PMC_MCKR_PRES_Pos : Z := 4.
Definition CONFIG_SYSCLK_SOURCE : Z := SYSCLK_SRC_PLLACK.
Definition CONFIG_SYSCLK_PRES : Z := SYSCLK_PRES_3.
Definition sysclk_get_main_hz : Z :=
  if CONFIG_SYSCLK_SOURCE =? SYSCLK_SRC_SLCK_RC then CHIP_FREQ_SLCK_RC
  else if CONFIG_SYSCLK_SOURCE =? SYSCLK_SRC_SLCK_XTAL then BOARD_FREQ_SLCK_XTAL
  else if CONFIG_SYSCLK_SOURCE =? SYSCLK_SRC_SLCK_BYPASS then BOARD_FREQ_SLCK_BYPASS
  else if CONFIG_SYSCLK_SOURCE =? SYSCLK_SRC_MAINCK_4M_RC then CHIP_FREQ_MAINCK_RC_4MHZ
  else if CONFIG_SYSCLK_SOURCE =? SYSCLK_SRC_MAINCK_8M_RC then CHIP_FREQ_MAINCK_RC_8MHZ
  else if CONFIG_SYSCLK_SOURCE =? SYSCLK_SRC_MAINCK_12M_RC then CHIP_FREQ_MAINCK_RC_12MHZ
  else if CONFIG_SYSCLK_SOURCE =? SYSCLK_SRC_MAINCK_XTAL then BOARD_FREQ_MAINCK_XTAL
  else if CONFIG_SYSCLK_SOURCE =? SYSCLK_SRC_MAINCK_BYPASS then BOARD_FREQ_MAINCK_BYPASS
  else if CONFIG_SYSCLK_SOURCE =? SYSCLK_SRC_PLLACK then pll_get_default_rate 0
  else if CONFIG_SYSCLK_SOURCE =? SYSCLK_SRC_PLLBCK then pll_get_default_rate 1
  else 0.
Definition sysclk_get_peripheral_hz : Z :=
  sysclk_get_main_hz / (if CONFIG_SYSCLK_PRES =? SYSCLK_PRES_3 then 3 else Z.shiftl 1 (Z.shiftr CONFIG_SYSCLK_PRES PMC_MCKR_PRES_Pos)).
Definition sysclk_get_peripheral_bus_hz (module : Z) : Z := sysclk_get_peripheral_hz.
Definition ID_SPI : Z := 21.

Section Clock.
Context `{!Hardware sam_reg}.
Context (fuel : nat).

Definition osc_enable (ul_id : Z) : S_ unit :=
  if ul_id =? OSC_SLCK_32K_XTAL then pmc_switch_sclk_to_32kxtal PMC_OSC_XTAL
  else if ul_id =? OSC_SLCK_32K_BYPASS then pmc_switch_sclk_to_32kxtal PMC_OSC_BYPASS
  else if ul_id =? OSC_MAINCK_4M_RC then pmc_switch_mainck_to_fastrc fuel CKGR_MOR_MOSCRCF_4_MHz
  else if ul_id =? OSC_MAINCK_8M_RC then pmc_switch_mainck_to_fastrc fuel CKGR_MOR_MOSCRCF_8_MHz
  else if ul_id =? OSC_MAINCK_12M_RC then pmc_switch_mainck_to_fastrc fuel CKGR_MOR_MOSCRCF_12_MHz
  else if ul_id =? OSC_MAINCK_XTAL then pmc_switch_mainck_to_xtal fuel PMC_OSC_XTAL (pmc_us_to_moscxtst BOARD_OSC_STARTUP_US CHIP_FREQ_SLCK_RC)
  else if ul_id =? OSC_MAINCK_BYPASS then pmc_switch_mainck_to_xtal fuel PMC_OSC_BYPASS (pmc_us_to_moscxtst BOARD_OSC_STARTUP_US CHIP_FREQ_SLCK_RC)
  else mret tt.
Definition osc_disable (ul_id : Z) : S_ unit :=
  if (ul_id =? OSC_MAINCK_4M_RC) || (ul_id =? OSC_MAINCK_8M_RC) || (ul_id =? OSC_MAINCK_12M_RC) then pmc_osc_disable_fastrc
  else if ul_id =? OSC_MAINCK_XTAL then pmc_osc_disable_xtal PMC_OSC_XTAL
  else if ul_id =? OSC_MAINCK_BYPASS then pmc_osc_disable_xtal PMC_OSC_BYPASS
  else mret tt.
Definition osc_is_ready (ul_id : Z) : S_ bool :=
  if ul_id =? OSC_SLCK_32K_RC then mret true
  else if (ul_id =? OSC_SLCK_32K_XTAL) || (ul_id =? OSC_SLCK_32K_BYPASS) then x ← pmc_osc_is_ready_32kxtal; mret (ctrue x)
  else if (ul_id =? OSC_MAINCK_4M_RC) || (ul_id =? OSC_MAINCK_8M_RC) || (ul_id =? OSC_MAINCK_12M_RC) || (ul_id =? OSC_MAINCK_XTAL) || (ul_id =? OSC_MAINCK_BYPASS)
  then x ← pmc_osc_is_ready_mainck; mret (ctrue x)
  else mret false.

(** A division by zero is undefined. *)
Definition pll_config_init (e_src ul_div ul_mul : Z) : S_ Z :=
  if ul_div =? 0 then ub
  else mret (Z.lor (CKGR_PLLAR_MULA (u32 (ul_mul - 1))) (Z.lor (CKGR_PLLAR_DIVA ul_div) (CKGR_PLLAR_PLLACOUNT PLL_COUNT))).
Definition pll_config_read (ul_pll_id : Z) : S_ Z := if ul_pll_id =? PLLA_ID then rdr CKGR_PLLAR else rdr CKGR_PLLBR.
Definition pll_config_write (p_cfg ul_pll_id : Z) : S_ unit :=
  if ul_pll_id =? PLLA_ID then pmc_disable_pllack;; wrr CKGR_PLLAR (Z.lor CKGR_PLLAR_ONE p_cfg)
  else pmc_disable_pllbck;; wrr CKGR_PLLBR p_cfg.
Definition pll_enable (p_cfg ul_pll_id : Z) : S_ unit :=
  if ul_pll_id =? PLLA_ID then pmc_disable_pllack;; wrr CKGR_PLLAR (Z.lor CKGR_PLLAR_ONE p_cfg)
  else pmc_disable_pllbck;; wrr CKGR_PLLBR p_cfg.
Definition pll_disable (ul_pll_id : Z) : S_ unit := if ul_pll_id =? PLLA_ID then pmc_disable_pllack else pmc_disable_pllbck.
Definition pll_is_locked (ul_pll_id : Z) : S_ Z := if ul_pll_id =? PLLA_ID then pmc_is_locked_pllack else pmc_is_locked_pllbck.
(** The calls that would start the source are in a comment. *)
Definition pll_enable_source (e_src : Z) : S_ unit := mret tt.
(** [while (!pll_is_locked(ul_pll_id));] *)
Fixpoint wait_locked (n : nat) (ul_pll_id : Z) : S_ unit :=
  x ← pll_is_locked ul_pll_id;
  if ctrue x then mret tt else match n with O => spin | S n => wait_locked n ul_pll_id end.
(** Another identifier enables a PLL from an uninitialised structure. *)
Definition pll_enable_config_defaults (ul_pll_id : Z) : S_ unit :=
  locked ← pll_is_locked ul_pll_id;
  if ctrue locked then mret tt
  else
    pllcfg ← (if ul_pll_id =? 0 then pll_enable_source CONFIG_PLL0_SOURCE;; pll_config_init CONFIG_PLL0_SOURCE CONFIG_PLL0_DIV CONFIG_PLL0_MUL
              else if ul_pll_id =? 1 then pll_enable_source CONFIG_PLL1_SOURCE;; pll_config_init CONFIG_PLL1_SOURCE CONFIG_PLL1_DIV CONFIG_PLL1_MUL
              else ub);
    pll_enable pllcfg ul_pll_id;;
    wait_locked fuel ul_pll_id.

Definition sysclk_enable_peripheral_clock (ul_id : Z) : S_ unit := pmc_enable_periph_clk ul_id;; mret tt.
Definition sysclk_disable_peripheral_clock (ul_id : Z) : S_ unit := pmc_disable_periph_clk ul_id;; mret tt.
(** src/spi.c *)
Definition spi_enable_clock : S_ unit := sysclk_enable_peripheral_clock ID_SPI.
Definition spi_disable_clock : S_ unit := sysclk_disable_peripheral_clock ID_SPI.

(** ** Programmable clocks (genclk.h) *)

Definition genclk_config_defaults (ul_id : Z) : Z := 0.
Definition genclk_config_read (ul_id : Z) : S_ Z := r ← pck ul_id; rdr r.
Definition genclk_config_write (p_cfg ul_id : Z) : S_ unit := r ← pck ul_id; wrr r p_cfg.
Definition genclk_config_set_source (p_cfg e_src : Z) : Z :=
  let ctrl := Z.ldiff p_cfg PMC_PCK_CSS_Msk in
  if (0 <=? e_src) && (e_src <=? 2) then Z.lor ctrl PMC_PCK_CSS_SLOW_CLK
  else if (3 <=? e_src) && (e_src <=? 7) then Z.lor ctrl PMC_PCK_CSS_MAIN_CLK
  else if e_src =? 8 then Z.lor ctrl PMC_PCK_CSS_PLLA_CLK
  else if e_src =? 9 then Z.lor ctrl PMC_PCK_CSS_PLLB_CLK
  else if e_src =? 10 then Z.lor ctrl PMC_PCK_CSS_MCK
  else ctrl.
Definition genclk_config_set_divider (p_cfg e_divider : Z) : Z := Z.lor (Z.ldiff p_cfg PMC_PCK_PRES_Msk) e_divider.
Definition genclk_enable (p_cfg ul_id : Z) : S_ unit := r ← pck ul_id; wrr r p_cfg;; pmc_enable_pck ul_id.
Definition genclk_disable (ul_id : Z) : S_ unit := pmc_disable_pck ul_id.
(** [while (!osc_is_ready(id));] *)
Fixpoint wait_osc (n : nat) (ul_id : Z) : S_ unit :=
  ready ← osc_is_ready ul_id;
  if ready : bool then mret tt else match n with O => spin | S n => wait_osc n ul_id end.
(** The sources 0 to 7 are the oscillators of the same numbers. *)
Definition genclk_enable_source (e_src : Z) : S_ unit :=
  if (0 <=? e_src) && (e_src <=? 7) then
    ready ← osc_is_ready e_src;
    if ready : bool then mret tt else osc_enable e_src;; wait_osc fuel e_src
  else if e_src =? 8 then pll_enable_config_defaults 0
  else if e_src =? 9 then pll_enable_config_defaults 1
  else mret tt.
End Clock.

(** ** Rates *)

(** What a PLL gives from the main clock (off with a multiplier or divider of 0;
    the hardware adds one to the multiplier) and what the processor runs at, by the
    registers' last values, as the data sheet has them. *)
Definition pll_hz (main r : Z) : option Z :=
  let mul := Z.shiftr (Z.land r (Z.shiftl 0x7ff 16)) 16 in let div := Z.land r 0xff in
  if (mul =? 0) || (div =? 0) then None else Some (main * (mul + 1) / div).
Definition selected_hz (main : Z) (l : list (access sam_reg)) (css : Z) : option Z :=
  if css =? PMC_MCKR_CSS_MAIN_CLK then Some main
  else if css =? PMC_MCKR_CSS_PLLA_CLK then last_write CKGR_PLLAR l ≫= pll_hz main
  else if css =? PMC_MCKR_CSS_PLLB_CLK then last_write CKGR_PLLBR l ≫= pll_hz main
  else None.
Definition processor_hz (main : Z) (l : list (access sam_reg)) : option Z :=
  m ← last_write PMC_MCKR l;
  hz ← selected_hz main l (Z.land m PMC_MCKR_CSS_Msk);
  let pres := Z.land m PMC_MCKR_PRES_Msk in
  Some (if pres =? PMC_MCKR_PRES_CLK_3 then hz / 3 else hz / 2 ^ Z.shiftr pres 4).

Section Update.
Lemma land_u32 z m : 0 <= m < 2 ^ 32 -> Z.land (u32 z) m = Z.land z m.
Proof.
  intros Hm. unfold u32. rewrite <- Z.land_ones by lia. rewrite <- Z.land_assoc. f_equal.
  rewrite Z.land_comm, Z.land_ones by lia. by apply Z.mod_small.
Qed.
(** A field after an update: its own, and one apart from it. *)
Lemma land_same x m v : Z.land v m = v -> Z.land (Z.lor (Z.ldiff x m) v) m = v.
Proof.
  intros H. rewrite Z.land_lor_distr_l, H. apply Z.bits_inj'. intros i _. rewrite Z.lor_spec, Z.land_spec, Z.ldiff_spec.
  by destruct (Z.testbit x i), (Z.testbit m i), (Z.testbit v i).
Qed.
Lemma land_apart x m v m' : Z.land m m' = 0 -> Z.land v m' = 0 -> Z.land (Z.lor (Z.ldiff x m) v) m' = Z.land x m'.
Proof.
  intros H Hv. rewrite Z.land_lor_distr_l, Hv, Z.lor_0_r. apply Z.bits_inj'. intros i _.
  apply (f_equal (fun z => Z.testbit z i)) in H. rewrite Z.land_spec, Z.bits_0 in H. rewrite !Z.land_spec, Z.ldiff_spec.
  destruct (Z.testbit x i), (Z.testbit m i), (Z.testbit m' i); done.
Qed.
End Update.

(** A PLL locks when it is on, the master clock is ready, and its register holds
    what was written. *)
Definition pll_on (o : option Z) : bool := match o with Some r => bool_decide (is_Some (pll_hz 1 r)) | None => false end.
Record clocks_follow `{!Hardware sam_reg} : Prop := ClocksFollow {
  cf_a : forall s : sam, ctrue (Z.land (seen s PMC_SR) PMC_SR_LOCKA) = pll_on (last_write CKGR_PLLAR (s_log s));
  cf_b : forall s : sam, ctrue (Z.land (seen s PMC_SR) PMC_SR_LOCKB) = pll_on (last_write CKGR_PLLBR (s_log s));
  cf_ready : forall s : sam, ctrue (Z.land (seen s PMC_SR) PMC_SR_MCKRDY) = true;
  cf_mckr : holds_written PMC_MCKR 0;
}.
Arguments clocks_follow {_}.

Section Rates.
Context `{!Hardware sam_reg} (Hc : clocks_follow).

Lemma mckrdy_quiet n (s : sam) : exists s', mckrdy_loop n s = Ok (true, s') /\ forall r, last_write r (s_log s') = last_write r (s_log s).
Proof. destruct n; cbn [mckrdy_loop]; rewrite bind_rdr, (cf_ready Hc); by eexists. Qed.

(** A switch of the master clock leaves both fields as asked. *)
Lemma switch_mck_fields pres css (s : sam) :
  Z.land pres PMC_MCKR_PRES_Msk = pres -> Z.land css PMC_MCKR_CSS_Msk = css ->
  exists s' m, switch_mck PMC_MCKR_PRES_Msk pres PMC_MCKR_CSS_Msk css s = Ok (0, s') /\
    last_write PMC_MCKR (s_log s') = Some m /\ Z.land m PMC_MCKR_PRES_Msk = pres /\ Z.land m PMC_MCKR_CSS_Msk = css /\
    forall r, r <> PMC_MCKR -> last_write r (s_log s') = last_write r (s_log s).
Proof.
  intros Hp Hs. unfold switch_mck, set_mckr. rewrite bind_assoc, bind_rdr, bind_wrr. set (s1 := log_event _ (log_event _ s)).
  destruct (mckrdy_quiet (Z.to_nat PMC_TIMEOUT) s1) as (s2 & H2 & K2). mstep H2. rewrite bind_assoc, bind_rdr, bind_wrr.
  set (m1 := seen s2 PMC_MCKR). set (s3 := log_event _ (log_event _ s2)).
  destruct (mckrdy_quiet (Z.to_nat PMC_TIMEOUT) s3) as (s4 & H4 & K4). mstep H4. eexists s4, _. split; [done|].
  split; [rewrite K4; change (s_log s3) with (get_log s3); unfold s3; last_write; reflexivity|].
  assert (Z.land m1 PMC_MCKR_PRES_Msk = pres) as Hm1.
  { unfold m1. erewrite (seen_written (S := sam)); [|apply (cf_mckr Hc)|change (get_log s2) with (s_log s2); rewrite K2; change (s_log s1) with (get_log s1); unfold s1; last_write; reflexivity].
    unfold rval. change (2 ^ reg_bits) with (2 ^ 32). fold (u32 (Z.lor (Z.ldiff (seen s PMC_MCKR) PMC_MCKR_PRES_Msk) pres)). fold (u32 (u32 (Z.lor (Z.ldiff (seen s PMC_MCKR) PMC_MCKR_PRES_Msk) pres))).
    rewrite !land_u32 by (vm_compute; done). by apply land_same. }
  unfold rval. change (2 ^ reg_bits) with (2 ^ 32). fold (u32 (Z.lor (Z.ldiff m1 PMC_MCKR_CSS_Msk) css)).
  split; [rewrite land_u32 by (by vm_compute); rewrite land_apart; [done|done|]|].
  - rewrite <- Hs, <- Z.land_assoc. by rewrite Z.land_0_r.
  - split; [rewrite land_u32 by (by vm_compute); by apply land_same|]. intros r Hr.
    rewrite K4. change (s_log s3) with (get_log s3). unfold s3. rewrite get_log_event, last_write_wr_ne, get_log_event, last_write_rd by congruence.
    change (get_log s2) with (s_log s2). rewrite K2. change (s_log s1) with (get_log s1). unfold s1.
    by rewrite get_log_event, last_write_wr_ne, get_log_event, last_write_rd by congruence.
Qed.
End Rates.

(** The word of a configuration, and the rate of a PLL that is given it. *)
Definition pll_word (ul_div ul_mul : Z) : Z :=
  Z.lor (CKGR_PLLAR_MULA (u32 (ul_mul - 1))) (Z.lor (CKGR_PLLAR_DIVA ul_div) (CKGR_PLLAR_PLLACOUNT PLL_COUNT)).
Lemma pll_word_val d m : 0 < d < 256 -> 2 <= m <= 2048 -> pll_word d m = (m - 1) * 2 ^ 16 + 0x3f * 2 ^ 8 + d.
Proof.
  intros Hd Hm. unfold pll_word. rewrite u32_small by lia.
  assert (CKGR_PLLAR_MULA (m - 1) = (m - 1) * 2 ^ 16) as -> by (apply (field_ok (m - 1) 11 16); lia).
  assert (CKGR_PLLAR_PLLACOUNT PLL_COUNT = 0x3f * 2 ^ 8) as -> by reflexivity.
  assert (CKGR_PLLAR_DIVA d = d) as -> by (unfold CKGR_PLLAR_DIVA; rewrite Z.land_comm; change 0xff with (Z.ones 8); rewrite Z.land_ones by lia; apply Z.mod_small; lia).
  rewrite (lor_low d 0x3f 8), Z.lor_comm, lor_low by lia. lia.
Qed.
Lemma pll_word_rate main d m k : 0 < d < 256 -> 2 <= m <= 2048 -> k = 0 \/ k = CKGR_PLLAR_ONE -> pll_hz main (u32 (Z.lor k (pll_word d m))) = Some (main * m / d).
Proof.
  intros Hd Hm Hk. rewrite (pll_word_val d m Hd Hm). set (w := (m - 1) * 2 ^ 16 + 0x3f * 2 ^ 8 + d).
  assert (exists b, Z.lor k w = w + b * 2 ^ 29 /\ 0 <= b <= 1) as (b & Hb & Hb1).
  { destruct Hk as [-> | ->]; [exists 0; split; [rewrite Z.lor_0_l; lia|lia]|]. exists 1. split; [|lia]. rewrite Z.lor_comm. change CKGR_PLLAR_ONE with (1 * 2 ^ 29). apply lor_low; [lia|]. unfold w. lia. }
  rewrite Hb, u32_small by (unfold w; lia). unfold pll_hz. change 0x7ff with (Z.ones 11). rewrite field_get by lia. change 0xff with (Z.ones 8). rewrite Z.land_ones by lia.
  assert ((w + b * 2 ^ 29) / 2 ^ 16 mod 2 ^ 11 = m - 1) as -> by (unfold w; clear -Hd Hm Hb1; Z.to_euclidean_division_equations; lia).
  assert ((w + b * 2 ^ 29) mod 2 ^ 8 = d) as -> by (unfold w; clear -Hd Hm Hb1; Z.to_euclidean_division_equations; lia).
  rewrite (proj2 (Z.eqb_neq (m - 1) 0)), (proj2 (Z.eqb_neq d 0)) by lia. cbn [orb]. f_equal. f_equal. lia.
Qed.

Definition pll_reg (id : Z) : sam_reg := if id =? 0 then CKGR_PLLAR else CKGR_PLLBR.

Section Defaults.
Context `{!Hardware sam_reg} (Hc : clocks_follow) (fuel : nat).

Lemma locked_is id (s : sam) : exists v, pll_is_locked id s = Ok (v, log_event (Rd PMC_SR (seen s PMC_SR)) s) /\ ctrue v = pll_on (last_write (pll_reg id) (s_log s)).
Proof.
  unfold pll_is_locked, pll_reg, pmc_is_locked_pllack, pmc_is_locked_pllbck, sr_bits, PLLA_ID.
  destruct (id =? 0); eexists; (split; [reflexivity|]); [apply (cf_a Hc)|apply (cf_b Hc)].
Qed.
(** A PLL enabled with a configuration locks and runs at the rate asked for. *)
Lemma pll_enabled_rate id d m (s : sam) : 0 < d < 256 -> 2 <= m <= 2048 ->
  exists s', (pll_enable (pll_word d m) id;; wait_locked fuel id) s = Ok (tt, s') /\
    (forall main, last_write (pll_reg id) (s_log s') ≫= pll_hz main = Some (main * m / d)).
Proof.
  intros Hd Hm. assert (exists s1 k, pll_enable (pll_word d m) id s = Ok (tt, s1) /\ (k = 0 \/ k = CKGR_PLLAR_ONE) /\
    last_write (pll_reg id) (s_log s1) = Some (u32 (Z.lor k (pll_word d m)))) as (s1 & k & H1 & Hk & L1).
  { unfold pll_enable, pll_reg, PLLA_ID, pmc_disable_pllack, pmc_disable_pllbck. destruct (id =? 0).
    - eexists _, CKGR_PLLAR_ONE. rewrite bind_wrr. split; [reflexivity|]. split; [by right|]. done.
    - eexists _, 0. rewrite bind_wrr. split; [reflexivity|]. split; [by left|]. by rewrite Z.lor_0_l. }
  mstep H1. destruct (locked_is id s1) as (v & Hv & Hl). rewrite L1 in Hl. cbn [pll_on] in Hl.
  rewrite bool_decide_true in Hl by (rewrite pll_word_rate by done; by eexists).
  eexists. split; [destruct fuel; cbn [wait_locked]; mstep Hv; rewrite Hl; reflexivity|]. intros main.
  change (s_log (log_event ?a ?x)) with (a :: s_log x). rewrite last_write_rd, L1. cbn. by apply pll_word_rate.
Qed.
End Defaults.

(** The board's configuration is consistent: from a PLL that is off, the default
    settings of either PLL start it at the rate sysclk.h computes, within the limits
    of the PLL, and with the board's prescaler the processor then runs at the
    frequency the firmware's baud rates are computed from. *)
Theorem clock_defaults_rate `{!Hardware sam_reg} fuel id (s : sam) :
  clocks_follow -> id = 0 \/ id = 1 -> last_write (pll_reg id) (s_log s) = None ->
  exists s', pll_enable_config_defaults fuel id s = Ok (tt, s') /\
    last_write (pll_reg id) (s_log s') ≫= pll_hz BOARD_FREQ_MAINCK_XTAL = Some (pll_get_default_rate id) /\
    PLL_OUTPUT_MIN_HZ <= pll_get_default_rate id <= PLL_OUTPUT_MAX_HZ /\
    (id = 0 -> exists s2, pmc_switch_mck_to_pllack CONFIG_SYSCLK_PRES s' = Ok (0, s2) /\
       processor_hz BOARD_FREQ_MAINCK_XTAL (s_log s2) = Some sysclk_get_cpu_hz /\ sysclk_get_peripheral_hz = sysclk_get_cpu_hz).
Proof.
  intros Hc Hid Hoff. destruct (locked_is Hc id s) as (v & Hv & Hl). rewrite Hoff in Hl. cbn [pll_on] in Hl.
  set (d := if id =? 0 then CONFIG_PLL0_DIV else CONFIG_PLL1_DIV). set (m := if id =? 0 then CONFIG_PLL0_MUL else CONFIG_PLL1_MUL).
  destruct (pll_enabled_rate Hc fuel id d m (log_event (Rd PMC_SR (seen s PMC_SR)) s)) as (s1 & H1 & R1);
    [unfold d; destruct Hid as [-> | ->]; vm_compute; done|unfold m; destruct Hid as [-> | ->]; vm_compute; split; discriminate|].
  exists s1. split; [unfold pll_enable_config_defaults; mstep Hv; rewrite Hl; destruct Hid as [-> | ->]; exact H1|].
  split; [rewrite R1; destruct Hid as [-> | ->]; reflexivity|]. split; [destruct Hid as [-> | ->]; vm_compute; split; discriminate|].
  intros ->. destruct (switch_mck_fields Hc CONFIG_SYSCLK_PRES PMC_MCKR_CSS_PLLA_CLK s1) as (s2 & w & H2 & W2 & P2 & C2 & K2); [done|done|].
  exists s2. split; [exact H2|]. split; [|done]. unfold processor_hz, selected_hz. rewrite W2. cbn [mbind option_bind].
  rewrite C2, P2, (K2 CKGR_PLLAR) by discriminate. change CKGR_PLLAR with (pll_reg 0). 
  change (PMC_MCKR_CSS_PLLA_CLK =? PMC_MCKR_CSS_MAIN_CLK) with false. change (PMC_MCKR_CSS_PLLA_CLK =? PMC_MCKR_CSS_PLLA_CLK) with true.
  cbv iota. rewrite R1. reflexivity.
Qed.

(** ** The firmware's clocks *)

(** Registers the rates depend on. *)
Definition rate_reg (r : sam_reg) : bool := bool_decide (r = CKGR_PLLAR) || bool_decide (r = CKGR_PLLBR) || bool_decide (r = PMC_MCKR).

Section Firmware.
Context `{!Hardware sam_reg} (Hc : clocks_follow) (fuel : nat).

Lemma returns_clrr keep r v : keep r = false -> returns keep (clrr r v).
Proof. intros H. apply clk_returns_bind; [apply returns_rdr|]. intros x. by apply returns_wrr. Qed.
Lemma returns_clock_wait keep n flag : returns keep (clock_wait n flag).
Proof. induction n as [|n IH]; cbn [clock_wait]; (apply clk_returns_bind; [apply returns_rdr|]; intros x; apply returns_if; [apply clk_returns_ret|]); [apply clk_returns_ret|exact IH]. Qed.
Lemma returns_mck_wait keep n : returns keep (mck_wait n).
Proof. intros s. destruct n; cbn [mck_wait]; rewrite bind_rdr, (cf_ready Hc); eexists _, _; split; done. Qed.

(** What follows the switch in [dac_configure]. *)
Lemma dac_setup_spares : returns rate_reg
  (mck_wait (Z.to_nat PMC_TIMEOUT);; pmc_enable_periph_clk ID_DACC;; dacc_reset;; dacc_enable_flexible_selection;;
   dacc_set_timing DACC_MR_MAXS_NORMAL DACC_MR_STARTUP_1920;; dacc_set_transfer_mode DACC_MR_WORD_HALF;; dacc_set_trigger 0;;
   dacc_enable_interrupt DACC_IER_TXRDY;; NVIC_EnableIRQ DACC_IRQn;; mret lf_success).
Proof.
  unfold pmc_enable_periph_clk, dacc_reset, dacc_enable_flexible_selection, dacc_set_timing, dacc_set_transfer_mode, dacc_set_trigger, dacc_enable_interrupt.
  change (NVIC_EnableIRQ DACC_IRQn) with (mret (NVIC_ISER 0) ≫= fun r => wrr r (bit 30) : S_ unit).
  apply clk_returns_bind; [apply returns_mck_wait|intros _].
  repeat first [ apply returns_clrr; reflexivity | progress returning ].
Qed.

(** The start of [main] leaves the board's setting. *)
#[local] Ltac await s K :=
  match goal with |- exists s', (clock_wait ?n ?f ≫= _) ?s1 = _ /\ _ =>
    let H := fresh "H" in destruct (returns_clock_wait (fun _ => true) n f s1) as ([] & s & H & K); mstep H; clear H end.
Lemma configure_clocks_rate (s : sam) :
  exists s', configure_clocks s = Ok (tt, s') /\ last_write PMC_MCKR (s_log s') = Some BOARD_MCKR /\ last_write CKGR_PLLBR (s_log s') = Some BOARD_PLLBR.
Proof.
  unfold configure_clocks, await_clock. rewrite !bind_wrr. cbv zeta. rewrite bind_rdr.
  match goal with |- exists s', (_ ≫= ?k) ?s1 = _ /\ _ => set (k1 := k); set (s2 := s1) end.
  match goal with |- exists s', (?c ≫= k1) s2 = _ /\ _ => assert (returns (fun _ => false) c) as Hif end.
  { apply returns_if; [apply clk_returns_ret|]. apply clk_returns_bind; [by apply returns_wrr|]. intros _. apply returns_clock_wait. }
  destruct (Hif s2) as ([] & s3 & H3 & _). mstep H3. unfold k1. clear.
  rewrite bind_wrr. await s4 K4. unfold set_mckr. rewrite bind_assoc, bind_rdr, bind_wrr. await s5 K5.
  rewrite bind_wrr. await s6 K6. rewrite bind_wrr. await s7 K7. rewrite bind_wrr. await s8 K8.
  eexists. split; [reflexivity|]. cbn [log_event put_log get_log sam_log s_log] in *. rewrite !last_write_wr_ne, !K8 by done.
  split; [by rewrite last_write_wr|]. by rewrite last_write_wr_ne, K7, last_write_wr_ne, K6, last_write_wr by done.
Qed.

(** [dac_configure] writes the multiplier as it is. *)
Definition dac_pll : Z := Z.lor CKGR_PLLAR_ONE (Z.lor (CKGR_PLLAR_DIVA 1) (Z.lor (CKGR_PLLAR_PLLACOUNT 32) (CKGR_PLLAR_MULA 20))).
Lemma dac_configure_rate (s : sam) :
  exists r s' m, dac_configure fuel s = Ok (r, s') /\ last_write CKGR_PLLAR (s_log s') = Some dac_pll /\ last_write PMC_MCKR (s_log s') = Some m /\
    Z.land m PMC_MCKR_PRES_Msk = PMC_MCKR_PRES_CLK_3 /\ Z.land m PMC_MCKR_CSS_Msk = PMC_MCKR_CSS_PLLA_CLK.
Proof.
  unfold dac_configure, pmc_enable_pllack, pmc_disable_pllack. fold dac_pll. rewrite bind_assoc, bind_wrr, bind_assoc, bind_wrr. set (s2 := log_event _ (log_event _ s)).
  assert (forall x : sam, last_write CKGR_PLLAR (s_log x) = Some dac_pll -> ctrue (Z.land (seen x PMC_SR) PMC_SR_LOCKA) = true) as Hlock.
  { intros x Hx. rewrite (cf_a Hc), Hx. by vm_compute. }
  rewrite (bind_Ok _ _ _ tt (log_event (Rd PMC_SR (seen s2 PMC_SR)) s2)) by (destruct fuel; cbn [wait_set]; rewrite bind_rdr, (Hlock s2) by done; done).
  set (s3 := log_event _ s2).
  rewrite (bind_Ok _ _ _ tt (log_event (Rd PMC_SR (seen s3 PMC_SR)) s3))
    by (destruct fuel; cbn [pll_wait]; unfold pmc_is_locked_pllack; rewrite bind_assoc, bind_rdr, bind_ret_l, (Hlock s3) by done; done).
  set (s4 := log_event _ s3). unfold pmc_switch_mck_to_pllack.
  destruct (switch_mck_fields Hc PMC_MCKR_PRES_CLK_3 PMC_MCKR_CSS_PLLA_CLK s4) as (s5 & m & H5 & W5 & P5 & C5 & K5); [done|done|]. mstep H5.
  destruct (dac_setup_spares s5) as (r & s6 & H6 & K6). exists r, s6, m. split; [exact H6|]. rewrite !K6, K5 by done. done.
Qed.
End Firmware.

(** C29: [main] and the kernel's start run the processor at 21 thirds of the crystal's
    frequency: the multiplier is written as it is although the hardware adds one. With
    the board's 12 MHz crystal the PLL runs above its limit and the processor at 84
    MHz, where baud rates are computed for 80 MHz and the kernel's timer for 96 MHz. *)
Theorem firmware_clock_rate `{!Hardware sam_reg} fuel (s : sam) :
  clocks_follow ->
  exists s', (configure_clocks;; dac_configure fuel;; scheduler_exceptions) s = Ok (0, s') /\
    (forall main, last_write CKGR_PLLAR (s_log s') ≫= pll_hz main = Some (main * 21 / 1)) /\
    (forall main, processor_hz main (s_log s') = Some (main * 21 / 1 / 3)) /\ last_write SysTick_LOAD (s_log s') = Some (F_CPU / 1000 - 1) /\
    PLL_OUTPUT_MAX_HZ < BOARD_FREQ_MAINCK_XTAL * 21 / 1 /\ BOARD_FREQ_MAINCK_XTAL * 21 / 1 / 3 = 84000000 /\
    sysclk_get_cpu_hz = 80000000 /\ F_CPU = 96000000.
Proof.
  intros Hc. destruct (configure_clocks_rate s) as (s1 & H1 & _). mstep H1.
  destruct (dac_configure_rate Hc fuel s1) as (r & s2 & m & H2 & A2 & M2 & P2 & C2). mstep H2. eexists. split; [reflexivity|].
  cbn [log_event put_log get_log sam_log s_log]. unfold processor_hz, selected_hz. rewrite !last_write_wr_ne by discriminate. rewrite A2, M2. cbn [mbind option_bind].
  rewrite P2, C2. split; [done|]. split; [done|]. split; [by rewrite last_write_wr|]. vm_compute. done.
Qed.

(** A processor whose PLLs lock when they are on. *)
Definition following_processor : Hardware sam_reg := fun l r =>
  match r with
  | PMC_SR => Z.lor PMC_SR_MCKRDY (Z.lor (if pll_on (last_write CKGR_PLLAR l) then PMC_SR_LOCKA else 0) (if pll_on (last_write CKGR_PLLBR l) then PMC_SR_LOCKB else 0))
  | _ => default 0 (last_write r l)
  end.
Lemma following_follows : @clocks_follow following_processor.
Proof.
  split.
  - intros s. change (seen s PMC_SR) with (rval PMC_SR (following_processor (s_log s) PMC_SR)). cbn [following_processor]. by destruct (pll_on _), (pll_on _).
  - intros s. change (seen s PMC_SR) with (rval PMC_SR (following_processor (s_log s) PMC_SR)). cbn [following_processor]. by destruct (pll_on _), (pll_on _).
  - intros s. change (seen s PMC_SR) with (rval PMC_SR (following_processor (s_log s) PMC_SR)). cbn [following_processor]. by destruct (pll_on _), (pll_on _).
  - done.
Qed.
Lemma firmware_clock_rate_witness :
  exists s', (@configure_clocks following_processor;; @dac_configure following_processor 4;; @scheduler_exceptions) (Sam []) = Ok (0, s') /\
    processor_hz 12000000 (s_log s') = Some 84000000.
Proof.
  destruct (@firmware_clock_rate following_processor 4 (Sam []) following_follows) as (s' & H & _ & Hp & _). exists s'. split; [exact H|]. rewrite Hp. reflexivity.
Defined.
Lemma clock_defaults_rate_witness :
  exists s', @pll_enable_config_defaults following_processor 4 1 (Sam []) = Ok (tt, s') /\
    last_write CKGR_PLLBR (s_log s') ≫= pll_hz 12000000 = Some 96000000.
Proof.
  destruct (@clock_defaults_rate following_processor 4 1 (Sam []) following_follows (or_intror eq_refl) eq_refl) as (s' & H & Hr & _).
  exists s'. split; [exact H|exact Hr].
Defined.
