(* ===== verification/SamIntrinsics.v ===== *)
(** * The intrinsic functions of the Cortex-M4 (asf/include/cmsis)

    The functions of core_cmFunc.h, core_cmInstr.h and core_cmSimd.h, in their
    branches for the GNU compiler, each a few lines around one instruction; an
    instruction acts on the core as the ARMv7-M architecture describes. Where a
    header also has a version in plain C, for another compiler, the two are
    compared. *)

From S2P Require Import Prelude SamPio.
From stdpp Require Import base list gmap.
From Stdlib Require Import ZArith Lia.
Local Open Scope Z_scope.

(** ** The core *)

(** The state these instructions touch: the flags, the saturation flag and the
    four greater-or-equal bits; the exception number and the special registers;
    the local exclusive monitor, which keeps no address on this core; the event
    register; and memory by bytes, where it exists. *)
Record core := Core {
  k_nzcv : Z;
  k_q : bool;
  k_ge : list bool;
  k_ipsr : Z;
  k_control : Z;
  k_primask : bool;
  k_faultmask : bool;
  k_basepri : Z;
  k_msp : Z;
  k_psp : Z;
  k_exclusive : bool;
  k_event : bool;
  k_mem : gmap Z Z;
}.
Abbreviation K_ := (M core).

Definition set_q (b : bool) (k : core) : core :=
  Core (k_nzcv k) b (k_ge k) (k_ipsr k) (k_control k) (k_primask k) (k_faultmask k) (k_basepri k) (k_msp k) (k_psp k) (k_exclusive k) (k_event k) (k_mem k).
Definition set_ge (g : list bool) (k : core) : core :=
  Core (k_nzcv k) (k_q k) g (k_ipsr k) (k_control k) (k_primask k) (k_faultmask k) (k_basepri k) (k_msp k) (k_psp k) (k_exclusive k) (k_event k) (k_mem k).
Definition set_control (c : Z) (k : core) : core :=
  Core (k_nzcv k) (k_q k) (k_ge k) (k_ipsr k) c (k_primask k) (k_faultmask k) (k_basepri k) (k_msp k) (k_psp k) (k_exclusive k) (k_event k) (k_mem k).
Definition set_masks (p f : bool) (b : Z) (k : core) : core :=
  Core (k_nzcv k) (k_q k) (k_ge k) (k_ipsr k) (k_control k) p f b (k_msp k) (k_psp k) (k_exclusive k) (k_event k) (k_mem k).
Definition set_stacks (m p : Z) (k : core) : core :=
  Core (k_nzcv k) (k_q k) (k_ge k) (k_ipsr k) (k_control k) (k_primask k) (k_faultmask k) (k_basepri k) m p (k_exclusive k) (k_event k) (k_mem k).
Definition set_exclusive (b : bool) (k : core) : core :=
  Core (k_nzcv k) (k_q k) (k_ge k) (k_ipsr k) (k_control k) (k_primask k) (k_faultmask k) (k_basepri k) (k_msp k) (k_psp k) b (k_event k) (k_mem k).
Definition set_event (b : bool) (k : core) : core :=
  Core (k_nzcv k) (k_q k) (k_ge k) (k_ipsr k) (k_control k) (k_primask k) (k_faultmask k) (k_basepri k) (k_msp k) (k_psp k) (k_exclusive k) b (k_mem k).
Definition set_mem (m : gmap Z Z) (k : core) : core :=
  Core (k_nzcv k) (k_q k) (k_ge k) (k_ipsr k) (k_control k) (k_primask k) (k_faultmask k) (k_basepri k) (k_msp k) (k_psp k) (k_exclusive k) (k_event k) m.

(** ** Special registers (core_cmFunc.h) *)

(** Handler mode is privileged, thread mode as [CONTROL.nPRIV] says. *)
Definition privileged (k : core) : bool := negb (k_ipsr k =? 0) || negb (Z.testbit (k_control k) 0).
(** Instructions that do nothing without privilege, and reads that give zero. *)
Definition if_privileged (f : core -> core) : K_ unit := modify (fun k => if privileged k then f k else k).
Definition privileged_read (f : core -> Z) : K_ Z := gets (fun k => if privileged k then f k else 0).

Definition enable_irq : K_ unit := if_privileged (fun k => set_masks false (k_faultmask k) (k_basepri k) k).
Definition disable_irq : K_ unit := if_privileged (fun k => set_masks true (k_faultmask k) (k_basepri k) k).
Definition get_CONTROL : K_ Z := gets (fun k => Z.land (k_control k) 3).
(** The stack can be selected in thread mode only. *)
Definition set_CONTROL (control : Z) : K_ unit :=
  if_privileged (fun k => set_control (Z.lor (Z.land control 1) (if k_ipsr k =? 0 then Z.land control 2 else Z.land (k_control k) 2)) k).
Definition get_IPSR : K_ Z := gets (fun k => Z.land (k_ipsr k) 0x1FF).

(** The application status: N, Z, C, V in bits 31 to 28, Q in bit 27, the
    greater-or-equal bits in 19 to 16. *)
Definition ge_bits (g : list bool) : Z := foldr (fun (b : bool) v => Z.b2z b + 2 * v) 0 g.
Definition apsr (k : core) : Z :=
  Z.lor (Z.shiftl (Z.land (k_nzcv k) 15) 28) (Z.lor (Z.shiftl (Z.b2z (k_q k)) 27) (Z.shiftl (ge_bits (k_ge k)) 16)).
Definition get_APSR : K_ Z := gets apsr.
(** The execution status reads as zero. *)
Definition get_xPSR : K_ Z := gets (fun k => Z.lor (apsr k) (Z.land (k_ipsr k) 0x1FF)).
Definition get_PSP : K_ Z := privileged_read k_psp.
(** The low bits of a stack pointer are zero. *)
Definition set_PSP (topOfProcStack : Z) : K_ unit := if_privileged (fun k => set_stacks (k_msp k) (Z.ldiff topOfProcStack 3) k).
Definition get_MSP : K_ Z := privileged_read k_msp.
Definition set_MSP (topOfMainStack : Z) : K_ unit := if_privileged (fun k => set_stacks (Z.ldiff topOfMainStack 3) (k_psp k) k).
Definition get_PRIMASK : K_ Z := privileged_read (fun k => Z.b2z (k_primask k)).
Definition set_PRIMASK (priMask : Z) : K_ unit := if_privileged (fun k => set_masks (Z.testbit priMask 0) (k_faultmask k) (k_basepri k) k).

(** [FAULTMASK] cannot be set by the handlers of NMI and of the hard fault. *)
Definition above_faults (k : core) : bool := (k_ipsr k =? 2) || (k_ipsr k =? 3).
Definition put_faultmask (b : bool) (k : core) : core :=
  if b && above_faults k then k else set_masks (k_primask k) b (k_basepri k) k.
Definition enable_fault_irq : K_ unit := if_privileged (put_faultmask false).
Definition disable_fault_irq : K_ unit := if_privileged (put_faultmask true).
(** [MRS basepri_max] reads [BASEPRI]. *)
Definition get_BASEPRI : K_ Z := privileged_read k_basepri.
(** The priority bits the chip does not implement stay zero. *)
Definition set_BASEPRI (value : Z) : K_ unit :=
  if_privileged (fun k => set_masks (k_primask k) (k_faultmask k) (Z.ldiff (u8 value) (bit (8 - NVIC_PRIO_BITS) - 1)) k).
Definition get_FAULTMASK : K_ Z := privileged_read (fun k => Z.b2z (k_faultmask k)).
Definition set_FAULTMASK (faultMask : Z) : K_ unit := if_privileged (put_faultmask (Z.testbit faultMask 0)).
(** The chip has no floating-point unit. *)
Definition get_FPSCR : K_ Z := mret 0.
Definition set_FPSCR (fpscr : Z) : K_ unit := mret tt.

(** ** Instructions (core_cmInstr.h) *)

Section Hints.
(** What the rest of the system did to the core while it slept. *)
Context (wake : core -> core).

Definition NOP : K_ unit := mret tt.
Definition WFI : K_ unit := modify wake.
Definition WFE : K_ unit := modify (fun k => if k_event k then set_event false k else wake k).
Definition SEV : K_ unit := modify (set_event true).
(** Barriers order accesses that are made in order here. *)
Definition ISB : K_ unit := mret tt.
Definition DSB : K_ unit := mret tt.
Definition DMB : K_ unit := mret tt.
End Hints.

Definition REV (value : Z) : Z := le_val (rev (le_bytes 4 value)).
Definition REV16 (value : Z) : Z :=
  match le_bytes 4 value with [b0; b1; b2; b3] => le_val [b1; b0; b3; b2] | _ => 0 end.
(** The result is an [int32_t]. *)
Definition REVSH (value : Z) : Z := sint 16 (le_val (rev (le_bytes 2 value))).
(** A shift by the width has no defined result. *)
Definition ROR (op1 op2 : Z) : option Z :=
  if (op2 <? 32) && (0 <? op2) then Some (Z.lor (Z.shiftr op1 op2) (u32 (Z.shiftl op1 (32 - op2)))) else None.

(** [rbit]: bit [i] of the value becomes bit [31 - i] of the result. *)
Fixpoint reversed (n : nat) (value : Z) : Z :=
  match n with O => 0 | S n' => Z.lor (Z.shiftl (Z.b2z (Z.testbit value 0)) (Z.of_nat n')) (reversed n' (Z.shiftr value 1)) end.
Definition RBIT (value : Z) : Z := reversed 32 value.

(** Loads and stores of [n] bytes where there is memory, at any address. *)
Definition load (n : nat) (addr : Z) : K_ Z := fun k =>
  match mapM (fun i => k_mem k !! (addr + Z.of_nat i)) (seq 0 n) with Some bs => Ok (le_val bs, k) | None => Ub end.
Fixpoint put_bytes (addr : Z) (bs : list Z) (m : gmap Z Z) : gmap Z Z :=
  match bs with [] => m | b :: bs => put_bytes (addr + 1) bs (<[addr := b]> m) end.
Definition store (n : nat) (addr value : Z) : K_ unit := fun k =>
  if forallb (fun i => bool_decide (is_Some (k_mem k !! (addr + Z.of_nat i)))) (seq 0 n)
  then Ok (tt, set_mem (put_bytes addr (le_bytes n value) (k_mem k)) k) else Ub.

(** Exclusive accesses must be aligned. A load opens the monitor; a store is
    made, and answers 0, only while the monitor is open, and closes it. *)
Definition aligned_to (n : nat) (addr : Z) : K_ unit := if addr mod Z.of_nat n =? 0 then mret tt else ub.
Definition ldrex (n : nat) (addr : Z) : K_ Z :=
  aligned_to n addr;; x ← load n addr; modify (set_exclusive true);; mret x.
Definition strex (n : nat) (value addr : Z) : K_ Z :=
  aligned_to n addr;;
  e ← gets k_exclusive;
  if e : bool then store n addr value;; modify (set_exclusive false);; mret 0 else mret 1.

Definition LDREXB (addr : Z) : K_ Z := x ← ldrex 1 addr; mret (u8 x).
Definition LDREXH (addr : Z) : K_ Z := x ← ldrex 2 addr; mret (u16 x).
Definition LDREXW (addr : Z) : K_ Z := ldrex 4 addr.
Definition STREXB (value addr : Z) : K_ Z := strex 1 value addr.
Definition STREXH (value addr : Z) : K_ Z := strex 2 value addr.
Definition STREXW (value addr : Z) : K_ Z := strex 4 value addr.
Definition CLREX : K_ unit := modify (set_exclusive false).

(** Saturation of a value to a range, with whether it changed. *)
Definition clamp (low high x : Z) : Z := if x <? low then low else if high <? x then high else x.
Definition ssat_to (n x : Z) : Z := clamp (- 2 ^ (n - 1)) (2 ^ (n - 1) - 1) x.
Definition usat_to (n x : Z) : Z := clamp 0 (2 ^ n - 1) x.
(** The saturation flag is sticky. *)
Definition saturated (b : bool) : K_ unit := modify (fun k => set_q (k_q k || b) k).

(** The operand is read as a signed integer. *)
Definition SSAT (value sat : Z) : K_ Z :=
  let x := sint 32 value in saturated (negb (ssat_to sat x =? x));; mret (u32 (ssat_to sat x)).
Definition USAT (value sat : Z) : K_ Z :=
  let x := sint 32 value in saturated (negb (usat_to sat x =? x));; mret (u32 (usat_to sat x)).
Definition CLZ (value : Z) : Z := u8 (if value =? 0 then 32 else 31 - Z.log2 value).
Definition RRX (value : Z) : K_ Z :=
  c ← gets (fun k => Z.testbit (k_nzcv k) 1); mret (Z.lor (Z.shiftl (Z.b2z c) 31) (Z.shiftr value 1)).

(** Without a memory protection unit an unprivileged access is an access. *)
Definition LDRBT (addr : Z) : K_ Z := x ← load 1 addr; mret (u8 x).
Definition LDRHT (addr : Z) : K_ Z := x ← load 2 addr; mret (u16 x).
Definition LDRT (addr : Z) : K_ Z := load 4 addr.
Definition STRBT (value addr : Z) : K_ unit := store 1 addr value.
Definition STRHT (value addr : Z) : K_ unit := store 2 addr value.
Definition STRT (value addr : Z) : K_ unit := store 4 addr value.

(** ** SIMD instructions (core_cmSimd.h) *)

(** The lanes of a word, lowest first, as unsigned or signed integers, and the
    word of the low bits of lane results. *)
Fixpoint lanes (w : Z) (n : nat) (x : Z) : list Z :=
  match n with O => [] | S n => x mod 2 ^ w :: lanes w n (x / 2 ^ w) end.
Definition slanes (w : Z) (n : nat) (x : Z) : list Z := sint w <$> lanes w n x.
Fixpoint word_of (w : Z) (ls : list Z) : Z :=
  match ls with [] => 0 | v :: ls => v mod 2 ^ w + 2 ^ w * word_of w ls end.

(** The exact results of the lanes before they are cut to size. *)
Definition add_lanes (a b : list Z) : list Z := zip_with Z.add a b.
Definition sub_lanes (a b : list Z) : list Z := zip_with Z.sub a b.
(** With the halfwords of the second operand exchanged: [asx] subtracts in the
    low lane and adds in the high one, [sax] the other way round. *)
Definition asx_lanes (a b : list Z) : list Z :=
  match a, b with [al; ah], [bl; bh] => [al - bh; ah + bl] | _, _ => [] end.
Definition sax_lanes (a b : list Z) : list Z :=
  match a, b with [al; ah], [bl; bh] => [al + bh; ah - bl] | _, _ => [] end.

(** Wrapping results set the greater-or-equal bits, one for each byte. *)
Definition ge_lanes (w : Z) (g : list bool) : list bool := g ≫= replicate (Z.to_nat (w / 8)).
Definition wrapping (w : Z) (g : list bool) (rs : list Z) : K_ Z := modify (set_ge (ge_lanes w g));; mret (word_of w rs).
Definition nonneg (rs : list Z) : list bool := (fun r => 0 <=? r) <$> rs.
Definition carries (w : Z) (rs : list Z) : list bool := (fun r => 2 ^ w <=? r) <$> rs.
(** Saturating and halving results do not. *)
Definition s_sat (w : Z) (rs : list Z) : Z := word_of w (ssat_to w <$> rs).
Definition u_sat (w : Z) (rs : list Z) : Z := word_of w (usat_to w <$> rs).
Definition halving (w : Z) (rs : list Z) : Z := word_of w ((fun r => r / 2) <$> rs).

Definition SADD8 (op1 op2 : Z) : K_ Z := let rs := (add_lanes (slanes 8 4 op1) (slanes 8 4 op2)) in wrapping 8 (nonneg rs) rs.
Definition QADD8 (op1 op2 : Z) : Z := s_sat 8 (add_lanes (slanes 8 4 op1) (slanes 8 4 op2)).
Definition SHADD8 (op1 op2 : Z) : Z := halving 8 (add_lanes (slanes 8 4 op1) (slanes 8 4 op2)).
Definition UADD8 (op1 op2 : Z) : K_ Z := let rs := (add_lanes (lanes 8 4 op1) (lanes 8 4 op2)) in wrapping 8 (carries 8 rs) rs.
Definition UQADD8 (op1 op2 : Z) : Z := u_sat 8 (add_lanes (lanes 8 4 op1) (lanes 8 4 op2)).
Definition UHADD8 (op1 op2 : Z) : Z := halving 8 (add_lanes (lanes 8 4 op1) (lanes 8 4 op2)).
Definition SSUB8 (op1 op2 : Z) : K_ Z := let rs := (sub_lanes (slanes 8 4 op1) (slanes 8 4 op2)) in wrapping 8 (nonneg rs) rs.
Definition QSUB8 (op1 op2 : Z) : Z := s_sat 8 (sub_lanes (slanes 8 4 op1) (slanes 8 4 op2)).
Definition SHSUB8 (op1 op2 : Z) : Z := halving 8 (sub_lanes (slanes 8 4 op1) (slanes 8 4 op2)).
Definition USUB8 (op1 op2 : Z) : K_ Z := let rs := (sub_lanes (lanes 8 4 op1) (lanes 8 4 op2)) in wrapping 8 (nonneg rs) rs.
Definition UQSUB8 (op1 op2 : Z) : Z := u_sat 8 (sub_lanes (lanes 8 4 op1) (lanes 8 4 op2)).
Definition UHSUB8 (op1 op2 : Z) : Z := halving 8 (sub_lanes (lanes 8 4 op1) (lanes 8 4 op2)).

Definition SADD16 (op1 op2 : Z) : K_ Z := let rs := (add_lanes (slanes 16 2 op1) (slanes 16 2 op2)) in wrapping 16 (nonneg rs) rs.
Definition QADD16 (op1 op2 : Z) : Z := s_sat 16 (add_lanes (slanes 16 2 op1) (slanes 16 2 op2)).
Definition SHADD16 (op1 op2 : Z) : Z := halving 16 (add_lanes (slanes 16 2 op1) (slanes 16 2 op2)).
Definition UADD16 (op1 op2 : Z) : K_ Z := let rs := (add_lanes (lanes 16 2 op1) (lanes 16 2 op2)) in wrapping 16 (carries 16 rs) rs.
Definition UQADD16 (op1 op2 : Z) : Z := u_sat 16 (add_lanes (lanes 16 2 op1) (lanes 16 2 op2)).
Definition UHADD16 (op1 op2 : Z) : Z := halving 16 (add_lanes (lanes 16 2 op1) (lanes 16 2 op2)).
Definition SSUB16 (op1 op2 : Z) : K_ Z := let rs := (sub_lanes (slanes 16 2 op1) (slanes 16 2 op2)) in wrapping 16 (nonneg rs) rs.
Definition QSUB16 (op1 op2 : Z) : Z := s_sat 16 (sub_lanes (slanes 16 2 op1) (slanes 16 2 op2)).
Definition SHSUB16 (op1 op2 : Z) : Z := halving 16 (sub_lanes (slanes 16 2 op1) (slanes 16 2 op2)).
Definition USUB16 (op1 op2 : Z) : K_ Z := let rs := (sub_lanes (lanes 16 2 op1) (lanes 16 2 op2)) in wrapping 16 (nonneg rs) rs.
Definition UQSUB16 (op1 op2 : Z) : Z := u_sat 16 (sub_lanes (lanes 16 2 op1) (lanes 16 2 op2)).
Definition UHSUB16 (op1 op2 : Z) : Z := halving 16 (sub_lanes (lanes 16 2 op1) (lanes 16 2 op2)).

Definition SASX (op1 op2 : Z) : K_ Z := let rs := (asx_lanes (slanes 16 2 op1) (slanes 16 2 op2)) in wrapping 16 (nonneg rs) rs.
Definition QASX (op1 op2 : Z) : Z := s_sat 16 (asx_lanes (slanes 16 2 op1) (slanes 16 2 op2)).
Definition SHASX (op1 op2 : Z) : Z := halving 16 (asx_lanes (slanes 16 2 op1) (slanes 16 2 op2)).
Definition UASX (op1 op2 : Z) : K_ Z :=
  let rs := (asx_lanes (lanes 16 2 op1) (lanes 16 2 op2)) in
  wrapping 16 match rs with [d; s] => [0 <=? d; 2 ^ 16 <=? s] | _ => [] end rs.
Definition UQASX (op1 op2 : Z) : Z := u_sat 16 (asx_lanes (lanes 16 2 op1) (lanes 16 2 op2)).
Definition UHASX (op1 op2 : Z) : Z := halving 16 (asx_lanes (lanes 16 2 op1) (lanes 16 2 op2)).
Definition SSAX (op1 op2 : Z) : K_ Z := let rs := (sax_lanes (slanes 16 2 op1) (slanes 16 2 op2)) in wrapping 16 (nonneg rs) rs.
Definition QSAX (op1 op2 : Z) : Z := s_sat 16 (sax_lanes (slanes 16 2 op1) (slanes 16 2 op2)).
Definition SHSAX (op1 op2 : Z) : Z := halving 16 (sax_lanes (slanes 16 2 op1) (slanes 16 2 op2)).
Definition USAX (op1 op2 : Z) : K_ Z :=
  let rs := (sax_lanes (lanes 16 2 op1) (lanes 16 2 op2)) in
  wrapping 16 match rs with [s; d] => [2 ^ 16 <=? s; 0 <=? d] | _ => [] end rs.
Definition UQSAX (op1 op2 : Z) : Z := u_sat 16 (sax_lanes (lanes 16 2 op1) (lanes 16 2 op2)).
Definition UHSAX (op1 op2 : Z) : Z := halving 16 (sax_lanes (lanes 16 2 op1) (lanes 16 2 op2)).

(** Sums of absolute differences, and with an accumulator. *)
Definition abs_differences (op1 op2 : Z) : Z := foldr Z.add 0 (Z.abs <$> sub_lanes (lanes 8 4 op1) (lanes 8 4 op2)).
Definition USAD8 (op1 op2 : Z) : Z := u32 (abs_differences op1 op2).
Definition USADA8 (op1 op2 op3 : Z) : Z := u32 (op3 + abs_differences op1 op2).

(** Saturation of both halfwords, which sets the saturation flag. *)
Definition saturate16 (f : Z -> Z) (value : Z) : K_ Z :=
  let xs := slanes 16 2 value in
  saturated (negb (bool_decide (f <$> xs = xs)));; mret (word_of 16 (f <$> xs)).
Definition SSAT16 (value sat : Z) : K_ Z := saturate16 (ssat_to sat) value.
Definition USAT16 (value sat : Z) : K_ Z := saturate16 (usat_to sat) value.

(** Bytes 0 and 2, extended to halfwords and added to the halfwords of the first
    operand. *)
Definition even_bytes (x : Z) : list Z := match lanes 8 4 x with [b0; _; b2; _] => [b0; b2] | _ => [] end.
Definition UXTB16 (op1 : Z) : Z := word_of 16 (even_bytes op1).
Definition UXTAB16 (op1 op2 : Z) : Z := word_of 16 (add_lanes (lanes 16 2 op1) (even_bytes op2)).
Definition SXTB16 (op1 : Z) : Z := word_of 16 (sint 8 <$> even_bytes op1).
Definition SXTAB16 (op1 op2 : Z) : Z := word_of 16 (add_lanes (lanes 16 2 op1) (sint 8 <$> even_bytes op2)).

(** The products of the halfwords; the [X] forms exchange those of the second
    operand. *)
Definition products (exchange : bool) (op1 op2 : Z) : Z * Z :=
  match slanes 16 2 op1, slanes 16 2 op2 with
  | [al; ah], [bl; bh] => if exchange then (al * bh, ah * bl) else (al * bl, ah * bh)
  | _, _ => (0, 0)
  end.
Definition dual_add (x : bool) (op1 op2 : Z) : Z := let '(p, q) := products x op1 op2 in p + q.
Definition dual_sub (x : bool) (op1 op2 : Z) : Z := let '(p, q) := products x op1 op2 in p - q.
(** A 32-bit result that sets the flag, without saturating, when it does not fit. *)
Definition overflowing (r : Z) : K_ Z := saturated (negb (sint 32 r =? r));; mret (u32 r).

Definition SMUAD (op1 op2 : Z) : K_ Z := overflowing (dual_add false op1 op2).
Definition SMUADX (op1 op2 : Z) : K_ Z := overflowing (dual_add true op1 op2).
Definition SMUSD (op1 op2 : Z) : Z := u32 (dual_sub false op1 op2).
Definition SMUSDX (op1 op2 : Z) : Z := u32 (dual_sub true op1 op2).
Definition SMLAD (op1 op2 op3 : Z) : K_ Z := overflowing (dual_add false op1 op2 + sint 32 op3).
Definition SMLADX (op1 op2 op3 : Z) : K_ Z := overflowing (dual_add true op1 op2 + sint 32 op3).
Definition SMLSD (op1 op2 op3 : Z) : K_ Z := overflowing (dual_sub false op1 op2 + sint 32 op3).
Definition SMLSDX (op1 op2 op3 : Z) : K_ Z := overflowing (dual_sub true op1 op2 + sint 32 op3).
Definition SMLALD (op1 op2 acc : Z) : Z := u64 (dual_add false op1 op2 + sint 64 acc).
Definition SMLALDX (op1 op2 acc : Z) : Z := u64 (dual_add true op1 op2 + sint 64 acc).
Definition SMLSLD (op1 op2 acc : Z) : Z := u64 (dual_sub false op1 op2 + sint 64 acc).
Definition SMLSLDX (op1 op2 acc : Z) : Z := u64 (dual_sub true op1 op2 + sint 64 acc).

(** Each byte from the first operand where its greater-or-equal bit is set. *)
Definition select (g : list bool) (op1 op2 : Z) : Z :=
  word_of 8 (zip_with (fun (b : bool) '(x, y) => if b then x else y) g (zip (lanes 8 4 op1) (lanes 8 4 op2))).
Definition SEL (op1 op2 : Z) : K_ Z := g ← gets k_ge; mret (select g op1 op2).
(** Saturating arithmetic that sets the flag. *)
Definition saturating (x : Z) : K_ Z := saturated (negb (ssat_to 32 x =? x));; mret (u32 (ssat_to 32 x)).
Definition QADD (op1 op2 : Z) : K_ Z := saturating (sint 32 op1 + sint 32 op2).
Definition QSUB (op1 op2 : Z) : K_ Z := saturating (sint 32 op1 - sint 32 op2).

Definition PKHBT (ARG1 ARG2 ARG3 : Z) : Z :=
  Z.lor (Z.land ARG1 0xFFFF) (Z.land (u32 (Z.shiftl ARG2 ARG3)) 0xFFFF0000).
(** The second operand is shifted as a signed integer. *)
Definition PKHTB (ARG1 ARG2 ARG3 : Z) : Z :=
  if ARG3 =? 0 then Z.lor (Z.land ARG1 0xFFFF0000) (Z.land ARG2 0xFFFF)
  else Z.lor (Z.land ARG1 0xFFFF0000) (Z.land (Z.shiftr (sint 32 ARG2) ARG3) 0xFFFF).
Definition SMMLA (op1 op2 op3 : Z) : Z := u32 ((sint 32 op1 * sint 32 op2 + 2 ^ 32 * sint 32 op3) / 2 ^ 32).

(** The versions in plain C. *)
Definition PKHBT_c (ARG1 ARG2 ARG3 : Z) : Z :=
  Z.lor (Z.land (u32 ARG1) 0xFFFF) (Z.land (u32 (Z.shiftl (u32 ARG2) ARG3)) 0xFFFF0000).
Definition PKHTB_c (ARG1 ARG2 ARG3 : Z) : Z :=
  Z.lor (Z.land (u32 ARG1) 0xFFFF0000) (Z.land (Z.shiftr (u32 ARG2) ARG3) 0xFFFF).
(** The sum is a 64-bit integer, without a value when it does not fit. *)
Definition SMMLA_c (ARG1 ARG2 ARG3 : Z) : option Z :=
  let x := ARG1 * ARG2 + Z.shiftl ARG3 32 in
  if sint 64 x =? x then Some (sint 32 (Z.shiftr x 32)) else None.

(** ** Lanes *)

Lemma length_lanes w n x : length (lanes w n x) = n.
Proof. revert x. induction n as [|n IH]; intros x; [done|]. cbn. by rewrite IH. Qed.

Lemma lanes_word_of w ls : 0 <= w -> lanes w (length ls) (word_of w ls) = (fun v => v mod 2 ^ w) <$> ls.
Proof.
  intros Hw. assert (0 < 2 ^ w) by (apply Z.pow_pos_nonneg; lia). induction ls as [|v ls IH]; [done|].
  cbn [length lanes word_of fmap list_fmap]. rewrite (Z.mul_comm (2 ^ w)), Z.mod_add, Z.mod_mod by lia. f_equal.
  rewrite Z.div_add, (Z.div_small (v mod 2 ^ w)), Z.add_0_l by (try apply Z.mod_pos_bound; lia). exact IH.
Qed.

Lemma word_of_lanes w n x : 0 <= w -> word_of w (lanes w n x) = x mod 2 ^ (w * Z.of_nat n).
Proof.
  intros Hw. assert (0 < 2 ^ w) by (apply Z.pow_pos_nonneg; lia). revert x. induction n as [|n IH]; intros x.
  { by rewrite Z.mul_0_r, Z.mod_1_r. }
  cbn [lanes word_of]. rewrite IH, Z.mod_mod by lia. rewrite Nat2Z.inj_succ, Z.mul_succ_r, (Z.add_comm (w * Z.of_nat n)), Z.pow_add_r by lia.
  rewrite Z.rem_mul_r by lia. lia.
Qed.

Lemma lanes_bound w n x : 0 <= w -> Forall (fun v => 0 <= v < 2 ^ w) (lanes w n x).
Proof.
  intros Hw. revert x. induction n as [|n IH]; intros x; [constructor|]. constructor; [apply Z.mod_pos_bound, Z.pow_pos_nonneg; lia|apply IH].
Qed.

Lemma sint_wrap w v : sint w (v mod 2 ^ w) = sint w v.
Proof. unfold sint. by rewrite Zmod_mod. Qed.

Lemma sint_range w v : 0 < w -> - 2 ^ (w - 1) <= sint w v < 2 ^ (w - 1).
Proof.
  intros Hw. unfold sint. assert (2 ^ w = 2 * 2 ^ (w - 1)) as E by (rewrite <- Z.pow_succ_r by lia; f_equal; lia).
  pose proof (Z.mod_pos_bound v (2 ^ w) ltac:(apply Z.pow_pos_nonneg; lia)). destruct (Z.ltb_spec (v mod 2 ^ w) (2 ^ (w - 1))); lia.
Qed.

Lemma sint_fits w v : 0 < w -> - 2 ^ (w - 1) <= v < 2 ^ (w - 1) -> sint w v = v.
Proof.
  intros Hw Hv. unfold sint. assert (2 ^ w = 2 * 2 ^ (w - 1)) as E by (rewrite <- Z.pow_succ_r by lia; f_equal; lia).
  destruct (Z.le_gt_cases 0 v).
  - rewrite Z.mod_small by lia. by rewrite (proj2 (Z.ltb_lt _ _)) by lia.
  - rewrite <- (Z_mod_plus_full v 1), Z.mod_small by lia. rewrite (proj2 (Z.ltb_ge _ _)) by lia. lia.
Qed.

Lemma ssat_to_range n x : 0 < n -> - 2 ^ (n - 1) <= ssat_to n x < 2 ^ (n - 1).
Proof.
  intros Hn. assert (0 < 2 ^ (n - 1)) by (apply Z.pow_pos_nonneg; lia). unfold ssat_to, clamp.
  destruct (Z.ltb_spec x (- 2 ^ (n - 1))); [lia|]. destruct (Z.ltb_spec (2 ^ (n - 1) - 1) x); lia.
Qed.
Lemma usat_to_range n x : 0 <= n -> 0 <= usat_to n x < 2 ^ n.
Proof.
  intros Hn. assert (0 < 2 ^ n) by (apply Z.pow_pos_nonneg; lia). unfold usat_to, clamp.
  destruct (Z.ltb_spec x 0); [lia|]. destruct (Z.ltb_spec (2 ^ n - 1) x); lia.
Qed.

Lemma fmap_id_on {A} (P : A -> Prop) (f : A -> A) l : (forall x, P x -> f x = x) -> Forall P l -> f <$> l = l.
Proof. intros Hf. induction 1 as [|x l Hx _ IH]; [done|]. cbn. by rewrite Hf, IH. Qed.

(** What the saturating and halving results hold, lane by lane. *)
Lemma slanes_s_sat w rs : 0 < w -> slanes w (length rs) (s_sat w rs) = ssat_to w <$> rs.
Proof.
  intros Hw. unfold slanes, s_sat. rewrite <- (length_fmap (ssat_to w) rs) at 1. rewrite lanes_word_of by lia.
  rewrite <- list_fmap_compose. apply (fmap_id_on (fun v => - 2 ^ (w - 1) <= v < 2 ^ (w - 1))).
  - intros v Hv. unfold compose. rewrite sint_wrap. by apply sint_fits.
  - apply Forall_fmap, Forall_true. intros x. by apply ssat_to_range.
Qed.

Lemma lanes_u_sat w rs : 0 <= w -> lanes w (length rs) (u_sat w rs) = usat_to w <$> rs.
Proof.
  intros Hw. unfold u_sat. rewrite <- (length_fmap (usat_to w) rs) at 1. rewrite lanes_word_of by lia.
  apply (fmap_id_on (fun v => 0 <= v < 2 ^ w)); [intros; by apply Z.mod_small|].
  apply Forall_fmap, Forall_true. intros x. by apply usat_to_range.
Qed.

Lemma lanes_halving w rs : 0 <= w -> Forall (fun r => 0 <= r < 2 * 2 ^ w) rs ->
  lanes w (length rs) (halving w rs) = (fun r => r / 2) <$> rs.
Proof.
  intros Hw Hr. unfold halving. rewrite <- (length_fmap (fun r => r / 2) rs) at 1. rewrite lanes_word_of by lia.
  apply (fmap_id_on (fun v => 0 <= v < 2 ^ w)); [intros; by apply Z.mod_small|].
  apply Forall_fmap. eapply Forall_impl; [exact Hr|]. intros r H. unfold compose. cbv beta in H. split; [apply Z.div_pos; lia|apply Z.div_lt_upper_bound; lia].
Qed.

Lemma length_zip_lanes w n (f : Z -> Z -> Z) op1 op2 : length (zip_with f (lanes w n op1) (lanes w n op2)) = n.
Proof. rewrite length_zip_with, !length_lanes. lia. Qed.

(** A selection after a bytewise subtraction. *)
Lemma select_max a b : select (nonneg (sub_lanes (lanes 8 4 a) (lanes 8 4 b))) a b = word_of 8 (zip_with Z.max (lanes 8 4 a) (lanes 8 4 b)).
Proof.
  unfold select. f_equal. generalize (lanes 8 4 b). induction (lanes 8 4 a) as [|x xs IH]; intros [|y ys]; [done..|].
  cbn [sub_lanes zip_with nonneg fmap list_fmap zip]. f_equal; [|apply IH]. destruct (Z.leb_spec 0 (x - y)); lia.
Qed.

Lemma ge_lanes_8 g : ge_lanes 8 g = g.
Proof. unfold ge_lanes. induction g as [|b g IH]; [done|]. cbn. f_equal. exact IH. Qed.

Definition bytewise_max (a b : Z) : K_ Z := _ ← USUB8 a b; SEL a b.

Lemma bytewise_max_ok a b k : exists k',
  bytewise_max a b k = Ok (word_of 8 (zip_with Z.max (lanes 8 4 a) (lanes 8 4 b)), k').
Proof.
  unfold bytewise_max, USUB8, SEL, wrapping. rewrite bind_assoc, bind_modify, bind_ret_l, bind_gets, ge_lanes_8.
  cbn [k_ge set_ge]. rewrite select_max. by eexists.
Qed.

(** The average of two bytes fits a byte. *)
Lemma lanes_UHADD8 a b : lanes 8 4 (UHADD8 a b) = zip_with (fun x y => (x + y) / 2) (lanes 8 4 a) (lanes 8 4 b).
Proof.
  unfold UHADD8, add_lanes. set (rs := zip_with _ _ _). assert (length rs = 4%nat) as Hl by apply length_zip_lanes.
  transitivity (lanes 8 (length rs) (halving 8 rs)); [by rewrite Hl|]. rewrite lanes_halving; [|lia|].
  - unfold rs. clear rs Hl. generalize (lanes 8 4 b). induction (lanes 8 4 a) as [|x xs IH]; intros [|y ys]; [done..|].
    cbn [fmap list_fmap zip_with]. f_equal. apply IH.
  - pose proof (lanes_bound 8 4 a ltac:(lia)) as Ha. pose proof (lanes_bound 8 4 b ltac:(lia)) as Hb. unfold rs. clear rs Hl.
    revert Hb. generalize (lanes 8 4 b). induction Ha as [|x xs Hx _ IH]; intros ys Hb; [constructor|].
    destruct Hb as [|y ys Hy Hb]; [constructor|]. cbn [zip_with]. constructor; [lia|by apply IH].
Qed.

(** ** Bit reversal *)

Lemma reversed_bits n : forall v i, 0 <= i -> Z.testbit (reversed n v) i = (i <? Z.of_nat n) && Z.testbit v (Z.of_nat n - 1 - i).
Proof.
  induction n as [|n IH]; intros v i Hi; cbn [reversed].
  { rewrite Z.testbit_0_l, (proj2 (Z.ltb_ge _ _)) by lia. done. }
  rewrite Z.lor_spec, Z.shiftl_spec, IH by lia. destruct (Z.eqb_spec i (Z.of_nat n)) as [->|Hne].
  - rewrite Z.sub_diag, (proj2 (Z.ltb_ge _ _)), (proj2 (Z.ltb_lt _ _)) by lia.
    replace (Z.of_nat (S n) - 1 - Z.of_nat n) with 0 by lia. rewrite orb_false_r. by destruct (Z.testbit v 0).
  - destruct (Z.ltb_spec i (Z.of_nat n)).
    + rewrite (Z.testbit_neg_r _ (i - Z.of_nat n)), (proj2 (Z.ltb_lt i (Z.of_nat (S n)))) by lia.
      rewrite Z.shiftr_spec by lia. cbn [orb andb]. f_equal. lia.
    + rewrite (proj2 (Z.ltb_ge i (Z.of_nat (S n)))) by lia. cbn [andb orb]. rewrite orb_false_r.
      destruct (Z.testbit v 0); [|apply Z.testbit_0_l]. apply (testbit_high 1); [by split|lia].
Qed.

Lemma RBIT_bits v i : 0 <= i < 32 -> Z.testbit (RBIT v) i = Z.testbit v (31 - i).
Proof. intros Hi. unfold RBIT. rewrite reversed_bits, (proj2 (Z.ltb_lt _ _)) by lia. cbn [andb]. f_equal. Qed.

Lemma RBIT_range v : 0 <= RBIT v < 2 ^ 32.
Proof.
  assert (RBIT v = RBIT v mod 2 ^ 32) as ->; [|by apply Z.mod_pos_bound].
  apply Z.bits_inj'. intros i Hi. rewrite testbit_mod_pow2 by lia. destruct (Z.ltb_spec i 32); [done|].
  unfold RBIT. rewrite reversed_bits, (proj2 (Z.ltb_ge _ _)) by lia. done.
Qed.

Lemma RBIT_involutive v : 0 <= v < 2 ^ 32 -> RBIT (RBIT v) = v.
Proof.
  intros Hv. apply Z.bits_inj'. intros i Hi. destruct (Z.ltb_spec i 32).
  - rewrite !RBIT_bits by lia. f_equal. lia.
  - rewrite (testbit_high 32 v), (testbit_high 32 (RBIT (RBIT v))); try done; try lia. apply RBIT_range.
Qed.

(** ** The C versions of the pack and multiply instructions *)

Lemma PKHBT_c_ok a b n : 0 <= a < 2 ^ 32 -> 0 <= b < 2 ^ 32 -> PKHBT_c a b n = PKHBT a b n.
Proof. intros Ha Hb. unfold PKHBT_c, PKHBT. by rewrite (u32_small a), (u32_small b) by done. Qed.

Lemma sint_32_bits v i : 0 <= i < 32 -> Z.testbit (sint 32 v) i = Z.testbit v i.
Proof.
  intros Hi. assert (sint 32 v mod 2 ^ 32 = v mod 2 ^ 32) as E.
  { unfold sint. destruct (_ <? _); [by rewrite Zmod_mod|]. rewrite Zminus_mod, Z_mod_same_full, Zmod_mod, Z.sub_0_r. by rewrite Zmod_mod. }
  apply (f_equal (fun z => Z.testbit z i)) in E. rewrite !testbit_mod_pow2 in E by lia. by rewrite (proj2 (Z.ltb_lt _ _)) in E by lia.
Qed.

(** The shift of the C version brings in zeros, which the mask removes up to a
    shift by 16. *)
Lemma PKHTB_c_ok a b n : 0 <= a < 2 ^ 32 -> 0 <= b < 2 ^ 32 -> 0 <= n <= 16 -> PKHTB_c a b n = PKHTB a b n.
Proof.
  intros Ha Hb Hn. unfold PKHTB_c, PKHTB. rewrite !u32_small by done. destruct (Z.eqb_spec n 0) as [->|H0]; [by rewrite Z.shiftr_0_r|].
  f_equal. apply Z.bits_inj'. intros i Hi. rewrite !Z.land_spec. change 0xFFFF with (Z.ones 16). rewrite Z.testbit_ones_nonneg by lia.
  destruct (Z.ltb_spec i 16); [|by rewrite !andb_false_r]. rewrite !Z.shiftr_spec, sint_32_bits by lia. done.
Qed.

Lemma SMMLA_c_ok a b c r :
  - 2 ^ 31 <= a < 2 ^ 31 -> - 2 ^ 31 <= b < 2 ^ 31 -> - 2 ^ 31 <= c < 2 ^ 31 ->
  SMMLA_c a b c = Some r -> u32 r = SMMLA (u32 a) (u32 b) (u32 c).
Proof.
  intros Ha Hb Hc. unfold SMMLA_c, SMMLA. rewrite Z.shiftl_mul_pow2, Z.shiftr_div_pow2 by lia.
  destruct (_ =? _); [|done]. intros [= <-]. unfold u32 at 3 4 5. rewrite !(sint_wrap 32), !(sint_fits 32 a), !(sint_fits 32 b), !(sint_fits 32 c) by lia.
  rewrite (Z.mul_comm c). set (x := (_ / _)). unfold u32. symmetry. rewrite <- (sint_wrap 32 x). unfold sint. rewrite Zmod_mod.
  destruct (_ <? _); [by rewrite Zmod_mod|]. by rewrite Zminus_mod, Z_mod_same_full, Zmod_mod, Z.sub_0_r, Zmod_mod.
Qed.

(** Signed and unsigned saturation, lane by lane. *)
Lemma fmap_zip_lanes (f : Z -> Z) (g : Z -> Z -> Z) xs ys : f <$> zip_with g xs ys = zip_with (fun x y => f (g x y)) xs ys.
Proof. revert ys. induction xs as [|x xs IH]; intros [|y ys]; [done..|]. cbn [zip_with fmap list_fmap]. f_equal. apply IH. Qed.

Lemma slanes_saturated w n (g : Z -> Z -> Z) op1 op2 : 0 < w ->
  slanes w n (s_sat w (zip_with g (slanes w n op1) (slanes w n op2))) =
  zip_with (fun x y => ssat_to w (g x y)) (slanes w n op1) (slanes w n op2).
Proof.
  intros Hw. set (rs := zip_with _ _ _).
  assert (length rs = n) as Hl by (unfold rs, slanes; rewrite length_zip_with, !length_fmap, !length_lanes; lia).
  transitivity (slanes w (length rs) (s_sat w rs)); [by rewrite Hl|]. rewrite slanes_s_sat by done. apply fmap_zip_lanes.
Qed.

Lemma lanes_saturated w n (g : Z -> Z -> Z) op1 op2 : 0 <= w ->
  lanes w n (u_sat w (zip_with g (lanes w n op1) (lanes w n op2))) =
  zip_with (fun x y => usat_to w (g x y)) (lanes w n op1) (lanes w n op2).
Proof.
  intros Hw. set (rs := zip_with _ _ _). assert (length rs = n) as Hl by apply length_zip_lanes.
  transitivity (lanes w (length rs) (u_sat w rs)); [by rewrite Hl|]. rewrite lanes_u_sat by done. apply fmap_zip_lanes.
Qed.

(** The SIMD functions work on the bytes and halfwords of a word: saturating
    addition and subtraction clamp each of them to its range, the halving
    addition is the average, and a selection after a bytewise subtraction picks
    the greater bytes. *)
Theorem simd_lanewise op1 op2 k :
  slanes 8 4 (QADD8 op1 op2) = zip_with (fun x y => ssat_to 8 (x + y)) (slanes 8 4 op1) (slanes 8 4 op2) /\
  slanes 8 4 (QSUB8 op1 op2) = zip_with (fun x y => ssat_to 8 (x - y)) (slanes 8 4 op1) (slanes 8 4 op2) /\
  slanes 16 2 (QADD16 op1 op2) = zip_with (fun x y => ssat_to 16 (x + y)) (slanes 16 2 op1) (slanes 16 2 op2) /\
  slanes 16 2 (QSUB16 op1 op2) = zip_with (fun x y => ssat_to 16 (x - y)) (slanes 16 2 op1) (slanes 16 2 op2) /\
  lanes 8 4 (UQADD8 op1 op2) = zip_with (fun x y => usat_to 8 (x + y)) (lanes 8 4 op1) (lanes 8 4 op2) /\
  lanes 8 4 (UQSUB8 op1 op2) = zip_with (fun x y => usat_to 8 (x - y)) (lanes 8 4 op1) (lanes 8 4 op2) /\
  lanes 16 2 (UQADD16 op1 op2) = zip_with (fun x y => usat_to 16 (x + y)) (lanes 16 2 op1) (lanes 16 2 op2) /\
  lanes 16 2 (UQSUB16 op1 op2) = zip_with (fun x y => usat_to 16 (x - y)) (lanes 16 2 op1) (lanes 16 2 op2) /\
  lanes 8 4 (UHADD8 op1 op2) = zip_with (fun x y => (x + y) / 2) (lanes 8 4 op1) (lanes 8 4 op2) /\
  (exists k', bytewise_max op1 op2 k = Ok (word_of 8 (zip_with Z.max (lanes 8 4 op1) (lanes 8 4 op2)), k')).
Proof.
  repeat apply conj; try (by apply slanes_saturated); try (by apply lanes_saturated).
  - apply lanes_UHADD8.
  - apply bytewise_max_ok.
Qed.

(** The plain C versions of the pack and multiply functions agree with the
    instructions, except that a pack with a shift by more than 16 shifts in zeros
    where the instruction shifts in the sign, and that a multiplication whose
    64-bit sum overflows has no value. *)
Theorem intrinsics_c_versions a b n :
  0 <= a < 2 ^ 32 -> 0 <= b < 2 ^ 32 -> 0 <= n <= 16 ->
  PKHBT_c a b n = PKHBT a b n /\ PKHTB_c a b n = PKHTB a b n /\
  (forall c r, 0 <= c < 2 ^ 32 -> SMMLA_c (sint 32 a) (sint 32 b) (sint 32 c) = Some r -> u32 r = SMMLA a b c) /\
  PKHTB_c 0 0x80000000 17 <> PKHTB 0 0x80000000 17 /\ SMMLA_c (- 2 ^ 31) (- 2 ^ 31) (2 ^ 31 - 1) = None.
Proof.
  intros Ha Hb Hn. split; [by apply PKHBT_c_ok|]. split; [by apply PKHTB_c_ok|]. split; [|split; [by vm_compute|done]].
  intros c r Hc H. apply SMMLA_c_ok in H; try apply (sint_range 32); try lia. rewrite H.
  assert (forall v, 0 <= v < 2 ^ 32 -> u32 (sint 32 v) = v) as Hu; [|by rewrite !Hu].
  intros v Hv. apply Z.bits_inj'. intros i Hi. unfold u32. rewrite testbit_mod_pow2 by lia.
  destruct (Z.ltb_spec i 32); [by rewrite sint_32_bits by lia|]. by rewrite (testbit_high 32 v) by lia.
Qed.

(** ** Exclusive accesses and masks *)

Definition word_at (k : core) (a : Z) : option Z := le_val <$> mapM (fun i => k_mem k !! (a + Z.of_nat i)) (seq 0 4).

Lemma load_word k a x : word_at k a = Some x -> load 4 a k = Ok (x, k).
Proof. unfold word_at, load. destruct (mapM _ _); [|done]. by intros [= <-]. Qed.

Lemma put_bytes_below bs : forall a m i, i < a -> put_bytes a bs m !! i = m !! i.
Proof. induction bs as [|b bs IH]; intros a m i Hi; [done|]. cbn [put_bytes]. rewrite IH by lia. by rewrite lookup_insert_ne by lia. Qed.

Lemma put_bytes_at bs : forall a m i, (i < length bs)%nat -> put_bytes a bs m !! (a + Z.of_nat i) = bs !! i.
Proof.
  induction bs as [|b bs IH]; intros a m i Hi; cbn [length] in Hi; [lia|]. cbn [put_bytes]. destruct i as [|i].
  - rewrite Z.add_0_r, put_bytes_below by lia. by rewrite lookup_insert_eq.
  - replace (a + Z.of_nat (S i)) with (a + 1 + Z.of_nat i) by lia. by rewrite IH by lia.
Qed.

Lemma word_at_store k a v : word_at (set_mem (put_bytes a (le_bytes 4 v) (k_mem k)) k) a = Some (u32 v).
Proof.
  unfold word_at. cbn [k_mem set_mem]. rewrite (proj2 (mapM_Some _ _ (le_bytes 4 v))).
  - cbn [fmap option_fmap option_map]. f_equal. apply le_val_bytes.
  - repeat apply Forall2_cons_2; [..|apply Forall2_nil_2]; rewrite put_bytes_at by (rewrite length_le_bytes; lia); done.
Qed.

Lemma word_mapped k a x : word_at k a = Some x ->
  forallb (fun i => bool_decide (is_Some (k_mem k !! (a + Z.of_nat i)))) (seq 0 4) = true.
Proof.
  unfold word_at. intros H. apply fmap_Some in H as (bs & H & _). apply mapM_Some in H. apply Is_true_true, forallb_True, Forall_forall.
  intros i Hi. apply bool_decide_pack. apply list_elem_of_lookup in Hi as [j Hj].
  destruct (Forall2_lookup_l _ _ _ _ _ H Hj) as (b & _ & Hb). by exists b.
Qed.

(** A write that depends on what was read: the exclusive store is made if nothing
    closed the monitor in between, and only then. *)
Theorem exclusive_update k a x v :
  a mod 4 = 0 -> word_at k a = Some x -> 0 <= v < 2 ^ 32 ->
  exists k1, LDREXW a k = Ok (x, k1) /\ word_at k1 a = Some x /\
  (exists k2, STREXW v a k1 = Ok (0, k2) /\ word_at k2 a = Some v /\ STREXW v a k2 = Ok (1, k2)) /\
  (exists k3, CLREX k1 = Ok (tt, k3) /\ STREXW v a k3 = Ok (1, k3) /\ word_at k3 a = Some x).
Proof.
  intros Ha Hx Hv. assert (forall k, aligned_to 4 a k = Ok (tt, k)) as Hal by (intros k'; unfold aligned_to; change (Z.of_nat 4) with 4; by rewrite Ha).
  exists (set_exclusive true k). split.
  { unfold LDREXW, ldrex. mstep (Hal k). mstep (load_word k a x Hx). done. }
  split; [exact Hx|]. split.
  - exists (set_exclusive false (set_mem (put_bytes a (le_bytes 4 v) (k_mem k)) (set_exclusive true k))). split; [|split].
    + unfold STREXW, strex. mstep (Hal (set_exclusive true k)). rewrite bind_gets. cbn [k_exclusive set_exclusive].
      unfold store. rewrite (bind_Ok _ _ _ tt (set_mem (put_bytes a (le_bytes 4 v) (k_mem k)) (set_exclusive true k))); [done|].
      by rewrite (word_mapped (set_exclusive true k) a x Hx).
    + rewrite <- (u32_small v Hv) at 2. exact (word_at_store k a v).
    + unfold STREXW, strex. by mstep (Hal (set_exclusive false (set_mem (put_bytes a (le_bytes 4 v) (k_mem k)) (set_exclusive true k)))).
  - exists (set_exclusive false k). split; [done|]. split; [|exact Hx].
    unfold STREXW, strex. by mstep (Hal (set_exclusive false k)).
Qed.

Lemma exclusive_update_witness :
  exists k1 k2, LDREXW 8 (Core 0 false [] 0 0 false false 0 0 0 false false (put_bytes 8 [1; 2; 3; 4] empty)) = Ok (0x04030201, k1) /\
    STREXW 7 8 k1 = Ok (0, k2) /\ word_at k2 8 = Some 7.
Proof.
  destruct (exclusive_update (Core 0 false [] 0 0 false false 0 0 0 false false (put_bytes 8 [1; 2; 3; 4] empty)) 8 0x04030201 7)
    as (k1 & H1 & _ & (k2 & H2 & H3 & _) & _); [done|by vm_compute|lia|]. exists k1, k2. by repeat split.
Defined.

(** Masking and restoring interrupts: saving the mask, masking and writing it back
    leaves a privileged core as it was, and code without privilege cannot mask
    interrupts at all. *)
Theorem masks_restored k :
  (privileged k = true -> exists k1, (m ← get_PRIMASK; disable_irq;; mret m) k = Ok (Z.b2z (k_primask k), k1) /\
     k_primask k1 = true /\ set_PRIMASK (Z.b2z (k_primask k)) k1 = Ok (tt, k)) /\
  (privileged k = false -> forall v, disable_irq k = Ok (tt, k) /\ set_PRIMASK v k = Ok (tt, k) /\ set_BASEPRI v k = Ok (tt, k) /\
     set_FAULTMASK v k = Ok (tt, k) /\ set_CONTROL v k = Ok (tt, k)).
Proof.
  split; intros Hp.
  - exists (set_masks true (k_faultmask k) (k_basepri k) k). unfold get_PRIMASK, disable_irq, privileged_read, if_privileged, set_PRIMASK.
    rewrite bind_gets, bind_modify, Hp. split; [done|]. split; [done|]. unfold if_privileged, modify.
    change (privileged (set_masks true (k_faultmask k) (k_basepri k) k)) with (privileged k). rewrite Hp. by destruct k as [? ? ? ? ? [] ? ? ? ? ? ? ?].
  - intros v. unfold disable_irq, set_PRIMASK, set_BASEPRI, set_FAULTMASK, set_CONTROL, if_privileged, modify. by rewrite Hp.
Qed.
