(* ===== verification/SamCompiler.v ===== *)
(** * Compiler support (asf/include/compiler.h)

    The macros and inline functions of the vendor's compiler layer: bit fields,
    counts of zero bits, bit reversal, alignment, the parts of an integer in
    memory, byte order and the conversions between integers and byte arrays.
    A macro is modelled on operands of the type it is documented for, [U32] where
    it takes any integer; the processor is little-endian. *)

From S2P Require Import Prelude SamDev SamIntrinsics.
From stdpp Require Import base list.
From Stdlib Require Import ZArith Lia.
Local Open Scope Z_scope.

(** ** Zero-bit counting *)

(** [__builtin_clz] and [__builtin_ctz] of a value that is not zero. *)
Definition builtin_clz (u : Z) : Z := 31 - Z.log2 u.
Definition builtin_ctz (u : Z) : Z := Z.log2 (Z.land u (- u)).
Definition clz (u : Z) : Z := if ctrue u then builtin_clz u else 32.
Definition ctz (u : Z) : Z := if ctrue u then builtin_ctz u else 32.

(** The versions for other compilers. *)
Definition clz_c (u : Z) : Z :=
  if u =? 0 then 32
  else if ctrue (Z.land u (bit 31)) then 0
  else if ctrue (Z.land u (bit 30)) then 1
  else if ctrue (Z.land u (bit 29)) then 2
  else if ctrue (Z.land u (bit 28)) then 3
  else if ctrue (Z.land u (bit 27)) then 4
  else if ctrue (Z.land u (bit 26)) then 5
  else if ctrue (Z.land u (bit 25)) then 6
  else if ctrue (Z.land u (bit 24)) then 7
  else if ctrue (Z.land u (bit 23)) then 8
  else if ctrue (Z.land u (bit 22)) then 9
  else if ctrue (Z.land u (bit 21)) then 10
  else if ctrue (Z.land u (bit 20)) then 11
  else if ctrue (Z.land u (bit 19)) then 12
  else if ctrue (Z.land u (bit 18)) then 13
  else if ctrue (Z.land u (bit 17)) then 14
  else if ctrue (Z.land u (bit 16)) then 15
  else if ctrue (Z.land u (bit 15)) then 16
  else if ctrue (Z.land u (bit 14)) then 17
  else if ctrue (Z.land u (bit 13)) then 18
  else if ctrue (Z.land u (bit 12)) then 19
  else if ctrue (Z.land u (bit 11)) then 20
  else if ctrue (Z.land u (bit 10)) then 21
  else if ctrue (Z.land u (bit 9)) then 22
  else if ctrue (Z.land u (bit 8)) then 23
  else if ctrue (Z.land u (bit 7)) then 24
  else if ctrue (Z.land u (bit 6)) then 25
  else if ctrue (Z.land u (bit 5)) then 26
  else if ctrue (Z.land u (bit 4)) then 27
  else if ctrue (Z.land u (bit 3)) then 28
  else if ctrue (Z.land u (bit 2)) then 29
  else if ctrue (Z.land u (bit 1)) then 30
  else 31.
Definition ctz_c (u : Z) : Z :=
  if ctrue (Z.land u (bit 0)) then 0
  else if ctrue (Z.land u (bit 1)) then 1
  else if ctrue (Z.land u (bit 2)) then 2
  else if ctrue (Z.land u (bit 3)) then 3
  else if ctrue (Z.land u (bit 4)) then 4
  else if ctrue (Z.land u (bit 5)) then 5
  else if ctrue (Z.land u (bit 6)) then 6
  else if ctrue (Z.land u (bit 7)) then 7
  else if ctrue (Z.land u (bit 8)) then 8
  else if ctrue (Z.land u (bit 9)) then 9
  else if ctrue (Z.land u (bit 10)) then 10
  else if ctrue (Z.land u (bit 11)) then 11
  else if ctrue (Z.land u (bit 12)) then 12
  else if ctrue (Z.land u (bit 13)) then 13
  else if ctrue (Z.land u (bit 14)) then 14
  else if ctrue (Z.land u (bit 15)) then 15
  else if ctrue (Z.land u (bit 16)) then 16
  else if ctrue (Z.land u (bit 17)) then 17
  else if ctrue (Z.land u (bit 18)) then 18
  else if ctrue (Z.land u (bit 19)) then 19
  else if ctrue (Z.land u (bit 20)) then 20
  else if ctrue (Z.land u (bit 21)) then 21
  else if ctrue (Z.land u (bit 22)) then 22
  else if ctrue (Z.land u (bit 23)) then 23
  else if ctrue (Z.land u (bit 24)) then 24
  else if ctrue (Z.land u (bit 25)) then 25
  else if ctrue (Z.land u (bit 26)) then 26
  else if ctrue (Z.land u (bit 27)) then 27
  else if ctrue (Z.land u (bit 28)) then 28
  else if ctrue (Z.land u (bit 29)) then 29
  else if ctrue (Z.land u (bit 30)) then 30
  else if ctrue (Z.land u (bit 31)) then 31
  else 32.

(** ** Bit fields *)

Definition Rd_bits (value mask : Z) : Z := Z.land value mask.
(** The value the lvalue gets. *)
Definition Wr_bits (lvalue mask bits : Z) : Z := Z.lor (Z.ldiff lvalue mask) (Z.land bits mask).
Definition Tst_bits (value mask : Z) : bool := ctrue (Rd_bits value mask).
Definition Clr_bits (lvalue mask : Z) : Z := Z.ldiff lvalue mask.
Definition Set_bits (lvalue mask : Z) : Z := Z.lor lvalue mask.
Definition Tgl_bits (lvalue mask : Z) : Z := Z.lxor lvalue mask.
(** A shift by the width, which the mask 0 asks for, has no value. *)
Definition Rd_bitfield (value mask : Z) : option Z :=
  if ctz mask <? 32 then Some (Z.shiftr (Rd_bits value mask) (ctz mask)) else None.
Definition Wr_bitfield (lvalue mask bitfield : Z) : option Z :=
  if ctz mask <? 32 then Some (Wr_bits lvalue mask (u32 (Z.shiftl (u32 bitfield) (ctz mask)))) else None.

(** ** Bit reversing *)

Definition bit_reverse32 (x : Z) : Z := RBIT x.
Definition bit_reverse8 (x : Z) : Z := u8 (Z.shiftr (bit_reverse32 (u8 x)) 24).
Definition bit_reverse16 (x : Z) : Z := u16 (Z.shiftr (bit_reverse32 (u16 x)) 16).
(** The intrinsic takes a [uint32_t]. *)
Definition bit_reverse64 (x : Z) : Z :=
  u64 (Z.lor (bit_reverse32 (u32 (Z.shiftr (u64 x) 32))) (u64 (Z.shiftl (bit_reverse32 (u32 (u64 x))) 32))).

(** ** Alignment *)

Definition Test_align (val n : Z) : bool := negb (Tst_bits val (n - 1)).
Definition Get_align (val n : Z) : Z := Rd_bits val (n - 1).
Definition Set_align (lval n alg : Z) : Z := Wr_bits lval (n - 1) alg.
(** The sum wraps. *)
Definition Align_up (val n : Z) : Z := Z.ldiff (u32 (val + (n - 1))) (n - 1).
Definition Align_down (val n : Z) : Z := Z.ldiff val (n - 1).

(** ** Mathematics *)

(** On [int], whose least value has no negative. *)
Definition Abs (a : Z) : option Z := if a <? 0 then (if a =? - 2 ^ 31 then None else Some (- a)) else Some a.
Definition Min (a b : Z) : Z := if a <? b then a else b.
Definition Max (a b : Z) : Z := if b <? a then a else b.
Definition min_ (a b : Z) : Z := Min a b.
Definition max_ (a b : Z) : Z := Max a b.
(** On [U32]; the sum wraps and a division by zero has no value. *)
Definition div_ceil (a b : Z) : option Z := if b =? 0 then None else Some (u32 (a + b - 1) / b).

(** ** The parts of an integer in memory *)

(** Unit [k], of [w] bytes, of an integer of [n] bytes. *)
Definition unit_at (n w : nat) (x : Z) (k : nat) : Z := le_val (take w (drop (w * k) (le_bytes n x))).

Definition MSB (x : Z) : Z := unit_at 2 1 x 1.
Definition LSB (x : Z) : Z := unit_at 2 1 x 0.
Definition MSH (x : Z) : Z := unit_at 4 2 x 1.
Definition LSH (x : Z) : Z := unit_at 4 2 x 0.
Definition MSB0W (x : Z) : Z := unit_at 4 1 x 3.
Definition MSB1W (x : Z) : Z := unit_at 4 1 x 2.
Definition MSB2W (x : Z) : Z := unit_at 4 1 x 1.
Definition MSB3W (x : Z) : Z := unit_at 4 1 x 0.
Definition LSB3W (x : Z) : Z := MSB0W x.
Definition LSB2W (x : Z) : Z := MSB1W x.
Definition LSB1W (x : Z) : Z := MSB2W x.
Definition LSB0W (x : Z) : Z := MSB3W x.
Definition MSW (x : Z) : Z := unit_at 8 4 x 1.
Definition LSW (x : Z) : Z := unit_at 8 4 x 0.
Definition MSH0 (x : Z) : Z := unit_at 8 2 x 3.
Definition MSH1 (x : Z) : Z := unit_at 8 2 x 2.
Definition MSH2 (x : Z) : Z := unit_at 8 2 x 1.
Definition MSH3 (x : Z) : Z := unit_at 8 2 x 0.
Definition LSH3 (x : Z) : Z := MSH0 x.
Definition LSH2 (x : Z) : Z := MSH1 x.
Definition LSH1 (x : Z) : Z := MSH2 x.
Definition LSH0 (x : Z) : Z := MSH3 x.
Definition MSB0D (x : Z) : Z := unit_at 8 1 x 7.
Definition MSB1D (x : Z) : Z := unit_at 8 1 x 6.
Definition MSB2D (x : Z) : Z := unit_at 8 1 x 5.
Definition MSB3D (x : Z) : Z := unit_at 8 1 x 4.
Definition MSB4D (x : Z) : Z := unit_at 8 1 x 3.
Definition MSB5D (x : Z) : Z := unit_at 8 1 x 2.
Definition MSB6D (x : Z) : Z := unit_at 8 1 x 1.
Definition MSB7D (x : Z) : Z := unit_at 8 1 x 0.
Definition LSB7D (x : Z) : Z := MSB0D x.
Definition LSB6D (x : Z) : Z := MSB1D x.
Definition LSB5D (x : Z) : Z := MSB2D x.
Definition LSB4D (x : Z) : Z := MSB3D x.
Definition LSB3D (x : Z) : Z := MSB4D x.
Definition LSB2D (x : Z) : Z := MSB5D x.
Definition LSB1D (x : Z) : Z := MSB6D x.
Definition LSB0D (x : Z) : Z := MSB7D x.
Definition LSB0 (x : Z) : Z := LSB0W x.
Definition LSB1 (x : Z) : Z := LSB1W x.
Definition LSB2 (x : Z) : Z := LSB2W x.
Definition LSB3 (x : Z) : Z := LSB3W x.
Definition MSB3 (x : Z) : Z := MSB3W x.
Definition MSB2 (x : Z) : Z := MSB2W x.
Definition MSB1 (x : Z) : Z := MSB1W x.
Definition MSB0 (x : Z) : Z := MSB0W x.

(** ** Byte order *)

Definition Swap16 (x : Z) : Z := u16 (Z.lor (Z.shiftr (u16 x) 8) (Z.shiftl (u16 x) 8)).
Definition Swap32 (x : Z) : Z := u32 (Z.lor (Swap16 (Z.shiftr (u32 x) 16)) (u32 (Z.shiftl (Swap16 (u32 x)) 16))).
Definition Swap64 (x : Z) : Z := u64 (Z.lor (Swap32 (Z.shiftr (u64 x) 32)) (u64 (Z.shiftl (Swap32 (u64 x)) 32))).
(** [__builtin_bswap32] and [__builtin_bswap64] reverse the bytes. *)
Definition bswap (n : nat) (x : Z) : Z := le_val (rev (le_bytes n x)).
Definition swap16 (x : Z) : Z := Swap16 x.
Definition swap32 (x : Z) : Z := bswap 4 (u32 x).
Definition swap64 (x : Z) : Z := bswap 8 (u64 x).

Definition BE16 (x : Z) : Z := swap16 x.
Definition LE16 (x : Z) : Z := x.
Definition le16_to_cpu (x : Z) : Z := x.
Definition cpu_to_le16 (x : Z) : Z := x.
Definition be16_to_cpu (x : Z) : Z := swap16 x.
Definition cpu_to_be16 (x : Z) : Z := swap16 x.
Definition le32_to_cpu (x : Z) : Z := x.
Definition cpu_to_le32 (x : Z) : Z := x.
Definition be32_to_cpu (x : Z) : Z := swap32 x.
Definition cpu_to_be32 (x : Z) : Z := swap32 x.

(** ** Integers and byte arrays *)

(** [data[i] = b], inside of the array. *)
Definition put8 (data : list Z) (i : nat) (b : Z) : option (list Z) :=
  if (i <? length data)%nat then Some (<[i := b]> data) else None.

(** The loop of [convert_64_bit_to_byte_array], [n] bytes before its end. *)
Fixpoint convert_loop (n val_index : nat) (value : Z) (data : list Z) : option (list Z) :=
  match n with
  | O => Some data
  | S n =>
    data ← put8 data val_index (Z.land value 0xFF);
    convert_loop n (S val_index) (Z.shiftr value 8) data
  end.
Definition convert_64_bit_to_byte_array (value : Z) (data : list Z) : option (list Z) := convert_loop 8 0 value data.

Definition convert_16_bit_to_byte_array (value : Z) (data : list Z) : option (list Z) :=
  data ← put8 data 0 (Z.land value 0xFF); put8 data 1 (Z.land (Z.shiftr value 8) 0xFF).
Definition convert_spec_16_bit_to_byte_array (value : Z) (data : list Z) : option (list Z) :=
  data ← put8 data 0 (Z.land value 0xFF); put8 data 1 (Z.land (Z.shiftr value 8) 0xFF).
Definition convert_16_bit_to_byte_address (value : Z) (data : list Z) : option (list Z) :=
  data ← put8 data 0 (Z.land value 0xFF); put8 data 1 (Z.land (Z.shiftr value 8) 0xFF).

(** The shift is made on an [int], and the result cut to 16 bits. *)
Definition convert_byte_array_to_16_bit (data : list Z) : option Z :=
  d0 ← data !! 0%nat; d1 ← data !! 1%nat; Some (u16 (Z.lor d0 (Z.shiftl d1 8))).

(** The loop that fills the union, and the integer read from it. *)
Fixpoint fill_union (n index : nat) (data u8s : list Z) : option (list Z) :=
  match n with
  | O => Some u8s
  | S n =>
    match data with
    | [] => None
    | d :: data => u8s ← put8 u8s index d; fill_union n (S index) data u8s
    end
  end.
(** The union starts with any contents, [junk]. *)
Definition convert_byte_array_to_32_bit (junk data : list Z) : option Z :=
  u8s ← fill_union 4 0 data junk; Some (le_val (take 4 u8s)).
Definition convert_byte_array_to_64_bit (junk data : list Z) : option Z :=
  u8s ← fill_union 8 0 data junk; Some (le_val (take 8 u8s)).

(** ** The counts of zeros *)

Lemma ctrue_bit u n : 0 <= n -> ctrue (Z.land u (bit n)) = Z.testbit u n.
Proof.
  intros Hn. unfold bit. rewrite Z.shiftl_1_l. destruct (Z.testbit u n) eqn:E.
  - apply ctrue_nonzero. intros H. apply (f_equal (fun z => Z.testbit z n)) in H.
    rewrite Z.land_spec, E, Z.pow2_bits_true, Z.bits_0 in H by lia. done.
  - replace (Z.land u (2 ^ n)) with 0; [done|]. symmetry. apply Z.bits_inj'. intros i Hi.
    rewrite Z.land_spec, Z.pow2_bits_eqb, Z.bits_0 by lia. destruct (Z.eqb_spec n i) as [->|]; [by rewrite E|apply andb_false_r].
Qed.

(** The chains of tests as loops. *)
Fixpoint clz_from (n : nat) (u : Z) : Z :=
  match n with O => 31 | S n' => if ctrue (Z.land u (bit (Z.of_nat n))) then 31 - Z.of_nat n else clz_from n' u end.
Fixpoint ctz_from (n : nat) (i : Z) (u : Z) : Z :=
  match n with O => 32 | S n => if ctrue (Z.land u (bit i)) then i else ctz_from n (i + 1) u end.

Lemma clz_c_loop u : clz_c u = if u =? 0 then 32 else clz_from 31 u.
Proof. reflexivity. Qed.
Lemma ctz_c_loop u : ctz_c u = ctz_from 32 0 u.
Proof. reflexivity. Qed.

Lemma clz_from_ok n u : 0 < u < 2 ^ (Z.of_nat n + 1) -> clz_from n u = 31 - Z.log2 u.
Proof.
  induction n as [|n IH]; intros Hu.
  { change (2 ^ (Z.of_nat 0 + 1)) with 2 in Hu. by replace u with 1 by lia. }
  cbn [clz_from]. rewrite ctrue_bit by lia. destruct (Z.testbit u (Z.of_nat (S n))) eqn:E.
  - f_equal. symmetry. apply Z.log2_unique; [lia|]. split; [|rewrite <- Z.add_1_r; lia].
    destruct (Z.le_gt_cases (2 ^ Z.of_nat (S n)) u); [done|]. by rewrite (testbit_high (Z.of_nat (S n))) in E by lia.
  - apply IH. replace (Z.of_nat n + 1) with (Z.of_nat (S n)) by lia. split; [lia|].
    destruct (Z.lt_ge_cases u (2 ^ Z.of_nat (S n))); [done|]. apply not_true_iff_false in E.
    destruct E. apply Z.testbit_true; [lia|]. replace (u / 2 ^ Z.of_nat (S n)) with 1; [done|].
    rewrite Z.pow_add_r in Hu by lia. apply Z.div_unique with (u - 2 ^ Z.of_nat (S n)); lia.
Qed.

(** The least bit set in a value isolated by the builtin's definition. *)
Lemma builtin_ctz_first u i : 0 <= i -> Z.testbit u i = true -> u mod 2 ^ i = 0 -> builtin_ctz u = i.
Proof.
  intros Hi Hb Hl. unfold builtin_ctz. apply Z.mod_divide in Hl as [q ->]; [|lia].
  rewrite <- Z.shiftl_mul_pow2 in * by lia. rewrite Z.shiftl_spec, Z.sub_diag in Hb by lia.
  replace (- Z.shiftl q i) with (Z.shiftl (- q) i) by (rewrite !Z.shiftl_mul_pow2 by lia; lia).
  rewrite <- Z.shiftl_land. assert (Z.land q (- q) = 1) as ->.
  - rewrite <- (Z.lnot_involutive (- q)). replace (Z.lnot (- q)) with (q - 1) by (unfold Z.lnot; lia).
    apply Z.bits_inj'. intros j Hj. rewrite Z.land_spec, Z.lnot_spec by lia.
    destruct (Z.eqb_spec j 0) as [->|Hj0].
    + rewrite Hb. cbn [andb]. rewrite !Z.bit0_odd in *. rewrite Z.odd_sub, Hb. done.
    + rewrite (testbit_high 1 1) by lia. replace j with (Z.succ (j - 1)) by lia. rewrite <- !Z.div2_bits by lia.
      rewrite Z.bit0_odd in Hb. apply Z.odd_spec in Hb as [r ->].
      replace ((2 * r + 1) / 2) with r by (Z.to_euclidean_division_equations; lia).
      replace ((2 * r + 1 - 1) / 2) with r by (Z.to_euclidean_division_equations; lia). by destruct (Z.testbit r (j - 1)).
  - rewrite Z.shiftl_1_l. by apply Z.log2_pow2.
Qed.

Lemma mod_next u i : 0 <= i -> Z.testbit u i = false -> u mod 2 ^ i = 0 -> u mod 2 ^ (i + 1) = 0.
Proof.
  intros Hi Hb Hl. apply Z.bits_inj'. intros j Hj. rewrite testbit_mod_pow2, Z.bits_0 by lia.
  destruct (Z.ltb_spec j (i + 1)); [|done]. cbn [andb]. destruct (Z.eqb_spec j i) as [->|]; [done|].
  apply (f_equal (fun z => Z.testbit z j)) in Hl. rewrite testbit_mod_pow2, Z.bits_0 in Hl by lia.
  by rewrite (proj2 (Z.ltb_lt j i)) in Hl by lia.
Qed.

Lemma ctz_from_ok n : forall i u, 0 <= i -> i + Z.of_nat n = 32 -> 0 < u < 2 ^ 32 -> u mod 2 ^ i = 0 ->
  ctz_from n i u = builtin_ctz u /\ i <= builtin_ctz u < 32 /\ Z.testbit u (builtin_ctz u) = true /\ u mod 2 ^ builtin_ctz u = 0.
Proof.
  induction n as [|n IH]; intros i u Hi Hn Hu Hl.
  { replace i with 32 in Hl by lia. rewrite Z.mod_small in Hl by lia. lia. }
  cbn [ctz_from]. rewrite ctrue_bit by lia. destruct (Z.testbit u i) eqn:E.
  - rewrite (builtin_ctz_first u i) by done. repeat split; [lia|lia|done|done].
  - destruct (IH (i + 1) u) as (H1 & H2 & H3); [lia|lia|done|by apply mod_next|]. split; [done|]. split; [lia|done].
Qed.

Lemma builtin_ctz_ok u : 0 < u < 2 ^ 32 ->
  0 <= builtin_ctz u < 32 /\ Z.testbit u (builtin_ctz u) = true /\ u mod 2 ^ builtin_ctz u = 0.
Proof. intros Hu. apply (ctz_from_ok 32 0 u); [lia|done|done|apply Z.mod_1_r]. Qed.

Lemma ctz_nonzero u : 0 < u < 2 ^ 32 -> ctz u = builtin_ctz u.
Proof. intros Hu. unfold ctz. by rewrite ctrue_nonzero by lia. Qed.

(** The counts of zero bits: the builtins of one compiler and the chains of tests
    for the others give the same counts on every 32-bit value, 32 on zero; on any
    other value the bit after the counted zeros is set and those before it are
    not. *)
Theorem zero_counts_agree u :
  0 <= u < 2 ^ 32 ->
  clz_c u = clz u /\ ctz_c u = ctz u /\
  (u = 0 -> clz u = 32 /\ ctz u = 32) /\
  (u <> 0 -> 0 <= clz u < 32 /\ Z.testbit u (31 - clz u) = true /\ u < 2 ^ (32 - clz u) /\
             0 <= ctz u < 32 /\ Z.testbit u (ctz u) = true /\ u mod 2 ^ ctz u = 0).
Proof.
  intros Hu. destruct (Z.eqb_spec u 0) as [->|H0]; [by repeat split|].
  assert (0 < u < 2 ^ 32) as Hp by lia. pose proof (builtin_ctz_ok u Hp) as Hz.
  assert (ctz u = builtin_ctz u) as Et by by apply ctz_nonzero.
  assert (clz u = 31 - Z.log2 u) as El by (unfold clz, builtin_clz; by rewrite ctrue_nonzero by lia).
  split; [rewrite clz_c_loop, (proj2 (Z.eqb_neq u 0)), El by done; by apply clz_from_ok|].
  split; [rewrite ctz_c_loop, Et; apply (ctz_from_ok 32 0 u); [lia|done|done|apply Z.mod_1_r]|].
  split; [done|]. intros _. rewrite Et, El. pose proof (Z.log2_spec u ltac:(lia)) as Hs.
  assert (Z.log2 u < 32) by (apply Z.log2_lt_pow2; lia). pose proof (Z.log2_nonneg u).
  split; [lia|]. replace (31 - (31 - Z.log2 u)) with (Z.log2 u) by lia. split; [apply Z.bit_log2; lia|].
  split; [|exact Hz]. replace (32 - (31 - Z.log2 u)) with (Z.succ (Z.log2 u)) by lia. lia.
Qed.

Lemma zero_counts_agree_witness : clz_c 0x00F0 = 24 /\ ctz_c 0x00F0 = 4 /\ 0x00F0 mod 2 ^ 4 = 0.
Proof.
  destruct (zero_counts_agree 0x00F0 ltac:(lia)) as (Hl & Ht & _ & Hn). destruct (Hn ltac:(lia)) as (_ & _ & _ & _ & _ & Hm).
  split; [rewrite Hl; reflexivity|]. split; [rewrite Ht; reflexivity|exact Hm].
Defined.

(** ** Bit fields *)

Lemma ctz_field w c : 0 < w -> 0 <= c -> c + w <= 32 -> ctz (Z.shiftl (Z.ones w) c) = c.
Proof.
  intros Hw Hc Hs. assert (0 < 2 ^ w) by (apply Z.pow_pos_nonneg; lia). assert (0 < 2 ^ c) by (apply Z.pow_pos_nonneg; lia).
  assert (2 <= 2 ^ w) by (change 2 with (2 ^ 1) at 1; apply Z.pow_le_mono_r; lia).
  unfold ctz. rewrite ctrue_nonzero by (rewrite Z.shiftl_mul_pow2, Z.ones_equiv by lia; nia).
  apply builtin_ctz_first; [lia| |rewrite Z.shiftl_mul_pow2 by lia; apply Z.mod_mul; lia].
  rewrite Z.shiftl_spec, Z.sub_diag by lia. apply Z.ones_spec_low. lia.
Qed.

(** Bit fields: what is written to a field of [w] bits at [c] is read back, cut to
    the field, and the other bits of the word stay. *)
Theorem bitfield_roundtrip v f w c :
  0 <= v < 2 ^ 32 -> 0 <= f < 2 ^ 32 -> 0 < w -> 0 <= c -> c + w <= 32 ->
  exists v', Wr_bitfield v (Z.shiftl (Z.ones w) c) f = Some v' /\
    Rd_bitfield v' (Z.shiftl (Z.ones w) c) = Some (f mod 2 ^ w) /\
    Clr_bits v' (Z.shiftl (Z.ones w) c) = Clr_bits v (Z.shiftl (Z.ones w) c).
Proof.
  intros Hv Hf Hw Hc Hs. unfold Wr_bitfield, Rd_bitfield. rewrite !ctz_field by done. rewrite (proj2 (Z.ltb_lt c 32)) by lia.
  eexists. split; [done|]. unfold Rd_bits, Wr_bits, Clr_bits. rewrite (u32_small f Hf). split.
  - f_equal. apply Z.bits_inj'. intros i Hi.
    rewrite Z.shiftr_spec, Z.land_spec, Z.lor_spec, Z.ldiff_spec, Z.land_spec, testbit_mod_pow2 by lia. unfold u32.
    rewrite testbit_mod_pow2, !Z.shiftl_spec, Z.testbit_ones_nonneg by lia. replace (i + c - c) with i by lia.
    destruct (Z.ltb_spec i w); [|by rewrite !andb_false_r]. rewrite (proj2 (Z.ltb_lt (i + c) 32)) by lia.
    by destruct (Z.testbit v (i + c)), (Z.testbit f i).
  - apply Z.bits_inj'. intros i Hi. rewrite !Z.ldiff_spec, Z.lor_spec, Z.ldiff_spec, Z.land_spec.
    by destruct (Z.testbit v i), (Z.testbit (Z.shiftl (Z.ones w) c) i), (Z.testbit (u32 (Z.shiftl f c)) i).
Qed.

Lemma bitfield_roundtrip_witness :
  exists v', Wr_bitfield 0xFFFFFFFF 0xFF0 0x35 = Some v' /\ Rd_bitfield v' 0xFF0 = Some 0x35.
Proof.
  destruct (bitfield_roundtrip 0xFFFFFFFF 0x35 8 4 ltac:(lia) ltac:(lia) ltac:(lia) ltac:(lia) ltac:(lia)) as (v' & H1 & H2 & _).
  exists v'. split; [exact H1|exact H2].
Defined.

(** ** Alignment *)

Lemma ldiff_pred val n k : 0 <= k -> n = 2 ^ k -> Z.ldiff val (n - 1) = n * (val / n).
Proof.
  intros Hk ->. rewrite Z.sub_1_r, <- Z.ones_equiv, Z.ldiff_ones_r, Z.shiftl_mul_pow2, Z.shiftr_div_pow2 by lia. lia.
Qed.

(** Alignment to a power of two: down gives the greatest multiple not above the
    value, up the least one not below it, unless there is no such 32-bit value;
    then it is 0. *)
Theorem alignment_ok val n k :
  0 <= val < 2 ^ 32 -> 0 <= k < 32 -> n = 2 ^ k ->
  Align_down val n = n * (val / n) /\ Test_align val n = (val mod n =? 0) /\ Get_align val n = val mod n /\
  (val + (n - 1) < 2 ^ 32 -> val <= Align_up val n < val + n /\ Align_up val n mod n = 0) /\
  (2 ^ 32 <= val + (n - 1) -> Align_up val n = 0).
Proof.
  intros Hv Hk Hn. assert (0 < n) by (rewrite Hn; apply Z.pow_pos_nonneg; lia).
  assert (n < 2 ^ 32) by (rewrite Hn; apply Z.pow_lt_mono_r; lia).
  assert (Get_align val n = val mod n) as Hg by (unfold Get_align, Rd_bits; rewrite Hn, Z.sub_1_r, <- Z.ones_equiv, Z.land_ones by lia; done).
  split; [apply (ldiff_pred val n k); [lia|done]|]. split; [|split; [exact Hg|]].
  { unfold Test_align, Tst_bits, ctrue. unfold Get_align in Hg. by rewrite Hg, negb_involutive. }
  unfold Align_up. rewrite (ldiff_pred _ n k) by (done || lia). split; intros Ho.
  - rewrite u32_small by lia. split; [|rewrite Z.mul_comm; apply Z.mod_mul; lia].
    pose proof (Z.mod_pos_bound (val + (n - 1)) n ltac:(lia)). pose proof (Z.div_mod (val + (n - 1)) n ltac:(lia)). lia.
  - replace (u32 (val + (n - 1))) with (val + (n - 1) - 2 ^ 32).
    + assert (exists q, 2 ^ 32 = q * n) as [q Hq] by (exists (2 ^ (32 - k)); rewrite Hn, <- Z.pow_add_r by lia; f_equal; lia).
      rewrite Z.div_small; [lia|]. lia.
    + unfold u32. rewrite <- (Z_mod_plus_full _ (-1)). rewrite Z.mod_small; lia.
Qed.

Lemma alignment_ok_witness : 13 <= Align_up 13 8 < 21 /\ Align_down 13 8 = 8 /\ Align_up 0xFFFFFFFD 8 = 0.
Proof.
  destruct (alignment_ok 13 8 3 ltac:(lia) ltac:(lia) eq_refl) as (Hd & _ & _ & Hu & _).
  destruct (alignment_ok 0xFFFFFFFD 8 3 ltac:(lia) ltac:(lia) eq_refl) as (_ & _ & _ & _ & Ho).
  split; [exact (proj1 (Hu ltac:(lia)))|]. split; [exact Hd|exact (Ho ltac:(lia))].
Defined.

(** ** Byte order *)

Lemma le_val_append a b : le_val (a ++ b) = le_val a + 2 ^ (8 * Z.of_nat (length a)) * le_val b.
Proof.
  induction a as [|x a IH]; cbn [app le_val length]; [by rewrite Z.mul_1_l|].
  rewrite IH, Nat2Z.inj_succ, Z.mul_succ_r, Z.pow_add_r by lia. lia.
Qed.

Lemma le_bytes_append n m x : le_bytes (n + m) x = le_bytes n x ++ le_bytes m (x / 2 ^ (8 * Z.of_nat n)).
Proof.
  revert x. induction n as [|n IH]; intros x; [by rewrite Z.mul_0_r, Z.div_1_r|].
  cbn [Nat.add le_bytes app]. rewrite IH, Z.div_div by lia. do 3 f_equal. rewrite <- Z.pow_add_r by lia. do 2 f_equal. lia.
Qed.

Lemma bswap_range n x : 0 <= bswap n x < 2 ^ (8 * Z.of_nat n).
Proof.
  unfold bswap. pose proof (le_val_range (rev (le_bytes n x))) as H. rewrite length_rev, length_le_bytes in H.
  apply H, Forall_rev, le_bytes_byte.
Qed.

Lemma bswap_twice n x : bswap n (bswap n x) = x mod 2 ^ (8 * Z.of_nat n).
Proof.
  unfold bswap. rewrite <- (length_le_bytes n x) at 1. rewrite <- length_rev. rewrite le_bytes_val by apply Forall_rev, le_bytes_byte.
  rewrite rev_involutive. apply le_val_bytes.
Qed.

Lemma bswap_mod n x : bswap n (x mod 2 ^ (8 * Z.of_nat n)) = bswap n x.
Proof. unfold bswap. by rewrite le_bytes_mod. Qed.

Lemma bswap_halves n x : bswap (n + n) x = bswap n (x / 2 ^ (8 * Z.of_nat n)) + 2 ^ (8 * Z.of_nat n) * bswap n x.
Proof. unfold bswap. rewrite le_bytes_append, rev_app_distr, le_val_append, length_rev, length_le_bytes. done. Qed.

Lemma bswap_1 x : bswap 1 x = x mod 2 ^ 8.
Proof. unfold bswap. cbn [le_bytes rev app le_val]. unfold u8. lia. Qed.

(** One step of the macros: the halves exchanged, each swapped. *)
Lemma swap_halves n a b : 0 <= a < 2 ^ n -> 0 <= b < 2 ^ n -> 0 <= n ->
  Z.lor a (Z.shiftl b n mod 2 ^ (n + n)) mod 2 ^ (n + n) = a + 2 ^ n * b.
Proof.
  intros Ha Hb Hn. assert (0 <= Z.shiftl b n < 2 ^ (n + n)) as Hs by (rewrite Z.shiftl_mul_pow2, Z.pow_add_r by lia; nia).
  rewrite (Z.mod_small (Z.shiftl b n)) by done. rewrite lor_shiftl_add by lia. rewrite Z.mod_small; [lia|]. rewrite Z.pow_add_r by lia. nia.
Qed.

Lemma Swap16_bytes x : Swap16 x = bswap 2 x.
Proof.
  rewrite (bswap_halves 1), !bswap_1. unfold Swap16. change (8 * Z.of_nat 1) with 8. rewrite Z.shiftr_div_pow2 by lia.
  assert (forall a b, Z.lor a b mod 2 ^ 16 = Z.lor (a mod 2 ^ 16) (b mod 2 ^ 16)) as Hd.
  { intros a b. rewrite <- !Z.land_ones by lia. by rewrite Z.land_lor_distr_l. }
  unfold u16. rewrite Hd, (Z.mod_small (_ / _)) by (Z.to_euclidean_division_equations; lia).
  rewrite Z.shiftl_mul_pow2 by lia. replace (x mod 2 ^ 16 * 2 ^ 8 mod 2 ^ 16) with (Z.shiftl (x mod 2 ^ 8) 8)
    by (rewrite Z.shiftl_mul_pow2 by lia; Z.to_euclidean_division_equations; lia).
  rewrite lor_shiftl_add by (Z.to_euclidean_division_equations; lia). Z.to_euclidean_division_equations; lia.
Qed.

Lemma Swap32_bytes x : Swap32 x = bswap 4 x.
Proof.
  rewrite (bswap_halves 2). unfold Swap32. rewrite !Swap16_bytes. unfold u32 at 1 3. rewrite (swap_halves 16); try apply (bswap_range 2); [|lia].
  rewrite Z.shiftr_div_pow2 by lia. change (8 * Z.of_nat 2) with 16. f_equal.
  - rewrite <- (bswap_mod 2 (u32 x / 2 ^ 16)), <- (bswap_mod 2 (x / 2 ^ 16)). f_equal. unfold u32. Z.to_euclidean_division_equations; lia.
  - f_equal. rewrite <- (bswap_mod 2 (u32 x)), <- (bswap_mod 2 x). f_equal. unfold u32. Z.to_euclidean_division_equations; lia.
Qed.

Lemma Swap64_bytes x : Swap64 x = bswap 8 x.
Proof.
  rewrite (bswap_halves 4). unfold Swap64. rewrite !Swap32_bytes. unfold u64 at 1 3. rewrite (swap_halves 32); try apply (bswap_range 4); [|lia].
  rewrite Z.shiftr_div_pow2 by lia. change (8 * Z.of_nat 4) with 32. f_equal.
  - rewrite <- (bswap_mod 4 (u64 x / 2 ^ 32)), <- (bswap_mod 4 (x / 2 ^ 32)). f_equal. unfold u64. Z.to_euclidean_division_equations; lia.
  - f_equal. rewrite <- (bswap_mod 4 (u64 x)), <- (bswap_mod 4 x). f_equal. unfold u64. Z.to_euclidean_division_equations; lia.
Qed.

(** Byte order: the macros in plain C reverse the bytes of a value like the
    compiler's builtins and the processor's instruction, and conversion to network
    order and back gives the value. *)
Theorem byte_order_ok x :
  Swap16 x = bswap 2 x /\ Swap32 x = swap32 x /\ Swap64 x = swap64 x /\ REV x = swap32 x /\
  (0 <= x < 2 ^ 16 -> be16_to_cpu (cpu_to_be16 x) = x) /\ (0 <= x < 2 ^ 32 -> be32_to_cpu (cpu_to_be32 x) = x) /\
  (0 <= x < 2 ^ 64 -> swap64 (swap64 x) = x).
Proof.
  assert (forall y, swap32 y = bswap 4 y) as H32 by (intros y; exact (bswap_mod 4 y)).
  assert (forall y, swap64 y = bswap 8 y) as H64 by (intros y; exact (bswap_mod 8 y)).
  unfold be16_to_cpu, cpu_to_be16, be32_to_cpu, cpu_to_be32, swap16. rewrite !H32, !H64, !Swap16_bytes, !bswap_twice.
  split; [done|]. split; [apply Swap32_bytes|]. split; [apply Swap64_bytes|]. split; [done|]. repeat split; apply Z.mod_small.
Qed.

(** ** Bit reversing *)

Lemma part_reversed n x i : 0 <= n <= 32 -> 0 <= i < n -> 0 <= x < 2 ^ n ->
  Z.testbit (Z.shiftr (RBIT x) (32 - n)) i = Z.testbit x (n - 1 - i).
Proof. intros Hn Hi Hx. rewrite Z.shiftr_spec, RBIT_bits by lia. f_equal. lia. Qed.

(** Bit reversing: bit [i] of the result is bit [n - 1 - i] of the operand, at each
    of the four widths. *)
Theorem bit_reverse_ok x i :
  (0 <= i < 8 -> Z.testbit (bit_reverse8 x) i = Z.testbit x (7 - i)) /\
  (0 <= i < 16 -> Z.testbit (bit_reverse16 x) i = Z.testbit x (15 - i)) /\
  (0 <= i < 32 -> Z.testbit (bit_reverse32 x) i = Z.testbit x (31 - i)) /\
  (0 <= i < 64 -> Z.testbit (bit_reverse64 x) i = Z.testbit x (63 - i)).
Proof.
  repeat split; intros Hi.
  - unfold bit_reverse8, bit_reverse32, u8. rewrite testbit_mod_pow2, (proj2 (Z.ltb_lt i 8)) by lia. cbn [andb].
    rewrite (part_reversed 8) by (try apply Z.mod_pos_bound; lia). rewrite testbit_mod_pow2, (proj2 (Z.ltb_lt _ 8)) by lia. done.
  - unfold bit_reverse16, bit_reverse32, u16. rewrite testbit_mod_pow2, (proj2 (Z.ltb_lt i 16)) by lia. cbn [andb].
    rewrite (part_reversed 16) by (try apply Z.mod_pos_bound; lia). rewrite testbit_mod_pow2, (proj2 (Z.ltb_lt _ 16)) by lia. done.
  - by apply RBIT_bits.
  - unfold bit_reverse64, bit_reverse32. unfold u64 at 1 3. rewrite testbit_mod_pow2, Z.lor_spec, testbit_mod_pow2, (proj2 (Z.ltb_lt i 64)) by lia.
    cbn [andb]. rewrite Z.shiftl_spec by lia. destruct (Z.ltb_spec i 32).
    + rewrite (Z.testbit_neg_r _ (i - 32)), orb_false_r, RBIT_bits by lia. unfold u32, u64.
      rewrite testbit_mod_pow2, (proj2 (Z.ltb_lt _ 32)), Z.shiftr_spec, testbit_mod_pow2, (proj2 (Z.ltb_lt _ 64)) by lia.
      cbn [andb]. f_equal. lia.
    + rewrite (testbit_high 32) by (try apply RBIT_range; lia). cbn [orb]. rewrite RBIT_bits by lia. unfold u32, u64.
      rewrite testbit_mod_pow2, (proj2 (Z.ltb_lt _ 32)), testbit_mod_pow2, (proj2 (Z.ltb_lt _ 64)) by lia. cbn [andb]. f_equal. lia.
Qed.

(** ** Integers and byte arrays *)

Lemma put8_at pre d post b : put8 (pre ++ d :: post) (length pre) b = Some (pre ++ b :: post).
Proof.
  unfold put8. rewrite (proj2 (Nat.ltb_lt _ _)) by (rewrite length_app; cbn [length]; lia). f_equal.
  rewrite <- (Nat.add_0_r (length pre)), insert_app_r. done.
Qed.

Lemma land_byte v : Z.land v 0xFF = u8 v.
Proof. change 0xFF with (Z.ones 8). by rewrite Z.land_ones by lia. Qed.

Lemma convert_loop_ok n : forall pre old post v, length old = n ->
  convert_loop n (length pre) v (pre ++ old ++ post) = Some (pre ++ le_bytes n v ++ post).
Proof.
  induction n as [|n IH]; intros pre old post v Hl; destruct old as [|o old]; try done.
  injection Hl as Hl. cbn [convert_loop app le_bytes]. rewrite put8_at. cbn [mbind option_bind].
  rewrite land_byte, Z.shiftr_div_pow2, (cons_middle (u8 v) pre), app_assoc by lia.
  replace (S (length pre)) with (length (pre ++ [u8 v])) by (rewrite length_app; cbn [length]; lia).
  rewrite IH by done. by rewrite <- app_assoc.
Qed.

Lemma fill_union_ok n : forall pre old post data, length old = n -> (n <= length data)%nat ->
  fill_union n (length pre) data (pre ++ old ++ post) = Some (pre ++ take n data ++ post).
Proof.
  induction n as [|n IH]; intros pre old post data Hl Hd; destruct old as [|o old]; try done.
  injection Hl as Hl. destruct data as [|d data]; cbn [length] in Hd; [lia|]. cbn [fill_union app take]. rewrite put8_at. cbn [mbind option_bind].
  rewrite (cons_middle d pre), app_assoc. replace (S (length pre)) with (length (pre ++ [d])) by (rewrite length_app; cbn [length]; lia).
  rewrite IH by (done || lia). by rewrite <- app_assoc.
Qed.

Lemma fill_whole n data junk : (n <= length junk)%nat -> (n <= length data)%nat ->
  (u8s ← fill_union n 0 data junk; Some (le_val (take n u8s))) = Some (le_val (take n data)).
Proof.
  intros Hj Hd. pose proof (fill_union_ok n [] (take n junk) (drop n junk) data ltac:(rewrite length_take; lia) Hd) as H.
  cbn [app length] in H. rewrite take_drop in H. rewrite H. cbn [mbind option_bind]. do 2 f_equal.
  rewrite take_app_le by (rewrite length_take; lia). by rewrite take_take, Nat.min_id.
Qed.

Lemma convert_16_ok v d0 d1 post : convert_16_bit_to_byte_array v (d0 :: d1 :: post) = Some (le_bytes 2 v ++ post).
Proof.
  unfold convert_16_bit_to_byte_array. pose proof (put8_at [] d0 (d1 :: post) (Z.land v 0xFF)) as H. cbn [app length] in H. rewrite H.
  cbn [mbind option_bind]. pose proof (put8_at [Z.land v 0xFF] d1 post (Z.land (Z.shiftr v 8) 0xFF)) as H1. cbn [app length] in H1. rewrite H1.
  rewrite !land_byte, Z.shiftr_div_pow2 by lia. done.
Qed.

(** Conversions to and from byte arrays: the integer stands in the array lowest
    byte first, what follows it stays, and reading it back gives the integer; the
    function for 32 bits reads four bytes. An array that is too short is written
    past its end. *)
Theorem conversions_roundtrip v data junk :
  (8 <= length data)%nat -> length junk = 8%nat -> 0 <= v < 2 ^ 64 ->
  (exists data', convert_64_bit_to_byte_array v data = Some data' /\ data' = le_bytes 8 v ++ drop 8 data /\
     convert_byte_array_to_64_bit junk data' = Some v /\ convert_byte_array_to_32_bit junk data' = Some (u32 v)) /\
  (exists data', convert_16_bit_to_byte_array (u16 v) data = Some data' /\ data' = le_bytes 2 v ++ drop 2 data /\
     convert_byte_array_to_16_bit data' = Some (u16 v)) /\
  (forall short, (length short < 8)%nat -> convert_64_bit_to_byte_array v short = None).
Proof.
  intros Hd Hj Hv. split; [|split].
  - exists (le_bytes 8 v ++ drop 8 data). split.
    { pose proof (convert_loop_ok 8 [] (take 8 data) (drop 8 data) v ltac:(rewrite length_take; lia)) as H. cbn [app length] in H.
      by rewrite take_drop in H. }
    assert (8 <= length (le_bytes 8 v ++ drop 8 data))%nat by (rewrite length_app, length_le_bytes; lia).
    split; [done|]. unfold convert_byte_array_to_64_bit, convert_byte_array_to_32_bit. rewrite !fill_whole by lia. split; f_equal.
    + rewrite take_app_length' by (by rewrite length_le_bytes). by apply le_val_bytes_small.
    + rewrite (le_bytes_append 4 4), <- app_assoc, take_app_length' by (by rewrite length_le_bytes). apply le_val_bytes.
  - destruct data as [|d0 [|d1 data]]; cbn [length] in Hd; [lia..|]. exists (le_bytes 2 v ++ drop 2 (d0 :: d1 :: data)).
    rewrite convert_16_ok. split; [do 2 f_equal; exact (le_bytes_mod 2 v)|]. split; [done|].
    unfold convert_byte_array_to_16_bit. cbn [le_bytes app lookup list_lookup mbind option_bind]. f_equal. unfold u16 at 1.
    rewrite lor_shiftl_add by (lia || apply u8_range). unfold u8, u16. clear. Z.to_euclidean_division_equations; lia.
  - intros short Hs. unfold convert_64_bit_to_byte_array.
    assert (forall n i u l, (length l < i + n)%nat -> (i <= length l)%nat -> convert_loop n i u l = None) as H; [|apply H; lia].
    induction n as [|n IH]; intros i u l H1 H2; [lia|]. cbn [convert_loop]. unfold put8.
    destruct (Nat.ltb_spec i (length l)); [|done]. cbn [mbind option_bind]. apply IH; rewrite length_insert; lia.
Qed.

Lemma conversions_roundtrip_witness :
  exists data', convert_64_bit_to_byte_array 0x1122334455667788 (replicate 9 0) = Some data' /\
    convert_byte_array_to_64_bit (replicate 8 1) data' = Some 0x1122334455667788.
Proof.
  destruct (conversions_roundtrip 0x1122334455667788 (replicate 9 0) (replicate 8 1)) as ((data' & H1 & _ & H2 & _) & _);
    [cbn; lia|done|lia|]. exists data'. split; [exact H1|exact H2].
Defined.

(** The parts of a word in memory are its bytes and halfwords. *)
Theorem parts_of_word x :
  0 <= x < 2 ^ 32 ->
  le_val [LSB0W x; LSB1W x; LSB2W x; LSB3W x] = x /\ LSH x + 2 ^ 16 * MSH x = x /\
  [MSB0 x; MSB1 x; MSB2 x; MSB3 x] = rev (le_bytes 4 x) /\ LSW x = x /\ MSW x = 0.
Proof.
  intros Hx. unfold LSB0W, LSB1W, LSB2W, LSB3W, MSB0, MSB1, MSB2, MSB3, MSB0W, MSB1W, MSB2W, MSB3W, LSH, MSH, LSW, MSW, unit_at.
  cbn [Nat.mul Nat.add le_bytes drop take rev app le_val]. unfold u8. repeat split; try (Z.to_euclidean_division_equations; lia).
  repeat f_equal; rewrite ?Z.mul_0_r, ?Z.add_0_r; done.
Qed.

Lemma parts_of_word_witness : LSH 0x12345678 + 2 ^ 16 * MSH 0x12345678 = 0x12345678.
Proof. destruct (parts_of_word 0x12345678 ltac:(lia)) as (_ & H & _). exact H. Defined.
